(* ===== verification/_CoqProject ===== *)
-Q . S2P
Prelude.v
Types.v
Lists.v
Bitmap.v
Str.v
Vga.v
Stdio.v
Irql.v
X86.v
Hal.v
Sched.v
Pool.v
Paging.v
Vmm.v
Boot.v
Clone.v
Ob.v
ObName.v
Io.v
Machine.v
Loader.v
Ps.v
Trap.v
Syscall.v
Ide.v
