(* ===== verification/Prelude.v ===== *)
(** * Kaush-OS: a model of the kernel and its theorems

    Kaush-OS is a small 32-bit x86 kernel in C (src/KaushOS).  This library
    models the parts that carry its own logic, function by function, and proves
    what makes them correct.  The file names below are those under
    src/KaushOS.

    ** How the code is modelled

    A routine is a computation in the state monad [M] below: it runs on a
    record with the variables it uses and returns, or stops the machine with
    [BugCheck] (a failed ASSERT or KeBugCheck; the kernel is built with DEBUG),
    [Fault] (a pointer to nothing the model knows), [Spin] (a spin lock that
    nobody can release) or [NoFuel] (the bound of a loop of the model).
    Machine integers are [Z] with their wrap-around written out ([u32], [s32],
    [u16]).  Logging is left out.  One processor runs the code: the
    interleavings that interrupts or other processors could add are not
    modelled, but spin locks really exchange their lock word and the interrupt
    request level really changes.  The interrupt controllers are part of the
    state of Hal and Trap; the other files use the levels of Irql, which Hal
    proves to be those of the code with the controllers.

    ** The files

    - Prelude (this file): the monad and its laws, the tactics [run_inv] and
      [zbool], fixed-width integers.
    - Types: constants, flags, rounding and interlocked operations of inc/ and
      kern/hal/x86.h that everything uses.
    - Lists: the two intrusive lists of inc/list.h on a heap of links.  They
      refine sequences; the later files use sequences where the code has lists.
    - Bitmap: lib/bitmap.c.  First fit, counting, well-formed creation.
    - Str: lib/string.c on a byte memory.  memmove under overlap, the padding
      of strncpy, strtol in every base.
    - Vga: kern/drivers/vga.c: the text display, which refines a terminal.
    - Stdio: lib/stdio.c and kern/lib/console.c: the formatter for any output
      routine (it ends, and what it prints does not depend on the routine),
      vsnprintf and its bound, the console on the display of Vga.
    - Irql: kern/ke/irql.c, locks.c, dpc.c and the accessors of processor.c:
      levels, spin locks, the queue of deferred procedure calls and its delivery
      when the level drops.  Exports the interface [SpinLock].
    - X86: the descriptors of kern/hal/x86.h and inc/segment.h, the processor
      control region and KiCreateCurrentGDT of kern/ke/processor.c.
    - Hal: kern/hal/pic.c and halx86.c, the two 8259 controllers and the table of
      their masks, and the routines of irql.c and dpc.c with the controllers.  They
      refine those of Irql; a line is open below the level of its device.
    - Sched: kern/ke/scheduler.c, wait.c, the tick of timer.c and PsExitThread of
      kern/ps/thread.c: ready queues, thread switches, dispatcher objects.  A
      switch is modelled by the place where the next thread goes on
      ([resume_point]), so that an operation runs until some thread is back in
      its own code.  No operation breaks the queues, Schedule goes round the
      threads of the highest priority, semaphores count and queue.
    - Pool: kern/mm/pool.c, the kernel heap, against [SpinLock] and
      [VirtualMemory].  Block lists tile the pool and never have two free
      neighbours; allocation is first fit; freeing undoes allocating.  Exports
      [PoolAllocator], implemented by [kernel_pools].
    - Paging: the page-frame database and the page tables of kern/mm/mm.c, on
      physical memory that the modelled processor walks through CR3, with the
      recursive mapping.  Mapping and unmapping change one translation and
      keep reference counts and the free list consistent ([mm_inv]).
    - Vmm: the rest of kern/mm/mm.c: virtual allocation, the temporary window,
      copy-on-write faults, system and user PTE pools, address spaces.
    - Boot: the part of kern/mm/mm.c that sets memory up, from the segments of kos.S,
      under which addresses are shifted, to flat segments with paging on.  It
      establishes the invariants that Paging and Vmm start from.
    - Clone: the theorems on MmCloneProcessAddressSpace: both address spaces map
      the same frames, copy-on-write, and every frame has its references.
    - Ob: kern/ob/ob.h, ob.c (types and references) and obhandle.c, against
      [ObWorld], which [kernel_world] implements by the pools and the spin locks
      of the files above: reference counts, removal with the last reference,
      handle tables and their inheritance.
    - ObName: kern/ob/obname.c, obdir.c, obsym.c, kern/lib/unicode.c and the
      creation part of ob.c: paths, directories, symbolic links, mounts.  The
      lookup refines a walk of the tree of directories; a created directory is
      found under its path and disturbs no other path.
    - Io: kern/io (devices, drivers, files, request packets) and the file system
      driver of kern/fs/kosfs.c, against [ObWorld] and the class [FatFs] of the
      calls of FatFs.  A read through a handle goes down to the driver and back
      and leaves nothing behind; what happens to the status of a failed open and
      of a failed write.
    - Machine: the states above put together with [lens] (below): the pools
      around the virtual memory around the scheduler around the processor, which
      implements [ObWorld].
    - Loader: kern/ps/loader.c, the ELF loader, on the bytes of the binary and of
      the address space that is being filled.  It maps and fills the segments
      and disturbs nothing else, but leaves what is not in the file uncleared.
    - Ps: kern/ps (process.c, thread.c) and KiCreateThreadContext of
      kern/ke/scheduler.c on the whole kernel: the object manager around the I/O
      manager around the processes around [Machine.machine].  A fork makes a
      thread that is ready and returns 0 in the child, and keeps the tree of
      processes and threads well formed; the ends of processes and threads that
      do not return.

    - Trap: kern/ke/interrupt.c, exception.c and timer.c: the gates, the interrupt
      objects and the dispatch of a vector to its routine, on any kernel state that
      contains a processor with controllers.
    - Syscall: kern/ex/syscall.c on the kernel of Ps: the calls and their results.
    - Ide: the disk driver kern/drivers/ide.c on the scheduler of Sched and on disks
      behind ports.  Against the protocol of the disks (class [AtaChannels]) reads
      return what is on the disk and what was written; a simulated pair of
      channels implements the class.  FatFs, which would connect this driver to
      Io, is not modelled.

    ** The theorems

    The numbered theorems (C1, C2, ...) are the properties of the development,
    most important first; each has a witness next to it, a run on concrete
    data.  They are invariants (tiling of the pools, page tables against
    reference counts, queues without duplicates, the tree of names), functional
    statements on every branch (errors included), refinements (lists against
    sequences, allocation against first fit, lookup against the walk), round
    trips (allocate and free, map and unmap, acquire and release, create and
    drop, insert and remove a handle) and the behaviours at the edges where the
    code does not do what it means to (the theorems that the findings name).

    ** Bounds and fuel

    Loops over a known number of pages, entries or bytes recurse on that
    number.  Fuel appears in [KeLowerIrql] with [dpc_loop], which call each
    other (two more than the queued calls are enough when the routines queue no
    more), in the string functions (one more than the length), in
    [__vprintf] (one step for each character of the format and 30 for a message
    on an unknown conversion, [vprintf_terminates]) and in
    [lookup_loop], which is called with one more than the length of the name,
    always enough since each round consumes a character.

    ** Parameters

    Code that is not in C, or that a component only calls, is an argument: the
    deferred routines ([run_dpc]), the routines of the interrupts ([isr]), the
    entry points of int.S ([trap_function]), the disks and their ports ([Ports]), the page-fault handler and the system
    calls in Trap, the end of the kernel image and the address of the processor
    block in Boot ([kend], [KiProcessorBlock]), the calls of FatFs (class
    [FatFs]), the registers and stack contents that C leaves undefined
    ([garbage]).  Theorems state what they need of them as hypotheses, and each
    witness gives concrete ones.

    ** What is not modelled

    The assembly files (int.S, ctxswitch.S, kos.S, boot.S): their effect on the
    stack of a thread is described where Sched and Ps use it.  FatFs (third-party
    code in kern/fs).  The boot loader boot/loadk.c, and kern/KOSstart.c and
    kern/ke/ke.c, which call the initialisation routines one after the other and
    test them.  The user programs and the user side of the system calls.  What
    the kernel prints of a trap frame, and the self tests of mm.c.  The
    translation look-aside buffer.  In the scheduler KeDelayExecutionThread; its
    theorems are about threads that have been started and have not terminated.
    In kern/ps the built-in test threads.  The SLIST of inc/list.h, which nothing
    uses.  The deletion of an address space and the creation of a process are
    modelled in Vmm and Ps without a theorem about the whole operation. *)

From Stdlib Require Export ZArith Lia.
From stdpp Require Export base numbers option tactics gmap list.

Declare Scope kos_scope.
Delimit Scope kos_scope with kos.
Global Open Scope Z_scope.

(** ** Outcomes and the state monad

    A kernel routine runs on a state and either returns, or stops the machine:
    [BugCheck] is [KeBugCheck] or a failed [ASSERT], [Fault] a dereference of
    a pointer that points to no object of the model, [Spin] a busy wait that no
    other step can end (a spin lock already held on the only processor), and
    [NoFuel] marks a run cut off by the bound of a loop of the model; theorems
    exclude it by giving enough fuel. *)

Inductive stop := BugCheck | Fault | Spin | NoFuel.

#[export] Instance stop_eq_dec : EqDecision stop.
Proof. solve_decision. Defined.

Inductive outcome (A : Type) :=
| Ok (a : A)
| Stop (e : stop).
Arguments Ok {A} a.
Arguments Stop {A} e.

Definition M (S A : Type) : Type := S → outcome (A * S).

Section monad.
Context {S : Type}.

Definition ret {A} (a : A) : M S A := λ s, Ok (a, s).

Definition bind {A B} (m : M S A) (f : A → M S B) : M S B := λ s,
  match m s with
  | Ok (a, s') => f a s'
  | Stop e => Stop e
  end.

Definition halt {A} (e : stop) : M S A := λ _, Stop e.

(** [ASSERT(x)] of inc/assert.h with DEBUG on. *)
Definition assert_ (b : bool) : M S unit := if b then ret tt else halt BugCheck.

Definition gets {A} (f : S → A) : M S A := λ s, Ok (f s, s).

Definition modify (f : S → S) : M S unit := λ s, Ok (tt, f s).

(** A pointer dereference: a fault when it reads nothing. *)
Definition deref {A} (f : S → option A) : M S A := λ s,
  match f s with
  | Some a => Ok (a, s)
  | None => Stop Fault
  end.

(** A computation that does not use the state. *)
Definition lift {A} (o : outcome A) : M S A := λ s,
  match o with Ok a => Ok (a, s) | Stop e => Stop e end.

Definition when (b : bool) (m : M S unit) : M S unit := if b then m else ret tt.
End monad.

Notation "'let!' x := m 'in' k" := (bind m (λ x, k))
  (at level 10, x pattern, m at level 100, k at level 200) : kos_scope.
Notation "m >>> k" := (bind m (λ _, k))
  (at level 100, k at level 200, right associativity) : kos_scope.
Global Open Scope kos_scope.

(** Running a routine of a component inside a bigger state. *)
Definition zoom {S T A} (get : T → S) (put : S → T → T) (m : M S A) : M T A := λ t,
  match m (get t) with
  | Ok (a, s) => Ok (a, put s t)
  | Stop e => Stop e
  end.

(** A part of a state, with its place in it. *)
Record lens (T S : Type) := Lens {
  view : T → S;
  update : S → T → T;
  view_update s t : view (update s t) = s;
  update_view t : update (view t) t = t;
  update_update s s' t : update s (update s' t) = update s t }.
Arguments Lens {T S}.
Arguments view {T S}.
Arguments update {T S}.
Arguments view_update {T S}.
Arguments update_view {T S}.
Arguments update_update {T S}.

Definition inside {T S A} (l : lens T S) (m : M S A) : M T A := zoom (view l) (update l) m.

#[program] Definition lens_compose {T S R} (l : lens T S) (k : lens S R) : lens T R :=
  Lens (λ t, view k (view l t)) (λ r t, update l (update k r (view l t)) t) _ _ _.
Next Obligation. intros. cbn. by rewrite !view_update. Qed.
Next Obligation. intros. cbn. by rewrite !update_view. Qed.
Next Obligation. intros. cbn. by rewrite view_update, !update_update. Qed.

Lemma inside_run {T S A} (l : lens T S) (m : M S A) t a s :
  m (view l t) = Ok (a, s) → inside l m t = Ok (a, update l s t).
Proof. unfold inside, zoom. by intros ->. Qed.

Section monad_laws.
Context {S A B C : Type}.

Lemma bind_ret (a : A) (f : A → M S B) s : bind (ret a) f s = f a s.
Proof. reflexivity. Qed.

Lemma bind_assoc (m : M S A) (f : A → M S B) (g : B → M S C) s :
  bind (bind m f) g s = bind m (λ a, bind (f a) g) s.
Proof. unfold bind. destruct (m s) as [[a s']|]; reflexivity. Qed.

Lemma bind_Ok (m : M S A) (f : A → M S B) s a s' :
  m s = Ok (a, s') → bind m f s = f a s'.
Proof. intros H. unfold bind. by rewrite H. Qed.

Lemma seq_Ok (m k : M S unit) (r : M S B) s s' :
  (m >>> k) s = Ok (tt, s') → (m >>> k >>> r) s = r s'.
Proof. unfold bind. destruct (m s) as [[[] s1]|]; [|done]. by intros ->. Qed.

Lemma seq_bind_Ok (m : M S unit) (g : M S A) (h : A → M S unit) (r : M S B) s s' :
  (m >>> let! x := g in h x) s = Ok (tt, s') → (m >>> let! x := g in h x >>> r) s = r s'.
Proof.
  unfold bind. destruct (m s) as [[[] s1]|]; [|done]. destruct (g s1) as [[x s2]|]; [|done].
  destruct (h x s2) as [[[] s3]|]; [|done]. by intros [= ->].
Qed.

Lemma bind_Ok_inv (m : M S A) (f : A → M S B) s b s'' :
  bind m f s = Ok (b, s'') → ∃ a s', m s = Ok (a, s') ∧ f a s' = Ok (b, s'').
Proof. unfold bind. destruct (m s) as [[a s']|]; [eauto|done]. Qed.

Lemma assert_true (b : bool) (k : unit → M S B) s :
  b = true → bind (assert_ b) k s = k tt s.
Proof. intros ->. reflexivity. Qed.

Lemma deref_run (f : S → option A) (k : A → M S B) s a :
  f s = Some a → bind (deref f) k s = k a s.
Proof. intros H. unfold bind, deref. by rewrite H. Qed.

Lemma gets_run (f : S → A) (k : A → M S B) s : bind (gets f) k s = k (f s) s.
Proof. reflexivity. Qed.

Lemma modify_run (f : S → S) (k : unit → M S B) s : bind (modify f) k s = k tt (f s).
Proof. reflexivity. Qed.

Lemma assert_false (b : bool) (k : unit → M S B) s :
  b = false → bind (assert_ b) k s = Stop BugCheck.
Proof. intros ->. reflexivity. Qed.
End monad_laws.

(** ** Tactics *)

(** Break a successful run of a sequence into the runs of its parts. *)
Ltac run_inv :=
  repeat match goal with
  | H : bind _ _ _ = Ok _ |- _ =>
      let a := fresh "a" in let s := fresh "s" in let E := fresh "E" in
      apply bind_Ok_inv in H; destruct H as (a & s & E & H)
  | H : Ok _ = Ok _ |- _ => injection H as H; subst
  | H : ret _ _ = Ok _ |- _ => unfold ret in H
  | H : gets _ _ = Ok _ |- _ => unfold gets in H
  | H : modify _ _ = Ok _ |- _ => unfold modify in H
  | H : (_, _) = (_, _) |- _ => injection H as H; subst
  | H : Stop _ = Ok _ |- _ => discriminate H
  | H : halt _ _ = Ok _ |- _ => discriminate H
  end.

(** Decide the boolean comparisons of the code. *)
Ltac zbool :=
  repeat match goal with
  | H : andb _ _ = true |- _ => apply andb_prop in H; destruct H
  | H : (_ <? _) = true |- _ => apply Z.ltb_lt in H
  | H : (_ <? _) = false |- _ => apply Z.ltb_ge in H
  | H : (_ <=? _) = true |- _ => apply Z.leb_le in H
  | H : (_ <=? _) = false |- _ => apply Z.leb_gt in H
  | H : (_ =? _) = true |- _ => apply Z.eqb_eq in H
  | H : (_ =? _) = false |- _ => apply Z.eqb_neq in H
  | H : negb _ = true |- _ => apply negb_true_iff in H
  | H : negb _ = false |- _ => apply negb_false_iff in H
  end.

(** ** Fixed-width integers: values are [Z], the wrap-around is written out *)

Definition u32 (x : Z) : Z := x mod 2 ^ 32.
Definition s32 (x : Z) : Z := (x + 2 ^ 31) mod 2 ^ 32 - 2 ^ 31.
Definition u16 (x : Z) : Z := x mod 2 ^ 16.
Definition u8 (x : Z) : Z := x mod 2 ^ 8.
Definition s8 (x : Z) : Z := (x + 2 ^ 7) mod 2 ^ 8 - 2 ^ 7.

Abbreviation is_u32 x := (0 <= x < 2 ^ 32).

Create HintDb kos discriminated.
Create Rewrite HintDb kos.

Lemma u32_range x : is_u32 (u32 x).
Proof. unfold u32. apply Z.mod_pos_bound. lia. Qed.

Lemma u32_small x : is_u32 x → u32 x = x.
Proof. unfold u32. intros. by apply Z.mod_small. Qed.

Lemma u32_u32 x : u32 (u32 x) = u32 x.
Proof. apply u32_small, u32_range. Qed.

Lemma s32_small x : - 2 ^ 31 <= x < 2 ^ 31 → s32 x = x.
Proof. unfold s32. intros. rewrite Z.mod_small; lia. Qed.

Lemma s32_range x : - 2 ^ 31 <= s32 x < 2 ^ 31.
Proof. unfold s32. pose proof (Z.mod_pos_bound (x + 2 ^ 31) (2 ^ 32)). lia. Qed.

Lemma u32_add_u32_l x y : u32 (u32 x + y) = u32 (x + y).
Proof. unfold u32. rewrite Zplus_mod_idemp_l. reflexivity. Qed.

Lemma u32_sub_u32_l x y : u32 (u32 x - y) = u32 (x - y).
Proof. unfold u32. rewrite Zminus_mod_idemp_l. reflexivity. Qed.

(** A 32-bit value is one without a bit above 31. *)
Lemma u32_land x : u32 x = Z.land x (Z.ones 32).
Proof. unfold u32. by rewrite Z.land_ones by lia. Qed.

Lemma u32_testbit x j : 0 <= j → Z.testbit (u32 x) j = Z.testbit x j && (j <? 32).
Proof. intros Hj. rewrite u32_land, Z.land_spec, Z.testbit_ones_nonneg; [done|lia..]. Qed.

Lemma u32_of_bits x : (∀ j, 0 <= j → 32 <= j → Z.testbit x j = false) → u32 x = x.
Proof.
  intros H. apply Z.bits_inj_iff'. intros j Hj. rewrite u32_testbit by done.
  destruct (Z.ltb_spec j 32); [by rewrite andb_true_r|].
  rewrite andb_false_r. symmetry. by apply H.
Qed.

Lemma u32_high_bits x j : is_u32 x → 32 <= j → Z.testbit x j = false.
Proof.
  intros Hx Hj. rewrite <- (u32_small x Hx), u32_testbit by lia.
  destruct (Z.ltb_spec j 32); [lia|by rewrite andb_false_r].
Qed.

Lemma is_u32_fix x : u32 x = x → is_u32 x.
Proof. intros <-. apply u32_range. Qed.

#[export] Hint Resolve u32_range s32_range : kos.
#[export] Hint Rewrite u32_u32 u32_add_u32_l u32_sub_u32_l : kos.

(** ** Pointers: a virtual address, [NULL] is 0 *)

Abbreviation addr := Z (only parsing).
Abbreviation NULL := 0 (only parsing).
