(* ===== verification/Types.v ===== *)
(** * Types: the constants and macros every component uses
    (inc/types.h, inc/error.h, inc/interlocked.h, kern/hal/x86.h) *)

From S2P Require Import Prelude.

(** ** KSTATUS (inc/error.h): a signed LONG, success when not negative *)

Definition KSTATUS : Type := Z.
Definition STATUS_SUCCESS : KSTATUS := 0.
Definition STATUS_OBJECT_NAME_EXISTS : KSTATUS := s32 0x40000000.
Definition STATUS_INVALID_PARAMETER : KSTATUS := s32 0xC000000D.
Definition STATUS_NO_MEMORY : KSTATUS := s32 0xC0000017.
Definition STATUS_OBJECT_NAME_NOT_FOUND : KSTATUS := s32 0xC0000034.
Definition STATUS_OBJECT_NAME_COLLISION : KSTATUS := s32 0xC0000035.
Definition STATUS_OBJECT_PATH_NOT_FOUND : KSTATUS := s32 0xC000003A.
Definition STATUS_INSUFFICIENT_RESOURCES : KSTATUS := s32 0xC000009A.
Definition STATUS_TOO_MANY_OPENED_FILES : KSTATUS := s32 0xC000011F.
Definition STATUS_INVALID_FILE_FOR_SECTION : KSTATUS := s32 0xC0000020.
Definition STATUS_INVALID_DEVICE_OBJECT_PARAMETER : KSTATUS := s32 0xC0000369.

Definition K_SUCCESS (Status : KSTATUS) : bool := STATUS_SUCCESS <=? Status.

(** ** Bit flags and rounding (inc/types.h) *)

Definition TEST_FLAG (Flags Bit : Z) : bool := negb (Z.land Flags Bit =? 0).
Definition SET_FLAG (Flags Bit : Z) : Z := Z.lor Flags Bit.
Definition CLEAR_FLAG (Flags Bit : Z) : Z := Z.ldiff Flags Bit.

Definition ROUNDDOWN (a n : Z) : Z := u32 a - u32 a mod n.
Definition ROUNDUP (a n : Z) : Z := ROUNDDOWN (u32 (u32 a + u32 n - 1)) (u32 n).

(** ** Paging constants (kern/hal/x86.h) *)

Definition PGSIZE : Z := 4096.
Definition NPTENTRIES : Z := 1024.
Definition PTSIZE : Z := PGSIZE * NPTENTRIES.
Definition PGSHIFT : Z := 12.
Definition PTXSHIFT : Z := 12.
Definition PDXSHIFT : Z := 22.

Definition PPN (la : Z) : Z := Z.shiftr la PTXSHIFT.
Definition PDX (la : Z) : Z := Z.land (Z.shiftr la PDXSHIFT) 0x3FF.
Definition PTX (la : Z) : Z := Z.land (Z.shiftr la PTXSHIFT) 0x3FF.
Definition PGOFF (la : Z) : Z := Z.land la 0xFFF.

Definition PTE_P : Z := 0x001.
Definition PTE_W : Z := 0x002.
Definition PTE_U : Z := 0x004.
Definition PTE_FLAGS_MASK : Z := 0x3FF.

(** ** Address space layout (kern/hal/x86.h) *)

Definition KERNSPACE_START : Z := 0x80000000.
Definition KERNSPACE_END : Z := 0xfffff000.
Definition KERNBASE : Z := KERNSPACE_START.
Definition KERNSIZE : Z := PTSIZE * 2.
Definition MMPAGEPOOL_START : Z := KERNBASE + KERNSIZE.
Definition MMPAGEPOOL_SIZE : Z := PTSIZE * 10.
Definition MMPAGEPOOL_END : Z := MMPAGEPOOL_START + MMPAGEPOOL_SIZE.
Definition MMNONPAGEPOOL_START : Z := MMPAGEPOOL_END.
Definition MMNONPAGEPOOL_SIZE : Z := PTSIZE * 10.
Definition MMNONPAGEPOOL_END : Z := MMNONPAGEPOOL_START + MMNONPAGEPOOL_SIZE.
Definition MMSYSPTE_START : Z := MMNONPAGEPOOL_END.
Definition MMSYSPTE_SIZE : Z := PTSIZE * 64.
Definition MMSYSPTE_END : Z := MMSYSPTE_START + MMSYSPTE_SIZE.
Definition MMPAGETABLEAREA_START : Z := 0xC0000000.
Definition MM_PDE_ADDRESS : Z := 0xC0300000.
Definition KPOOL_PERM : Z := Z.lor PTE_W PTE_P.
Definition IOPHYSMEM : Z := 0x0A0000.
Definition EXTPHYSMEM : Z := 0x100000.
Definition MAXPHYMEM : Z := 0x10000000.
Definition USERTOP : Z := KERNBASE - PTSIZE.
Definition USERPTEPOOL_SIZE : Z := 0x8000000.
Definition USERPTEPOOL_START : Z := USERTOP - USERPTEPOOL_SIZE.
Definition USERPTEPOOL_END : Z := USERTOP.
Definition USERTEMP : Z := PTSIZE.
Definition USERTEMPSIZE : Z := PTSIZE.
Definition USERTEMPEND : Z := USERTEMP + USERTEMPSIZE.

Definition IsKernelAddress (x : Z) : bool := KERNBASE <? x.
Definition IsUserAddress (x : Z) : bool := x <? USERTOP.

(** ** Interlocked operations on a LONG (inc/interlocked.h): the old value and
    the new contents of the cell.  Each is one atomic step of the machine. *)

Definition InterlockedExchangeAdd (Addend Value : Z) : Z * Z :=
  (Addend, s32 (Addend + Value)).
Definition InterlockedIncrement (Addend : Z) : Z * Z :=
  let '(old, new) := InterlockedExchangeAdd Addend 1 in (s32 (old + 1), new).
Definition InterlockedDecrement (Addend : Z) : Z * Z :=
  let '(old, new) := InterlockedExchangeAdd Addend (-1) in (s32 (old - 1), new).
Definition InterlockedExchange (Target Value : Z) : Z * Z := (Target, Value).
Definition InterlockedCompareExchange (Destination Exchange Comperand : Z) : Z * Z :=
  (Destination, if Destination =? Comperand then Exchange else Destination).

(** ** Lemmas *)

Lemma K_SUCCESS_iff st : K_SUCCESS st = true ↔ 0 <= st.
Proof. unfold K_SUCCESS, STATUS_SUCCESS. apply Z.leb_le. Qed.

Lemma rounddown_spec a n :
  is_u32 a → 0 < n → ROUNDDOWN a n <= a < ROUNDDOWN a n + n ∧ (n | ROUNDDOWN a n).
Proof.
  intros Ha Hn. unfold ROUNDDOWN. rewrite (u32_small a) by done.
  pose proof (Z.mod_pos_bound a n Hn). split; [lia|].
  exists (a / n). pose proof (Z.div_mod a n). lia.
Qed.

Lemma roundup_spec a n :
  is_u32 a → 0 < n < 2 ^ 32 → a + n - 1 < 2 ^ 32 →
  a <= ROUNDUP a n < a + n ∧ (n | ROUNDUP a n).
Proof.
  intros Ha Hn Hov. unfold ROUNDUP.
  rewrite (u32_small a), (u32_small n), (u32_small (a + n - 1)) by lia.
  destruct (rounddown_spec (a + n - 1) n) as [H1 H2]; [lia|lia|].
  split; [lia|done].
Qed.

Lemma interlocked_increment_dec v : s32 v = v →
  snd (InterlockedDecrement (snd (InterlockedIncrement v))) = v.
Proof.
  intros Hv. unfold InterlockedDecrement, InterlockedIncrement, InterlockedExchangeAdd; simpl.
  rewrite <- Hv at 2. unfold s32. f_equal.
  replace ((v + 1 + 2 ^ 31) mod 2 ^ 32 - 2 ^ 31 + -1 + 2 ^ 31)
    with ((v + 1 + 2 ^ 31) mod 2 ^ 32 - 1) by lia.
  rewrite Zminus_mod_idemp_l. f_equal. lia.
Qed.
