(* ===== verification/Lists.v ===== *)
(** * Lists: the intrusive linked lists of inc/list.h

    [KList] is the circular list of [KLIST_ENTRY]/[LIST_HEAD] (a head that
    points to the first element and counts the elements), [SList] the
    lock-free stack of [SINGLE_LIST_ENTRY], [DList] the second form
    ([LIST_ENTRY], a ring through a sentinel).  The link fields live in a heap
    of cells, one per element; the sequence the pointers represent is stated
    by [ring], and each operation is shown to implement the operation of the
    same name on Rocq lists, which is what the other components use. *)

From S2P Require Import Prelude Types.

(** ** The heap of link fields *)

Record link := Link { le_next : addr; le_prev : addr }.

(** [dll h p l n]: the cells of [l] are chained from predecessor [p] to
    successor [n]. *)
Definition hdz (n : Z) (l : list Z) : Z := match l with [] => n | x :: _ => x end.

Fixpoint lastz (p : Z) (l : list Z) : Z :=
  match l with [] => p | x :: l' => lastz x l' end.

Fixpoint dll (h : gmap Z link) (p : Z) (l : list Z) (n : Z) : Prop :=
  match l with
  | [] => True
  | x :: l' => h !! x = Some (Link (hdz n l') p) ∧ dll h x l' n
  end.

(** A closed ring visiting [l] once, starting anywhere. *)
Definition ring (h : gmap Z link) (l : list Z) : Prop :=
  NoDup l ∧ dll h (lastz 0 l) l (hdz 0 l).

Lemma hdz_app n l1 l2 : hdz n (l1 ++ l2) = hdz (hdz n l2) l1.
Proof. by destruct l1. Qed.

Lemma lastz_app p l1 l2 : lastz p (l1 ++ l2) = lastz (lastz p l1) l2.
Proof. revert p. induction l1; simpl; auto. Qed.

Lemma lastz_snoc p l x : lastz p (l ++ [x]) = x.
Proof. by rewrite lastz_app. Qed.

Lemma lastz_elem p l : l ≠ [] → lastz p l ∈ l.
Proof.
  revert p. induction l as [|x l IH]; intros p Hl; [done|]. simpl.
  destruct l as [|y l]; [simpl; set_solver|].
  apply elem_of_cons. right. by apply IH.
Qed.

Lemma dll_app h p l1 l2 n :
  dll h p (l1 ++ l2) n ↔ dll h p l1 (hdz n l2) ∧ dll h (lastz p l1) l2 n.
Proof.
  revert p. induction l1 as [|x l1 IH]; intros p; simpl; [tauto|].
  rewrite IH, hdz_app. tauto.
Qed.

Lemma dll_frame h h' p l n :
  (∀ a, a ∈ l → h' !! a = h !! a) → dll h p l n → dll h' p l n.
Proof.
  revert p. induction l as [|x l IH]; intros p Hf; simpl; [done|].
  intros [H1 H2]. split.
  - rewrite Hf; [done|set_solver].
  - apply IH; [|done]. intros a Ha. apply Hf. set_solver.
Qed.

Lemma ring_rotate h l1 l2 : ring h (l1 ++ l2) → ring h (l2 ++ l1).
Proof.
  intros [Hnd Hd]. split.
  - by rewrite Permutation_app_comm.
  - apply dll_app in Hd as [H1 H2]. apply dll_app.
    rewrite !lastz_app, !hdz_app in *.
    destruct l1 as [|x l1], l2 as [|y l2]; simpl in *; auto.
Qed.

(** The cell of the first element of a ring, and the frame of a write. *)
Lemma ring_cell h a l : ring h (a :: l) → h !! a = Some (Link (hdz a l) (lastz a l)).
Proof. intros [_ [H _]]. done. Qed.

Lemma ring_frame h h' l :
  (∀ a, a ∈ l → h' !! a = h !! a) → ring h l → ring h' l.
Proof. intros Hf [H1 H2]. split; [done|]. by eapply dll_frame. Qed.

(** ** Writes to the fields of a cell *)

Definition set_next (a v : addr) : M (gmap Z link) unit := λ h,
  match h !! a with
  | Some k => Ok (tt, <[a := Link v (le_prev k)]> h)
  | None => Stop Fault
  end.

Definition set_prev (a v : addr) : M (gmap Z link) unit := λ h,
  match h !! a with
  | Some k => Ok (tt, <[a := Link (le_next k) v]> h)
  | None => Stop Fault
  end.

Definition get_next (a : addr) : M (gmap Z link) addr :=
  deref (λ h, le_next <$> h !! a).

Definition get_prev (a : addr) : M (gmap Z link) addr :=
  deref (λ h, le_prev <$> h !! a).

(** ** The pointer surgery shared by all the forms *)

(** Link [elm] in after [listelm]. *)
Definition link_insert_after (listelm elm : addr) : M (gmap Z link) unit :=
  let! n := get_next listelm in
  set_next elm n >>>
  set_next listelm elm >>>
  set_prev elm listelm >>>
  let! n' := get_next elm in
  set_prev n' elm.

(** Unlink [elm]: its own fields keep their values. *)
Definition link_remove (elm : addr) : M (gmap Z link) unit :=
  let! p := get_prev elm in
  let! n := get_next elm in
  set_next p n >>>
  let! n' := get_next elm in
  let! p' := get_prev elm in
  set_prev n' p'.

(** Run heap reads and writes, with the cells known from the context. *)
Ltac heap_step :=
  repeat first
    [ rewrite lookup_insert_eq
    | rewrite lookup_insert_ne by congruence
    | match goal with
      | H : ?h !! ?a = Some _ |- context [?h !! ?a] => rewrite H
      end
    | progress simpl ].

Ltac heap_run :=
  unfold bind, get_next, get_prev, set_next, set_prev, deref; heap_step.

(** A read at an address outside the written ones. *)
Ltac heap_frame :=
  let x := fresh "x" in let Hx := fresh "Hx" in
  intros x Hx; rewrite !lookup_insert_ne by set_solver; done.

Lemma ring_nil h : ring h [].
Proof. split; [constructor|done]. Qed.

Lemma link_insert_after_ring h a l e :
  ring h (a :: l) → e ∉ a :: l → is_Some (h !! e) →
  ∃ h', link_insert_after a e h = Ok (tt, h') ∧ ring h' (a :: e :: l) ∧
        ∀ x, x ∉ a :: e :: l → h' !! x = h !! x.
Proof.
  intros Hr He [[en ep] Hc]. pose proof (ring_cell _ _ _ Hr) as Ha.
  destruct Hr as [Hnd [_ Hd]].
  apply NoDup_cons in Hnd as [Hal Hnd].
  apply not_elem_of_cons in He as [Hea Hel].
  unfold link_insert_after. destruct l as [|b l]; simpl in *.
  - heap_run. eexists. split; [done|]. split; [|heap_frame].
    split; [repeat constructor; set_solver|]. by heap_step.
  - destruct Hd as [Hb Hd].
    assert (b ≠ a ∧ b ≠ e) as [Hba Hbe] by set_solver.
    apply NoDup_cons in Hnd as [Hbl Hnd].
    heap_run. eexists. split; [done|]. split; [|heap_frame].
    split; [rewrite !NoDup_cons; set_solver|].
    simpl. heap_step. split_and!; [done..|].
    eapply dll_frame; [|exact Hd]. heap_frame.
Qed.

Lemma link_remove_ring h e l :
  ring h (e :: l) →
  ∃ h', link_remove e h = Ok (tt, h') ∧ ring h' l ∧
        (l ≠ [] → h' !! e = h !! e) ∧ is_Some (h' !! e) ∧
        ∀ x, x ∉ e :: l → h' !! x = h !! x.
Proof.
  intros Hr. pose proof (ring_cell _ _ _ Hr) as He.
  destruct Hr as [Hnd [_ Hd]]. apply NoDup_cons in Hnd as [Hel Hnd].
  unfold link_remove. destruct l as [|b l]; simpl in *.
  { heap_run. eexists. split; [done|]. split; [apply ring_nil|].
    split; [done|]. split; [by heap_step|heap_frame]. }
  destruct Hd as [Hb Hd].
  apply not_elem_of_cons in Hel as [Heb Hel]. apply NoDup_cons in Hnd as [Hbl Hnd].
  destruct l as [|c l _] using rev_ind; simpl in *.
  - heap_run. eexists. split; [done|]. split.
    { split; [repeat constructor; set_solver|]. by heap_step. }
    split; [intros _; by heap_step|]. split; [by heap_step|heap_frame].
  - rewrite lastz_snoc in *. apply dll_app in Hd as [Hd1 [Hc _]].
    apply NoDup_app in Hnd as (Hnd1 & Hcl & _).
    assert (c ∉ l) as Hcl' by (intros Hin; apply (Hcl c Hin); set_solver).
    assert (c ≠ b ∧ c ≠ e) as [Hcb Hce] by set_solver.
    heap_run. eexists. split; [done|]. split.
    { split; [apply NoDup_cons; split; [done|]; apply NoDup_app; split_and!;
              [done|done|repeat constructor; set_solver]|].
      simpl. rewrite lastz_snoc, dll_app. simpl. heap_step. rewrite !hdz_app.
      split_and!; [done| |done|done].
      eapply dll_frame; [|exact Hd1]. heap_frame. }
    split; [intros _; by heap_step|]. split; [by heap_step|heap_frame].
Qed.

(** ** The abstract list: what the pointers implement

    These are the operations the other components are written with. *)

Definition q_insert_head {A} (x : A) (l : list A) : list A := x :: l.
Definition q_insert_tail {A} (x : A) (l : list A) : list A := l ++ [x].
Definition q_remove (x : Z) (l : list Z) : list Z := filter (λ y, y ≠ x) l.
Definition q_remove_head {A} (l : list A) : option A * list A :=
  match l with [] => (None, []) | x :: l' => (Some x, l') end.

Lemma q_remove_notin x l : x ∉ l → q_remove x l = l.
Proof.
  intros Hx. unfold q_remove. induction l as [|y l IH]; [done|].
  apply not_elem_of_cons in Hx as [Hxy Hx].
  rewrite filter_cons_True by congruence. by rewrite IH.
Qed.

Lemma q_remove_middle x l1 l2 :
  NoDup (l1 ++ x :: l2) → q_remove x (l1 ++ x :: l2) = l1 ++ l2.
Proof.
  intros Hnd. unfold q_remove. rewrite filter_app, filter_cons_False by auto.
  apply NoDup_app in Hnd as (Hn1 & Hd & Hn2). apply NoDup_cons in Hn2 as [Hx Hn2].
  f_equal; apply q_remove_notin; [|done]. intros Hin. apply (Hd x Hin). left.
Qed.

Lemma q_remove_elem x y l : y ∈ q_remove x l ↔ y ≠ x ∧ y ∈ l.
Proof. unfold q_remove. by rewrite list_elem_of_filter. Qed.

Lemma q_remove_NoDup x l : NoDup l → NoDup (q_remove x l).
Proof. apply NoDup_filter. Qed.

(** ** KLIST_ENTRY and LIST_HEAD *)

Module KList.

Record klist := KL { lh_first : addr; NumberOfElements : Z; links : gmap Z link }.

Definition on_links {A} (m : M (gmap Z link) A) : M klist A :=
  zoom links (λ h s, KL (lh_first s) (NumberOfElements s) h) m.
Definition set_first (p : addr) : M klist unit :=
  modify (λ s, KL p (NumberOfElements s) (links s)).
Definition set_num (f : Z → Z) : M klist unit :=
  modify (λ s, KL (lh_first s) (u32 (f (NumberOfElements s))) (links s)).

Definition LIST_INIT : M klist unit := set_first NULL >>> set_num (λ _, 0).

Definition LIST_INIT_ENTRY (elm : addr) : M klist unit :=
  on_links (set_next elm NULL) >>> on_links (set_prev elm NULL).

Definition LIST_EMPTY (s : klist) : bool := lh_first s =? NULL.

Definition LIST_LAST : M klist addr :=
  let! e := gets LIST_EMPTY in
  if e then ret NULL
  else let! f := gets lh_first in on_links (get_prev f).

Definition LIST_NEXT (elm : addr) : M klist addr :=
  let! n := on_links (get_next elm) in
  let! f := gets lh_first in
  if n =? f then ret NULL else ret n.

Definition LIST_PREV (elm : addr) : M klist addr :=
  let! p := on_links (get_prev elm) in
  let! z := LIST_LAST in
  if p =? z then ret NULL else ret p.

Definition LIST_INSERT_AFTER (listelm elm : addr) : M klist unit :=
  on_links (link_insert_after listelm elm) >>> set_num (λ n, n + 1).

Definition LIST_INSERT_BEFORE (listelm elm : addr) : M klist unit :=
  let! p := on_links (get_prev listelm) in
  LIST_INSERT_AFTER p elm.

Definition LIST_INSERT_HEAD (elm : addr) : M klist unit :=
  let! e := gets LIST_EMPTY in
  if e then
    set_first elm >>>
    on_links (set_prev elm elm) >>>
    on_links (set_next elm elm) >>>
    let! n := gets NumberOfElements in
    assert_ (n =? 0) >>>
    set_num (λ n, n + 1)
  else
    let! f := gets lh_first in
    LIST_INSERT_BEFORE f elm >>>
    set_first elm.

Definition LIST_INSERT_TAIL (elm : addr) : M klist unit :=
  let! e := gets LIST_EMPTY in
  if e then LIST_INSERT_HEAD elm
  else let! f := gets lh_first in LIST_INSERT_BEFORE f elm.

Definition LIST_REMOVE (elm : addr) : M klist unit :=
  let! f := gets lh_first in
  (if elm =? f then let! n := LIST_NEXT elm in set_first n else ret tt) >>>
  on_links (link_remove elm) >>>
  set_num (λ n, n - 1).

Definition LIST_REMOVE_HEAD : M klist addr :=
  let! e := gets LIST_EMPTY in
  if e then ret NULL
  else let! elm := gets lh_first in LIST_REMOVE elm >>> ret elm.

Definition LIST_REMOVE_TAIL : M klist addr :=
  let! e := gets LIST_EMPTY in
  if e then ret NULL
  else let! elm := LIST_LAST in LIST_REMOVE elm >>> ret elm.

(** [LIST_FOREACH]: the elements the loop visits, from [var] on.  The fuel
    bounds the number of iterations; [None] when it runs out. *)
Fixpoint foreach (fuel : nat) (var : addr) (s : klist) : outcome (option (list addr)) :=
  match fuel with
  | O => Ok None
  | S fuel' =>
      if var =? NULL then Ok (Some [])
      else match LIST_NEXT var s with
           | Ok (n, _) =>
               match foreach fuel' n s with
               | Ok (Some l) => Ok (Some (var :: l))
               | Ok None => Ok None
               | Stop e => Stop e
               end
           | Stop e => Stop e
           end
  end.

Definition LIST_FOREACH (fuel : nat) (s : klist) : outcome (option (list addr)) :=
  foreach fuel (lh_first s) s.

(** *** The representation *)

Definition rep (s : klist) (l : list addr) : Prop :=
  ring (links s) l ∧ NULL ∉ l ∧ lh_first s = hdz NULL l ∧
  NumberOfElements s = u32 (Z.of_nat (length l)).

(** Links outside [l] are the same in [s] and [s']. *)
Definition same_outside (l : list addr) (s s' : klist) : Prop :=
  ∀ x, x ∉ l → links s' !! x = links s !! x.

(** A free element: a valid pointer outside the list. *)
Definition fresh_elm (s : klist) (l : list addr) (e : addr) : Prop :=
  e ≠ NULL ∧ e ∉ l ∧ is_Some (links s !! e).

Lemma rep_empty s l : rep s l → LIST_EMPTY s = match l with [] => true | _ => false end.
Proof.
  intros (_ & Hn & Hf & _). unfold LIST_EMPTY. rewrite Hf.
  destruct l as [|x l]; [done|]. simpl. apply Z.eqb_neq. set_solver.
Qed.

Lemma ring_prev h l1 x l2 :
  ring h (l1 ++ x :: l2) → le_prev <$> h !! x = Some (lastz (lastz x l2) l1).
Proof.
  intros Hr. apply ring_rotate in Hr. simpl in Hr.
  rewrite (ring_cell _ _ _ Hr). simpl. by rewrite lastz_app.
Qed.

Lemma ring_next h l1 x l2 :
  ring h (l1 ++ x :: l2) → le_next <$> h !! x = Some (hdz (hdz x l1) l2).
Proof.
  intros Hr. apply ring_rotate in Hr. simpl in Hr.
  rewrite (ring_cell _ _ _ Hr). simpl. by rewrite hdz_app.
Qed.

Lemma on_links_run {A} (m : M (gmap Z link) A) s a h :
  m (links s) = Ok (a, h) →
  on_links m s = Ok (a, KL (lh_first s) (NumberOfElements s) h).
Proof. intros H. unfold on_links, zoom. by rewrite H. Qed.

Lemma u32_succ n : u32 (u32 (Z.of_nat n) + 1) = u32 (Z.of_nat (S n)).
Proof. rewrite u32_add_u32_l. f_equal. lia. Qed.

Lemma u32_pred n : u32 (u32 (Z.of_nat (S n)) - 1) = u32 (Z.of_nat n).
Proof. rewrite u32_sub_u32_l. f_equal. lia. Qed.

(** *** Each operation implements the list operation of its name *)

Lemma insert_after_rep s l1 a l2 e :
  rep s (l1 ++ a :: l2) → fresh_elm s (l1 ++ a :: l2) e →
  ∃ s', LIST_INSERT_AFTER a e s = Ok (tt, s') ∧
        ring (links s') (l1 ++ a :: e :: l2) ∧ lh_first s' = lh_first s ∧
        NumberOfElements s' = u32 (Z.of_nat (S (length (l1 ++ a :: l2)))) ∧
        same_outside (e :: l1 ++ a :: l2) s s'.
Proof.
  intros (Hr & _ & _ & Hn) (_ & Hel & Hc).
  pose proof (ring_rotate _ _ _ Hr) as Hr'. simpl in Hr'.
  destruct (link_insert_after_ring _ _ _ e Hr') as (h' & Hrun & Hring & Hf);
    [set_solver|done|].
  eexists. unfold LIST_INSERT_AFTER. rewrite (bind_Ok _ _ _ _ _ (on_links_run _ _ _ _ Hrun)).
  split; [done|]. simpl. split_and!; [|done| |].
  - apply (ring_rotate _ (a :: e :: l2) l1). done.
  - rewrite Hn. apply u32_succ.
  - intros x Hx. apply Hf. set_solver.
Qed.

(** Before the first element is after the last one: the ring closes. *)
Lemma insert_before_first s x l e :
  rep s (x :: l) → fresh_elm s (x :: l) e →
  ∃ s', LIST_INSERT_BEFORE x e s = Ok (tt, s') ∧
        ring (links s') (x :: l ++ [e]) ∧ lh_first s' = x ∧
        NumberOfElements s' = u32 (Z.of_nat (S (length (x :: l)))) ∧
        same_outside (e :: x :: l) s s'.
Proof.
  intros Hrep Hf. destruct (exists_last (l:=x :: l)) as (m & z & Hm); [done|].
  assert (lastz x l = z) as Hz.
  { change (lastz x l) with (lastz x (x :: l)). rewrite Hm. apply lastz_snoc. }
  pose proof Hrep as (Hr & _ & Hfst & _). rewrite Hm in Hrep, Hf.
  destruct (insert_after_rep _ _ _ _ _ Hrep Hf) as (s' & Hrun & Hring & Hf' & Hn & Hso).
  exists s'. rewrite Hm. split_and!; [|  |by rewrite Hf', Hfst|done|done].
  - unfold LIST_INSERT_BEFORE.
    pose proof (ring_prev (links s) [] x l Hr) as Hp. simpl in Hp. rewrite Hz in Hp.
    erewrite bind_Ok; [exact Hrun|].
    unfold on_links, zoom, get_prev, deref. rewrite Hp. by destruct s.
  - rewrite app_comm_cons, Hm, <- app_assoc. done.
Qed.

Lemma insert_head_rep s l e :
  rep s l → fresh_elm s l e →
  ∃ s', LIST_INSERT_HEAD e s = Ok (tt, s') ∧ rep s' (q_insert_head e l) ∧
        same_outside (e :: l) s s'.
Proof.
  intros Hrep Hfe. pose proof (rep_empty _ _ Hrep) as He.
  pose proof Hfe as (He0 & Hel & [[en ep] Hc]).
  unfold LIST_INSERT_HEAD. destruct l as [|x l].
  - destruct Hrep as (_ & _ & _ & Hn). destruct s as [f n h]. simpl in *.
    unfold bind, gets. rewrite He. simpl.
    unfold on_links, zoom, set_prev, set_next, set_first, set_num, modify; simpl.
    rewrite Hc. simpl. rewrite lookup_insert_eq. simpl. rewrite Hn. simpl.
    eexists. split; [done|]. split; [split_and!|].
    + split; [repeat constructor; set_solver|]. simpl. by rewrite lookup_insert_eq.
    + set_solver.
    + done.
    + done.
    + intros y Hy. simpl. rewrite !lookup_insert_ne by set_solver. done.
  - destruct (insert_before_first _ _ _ _ Hrep Hfe) as (s' & Hrun & Hring & Hf' & Hn & Hso).
    pose proof Hrep as (_ & Hnn & Hfst & _). simpl in Hfst.
    unfold bind at 1, gets. rewrite He. unfold bind at 1. simpl. rewrite Hfst.
    erewrite bind_Ok by exact Hrun. unfold set_first, modify.
    eexists. split; [done|]. split; [|exact Hso]. split_and!; simpl.
    + apply (ring_rotate _ (x :: l) [e]). done.
    + set_solver.
    + done.
    + exact Hn.
Qed.

Lemma insert_tail_rep s l e :
  rep s l → fresh_elm s l e →
  ∃ s', LIST_INSERT_TAIL e s = Ok (tt, s') ∧ rep s' (q_insert_tail e l) ∧
        same_outside (e :: l) s s'.
Proof.
  intros Hrep Hfe. pose proof (rep_empty _ _ Hrep) as He.
  unfold LIST_INSERT_TAIL, bind at 1, gets. rewrite He. destruct l as [|x l].
  - apply (insert_head_rep s [] e Hrep Hfe).
  - unfold bind at 1.
    destruct (insert_before_first _ _ _ _ Hrep Hfe) as (s' & Hrun & Hring & Hf' & Hn & Hso).
    pose proof Hrep as (_ & Hnn & Hfst & _). simpl in Hfst. rewrite Hfst.
    exists s'. split; [exact Hrun|]. split; [|done].
    destruct Hfe as (He0 & Hel & _). unfold rep, q_insert_tail. simpl.
    split_and!; [done|set_solver|done|]. rewrite length_app. simpl.
    rewrite Hn. f_equal. simpl. lia.
Qed.

Lemma LIST_LAST_rep s l : rep s l → LIST_LAST s = Ok (lastz NULL l, s).
Proof.
  intros Hrep. pose proof (rep_empty _ _ Hrep) as He. destruct Hrep as (Hr & _ & Hf & _).
  unfold LIST_LAST, bind at 1, gets. rewrite He. destruct l as [|x l]; [done|].
  unfold bind. simpl in Hf. rewrite Hf.
  pose proof (ring_prev _ [] x l Hr) as Hp. simpl in Hp.
  unfold on_links, zoom, get_prev, deref. rewrite Hp. by destruct s.
Qed.

Lemma LIST_NEXT_rep s l1 x l2 :
  rep s (l1 ++ x :: l2) → LIST_NEXT x s = Ok (hdz NULL l2, s).
Proof.
  intros (Hr & Hn & Hf & _). unfold LIST_NEXT, bind, gets.
  pose proof (ring_next _ _ _ _ Hr) as Hp.
  unfold on_links, zoom, get_next, deref. rewrite Hp. destruct s as [f n h]. simpl in *.
  rewrite Hf, hdz_app. simpl. destruct Hr as [Hnd _].
  destruct l2 as [|y l2]; simpl; [by destruct l1; simpl; rewrite Z.eqb_refl|].
  destruct (Z.eqb_spec y (hdz x l1)) as [Heq|]; [|done].
  destruct l1 as [|z l1]; simpl in Heq; subst; exfalso.
  - simpl in Hnd. apply NoDup_cons in Hnd. set_solver.
  - simpl in Hnd. apply NoDup_cons in Hnd. set_solver.
Qed.

Lemma LIST_PREV_rep s l1 x l2 :
  rep s (l1 ++ x :: l2) → LIST_PREV x s = Ok (lastz NULL l1, s).
Proof.
  intros Hrep. pose proof (LIST_LAST_rep _ _ Hrep) as Hl.
  destruct Hrep as (Hr & Hn & Hf & _). unfold LIST_PREV.
  pose proof (ring_prev _ _ _ _ Hr) as Hp.
  unfold on_links, zoom, get_prev, deref, bind. rewrite Hp.
  replace (KL (lh_first s) (NumberOfElements s) (links s)) with s by (by destruct s).
  rewrite Hl, lastz_app. simpl. destruct Hr as [Hnd _].
  destruct l1 as [|y l1] using rev_ind; simpl; [by rewrite Z.eqb_refl|clear IHl1].
  rewrite !lastz_snoc. destruct (Z.eqb_spec y (lastz x l2)) as [Heq|]; [|done].
  exfalso. apply NoDup_app in Hnd as (_ & Hd & Hnd). apply (Hd y); [set_solver|].
  destruct l2 as [|z l2]; [simpl in Heq; set_solver|].
  rewrite Heq. apply elem_of_cons. right. by apply lastz_elem.
Qed.

Lemma set_first_run p s : set_first p s = Ok (tt, KL p (NumberOfElements s) (links s)).
Proof. done. Qed.

Lemma remove_rep s l1 e l2 :
  rep s (l1 ++ e :: l2) →
  ∃ s', LIST_REMOVE e s = Ok (tt, s') ∧ rep s' (l1 ++ l2) ∧
        (l1 ++ l2 ≠ [] → links s' !! e = links s !! e) ∧
        is_Some (links s' !! e) ∧ same_outside (l1 ++ e :: l2) s s'.
Proof.
  intros Hrep. pose proof (LIST_NEXT_rep _ _ _ _ Hrep) as Hnext.
  destruct Hrep as (Hr & Hn & Hf & Hnum).
  pose proof (ring_rotate _ _ _ Hr) as Hr'. simpl in Hr'.
  destruct (link_remove_ring _ _ _ Hr') as (h' & Hrun & Hring & Hst & Hsm & Hfr).
  set (s1 := KL (hdz NULL (l1 ++ l2)) (NumberOfElements s) (links s)).
  assert ((if e =? lh_first s then let! n := LIST_NEXT e in set_first n else ret tt) s
          = Ok (tt, s1)) as Hfst.
  { rewrite Hf. destruct l1 as [|x l1]; simpl.
    - rewrite Z.eqb_refl. by rewrite (bind_Ok _ _ _ _ _ Hnext).
    - destruct (Z.eqb_spec e x) as [->|].
      { destruct Hr as [Hnd _]. simpl in Hnd. apply NoDup_cons in Hnd. set_solver. }
      unfold ret, s1. simpl in Hf. simpl. rewrite <- Hf. by destruct s. }
  eexists. unfold LIST_REMOVE, bind at 1, gets.
  rewrite (bind_Ok _ _ _ _ _ Hfst), (bind_Ok _ _ s1 _ _ (on_links_run _ s1 _ _ Hrun)).
  unfold set_num, modify. split; [done|]. simpl. split; [|split_and!].
  - split_and!; simpl; [by apply ring_rotate|set_solver|done|].
    rewrite Hnum, !length_app. simpl. rewrite Nat.add_succ_r. apply u32_pred.
  - intros Hne. apply Hst. intros Heq. apply Hne.
    apply app_eq_nil in Heq as [-> ->]. done.
  - done.
  - intros x Hx. apply Hfr. set_solver.
Qed.

Lemma remove_head_rep s l :
  rep s l →
  ∃ s', LIST_REMOVE_HEAD s = Ok (hdz NULL l, s') ∧ rep s' (tail l) ∧
        same_outside l s s' ∧ ∀ x, is_Some (links s !! x) → is_Some (links s' !! x).
Proof.
  intros Hrep. pose proof (rep_empty _ _ Hrep) as He.
  unfold LIST_REMOVE_HEAD, bind at 1, gets. rewrite He. destruct l as [|x l].
  { exists s. split_and!; [done|done|by intros ??|done]. }
  destruct (remove_rep s [] x l Hrep) as (s' & Hrun & Hrep' & _ & Hsm & Hso).
  exists s'. unfold bind at 1. destruct Hrep as (_ & _ & Hf & _). simpl in Hf. rewrite Hf.
  rewrite (bind_Ok _ _ _ _ _ Hrun). split_and!; [done|done|done|].
  intros y Hy. destruct (decide (y ∈ x :: l)) as [Hin|Hout]; [|by rewrite Hso].
  apply elem_of_cons in Hin as [->|Hin]; [done|].
  destruct Hrep' as ([_ Hd] & _). simpl in Hd.
  apply list_elem_of_split in Hin as (k1 & k2 & ->).
  apply dll_app in Hd as [_ [Hd _]]. eauto.
Qed.

(** LIST_FOREACH visits the elements in order; one iteration more than there
    are elements is enough fuel. *)
Lemma foreach_rep s l1 l2 fuel :
  rep s (l1 ++ l2) → (length l2 < fuel)%nat →
  foreach fuel (hdz NULL l2) s = Ok (Some l2).
Proof.
  revert l1 fuel. induction l2 as [|x l2 IH]; intros l1 fuel Hrep Hfu.
  { destruct fuel; [simpl in Hfu; lia|done]. }
  destruct fuel as [|fuel]; [simpl in Hfu; lia|]. simpl.
  destruct (Z.eqb_spec x 0) as [->|].
  { destruct Hrep as (_ & Hn & _). set_solver. }
  rewrite (LIST_NEXT_rep _ _ _ _ Hrep).
  rewrite (IH (l1 ++ [x])); [done|by rewrite <- app_assoc|simpl in Hfu; lia].
Qed.

(** *** Scripts: the whole interface, refined at once *)

Inductive op :=
| OInsertHead (e : addr) | OInsertTail (e : addr) | OInsertAfter (a e : addr)
| ORemove (e : addr) | ORemoveHead | ORemoveTail
| OLast | ONext (e : addr) | OPrev (e : addr).

Definition cstep (o : op) : M klist addr :=
  match o with
  | OInsertHead e => LIST_INSERT_HEAD e >>> ret NULL
  | OInsertTail e => LIST_INSERT_TAIL e >>> ret NULL
  | OInsertAfter a e => LIST_INSERT_AFTER a e >>> ret NULL
  | ORemove e => LIST_REMOVE e >>> ret NULL
  | ORemoveHead => LIST_REMOVE_HEAD
  | ORemoveTail => LIST_REMOVE_TAIL
  | OLast => LIST_LAST
  | ONext e => LIST_NEXT e
  | OPrev e => LIST_PREV e
  end.

(** The list up to and after the first [e]; [None] when it is absent. *)
Fixpoint split_at (e : addr) (l : list addr) : option (list addr * list addr) :=
  match l with
  | [] => None
  | x :: l' =>
      if x =? e then Some ([], l')
      else match split_at e l' with
           | Some (l1, l2) => Some (x :: l1, l2)
           | None => None
           end
  end.

(** The specification on lists: [None] where the macro must not be used
    (inserting an element of the list or NULL, an operand outside the list). *)
Definition astep (o : op) (l : list addr) : option (addr * list addr) :=
  let ins e l' := if (e =? NULL) || bool_decide (e ∈ l) then None else Some (NULL, l') in
  match o with
  | OInsertHead e => ins e (e :: l)
  | OInsertTail e => ins e (l ++ [e])
  | OInsertAfter a e =>
      match split_at a l with Some (l1, l2) => ins e (l1 ++ a :: e :: l2) | None => None end
  | ORemove e =>
      match split_at e l with Some (l1, l2) => Some (NULL, l1 ++ l2) | None => None end
  | ORemoveHead => Some (hdz NULL l, tail l)
  | ORemoveTail => Some (lastz NULL l, removelast l)
  | OLast => Some (lastz NULL l, l)
  | ONext e => match split_at e l with Some (_, l2) => Some (hdz NULL l2, l) | None => None end
  | OPrev e => match split_at e l with Some (l1, _) => Some (lastz NULL l1, l) | None => None end
  end.

Fixpoint crun (os : list op) : M klist (list addr) :=
  match os with
  | [] => ret []
  | o :: os' => let! r := cstep o in let! rs := crun os' in ret (r :: rs)
  end.

Fixpoint arun (os : list op) (l : list addr) : option (list addr * list addr) :=
  match os with
  | [] => Some ([], l)
  | o :: os' =>
      match astep o l with
      | Some (r, l') =>
          match arun os' l' with Some (rs, l'') => Some (r :: rs, l'') | None => None end
      | None => None
      end
  end.

Definition op_elm (o : op) : list addr :=
  match o with OInsertHead e | OInsertTail e | OInsertAfter _ e => [e] | _ => [] end.

Lemma split_at_spec e l l1 l2 : split_at e l = Some (l1, l2) → l = l1 ++ e :: l2.
Proof.
  revert l1. induction l as [|x l IH]; intros l1; simpl; [done|].
  destruct (Z.eqb_spec x e) as [->|]; [by intros [= <- <-]|].
  destruct (split_at e l) as [[k1 k2]|]; [|done]. intros [= <- <-].
  simpl. by rewrite (IH k1).
Qed.

Lemma rep_valid s l x : rep s l → x ∈ l → is_Some (links s !! x).
Proof.
  intros ([_ Hd] & _) (k1 & k2 & ->)%list_elem_of_split.
  apply dll_app in Hd as [_ [Hd _]]. eauto.
Qed.

(** No operation loses a valid cell. *)
Lemma valid_kept s s' l l' :
  rep s' l' → same_outside l s s' → (∀ x, x ∈ l → x ∈ l' ∨ is_Some (links s' !! x)) →
  ∀ x, is_Some (links s !! x) → is_Some (links s' !! x).
Proof.
  intros Hr Hso Hin x Hx. destruct (decide (x ∈ l)) as [Hl|Hl].
  - destruct (Hin x Hl) as [Hl'|]; [by eapply rep_valid|done].
  - by rewrite Hso.
Qed.

Lemma remove_tail_rep s l :
  rep s l →
  ∃ s', LIST_REMOVE_TAIL s = Ok (lastz NULL l, s') ∧ rep s' (removelast l) ∧
        ∀ x, is_Some (links s !! x) → is_Some (links s' !! x).
Proof.
  intros Hrep. pose proof (rep_empty _ _ Hrep) as He.
  unfold LIST_REMOVE_TAIL, bind at 1, gets.
  destruct l as [|x l _] using rev_ind; [rewrite He; by exists s|].
  replace (LIST_EMPTY s) with false by (rewrite He; by destruct l).
  rewrite (bind_Ok _ _ _ _ _ (LIST_LAST_rep _ _ Hrep)), lastz_snoc, removelast_last.
  destruct (remove_rep s l x [] Hrep) as (s' & Hrun & Hrep' & _ & Hsm & Hso).
  rewrite app_nil_r in Hrep'.
  exists s'. rewrite (bind_Ok _ _ _ _ _ Hrun).
  split_and!; [by destruct l|done|]. eapply valid_kept; [done..|].
  intros y [Hy|Hy]%elem_of_app; [by left|right]. set_solver.
Qed.

Lemma ins_spec e (l l' : list addr) r (k : list addr) :
  (if (e =? NULL) || bool_decide (e ∈ l) then None else Some (NULL, l')) = Some (r, k) →
  e ≠ NULL ∧ e ∉ l ∧ r = NULL ∧ k = l'.
Proof.
  destruct (Z.eqb_spec e 0); [done|]. simpl. case_bool_decide; [done|]. intros [= <- <-]. done.
Qed.

Lemma cstep_refines o s l r l' :
  rep s l → Forall (λ e, is_Some (links s !! e)) (op_elm o) → astep o l = Some (r, l') →
  ∃ s', cstep o s = Ok (r, s') ∧ rep s' l' ∧
        ∀ x, is_Some (links s !! x) → is_Some (links s' !! x).
Proof.
  intros Hrep Hv Ha. destruct o as [e|e|a e|e| | | |e|e]; simpl in *.
  - apply ins_spec in Ha as (H0 & Hl & -> & ->). inversion_clear Hv as [|?? Hc _].
    destruct (insert_head_rep s l e Hrep) as (s' & Hrun & Hrep' & Hso); [done|].
    exists s'. rewrite (bind_Ok _ _ _ _ _ Hrun). split_and!; [done|done|].
    eapply valid_kept; [done..|]. intros x Hx. by left.
  - apply ins_spec in Ha as (H0 & Hl & -> & ->). inversion_clear Hv as [|?? Hc _].
    destruct (insert_tail_rep s l e Hrep) as (s' & Hrun & Hrep' & Hso); [done|].
    exists s'. rewrite (bind_Ok _ _ _ _ _ Hrun). split_and!; [done|done|].
    eapply valid_kept; [done..|]. intros x Hx. left. unfold q_insert_tail. set_solver.
  - destruct (split_at a l) as [[l1 l2]|] eqn:Hs; [|done]. apply split_at_spec in Hs as ->.
    apply ins_spec in Ha as (H0 & Hl & -> & ->). inversion_clear Hv as [|?? Hc _].
    destruct (insert_after_rep s l1 a l2 e Hrep) as (s' & Hrun & Hr & Hf & Hn & Hso); [done|].
    destruct Hrep as (_ & Hnn & Hf0 & _).
    assert (rep s' (l1 ++ a :: e :: l2)) as Hrep'.
    { split_and!; [done|set_solver|by rewrite Hf, Hf0, !hdz_app|].
      rewrite Hn, !length_app. simpl. f_equal. lia. }
    exists s'. rewrite (bind_Ok _ _ _ _ _ Hrun). split_and!; [done|done|].
    eapply valid_kept; [done..|]. intros x Hx. left. set_solver.
  - destruct (split_at e l) as [[l1 l2]|] eqn:Hs; [|done]. apply split_at_spec in Hs as ->.
    injection Ha as <- <-.
    destruct (remove_rep s l1 e l2 Hrep) as (s' & Hrun & Hrep' & _ & Hsm & Hso).
    exists s'. rewrite (bind_Ok _ _ _ _ _ Hrun). split_and!; [done|done|].
    eapply valid_kept; [done..|]. intros x Hx. destruct (decide (x = e)) as [->|]; [by right|].
    left. set_solver.
  - injection Ha as <- <-. destruct (remove_head_rep s l Hrep) as (s' & Hrun & Hrep' & _ & Hk).
    exists s'. done.
  - injection Ha as <- <-. apply remove_tail_rep. done.
  - injection Ha as <- <-. exists s. split_and!; [by apply LIST_LAST_rep|done|done].
  - destruct (split_at e l) as [[l1 l2]|] eqn:Hs; [|done]. apply split_at_spec in Hs as ->.
    injection Ha as <- <-. exists s. split_and!; [by eapply LIST_NEXT_rep|done|done].
  - destruct (split_at e l) as [[l1 l2]|] eqn:Hs; [|done]. apply split_at_spec in Hs as ->.
    injection Ha as <- <-. exists s. split_and!; [by eapply LIST_PREV_rep|done|done].
Qed.

(** C31: every script of list macros on a well-formed list whose abstract run is
    defined runs without a fault or an assertion failure on the pointers,
    returns the same results, leaves a list representing the abstract result,
    and LIST_FOREACH then visits exactly its elements, in order, in one
    iteration per element. *)
Theorem klist_script_refines os s l rs l' :
  rep s l → Forall (λ o, Forall (λ e, is_Some (links s !! e)) (op_elm o)) os →
  arun os l = Some (rs, l') →
  ∃ s', crun os s = Ok (rs, s') ∧ rep s' l' ∧
        LIST_FOREACH (S (length l')) s' = Ok (Some l').
Proof.
  intros Hrep Hv. revert s l rs Hrep Hv.
  induction os as [|o os IH]; intros s l rs Hrep Hv Ha; simpl in *.
  - injection Ha as <- <-. exists s. split_and!; [done|done|].
    unfold LIST_FOREACH. pose proof Hrep as (_ & _ & -> & _).
    by apply (foreach_rep s []); [|lia].
  - destruct (astep o l) as [[r k]|] eqn:Ho; [|done].
    destruct (arun os k) as [[rs' k']|] eqn:Hos; [|done]. injection Ha as <- <-.
    apply Forall_cons in Hv as [Hvo Hvs].
    destruct (cstep_refines o s l r k Hrep Hvo Ho) as (s1 & Hrun & Hrep1 & Hk).
    destruct (IH s1 k rs' Hrep1) as (s' & Hruns & Hrep' & Hfe); [|done|].
    { eapply Forall_impl; [exact Hvs|]. intros p Hp. eapply Forall_impl; [exact Hp|]. auto. }
    exists s'. rewrite (bind_Ok _ _ _ _ _ Hrun), (bind_Ok _ _ _ _ _ Hruns). done.
Qed.

(** The self-test of inc/list.h (List_testing): tail, tail, head, then three
    removals. *)
Definition test_cells : gmap Z link :=
  <[16 := Link 0 0]> (<[32 := Link 0 0]> (<[48 := Link 0 0]> ∅)).

Lemma klist_script_refines_witness :
  ∃ s', crun [OInsertTail 16; OInsertTail 32; OInsertHead 48; ORemoveHead; OPrev 32; ORemoveTail]
             (KL 0 0 test_cells) = Ok ([0; 0; 0; 48; 16; 32], s') ∧ rep s' [16] ∧
        LIST_FOREACH 2 s' = Ok (Some [16]).
Proof.
  apply (klist_script_refines _ (KL 0 0 test_cells) []).
  - split_and!; [apply ring_nil|apply not_elem_of_nil|reflexivity|reflexivity].
  - repeat (constructor; [repeat constructor; eexists; vm_compute; reflexivity|]). constructor.
  - vm_compute. reflexivity.
Defined.

End KList.

(** ** LIST_ENTRY: a ring through a sentinel, the list head *)

Module DList.

Definition InitializeListHead (ListHead : addr) : M (gmap Z link) unit :=
  set_prev ListHead ListHead >>> set_next ListHead ListHead.

Definition InsertHeadList (ListHead Entry : addr) : M (gmap Z link) unit :=
  let! OldFlink := get_next ListHead in
  set_next Entry OldFlink >>>
  set_prev Entry ListHead >>>
  set_prev OldFlink Entry >>>
  set_next ListHead Entry.

Definition InsertTailList (ListHead Entry : addr) : M (gmap Z link) unit :=
  let! OldBlink := get_prev ListHead in
  set_next Entry ListHead >>>
  set_prev Entry OldBlink >>>
  set_next OldBlink Entry >>>
  set_prev ListHead Entry.

Definition IsListEmpty (ListHead : addr) : M (gmap Z link) bool :=
  let! f := get_next ListHead in ret (f =? ListHead).

Definition RemoveEntryList (Entry : addr) : M (gmap Z link) bool :=
  let! OldFlink := get_next Entry in
  let! OldBlink := get_prev Entry in
  set_prev OldFlink OldBlink >>>
  set_next OldBlink OldFlink >>>
  ret (OldFlink =? OldBlink).

Definition RemoveHeadList (ListHead : addr) : M (gmap Z link) addr :=
  let! Entry := get_next ListHead in
  let! Flink := get_next Entry in
  set_next ListHead Flink >>>
  set_prev Flink ListHead >>>
  ret Entry.

Definition RemoveTailList (ListHead : addr) : M (gmap Z link) addr :=
  let! Entry := get_prev ListHead in
  let! Blink := get_prev Entry in
  set_prev ListHead Blink >>>
  set_next Blink ListHead >>>
  ret Entry.

(** The entries [l] hang off the sentinel [hd]. *)
Definition rep (h : gmap Z link) (hd : addr) (l : list addr) : Prop := ring h (hd :: l).

(** The loop of the directory code: from the first link to the sentinel. *)
Fixpoint walk (fuel : nat) (h : gmap Z link) (hd p : addr) : option (list addr) :=
  match fuel with
  | O => None
  | S fuel' =>
      if p =? hd then Some []
      else match h !! p with
           | Some k => cons p <$> walk fuel' h hd (le_next k)
           | None => None
           end
  end.

Ltac map_same :=
  apply map_eq; intros ?; rewrite !lookup_insert; repeat case_decide; congruence.

Lemma InsertHeadList_rep h hd l e :
  rep h hd l → e ∉ hd :: l → is_Some (h !! e) →
  ∃ h', InsertHeadList hd e h = Ok (tt, h') ∧ rep h' hd (e :: l) ∧
        ∀ x, x ∉ hd :: e :: l → h' !! x = h !! x.
Proof.
  intros Hr He Hc. destruct (link_insert_after_ring _ _ _ _ Hr He Hc) as (h' & Hrun & Hp).
  exists h'. split; [|exact Hp]. rewrite <- Hrun. clear Hrun Hp.
  pose proof (ring_cell _ _ _ Hr) as Ha. destruct Hc as [[en ep] Hc].
  destruct Hr as [Hnd [_ Hd]]. apply not_elem_of_cons in He as [Hea Hel].
  unfold InsertHeadList, link_insert_after. destruct l as [|b l]; simpl in *.
  - heap_run. do 2 f_equal. map_same.
  - destruct Hd as [Hb Hd]. apply NoDup_cons in Hnd as [Hal _].
    assert (b ≠ hd ∧ b ≠ e) as [Hba Hbe] by set_solver.
    heap_run. do 2 f_equal. map_same.
Qed.

Lemma InsertTailList_rep h hd l e :
  rep h hd l → e ∉ hd :: l → is_Some (h !! e) →
  ∃ h', InsertTailList hd e h = Ok (tt, h') ∧ rep h' hd (l ++ [e]) ∧
        ∀ x, x ∉ hd :: e :: l → h' !! x = h !! x.
Proof.
  intros Hr He Hc. destruct l as [|z l _] using rev_ind.
  { destruct (InsertHeadList_rep h hd [] e Hr He Hc) as (h' & Hrun & Hr' & Hf).
    exists h'. split; [|done]. rewrite <- Hrun. pose proof (ring_cell _ _ _ Hr) as Ha.
    destruct Hc as [[en ep] Hc]. apply not_elem_of_cons in He as [Hea _].
    unfold InsertTailList, InsertHeadList. simpl in *. heap_run. do 2 f_equal. map_same. }
  pose proof (ring_rotate h (hd :: l) [z] Hr) as Hr'. simpl in Hr'.
  destruct (link_insert_after_ring h z (hd :: l) e) as (h' & Hrun & Hr2 & Hf);
    [done|set_solver|done|].
  exists h'. split; [|split].
  - rewrite <- Hrun. pose proof (ring_cell _ _ _ Hr') as Hz.
    pose proof (ring_cell _ _ _ Hr) as Ha. rewrite lastz_snoc, hdz_app in Ha.
    destruct Hc as [[en ep] Hc].
    assert (z ≠ hd ∧ z ≠ e ∧ e ≠ hd) as (Hzh & Hze & Heh).
    { destruct Hr as [Hnd _]. apply NoDup_cons in Hnd. set_solver. }
    unfold InsertTailList, link_insert_after. simpl in *. heap_run. do 2 f_equal.
    map_same.
  - apply (ring_rotate h' [z; e] (hd :: l)) in Hr2. unfold rep.
    by rewrite <- app_assoc.
  - intros x Hx. apply Hf. set_solver.
Qed.

(** Writes to different fields commute, and unlinking is two of them. *)
Lemma set_comm a v b w h :
  (set_next a v >>> set_prev b w) h = (set_prev b w >>> set_next a v) h.
Proof.
  unfold bind, set_next, set_prev. destruct (decide (a = b)) as [->|Hab].
  - destruct (h !! b) as [[n p]|]; [|done]. simpl. rewrite !lookup_insert_eq. simpl.
    by rewrite !insert_insert_eq.
  - destruct (h !! a) as [[n p]|] eqn:Ha, (h !! b) as [[n' p']|] eqn:Hb; simpl;
      rewrite ?lookup_insert_ne by done; rewrite ?Ha, ?Hb; simpl; [|done..].
    by rewrite insert_insert_ne.
Qed.

Lemma link_remove_writes h e n p :
  h !! e = Some (Link n p) → p ≠ e →
  link_remove e h = (set_next p n >>> set_prev n p) h.
Proof.
  intros He Hpe. unfold link_remove, bind, get_prev, get_next, deref. rewrite He. simpl.
  rewrite He. simpl. unfold set_next. destruct (h !! p) as [k|]; [|done].
  rewrite lookup_insert_ne by done. rewrite He. simpl.
  rewrite lookup_insert_ne by done. by rewrite He.
Qed.

Lemma RemoveEntryList_rep h hd l1 e l2 :
  rep h hd (l1 ++ e :: l2) →
  ∃ h' b, RemoveEntryList e h = Ok (b, h') ∧ rep h' hd (l1 ++ l2) ∧ h' !! e = h !! e ∧
          (b = true ↔ hdz hd l2 = lastz hd l1) ∧
          (set_next (lastz hd l1) (hdz hd l2) >>> set_prev (hdz hd l2) (lastz hd l1)) h
            = Ok (tt, h') ∧
          ∀ x, x ∉ hd :: l1 ++ e :: l2 → h' !! x = h !! x.
Proof.
  intros Hr. unfold rep in Hr. rewrite app_comm_cons in Hr.
  pose proof (ring_rotate _ _ _ Hr) as Hr'. simpl in Hr'.
  pose proof (ring_cell _ _ _ Hr') as He. rewrite hdz_app, lastz_app in He. simpl in He.
  destruct (link_remove_ring _ _ _ Hr') as (h' & Hrun & Hring & Hst & _ & Hf).
  assert (lastz hd l1 ≠ e) as Hpe.
  { destruct Hr' as [Hnd _]. apply NoDup_cons in Hnd as [Hni _].
    intros Heq. apply Hni. rewrite <- Heq. apply elem_of_app. right.
    apply (lastz_elem hd (hd :: l1)). done. }
  rewrite (link_remove_writes _ _ _ _ He Hpe) in Hrun.
  exists h', (hdz hd l2 =? lastz hd l1). split_and!; [| | | |exact Hrun|].
  - unfold RemoveEntryList. unfold bind at 1 2, get_next, get_prev, deref. rewrite He. simpl. rewrite He. simpl.
    rewrite set_comm in Hrun. by rewrite (seq_Ok _ _ _ _ _ Hrun).
  - apply (ring_rotate _ l2 (hd :: l1)). done.
  - apply Hst. by destruct l2.
  - apply Z.eqb_eq.
  - intros x Hx. apply Hf. set_solver.
Qed.

Lemma RemoveHeadList_rep h hd e l :
  rep h hd (e :: l) →
  ∃ h', RemoveHeadList hd h = Ok (e, h') ∧ rep h' hd l ∧ h' !! e = h !! e.
Proof.
  intros Hr. destruct (RemoveEntryList_rep h hd [] e l Hr)
    as (h' & b & _ & Hr' & He & _ & Hrun & _). simpl in *.
  exists h'. split_and!; [|done|done]. pose proof (ring_cell _ _ _ Hr) as Hh.
  destruct Hr as [_ [_ Hd]]. simpl in Hd, Hh. destruct Hd as [He' _].
  unfold RemoveHeadList. unfold bind at 1 2, get_next, deref. rewrite Hh. simpl. rewrite He'.
  simpl. by rewrite (seq_Ok _ _ _ _ _ Hrun).
Qed.

Lemma RemoveTailList_rep h hd e l :
  rep h hd (l ++ [e]) →
  ∃ h', RemoveTailList hd h = Ok (e, h') ∧ rep h' hd l ∧ h' !! e = h !! e.
Proof.
  intros Hr. destruct (RemoveEntryList_rep h hd l e [] Hr)
    as (h' & b & _ & Hr' & He & _ & Hrun & _). simpl in *. rewrite app_nil_r in Hr'.
  exists h'. split_and!; [|done|done]. pose proof (ring_cell _ _ _ Hr) as Hh.
  rewrite lastz_snoc in Hh. apply (ring_rotate h (hd :: l) [e]) in Hr.
  apply ring_cell in Hr as He'. simpl in He'. rewrite set_comm in Hrun.
  unfold RemoveTailList. unfold bind at 1 2, get_prev, deref. rewrite Hh. simpl. rewrite He'.
  simpl. by rewrite (seq_Ok _ _ _ _ _ Hrun).
Qed.

Lemma walk_dll fuel h p l hd :
  (length l < fuel)%nat → hd ∉ l → dll h p l hd → walk fuel h hd (hdz hd l) = Some l.
Proof.
  revert fuel p. induction l as [|x l IH]; intros fuel p Hfu Hn Hd.
  { destruct fuel; [simpl in Hfu; lia|]. simpl. by rewrite Z.eqb_refl. }
  destruct fuel as [|fuel]; [simpl in Hfu; lia|]. simpl in *.
  destruct (Z.eqb_spec x hd) as [->|]; [set_solver|].
  destruct Hd as [Hx Hd]. rewrite Hx. simpl.
  erewrite IH; [done|lia|set_solver|exact Hd].
Qed.

(** Walking from the sentinel's Flink visits the entries in order. *)
Lemma walk_rep h hd l f :
  rep h hd l → le_next <$> h !! hd = Some f → walk (S (length l)) h hd f = Some l.
Proof.
  intros Hr Hf. pose proof (ring_cell _ _ _ Hr) as Hh. rewrite Hh in Hf. injection Hf as <-.
  destruct Hr as [Hnd [_ Hd]]. apply NoDup_cons in Hnd as [Hn _].
  eapply walk_dll; [lia|done|exact Hd].
Qed.

(** The sentinel lists used by the object directories: head and tail
    insertion, removal of any entry and of either end run without a fault on a
    list that represents [l], and represent the list operation's result;
    RemoveHeadList after InsertHeadList gives back the entry (a stack), after
    InsertTailList the oldest one (a queue). *)
Theorem dlist_operations_refine h hd l e :
  rep h hd l → e ∉ hd :: l → is_Some (h !! e) →
  (∃ h', InsertHeadList hd e h = Ok (tt, h') ∧ rep h' hd (e :: l) ∧
         ∃ h'', RemoveHeadList hd h' = Ok (e, h'') ∧ rep h'' hd l) ∧
  (∃ h', InsertTailList hd e h = Ok (tt, h') ∧ rep h' hd (l ++ [e]) ∧
         (∃ h'', RemoveTailList hd h' = Ok (e, h'') ∧ rep h'' hd l) ∧
         ∃ h'', RemoveHeadList hd h' = Ok (hdz e l, h'') ∧ rep h'' hd (tail (l ++ [e]))) ∧
  IsListEmpty hd h = Ok (match l with [] => true | _ => false end, h).
Proof.
  intros Hr He Hc. split_and!.
  - destruct (InsertHeadList_rep _ _ _ _ Hr He Hc) as (h' & Hrun & Hr' & _).
    destruct (RemoveHeadList_rep _ _ _ _ Hr') as (h'' & Hrun' & Hr'' & _). eauto 8.
  - destruct (InsertTailList_rep _ _ _ _ Hr He Hc) as (h' & Hrun & Hr' & _).
    destruct (RemoveTailList_rep _ _ _ _ Hr') as (h'' & Hrun' & Hr'' & _).
    exists h'. split_and!; [done|done|eauto|].
    destruct l as [|x l]; [by eapply RemoveHeadList_rep in Hr' as (?&?&?&?); eauto|].
    destruct (RemoveHeadList_rep _ _ _ _ Hr') as (h3 & ? & ? & _). eauto.
  - pose proof (ring_cell _ _ _ Hr) as Hh. destruct Hr as [Hnd _].
    apply NoDup_cons in Hnd as [Hn _].
    unfold IsListEmpty, bind, get_next, deref. rewrite Hh. simpl. unfold ret.
    destruct l as [|x l]; simpl; [by rewrite Z.eqb_refl|].
    destruct (Z.eqb_spec x hd); [set_solver|done].
Qed.

Lemma dlist_operations_refine_witness :
  let h := <[8 := Link 16 16]> (<[16 := Link 8 8]> (<[24 := Link 0 0]> ∅)) in
  ∃ h', InsertTailList 8 24 h = Ok (tt, h') ∧ rep h' 8 [16; 24].
Proof.
  destruct (dlist_operations_refine
              (<[8 := Link 16 16]> (<[16 := Link 8 8]> (<[24 := Link 0 0]> ∅))) 8 [16] 24)
    as (_ & (h' & Hrun & Hr & _) & _).
  - split; [repeat constructor; set_solver|]. vm_compute. repeat split.
  - set_solver.
  - eexists. vm_compute. reflexivity.
  - exists h'. split; [exact Hrun|exact Hr].
Defined.

End DList.
