(* ===== verification/Bitmap.v ===== *)
(** * Bitmap: lib/bitmap.c

    A bitmap is a bit count and an array of 32-bit elements.  The operations
    are modelled on the elements, with the masks of the code; the theorems are
    stated on [bit], the value of one bit. *)

From S2P Require Import Prelude Types.

Record BITMAP := Bitmap { BitCount : Z; bits : list Z }.

Definition ELEM_BITS : Z := 32.
Definition sizeof_BITMAP : Z := 8.
Definition BITMAP_ERROR : Z := u32 (-100).

Definition BmElementIndex (BitIndex : Z) : Z := BitIndex / ELEM_BITS.
Definition BmBitMask (BitIndex : Z) : Z := u32 (Z.shiftl 1 (BitIndex mod ELEM_BITS)).
Definition BmElementCount (BitCount : Z) : Z := u32 (BitCount + ELEM_BITS - 1) / ELEM_BITS.
Definition BmByteCount (BitCount : Z) : Z := u32 (4 * BmElementCount BitCount).
Definition BmBitmapBufferSize (BitCount : Z) : Z := u32 (sizeof_BITMAP + BmByteCount BitCount).
Definition BmBitmapSize (b : BITMAP) : Z := BitCount b.

(** [bitmap->bits[idx] op= mask], one locked instruction. *)
Definition upd_elem (idx : Z) (f : Z → Z) : M BITMAP unit := λ b,
  match bits b !! Z.to_nat idx with
  | Some w => Ok (tt, Bitmap (BitCount b) (<[Z.to_nat idx := f w]> (bits b)))
  | None => Stop Fault
  end.

Definition BmBitmapMark (BitIndex : Z) : M BITMAP unit :=
  upd_elem (BmElementIndex BitIndex) (λ w, Z.lor w (BmBitMask BitIndex)).
Definition BmBitmapReset (BitIndex : Z) : M BITMAP unit :=
  upd_elem (BmElementIndex BitIndex) (λ w, Z.land w (u32 (Z.lnot (BmBitMask BitIndex)))).
Definition BmBitmapFlip (BitIndex : Z) : M BITMAP unit :=
  upd_elem (BmElementIndex BitIndex) (λ w, Z.lxor w (BmBitMask BitIndex)).

Definition BmBitmapTest (idx : Z) : M BITMAP bool :=
  let! n := gets BitCount in
  assert_ (idx <? n) >>>
  let! w := deref (λ b, bits b !! Z.to_nat (BmElementIndex idx)) in
  ret (negb (Z.land w (BmBitMask idx) =? 0)).

Definition BmBitmapSet (idx : Z) (value : bool) : M BITMAP unit :=
  let! n := gets BitCount in
  assert_ (idx <? n) >>>
  if value then BmBitmapMark idx else BmBitmapReset idx.

(** The range checks shared by the multi-bit operations. *)
Definition check_range (start cnt : Z) : M BITMAP unit :=
  let! n := gets BitCount in
  assert_ (start <=? n) >>> assert_ (u32 (start + cnt) <=? n).

(** [for (i = 0; i < cnt; i++)]: [n] iterations are left, the next index is [i]. *)
Fixpoint set_loop (n : nat) (i : Z) (value : bool) : M BITMAP unit :=
  match n with
  | O => ret tt
  | S n' => BmBitmapSet (u32 i) value >>> set_loop n' (i + 1) value
  end.

Definition BmBitmapSetMultiple (start cnt : Z) (value : bool) : M BITMAP unit :=
  check_range start cnt >>> set_loop (Z.to_nat cnt) start value.

Definition BmBitmapSetAll (value : bool) : M BITMAP unit :=
  let! n := gets BmBitmapSize in BmBitmapSetMultiple 0 n value.

Fixpoint count_loop (n : nat) (i : Z) (value : bool) (acc : Z) : M BITMAP Z :=
  match n with
  | O => ret acc
  | S n' =>
      let! t := BmBitmapTest (u32 i) in
      count_loop n' (i + 1) value (if Bool.eqb t value then u32 (acc + 1) else acc)
  end.

Definition BmBitmapCount (start cnt : Z) (value : bool) : M BITMAP Z :=
  check_range start cnt >>> count_loop (Z.to_nat cnt) start value 0.

Fixpoint contains_loop (n : nat) (i : Z) (value : bool) : M BITMAP bool :=
  match n with
  | O => ret false
  | S n' =>
      let! t := BmBitmapTest (u32 i) in
      if Bool.eqb t value then ret true else contains_loop n' (i + 1) value
  end.

Definition BmBitmapContains (start cnt : Z) (value : bool) : M BITMAP bool :=
  check_range start cnt >>> contains_loop (Z.to_nat cnt) start value.

Definition BmBitmapAny (start cnt : Z) : M BITMAP bool := BmBitmapContains start cnt true.
Definition BmBitmapNone (start cnt : Z) : M BITMAP bool :=
  let! c := BmBitmapContains start cnt true in ret (negb c).
Definition BmBitmapAll (start cnt : Z) : M BITMAP bool :=
  let! c := BmBitmapContains start cnt false in ret (negb c).

(** [for (i = start; i <= last; i++)]. *)
Fixpoint scan_loop (n : nat) (i cnt : Z) (value : bool) : M BITMAP Z :=
  match n with
  | O => ret BITMAP_ERROR
  | S n' =>
      let! c := BmBitmapContains i cnt (negb value) in
      if c then scan_loop n' (i + 1) cnt value else ret i
  end.

Definition BmBitmapScan (start cnt : Z) (value : bool) : M BITMAP Z :=
  let! n := gets BitCount in
  assert_ (start <=? n) >>>
  if cnt <=? n then scan_loop (Z.to_nat (n - cnt + 1 - start)) start cnt value
  else ret BITMAP_ERROR.

Definition BmBitmapScanAndFlip (start cnt : Z) (value : bool) : M BITMAP Z :=
  let! idx := BmBitmapScan start cnt value in
  when (negb (idx =? BITMAP_ERROR)) (BmBitmapSetMultiple idx cnt (negb value)) >>>
  ret idx.

(** [BmBitmapCreateInBuffer] on a buffer of [block_size] bytes whose words are
    [block]: the header takes the first two, the elements follow. *)
Definition BmBitmapCreateInBuffer (BitCount : Z) (block : list Z) (block_size : Z)
    : outcome BITMAP :=
  let hack := BitCount =? 0 in
  if hack && negb (sizeof_BITMAP <? block_size) then Stop BugCheck
  else
    let BitCount := if hack then u32 (u32 (block_size - sizeof_BITMAP) * 8) else BitCount in
    if BmBitmapBufferSize BitCount <=? block_size then
      match BmBitmapSetAll false (Bitmap BitCount (drop 2 block)) with
      | Ok (_, b) => Ok b
      | Stop e => Stop e
      end
    else Stop BugCheck.

(** ** The value of a bit, and well-formed bitmaps *)

Definition bit (b : BITMAP) (i : Z) : bool :=
  match bits b !! Z.to_nat (i / 32) with Some w => Z.testbit w (i mod 32) | None => false end.

Definition wf (b : BITMAP) : Prop :=
  0 <= BitCount b < 2 ^ 32 ∧ BitCount b <= 32 * Z.of_nat (length (bits b)) ∧
  Forall (λ w, is_u32 w) (bits b).

Lemma mask_pow i : BmBitMask i = 2 ^ (i mod 32).
Proof.
  unfold BmBitMask, ELEM_BITS. rewrite Z.shiftl_1_l. apply u32_small.
  pose proof (Z.mod_pos_bound i 32). split; [apply Z.pow_nonneg; lia|].
  apply Z.pow_lt_mono_r; lia.
Qed.

Lemma elem_lookup b i : wf b → 0 <= i < BitCount b →
  ∃ w, bits b !! Z.to_nat (i / 32) = Some w ∧ is_u32 w ∧ bit b i = Z.testbit w (i mod 32).
Proof.
  intros (Hn & Hl & Hu) Hi. unfold bit.
  destruct (lookup_lt_is_Some_2 (bits b) (Z.to_nat (i / 32))) as [w Hw].
  { apply Nat2Z.inj_lt. rewrite Z2Nat.id by (apply Z.div_pos; lia).
    apply Z.div_lt_upper_bound; lia. }
  exists w. rewrite Hw. split_and!; [done| | |done];
    rewrite Forall_lookup in Hu; specialize (Hu _ _ Hw); lia.
Qed.

(** Changing one element so that exactly bit [i] gets value [v]. *)
Lemma upd_elem_bit b i f v :
  wf b → 0 <= i < BitCount b →
  (∀ w, is_u32 w → is_u32 (f w) ∧
        ∀ j, 0 <= j → Z.testbit (f w) j = if j =? i mod 32 then v w else Z.testbit w j) →
  ∃ b', upd_elem (BmElementIndex i) f b = Ok (tt, b') ∧ wf b' ∧ BitCount b' = BitCount b ∧
        length (bits b') = length (bits b) ∧
        ∀ j, 0 <= j → bit b' j =
          if j =? i then match bits b !! Z.to_nat (i / 32) with Some w => v w | None => false end
          else bit b j.
Proof.
  intros Hwf Hi Hf. destruct (elem_lookup b i Hwf Hi) as (w & Hw & Hwu & _).
  destruct (Hf w Hwu) as [Hfu Hfb]. pose proof (Z.mod_pos_bound i 32).
  unfold upd_elem, BmElementIndex, ELEM_BITS. rewrite Hw.
  eexists. split; [done|]. split_and!; simpl; [|done|by rewrite length_insert|].
  - destruct Hwf as (Hn & Hl & Hu). split_and!; simpl; [lia|lia|by rewrite length_insert|].
    apply Forall_insert; [done|]. done.
  - intros j Hj. unfold bit; simpl.
    pose proof (Z.div_mod i 32). pose proof (Z.div_mod j 32).
    pose proof (Z.mod_pos_bound j 32). pose proof (Z.div_pos i 32). pose proof (Z.div_pos j 32).
    destruct (decide (j / 32 = i / 32)) as [Hq|Hq].
    + rewrite Hq, list_lookup_insert_eq by (by eapply lookup_lt_Some).
      rewrite Hfb, Hw by lia.
      destruct (Z.eqb_spec (j mod 32) (i mod 32)), (Z.eqb_spec j i);
        [done|lia|congruence|done].
    + rewrite list_lookup_insert_ne by lia.
      destruct (Z.eqb_spec j i); [congruence|done].
Qed.

Lemma is_u32_bits w : 0 <= w → (∀ j, 32 <= j → Z.testbit w j = false) → is_u32 w.
Proof. intros Hw Hb. apply is_u32_fix, u32_of_bits. auto. Qed.

Lemma mark_word i w : is_u32 w →
  is_u32 (Z.lor w (BmBitMask i)) ∧
  ∀ j, 0 <= j → Z.testbit (Z.lor w (BmBitMask i)) j =
                if j =? i mod 32 then true else Z.testbit w j.
Proof.
  intros Hw. rewrite mask_pow. pose proof (Z.mod_pos_bound i 32).
  assert (∀ j, 0 <= j → Z.testbit (Z.lor w (2 ^ (i mod 32))) j =
            if j =? i mod 32 then true else Z.testbit w j) as Hb.
  { intros j Hj. rewrite Z.lor_spec, Z.pow2_bits_eqb, (Z.eqb_sym (i mod 32)) by lia.
    by destruct (j =? i mod 32); rewrite ?orb_true_r, ?orb_false_r. }
  split; [|done]. apply is_u32_bits.
  - apply Z.lor_nonneg. split; [lia|]. apply Z.pow_nonneg. lia.
  - intros j Hj. rewrite Hb, (u32_high_bits w) by lia.
    destruct (Z.eqb_spec j (i mod 32)); [lia|done].
Qed.

Lemma reset_word i w : is_u32 w →
  is_u32 (Z.land w (u32 (Z.lnot (BmBitMask i)))) ∧
  ∀ j, 0 <= j → Z.testbit (Z.land w (u32 (Z.lnot (BmBitMask i)))) j =
                if j =? i mod 32 then false else Z.testbit w j.
Proof.
  intros Hw. rewrite mask_pow. pose proof (Z.mod_pos_bound i 32).
  assert (∀ j, 0 <= j → Z.testbit (Z.land w (u32 (Z.lnot (2 ^ (i mod 32))))) j =
            if j =? i mod 32 then false else Z.testbit w j) as Hb.
  { intros j Hj. rewrite Z.land_spec, u32_testbit, Z.lnot_spec, Z.pow2_bits_eqb by lia.
    rewrite (Z.eqb_sym (i mod 32)). destruct (Z.ltb_spec j 32).
    - by destruct (j =? i mod 32); simpl; rewrite ?andb_false_r, ?andb_true_r.
    - rewrite (u32_high_bits w) by lia. by destruct (j =? i mod 32). }
  split; [|done]. apply is_u32_bits; [apply Z.land_nonneg; lia|].
  intros j Hj. rewrite Hb, (u32_high_bits w) by lia. by destruct (j =? i mod 32).
Qed.

Lemma flip_word i w : is_u32 w →
  is_u32 (Z.lxor w (BmBitMask i)) ∧
  ∀ j, 0 <= j → Z.testbit (Z.lxor w (BmBitMask i)) j =
                if j =? i mod 32 then negb (Z.testbit w (i mod 32)) else Z.testbit w j.
Proof.
  intros Hw. rewrite mask_pow. pose proof (Z.mod_pos_bound i 32).
  assert (∀ j, 0 <= j → Z.testbit (Z.lxor w (2 ^ (i mod 32))) j =
            if j =? i mod 32 then negb (Z.testbit w (i mod 32)) else Z.testbit w j) as Hb.
  { intros j Hj. rewrite Z.lxor_spec, Z.pow2_bits_eqb, (Z.eqb_sym (i mod 32)) by lia.
    destruct (Z.eqb_spec j (i mod 32)) as [->|]; by rewrite ?xorb_true_r, ?xorb_false_r. }
  split; [|done]. apply is_u32_bits.
  - apply Z.lxor_nonneg. split; intros; [apply Z.pow_nonneg|]; lia.
  - intros j Hj. rewrite Hb, (u32_high_bits w j) by lia.
    destruct (Z.eqb_spec j (i mod 32)); [lia|done].
Qed.

(** A bitmap of the same shape, and the bits changed in a range. *)
Definition same_shape (b b' : BITMAP) : Prop :=
  wf b' ∧ BitCount b' = BitCount b ∧ length (bits b') = length (bits b).

Lemma Set_spec b i v :
  wf b → 0 <= i < BitCount b →
  ∃ b', BmBitmapSet i v b = Ok (tt, b') ∧ same_shape b b' ∧
        ∀ j, 0 <= j → bit b' j = if j =? i then v else bit b j.
Proof.
  intros Hwf Hi. destruct (elem_lookup b i Hwf Hi) as (w & Hw & _).
  unfold BmBitmapSet. unfold bind at 1, gets.
  rewrite assert_true by (apply Z.ltb_lt; lia). unfold BmBitmapMark, BmBitmapReset.
  destruct v.
  - destruct (upd_elem_bit b i (λ w, Z.lor w (BmBitMask i)) (λ _, true) Hwf Hi)
      as (b' & Hrun & H1 & H2 & H3 & Hb); [apply mark_word|].
    exists b'. split_and!; [done..|]. rewrite Hw in Hb. exact Hb.
  - destruct (upd_elem_bit b i (λ w, Z.land w (u32 (Z.lnot (BmBitMask i)))) (λ _, false) Hwf Hi)
      as (b' & Hrun & H1 & H2 & H3 & Hb); [apply reset_word|].
    exists b'. split_and!; [done..|]. rewrite Hw in Hb. exact Hb.
Qed.

Lemma Flip_spec b i :
  wf b → 0 <= i < BitCount b →
  ∃ b', BmBitmapFlip i b = Ok (tt, b') ∧ same_shape b b' ∧
        ∀ j, 0 <= j → bit b' j = if j =? i then negb (bit b j) else bit b j.
Proof.
  intros Hwf Hi. destruct (elem_lookup b i Hwf Hi) as (w & Hw & _ & Hbit).
  destruct (upd_elem_bit b i (λ w, Z.lxor w (BmBitMask i)) (λ w, negb (Z.testbit w (i mod 32))) Hwf Hi)
    as (b' & Hrun & H1 & H2 & H3 & Hb); [apply flip_word|].
  exists b'. split_and!; [done..|]. rewrite Hw in Hb. intros j Hj. rewrite Hb by done.
  destruct (Z.eqb_spec j i) as [->|]; [by rewrite Hbit|done].
Qed.

Lemma Test_spec b i : wf b → 0 <= i < BitCount b → BmBitmapTest i b = Ok (bit b i, b).
Proof.
  intros Hwf Hi. destruct (elem_lookup b i Hwf Hi) as (w & Hw & Hwu & Hbit).
  unfold BmBitmapTest. unfold bind at 1, gets.
  rewrite assert_true by (apply Z.ltb_lt; lia).
  unfold bind, deref, BmElementIndex, ELEM_BITS. rewrite Hw. unfold ret. do 2 f_equal.
  rewrite Hbit, mask_pow. pose proof (Z.mod_pos_bound i 32).
  destruct (Z.eqb_spec (Z.land w (2 ^ (i mod 32))) 0) as [H0|H0]; simpl.
  - assert (Z.testbit (Z.land w (2 ^ (i mod 32))) (i mod 32) = false) as Ht
      by (rewrite H0; apply Z.bits_0).
    rewrite Z.land_spec, Z.pow2_bits_true, andb_true_r in Ht by lia. done.
  - destruct (Z.testbit w (i mod 32)) eqn:Ht; [done|]. exfalso. apply H0.
    apply Z.bits_inj_0. intros j. rewrite Z.land_spec.
    destruct (decide (j = i mod 32)) as [->|Hj]; [by rewrite Ht|].
    rewrite Z.pow2_bits_false by done. by rewrite andb_false_r.
Qed.

(** ** Ranges *)

Definition in_range (start cnt j : Z) : bool := (start <=? j) && (j <? start + cnt).

Lemma check_range_ok b start cnt :
  wf b → 0 <= start → 0 <= cnt → start + cnt <= BitCount b →
  check_range start cnt b = Ok (tt, b).
Proof.
  intros (Hn & _) Hs Hc Hr. unfold check_range, bind at 1, gets.
  rewrite assert_true by (apply Z.leb_le; lia).
  rewrite u32_small by lia. destruct (Z.leb_spec (start + cnt) (BitCount b)); [done|lia].
Qed.

Lemma same_shape_refl b : wf b → same_shape b b.
Proof. intros Hwf. split; [exact Hwf|done]. Qed.

Lemma same_shape_trans b1 b2 b3 : same_shape b1 b2 → same_shape b2 b3 → same_shape b1 b3.
Proof. intros (?&?&?) (?&?&?). split_and!; [done|congruence|congruence]. Qed.

Lemma set_loop_spec n i v b :
  wf b → 0 <= i → i + Z.of_nat n <= BitCount b →
  ∃ b', set_loop n i v b = Ok (tt, b') ∧ same_shape b b' ∧
        ∀ j, 0 <= j → bit b' j = if in_range i (Z.of_nat n) j then v else bit b j.
Proof.
  revert i b. induction n as [|n IH]; intros i b Hwf Hi Hn.
  { exists b. split_and!; [done|by apply same_shape_refl|]. intros j Hj. unfold in_range.
    destruct (Z.leb_spec i j), (Z.ltb_spec j (i + Z.of_nat 0)); simpl; [lia|done..]. }
  cbn [set_loop]. rewrite u32_small by (destruct Hwf; lia).
  destruct (Set_spec b i v Hwf) as (b1 & Hrun & Hsh & Hb1); [lia|].
  destruct (IH (i + 1) b1) as (b2 & Hrun2 & Hsh2 & Hb2);
    [apply Hsh|lia|destruct Hsh as (_ & -> & _); lia|].
  exists b2. rewrite (bind_Ok _ _ _ _ _ Hrun). split_and!; [done|by eapply same_shape_trans..|].
  intros j Hj. rewrite Hb2, Hb1 by done. unfold in_range.
  destruct (Z.leb_spec i j), (Z.leb_spec (i + 1) j), (Z.ltb_spec j (i + Z.of_nat (S n))),
    (Z.ltb_spec j (i + 1 + Z.of_nat n)), (Z.eqb_spec j i); simpl; done || lia.
Qed.

Lemma SetMultiple_spec b start cnt v :
  wf b → 0 <= start → 0 <= cnt → start + cnt <= BitCount b →
  ∃ b', BmBitmapSetMultiple start cnt v b = Ok (tt, b') ∧ same_shape b b' ∧
        ∀ j, 0 <= j → bit b' j = if in_range start cnt j then v else bit b j.
Proof.
  intros Hwf Hs Hc Hr. unfold BmBitmapSetMultiple.
  rewrite (bind_Ok _ _ _ _ _ (check_range_ok _ _ _ Hwf Hs Hc Hr)).
  destruct (set_loop_spec (Z.to_nat cnt) start v b) as (b' & ? & ? & Hb);
    [done|done|lia|]. rewrite Z2Nat.id in Hb by done. eauto.
Qed.

(** All bits of a range have a value. *)
Definition all_bits (b : BITMAP) (start cnt : Z) (v : bool) : Prop :=
  ∀ j, start <= j < start + cnt → bit b j = v.

Lemma contains_loop_spec n i v b :
  wf b → 0 <= i → i + Z.of_nat n <= BitCount b →
  ∃ r, contains_loop n i v b = Ok (r, b) ∧ (r = false ↔ all_bits b i (Z.of_nat n) (negb v)).
Proof.
  revert i. induction n as [|n IH]; intros i Hwf Hi Hn.
  { exists false. split; [done|]. split; [|done]. intros _ j Hj. lia. }
  cbn [contains_loop]. rewrite u32_small by (destruct Hwf; lia).
  rewrite (bind_Ok _ _ _ _ _ (Test_spec b i Hwf ltac:(lia))).
  destruct (Bool.eqb (bit b i) v) eqn:Ht.
  - apply eqb_prop in Ht. exists true. split; [done|]. split; [done|]. intros Hall.
    assert (bit b i = negb v) as Hi' by (apply Hall; lia). rewrite Ht in Hi'. by destruct v.
  - apply eqb_false_iff in Ht. destruct (IH (i + 1)) as (r & Hrun & Hr); [done|lia|lia|].
    exists r. split; [done|]. rewrite Hr. unfold all_bits. split.
    + intros Hall j Hj. destruct (decide (j = i)) as [->|]; [by destruct (bit b i), v|].
      apply Hall. lia.
    + intros Hall j Hj. apply Hall. lia.
Qed.

Lemma Contains_spec b start cnt v :
  wf b → 0 <= start → 0 <= cnt → start + cnt <= BitCount b →
  ∃ r, BmBitmapContains start cnt v b = Ok (r, b) ∧ (r = false ↔ all_bits b start cnt (negb v)).
Proof.
  intros Hwf Hs Hc Hr. unfold BmBitmapContains.
  rewrite (bind_Ok _ _ _ _ _ (check_range_ok _ _ _ Hwf Hs Hc Hr)).
  destruct (contains_loop_spec (Z.to_nat cnt) start v b) as (r & ? & Hb);
    [done|done|lia|]. rewrite Z2Nat.id in Hb by done. eauto.
Qed.

Lemma scan_loop_spec n i cnt v b :
  wf b → 0 <= i → 0 <= cnt → i + Z.of_nat n + cnt <= BitCount b + 1 →
  BitCount b < BITMAP_ERROR →
  ∃ r, scan_loop n i cnt v b = Ok (r, b) ∧
       (r ≠ BITMAP_ERROR → i <= r < i + Z.of_nat n ∧ all_bits b r cnt v) ∧
       ∀ j, i <= j < i + Z.of_nat n → r = BITMAP_ERROR ∨ j < r → ¬ all_bits b j cnt v.
Proof.
  revert i. induction n as [|n IH]; intros i Hwf Hi Hc Hn He.
  { exists BITMAP_ERROR. split; [done|]. split; [done|]. intros j Hj. lia. }
  cbn [scan_loop].
  destruct (Contains_spec b i cnt (negb v) Hwf) as (c & Hrun & Hcv); [lia..|].
  rewrite negb_involutive in Hcv. rewrite (bind_Ok _ _ _ _ _ Hrun). destruct c.
  - destruct (IH (i + 1)) as (r & Hr & Hok & Hno); [done|lia..|].
    exists r. split; [done|]. split; [intros Hne; specialize (Hok Hne); split; [lia|tauto]|].
    intros j Hj Hrj. destruct (decide (j = i)) as [->|]; [|apply Hno; [lia|done]].
    intros Hall. apply Hcv in Hall. done.
  - exists i. split; [done|]. split; [split; [lia|by apply Hcv]|].
    intros j Hj [->|]; lia.
Qed.

(** [fits b j cnt v]: a run of [cnt] bits of value [v] starts at [j]. *)
Definition fits (b : BITMAP) (j cnt : Z) (v : bool) : Prop :=
  j + cnt <= BitCount b ∧ all_bits b j cnt v.

Lemma Scan_spec b start cnt v :
  wf b → 0 <= start <= BitCount b → 0 <= cnt → BitCount b < BITMAP_ERROR →
  ∃ r, BmBitmapScan start cnt v b = Ok (r, b) ∧
       (r ≠ BITMAP_ERROR → start <= r ∧ fits b r cnt v) ∧
       ∀ j, start <= j → r = BITMAP_ERROR ∨ j < r → ¬ fits b j cnt v.
Proof.
  intros Hwf Hs Hc He. unfold BmBitmapScan. unfold bind at 1, gets.
  rewrite assert_true by (apply Z.leb_le; lia).
  destruct (Z.leb_spec cnt (BitCount b)).
  - destruct (decide (start <= BitCount b - cnt + 1)).
    + destruct (scan_loop_spec (Z.to_nat (BitCount b - cnt + 1 - start)) start cnt v b)
        as (r & Hrun & Hok & Hno); [done|lia|lia|lia|done|].
      rewrite Z2Nat.id in Hok, Hno by lia. exists r. split; [done|]. unfold fits. split.
      * intros Hne. destruct (Hok Hne) as [? ?]. split; [lia|]. split; [lia|done].
      * intros j Hj Hr [Hf Hall]. eapply Hno; [|exact Hr|exact Hall]. lia.
    + replace (Z.to_nat (BitCount b - cnt + 1 - start)) with 0%nat by lia.
      exists BITMAP_ERROR. split; [done|]. split; [done|]. intros j Hj _ [Hf _]. lia.
  - exists BITMAP_ERROR. split; [done|]. split; [done|]. intros j Hj _ [Hf _]. lia.
Qed.

Lemma ScanAndFlip_spec b start cnt v :
  wf b → 0 <= start <= BitCount b → 0 <= cnt → BitCount b < BITMAP_ERROR →
  ∃ r b', BmBitmapScanAndFlip start cnt v b = Ok (r, b') ∧ same_shape b b' ∧
    (∀ j, start <= j → r = BITMAP_ERROR ∨ j < r → ¬ fits b j cnt v) ∧
    (r ≠ BITMAP_ERROR → start <= r ∧ fits b r cnt v) ∧
    (r = BITMAP_ERROR → b' = b) ∧
    ∀ j, 0 <= j → bit b' j =
      if negb (r =? BITMAP_ERROR) && in_range r cnt j then negb v else bit b j.
Proof.
  intros Hwf Hs Hc He. destruct (Scan_spec b start cnt v Hwf Hs Hc He) as (r & Hrun & Hok & Hno).
  unfold BmBitmapScanAndFlip. rewrite (bind_Ok _ _ _ _ _ Hrun).
  destruct (Z.eqb_spec r BITMAP_ERROR) as [Hr|Hr]; simpl.
  - exists r, b. split; [done|]. split; [by apply same_shape_refl|].
    split; [exact Hno|]. split; [by intros|]. split; [done|].
    by rewrite (proj2 (Z.eqb_eq _ _) Hr).
  - destruct (Hok Hr) as [Hsr [Hf Hall]].
    destruct (SetMultiple_spec b r cnt (negb v) Hwf) as (b' & Hrun' & Hsh & Hb); [lia..|].
    exists r, b'. rewrite (bind_Ok _ _ _ _ _ Hrun'). split; [done|]. split; [done|].
    split; [exact Hno|]. split; [by intros|]. split; [done|].
    by rewrite (proj2 (Z.eqb_neq _ _) Hr).
Qed.

(** C29: first fit.  On a well-formed bitmap BmBitmapScanAndFlip returns and
    its result is the lowest index at or after [start] where [cnt] consecutive
    bits have the value, or BITMAP_ERROR when there is no such index; in the
    first case exactly those [cnt] bits are flipped, in the second nothing
    changes. *)
Theorem scan_and_flip_first_fit b start cnt v :
  wf b → 0 <= start <= BitCount b → 0 <= cnt → BitCount b < BITMAP_ERROR →
  ∃ r b', BmBitmapScanAndFlip start cnt v b = Ok (r, b') ∧ same_shape b b' ∧
    (∀ j, start <= j → r = BITMAP_ERROR ∨ j < r → ¬ fits b j cnt v) ∧
    (r ≠ BITMAP_ERROR → start <= r ∧ fits b r cnt v) ∧
    (r = BITMAP_ERROR → b' = b) ∧
    ∀ j, 0 <= j → bit b' j =
      if negb (r =? BITMAP_ERROR) && in_range r cnt j then negb v else bit b j.
Proof. exact (ScanAndFlip_spec b start cnt v). Qed.

Definition sample : BITMAP := Bitmap 40 [0xFFFFFFF9; 0x7].

Lemma scan_and_flip_first_fit_witness :
  ∃ r b', BmBitmapScanAndFlip 0 5 false sample = Ok (r, b') ∧ r = 35 ∧ bits b' = [0xFFFFFFF9; 0xFF].
Proof.
  destruct (scan_and_flip_first_fit sample 0 5 false) as (r & b' & Hrun & _ & _).
  - split_and!; [vm_compute; done..|]. repeat constructor; vm_compute; done.
  - vm_compute. done.
  - lia.
  - vm_compute. reflexivity.
  - exists r, b'. split; [exact Hrun|]. vm_compute in Hrun. injection Hrun as <- <-.
    split; reflexivity.
Defined.

(** BmBitmapScanAndFlip with a count of 0 changes no bit and returns
    [start], for every [start] within the bitmap (the comment of the function
    says it returns 0). *)
Theorem scan_and_flip_zero_returns_start b start v :
  wf b → 0 <= start <= BitCount b → BitCount b < BITMAP_ERROR →
  ∃ b', BmBitmapScanAndFlip start 0 v b = Ok (start, b') ∧ ∀ j, 0 <= j → bit b' j = bit b j.
Proof.
  intros Hwf Hs He. unfold BmBitmapScanAndFlip.
  destruct (Scan_spec b start 0 v Hwf Hs ltac:(lia) He) as (r & Hrun & Hok & Hno).
  assert (fits b start 0 v) as Hfit by (split; [lia|intros j Hj; lia]).
  assert (r = start) as ->.
  { destruct (decide (r = BITMAP_ERROR)) as [Hr|Hr]; [exfalso; by apply (Hno start); [lia|left|]|].
    destruct (Hok Hr) as [Hle _]. destruct (decide (start < r)); [|lia].
    exfalso. by apply (Hno start); [lia|right|]. }
  rewrite (bind_Ok _ _ _ _ _ Hrun).
  destruct (Z.eqb_spec start BITMAP_ERROR); [lia|]. simpl.
  destruct (SetMultiple_spec b start 0 (negb v) Hwf) as (b' & Hrun' & Hsh & Hb); [lia..|].
  exists b'. rewrite (bind_Ok _ _ _ _ _ Hrun'). split; [done|].
  intros j Hj. rewrite Hb by done. unfold in_range.
  destruct (Z.leb_spec start j), (Z.ltb_spec j (start + 0)); simpl; [lia|done..].
Qed.

Lemma scan_and_flip_zero_returns_start_witness :
  ∃ b', BmBitmapScanAndFlip 7 0 true sample = Ok (7, b') ∧ ∀ j, 0 <= j → bit b' j = bit sample j.
Proof.
  apply scan_and_flip_zero_returns_start.
  - split_and!; [vm_compute; done..|]. repeat constructor; vm_compute; done.
  - vm_compute. done.
  - vm_compute. reflexivity.
Defined.

Lemma count_loop_spec n i v acc b :
  wf b → 0 <= i → i + Z.of_nat n <= BitCount b → 0 <= acc → acc + Z.of_nat n < 2 ^ 32 →
  count_loop n i v acc b =
    Ok (acc + Z.of_nat (length (filter (λ j, bit b j = v) (seqZ i (Z.of_nat n)))), b).
Proof.
  revert i acc. induction n as [|n IH]; intros i acc Hwf Hi Hn Ha Hov.
  { change (seqZ i (Z.of_nat 0)) with (@nil Z). rewrite filter_nil, Z.add_0_r. done. }
  cbn [count_loop]. rewrite u32_small by (destruct Hwf; lia).
  rewrite (bind_Ok _ _ _ _ _ (Test_spec b i Hwf ltac:(lia))).
  rewrite (seqZ_cons i) by lia. rewrite filter_cons.
  replace (Z.pred (Z.of_nat (S n))) with (Z.of_nat n) by lia.
  replace (Z.succ i) with (i + 1) by lia.
  destruct (Bool.eqb (bit b i) v) eqn:Ht.
  - apply eqb_prop in Ht. rewrite decide_True by done. rewrite u32_small by lia.
    rewrite IH by (done || lia). do 2 f_equal. cbn [length]. lia.
  - apply eqb_false_iff in Ht. rewrite decide_False by done. apply IH; done || lia.
Qed.

(** BmBitmapCount returns exactly how many of the [cnt] bits from [start]
    have the value, and leaves the bitmap unchanged. *)
Theorem bitmap_count_exact b start cnt v :
  wf b → 0 <= start → 0 <= cnt → start + cnt <= BitCount b →
  BmBitmapCount start cnt v b =
    Ok (Z.of_nat (length (filter (λ j, bit b j = v) (seqZ start cnt))), b).
Proof.
  intros Hwf Hs Hc Hr. unfold BmBitmapCount.
  rewrite (bind_Ok _ _ _ _ _ (check_range_ok _ _ _ Hwf Hs Hc Hr)).
  rewrite count_loop_spec by (done || (destruct Hwf; lia)).
  by rewrite Z2Nat.id by done.
Qed.

Lemma bitmap_count_exact_witness :
  BmBitmapCount 0 40 true sample = Ok (33, sample).
Proof.
  rewrite (bitmap_count_exact sample 0 40 true).
  - vm_compute. reflexivity.
  - split_and!; [vm_compute; done..|]. repeat constructor; vm_compute; done.
  - lia.
  - lia.
  - vm_compute. done.
Defined.

Lemma SetAll_spec b v :
  wf b → ∃ b', BmBitmapSetAll v b = Ok (tt, b') ∧ same_shape b b' ∧
    ∀ j, 0 <= j < BitCount b → bit b' j = v.
Proof.
  intros Hwf. destruct (SetMultiple_spec b 0 (BitCount b) v Hwf) as (b' & Hrun & Hsh & Hb);
    [lia|apply Hwf|lia|].
  unfold BmBitmapSetAll. unfold bind at 1, gets, BmBitmapSize. rewrite Hrun.
  exists b'. split; [done|]. split; [done|]. intros j Hj. rewrite Hb by lia. unfold in_range.
  destruct (Z.leb_spec 0 j), (Z.ltb_spec j (0 + BitCount b)); simpl; [done|lia..].
Qed.

(** BmBitmapCreateInBuffer makes, in a buffer its size check accepts, a
    well-formed bitmap of the requested number of bits, all clear. *)
Theorem create_in_buffer_all_clear n block size :
  0 < n < 2 ^ 32 - 64 → Forall (λ w, is_u32 w) block →
  size = 4 * Z.of_nat (length block) → size < 2 ^ 32 → BmBitmapBufferSize n <= size →
  ∃ b, BmBitmapCreateInBuffer n block size = Ok b ∧ wf b ∧ BitCount b = n ∧
       ∀ j, 0 <= j < n → bit b j = false.
Proof.
  intros Hn Hu Hsz Hlt Hbs. unfold BmBitmapCreateInBuffer.
  destruct (Z.eqb_spec n 0); [lia|]. cbn [andb].
  destruct (Z.leb_spec (BmBitmapBufferSize n) size); [|lia].
  assert (wf (Bitmap n (drop 2 block))) as Hwf.
  { unfold BmBitmapBufferSize, BmByteCount, BmElementCount, sizeof_BITMAP, ELEM_BITS in Hbs.
    pose proof (Z.div_mod (n + 32 - 1) 32). pose proof (Z.mod_pos_bound (n + 32 - 1) 32).
    rewrite (u32_small (n + 32 - 1)) in Hbs by lia.
    rewrite (u32_small (4 * _)) in Hbs by lia. rewrite u32_small in Hbs by lia.
    split_and!; simpl; [lia|lia| |].
    - rewrite length_drop. lia.
    - by apply Forall_drop. }
  destruct (SetAll_spec _ false Hwf) as (b & Hrun & (Hwf' & Hc & _) & Hb).
  rewrite Hrun. exists b. split_and!; [done|apply Hwf'..|done|done].
Qed.

Lemma create_in_buffer_all_clear_witness :
  ∃ b, BmBitmapCreateInBuffer 33 [1; 2; 0xFFFFFFFF; 0xFFFFFFFF; 7] 20 = Ok b ∧ wf b ∧
       BitCount b = 33 ∧ ∀ j, 0 <= j < 33 → bit b j = false.
Proof.
  apply create_in_buffer_all_clear.
  - lia.
  - repeat constructor; vm_compute; done.
  - reflexivity.
  - lia.
  - vm_compute. done.
Defined.
