(* ===== verification/Str.v ===== *)
(** * Str: the string and memory routines of lib/string.c

    Memory is a map from addresses to bytes (0 to 255); reading or writing an
    address it does not contain is a fault.  Loops bounded by a size argument
    are recursive on it; the loops that run to the terminator take fuel, and
    the theorems say how much is enough. *)

From S2P Require Import Prelude.

#[local] Coercion Z.of_nat : nat >-> Z.

Abbreviation memory := (gmap Z Z).

Definition ld (p : addr) : M memory Z := deref (λ m, m !! p).
Definition st (p : addr) (b : Z) : M memory unit :=
  let! _ := ld p in modify (λ m, <[p := b]> m).

(** ** Lengths *)

Fixpoint strlen_loop (fuel : nat) (s : addr) (n : Z) : M memory Z :=
  match fuel with
  | O => halt NoFuel
  | S f =>
      let! c := ld s in
      if c =? 0 then ret n else strlen_loop f (s + 1) (s32 (n + 1))
  end.
Definition strlen (fuel : nat) (s : addr) : M memory Z := strlen_loop fuel s 0.

Fixpoint strnlen_loop (size : nat) (s : addr) (n : Z) : M memory Z :=
  match size with
  | O => ret n
  | S k =>
      let! c := ld s in
      if c =? 0 then ret n else strnlen_loop k (s + 1) (s32 (n + 1))
  end.
Definition strnlen (s : addr) (size : Z) : M memory Z := strnlen_loop (Z.to_nat size) s 0.

(** ** Copies of strings *)

Fixpoint strcpy_loop (fuel : nat) (dst src : addr) : M memory unit :=
  match fuel with
  | O => halt NoFuel
  | S f =>
      let! c := ld src in
      st dst c >>>
      if c =? 0 then ret tt else strcpy_loop f (dst + 1) (src + 1)
  end.
Definition strcpy (fuel : nat) (dst src : addr) : M memory addr :=
  strcpy_loop fuel dst src >>> ret dst.

(** The source pointer stops at the terminator, which pads the destination. *)
Fixpoint strncpy_loop (size : nat) (dst src : addr) : M memory unit :=
  match size with
  | O => ret tt
  | S k =>
      let! c := ld src in
      st dst c >>>
      let! c' := ld src in
      strncpy_loop k (dst + 1) (if c' =? 0 then src else src + 1)
  end.
Definition strncpy (dst src : addr) (size : Z) : M memory addr :=
  strncpy_loop (Z.to_nat size) dst src >>> ret dst.

Fixpoint strlcpy_loop (size : nat) (dst src : addr) : M memory addr :=
  match size with
  | O | S O => ret dst
  | S k =>
      let! c := ld src in
      if c =? 0 then ret dst else st dst c >>> strlcpy_loop k (dst + 1) (src + 1)
  end.
Definition strlcpy (dst src : addr) (size : Z) : M memory Z :=
  if 0 <? size then
    let! e := strlcpy_loop (Z.to_nat size) dst src in
    st e 0 >>> ret (e - dst)
  else ret 0.

(** ** Comparisons *)

Fixpoint strcmp (fuel : nat) (p q : addr) : M memory Z :=
  match fuel with
  | O => halt NoFuel
  | S f =>
      let! a := ld p in
      if a =? 0 then let! b := ld q in ret (a - b)
      else let! b := ld q in if a =? b then strcmp f (p + 1) (q + 1) else ret (a - b)
  end.

Fixpoint strncmp_loop (n : nat) (p q : addr) : M memory Z :=
  match n with
  | O => ret 0
  | S k =>
      let! a := ld p in
      if a =? 0 then let! b := ld q in ret (a - b)
      else let! b := ld q in if a =? b then strncmp_loop k (p + 1) (q + 1) else ret (a - b)
  end.
Definition strncmp (p q : addr) (n : Z) : M memory Z := strncmp_loop (Z.to_nat n) p q.

Fixpoint memcmp_loop (n : nat) (p q : addr) : M memory Z :=
  match n with
  | O => ret 0
  | S k =>
      let! a := ld p in
      let! b := ld q in
      if a =? b then memcmp_loop k (p + 1) (q + 1) else ret (a - b)
  end.
Definition memcmp (v1 v2 : addr) (n : Z) : M memory Z := memcmp_loop (Z.to_nat n) v1 v2.

(** ** Searches *)

Fixpoint strchr (fuel : nat) (s : addr) (c : Z) : M memory addr :=
  match fuel with
  | O => halt NoFuel
  | S f =>
      let! a := ld s in
      if a =? 0 then ret NULL else if a =? c then ret s else strchr f (s + 1) c
  end.

Fixpoint strfind (fuel : nat) (s : addr) (c : Z) : M memory addr :=
  match fuel with
  | O => halt NoFuel
  | S f =>
      let! a := ld s in
      if a =? 0 then ret s else if a =? c then ret s else strfind f (s + 1) c
  end.

Fixpoint memfind_loop (n : nat) (s : addr) (c : Z) : M memory addr :=
  match n with
  | O => ret s
  | S k => let! a := ld s in if a =? u8 c then ret s else memfind_loop k (s + 1) c
  end.
Definition memfind (s : addr) (c n : Z) : M memory addr := memfind_loop (Z.to_nat n) s c.

(** ** Blocks of memory *)

Fixpoint fill_loop (n : nat) (p : addr) (c : Z) : M memory unit :=
  match n with
  | O => ret tt
  | S k => st p (u8 c) >>> fill_loop k (p + 1) c
  end.

(** [m = n] converts the size to an int: nothing is written when the size is
    2^31 or more. *)
Definition memset (v : addr) (c n : Z) : M memory addr :=
  fill_loop (Z.to_nat (s32 n)) v c >>> ret v.

(** [while (n-- > 0) *d++ = *s++] *)
Fixpoint copy_up (n : nat) (d s : addr) : M memory unit :=
  match n with
  | O => ret tt
  | S k => let! b := ld s in st d b >>> copy_up k (d + 1) (s + 1)
  end.

(** [while (n-- > 0) *--d = *--s] *)
Fixpoint copy_down (n : nat) (d s : addr) : M memory unit :=
  match n with
  | O => ret tt
  | S k => let! b := ld (s - 1) in st (d - 1) b >>> copy_down k (d - 1) (s - 1)
  end.

Definition memcpy (dst src n : Z) : M memory addr :=
  copy_up (Z.to_nat n) dst src >>> ret dst.

Definition memmove (dst src n : Z) : M memory addr :=
  (if (src <? dst) && (dst <? u32 (src + n))
   then copy_down (Z.to_nat n) (u32 (dst + n)) (u32 (src + n))
   else copy_up (Z.to_nat n) dst src) >>>
  ret dst.

(** ** Numbers *)

Definition digit (c : Z) : option Z :=
  if (48 <=? c) && (c <=? 57) then Some (c - 48)
  else if (97 <=? c) && (c <=? 122) then Some (c - 97 + 10)
  else if (65 <=? c) && (c <=? 90) then Some (c - 65 + 10)
  else None.

Fixpoint skip_blanks (fuel : nat) (s : addr) : M memory addr :=
  match fuel with
  | O => halt NoFuel
  | S f =>
      let! c := ld s in
      if (c =? 32) || (c =? 9) then skip_blanks f (s + 1) else ret s
  end.

Fixpoint digits_loop (fuel : nat) (s : addr) (val base : Z) : M memory (Z * addr) :=
  match fuel with
  | O => halt NoFuel
  | S f =>
      let! c := ld s in
      match digit c with
      | None => ret (val, s)
      | Some dig =>
          if base <=? dig then ret (val, s)
          else digits_loop f (s + 1) (s32 (s32 (val * base) + dig)) base
      end
  end.

(** The value and what *endptr gets. *)
Definition strtol (fuel : nat) (s : addr) (base : Z) : M memory (Z * addr) :=
  let! s := skip_blanks fuel s in
  let! c := ld s in
  let '(s, neg) := if c =? 43 then (s + 1, false) else if c =? 45 then (s + 1, true) else (s, false) in
  let! c0 := ld s in
  let! hex :=
    (if ((base =? 0) || (base =? 16)) && (c0 =? 48)
     then let! c1 := ld (s + 1) in ret (c1 =? 120) else ret false) in
  let '(s, base) :=
    if (hex : bool) then (s + 2, 16)
    else if (base =? 0) && (c0 =? 48) then (s + 1, 8)
    else if base =? 0 then (s, 10)
    else (s, base) in
  let! (val, e) := digits_loop fuel s 0 base in
  ret (if neg : bool then s32 (- val) else val, e).

(** ** Lemmas *)

Definition mapped (m : memory) (p n : Z) : Prop := ∀ i, 0 <= i < n → is_Some (m !! (p + i)).

(** The bytes [l] are in memory from [p] on. *)
Definition holds (m : memory) (p : addr) (l : list Z) : Prop :=
  ∀ i b, l !! i = Some b → m !! (p + Z.of_nat i) = Some b.

(** A C string. *)
Definition cstring (m : memory) (p : addr) (l : list Z) : Prop :=
  holds m p (l ++ [0]) ∧ 0 ∉ l.

(** The n bytes from [d] are the former bytes from [s]; the rest is unchanged. *)
Definition copied (m m' : memory) (d s n : Z) : Prop :=
  (∀ i, 0 <= i < n → m' !! (d + i) = m !! (s + i)) ∧
  (∀ a, a < d ∨ d + n <= a → m' !! a = m !! a).

Lemma ld_run {B} p (k : Z → M memory B) m b : m !! p = Some b → bind (ld p) k m = k b m.
Proof. apply deref_run. Qed.

Lemma st_run {B} p b (k : unit → M memory B) m :
  is_Some (m !! p) → bind (st p b) k m = k tt (<[p := b]> m).
Proof. intros [c H]. unfold st. rewrite bind_assoc, (ld_run _ _ _ c H). apply modify_run. Qed.

Lemma holds_cons m p b l : holds m p (b :: l) ↔ m !! p = Some b ∧ holds m (p + 1) l.
Proof.
  split.
  - intros H. split; [specialize (H 0%nat b eq_refl); by rewrite Z.add_0_r in H|].
    intros i c Hi. specialize (H (S i) c Hi). by replace (p + 1 + i) with (p + S i) by lia.
  - intros [H1 H2] [|i] c Hi; simpl in Hi.
    + injection Hi as ->. by rewrite Z.add_0_r.
    + replace (p + S i) with (p + 1 + i) by lia. by apply H2.
Qed.

Lemma holds_app m p l1 l2 : holds m p (l1 ++ l2) ↔ holds m p l1 ∧ holds m (p + length l1) l2.
Proof.
  revert p. induction l1 as [|b l1 IH]; intros p; simpl.
  - rewrite Z.add_0_r. split; [by split|by intros [_ ?]].
  - rewrite !holds_cons, IH. replace (p + 1 + length l1) with (p + S (length l1)) by lia. tauto.
Qed.

Lemma mapped_step m p n b : 0 < n → mapped m p n → mapped (<[p := b]> m) (p + 1) (n - 1).
Proof.
  intros Hn H i Hi. rewrite lookup_insert_ne by lia.
  replace (p + 1 + i) with (p + (1 + i)) by lia. apply H. lia.
Qed.

Lemma mapped_insert m a b p n : mapped m p n → mapped (<[a := b]> m) p n.
Proof.
  intros H i Hi. destruct (decide (a = p + i)) as [->|].
  - rewrite lookup_insert_eq. eauto.
  - rewrite lookup_insert_ne by done. by apply H.
Qed.

(** Copying upwards is right when the destination does not start inside the
    source, copying downwards when it does not end inside it. *)
Lemma copy_up_spec n m d s :
  mapped m s (Z.of_nat n) → mapped m d (Z.of_nat n) → d <= s ∨ s + Z.of_nat n <= d →
  ∃ m', copy_up n d s m = Ok (tt, m') ∧ copied m m' d s (Z.of_nat n).
Proof.
  revert m d s. induction n as [|n IH]; intros m d s Hs Hd Hov.
  { exists m. repeat split; lia || done. }
  pose proof (Hs 0 ltac:(lia)) as [b Hb]. rewrite Z.add_0_r in Hb.
  pose proof (Hd 0 ltac:(lia)) as Hd0. rewrite Z.add_0_r in Hd0.
  destruct (IH (<[d := b]> m) (d + 1) (s + 1)) as (m' & Hr & Hc & Ho); [..|lia|].
  - apply mapped_insert. intros i Hi. replace (s + 1 + i) with (s + (1 + i)) by lia. apply Hs. lia.
  - replace (Z.of_nat n) with (Z.of_nat (S n) - 1) by lia. apply mapped_step; [lia|done].
  - exists m'. cbn [copy_up]. rewrite (ld_run _ _ _ b Hb), (st_run _ _ _ _ Hd0). split; [done|].
    split.
    + intros i Hi. destruct (decide (i = 0)) as [->|].
      * rewrite (Ho (d + 0)), !Z.add_0_r, lookup_insert_eq by lia. done.
      * replace (d + i) with (d + 1 + (i - 1)) by lia. rewrite Hc by lia.
        replace (s + 1 + (i - 1)) with (s + i) by lia. rewrite lookup_insert_ne by lia. done.
    + intros a Ha. rewrite Ho by lia. rewrite lookup_insert_ne by lia. done.
Qed.

Lemma copy_down_spec n m d s :
  mapped m s (Z.of_nat n) → mapped m d (Z.of_nat n) → s <= d ∨ d + Z.of_nat n <= s →
  ∃ m', copy_down n (d + Z.of_nat n) (s + Z.of_nat n) m = Ok (tt, m') ∧
    copied m m' d s (Z.of_nat n).
Proof.
  revert m d s. induction n as [|n IH]; intros m d s Hs Hd Hov.
  { exists m. repeat split; lia || done. }
  pose proof (Hs n ltac:(lia)) as [b Hb]. pose proof (Hd n ltac:(lia)) as Hdn.
  destruct (IH (<[d + n := b]> m) d s) as (m' & Hr & Hc & Ho); [..|lia|].
  - apply mapped_insert. intros i Hi. apply Hs. lia.
  - apply mapped_insert. intros i Hi. apply Hd. lia.
  - exists m'. cbn [copy_down].
    replace (s + Z.of_nat (S n) - 1) with (s + n) by lia.
    replace (d + Z.of_nat (S n) - 1) with (d + n) by lia.
    rewrite (ld_run _ _ _ b Hb), (st_run _ _ _ _ Hdn). split; [done|].
    split.
    + intros i Hi. destruct (decide (i = n)) as [->|].
      * rewrite Ho, lookup_insert_eq by lia. done.
      * rewrite Hc by lia. rewrite lookup_insert_ne by lia. done.
    + intros a Ha. rewrite Ho by lia. rewrite lookup_insert_ne by lia. done.
Qed.

(** Reading digits: the value grows by one digit per character. *)
Definition digit_char (d : Z) : Z := if d <? 10 then 48 + d else 97 + (d - 10).
Definition value (base v : Z) (ds : list Z) : Z := fold_left (λ a d, a * base + d) ds v.

Lemma digit_of_char d : 0 <= d < 36 → digit (digit_char d) = Some d.
Proof.
  intros H. unfold digit_char, digit. destruct (Z.ltb_spec d 10).
  - destruct (Z.leb_spec 48 (48 + d)), (Z.leb_spec (48 + d) 57); try lia. simpl. f_equal. lia.
  - destruct (Z.leb_spec 48 (97 + (d - 10))), (Z.leb_spec (97 + (d - 10)) 57); try lia. simpl.
    destruct (Z.leb_spec 97 (97 + (d - 10))), (Z.leb_spec (97 + (d - 10)) 122); try lia. simpl.
    f_equal. lia.
Qed.

Lemma value_ge base v ds :
  1 <= base → 0 <= v → Forall (λ d, 0 <= d < base) ds → v <= value base v ds.
Proof.
  revert v. induction ds as [|d ds IH]; intros v Hb Hv H; [simpl; lia|].
  apply Forall_cons in H as [Hd H]. simpl. transitivity (v * base + d); [nia|].
  apply IH; [done|nia|done].
Qed.

Lemma digits_loop_run fuel ds m p v base :
  (length ds < fuel)%nat → 2 <= base <= 36 → 0 <= v →
  Forall (λ d, 0 <= d < base) ds → value base v ds < 2 ^ 31 →
  holds m p (map digit_char ds ++ [0]) →
  digits_loop fuel p v base m = Ok ((value base v ds, p + length ds), m).
Proof.
  revert fuel p v. induction ds as [|d ds IH]; intros fuel p v Hf Hb Hv Hds Hval Hm;
    (destruct fuel as [|f]; [simpl in Hf; lia|]); cbn [digits_loop].
  - apply holds_cons in Hm as [Hc _]. rewrite (ld_run _ _ _ 0 Hc). simpl.
    by rewrite Z.add_0_r.
  - apply Forall_cons in Hds as [Hd Hds]. apply holds_cons in Hm as [Hc Hm].
    rewrite (ld_run _ _ _ _ Hc), digit_of_char by lia.
    pose proof (value_ge base (v * base + d) ds ltac:(lia) ltac:(nia) Hds).
    simpl in Hval. destruct (Z.leb_spec base d); [lia|].
    rewrite (s32_small (v * base)) by nia. rewrite s32_small by nia.
    rewrite IH; [|simpl in Hf; lia|done|nia|done|done|done]. simpl. do 3 f_equal. lia.
Qed.

Lemma skip_blanks_run fuel m p bl c r :
  (length bl < fuel)%nat → Forall (λ b, b = 32 ∨ b = 9) bl → c ≠ 32 → c ≠ 9 →
  holds m p (bl ++ c :: r) → skip_blanks fuel p m = Ok (p + length bl, m).
Proof.
  revert fuel p. induction bl as [|b bl IH]; intros fuel p Hf Hb H1 H2 Hm;
    (destruct fuel as [|f]; [simpl in Hf; lia|]); cbn [skip_blanks].
  - apply holds_cons in Hm as [Hc _]. rewrite (ld_run _ _ _ _ Hc). simpl. rewrite Z.add_0_r.
    destruct (Z.eqb_spec c 32), (Z.eqb_spec c 9); done.
  - apply Forall_cons in Hb as [Hb0 Hb]. apply holds_cons in Hm as [Hc Hm].
    rewrite (ld_run _ _ _ _ Hc).
    replace ((b =? 32) || (b =? 9)) with true by (destruct Hb0 as [-> | ->]; done).
    rewrite IH; [|simpl in Hf; lia|done..]. simpl. do 2 f_equal. lia.
Qed.

Lemma strncpy_loop_run (n : nat) m d s l :
  holds m s (l ++ [0]) → 0 ∉ l → mapped m d n →
  d + n <= s ∨ s + length l < d →
  ∃ m', strncpy_loop n d s m = Ok (tt, m') ∧
    holds m' d (take n (l ++ replicate n 0)) ∧
    (∀ a, a < d ∨ d + n <= a → m' !! a = m !! a).
Proof.
  revert m d s l. induction n as [|n IH]; intros m d s l Hm H0 Hd Hdis.
  { exists m. split; [done|]. split; [by intros i b Hi|done]. }
  pose proof (Hd 0 ltac:(lia)) as Hd0. rewrite Z.add_0_r in Hd0.
  set (c := match l with [] => 0 | b :: _ => b end).
  assert (m !! s = Some c) as Hc by (destruct l; apply holds_cons in Hm as [? _]; done).
  assert (holds (<[d := c]> m) s (l ++ [0])) as Hm1.
  { intros i b Hi. rewrite lookup_insert_ne; [by apply Hm|].
    apply lookup_lt_Some in Hi. rewrite length_app in Hi. simpl in Hi. lia. }
  assert (mapped (<[d := c]> m) (d + 1) n) as Hd1.
  { replace (Z.of_nat n) with (Z.of_nat (S n) - 1) by lia. apply mapped_step; [lia|done]. }
  cbn [strncpy_loop]. rewrite (ld_run _ _ _ c Hc), (st_run _ _ _ _ Hd0).
  assert ((<[d := c]> m) !! s = Some c) as Hc1
    by (rewrite lookup_insert_ne by (intros ->; destruct l; simpl in Hdis; lia); done).
  rewrite (ld_run _ _ _ c Hc1).
  destruct (IH (<[d := c]> m) (d + 1) (if c =? 0 then s else s + 1) (tail l))
    as (m' & Hr & Hh & Ho); [..|exists m'; split; [exact Hr|split]].
  - destruct l as [|b l]; [exact Hm1|]. simpl in c |- *. destruct (Z.eqb_spec c 0) as [E|_].
    { exfalso. apply H0. unfold c in E. rewrite E. by left. }
    by apply holds_cons in Hm1 as [_ ?].
  - intros Hin. apply H0. destruct l; [done|by right].
  - done.
  - destruct l as [|b l]; simpl in c, Hdis |- *.
    + unfold c. simpl. lia.
    + destruct (Z.eqb_spec c 0) as [E|_]; [|lia].
      exfalso. apply H0. unfold c in E. rewrite E. by left.
  - assert (take (S n) (l ++ replicate (S n) 0) = c :: take n (tail l ++ replicate n 0)) as ->.
    { destruct l as [|b l]; simpl; [done|]. f_equal.
      change (0 :: replicate n 0) with (replicate (S n) 0).
      rewrite replicate_S_end, app_assoc, take_app_le; [done|].
      rewrite length_app, length_replicate. lia. }
    apply holds_cons. split; [|done]. rewrite Ho by lia. apply lookup_insert_eq.
  - intros a Ha. rewrite Ho by lia. rewrite lookup_insert_ne by lia. done.
Qed.

(** ** The theorems *)

(** Memmove copies the former contents of the source to the destination
    whether or not the two overlap, and changes nothing else. *)
Theorem memmove_copies m dst src n :
  mapped m src n → mapped m dst n → 0 <= src → 0 <= dst → 0 <= n →
  src + n < 2 ^ 32 → dst + n < 2 ^ 32 →
  ∃ m', memmove dst src n m = Ok (dst, m') ∧ copied m m' dst src n.
Proof.
  intros Hs Hd Hs0 Hd0 Hn Hs1 Hd1. unfold memmove.
  rewrite !u32_small by lia. rewrite <- (Z2Nat.id n) in Hs, Hd by done.
  destruct (Z.ltb_spec src dst), (Z.ltb_spec dst (src + n)); cbn [andb].
  - destruct (copy_down_spec (Z.to_nat n) m dst src Hs Hd ltac:(lia)) as (m' & Hr & Hc).
    rewrite Z2Nat.id in * by done. exists m'. by rewrite (bind_Ok _ _ _ _ _ Hr).
  - destruct (copy_up_spec (Z.to_nat n) m dst src Hs Hd ltac:(lia)) as (m' & Hr & Hc).
    rewrite Z2Nat.id in * by done. exists m'. by rewrite (bind_Ok _ _ _ _ _ Hr).
  - destruct (copy_up_spec (Z.to_nat n) m dst src Hs Hd ltac:(lia)) as (m' & Hr & Hc).
    rewrite Z2Nat.id in * by done. exists m'. by rewrite (bind_Ok _ _ _ _ _ Hr).
  - destruct (copy_up_spec (Z.to_nat n) m dst src Hs Hd ltac:(lia)) as (m' & Hr & Hc).
    rewrite Z2Nat.id in * by done. exists m'. by rewrite (bind_Ok _ _ _ _ _ Hr).
Qed.

(** Strncpy writes exactly [size] bytes: the string cut at [size], and
    zeros after its end; a string of [size] characters or more is left without
    a terminator. *)
Theorem strncpy_pads m dst src l size :
  cstring m src l → 0 <= size → mapped m dst size →
  dst + size <= src ∨ src + length l < dst →
  ∃ m', strncpy dst src size m = Ok (dst, m') ∧
    holds m' dst (take (Z.to_nat size) (l ++ replicate (Z.to_nat size) 0)) ∧
    (∀ a, a < dst ∨ dst + size <= a → m' !! a = m !! a).
Proof.
  intros [Hm H0] Hn Hd Hdis. rewrite <- (Z2Nat.id size) in Hd, Hdis by done.
  destruct (strncpy_loop_run _ m dst src l Hm H0 Hd Hdis) as (m' & Hr & Hh & Ho).
  rewrite Z2Nat.id in Ho by done. exists m'. unfold strncpy.
  by rewrite (bind_Ok _ _ _ _ _ Hr).
Qed.

(** The sign strtol reads before the digits. *)
Inductive sign := Plain | Plus | Minus.
Definition sign_text (s : sign) : list Z :=
  match s with Plain => [] | Plus => [43] | Minus => [45] end.
Definition signed (s : sign) (v : Z) : Z := match s with Minus => - v | _ => v end.

Lemma digit_char_range d : 0 <= d < 36 →
  48 <= digit_char d <= 57 ∨ 97 <= digit_char d <= 122.
Proof. unfold digit_char. intros. destruct (Z.ltb_spec d 10); lia. Qed.

Lemma no_prefix ds base : Forall (λ d, 0 <= d < base) ds → base <= 36 →
  base ≠ 16 ∨ nth 1 (map digit_char ds ++ [0]) 0 ≠ 120.
Proof.
  intros H Hb. destruct (decide (base = 16)) as [->|]; [right|by left].
  destruct ds as [|d [|e ds]]; simpl; [done..|].
  apply Forall_cons in H as [_ [He _]%Forall_cons]. unfold digit_char.
  destruct (Z.ltb_spec e 10); lia.
Qed.

(** The run of strtol on a number. *)
Lemma strtol_run m p fuel base bl sg ds :
  2 <= base <= 36 → Forall (λ b, b = 32 ∨ b = 9) bl → Forall (λ d, 0 <= d < base) ds →
  value base 0 ds < 2 ^ 31 → (length bl + length ds < fuel)%nat →
  holds m p (bl ++ sign_text sg ++ map digit_char ds ++ [0]) →
  strtol fuel p base m
  = Ok ((signed sg (value base 0 ds), p + length bl + length (sign_text sg) + length ds), m).
Proof.
  intros Hb Hbl Hds Hv Hf Hm. unfold strtol.
  pose proof (value_ge base 0 ds ltac:(lia) ltac:(lia) Hds) as Hv0.
  assert (∃ c r, sign_text sg ++ map digit_char ds ++ [0] = c :: r ∧ c ≠ 32 ∧ c ≠ 9 ∧
    (sg = Plain → c ≠ 43 ∧ c ≠ 45)) as (c & r & Ec & H32 & H9 & Hpl).
  { destruct sg; simpl; [|eexists _, _; split; [reflexivity|done]..].
    destruct ds as [|d ds]; simpl; [eexists _, _; by split|].
    apply Forall_cons in Hds as [Hd _]. pose proof (digit_char_range d ltac:(lia)).
    eexists _, _. split; [reflexivity|]. lia. }
  pose proof Hm as Hm1. rewrite Ec in Hm1.
  rewrite (bind_Ok _ _ _ _ _ (skip_blanks_run fuel m p bl c r ltac:(lia) Hbl H32 H9 Hm1)).
  apply holds_app in Hm1 as [_ [Hc _]%holds_cons]. rewrite (ld_run _ _ _ _ Hc).
  apply holds_app in Hm as [_ Hm]. apply holds_app in Hm as [_ Hm].
  set (q := p + length bl) in *.
  assert ((if c =? 43 then (q + 1, false) else if c =? 45 then (q + 1, true) else (q, false))
    = (q + length (sign_text sg), match sg with Minus => true | _ => false end)) as ->.
  { destruct sg; simpl in Ec |- *.
    - destruct (Hpl eq_refl). destruct (Z.eqb_spec c 43), (Z.eqb_spec c 45); try done.
      by rewrite Z.add_0_r.
    - by injection Ec as <- _.
    - by injection Ec as <- _. }
  set (q' := q + length (sign_text sg)) in *.
  assert (∃ c0 r0, map digit_char ds ++ [0] = c0 :: r0) as (c0 & r0 & E0)
    by (destruct ds; simpl; eauto).
  pose proof Hm as Hm0. rewrite E0 in Hm0. apply holds_cons in Hm0 as [Hc0 Hr0].
  rewrite (ld_run _ _ _ _ Hc0).
  assert ((if ((base =? 0) || (base =? 16)) && (c0 =? 48)
     then let! c1 := ld (q' + 1) in ret (c1 =? 120) else ret false) m = Ok (false, m)) as Hx.
  { replace (base =? 0) with false by (symmetry; apply Z.eqb_neq; lia). simpl.
    destruct (Z.eqb_spec base 16) as [E16|]; [|done].
    destruct (Z.eqb_spec c0 48) as [->|]; [|done]. simpl.
    destruct r0 as [|c1 r0]. { destruct ds as [|d [|]]; done. }
    apply holds_cons in Hr0 as [Hc1 _]. rewrite (ld_run _ _ _ _ Hc1).
    destruct (no_prefix ds base Hds) as [?|Hx]; [lia|done|]. rewrite E0 in Hx. simpl in Hx.
    destruct (Z.eqb_spec c1 120); done. }
  rewrite (bind_Ok _ _ _ _ _ Hx). replace (base =? 0) with false by (symmetry; apply Z.eqb_neq; lia).
  cbn [andb]. unfold bind at 1.
  rewrite (digits_loop_run fuel ds m q' 0 base ltac:(lia) Hb ltac:(lia) Hds Hv Hm).
  unfold ret. do 3 f_equal. destruct sg; simpl; [done..|]. apply s32_small. lia.
Qed.

(** Strtol reads blanks, a sign and the digits of a number in a base from
    2 to 36, and returns the number with the address of the character after
    its digits, when the number fits in 31 bits. *)
Theorem strtol_parses m p fuel base bl sg ds :
  2 <= base <= 36 → Forall (λ b, b = 32 ∨ b = 9) bl → Forall (λ d, 0 <= d < base) ds →
  value base 0 ds < 2 ^ 31 → (length bl + length ds < fuel)%nat →
  holds m p (bl ++ sign_text sg ++ map digit_char ds ++ [0]) →
  strtol fuel p base m
  = Ok ((signed sg (value base 0 ds), p + length bl + length (sign_text sg) + length ds), m).
Proof. apply strtol_run. Qed.

(** ** Concrete runs *)

Definition bytes (p : addr) (l : list Z) : memory :=
  list_to_map (imap (λ i b, (p + Z.of_nat i, b)) l).

Lemma memmove_copies_witness :
  ∃ m', memmove 12 10 4 (bytes 10 [1; 2; 3; 4; 5; 6; 7]) = Ok (12, m') ∧
    map (λ i, m' !! i) [10; 11; 12; 13; 14; 15; 16]
    = map Some [1; 2; 1; 2; 3; 4; 7].
Proof.
  destruct (memmove_copies (bytes 10 [1; 2; 3; 4; 5; 6; 7]) 12 10 4) as (m' & Hr & Hc & Ho);
    try lia.
  - intros i Hi. assert (i = 0 ∨ i = 1 ∨ i = 2 ∨ i = 3) as [-> | [-> | [-> | ->]]] by lia; vm_compute; eauto.
  - intros i Hi. assert (i = 0 ∨ i = 1 ∨ i = 2 ∨ i = 3) as [-> | [-> | [-> | ->]]] by lia; vm_compute; eauto.
  - exists m'. split; [exact Hr|]. cbn [map].
    pose proof (Hc 0 ltac:(lia)) as H0. pose proof (Hc 1 ltac:(lia)) as H1.
    pose proof (Hc 2 ltac:(lia)) as H2. pose proof (Hc 3 ltac:(lia)) as H3.
    change (12 + 0) with 12 in H0. change (12 + 1) with 13 in H1.
    change (12 + 2) with 14 in H2. change (12 + 3) with 15 in H3.
    rewrite H0, H1, H2, H3, !Ho by lia. vm_compute. reflexivity.
Defined.

Lemma strncpy_pads_witness :
  ∃ m', strncpy 20 10 4 (bytes 10 [65; 66; 0; 1; 1; 1; 1; 1; 1; 1; 9; 9; 9; 9; 9]) = Ok (20, m') ∧
    holds m' 20 [65; 66; 0; 0].
Proof.
  destruct (strncpy_pads (bytes 10 [65; 66; 0; 1; 1; 1; 1; 1; 1; 1; 9; 9; 9; 9; 9]) 20 10 [65; 66] 4)
    as (m' & Hr & Hh & _).
  - split; [|set_solver]. intros [|[|[|i]]] b [= <-]; vm_compute; reflexivity.
  - lia.
  - intros i Hi. assert (i = 0 ∨ i = 1 ∨ i = 2 ∨ i = 3) as [-> | [-> | [-> | ->]]] by lia; vm_compute; eauto.
  - right. simpl. lia.
  - exists m'. split; [exact Hr|exact Hh].
Defined.

Lemma strtol_parses_witness :
  strtol 10 10 16 (bytes 10 [32; 45; 50; 97; 0]) = Ok ((- 42, 14), bytes 10 [32; 45; 50; 97; 0]).
Proof.
  apply (strtol_parses (bytes 10 [32; 45; 50; 97; 0]) 10 10 16 [32] Minus [2; 10]).
  - lia.
  - repeat constructor.
  - repeat constructor; lia.
  - vm_compute. reflexivity.
  - simpl. lia.
  - intros [|[|[|[|[|i]]]]] b [= <-]; vm_compute; reflexivity.
Defined.
