(* ===== verification/Vga.v ===== *)
(** * Vga: the text display (kern/drivers/vga.c)

    The display memory is one array of 25 rows of 80 cells (a character and
    its attribute); an access outside of it is a fault.  Of the hardware, the
    model keeps the two registers of the display controller with the position
    of its cursor, which outlive the driver. *)

From S2P Require Import Prelude Types.

Definition COL_CNT : Z := 80.
Definition ROW_CNT : Z := 25.
Definition GRAY_ON_BLACK : Z := 7.

Abbreviation cell := (Z * Z)%type.

Record vga := Vga {
  XPos : Z; YPos : Z;
  VgaBuffer : list cell;
  Initilized : bool;
  CursorHigh : Z; CursorLow : Z }.

Definition set_pos (x y : Z) (s : vga) : vga :=
  Vga x y (VgaBuffer s) (Initilized s) (CursorHigh s) (CursorLow s).
Definition set_buffer (b : list cell) (s : vga) : vga :=
  Vga (XPos s) (YPos s) b (Initilized s) (CursorHigh s) (CursorLow s).
Definition set_init (s : vga) : vga :=
  Vga (XPos s) (YPos s) (VgaBuffer s) true (CursorHigh s) (CursorLow s).
Definition set_high (d : Z) (s : vga) : vga :=
  Vga (XPos s) (YPos s) (VgaBuffer s) (Initilized s) d (CursorLow s).
Definition set_low (d : Z) (s : vga) : vga :=
  Vga (XPos s) (YPos s) (VgaBuffer s) (Initilized s) (CursorHigh s) d.

(** A word written to port 0x3d4: the register, and the value for it. *)
Definition outw_3d4 (v : Z) : M vga unit :=
  let r := Z.land v 255 in
  let d := Z.land (Z.shiftr v 8) 255 in
  if r =? 14 then modify (set_high d) else if r =? 15 then modify (set_low d) else ret tt.

Definition MoveCursor : M vga unit :=
  let! s := gets id in
  let cp := u16 (XPos s + COL_CNT * YPos s) in
  outw_3d4 (u16 (Z.lor 14 (Z.land cp 0xff00))) >>>
  outw_3d4 (u16 (Z.lor 15 (Z.shiftl cp 8))).

Definition FindCursor : M vga (Z * Z) :=
  let! s := gets id in
  let cp := u16 (Z.lor (Z.shiftl (CursorHigh s) 8) (CursorLow s)) in
  ret (cp mod COL_CNT, cp / COL_CNT).

Definition VgaInit : M vga unit :=
  let! i := gets Initilized in
  assert_ (negb i) >>>
  let! (x, y) := FindCursor in
  modify (set_pos x y) >>>
  modify set_init.

(** VgaBuffer[y][x] *)
Definition put_cell (y x : Z) (c : cell) : M vga unit :=
  let! b := gets VgaBuffer in
  let i := Z.to_nat (y * COL_CNT + x) in
  if (i <? length b)%nat then modify (set_buffer (<[i := c]> b)) else halt Fault.

Fixpoint clear_row_loop (n : nat) (y x : Z) : M vga unit :=
  match n with
  | O => ret tt
  | S k => put_cell y x (32, GRAY_ON_BLACK) >>> clear_row_loop k y (x + 1)
  end.
Definition ClearRow (y : Z) : M vga unit := clear_row_loop (Z.to_nat COL_CNT) y 0.

Fixpoint clear_screen_loop (n : nat) (y : Z) : M vga unit :=
  match n with
  | O => ret tt
  | S k => ClearRow y >>> clear_screen_loop k (y + 1)
  end.
Definition Clear : M vga unit :=
  clear_screen_loop (Z.to_nat ROW_CNT) 0 >>> modify (set_pos 0 0) >>> MoveCursor.

(** memmove of all the rows but the first to the start of the display. *)
Definition scroll : M vga unit :=
  let! b := gets VgaBuffer in
  let n := Z.to_nat (COL_CNT * (ROW_CNT - 1)) in
  let c := Z.to_nat COL_CNT in
  if (c + n <=? length b)%nat then modify (set_buffer (take n (drop c b) ++ drop n b)) else halt Fault.

Definition Newline : M vga unit :=
  let! y := gets YPos in
  modify (set_pos 0 (u32 (y + 1))) >>>
  if ROW_CNT <=? u32 (y + 1) then
    modify (set_pos 0 (ROW_CNT - 1)) >>> scroll >>> ClearRow (ROW_CNT - 1)
  else ret tt.

Definition Vga_putc (ch : Z) : M vga unit :=
  let! s := gets id in
  let x := XPos s in
  let y := YPos s in
  (if ch =? 10 then Newline
   else if ch =? 12 then Clear
   else if ch =? 8 then (if 0 <? x then modify (set_pos (x - 1) y) else ret tt)
   else if ch =? 13 then modify (set_pos 0 y)
   else if ch =? 9 then
     let x' := ROUNDUP (u32 (x + 1)) 8 in
     modify (set_pos x' y) >>> if COL_CNT <=? x' then Newline else ret tt
   else
     put_cell y x (u8 ch, GRAY_ON_BLACK) >>>
     modify (set_pos (u32 (x + 1)) y) >>>
     if COL_CNT <=? u32 (x + 1) then Newline else ret tt) >>>
  MoveCursor.

(** ** Well-formed displays *)

Record screen_ok (s : vga) : Prop := {
  so_size : length (VgaBuffer s) = 2000%nat;
  so_x : 0 <= XPos s < 80;
  so_y : 0 <= YPos s < 25 }.

(** The controller shows the cursor where the driver writes next. *)
Definition cursor_ok (s : vga) : Prop := FindCursor s = Ok ((XPos s, YPos s), s).

Definition blank : cell := (32, GRAY_ON_BLACK).

Lemma u16_small x : 0 <= x < 2 ^ 16 → u16 x = x.
Proof. intros H. unfold u16. by rewrite Z.mod_small. Qed.

(** Splitting a 16-bit word into the two registers and back. *)
Lemma cursor_bytes cp : 0 <= cp < 2000 →
  Z.land (u16 (Z.lor 14 (Z.land cp 0xff00))) 255 = 14 ∧
  Z.land (u16 (Z.lor 15 (Z.shiftl cp 8))) 255 = 15 ∧
  u16 (Z.lor (Z.shiftl (Z.land (Z.shiftr (u16 (Z.lor 14 (Z.land cp 0xff00))) 8) 255) 8)
             (Z.land (Z.shiftr (u16 (Z.lor 15 (Z.shiftl cp 8))) 8) 255)) = cp.
Proof.
  intros H.
  assert (∀ n, (n < 2000)%nat →
    let cp := Z.of_nat n in
    bool_decide (Z.land (u16 (Z.lor 14 (Z.land cp 0xff00))) 255 = 14 ∧
      Z.land (u16 (Z.lor 15 (Z.shiftl cp 8))) 255 = 15 ∧
      u16 (Z.lor (Z.shiftl (Z.land (Z.shiftr (u16 (Z.lor 14 (Z.land cp 0xff00))) 8) 255) 8)
             (Z.land (Z.shiftr (u16 (Z.lor 15 (Z.shiftl cp 8))) 8) 255)) = cp)) as Hall.
  { assert (Forall (λ n, let cp := Z.of_nat n in
      bool_decide (Z.land (u16 (Z.lor 14 (Z.land cp 0xff00))) 255 = 14 ∧
      Z.land (u16 (Z.lor 15 (Z.shiftl cp 8))) 255 = 15 ∧
      u16 (Z.lor (Z.shiftl (Z.land (Z.shiftr (u16 (Z.lor 14 (Z.land cp 0xff00))) 8) 255) 8)
             (Z.land (Z.shiftr (u16 (Z.lor 15 (Z.shiftl cp 8))) 8) 255)) = cp)) (seq 0 2000)) as Hf
      by (apply (bool_decide_unpack _); vm_compute; exact I).
    intros n Hn. rewrite Forall_forall in Hf. apply Hf, elem_of_seq. lia. }
  specialize (Hall (Z.to_nat cp) ltac:(lia)). rewrite Z2Nat.id in Hall by lia.
  by apply (bool_decide_unpack _) in Hall.
Qed.

Lemma outw_high v s : Z.land v 255 = 14 →
  outw_3d4 v s = Ok (tt, set_high (Z.land (Z.shiftr v 8) 255) s).
Proof. intros H. unfold outw_3d4. cbv zeta. by rewrite H. Qed.

Lemma outw_low v s : Z.land v 255 = 15 →
  outw_3d4 v s = Ok (tt, set_low (Z.land (Z.shiftr v 8) 255) s).
Proof. intros H. unfold outw_3d4. cbv zeta. by rewrite H. Qed.

Lemma move_cursor_run s : screen_ok s →
  ∃ h l, MoveCursor s = Ok (tt, set_low l (set_high h s)) ∧
    FindCursor (set_low l (set_high h s)) = Ok ((XPos s, YPos s), set_low l (set_high h s)).
Proof.
  intros [_ Hx Hy]. unfold MoveCursor, COL_CNT. rewrite gets_run. cbv beta. simpl id.
  rewrite (u16_small (XPos s + 80 * YPos s)) by lia.
  set (cp := XPos s + 80 * YPos s). destruct (cursor_bytes cp ltac:(lia)) as (H1 & H2 & H3).
  rewrite (bind_Ok _ _ _ _ _ (outw_high _ s H1)), outw_low by done.
  eexists _, _. split; [done|]. unfold FindCursor. rewrite gets_run. cbv beta.
  cbn [CursorHigh CursorLow set_low set_high id]. rewrite H3. unfold ret, COL_CNT, cp. repeat f_equal.
  - rewrite Z.mul_comm, Z.mod_add, Z.mod_small; lia.
  - rewrite Z.mul_comm, Z.div_add, Z.div_small; lia.
Qed.

(** ** Clearing and scrolling *)

Lemma set_buffer_twice b b' s : set_buffer b (set_buffer b' s) = set_buffer b s.
Proof. done. Qed.

Lemma put_cell_run y x c s :
  0 <= y * 80 + x < Z.of_nat (length (VgaBuffer s)) →
  put_cell y x c s = Ok (tt, set_buffer (<[Z.to_nat (y * 80 + x) := c]> (VgaBuffer s)) s).
Proof.
  intros H. unfold put_cell, COL_CNT. rewrite gets_run.
  destruct (Nat.ltb_spec (Z.to_nat (y * 80 + x)) (length (VgaBuffer s))); [done|lia].
Qed.

Lemma clear_row_loop_run n y x s A R :
  VgaBuffer s = A ++ R → Z.of_nat (length A) = y * 80 + x → (n <= length R)%nat →
  clear_row_loop n y x s = Ok (tt, set_buffer (A ++ replicate n blank ++ drop n R) s).
Proof.
  revert x s A R. induction n as [|n IH]; intros x s A R Hb HA HR.
  - change (replicate 0 blank ++ drop 0 R) with R. rewrite <- Hb. by destruct s.
  - cbn [clear_row_loop]. destruct R as [|r R]; simpl in HR; [lia|].
    rewrite (bind_Ok _ _ _ _ _ (put_cell_run y x _ s ltac:(rewrite Hb, length_app; simpl; lia))).
    rewrite Hb, insert_app_r_alt by lia.
    replace (Z.to_nat (y * 80 + x) - length A)%nat with 0%nat by lia. cbn [insert list_insert].
    rewrite (IH (x + 1) _ (A ++ [blank]) R); [|simpl; by rewrite <- app_assoc|rewrite length_app; simpl; lia|lia].
    by rewrite <- app_assoc.
Qed.

Lemma clear_row_run y s A R :
  VgaBuffer s = A ++ R → Z.of_nat (length A) = y * 80 → (80 <= length R)%nat →
  ClearRow y s = Ok (tt, set_buffer (A ++ replicate 80 blank ++ drop 80 R) s).
Proof. intros Hb HA HR. apply clear_row_loop_run; [done|lia|done]. Qed.

Lemma clear_loop_run n y s A R :
  VgaBuffer s = A ++ R → Z.of_nat (length A) = y * 80 → (80 * n <= length R)%nat →
  clear_screen_loop n y s = Ok (tt, set_buffer (A ++ replicate (80 * n) blank ++ drop (80 * n) R) s).
Proof.
  revert y s A R. induction n as [|n IH]; intros y s A R Hb HA HR.
  - change (replicate (80 * 0) blank ++ drop (80 * 0) R) with R. rewrite <- Hb. by destruct s.
  - cbn [clear_screen_loop]. rewrite (bind_Ok _ _ _ _ _ (clear_row_run y s A R Hb HA ltac:(lia))).
    rewrite (IH (y + 1) _ (A ++ replicate 80 blank) (drop 80 R)).
    + rewrite set_buffer_twice, drop_drop, <- app_assoc.
      replace (80 * S n)%nat with (80 + 80 * n)%nat by lia.
      by rewrite replicate_add, <- (app_assoc (replicate 80 blank)).
    + simpl. by rewrite <- app_assoc.
    + rewrite length_app, length_replicate. lia.
    + rewrite length_drop. lia.
Qed.

Lemma newline_run s : length (VgaBuffer s) = 2000%nat → 0 <= YPos s < 25 →
  Newline s = Ok (tt,
    if YPos s =? 24 then set_pos 0 24 (set_buffer (drop 80 (VgaBuffer s) ++ replicate 80 blank) s)
    else set_pos 0 (YPos s + 1) s).
Proof.
  intros Hsz Hy. unfold Newline, ROW_CNT. rewrite gets_run, modify_run, u32_small by lia.
  destruct (Z.leb_spec 25 (YPos s + 1)), (Z.eqb_spec (YPos s) 24); try lia; [|done].
  rewrite modify_run. unfold scroll, COL_CNT, ROW_CNT. rewrite bind_assoc, gets_run.
  cbn [VgaBuffer set_pos]. rewrite Hsz. set (b := VgaBuffer s) in *.
  change (Z.to_nat 80 + Z.to_nat (80 * (25 - 1)) <=? 2000)%nat with true. cbv beta iota zeta.
  rewrite modify_run. change (Z.to_nat (80 * (25 - 1))) with 1920%nat. change (Z.to_nat 80) with 80%nat.
  rewrite (clear_row_run _ _ (take 1920 (drop 80 b)) (drop 1920 b)); try done.
  - rewrite (take_ge (drop 80 b)) by (rewrite length_drop; lia).
    rewrite (drop_ge (drop 1920 b)) by (rewrite length_drop; lia). by rewrite app_nil_r.
  - rewrite length_take, length_drop, Hsz. done.
  - rewrite length_drop. lia.
Qed.

Lemma newline_ok s : length (VgaBuffer s) = 2000%nat → 0 <= YPos s < 25 →
  ∃ s', Newline s = Ok (tt, s') ∧ screen_ok s'.
Proof.
  intros Hsz Hy. rewrite (newline_run s Hsz Hy). eexists. split; [done|].
  destruct (Z.eqb_spec (YPos s) 24); constructor; simpl; try lia.
  rewrite length_app, length_drop, Hsz. done.
Qed.

Lemma clear_run s : length (VgaBuffer s) = 2000%nat →
  ∃ h l, Clear s = Ok (tt, set_low l (set_high h (set_pos 0 0 (set_buffer (replicate 2000 blank) s)))).
Proof.
  intros Hsz. unfold Clear. change (Z.to_nat ROW_CNT) with 25%nat.
  rewrite (bind_Ok _ _ _ _ _ (clear_loop_run 25 0 s [] (VgaBuffer s) eq_refl eq_refl ltac:(lia))).
  rewrite modify_run. rewrite (drop_ge (VgaBuffer s)) by lia. rewrite app_nil_l, app_nil_r.
  change (80 * 25)%nat with 2000%nat.
  destruct (move_cursor_run (set_pos 0 0 (set_buffer (replicate 2000 blank) s))) as (h & l & Hr & _);
    [constructor; [apply length_replicate|simpl; lia..]|]. eauto.
Qed.

(** The state of the display before the cursor is moved. *)
Lemma putc_body_ok ch s : screen_ok s →
  ∃ s', screen_ok s' ∧ Vga_putc ch s = MoveCursor s'.
Proof.
  intros H. pose proof H as [Hsz Hx Hy]. unfold Vga_putc. rewrite gets_run. cbv beta zeta. simpl id.
  destruct (Z.eqb_spec ch 10).
  { destruct (newline_ok s Hsz Hy) as (s' & Hr & H'). exists s'. by rewrite (bind_Ok _ _ _ _ _ Hr). }
  destruct (Z.eqb_spec ch 12).
  { destruct (clear_run s Hsz) as (h & l & Hr). rewrite (bind_Ok _ _ _ _ _ Hr).
    eexists. split; [|done]. constructor; [apply length_replicate|cbn [XPos YPos set_low set_high set_pos set_buffer]; lia..]. }
  destruct (Z.eqb_spec ch 8).
  { exists (if 0 <? XPos s then set_pos (XPos s - 1) (YPos s) s else s).
    destruct (Z.ltb_spec 0 (XPos s)); (split; [|done]); [constructor; simpl; lia|done]. }
  destruct (Z.eqb_spec ch 13).
  { exists (set_pos 0 (YPos s) s). split; [|done]. constructor; simpl; lia. }
  destruct (Z.eqb_spec ch 9).
  - rewrite u32_small by lia. destruct (roundup_spec (XPos s + 1) 8) as [H1 H2]; [lia..|].
    set (x' := ROUNDUP _ _) in *. rewrite bind_assoc, modify_run.
    unfold COL_CNT. destruct (Z.leb_spec 80 x').
    + destruct (newline_ok (set_pos x' (YPos s) s)) as (s' & Hr & H'); [done..|].
      exists s'. by rewrite (bind_Ok _ _ _ _ _ Hr).
    + eexists. split; [|done]. constructor; simpl; lia.
  - rewrite bind_assoc, (bind_Ok _ _ _ _ _ (put_cell_run (YPos s) (XPos s) _ s ltac:(rewrite Hsz; lia))).
    rewrite bind_assoc, modify_run, u32_small by lia. set (s1 := set_pos _ _ _).
    assert (length (VgaBuffer s1) = 2000%nat) as H1 by (simpl; by rewrite length_insert).
    unfold COL_CNT. destruct (Z.leb_spec 80 (XPos s + 1)).
    + destruct (newline_ok s1) as (s' & Hr & H'); [done..|].
      exists s'. by rewrite (bind_Ok _ _ _ _ _ Hr).
    + exists s1. split; [|done]. constructor; simpl in *; lia.
Qed.

(** Writing any character to a well-formed display stays within the display
    memory and leaves it well formed, with the hardware cursor at the position
    of the next character: the driver, started again, would find it. *)
Theorem vga_putc_safe ch s :
  screen_ok s → ∃ s', Vga_putc ch s = Ok (tt, s') ∧ screen_ok s' ∧ cursor_ok s'.
Proof.
  intros H. destruct (putc_body_ok ch s H) as (s1 & [H1 H2 H3] & ->).
  destruct (move_cursor_run s1) as (h & l & -> & Hf); [done|].
  eexists. split; [done|]. split; [done|exact Hf].
Qed.

(** ** The display as a terminal

    [hist] are the lines that are complete, [cur] is the one being written.  A
    line ends with a new-line character or with its 80th character; the display
    shows the last lines, as many as fit, above the current one. *)

Definition term : Type := list (list Z) * list Z.

Definition term_put (ch : Z) (t : term) : term :=
  let '(hist, cur) := t in
  if ch =? 10 then (hist ++ [cur], [])
  else if (length cur =? 79)%nat then (hist ++ [cur ++ [ch]], [])
  else (hist, cur ++ [ch]).

Definition term_write (l : list Z) (t : term) : term := foldl (λ t ch, term_put ch t) t l.

Definition glyph (ch : Z) : cell := (ch, GRAY_ON_BLACK).
Definition row (l : list Z) : list cell := map glyph l ++ replicate (80 - length l) blank.
Definition visible (hist : list (list Z)) : list (list Z) := drop (length hist - 24) hist.

(** The display shows the terminal. *)
Definition shows (t : term) (s : vga) : Prop :=
  let '(hist, cur) := t in
  let vis := visible hist in
  (length cur < 80)%nat ∧ Forall (λ l, length l <= 80)%nat hist ∧
  XPos s = Z.of_nat (length cur) ∧ YPos s = Z.of_nat (length vis) ∧
  VgaBuffer s = concat (map row vis) ++ row cur ++ replicate (80 * (24 - length vis)) blank.

(** Characters that are written as they are, and the new line. *)
Definition plain (ch : Z) : Prop := 0 <= ch < 256 ∧ ch ∉ [8; 9; 12; 13].

Lemma row_length l : (length l <= 80)%nat → length (row l) = 80%nat.
Proof. intros H. unfold row. rewrite length_app, length_map, length_replicate. lia. Qed.

Lemma rows_length ls : Forall (λ l, length l <= 80)%nat ls →
  length (concat (map row ls)) = (80 * length ls)%nat.
Proof.
  induction 1 as [|l ls Hl _ IH]; [done|]. cbn [map concat]. rewrite length_app, row_length, IH by done.
  cbn [length]. lia.
Qed.

Lemma visible_length hist : length (visible hist) = (length hist `min` 24)%nat.
Proof. unfold visible. rewrite length_drop. lia. Qed.

Lemma visible_ok hist : Forall (λ l, length l <= 80)%nat hist → Forall (λ l, length l <= 80)%nat (visible hist).
Proof. apply Forall_drop. Qed.

Lemma visible_app hist l :
  visible (hist ++ [l]) = if decide (length hist < 24)%nat then visible hist ++ [l] else drop 1 (visible hist) ++ [l].
Proof.
  unfold visible. rewrite length_app. cbn [length]. destruct (decide _).
  - replace (length hist + 1 - 24)%nat with 0%nat by lia. replace (length hist - 24)%nat with 0%nat by lia. done.
  - rewrite drop_drop. replace (length hist + 1 - 24)%nat with (length hist - 24 + 1)%nat by lia.
    by rewrite drop_app_le by lia.
Qed.

Lemma shows_ok t s : shows t s → screen_ok s.
Proof.
  destruct t as [hist cur]. intros (Hc & Hh & Hx & Hy & Hb).
  pose proof (visible_length hist) as Hv. constructor; [|lia..].
  rewrite Hb, !length_app, rows_length, row_length, length_replicate by (lia || by apply visible_ok). lia.
Qed.

(** Writing a character in the current row. *)
Lemma row_snoc cur ch : (length cur < 80)%nat →
  <[length cur := glyph ch]> (row cur) = row (cur ++ [ch]).
Proof.
  intros H. unfold row. rewrite map_app, length_app. cbn [length map].
  rewrite insert_app_r_alt by (rewrite length_map; lia). rewrite length_map, Nat.sub_diag.
  replace (80 - length cur)%nat with (S (80 - (length cur + 1))) by lia. cbn [replicate].
  by rewrite <- app_assoc.
Qed.

Lemma shows_newline hist cur s :
  (length cur <= 80)%nat → Forall (λ l, length l <= 80)%nat hist →
  YPos s = Z.of_nat (length (visible hist)) →
  VgaBuffer s = concat (map row (visible hist)) ++ row cur ++
    replicate (80 * (24 - length (visible hist))) blank →
  ∃ s', Newline s = Ok (tt, s') ∧ shows (hist ++ [cur], []) s'.
Proof.
  intros Hc Hh Hy Hb. pose proof (visible_length hist) as Hv.
  pose proof (rows_length _ (visible_ok _ Hh)) as Hl.
  assert (length (VgaBuffer s) = 2000%nat) as Hsz.
  { rewrite Hb, !length_app, Hl, row_length, length_replicate by done. lia. }
  rewrite (newline_run s Hsz ltac:(lia)). eexists. split; [reflexivity|]. unfold shows.
  assert (Forall (λ l, length l <= 80)%nat (hist ++ [cur])) as Hh' by (apply Forall_app; split; [done|by constructor]).
  pose proof (visible_app hist cur) as Hva. split; [cbn; lia|]. split; [done|].
  destruct (Z.eqb_spec (YPos s) 24) as [H24|H24].
  - rewrite decide_False in Hva by lia. rewrite Hva. split; [done|].
    rewrite length_app, length_drop. cbn [length YPos set_pos]. split; [lia|]. cbn [VgaBuffer set_pos set_buffer].
    destruct (visible hist) as [|l0 vis] eqn:Hvis; [simpl in Hy; lia|]. cbn [length drop skipn] in *.
    rewrite Hb. replace (80 * (24 - S (length vis)))%nat with 0%nat by lia.
    replace (24 - (S (length vis) - 1 + 1))%nat with 0%nat by lia.
    pose proof (visible_ok _ Hh) as Ho. rewrite Hvis in Ho. apply Forall_cons in Ho as [Ho _].
    change (drop 0 vis) with vis. cbn [map concat]. rewrite <- app_assoc.
    rewrite drop_app_length' by (symmetry; by apply row_length).
    rewrite map_app, concat_app. cbn [map concat replicate]. by rewrite !app_nil_r, <- !app_assoc.
  - rewrite decide_True in Hva by lia. rewrite Hva. split; [done|]. rewrite length_app.
    cbn [length YPos XPos VgaBuffer set_pos]. split; [lia|]. rewrite Hb, map_app, concat_app. cbn [map concat].
    rewrite app_nil_r, <- app_assoc. do 2 f_equal. unfold row at 1. cbn [map length]. rewrite app_nil_l.
    rewrite <- replicate_add. f_equal. lia.
Qed.

Lemma shows_move t s h l : shows t s → shows t (set_low l (set_high h s)).
Proof. destruct t. done. Qed.

Lemma putc_shows t ch s : shows t s → plain ch →
  ∃ s', Vga_putc ch s = Ok (tt, s') ∧ shows (term_put ch t) s' ∧ cursor_ok s'.
Proof.
  intros Hs [Hr Hp]. pose proof (shows_ok _ _ Hs) as Hok.
  assert (∃ s1, shows (term_put ch t) s1 ∧ Vga_putc ch s = MoveCursor s1) as (s1 & H1 & ->).
  { destruct t as [hist cur]. destruct Hs as (Hc & Hh & Hx & Hy & Hb). cbn [term_put].
    unfold Vga_putc. rewrite gets_run. cbv beta zeta. cbn [id].
    destruct (Z.eqb_spec ch 10) as [|Hn].
    { destruct (shows_newline hist cur s ltac:(lia) Hh Hy Hb) as (s1 & Hr1 & H1).
      exists s1. by rewrite (bind_Ok _ _ _ _ _ Hr1). }
    rewrite !elem_of_cons in Hp.
    do 4 (match goal with |- context [ch =? ?n] => destruct (Z.eqb_spec ch n); [tauto|] end).
    pose proof (visible_length hist) as Hv. pose proof (rows_length _ (visible_ok _ Hh)) as Hl.
    destruct Hok as [Hsz _ _].
    rewrite bind_assoc, (bind_Ok _ _ _ _ _ (put_cell_run (YPos s) (XPos s) _ s ltac:(rewrite Hsz; lia))).
    rewrite bind_assoc, modify_run, u32_small by lia. set (s2 := set_pos _ _ _).
    assert (VgaBuffer s2 = concat (map row (visible hist)) ++ row (cur ++ [ch]) ++
      replicate (80 * (24 - length (visible hist))) blank) as Hb2.
    { unfold s2. cbn [VgaBuffer set_pos set_buffer]. rewrite Hb. replace (Z.to_nat (YPos s * 80 + XPos s))
        with (length (concat (map row (visible hist))) + length cur)%nat by (rewrite Hl; lia).
      rewrite insert_app_r, insert_app_l by (rewrite row_length; lia).
      unfold u8. rewrite Z.mod_small by lia. by rewrite <- row_snoc. }
    unfold COL_CNT. destruct (Nat.eqb_spec (length cur) 79), (Z.leb_spec 80 (XPos s + 1)); try lia.
    - destruct (shows_newline hist (cur ++ [ch]) s2) as (s1 & Hr1 & H1); try done.
      { rewrite length_app. cbn. lia. }
      exists s1. by rewrite (bind_Ok _ _ _ _ _ Hr1).
    - exists s2. split; [|done]. unfold shows. rewrite length_app. cbn [length].
      split; [lia|]. split; [done|]. split; [simpl; lia|]. split; [done|exact Hb2]. }
  destruct (move_cursor_run s1 (shows_ok _ _ H1)) as (h & l & -> & Hf).
  eexists. split; [done|]. split; [by apply shows_move|].
  unfold cursor_ok. exact Hf.
Qed.

(** Characters written one after the other. *)
Fixpoint write (l : list Z) : M vga unit :=
  match l with [] => ret tt | ch :: l => Vga_putc ch >>> write l end.

(** Text on a terminal. *)
Lemma write_shows l t s :
  shows t s → Forall plain l →
  ∃ s', write l s = Ok (tt, s') ∧ shows (term_write l t) s'.
Proof.
  intros Hs Hl. revert t s Hs. induction Hl as [|ch l Hc _ IH]; intros t s Hs; cbn [write].
  - by exists s.
  - destruct (putc_shows t ch s Hs Hc) as (s1 & Hr & H1 & _).
    rewrite (bind_Ok _ _ _ _ _ Hr). apply (IH (term_put ch t) s1 H1).
Qed.

(** C35: the display is a terminal: after any text of plain characters it shows
    the last lines of everything that was written, broken at 80 columns,
    scrolling when the current line is the 25th; no such text stops the
    machine. *)
Theorem display_shows_tail l t s :
  shows t s → Forall plain l →
  ∃ s', write l s = Ok (tt, s') ∧ shows (term_write l t) s'.
Proof. apply write_shows. Qed.

(** A cleared display shows an empty terminal. *)
Lemma clear_shows s : length (VgaBuffer s) = 2000%nat →
  ∃ s', Clear s = Ok (tt, s') ∧ shows ([], []) s'.
Proof.
  intros H. destruct (clear_run s H) as (h & l & Hr). eexists. split; [exact Hr|].
  unfold shows. split; [cbn; lia|]. split; [constructor|]. split; [done|]. split; [done|].
  reflexivity.
Qed.

Definition demo_vga : vga := Vga 3 4 (replicate 2000 (1, 1)) false 0 0.

Lemma vga_putc_safe_witness : ∃ s', Vga_putc 65 demo_vga = Ok (tt, s') ∧ screen_ok s' ∧ cursor_ok s'.
Proof.
  apply (vga_putc_safe 65 demo_vga). constructor; [reflexivity|simpl; lia|simpl; lia].
Defined.

(** Two lines, the second one of 81 characters. *)
Lemma display_shows_tail_witness :
  ∃ s0 s', Clear demo_vga = Ok (tt, s0) ∧
    write ([72; 105; 10] ++ replicate 81 46) s0 = Ok (tt, s') ∧
    shows ([[72; 105]; replicate 80 46], [46]) s'.
Proof.
  destruct (clear_shows demo_vga eq_refl) as (s0 & Hc & H0). exists s0.
  destruct (display_shows_tail ([72; 105; 10] ++ replicate 81 46) ([], []) s0 H0) as (s' & Hw & H').
  - apply (bool_decide_unpack _). vm_compute. exact I.
  - exists s'. split; [exact Hc|]. split; [exact Hw|]. exact H'.
Defined.
