(* ===== verification/Stdio.v ===== *)
(** * Stdio: formatted output (lib/stdio.c, kern/lib/console.c)

    A format is the memory its pointer points to, up to and including its
    terminator; reading on after the terminator is a fault.  The arguments are
    a list: 32-bit integers (int, unsigned, long, size_t, ptrdiff_t, pointers),
    64-bit integers (long long, intmax_t) and strings; taking an argument of
    the wrong kind, undefined in C, is a fault here.  The routine that receives
    the characters is a parameter, as in the code. *)

From Stdlib Require Import Ascii String.
From S2P Require Import Prelude Types Str Vga.

(** Characters and texts of the source. *)
Definition chr (s : string) : Z :=
  match s with String a _ => Z.of_nat (nat_of_ascii a) | EmptyString => 0 end.
Fixpoint text (s : string) : list Z :=
  match s with String a s' => Z.of_nat (nat_of_ascii a) :: text s' | EmptyString => [] end.

Definition u64 (x : Z) : Z := x mod 2 ^ 64.
Definition s64 (x : Z) : Z := (x + 2 ^ 63) mod 2 ^ 64 - 2 ^ 63.
Definition s16 (x : Z) : Z := (x + 2 ^ 15) mod 2 ^ 16 - 2 ^ 15.
Definition SIZE_MAX : Z := 2 ^ 32 - 1.

(** inc/string.h *)
Definition isdigit (c : Z) : bool := (48 <=? c) && (c <=? 57).

(** ** Conversions *)

Definition MINUS : Z := 1.
Definition PLUS : Z := 2.
Definition SPACE : Z := 4.
Definition POUND : Z := 8.
Definition ZERO : Z := 16.
Definition GROUP : Z := 32.

Inductive int_type :=
| CHARTYPE | SHORTTYPE | INTTYPE | INTTYPEMAX | LONGTYPE | LONGLONGTYPE | PTRDIFFT | SIZET.

Record printf_conversion := Conv { flags : Z; width : Z; precision : Z; type : int_type }.

Record integer_base := Base { base : Z; digits : list Z; base_x : Z; group : Z }.

Definition base_d : integer_base := Base 10 (text "0123456789") 0 3.
Definition base_o : integer_base := Base 8 (text "01234567") 0 3.
Definition base_lx : integer_base := Base 16 (text "0123456789abcdef") (chr "x") 4.
Definition base_X : integer_base := Base 16 (text "0123456789ABCDEF") (chr "X") 4.

Definition has_flag (f b : Z) : bool := negb (Z.land f b =? 0).

(** ** Arguments *)

Inductive arg := ArgInt (v : Z) | ArgWide (v : Z) | ArgStr (s : option (list Z)).
Abbreviation va_list := (list arg).

Definition va_int (a : va_list) : outcome (Z * va_list) :=
  match a with ArgInt v :: a' => Ok (s32 v, a') | _ => Stop Fault end.
Definition va_unsigned (a : va_list) : outcome (Z * va_list) :=
  match a with ArgInt v :: a' => Ok (u32 v, a') | _ => Stop Fault end.
Definition va_intmax (a : va_list) : outcome (Z * va_list) :=
  match a with ArgWide v :: a' => Ok (s64 v, a') | _ => Stop Fault end.
Definition va_uintmax (a : va_list) : outcome (Z * va_list) :=
  match a with ArgWide v :: a' => Ok (u64 v, a') | _ => Stop Fault end.
Definition va_string (a : va_list) : outcome (option (list Z) * va_list) :=
  match a with ArgStr s :: a' => Ok (s, a') | _ => Stop Fault end.

(** Steps that read the format and the arguments only. *)
Definition obind {A B} (o : outcome A) (f : A → outcome B) : outcome B :=
  match o with Ok a => f a | Stop e => Stop e end.
Notation "'let?' x := o 'in' k" := (obind o (λ x, k))
  (at level 10, x pattern, o at level 100, k at level 200) : kos_scope.

Definition star (format : list Z) : outcome Z :=
  match format with [] => Stop Fault | c :: _ => Ok c end.

(** ** parse_conversion *)

Definition flag_of (c : Z) : option Z :=
  if c =? chr "-" then Some MINUS
  else if c =? chr "+" then Some PLUS
  else if c =? chr " " then Some SPACE
  else if c =? chr "#" then Some POUND
  else if c =? chr "0" then Some ZERO
  else if c =? chr "'" then Some GROUP
  else None.

Fixpoint parse_flags (format : list Z) (fl : Z) : outcome (list Z * Z) :=
  match format with
  | [] => Stop Fault
  | c :: f =>
      match flag_of c with
      | Some b => parse_flags f (Z.lor fl b)
      | None => Ok (format, fl)
      end
  end.

Fixpoint parse_number (format : list Z) (n : Z) : outcome (list Z * Z) :=
  match format with
  | [] => Stop Fault
  | c :: f => if isdigit c then parse_number f (s32 (n * 10 + c - 48)) else Ok (format, n)
  end.

Definition parse_width (format : list Z) (args : va_list) : outcome (list Z * Z * va_list) :=
  let? c := star format in
  if c =? chr "*" then
    let? (w, args) := va_int args in Ok (tail format, w, args)
  else
    let? (format, w) := parse_number format 0 in Ok (format, w, args).

Definition parse_precision (format : list Z) (args : va_list) : outcome (list Z * Z * va_list) :=
  let? c := star format in
  if c =? chr "." then
    let format := tail format in
    let? c := star format in
    let? (format, p, args) :=
      (if c =? chr "*" then
         let? (p, args) := va_int args in Ok (tail format, p, args)
       else
         let? (format, p) := parse_number format 0 in Ok (format, p, args)) in
    Ok (format, if p <? 0 then -1 else p, args)
  else Ok (format, -1, args).

Definition parse_type (format : list Z) : outcome (list Z * int_type) :=
  let? c := star format in
  let rest := tail format in
  if c =? chr "h" then
    let? c' := star rest in
    if c' =? chr "h" then Ok (tail rest, CHARTYPE) else Ok (rest, SHORTTYPE)
  else if c =? chr "j" then Ok (rest, INTTYPEMAX)
  else if c =? chr "l" then
    let? c' := star rest in
    if c' =? chr "l" then Ok (tail rest, LONGLONGTYPE) else Ok (rest, LONGTYPE)
  else if c =? chr "t" then Ok (rest, PTRDIFFT)
  else if c =? chr "z" then Ok (rest, SIZET)
  else Ok (format, INTTYPE).

Definition parse_conversion (format : list Z) (args : va_list)
    : outcome (list Z * printf_conversion * va_list) :=
  let? (format, fl) := parse_flags format 0 in
  let fl := if has_flag fl MINUS then Z.land fl (Z.lnot ZERO) else fl in
  let fl := if has_flag fl PLUS then Z.land fl (Z.lnot SPACE) else fl in
  let? (format, w, args) := parse_width format args in
  let '(w, fl) := if w <? 0 then (s32 (- w), Z.lor fl MINUS) else (w, fl) in
  let? (format, p, args) := parse_precision format args in
  let fl := if 0 <=? p then Z.land fl (Z.lnot ZERO) else fl in
  let? (format, t) := parse_type format in
  Ok (format, Conv fl w p t, args).

(** ** The value of an integer argument *)

Definition signed_value (t : int_type) (args : va_list) : outcome (Z * va_list) :=
  match t with
  | CHARTYPE => let? (v, args) := va_int args in Ok (s8 v, args)
  | SHORTTYPE => let? (v, args) := va_int args in Ok (s16 v, args)
  | INTTYPE | LONGTYPE | PTRDIFFT => va_int args
  | INTTYPEMAX | LONGLONGTYPE => va_intmax args
  | SIZET =>
      let? (v, args) := va_unsigned args in
      Ok (if SIZE_MAX / 2 <? v then v - SIZE_MAX - 1 else v, args)
  end.

Definition unsigned_value (t : int_type) (args : va_list) : outcome (Z * va_list) :=
  match t with
  | CHARTYPE => let? (v, args) := va_unsigned args in Ok (u8 v, args)
  | SHORTTYPE => let? (v, args) := va_unsigned args in Ok (u16 v, args)
  | INTTYPE | LONGTYPE | SIZET => va_unsigned args
  | INTTYPEMAX | LONGLONGTYPE => va_uintmax args
  | PTRDIFFT => let? (v, args) := va_int args in Ok (Z.land (u64 v) 0xffffffff, args)
  end.

(** ** format_integer: the buffer

    The characters of [buf], the last one first. *)

Definition BUF_SIZE : nat := 64.
Definition push (c : Z) (buf : list Z) : outcome (list Z) :=
  if (length buf <? BUF_SIZE)%nat then Ok (c :: buf) else Stop Fault.

Fixpoint digits_of (n : nat) (b : integer_base) (fl value digit_cnt : Z) (buf : list Z) : outcome (list Z) :=
  if 0 <? value then
    match n with
    | O => Stop NoFuel
    | S n' =>
        let? buf :=
          (if has_flag fl GROUP && (0 <? digit_cnt) && (digit_cnt mod group b =? 0)
           then push (chr ",") buf else Ok buf) in
        let? buf := push (nth (Z.to_nat (value mod base b)) (digits b) 0) buf in
        digits_of n' b fl (value / base b) (digit_cnt + 1) buf
    end
  else Ok buf.

Fixpoint zeros (n : nat) (prec : Z) (buf : list Z) : outcome (list Z) :=
  if (Z.of_nat (length buf) <? prec) && (length buf <? BUF_SIZE - 1)%nat then
    match n with
    | O => Stop NoFuel
    | S n' => let? buf := push (chr "0") buf in zeros n' prec buf
    end
  else Ok buf.

Definition integer_buffer (value : Z) (b : integer_base) (c : printf_conversion) : outcome (list Z) :=
  let? buf := digits_of 64 b (flags c) value 0 [] in
  let? buf := zeros 64 (if precision c <? 0 then 1 else precision c) buf in
  if has_flag (flags c) POUND && (base b =? 8) &&
     match buf with [] => true | d :: _ => negb (d =? chr "0") end
  then push (chr "0") buf else Ok buf.

Definition sign_of (is_signed negative : bool) (fl : Z) : Z :=
  if is_signed then
    if has_flag fl PLUS then (if negative then chr "-" else chr "+")
    else if has_flag fl SPACE then (if negative then chr "-" else chr " ")
    else if negative then chr "-" else 0
  else 0.

(** ** Output *)

Section output.
Context {W : Type} (output : Z → M W unit).

Fixpoint put_all (l : list Z) : M W unit :=
  match l with [] => ret tt | c :: l' => output c >>> put_all l' end.

Definition output_dup (ch : Z) (cnt : Z) : M W unit := put_all (replicate (Z.to_nat cnt) ch).

Definition format_integer (value : Z) (is_signed negative : bool) (b : integer_base)
    (c : printf_conversion) : M W unit :=
  let sign := sign_of is_signed negative (flags c) in
  let x := if has_flag (flags c) POUND && negb (value =? 0) then base_x b else 0 in
  let! buf := lift (integer_buffer value b c) in
  let pad_cnt := s32 (width c - Z.of_nat (length buf) - (if x =? 0 then 0 else 2) - (if sign =? 0 then 0 else 1)) in
  let pad_cnt := if pad_cnt <? 0 then 0 else pad_cnt in
  when (negb (has_flag (flags c) (Z.lor MINUS ZERO))) (output_dup (chr " ") pad_cnt) >>>
  when (negb (sign =? 0)) (output sign) >>>
  when (negb (x =? 0)) (output (chr "0") >>> output x) >>>
  when (has_flag (flags c) ZERO) (output_dup (chr "0") pad_cnt) >>>
  put_all buf >>>
  when (has_flag (flags c) MINUS) (output_dup (chr " ") pad_cnt).

(** [string] is the text; the precision has cut it to [length]. *)
Definition format_string (string : list Z) (length : Z) (c : printf_conversion) : M W unit :=
  when ((length <? width c) && negb (has_flag (flags c) MINUS)) (output_dup (chr " ") (width c - length)) >>>
  put_all (take (Z.to_nat length) string) >>>
  when ((length <? width c) && has_flag (flags c) MINUS) (output_dup (chr " ") (width c - length)).

(** strnlen: the precision -1 is the largest size. *)
Definition cut_length (s : list Z) (prec : Z) : Z :=
  if prec <? 0 then s32 (Z.of_nat (length s)) else Z.min (s32 (Z.of_nat (length s))) prec.

Fixpoint __vprintf (fuel : nat) (format : list Z) (args : va_list) : M W unit :=
  match fuel with
  | O => halt NoFuel
  | S f =>
      let no_conversion msg ch := __vprintf f (text msg ++ [0]) [ArgInt ch] in
      let! ch := lift (star format) in
      if ch =? 0 then ret tt
      else if negb (ch =? chr "%") then output ch >>> __vprintf f (tail format) args
      else
        let format := tail format in
        let! ch := lift (star format) in
        if ch =? chr "%" then output ch >>> __vprintf f (tail format) args
        else
          let! (format, c, args) := lift (parse_conversion format args) in
          let! ch := lift (star format) in
          let! args :=
            (if (ch =? chr "d") || (ch =? chr "i") then
               let! (value, args) := lift (signed_value (type c) args) in
               format_integer (if value <? 0 then u64 (- value) else value) true (value <? 0) base_d c >>>
               ret args
             else if (ch =? chr "o") || (ch =? chr "u") || (ch =? chr "x") || (ch =? chr "X") then
               let! (value, args) := lift (unsigned_value (type c) args) in
               let b := if ch =? chr "o" then base_o else if ch =? chr "u" then base_d
                        else if ch =? chr "x" then base_lx else base_X in
               format_integer value false false b c >>>
               ret args
             else if ch =? chr "c" then
               let! (v, args) := lift (va_int args) in
               format_string [s8 v] 1 c >>>
               ret args
             else if ch =? chr "s" then
               let! (s, args) := lift (va_string args) in
               let s := match s with None => text "(null)" | Some s => s end in
               format_string s (cut_length s (precision c)) c >>>
               ret args
             else if ch =? chr "p" then
               let! (p, args) := lift (va_unsigned args) in
               format_integer p false false base_lx (Conv POUND (width c) (precision c) (type c)) >>>
               ret args
             else if (ch =? chr "f") || (ch =? chr "e") || (ch =? chr "E") || (ch =? chr "g")
                     || (ch =? chr "G") || (ch =? chr "n") then
               no_conversion "<<no %%%c in kernel>>"%string ch >>> ret args
             else
               no_conversion "<<no %%%c conversion>>"%string ch >>> ret args) in
          __vprintf f (tail format) args
  end.

End output.

(** The characters a format prints. *)
Definition prints (fuel : nat) (format : list Z) (args : va_list) : outcome (list Z) :=
  match __vprintf (λ c, modify (λ l, l ++ [c])) fuel format args [] with
  | Ok (_, l) => Ok l
  | Stop e => Stop e
  end.

Example printf_ex1 :
  prints 99 (text "a%5d|%-4x|%04u|%.3s|%c%%%p" ++ [0])
    [ArgInt (-42); ArgInt 255; ArgInt 7; ArgStr (Some (text "kernel")); ArgInt 33; ArgInt 4096]
  = Ok (text "a  -42|ff  |0007|ker|!%0x1000").
Proof. vm_compute. reflexivity. Qed.

Example printf_ex2 : prints 99 (text "%'d %+d %o %q" ++ [0]) [ArgInt 1234567; ArgInt 5; ArgInt 8]
  = Ok (text "1,234,567 +5 10 <<no %q conversion>>").
Proof. vm_compute. reflexivity. Qed.

(** ** vsnprintf *)

Record vsnprintf_aux := Aux { mem : memory; aux_p : addr; aux_length : Z; max_length : Z }.

Definition in_mem {A} (m : M memory A) : M vsnprintf_aux A :=
  zoom mem (λ m a, Aux m (aux_p a) (aux_length a) (max_length a)) m.

Definition vsnprintf_helper (ch : Z) : M vsnprintf_aux unit :=
  let! a := gets id in
  modify (λ a, Aux (mem a) (aux_p a) (s32 (aux_length a + 1)) (max_length a)) >>>
  if aux_length a <? max_length a then
    in_mem (st (aux_p a) (u8 ch)) >>>
    modify (λ a, Aux (mem a) (aux_p a + 1) (aux_length a) (max_length a))
  else ret tt.

Definition vsnprintf (fuel : nat) (buffer buf_size : Z) (format : list Z) (args : va_list) : M memory Z := λ m,
  match __vprintf vsnprintf_helper fuel format args
          (Aux m buffer 0 (if 0 <? buf_size then s32 (buf_size - 1) else 0)) with
  | Ok (_, a) =>
      (when (0 <? buf_size) (st (aux_p a) 0) >>> ret (aux_length a)) (mem a)
  | Stop e => Stop e
  end.

(** ** The console (kern/lib/console.c); of the output to the parallel port,
    for debugging, nothing is modelled *)

Definition PutcharWithoutLock (ch : Z) : M vga unit := Vga_putc (u8 ch).

Definition VprintfWithoutLock (ch : Z) : M (vga * Z) unit :=
  modify (λ '(v, n), (v, s32 (n + 1))) >>>
  zoom fst (λ v p, (v, p.2)) (PutcharWithoutLock ch).

Definition vprintf (fuel : nat) (format : list Z) (args : va_list) : M vga Z := λ v,
  match __vprintf VprintfWithoutLock fuel format args (v, 0) with
  | Ok (_, (v', char_cnt)) => Ok (char_cnt, v')
  | Stop e => Stop e
  end.
Definition kprintf := vprintf.

(** The loop of puts: both calls are in its body. *)
Fixpoint puts (str : list Z) : M vga Z :=
  match str with
  | [] => halt Fault
  | ch :: str' =>
      if ch =? 0 then ret 0
      else PutcharWithoutLock ch >>> PutcharWithoutLock 10 >>> puts str'
  end.

Fixpoint putbuf (n : nat) (buffer : list Z) : M vga unit :=
  match n with
  | O => ret tt
  | S n' =>
      match buffer with
      | [] => halt Fault
      | ch :: buffer' => PutcharWithoutLock ch >>> putbuf n' buffer'
      end
  end.

Definition putchar (ch : Z) : M vga Z := PutcharWithoutLock ch >>> ret ch.

(** ** hex_dump, on the bytes of the buffer *)

Section hex_dump.
Context {W : Type} (output : Z → M W unit) (fuel : nat).

Definition printf (format : string) (args : va_list) : M W unit :=
  __vprintf output fuel (text format ++ [0]) args.

Fixpoint repeat_print (n : nat) (format : string) : M W unit :=
  match n with O => ret tt | S n' => printf format [] >>> repeat_print n' format end.

(** The bytes of one line; [i] is the column. *)
Fixpoint hex_bytes (l : list Z) (i : Z) : M W unit :=
  match l with
  | [] => ret tt
  | b :: l' =>
      printf "%02hhx%c" [ArgInt b; ArgInt (if i =? 16 / 2 - 1 then chr "-" else chr " ")] >>>
      hex_bytes l' (i + 1)
  end.

Fixpoint ascii_bytes (l : list Z) : M W unit :=
  match l with
  | [] => ret tt
  | b :: l' =>
      printf "%c" [ArgInt (if (32 <=? b) && (b <? 127) then b else chr ".")] >>> ascii_bytes l'
  end.

Fixpoint hex_dump (lines : nat) (ofs : Z) (buf : list Z) (ascii : bool) : M W unit :=
  match buf with
  | [] => ret tt
  | _ =>
      match lines with
      | O => halt NoFuel
      | S k =>
          let start := ofs mod 16 in
          let end_ := if Z.of_nat (length buf) <? 16 - start then start + Z.of_nat (length buf) else 16 in
          let n := Z.to_nat (end_ - start) in
          let line := take n buf in
          printf "%08jx  " [ArgWide (ROUNDDOWN ofs 16)] >>>
          repeat_print (Z.to_nat start) "   " >>>
          hex_bytes line start >>>
          when ascii
            (repeat_print (Z.to_nat (16 - end_)) "   " >>>
             printf "|" [] >>>
             repeat_print (Z.to_nat start) " " >>>
             ascii_bytes line >>>
             repeat_print (Z.to_nat (16 - end_)) " " >>>
             printf "|" []) >>>
          printf (String "010"%char EmptyString) [] >>>
          hex_dump k (u32 (ofs + Z.of_nat n)) (drop n buf) ascii
      end
  end.

End hex_dump.

(** ** Printing an integer

    The loop that collects the digits ends, and the buffer is large enough for
    every value of 64 bits, in every base, with the commas, the zeros of the
    precision and the zero of "#". *)

Lemma push_ok c buf : (length buf < BUF_SIZE)%nat → push c buf = Ok (c :: buf).
Proof. intros H. unfold push. by destruct (Nat.ltb_spec (length buf) BUF_SIZE); [|lia]. Qed.

Lemma digits_of_ok k n b fl value cnt buf :
  2 <= base b → 0 <= value < base b ^ Z.of_nat k → (k <= n)%nat → (length buf + 2 * k < BUF_SIZE)%nat →
  ∃ buf', digits_of n b fl value cnt buf = Ok buf' ∧ (length buf' <= length buf + 2 * k)%nat.
Proof.
  revert n value cnt buf. induction k as [|k IH]; intros n value cnt buf Hb Hv Hn Hl.
  - replace value with 0 by (simpl in Hv; lia). exists buf. by destruct n; (split; [done|lia]).
  - destruct n as [|n]; [lia|]. cbn [digits_of]. destruct (Z.ltb_spec 0 value); [|exists buf; split; [done|lia]].
    set (comma := _ && _ && _).
    assert (∃ buf1, (if comma then push (chr ",") buf else Ok buf) = Ok buf1 ∧
      (length buf1 <= S (length buf))%nat) as (buf1 & -> & Hl1).
    { destruct comma; [|eauto]. eexists. split; [apply push_ok; lia|simpl; lia]. }
    cbn [obind]. rewrite push_ok by lia. cbn [obind].
    destruct (IH n (value / base b) (cnt + 1) (nth (Z.to_nat (value mod base b)) (digits b) 0 :: buf1))
      as (buf' & Hr & Hl'); [done| |lia|simpl; lia|].
    { split; [apply Z.div_pos; lia|]. apply Z.div_lt_upper_bound; [lia|].
      rewrite <- Z.pow_succ_r by lia. replace (Z.succ (Z.of_nat k)) with (Z.of_nat (S k)) by lia. lia. }
    exists buf'. split; [done|]. simpl in Hl'. lia.
Qed.

Lemma zeros_ok n prec buf :
  (length buf < BUF_SIZE)%nat → (BUF_SIZE <= n + length buf)%nat →
  ∃ k, zeros n prec buf = Ok (replicate k (chr "0") ++ buf) ∧ (k + length buf < BUF_SIZE)%nat.
Proof.
  revert buf. induction n as [|n IH]; intros buf Hl Hn; [lia|]. cbn [zeros].
  destruct (_ && _) eqn:E; [|by exists O]. apply andb_true_iff in E as [_ E%Nat.ltb_lt].
  rewrite push_ok by done. cbn [obind].
  destruct (IH (chr "0" :: buf)) as (k & -> & Hk); [simpl; lia|simpl; lia|].
  exists (S k). split; [|simpl in Hk; lia]. f_equal. rewrite replicate_S_end, <- app_assoc. done.
Qed.

Definition bases : list integer_base := [base_d; base_o; base_lx; base_X].

Lemma bases_base b : b ∈ bases → 2 <= base b ∧ 2 ^ 64 <= base b ^ Z.of_nat 22.
Proof.
  revert b. apply Forall_forall. repeat constructor; simpl; lia.
Qed.

Lemma buffer_ok value b c : b ∈ bases → 0 <= value < 2 ^ 64 →
  ∃ buf, integer_buffer value b c = Ok buf ∧ (length buf <= BUF_SIZE)%nat.
Proof.
  intros [Hb H64]%bases_base Hv. unfold integer_buffer.
  destruct (digits_of_ok 22 64 b (flags c) value 0 []) as (buf1 & -> & H1).
  - done.
  - lia.
  - lia.
  - unfold BUF_SIZE. simpl. lia.
  - unfold BUF_SIZE in *. simpl in H1. cbn [obind].
    destruct (zeros_ok 64 (if precision c <? 0 then 1 else precision c) buf1) as (k & -> & Hk);
      [unfold BUF_SIZE; lia..|].
    unfold BUF_SIZE in Hk. cbn [obind]. set (buf2 := replicate k _ ++ buf1).
    assert (length buf2 < 64)%nat as Hl by (unfold buf2; rewrite length_app, length_replicate; lia).
    destruct (_ && _); [|exists buf2; split; [done|lia]].
    rewrite push_ok by done. eexists. split; [done|simpl; lia].
Qed.

(** The 64 characters of the buffer of format_integer are enough: whatever
    the value of up to 64 bits, the base, the flags and the precision, no
    character is stored outside the buffer. *)
Theorem integer_buffer_never_overflows value b c :
  b ∈ bases → 0 <= value < 2 ^ 64 →
  ∃ buf, integer_buffer value b c = Ok buf ∧ (length buf <= BUF_SIZE)%nat.
Proof. apply buffer_ok. Qed.

(** ** The routine that receives the characters does not matter *)

Section parametric.
Context {W : Type} (output : Z → M W unit).

Definition collect (c : Z) : M (list Z) unit := modify (λ l, l ++ [c]).

(** The same routine, with two outputs: the second one gets, in order, what the
    first one collects, up to the end of the routine or to where it stops. *)
Definition agree {A} (m1 : M (list Z) A) (m2 : M W A) : Prop := ∀ l,
  match m1 l with
  | Ok (a, l') => ∃ k, l' = l ++ k ∧ ∀ w, m2 w = (put_all output k >>> ret a) w
  | Stop e => ∃ k, ∀ w, m2 w = (put_all output k >>> halt e) w
  end.

Lemma put_all_app {A} k k' (r : M W A) w :
  (put_all output (k ++ k') >>> r) w = (put_all output k >>> put_all output k' >>> r) w.
Proof.
  revert w. induction k as [|c k IH]; intros w; [done|]. cbn [put_all app].
  rewrite !bind_assoc. unfold bind at 1 3. destruct (output c w) as [[[] w']|]; [apply IH|done].
Qed.

Lemma bind_ext {A B} (m1 m2 : M W A) (k : A → M W B) w : m1 w = m2 w → bind m1 k w = bind m2 k w.
Proof. intros H. unfold bind. by rewrite H. Qed.

Lemma agree_ret {A} (a : A) : agree (ret a) (ret a).
Proof. intros l. exists []. by rewrite app_nil_r. Qed.

Lemma agree_halt {A} e : agree (@halt _ A e) (halt e).
Proof. intros l. by exists []. Qed.

Lemma agree_lift {A} (o : outcome A) : agree (lift o) (lift o).
Proof. destruct o as [a|e]; [apply agree_ret|apply agree_halt]. Qed.

Lemma agree_bind {A B} (m1 : M _ A) (m2 : M _ A) (k1 : A → M _ B) (k2 : A → M _ B) :
  agree m1 m2 → (∀ a, agree (k1 a) (k2 a)) → agree (bind m1 k1) (bind m2 k2).
Proof.
  intros Hm Hk l. specialize (Hm l). unfold bind at 1. destruct (m1 l) as [[a l1]|e].
  - destruct Hm as (k & -> & Hm). specialize (Hk a (l ++ k)).
    assert (∀ w, bind m2 k2 w = (put_all output k >>> k2 a) w) as H2
      by (intros w; rewrite (bind_ext _ _ _ _ (Hm w)), bind_assoc; done).
    destruct (k1 a (l ++ k)) as [[b l2]|e].
    + destruct Hk as (k' & -> & Hk). exists (k ++ k'). split; [by rewrite app_assoc|].
      intros w. rewrite H2, put_all_app. unfold bind at 1 2. destruct (put_all output k w) as [[[] w']|]; [apply Hk|done].
    + destruct Hk as (k' & Hk). exists (k ++ k').
      intros w. rewrite H2, put_all_app. unfold bind at 1 2. destruct (put_all output k w) as [[[] w']|]; [apply Hk|done].
  - destruct Hm as (k & Hm). exists k. intros w. rewrite (bind_ext _ _ _ _ (Hm w)), bind_assoc. done.
Qed.

Lemma agree_output c : agree (collect c) (output c).
Proof.
  intros l. exists [c]. split; [done|]. intros w. cbn [put_all]. rewrite bind_assoc.
  unfold bind. destruct (output c w) as [[[] w']|]; done.
Qed.

Lemma agree_put_all s : agree (put_all collect s) (put_all output s).
Proof. induction s; simpl; [apply agree_ret|apply agree_bind; [apply agree_output|done]]. Qed.

Lemma agree_when (b : bool) (m1 : M _ unit) (m2 : M _ unit) : agree m1 m2 → agree (when b m1) (when b m2).
Proof. intros H. destruct b; [done|apply agree_ret]. Qed.

Ltac agree := repeat first
  [ apply agree_bind | apply agree_when | apply agree_lift | apply agree_ret | apply agree_halt
  | apply agree_output | apply agree_put_all | progress intros
  | match goal with |- agree (if ?b then _ else _) _ => destruct b end
  | match goal with |- agree (let '(_, _) := ?p in _) _ => destruct p end
  | match goal with p : _ * _ |- _ => destruct p end ].

Lemma agree_format_integer v sg ng b c :
  agree (format_integer collect v sg ng b c) (format_integer output v sg ng b c).
Proof. unfold format_integer, output_dup. agree. Qed.

Lemma agree_format_string s n c : agree (format_string collect s n c) (format_string output s n c).
Proof. unfold format_string, output_dup. agree. Qed.

Lemma agree_vprintf fuel format args :
  agree (__vprintf collect fuel format args) (__vprintf output fuel format args).
Proof.
  revert format args. induction fuel as [|fuel IH]; intros format args; cbn [__vprintf]; [apply agree_halt|].
  agree; first [apply IH|apply agree_format_integer|apply agree_format_string|idtac].
Qed.

(** What the output routine gets does not depend on it. *)
Lemma vprintf_puts fuel format args l w :
  prints fuel format args = Ok l → __vprintf output fuel format args w = put_all output l w.
Proof.
  intros H. pose proof (agree_vprintf fuel format args []) as HA. unfold prints in H. fold collect in H.
  destruct (__vprintf collect fuel format args []) as [[[] l']|]; [|done]. injection H as ->.
  destruct HA as (k & Hk & ->). simpl in Hk. subst k. unfold bind. by destruct (put_all output l w) as [[[] w']|].
Qed.

End parametric.

(** ** vsnprintf *)

Lemma in_mem_st p b a : is_Some (mem a !! p) →
  in_mem (st p b) a = Ok (tt, Aux (<[p := b]> (mem a)) (aux_p a) (aux_length a) (max_length a)).
Proof.
  intros H. unfold in_mem, zoom. pose proof (st_run p b ret (mem a) H) as Hs.
  unfold bind in Hs. destruct (st p b (mem a)) as [[[] m]|]; [|done]. by injection Hs as ->.
Qed.

(** [n] more characters: those that fit are in memory. *)
Lemma helper_run l a :
  0 <= aux_length a → aux_length a + Z.of_nat (length l) < 2 ^ 31 →
  mapped (mem a) (aux_p a) (max_length a - aux_length a) →
  let fit := take (Z.to_nat (max_length a - aux_length a)) l in
  ∃ m, put_all vsnprintf_helper l a =
      Ok (tt, Aux m (aux_p a + Z.of_nat (length fit)) (aux_length a + Z.of_nat (length l)) (max_length a)) ∧
    holds m (aux_p a) (map u8 fit) ∧
    ∀ q, q < aux_p a ∨ aux_p a + Z.of_nat (length fit) <= q → m !! q = mem a !! q.
Proof.
  revert a. induction l as [|c l IH]; intros a H0 H31 Hm; cbn [put_all].
  - destruct a as [m p n mx]. exists m. simpl. rewrite take_nil, !Z.add_0_r. split; [done|].
    split; [intros i b Hi; discriminate|done].
  - unfold vsnprintf_helper at 1. rewrite bind_assoc, gets_run, bind_assoc, modify_run. cbn [length] in H31.
    rewrite s32_small by lia. cbv beta. cbn [id].
    destruct (Z.ltb_spec (aux_length a) (max_length a)) as [Hlt|Hge].
    + rewrite bind_assoc.
      assert (is_Some (mem a !! aux_p a)) as Hp by (rewrite <- (Z.add_0_r (aux_p a)); apply Hm; lia).
      rewrite (bind_Ok _ _ _ _ _ (in_mem_st _ _ (Aux (mem a) (aux_p a) (aux_length a + 1) (max_length a)) Hp)).
      rewrite modify_run. cbn [mem aux_p aux_length max_length].
      set (a1 := Aux _ _ _ _).
      destruct (IH a1) as (m & Hr & Hh & Ho); [simpl; lia|simpl; lia| |].
      { simpl. replace (max_length a - (aux_length a + 1)) with (max_length a - aux_length a - 1) by lia.
        apply mapped_step; [lia|done]. }
      cbn [a1 mem aux_p aux_length max_length] in *.
      replace (Z.to_nat (max_length a - aux_length a))
        with (S (Z.to_nat (max_length a - (aux_length a + 1)))) by lia.
      cbn [take length]. exists m. split; [rewrite Hr; do 3 f_equal; lia|]. split.
      * cbn [map]. apply holds_cons. split; [|exact Hh]. rewrite Ho by lia. apply lookup_insert_eq.
      * intros q Hq. rewrite Ho by lia. by rewrite lookup_insert_ne by lia.
    + rewrite bind_ret. set (a1 := Aux _ _ _ _).
      destruct (IH a1) as (m & Hr & Hh & Ho); [simpl; lia|simpl; lia| |].
      { intros i Hi. simpl in Hi. lia. }
      cbn [a1 mem aux_p aux_length max_length] in *.
      replace (Z.to_nat (max_length a - (aux_length a + 1))) with 0%nat in * by lia.
      replace (Z.to_nat (max_length a - aux_length a)) with 0%nat by lia. cbn [take] in *.
      exists m. split; [rewrite Hr; cbn [length]; do 3 f_equal; lia|]. done.
Qed.

Lemma truncates fuel buffer buf_size format args l m :
  prints fuel format args = Ok l → Z.of_nat (length l) < 2 ^ 31 →
  0 <= buf_size < 2 ^ 31 → mapped m buffer buf_size →
  ∃ m', vsnprintf fuel buffer buf_size format args m = Ok (Z.of_nat (length l), m') ∧
    (0 < buf_size → holds m' buffer (map u8 (take (Z.to_nat (buf_size - 1)) l) ++ [0])) ∧
    ∀ q, q < buffer ∨ buffer + buf_size <= q → m' !! q = m !! q.
Proof.
  intros Hp Hl Hs Hm. unfold vsnprintf. rewrite (vprintf_puts _ _ _ _ _ _ Hp).
  set (a := Aux m buffer 0 _).
  assert (max_length a = if 0 <? buf_size then buf_size - 1 else 0) as Hmx.
  { unfold a. cbn [max_length]. destruct (Z.ltb_spec 0 buf_size); [by apply s32_small; lia|done]. }
  destruct (helper_run l a) as (m1 & -> & Hh & Ho); [done|simpl; lia| |].
  { intros i Hi. apply Hm. simpl in Hi. cbn [max_length a] in *. destruct (0 <? buf_size) eqn:E; zbool; lia. }
  cbn [mem aux_p aux_length a] in *. rewrite Hmx in *. rewrite Z.sub_0_r in *.
  destruct (Z.ltb_spec 0 buf_size) as [Hpos|Hz].
  - set (fit := take _ l) in *. assert (Z.of_nat (length fit) <= buf_size - 1) as Hfit
      by (unfold fit; rewrite length_take; lia).
    cbn [when]. rewrite st_run.
    2:{ rewrite Ho by lia. apply Hm. lia. }
    eexists. split; [reflexivity|]. split.
    + intros _. apply holds_app. rewrite length_map. split.
      * intros i b Hi. rewrite lookup_insert_ne; [by apply Hh|].
        apply lookup_lt_Some in Hi. rewrite length_map in Hi. lia.
      * apply holds_cons. split; [apply lookup_insert_eq|]. intros i b Hi. discriminate.
    + intros q Hq. rewrite lookup_insert_ne by lia. apply Ho. lia.
  - cbn [when]. eexists. split; [reflexivity|]. split; [lia|]. intros q Hq. apply Ho. change (Z.to_nat 0) with 0%nat. rewrite take_0. cbn [length]. lia.
Qed.

(** C22: vsnprintf stores at most [buf_size] bytes: the characters the format
    prints, cut if need be, and a terminator; it changes no other byte of
    memory and returns the length of the whole text. *)
Theorem vsnprintf_truncates fuel buffer buf_size format args l m :
  prints fuel format args = Ok l → Z.of_nat (length l) < 2 ^ 31 →
  0 <= buf_size < 2 ^ 31 → mapped m buffer buf_size →
  ∃ m', vsnprintf fuel buffer buf_size format args m = Ok (Z.of_nat (length l), m') ∧
    (0 < buf_size → holds m' buffer (map u8 (take (Z.to_nat (buf_size - 1)) l) ++ [0])) ∧
    ∀ q, q < buffer ∨ buffer + buf_size <= q → m' !! q = m !! q.
Proof. apply truncates. Qed.

(** ** The console *)

Lemma put_console l v n v' :
  write (map u8 l) v = Ok (tt, v') → 0 <= n → n + Z.of_nat (length l) < 2 ^ 31 →
  put_all VprintfWithoutLock l (v, n) = Ok (tt, (v', n + Z.of_nat (length l))).
Proof.
  revert v n. induction l as [|c l IH]; intros v n Hw Hn H31; cbn [put_all map write length] in *.
  - injection Hw as <-. by rewrite Z.add_0_r.
  - apply bind_Ok_inv in Hw as ([] & v1 & Hv1 & Hw). unfold VprintfWithoutLock at 1.
    rewrite bind_assoc, modify_run, s32_small by lia. unfold zoom.
    rewrite (bind_Ok _ _ _ tt (v1, n + 1)) by (unfold PutcharWithoutLock; cbn [fst]; by rewrite Hv1).
    rewrite (IH v1 (n + 1)) by (done || lia). do 3 f_equal. lia.
Qed.

(** Kprintf shows its text on the display, after what is already there, and
    returns the number of characters. *)
Theorem kprintf_shows fuel format args l t v :
  prints fuel format args = Ok l → Z.of_nat (length l) < 2 ^ 31 →
  shows t v → Forall plain (map u8 l) →
  ∃ v', kprintf fuel format args v = Ok (Z.of_nat (length l), v') ∧ shows (term_write (map u8 l) t) v'.
Proof.
  intros Hp Hl Hv Hpl. destruct (write_shows (map u8 l) t v Hv Hpl) as (v' & Hw & Hs).
  exists v'. split; [|done]. unfold kprintf, vprintf. rewrite (vprintf_puts _ _ _ _ _ _ Hp).
  by rewrite (put_console l v 0 v' Hw) by lia.
Qed.

(** ** Termination

    A routine that does not run out of fuel; faults are allowed. *)

Section fuel.
Context {W : Type} (output : Z → M W unit).

Definition fueled {A} (m : M W A) : Prop := ∀ w, m w ≠ Stop NoFuel.
Definition o_fueled {A} (o : outcome A) : Prop := o ≠ Stop NoFuel.

Hypothesis output_fueled : ∀ c, fueled (output c).

Lemma fueled_bind {A B} (m : M W A) (k : A → M W B) : fueled m → (∀ a, fueled (k a)) → fueled (bind m k).
Proof.
  intros Hm Hk w. specialize (Hm w). unfold bind. destruct (m w) as [[a w']|e]; [apply Hk|].
  intros [= ->]. by apply Hm.
Qed.

Lemma fueled_lift_bind {A B} (o : outcome A) (k : A → M W B) :
  o_fueled o → (∀ a, o = Ok a → fueled (k a)) → fueled (bind (lift o) k).
Proof. intros Ho Hk w. unfold bind, lift. destruct o as [a|e]; [by apply Hk|congruence]. Qed.

Lemma fueled_ret {A} (a : A) : fueled (ret a).
Proof. done. Qed.

Lemma fueled_put_all l : fueled (put_all output l).
Proof. induction l; simpl; [apply fueled_ret|by apply fueled_bind]. Qed.

Lemma fueled_when (b : bool) m : fueled m → fueled (when b m).
Proof. destruct b; [done|intros; apply fueled_ret]. Qed.

Ltac fueled := repeat first
  [ apply fueled_bind | apply fueled_when | apply fueled_ret | apply output_fueled | apply fueled_put_all
  | progress intros ].

Lemma fueled_format_integer v sg ng b c :
  b ∈ bases → 0 <= v < 2 ^ 64 → fueled (format_integer output v sg ng b c).
Proof.
  intros Hb Hv. unfold format_integer. apply fueled_lift_bind.
  - destruct (buffer_ok v b c Hb Hv) as (buf & -> & _). done.
  - unfold output_dup. intros buf _. fueled.
Qed.

Lemma fueled_format_string s n c : fueled (format_string output s n c).
Proof. unfold format_string, output_dup. fueled. Qed.

End fuel.

(** What is left of the format after a conversion is not longer; the parser
    only stops with a fault. *)
Definition shorter {A} (rest : A → list Z) (n : nat) (o : outcome A) : Prop :=
  match o with Ok a => (length (rest a) <= n)%nat | Stop e => e = Fault end.

Lemma shorter_bind {A B} (r : A → list Z) (r' : B → list Z) n o k :
  shorter r n o → (∀ a, (length (r a) <= n)%nat → shorter r' n (k a)) → shorter r' n (obind o k).
Proof. destruct o; simpl; [|congruence]. intros H Hk. by apply Hk. Qed.

Lemma shorter_ok {A} (r : A → list Z) n a : (length (r a) <= n)%nat → shorter r n (Ok a).
Proof. done. Qed.

Lemma length_tail (l : list Z) n : (length l <= n)%nat → (length (tail l) <= n)%nat.
Proof. destruct l; simpl; lia. Qed.

Lemma shorter_star f n : shorter (λ _, []) n (star f).
Proof. destruct f; simpl; [done|lia]. Qed.

Lemma shorter_va_int a n : shorter (λ _, []) n (va_int a).
Proof. destruct a as [|[]]; simpl; done || lia. Qed.

Lemma shorter_flags f fl n : (length f <= n)%nat → shorter fst n (parse_flags f fl).
Proof.
  revert fl. induction f as [|c f IH]; intros fl H; simpl; [done|].
  destruct (flag_of c); [apply IH; simpl in H; lia|done].
Qed.

Lemma shorter_number f v n : (length f <= n)%nat → shorter fst n (parse_number f v).
Proof.
  revert v. induction f as [|c f IH]; intros v H; simpl; [done|].
  destruct (isdigit c); [apply IH; simpl in H; lia|done].
Qed.

Lemma shorter_type f n : (length f <= n)%nat → shorter fst n (parse_type f).
Proof.
  intros H. unfold parse_type. apply (shorter_bind _ _ _ _ _ (shorter_star f n)). intros c _. cbv zeta.
  repeat match goal with
  | |- shorter _ _ (if ?b then _ else _) => destruct b
  | |- shorter _ _ (obind (star ?f) _) => apply (shorter_bind _ _ _ _ _ (shorter_star f n)); intros
  end; apply shorter_ok; simpl; by repeat apply length_tail.
Qed.

Lemma shorter_width f a n : (length f <= n)%nat → shorter (λ x, x.1.1) n (parse_width f a).
Proof.
  intros H. unfold parse_width. apply (shorter_bind _ _ _ _ _ (shorter_star f n)). intros c _.
  destruct (c =? _).
  - apply (shorter_bind _ _ _ _ _ (shorter_va_int a n)). intros [w a'] _. by apply length_tail.
  - apply (shorter_bind _ _ _ _ _ (shorter_number f 0 n H)). by intros [f' w].
Qed.

Lemma shorter_precision f a n : (length f <= n)%nat → shorter (λ x, x.1.1) n (parse_precision f a).
Proof.
  intros H. unfold parse_precision. apply (shorter_bind _ _ _ _ _ (shorter_star f n)). intros c _.
  destruct (c =? _); [|done]. cbv zeta.
  apply (shorter_bind _ _ _ _ _ (shorter_star (tail f) n)). intros c' _.
  apply (shorter_bind (λ x, x.1.1)); [|by intros [[f' p] a']].
  destruct (c' =? _).
  - apply (shorter_bind _ _ _ _ _ (shorter_va_int a n)). intros [w a'] _. by do 2 apply length_tail.
  - apply (shorter_bind _ _ _ _ _ (shorter_number (tail f) 0 n (length_tail _ _ H))). by intros [f' w].
Qed.

Lemma shorter_conversion f a n : (length f <= n)%nat → shorter (λ x, x.1.1) n (parse_conversion f a).
Proof.
  intros H. unfold parse_conversion.
  apply (shorter_bind _ _ _ _ _ (shorter_flags f 0 n H)). intros [f1 fl] H1. cbv zeta. cbn [fst] in H1.
  apply (shorter_bind _ _ _ _ _ (shorter_width f1 a n H1)). intros [[f2 w] a2] H2. cbn [fst] in H2.
  destruct (if w <? 0 then _ else _) as [w' fl'].
  apply (shorter_bind _ _ _ _ _ (shorter_precision f2 a2 n H2)). intros [[f3 p] a3] H3. cbn [fst] in H3.
  apply (shorter_bind _ _ _ _ _ (shorter_type f3 n H3)). by intros [f4 t] H4.
Qed.

(** The value of an integer argument fits in 64 bits. *)
Lemma u64_range x : 0 <= u64 x < 2 ^ 64.
Proof. apply Z.mod_pos_bound. done. Qed.

Lemma signed_value_range t a v a' : signed_value t a = Ok (v, a') → - 2 ^ 63 <= v < 2 ^ 63.
Proof.
  assert (∀ x k, 0 < k → 0 <= x `mod` k < k) as Hm by (intros; apply Z.mod_pos_bound; done).
  destruct a as [|[x|x|x] a]; destruct t; try discriminate; simpl; unfold obind; try discriminate;
    intros [= <- _].
  all: try (unfold s8, s16, s32, s64; match goal with |- _ <= ?y `mod` ?k - _ < _ => specialize (Hm y k eq_refl); lia end).
  pose proof (Hm x (2 ^ 32) eq_refl) as Hx. unfold u32, SIZE_MAX in *. destruct (_ <? _); lia.
Qed.

Lemma unsigned_value_range t a v a' : unsigned_value t a = Ok (v, a') → 0 <= v < 2 ^ 64.
Proof.
  assert (∀ x k, 0 < k → 0 <= x `mod` k < k) as Hm by (intros; apply Z.mod_pos_bound; done).
  destruct a as [|[x|x|x] a]; destruct t; try discriminate; simpl; unfold obind; try discriminate;
    intros [= <- _].
  all: try (unfold u8, u16, u32, u64; match goal with |- _ <= ?y `mod` ?k < _ => specialize (Hm y k eq_refl); lia end).
  assert (0xffffffff = Z.ones 32) as -> by done. rewrite Z.land_ones by done. specialize (Hm (u64 (s32 x)) (2 ^ 32) eq_refl). lia.
Qed.

Section termination.
Context {W : Type} (output : Z → M W unit).
Hypothesis output_fueled : ∀ c, fueled (output c).

Lemma fueled_plain fuel c f a :
  c ≠ 0 → c ≠ chr "%" → fueled (__vprintf output fuel f a) → fueled (__vprintf output (S fuel) (c :: f) a).
Proof.
  intros H0 Hp H. cbn [__vprintf]. apply fueled_lift_bind; [done|]. intros ? [= <-].
  apply Z.eqb_neq in H0 as ->. apply Z.eqb_neq in Hp as ->. by apply fueled_bind.
Qed.

Lemma fueled_percent fuel f a :
  fueled (__vprintf output fuel f a) → fueled (__vprintf output (S fuel) (chr "%" :: chr "%" :: f) a).
Proof.
  intros H. cbn [__vprintf]. apply fueled_lift_bind; [done|]. intros ? [= <-].
  change (chr "%" =? 0) with false. change (chr "%" =? chr "%") with true. cbv iota. cbn [negb tail].
  apply fueled_lift_bind; [done|]. intros ? [= <-]. by apply fueled_bind.
Qed.

Lemma fueled_char fuel f v a :
  (∀ a', fueled (__vprintf output fuel f a')) →
  fueled (__vprintf output (S fuel) (chr "%" :: chr "c" :: f) (ArgInt v :: a)).
Proof.
  intros H. cbn [__vprintf]. apply fueled_lift_bind; [done|]. intros ? [= <-].
  change (chr "%" =? 0) with false. change (chr "%" =? chr "%") with true. cbv iota. cbn [negb tail].
  apply fueled_lift_bind; [done|]. intros ? [= <-]. change (chr "c" =? chr "%") with false. cbv iota.
  apply fueled_lift_bind; [done|]. intros ? [= <-]. cbv beta iota.
  apply fueled_lift_bind; [done|]. intros ? [= <-].
  repeat match goal with |- fueled (bind (if ?b then _ else _) _) =>
    let r := eval vm_compute in b in change b with r; cbv iota end.
  apply fueled_bind; [|done].
  apply fueled_lift_bind; [done|]. intros ? [= <-]. cbv beta iota.
  apply fueled_bind; [by apply fueled_format_string|done].
Qed.

Lemma fueled_end fuel f a : fueled (__vprintf output (S fuel) (0 :: f) a).
Proof. cbn [__vprintf]. by apply fueled_lift_bind; [|intros ? [= <-]]. Qed.

(** The messages on unknown conversions need 30 steps. *)
Lemma no_conversion_fueled f (msg : string) ch :
  msg = "<<no %%%c in kernel>>"%string ∨ msg = "<<no %%%c conversion>>"%string →
  fueled (__vprintf output (30 + f) (text msg ++ [0]) [ArgInt ch]).
Proof.
  intros [-> | ->];
    (match goal with |- context [text ?t ++ [0]] =>
       let r := eval vm_compute in (text t ++ [0]) in change (text t ++ [0]) with r end);
    repeat match goal with
    | |- fueled (__vprintf _ _ (37 :: 37 :: _) _) => apply fueled_percent
    | |- fueled (__vprintf _ _ (37 :: _) _) => apply fueled_char; intros
    | |- fueled (__vprintf _ _ [0] _) => apply fueled_end
    | _ => apply fueled_plain; [discriminate..|]
    end.
Qed.

Lemma vprintf_fueled fuel format args :
  (length format + 30 <= fuel)%nat → fueled (__vprintf output fuel format args).
Proof.
  revert format args. induction fuel as [|fuel IH]; intros format args Hl; [lia|].
  destruct format as [|c format]; [done|]. cbn [__vprintf length] in *.
  apply fueled_lift_bind; [done|]. intros ? [= <-]. destruct (c =? 0); [done|].
  destruct (negb _); [apply fueled_bind; [done|]; intros; apply IH; simpl; lia|].
  cbn [tail]. destruct format as [|c1 format]; [done|]. cbn [length] in Hl.
  apply fueled_lift_bind; [done|]. intros ? [= <-].
  destruct (c1 =? _); [apply fueled_bind; [done|]; intros; apply IH; simpl; lia|].
  pose proof (shorter_conversion (c1 :: format) args _ (le_n _)) as Hc.
  apply fueled_lift_bind; [intros E; rewrite E in Hc; done|].
  intros [[rest c2] args'] E. rewrite E in Hc. cbn [shorter fst length] in Hc. clear E. cbv beta iota.
  apply fueled_lift_bind; [by destruct rest|]. intros ch _.
  apply fueled_bind; [|intros; apply IH; destruct rest; simpl in *; lia].
  assert (∀ (m : M W unit) (a : va_list), fueled m → fueled (m >>> ret a)) as Hret
    by (intros; by apply fueled_bind).
  assert (fuel = 30 + (fuel - 30))%nat as Hf by lia.
  repeat match goal with |- fueled (if ?b then _ else _) => destruct b end.
  - apply fueled_lift_bind; [destruct (type c2), args' as [|[]]; done|]. intros [v a'] Hv%signed_value_range.
    apply Hret, fueled_format_integer; [done|unfold bases; set_solver|].
    destruct (v <? 0) eqn:E; [apply u64_range|zbool; lia].
  - apply fueled_lift_bind; [destruct (type c2), args' as [|[]]; done|]. intros [v a'] Hv%unsigned_value_range.
    apply Hret, fueled_format_integer; [done| |done].
    unfold bases. repeat match goal with |- (if ?b then _ else _) ∈ _ => destruct b end; set_solver.
  - apply fueled_lift_bind; [by destruct args' as [|[]]|]. intros [v a'] _. by apply Hret, fueled_format_string.
  - apply fueled_lift_bind; [by destruct args' as [|[]]|]. intros [v a'] _. by apply Hret, fueled_format_string.
  - apply fueled_lift_bind; [by destruct args' as [|[]]|]. intros [v a'] E.
    apply Hret, fueled_format_integer; [done|unfold bases; set_solver|].
    by apply (unsigned_value_range INTTYPE args' v a').
  - apply Hret. rewrite Hf. by apply no_conversion_fueled; left.
  - apply Hret. rewrite Hf. by apply no_conversion_fueled; right.
Qed.

End termination.

(** C23: __vprintf comes to an end: with one step for each character of the
    format and 30 for the message about an unknown conversion it does not run
    out of fuel, whatever the format and the arguments are (it may read outside
    of them), if the output routine always returns. *)
Theorem vprintf_terminates {W} (output : Z → M W unit) fuel format args w :
  (∀ c w', output c w' ≠ Stop NoFuel) → (length format + 30 <= fuel)%nat →
  __vprintf output fuel format args w ≠ Stop NoFuel.
Proof. intros Ho Hf. by apply vprintf_fueled. Qed.

(** ** Printing a number and reading it back *)

Definition plain_conv : printf_conversion := Conv 0 0 (-1) INTTYPE.

Definition lower_digits (b : integer_base) : Prop :=
  ∀ d, 0 <= d < base b → nth (Z.to_nat d) (digits b) 0 = digit_char d.

Lemma digits_of_value n b v cnt buf buf' (k : nat) :
  2 <= base b → lower_digits b → 0 <= v < base b ^ Z.of_nat k →
  digits_of n b 0 v cnt buf = Ok buf' →
  ∃ ds, buf' = map digit_char ds ++ buf ∧ Forall (λ d, 0 <= d < base b) ds ∧
    value (base b) 0 ds = v ∧ (length ds <= k)%nat.
Proof.
  intros Hb Hd. revert v cnt buf k.
  induction n as [|n IH]; intros v cnt buf k Hv; cbn [digits_of]; destruct (Z.ltb_spec 0 v); try done.
  1,3: intros [= <-]; exists []; simpl; repeat split; [constructor|lia|lia].
  destruct k as [|k]; [simpl in Hv; lia|].
  change (has_flag 0 GROUP) with false. cbn [andb obind]. unfold push.
  destruct (_ <? _)%nat; [cbn [obind]|done]. intros H1.
  pose proof (Z.mod_pos_bound v (base b) ltac:(lia)) as Hmod.
  apply (IH _ _ _ k) in H1 as (ds & -> & Hds & Hval & Hl).
  - exists (ds ++ [v mod base b]). rewrite Hd by done. split; [by rewrite map_app, <- app_assoc|].
    split; [apply Forall_app; split; [done|by apply Forall_singleton]|]. split.
    + unfold value in *. rewrite fold_left_app. simpl. rewrite Hval.
      pose proof (Z.div_mod v (base b) ltac:(lia)). lia.
    + rewrite length_app. simpl. lia.
  - split; [apply Z.div_pos; lia|]. apply Z.div_lt_upper_bound; [lia|].
    rewrite <- Z.pow_succ_r by lia. replace (Z.succ (Z.of_nat k)) with (Z.of_nat (S k)) by lia. lia.
Qed.

Lemma plain_buffer v b (k : nat) :
  b ∈ bases → lower_digits b → 0 <= v < 2 ^ 31 → v < base b ^ Z.of_nat k → (0 < k)%nat →
  ∃ ds, integer_buffer v b plain_conv = Ok (map digit_char ds) ∧ Forall (λ d, 0 <= d < base b) ds ∧
    value (base b) 0 ds = v ∧ (0 < length ds <= k)%nat.
Proof.
  intros Hb Hd Hv Hvk Hk. destruct (buffer_ok v b plain_conv Hb) as (buf & Hr & _); [lia|].
  pose proof (bases_base b Hb) as [Hb2 _]. revert Hr. unfold integer_buffer. cbn [flags precision plain_conv].
  destruct (digits_of 64 b 0 v 0 []) as [buf1|] eqn:E; [|done].
  apply (digits_of_value _ _ _ _ _ _ k) in E as (ds & -> & Hds & Hval & Hl); [|done|done|lia].
  rewrite app_nil_r. cbn [obind]. change (-1 <? 0) with true. cbv iota. change (has_flag 0 POUND) with false. cbn [andb].
  destruct ds as [|d ds].
  - intros _. exists [0]. split; [done|]. split; [apply Forall_singleton; lia|].
    split; [done|simpl; lia].
  - intros _. exists (d :: ds). split; [|split; [done|split; [done|simpl in *; lia]]].
    unfold zeros. destruct (Z.ltb_spec (Z.of_nat (length (map digit_char (d :: ds)))) 1) as [H1|_]; [|done].
    simpl in H1. lia.
Qed.

(** A conversion without flags, width and precision. *)
Inductive spec := Signed | Octal | Hexadecimal.
Definition spec_char (s : spec) : Z :=
  match s with Signed => chr "d" | Octal => chr "o" | Hexadecimal => chr "x" end.
Definition spec_base (s : spec) : integer_base :=
  match s with Signed => base_d | Octal => base_o | Hexadecimal => base_lx end.
Definition spec_range (s : spec) (n : Z) : Prop :=
  match s with Signed => - 2 ^ 31 < n < 2 ^ 31 | _ => 0 <= n < 2 ^ 31 end.

Lemma spec_lower s : lower_digits (spec_base s).
Proof.
  intros d Hd. assert (d ∈ seqZ 0 (base (spec_base s))) as H by (apply elem_of_seqZ; lia).
  clear Hd. revert d H. apply Forall_forall. destruct s; repeat constructor.
Qed.

Lemma vprintf_number {W} (output : Z → M W unit) s n w : spec_range s n →
  __vprintf output 2 [chr "%"; spec_char s; 0] [ArgInt n] w
  = (format_integer output (Z.abs n) (match s with Signed => true | _ => false end) (n <? 0)
       (spec_base s) plain_conv >>> ret tt) w.
Proof.
  intros Hn.
  transitivity ((match s with
    | Signed => format_integer output (if s32 n <? 0 then u64 (- s32 n) else s32 n) true (s32 n <? 0) base_d plain_conv
    | _ => format_integer output (u32 n) false false (spec_base s) plain_conv
    end >>> ret tt) w).
  { unfold bind. destruct s.
    - change (__vprintf output 2 [chr "%"; spec_char Signed; 0] [ArgInt n] w) with
        (((format_integer output (if s32 n <? 0 then u64 (- s32 n) else s32 n) true (s32 n <? 0) base_d plain_conv
          >>> ret (@nil arg)) >>> ret tt) w).
      unfold bind. by destruct (format_integer _ _ _ _ _ _ w) as [[[] ?]|].
    - change (__vprintf output 2 [chr "%"; spec_char Octal; 0] [ArgInt n] w) with
        (((format_integer output (u32 n) false false base_o plain_conv >>> ret (@nil arg)) >>> ret tt) w).
      unfold bind. by destruct (format_integer _ _ _ _ _ _ w) as [[[] ?]|].
    - change (__vprintf output 2 [chr "%"; spec_char Hexadecimal; 0] [ArgInt n] w) with
        (((format_integer output (u32 n) false false base_lx plain_conv >>> ret (@nil arg)) >>> ret tt) w).
      unfold bind. by destruct (format_integer _ _ _ _ _ _ w) as [[[] ?]|]. }
  destruct s; simpl in Hn |- *.
  - rewrite s32_small by lia. destruct (Z.ltb_spec n 0); [|by rewrite Z.abs_eq by lia].
    rewrite Z.abs_neq by lia. unfold u64. by rewrite Z.mod_small by lia.
  - rewrite u32_small, Z.abs_eq by lia. by destruct (Z.ltb_spec n 0); [lia|].
  - rewrite u32_small, Z.abs_eq by lia. by destruct (Z.ltb_spec n 0); [lia|].
Qed.

Lemma put_all_collect k l : put_all collect k l = Ok (tt, l ++ k).
Proof.
  revert l. induction k as [|c k IH]; intros l; cbn [put_all]; [by rewrite app_nil_r|].
  unfold collect at 1. rewrite modify_run, IH, <- app_assoc. done.
Qed.

Lemma format_plain v sg ng b buf l :
  integer_buffer v b plain_conv = Ok buf → (0 < length buf)%nat → Z.of_nat (length buf) < 2 ^ 30 →
  format_integer collect v sg ng b plain_conv l
  = Ok (tt, l ++ (if sg && ng then [chr "-"] else []) ++ buf).
Proof.
  intros Hbuf H0 H30. unfold format_integer. rewrite Hbuf. unfold lift. unfold bind at 1.
  unfold sign_of. cbv zeta. cbn [flags width plain_conv].
  change (has_flag 0 POUND) with false. change (has_flag 0 PLUS) with false.
  change (has_flag 0 SPACE) with false. change (has_flag 0 ZERO) with false.
  change (has_flag 0 MINUS) with false. change (has_flag 0 (Z.lor MINUS ZERO)) with false. cbn [andb negb].
  change (0 =? 0) with true. cbn [negb when]. rewrite Z.sub_0_r.
  unfold output_dup. set (pad := s32 _). assert (Z.to_nat (if pad <? 0 then 0 else pad) = 0%nat) as ->.
  { unfold pad. rewrite s32_small by (destruct (_ =? 0); lia).
    destruct (_ =? 0); match goal with |- context [?a <? ?b] => destruct (Z.ltb_spec a b) end; lia. }
  cbn [replicate put_all]. rewrite bind_ret.
  destruct sg, ng; cbn [andb]; try change (0 =? 0) with true; try change (chr "-" =? 0) with false; cbn [negb when].
  { unfold collect at 1. rewrite modify_run, !bind_ret.
    rewrite (bind_Ok _ _ _ _ _ (put_all_collect _ _)). by rewrite <- app_assoc. }
  all: by rewrite !bind_ret, (bind_Ok _ _ _ _ _ (put_all_collect _ _)).
Qed.

Lemma prints_number s n ds : spec_range s n →
  integer_buffer (Z.abs n) (spec_base s) plain_conv = Ok (map digit_char ds) →
  (0 < length ds)%nat → Z.of_nat (length ds) < 2 ^ 30 →
  prints 2 [chr "%"; spec_char s; 0] [ArgInt n]
  = Ok (sign_text (if n <? 0 then Minus else Plain) ++ map digit_char ds).
Proof.
  intros Hn Hbuf Hl H30. unfold prints. fold collect. rewrite vprintf_number by done. unfold bind.
  rewrite (format_plain _ _ _ _ _ _ Hbuf) by (rewrite length_map; done). unfold ret.
  destruct s; simpl in *; destruct (Z.ltb_spec n 0); done || lia.
Qed.

Lemma spec_abs s n : spec_range s n → 0 <= Z.abs n < 2 ^ 31 ∧ Z.abs n < base (spec_base s) ^ Z.of_nat 11.
Proof. destruct s; cbn [spec_range spec_base base base_d base_o base_lx]; lia. Qed.

Lemma signed_abs (n : Z) : signed (if n <? 0 then Minus else Plain) (Z.abs n) = n.
Proof. destruct (Z.ltb_spec n 0); simpl; lia. Qed.

Lemma u8_digits ds b : 2 <= b <= 36 → Forall (λ d, 0 <= d < b) ds → map u8 (map digit_char ds) = map digit_char ds.
Proof.
  intros Hb. induction 1 as [|d ds Hd _ IH]; [done|]. cbn [map]. rewrite IH. f_equal.
  pose proof (digit_char_range d ltac:(lia)). unfold u8. rewrite Z.mod_small; lia.
Qed.


(** A number printed with "%d", "%o" or "%x" by vsnprintf and read by strtol
    in the base of the conversion is the number again, for every int from
    -2^31 + 1 on ("%d") or every one that is not negative ("%o", "%x"), and
    strtol ends at the terminator; 13 bytes are enough for the text. *)
Theorem printed_number_reads_back s n buffer buf_size fuel m :
  spec_range s n → 13 <= buf_size < 2 ^ 31 → mapped m buffer buf_size → (12 < fuel)%nat →
  ∃ len m', vsnprintf 2 buffer buf_size [chr "%"; spec_char s; 0] [ArgInt n] m = Ok (len, m') ∧
    strtol fuel buffer (base (spec_base s)) m' = Ok ((n, buffer + len), m').
Proof.
  intros Hn Hs Hm Hf. destruct (spec_abs s n Hn) as [Ha Hp].
  assert (spec_base s ∈ bases) as Hb by (destruct s; unfold bases; set_solver).
  assert (2 <= base (spec_base s) <= 36) as Hb36 by (destruct s; simpl; lia).
  destruct (plain_buffer (Z.abs n) (spec_base s) 11 Hb (spec_lower s) Ha Hp ltac:(lia))
    as (ds & Hbuf & Hds & Hval & Hl).
  set (sg := if n <? 0 then Minus else Plain).
  assert (length (sign_text sg) <= 1)%nat as Hsg by (unfold sg; destruct (n <? 0); simpl; lia).
  pose proof (prints_number s n ds Hn Hbuf ltac:(lia) ltac:(lia)) as Hpr. fold sg in Hpr.
  destruct (truncates 2 buffer buf_size _ _ _ m Hpr) as (m' & Hr & Hh & _);
    [rewrite length_app, length_map; lia|lia|done|].
  eexists _, m'. split; [exact Hr|]. specialize (Hh ltac:(lia)).
  rewrite take_ge in Hh by (rewrite length_app, length_map; lia).
  rewrite map_app, (u8_digits _ _ Hb36 Hds), <- app_assoc in Hh.
  assert (map u8 (sign_text sg) = sign_text sg) as Hu by (unfold sg; by destruct (n <? 0)). rewrite Hu in Hh.
  rewrite (strtol_run m' buffer fuel _ [] sg ds Hb36); [|constructor|done|lia|simpl; lia|exact Hh].
  rewrite Hval, length_app, length_map. unfold sg. rewrite signed_abs. do 3 f_equal. simpl. lia.
Qed.

(** ** puts *)

Lemma putc_step ch t v : shows t v → plain (u8 ch) →
  ∃ v', PutcharWithoutLock ch v = Ok (tt, v') ∧ shows (term_put (u8 ch) t) v'.
Proof. intros Hv Hp. destruct (putc_shows t (u8 ch) v Hv Hp) as (v' & Hr & Hs & _). by exists v'. Qed.

(** Puts shows every character of its text on a line of its own: the new
    line is written in the loop, and not after it as its comment says. *)
Theorem puts_one_character_per_line str t v :
  shows t v → Forall (λ ch, ch ≠ 0 ∧ plain (u8 ch)) str →
  ∃ v', puts (str ++ [0]) v = Ok (0, v') ∧
    shows (term_write (flat_map (λ ch, [u8 ch; 10]) str) t) v'.
Proof.
  intros Hv Hs. revert t v Hv. induction Hs as [|ch str [H0 Hp] _ IH]; intros t v Hv; [by exists v|].
  cbn [puts app flat_map]. apply Z.eqb_neq in H0 as ->.
  destruct (putc_step ch t v Hv Hp) as (v1 & Hr1 & Hv1).
  destruct (putc_step 10 _ v1 Hv1) as (v2 & Hr2 & Hv2); [unfold plain; vm_compute; split; [done|set_solver]|].
  destruct (IH _ v2 Hv2) as (v' & Hr & Hs').
  exists v'. by rewrite (bind_Ok _ _ _ _ _ Hr1), (bind_Ok _ _ _ _ _ Hr2).
Qed.

(** ** Concrete runs *)

Definition blank_screen : vga := Vga 0 0 (replicate 2000 (32, 7)) false 0 0.

Example hex_dump_ex :
  hex_dump collect 99 2 4080 (text "Kaush" ++ [10; 0]) true []
  = Ok (tt, text "00000ff0  4b 61 75 73 68 0a 00 "%string
       ++ text "                           |Kaush..         |"%string ++ [10]).
Proof. vm_compute. reflexivity. Qed.

Lemma integer_buffer_never_overflows_witness :
  ∃ buf, integer_buffer (2 ^ 64 - 1) base_o (Conv (Z.lor GROUP POUND) 0 64 INTTYPEMAX) = Ok buf ∧
    (length buf <= BUF_SIZE)%nat.
Proof.
  apply (integer_buffer_never_overflows (2 ^ 64 - 1) base_o); [unfold bases; set_solver|lia].
Defined.

Lemma vprintf_terminates_witness :
  __vprintf collect 99 (text "%llq %5" ++ [0]) [ArgWide 4; ArgInt 2] [] ≠ Stop NoFuel.
Proof.
  apply (vprintf_terminates collect 99 (text "%llq %5" ++ [0]) [ArgWide 4; ArgInt 2] []).
  - done.
  - vm_compute. lia.
Defined.


Lemma mapped_bytes4 : mapped (bytes 8 [1; 1; 1; 1; 1]) 8 4.
Proof.
  intros i Hi. assert (i = 0 ∨ i = 1 ∨ i = 2 ∨ i = 3) as [-> | [-> | [-> | ->]]] by lia; vm_compute; eauto.
Qed.

Lemma vsnprintf_truncates_witness :
  ∃ m', vsnprintf 40 8 4 (text "%05d" ++ [0]) [ArgInt (-42)] (bytes 8 [1; 1; 1; 1; 1]) = Ok (5, m') ∧
    holds m' 8 (text "-00" ++ [0]) ∧ m' !! 12 = Some 1.
Proof.
  destruct (vsnprintf_truncates 40 8 4 (text "%05d" ++ [0]) [ArgInt (-42)] (text "-0042") (bytes 8 [1; 1; 1; 1; 1]))
    as (m' & Hr & Hh & Ho).
  - vm_compute. reflexivity.
  - simpl. lia.
  - lia.
  - apply mapped_bytes4.
  - exists m'. split; [exact Hr|]. split; [apply Hh; lia|]. rewrite Ho by lia. vm_compute. reflexivity.
Defined.

Lemma kprintf_shows_witness :
  ∃ v', kprintf 99 (text "%s:%x" ++ [10; 0]) [ArgStr (Some (text "eip")); ArgInt 255] blank_screen = Ok (7, v') ∧
    shows ([text "eip:ff"], []) v'.
Proof.
  destruct (kprintf_shows 99 (text "%s:%x" ++ [10; 0]) [ArgStr (Some (text "eip")); ArgInt 255]
    (text "eip:ff" ++ [10]) ([], []) blank_screen) as (v' & Hr & Hs).
  - vm_compute. reflexivity.
  - simpl. lia.
  - split; [cbn; lia|]. split; [constructor|]. split; [done|]. split; [done|]. vm_compute. reflexivity.
  - apply (bool_decide_unpack _). vm_compute. exact I.
  - exists v'. split; [exact Hr|exact Hs].
Defined.

Lemma printed_number_reads_back_witness :
  ∃ len m', vsnprintf 2 8 13 [37; 100; 0] [ArgInt (-2147483647)] (bytes 8 (replicate 13 1)) = Ok (len, m') ∧
    strtol 13 8 10 m' = Ok ((-2147483647, 8 + len), m').
Proof.
  apply (printed_number_reads_back Signed (-2147483647) 8 13 13 (bytes 8 (replicate 13 1))).
  - simpl. lia.
  - lia.
  - intros i Hi. assert (i ∈ seqZ 0 13) as H by (apply elem_of_seqZ; lia). clear Hi. revert i H.
    apply Forall_forall. repeat constructor; vm_compute; eauto.
  - lia.
Defined.

Lemma puts_one_character_per_line_witness :
  ∃ v', puts (text "ok" ++ [0]) blank_screen = Ok (0, v') ∧ shows ([text "o"; text "k"], []) v'.
Proof.
  destruct (puts_one_character_per_line (text "ok") ([], []) blank_screen) as (v' & Hr & Hs).
  - split; [cbn; lia|]. split; [constructor|]. split; [done|]. split; [done|]. vm_compute. reflexivity.
  - repeat constructor; unfold plain; vm_compute; intuition (done || set_solver).
  - exists v'. split; [exact Hr|exact Hs].
Defined.
