(* ===== verification/Irql.v ===== *)
(** * Irql: interrupt request levels, spin locks and deferred procedure calls
    (kern/ke/irql.c, locks.c, dpc.c, and the PRCB accessors of processor.c)

    The kernel is built with both __KOS_UP__ and __KOS_MP__: one processor,
    but spin locks really exchange their lock word.  The HAL calls that program
    the interrupt controllers are left out here: Hal has the routines with them, and
    proves that they do to this state what the routines below do.  The
    deferred routines themselves are a parameter ([run_dpc]), they belong to
    the components that queue them. *)

From S2P Require Import Prelude Types.

(** ** Levels (ke.h) *)

Definition PASSIVE_LEVEL : Z := 0.
Definition APC_LEVEL : Z := 1.
Definition DISPATCH_LEVEL : Z := 2.
Definition CLOCK1_LEVEL : Z := 28.
Definition HIGH_LEVEL : Z := 31.
Definition MAX_IRQL_LEVEL : Z := HIGH_LEVEL.

(** ** Data *)

Record KSPIN_LOCK := SpinLk { Lock : Z; LockThread : addr; LockOldIrql : Z }.

Inductive KDPC_IMPORTANCE :=
| LowImportance | MediumImportance | HighImportance | MediumHighImportance.

#[export] Instance importance_eq_dec : EqDecision KDPC_IMPORTANCE.
Proof. solve_decision. Defined.

(** [DpcLinked]: the next pointer of DpcListEntry is not NULL.  It is set by
    the first insertion and never cleared by a removal. *)
Record KDPC := Dpc {
  Type_ : Z; Importance : KDPC_IMPORTANCE; Number : Z; DpcLinked : bool;
  DeferredRoutine : Z; DeferredContext : addr; SystemArgument1 : addr; SystemArgument2 : addr }.

Definition DpcObject : Z := 19.
Definition ThreadedDpcObject : Z := 24.

(** The part of KPRCB and KPCR these files use, with the spin locks and DPC
    objects of the kernel by address. *)
Record prcb := Prcb {
  CurrentIrql : Z;
  CurrentThread : addr;
  DpcListHead : list addr;
  TimerTicks : Z;
  spinlocks : gmap addr KSPIN_LOCK;
  dpcs : gmap addr KDPC }.

Definition ProcessorLock : addr := 1.

Definition set_irql (i : Z) (p : prcb) : prcb :=
  Prcb i (CurrentThread p) (DpcListHead p) (TimerTicks p) (spinlocks p) (dpcs p).
Definition set_thread (t : addr) (p : prcb) : prcb :=
  Prcb (CurrentIrql p) t (DpcListHead p) (TimerTicks p) (spinlocks p) (dpcs p).
Definition set_dpclist (l : list addr) (p : prcb) : prcb :=
  Prcb (CurrentIrql p) (CurrentThread p) l (TimerTicks p) (spinlocks p) (dpcs p).
Definition set_ticks (n : Z) (p : prcb) : prcb :=
  Prcb (CurrentIrql p) (CurrentThread p) (DpcListHead p) n (spinlocks p) (dpcs p).
Definition set_lock (l : addr) (k : KSPIN_LOCK) (p : prcb) : prcb :=
  Prcb (CurrentIrql p) (CurrentThread p) (DpcListHead p) (TimerTicks p)
       (<[l := k]> (spinlocks p)) (dpcs p).
Definition set_dpc (d : addr) (x : KDPC) (p : prcb) : prcb :=
  Prcb (CurrentIrql p) (CurrentThread p) (DpcListHead p) (TimerTicks p) (spinlocks p)
       (<[d := x]> (dpcs p)).

(** ** processor.c: accessors of the current PRCB *)

Definition KeGetCurrentProcessorNumber : Z := 0.

Definition KeGetCurrentIrql : M prcb Z :=
  let! i := gets CurrentIrql in
  assert_ (i <=? MAX_IRQL_LEVEL) >>> ret i.

Definition KiSetCurrentIrql (NewIrql : Z) : M prcb unit :=
  assert_ (NewIrql <=? MAX_IRQL_LEVEL) >>> modify (set_irql NewIrql).

Definition KeGetCurrentThread : M prcb addr := gets CurrentThread.

Definition KiSetCurrentThread (Thread : addr) : M prcb unit :=
  assert_ (negb (Thread =? NULL)) >>> modify (set_thread Thread).

Definition KiGetCurrentTimerTicks : M prcb Z := gets TimerTicks.

Definition KiIncrementCurrentTimerTicks : M prcb unit :=
  modify (λ p, set_ticks ((TimerTicks p + 1) mod 2 ^ 64) p).

(** ** irql.c: raising *)

Definition KeRaiseIrql (NewIrql : Z) : M prcb Z :=
  let! CurrentIrql := KeGetCurrentIrql in
  assert_ (CurrentIrql <=? NewIrql) >>>
  assert_ (negb (NewIrql =? 3)) >>>
  when (negb (NewIrql =? CurrentIrql)) (KiSetCurrentIrql NewIrql) >>>
  ret CurrentIrql.

(** ** locks.c *)

Definition KeQuerySpinLock (l : addr) : M prcb (Z * addr) :=
  let! k := deref (λ p, spinlocks p !! l) in ret (Lock k, LockThread k).

(** The DEBUG check common to both acquires: the owner must be another thread. *)
Definition not_owner (l : addr) : M prcb unit :=
  let! k := deref (λ p, spinlocks p !! l) in
  when (negb (LockThread k =? NULL))
    (let! t := KeGetCurrentThread in assert_ (negb (LockThread k =? t))).

(** [while (Result != 0) Result = InterlockedExchange(&SpinLock->Lock, 1)]:
    with one processor a lock word that is 1 stays 1. *)
Definition spin (l : addr) : M prcb unit :=
  let! k := deref (λ p, spinlocks p !! l) in
  let '(old, new) := InterlockedExchange (Lock k) 1 in
  modify (set_lock l (SpinLk new (LockThread k) (LockOldIrql k))) >>>
  if old =? 0 then ret tt else halt Spin.

Definition own (l : addr) (OldIrql : Z) : M prcb unit :=
  let! k := deref (λ p, spinlocks p !! l) in
  let! t := KeGetCurrentThread in
  modify (set_lock l (SpinLk (Lock k) t OldIrql)).

Definition KeAcquireSpinLock (l : addr) : M prcb Z :=
  let! i := KeGetCurrentIrql in
  assert_ (i <=? DISPATCH_LEVEL) >>>
  not_owner l >>>
  let! OldIrql := KeRaiseIrql DISPATCH_LEVEL in
  spin l >>>
  own l OldIrql >>>
  ret OldIrql.

Definition KeAcquireSpinLockAtDpcLevel (l : addr) : M prcb unit :=
  let! i := KeGetCurrentIrql in
  assert_ (DISPATCH_LEVEL <=? i) >>>
  not_owner l >>>
  spin l >>>
  own l DISPATCH_LEVEL.

(** [Result = InterlockedExchange(&SpinLock->Lock, 0); ASSERT(Result == 1)]
    and the clearing of the debugging fields. *)
Definition unlock (l : addr) : M prcb unit :=
  let! k := deref (λ p, spinlocks p !! l) in
  let '(old, new) := InterlockedExchange (Lock k) 0 in
  assert_ (old =? 1) >>>
  modify (set_lock l (SpinLk new NULL 0)).

Definition KeReleaseSpinLockFromDpcLevel (l : addr) : M prcb unit :=
  let! i := KeGetCurrentIrql in
  assert_ (DISPATCH_LEVEL <=? i) >>>
  let! k := deref (λ p, spinlocks p !! l) in
  let! t := KeGetCurrentThread in
  assert_ (LockThread k =? t) >>>
  unlock l.

(** ** dpc.c: the queue *)

Definition ASSERT_DPC (d : KDPC) : bool :=
  (Type_ d =? 0) || (Type_ d =? DpcObject) || (Type_ d =? ThreadedDpcObject).

Definition KeSetImportanceDpc (d : addr) (imp : KDPC_IMPORTANCE) : M prcb unit :=
  let! x := deref (λ p, dpcs p !! d) in
  assert_ (ASSERT_DPC x) >>>
  modify (set_dpc d (Dpc (Type_ x) imp (Number x) (DpcLinked x) (DeferredRoutine x)
                         (DeferredContext x) (SystemArgument1 x) (SystemArgument2 x))).

Definition KeSetTargetProcessorDpc (d : addr) (n : Z) : M prcb unit :=
  let! x := deref (λ p, dpcs p !! d) in
  assert_ (ASSERT_DPC x) >>>
  modify (set_dpc d (Dpc (Type_ x) (Importance x) (u16 n) (DpcLinked x) (DeferredRoutine x)
                         (DeferredContext x) (SystemArgument1 x) (SystemArgument2 x))).

(** [memset(Dpc, 0, sizeof(PKDPC))] clears the four bytes of Type, Importance
    and Number only; the link keeps what the storage held. *)
Definition KeInitializeDpc (d : addr) (routine : Z) (context : addr) : M prcb unit :=
  let! x := deref (λ p, dpcs p !! d) in
  modify (set_dpc d (Dpc DpcObject LowImportance KeGetCurrentProcessorNumber (DpcLinked x)
                         routine context (SystemArgument1 x) (SystemArgument2 x))).

Definition KiLockProcessorRaisetoHighLevel : M prcb Z :=
  let! OldIrql := KeRaiseIrql HIGH_LEVEL in
  KeAcquireSpinLockAtDpcLevel ProcessorLock >>> ret OldIrql.

(** ** Lowering, which runs the pending DPCs *)

Section lowering.
Context (run_dpc : addr → M prcb unit).

(** KeLowerIrql and KiProcessDpcQueue call each other (through the processor
    lock), [dpc_loop] is the while loop of the latter; the fuel bounds the
    calls and the DPCs run by one of them. *)
Fixpoint KeLowerIrql (fuel : nat) (OldIrql : Z) : M prcb unit :=
  let! Cur := KeGetCurrentIrql in
  assert_ (OldIrql <=? Cur) >>>
  let! Cur' :=
    (if (OldIrql <? DISPATCH_LEVEL) && (DISPATCH_LEVEL <=? Cur) then
       KiSetCurrentIrql DISPATCH_LEVEL >>>
       match fuel with
       | O => halt NoFuel
       | S f => KiProcessDpcQueue f
       end >>>
       ret DISPATCH_LEVEL
     else ret Cur) in
  when (negb (OldIrql =? Cur')) (KiSetCurrentIrql OldIrql)

with KiProcessDpcQueue (fuel : nat) : M prcb unit :=
  let! i := KeGetCurrentIrql in
  assert_ (i =? DISPATCH_LEVEL) >>>
  match fuel with
  | O => halt NoFuel
  | S f => dpc_loop f
  end

with dpc_loop (fuel : nat) : M prcb unit :=
  let! q := gets DpcListHead in
  match q with
  | [] => ret tt
  | d :: q' =>
      match fuel with
      | O => halt NoFuel
      | S f =>
          let! OldIrql := KiLockProcessorRaisetoHighLevel in
          let! h := KeGetCurrentIrql in
          assert_ (h =? HIGH_LEVEL) >>>
          modify (set_dpclist q') >>>
          (* KiUnLockProcessorFromHighLevel *)
          let! h' := KeGetCurrentIrql in
          assert_ (h' =? HIGH_LEVEL) >>>
          KeReleaseSpinLockFromDpcLevel ProcessorLock >>>
          KeLowerIrql f OldIrql >>>
          let! i' := KeGetCurrentIrql in
          assert_ (i' =? DISPATCH_LEVEL) >>>
          run_dpc d >>>
          dpc_loop f
      end
  end.

Definition KiUnLockProcessorFromHighLevel (fuel : nat) (OldIrql : Z) : M prcb unit :=
  let! h := KeGetCurrentIrql in
  assert_ (h =? HIGH_LEVEL) >>>
  KeReleaseSpinLockFromDpcLevel ProcessorLock >>>
  KeLowerIrql fuel OldIrql.

(** The owner checks are skipped for the dispatcher lock, which one thread
    acquires and another one releases. *)
Definition KeReleaseSpinLock (is_dispatcher_lock : bool) (fuel : nat) (l : addr) (OldIrql : Z)
    : M prcb unit :=
  let! i := KeGetCurrentIrql in
  let! t := KeGetCurrentThread in
  assert_ (i =? DISPATCH_LEVEL) >>>
  let! k := deref (λ p, spinlocks p !! l) in
  when (negb is_dispatcher_lock)
    (assert_ (LockOldIrql k =? OldIrql) >>> assert_ (LockThread k =? t)) >>>
  unlock l >>>
  KeLowerIrql fuel OldIrql.

Definition KeInsertQueueDpc (fuel : nat) (d : addr) (a1 a2 : addr) : M prcb bool :=
  let! x := deref (λ p, dpcs p !! d) in
  assert_ (ASSERT_DPC x) >>>
  let! i := KeGetCurrentIrql in
  assert_ (DISPATCH_LEVEL <? i) >>>
  let put linked := modify (set_dpc d (Dpc (Type_ x) (Importance x) (Number x) linked
                      (DeferredRoutine x) (DeferredContext x) a1 a2)) in
  put (DpcLinked x) >>>
  let! OldIrql := KiLockProcessorRaisetoHighLevel in
  let! q := gets DpcListHead in
  let! r :=
    (if DpcLinked x && bool_decide (d ∈ q) then ret false
     else
       (if decide (Importance x = HighImportance) then modify (set_dpclist (d :: q))
        else modify (set_dpclist (q ++ [d]))) >>>
       put true >>> ret true) in
  KiUnLockProcessorFromHighLevel fuel OldIrql >>>
  ret r.

Definition KeRemoveQueueDpc (fuel : nat) (d : addr) : M prcb bool :=
  let! x := deref (λ p, dpcs p !! d) in
  assert_ (ASSERT_DPC x) >>>
  let! i := KeGetCurrentIrql in
  assert_ (i =? DISPATCH_LEVEL) >>>
  let! OldIrql := KiLockProcessorRaisetoHighLevel in
  let! q := gets DpcListHead in
  let! r :=
    (if DpcLinked x && bool_decide (d ∈ q) then
       modify (set_dpclist (filter (λ y, y ≠ d) q)) >>> ret true
     else ret false) in
  KiUnLockProcessorFromHighLevel fuel OldIrql >>>
  ret r.

End lowering.

(** ** The kernel's spin locks as an interface

    What the memory manager, the pool and the object manager need of a spin
    lock: outside a critical section the world is [sl_free], and releasing what
    was acquired gives back the same world.  Their theorems are proved against
    this class; [prcb_spinlock] discharges it for KSPIN_LOCK. *)
Class SpinLock (W : Type) := {
  sl_irql : W → Z;
  sl_acquire : M W Z;
  sl_release : Z → M W unit;
  sl_free : W → Prop;
  sl_round : ∀ w, sl_free w →
    sl_irql w <= DISPATCH_LEVEL ∧
    ∃ old w', sl_acquire w = Ok (old, w') ∧ sl_release old w' = Ok (tt, w) }.

(** A lock of a part of the state. *)
#[program] Definition zoom_spinlock {T W} (l : lens T W) (L : SpinLock W) : SpinLock T := {|
  sl_irql s := @sl_irql W L (view l s);
  sl_acquire := inside l (@sl_acquire W L);
  sl_release old := inside l (@sl_release W L old);
  sl_free s := @sl_free W L (view l s) |}.
Next Obligation.
  intros T W l L s Hf. destruct (@sl_round W L (view l s) Hf) as (Hi & old & w & Ha & Hr).
  split; [done|]. exists old, (update l w s). split; [by apply inside_run|].
  rewrite (inside_run l _ _ tt (view l s)) by (by rewrite view_update). by rewrite update_update, update_view.
Qed.

(** A lock nobody holds, as KeReleaseSpinLock leaves it. *)
Definition lock_free (l : addr) (p : prcb) : Prop := spinlocks p !! l = Some (SpinLk 0 NULL 0).

(** No deferred routine runs when the IRQL drops from DISPATCH_LEVEL to [old]. *)
Definition quiet (old : Z) (p : prcb) : Prop := old = DISPATCH_LEVEL ∨ DpcListHead p = [].

Lemma set_irql_id p : set_irql (CurrentIrql p) p = p.
Proof. by destruct p. Qed.

Lemma lookup_set_lock l k p : spinlocks (set_lock l k p) !! l = Some k.
Proof. apply lookup_insert_eq. Qed.

Lemma set_lock_twice l k k' p : set_lock l k' (set_lock l k p) = set_lock l k' p.
Proof. unfold set_lock. simpl. by rewrite insert_insert_eq. Qed.

Lemma getirql_run p : CurrentIrql p <= 31 → KeGetCurrentIrql p = Ok (CurrentIrql p, p).
Proof.
  intros H. unfold KeGetCurrentIrql, bind, gets. unfold MAX_IRQL_LEVEL, HIGH_LEVEL.
  destruct (Z.leb_spec (CurrentIrql p) 31); [done|lia].
Qed.

Lemma setirql_run n p : n <= 31 → KiSetCurrentIrql n p = Ok (tt, set_irql n p).
Proof.
  intros H. unfold KiSetCurrentIrql, MAX_IRQL_LEVEL, HIGH_LEVEL.
  rewrite assert_true by (apply Z.leb_le; lia). done.
Qed.

Lemma raise_run n p :
  CurrentIrql p <= n <= 31 → n ≠ 3 → KeRaiseIrql n p = Ok (CurrentIrql p, set_irql n p).
Proof.
  intros Hn H3. unfold KeRaiseIrql. rewrite (bind_Ok _ _ _ _ _ (getirql_run p ltac:(lia))).
  rewrite assert_true by (apply Z.leb_le; lia).
  rewrite assert_true by (apply negb_true_iff, Z.eqb_neq; done).
  destruct (Z.eqb_spec n (CurrentIrql p)) as [->|]; simpl.
  - by rewrite set_irql_id.
  - by rewrite (bind_Ok _ _ _ _ _ (setirql_run n p ltac:(lia))).
Qed.

(** Locking, then unlocking, changes nothing. *)
Lemma relock_back l k j p :
  lock_free l p →
  set_irql (CurrentIrql p) (set_lock l (SpinLk 0 NULL 0) (set_lock l k (set_irql j p))) = p.
Proof.
  unfold lock_free. intros Hl. destruct p as [i t q n sl ds]. simpl in *.
  unfold set_irql, set_lock. simpl. rewrite insert_insert_eq. by rewrite insert_id.
Qed.

Section lower_lemmas.
Context (run_dpc : addr → M prcb unit).

(** Lowering without crossing DISPATCH_LEVEL runs nothing. *)
Lemma lower_plain fuel n p :
  n <= CurrentIrql p <= 31 → (n < 2 → CurrentIrql p < 2) →
  KeLowerIrql run_dpc fuel n p = Ok (tt, set_irql n p).
Proof.
  intros Hn Hx. destruct fuel; cbn [KeLowerIrql];
    rewrite (bind_Ok _ _ _ _ _ (getirql_run p ltac:(lia)));
    rewrite assert_true by (apply Z.leb_le; lia); unfold DISPATCH_LEVEL;
    (replace ((n <? 2) && (2 <=? CurrentIrql p)) with false
      by (symmetry; apply andb_false_iff; rewrite Z.ltb_ge, Z.leb_gt; lia));
    rewrite bind_ret;
    (destruct (Z.eqb_spec n (CurrentIrql p)) as [->|]; simpl;
      [by rewrite set_irql_id|apply setirql_run; lia]).
Qed.

(** Lowering through DISPATCH_LEVEL is: run the queue there, then lower. *)
Lemma lower_cross fuel n p :
  n < 2 → 2 <= CurrentIrql p <= 31 →
  KeLowerIrql run_dpc (S (S fuel)) n p =
    match dpc_loop run_dpc fuel (set_irql 2 p) with
    | Ok (_, p') => KiSetCurrentIrql n p'
    | Stop e => Stop e
    end.
Proof.
  intros Hn Hc. cbn [KeLowerIrql].
  rewrite (bind_Ok _ _ _ _ _ (getirql_run p ltac:(lia))).
  rewrite assert_true by (apply Z.leb_le; lia). unfold DISPATCH_LEVEL.
  replace ((n <? 2) && (2 <=? CurrentIrql p)) with true
    by (symmetry; apply andb_true_iff; rewrite Z.ltb_lt, Z.leb_le; lia).
  unfold bind at 1. rewrite (bind_Ok _ _ _ _ _ (setirql_run 2 p ltac:(lia))).
  cbn [KiProcessDpcQueue]. unfold bind at 1 2.
  rewrite (getirql_run (set_irql 2 p)) by (simpl; lia). simpl. rewrite bind_ret.
  destruct (dpc_loop run_dpc fuel (set_irql 2 p)) as [[[] p']|]; [|done].
  unfold ret. destruct (Z.eqb_spec n 2); [lia|done].
Qed.

Lemma loop_empty fuel p : DpcListHead p = [] → dpc_loop run_dpc fuel p = Ok (tt, p).
Proof. intros H. destruct fuel; cbn [dpc_loop]; unfold bind, gets; by rewrite H. Qed.

Lemma lower_quiet fuel n p :
  n <= CurrentIrql p <= 31 → (n < 2 → DpcListHead p = []) →
  KeLowerIrql run_dpc (S (S fuel)) n p = Ok (tt, set_irql n p).
Proof.
  intros Hn Hq. destruct (decide (n < 2 ∧ 2 <= CurrentIrql p)) as [[H1 H2]|Hx].
  - rewrite lower_cross by lia. rewrite loop_empty by (simpl; auto).
    rewrite setirql_run by lia. by destruct p.
  - apply lower_plain; lia.
Qed.

Lemma not_owner_free l p : lock_free l p → not_owner l p = Ok (tt, p).
Proof. intros H. unfold not_owner, bind, deref. by rewrite H. Qed.

(** Spinning on a free lock and signing it. *)
Lemma spin_own_run l i p :
  lock_free l p →
  (spin l >>> own l i) p = Ok (tt, set_lock l (SpinLk 1 (CurrentThread p) i) p).
Proof.
  intros H. unfold spin. unfold bind at 1 2, deref. rewrite H. cbn.
  unfold own, bind, deref. cbn. rewrite lookup_insert_eq. cbn.
  unfold modify. by rewrite set_lock_twice.
Qed.

Lemma acquire_run l p :
  lock_free l p → CurrentIrql p <= 2 →
  KeAcquireSpinLock l p =
    Ok (CurrentIrql p, set_lock l (SpinLk 1 (CurrentThread p) (CurrentIrql p)) (set_irql 2 p)).
Proof.
  intros Hl Hi. unfold KeAcquireSpinLock.
  rewrite (bind_Ok _ _ _ _ _ (getirql_run p ltac:(lia))).
  rewrite assert_true by (apply Z.leb_le; unfold DISPATCH_LEVEL; lia).
  rewrite (bind_Ok _ _ _ _ _ (not_owner_free l p Hl)).
  rewrite (bind_Ok _ _ _ _ _ (raise_run 2 p ltac:(lia) ltac:(lia))).
  by rewrite (seq_Ok _ _ _ _ _ (spin_own_run l (CurrentIrql p) (set_irql 2 p) Hl)).
Qed.

Lemma acquire_dpc_run l p :
  lock_free l p → 2 <= CurrentIrql p <= 31 →
  KeAcquireSpinLockAtDpcLevel l p = Ok (tt, set_lock l (SpinLk 1 (CurrentThread p) 2) p).
Proof.
  intros Hl Hi. unfold KeAcquireSpinLockAtDpcLevel.
  rewrite (bind_Ok _ _ _ _ _ (getirql_run p ltac:(lia))).
  rewrite assert_true by (apply Z.leb_le; unfold DISPATCH_LEVEL; lia).
  rewrite (bind_Ok _ _ _ _ _ (not_owner_free l p Hl)).
  apply (spin_own_run l 2 p Hl).
Qed.

Lemma unlock_run l t i p :
  spinlocks p !! l = Some (SpinLk 1 t i) →
  unlock l p = Ok (tt, set_lock l (SpinLk 0 NULL 0) p).
Proof. intros H. unfold unlock, bind, deref. by rewrite H. Qed.

Lemma release_dpc_run l i p :
  spinlocks p !! l = Some (SpinLk 1 (CurrentThread p) i) → 2 <= CurrentIrql p <= 31 →
  KeReleaseSpinLockFromDpcLevel l p = Ok (tt, set_lock l (SpinLk 0 NULL 0) p).
Proof.
  intros Hl Hi. unfold KeReleaseSpinLockFromDpcLevel.
  rewrite (bind_Ok _ _ _ _ _ (getirql_run p ltac:(lia))).
  rewrite assert_true by (apply Z.leb_le; unfold DISPATCH_LEVEL; lia).
  unfold bind at 1, deref. rewrite Hl. unfold bind at 1, KeGetCurrentThread, gets.
  rewrite assert_true by apply Z.eqb_refl. by apply unlock_run with (CurrentThread p) i.
Qed.

Lemma release_run disp fuel l p i :
  spinlocks p !! l = Some (SpinLk 1 (CurrentThread p) i) → CurrentIrql p = 2 → i <= 2 →
  quiet i p →
  KeReleaseSpinLock run_dpc disp (S (S fuel)) l i p =
    Ok (tt, set_irql i (set_lock l (SpinLk 0 NULL 0) p)).
Proof.
  intros Hl Hc Hi Hq. unfold KeReleaseSpinLock.
  rewrite (bind_Ok _ _ _ _ _ (getirql_run p ltac:(lia))).
  unfold bind at 1, KeGetCurrentThread, gets. rewrite Hc, assert_true by done.
  unfold bind at 1, deref. rewrite Hl.
  assert (∀ r : M prcb unit, (when (negb disp) (assert_ (LockOldIrql (SpinLk 1 (CurrentThread p) i) =? i)
    >>> assert_ (LockThread (SpinLk 1 (CurrentThread p) i) =? CurrentThread p)) >>> r) p = r p) as Hw.
  { intros r. destruct disp; [done|]. simpl. rewrite !Z.eqb_refl. done. }
  rewrite Hw. unfold unlock. unfold bind at 1. unfold bind at 1, deref. rewrite Hl. simpl.
  apply lower_quiet; [simpl; lia|]. intros Hlt. simpl. destruct Hq as [->|]; [|done].
  unfold DISPATCH_LEVEL in Hlt. lia.
Qed.

(** The dispatcher lock is released whoever acquired it. *)
Lemma release_dispatcher_run fuel l t j p i :
  spinlocks p !! l = Some (SpinLk 1 t j) → CurrentIrql p = 2 → i <= 2 → quiet i p →
  KeReleaseSpinLock run_dpc true (S (S fuel)) l i p =
    Ok (tt, set_irql i (set_lock l (SpinLk 0 NULL 0) p)).
Proof.
  intros Hl Hc Hi Hq. unfold KeReleaseSpinLock.
  rewrite (bind_Ok _ _ _ _ _ (getirql_run p ltac:(lia))).
  unfold bind at 1, KeGetCurrentThread, gets. rewrite Hc, assert_true by done.
  unfold bind at 1, deref. rewrite Hl. cbn [negb when]. unfold bind at 1. cbn.
  rewrite (bind_Ok _ _ _ _ _ (unlock_run l t j p Hl)).
  apply lower_quiet; [simpl; lia|]. intros Hlt. simpl. destruct Hq as [->|]; [|done].
  unfold DISPATCH_LEVEL in Hlt. lia.
Qed.

Lemma lockproc_run p :
  lock_free ProcessorLock p → 2 <= CurrentIrql p <= 31 →
  KiLockProcessorRaisetoHighLevel p =
    Ok (CurrentIrql p, set_lock ProcessorLock (SpinLk 1 (CurrentThread p) 2) (set_irql 31 p)).
Proof.
  intros Hl Hi. unfold KiLockProcessorRaisetoHighLevel, HIGH_LEVEL.
  rewrite (bind_Ok _ _ _ _ _ (raise_run 31 p ltac:(lia) ltac:(lia))).
  by rewrite (bind_Ok _ _ _ _ _ (acquire_dpc_run _ (set_irql 31 p) Hl ltac:(simpl; lia))).
Qed.

Lemma unlockproc_run fuel i old p :
  spinlocks p !! ProcessorLock = Some (SpinLk 1 (CurrentThread p) i) → CurrentIrql p = 31 →
  2 <= old <= 31 →
  KiUnLockProcessorFromHighLevel run_dpc fuel old p =
    Ok (tt, set_irql old (set_lock ProcessorLock (SpinLk 0 NULL 0) p)).
Proof.
  intros Hl Hi Ho. unfold KiUnLockProcessorFromHighLevel.
  rewrite (bind_Ok _ _ _ _ _ (getirql_run p ltac:(lia))).
  rewrite assert_true by (by rewrite Hi).
  rewrite (bind_Ok _ _ _ _ _ (release_dpc_run _ _ _ Hl ltac:(lia))).
  apply lower_plain; simpl; lia.
Qed.

(** Acquire and release: the interface holds for every lock of the kernel. *)
#[export, program] Instance prcb_spinlock (fuel : nat) (l : addr) : SpinLock prcb := {|
  sl_irql := CurrentIrql;
  sl_acquire := KeAcquireSpinLock l;
  sl_release := KeReleaseSpinLock run_dpc false (S (S fuel)) l;
  sl_free p := lock_free l p ∧ CurrentIrql p <= 2 ∧ quiet (CurrentIrql p) p |}.
Next Obligation.
  intros fuel l p (Hl & Hi & Hq). split; [done|].
  eexists _, _. split; [by apply acquire_run|].
  rewrite release_run; simpl; [|by rewrite lookup_insert_eq|done|done|done].
  by rewrite relock_back.
Qed.

End lower_lemmas.

(** The state after unlocking the processor is the one before locking it, with
    the queue changed. *)
Lemma unlocked_back q k p :
  lock_free ProcessorLock p →
  set_irql (CurrentIrql p) (set_lock ProcessorLock (SpinLk 0 NULL 0)
    (set_dpclist q (set_lock ProcessorLock k (set_irql 31 p)))) = set_dpclist q p.
Proof.
  unfold lock_free. intros Hl. destruct p as [ii tt qq nn sl ds]. simpl in *.
  unfold set_irql, set_lock, set_dpclist. simpl. rewrite insert_insert_eq. by rewrite insert_id.
Qed.

(** ** DPC delivery *)

Section delivery.
Context (run_dpc : addr → M prcb unit) (f : addr → prcb → prcb).

(** A routine that returns, at DISPATCH_LEVEL, without touching the queue or
    the processor lock. *)
Definition well_behaved : Prop := ∀ d p, CurrentIrql p = DISPATCH_LEVEL →
  run_dpc d p = Ok (tt, f d p) ∧ CurrentIrql (f d p) = DISPATCH_LEVEL ∧
  DpcListHead (f d p) = DpcListHead p ∧
  spinlocks (f d p) !! ProcessorLock = spinlocks p !! ProcessorLock.

(** The queued routines, run in queue order. *)
Fixpoint deliver (q : list addr) (p : prcb) : prcb :=
  match q with [] => p | d :: q' => deliver q' (f d (set_dpclist q' p)) end.

Lemma dpc_loop_delivers q fuel p :
  well_behaved → DpcListHead p = q → CurrentIrql p = 2 → lock_free ProcessorLock p →
  (length q <= fuel)%nat →
  dpc_loop run_dpc fuel p = Ok (tt, deliver q p) ∧ CurrentIrql (deliver q p) = 2 ∧
  DpcListHead (deliver q p) = [].
Proof.
  intros Hwb. revert fuel p. induction q as [|d q IH]; intros fuel p Hq Hi Hl Hf.
  { by rewrite loop_empty. }
  destruct fuel as [|fuel]; [simpl in Hf; lia|]. cbn [dpc_loop].
  unfold bind at 1, gets. rewrite Hq.
  rewrite (bind_Ok _ _ _ _ _ (lockproc_run p Hl ltac:(lia))).
  set (p1 := set_lock _ _ _).
  assert (CurrentIrql p1 = 31) as H1 by done.
  rewrite (bind_Ok _ _ _ _ _ (getirql_run p1 ltac:(lia))), assert_true by done.
  unfold bind at 1, modify. set (p2 := set_dpclist q p1).
  assert (CurrentIrql p2 = 31) as H2 by done.
  rewrite (bind_Ok _ _ _ _ _ (getirql_run p2 ltac:(lia))), assert_true by done.
  rewrite (bind_Ok _ _ _ _ _ (release_dpc_run ProcessorLock 2 p2
    ltac:(apply lookup_insert_eq) ltac:(lia))).
  rewrite (bind_Ok _ _ _ _ _ (lower_plain run_dpc fuel (CurrentIrql p)
    (set_lock ProcessorLock (SpinLk 0 NULL 0) p2) ltac:(cbn; lia) ltac:(cbn; lia))).
  replace (set_irql _ _) with (set_dpclist q p) by (symmetry; by apply unlocked_back).
  rewrite (bind_Ok _ _ _ _ _ (getirql_run (set_dpclist q p) ltac:(simpl; lia))).
  rewrite assert_true by (simpl; by rewrite Hi).
  destruct (Hwb d (set_dpclist q p)) as (Hrun & Hi' & Hq' & Hl'); [done|].
  rewrite (bind_Ok _ _ _ _ _ Hrun). simpl.
  apply IH; [by rewrite Hq'|done|unfold lock_free; by rewrite Hl'|simpl in Hf; lia].
Qed.

(** C30: KeLowerIrql delivers the pending deferred procedure calls. *)
Theorem lower_delivers_dpcs fuel n p :
  well_behaved → lock_free ProcessorLock p →
  n < DISPATCH_LEVEL <= CurrentIrql p → CurrentIrql p <= HIGH_LEVEL →
  (length (DpcListHead p) <= fuel)%nat →
  let p' := deliver (DpcListHead p) (set_irql DISPATCH_LEVEL p) in
  KeLowerIrql run_dpc (S (S fuel)) n p = Ok (tt, set_irql n p') ∧
  DpcListHead (set_irql n p') = [].
Proof.
  intros Hwb Hl [Hn Hc] Hh Hf p'. unfold DISPATCH_LEVEL, HIGH_LEVEL in *.
  destruct (dpc_loop_delivers (DpcListHead p) fuel (set_irql 2 p)) as (Hr & Hi & He); try done.
  rewrite lower_cross by lia. rewrite Hr. split; [|done].
  rewrite setirql_run by lia. done.
Qed.

End delivery.

(** A processor with two queued routines, which count their runs in the timer
    ticks (in decimal, so that the order shows). *)
Definition demo_run (d : addr) : M prcb unit :=
  modify (λ p, set_ticks (TimerTicks p * 10 + d) p).
Definition demo_prcb : prcb :=
  Prcb 28 7 [3; 5] 0 {[ ProcessorLock := SpinLk 0 NULL 0 ]} ∅.

Lemma lower_delivers_dpcs_witness :
  KeLowerIrql demo_run 4 PASSIVE_LEVEL demo_prcb =
    Ok (tt, Prcb 0 7 [] 35 {[ ProcessorLock := SpinLk 0 NULL 0 ]} ∅).
Proof.
  pose proof (lower_delivers_dpcs demo_run (λ d p, set_ticks (TimerTicks p * 10 + d) p)
    2 PASSIVE_LEVEL demo_prcb) as H.
  destruct H as [-> _]; [|done|done|done|done|done].
  intros d p Hp. done.
Defined.

(** ** The DPC queue holds each object once *)

(** Every queued object is queued once and has a link. *)
Definition dpc_inv (p : prcb) : Prop :=
  NoDup (DpcListHead p) ∧
  ∀ d, d ∈ DpcListHead p → ∃ x, dpcs p !! d = Some x ∧ DpcLinked x = true.

(** The queue after a request for [d]. *)
Definition queue_after (x : KDPC) (d : addr) (q : list addr) : list addr :=
  if decide (d ∈ q) then q
  else if decide (Importance x = HighImportance) then d :: q else q ++ [d].

Lemma queue_after_elem x d q y : y ∈ queue_after x d q ↔ y = d ∨ y ∈ q.
Proof.
  unfold queue_after. destruct (decide (d ∈ q)); [naive_solver|].
  destruct (decide _); set_solver.
Qed.

Lemma queue_after_NoDup x d q : NoDup q → NoDup (queue_after x d q).
Proof.
  intros Hq. unfold queue_after. destruct (decide (d ∈ q)); [done|].
  destruct (decide _); [by apply NoDup_cons|].
  apply NoDup_app. split; [done|]. split; [|apply NoDup_singleton].
  intros y Hy. by intros ->%list_elem_of_singleton.
Qed.



(** A spin lock that is free is acquired at once and raises the IRQL to
    DISPATCH_LEVEL, a second acquisition by its owner is caught, and releasing
    it restores the lock and the IRQL. *)
Theorem spinlock_acquire_release run_dpc fuel l p :
  lock_free l p → CurrentIrql p <= DISPATCH_LEVEL → quiet (CurrentIrql p) p →
  CurrentThread p ≠ NULL →
  ∃ p1, KeAcquireSpinLock l p = Ok (CurrentIrql p, p1) ∧ CurrentIrql p1 = DISPATCH_LEVEL ∧
    KeAcquireSpinLock l p1 = Stop BugCheck ∧
    KeReleaseSpinLock run_dpc false (S (S fuel)) l (CurrentIrql p) p1 = Ok (tt, p).
Proof.
  intros Hl Hi Hq Ht. unfold DISPATCH_LEVEL in *. eexists. split; [by apply acquire_run|].
  split; [done|]. split.
  - set (p1 := set_lock l _ _).
    assert (spinlocks p1 !! l = Some (SpinLk 1 (CurrentThread p1) (CurrentIrql p))) as Hl1
      by apply lookup_insert_eq.
    unfold KeAcquireSpinLock.
    rewrite (bind_Ok _ _ _ _ _ (getirql_run p1 ltac:(unfold p1; simpl; lia))).
    rewrite assert_true by done. unfold not_owner, bind, deref. rewrite Hl1. simpl.
    destruct (Z.eqb_spec (CurrentThread p) 0); [done|]. simpl. by rewrite Z.eqb_refl.
  - rewrite release_run; [|apply lookup_insert_eq|done|done|done]. by rewrite relock_back.
Qed.

Lemma spinlock_acquire_release_witness :
  ∃ p1, KeAcquireSpinLock 1 (set_dpclist [] (set_irql 0 demo_prcb)) = Ok (0, p1) ∧
    KeReleaseSpinLock demo_run false 2 1 0 p1 = Ok (tt, set_dpclist [] (set_irql 0 demo_prcb)).
Proof.
  destruct (spinlock_acquire_release demo_run 0 1 (set_dpclist [] (set_irql 0 demo_prcb)))
    as (p1 & Ha & _ & _ & Hr); [done|unfold DISPATCH_LEVEL; cbn; lia|by right|done|].
  exists p1. split; [exact Ha|exact Hr].
Defined.
