(* ===== verification/X86.v ===== *)
(** * X86: segments, gates and the task state (kern/hal/x86.h, kern/ke/processor.c)

    The descriptor tables of the processor as records of bit fields, the macros
    that fill them, and KiCreateCurrentGDT, which gives the kernel flat segments.
    The processor reads a descriptor back with [sd_base], [sd_limit] and
    [gd_offset]; loading a segment register checks the descriptor. *)

From S2P Require Import Prelude Types Irql.

(** ** Selectors and types *)

Definition GD_KT : Z := 0x08.
Definition GD_KD : Z := 0x10.
Definition GD_UT : Z := 0x18.
Definition GD_UD : Z := 0x20.
Definition GD_TSS : Z := 0x28.

Definition STA_X : Z := 0x8.
Definition STA_W : Z := 0x2.
Definition STA_R : Z := 0x2.
Definition STS_T32A : Z := 0x9.
Definition STS_T32B : Z := 0xB.
Definition STS_CG32 : Z := 0xC.
Definition STS_IG32 : Z := 0xE.
Definition STS_TG32 : Z := 0xF.

(** ** Segment descriptors *)

Record GDTENTRY := GdtEntry {
  sd_lim_15_0 : Z;
  sd_base_15_0 : Z;
  sd_base_23_16 : Z;
  sd_type : Z;
  sd_s : Z;
  sd_dpl : Z;
  sd_p : Z;
  sd_lim_19_16 : Z;
  sd_avl : Z;
  sd_rsv1 : Z;
  sd_db : Z;
  sd_g : Z;
  sd_base_31_24 : Z }.

Definition sizeof_GDTENTRY : Z := 8.

Definition SEG_NULL : GDTENTRY := GdtEntry 0 0 0 0 0 0 0 0 0 0 0 0 0.
Definition SEG (type base lim dpl : Z) : GDTENTRY :=
  GdtEntry (Z.land (Z.shiftr lim 12) 0xffff) (Z.land base 0xffff) (Z.land (Z.shiftr base 16) 0xff)
           type 1 dpl 1 (Z.shiftr (u32 lim) 28) 0 0 1 1 (Z.shiftr (u32 base) 24).
(** The shift of the limit by 16 is cut to the 4 bits of the field. *)
Definition SEG16 (type base lim dpl : Z) : GDTENTRY :=
  GdtEntry (Z.land lim 0xffff) (Z.land base 0xffff) (Z.land (Z.shiftr base 16) 0xff)
           type 1 dpl 1 (Z.land (Z.shiftr (u32 lim) 16) 0xf) 0 0 1 0 (Z.shiftr (u32 base) 24).

(** What the processor makes of a descriptor. *)
Definition sd_base (e : GDTENTRY) : Z :=
  sd_base_15_0 e + Z.shiftl (sd_base_23_16 e) 16 + Z.shiftl (sd_base_31_24 e) 24.
Definition sd_limit (e : GDTENTRY) : Z :=
  let l := sd_lim_15_0 e + Z.shiftl (sd_lim_19_16 e) 16 in
  if sd_g e =? 1 then Z.shiftl l 12 + 0xfff else l.

(** ** Gates *)

Record IDTENTRY := IdtEntry {
  gd_off_15_0 : Z;
  gd_ss : Z;
  gd_args : Z;
  gd_rsv1 : Z;
  gd_type : Z;
  gd_s : Z;
  gd_dpl : Z;
  gd_p : Z;
  gd_off_31_16 : Z }.

Definition SETGATE (istrap : bool) (sel off dpl : Z) : IDTENTRY :=
  IdtEntry (Z.land (u32 off) 0xffff) sel 0 0 (if istrap then STS_TG32 else STS_IG32) 0 dpl 1
           (Z.shiftr (u32 off) 16).
Definition SETCALLGATE (ss off dpl : Z) : IDTENTRY :=
  IdtEntry (Z.land (u32 off) 0xffff) ss 0 0 STS_CG32 0 dpl 1 (Z.shiftr (u32 off) 16).

Definition gd_offset (g : IDTENTRY) : Z := gd_off_15_0 g + Z.shiftl (gd_off_31_16 g) 16.

(** ** The processor control region *)

(** The kernel sets these two fields of the task state only. *)
Record KTASKSTATE := TaskState { TS_esp0 : Z; TS_ss0 : Z }.
Definition sizeof_KTASKSTATE : Z := 104.

(** [sr_*]: the bases in the segment registers; [tr]: the task register. *)
Record registers := Registers {
  gdtr : list GDTENTRY;
  sr_cs : Z;
  sr_data : Z;
  sr_stack : Z;
  tr : Z }.

Record KPCR := Pcr {
  Prcb_ : prcb;
  GDT : list GDTENTRY;
  TSS : KTASKSTATE;
  regs : registers }.

Definition set_prcb (p : prcb) (c : KPCR) : KPCR := Pcr p (GDT c) (TSS c) (regs c).
Definition set_GDT (l : list GDTENTRY) (c : KPCR) : KPCR := Pcr (Prcb_ c) l (TSS c) (regs c).
Definition set_TSS (t : KTASKSTATE) (c : KPCR) : KPCR := Pcr (Prcb_ c) (GDT c) t (regs c).
Definition set_regs (r : registers) (c : KPCR) : KPCR := Pcr (Prcb_ c) (GDT c) (TSS c) r.

Definition on_prcb {A} (m : M prcb A) : M KPCR A := zoom Prcb_ set_prcb m.

Definition NUM_GDT_ENTRIES : Z := 6.

Definition MODELGDT : list GDTENTRY :=
  [ SEG_NULL;
    SEG (Z.lor STA_X STA_R) 0x0 0xffffffff 0;
    SEG STA_W 0x0 0xffffffff 0;
    SEG (Z.lor STA_X STA_R) 0x0 0xffffffff 3;
    SEG STA_W 0x0 0xffffffff 3;
    SEG_NULL ].

Definition KiUpdateTSS (Stack : addr) : M KPCR unit :=
  modify (λ c, set_TSS (TaskState Stack (TS_ss0 (TSS c))) c).

(** ** Loading the registers *)

(** The descriptor of a selector, when it is inside the table and present. *)
Definition descriptor (c : KPCR) (sel : Z) : option GDTENTRY :=
  match gdtr (regs c) !! Z.to_nat (Z.shiftr sel 3) with
  | Some e => if (sd_p e =? 1) && negb (Z.shiftr sel 3 =? 0) then Some e else None
  | None => None
  end.

(** lgdt: the processor reads the descriptors from the table of the PCR. *)
Definition lgdt : M KPCR unit :=
  modify (λ c, set_regs (Registers (GDT c) (sr_cs (regs c)) (sr_data (regs c)) (sr_stack (regs c)) (tr (regs c))) c).

(** A segment of program data: writable, and not a code segment. *)
Definition data_segment (e : GDTENTRY) : bool :=
  (sd_s e =? 1) && TEST_FLAG (sd_type e) STA_W && negb (TEST_FLAG (sd_type e) STA_X).
Definition code_segment (e : GDTENTRY) : bool := (sd_s e =? 1) && TEST_FLAG (sd_type e) STA_X.

(** gs, fs, es and ds. *)
Definition load_data (sel : Z) : M KPCR unit :=
  let! e := deref (λ c, descriptor c sel) in
  if data_segment e then
    modify (λ c, set_regs (Registers (gdtr (regs c)) (sr_cs (regs c)) (sd_base e) (sr_stack (regs c)) (tr (regs c))) c)
  else halt Fault.
Definition load_stack (sel : Z) : M KPCR unit :=
  let! e := deref (λ c, descriptor c sel) in
  if data_segment e then
    modify (λ c, set_regs (Registers (gdtr (regs c)) (sr_cs (regs c)) (sr_data (regs c)) (sd_base e) (tr (regs c))) c)
  else halt Fault.
(** ljmp sel, next instruction. *)
Definition load_code (sel : Z) : M KPCR unit :=
  let! e := deref (λ c, descriptor c sel) in
  if code_segment e then
    modify (λ c, set_regs (Registers (gdtr (regs c)) (sd_base e) (sr_data (regs c)) (sr_stack (regs c)) (tr (regs c))) c)
  else halt Fault.

Definition set_busy (e : GDTENTRY) : GDTENTRY :=
  GdtEntry (sd_lim_15_0 e) (sd_base_15_0 e) (sd_base_23_16 e) STS_T32B (sd_s e) (sd_dpl e) (sd_p e)
           (sd_lim_19_16 e) (sd_avl e) (sd_rsv1 e) (sd_db e) (sd_g e) (sd_base_31_24 e).
Definition clear_s (e : GDTENTRY) : GDTENTRY :=
  GdtEntry (sd_lim_15_0 e) (sd_base_15_0 e) (sd_base_23_16 e) (sd_type e) 0 (sd_dpl e) (sd_p e)
           (sd_lim_19_16 e) (sd_avl e) (sd_rsv1 e) (sd_db e) (sd_g e) (sd_base_31_24 e).

(** ltr wants the descriptor of a task that is not busy and marks it busy, in
    the table. *)
Definition ltr (sel : Z) : M KPCR unit :=
  let! e := deref (λ c, descriptor c sel) in
  if (sd_s e =? 0) && (sd_type e =? STS_T32A) then
    modify (λ c, set_GDT (<[Z.to_nat (Z.shiftr sel 3) := set_busy e]> (GDT c)) c) >>>
    modify (λ c, set_regs (Registers (GDT c) (sr_cs (regs c)) (sr_data (regs c)) (sr_stack (regs c)) sel) c)
  else halt Fault.

(** ** KiCreateCurrentGDT *)

Section gdt.
Context (run_dpc : addr → M prcb unit) (fuel : nat) (TSS_address : addr).

(** The table keeps a zero entry for the TSS until it is written: &Pcr->TSS is
    [TSS_address]. *)
Definition KiCreateCurrentGDT : M KPCR unit :=
  let! OldIrql := on_prcb KiLockProcessorRaisetoHighLevel in
  modify (set_GDT (replicate (Z.to_nat NUM_GDT_ENTRIES) SEG_NULL)) >>>
  modify (set_GDT (take (Z.to_nat NUM_GDT_ENTRIES) MODELGDT)) >>>
  modify (λ c, set_TSS (TaskState (TS_esp0 (TSS c)) GD_KD) c) >>>
  modify (λ c, set_GDT (<[Z.to_nat (Z.shiftr GD_TSS 3) := SEG16 STS_T32A TSS_address sizeof_KTASKSTATE 0]> (GDT c)) c) >>>
  modify (λ c, set_GDT (alter clear_s (Z.to_nat (Z.shiftr GD_TSS 3)) (GDT c)) c) >>>
  lgdt >>>
  load_data GD_KD >>>
  load_data GD_KD >>>
  load_data GD_KD >>>
  load_data GD_KD >>>
  load_stack GD_KD >>>
  load_code GD_KT >>>
  ltr GD_TSS >>>
  on_prcb (KiUnLockProcessorFromHighLevel run_dpc fuel OldIrql).
End gdt.

(** ** What the processor reads back *)

(** An n-bit field and what is above it. *)
Lemma field_split x n : 0 <= n → Z.land x (Z.ones n) + Z.shiftl (Z.shiftr x n) n = x.
Proof.
  intros Hn. rewrite Z.land_ones, Z.shiftl_mul_pow2, Z.shiftr_div_pow2 by lia.
  pose proof (Z.div_mod x (2 ^ n) ltac:(lia)). lia.
Qed.

Lemma sd_base_SEG t b l d : is_u32 b → sd_base (SEG t b l d) = b.
Proof.
  intros Hb. unfold sd_base. cbn [sd_base_15_0 sd_base_23_16 sd_base_31_24 SEG]. rewrite u32_small by done.
  change 0xffff with (Z.ones 16). change 0xff with (Z.ones 8).
  rewrite !Z.land_ones, !Z.shiftl_mul_pow2, !Z.shiftr_div_pow2 by lia. Z.div_mod_to_equations; lia.
Qed.

(** The granularity of 4 KB rounds the limit up to the end of its page. *)
Lemma sd_limit_SEG t b l d : is_u32 l → sd_limit (SEG t b l d) = l / 4096 * 4096 + 4095.
Proof.
  intros Hl. unfold sd_limit. cbn [sd_g sd_lim_15_0 sd_lim_19_16 SEG]. rewrite Z.eqb_refl, u32_small by done.
  change 0xffff with (Z.ones 16). rewrite !Z.land_ones, !Z.shiftl_mul_pow2, !Z.shiftr_div_pow2 by lia.
  Z.div_mod_to_equations; lia.
Qed.

Lemma sd_base_SEG16 t b l d : is_u32 b → sd_base (SEG16 t b l d) = b.
Proof. exact (sd_base_SEG t b l d). Qed.

Lemma sd_limit_SEG16 t b l d : 0 <= l < 2 ^ 20 → sd_limit (SEG16 t b l d) = l.
Proof.
  intros Hl. unfold sd_limit. cbn [sd_g sd_lim_15_0 sd_lim_19_16 SEG16]. change (0 =? 1) with false.
  rewrite u32_small by lia. change 0xffff with (Z.ones 16). change 0xf with (Z.ones 4).
  rewrite !Z.land_ones, !Z.shiftl_mul_pow2, !Z.shiftr_div_pow2 by lia. Z.div_mod_to_equations; lia.
Qed.

Lemma gd_offset_SETGATE istrap sel off dpl : is_u32 off → gd_offset (SETGATE istrap sel off dpl) = off.
Proof.
  intros Ho. unfold gd_offset. cbn [gd_off_15_0 gd_off_31_16 SETGATE]. rewrite u32_small by done.
  exact (field_split off 16 ltac:(lia)).
Qed.

(** ** KiCreateCurrentGDT *)

(** The processor lock, taken and given back at the level of start-up. *)
Section start_up.
Context (run_dpc : addr → M prcb unit).

Definition idle_cpu (p : prcb) : Prop :=
  lock_free ProcessorLock p ∧ 0 <= CurrentIrql p <= 2 ∧ DpcListHead p = [].

Definition locked_cpu (p : prcb) : prcb :=
  set_lock ProcessorLock (SpinLk 1 (CurrentThread p) 2) (set_irql 31 p).

Lemma idle_lock_run p : idle_cpu p → KiLockProcessorRaisetoHighLevel p = Ok (CurrentIrql p, locked_cpu p).
Proof.
  intros (Hl & Hi & _). unfold KiLockProcessorRaisetoHighLevel, HIGH_LEVEL.
  rewrite (bind_Ok _ _ _ _ _ (raise_run 31 p ltac:(lia) ltac:(lia))).
  by rewrite (bind_Ok _ _ _ _ _ (acquire_dpc_run _ (set_irql 31 p) Hl ltac:(simpl; lia))).
Qed.

Lemma idle_unlock_run fuel p :
  idle_cpu p → KiUnLockProcessorFromHighLevel run_dpc (S (S fuel)) (CurrentIrql p) (locked_cpu p) = Ok (tt, p).
Proof.
  intros (Hl & Hi & Hq). unfold KiUnLockProcessorFromHighLevel.
  assert (CurrentIrql (locked_cpu p) = 31) as H31 by done.
  rewrite (bind_Ok _ _ _ _ _ (getirql_run (locked_cpu p) ltac:(lia))). rewrite assert_true by done.
  rewrite (bind_Ok _ _ _ _ _ (release_dpc_run ProcessorLock 2 (locked_cpu p) (lookup_set_lock _ _ _) ltac:(lia))).
  rewrite lower_quiet by (simpl; auto with lia). do 2 f_equal. unfold locked_cpu. rewrite set_lock_twice.
  rewrite <- (set_lock_twice _ (SpinLk 1 NULL 0)). apply (relock_back _ _ 31 p Hl).
Qed.

(** The table and the registers that KiCreateCurrentGDT leaves. *)
Definition flat_gdt (TSS_address : addr) : list GDTENTRY :=
  take 5 MODELGDT ++ [set_busy (clear_s (SEG16 STS_T32A TSS_address sizeof_KTASKSTATE 0))].
Definition flat_registers (TSS_address : addr) : registers :=
  Registers (flat_gdt TSS_address) 0 0 0 GD_TSS.

Section loading.
Context (p : prcb) (g gd : list GDTENTRY) (t : KTASKSTATE) (cs ds ss r sel : Z) (e : GDTENTRY).
Hypothesis (Hd : gd !! Z.to_nat (Z.shiftr sel 3) = Some e) (Hp : sd_p e = 1) (Hn : Z.shiftr sel 3 ≠ 0).
Let c : KPCR := Pcr p g t (Registers gd cs ds ss r).

Lemma descriptor_found : descriptor c sel = Some e.
Proof using Hd Hp Hn. unfold descriptor. cbn. rewrite Hd, Hp. apply Z.eqb_neq in Hn. by rewrite Hn. Qed.

Lemma load_data_run : data_segment e = true → load_data sel c = Ok (tt, Pcr p g t (Registers gd cs (sd_base e) ss r)).
Proof using Hd Hp Hn.
  intros He. unfold load_data. rewrite (deref_run (λ c, descriptor c sel) _ _ e descriptor_found). by rewrite He.
Qed.
Lemma load_stack_run : data_segment e = true → load_stack sel c = Ok (tt, Pcr p g t (Registers gd cs ds (sd_base e) r)).
Proof using Hd Hp Hn.
  intros He. unfold load_stack. rewrite (deref_run (λ c, descriptor c sel) _ _ e descriptor_found). by rewrite He.
Qed.
Lemma load_code_run : code_segment e = true → load_code sel c = Ok (tt, Pcr p g t (Registers gd (sd_base e) ds ss r)).
Proof using Hd Hp Hn.
  intros He. unfold load_code. rewrite (deref_run (λ c, descriptor c sel) _ _ e descriptor_found). by rewrite He.
Qed.
Lemma ltr_run : sd_s e = 0 → sd_type e = STS_T32A →
  ltr sel c = Ok (tt, Pcr p (<[Z.to_nat (Z.shiftr sel 3) := set_busy e]> g) t
    (Registers (<[Z.to_nat (Z.shiftr sel 3) := set_busy e]> g) cs ds ss sel)).
Proof using Hd Hp Hn.
  intros Hs Ht. unfold ltr. rewrite (deref_run (λ c, descriptor c sel) _ _ e descriptor_found). by rewrite Hs, Ht.
Qed.
End loading.

Lemma create_gdt_run fuel TSS_address c :
  idle_cpu (Prcb_ c) →
  KiCreateCurrentGDT run_dpc (S (S fuel)) TSS_address c
  = Ok (tt, Pcr (Prcb_ c) (flat_gdt TSS_address) (TaskState (TS_esp0 (TSS c)) GD_KD) (flat_registers TSS_address)).
Proof.
  intros Hi. destruct c as [p g t r]. cbn [Prcb_ TSS] in *. unfold KiCreateCurrentGDT.
  generalize (idle_unlock_run fuel p Hi). generalize (idle_lock_run p Hi).
  set (T := SEG16 STS_T32A TSS_address sizeof_KTASKSTATE 0).
  assert (sd_s (clear_s T) = 0 ∧ sd_type (clear_s T) = STS_T32A ∧ sd_p (clear_s T) = 1) as (Hs & Ht & Hp) by done.
  unfold flat_registers, flat_gdt. fold T. generalize dependent T. intros T Hs Ht Hp Hl Hu.
  unfold bind at 1, on_prcb at 1, zoom at 1. cbn [Prcb_]. rewrite Hl. rewrite !modify_run. unfold lgdt. rewrite modify_run.
  match goal with |- bind _ _ ?x = _ =>
    change x with (Pcr (locked_cpu p) (take 5 MODELGDT ++ [clear_s T]) (TaskState (TS_esp0 t) GD_KD)
      (Registers (take 5 MODELGDT ++ [clear_s T]) (sr_cs r) (sr_data r) (sr_stack r) (tr r))) end.
  set (g1 := take 5 MODELGDT ++ [clear_s T]).
  do 4 (rewrite (bind_Ok _ _ _ _ _ (load_data_run _ _ g1 _ _ _ _ _ GD_KD _ eq_refl eq_refl ltac:(done) eq_refl))).
  rewrite (bind_Ok _ _ _ _ _ (load_stack_run _ _ g1 _ _ _ _ _ GD_KD _ eq_refl eq_refl ltac:(done) eq_refl)).
  rewrite (bind_Ok _ _ _ _ _ (load_code_run _ _ g1 _ _ _ _ _ GD_KT _ eq_refl eq_refl ltac:(done) eq_refl)).
  rewrite (bind_Ok _ _ _ _ _ (ltr_run _ _ g1 _ _ _ _ _ GD_TSS (clear_s T) eq_refl Hp ltac:(done) Hs Ht)).
  unfold on_prcb, zoom. cbn [Prcb_]. by rewrite Hu.
Qed.
End start_up.

(** ** The theorems *)

(** The descriptors decode to what they were made from.  SEG gives the base
    of its argument and a limit that ends with its page, SEG16 the base and the
    limit in bytes, and SETGATE and SETCALLGATE the offset. *)
Theorem descriptors_decode type base lim dpl :
  is_u32 base → is_u32 lim →
  sd_base (SEG type base lim dpl) = base ∧
  sd_limit (SEG type base lim dpl) = lim / 4096 * 4096 + 4095 ∧
  sd_base (SEG16 type base lim dpl) = base ∧
  (lim < 2 ^ 20 → sd_limit (SEG16 type base lim dpl) = lim) ∧
  (∀ istrap sel, gd_offset (SETGATE istrap sel base dpl) = base) ∧
  (∀ sel, gd_offset (SETCALLGATE sel base dpl) = base).
Proof.
  intros Hb Hl. split; [by apply sd_base_SEG|]. split; [by apply sd_limit_SEG|].
  split; [by apply sd_base_SEG16|]. split; [intros H; apply sd_limit_SEG16; lia|].
  split; [intros; by apply gd_offset_SETGATE|]. intros sel. exact (gd_offset_SETGATE false sel base dpl Hb).
Qed.

Lemma descriptors_decode_witness :
  sd_base (SEG STA_W 0x80123456 0xffffffff 0) = 0x80123456 ∧
  sd_limit (SEG STA_W 0x80123456 0xffffffff 0) = 0xffffffff / 4096 * 4096 + 4095 ∧
  sd_base (SEG16 STA_W 0x80123456 0xffffffff 0) = 0x80123456 ∧
  (0xffffffff < 2 ^ 20 → sd_limit (SEG16 STA_W 0x80123456 0xffffffff 0) = 0xffffffff) ∧
  (∀ istrap sel, gd_offset (SETGATE istrap sel 0x80123456 0) = 0x80123456) ∧
  (∀ sel, gd_offset (SETCALLGATE sel 0x80123456 0) = 0x80123456).
Proof. apply (descriptors_decode STA_W 0x80123456 0xffffffff 0); lia. Defined.
