(* ===== verification/Hal.v ===== *)
(** * Hal: the interrupt controller under the interrupt request level
    (kern/hal/pic.c, kern/hal/halx86.c, kern/ke/irql.c)

    The two 8259 controllers deliver the interrupt lines whose mask bit is clear.
    The HAL keeps one mask for each interrupt request level and writes the mask of
    the new level whenever the level changes.  Irql models the levels without the
    controller; the routines here are the complete ones, and refine those. *)

From S2P Require Import Prelude Types Irql.

(** ** State *)

(** [ports]: the writes to the ports, the last one first. *)
Record hal := HalState {
  Picinitdone : bool;
  Pic8259Mask : Z;
  Hal8259MaskTable : list Z;
  interrupt_flag : bool;
  ports : list (Z * Z) }.

(** The processor and its controllers. *)
Record ke := Ke { cpu : prcb; hal_of : hal }.

Definition on_cpu {A} (m : M prcb A) : M ke A := zoom cpu (λ p s, Ke p (hal_of s)) m.
Definition on_hal {A} (m : M hal A) : M ke A := zoom hal_of (λ h s, Ke (cpu s) h) m.

(** ** x86.h and halx86.c: ports and the interrupt flag *)

Definition set_ports (l : list (Z * Z)) (h : hal) : hal :=
  HalState (Picinitdone h) (Pic8259Mask h) (Hal8259MaskTable h) (interrupt_flag h) l.

Definition outb (port data : Z) : M hal unit := modify (λ h, set_ports ((port, u8 data) :: ports h) h).

Definition set_flag (b : bool) (h : hal) : hal :=
  HalState (Picinitdone h) (Pic8259Mask h) (Hal8259MaskTable h) b (ports h).

Definition HalAreInterruptsEnabled : M hal bool := gets interrupt_flag.
Definition HalDisableInterrupts : M hal bool :=
  let! intstate := HalAreInterruptsEnabled in modify (set_flag false) >>> ret intstate.
Definition HalEnableInterrupts : M hal bool :=
  let! intstate := HalAreInterruptsEnabled in modify (set_flag true) >>> ret intstate.

(** ** pic.c *)

Definition PIC0_CTRL : Z := 0x20.
Definition PIC0_DATA : Z := 0x21.
Definition PIC1_CTRL : Z := 0xa0.
Definition PIC1_DATA : Z := 0xa1.
Definition IRQ_SLAVE : Z := 2.
Definition IRQ_OFFSET : Z := 32.

Definition DEFAULT_PIC_MASK : Z := Z.land 0xFFFF (Z.lnot (Z.shiftl 1 IRQ_SLAVE)).

Definition Pic8259GetMask : M hal Z := gets Pic8259Mask.

Definition set_mask (mask : Z) (h : hal) : hal :=
  HalState (Picinitdone h) mask (Hal8259MaskTable h) (interrupt_flag h) (ports h).

Definition Pic8259SetMask (mask : Z) : M hal unit :=
  let! done := gets Picinitdone in
  if negb done then
    let! m := gets Pic8259Mask in
    assert_ (mask =? m) >>>
    let! b := HalAreInterruptsEnabled in
    assert_ (negb b)
  else
    modify (set_mask mask) >>>
    outb PIC0_DATA mask >>>
    outb PIC1_DATA (Z.shiftr mask 8).

Definition Pic8259Init : M hal unit :=
  outb PIC0_DATA 0xff >>>
  outb PIC1_DATA 0xff >>>
  outb PIC0_CTRL 0x11 >>>
  outb PIC0_DATA IRQ_OFFSET >>>
  outb PIC0_DATA 0x04 >>>
  outb PIC0_DATA 0x01 >>>
  outb PIC1_CTRL 0x11 >>>
  outb PIC1_DATA (IRQ_OFFSET + 8) >>>
  outb PIC1_DATA 0x02 >>>
  outb PIC1_DATA 0x01 >>>
  modify (λ h, HalState true (Pic8259Mask h) (Hal8259MaskTable h) (interrupt_flag h) (ports h)) >>>
  Pic8259SetMask DEFAULT_PIC_MASK.

(** ** halx86.c: the table of masks *)

Definition IRQ_START : Z := 0x20.

Definition set_table (t : list Z) (h : hal) : hal :=
  HalState (Picinitdone h) (Pic8259Mask h) t (interrupt_flag h) (ports h).

Definition mask_of (irql : Z) : M hal Z := deref (λ h, Hal8259MaskTable h !! Z.to_nat irql).

(** for (i = 0; i <= MAX_IRQL_LEVEL; i++) from i = [i] with [n] rounds left. *)
Fixpoint init_masks (n : nat) (i : nat) : M hal unit :=
  match n with
  | O => ret tt
  | S n' =>
      let! m := Pic8259GetMask in
      assert_ (m =? Z.land 0xFFFF (Z.lnot (Z.shiftl 1 2))) >>>
      modify (λ h, set_table (<[i := m]> (Hal8259MaskTable h)) h) >>>
      init_masks n' (S i)
  end.

Definition Halinit : M hal unit :=
  Pic8259Init >>>
  init_masks (Z.to_nat (MAX_IRQL_LEVEL + 1)) 0.

(** for (irql = 0; irql < Irql; irql++) *)
Definition unmask_below (Irql mask : Z) (t : list Z) : list Z :=
  imap (λ i m, if Z.of_nat i <? Irql then Z.land m mask else m) t.

(** The mask has 16 bits: a line above 15 unmasks nothing. *)
Definition HalRegisterVectortoIrql (Irql Vector : Z) : M ke unit :=
  assert_ (Irql <=? MAX_IRQL_LEVEL) >>>
  let line := u32 (Vector - IRQ_START) in
  let mask := u16 (Z.lnot (Z.shiftl 1 line)) in
  on_hal (modify (λ h, set_table (unmask_below Irql mask (Hal8259MaskTable h)) h)) >>>
  let! i := on_cpu KeGetCurrentIrql in
  let! m := on_hal (mask_of i) in
  on_hal (Pic8259SetMask m).

Definition check_mask (CurrentIrql : Z) : M hal unit :=
  let! t := mask_of CurrentIrql in
  let! m := Pic8259GetMask in
  assert_ (t =? m).

Definition HalRaiseIrql (NewIrql CurrentIrql : Z) : M hal unit :=
  check_mask CurrentIrql >>>
  assert_ (CurrentIrql <=? NewIrql) >>>
  let! m := mask_of NewIrql in
  Pic8259SetMask m.

Definition HalLowerIrql (NewIrql CurrentIrql : Z) : M hal unit :=
  check_mask CurrentIrql >>>
  assert_ (NewIrql <=? CurrentIrql) >>>
  let! m := mask_of NewIrql in
  Pic8259SetMask m.

(** ** irql.c and dpc.c with the controller

    The suffix _hal tells these from the routines of Irql. *)

Definition KeRaiseIrql_hal (NewIrql : Z) : M ke Z :=
  let! CurrentIrql := on_cpu KeGetCurrentIrql in
  assert_ (CurrentIrql <=? NewIrql) >>>
  assert_ (negb (NewIrql =? 3)) >>>
  when (negb (NewIrql =? CurrentIrql))
    (on_hal (HalRaiseIrql NewIrql CurrentIrql) >>> on_cpu (KiSetCurrentIrql NewIrql)) >>>
  ret CurrentIrql.

Definition KiLockProcessorRaisetoHighLevel_hal : M ke Z :=
  let! OldIrql := KeRaiseIrql_hal HIGH_LEVEL in
  on_cpu (KeAcquireSpinLockAtDpcLevel ProcessorLock) >>> ret OldIrql.

Section lowering.
Context (run_dpc : addr → M ke unit).

Fixpoint KeLowerIrql_hal (fuel : nat) (OldIrql : Z) : M ke unit :=
  let! Cur := on_cpu KeGetCurrentIrql in
  assert_ (OldIrql <=? Cur) >>>
  let! Cur' :=
    (if (OldIrql <? DISPATCH_LEVEL) && (DISPATCH_LEVEL <=? Cur) then
       on_cpu (KiSetCurrentIrql DISPATCH_LEVEL) >>>
       on_hal (HalLowerIrql DISPATCH_LEVEL Cur) >>>
       match fuel with
       | O => halt NoFuel
       | S f => KiProcessDpcQueue_hal f
       end >>>
       ret DISPATCH_LEVEL
     else ret Cur) in
  when (negb (OldIrql =? Cur')) (on_cpu (KiSetCurrentIrql OldIrql) >>> on_hal (HalLowerIrql OldIrql Cur'))

with KiProcessDpcQueue_hal (fuel : nat) : M ke unit :=
  let! i := on_cpu KeGetCurrentIrql in
  assert_ (i =? DISPATCH_LEVEL) >>>
  match fuel with
  | O => halt NoFuel
  | S f => dpc_loop_hal f
  end

with dpc_loop_hal (fuel : nat) : M ke unit :=
  let! q := gets (λ s, DpcListHead (cpu s)) in
  match q with
  | [] => ret tt
  | d :: q' =>
      match fuel with
      | O => halt NoFuel
      | S f =>
          let! OldIrql := KiLockProcessorRaisetoHighLevel_hal in
          let! h := on_cpu KeGetCurrentIrql in
          assert_ (h =? HIGH_LEVEL) >>>
          on_cpu (modify (set_dpclist q')) >>>
          let! h' := on_cpu KeGetCurrentIrql in
          assert_ (h' =? HIGH_LEVEL) >>>
          on_cpu (KeReleaseSpinLockFromDpcLevel ProcessorLock) >>>
          KeLowerIrql_hal f OldIrql >>>
          let! i' := on_cpu KeGetCurrentIrql in
          assert_ (i' =? DISPATCH_LEVEL) >>>
          run_dpc d >>>
          dpc_loop_hal f
      end
  end.
End lowering.

(** ** The masks follow the level *)

(** What was last written to a port. *)
Fixpoint last_out (port : Z) (l : list (Z * Z)) : option Z :=
  match l with
  | [] => None
  | (p, d) :: l' => if p =? port then Some d else last_out port l'
  end.

(** The controllers hold the mask that the HAL remembers. *)
Definition programmed (h : hal) : Prop :=
  last_out PIC0_DATA (ports h) = Some (u8 (Pic8259Mask h)) ∧
  last_out PIC1_DATA (ports h) = Some (u8 (Z.shiftr (Pic8259Mask h) 8)).

Record hal_ok (s : ke) : Prop := {
  ho_done : Picinitdone (hal_of s) = true;
  ho_level : 0 <= CurrentIrql (cpu s);
  ho_length : length (Hal8259MaskTable (hal_of s)) = 32%nat;
  ho_mask : Hal8259MaskTable (hal_of s) !! Z.to_nat (CurrentIrql (cpu s)) = Some (Pic8259Mask (hal_of s));
  ho_imr : programmed (hal_of s) }.

Definition same_lines (h h' : hal) : Prop :=
  Hal8259MaskTable h' = Hal8259MaskTable h ∧ interrupt_flag h' = interrupt_flag h ∧ ports h `suffix_of` ports h'.

Lemma same_lines_refl h : same_lines h h.
Proof. done. Qed.
#[local] Hint Resolve same_lines_refl : core.

Lemma same_lines_trans h1 h2 h3 : same_lines h1 h2 → same_lines h2 h3 → same_lines h1 h3.
Proof. intros (? & ? & ?) (? & ? & ?). split; [congruence|]. split; [congruence|]. by etransitivity. Qed.

(** Where the routine of Irql returns, the one with the controller returns the
    same and keeps the masks right. *)
Definition sim {A} (s : ke) (mh : M ke A) (m : M prcb A) : Prop :=
  ∀ a p, m (cpu s) = Ok (a, p) →
  ∃ h, mh s = Ok (a, Ke p h) ∧ hal_ok (Ke p h) ∧ same_lines (hal_of s) h.

Definition refines {A} (mh : M ke A) (m : M prcb A) : Prop := ∀ s, hal_ok s → sim s mh m.

Lemma sim_bind {A B} s (mh : M ke A) (m : M prcb A) (fh : A → M ke B) (f : A → M prcb B) :
  sim s mh m →
  (∀ a p h, m (cpu s) = Ok (a, p) → hal_ok (Ke p h) → sim (Ke p h) (fh a) (f a)) →
  sim s (bind mh fh) (bind m f).
Proof.
  intros Hm Hf b p E. apply bind_Ok_inv in E as (a & p1 & E1 & E2).
  destruct (Hm a p1 E1) as (h1 & R1 & Ho1 & Hs1). destruct (Hf a p1 h1 E1 Ho1 b p E2) as (h & R & Ho & Hs).
  exists h. split; [by rewrite (bind_Ok _ _ _ _ _ R1)|]. split; [done|]. by apply (same_lines_trans _ h1).
Qed.

Lemma hal_ok_level s p : hal_ok s → CurrentIrql p = CurrentIrql (cpu s) → hal_ok (Ke p (hal_of s)).
Proof. intros [Hd Hl Hn Hm Hi] E. by split; cbn [cpu hal_of]; rewrite ?E. Qed.

(** Steps of the processor that keep the level. *)
Lemma sim_cpu {A} s (m : M prcb A) :
  hal_ok s → (∀ a p, m (cpu s) = Ok (a, p) → CurrentIrql p = CurrentIrql (cpu s)) → sim s (on_cpu m) m.
Proof.
  intros Ho Hm a p E. exists (hal_of s). unfold on_cpu, zoom. rewrite E.
  split; [done|]. split; [|done]. apply hal_ok_level; [done|]. by apply (Hm a).
Qed.

Lemma sim_ret {A} s (a : A) : hal_ok s → sim s (ret a) (ret a).
Proof. intros Ho b p [= <- <-]. exists (hal_of s). destruct s. done. Qed.

Lemma sim_assert {A} s b (kh : M ke A) (k : M prcb A) :
  (b = true → sim s kh k) → sim s (assert_ b >>> kh) (assert_ b >>> k).
Proof. destruct b; [|by intros _ a p E]. intros H. by apply H. Qed.

Lemma sim_stop {A} s (mh : M ke A) e : sim s mh (halt e).
Proof. by intros a p E. Qed.

Lemma set_mask_run m h :
  Picinitdone h = true →
  ∃ h', Pic8259SetMask m h = Ok (tt, h') ∧ Picinitdone h' = true ∧ Pic8259Mask h' = m ∧ programmed h' ∧ same_lines h h'.
Proof.
  intros Hd. unfold Pic8259SetMask. rewrite gets_run, Hd. eexists. split; [reflexivity|]. split; [done|]. split; [done|].
  split; [by split|]. split; [done|]. split; [done|]. by exists [(PIC1_DATA, u8 (Z.shiftr m 8)); (PIC0_DATA, u8 m)].
Qed.

(** The level changes and the mask follows. *)
Lemma set_level_hal n s :
  hal_ok s → 0 <= n <= 31 →
  ∃ m h, mask_of n (hal_of s) = Ok (m, hal_of s) ∧ Pic8259SetMask m (hal_of s) = Ok (tt, h) ∧
    hal_ok (Ke (set_irql n (cpu s)) h) ∧ same_lines (hal_of s) h.
Proof.
  intros [Hd Hl Hn Hm Hi] Hr. destruct (lookup_lt_is_Some_2 (Hal8259MaskTable (hal_of s)) (Z.to_nat n)) as [m Em]; [lia|].
  destruct (set_mask_run m (hal_of s) Hd) as (h & R & H1 & H2 & H3 & H4). exists m, h.
  split; [unfold mask_of, deref; by rewrite Em|]. split; [done|]. split; [|done]. destruct H4 as (Ht & _).
  split; cbn [cpu hal_of set_irql CurrentIrql]; [done|lia|congruence|congruence|done].
Qed.

Lemma check_mask_run s : hal_ok s → check_mask (CurrentIrql (cpu s)) (hal_of s) = Ok (tt, hal_of s).
Proof.
  intros [_ _ _ Hm _]. unfold check_mask, mask_of.
  rewrite (deref_run (λ h, Hal8259MaskTable h !! Z.to_nat (CurrentIrql (cpu s))) _ _ _ Hm). unfold Pic8259GetMask. rewrite gets_run. unfold assert_. by rewrite Z.eqb_refl.
Qed.

Lemma on_hal_run {A} (m : M hal A) s a h : m (hal_of s) = Ok (a, h) → on_hal m s = Ok (a, Ke (cpu s) h).
Proof. intros E. unfold on_hal, zoom. by rewrite E. Qed.

Lemma on_cpu_run {A} (m : M prcb A) s a p : m (cpu s) = Ok (a, p) → on_cpu m s = Ok (a, Ke p (hal_of s)).
Proof. intros E. unfold on_cpu, zoom. by rewrite E. Qed.

Lemma getirql_inv p i p' : KeGetCurrentIrql p = Ok (i, p') → i = CurrentIrql p ∧ p' = p ∧ CurrentIrql p <= 31.
Proof.
  unfold KeGetCurrentIrql. rewrite gets_run. intros E. unfold assert_ in E.
  destruct (Z.leb_spec (CurrentIrql p) MAX_IRQL_LEVEL); [|done]. by injection E as <- <-.
Qed.

Lemma raise_sim n s : hal_ok s → sim s (KeRaiseIrql_hal n) (KeRaiseIrql n).
Proof.
  intros Ho. unfold KeRaiseIrql_hal, KeRaiseIrql.
  apply sim_bind; [apply sim_cpu; [done|]; by intros a p (-> & -> & _)%getirql_inv|].
  intros i p h (-> & -> & Hi)%getirql_inv Ho'. apply sim_assert. intros Hle. apply sim_assert. intros _. zbool.
  apply sim_bind; [|intros; by apply sim_ret]. destruct (Z.eqb_spec n (CurrentIrql (cpu s))) as [|Hne]; [by apply sim_ret|].
  cbn [negb when]. intros [] p E. unfold KiSetCurrentIrql in E. destruct (Z.leb_spec n MAX_IRQL_LEVEL) as [Hn|]; [|done].
  injection E as <-. change MAX_IRQL_LEVEL with 31 in Hn. pose proof (ho_level _ Ho').
  destruct (set_level_hal n _ Ho') as (m & h1 & R1 & R2 & Ho1 & Hs1); [cbn in *; lia|].
  exists h1. split; [|done]. assert (HalRaiseIrql n (CurrentIrql (cpu s)) h = Ok (tt, h1)) as R.
  { unfold HalRaiseIrql. rewrite (bind_Ok _ _ _ _ _ (check_mask_run _ Ho')). apply Z.leb_le in Hle. rewrite Hle.
    change (bind (assert_ true) ?k) with (k tt). cbv beta. by rewrite (bind_Ok _ _ _ _ _ R1). }
  rewrite (bind_Ok _ _ _ _ _ (on_hal_run _ (Ke (cpu s) h) tt h1 R)).
  apply (on_cpu_run _ (Ke (cpu s) h1)). by apply setirql_run.
Qed.

(** Lowering writes the level first and the mask then. *)
Lemma lower_step_sim n s :
  hal_ok s → 0 <= n <= CurrentIrql (cpu s) →
  sim s (on_cpu (KiSetCurrentIrql n) >>> on_hal (HalLowerIrql n (CurrentIrql (cpu s)))) (KiSetCurrentIrql n).
Proof.
  intros Ho Hn [] p E. unfold KiSetCurrentIrql in E. destruct (Z.leb_spec n MAX_IRQL_LEVEL) as [H31|]; [|done].
  injection E as <-. change MAX_IRQL_LEVEL with 31 in H31.
  destruct (set_level_hal n _ Ho) as (m & h1 & R1 & R2 & Ho1 & Hs1); [lia|].
  exists h1. split; [|done]. rewrite (bind_Ok _ _ _ _ _ (on_cpu_run _ s tt _ (setirql_run n (cpu s) H31))).
  apply (on_hal_run _ (Ke (set_irql n (cpu s)) (hal_of s))). unfold HalLowerIrql. cbn [hal_of].
  rewrite (bind_Ok _ _ _ _ _ (check_mask_run _ Ho)). rewrite (proj2 (Z.leb_le _ _)) by lia.
  change (bind (assert_ true) ?k) with (k tt). cbv beta. by rewrite (bind_Ok _ _ _ _ _ R1).
Qed.

(** Routines that keep the level. *)
Definition keeps_level {A} (m : M prcb A) : Prop := ∀ p a p', m p = Ok (a, p') → CurrentIrql p' = CurrentIrql p.

Lemma keeps_bind {A B} (m : M prcb A) (f : A → M prcb B) :
  keeps_level m → (∀ a, keeps_level (f a)) → keeps_level (bind m f).
Proof.
  intros Hm Hf p b p' (a & p1 & E1 & E2)%bind_Ok_inv. rewrite (Hf _ _ _ _ E2). by apply (Hm _ _ _ E1).
Qed.
Lemma keeps_ret {A} (a : A) : keeps_level (ret a).
Proof. by intros p b p' [= _ <-]. Qed.
Lemma keeps_halt {A} e : keeps_level (A := A) (halt e).
Proof. by intros p b p' E. Qed.
Lemma keeps_gets {A} (f : prcb → A) : keeps_level (gets f).
Proof. by intros p b p' [= _ <-]. Qed.
Lemma keeps_deref {A} (f : prcb → option A) : keeps_level (deref f).
Proof. intros p b p'. unfold deref. destruct (f p); [|done]. by intros [= _ <-]. Qed.
Lemma keeps_assert b : keeps_level (assert_ b).
Proof. destruct b; [apply keeps_ret|apply keeps_halt]. Qed.
Lemma keeps_modify f : (∀ p, CurrentIrql (f p) = CurrentIrql p) → keeps_level (modify f).
Proof. by intros H p b p' [= _ <-]. Qed.

Create HintDb level discriminated.
#[local] Hint Resolve keeps_bind keeps_ret keeps_halt keeps_gets keeps_deref keeps_assert keeps_modify : level.

Ltac level := repeat (first [apply keeps_bind; [|intros ?] | progress unfold when |
  match goal with |- context [if ?b then _ else _] => destruct b | |- context [let '(_, _) := ?x in _] => destruct x end]);
  eauto with level.

Lemma keeps_irql : keeps_level KeGetCurrentIrql.
Proof. unfold KeGetCurrentIrql. level. Qed.
#[local] Hint Resolve keeps_irql : level.

Lemma acquire_level l : keeps_level (KeAcquireSpinLockAtDpcLevel l).
Proof. unfold KeAcquireSpinLockAtDpcLevel, not_owner, spin, own, KeGetCurrentThread. level. Qed.

Lemma release_level l : keeps_level (KeReleaseSpinLockFromDpcLevel l).
Proof. unfold KeReleaseSpinLockFromDpcLevel, unlock, KeGetCurrentThread. level. Qed.

Lemma lockproc_sim s : hal_ok s → sim s KiLockProcessorRaisetoHighLevel_hal KiLockProcessorRaisetoHighLevel.
Proof.
  intros Ho. apply sim_bind; [by apply raise_sim|]. intros i p h E Ho'.
  apply sim_bind; [apply sim_cpu; [done|]; intros ? ?; apply acquire_level|]. intros. by apply sim_ret.
Qed.

(** The level that was current is the one that is put back. *)
Lemma lockproc_old p i p' : KiLockProcessorRaisetoHighLevel p = Ok (i, p') → i = CurrentIrql p.
Proof.
  unfold KiLockProcessorRaisetoHighLevel, KeRaiseIrql, KeGetCurrentIrql. intros H.
  repeat first [run_inv | match goal with H : context [assert_ ?b] |- _ => destruct b; cbn [assert_] in * end]; done.
Qed.

Lemma irql_sim s : hal_ok s → sim s (on_cpu KeGetCurrentIrql) KeGetCurrentIrql.
Proof. intros Ho. apply sim_cpu; [done|]. apply keeps_irql. Qed.

Lemma sim_seq {B} s (a : M ke unit) (b : M ke unit) (k : M ke B) (m : M prcb unit) (k' : M prcb B) :
  sim s (a >>> b) m → (∀ p h, m (cpu s) = Ok (tt, p) → hal_ok (Ke p h) → sim (Ke p h) k k') →
  sim s (a >>> b >>> k) (m >>> k').
Proof.
  intros H1 H2. assert (sim s ((a >>> b) >>> k) (m >>> k')) as H by (apply sim_bind; [done|intros [] ? ?; apply H2]).
  intros c p E. destruct (H c p E) as (h & R & Hh). rewrite bind_assoc in R. by exists h.
Qed.

Section refinement.
Context (run_dpc_h : addr → M ke unit) (run_dpc : addr → M prcb unit).
Hypothesis (Hdpc : ∀ d, refines (run_dpc_h d) (run_dpc d)) (Hlevel : ∀ d, keeps_level (run_dpc d)).

(** One round of [dpc_loop], given the smaller calls. *)
Lemma dpc_loop_sim f s :
  (∀ n s, 0 <= n → hal_ok s → sim s (KeLowerIrql_hal run_dpc_h f n) (KeLowerIrql run_dpc f n)) →
  (∀ s, hal_ok s → sim s (dpc_loop_hal run_dpc_h f) (dpc_loop run_dpc f)) →
  hal_ok s → sim s (dpc_loop_hal run_dpc_h (S f)) (dpc_loop run_dpc (S f)).
Proof using Hdpc.
  intros IHl IHp Ho. cbn [dpc_loop_hal dpc_loop]. unfold sim. rewrite !gets_run.
  change (sim s (match DpcListHead (cpu s) with [] => ret tt | d :: q' => let! OldIrql := KiLockProcessorRaisetoHighLevel_hal in
      let! h := on_cpu KeGetCurrentIrql in assert_ (h =? HIGH_LEVEL) >>> on_cpu (modify (set_dpclist q')) >>>
      let! h' := on_cpu KeGetCurrentIrql in assert_ (h' =? HIGH_LEVEL) >>> on_cpu (KeReleaseSpinLockFromDpcLevel ProcessorLock) >>>
      KeLowerIrql_hal run_dpc_h f OldIrql >>> let! i' := on_cpu KeGetCurrentIrql in
      assert_ (i' =? DISPATCH_LEVEL) >>> run_dpc_h d >>> dpc_loop_hal run_dpc_h f end)
    (match DpcListHead (cpu s) with [] => ret tt | d :: q' => let! OldIrql := KiLockProcessorRaisetoHighLevel in
      let! h := KeGetCurrentIrql in assert_ (h =? HIGH_LEVEL) >>> modify (set_dpclist q') >>>
      let! h' := KeGetCurrentIrql in assert_ (h' =? HIGH_LEVEL) >>> KeReleaseSpinLockFromDpcLevel ProcessorLock >>>
      KeLowerIrql run_dpc f OldIrql >>> let! i' := KeGetCurrentIrql in
      assert_ (i' =? DISPATCH_LEVEL) >>> run_dpc d >>> dpc_loop run_dpc f end)).
  destruct (DpcListHead (cpu s)) as [|d q']; [by apply sim_ret|].
  apply sim_bind; [by apply lockproc_sim|]. intros old p0 h0 E0%lockproc_old Ho0. pose proof (ho_level _ Ho) as H0.
  apply sim_bind; [by apply irql_sim|]. intros ? p1 h1 _ Ho1. apply sim_assert. intros _.
  apply sim_bind; [apply sim_cpu; [done|]; by apply keeps_modify|]. intros ? p2 h2 _ Ho2.
  apply sim_bind; [by apply irql_sim|]. intros ? p3 h3 _ Ho3. apply sim_assert. intros _.
  apply sim_bind; [apply sim_cpu; [done|]; apply release_level|]. intros ? p4 h4 _ Ho4.
  apply sim_bind; [apply IHl; [lia|done]|]. intros ? p5 h5 _ Ho5.
  apply sim_bind; [by apply irql_sim|]. intros ? p6 h6 _ Ho6. apply sim_assert. intros _.
  apply sim_bind; [by apply Hdpc|]. intros ? p7 h7 _ Ho7. by apply IHp.
Qed.

Lemma process_sim f s :
  match f with O => True | S f' => ∀ s, hal_ok s → sim s (dpc_loop_hal run_dpc_h f') (dpc_loop run_dpc f') end →
  hal_ok s → sim s (KiProcessDpcQueue_hal run_dpc_h f) (KiProcessDpcQueue run_dpc f).
Proof using Hdpc.
  intros IH Ho. destruct f; cbn [KiProcessDpcQueue_hal KiProcessDpcQueue];
    (apply sim_bind; [by apply irql_sim|]); intros ? p h _ Ho'; apply sim_assert; intros _; [apply sim_stop|by apply IH].
Qed.

Lemma loop_level f p p' : CurrentIrql p = 2 → dpc_loop run_dpc f p = Ok (tt, p') → CurrentIrql p' = 2.
Proof using Hlevel.
  revert p. induction f as [|f IH]; intros p Hp; cbn [dpc_loop]; rewrite gets_run;
    (destruct (DpcListHead p) as [|d q]; [by intros [= <-]|]); [done|]. intros H. run_inv.
  match goal with H : KeGetCurrentIrql ?s0 = Ok (?i, ?s1), H' : assert_ (?i =? DISPATCH_LEVEL) _ = Ok _ |- _ =>
    apply getirql_inv in H as (-> & -> & _); unfold assert_ in H';
    destruct (Z.eqb_spec (CurrentIrql s0) DISPATCH_LEVEL) as [E2|]; [|discriminate H']; injection H' as <- <- end.
  match goal with E : run_dpc d _ = Ok _, H : dpc_loop _ _ _ = Ok _ |- _ =>
    apply Hlevel in E; rewrite E2 in E; exact (IH _ E H) end.
Qed.

Lemma process_level f p p' : KiProcessDpcQueue run_dpc f p = Ok (tt, p') → CurrentIrql p' = 2.
Proof using Hlevel.
  destruct f; cbn [KiProcessDpcQueue]; intros (i & p1 & (-> & -> & _)%getirql_inv & E)%bind_Ok_inv;
    unfold assert_ in E; (destruct (Z.eqb_spec (CurrentIrql p) DISPATCH_LEVEL); [|done]); [done|].
  by apply (loop_level f p).
Qed.

Lemma lower_sim f n s :
  match f with O => True | S f' => ∀ s, hal_ok s → sim s (KiProcessDpcQueue_hal run_dpc_h f') (KiProcessDpcQueue run_dpc f') end →
  0 <= n → hal_ok s → sim s (KeLowerIrql_hal run_dpc_h f n) (KeLowerIrql run_dpc f n).
Proof using Hlevel.
  intros IH Hn Ho.
  assert (∀ s, hal_ok s → n <= CurrentIrql (cpu s) → sim s (when (negb (n =? CurrentIrql (cpu s)))
    (on_cpu (KiSetCurrentIrql n) >>> on_hal (HalLowerIrql n (CurrentIrql (cpu s)))))
    (when (negb (n =? CurrentIrql (cpu s))) (KiSetCurrentIrql n))) as Hlast.
  { intros s1 Ho1 H1. destruct (n =? CurrentIrql (cpu s1)); cbn [negb when]; [by apply sim_ret|]. by apply lower_step_sim. }
  assert (∀ s, hal_ok s → CurrentIrql (cpu s) = 2 → n < 2 → sim s (when (negb (n =? 2))
    (on_cpu (KiSetCurrentIrql n) >>> on_hal (HalLowerIrql n 2))) (when (negb (n =? 2)) (KiSetCurrentIrql n))) as Hlast2.
  { intros s1 Ho1 E1 H1. rewrite <- E1. apply Hlast; [done|lia]. }
  destruct f; cbn [KeLowerIrql_hal KeLowerIrql];
    (apply sim_bind; [by apply irql_sim|]); intros i p h (-> & -> & _)%getirql_inv Ho1; apply sim_assert; intros Hle; zbool;
    (destruct ((n <? DISPATCH_LEVEL) && (DISPATCH_LEVEL <=? CurrentIrql (cpu s))) eqn:Ec;
      [|apply sim_bind; [by apply sim_ret|]; intros ? ? ? [= <- <-] Ho2; by apply (Hlast (Ke (cpu s) _))]);
    zbool; unfold DISPATCH_LEVEL in *.
  - intros a p E. run_inv.
  - apply sim_bind.
    + apply sim_seq; [apply (lower_step_sim 2 (Ke (cpu s) h)); [done|cbn; lia]|]. intros p2 h2 _ Ho2.
      apply sim_bind; [by apply IH|]. intros ? p3 h3 _ Ho3. by apply sim_ret.
    + intros c p3 h3 E Ho3. run_inv. apply (Hlast2 (Ke p3 h3)); [done| |done].
      match goal with H : KiProcessDpcQueue _ _ _ = Ok (?x, _) |- _ => destruct x; exact (process_level _ _ _ H) end.
Qed.

Lemma lowering_sim f :
  (∀ n s, 0 <= n → hal_ok s → sim s (KeLowerIrql_hal run_dpc_h f n) (KeLowerIrql run_dpc f n)) ∧
  (∀ s, hal_ok s → sim s (KiProcessDpcQueue_hal run_dpc_h f) (KiProcessDpcQueue run_dpc f)) ∧
  (∀ s, hal_ok s → sim s (dpc_loop_hal run_dpc_h f) (dpc_loop run_dpc f)).
Proof using Hdpc Hlevel.
  induction f as [|f (IHl & IHp & IHd)].
  - split; [intros; by apply lower_sim|]. split; [intros; by apply process_sim|].
    intros s Ho a p. cbn [dpc_loop dpc_loop_hal]. rewrite gets_run. intros E.
    exists (hal_of s). rewrite gets_run. destruct (DpcListHead (cpu s)); [|done]. injection E as <- <-. by destruct s.
  - split; [intros; by apply lower_sim|]. split; [intros; by apply process_sim|]. intros; by apply dpc_loop_sim.
Qed.
End refinement.

(** ** The theorems *)

(** C16: The levels of Irql are those of the kernel with its interrupt controllers.
    While the controllers hold the mask of the current level, raising and lowering
    the level with the controller do what the routines of Irql do, the assertions
    of the HAL hold, and afterwards the controllers hold the mask of the new level;
    the masks themselves and the interrupt flag stay, whatever deferred procedure
    calls run, if those do the same. *)
Theorem irql_follows_masks run_dpc_h run_dpc fuel n s :
  (∀ d, refines (run_dpc_h d) (run_dpc d)) → (∀ d, keeps_level (run_dpc d)) →
  hal_ok s → 0 <= n →
  (∀ a p, KeRaiseIrql n (cpu s) = Ok (a, p) →
     ∃ h, KeRaiseIrql_hal n s = Ok (a, Ke p h) ∧ hal_ok (Ke p h) ∧ same_lines (hal_of s) h) ∧
  (∀ p, KeLowerIrql run_dpc fuel n (cpu s) = Ok (tt, p) →
     ∃ h, KeLowerIrql_hal run_dpc_h fuel n s = Ok (tt, Ke p h) ∧ hal_ok (Ke p h) ∧ same_lines (hal_of s) h).
Proof.
  intros Hd Hl Ho Hn. split; [by apply raise_sim|]. intros p. by apply (lowering_sim run_dpc_h run_dpc Hd Hl fuel).
Qed.

(** ** Which lines are open *)

(** The controllers let the interrupts of line [k] through. *)
Definition line_open (h : hal) (k : Z) : Prop :=
  ∃ d, last_out (if k <? 8 then PIC0_DATA else PIC1_DATA) (ports h) = Some d ∧ Z.testbit d (k mod 8) = false.

(** [R]: the levels and lines of the registered devices.  A mask lets through the
    cascade of the second controller and the devices above its level. *)
Definition masks_for (R : list (Z * Z)) (t : list Z) : Prop :=
  ∀ i m, t !! i = Some m → ∀ k, 0 <= k < 16 →
    Z.testbit m k = false ↔ k = IRQ_SLAVE ∨ ∃ lev, (lev, k) ∈ R ∧ Z.of_nat i < lev.

Definition lines (R : list (Z * Z)) (s : ke) : Prop := hal_ok s ∧ masks_for R (Hal8259MaskTable (hal_of s)).

Lemma u8_testbit x k : 0 <= k < 8 → Z.testbit (u8 x) k = Z.testbit x k.
Proof. intros Hk. unfold u8. apply Z.mod_pow2_bits_low. lia. Qed.

Lemma open_mask h k : programmed h → 0 <= k < 16 → line_open h k ↔ Z.testbit (Pic8259Mask h) k = false.
Proof.
  intros [H0 H1] Hk. unfold line_open. destruct (Z.ltb_spec k 8) as [Hl|Hl].
  - rewrite H0, Z.mod_small by lia. rewrite <- (u8_testbit _ k) by lia.
    split; [by intros (d & [= <-] & E)|]. by eexists.
  - rewrite H1. assert (k mod 8 = k - 8) as -> by (Z.div_mod_to_equations; lia).
    assert (Z.testbit (Pic8259Mask h) k = Z.testbit (u8 (Z.shiftr (Pic8259Mask h) 8)) (k - 8)) as ->.
    { rewrite u8_testbit, Z.shiftr_spec by lia. f_equal. lia. }
    split; [by intros (d & [= <-] & E)|]. by eexists.
Qed.

Lemma lines_open R s k :
  lines R s → 0 <= k < 16 →
  line_open (hal_of s) k ↔ k = IRQ_SLAVE ∨ ∃ lev, (lev, k) ∈ R ∧ CurrentIrql (cpu s) < lev.
Proof.
  intros [Ho Hm] Hk. rewrite (open_mask _ _ (ho_imr _ Ho) Hk), (Hm _ _ (ho_mask _ Ho) k Hk).
  rewrite Z2Nat.id by apply Ho. done.
Qed.

Lemma lines_same R s s' : lines R s → hal_ok s' → same_lines (hal_of s) (hal_of s') → lines R s'.
Proof. intros [_ Hm] Ho (Et & _). split; [done|]. by rewrite Et. Qed.

Lemma unmask_spec R irql line t :
  0 <= line < 16 → masks_for R t → masks_for ((irql, line) :: R) (unmask_below irql (u16 (Z.lnot (Z.shiftl 1 line))) t).
Proof.
  intros Hl Hm i m E k Hk. unfold unmask_below in E. rewrite list_lookup_imap in E.
  destruct (t !! i) as [m0|] eqn:E0; [|done]. specialize (Hm i m0 E0 k Hk). injection E as <-.
  assert (Z.testbit (u16 (Z.lnot (Z.shiftl 1 line))) k = negb (k =? line)) as Hb.
  { unfold u16. rewrite Z.mod_pow2_bits_low by lia. rewrite Z.lnot_spec, Z.shiftl_spec by lia. f_equal.
    destruct (Z.eqb_spec k line) as [->|Hne]; [by rewrite Z.sub_diag|]. destruct (decide (k < line)).
    - apply Z.testbit_neg_r. lia.
    - change 1 with (2 ^ 0). apply Z.pow2_bits_false. lia. }
  setoid_rewrite elem_of_cons. destruct (Z.ltb_spec (Z.of_nat i) irql) as [Hi|Hi].
  - rewrite Z.land_spec, Hb, andb_false_iff, Hm, negb_false_iff, Z.eqb_eq. split.
    + intros [[H|(lev & H & H')]| ->]; [by left|right; exists lev; auto|right; exists irql; auto].
    + intros [H|(lev & [[= -> ->]|H] & H')]; [left; by left|by right|left; right; by exists lev].
  - rewrite Hm. split.
    + intros [H|(lev & H & H')]; [by left|right; exists lev; auto].
    + intros [H|(lev & [[= -> ->]|H] & H')]; [by left|lia|right; by exists lev].
Qed.

Lemma register_lines R irql v s :
  lines R s → 0 <= irql <= 31 → IRQ_START <= v < IRQ_START + 16 → CurrentIrql (cpu s) <= 31 →
  ∃ h, HalRegisterVectortoIrql irql v s = Ok (tt, Ke (cpu s) h) ∧ lines ((irql, v - IRQ_START) :: R) (Ke (cpu s) h).
Proof.
  intros [[Hd Hl Hn Hmk Hi] Hm] Hr Hv Hc. unfold IRQ_START in *. unfold HalRegisterVectortoIrql.
  rewrite assert_true by (apply Z.leb_le; unfold MAX_IRQL_LEVEL, HIGH_LEVEL; lia). unfold IRQ_START.
  rewrite (u32_small (v - 32)) by lia. set (t := unmask_below irql (u16 (Z.lnot (Z.shiftl 1 (v - 32)))) (Hal8259MaskTable (hal_of s))).
  rewrite (bind_Ok _ _ _ _ _ (on_hal_run _ s tt (set_table t (hal_of s)) eq_refl)). set (s1 := Ke (cpu s) _).
  rewrite (bind_Ok _ _ _ _ _ (on_cpu_run _ s1 _ _ (getirql_run (cpu s) Hc))).
  assert (length t = 32%nat) as Ht by (unfold t, unmask_below; by rewrite length_imap).
  destruct (lookup_lt_is_Some_2 t (Z.to_nat (CurrentIrql (cpu s)))) as [m Em]; [lia|].
  assert (mask_of (CurrentIrql (cpu s)) (set_table t (hal_of s)) = Ok (m, set_table t (hal_of s))) as Rm.
  { unfold mask_of, deref. cbn [set_table Hal8259MaskTable]. by rewrite Em. }
  rewrite (bind_Ok _ _ _ _ _ (on_hal_run _ s1 m _ Rm)).
  destruct (set_mask_run m (set_table t (hal_of s)) Hd) as (h & R1 & H1 & H2 & H3 & [H4 _]).
  exists h. split; [by apply (on_hal_run _ s1)|]. cbn [set_table Hal8259MaskTable] in H4. split.
  - split; cbn [cpu hal_of]; [done|done|congruence|congruence|done].
  - cbn [hal_of]. rewrite H4. by apply unmask_spec; [lia|].
Qed.

Lemma init_masks_run n i h :
  Pic8259Mask h = DEFAULT_PIC_MASK → length (Hal8259MaskTable h) = (i + n)%nat →
  (∀ j m, (j < i)%nat → Hal8259MaskTable h !! j = Some m → m = DEFAULT_PIC_MASK) →
  ∃ t, init_masks n i h = Ok (tt, set_table t h) ∧ length t = (i + n)%nat ∧
    ∀ j m, t !! j = Some m → m = DEFAULT_PIC_MASK.
Proof.
  revert i h. induction n as [|n IH]; intros i h Hm Hl Ht; cbn [init_masks].
  - exists (Hal8259MaskTable h). split; [by destruct h|]. split; [done|]. intros j m E.
    apply (Ht j); [|done]. apply lookup_lt_Some in E. lia.
  - unfold Pic8259GetMask. rewrite gets_run, Hm. change (DEFAULT_PIC_MASK =? _) with true.
    change (bind (assert_ true) ?k) with (k tt). cbv beta. rewrite modify_run.
    destruct (IH (S i) (set_table (<[i := DEFAULT_PIC_MASK]> (Hal8259MaskTable h)) h)) as (t & R & Hlt & Hv);
      [done|cbn; rewrite length_insert; lia| |].
    + intros j m Hj. cbn [set_table Hal8259MaskTable]. destruct (decide (j = i)) as [->|].
      * rewrite list_lookup_insert_eq by lia. by intros [= <-].
      * rewrite list_lookup_insert_ne by done. apply Ht. lia.
    + exists t. split; [exact R|]. split; [lia|done].
Qed.

(** A write to a port changes the list of writes only. *)
Lemma outb_any {B} port data (k : M hal B) h (P : outcome (B * hal) → Prop) :
  (∀ l, P (k (set_ports l h))) → ∀ l, P ((outb port data >>> k) (set_ports l h)).
Proof. intros H l. exact (H ((port, u8 data) :: l)). Qed.

Lemma pic_init_run h0 :
  ∃ h, Pic8259Init h0 = Ok (tt, h) ∧ Picinitdone h = true ∧ Pic8259Mask h = DEFAULT_PIC_MASK ∧
    programmed h ∧ Hal8259MaskTable h = Hal8259MaskTable h0.
Proof.
  set (P := λ r : outcome (unit * hal), ∃ h, r = Ok (tt, h) ∧ Picinitdone h = true ∧ Pic8259Mask h = DEFAULT_PIC_MASK ∧
    programmed h ∧ Hal8259MaskTable h = Hal8259MaskTable h0). change (P (Pic8259Init h0)).
  assert (∀ l, P (Pic8259Init (set_ports l h0))) as H; [|by destruct h0; apply (H _)].
  unfold Pic8259Init. do 10 apply outb_any. intros l. rewrite modify_run.
  match goal with |- P (_ ?x) => destruct (set_mask_run DEFAULT_PIC_MASK x eq_refl) as (h & R & H1 & H2 & H3 & [H4 _]) end.
  exists h. by rewrite R.
Qed.

Lemma halinit_lines s :
  0 <= CurrentIrql (cpu s) <= 31 → length (Hal8259MaskTable (hal_of s)) = 32%nat →
  ∃ h, on_hal Halinit s = Ok (tt, Ke (cpu s) h) ∧ lines [] (Ke (cpu s) h).
Proof.
  intros Hc Hl. unfold Halinit.
  assert (∃ h, Pic8259Init (hal_of s) = Ok (tt, h) ∧ Picinitdone h = true ∧ Pic8259Mask h = DEFAULT_PIC_MASK ∧
    programmed h ∧ Hal8259MaskTable h = Hal8259MaskTable (hal_of s)) as (h & R & H1 & H2 & H3 & H4).
  { apply pic_init_run. }
  destruct (init_masks_run 32 0 h) as (t & R' & Ht & Hv); [done|by rewrite H4|lia|].
  exists (set_table t h). split.
  - apply on_hal_run. rewrite (bind_Ok _ _ _ _ _ R). exact R'.
  - split.
    + split; cbn [cpu hal_of set_table Hal8259MaskTable Pic8259Mask]; [done|lia|done| |done].
      destruct (lookup_lt_is_Some_2 t (Z.to_nat (CurrentIrql (cpu s)))) as [m Em]; [lia|].
      rewrite Em. f_equal. rewrite H2. by apply (Hv _ _ Em).
    + intros i m E k Hk. cbn [hal_of set_table Hal8259MaskTable] in E. rewrite (Hv _ _ E).
      assert (Z.testbit DEFAULT_PIC_MASK k = negb (k =? 2)) as ->.
      { unfold DEFAULT_PIC_MASK. change 0xFFFF with (Z.ones 16).
        rewrite Z.land_spec, Z.testbit_ones_nonneg, Z.lnot_spec, Z.shiftl_spec by lia. unfold IRQ_SLAVE.
        rewrite (proj2 (Z.ltb_lt k 16)) by lia. cbn [andb]. f_equal. change 1 with (2 ^ 0).
        rewrite Z.pow2_bits_eqb by lia. destruct (Z.eqb_spec 0 (k - 2)), (Z.eqb_spec k 2); lia. }
      rewrite negb_false_iff, Z.eqb_eq. split; [by left|]. intros [|(? & []%not_elem_of_nil & _)]. done.
Qed.

(** C25: An interrupt line is open exactly at the levels below that of its device.
    Registering a device succeeds and opens its line at those levels only, and
    raising the level to n closes the lines of the devices at or below n.  The
    cascade of the second controller stays open. *)
Theorem device_lines_follow_level R irql v s :
  lines R s → 0 <= irql <= 31 → IRQ_START <= v < IRQ_START + 16 → CurrentIrql (cpu s) <= 31 →
  let R' := (irql, v - IRQ_START) :: R in
  ∃ h, HalRegisterVectortoIrql irql v s = Ok (tt, Ke (cpu s) h) ∧ lines R' (Ke (cpu s) h) ∧
    ∀ n, CurrentIrql (cpu s) <= n <= 31 → n ≠ 3 →
    ∃ h', KeRaiseIrql_hal n (Ke (cpu s) h) = Ok (CurrentIrql (cpu s), Ke (set_irql n (cpu s)) h') ∧
      ∀ k, 0 <= k < 16 → line_open h' k ↔ k = IRQ_SLAVE ∨ ∃ lev, (lev, k) ∈ R' ∧ n < lev.
Proof.
  intros Hl Hr Hv Hc R'. destruct (register_lines R irql v s Hl Hr Hv Hc) as (h & Rh & Hl').
  exists h. split; [done|]. split; [done|]. intros n Hn H3.
  destruct (raise_sim n _ (proj1 Hl') _ _ (raise_run n (cpu s) Hn H3)) as (h' & Rr & Ho & Hs).
  exists h'. split; [done|]. intros k Hk. apply (lines_open R' (Ke (set_irql n (cpu s)) h') k); [|done].
  by apply (lines_same _ _ _ Hl').
Qed.

(** Start-up: nothing is programmed and every mask is 0. *)
Definition cold_start (irql : Z) : ke :=
  Ke (Prcb irql 0 [] 0 {[ ProcessorLock := SpinLk 0 NULL 0 ]} ∅) (HalState false 0 (replicate 32 0) false []).

Lemma device_lines_follow_level_witness :
  ∃ h, on_hal Halinit (cold_start 0) = Ok (tt, Ke (cpu (cold_start 0)) h) ∧
    let s := Ke (cpu (cold_start 0)) h in
    let R' := [(28, 0x20 - IRQ_START)] in
    ∃ h, HalRegisterVectortoIrql 28 0x20 s = Ok (tt, Ke (cpu s) h) ∧ lines R' (Ke (cpu s) h) ∧
      ∀ n, CurrentIrql (cpu s) <= n <= 31 → n ≠ 3 →
      ∃ h', KeRaiseIrql_hal n (Ke (cpu s) h) = Ok (CurrentIrql (cpu s), Ke (set_irql n (cpu s)) h') ∧
        ∀ k, 0 <= k < 16 → line_open h' k ↔ k = IRQ_SLAVE ∨ ∃ lev, (lev, k) ∈ R' ∧ n < lev.
Proof.
  destruct (halinit_lines (cold_start 0)) as (h & R & Hl); [cbn; lia|done|]. exists h. split; [exact R|].
  apply (device_lines_follow_level [] 28 0x20 (Ke (cpu (cold_start 0)) h) Hl); [lia|unfold IRQ_START; lia|cbn; lia].
Defined.

Lemma irql_follows_masks_witness :
  ∃ h, on_hal Halinit (cold_start 2) = Ok (tt, Ke (cpu (cold_start 2)) h) ∧
    let s := Ke (cpu (cold_start 2)) h in
    (∀ a p, KeRaiseIrql 1 (cpu s) = Ok (a, p) →
       ∃ h, KeRaiseIrql_hal 1 s = Ok (a, Ke p h) ∧ hal_ok (Ke p h) ∧ same_lines (hal_of s) h) ∧
    (∀ p, KeLowerIrql (λ _, ret tt) 2 1 (cpu s) = Ok (tt, p) →
       ∃ h, KeLowerIrql_hal (λ _, ret tt) 2 1 s = Ok (tt, Ke p h) ∧ hal_ok (Ke p h) ∧ same_lines (hal_of s) h) ∧
    KeLowerIrql (λ _, ret tt) 2 1 (cpu s) = Ok (tt, set_irql 1 (cpu s)).
Proof.
  destruct (halinit_lines (cold_start 2)) as (h & R & Hl); [cbn; lia|done|]. exists h. split; [exact R|].
  intros s. destruct (irql_follows_masks (λ _, ret tt) (λ _, ret tt) 2 1 s) as [H1 H2].
  - intros d s' Ho. by apply sim_ret.
  - intros d. apply keeps_ret.
  - apply Hl.
  - lia.
  - split; [exact H1|]. split; [exact H2|]. by apply (lower_quiet _ 0); cbn; [lia|].
Defined.
