(* ===== verification/Sched.v ===== *)
(** * Sched: threads, dispatcher objects and waits
    (kern/ke/scheduler.c, wait.c, PsExitThread of kern/ps/thread.c)

    One processor.  KiSwapThread switches stacks: the routine that calls it goes
    on only when its thread is selected again, and what runs next is the rest
    of the routine in which the next thread had stopped.  The saved stack
    pointer of a thread is represented by that place ([resume_point]), and every
    routine below runs up to the point where the processor is back in a
    thread's own code.

    The wait block a thread waits with is its first one, at [WaitBlock0].  The
    queued deferred calls are delivered by KeLowerIrql (Irql.v); Schedule, which
    such a call runs, is an operation here. *)

From S2P Require Import Prelude Types Irql.

(** ** Data (ke.h) *)

Inductive THREAD_STATE :=
| THREAD_STATE_INITIALIZED | THREAD_STATE_READY | THREAD_STATE_STANDBY
| THREAD_STATE_RUNNING | THREAD_STATE_WAITING | THREAD_STATE_TERMINATED.

#[export] Instance thread_state_eq_dec : EqDecision THREAD_STATE.
Proof. solve_decision. Defined.

Inductive KOBJECTS :=
| EventNotificationObject | EventSynchronizationObject | MutantObject | ProcessObject
| SemaphoreObject | ThreadObject | OtherObject.

#[export] Instance kobjects_eq_dec : EqDecision KOBJECTS.
Proof. solve_decision. Defined.

Definition PROCESS_PRIORITY_IDLE : Z := 1.
Definition PROCESS_PRIORITY_MAX : Z := 6.
Definition MAX_DISPATCH_SIGNAL_STATE : Z := 100.
Definition THREAD_STACK_SIZE : Z := 3.

Inductive WAIT_TYPE := WAIT_TYPE_ANY | WAIT_TYPE_ALL.

Record KWAIT_BLOCK := WaitBlk { wb_Thread : addr; wb_Object : addr; wb_Type : WAIT_TYPE }.

(** The header of a dispatcher object, with the fields that a mutant and a
    semaphore add. *)
Record DISPATCHER_HEADER := DHeader {
  WaitListHead : list addr; DType : KOBJECTS; SignalState : Z; OwnerThread : addr; Limit : Z }.

(** Where a thread that does not run will go on: at its start routine, after
    KiSwapThread in Schedule, or after KiBlockThread in the wait for an object,
    with the level to go back to. *)
Inductive resume_point := AtStart | InSchedule | InWait (Object : addr) (OldIrql : Z).

Record KTHREAD := Thread {
  State : THREAD_STATE; Quantum : Z; ThreadProcess : addr; WaitIrql : Z; Priority : Z;
  KernelStack : addr; WaitBlockList : list addr; StackPointer : option resume_point }.

Record KPROCESS := Process { PQuantum : Z; DirectoryTableBase : addr }.

Record sched := Sched {
  cpu : prcb;
  threads : gmap addr KTHREAD;
  processes : gmap addr KPROCESS;
  dobjects : gmap addr DISPATCHER_HEADER;
  blocks : gmap addr KWAIT_BLOCK;
  Scheduler_list : gmap Z (list addr);
  ExitThreadList : list addr;
  CurrentDirectory : addr;
  Esp0 : addr }.

Definition WaitBlock0 (t : addr) : addr := t + 64.
Definition DispatcherDataBaseLock : addr := 2.
Definition ExitThreadLock : addr := 3.
Definition KiSchedulerDPC : addr := 4.

Definition set_State (x : THREAD_STATE) (t : KTHREAD) : KTHREAD :=
  Thread x (Quantum t) (ThreadProcess t) (WaitIrql t) (Priority t) (KernelStack t) (WaitBlockList t) (StackPointer t).
Definition set_Quantum (q : Z) (t : KTHREAD) : KTHREAD :=
  Thread (State t) q (ThreadProcess t) (WaitIrql t) (Priority t) (KernelStack t) (WaitBlockList t) (StackPointer t).
Definition set_WaitIrql (i : Z) (t : KTHREAD) : KTHREAD :=
  Thread (State t) (Quantum t) (ThreadProcess t) i (Priority t) (KernelStack t) (WaitBlockList t) (StackPointer t).
Definition set_WaitBlockList (l : list addr) (t : KTHREAD) : KTHREAD :=
  Thread (State t) (Quantum t) (ThreadProcess t) (WaitIrql t) (Priority t) (KernelStack t) l (StackPointer t).
Definition set_StackPointer (r : option resume_point) (t : KTHREAD) : KTHREAD :=
  Thread (State t) (Quantum t) (ThreadProcess t) (WaitIrql t) (Priority t) (KernelStack t) (WaitBlockList t) r.

Definition set_WaitList (l : list addr) (d : DISPATCHER_HEADER) : DISPATCHER_HEADER :=
  DHeader l (DType d) (SignalState d) (OwnerThread d) (Limit d).
Definition set_Signal (n : Z) (d : DISPATCHER_HEADER) : DISPATCHER_HEADER :=
  DHeader (WaitListHead d) (DType d) n (OwnerThread d) (Limit d).
Definition set_Owner (t : addr) (d : DISPATCHER_HEADER) : DISPATCHER_HEADER :=
  DHeader (WaitListHead d) (DType d) (SignalState d) t (Limit d).

Definition with_cpu (p : prcb) (s : sched) : sched :=
  Sched p (threads s) (processes s) (dobjects s) (blocks s) (Scheduler_list s) (ExitThreadList s) (CurrentDirectory s) (Esp0 s).
Definition with_threads (f : gmap addr KTHREAD) (s : sched) : sched :=
  Sched (cpu s) f (processes s) (dobjects s) (blocks s) (Scheduler_list s) (ExitThreadList s) (CurrentDirectory s) (Esp0 s).
Definition with_dobjects (f : gmap addr DISPATCHER_HEADER) (s : sched) : sched :=
  Sched (cpu s) (threads s) (processes s) f (blocks s) (Scheduler_list s) (ExitThreadList s) (CurrentDirectory s) (Esp0 s).
Definition with_blocks (f : gmap addr KWAIT_BLOCK) (s : sched) : sched :=
  Sched (cpu s) (threads s) (processes s) (dobjects s) f (Scheduler_list s) (ExitThreadList s) (CurrentDirectory s) (Esp0 s).
Definition with_lists (f : gmap Z (list addr)) (s : sched) : sched :=
  Sched (cpu s) (threads s) (processes s) (dobjects s) (blocks s) f (ExitThreadList s) (CurrentDirectory s) (Esp0 s).
Definition with_exit (l : list addr) (s : sched) : sched :=
  Sched (cpu s) (threads s) (processes s) (dobjects s) (blocks s) (Scheduler_list s) l (CurrentDirectory s) (Esp0 s).
Definition with_space (d e : addr) (s : sched) : sched :=
  Sched (cpu s) (threads s) (processes s) (dobjects s) (blocks s) (Scheduler_list s) (ExitThreadList s) d e.

Definition in_cpu {A} (m : M prcb A) : M sched A := zoom cpu with_cpu m.

Definition thread (t : addr) : M sched KTHREAD := deref (λ s, threads s !! t).
Definition put_thread (t : addr) (x : KTHREAD) : M sched unit :=
  modify (λ s, with_threads (<[t := x]> (threads s)) s).
Definition dobject (o : addr) : M sched DISPATCHER_HEADER := deref (λ s, dobjects s !! o).
Definition put_dobject (o : addr) (d : DISPATCHER_HEADER) : M sched unit :=
  modify (λ s, with_dobjects (<[o := d]> (dobjects s)) s).

(** processor.c *)
Definition KiGetCurrentSchedulerList (Priority : Z) : M sched (list addr) :=
  deref (λ s, Scheduler_list s !! Priority).
Definition put_list (Priority : Z) (l : list addr) : M sched unit :=
  modify (λ s, with_lists (<[Priority := l]> (Scheduler_list s)) s).

Definition KeGetCurrentProcess : M sched addr :=
  let! c := in_cpu KeGetCurrentThread in
  if c =? NULL then ret NULL else let! x := thread c in ret (ThreadProcess x).

(** ** Operations *)

Section sched.
Context (run_dpc : addr → M prcb unit).

Definition KiLockDispatcherDataBase : M sched Z := in_cpu (KeAcquireSpinLock DispatcherDataBaseLock).
Definition KiUnLockDispatcherDataBase (OldIrql : Z) : M sched unit :=
  in_cpu (KeReleaseSpinLock run_dpc true 2 DispatcherDataBaseLock OldIrql).
Definition KiLockDispatcherDataBaseAtDpcLevel : M sched unit :=
  in_cpu (KeAcquireSpinLockAtDpcLevel DispatcherDataBaseLock).
Definition KiUnLockDispatcherDataBaseFromDpcLevel : M sched unit :=
  in_cpu (KeReleaseSpinLockFromDpcLevel DispatcherDataBaseLock).
Definition KiQueryDispatcherDatabase : M sched (Z * addr) :=
  in_cpu (KeQuerySpinLock DispatcherDataBaseLock).

Definition assert_dispatch : M sched unit :=
  let! i := in_cpu KeGetCurrentIrql in assert_ (i =? DISPATCH_LEVEL).

(** The DEBUG block most routines start with: DISPATCH_LEVEL, and the dispatcher
    database locked by the current thread. *)
Definition assert_locked : M sched unit :=
  assert_dispatch >>>
  let! (Result, Owner) := KiQueryDispatcherDatabase in
  assert_ (Result =? 1) >>>
  let! c := in_cpu KeGetCurrentThread in
  assert_ (Owner =? c).

(** *** scheduler.c *)

(** The do loop, from [Priority] down; NULL when it gets below [Cur]. *)
Fixpoint select_loop (n : nat) (Priority Cur : Z) : M sched addr :=
  match n with
  | O => halt NoFuel
  | S n' =>
      if Priority <? Cur then ret NULL
      else
        let! l := KiGetCurrentSchedulerList Priority in
        match l with
        | [] => select_loop n' (Priority - 1) Cur
        | t :: l' => put_list Priority l' >>> assert_ (negb (t =? NULL)) >>> ret t
        end
  end.

Definition KiSelectNextThread (CurrentPriority : Z) : M sched addr :=
  assert_dispatch >>>
  assert_ (CurrentPriority <=? PROCESS_PRIORITY_MAX) >>>
  assert_ (PROCESS_PRIORITY_IDLE <=? CurrentPriority) >>>
  select_loop 8 PROCESS_PRIORITY_MAX CurrentPriority.

Definition KiReadyThread (t : addr) : M sched unit :=
  assert_locked >>>
  let! x := thread t in
  if negb (bool_decide (State x = THREAD_STATE_INITIALIZED)) &&
     negb (bool_decide (State x = THREAD_STATE_WAITING)) &&
     negb (bool_decide (State x = THREAD_STATE_RUNNING)) then halt BugCheck
  else
    let! p := deref (λ s, processes s !! ThreadProcess x) in
    put_thread t (set_Quantum (PQuantum p) (set_State THREAD_STATE_READY x)) >>>
    let! l := KiGetCurrentSchedulerList (Priority x) in
    put_list (Priority x) (l ++ [t]).

(** The guard is true of every state. *)
Definition KiStandbyThread (t : addr) : M sched unit :=
  assert_locked >>>
  let! x := thread t in
  if negb (bool_decide (State x = THREAD_STATE_READY)) ||
     negb (bool_decide (State x = THREAD_STATE_TERMINATED)) then halt BugCheck
  else
    when (negb (bool_decide (State x = THREAD_STATE_TERMINATED)))
      (put_thread t (set_State THREAD_STATE_STANDBY x)) >>>
    let! l := KiGetCurrentSchedulerList (Priority x) in
    put_list (Priority x) (filter (λ y, y ≠ t) l).

Definition KiAttachProcess (p : addr) : M sched unit :=
  assert_dispatch >>>
  assert_ (negb (p =? NULL)) >>>
  let! x := deref (λ s, processes s !! p) in
  modify (λ s, with_space (DirectoryTableBase x) (Esp0 s) s).

Definition KeStackAttachProcess (p : addr) : M sched unit :=
  let! c := KeGetCurrentProcess in
  assert_ (negb (c =? p)) >>>
  assert_dispatch >>>
  KiAttachProcess p.

Definition KeUnstackDetachProcess : M sched unit :=
  assert_dispatch >>>
  let! c := in_cpu KeGetCurrentThread in
  assert_ (negb (c =? NULL)) >>>
  let! x := thread c in KiAttachProcess (ThreadProcess x).

(** The switch: the current thread is left at [point]. *)
Definition KiSwapThread (cur next : addr) (point : resume_point) : M sched unit :=
  assert_locked >>>
  let! c := in_cpu KeGetCurrentThread in
  assert_ (c =? cur) >>>
  assert_ (negb (cur =? NULL)) >>>
  let! x := thread cur in
  assert_ (bool_decide (State x = THREAD_STATE_READY) || bool_decide (State x = THREAD_STATE_TERMINATED)
           || bool_decide (State x = THREAD_STATE_WAITING)) >>>
  let! y := thread next in
  assert_ (bool_decide (State y = THREAD_STATE_READY)) >>>
  put_thread next (set_State THREAD_STATE_RUNNING y) >>>
  in_cpu (KiSetCurrentThread next) >>>
  KiAttachProcess (ThreadProcess y) >>>
  modify (λ s, with_space (CurrentDirectory s) (KernelStack y + THREAD_STACK_SIZE * PGSIZE) s) >>>
  let! x := thread cur in
  put_thread cur (set_StackPointer (Some point) x).

(** Ends with the switch. *)
Definition KiBlockThread (point : resume_point) : M sched unit :=
  assert_locked >>>
  let! c := in_cpu KeGetCurrentThread in
  let! x := thread c in
  assert_ (bool_decide (State x = THREAD_STATE_RUNNING)) >>>
  put_thread c (set_State THREAD_STATE_WAITING x) >>>
  let! next := KiSelectNextThread PROCESS_PRIORITY_IDLE in
  assert_ (negb (next =? NULL)) >>>
  KiSwapThread c next point.

(** *** wait.c: dispatcher headers *)

Definition KeInitDispatcherHeader (o : addr) (Type_ : KOBJECTS) (Signal : Z) : M sched unit :=
  let! d := dobject o in
  put_dobject o (DHeader [] Type_ (s32 Signal) (OwnerThread d) (Limit d)).

Definition KiInitWaitBlock (b o : addr) : M sched unit :=
  let! c := in_cpu KeGetCurrentThread in
  modify (λ s, with_blocks (<[b := WaitBlk c o WAIT_TYPE_ANY]> (blocks s)) s).

(** True when the thread was blocked and the processor switched.  The test of
    the object's kind before the decrement is the constant true. *)
Definition KiDHeaderAcquire (o : addr) (OldIrql : Z) : M sched bool :=
  assert_dispatch >>>
  let! d := dobject o in
  if SignalState d =? 0 then
    let! c := in_cpu KeGetCurrentThread in
    KiInitWaitBlock (WaitBlock0 c) o >>>
    put_dobject o (set_WaitList (WaitListHead d ++ [WaitBlock0 c]) d) >>>
    KiBlockThread (InWait o OldIrql) >>>
    ret true
  else
    assert_ (0 <? SignalState d) >>>
    put_dobject o (set_Signal (snd (InterlockedDecrement (SignalState d))) d) >>>
    ret false.

Definition KiDHeaderTryAcquire (o : addr) : M sched bool :=
  assert_dispatch >>>
  let! d := dobject o in
  if 0 <? SignalState d then
    put_dobject o (set_Signal (snd (InterlockedDecrement (SignalState d))) d) >>> ret true
  else ret false.

(** The waiter at the head of the list.  With a thread that waits for several
    objects the code goes on removing the block it has already removed: a
    fault here. *)
Definition release_head (o b : addr) : M sched unit :=
  let! w := deref (λ s, blocks s !! b) in
  assert_ (wb_Object w =? o) >>>
  let! x := thread (wb_Thread w) in
  match WaitBlockList x with
  | [] => KiReadyThread (wb_Thread w)
  | l =>
      put_thread (wb_Thread w) (set_WaitBlockList (filter (λ y, y ≠ b) l) x) >>>
      match wb_Type w with
      | WAIT_TYPE_ANY => if decide (filter (λ y, y ≠ b) l = []) then ret tt else halt Fault
      | WAIT_TYPE_ALL => ret tt
      end
  end.

Definition assert_releasable (d : DISPATCHER_HEADER) : M sched unit :=
  assert_ (SignalState d <? MAX_DISPATCH_SIGNAL_STATE) >>>
  assert_ ((SignalState d =? 0) || bool_decide (WaitListHead d = [])).

Definition KiDHeaderRelease (o : addr) : M sched unit :=
  assert_dispatch >>>
  let! d := dobject o in
  assert_releasable d >>>
  match WaitListHead d with
  | b :: l => put_dobject o (set_WaitList l d) >>> release_head o b
  | [] => put_dobject o (set_Signal (snd (InterlockedIncrement (SignalState d))) d)
  end.

(** With several objects to wait for and any of them enough, this loop readies
    the thread, which [release_head] does not. *)
Fixpoint release_all_loop (n : nat) (o : addr) : M sched unit :=
  let! d := dobject o in
  match WaitListHead d with
  | [] => ret tt
  | b :: l =>
      match n with
      | O => halt NoFuel
      | S n' =>
          put_dobject o (set_WaitList l d) >>>
          let! w := deref (λ s, blocks s !! b) in
          let! x := thread (wb_Thread w) in
          release_head o b >>>
          (match WaitBlockList x, wb_Type w with
           | _ :: _, WAIT_TYPE_ANY => KiReadyThread (wb_Thread w)
           | _, _ => ret tt
           end) >>>
          release_all_loop n' o
      end
  end.

Definition KiDHeaderReleaseAll (fuel : nat) (o : addr) : M sched unit :=
  assert_dispatch >>>
  let! d := dobject o in
  assert_releasable d >>>
  release_all_loop fuel o >>>
  let! d := dobject o in put_dobject o (set_Signal 1 d).

Definition KeReleaseNotificationDHeader (fuel : nat) (o : addr) : M sched Z :=
  let! OldIrql := KiLockDispatcherDataBase in
  KiDHeaderReleaseAll fuel o >>>
  KiUnLockDispatcherDataBase OldIrql >>>
  ret 0.

(** *** Going on after a switch

    A terminated thread is dereferenced, which takes the object manager: these
    routines run on a state [T] of which the scheduler's is a part. *)

Section switch.
Context {T : Type} (in_s : ∀ A, M sched A → M T A) (dereference : addr → M T unit).
Local Notation "'here' m" := (in_s _ m) (at level 10).

(** The end of KeWaitForSingleObject, for an object that was acquired. *)
Definition after_wait (o OldIrql : Z) : M sched unit :=
  let! d := dobject o in
  when (bool_decide (DType d = MutantObject))
    (let! c := in_cpu KeGetCurrentThread in put_dobject o (set_Owner c d)) >>>
  KiUnLockDispatcherDataBase OldIrql.

(** PsExitThread; [reschedule] is the Schedule it ends with when a thread
    terminates itself.  A thread object is its own dispatcher object. *)
Definition PsExitThread (reschedule : M T unit) (fuel : nat) (t : addr) : M T unit :=
  let! c := here (in_cpu KeGetCurrentThread) in
  let t := if t =? NULL then c else t in
  if t =? c then
    let! x := here (thread t) in
    here (assert_ (bool_decide (State x = THREAD_STATE_RUNNING))) >>>
    here (put_thread t (set_State THREAD_STATE_TERMINATED x)) >>>
    (let! _ := here (KeReleaseNotificationDHeader fuel t) in reschedule)
  else
    let! x := here (thread t) in
    here (assert_ (negb (bool_decide (State x = THREAD_STATE_RUNNING)))) >>>
    here (when (bool_decide (State x = THREAD_STATE_READY)) (KiStandbyThread t)) >>>
    let! x := here (thread t) in
    here (when (negb (bool_decide (State x = THREAD_STATE_TERMINATED)))
      (put_thread t (set_State THREAD_STATE_TERMINATED x) >>>
       let! _ := KeReleaseNotificationDHeader fuel t in ret tt)) >>>
    dereference t.

(** The terminated threads are cleaned up with their list locked. *)
Fixpoint clean_loop (n : nat) (exit_thread : addr → M T unit) : M T unit :=
  let! l := here (gets ExitThreadList) in
  match l with
  | [] => ret tt
  | t :: l' =>
      match n with
      | O => halt NoFuel
      | S n' => here (modify (with_exit l')) >>> exit_thread t >>> clean_loop n' exit_thread
      end
  end.

(** The end of Schedule, run by the thread that goes on there. *)
Definition after_schedule (fuel : nat) (exit_thread : addr → M T unit) : M T unit :=
  let! c := here (in_cpu KeGetCurrentThread) in
  let! x := here (thread c) in
  here (assert_ (WaitIrql x <=? DISPATCH_LEVEL)) >>>
  here (KiUnLockDispatcherDataBase (WaitIrql x)) >>>
  let! OldIrql := here (in_cpu (KeAcquireSpinLock ExitThreadLock)) in
  clean_loop fuel exit_thread >>>
  here (in_cpu (KeReleaseSpinLock run_dpc false 2 ExitThreadLock OldIrql)).

(** KiStartThread up to the call of the start routine. *)
Definition KiStartThread : M sched unit :=
  assert_dispatch >>>
  let! (Result, _) := KiQueryDispatcherDatabase in
  assert_ (Result =? 1) >>>
  KiUnLockDispatcherDataBase PASSIVE_LEVEL.

Definition resume (fuel : nat) (exit_thread : addr → M T unit) : M T unit :=
  let! c := here (in_cpu KeGetCurrentThread) in
  let! x := here (thread c) in
  match StackPointer x with
  | Some AtStart => here KiStartThread
  | Some InSchedule => after_schedule fuel exit_thread
  | Some (InWait o OldIrql) => here (after_wait o OldIrql)
  | None => halt Fault
  end.

(** The fuel bounds the nesting of terminations. *)
Fixpoint Schedule (fuel : nat) : M T unit :=
  match fuel with
  | O => halt NoFuel
  | S f =>
      let exit_thread := PsExitThread (Schedule f) f in
      let! OldIrql := here KiLockDispatcherDataBase in
      let! c := here (in_cpu KeGetCurrentThread) in
      let! x := here (thread c) in
      here (put_thread c (set_WaitIrql OldIrql x)) >>>
      if bool_decide (State x = THREAD_STATE_TERMINATED) then
        let! next := here (KiSelectNextThread PROCESS_PRIORITY_IDLE) in
        here (assert_ (negb (next =? NULL))) >>>
        here (assert_ (negb (c =? next))) >>>
        here (in_cpu (KeAcquireSpinLockAtDpcLevel ExitThreadLock)) >>>
        here (modify (λ s, with_exit (ExitThreadList s ++ [c]) s)) >>>
        here (in_cpu (KeReleaseSpinLockFromDpcLevel ExitThreadLock)) >>>
        here (KiSwapThread c next InSchedule) >>>
        resume f exit_thread
      else
        let! next := here (KiSelectNextThread (Priority x)) in
        here (assert_ (negb (c =? next))) >>>
        if next =? NULL then after_schedule f exit_thread
        else
          here (KiReadyThread c) >>>
          here (KiSwapThread c next InSchedule) >>>
          resume f exit_thread
  end.

(** The wait; when it blocks, the next thread goes on where it was. *)
Definition KeWaitForSingleObject (fuel : nat) (o : addr) : M T unit :=
  let! i := here (in_cpu KeGetCurrentIrql) in
  here (assert_ (i <=? APC_LEVEL)) >>>
  let! OldIrql := here KiLockDispatcherDataBase in
  let! d := here (dobject o) in
  let! c := here (in_cpu KeGetCurrentThread) in
  here (match DType d with
  | MutantObject =>
      assert_ (negb (OwnerThread d =? c)) >>>
      assert_ (negb (SignalState d =? 0))
  | OtherObject => halt BugCheck
  | _ => ret tt
  end) >>>
  let! blocked := here (KiDHeaderAcquire o OldIrql) in
  if (blocked : bool) then resume fuel (PsExitThread (Schedule fuel) fuel)
  else here (after_wait o OldIrql).
End switch.

(** KeInitializeSpinLock leaves the lock as it is (it clears its parameter). *)
Definition KiSchedInitPhase (Schedule_ : Z) : M sched unit :=
  in_cpu (KeInitializeDpc KiSchedulerDPC Schedule_ NULL) >>>
  in_cpu (KeSetTargetProcessorDpc KiSchedulerDPC 0) >>>
  modify (with_exit []).

(** The timer interrupt, at CLOCK1_LEVEL. *)
Definition KiThreadTimerISR : M sched unit :=
  let! i := in_cpu KeGetCurrentIrql in
  assert_ (i =? CLOCK1_LEVEL) >>>
  let! c := in_cpu KeGetCurrentThread in
  let! x := thread c in
  let q := s32 (Quantum x - 1) in
  put_thread c (set_Quantum q x) >>>
  if q <=? 0 then let! _ := in_cpu (KeInsertQueueDpc run_dpc 2 KiSchedulerDPC NULL NULL) in ret tt
  else ret tt.

Definition TimerISRoutine : M sched unit :=
  in_cpu KiIncrementCurrentTimerTicks >>> KiThreadTimerISR.

(** *** wait.c: mutants, semaphores, events *)

Definition KeInitializeMutant (o : addr) (InitialOwner : bool) : M sched unit :=
  if negb InitialOwner then
    KeInitDispatcherHeader o MutantObject 1 >>>
    let! d := dobject o in put_dobject o (set_Owner NULL d)
  else
    KeInitDispatcherHeader o MutantObject 0 >>>
    let! c := in_cpu KeGetCurrentThread in
    let! d := dobject o in put_dobject o (set_Owner c d).

Definition KeReleaseMutant (o : addr) : M sched Z :=
  let! d := dobject o in
  let! c := in_cpu KeGetCurrentThread in
  assert_ (OwnerThread d =? c) >>>
  put_dobject o (set_Owner NULL d) >>>
  let! OldIrql := KiLockDispatcherDataBase in
  KiDHeaderRelease o >>>
  KiUnLockDispatcherDataBase OldIrql >>>
  ret 0.

Definition KeInitializeSemaphore (o Count Lim : Z) : M sched unit :=
  assert_ (Count <=? Lim) >>>
  KeInitDispatcherHeader o SemaphoreObject Count >>>
  let! d := dobject o in
  put_dobject o (DHeader (WaitListHead d) (DType d) (SignalState d) (OwnerThread d) Lim).

Definition KeReleaseSemaphore (o Increment Adjustment : Z) : M sched Z :=
  let! d := dobject o in
  assert_ (SignalState d <? Limit d) >>>
  assert_ (Increment =? 0) >>>
  assert_ (Adjustment =? 1) >>>
  let OldState := SignalState d in
  let! OldIrql := KiLockDispatcherDataBase in
  KiDHeaderRelease o >>>
  KiUnLockDispatcherDataBase OldIrql >>>
  ret OldState.

Definition KeInitializeEvent (o : addr) (notification : bool) (Signaled : bool) : M sched unit :=
  let! d := dobject o in
  put_dobject o (DHeader [] (if notification then EventNotificationObject else EventSynchronizationObject)
    (if Signaled then 1 else 0) (OwnerThread d) (Limit d)).

Definition assert_event (d : DISPATCHER_HEADER) : M sched unit :=
  assert_ (bool_decide (DType d = EventNotificationObject) || bool_decide (DType d = EventSynchronizationObject)).

Definition KeClearEvent (o : addr) : M sched unit :=
  let! d := dobject o in assert_event d >>> put_dobject o (set_Signal 0 d).

Definition KeResetEvent (o : addr) : M sched Z :=
  let! d := dobject o in
  assert_event d >>>
  let '(old, new) := InterlockedExchange (SignalState d) 0 in
  put_dobject o (set_Signal new d) >>> ret old.

Definition KeSetEvent (fuel : nat) (o : addr) : M sched Z :=
  let! d := dobject o in
  assert_event d >>>
  let! OldIrql := KiLockDispatcherDataBase in
  (if decide (DType d = EventNotificationObject) then KiDHeaderReleaseAll fuel o else KiDHeaderRelease o) >>>
  let! d := dobject o in
  let '(old, new) := InterlockedExchange (SignalState d) 0 in
  put_dobject o (set_Signal new d) >>>
  KiUnLockDispatcherDataBase OldIrql >>>
  ret old.

End sched.

(** On the scheduler alone. *)
Local Notation here := (λ (A : Type) (m : M sched A), m).

(** ** The consistency of queues and thread states *)

(** A state a release does not overflow. *)
Definition is_signal (n : Z) : Prop := 0 <= n < 2 ^ 31.

(** Every ready thread is in one list, that of its priority (or of a higher
    one: the idle thread gets its priority when it is already ready), every
    waiting thread in the list of the object it waits for, and these lists hold
    nothing else; the threads of [pend] are on their way from one to another
    and are in none. *)
Record queues (pend : gset addr) (s : sched) : Prop := {
  q_list p l : Scheduler_list s !! p = Some l →
    NoDup l ∧ ∀ t, t ∈ l → t ∉ pend ∧ ∃ x, threads s !! t = Some x ∧
      State x = THREAD_STATE_READY ∧ Priority x <= p;
  q_one p l p' l' t : Scheduler_list s !! p = Some l → Scheduler_list s !! p' = Some l' →
    t ∈ l → t ∈ l' → p = p';
  q_lists p : 1 <= p <= 6 → is_Some (Scheduler_list s !! p);
  q_ready t x : threads s !! t = Some x → State x = THREAD_STATE_READY → t ∉ pend →
    ∃ p l, 1 <= p <= 6 ∧ Scheduler_list s !! p = Some l ∧ t ∈ l;
  q_object o d : dobjects s !! o = Some d →
    NoDup (WaitListHead d) ∧ is_signal (SignalState d) ∧ (SignalState d = 0 ∨ WaitListHead d = []) ∧
    ∀ b, b ∈ WaitListHead d → ∃ t x, b = WaitBlock0 t ∧ t ∉ pend ∧ threads s !! t = Some x ∧
      State x = THREAD_STATE_WAITING ∧ blocks s !! b = Some (WaitBlk t o WAIT_TYPE_ANY);
  q_waiting t x : threads s !! t = Some x → State x = THREAD_STATE_WAITING → t ∉ pend →
    ∃ o d, dobjects s !! o = Some d ∧ WaitBlock0 t ∈ WaitListHead d;
  q_thread t x : threads s !! t = Some x →
    t ≠ NULL ∧ 1 <= Priority x <= 6 ∧ is_Some (processes s !! ThreadProcess x) ∧
    ThreadProcess x ≠ NULL ∧ WaitBlockList x = [] ∧
    (State x = THREAD_STATE_READY ∨ State x = THREAD_STATE_RUNNING ∨ State x = THREAD_STATE_WAITING) }.

(** What a thread that does not run will find when it goes on. *)
Definition saved_ok (s : sched) (x : KTHREAD) : Prop :=
  match StackPointer x with
  | Some AtStart => True
  | Some InSchedule => 0 <= WaitIrql x <= DISPATCH_LEVEL
  | Some (InWait o i) => 0 <= i <= APC_LEVEL ∧ is_Some (dobjects s !! o)
  | None => False
  end.

(** The processor: current thread, level, dispatcher lock; nothing else is
    locked and no deferred call is pending. *)
Record cpu_is (c : addr) (i : Z) (k : KSPIN_LOCK) (p : prcb) : Prop := {
  cpu_thread : CurrentThread p = c;
  cpu_irql : CurrentIrql p = i;
  cpu_lock : spinlocks p !! DispatcherDataBaseLock = Some k;
  cpu_exit : lock_free ExitThreadLock p;
  cpu_dpc : DpcListHead p = [] }.

Definition unlocked : KSPIN_LOCK := SpinLk 0 NULL 0.

(** The threads: [c] runs, the others can go on, [idle] never waits. *)
Record threads_ok (idle c : addr) (s : sched) : Prop := {
  t_running t x : threads s !! t = Some x → (State x = THREAD_STATE_RUNNING ↔ t = c);
  t_current : is_Some (threads s !! c);
  t_saved t x : threads s !! t = Some x → t ≠ c → saved_ok s x;
  t_idle : ∃ x, threads s !! idle = Some x ∧ State x ≠ THREAD_STATE_WAITING;
  t_exit : ExitThreadList s = [] }.

(** Between two operations. *)
Record consistent (idle : addr) (s : sched) : Prop := {
  s_cpu : cpu_is (CurrentThread (cpu s)) (CurrentIrql (cpu s)) unlocked (cpu s);
  s_irql : 0 <= CurrentIrql (cpu s) <= DISPATCH_LEVEL;
  s_queues : queues ∅ s;
  s_threads : threads_ok idle (CurrentThread (cpu s)) s }.

(** ** Moving a thread between queues *)

Lemma WaitBlock0_inj t t' : WaitBlock0 t = WaitBlock0 t' → t = t'.
Proof. unfold WaitBlock0. lia. Qed.

Lemma queues_cpu P p s : queues P s → queues P (with_cpu p s).
Proof. intros []. by constructor. Qed.

Lemma queues_space P d e s : queues P s → queues P (with_space d e s).
Proof. intros []. by constructor. Qed.

(** A running thread is in no queue. *)
Lemma queues_leave P t x s :
  queues P s → threads s !! t = Some x → State x = THREAD_STATE_RUNNING → queues ({[t]} ∪ P) s.
Proof.
  intros [Hl H1l Hls Hr Ho Hw Ht] Hx HR. constructor; try done.
  - intros p l Hp. destruct (Hl p l Hp) as [Hn He]. split; [done|]. intros t' Ht'.
    destruct (He t' Ht') as (Hnp & y & Hy & Hs & Hpr). split; [|eauto].
    intros [->%elem_of_singleton|]%elem_of_union; [|done]. congruence.
  - intros t' y Hy Hs Hn. apply (Hr t' y); [done..|set_solver].
  - intros o d Hd. destruct (Ho o d Hd) as (H1 & H2 & H3 & H4). split_and!; try done.
    intros b Hb. destruct (H4 b Hb) as (t' & y & -> & Hnp & Hy & Hs & Hbl).
    exists t', y. split_and!; try done.
    intros [->%elem_of_singleton|]%elem_of_union; [|done]. congruence.
  - intros t' y Hy Hs Hn. apply (Hw t' y); [done..|set_solver].
Qed.

Lemma queues_settle P t x s :
  queues ({[t]} ∪ P) s → threads s !! t = Some x → State x = THREAD_STATE_RUNNING → queues P s.
Proof.
  intros [Hl H1l Hls Hr Ho Hw Ht] Hx HR. constructor; try done.
  - intros p l Hp. destruct (Hl p l Hp) as [Hn He]. split; [done|]. intros t' Ht'.
    destruct (He t' Ht') as (Hnp & ?). split; [set_solver|done].
  - intros t' y Hy Hs Hn. apply (Hr t' y); [done..|].
    intros [->%elem_of_singleton|]%elem_of_union; [congruence|done].
  - intros o d Hd. destruct (Ho o d Hd) as (H1 & H2 & H3 & H4). split_and!; try done.
    intros b Hb. destruct (H4 b Hb) as (t' & y & -> & Hnp & ?). exists t', y.
    split_and!; [done|set_solver|naive_solver..].
  - intros t' y Hy Hs Hn. apply (Hw t' y); [done..|].
    intros [->%elem_of_singleton|]%elem_of_union; [congruence|done].
Qed.

(** A thread in no queue changes its state. *)
Lemma queues_put P t x y s :
  queues P s → t ∈ P → threads s !! t = Some x →
  Priority y = Priority x → ThreadProcess y = ThreadProcess x → WaitBlockList y = WaitBlockList x →
  (State y = THREAD_STATE_READY ∨ State y = THREAD_STATE_RUNNING ∨ State y = THREAD_STATE_WAITING) →
  queues P (with_threads (<[t := y]> (threads s)) s).
Proof.
  intros [Hl H1l Hls Hr Ho Hw Ht] HP Hx Hy1 Hy2 Hy3 Hy4.
  constructor; try done; simpl.
  - intros p l Hp. destruct (Hl p l Hp) as [Hn He]. split; [done|]. intros t' Ht'.
    destruct (He t' Ht') as (Hnp & ?). split; [done|]. by rewrite lookup_insert_ne by set_solver.
  - intros t' z Hz Hs Hn. rewrite lookup_insert_ne in Hz by set_solver. by apply (Hr t' z).
  - intros o d Hd. destruct (Ho o d Hd) as (H1 & H2 & H3 & H4). split_and!; try done.
    intros b Hb. destruct (H4 b Hb) as (t' & z & -> & Hnp & ?). exists t', z.
    by rewrite lookup_insert_ne by set_solver.
  - intros t' z Hz Hs Hn. rewrite lookup_insert_ne in Hz by set_solver. by apply (Hw t' z).
  - intros t' z. destruct (decide (t' = t)) as [->|Hne].
    + rewrite lookup_insert_eq. intros [= <-]. rewrite Hy1, Hy2, Hy3.
      destruct (Ht t x Hx) as (? & ? & ? & ? & ? & _). done.
    + rewrite lookup_insert_ne by done. apply Ht.
Qed.

Lemma queues_block P t b s :
  queues P s → t ∈ P → queues P (with_blocks (<[WaitBlock0 t := b]> (blocks s)) s).
Proof.
  intros [Hl H1l Hls Hr Ho Hw Ht] HP. constructor; try done; simpl.
  intros o d Hd. destruct (Ho o d Hd) as (H1 & H2 & H3 & H4). split_and!; try done.
  intros b' Hb'. destruct (H4 b' Hb') as (t' & z & -> & Hnp & ?). exists t', z.
  rewrite lookup_insert_ne; [done|]. intros He%WaitBlock0_inj. set_solver.
Qed.

(** The queues depend on the state, the priority and the process of a thread. *)
Lemma queues_same P t x y s :
  queues P s → threads s !! t = Some x → State y = State x → Priority y = Priority x →
  ThreadProcess y = ThreadProcess x → WaitBlockList y = WaitBlockList x →
  queues P (with_threads (<[t := y]> (threads s)) s).
Proof.
  intros [Hl H1l Hls Hr Ho Hw Ht] Hx Hy0 Hy1 Hy2 Hy3.
  assert (∀ t' z', <[t := y]> (threads s) !! t' = Some z' → ∃ z, threads s !! t' = Some z ∧
    State z' = State z ∧ Priority z' = Priority z ∧ ThreadProcess z' = ThreadProcess z ∧
    WaitBlockList z' = WaitBlockList z) as Hback.
  { intros t' z'. destruct (decide (t' = t)) as [->|Hne].
    - rewrite lookup_insert_eq. intros [= <-]. eauto 6.
    - rewrite lookup_insert_ne by done. eauto 6. }
  assert (∀ t' z, threads s !! t' = Some z → ∃ z', <[t := y]> (threads s) !! t' = Some z' ∧
    State z' = State z ∧ Priority z' = Priority z) as Hforth.
  { intros t' z Hz. destruct (decide (t' = t)) as [->|Hne].
    - rewrite lookup_insert_eq. exists y. by replace z with x by congruence.
    - rewrite lookup_insert_ne by done. eauto. }
  constructor; try done; simpl.
  - intros p l Hp. destruct (Hl p l Hp) as [Hn He]. split; [done|]. intros t' Ht'.
    destruct (He t' Ht') as (Hnp & z & Hz & Hs & Hpr). split; [done|].
    destruct (Hforth t' z Hz) as (z' & Hz' & ? & ?). exists z'. split_and!; congruence.
  - intros t' z' Hz' Hs Hn. destruct (Hback t' z' Hz') as (z & Hz & Es & Ep & _).
    apply (Hr t' z); congruence.
  - intros o d Hd. destruct (Ho o d Hd) as (H1 & H2 & H3 & H4). split_and!; try done.
    intros b Hb. destruct (H4 b Hb) as (t' & z & -> & Hnp & Hz & Hs & ?).
    destruct (Hforth t' z Hz) as (z' & Hz' & ? & ?). exists t', z'. split_and!; congruence.
  - intros t' z' Hz' Hs Hn. destruct (Hback t' z' Hz') as (z & Hz & Es & _).
    apply (Hw t' z); congruence.
  - intros t' z' Hz'. destruct (Hback t' z' Hz') as (z & Hz & Es & Ep & Eq & Eb).
    rewrite Es, Ep, Eq, Eb. by apply Ht.
Qed.

(** Taking a thread from a ready queue, putting it at the end of one. *)
Lemma queues_pop_ready P p t l s :
  queues P s → Scheduler_list s !! p = Some (t :: l) →
  queues ({[t]} ∪ P) (with_lists (<[p := l]> (Scheduler_list s)) s).
Proof.
  intros [Hl H1l Hls Hr Ho Hw Ht] Hp.
  destruct (Hl p _ Hp) as [Hn He]. apply NoDup_cons in Hn as [Htl Hn].
  destruct (He t ltac:(left)) as (HtP & x & Hx & Hxs & Hxp).
  constructor; try done; simpl.
  - intros p' l'. destruct (decide (p' = p)) as [->|Hne].
    + rewrite lookup_insert_eq. intros [= <-]. split; [done|]. intros t' Ht'.
      destruct (He t' ltac:(by right)) as (Hnp & ?). split; [set_solver|done].
    + rewrite lookup_insert_ne by done. intros Hp'. destruct (Hl p' l' Hp') as [Hn' He'].
      split; [done|]. intros t' Ht'. destruct (He' t' Ht') as (Hnp & z & Hz & Hzs & Hzp).
      split; [|eauto]. intros [->%elem_of_singleton|]%elem_of_union; [|done].
      destruct Hne. apply (H1l p' l' p (t :: l) t); auto. by left.
  - intros p1 k1 p2 k2 u. intros H1 H2 Hu1 Hu2.
    assert (∀ q k, <[p := l]> (Scheduler_list s) !! q = Some k → u ∈ k →
      ∃ k', Scheduler_list s !! q = Some k' ∧ u ∈ k') as Hback.
    { intros q k. destruct (decide (q = p)) as [->|Hne].
      - rewrite lookup_insert_eq. intros [= <-] ?. eexists. split; [done|by right].
      - rewrite lookup_insert_ne by done. eauto. }
    destruct (Hback p1 k1 H1 Hu1) as (k1' & ? & ?), (Hback p2 k2 H2 Hu2) as (k2' & ? & ?).
    by apply (H1l p1 k1' p2 k2' u).
  - intros p' Hp'. destruct (decide (p' = p)) as [->|Hne].
    + rewrite lookup_insert_eq. eauto.
    + rewrite lookup_insert_ne by done. by apply Hls.
  - intros t' z Hz Hzs Hn'. destruct (Hr t' z Hz Hzs ltac:(set_solver)) as (q & l' & Hq & Hl' & Hin).
    exists q. destruct (decide (q = p)) as [->|Hne].
    + rewrite lookup_insert_eq. exists l. split; [done|]. split; [done|].
      rewrite Hp in Hl'. injection Hl' as <-. apply elem_of_cons in Hin as [->|]; [set_solver|done].
    + rewrite lookup_insert_ne by done. eauto.
  - intros o d Hd. destruct (Ho o d Hd) as (H1 & H2 & H3 & H4). split_and!; try done.
    intros b Hb. destruct (H4 b Hb) as (t' & z & -> & Hnp & Hz & Hzs & ?).
    exists t', z. split_and!; try done.
    intros [->%elem_of_singleton|]%elem_of_union; congruence.
  - intros t' z Hz Hs Hn'. apply (Hw t' z); [done..|set_solver].
Qed.

Lemma queues_push_ready P t x l s :
  queues ({[t]} ∪ P) s → t ∉ P → threads s !! t = Some x → State x = THREAD_STATE_READY →
  Scheduler_list s !! Priority x = Some l →
  queues P (with_lists (<[Priority x := l ++ [t]]> (Scheduler_list s)) s).
Proof.
  intros [Hl H1l Hls Hr Ho Hw Ht] HP Hx Hxs Hp.
  constructor; try done; simpl.
  - intros p' l'. destruct (decide (p' = Priority x)) as [->|Hne].
    + rewrite lookup_insert_eq. intros [= <-]. destruct (Hl _ l Hp) as [Hn He]. split.
      * apply NoDup_app. split; [done|]. split; [|apply NoDup_singleton].
        intros t' Ht' ->%list_elem_of_singleton. destruct (He t Ht') as [Hnp _]. set_solver.
      * intros t' [Ht'| ->%list_elem_of_singleton]%elem_of_app; [|split; [done|]; exists x; by rewrite Hxs].
        destruct (He t' Ht') as (Hnp & ?). split; [set_solver|done].
    + rewrite lookup_insert_ne by done. intros Hp'. destruct (Hl p' l' Hp') as [Hn' He'].
      split; [done|]. intros t' Ht'. destruct (He' t' Ht') as (Hnp & ?). split; [set_solver|done].
  - assert (∀ q k, Scheduler_list s !! q = Some k → t ∉ k) as Hno.
    { intros q k Hq Hin. destruct (Hl q k Hq) as [_ He]. destruct (He t Hin) as [Hnp _]. set_solver. }
    intros p1 k1 p2 k2 u H1 H2 Hu1 Hu2.
    assert (∀ q k, <[Priority x := l ++ [t]]> (Scheduler_list s) !! q = Some k → u ∈ k →
      u = t ∧ q = Priority x ∨ u ≠ t ∧ ∃ k', Scheduler_list s !! q = Some k' ∧ u ∈ k') as Hback.
    { intros q k. destruct (decide (q = Priority x)) as [->|Hne].
      - rewrite lookup_insert_eq. intros [= <-] [Hu| ->%list_elem_of_singleton]%elem_of_app; [|by left].
        right. split; [intros ->; by apply (Hno _ _ Hp)|eauto].
      - rewrite lookup_insert_ne by done. intros Hk Hu. right.
        split; [intros ->; by apply (Hno _ _ Hk)|eauto]. }
    destruct (Hback p1 k1 H1 Hu1) as [[E1 F1]|[? (k1' & ? & ?)]],
      (Hback p2 k2 H2 Hu2) as [[E2 F2]|[? (k2' & ? & ?)]]; try congruence.
    by apply (H1l p1 k1' p2 k2' u).
  - intros p' Hp'. destruct (decide (p' = Priority x)) as [->|Hne].
    + rewrite lookup_insert_eq. eauto.
    + rewrite lookup_insert_ne by done. by apply Hls.
  - intros t' z Hz Hzs Hn'. destruct (decide (t' = t)) as [->|Hne].
    { exists (Priority x). rewrite lookup_insert_eq. eexists. split; [by apply (Ht t x)|]. split; [done|].
      apply elem_of_app. right. by left. }
    destruct (Hr t' z Hz Hzs ltac:(set_solver)) as (q & l' & Hq & Hl' & Hin).
    exists q. destruct (decide (q = Priority x)) as [->|Hnp].
    + rewrite lookup_insert_eq. eexists. split; [done|]. split; [done|].
      apply elem_of_app. left. congruence.
    + rewrite lookup_insert_ne by done. eauto.
  - intros o d Hd. destruct (Ho o d Hd) as (H1 & H2 & H3 & H4). split_and!; try done.
    intros b Hb. destruct (H4 b Hb) as (t' & z & -> & Hnp & ?).
    exists t', z. split_and!; [done|set_solver|naive_solver..].
  - intros t' z Hz Hs Hn'. apply (Hw t' z); [done..|].
    intros [->%elem_of_singleton|]%elem_of_union; [congruence|done].
Qed.

(** The same for the threads that wait for an object. *)
Lemma queues_pop_wait P o d b l s :
  queues P s → dobjects s !! o = Some d → WaitListHead d = b :: l →
  ∃ t x, b = WaitBlock0 t ∧ t ∉ P ∧ threads s !! t = Some x ∧ State x = THREAD_STATE_WAITING ∧
    blocks s !! b = Some (WaitBlk t o WAIT_TYPE_ANY) ∧
    queues ({[t]} ∪ P) (with_dobjects (<[o := set_WaitList l d]> (dobjects s)) s).
Proof.
  intros [Hl H1l Hls Hr Ho Hw Ht] Hd Hb. destruct (Ho o d Hd) as (Hn & H0 & H1 & He).
  rewrite Hb in *. apply NoDup_cons in Hn as [Hbl Hn].
  destruct (He b ltac:(left)) as (t & x & -> & HtP & Hx & Hxs & Hblk).
  exists t, x. split_and!; try done. constructor; try done; simpl.
  - intros p' l' Hp'. destruct (Hl p' l' Hp') as [Hn' He'].
    split; [done|]. intros t' Ht'. destruct (He' t' Ht') as (Hnp & z & Hz & Hzs & Hzp).
    split; [|eauto]. intros [->%elem_of_singleton|]%elem_of_union; congruence.
  - intros t' z Hz Hzs Hn'. apply (Hr t' z); [done..|set_solver].
  - intros o' d'. destruct (decide (o' = o)) as [->|Hne].
    + rewrite lookup_insert_eq. intros [= <-]. simpl. destruct H1 as [H1|]; [|done].
      split_and!; [done|done|by left|]. intros b Hbin.
      destruct (He b ltac:(by right)) as (t' & z & -> & Hnp & ?). exists t', z.
      split_and!; [done| |naive_solver..].
      intros [->%elem_of_singleton|]%elem_of_union; done.
    + rewrite lookup_insert_ne by done. intros Hd'.
      destruct (Ho o' d' Hd') as (H2 & H3 & H4 & H5). split_and!; try done.
      intros b Hbin. destruct (H5 b Hbin) as (t' & z & -> & Hnp & Hz & Hzs & Hzb). exists t', z.
      split_and!; try done.
      intros [->%elem_of_singleton|]%elem_of_union; congruence.
  - intros t' z Hz Hs Hn'. destruct (Hw t' z Hz Hs ltac:(set_solver)) as (o' & d' & Hd' & Hin).
    destruct (decide (o' = o)) as [->|Hne].
    + exists o. rewrite lookup_insert_eq. eexists. split; [done|]. simpl.
      replace d' with d in Hin by congruence. rewrite Hb in Hin.
      apply elem_of_cons in Hin as [->%WaitBlock0_inj|]; [set_solver|done].
    + exists o', d'. rewrite lookup_insert_ne by done. done.
Qed.

Lemma queues_push_wait P o d t x s :
  queues ({[t]} ∪ P) s → t ∉ P → threads s !! t = Some x → State x = THREAD_STATE_WAITING →
  dobjects s !! o = Some d → SignalState d = 0 →
  blocks s !! WaitBlock0 t = Some (WaitBlk t o WAIT_TYPE_ANY) →
  queues P (with_dobjects (<[o := set_WaitList (WaitListHead d ++ [WaitBlock0 t]) d]> (dobjects s)) s).
Proof.
  intros [Hl H1l Hls Hr Ho Hw Ht] HP Hx Hxs Hd H0 Hblk.
  constructor; try done; simpl.
  - intros p' l' Hp'. destruct (Hl p' l' Hp') as [Hn' He'].
    split; [done|]. intros t' Ht'. destruct (He' t' Ht') as (Hnp & ?). split; [set_solver|done].
  - intros t' z Hz Hzs Hn'. apply (Hr t' z); [done..|].
    intros [->%elem_of_singleton|]%elem_of_union; congruence.
  - intros o' d'. destruct (decide (o' = o)) as [->|Hne].
    + rewrite lookup_insert_eq. intros [= <-]. simpl. destruct (Ho o d Hd) as (Hn & _ & _ & He).
      split_and!; [|by rewrite H0|by left|].
      * apply NoDup_app. split; [done|]. split; [|apply NoDup_singleton].
        intros b Hb ->%list_elem_of_singleton. destruct (He _ Hb) as (t' & _ & <-%WaitBlock0_inj & ? & _).
        set_solver.
      * intros b [Hb| ->%list_elem_of_singleton]%elem_of_app; [|exists t, x; by split_and!].
        destruct (He b Hb) as (t' & z & -> & Hnp & ?). exists t', z.
        split_and!; [done|set_solver|naive_solver..].
    + rewrite lookup_insert_ne by done. intros Hd'.
      destruct (Ho o' d' Hd') as (H2 & H3 & H4 & H5). split_and!; try done.
      intros b Hbin. destruct (H5 b Hbin) as (t' & z & -> & Hnp & ?). exists t', z.
      split_and!; [done|set_solver|naive_solver..].
  - intros t' z Hz Hs Hn'. destruct (decide (t' = t)) as [->|Hnt].
    { exists o. rewrite lookup_insert_eq. eexists. split; [done|]. apply elem_of_app. right. by left. }
    destruct (Hw t' z Hz Hs ltac:(set_solver)) as (o' & d' & Hd' & Hin).
    destruct (decide (o' = o)) as [->|Hne].
    + exists o. rewrite lookup_insert_eq. eexists. split; [done|]. apply elem_of_app. left. congruence.
    + exists o', d'. rewrite lookup_insert_ne by done. done.
Qed.

(** Changing an object but not its list. *)
Lemma queues_dobject P o d d' s :
  queues P s → dobjects s !! o = Some d → WaitListHead d' = WaitListHead d →
  is_signal (SignalState d') → (SignalState d' = 0 ∨ WaitListHead d = []) →
  queues P (with_dobjects (<[o := d']> (dobjects s)) s).
Proof.
  intros [Hl H1l Hls Hr Ho Hw Ht] Hd Hwl H0 H1. constructor; try done; simpl.
  - intros o' d''. destruct (decide (o' = o)) as [->|Hne].
    + rewrite lookup_insert_eq. intros [= <-]. destruct (Ho o d Hd) as (Hn & _ & _ & He).
      by rewrite Hwl.
    + rewrite lookup_insert_ne by done. apply Ho.
  - intros t' z Hz Hs Hn'. destruct (Hw t' z Hz Hs Hn') as (o' & d'' & Hd' & Hin).
    destruct (decide (o' = o)) as [->|Hne].
    + exists o, d'. rewrite lookup_insert_eq, Hwl. split; [done|]. congruence.
    + exists o', d''. rewrite lookup_insert_ne by done. done.
Qed.

(** ** Running the operations *)

Section runs.
Context (run_dpc : addr → M prcb unit).

Lemma thread_run {B} t (k : _ → M sched B) s x :
  threads s !! t = Some x → bind (thread t) k s = k x s.
Proof. apply (deref_run (λ s, threads s !! t)). Qed.

Lemma dobject_run {B} o (k : _ → M sched B) s d :
  dobjects s !! o = Some d → bind (dobject o) k s = k d s.
Proof. apply (deref_run (λ s, dobjects s !! o)). Qed.

Lemma list_run {B} p (k : _ → M sched B) s l :
  Scheduler_list s !! p = Some l → bind (KiGetCurrentSchedulerList p) k s = k l s.
Proof. apply (deref_run (λ s, Scheduler_list s !! p)). Qed.

Lemma cpu_run {A B} (m : M prcb A) (k : A → M sched B) s a p :
  m (cpu s) = Ok (a, p) → bind (in_cpu m) k s = k a (with_cpu p s).
Proof. intros H. unfold in_cpu, zoom, bind. by rewrite H. Qed.

Lemma with_cpu_id s : with_cpu (cpu s) s = s.
Proof. by destruct s. Qed.

Lemma curthread_run {B} (k : _ → M sched B) s :
  bind (in_cpu KeGetCurrentThread) k s = k (CurrentThread (cpu s)) s.
Proof. rewrite (cpu_run _ _ _ (CurrentThread (cpu s)) (cpu s) eq_refl). by rewrite with_cpu_id. Qed.

Lemma curirql_run {B} (k : _ → M sched B) s :
  CurrentIrql (cpu s) <= 31 → bind (in_cpu KeGetCurrentIrql) k s = k (CurrentIrql (cpu s)) s.
Proof. intros H. by rewrite (cpu_run _ _ _ _ _ (getirql_run (cpu s) H)), with_cpu_id. Qed.

Lemma dispatch_run {B} (k : unit → M sched B) s :
  CurrentIrql (cpu s) = DISPATCH_LEVEL → bind assert_dispatch k s = k tt s.
Proof.
  intros H. unfold assert_dispatch. rewrite bind_assoc, curirql_run by (rewrite H; done).
  by rewrite H.
Qed.

(** The dispatcher database locked, by the current thread or another one. *)
Definition held (c t j : addr) (s : sched) : Prop :=
  cpu_is c DISPATCH_LEVEL (SpinLk 1 t j) (cpu s).

Lemma query_run {B} c t j (k : _ → M sched B) s :
  held c t j s → bind KiQueryDispatcherDatabase k s = k (1, t) s.
Proof.
  intros [_ _ Hl _ _]. unfold KiQueryDispatcherDatabase.
  rewrite (cpu_run (KeQuerySpinLock DispatcherDataBaseLock) _ s (1, t) (cpu s))
    by (unfold KeQuerySpinLock; by rewrite (deref_run (λ p, spinlocks p !! DispatcherDataBaseLock) _ _ _ Hl)).
  by rewrite with_cpu_id.
Qed.

Lemma locked_run {B} c j (k : unit → M sched B) s :
  held c c j s → bind assert_locked k s = k tt s.
Proof.
  intros H. pose proof H as [Hc Hi _ _ _]. unfold assert_locked. rewrite bind_assoc, dispatch_run by done.
  rewrite bind_assoc, (query_run _ _ _ _ _ H), bind_assoc, assert_true by done.
  rewrite bind_assoc, curthread_run, Hc. by rewrite assert_true by apply Z.eqb_refl.
Qed.

(** Locking and unlocking the dispatcher database. *)
Lemma lock_db_run {B} (k : _ → M sched B) s :
  cpu_is (CurrentThread (cpu s)) (CurrentIrql (cpu s)) unlocked (cpu s) →
  0 <= CurrentIrql (cpu s) <= DISPATCH_LEVEL →
  ∃ p, bind KiLockDispatcherDataBase k s = k (CurrentIrql (cpu s)) (with_cpu p s) ∧
    cpu_is (CurrentThread (cpu s)) DISPATCH_LEVEL
      (SpinLk 1 (CurrentThread (cpu s)) (CurrentIrql (cpu s))) p.
Proof.
  intros [Hc Hi Hl He Hd] Hr. unfold DISPATCH_LEVEL in Hr.
  pose proof (acquire_run DispatcherDataBaseLock (cpu s) Hl ltac:(lia)) as Ha.
  eexists. split; [unfold KiLockDispatcherDataBase; by rewrite (cpu_run _ _ _ _ _ Ha)|].
  split; simpl; try done; [apply lookup_insert_eq|].
  unfold lock_free. simpl. by rewrite lookup_insert_ne by done.
Qed.

Lemma unlock_db_run {B} c t j i (k : _ → M sched B) s :
  held c t j s → 0 <= i <= DISPATCH_LEVEL →
  ∃ p, bind (KiUnLockDispatcherDataBase run_dpc i) k s = k tt (with_cpu p s) ∧
    cpu_is c i unlocked p.
Proof.
  intros [Hc Hi Hl He Hd] Hr. unfold DISPATCH_LEVEL in Hr. unfold KiUnLockDispatcherDataBase.
  pose proof (release_dispatcher_run run_dpc 0 DispatcherDataBaseLock t j (cpu s) i Hl Hi
    ltac:(lia) ltac:(by right)) as Ha.
  eexists. split; [by rewrite (cpu_run _ _ _ _ _ Ha)|]. split; simpl; try done; [apply lookup_insert_eq|].
  unfold lock_free. simpl. by rewrite lookup_insert_ne by done.
Qed.

(** *** Selecting a thread *)

Lemma select_loop_run P n m s :
  queues P s → (m < n)%nat → Z.of_nat m <= 6 →
  ∀ Cur, 1 <= Cur <= 6 →
  (∀ p, Cur <= p → p <= 6 → Z.of_nat m < p → Scheduler_list s !! p = Some []) →
  (select_loop n (Z.of_nat m) Cur s = Ok (NULL, s) ∧
     ∀ p, Cur <= p <= 6 → Scheduler_list s !! p = Some []) ∨
  ∃ p t l, select_loop n (Z.of_nat m) Cur s = Ok (t, with_lists (<[p := l]> (Scheduler_list s)) s) ∧
    Cur <= p <= 6 ∧ Scheduler_list s !! p = Some (t :: l) ∧
    ∀ p', p < p' <= 6 → Scheduler_list s !! p' = Some [].
Proof.
  intros HQ. revert m. induction n as [|n IH]; intros m Hm H6 Cur HC Hab; [lia|].
  cbn [select_loop]. destruct (Z.ltb_spec (Z.of_nat m) Cur) as [Hlt|Hge].
  { left. split; [done|]. intros p Hp. apply Hab; lia. }
  destruct (q_lists P s HQ (Z.of_nat m) ltac:(lia)) as [l Hl]. rewrite (list_run _ _ _ _ Hl).
  destruct l as [|t l].
  - destruct m as [|m]; [lia|]. replace (Z.of_nat (S m) - 1) with (Z.of_nat m) by lia.
    apply IH; [lia..|]. intros p Hp Hp' Hp''. destruct (decide (p = Z.of_nat (S m))) as [->|]; [done|].
    apply Hab; lia.
  - right. exists (Z.of_nat m), t, l. split; [|split_and!; [lia..|done|]].
    + unfold put_list. rewrite modify_run, assert_true; [done|].
      destruct (q_list P s HQ _ _ Hl) as [_ He]. destruct (He t ltac:(left)) as (_ & x & Hx & _).
      destruct (q_thread P s HQ t x Hx) as [Ht _]. by apply negb_true_iff, Z.eqb_neq.
    + intros p' Hp'. apply Hab; lia.
Qed.

(** The head of the highest list that is not empty, from the priority given. *)
Lemma select_run P cur s :
  queues P s → CurrentIrql (cpu s) = DISPATCH_LEVEL → 1 <= cur <= 6 →
  (KiSelectNextThread cur s = Ok (NULL, s) ∧
     ∀ p, cur <= p <= 6 → Scheduler_list s !! p = Some []) ∨
  ∃ p t l, KiSelectNextThread cur s = Ok (t, with_lists (<[p := l]> (Scheduler_list s)) s) ∧
    cur <= p <= 6 ∧ Scheduler_list s !! p = Some (t :: l) ∧
    ∀ p', p < p' <= 6 → Scheduler_list s !! p' = Some [].
Proof.
  intros HQ Hi Hc. unfold KiSelectNextThread. rewrite dispatch_run by done.
  unfold PROCESS_PRIORITY_MAX, PROCESS_PRIORITY_IDLE.
  rewrite assert_true by (apply Z.leb_le; lia). rewrite assert_true by (apply Z.leb_le; lia).
  apply (select_loop_run P 8 6 s HQ); [lia|lia|done|]. intros p ? ? ?. lia.
Qed.

(** *** Readying a thread *)

Definition ready_thread (q : Z) (x : KTHREAD) : KTHREAD := set_Quantum q (set_State THREAD_STATE_READY x).

Definition readied (t q : Z) (x : KTHREAD) (l : list addr) (s : sched) : sched :=
  with_lists (<[Priority x := l ++ [t]]> (Scheduler_list s))
    (with_threads (<[t := ready_thread q x]> (threads s)) s).

Lemma ready_run P c j t x s :
  held c c j s → queues ({[t]} ∪ P) s → t ∉ P → threads s !! t = Some x →
  State x = THREAD_STATE_WAITING ∨ State x = THREAD_STATE_RUNNING →
  ∃ p l, processes s !! ThreadProcess x = Some p ∧ Scheduler_list s !! Priority x = Some l ∧
    KiReadyThread t s = Ok (tt, readied t (PQuantum p) x l s) ∧
    queues P (readied t (PQuantum p) x l s).
Proof.
  intros Hh HQ Ht Hx Hs.
  destruct (q_thread _ _ HQ t x Hx) as (_ & Hpr & [p Hp] & _).
  destruct (q_lists _ _ HQ _ Hpr) as [l Hl].
  exists p, l. split_and!; [done..| |].
  - unfold KiReadyThread. rewrite (locked_run _ _ _ _ Hh), (thread_run _ _ _ _ Hx).
    replace (_ && _) with false by (destruct Hs as [-> | ->]; done).
    rewrite (deref_run (λ s, processes s !! ThreadProcess x) _ _ _ Hp).
    unfold put_thread. rewrite modify_run. by rewrite (list_run _ _ _ l).
  - unfold readied.
    apply (queues_push_ready P t (ready_thread (PQuantum p) x) l
      (with_threads (<[t := ready_thread (PQuantum p) x]> (threads s)) s)); try done.
    + apply queues_put with x; [done|set_solver|done..|]. by left.
    + simpl. apply lookup_insert_eq.
Qed.

(** *** Switching threads *)

Definition switched (c n d : addr) (point : resume_point) (x y : KTHREAD) (s : sched) : sched :=
  with_threads (<[c := set_StackPointer (Some point) x]> (<[n := set_State THREAD_STATE_RUNNING y]> (threads s)))
    (with_space d (KernelStack y + THREAD_STACK_SIZE * PGSIZE) (with_cpu (set_thread n (cpu s)) s)).

Lemma swap_run P c j n point x y s :
  held c c j s → queues ({[n]} ∪ P) s → c ≠ n → c ≠ NULL →
  threads s !! c = Some x → State x = THREAD_STATE_READY ∨ State x = THREAD_STATE_WAITING →
  threads s !! n = Some y → State y = THREAD_STATE_READY →
  ∃ d, option_map DirectoryTableBase (processes s !! ThreadProcess y) = Some d ∧
    KiSwapThread c n point s = Ok (tt, switched c n d point x y s).
Proof.
  intros Hh HQ Hcn Hc0 Hx Hxs Hy Hys. pose proof Hh as [Hc Hi _ _ _].
  destruct (q_thread _ _ HQ n y Hy) as (Hn0 & _ & [p Hp] & HP0 & _).
  exists (DirectoryTableBase p). split; [by rewrite Hp|]. unfold KiSwapThread.
  rewrite (locked_run _ _ _ _ Hh), curthread_run, Hc, assert_true by apply Z.eqb_refl.
  rewrite assert_true by (by apply negb_true_iff, Z.eqb_neq).
  rewrite (thread_run _ _ _ _ Hx), assert_true by (destruct Hxs as [-> | ->]; done).
  rewrite (thread_run _ _ _ _ Hy), assert_true by (by rewrite Hys).
  unfold put_thread at 1. rewrite modify_run.
  rewrite (cpu_run (KiSetCurrentThread n) _ _ tt (set_thread n (cpu s)))
    by (unfold KiSetCurrentThread; by rewrite assert_true by (by apply negb_true_iff, Z.eqb_neq)).
  unfold KiAttachProcess. rewrite bind_assoc, dispatch_run by done.
  rewrite bind_assoc, assert_true by (by apply negb_true_iff, Z.eqb_neq).
  rewrite bind_assoc, (deref_run (λ s, processes s !! ThreadProcess y) _ _ p) by done.
  rewrite modify_run, modify_run.
  rewrite (thread_run _ _ _ x) by (simpl; by rewrite lookup_insert_ne).
  reflexivity.
Qed.


Lemma switched_queues c n d point x y s :
  queues {[n]} s → c ≠ n → threads s !! c = Some x → threads s !! n = Some y →
  queues ∅ (switched c n d point x y s).
Proof.
  intros HQ Hcn Hx Hy. unfold switched.
  set (s1 := with_space _ _ (with_cpu _ _)).
  assert (queues {[n]} s1) as H1 by by apply queues_space, queues_cpu.
  assert (queues ∅ (with_threads (<[n := set_State THREAD_STATE_RUNNING y]> (threads s)) s1)) as H2.
  { apply (queues_settle ∅ n (set_State THREAD_STATE_RUNNING y)); [|apply lookup_insert_eq|done].
    rewrite (right_id_L ∅ (∪)). apply (queues_put _ n y _ s1); try done; [set_solver|].
    right. by left. }
  refine (queues_same ∅ c x (set_StackPointer (Some point) x) _ H2 _ _ _ _ _); try done.
  simpl. by rewrite lookup_insert_ne by done.
Qed.

(** *** Going on *)

(** What the code a thread [n] goes on with does to the state. *)
Record resumed (n : addr) (s s' : sched) : Prop := {
  r_threads : threads s' = threads s;
  r_processes : processes s' = processes s;
  r_lists : Scheduler_list s' = Scheduler_list s;
  r_objects o d : dobjects s !! o = Some d → ∃ t, dobjects s' !! o = Some (set_Owner t d);
  r_queues P : queues P s → queues P s';
  r_exit : ExitThreadList s' = [];
  r_cpu : ∃ i, 0 <= i <= DISPATCH_LEVEL ∧ cpu_is n i unlocked (cpu s') }.

Lemma set_Owner_id d : set_Owner (OwnerThread d) d = d.
Proof. by destruct d. Qed.

Lemma resumed_cpu n i p s :
  ExitThreadList s = [] → 0 <= i <= DISPATCH_LEVEL → cpu_is n i unlocked p →
  resumed n s (with_cpu p s).
Proof.
  intros He Hi Hp. constructor; try done; [| |eauto].
  - intros o d Hd. exists (OwnerThread d). by rewrite set_Owner_id.
  - intros P. apply queues_cpu.
Qed.

Lemma after_wait_run n t j o i s :
  held n t j s → is_Some (dobjects s !! o) → 0 <= i <= DISPATCH_LEVEL → ExitThreadList s = [] →
  ∃ s', after_wait run_dpc o i s = Ok (tt, s') ∧ resumed n s s' ∧ CurrentIrql (cpu s') = i ∧
    ∀ d, dobjects s !! o = Some d →
      dobjects s' = <[o := set_Owner (if decide (DType d = MutantObject) then n else OwnerThread d) d]> (dobjects s).
Proof.
  intros Hh [d Hd] Hi He. pose proof Hh as [Hc _ _ _ _]. unfold after_wait.
  rewrite (dobject_run _ _ _ _ Hd).
  set (w := if decide (DType d = MutantObject) then n else OwnerThread d).
  assert (∀ k : M sched unit, (when (bool_decide (DType d = MutantObject))
     (let! c := in_cpu KeGetCurrentThread in put_dobject o (set_Owner c d)) >>> k) s =
     k (with_dobjects (<[o := set_Owner w d]> (dobjects s)) s)) as Hk.
  { intros k. unfold w. destruct (decide (DType d = MutantObject)) as [Hm|Hm].
    - rewrite bool_decide_eq_true_2 by done. cbn [when].
      rewrite bind_assoc, curthread_run, Hc. done.
    - rewrite bool_decide_eq_false_2 by done. cbn [when].
      rewrite bind_ret, set_Owner_id, insert_id by done. by destruct s. }
  rewrite Hk. clear Hk. set (s1 := with_dobjects _ s).
  destruct (unlock_db_run n t j i ret s1 Hh Hi) as (p & Hu & Hp).
  unfold bind in Hu. exists (with_cpu p s1). split; [|split; [|split]].
  - destruct (KiUnLockDispatcherDataBase run_dpc i s1) as [[[] s2]|]; exact Hu.
  - constructor; try done; [| |eauto].
    + simpl. intros o' d' Hd'. destruct (decide (o' = o)) as [->|Hne].
      * exists w. rewrite lookup_insert_eq. congruence.
      * exists (OwnerThread d'). by rewrite lookup_insert_ne, set_Owner_id.
    + intros P HQ. apply queues_cpu. destruct (q_object P s HQ o d Hd) as (_ & H0 & H1 & _).
      by apply (queues_dobject P o d).
  - by destruct Hp.
  - simpl. intros d' Hd'. by replace d' with d by congruence.
Qed.

Lemma after_schedule_run n t j fuel ex s y :
  held n t j s → threads s !! n = Some y → 0 <= WaitIrql y <= DISPATCH_LEVEL → ExitThreadList s = [] →
  ∃ p, after_schedule run_dpc here fuel ex s = Ok (tt, with_cpu p s) ∧ cpu_is n (WaitIrql y) unlocked p.
Proof.
  intros Hh Hy Hw He. pose proof Hh as [Hc _ _ _ _]. unfold after_schedule.
  rewrite curthread_run, Hc, (thread_run _ _ _ _ Hy), assert_true by (apply Z.leb_le; lia).
  destruct (unlock_db_run n t j (WaitIrql y)
    (λ _, let! OldIrql := in_cpu (KeAcquireSpinLock ExitThreadLock) in
       clean_loop here fuel ex >>> in_cpu (KeReleaseSpinLock run_dpc false 2 ExitThreadLock OldIrql)) s Hh Hw)
    as (p & -> & Hp).
  unfold DISPATCH_LEVEL in Hw. destruct Hp as [Hpc Hpi Hpl Hpe Hpd].
  rewrite (cpu_run _ _ (with_cpu p s) _ _ (acquire_run ExitThreadLock p Hpe ltac:(lia))).
  assert (∀ k : M sched unit, ∀ s1, ExitThreadList s1 = [] → (clean_loop here fuel ex >>> k) s1 = k s1) as Hk.
  { intros k s1 H1. destruct fuel; cbn [clean_loop]; rewrite bind_assoc, gets_run, H1; done. }
  rewrite Hk by done. unfold in_cpu, zoom. simpl.
  rewrite release_run; simpl; [|by rewrite lookup_insert_eq|done|lia|by right].
  rewrite relock_back by done. exists p. split; [done|]. by constructor.
Qed.

(** The thread that was selected goes on, at the level it left. *)
Lemma resume_run n t j fuel ex s y :
  held n t j s → threads s !! n = Some y → saved_ok s y → ExitThreadList s = [] →
  ∃ s', resume run_dpc here fuel ex s = Ok (tt, s') ∧ resumed n s s'.
Proof.
  intros Hh Hy Hsv He. pose proof Hh as [Hc Hi _ _ _]. unfold resume.
  rewrite curthread_run, Hc, (thread_run _ _ _ _ Hy). unfold saved_ok in Hsv.
  destruct (StackPointer y) as [[| |o i]|]; [| | |done].
  - unfold KiStartThread. rewrite dispatch_run by done.
    rewrite (query_run _ _ _ _ _ Hh), assert_true by done.
    destruct (unlock_db_run n t j PASSIVE_LEVEL ret s Hh ltac:(done)) as (p & Hu & Hp).
    exists (with_cpu p s). split; [|by apply (resumed_cpu n PASSIVE_LEVEL)].
    unfold bind in Hu. by destruct (KiUnLockDispatcherDataBase _ _ s) as [[[] s2]|].
  - destruct (after_schedule_run n t j fuel ex s y Hh Hy Hsv He) as (p & Hr & Hp).
    exists (with_cpu p s). split; [done|]. by apply (resumed_cpu n (WaitIrql y)).
  - destruct Hsv as [Hi' Ho]. unfold APC_LEVEL in Hi'.
    destruct (after_wait_run n t j o i s Hh Ho ltac:(unfold DISPATCH_LEVEL; lia) He)
      as (s' & ? & ? & _). eauto.
Qed.


Lemma consistent_resumed idle n s s' :
  threads_ok idle n s → queues ∅ s → resumed n s s' → consistent idle s'.
Proof.
  intros [Hr Hc Hs Hi He] HQ [Rt Rp Rl Ro Rq Re (i & Hi' & Hcpu)].
  pose proof Hcpu as [Hct Hci _ _ _].
  constructor; rewrite ?Hct, ?Hci; [done|done|by apply Rq|].
  constructor; rewrite ?Rt; try done.
  intros t x Hx Hne. specialize (Hs t x Hx Hne). unfold saved_ok in *.
  destruct (StackPointer x) as [[| |o j]|]; try done. destruct Hs as [Hj [d Hd]]. split; [done|].
  destruct (Ro o d Hd) as [w Hw]. eauto.
Qed.

Lemma saved_ok_objects s s' x :
  (∀ o, is_Some (dobjects s !! o) → is_Some (dobjects s' !! o)) → saved_ok s x → saved_ok s' x.
Proof. intros H. unfold saved_ok. destruct (StackPointer x) as [[]|]; naive_solver. Qed.

(** The current thread and the objects change, it still runs. *)
Lemma threads_frame idle c y s s' :
  threads_ok idle c s → threads s' = <[c := y]> (threads s) → State y = THREAD_STATE_RUNNING →
  (∀ o, is_Some (dobjects s !! o) → is_Some (dobjects s' !! o)) →
  ExitThreadList s' = ExitThreadList s → threads_ok idle c s'.
Proof.
  intros [Hr Hc Hs (z & Hz & Hzs) He] Ht Hy Ho He'.
  constructor; rewrite ?Ht, ?He'; try done.
  - intros t u. destruct (decide (t = c)) as [->|Htc].
    + rewrite lookup_insert_eq. by intros [= <-].
    + rewrite lookup_insert_ne by done. apply Hr.
  - rewrite lookup_insert_eq. eauto.
  - intros t u Hu Hne. rewrite lookup_insert_ne in Hu by done.
    apply saved_ok_objects with s; [done|]. by apply (Hs t).
  - destruct (decide (idle = c)) as [->|Hic].
    + rewrite lookup_insert_eq. eexists. split; [done|]. by rewrite Hy.
    + rewrite lookup_insert_ne by done. eauto.
Qed.

(** After the switch from [c], which is READY or WAITING, to [n]. *)
Lemma switched_threads idle c n d point x y s :
  threads_ok idle c (with_threads (<[c := set_State THREAD_STATE_RUNNING x]> (threads s)) s) →
  c ≠ n → threads s !! c = Some x → threads s !! n = Some y →
  State x = THREAD_STATE_READY ∨ State x = THREAD_STATE_WAITING ∧ idle ≠ c →
  saved_ok s (set_StackPointer (Some point) x) →
  threads_ok idle n (switched c n d point x y s).
Proof.
  intros [Hr Hc Hs (z & Hz & Hzs) He] Hcn Hx Hy Hxs Hsv. simpl in *. unfold switched.
  constructor; simpl; [| | | |done].
  - intros t u. destruct (decide (t = c)) as [->|Htc].
    { rewrite lookup_insert_eq. intros [= <-]. simpl. split; [|done].
      destruct Hxs as [->|[-> _]]; done. }
    rewrite lookup_insert_ne by done. destruct (decide (t = n)) as [->|Htn].
    { rewrite lookup_insert_eq. by intros [= <-]. }
    rewrite lookup_insert_ne by done. intros Hu. split; [|done]. intros HR.
    apply (Hr t u) in HR; [done|]. by rewrite lookup_insert_ne.
  - rewrite lookup_insert_ne by done. rewrite lookup_insert_eq. eauto.
  - intros t u. destruct (decide (t = c)) as [->|Htc].
    { rewrite lookup_insert_eq. intros [= <-] _. by apply saved_ok_objects with s. }
    rewrite lookup_insert_ne by done. intros Hu Hne. rewrite lookup_insert_ne in Hu by done.
    apply saved_ok_objects with s; [done|].
    apply (saved_ok_objects _ s) with (2 := Hs t u ltac:(by rewrite lookup_insert_ne) Htc). done.
  - destruct (decide (idle = c)) as [->|Hic].
    { exists (set_StackPointer (Some point) x). rewrite lookup_insert_eq. split; [done|]. simpl.
      destruct Hxs as [->|[_ ?]]; done. }
    rewrite lookup_insert_ne in Hz by done. rewrite lookup_insert_ne by done.
    destruct (decide (idle = n)) as [->|Hin].
    + rewrite lookup_insert_eq. by eexists.
    + rewrite lookup_insert_ne by done. eauto.
Qed.

(** *** Schedule *)

(** What Schedule does: nothing when every list from the priority of the current
    thread is empty, and otherwise the head of the highest list runs and the
    current thread goes to the end of its own. *)
Definition scheduled (s s' : sched) : Prop :=
  ∃ x, threads s !! CurrentThread (cpu s) = Some x ∧
  ((∀ p, Priority x <= p <= 6 → Scheduler_list s !! p = Some []) ∧
     CurrentThread (cpu s') = CurrentThread (cpu s) ∧ Scheduler_list s' = Scheduler_list s
   ∨ ∃ p t l l', Priority x <= p <= 6 ∧ Scheduler_list s !! p = Some (t :: l) ∧
       (∀ p', p < p' <= 6 → Scheduler_list s !! p' = Some []) ∧
       CurrentThread (cpu s') = t ∧ (∃ y, threads s' !! t = Some y ∧ Priority y <= p) ∧
       <[p := l]> (Scheduler_list s) !! Priority x = Some l' ∧
       Scheduler_list s' = <[Priority x := l' ++ [CurrentThread (cpu s)]]> (<[p := l]> (Scheduler_list s))).

(** The switch, and the thread switched to going on. *)
Lemma hand_over_run idle c j point f ex t x y s :
  held c c j s → queues {[t]} s → c ≠ t → threads s !! c = Some x → threads s !! t = Some y →
  State x = THREAD_STATE_READY ∨ State x = THREAD_STATE_WAITING ∧ idle ≠ c →
  State y = THREAD_STATE_READY → saved_ok s (set_StackPointer (Some point) x) →
  threads_ok idle c (with_threads (<[c := set_State THREAD_STATE_RUNNING x]> (threads s)) s) →
  ∃ s', (KiSwapThread c t point >>> resume run_dpc here f ex) s = Ok (tt, s') ∧
    consistent idle s' ∧ CurrentThread (cpu s') = t ∧ Scheduler_list s' = Scheduler_list s ∧
    threads s' = <[c := set_StackPointer (Some point) x]>
      (<[t := set_State THREAD_STATE_RUNNING y]> (threads s)) ∧
    ∀ o d, dobjects s !! o = Some d → ∃ w, dobjects s' !! o = Some (set_Owner w d).
Proof.
  intros Hh HQ Hct Hx Hy Hxs Hys Hsv HT. pose proof Hh as [_ H2 H3 H4 H5].
  destruct (q_thread _ _ HQ c x Hx) as (Hc0 & _).
  destruct (swap_run ∅ c j t point x y s Hh) as (d & _ & Hsw); try done.
  { by rewrite (right_id_L ∅ (∪)). } { destruct Hxs as [|[]]; auto. }
  rewrite (bind_Ok _ _ _ _ _ Hsw).
  destruct (resume_run t c j f ex (switched c t d point x y s) (set_State THREAD_STATE_RUNNING y))
    as (s' & Hres & HR); simpl.
  - by constructor.
  - by rewrite lookup_insert_ne, lookup_insert_eq.
  - apply (saved_ok_objects s); [done|].
    apply (saved_ok_objects (with_threads (<[c := set_State THREAD_STATE_RUNNING x]> (threads s)) s)); [done|].
    apply (t_saved _ _ _ HT t y); [|done]. simpl. by rewrite lookup_insert_ne.
  - apply (t_exit _ _ _ HT).
  - exists s'. split; [done|].
    split; [apply (consistent_resumed idle t (switched c t d point x y s)); [by apply switched_threads|by apply switched_queues|done]|].
    destruct HR as [Rt _ Rl Ro _ _ (i' & _ & [Rc _ _ _ _])]. done.
Qed.

(** The current thread gives way to the head of a ready list. *)
Lemma give_way_run idle c j f ex p t l x s :
  held c c j s → queues ∅ s → threads_ok idle c s → threads s !! c = Some x →
  0 <= WaitIrql x <= DISPATCH_LEVEL → Scheduler_list s !! p = Some (t :: l) →
  ∃ s' l', (KiReadyThread c >>> KiSwapThread c t InSchedule >>> resume run_dpc here f ex)
      (with_lists (<[p := l]> (Scheduler_list s)) s) = Ok (tt, s') ∧
    consistent idle s' ∧ CurrentThread (cpu s') = t ∧
    (∃ y, threads s' !! t = Some y ∧ Priority y <= p) ∧
    <[p := l]> (Scheduler_list s) !! Priority x = Some l' ∧
    Scheduler_list s' = <[Priority x := l' ++ [c]]> (<[p := l]> (Scheduler_list s)).
Proof.
  intros Hh HQ HT Hx Hw Hl. set (s2 := with_lists _ s).
  pose proof (queues_pop_ready ∅ p t l s HQ Hl) as HQ2. rewrite (right_id_L ∅ (∪)) in HQ2.
  pose proof (proj2 (t_running _ _ _ HT c x Hx) eq_refl) as HxR.
  destruct (q_list _ _ HQ p _ Hl) as [_ He]. destruct (He t ltac:(left)) as (_ & y & Hy & Hys & Hyp).
  assert (c ≠ t) as Hct by congruence.
  destruct (ready_run {[t]} c j c x s2 Hh) as (pr & l' & Hpr & Hl' & Hrun & HQ3); try done.
  { by apply queues_leave with x. } { set_solver. } { by right. }
  set (s3 := readied _ _ _ _ s2) in *. rewrite (bind_Ok _ _ _ _ _ Hrun).
  set (x3 := ready_thread (PQuantum pr) x). change (State x = THREAD_STATE_RUNNING) in HxR.
  assert (threads s3 !! c = Some x3) as Hx3 by apply lookup_insert_eq.
  assert (threads s3 !! t = Some y) as Hy3 by (simpl; by rewrite lookup_insert_ne).
  destruct (hand_over_run idle c j InSchedule f ex t x3 y s3) as (s' & -> & HC & Hcur & Hls & Hths & _); try done.
  { by left. }
  { apply (threads_frame idle c (set_State THREAD_STATE_RUNNING x3) s); simpl; try done.
    by rewrite insert_insert_eq. }
  exists s', l'. split_and!; try done.
  rewrite Hths, lookup_insert_ne, lookup_insert_eq by done. by eexists.
Qed.

Lemma schedule_run dereference idle f s :
  consistent idle s →
  ∃ s', Schedule run_dpc here dereference (S f) s = Ok (tt, s') ∧ consistent idle s' ∧ scheduled s s'.
Proof.
  intros [Hcpu Hirql HQ HT]. set (c := CurrentThread (cpu s)) in *. cbn [Schedule].
  destruct (t_current _ _ _ HT) as [x Hx].
  pose proof (proj2 (t_running _ _ _ HT c x Hx) eq_refl) as HxR.
  destruct (q_thread _ _ HQ c x Hx) as (Hc0 & Hpr & _).
  edestruct (lock_db_run (B := unit)) as (p & -> & Hp); [exact Hcpu|exact Hirql|].
  fold c in Hp. rewrite curthread_run. simpl. replace (CurrentThread p) with c by (by destruct Hp).
  rewrite (thread_run _ _ _ x) by done.
  set (i := CurrentIrql (cpu s)) in *. set (x1 := set_WaitIrql i x).
  unfold put_thread at 1. rewrite modify_run. simpl.
  set (s1 := with_threads (<[c := x1]> (threads s)) (with_cpu p s)).
  assert (held c c i s1) as Hh1 by done.
  assert (queues ∅ s1) as HQ1
    by (apply (queues_same ∅ c x x1 (with_cpu p s)); [by apply queues_cpu|done..]).
  assert (threads_ok idle c s1) as HT1
    by by apply (threads_frame idle c x1 s).
  assert (threads s1 !! c = Some x1) as Hx1 by apply lookup_insert_eq.
  change (State x) with (State x1). rewrite bool_decide_eq_false_2 by (simpl; congruence).
  change (Priority x) with (Priority x1) in *.
  destruct (select_run ∅ (Priority x1) s1 HQ1 ltac:(by destruct Hp) Hpr)
    as [[Hsel Hemp]|(q & t & l & Hsel & Hq & Hl & Hemp)]; rewrite (bind_Ok _ _ _ _ _ Hsel).
  - rewrite assert_true by (by apply negb_true_iff, Z.eqb_neq). cbn [Z.eqb].
    destruct (after_schedule_run c c i f (PsExitThread run_dpc here dereference (Schedule run_dpc here dereference f) f)
      s1 x1 Hh1 Hx1 Hirql (t_exit _ _ _ HT1)) as (p' & -> & Hp').
    exists (with_cpu p' s1). split; [done|]. split.
    + apply (consistent_resumed idle c s1); try done. apply (resumed_cpu c i); try done.
      apply (t_exit _ _ _ HT1).
    + exists x. split; [done|]. left. split; [done|]. split; [by destruct Hp'|done].
  - destruct (q_list _ _ HQ1 q _ Hl) as [_ He]. destruct (He t ltac:(left)) as (_ & y & Hy & Hys & _).
    assert (c ≠ t) as Hct by (intros <-; rewrite Hx1 in Hy; injection Hy as <-; simpl in Hys; congruence).
    rewrite assert_true by (by apply negb_true_iff, Z.eqb_neq).
    destruct (Z.eqb_spec t NULL) as [->|_]; [by destruct (q_thread _ _ HQ1 _ _ Hy)|].
    destruct (give_way_run idle c i f (PsExitThread run_dpc here dereference (Schedule run_dpc here dereference f) f)
      q t l x1 s1 Hh1 HQ1 HT1 Hx1 Hirql Hl) as (s' & l' & -> & HC & Hcur & Hpri & Hl' & Hls).
    exists s'. split; [done|]. split; [done|]. exists x. split; [done|]. right.
    exists q, t, l, l'. done.
Qed.
(** *** Waiting *)

(** The idle thread is ready when it does not run: some list is not empty. *)
Lemma idle_ready P idle z s :
  queues P s → threads s !! idle = Some z → State z = THREAD_STATE_READY → idle ∉ P →
  ¬ ∀ p, 1 <= p <= 6 → Scheduler_list s !! p = Some [].
Proof.
  intros HQ Hz Hs Hn Hall. destruct (q_ready _ _ HQ idle z Hz Hs Hn) as (p & l & Hp & Hl & Hin).
  rewrite Hall in Hl by done.
  injection Hl as <-. by apply not_elem_of_nil in Hin.
Qed.

(** The state in which the current thread has blocked on an object, before the
    next one is selected. *)
Definition blocked_on (o c : addr) (d : DISPATCHER_HEADER) (x : KTHREAD) (s : sched) : sched :=
  with_threads (<[c := set_State THREAD_STATE_WAITING x]> (threads s))
    (with_dobjects (<[o := set_WaitList (WaitListHead d ++ [WaitBlock0 c]) d]> (dobjects s))
      (with_blocks (<[WaitBlock0 c := WaitBlk c o WAIT_TYPE_ANY]> (blocks s)) s)).

Lemma blocked_queues o c d x s :
  queues ∅ s → threads s !! c = Some x → State x = THREAD_STATE_RUNNING →
  dobjects s !! o = Some d → SignalState d = 0 → queues ∅ (blocked_on o c d x s).
Proof.
  intros HQ Hx HR Hd H0. set (s1 := with_blocks (<[WaitBlock0 c := WaitBlk c o WAIT_TYPE_ANY]> (blocks s)) s).
  set (s2 := with_threads (<[c := set_State THREAD_STATE_WAITING x]> (threads s)) s1).
  change (blocked_on o c d x s)
    with (with_dobjects (<[o := set_WaitList (WaitListHead d ++ [WaitBlock0 c]) d]> (dobjects s2)) s2).
  apply queues_push_wait with (set_State THREAD_STATE_WAITING x); try done; simpl.
  - apply (queues_put _ c x _ s1); try done; [|set_solver|by right; right].
    apply queues_block; [by apply queues_leave with x|set_solver].
  - apply lookup_insert_eq.
  - apply lookup_insert_eq.
Qed.

(** The thread that blocks, and the head of the highest list that takes over. *)
Lemma block_run idle c j o i f ex d x s :
  held c c j s → queues ∅ s → threads_ok idle c s → idle ≠ c → threads s !! c = Some x →
  dobjects s !! o = Some d → SignalState d = 0 → 0 <= i <= APC_LEVEL →
  let s1 := with_dobjects (<[o := set_WaitList (WaitListHead d ++ [WaitBlock0 c]) d]> (dobjects s))
      (with_blocks (<[WaitBlock0 c := WaitBlk c o WAIT_TYPE_ANY]> (blocks s)) s) in
  ∃ s' p t l, (KiBlockThread (InWait o i) >>> resume run_dpc here f ex) s1 = Ok (tt, s') ∧
    consistent idle s' ∧ CurrentThread (cpu s') = t ∧
    1 <= p <= 6 ∧ Scheduler_list s !! p = Some (t :: l) ∧
    (∀ p', p < p' <= 6 → Scheduler_list s !! p' = Some []) ∧
    Scheduler_list s' = <[p := l]> (Scheduler_list s) ∧
    (∃ y, threads s' !! c = Some y ∧ State y = THREAD_STATE_WAITING) ∧
    ∃ w, dobjects s' !! o = Some (set_Owner w (set_WaitList (WaitListHead d ++ [WaitBlock0 c]) d)).
Proof.
  intros Hh HQ HT Hic Hx Hd H0 Hi s1. pose proof Hh as [Hc Hirql _ _ _].
  pose proof (proj2 (t_running _ _ _ HT c x Hx) eq_refl) as HxR.
  set (x2 := set_State THREAD_STATE_WAITING x).
  pose proof (blocked_queues o c d x s HQ Hx HxR Hd H0) as HQ2. set (s2 := blocked_on o c d x s) in *.
  unfold KiBlockThread. rewrite bind_assoc, (locked_run c j) by done.
  rewrite bind_assoc, curthread_run. change (CurrentThread (cpu s1)) with (CurrentThread (cpu s)). rewrite Hc.
  rewrite bind_assoc, (thread_run _ _ _ x) by done.
  rewrite bind_assoc, assert_true by (by apply bool_decide_eq_true_2).
  unfold put_thread at 1. rewrite bind_assoc, modify_run. fold x2.
  change (with_threads _ s1) with s2. rewrite bind_assoc.
  destruct (t_idle _ _ _ HT) as (z & Hz & Hzs).
  assert (State z = THREAD_STATE_READY) as HzR.
  { destruct (q_thread _ _ HQ idle z Hz) as (_ & _ & _ & _ & _ & [|[HzR|]]); [done| |done].
    by apply (t_running _ _ _ HT idle z Hz) in HzR. }
  assert (threads s2 !! idle = Some z) as Hz2 by (simpl; by rewrite lookup_insert_ne).
  destruct (select_run ∅ 1 s2 HQ2 Hirql ltac:(lia))
    as [[_ Hemp]|(p & t & l & Hsel & Hp & Hl & Hemp)].
  { by destruct (idle_ready ∅ idle z s2 HQ2 Hz2 HzR ltac:(set_solver)). }
  unfold PROCESS_PRIORITY_IDLE. rewrite (bind_Ok _ _ _ _ _ Hsel).
  destruct (q_list _ _ HQ2 p _ Hl) as [_ He]. destruct (He t ltac:(left)) as (_ & y & Hy & Hys & _).
  pose proof (queues_pop_ready ∅ p t l s2 HQ2 Hl) as HQ3. set (s3 := with_lists _ s2) in *.
  destruct (q_thread _ _ HQ2 t y Hy) as (Ht0 & _).
  rewrite bind_assoc, assert_true by (by apply negb_true_iff, Z.eqb_neq).
  assert (threads s2 !! c = Some x2) as Hx2 by apply lookup_insert_eq.
  assert (c ≠ t) as Hct by (intros <-; rewrite Hx2 in Hy; by injection Hy as <-).
  rewrite (right_id_L ∅ (∪)) in HQ3.
  destruct (hand_over_run idle c j (InWait o i) f ex t x2 y s3) as (s' & -> & HC & Hcur & Hls & Hths & Hob); try done.
  { by right. }
  { split; [done|]. simpl. rewrite lookup_insert_eq. eauto. }
  { apply (threads_frame idle c (set_State THREAD_STATE_RUNNING x2) s); simpl; try done.
    - by rewrite insert_insert_eq.
    - intros o'. destruct (decide (o' = o)) as [->|]; [by rewrite lookup_insert_eq|by rewrite lookup_insert_ne]. }
  exists s', p, t, l. split; [done|]. split_and!; try done; [lia..| |].
  - rewrite Hths, lookup_insert_eq. by eexists.
  - apply Hob. apply lookup_insert_eq.
Qed.

(** *** Releasing an object *)

(** Threads are taken from waiting to ready, nothing else happens to them. *)
Record woken (s s' : sched) : Prop := {
  w_cpu : cpu s' = cpu s;
  w_processes : processes s' = processes s;
  w_exit : ExitThreadList s' = ExitThreadList s;
  w_objects o : is_Some (dobjects s !! o) → is_Some (dobjects s' !! o);
  w_threads t : match threads s !! t, threads s' !! t with
    | Some x, Some y => StackPointer y = StackPointer x ∧ WaitIrql y = WaitIrql x ∧
        (State y = State x ∨ State x = THREAD_STATE_WAITING ∧ State y = THREAD_STATE_READY)
    | None, None => True
    | _, _ => False
    end }.

#[export] Instance woken_preorder : PreOrder woken.
Proof.
  split.
  - intros s. constructor; try done. intros t. destruct (threads s !! t); auto.
  - intros s1 s2 s3 [A1 A2 A3 A4 A5] [B1 B2 B3 B4 B5]. constructor; try congruence; [by auto|].
    intros t. specialize (A5 t). specialize (B5 t).
    destruct (threads s1 !! t), (threads s2 !! t), (threads s3 !! t); try done.
    destruct A5 as (P1 & P2 & P3), B5 as (Q1 & Q2 & Q3). split_and!; [congruence..|].
    destruct P3 as [P3|[? P3]], Q3 as [Q3|[? Q3]]; try (left; congruence); right; split; congruence.
Qed.

Lemma woken_threads idle c s s' : threads_ok idle c s → woken s s' → threads_ok idle c s'.
Proof.
  intros [Hr [x Hx] Hs (z & Hz & Hzs) He] [W1 W2 W3 W4 W5]. constructor; [| | | |congruence].
  - intros t y Hy. specialize (W5 t). rewrite Hy in W5.
    destruct (threads s !! t) as [u|] eqn:Hu; [|done]. destruct W5 as (_ & _ & Hst).
    rewrite <- (Hr t u Hu). destruct Hst as [->|[E1 E2]]; [done|]. rewrite E1, E2. done.
  - specialize (W5 c). rewrite Hx in W5. by destruct (threads s' !! c).
  - intros t y Hy Hne. specialize (W5 t). rewrite Hy in W5.
    destruct (threads s !! t) as [u|] eqn:Hu; [|done]. destruct W5 as (H1 & H2 & _).
    specialize (Hs t u Hu Hne). apply (saved_ok_objects s); [done|].
    unfold saved_ok in *. by rewrite H1, H2.
  - specialize (W5 idle). rewrite Hz in W5. destruct (threads s' !! idle) as [y|]; [|done].
    exists y. split; [done|]. destruct W5 as (_ & _ & [->|[? ->]]); done.
Qed.

(** The release of the first waiter: it is at the end of the list of its priority. *)
Lemma release_head_run c j o d b l s :
  held c c j s → queues ∅ s → dobjects s !! o = Some d → WaitListHead d = b :: l →
  ∃ s' t x p lst, (put_dobject o (set_WaitList l d) >>> release_head o b) s = Ok (tt, s') ∧
    queues ∅ s' ∧ woken s s' ∧ b = WaitBlock0 t ∧
    blocks s !! b = Some (WaitBlk t o WAIT_TYPE_ANY) ∧
    threads s !! t = Some x ∧ WaitBlockList x = [] ∧
    processes s !! ThreadProcess x = Some p ∧ Scheduler_list s !! Priority x = Some lst ∧
    s' = readied t (PQuantum p) x lst (with_dobjects (<[o := set_WaitList l d]> (dobjects s)) s).
Proof.
  intros Hh HQ Hd Hb.
  destruct (queues_pop_wait ∅ o d b l s HQ Hd Hb) as (t & x & -> & _ & Hx & Hxs & Hblk & HQ1).
  set (s1 := with_dobjects _ s) in *.
  destruct (ready_run ∅ c j t x s1 Hh HQ1) as (p & lst & Hp & Hl & Hrun & HQ2); [set_solver|done|auto|].
  destruct (q_thread _ _ HQ t x Hx) as (_ & _ & _ & _ & Hwb & _).
  exists (readied t (PQuantum p) x lst s1), t, x, p, lst. split_and!; try done.
  - unfold put_dobject. rewrite modify_run. fold s1. unfold release_head.
    rewrite (deref_run (λ s, blocks s !! WaitBlock0 t) _ s1 _ Hblk), assert_true by apply Z.eqb_refl.
    rewrite (thread_run _ _ s1 _ Hx). by rewrite Hwb.
  - constructor; try done; simpl.
    + intros o'. destruct (decide (o' = o)) as [->|]; [by rewrite lookup_insert_eq|by rewrite lookup_insert_ne].
    + intros t'. destruct (decide (t' = t)) as [->|].
      * rewrite lookup_insert_eq, Hx. simpl. auto.
      * rewrite lookup_insert_ne by done. destruct (threads s !! t'); auto.
Qed.

Lemma assert_releasable_run {B} (k : unit → M sched B) P o d s :
  queues P s → dobjects s !! o = Some d → SignalState d < 100 →
  bind (assert_releasable d) k s = k tt s.
Proof.
  intros HQ Hd H100. unfold assert_releasable, MAX_DISPATCH_SIGNAL_STATE.
  rewrite bind_assoc, assert_true by (by apply Z.ltb_lt). apply assert_true.
  destruct (q_object _ _ HQ o d Hd) as (_ & _ & [->| ->] & _); [done|].
  rewrite bool_decide_eq_true_2 by done. apply orb_true_r.
Qed.

(** KiDHeaderRelease wakes the first waiter, or counts up. *)
Definition released (o : addr) (d : DISPATCHER_HEADER) (s s' : sched) : Prop :=
  match WaitListHead d with
  | [] => threads s' = threads s ∧ Scheduler_list s' = Scheduler_list s ∧
          dobjects s' = <[o := set_Signal (SignalState d + 1) d]> (dobjects s)
  | b :: l => dobjects s' = <[o := set_WaitList l d]> (dobjects s) ∧
      ∃ t x p lst, b = WaitBlock0 t ∧ threads s !! t = Some x ∧
        processes s !! ThreadProcess x = Some p ∧
        threads s' = <[t := ready_thread (PQuantum p) x]> (threads s) ∧
        Scheduler_list s !! Priority x = Some lst ∧
        Scheduler_list s' = <[Priority x := lst ++ [t]]> (Scheduler_list s)
  end.

Lemma release_header_run c j o d s :
  held c c j s → queues ∅ s → dobjects s !! o = Some d → SignalState d < 100 →
  ∃ s', KiDHeaderRelease o s = Ok (tt, s') ∧ queues ∅ s' ∧ woken s s' ∧ released o d s s'.
Proof.
  intros Hh HQ Hd H100. unfold KiDHeaderRelease, released.
  rewrite dispatch_run, (dobject_run _ _ _ _ Hd), (assert_releasable_run _ ∅ o) by (by destruct Hh || done).
  destruct (WaitListHead d) as [|b l] eqn:Hb.
  - destruct (q_object _ _ HQ o d Hd) as (_ & H0 & _). unfold is_signal in H0.
    assert (snd (InterlockedIncrement (SignalState d)) = SignalState d + 1) as ->
      by (simpl; unfold s32; rewrite Z.mod_small; lia).
    eexists. split; [done|]. split; [|split; [|done]].
    + apply (queues_dobject ∅ o d); simpl; try done; [unfold is_signal; lia|by right].
    + constructor; try done; simpl.
      * intros o'. destruct (decide (o' = o)) as [->|]; [by rewrite lookup_insert_eq|by rewrite lookup_insert_ne].
      * intros t. destruct (threads s !! t); auto.
  - destruct (release_head_run c j o d b l s Hh HQ Hd Hb)
      as (s' & t & x & p & lst & Hrun & HQ' & HW & -> & _ & Hx & _ & Hp & Hl & ->).
    eexists. split; [exact Hrun|]. split; [done|]. split; [done|]. split; [done|].
    exists t, x, p, lst. done.
Qed.

(** KiDHeaderReleaseAll wakes every waiter and leaves the object signalled. *)
Lemma release_all_loop_run c j o fuel s d :
  held c c j s → queues ∅ s → dobjects s !! o = Some d → (length (WaitListHead d) <= fuel)%nat →
  ∃ s', release_all_loop fuel o s = Ok (tt, s') ∧ queues ∅ s' ∧ woken s s' ∧
    dobjects s' = <[o := set_WaitList [] d]> (dobjects s) ∧
    ∀ t, WaitBlock0 t ∈ WaitListHead d → ∃ x, threads s' !! t = Some x ∧ State x = THREAD_STATE_READY.
Proof.
  revert s d. induction fuel as [|fuel IH]; intros s d Hh HQ Hd Hf; cbn [release_all_loop];
    rewrite (dobject_run _ _ _ _ Hd); destruct (WaitListHead d) as [|b l] eqn:Hb; simpl in Hf; try lia.
  1,2: exists s; split_and!; [done..| |by intros t ?%not_elem_of_nil];
    rewrite insert_id; [done|]; rewrite Hd; f_equal; destruct d; simpl in *; by subst.
  destruct (release_head_run c j o d b l s Hh HQ Hd Hb)
    as (s1 & t & x & p & lst & Hrun & HQ1 & HW & -> & Hblk & Hx & Hwb & Hp & Hl & Hs1).
  unfold put_dobject in *. rewrite modify_run in *.
  rewrite (deref_run (λ s, blocks s !! WaitBlock0 t) _ (with_dobjects _ s) _ Hblk), (thread_run _ _ _ x) by done.
  rewrite (bind_Ok _ _ _ _ _ Hrun), Hwb, bind_ret.
  destruct (IH s1 (set_WaitList l d)) as (s' & -> & HQ' & HW' & Ho & Hall);
    [by rewrite Hs1|done|rewrite Hs1; apply lookup_insert_eq|simpl; lia|].
  exists s'. split; [done|]. split; [done|]. split; [by trans s1|]. split.
  - rewrite Ho, Hs1. simpl. by rewrite insert_insert_eq.
  - intros t' [Ht'|Ht']%elem_of_cons; [|by apply Hall].
    apply WaitBlock0_inj in Ht' as ->. pose proof (w_threads _ _ HW' t) as Hw. rewrite Hs1 in Hw. simpl in Hw.
    rewrite lookup_insert_eq in Hw. destruct (threads s' !! t) as [y|]; [|done].
    exists y. split; [done|]. destruct Hw as (_ & _ & [->|[_ ->]]); done.
Qed.

Lemma release_all_run c j o d fuel s :
  held c c j s → queues ∅ s → dobjects s !! o = Some d → SignalState d < 100 →
  (length (WaitListHead d) <= fuel)%nat →
  ∃ s', KiDHeaderReleaseAll fuel o s = Ok (tt, s') ∧ queues ∅ s' ∧ woken s s' ∧
    dobjects s' = <[o := set_Signal 1 (set_WaitList [] d)]> (dobjects s) ∧
    ∀ t, WaitBlock0 t ∈ WaitListHead d → ∃ x, threads s' !! t = Some x ∧ State x = THREAD_STATE_READY.
Proof.
  intros Hh HQ Hd H100 Hf. unfold KiDHeaderReleaseAll.
  rewrite dispatch_run, (dobject_run _ _ _ _ Hd), (assert_releasable_run _ ∅ o) by (by destruct Hh || done).
  destruct (release_all_loop_run c j o fuel s d Hh HQ Hd Hf) as (s1 & Hrun & HQ1 & HW & Ho & Hall).
  rewrite (bind_Ok _ _ _ _ _ Hrun), (dobject_run _ _ _ (set_WaitList [] d)) by (rewrite Ho; apply lookup_insert_eq).
  eexists. split; [done|]. split; [|split; [|split]].
  - apply (queues_dobject ∅ o (set_WaitList [] d)); simpl; try done; [|by right].
    rewrite Ho. apply lookup_insert_eq.
  - destruct HW as [W1 W2 W3 W4 W5]. constructor; try done. simpl. intros o' H'.
    destruct (decide (o' = o)) as [->|]; [by rewrite lookup_insert_eq|rewrite lookup_insert_ne by done; auto].
  - simpl. by rewrite Ho, insert_insert_eq.
  - done.
Qed.

(** Every dispatcher operation starts and ends like this. *)
Lemma lock_consistent {B} idle (k : _ → M sched B) s :
  consistent idle s →
  ∃ p, bind KiLockDispatcherDataBase k s = k (CurrentIrql (cpu s)) (with_cpu p s) ∧
    held (CurrentThread (cpu s)) (CurrentThread (cpu s)) (CurrentIrql (cpu s)) (with_cpu p s) ∧
    queues ∅ (with_cpu p s) ∧ threads_ok idle (CurrentThread (cpu s)) (with_cpu p s).
Proof.
  intros [Hcpu Hi HQ [T1 T2 T3 T4 T5]]. destruct (lock_db_run k s Hcpu Hi) as (p & -> & Hp).
  exists p. split; [done|]. split; [done|]. split; [by apply queues_cpu|]. by constructor.
Qed.

Lemma unlock_consistent {B} idle c t j i (k : _ → M sched B) s :
  held c t j s → queues ∅ s → threads_ok idle c s → 0 <= i <= DISPATCH_LEVEL →
  ∃ p, bind (KiUnLockDispatcherDataBase run_dpc i) k s = k tt (with_cpu p s) ∧
    consistent idle (with_cpu p s) ∧ CurrentThread p = c ∧ CurrentIrql p = i.
Proof.
  intros Hh HQ [T1 T2 T3 T4 T5] Hi. destruct (unlock_db_run c t j i k s Hh Hi) as (p & -> & Hp).
  pose proof Hp as [Hc Hl _ _ _]. exists p. split; [done|]. split; [|done].
  constructor; simpl; rewrite ?Hc, ?Hl; [done|done|by apply queues_cpu|by constructor].
Qed.

(** The common part of KeReleaseSemaphore and KeReleaseMutant. *)
Lemma release_object_run idle o d (r : Z) s :
  consistent idle s → dobjects s !! o = Some d → SignalState d < 100 →
  ∃ s', (let! OldIrql := KiLockDispatcherDataBase in
      KiDHeaderRelease o >>> KiUnLockDispatcherDataBase run_dpc OldIrql >>> ret r) s = Ok (r, s') ∧
    consistent idle s' ∧ CurrentThread (cpu s') = CurrentThread (cpu s) ∧
    CurrentIrql (cpu s') = CurrentIrql (cpu s) ∧ released o d s s'.
Proof.
  intros HC Hd H100. pose proof HC as [_ Hi _ _]. edestruct (lock_consistent (B := Z) idle) as (p & -> & Hh & HQ & HT); [exact HC|].
  destruct (release_header_run _ _ o d (with_cpu p s) Hh HQ Hd H100) as (s1 & Hrun & HQ1 & HW & HR).
  rewrite (bind_Ok _ _ _ _ _ Hrun).
  assert (held (CurrentThread (cpu s)) (CurrentThread (cpu s)) (CurrentIrql (cpu s)) s1) as Hh1
    by (unfold held; by rewrite (w_cpu _ _ HW)).
  destruct (unlock_consistent idle _ _ _ (CurrentIrql (cpu s)) (λ _, ret r) s1 Hh1 HQ1
    (woken_threads _ _ _ _ HT HW) Hi) as (p' & -> & HC' & Hc' & Hi').
  exists (with_cpu p' s1). split; [done|]. split; [done|]. split; [done|]. split; [done|].
  unfold released in *. by destruct (WaitListHead d).
Qed.

(** The wait for an object that is signalled, and for one that is not. *)
Definition can_wait (c : addr) (d : DISPATCHER_HEADER) : Prop :=
  DType d ≠ OtherObject ∧
  (DType d = MutantObject → OwnerThread d ≠ c ∧ SignalState d ≠ 0).

Lemma wait_checks_run {B} c d (k : unit → M sched B) s :
  can_wait c d →
  bind (match DType d with
  | MutantObject =>
      assert_ (negb (OwnerThread d =? c)) >>>
      assert_ (negb (SignalState d =? 0))
  | OtherObject => halt BugCheck
  | _ => ret tt
  end) k s = k tt s.
Proof.
  intros [H1 H2]. destruct (DType d) eqn:Ht; try done. destruct (H2 eq_refl) as [H3 H4].
  rewrite bind_assoc. rewrite !assert_true; [done|by apply negb_true_iff, Z.eqb_neq..].
Qed.

Lemma wait_signalled_run dereference idle fuel o d s :
  consistent idle s → CurrentIrql (cpu s) <= APC_LEVEL → dobjects s !! o = Some d →
  can_wait (CurrentThread (cpu s)) d → SignalState d ≠ 0 ->
  ∃ s', KeWaitForSingleObject run_dpc here dereference fuel o s = Ok (tt, s') ∧ consistent idle s' ∧
    CurrentThread (cpu s') = CurrentThread (cpu s) ∧ CurrentIrql (cpu s') = CurrentIrql (cpu s) ∧
    threads s' = threads s ∧ Scheduler_list s' = Scheduler_list s ∧
    dobjects s' = <[o := set_Owner (if decide (DType d = MutantObject) then CurrentThread (cpu s) else OwnerThread d)
      (set_Signal (SignalState d + -1) d)]> (dobjects s).
Proof.
  intros HC Hi1 Hd Hw Hs0. pose proof HC as [_ Hi _ _]. unfold APC_LEVEL in *. set (c := CurrentThread (cpu s)) in *.
  unfold KeWaitForSingleObject. rewrite curirql_run, assert_true by (lia || by apply Z.leb_le).
  edestruct (lock_consistent (B := unit) idle) as (p & -> & Hh & HQ & HT); [exact HC|]. fold c in Hh, HT.
  rewrite (dobject_run _ _ _ d), curthread_run by done. pose proof Hh as [Hc Hl _ _ _]. rewrite Hc.
  rewrite wait_checks_run by done. unfold KiDHeaderAcquire.
  rewrite bind_assoc, dispatch_run by done. rewrite bind_assoc, (dobject_run _ _ _ d) by done.
  destruct (Z.eqb_spec (SignalState d) 0) as [|_]; [done|].
  destruct (q_object _ _ HQ o d Hd) as (_ & H0 & H1 & _). unfold is_signal in H0.
  rewrite bind_assoc, assert_true by (apply Z.ltb_lt; lia).
  unfold put_dobject at 1. rewrite bind_assoc, modify_run, bind_ret.
  simpl. rewrite s32_small by lia.
  set (d1 := set_Signal (SignalState d + -1) d). set (s1 := with_dobjects _ _).
  destruct (after_wait_run c c (CurrentIrql (cpu s)) o (CurrentIrql (cpu s)) s1)
    as (s' & -> & HR & Hi' & Hob); [done|simpl; rewrite lookup_insert_eq; eauto|done|apply (t_exit _ _ _ HT)|].
  exists s'. split; [done|].
  assert (queues ∅ s1) as HQ1 by (apply (queues_dobject ∅ o d d1 (with_cpu p s)); simpl; try done; [unfold is_signal; lia|]; right; by destruct H1).
  assert (threads_ok idle c s1) as HT1.
  { destruct (t_current _ _ _ HT) as [x Hx].
    apply (threads_frame idle c x (with_cpu p s)); try done.
    - simpl. by rewrite insert_id.
    - by apply (t_running _ _ _ HT c x Hx).
    - intros o'. simpl. destruct (decide (o' = o)) as [->|]; [by rewrite lookup_insert_eq|by rewrite lookup_insert_ne]. }
  split; [by apply (consistent_resumed idle c s1)|].
  destruct HR as [Rt _ Rl _ _ _ (i' & _ & [Rc _ _ _ _])]. split; [done|]. split; [done|].
  split; [done|]. split; [done|]. rewrite (Hob d1) by apply lookup_insert_eq.
  simpl. by rewrite insert_insert_eq.
Qed.

Lemma wait_blocks_run dereference idle fuel o d s :
  consistent idle s → CurrentIrql (cpu s) <= APC_LEVEL → dobjects s !! o = Some d →
  can_wait (CurrentThread (cpu s)) d → SignalState d = 0 → idle ≠ CurrentThread (cpu s) ->
  ∃ s' p t l, KeWaitForSingleObject run_dpc here dereference fuel o s = Ok (tt, s') ∧ consistent idle s' ∧
    CurrentThread (cpu s') = t ∧
    1 <= p <= 6 ∧ Scheduler_list s !! p = Some (t :: l) ∧
    (∀ p', p < p' <= 6 → Scheduler_list s !! p' = Some []) ∧
    Scheduler_list s' = <[p := l]> (Scheduler_list s) ∧
    (∃ y, threads s' !! CurrentThread (cpu s) = Some y ∧ State y = THREAD_STATE_WAITING) ∧
    ∃ w, dobjects s' !! o = Some (set_Owner w
      (set_WaitList (WaitListHead d ++ [WaitBlock0 (CurrentThread (cpu s))]) d)).
Proof.
  intros HC Hi1 Hd Hw H0 Hidle. pose proof HC as [_ Hi _ _]. unfold APC_LEVEL in *.
  set (c := CurrentThread (cpu s)) in *.
  unfold KeWaitForSingleObject. rewrite curirql_run, assert_true by (lia || by apply Z.leb_le).
  edestruct (lock_consistent (B := unit) idle) as (p & -> & Hh & HQ & HT); [exact HC|]. fold c in Hh, HT.
  rewrite (dobject_run _ _ _ d), curthread_run by done. pose proof Hh as [Hc Hl _ _ _]. rewrite Hc.
  rewrite wait_checks_run by done. unfold KiDHeaderAcquire.
  rewrite bind_assoc, dispatch_run by done. rewrite bind_assoc, (dobject_run _ _ _ d) by done.
  rewrite H0. cbn [Z.eqb]. rewrite bind_assoc, curthread_run, Hc.
  unfold KiInitWaitBlock. rewrite !bind_assoc, curthread_run, Hc, modify_run.
  unfold put_dobject. rewrite !bind_assoc, modify_run.
  destruct (t_current _ _ _ HT) as [x Hx].
  destruct (block_run idle c (CurrentIrql (cpu s)) o (CurrentIrql (cpu s)) fuel
    (PsExitThread run_dpc here dereference (Schedule run_dpc here dereference fuel) fuel) d x (with_cpu p s))
    as (s' & q & t & l & Hrun & HR); try done; [unfold APC_LEVEL; lia|].
  exists s', q, t, l. split; [|done].
  etrans; [|exact Hrun]. by rewrite bind_assoc.
Qed.

(** KeSetEvent wakes the waiters, and leaves the event not signalled. *)
Definition is_event (d : DISPATCHER_HEADER) : Prop :=
  DType d = EventNotificationObject ∨ DType d = EventSynchronizationObject.

Lemma release_event_run c j o d fuel s :
  held c c j s → queues ∅ s → dobjects s !! o = Some d → SignalState d < 100 →
  (length (WaitListHead d) <= fuel)%nat →
  ∃ s' d', (if decide (DType d = EventNotificationObject) then KiDHeaderReleaseAll fuel o
      else KiDHeaderRelease o) s = Ok (tt, s') ∧ queues ∅ s' ∧ woken s s' ∧
    dobjects s' !! o = Some d' ∧ DType d' = DType d ∧ OwnerThread d' = OwnerThread d ∧
    WaitListHead d' = (if decide (DType d = EventNotificationObject) then [] else tail (WaitListHead d)).
Proof.
  intros Hh HQ Hd H100 Hf. destruct (decide _) as [He|He].
  - destruct (release_all_run c j o d fuel s) as (s' & Hrun & HQ' & HW & Ho & _); try done.
    exists s', (set_Signal 1 (set_WaitList [] d)). split_and!; try done.
    rewrite Ho. apply lookup_insert_eq.
  - destruct (release_header_run c j o d s) as (s' & Hrun & HQ' & HW & HR); try done.
    exists s'. unfold released in HR. destruct (WaitListHead d) as [|b l] eqn:Hb.
    + destruct HR as (_ & _ & Ho). eexists. split; [done|]. split; [done|]. split; [done|].
      split; [rewrite Ho; apply lookup_insert_eq|done].
    + destruct HR as (Ho & _). eexists. split; [done|]. split; [done|]. split; [done|].
      split; [rewrite Ho; apply lookup_insert_eq|done].
Qed.

Lemma set_event_run idle o d fuel s :
  consistent idle s → dobjects s !! o = Some d → is_event d → SignalState d < 100 →
  (length (WaitListHead d) <= fuel)%nat →
  ∃ s' r, KeSetEvent run_dpc fuel o s = Ok (r, s') ∧ consistent idle s' ∧
    CurrentThread (cpu s') = CurrentThread (cpu s) ∧ CurrentIrql (cpu s') = CurrentIrql (cpu s) ∧
    ∃ d', dobjects s' !! o = Some d' ∧ DType d' = DType d ∧ SignalState d' = 0 ∧
      WaitListHead d' = (if decide (DType d = EventNotificationObject) then [] else tail (WaitListHead d)).
Proof.
  intros HC Hd He H100 Hf. pose proof HC as [_ Hi _ _]. unfold KeSetEvent.
  rewrite (dobject_run _ _ _ _ Hd). unfold assert_event at 1.
  rewrite assert_true by (apply orb_true_iff; rewrite !bool_decide_eq_true; done).
  edestruct (lock_consistent (B := Z) idle) as (p & -> & Hh & HQ & HT); [exact HC|].
  destruct (release_event_run _ _ o d fuel (with_cpu p s) Hh HQ Hd H100 Hf)
    as (s1 & d1 & Hrun & HQ1 & HW & Hd1 & Ht1 & _ & Hl1).
  rewrite (bind_Ok _ _ _ _ _ Hrun), (dobject_run _ _ _ _ Hd1). cbn [InterlockedExchange].
  unfold put_dobject. rewrite modify_run. set (s2 := with_dobjects _ s1).
  assert (woken (with_cpu p s) s2) as HW2.
  { destruct HW as [W1 W2 W3 W4 W5]. constructor; try done. simpl. intros o' H'.
    destruct (decide (o' = o)) as [->|]; [by rewrite lookup_insert_eq|rewrite lookup_insert_ne by done; auto]. }
  assert (queues ∅ s2) as HQ2 by (apply (queues_dobject ∅ o d1); simpl; auto; done).
  set (c := CurrentThread (cpu s)) in *. set (i := CurrentIrql (cpu s)) in *.
  assert (held c c i s2) as Hh2 by (unfold held; by rewrite (w_cpu _ _ HW2)).
  destruct (unlock_consistent idle c c i i (λ _, ret (SignalState d1)) s2 Hh2 HQ2
    (woken_threads _ _ _ _ HT HW2) Hi) as (p' & -> & HC' & Hc' & Hi').
  exists (with_cpu p' s2), (SignalState d1). split; [done|]. split; [done|]. split; [done|]. split; [done|].
  eexists. split; [simpl; apply lookup_insert_eq|done].
Qed.

Lemma clear_consistent idle o d s :
  consistent idle s → dobjects s !! o = Some d →
  consistent idle (with_dobjects (<[o := set_Signal 0 d]> (dobjects s)) s).
Proof.
  intros [Hcpu Hi HQ HT] Hd. destruct (t_current _ _ _ HT) as [x Hx].
  constructor; [done|done| |].
  - apply (queues_dobject ∅ o d); simpl; auto; done.
  - apply (threads_frame idle _ x s); try done; simpl.
    + by rewrite insert_id.
    + by apply (t_running _ _ _ HT _ x Hx).
    + intros o' H'. destruct (decide (o' = o)) as [->|]; [by rewrite lookup_insert_eq|by rewrite lookup_insert_ne].
Qed.

Lemma level_consistent idle n s :
  consistent idle s → 0 <= n <= DISPATCH_LEVEL → consistent idle (with_cpu (set_irql n (cpu s)) s).
Proof.
  intros [[H1 H2 H3 H4 H5] Hi HQ [T1 T2 T3 T4 T5]] Hn.
  constructor; simpl; [by constructor|done|by apply queues_cpu|by constructor].
Qed.

(** ** The system of threads *)

(** What the thread that runs, or an interrupt in it, can do. *)
Inductive sched_op :=
| OpSchedule                     (* a deferred call or the end of a delay *)
| OpRaise (n : Z) | OpLower (n : Z)
| OpWait (o : addr)
| OpReleaseSemaphore (o : addr) | OpReleaseMutant (o : addr)
| OpSetEvent (o : addr) | OpClearEvent (o : addr) | OpResetEvent (o : addr).

Definition ignore {S A} (m : M S A) : M S unit := m >>> ret tt.

Definition exec (dereference : addr → M sched unit) (fuel : nat) (op : sched_op) : M sched unit :=
  match op with
  | OpSchedule => Schedule run_dpc here dereference fuel
  | OpRaise n => ignore (in_cpu (KeRaiseIrql n))
  | OpLower n => in_cpu (KeLowerIrql run_dpc 2 n)
  | OpWait o => KeWaitForSingleObject run_dpc here dereference fuel o
  | OpReleaseSemaphore o => ignore (KeReleaseSemaphore run_dpc o 0 1)
  | OpReleaseMutant o => ignore (KeReleaseMutant run_dpc o)
  | OpSetEvent o => ignore (KeSetEvent run_dpc fuel o)
  | OpClearEvent o => KeClearEvent o
  | OpResetEvent o => ignore (KeResetEvent o)
  end.

(** What the assertions of the code ask of the caller; the idle thread does not wait. *)
Definition allowed (idle : addr) (fuel : nat) (op : sched_op) (s : sched) : Prop :=
  let c := CurrentThread (cpu s) in let i := CurrentIrql (cpu s) in
  match op with
  | OpSchedule => True
  | OpRaise n => i <= n <= DISPATCH_LEVEL
  | OpLower n => 0 <= n <= i
  | OpWait o => i <= APC_LEVEL ∧ c ≠ idle ∧ ∃ d, dobjects s !! o = Some d ∧ can_wait c d
  | OpReleaseSemaphore o => ∃ d, dobjects s !! o = Some d ∧ SignalState d < Limit d ∧ SignalState d < 100
  | OpReleaseMutant o => ∃ d, dobjects s !! o = Some d ∧ OwnerThread d = c ∧ SignalState d < 100
  | OpSetEvent o => ∃ d, dobjects s !! o = Some d ∧ is_event d ∧ SignalState d < 100 ∧
      (length (WaitListHead d) <= fuel)%nat
  | OpClearEvent o | OpResetEvent o => ∃ d, dobjects s !! o = Some d ∧ is_event d
  end.

Inductive sched_step (dereference : addr → M sched unit) (idle : addr) (fuel : nat) : sched → sched → Prop :=
| step_op op s s' : allowed idle fuel op s → exec dereference fuel op s = Ok (tt, s') →
    sched_step dereference idle fuel s s'.

Lemma owner_consistent idle o w d s :
  consistent idle s → dobjects s !! o = Some d →
  consistent idle (with_dobjects (<[o := set_Owner w d]> (dobjects s)) s).
Proof.
  intros [Hcpu Hi HQ HT] Hd. destruct (t_current _ _ _ HT) as [x Hx].
  destruct (q_object _ _ HQ o d Hd) as (_ & H0 & H1 & _).
  constructor; [done|done|by apply (queues_dobject ∅ o d)|].
  apply (threads_frame idle _ x s); try done; simpl.
  - by rewrite insert_id.
  - by apply (t_running _ _ _ HT _ x Hx).
  - intros o' H'. destruct (decide (o' = o)) as [->|]; [by rewrite lookup_insert_eq|by rewrite lookup_insert_ne].
Qed.

Lemma assert_event_run {B} d (k : unit → M sched B) s :
  is_event d → bind (assert_event d) k s = k tt s.
Proof. intros He. apply assert_true, orb_true_iff. by rewrite !bool_decide_eq_true. Qed.

Lemma exec_run dereference idle f op s :
  consistent idle s → allowed idle (S f) op s →
  ∃ s', exec dereference (S f) op s = Ok (tt, s') ∧ consistent idle s'.
Proof.
  intros HC HA. pose proof HC as [Hcpu Hi HQ HT]. unfold DISPATCH_LEVEL in *.
  destruct op as [|n|n|o|o|o|o|o|o]; cbn [exec allowed] in *; unfold ignore.
  - destruct (schedule_run dereference idle f s HC) as (s' & Hr & HC' & _). eauto.
  - unfold DISPATCH_LEVEL in *.
    rewrite (cpu_run _ _ _ _ _ (raise_run n (cpu s) ltac:(lia) ltac:(lia))).
    eexists. split; [done|]. apply level_consistent; [done|unfold DISPATCH_LEVEL; lia].
  - unfold in_cpu, zoom. rewrite lower_quiet by (lia || by destruct Hcpu).
    eexists. split; [done|]. apply level_consistent; [done|unfold DISPATCH_LEVEL; lia].
  - destruct HA as (Hi1 & Hidle & d & Hd & Hw). destruct (decide (SignalState d = 0)) as [H0|H0].
    + destruct (wait_blocks_run dereference idle (S f) o d s) as (s' & p & t & l & Hr & HC' & _); eauto.
    + destruct (wait_signalled_run dereference idle (S f) o d s) as (s' & Hr & HC' & _); eauto.
  - destruct HA as (d & Hd & HL & H100). unfold KeReleaseSemaphore.
    rewrite bind_assoc, (dobject_run _ _ _ _ Hd), bind_assoc, assert_true by (by apply Z.ltb_lt).
    rewrite !bind_assoc, !assert_true by done. cbv zeta.
    destruct (release_object_run idle o d (SignalState d) s HC Hd H100) as (s' & Hr & HC' & _).
    rewrite (bind_Ok _ _ _ _ _ Hr). eauto.
  - destruct HA as (d & Hd & HO & H100). unfold KeReleaseMutant.
    rewrite bind_assoc, (dobject_run _ _ _ _ Hd), bind_assoc, curthread_run, bind_assoc.
    rewrite assert_true by (by apply Z.eqb_eq). unfold put_dobject. rewrite bind_assoc, modify_run.
    pose proof (owner_consistent idle o NULL d s HC Hd) as HC1. set (s1 := with_dobjects _ s) in *.
    destruct (release_object_run idle o (set_Owner NULL d) 0 s1 HC1) as (s' & Hr & HC' & _);
      [apply lookup_insert_eq|done|].
    rewrite (bind_Ok _ _ _ _ _ Hr). eauto.
  - destruct HA as (d & Hd & He & H100 & Hf).
    destruct (set_event_run idle o d (S f) s HC Hd He H100 Hf) as (s' & r & Hr & HC' & _).
    rewrite (bind_Ok _ _ _ _ _ Hr). eauto.
  - destruct HA as (d & Hd & He). unfold KeClearEvent.
    rewrite (dobject_run _ _ _ _ Hd), assert_event_run by done.
    eexists. split; [done|]. by apply clear_consistent.
  - destruct HA as (d & Hd & He). unfold KeResetEvent.
    rewrite bind_assoc, (dobject_run _ _ _ _ Hd), bind_assoc, assert_event_run by done.
    eexists. split; [done|]. by apply clear_consistent.
Qed.

(** ** Properties *)


(** Schedule, several times. *)
Fixpoint schedules (dereference : addr → M sched unit) (fuel n : nat) : M sched unit :=
  match n with
  | O => ret tt
  | S n' => Schedule run_dpc here dereference fuel >>> schedules dereference fuel n'
  end.

(** C21: no thread of the highest ready priority starves: one that is behind [k]
    others in its list runs after [k+1] calls of Schedule. *)
Theorem schedule_round_robin dereference idle f p l1 t l2 x s :
  consistent idle s → threads s !! CurrentThread (cpu s) = Some x → Priority x <= p <= 6 ->
  Scheduler_list s !! p = Some (l1 ++ t :: l2) → (∀ p', p < p' <= 6 → Scheduler_list s !! p' = Some []) →
  ∃ s', schedules dereference (S f) (S (length l1)) s = Ok (tt, s') ∧
    consistent idle s' ∧ CurrentThread (cpu s') = t.
Proof.
  revert s x l2. induction l1 as [|t1 l1 IH]; intros s x l2 HC Hx Hp Hl Hh; cbn [schedules length];
    destruct (schedule_run dereference idle f s HC) as (s1 & Hr & HC1 & y & Hy & Hcase);
    rewrite (bind_Ok _ _ _ _ _ Hr); replace y with x in Hcase by congruence;
    (destruct Hcase as [[He _]|(q & u & l & l' & Hq & Hlq & Hhq & Hcur & (v & Hv & Hvp) & Hl' & Hls)];
      [rewrite He in Hl by lia; by destruct l1 || discriminate|]);
    (assert (q = p) as -> by (destruct (Z.lt_trichotomy q p) as [Hqp|[|Hqp]]; [|done|];
      [rewrite Hhq in Hl by lia; discriminate|rewrite Hh in Hlq by lia; discriminate]));
    rewrite Hl in Hlq; injection Hlq as <- <-; [by exists s1|].
  rewrite <- Hcur in Hv. destruct (decide (Priority x = p)) as [Hxp|Hxp].
  - rewrite Hxp, lookup_insert_eq in Hl'. injection Hl' as <-.
    rewrite Hxp in Hls. apply (IH s1 v (l2 ++ [CurrentThread (cpu s)])); try done; [lia| |].
    + by rewrite Hls, lookup_insert_eq, <- app_assoc.
    + intros p' Hp'. rewrite Hls, !lookup_insert_ne by lia. by apply Hh.
  - apply (IH s1 v l2); try done; [lia| |].
    + by rewrite Hls, lookup_insert_ne, lookup_insert_eq.
    + intros p' Hp'. rewrite Hls, !lookup_insert_ne by lia. by apply Hh.
Qed.

(** A counting semaphore with a first-in first-out queue: what the waits for a
    semaphore object and its releases are meant to do. *)
Definition sem_view (s : sched) (o : addr) : option (Z * list addr) :=
  d ← dobjects s !! o; Some (SignalState d, WaitListHead d).
Definition sem_wait (b : addr) (v : Z * list addr) : Z * list addr :=
  if v.1 =? 0 then (0, v.2 ++ [b]) else (v.1 - 1, v.2).
Definition sem_release (v : Z * list addr) : Z * list addr :=
  match v.2 with [] => (v.1 + 1, []) | _ :: q => (v.1, q) end.

(** C18: KeWaitForSingleObject and KeReleaseSemaphore implement the counting
    semaphore: a wait takes one from the count, or blocks at the end of the
    queue while another thread runs; a release makes the first waiter ready, or
    adds one to the count, and answers the count it found. *)
Theorem semaphore_refines dereference idle fuel o d s :
  consistent idle s → dobjects s !! o = Some d → DType d = SemaphoreObject →
  let c := CurrentThread (cpu s) in
  (CurrentIrql (cpu s) <= APC_LEVEL → c ≠ idle →
     ∃ s', KeWaitForSingleObject run_dpc here dereference fuel o s = Ok (tt, s') ∧
       sem_view s' o = sem_wait (WaitBlock0 c) <$> sem_view s o ∧
       (CurrentThread (cpu s') = c ↔ SignalState d ≠ 0)) ∧
  (SignalState d < Limit d → SignalState d < MAX_DISPATCH_SIGNAL_STATE →
     ∃ s', KeReleaseSemaphore run_dpc o 0 1 s = Ok (SignalState d, s') ∧
       sem_view s' o = sem_release <$> sem_view s o ∧ CurrentThread (cpu s') = c ∧
       ∀ t l, WaitListHead d = WaitBlock0 t :: l →
         ∃ x, threads s' !! t = Some x ∧ State x = THREAD_STATE_READY).
Proof.
  intros HC Hd Ht c. assert (can_wait c d) as Hcw by (split; congruence). unfold sem_view, sem_wait, sem_release.
  rewrite Hd. simpl. split.
  - intros Hi Hc. destruct (Z.eqb_spec (SignalState d) 0) as [H0|H0].
    + destruct (wait_blocks_run dereference idle fuel o d s) as (s' & p & t & l & Hr & HC' & Hcur & Hp & Hl & _ & _ & _ & w & Hw); auto.
      exists s'. split; [done|]. rewrite Hw. split; [simpl; by rewrite H0|]. split; [|done]. intros Hct. exfalso.
      destruct (q_list _ _ (s_queues _ _ HC) p _ Hl) as [_ He]. destruct (He t ltac:(left)) as (_ & x & Hx & Hxs & _).
      rewrite <- Hcur, Hct in Hx. apply (t_running _ _ _ (s_threads _ _ HC)) in Hx. rewrite Hxs in Hx. by destruct Hx as [_ Hx]; specialize (Hx eq_refl).
    + destruct (wait_signalled_run dereference idle fuel o d s) as (s' & Hr & HC' & Hcur & _ & _ & _ & Ho); auto.
      exists s'. split; [done|]. rewrite Ho, lookup_insert_eq. simpl. split; [|done]. done.
  - intros HL H100. unfold KeReleaseSemaphore.
    rewrite (dobject_run _ _ _ _ Hd), assert_true by (by apply Z.ltb_lt). rewrite !assert_true by done. cbv zeta.
    destruct (release_object_run idle o d (SignalState d) s HC Hd H100) as (s' & Hr & HC' & Hcur & _ & HR).
    exists s'. split; [done|]. unfold released in HR. destruct (WaitListHead d) as [|b l] eqn:Hb.
    + destruct HR as (_ & _ & Ho). rewrite Ho, lookup_insert_eq. simpl. by rewrite Hb.
    + destruct HR as (Ho & t & x & p & lst & -> & Hx & _ & Hths & _). rewrite Ho, lookup_insert_eq.
      split; [done|]. split; [done|]. intros t' l' [= <-%WaitBlock0_inj _]. rewrite Hths, lookup_insert_eq. by eexists.
Qed.

(** Setting an event nobody waits for is lost: KeSetEvent leaves the event
    not signalled, and the next thread that waits for it blocks. *)
Theorem set_event_lost dereference idle fuel o d s :
  consistent idle s → dobjects s !! o = Some d → is_event d → WaitListHead d = [] →
  SignalState d < MAX_DISPATCH_SIGNAL_STATE → CurrentIrql (cpu s) <= APC_LEVEL →
  CurrentThread (cpu s) ≠ idle →
  ∃ r s1 s2 x, KeSetEvent run_dpc fuel o s = Ok (r, s1) ∧
    KeWaitForSingleObject run_dpc here dereference fuel o s1 = Ok (tt, s2) ∧
    threads s2 !! CurrentThread (cpu s) = Some x ∧ State x = THREAD_STATE_WAITING.
Proof.
  intros HC Hd He Hw H100 Hi Hc.
  destruct (set_event_run idle o d fuel s HC Hd He H100) as (s1 & r & Hr & HC1 & Hc1 & Hi1 & d1 & Hd1 & Ht1 & H0 & _);
    [rewrite Hw; simpl; lia|].
  destruct (wait_blocks_run dereference idle fuel o d1 s1) as (s2 & p & t & l & Hr2 & _ & _ & _ & _ & _ & _ & (x & Hx & Hxs) & _).
  - done.
  - by rewrite Hi1.
  - done.
  - destruct He as [He|He]; split; congruence.
  - done.
  - by rewrite Hc1.
  - exists r, s1, s2, x. rewrite <- Hc1. done.
Qed.

(** Waiting for a mutant that another thread holds stops the machine. *)
Theorem held_mutant_stops dereference idle fuel o d s :
  consistent idle s → dobjects s !! o = Some d → DType d = MutantObject → SignalState d = 0 →
  CurrentIrql (cpu s) <= APC_LEVEL →
  KeWaitForSingleObject run_dpc here dereference fuel o s = Stop BugCheck.
Proof.
  intros HC Hd Ht H0 Hi. pose proof HC as [_ Hi' _ _]. unfold APC_LEVEL in *. unfold KeWaitForSingleObject.
  rewrite curirql_run, assert_true by (lia || by apply Z.leb_le).
  edestruct (lock_consistent (B := unit) idle) as (p & -> & _); [exact HC|].
  rewrite (dobject_run _ _ _ d), curthread_run, Ht by done. rewrite H0. rewrite bind_assoc.
  destruct (OwnerThread d =? _); done.
Qed.

(** A thread that is ready to run cannot be terminated by another one:
    PsExitThread never returns, because the guard of KiStandbyThread is always
    true. *)
Theorem exit_ready_thread_never_returns dereference reschedule fuel t x s :
  threads s !! t = Some x → State x = THREAD_STATE_READY → t ≠ NULL → t ≠ CurrentThread (cpu s) →
  ∃ e, PsExitThread run_dpc here dereference reschedule fuel t s = Stop e.
Proof.
  intros Hx Hs Ht0 Htc. unfold PsExitThread. rewrite curthread_run. cbv zeta.
  destruct (Z.eqb_spec t NULL) as [|_]; [done|].
  destruct (Z.eqb_spec t (CurrentThread (cpu s))) as [|_]; [done|].
  rewrite (thread_run _ _ _ _ Hx), Hs, assert_true by done. cbn.
  assert (∃ e, KiStandbyThread t s = Stop e) as [e He].
  { unfold KiStandbyThread. unfold bind at 1. destruct (assert_locked s) as [[[] s1]|e]; [|eauto].
    unfold bind, thread, deref. destruct (threads s1 !! t) as [y|]; [|eauto].
    destruct (State y); simpl; eauto. }
  exists e. rewrite bool_decide_eq_true_2 by done. cbn [when]. unfold bind at 1. by rewrite He.
Qed.

End runs.

(** ** A small system: an idle thread (100), a running thread (200), one that
    is ready at the same priority (300) and one that waits (400) for a
    semaphore (50); an event (60) and a mutant (70) that 300 holds. *)

Definition demo_thread (st : THREAD_STATE) (p : Z) (r : resume_point) : KTHREAD :=
  Thread st 5 10 0 p 4096 [] (Some r).
Definition demo_sched (irql : Z) : sched := {|
  cpu := Prcb irql 200 [] 0 {[ DispatcherDataBaseLock := unlocked; ExitThreadLock := SpinLk 0 NULL 0 ]} ∅;
  threads := {[ 100 := demo_thread THREAD_STATE_READY 1 AtStart;
                200 := demo_thread THREAD_STATE_RUNNING 3 AtStart;
                300 := demo_thread THREAD_STATE_READY 3 InSchedule;
                400 := demo_thread THREAD_STATE_WAITING 4 (InWait 50 0) ]};
  processes := {[ 10 := Process 5 77 ]};
  dobjects := {[ 50 := DHeader [464] SemaphoreObject 0 0 3;
                 60 := DHeader [] EventNotificationObject 1 0 0;
                 70 := DHeader [] MutantObject 0 300 0 ]};
  blocks := {[ 464 := WaitBlk 400 50 WAIT_TYPE_ANY ]};
  Scheduler_list := {[ 1 := [100]; 2 := []; 3 := [300]; 4 := []; 5 := []; 6 := [] ]};
  ExitThreadList := []; CurrentDirectory := 77; Esp0 := 0 |}.

(** Case analysis on a lookup in a concrete map. *)
Ltac lookup_cases H :=
  rewrite ?lookup_insert_Some, ?lookup_singleton_Some in H; simpl in H;
  repeat match type of H with
  | _ ∨ _ => destruct H as [H|H]
  | _ ∧ (_ ∧ _) => destruct H as [_ H]
  | _ ≠ _ ∧ _ => destruct H as [_ H]
  end;
  let H1 := fresh in let H2 := fresh in destruct H as [H1 H2]; subst.

Lemma demo_queues i : queues ∅ (demo_sched i).
Proof.
  constructor; simpl.
  - intros p l H. lookup_cases H; (split; [by apply (bool_decide_unpack _); vm_compute|]);
      intros t Ht; rewrite ?list_elem_of_singleton in Ht; try (by apply not_elem_of_nil in Ht); subst;
      (split; [apply not_elem_of_empty|]); eexists; (split; [reflexivity|done]).
  - intros p l p' l' t H H' Ht Ht'. lookup_cases H; lookup_cases H';
      rewrite ?list_elem_of_singleton in *; try (by apply not_elem_of_nil in Ht);
      try (by apply not_elem_of_nil in Ht'); try reflexivity; subst; discriminate.
  - intros p Hp. assert (p = 1 ∨ p = 2 ∨ p = 3 ∨ p = 4 ∨ p = 5 ∨ p = 6) as Hc by lia.
    destruct Hc as [->|[->|[->|[->|[->| ->]]]]]; eexists; reflexivity.
  - intros t x H Hs _. lookup_cases H; try discriminate Hs;
      [exists 1|exists 3]; eexists; (split; [lia|]); (split; [reflexivity|by left]).
  - intros o d H. lookup_cases H; simpl; (split; [by apply (bool_decide_unpack _); vm_compute|]);
      (split; [done|]); (split; [auto|]); intros b Hb;
      rewrite ?list_elem_of_singleton in Hb; try (by apply not_elem_of_nil in Hb); subst.
    exists 400. eexists. split; [done|]. split; [apply not_elem_of_empty|]. split; [reflexivity|done].
  - intros t x H Hs _. lookup_cases H; try discriminate Hs.
    exists 50. eexists. split; [reflexivity|by left].
  - intros t x H. lookup_cases H; simpl; (split; [done|]); (split; [lia|]);
      (split; [eexists; reflexivity|]); (split; [done|]); auto.
Qed.

Lemma demo_consistent i : 0 <= i <= 2 → consistent 100 (demo_sched i).
Proof.
  intros Hi. constructor; [by constructor|done|apply demo_queues|]. constructor; simpl.
  - intros t x H. lookup_cases H; done.
  - eexists. reflexivity.
  - intros t x H Hne. lookup_cases H; try done; (split; [done|]); eexists; reflexivity.
  - eexists. split; [reflexivity|done].
  - done.
Qed.

Definition no_dpc (d : addr) : M prcb unit := ret tt.
Definition no_dereference (t : addr) : M sched unit := ret tt.


Lemma schedule_round_robin_witness :
  ∃ s', schedules no_dpc no_dereference 1 1 (demo_sched 2) = Ok (tt, s') ∧
    CurrentThread (cpu s') = 300.
Proof.
  destruct (schedule_round_robin no_dpc no_dereference 100 0 3 [] 300 []
    (demo_thread THREAD_STATE_RUNNING 3 AtStart) (demo_sched 2)) as (s' & Hr & _ & Hc).
  - apply demo_consistent. lia.
  - reflexivity.
  - simpl. lia.
  - reflexivity.
  - intros p' Hp'. assert (p' = 4 ∨ p' = 5 ∨ p' = 6) as [->|[->| ->]] by lia; reflexivity.
  - exists s'. split; [exact Hr|exact Hc].
Defined.

Lemma semaphore_refines_witness :
  (∃ s', KeWaitForSingleObject no_dpc here no_dereference 1 50 (demo_sched 0) = Ok (tt, s') ∧
     sem_view s' 50 = Some (0, [464; 264])) ∧
  (∃ s', KeReleaseSemaphore no_dpc 50 0 1 (demo_sched 0) = Ok (0, s') ∧ sem_view s' 50 = Some (0, [])).
Proof.
  destruct (semaphore_refines no_dpc no_dereference 100 1 50 (DHeader [464] SemaphoreObject 0 0 3)
    (demo_sched 0)) as [Hw Hr]; [apply demo_consistent; lia|reflexivity|reflexivity|].
  split.
  - destruct Hw as (s' & Hr' & Hv & _); [unfold APC_LEVEL; simpl; lia|done|]. exists s'. split; [exact Hr'|exact Hv].
  - destruct Hr as (s' & Hr' & Hv & _); [simpl; lia|done|]. exists s'. split; [exact Hr'|exact Hv].
Defined.

Lemma set_event_lost_witness :
  ∃ r s1 s2, KeSetEvent no_dpc 1 60 (demo_sched 0) = Ok (r, s1) ∧
    KeWaitForSingleObject no_dpc here no_dereference 1 60 s1 = Ok (tt, s2) ∧
    CurrentThread (cpu s2) = 300.
Proof.
  destruct (set_event_lost no_dpc no_dereference 100 1 60 (DHeader [] EventNotificationObject 1 0 0)
    (demo_sched 0)) as (r & s1 & s2 & x & Hr & Hw & _);
    [apply demo_consistent; lia|reflexivity|by left|reflexivity|done|unfold APC_LEVEL; simpl; lia|done|].
  exists r, s1, s2. split; [exact Hr|]. split; [exact Hw|].
  assert (KeSetEvent no_dpc 1 60 (demo_sched 0) = Ok (r, s1)) as E by exact Hr.
  vm_compute in E. injection E as _ <-. vm_compute in Hw. by injection Hw as <-.
Defined.

Lemma held_mutant_stops_witness :
  KeWaitForSingleObject no_dpc here no_dereference 1 70 (demo_sched 0) = Stop BugCheck.
Proof.
  apply (held_mutant_stops no_dpc no_dereference 100 1 70 (DHeader [] MutantObject 0 300 0));
    [apply demo_consistent; lia|reflexivity|reflexivity|reflexivity|unfold APC_LEVEL; simpl; lia].
Defined.

Lemma exit_ready_thread_never_returns_witness :
  ∃ e, PsExitThread no_dpc here no_dereference (ret tt) 1 300 (demo_sched 2) = Stop e.
Proof.
  apply (exit_ready_thread_never_returns no_dpc no_dereference (ret tt) 1 300
    (demo_thread THREAD_STATE_READY 3 InSchedule) (demo_sched 2)); done.
Defined.
