(* ===== verification/Pool.v ===== *)
(** * Pool: the kernel pool allocator (kern/mm/pool.c)

    A pool is a region of virtual memory tiled by blocks, each a POOLHEADER
    followed by its memory; the blocks of a pool are on one list in address
    order.  The model keeps the headers, by address, in list order; the
    contents of the memory (of which the code only writes [mem[0]]) is left
    out.  Lists.v relates the LIST_* macros to the list operations used here.
    [W] is the state of the rest of the kernel: its spin lock PoolLock and its
    virtual memory are the classes the pool is verified against. *)

From S2P Require Import Prelude Types Irql.

(** ** Data *)

Definition PagedPool : Z := 0.
Definition NonPagedPool : Z := 1.
Definition NUMBEROFPOOLS : Z := 2.

Definition NULLTAG : Z := 0.
Definition POOL_STATUS_FREE : Z := 0.
Definition POOL_STATUS_ALLOCATED : Z := 1.
Definition MINIMUMFREEPOOLSIZE : Z := 512.
Definition POOLPAD : Z := 56.

(** PoolType, size, the two links, Tag and status take 24 bytes; [mem[1]] is
    the 25th and the structure is padded to a multiple of 4. *)
Definition offsetof_mem : Z := 24.
Definition sizeof_POOLHEADER : Z := 28.

Record POOLHEADER := PoolHeader {
  ph_addr : addr; PoolType : Z; size : Z; Tag : Z; status : Z }.

(** The interface the pool needs from the memory manager. *)
Class VirtualMemory (W : Type) := { VirtualAlloc : addr → Z → Z → M W KSTATUS }.

Record pools (W : Type) := Pools { KernelPools : gmap Z (list POOLHEADER); world : W }.
Arguments Pools {W}.
Arguments KernelPools {W}.
Arguments world {W}.

(** ** Blocks on a list, by address *)

Definition is_at (a : addr) (b : POOLHEADER) : bool := ph_addr b =? a.

Definition upd (a : addr) (f : POOLHEADER → POOLHEADER) (l : list POOLHEADER) :=
  map (λ b, if is_at a b then f b else b) l.

Fixpoint insert_after (a : addr) (x : POOLHEADER) (l : list POOLHEADER) : list POOLHEADER :=
  match l with
  | [] => []
  | b :: l' => if is_at a b then b :: x :: l' else b :: insert_after a x l'
  end.

Definition remove (a : addr) (l : list POOLHEADER) : list POOLHEADER :=
  List.filter (λ b, negb (is_at a b)) l.

Fixpoint next (a : addr) (l : list POOLHEADER) : option POOLHEADER :=
  match l with
  | [] => None
  | b :: l' => if is_at a b then head l' else next a l'
  end.

Fixpoint prev (a : addr) (l : list POOLHEADER) : option POOLHEADER :=
  match l with
  | b :: ((c :: _) as l') => if is_at a c then Some b else prev a l'
  | _ => None
  end.

Definition set_size (n : Z) (b : POOLHEADER) : POOLHEADER :=
  PoolHeader (ph_addr b) (PoolType b) n (Tag b) (status b).
Definition mark (t s : Z) (b : POOLHEADER) : POOLHEADER :=
  PoolHeader (ph_addr b) (PoolType b) (size b) t s.

Definition is_allocated (b : POOLHEADER) : bool := TEST_FLAG (status b) POOL_STATUS_ALLOCATED.

(** ** The operations *)

Section pool.
Context {W : Type} `{!SpinLock W} `{!VirtualMemory W}.

Definition outside {A} (m : M W A) : M (pools W) A :=
  zoom world (λ w s, Pools (KernelPools s) w) m.
Definition get_list (pooltype : Z) : M (pools W) (list POOLHEADER) :=
  deref (λ s, KernelPools s !! pooltype).
Definition put_list (pooltype : Z) (l : list POOLHEADER) : M (pools W) unit :=
  modify (λ s, Pools (<[pooltype := l]> (KernelPools s)) (world s)).

Definition MmInitializePool (va sz pooltype : Z) : M (pools W) KSTATUS :=
  put_list pooltype [] >>>
  let! st := outside (VirtualAlloc va sz KPOOL_PERM) in
  if negb (K_SUCCESS st) then halt BugCheck
  else
    let pPoolHeader :=
      PoolHeader va pooltype (u32 (sz - sizeof_POOLHEADER)) NULLTAG POOL_STATUS_FREE in
    let! l := get_list pooltype in
    put_list pooltype (pPoolHeader :: l) >>>
    ret STATUS_SUCCESS.

(** Padded and rounded up to a multiple of 4, in 32 bits. *)
Definition request (NumberOfBytes : Z) : Z := ROUNDUP (u32 (NumberOfBytes + POOLPAD)) 4.

Definition MmAllocatePoolWithTag (pooltype NumberOfBytes tag : Z) : M (pools W) addr :=
  let! CurrentIrql := outside (gets sl_irql) in
  assert_ (CurrentIrql <=? DISPATCH_LEVEL) >>>
  when (CurrentIrql =? DISPATCH_LEVEL) (assert_ (pooltype =? NonPagedPool)) >>>
  let N := request NumberOfBytes in
  let! l0 := get_list pooltype in
  match l0 with
  | [] => halt BugCheck
  | _ =>
      let! OldIrql := outside sl_acquire in
      let! l := get_list pooltype in
      match List.find (λ b, negb (is_allocated b) && (N <? size b)) l with
      | None => outside (sl_release OldIrql) >>> ret NULL
      | Some b =>
          when (is_allocated b) (outside (sl_release OldIrql) >>> halt BugCheck) >>>
          when (N <? u32 (size b - MINIMUMFREEPOOLSIZE))
            (let new := PoolHeader (u32 (ph_addr b + sizeof_POOLHEADER + N)) pooltype
                          (u32 (size b - sizeof_POOLHEADER - N)) NULLTAG POOL_STATUS_FREE in
             put_list pooltype (upd (ph_addr b) (set_size N) (insert_after (ph_addr b) new l))) >>>
          let! l' := get_list pooltype in
          put_list pooltype
            (upd (ph_addr b) (λ c, mark tag (SET_FLAG (status c) POOL_STATUS_ALLOCATED) c) l') >>>
          outside (sl_release OldIrql) >>>
          ret (u32 (ph_addr b + offsetof_mem))
      end
  end.

(** The header at an address, with the list it is on. *)
Definition header_at (a : addr) (s : pools W) : option POOLHEADER :=
  let in_list i :=
    match KernelPools s !! i with
    | Some l => List.find (λ b, is_at a b && (PoolType b =? i)) l
    | None => None
    end in
  match in_list PagedPool with
  | Some b => Some b
  | None => in_list NonPagedPool
  end.

(** The check reads [(!allocated || pooltype >= NUMBEROFPOOLS || Tag != 0) ?
    (pPoolBlock->Tag != Tag) : 0]: the conditional binds less than [||]. *)
Definition verification_failed (b : POOLHEADER) (tag : Z) : bool :=
  if negb (is_allocated b) || (NUMBEROFPOOLS <=? PoolType b) || negb (tag =? 0)
  then negb (Tag b =? tag) else false.

Definition MmFreePoolWithTag (P tag : Z) : M (pools W) unit :=
  let a := u32 (P - offsetof_mem) in
  let! b := deref (header_at a) in
  let pooltype := PoolType b in
  if verification_failed b tag then halt BugCheck
  else
    let! l := get_list pooltype in
    put_list pooltype (upd a (mark NULLTAG POOL_STATUS_FREE) l) >>>
    let! OldIrql := outside sl_acquire in
    let! l := get_list pooltype in
    match next a l with
    | Some n =>
        when (negb (is_allocated n))
          (put_list pooltype (remove (ph_addr n)
             (upd a (λ c, set_size (u32 (size c + (size n + sizeof_POOLHEADER))) c) l)))
    | None => ret tt
    end >>>
    let! l := get_list pooltype in
    let! c := deref (λ _, List.find (is_at a) l) in
    match prev a l with
    | Some p =>
        when (negb (is_allocated p))
          (put_list pooltype (remove a
             (upd (ph_addr p) (set_size (u32 (size p + (size c + sizeof_POOLHEADER)))) l)))
    | None => ret tt
    end >>>
    outside (sl_release OldIrql).

(** *** The self test run at start-up *)

Definition checked_block (pooltype : Z) (o : option POOLHEADER) (sz : Z) (allocated : bool)
    : M (pools W) POOLHEADER :=
  match o with
  | None => halt BugCheck
  | Some b =>
      assert_ (PoolType b =? pooltype) >>>
      assert_ (size b =? sz) >>>
      assert_ (Bool.eqb (is_allocated b) allocated) >>>
      ret b
  end.

(** One of the three allocations of the test: the block [a] is used, and the
    next block is what is left of the pool. *)
Definition test_alloc (pooltype : Z) (a : addr) (left : Z) : M (pools W) (addr * addr) :=
  let n := 12 in
  let! ptr := MmAllocatePoolWithTag pooltype n 0x74657374 in
  assert_ (negb (ptr =? NULL)) >>>
  assert_ (u32 (a + offsetof_mem) =? ptr) >>>
  let! l := get_list pooltype in
  checked_block pooltype (List.find (is_at a) l) (n + POOLPAD) true >>>
  let! b := checked_block pooltype (next a l) left false in
  ret (ptr, ph_addr b).

Definition Test_Pool (pooltype : Z) : M (pools W) unit :=
  let tag := 0x74657374 in
  let used := 12 + POOLPAD + sizeof_POOLHEADER in
  let! l := get_list pooltype in
  let! first := deref (λ _, head l) in
  let sz := size first in
  let! (ptr1, a1) := test_alloc pooltype (ph_addr first) (u32 (sz - used)) in
  let! (ptr2, a2) := test_alloc pooltype a1 (u32 (sz - used * 2)) in
  let! (ptr3, _) := test_alloc pooltype a2 (u32 (sz - used * 3)) in
  MmFreePoolWithTag ptr1 tag >>>
  let! l := get_list pooltype in
  let! b := deref (λ _, head l) in
  assert_ (negb (is_allocated b)) >>>
  MmFreePoolWithTag ptr3 tag >>>
  let! l := get_list pooltype in
  let! c := deref (λ _, next (ph_addr b) l) in
  let! c := deref (λ _, next (ph_addr c) l) in
  assert_ (negb (is_allocated c)) >>>
  MmFreePoolWithTag ptr2 tag >>>
  let! l := get_list pooltype in
  let! b := checked_block pooltype (head l) sz false in
  assert_ (match next (ph_addr b) l with None => true | Some _ => false end).

Definition MmInitializeAllPools : M (pools W) unit :=
  put_list PagedPool [] >>>
  put_list NonPagedPool [] >>>
  MmInitializePool MMPAGEPOOL_START MMPAGEPOOL_SIZE PagedPool >>>
  MmInitializePool MMNONPAGEPOOL_START MMNONPAGEPOOL_SIZE NonPagedPool >>>
  Test_Pool PagedPool >>>
  Test_Pool NonPagedPool.

End pool.

(** ** The specification: first fit on the list of blocks *)

Definition fits (N : Z) (b : POOLHEADER) : bool := negb (is_allocated b) && (N <? size b).

(** Split a list at the first block that satisfies [f]. *)
Fixpoint split_first (f : POOLHEADER → bool) (l : list POOLHEADER)
    : option (list POOLHEADER * POOLHEADER * list POOLHEADER) :=
  match l with
  | [] => None
  | b :: l' =>
      if f b then Some ([], b, l')
      else match split_first f l' with
           | Some (l1, c, l2) => Some (b :: l1, c, l2)
           | None => None
           end
  end.

(** The blocks a free block becomes when [N] bytes of it are allocated. *)
Definition carve (pt N tag : Z) (b : POOLHEADER) : list POOLHEADER :=
  let s := SET_FLAG (status b) POOL_STATUS_ALLOCATED in
  if N <? u32 (size b - MINIMUMFREEPOOLSIZE) then
    [PoolHeader (ph_addr b) (PoolType b) N tag s;
     PoolHeader (u32 (ph_addr b + sizeof_POOLHEADER + N)) pt
       (u32 (size b - sizeof_POOLHEADER - N)) NULLTAG POOL_STATUS_FREE]
  else [PoolHeader (ph_addr b) (PoolType b) (size b) tag s].

Definition first_fit (pt N tag : Z) (l : list POOLHEADER) : option (addr * list POOLHEADER) :=
  match split_first (fits N) l with
  | Some (l1, b, l2) => Some (u32 (ph_addr b + offsetof_mem), l1 ++ carve pt N tag b ++ l2)
  | None => None
  end.

(** ** The invariant of a pool *)

(** The blocks tile [lo, hi). *)
Fixpoint tiled (lo hi : Z) (l : list POOLHEADER) : Prop :=
  match l with
  | [] => lo = hi
  | b :: l' => ph_addr b = lo ∧ 0 <= size b ∧ (4 | size b) ∧
               tiled (lo + sizeof_POOLHEADER + size b) hi l'
  end.

(** No two free blocks are next to each other. *)
Fixpoint separated (l : list POOLHEADER) : Prop :=
  match l with
  | b :: ((c :: _) as l') => (is_allocated b = true ∨ is_allocated c = true) ∧ separated l'
  | _ => True
  end.

Definition good_block (pt : Z) (b : POOLHEADER) : Prop :=
  PoolType b = pt ∧ (status b = POOL_STATUS_ALLOCATED ∨ status b = POOL_STATUS_FREE ∧ Tag b = NULLTAG).

Definition pool_inv (pt lo hi : Z) (l : list POOLHEADER) : Prop :=
  0 < lo ∧ hi < 2 ^ 32 ∧ (4 | lo) ∧ tiled lo hi l ∧ separated l ∧ Forall (good_block pt) l.

(** Freeing a block: it is merged with the free block after it, then with the
    free block before it. *)
Definition merge_next (b : POOLHEADER) (l2 : list POOLHEADER) : POOLHEADER * list POOLHEADER :=
  match l2 with
  | n :: l2' =>
      if is_allocated n then (b, l2)
      else (set_size (u32 (size b + (size n + sizeof_POOLHEADER))) b, l2')
  | [] => (b, [])
  end.

Definition merge_prev (l1 : list POOLHEADER) (c : POOLHEADER) (l2 : list POOLHEADER) :=
  match last l1 with
  | Some p =>
      if is_allocated p then l1 ++ c :: l2
      else removelast l1 ++ set_size (u32 (size p + (size c + sizeof_POOLHEADER))) p :: l2
  | None => c :: l2
  end.

Definition free_list (l1 : list POOLHEADER) (b : POOLHEADER) (l2 : list POOLHEADER) :=
  let '(c, l2') := merge_next (mark NULLTAG POOL_STATUS_FREE b) l2 in merge_prev l1 c l2'.

(** The kernel's two pools. *)
Definition kernel_inv {W} (lp ln : list POOLHEADER) (s : pools W) : Prop :=
  KernelPools s !! PagedPool = Some lp ∧ KernelPools s !! NonPagedPool = Some ln ∧
  pool_inv PagedPool MMPAGEPOOL_START MMPAGEPOOL_END lp ∧
  pool_inv NonPagedPool MMNONPAGEPOOL_START MMNONPAGEPOOL_END ln.

(** ** Lemmas on blocks by address *)

Abbreviation addrs l := (map ph_addr l).

Lemma is_at_refl b : is_at (ph_addr b) b = true.
Proof. apply Z.eqb_refl. Qed.

Lemma is_at_ne a b : ph_addr b ≠ a → is_at a b = false.
Proof. apply Z.eqb_neq. Qed.

Lemma notin_cons a b l : a ∉ addrs (b :: l) → is_at a b = false ∧ a ∉ addrs l.
Proof. simpl. rewrite not_elem_of_cons. intros [H1 H2]. split; [by apply is_at_ne|done]. Qed.

Lemma upd_notin a f l : a ∉ addrs l → upd a f l = l.
Proof.
  induction l as [|b l IH]; [done|]. intros [H1 H2]%notin_cons. simpl.
  by rewrite H1, IH.
Qed.

Lemma upd_middle a f l1 b l2 :
  ph_addr b = a → a ∉ addrs l1 → a ∉ addrs l2 → upd a f (l1 ++ b :: l2) = l1 ++ f b :: l2.
Proof.
  intros Ha H1 H2. unfold upd. rewrite map_app. simpl.
  fold (upd a f l1) (upd a f l2). rewrite !upd_notin by done.
  by rewrite <- Ha, is_at_refl.
Qed.

Lemma insert_after_middle a x l1 b l2 :
  ph_addr b = a → a ∉ addrs l1 → insert_after a x (l1 ++ b :: l2) = l1 ++ b :: x :: l2.
Proof.
  intros Ha. induction l1 as [|c l1 IH]; simpl.
  - intros _. by rewrite <- Ha, is_at_refl.
  - intros [H1 H2]%notin_cons. by rewrite H1, IH.
Qed.

Lemma remove_notin a l : a ∉ addrs l → remove a l = l.
Proof.
  induction l as [|b l IH]; [done|]. intros [H1 H2]%notin_cons. simpl.
  by rewrite H1, IH.
Qed.

Lemma remove_middle a l1 b l2 :
  ph_addr b = a → a ∉ addrs l1 → a ∉ addrs l2 → remove a (l1 ++ b :: l2) = l1 ++ l2.
Proof.
  intros Ha H1 H2. unfold remove. rewrite List.filter_app. simpl.
  fold (remove a l1) (remove a l2). rewrite !remove_notin by done.
  by rewrite <- Ha, is_at_refl.
Qed.

Lemma next_middle a l1 b l2 :
  ph_addr b = a → a ∉ addrs l1 → next a (l1 ++ b :: l2) = head l2.
Proof.
  intros Ha. induction l1 as [|c l1 IH]; simpl.
  - intros _. by rewrite <- Ha, is_at_refl.
  - intros [H1 H2]%notin_cons. by rewrite H1, IH.
Qed.

Lemma prev_notin a c l : a ∉ addrs l → prev a (c :: l) = None.
Proof.
  revert c. induction l as [|b l IH]; intros c; [done|].
  intros [H1 H2]%notin_cons. cbn [prev]. rewrite H1. by apply IH.
Qed.

Lemma prev_middle a l1 b l2 :
  ph_addr b = a → a ∉ addrs l1 → a ∉ addrs l2 → prev a (l1 ++ b :: l2) = last l1.
Proof.
  intros Ha H1 H2. induction l1 as [|c l1 IH]; [by apply prev_notin|].
  apply notin_cons in H1 as [_ H1]. specialize (IH H1).
  destruct l1 as [|d l1]; simpl.
  - by rewrite <- Ha, is_at_refl.
  - apply notin_cons in H1 as [Hd _]. rewrite Hd. exact IH.
Qed.

Lemma find_middle (f : POOLHEADER → bool) l1 b l2 :
  Forall (λ c, f c = false) l1 → f b = true → List.find f (l1 ++ b :: l2) = Some b.
Proof. intros H Hb. induction H as [|c l1 Hc _ IH]; simpl; [by rewrite Hb|by rewrite Hc]. Qed.

Lemma find_at_middle a l1 b l2 :
  ph_addr b = a → a ∉ addrs l1 → List.find (is_at a) (l1 ++ b :: l2) = Some b.
Proof.
  intros Ha H1. apply find_middle; [|by rewrite <- Ha, is_at_refl].
  apply Forall_forall. intros c Hc. apply is_at_ne. intros <-. apply H1.
  apply list_elem_of_In, in_map, list_elem_of_In, Hc.
Qed.

Lemma split_first_spec f l :
  match split_first f l with
  | Some (l1, b, l2) => l = l1 ++ b :: l2 ∧ Forall (λ c, f c = false) l1 ∧ f b = true
  | None => Forall (λ c, f c = false) l
  end.
Proof.
  induction l as [|b l IH]; simpl; [done|].
  destruct (f b) eqn:Hb; [by repeat split|].
  destruct (split_first f l) as [[[l1 c] l2]|]; [|by constructor].
  destruct IH as (-> & H1 & H2). repeat split; [by constructor|done].
Qed.

Lemma find_none (f : POOLHEADER → bool) l :
  Forall (λ c, f c = false) l → List.find f l = None.
Proof. induction 1 as [|c l Hc _ IH]; simpl; [done|by rewrite Hc]. Qed.

(** ** Tilings *)

Lemma tiled_app lo hi l1 l2 :
  tiled lo hi (l1 ++ l2) ↔ ∃ mid, tiled lo mid l1 ∧ tiled mid hi l2.
Proof.
  revert lo. induction l1 as [|b l1 IH]; intros lo; simpl.
  - split; [eauto|]. by intros (? & -> & ?).
  - rewrite IH. naive_solver.
Qed.

Lemma tiled_le lo hi l : tiled lo hi l → lo <= hi.
Proof.
  revert lo. induction l as [|b l IH]; simpl; intros lo; [lia|].
  unfold sizeof_POOLHEADER. intros (_ & H0 & _ & H%IH). lia.
Qed.

Lemma tiled_bounds lo hi l b :
  tiled lo hi l → b ∈ l → lo <= ph_addr b ∧ ph_addr b + sizeof_POOLHEADER + size b <= hi.
Proof.
  revert lo. induction l as [|c l IH]; intros lo; [by rewrite elem_of_nil|].
  simpl. intros (Hc & H0 & _ & Ht) [->|Hb]%elem_of_cons.
  - apply tiled_le in Ht. lia.
  - destruct (IH _ Ht Hb). unfold sizeof_POOLHEADER in *. lia.
Qed.

Lemma tiled_notin lo hi l a : tiled lo hi l → a < lo ∨ hi <= a → a ∉ addrs l.
Proof.
  intros Ht Ha (b & <- & Hb%list_elem_of_In)%list_elem_of_In%in_map_iff.
  destruct (tiled_bounds _ _ _ _ Ht Hb). pose proof (tiled_le _ _ _ Ht).
  assert (0 <= size b) as Hs.
  { apply list_elem_of_split in Hb as (l1 & l2 & ->).
    apply tiled_app in Ht as (mid & _ & Ht). simpl in Ht. lia. }
  unfold sizeof_POOLHEADER in *. lia.
Qed.

(** In a tiling an address names one block. *)
Lemma tiled_unique lo hi l1 b l2 :
  tiled lo hi (l1 ++ b :: l2) → ph_addr b ∉ addrs l1 ∧ ph_addr b ∉ addrs l2.
Proof.
  intros (mid & H1 & Hb & H0 & _ & H2)%tiled_app. unfold sizeof_POOLHEADER in *.
  split; [eapply tiled_notin; [exact H1|lia]|eapply tiled_notin; [exact H2|lia]].
Qed.

Lemma tiled_replace lo hi l1 b c l2 :
  ph_addr c = ph_addr b → size c = size b →
  tiled lo hi (l1 ++ b :: l2) → tiled lo hi (l1 ++ c :: l2).
Proof.
  intros Ha Hs (mid & H1 & H2)%tiled_app. apply tiled_app. exists mid. split; [done|].
  simpl in *. by rewrite Ha, Hs.
Qed.

(** Two neighbours of a tiling merged into one. *)
Lemma tiled_merge lo hi l1 b n l2 :
  0 < lo → hi < 2 ^ 32 → tiled lo hi (l1 ++ b :: n :: l2) →
  tiled lo hi (l1 ++ set_size (u32 (size b + (size n + sizeof_POOLHEADER))) b :: l2).
Proof.
  intros Hlo Hhi (mid & H1 & H2)%tiled_app. apply tiled_app. exists mid. split; [done|].
  apply tiled_le in H1. simpl in *. unfold sizeof_POOLHEADER in *.
  destruct H2 as (Ha & Hb & Hb4 & Hn & H0 & Hn4 & H2). pose proof (tiled_le _ _ _ H2).
  rewrite u32_small by lia. split; [done|]. split; [lia|]. split.
  - apply Z.divide_add_r; [done|]. apply Z.divide_add_r; [done|]. by exists 7.
  - by replace (mid + 28 + (size b + (size n + 28))) with (mid + 28 + size b + 28 + size n) by lia.
Qed.

(** What a free block may be followed by. *)
Definition starts_allocated (l : list POOLHEADER) : Prop :=
  match l with [] => True | b :: _ => is_allocated b = true end.
Definition ends_allocated (l : list POOLHEADER) : Prop :=
  match last l with None => True | Some b => is_allocated b = true end.

Lemma separated_free l1 b l2 :
  is_allocated b = false →
  separated (l1 ++ b :: l2) ↔
    separated l1 ∧ separated l2 ∧ ends_allocated l1 ∧ starts_allocated l2.
Proof.
  intros Hb. induction l1 as [|c l1 IH].
  - simpl. destruct l2 as [|d l2]; simpl; [naive_solver|].
    rewrite Hb. unfold ends_allocated. simpl. naive_solver.
  - destruct l1 as [|d l1].
    + simpl in *. unfold ends_allocated in *. simpl in *. rewrite IH, Hb. naive_solver.
    + assert (ends_allocated (c :: d :: l1) = ends_allocated (d :: l1)) as E by done.
      rewrite E. simpl in *. rewrite IH. tauto.
Qed.

Lemma separated_app l1 l2 : separated (l1 ++ l2) → separated l1 ∧ separated l2.
Proof.
  induction l1 as [|c l1 IH]; [done|]. destruct l1 as [|d l1]; simpl in *.
  - destruct l2; [done|tauto].
  - tauto.
Qed.

Lemma separated_cons b l : separated (b :: l) → separated l.
Proof. destruct l; [done|]. simpl. tauto. Qed.

(** A block of allocated status can be put anywhere. *)
Lemma separated_alloc l1 b l2 :
  is_allocated b = true → separated l1 → separated l2 → separated (l1 ++ b :: l2).
Proof.
  intros Hb. induction l1 as [|c l1 IH]; intros H1 H2.
  - simpl. destruct l2; [done|]. split; [by left|done].
  - destruct l1 as [|d l1]; simpl in *; [|tauto].
    split; [by right|]. destruct l2; [done|]. split; [by left|done].
Qed.

Lemma good_free pt b : good_block pt b → is_allocated b = false → Tag b = NULLTAG ∧ status b = 0.
Proof.
  intros [_ [Hs|[Hs Ht]]]; [|done]. unfold is_allocated. rewrite Hs. discriminate.
Qed.

Lemma mark_free_good pt b : good_block pt b → good_block pt (mark NULLTAG POOL_STATUS_FREE b).
Proof. intros [H _]. split; [done|by right]. Qed.

Lemma merge_next_inv pt lo hi l1 f l2 c l2' :
  0 < lo → hi < 2 ^ 32 → tiled lo hi (l1 ++ f :: l2) → separated l2 →
  Forall (good_block pt) (f :: l2) → merge_next f l2 = (c, l2') →
  tiled lo hi (l1 ++ c :: l2') ∧ separated l2' ∧ starts_allocated l2' ∧
  Forall (good_block pt) (c :: l2') ∧ ph_addr c = ph_addr f ∧ is_allocated c = is_allocated f.
Proof.
  intros Hlo Hhi Ht Hs Hg. unfold merge_next. destruct l2 as [|n l2]; [by intros [= <- <-]|].
  destruct (is_allocated n) eqn:Hn; intros [= <- <-]; [done|].
  apply (separated_free []) in Hs as (_ & H2 & _ & H3); [|done].
  apply Forall_cons in Hg as [Hf [_ Hg]%Forall_cons].
  split; [by apply tiled_merge|]. repeat split; try done. by constructor.
Qed.

Lemma merge_prev_inv pt lo hi l1 c l2 :
  0 < lo → hi < 2 ^ 32 → tiled lo hi (l1 ++ c :: l2) → separated l1 → separated l2 →
  starts_allocated l2 → is_allocated c = false →
  Forall (good_block pt) l1 → Forall (good_block pt) (c :: l2) →
  tiled lo hi (merge_prev l1 c l2) ∧ separated (merge_prev l1 c l2) ∧
  Forall (good_block pt) (merge_prev l1 c l2).
Proof.
  intros Hlo Hhi Ht H1 H2 H3 Hc G1 G2. unfold merge_prev.
  destruct l1 as [|p l1 _] using rev_ind; simpl.
  { split; [done|]. split; [|done]. by apply (separated_free []). }
  rewrite last_snoc, removelast_last. destruct (is_allocated p) eqn:Hp.
  - split; [done|]. split; [|by apply Forall_app].
    apply separated_free; [done|]. unfold ends_allocated. by rewrite last_snoc.
  - apply (separated_free l1 p []) in H1 as (H4 & _ & H5 & _); [|done].
    apply Forall_app in G1 as [G1 [Gp _]%Forall_cons]. apply Forall_cons in G2 as [_ G2].
    rewrite <- app_assoc in Ht. split; [by apply tiled_merge|].
    split; [by apply separated_free|]. apply Forall_app. split; [done|]. by constructor.
Qed.

Lemma free_list_inv pt lo hi l1 b l2 :
  pool_inv pt lo hi (l1 ++ b :: l2) → pool_inv pt lo hi (free_list l1 b l2).
Proof.
  intros (Hlo & Hhi & H4 & Ht & Hs & [G1 [Gb G2]%Forall_cons]%Forall_app).
  apply separated_app in Hs as [S1 S2%separated_cons]. unfold free_list.
  set (f := mark _ _ b). assert (good_block pt f) as Gf by by apply mark_free_good.
  apply (tiled_replace _ _ _ b f) in Ht; [|done|done].
  destruct (merge_next f l2) as [c l2'] eqn:Em.
  destruct (merge_next_inv pt lo hi l1 f l2 c l2') as (T & S & A & G & _ & F); try done.
  { by constructor. }
  destruct (merge_prev_inv pt lo hi l1 c l2') as (T' & S' & G'); try done.
Qed.

(** Carving: when what is left of a block that is split can hold a header, the
    blocks still tile the region. *)
Definition split_safe (N : Z) (b : POOLHEADER) : Prop :=
  N < u32 (size b - MINIMUMFREEPOOLSIZE) → N + sizeof_POOLHEADER <= size b.

Lemma split_safe_large N b :
  is_u32 (size b) → MINIMUMFREEPOOLSIZE <= size b → split_safe N b.
Proof.
  unfold split_safe, MINIMUMFREEPOOLSIZE, sizeof_POOLHEADER. intros Hs Hm.
  rewrite u32_small by lia. lia.
Qed.

Lemma set_allocated s : s = POOL_STATUS_FREE ∨ s = POOL_STATUS_ALLOCATED →
  SET_FLAG s POOL_STATUS_ALLOCATED = POOL_STATUS_ALLOCATED.
Proof. by intros [->| ->]. Qed.

Lemma carve_inv pt lo hi N tag l1 b l2 :
  pool_inv pt lo hi (l1 ++ b :: l2) → is_allocated b = false → split_safe N b →
  0 <= N → (4 | N) → pool_inv pt lo hi (l1 ++ carve pt N tag b ++ l2).
Proof.
  intros (Hlo & Hhi & H4 & Ht & Hs & [G1 [Gb G2]%Forall_cons]%Forall_app) Hf Hsafe HN HN4.
  apply separated_free in Hs as (S1 & S2 & E1 & E2); [|done].
  destruct (good_free _ _ Gb Hf) as [Htag Hst]. destruct Gb as [Hpt _].
  unfold split_safe in Hsafe. unfold carve. rewrite Hst, set_allocated by by left.
  destruct (Z.ltb_spec N (u32 (size b - MINIMUMFREEPOOLSIZE))) as [Hlt|Hge].
  - specialize (Hsafe Hlt). apply tiled_app in Ht as (mid & T1 & T2).
    pose proof (tiled_le _ _ _ T1). simpl in T2. destruct T2 as (Ha & Hb & Hb4 & T2).
    pose proof (tiled_le _ _ _ T2). unfold sizeof_POOLHEADER in *.
    rewrite Ha, (u32_small (mid + 28 + N)), (u32_small (size b - 28 - N)) by lia.
    repeat split; try done.
    + apply tiled_app. exists mid. split; [done|]. simpl. unfold sizeof_POOLHEADER.
      repeat split; try done; [lia| |].
      * apply Z.divide_sub_r; [|done]. apply Z.divide_sub_r; [done|]. by exists 7.
      * by replace (mid + 28 + N + 28 + (size b - 28 - N)) with (mid + 28 + size b) by lia.
    + apply separated_alloc; [done|done|]. apply (separated_free []); done.
    + apply Forall_app. split; [done|].
      constructor; [by split; [|left]|]. constructor; [by split; [|right]|done].
  - repeat split; try done.
    + by apply (tiled_replace _ _ _ b).
    + by apply separated_alloc.
    + apply Forall_app. split; [done|]. constructor; [|done]. split; [done|by left].
Qed.

(** ** Runs of the operations *)

Lemma rounddown4 a : ∃ k, ROUNDDOWN a 4 = 4 * k ∧ 0 <= k.
Proof.
  unfold ROUNDDOWN. exists (u32 a / 4). pose proof (u32_range a).
  pose proof (Z.div_mod (u32 a) 4). split; [lia|]. apply Z.div_pos; lia.
Qed.

Lemma request_nonneg n : 0 <= request n ∧ (4 | request n).
Proof.
  unfold request, ROUNDUP. change (u32 4) with 4.
  destruct (rounddown4 (u32 (u32 (u32 (n + POOLPAD)) + 4 - 1))) as (k & -> & Hk).
  split; [lia|]. exists k. lia.
Qed.

Lemma request_spec n : 0 <= n < 2 ^ 32 - 60 → n + POOLPAD <= request n < n + POOLPAD + 4.
Proof.
  intros Hn. unfold request, POOLPAD. rewrite (u32_small (n + 56)) by lia.
  apply roundup_spec; lia.
Qed.

Lemma tiled_disjoint lo hi l1 b l2 c :
  tiled lo hi (l1 ++ b :: l2) → c ∈ l1 ∨ c ∈ l2 →
  ph_addr c + sizeof_POOLHEADER + size c <= ph_addr b ∨
  ph_addr b + sizeof_POOLHEADER + size b <= ph_addr c.
Proof.
  intros (mid & H1 & Hb & H0 & _ & H2)%tiled_app [Hc|Hc].
  - destruct (tiled_bounds _ _ _ _ H1 Hc). lia.
  - destruct (tiled_bounds _ _ _ _ H2 Hc). lia.
Qed.

Lemma carve_head pt N tag b :
  N < size b →
  ∃ sz rest, carve pt N tag b = PoolHeader (ph_addr b) (PoolType b) sz tag
      (SET_FLAG (status b) POOL_STATUS_ALLOCATED) :: rest ∧ N <= sz.
Proof. intros H. unfold carve. destruct (_ <? _); eexists _, _; (split; [done|lia]). Qed.

Lemma block_addr_u32 pt lo hi l b :
  pool_inv pt lo hi l → b ∈ l →
  0 < ph_addr b ∧ ph_addr b + sizeof_POOLHEADER + size b < 2 ^ 32 ∧ 0 <= size b.
Proof.
  intros (Hlo & Hhi & _ & Ht & _) Hb. pose proof (tiled_bounds _ _ _ _ Ht Hb).
  apply list_elem_of_split in Hb as (l1 & l2 & ->).
  apply tiled_app in Ht as (mid & _ & Ht). simpl in Ht. lia.
Qed.

(** Freeing what was carved out of a free block gives the free block back. *)
Lemma carve_free_list pt lo hi N tag l1 b l2 b' rest :
  pool_inv pt lo hi (l1 ++ b :: l2) → is_allocated b = false → split_safe N b → 0 <= N →
  carve pt N tag b = b' :: rest → free_list l1 b' (rest ++ l2) = l1 ++ b :: l2.
Proof.
  intros Hinv Hf Hsafe HN.
  pose proof (block_addr_u32 _ _ _ _ b Hinv ltac:(apply elem_of_app; right; by left)) as Hb.
  destruct Hinv as (Hlo & Hhi & _ & Ht & Hs & [G1 [Gb G2]%Forall_cons]%Forall_app).
  apply separated_free in Hs as (_ & _ & E1 & E2); [|done].
  destruct (good_free _ _ Gb Hf) as [Htag Hst].
  assert (∀ sz, sz = size b →
    merge_prev l1 (PoolHeader (ph_addr b) (PoolType b) sz NULLTAG POOL_STATUS_FREE) l2
    = l1 ++ b :: l2) as Hback.
  { intros sz ->. unfold merge_prev, ends_allocated in *.
    replace (PoolHeader _ _ _ _ _) with b by (destruct b; simpl in *; rewrite Htag, Hst; done).
    destruct l1 as [|q l1 _] using rev_ind; [done|].
    rewrite last_snoc in *. by rewrite E1. }
  unfold split_safe in Hsafe. unfold carve, free_list, sizeof_POOLHEADER in *.
  destruct (Z.ltb_spec N (u32 (size b - MINIMUMFREEPOOLSIZE))) as [Hlt|_];
    intros [= <- <-]; cbn [app merge_next].
  - cbn. specialize (Hsafe Hlt). apply Hback.
    rewrite (u32_small (size b - 28 - N)) by lia. unfold sizeof_POOLHEADER.
    rewrite u32_small; lia.
  - destruct l2 as [|n l2]; simpl in *; [by apply Hback|]. rewrite E2. by apply Hback.
Qed.

(** Freeing a free block between allocated ones changes nothing. *)
Lemma free_free_list l1 b l2 :
  separated (l1 ++ b :: l2) → is_allocated b = false → Tag b = NULLTAG → status b = 0 →
  free_list l1 b l2 = l1 ++ b :: l2.
Proof.
  intros H0 Hb Ht Hs. apply separated_free in H0 as (_ & _ & E1 & E2); [|done].
  unfold free_list.
  replace (mark NULLTAG POOL_STATUS_FREE b) with b by (destruct b; simpl in *; by subst).
  assert (merge_next b l2 = (b, l2)) as ->.
  { destruct l2 as [|n l2]; [done|]. simpl in *. by rewrite E2. }
  unfold merge_prev, ends_allocated in *. destruct l1 as [|q l1 _] using rev_ind; [done|].
  rewrite last_snoc in *. by rewrite E1.
Qed.

Section runs.
Context {W : Type} `{!SpinLock W} `{!VirtualMemory W}.

Lemma zoom_ok {A} (m : M W A) (s : pools W) a w :
  m (world s) = Ok (a, w) → outside m s = Ok (a, Pools (KernelPools s) w).
Proof. intros H. unfold outside, zoom. by rewrite H. Qed.

Lemma put_run pt l ks (w : W) : put_list pt l (Pools ks w) = Ok (tt, Pools (<[pt := l]> ks) w).
Proof. reflexivity. Qed.

Lemma get_run pt l ks (w : W) : ks !! pt = Some l → get_list pt (Pools ks w) = Ok (l, Pools ks w).
Proof. intros H. unfold get_list, deref. simpl. by rewrite H. Qed.

Lemma put_get_run pt l ks (w : W) :
  get_list pt (Pools (<[pt := l]> ks) w) = Ok (l, Pools (<[pt := l]> ks) w).
Proof. apply get_run, lookup_insert_eq. Qed.

Definition may_allocate (pt : Z) (w : W) : Prop :=
  sl_free w ∧ (sl_irql w = DISPATCH_LEVEL → pt = NonPagedPool).

Lemma carve_list pt N tag l1 b l2 lo hi (ks : gmap Z (list POOLHEADER)) (w : W) :
  ks !! pt = Some (l1 ++ b :: l2) → tiled lo hi (l1 ++ b :: l2) → is_u32 (size b) →
  0 < lo → hi < 2 ^ 32 → 0 <= N < size b →
  (when (N <? u32 (size b - MINIMUMFREEPOOLSIZE))
    (put_list pt (upd (ph_addr b) (set_size N) (insert_after (ph_addr b)
      (PoolHeader (u32 (ph_addr b + sizeof_POOLHEADER + N)) pt
        (u32 (size b - sizeof_POOLHEADER - N)) NULLTAG POOL_STATUS_FREE) (l1 ++ b :: l2)))) >>>
   let! l' := get_list pt in
   put_list pt (upd (ph_addr b) (λ c, mark tag (SET_FLAG (status c) POOL_STATUS_ALLOCATED) c) l'))
  (Pools ks w) = Ok (tt, Pools (<[pt := l1 ++ carve pt N tag b ++ l2]> ks) w).
Proof.
  intros Hk Ht Hs Hlo Hhi HN. destruct (tiled_unique _ _ _ _ _ Ht) as [H1 H2].
  assert (u32 (ph_addr b + sizeof_POOLHEADER + N) ≠ ph_addr b) as Hne.
  { destruct (tiled_bounds _ _ _ b Ht) as [Hl Hb].
    { apply elem_of_app. right. apply elem_of_cons. by left. }
    unfold sizeof_POOLHEADER in *. rewrite u32_small by lia. lia. }
  unfold carve. destruct (Z.ltb_spec N (u32 (size b - MINIMUMFREEPOOLSIZE))) as [Hlt|Hge].
  - cbn [when]. rewrite insert_after_middle by done.
    rewrite upd_middle; [|done|done|].
    2: { simpl. apply not_elem_of_cons. split; [done|exact H2]. }
    rewrite (bind_Ok _ _ _ _ _ (put_run pt _ ks w)).
    rewrite (bind_Ok _ _ _ _ _ (put_get_run pt _ ks w)).
    rewrite upd_middle; [|done|done|].
    2: { simpl. apply not_elem_of_cons. split; [done|exact H2]. }
    rewrite put_run. by rewrite insert_insert_eq.
  - cbn [when]. rewrite bind_ret. rewrite (bind_Ok _ _ _ _ _ (get_run pt _ ks w Hk)).
    by rewrite upd_middle.
Qed.

Lemma allocate_run pt n tag lo hi l (s : pools W) :
  may_allocate pt (world s) → KernelPools s !! pt = Some l → l ≠ [] → tiled lo hi l →
  0 < lo → hi < 2 ^ 32 →
  MmAllocatePoolWithTag pt n tag s =
    Ok (match first_fit pt (request n) tag l with
        | Some (p, l') => (p, Pools (<[pt := l']> (KernelPools s)) (world s))
        | None => (NULL, s)
        end).
Proof.
  intros [Hf Hp] Hk Hl Ht Hlo Hhi. destruct s as [ks w]. simpl in *.
  destruct (sl_round _ Hf) as (Hi & old & w' & Ha & Hb).
  unfold MmAllocatePoolWithTag. unfold bind at 1. cbn [outside zoom gets world].
  unfold outside at 1, zoom at 1, gets. simpl.
  rewrite assert_true by by apply Z.leb_le.
  assert (∀ k : M (pools W) addr, (when (sl_irql w =? DISPATCH_LEVEL) (assert_ (pt =? NonPagedPool))
    >>> k) (Pools ks w) = k (Pools ks w)) as Hw.
  { intros k. destruct (Z.eqb_spec (sl_irql w) DISPATCH_LEVEL) as [E|]; [|done].
    simpl. rewrite (Hp E). done. }
  rewrite Hw. rewrite (bind_Ok _ _ _ _ _ (get_run pt _ ks w Hk)).
  destruct l as [|b0 l0] eqn:El; [done|]. rewrite <- El in *. clear b0 l0 El Hl.
  rewrite (bind_Ok _ _ _ _ _ (zoom_ok sl_acquire (Pools ks w) _ _ Ha)).
  cbn [KernelPools]. rewrite (bind_Ok _ _ _ _ _ (get_run pt _ ks w' Hk)).
  change (λ b, negb (is_allocated b) && (request n <? size b)) with (fits (request n)).
  unfold first_fit. pose proof (split_first_spec (fits (request n)) l) as Hsp.
  destruct (split_first (fits (request n)) l) as [[[l1 b] l2]|].
  - destruct Hsp as (-> & H1 & Hb'). rewrite (find_middle _ _ _ _ H1 Hb').
    apply andb_prop in Hb' as [Hna Hsz]. apply negb_true_iff in Hna.
    rewrite Hna. cbn [when]. rewrite bind_ret.
    pose proof (tiled_bounds _ _ _ b Ht ltac:(apply elem_of_app; right; by left)) as Hbd.
    assert (0 <= request n < size b) as HN.
    { split; [apply (request_nonneg n)|by apply Z.ltb_lt]. }
    assert (is_u32 (size b)) as Hsu by (unfold sizeof_POOLHEADER in *; lia).
    pose proof (carve_list pt (request n) tag l1 b l2 lo hi ks w' Hk Ht Hsu Hlo Hhi HN) as Hc.
    rewrite (seq_bind_Ok _ _ _ _ _ _ Hc).
    by rewrite (bind_Ok _ _ _ _ _ (zoom_ok _ (Pools _ w') _ _ Hb)).
  - rewrite (find_none _ _ Hsp).
    by rewrite (bind_Ok _ _ _ _ _ (zoom_ok _ (Pools ks w') _ _ Hb)).
Qed.

(** A header of the pool [pt] is found at its address. *)
Lemma header_at_found lp ln (s : pools W) pt l b :
  kernel_inv lp ln s → (pt = PagedPool ∧ l = lp ∨ pt = NonPagedPool ∧ l = ln) → b ∈ l →
  header_at (ph_addr b) s = Some b.
Proof.
  intros (Hp & Hn & Ip & Iq) Hl Hb. unfold header_at. rewrite Hp, Hn.
  assert (∀ pt' lo hi l', pool_inv pt' lo hi l' → b ∈ l' →
    List.find (λ c, is_at (ph_addr b) c && (PoolType c =? pt')) l' = Some b) as Hfound.
  { intros pt' lo hi l' (_ & _ & _ & Ht & _ & Hg) (l1 & l2 & ->)%list_elem_of_split.
    apply tiled_unique in Ht as [H1 _]. apply find_middle.
    - apply Forall_forall. intros c Hc. rewrite is_at_ne; [done|]. intros E. apply H1. rewrite <- E.
      apply list_elem_of_In, in_map, list_elem_of_In, Hc.
    - rewrite is_at_refl. apply Forall_app in Hg as [_ [[-> _] _]%Forall_cons]. apply Z.eqb_refl. }
  destruct Hl as [[-> ->]|[-> ->]].
  - by rewrite (Hfound _ _ _ _ Ip Hb).
  - rewrite (Hfound _ _ _ _ Iq Hb). rewrite find_none; [done|].
    apply Forall_forall. intros c Hc. rewrite is_at_ne; [done|]. intros Heq.
    destruct Ip as (_ & _ & _ & Tp & _), Iq as (_ & _ & _ & Tn & _).
    destruct (tiled_bounds _ _ _ _ Tp Hc), (tiled_bounds _ _ _ _ Tn Hb).
    apply list_elem_of_split in Hc as (k1 & k2 & ->).
    apply tiled_app in Tp as (mid & _ & Tp). simpl in Tp.
    unfold MMNONPAGEPOOL_START, sizeof_POOLHEADER in *. lia.
Qed.

(** The merge with the next block, as the code writes it. *)
Lemma merge_next_run pt lo hi l1 f l2 ks (w : W) :
  ks !! pt = Some (l1 ++ f :: l2) → tiled lo hi (l1 ++ f :: l2) →
  (match next (ph_addr f) (l1 ++ f :: l2) with
   | Some n =>
       when (negb (is_allocated n))
         (put_list pt (remove (ph_addr n)
            (upd (ph_addr f) (λ c, set_size (u32 (size c + (size n + sizeof_POOLHEADER))) c)
               (l1 ++ f :: l2))))
   | None => ret tt
   end) (Pools ks w)
  = let '(c, l2') := merge_next f l2 in Ok (tt, Pools (<[pt := l1 ++ c :: l2']> ks) w).
Proof.
  intros Hk Ht. destruct (tiled_unique _ _ _ _ _ Ht) as [H1 H2].
  rewrite next_middle by done. destruct l2 as [|n l2]; simpl.
  { by rewrite insert_id. }
  destruct (is_allocated n); simpl; [by rewrite insert_id|].
  rewrite upd_middle by done.
  pose proof Ht as Ht'. change (f :: n :: l2) with ([f] ++ n :: l2) in Ht'.
  rewrite app_assoc in Ht'.
  apply tiled_unique in Ht' as [H3 H4]. rewrite map_app in H3. simpl in H3.
  apply not_elem_of_app in H3 as [H3 H5].
  set (f' := set_size _ f). change (f' :: n :: l2) with ([f'] ++ n :: l2).
  rewrite app_assoc, remove_middle; [|done| |done].
  - by rewrite <- app_assoc.
  - rewrite map_app. apply not_elem_of_app. done.
Qed.

Lemma merge_prev_run pt lo hi l1 c l2 ks (w : W) :
  ks !! pt = Some (l1 ++ c :: l2) → tiled lo hi (l1 ++ c :: l2) →
  (match prev (ph_addr c) (l1 ++ c :: l2) with
   | Some p =>
       when (negb (is_allocated p))
         (put_list pt (remove (ph_addr c)
            (upd (ph_addr p) (set_size (u32 (size p + (size c + sizeof_POOLHEADER))))
               (l1 ++ c :: l2))))
   | None => ret tt
   end) (Pools ks w)
  = Ok (tt, Pools (<[pt := merge_prev l1 c l2]> ks) w).
Proof.
  intros Hk Ht. destruct (tiled_unique _ _ _ _ _ Ht) as [H1 H2].
  rewrite prev_middle by done. unfold merge_prev.
  destruct l1 as [|p l1 _] using rev_ind; simpl; [by rewrite insert_id|].
  rewrite last_snoc, removelast_last.
  destruct (is_allocated p); simpl; [by rewrite insert_id|].
  rewrite <- app_assoc in *. simpl in *.
  destruct (tiled_unique _ _ _ _ _ Ht) as [H3 H4].
  rewrite upd_middle by done.
  set (p' := set_size _ p). change (p' :: c :: l2) with ([p'] ++ c :: l2).
  rewrite app_assoc, remove_middle; [|done| |done].
  - by rewrite <- app_assoc.
  - rewrite map_app in *. exact H1.
Qed.

Definition pool_of (pt : Z) (lp ln : list POOLHEADER) := if pt =? PagedPool then lp else ln.
Definition pool_start (pt : Z) : Z := if pt =? PagedPool then MMPAGEPOOL_START else MMNONPAGEPOOL_START.
Definition pool_end (pt : Z) : Z := if pt =? PagedPool then MMPAGEPOOL_END else MMNONPAGEPOOL_END.
Definition is_pool (pt : Z) : Prop := pt = PagedPool ∨ pt = NonPagedPool.

Lemma kernel_inv_pool lp ln (s : pools W) pt :
  kernel_inv lp ln s → is_pool pt →
  KernelPools s !! pt = Some (pool_of pt lp ln) ∧
  pool_inv pt (pool_start pt) (pool_end pt) (pool_of pt lp ln).
Proof. by intros (Hp & Hn & Ip & Iq) [->| ->]. Qed.

Lemma kernel_inv_put lp ln (s : pools W) pt l (w : W) :
  kernel_inv lp ln s → is_pool pt → pool_inv pt (pool_start pt) (pool_end pt) l →
  kernel_inv (if pt =? PagedPool then l else lp) (if pt =? PagedPool then ln else l)
    (Pools (<[pt := l]> (KernelPools s)) w).
Proof.
  intros (Hp & Hn & Ip & Iq) [->| ->] Hl; unfold kernel_inv; simpl.
  - rewrite lookup_insert_eq, lookup_insert_ne by done. done.
  - rewrite lookup_insert_eq, lookup_insert_ne by done. done.
Qed.

Lemma free_run lp ln (s : pools W) pt l1 b l2 tag :
  kernel_inv lp ln s → sl_free (world s) → is_pool pt → pool_of pt lp ln = l1 ++ b :: l2 →
  verification_failed b tag = false →
  MmFreePoolWithTag (u32 (ph_addr b + offsetof_mem)) tag s
  = Ok (tt, Pools (<[pt := free_list l1 b l2]> (KernelPools s)) (world s)).
Proof.
  intros HI Hf Hpt Hl Hv. destruct (kernel_inv_pool _ _ _ _ HI Hpt) as [Hk Hinv].
  rewrite Hl in *. assert (b ∈ l1 ++ b :: l2) as Hbin by (apply elem_of_app; right; by left).
  pose proof (block_addr_u32 _ _ _ _ _ Hinv Hbin) as (Ha & Hb & Hs).
  assert (header_at (ph_addr b) s = Some b) as Hh.
  { apply (header_at_found lp ln s pt (l1 ++ b :: l2)); [done| |done].
    destruct Hpt as [->| ->]; [left|right]; done. }
  destruct Hinv as (Hlo & Hhi & _ & Ht & Hsep & [G1 [Gb G2]%Forall_cons]%Forall_app).
  apply separated_app in Hsep as [S1 S2%separated_cons].
  destruct (tiled_unique _ _ _ _ _ Ht) as [U1 U2].
  unfold MmFreePoolWithTag.
  replace (u32 (u32 (ph_addr b + offsetof_mem) - offsetof_mem)) with (ph_addr b).
  2: { unfold offsetof_mem, sizeof_POOLHEADER in *.
       rewrite (u32_small (ph_addr b + 24)) by lia. rewrite u32_small; lia. }
  unfold bind at 1, deref at 1. rewrite Hh. cbv zeta. rewrite Hv. destruct Gb as [Epb Hst].
  rewrite Epb. destruct s as [ks w]. simpl in Hk, Hf |- *.
  rewrite (bind_Ok _ _ _ _ _ (get_run pt _ ks w Hk)). rewrite upd_middle by done.
  rewrite (bind_Ok _ _ _ _ _ (put_run pt _ ks w)).
  destruct (sl_round _ Hf) as (Hi & old & w' & Hacq & Hrel).
  rewrite (bind_Ok _ _ _ _ _ (zoom_ok sl_acquire (Pools _ w) _ _ Hacq)). cbn [KernelPools].
  rewrite (bind_Ok _ _ _ _ _ (put_get_run pt _ ks w')).
  set (f := mark NULLTAG POOL_STATUS_FREE b).
  assert (tiled (pool_start pt) (pool_end pt) (l1 ++ f :: l2)) as Tf
    by by apply (tiled_replace _ _ _ b f).
  pose proof (merge_next_run pt _ _ l1 f l2 (<[pt := l1 ++ f :: l2]> ks) w'
    (lookup_insert_eq _ _ _) Tf) as Hmn.
  unfold free_list. fold f. destruct (merge_next f l2) as [c l2'] eqn:Em.
  change (ph_addr f) with (ph_addr b) in Hmn.
  rewrite (bind_Ok _ _ _ _ _ Hmn). rewrite insert_insert_eq.
  rewrite (bind_Ok _ _ _ _ _ (put_get_run pt _ ks w')).
  destruct (merge_next_inv pt _ _ l1 f l2 c l2' Hlo Hhi Tf S2) as (Tc & _ & _ & _ & Ac & _).
  { constructor; [|done]. by apply mark_free_good. }
  { done. }
  destruct (tiled_unique _ _ _ _ _ Tc) as [V1 V2]. change (ph_addr f) with (ph_addr b) in Ac.
  unfold bind at 1, deref. rewrite (find_at_middle (ph_addr b)) by (done || by rewrite <- Ac).
  pose proof (merge_prev_run pt _ _ l1 c l2' (<[pt := l1 ++ c :: l2']> ks) w'
    (lookup_insert_eq _ _ _) Tc) as Hmp. rewrite Ac in Hmp.
  rewrite (bind_Ok _ _ _ _ _ Hmp). rewrite insert_insert_eq.
  by rewrite (zoom_ok _ (Pools _ w') _ _ Hrel).
Qed.

(** ** The theorems *)

(** MmAllocatePoolWithTag is first fit on the blocks of the pool: it returns
    the memory of the first free block with more than the padded and rounded
    size, splits it when 512 bytes more are left, and returns NULL without any
    change when there is no such block. *)
Theorem allocate_is_first_fit lp ln (s : pools W) pt n tag :
  kernel_inv lp ln s → is_pool pt → may_allocate pt (world s) →
  MmAllocatePoolWithTag pt n tag s =
    Ok (match first_fit pt (request n) tag (pool_of pt lp ln) with
        | Some (p, l') => (p, Pools (<[pt := l']> (KernelPools s)) (world s))
        | None => (NULL, s)
        end).
Proof.
  intros HI Hpt Hm. destruct (kernel_inv_pool _ _ _ _ HI Hpt) as [Hk (Hlo & Hhi & _ & Ht & _)].
  apply (allocate_run pt n tag (pool_start pt) (pool_end pt)); try done.
  intros He. rewrite He in Ht. simpl in Ht. by destruct Hpt as [->| ->].
Qed.

Lemma first_fit_inv pt lo hi n tag l p l' :
  pool_inv pt lo hi l → 0 <= n < 2 ^ 32 - 60 →
  (∀ b, b ∈ l → is_allocated b = false → split_safe (request n) b) →
  first_fit pt (request n) tag l = Some (p, l') →
  pool_inv pt lo hi l' ∧
  ∃ b, b ∈ l' ∧ is_allocated b = true ∧ Tag b = tag ∧ p = ph_addr b + offsetof_mem ∧
    n + POOLPAD <= size b ∧
    ∀ c, c ∈ l → is_allocated c = true → c ∈ l' ∧
      (ph_addr c + sizeof_POOLHEADER + size c <= ph_addr b ∨
       ph_addr b + sizeof_POOLHEADER + size b <= ph_addr c).
Proof.
  intros Hinv Hn Hsafe. unfold first_fit.
  pose proof (split_first_spec (fits (request n)) l) as Hsp.
  destruct (split_first _ l) as [[[l1 b] l2]|]; [|done]. destruct Hsp as (-> & _ & Hb).
  intros [= <- <-]. apply andb_prop in Hb as [Hfree%negb_true_iff Hsz%Z.ltb_lt].
  assert (b ∈ l1 ++ b :: l2) as Hbin by (apply elem_of_app; right; by left).
  destruct (request_nonneg n) as [Hr0 Hr4]. pose proof (request_spec n Hn).
  assert (pool_inv pt lo hi (l1 ++ carve pt (request n) tag b ++ l2)) as Hinv'
    by (apply carve_inv; auto).
  pose proof (block_addr_u32 _ _ _ _ _ Hinv Hbin) as (Hba & Hbe & _).
  split; [done|]. destruct Hinv' as (_ & _ & _ & Ht' & _).
  destruct (carve_head pt (request n) tag b) as (sz & rest & Ec & Hn'); [done|].
  rewrite Ec in *. rewrite <- app_comm_cons in *. set (b' := PoolHeader _ _ sz _ _) in *.
  exists b'. unfold offsetof_mem, sizeof_POOLHEADER in Hbe |- *.
  split; [apply elem_of_app; right; by left|]. split.
  { destruct Hinv as (_ & _ & _ & _ & _ & [_ [Gb _]%Forall_cons]%Forall_app).
    destruct (good_free _ _ Gb Hfree) as [_ Es]. unfold b', is_allocated. simpl. by rewrite Es. }
  split; [done|]. split; [simpl; rewrite u32_small; lia|]. split; [simpl; lia|].
  intros c Hc Hca. assert (c ∈ l1 ∨ c ∈ rest ++ l2) as Hc'.
  { rewrite elem_of_app, elem_of_cons in Hc. rewrite elem_of_app.
    destruct Hc as [?|[->|?]]; [by left|congruence|by right; right]. }
  split; [rewrite elem_of_app, elem_of_cons; tauto|].
  apply (tiled_disjoint _ _ _ _ _ _ Ht' Hc').
Qed.


(** C34: freeing an allocated block with its tag succeeds, and leaves both pools
    well formed, in particular without two free blocks next to each other. *)
Theorem free_preserves_pools lp ln (s : pools W) pt b tag :
  kernel_inv lp ln s → is_pool pt → sl_free (world s) → b ∈ pool_of pt lp ln →
  is_allocated b = true → Tag b = tag →
  ∃ l', MmFreePoolWithTag (u32 (ph_addr b + offsetof_mem)) tag s
        = Ok (tt, Pools (<[pt := l']> (KernelPools s)) (world s)) ∧
    kernel_inv (if pt =? PagedPool then l' else lp) (if pt =? PagedPool then ln else l')
      (Pools (<[pt := l']> (KernelPools s)) (world s)).
Proof.
  intros HI Hpt Hf (l1 & l2 & Hl)%list_elem_of_split Ha Htag. exists (free_list l1 b l2).
  split.
  - apply (free_run lp ln); try done. unfold verification_failed.
    rewrite Htag, Z.eqb_refl. by destruct (_ || _).
  - destruct (kernel_inv_pool _ _ _ _ HI Hpt) as [_ Hinv]. rewrite Hl in Hinv.
    apply kernel_inv_put; [done|done|]. by apply free_list_inv.
Qed.

Lemma allocate_free_run lp ln (s s1 : pools W) pt n tag p :
  kernel_inv lp ln s → is_pool pt → may_allocate pt (world s) → 0 <= n < 2 ^ 32 - 60 →
  (∀ b, b ∈ pool_of pt lp ln → is_allocated b = false → split_safe (request n) b) →
  MmAllocatePoolWithTag pt n tag s = Ok (p, s1) → p ≠ NULL →
  MmFreePoolWithTag p tag s1 = Ok (tt, s).
Proof.
  intros HI Hpt Hm Hn Hsafe Hrun Hp. destruct (kernel_inv_pool _ _ _ _ HI Hpt) as [Hk Hinv].
  pose proof Hinv as (Hlo & Hhi & _ & Ht & _).
  rewrite (allocate_run pt n tag (pool_start pt) (pool_end pt) (pool_of pt lp ln)) in Hrun;
    try done.
  2: { intros He. rewrite He in Ht. simpl in Ht. by destruct Hpt as [->| ->]. }
  destruct (first_fit pt (request n) tag (pool_of pt lp ln)) as [[p' l']|] eqn:Ef; [|congruence].
  injection Hrun as -> <-.
  destruct (first_fit_inv _ _ _ _ _ _ _ _ Hinv Hn Hsafe Ef) as [Hinv' _].
  pose proof (kernel_inv_put lp ln s pt l' (world s) HI Hpt Hinv') as HI1.
  unfold first_fit in Ef. pose proof (split_first_spec (fits (request n)) (pool_of pt lp ln)) as Hsp.
  destruct (split_first _ _) as [[[l1 b] l2]|]; [|done]. destruct Hsp as (El & _ & Hb).
  injection Ef as <- <-. apply andb_prop in Hb as [Hfree%negb_true_iff Hsz%Z.ltb_lt].
  destruct (carve_head pt (request n) tag b Hsz) as (sz & rest & Ec & _). rewrite Ec in *.
  rewrite El in Hinv. rewrite <- app_comm_cons in *. set (b' := PoolHeader _ _ sz _ _) in *.
  change (ph_addr b) with (ph_addr b').
  rewrite (free_run _ _ _ pt l1 b' (rest ++ l2) tag HI1); [|apply Hm|done| |].
  - simpl. rewrite insert_insert_eq.
    rewrite (carve_free_list pt _ _ (request n) tag l1 b l2 b' rest Hinv Hfree); [|..|done].
    + rewrite <- El, insert_id by done. by destruct s.
    + apply Hsafe; [|done]. rewrite El. apply elem_of_app. right. by left.
    + apply (request_nonneg n).
  - unfold pool_of. by destruct (pt =? PagedPool).
  - unfold verification_failed. simpl. rewrite Z.eqb_refl. by destruct (_ || _).
Qed.

(** ** The allocator as an interface

    What the clients of the pool rely on: when the pool is ready for a request,
    the allocation returns NULL and changes nothing, or memory that was not in
    use, and freeing that memory with its tag undoes the allocation. *)
Definition ready (pt n : Z) (s : pools W) : Prop :=
  ∃ lp ln, kernel_inv lp ln s ∧ is_pool pt ∧ may_allocate pt (world s) ∧ 0 <= n < 2 ^ 32 - 60 ∧
    ∀ b, b ∈ pool_of pt lp ln → is_allocated b = false → split_safe (request n) b.

Definition used (p : addr) (s : pools W) : Prop :=
  ∃ pt l b, is_pool pt ∧ KernelPools s !! pt = Some l ∧ b ∈ l ∧ is_allocated b = true ∧
    p = ph_addr b + offsetof_mem.

(** A free block is at the address of no allocated block of the two pools. *)
Lemma free_not_used lp ln (s : pools W) pt b :
  kernel_inv lp ln s → is_pool pt → b ∈ pool_of pt lp ln → is_allocated b = false →
  ¬ used (ph_addr b + offsetof_mem) s.
Proof.
  intros HI Hpt Hb Hfree (pt' & l & c & Hpt' & Hk' & Hc & Hca & Ea).
  destruct (kernel_inv_pool _ _ _ _ HI Hpt) as [_ Hinv].
  destruct (kernel_inv_pool _ _ _ _ HI Hpt') as [Hk2 Hinv']. rewrite Hk2 in Hk'.
  injection Hk' as <-. assert (ph_addr b = ph_addr c) as E by lia.
  pose proof Hinv as (_ & _ & _ & Ht & _). pose proof Hinv' as (_ & _ & _ & Ht' & _).
  pose proof (tiled_bounds _ _ _ _ Ht Hb). pose proof (tiled_bounds _ _ _ _ Ht' Hc).
  pose proof (block_addr_u32 _ _ _ _ _ Hinv Hb) as (_ & _ & Hs).
  pose proof (block_addr_u32 _ _ _ _ _ Hinv' Hc) as (_ & _ & Hs').
  assert (pt = pt') as ->.
  { assert (pool_end PagedPool = pool_start NonPagedPool) as Ej by reflexivity.
    destruct Hpt as [-> | ->], Hpt' as [-> | ->]; try done; exfalso;
      unfold sizeof_POOLHEADER in *; lia. }
  apply list_elem_of_split in Hb as (l1 & l2 & El). rewrite El in Hc, Ht.
  destruct (tiled_unique _ _ _ _ _ Ht) as [U1 U2].
  apply elem_of_app in Hc as [Hc|[->|Hc]%elem_of_cons].
  - apply U1. rewrite E. by apply (list_elem_of_fmap_2 ph_addr).
  - congruence.
  - apply U2. rewrite E. by apply (list_elem_of_fmap_2 ph_addr).
Qed.

Lemma pool_round pt n tag (s : pools W) :
  ready pt n s → ∃ p s', MmAllocatePoolWithTag pt n tag s = Ok (p, s') ∧
    world s' = world s ∧ (p = NULL → s' = s) ∧
    (p ≠ NULL → ¬ used p s ∧ used p s' ∧ MmFreePoolWithTag p tag s' = Ok (tt, s)).
Proof.
  intros (lp & ln & HI & Hpt & Hm & Hn & Hsafe).
  destruct (kernel_inv_pool _ _ _ _ HI Hpt) as [Hk Hinv].
  pose proof Hinv as (Hlo & Hhi & _ & Ht & _).
  pose proof (allocate_run pt n tag (pool_start pt) (pool_end pt) (pool_of pt lp ln) s Hm Hk) as Hr.
  destruct (first_fit pt (request n) tag (pool_of pt lp ln)) as [[p l']|] eqn:Ef.
  2: { exists NULL, s. split; [apply Hr; try done|]; [|done]. intros He. rewrite He in Ht.
       simpl in Ht. by destruct Hpt as [-> | ->]. }
  destruct (first_fit_inv _ _ _ _ _ _ _ _ Hinv Hn Hsafe Ef) as (_ & b & Hb & Hba & _ & -> & _).
  exists (ph_addr b + offsetof_mem), (Pools (<[pt := l']> (KernelPools s)) (world s)).
  assert (MmAllocatePoolWithTag pt n tag s
    = Ok (ph_addr b + offsetof_mem, Pools (<[pt := l']> (KernelPools s)) (world s))) as Hrun.
  { apply Hr; try done. intros He. rewrite He in Ht. simpl in Ht. by destruct Hpt as [-> | ->]. }
  split; [done|]. split; [done|].
  unfold first_fit in Ef. pose proof (split_first_spec (fits (request n)) (pool_of pt lp ln)) as Hsp.
  destruct (split_first _ _) as [[[l1 c] l2]|]; [|done]. destruct Hsp as (El & _ & Hc).
  injection Ef as Ep El'. apply andb_prop in Hc as [Hfree%negb_true_iff _].
  assert (c ∈ pool_of pt lp ln) as Hcin by (rewrite El; apply elem_of_app; right; by left).
  pose proof (block_addr_u32 _ _ _ _ _ Hinv Hcin) as (Hca & Hce & Hcs).
  assert (ph_addr c + offsetof_mem = ph_addr b + offsetof_mem) as Ebc.
  { rewrite <- Ep. unfold offsetof_mem, sizeof_POOLHEADER in *. rewrite u32_small; lia. }
  split. { intros E0. unfold offsetof_mem in *. lia. }
  intros Hp. split.
  { rewrite <- Ebc. by apply (free_not_used lp ln s pt c). }
  split.
  { exists pt, l', b. split; [done|]. split; [apply lookup_insert_eq|done]. }
  by apply (allocate_free_run lp ln s _ pt n tag).
Qed.

(** An allocation from one pool leaves the other one ready. *)
Lemma ready_other pt n tag p (s s' : pools W) pt' n' :
  ready pt n s → ready pt' n' s → pt ≠ pt' →
  MmAllocatePoolWithTag pt n tag s = Ok (p, s') → ready pt' n' s'.
Proof.
  intros (lp & ln & HI & Hpt & Hm & Hn & Hsafe) (lp' & ln' & HI' & Hpt' & Hm' & Hn' & Hsafe') Hne Hrun.
  assert (lp' = lp ∧ ln' = ln) as [-> ->].
  { destruct HI as (H1 & H2 & _), HI' as (H3 & H4 & _). split; congruence. }
  destruct (kernel_inv_pool _ _ _ _ HI Hpt) as [Hk Hinv].
  pose proof Hinv as (Hlo & Hhi & _ & Ht & _).
  rewrite (allocate_run pt n tag (pool_start pt) (pool_end pt) (pool_of pt lp ln)) in Hrun;
    try done.
  2: { intros He. rewrite He in Ht. simpl in Ht. by destruct Hpt as [-> | ->]. }
  destruct (first_fit pt (request n) tag (pool_of pt lp ln)) as [[q l']|] eqn:Ef; injection Hrun as <- <-.
  - destruct (first_fit_inv _ _ _ _ _ _ _ _ Hinv Hn Hsafe Ef) as [Hinv' _].
    exists (if pt =? PagedPool then l' else lp), (if pt =? PagedPool then ln else l').
    split; [by apply kernel_inv_put|]. split; [done|]. split; [done|]. split; [done|].
    destruct Hpt as [-> | ->], Hpt' as [-> | ->]; done.
  - exists lp, ln. done.
Qed.


(** ** Start-up: the pools are created and pass their self test *)

Abbreviation test_tag := 0x74657374.

(** A block the test has allocated, and the free block at the end. *)
Definition test_block (pt a : Z) : POOLHEADER := PoolHeader a pt 68 test_tag POOL_STATUS_ALLOCATED.
Definition free_block (pt a sz : Z) : POOLHEADER := PoolHeader a pt sz NULLTAG POOL_STATUS_FREE.

Lemma first_fit_last pt l1 a sz :
  Forall (λ c, is_allocated c = true) l1 → 0 < a → 1024 <= sz → a + 28 + sz < 2 ^ 32 →
  first_fit pt 68 test_tag (l1 ++ [free_block pt a sz])
  = Some (a + 24, l1 ++ [test_block pt a; free_block pt (a + 96) (sz - 96)]).
Proof.
  intros H1 Ha Hsz Hov. unfold first_fit.
  assert (split_first (fits 68) (l1 ++ [free_block pt a sz]) = Some (l1, free_block pt a sz, []))
    as ->.
  { induction H1 as [|c l1 Hc _ IH]; simpl.
    - unfold fits. simpl. destruct (Z.ltb_spec 68 sz); [done|lia].
    - unfold fits. rewrite Hc. simpl. fold (fits 68). by rewrite IH. }
  unfold carve, offsetof_mem, sizeof_POOLHEADER, MINIMUMFREEPOOLSIZE. simpl.
  rewrite (u32_small (sz - 512)), (u32_small (a + 24)), (u32_small (a + 28 + 68)),
    (u32_small (sz - 28 - 68)) by lia.
  destruct (Z.ltb_spec 68 (sz - 512)); [|lia]. unfold free_block.
  by replace (a + 28 + 68) with (a + 96) by lia; replace (sz - 28 - 68) with (sz - 96) by lia.
Qed.

Lemma test_alloc_run lp ln (s : pools W) pt l1 a sz :
  kernel_inv lp ln s → is_pool pt → may_allocate pt (world s) →
  pool_of pt lp ln = l1 ++ [free_block pt a sz] → Forall (λ c, is_allocated c = true) l1 →
  1024 <= sz →
  let l' := l1 ++ [test_block pt a; free_block pt (a + 96) (sz - 96)] in
  test_alloc pt a (sz - 96) s
  = Ok ((a + 24, a + 96), Pools (<[pt := l']> (KernelPools s)) (world s)) ∧
  kernel_inv (if pt =? PagedPool then l' else lp) (if pt =? PagedPool then ln else l')
    (Pools (<[pt := l']> (KernelPools s)) (world s)).
Proof.
  intros HI Hpt Hm Hl H1 Hsz l'. destruct (kernel_inv_pool _ _ _ _ HI Hpt) as [Hk Hinv].
  rewrite Hl in Hinv, Hk.
  pose proof (block_addr_u32 _ _ _ _ (free_block pt a sz) Hinv
    ltac:(apply elem_of_app; right; by left)) as (Ha & Hov & _). cbn in Ha, Hov.
  unfold sizeof_POOLHEADER in Hov.
  pose proof (first_fit_last pt l1 a sz H1 Ha Hsz Hov) as Hff.
  assert (pool_inv pt (pool_start pt) (pool_end pt) l') as Hinv'.
  { refine (proj1 (first_fit_inv pt _ _ 12 test_tag _ _ _ Hinv ltac:(lia) _ Hff)).
    intros b Hb Hbf. apply split_safe_large.
    - destruct (block_addr_u32 _ _ _ _ b Hinv Hb). unfold sizeof_POOLHEADER in *. lia.
    - apply elem_of_app in Hb as [Hb|Hb]; [|apply list_elem_of_singleton in Hb as ->].
      + apply (proj1 (Forall_forall _ _) H1) in Hb. congruence.
      + simpl. unfold MINIMUMFREEPOOLSIZE. lia. }
  split; [|by apply kernel_inv_put].
  unfold test_alloc. pose proof Hinv as (Hlo & Hhi & _ & Ht & _).
  assert (MmAllocatePoolWithTag pt 12 test_tag s
    = Ok (a + 24, Pools (<[pt := l']> (KernelPools s)) (world s))) as Hal.
  { rewrite (allocate_run pt 12 test_tag (pool_start pt) (pool_end pt) (l1 ++ [free_block pt a sz]) s Hm Hk); try done.
    - change (request 12) with 68. by rewrite Hff.
    - by destruct l1. }
  rewrite (bind_Ok _ _ _ _ _ Hal).
  rewrite assert_true by (apply negb_true_iff, Z.eqb_neq; lia).
  unfold offsetof_mem. rewrite (u32_small (a + 24)) by lia.
  rewrite assert_true by apply Z.eqb_refl.
  rewrite (bind_Ok _ _ _ _ _ (put_get_run pt l' _ _)).
  destruct Hinv' as (_ & _ & _ & Ht' & _). apply tiled_unique in Ht' as [U _].
  unfold l'. rewrite (find_at_middle a l1 (test_block pt a)) by done.
  rewrite (next_middle a l1 (test_block pt a)) by done.
  cbn. rewrite Z.eqb_refl. cbn. rewrite !Z.eqb_refl. done.
Qed.

(** Freeing in a state where the pool's list is known. *)
Lemma test_free_run lp ln (s : pools W) pt l1 b l2 :
  kernel_inv lp ln s → is_pool pt → sl_free (world s) → pool_of pt lp ln = l1 ++ b :: l2 →
  Tag b = test_tag →
  let l' := free_list l1 b l2 in
  MmFreePoolWithTag (u32 (ph_addr b + offsetof_mem)) test_tag s
  = Ok (tt, Pools (<[pt := l']> (KernelPools s)) (world s)) ∧
  kernel_inv (if pt =? PagedPool then l' else lp) (if pt =? PagedPool then ln else l')
    (Pools (<[pt := l']> (KernelPools s)) (world s)).
Proof.
  intros HI Hpt Hf Hl Htag l'. split.
  - apply (free_run lp ln); try done. unfold verification_failed. rewrite Htag.
    by destruct (_ || _).
  - destruct (kernel_inv_pool _ _ _ _ HI Hpt) as [_ Hinv]. rewrite Hl in Hinv.
    apply kernel_inv_put; [done|done|]. by apply free_list_inv.
Qed.

Lemma checked_run pt b sz al (s : pools W) :
  PoolType b = pt → size b = sz → is_allocated b = al →
  checked_block pt (Some b) sz al s = Ok (b, s).
Proof.
  intros <- <- <-. unfold checked_block.
  rewrite !assert_true by (apply Z.eqb_refl || apply Bool.eqb_reflx). done.
Qed.

(** The three frees of the test, on the list the three allocations leave. *)
Lemma test_frees pt a sz :
  0 < a → 2048 <= sz → a + 28 + sz < 2 ^ 32 →
  let A1 := test_block pt a in let A2 := test_block pt (a + 96) in
  let A3 := test_block pt (a + 96 + 96) in
  let F := free_block pt (a + 96 + 96 + 96) (sz - 96 - 96 - 96) in
  let F1 := free_block pt a 68 in let F3 := free_block pt (a + 96 + 96) (sz - 96 - 96) in
  free_list [] A1 [A2; A3; F] = [F1; A2; A3; F] ∧
  free_list [F1; A2] A3 [F] = [F1; A2; F3] ∧
  free_list [F1] A2 [F3] = [free_block pt a sz].
Proof.
  intros Ha Hsz Hov A1 A2 A3 F F1 F3. unfold free_list, merge_next, merge_prev, sizeof_POOLHEADER.
  simpl. unfold sizeof_POOLHEADER.
  rewrite (u32_small (68 + (sz - 96 - 96 - 96 + 28))), (u32_small (68 + (sz - 96 - 96 + 28))) by lia.
  rewrite (u32_small (68 + (68 + (sz - 96 - 96 + 28) + 28))) by lia.
  unfold F3, free_block, set_size, mark. simpl.
  split; [done|]. split; repeat f_equal; lia.
Qed.

Lemma pool_of_put pt lp ln l :
  pool_of pt (if pt =? PagedPool then l else lp) (if pt =? PagedPool then ln else l) = l.
Proof. unfold pool_of. by destruct (pt =? PagedPool). Qed.

Lemma Test_Pool_run lp ln (s : pools W) pt a sz :
  kernel_inv lp ln s → is_pool pt → may_allocate pt (world s) →
  pool_of pt lp ln = [free_block pt a sz] → 2048 <= sz →
  Test_Pool pt s = Ok (tt, s).
Proof.
  intros HI Hpt Hm Hl Hsz. destruct (kernel_inv_pool _ _ _ _ HI Hpt) as [Hk Hinv].
  rewrite Hl in Hk, Hinv.
  pose proof (block_addr_u32 _ _ _ _ _ Hinv ltac:(by left)) as (Ha & Hov & _). cbn in Ha, Hov.
  unfold sizeof_POOLHEADER in Hov. destruct s as [ks w]. simpl in Hk, Hm |- *.
  destruct (test_frees pt a sz) as (F1 & F2 & F3); [lia..|].
  unfold Test_Pool, POOLPAD, sizeof_POOLHEADER.
  rewrite (bind_Ok _ _ _ _ _ (get_run pt _ ks w Hk)).
  rewrite (deref_run _ _ _ (free_block pt a sz)) by done. cbn [size free_block ph_addr].
  rewrite (u32_small (sz - _)), (u32_small (sz - _ * 2)), (u32_small (sz - _ * 3)) by lia.
  (* the allocations *)
  destruct (test_alloc_run _ _ _ pt [] a sz HI Hpt Hm Hl) as [R1 I1]; [done|lia|].
  replace (sz - (12 + 56 + 28)) with (sz - 96) by lia. rewrite (bind_Ok _ _ _ _ _ R1).
  cbn [KernelPools world] in *.
  destruct (test_alloc_run _ _ _ pt [test_block pt a] (a + 96) (sz - 96) I1 Hpt Hm
    ltac:(apply pool_of_put)) as [R2 I2]; [by constructor|lia|].
  replace (sz - (12 + 56 + 28) * 2) with (sz - 96 - 96) by lia. rewrite (bind_Ok _ _ _ _ _ R2).
  cbn [KernelPools world] in *. rewrite insert_insert_eq in *.
  destruct (test_alloc_run _ _ _ pt [test_block pt a; test_block pt (a + 96)] (a + 96 + 96)
    (sz - 96 - 96) I2 Hpt Hm ltac:(apply pool_of_put)) as [R3 I3]; [by repeat constructor|lia|].
  replace (sz - (12 + 56 + 28) * 3) with (sz - 96 - 96 - 96) by lia.
  rewrite (bind_Ok _ _ _ _ _ R3). cbn [KernelPools world] in *. rewrite insert_insert_eq in *.
  clear R1 R2 R3 I1 I2. cbn [app] in *. set (T := test_block) in *.
  assert (∀ i, 0 <= i <= 192 → u32 (a + i + offsetof_mem) = a + i + 24) as Hp.
  { intros i Hi. unfold offsetof_mem. apply u32_small. lia. }
  destruct (test_free_run _ _ _ pt [] (T pt a) _ I3 Hpt (proj1 Hm) ltac:(apply pool_of_put)
    eq_refl) as [R1 I1]. rewrite F1 in *. cbn [KernelPools world ph_addr T test_block] in R1, I1.
  rewrite insert_insert_eq in *.
  replace (u32 (a + offsetof_mem)) with (a + 24) in R1
    by (rewrite <- (Z.add_0_r a) at 2; rewrite Hp; lia).
  rewrite (bind_Ok _ _ _ _ _ R1). rewrite (bind_Ok _ _ _ _ _ (put_get_run pt _ ks w)).
  rewrite (deref_run _ _ _ (free_block pt a 68)) by done. rewrite assert_true by done.
  destruct (test_free_run _ _ _ pt [free_block pt a 68; T pt (a + 96)] (T pt (a + 96 + 96)) _
    I1 Hpt (proj1 Hm) ltac:(apply pool_of_put) eq_refl) as [R2 I2].
  rewrite F2 in *. cbn [KernelPools world ph_addr T test_block] in R2, I2.
  rewrite insert_insert_eq in *.
  replace (u32 (a + 96 + 96 + offsetof_mem)) with (a + 96 + 96 + 24) in R2
    by (unfold offsetof_mem; rewrite u32_small; lia).
  rewrite (bind_Ok _ _ _ _ _ R2). rewrite (bind_Ok _ _ _ _ _ (put_get_run pt _ ks w)).
  assert (a + 96 ∉ [a]) as Hne by (rewrite list_elem_of_singleton; lia).
  rewrite (deref_run _ _ _ (T pt (a + 96)))
    by (apply (next_middle a [] (free_block pt a 68)); [done|apply not_elem_of_nil]).
  rewrite (deref_run _ _ _ (free_block pt (a + 96 + 96) (sz - 96 - 96)))
    by (by apply (next_middle (a + 96) [free_block pt a 68] (T pt (a + 96)))).
  rewrite assert_true by done.
  destruct (test_free_run _ _ _ pt [free_block pt a 68] (T pt (a + 96)) _
    I2 Hpt (proj1 Hm) ltac:(apply pool_of_put) eq_refl) as [R3 _].
  rewrite F3 in *. cbn [KernelPools world ph_addr T test_block] in R3.
  rewrite insert_insert_eq in R3.
  replace (u32 (a + 96 + offsetof_mem)) with (a + 96 + 24) in R3
    by (unfold offsetof_mem; rewrite u32_small; lia).
  rewrite (bind_Ok _ _ _ _ _ R3). rewrite (bind_Ok _ _ _ _ _ (put_get_run pt _ ks w)).
  rewrite (bind_Ok _ _ _ _ _ (checked_run pt (free_block pt a sz) sz false _ eq_refl eq_refl
    eq_refl)).
  assert (next (ph_addr (free_block pt a sz)) [free_block pt a sz] = None) as ->
    by (by apply (next_middle a [] (free_block pt a sz) []); [|apply not_elem_of_nil]).
  cbn. by rewrite insert_id.
Qed.

Lemma free_block_inv pt lo hi sz :
  0 < lo → hi < 2 ^ 32 → (4 | lo) → (4 | sz) → 0 <= sz → hi = lo + sizeof_POOLHEADER + sz →
  pool_inv pt lo hi [free_block pt lo sz].
Proof.
  intros Hlo Hhi H1 H2 H3 ->. unfold pool_inv. simpl. repeat split; try done.
  constructor; [|done]. by split; [|right].
Qed.

(** Start-up creates the two pools, each one free block over its whole
    region, and both pass their self test, which gives the pools back as they
    were; [VirtualAlloc] is only assumed to succeed and to leave PoolLock and
    the IRQL alone. *)
Theorem pools_initialized (s : pools W) :
  (∀ va sz perm w, sl_free w → sl_irql w < DISPATCH_LEVEL →
     ∃ st w', VirtualAlloc va sz perm w = Ok (st, w') ∧ K_SUCCESS st = true ∧
       sl_free w' ∧ sl_irql w' < DISPATCH_LEVEL) →
  sl_free (world s) → sl_irql (world s) < DISPATCH_LEVEL →
  ∃ s', MmInitializeAllPools s = Ok (tt, s') ∧
    kernel_inv [free_block PagedPool MMPAGEPOOL_START (MMPAGEPOOL_SIZE - sizeof_POOLHEADER)]
      [free_block NonPagedPool MMNONPAGEPOOL_START (MMNONPAGEPOOL_SIZE - sizeof_POOLHEADER)] s'.
Proof.
  intros Hva Hf Hi. destruct s as [ks w]. simpl in Hf, Hi.
  assert (∀ va sz pt ks w, sl_free w → sl_irql w < DISPATCH_LEVEL →
    ∃ w', MmInitializePool va sz pt (Pools ks w)
      = Ok (STATUS_SUCCESS, Pools (<[pt := [free_block pt va (u32 (sz - sizeof_POOLHEADER))]]> ks) w')
      ∧ sl_free w' ∧ sl_irql w' < DISPATCH_LEVEL) as Hinit.
  { clear -Hva. intros va sz pt ks w Hf Hi.
    destruct (Hva va sz KPOOL_PERM w Hf Hi) as (st & w' & Hr & Hs & Hf' & Hi').
    exists w'. split; [|done]. unfold MmInitializePool.
    rewrite (bind_Ok _ _ _ _ _ (put_run pt _ ks w)).
    rewrite (bind_Ok _ _ _ _ _ (zoom_ok _ (Pools _ w) _ _ Hr)). rewrite Hs. cbn [negb KernelPools].
    rewrite (bind_Ok _ _ _ _ _ (put_get_run pt _ ks w')).
    rewrite (bind_Ok _ _ _ _ _ (put_run pt _ _ w')). by rewrite insert_insert_eq. }
  unfold MmInitializeAllPools.
  rewrite (bind_Ok _ _ _ _ _ (put_run _ _ ks w)). rewrite (bind_Ok _ _ _ _ _ (put_run _ _ _ w)).
  destruct (Hinit MMPAGEPOOL_START MMPAGEPOOL_SIZE PagedPool
    (<[NonPagedPool := []]> (<[PagedPool := []]> ks)) w Hf Hi) as (w1 & R1 & Hf1 & Hi1).
  rewrite (bind_Ok _ _ _ _ _ R1). set (ks1 := <[PagedPool := [_]]> _) in *.
  destruct (Hinit MMNONPAGEPOOL_START MMNONPAGEPOOL_SIZE NonPagedPool ks1 w1 Hf1 Hi1)
    as (w2 & R2 & Hf2 & Hi2).
  rewrite (bind_Ok _ _ _ _ _ R2).
  set (s2 := Pools _ w2). eexists.
  assert (kernel_inv
    [free_block PagedPool MMPAGEPOOL_START (MMPAGEPOOL_SIZE - sizeof_POOLHEADER)]
    [free_block NonPagedPool MMNONPAGEPOOL_START (MMNONPAGEPOOL_SIZE - sizeof_POOLHEADER)] s2)
    as HI.
  { unfold s2, ks1, kernel_inv. simpl.
    split; [rewrite lookup_insert_ne by done; apply lookup_insert_eq|].
    split; [apply lookup_insert_eq|].
    split; apply free_block_inv; try done; (apply Z.mod_divide; [lia|reflexivity]). }
  split; [|exact HI].
  assert (∀ pt, may_allocate pt w2) as Hm by (intros pt; split; [done|lia]).
  rewrite (bind_Ok _ _ _ _ _ (Test_Pool_run _ _ _ PagedPool _ _ HI (or_introl eq_refl)
    (Hm _) eq_refl ltac:(done))).
  apply (Test_Pool_run _ _ _ NonPagedPool _ _ HI (or_intror eq_refl) (Hm _) eq_refl). done.
Qed.

End runs.

(** The interface the object manager uses, and the kernel's pools as its
    implementation. *)
Class PoolAllocator (W : Type) := {
  pa_alloc : Z → Z → Z → M W addr;
  pa_free : addr → Z → M W unit;
  pa_ready : Z → Z → W → Prop;
  pa_used : addr → W → Prop;
  pa_round : ∀ pt n tag w, pa_ready pt n w →
    ∃ p w', pa_alloc pt n tag w = Ok (p, w') ∧ (p = NULL → w' = w) ∧
      (p ≠ NULL → ¬ pa_used p w ∧ pa_used p w' ∧ pa_free p tag w' = Ok (tt, w)) }.

#[export, program] Instance kernel_pools {W} `{!SpinLock W} : PoolAllocator (pools W) := {|
  pa_alloc := MmAllocatePoolWithTag;
  pa_free := MmFreePoolWithTag;
  pa_ready := ready;
  pa_used := used |}.
Next Obligation.
  intros W H pt n tag s Hs. destruct (pool_round pt n tag s Hs) as (p & s' & Hr & _ & H0 & H1).
  eauto.
Qed.

#[program] Definition zoom_pool {T W} (l : lens T W) `{!PoolAllocator W} : PoolAllocator T := {|
  pa_alloc pt n tag := inside l (pa_alloc pt n tag);
  pa_free a tag := inside l (pa_free a tag);
  pa_ready pt n s := pa_ready pt n (view l s);
  pa_used a s := pa_used a (view l s) |}.
Next Obligation.
  intros T W l P pt n tag s Hr. destruct (pa_round pt n tag (view l s) Hr) as (p & w & Ha & Hn & Hs).
  exists p, (update l w s). split; [by apply inside_run|]. rewrite view_update.
  split; [intros Hp; by rewrite (Hn Hp), update_view|]. intros Hp. destruct (Hs Hp) as (H1 & H2 & H3).
  split; [done|]. split; [done|]. rewrite (inside_run l _ _ tt (view l s)) by (by rewrite view_update).
  by rewrite update_update, update_view.
Qed.


(** ** Concrete runs

    The kernel's own spin lock as PoolLock, at address 2, and a memory manager
    that always succeeds. *)

Definition demo_world : prcb := Prcb 0 7 [] 0 {[ 2 := SpinLk 0 NULL 0 ]} ∅.
#[local] Instance demo_lock : SpinLock prcb := prcb_spinlock demo_run 0 2.
#[local] Instance demo_vm : VirtualMemory prcb :=
  {| VirtualAlloc := λ _ _ _, ret STATUS_SUCCESS |}.

Definition demo_paged : POOLHEADER :=
  free_block PagedPool MMPAGEPOOL_START (MMPAGEPOOL_SIZE - sizeof_POOLHEADER).
Definition demo_nonpaged : POOLHEADER :=
  free_block NonPagedPool MMNONPAGEPOOL_START (MMNONPAGEPOOL_SIZE - sizeof_POOLHEADER).
Definition demo_pools : pools prcb :=
  Pools {[ PagedPool := [demo_paged]; NonPagedPool := [demo_nonpaged] ]} demo_world.

Lemma demo_inv : kernel_inv [demo_paged] [demo_nonpaged] demo_pools.
Proof.
  split; [done|]. split; [done|].
  split; apply free_block_inv; try done; (apply Z.mod_divide; [lia|reflexivity]).
Qed.

Lemma demo_may pt : may_allocate pt demo_world.
Proof. split; [|done]. split; [done|]. split; [done|by right]. Qed.

Lemma demo_safe n b :
  b ∈ pool_of NonPagedPool [demo_paged] [demo_nonpaged] → is_allocated b = false →
  split_safe (request n) b.
Proof. intros Hb _. apply list_elem_of_singleton in Hb as ->. by apply split_safe_large. Qed.

Lemma allocate_is_first_fit_witness :
  ∃ s', MmAllocatePoolWithTag NonPagedPool 100 5 demo_pools
        = Ok (MMNONPAGEPOOL_START + 24, s').
Proof.
  eexists. rewrite (allocate_is_first_fit [demo_paged] [demo_nonpaged]).
  - vm_compute. reflexivity.
  - apply demo_inv.
  - by right.
  - apply demo_may.
Defined.


Lemma free_preserves_pools_witness :
  ∃ s' l', MmFreePoolWithTag (u32 (MMNONPAGEPOOL_START + 24)) 5
    (Pools {[ PagedPool := [demo_paged];
              NonPagedPool := [mark 5 POOL_STATUS_ALLOCATED demo_nonpaged] ]} demo_world)
    = Ok (tt, s') ∧ kernel_inv [demo_paged] l' s'.
Proof.
  destruct (free_preserves_pools [demo_paged] [mark 5 POOL_STATUS_ALLOCATED demo_nonpaged]
    (Pools {[ PagedPool := [demo_paged];
              NonPagedPool := [mark 5 POOL_STATUS_ALLOCATED demo_nonpaged] ]} demo_world)
    NonPagedPool (mark 5 POOL_STATUS_ALLOCATED demo_nonpaged) 5) as (l' & Hr & HI).
  - split; [done|]. split; [done|].
    split; [apply free_block_inv; try done; (apply Z.mod_divide; [lia|reflexivity])|].
    split; [done|]. split; [done|]. split; [apply Z.mod_divide; [lia|reflexivity]|].
    split; [|split; [done|repeat constructor]].
    simpl. repeat split; try done. apply Z.mod_divide; [lia|reflexivity].
  - by right.
  - apply (demo_may 0).
  - by left.
  - done.
  - done.
  - eexists _, l'. split; [exact Hr|exact HI].
Defined.


Lemma pools_initialized_witness :
  ∃ s', MmInitializeAllPools (Pools ∅ demo_world) = Ok (tt, s') ∧
    kernel_inv [demo_paged] [demo_nonpaged] s'.
Proof.
  apply (pools_initialized (Pools ∅ demo_world)).
  - intros va sz perm w Hf Hi. exists STATUS_SUCCESS, w. repeat split; try done; apply Hf.
  - apply (demo_may 0).
  - done.
Defined.

(** ** What the code does at its edges *)

(** [pPoolBlock->size - MINIMUMFREEPOOLSIZE] wraps around for a free block
    of less than 512 bytes, so the block is split whatever is left of it; after
    two allocations of 12 bytes and the release of the first, an allocation of
    4 bytes leaves a free block that claims almost 4 GB. *)
Theorem small_free_block_is_split :
  (let! p1 := MmAllocatePoolWithTag NonPagedPool 12 0 in
   let! _ := MmAllocatePoolWithTag NonPagedPool 12 0 in
   MmFreePoolWithTag p1 0 >>>
   let! _ := MmAllocatePoolWithTag NonPagedPool 4 0 in
   let! l := get_list NonPagedPool in ret (map size l)) demo_pools
  = Ok ([60; 2 ^ 32 - 20; 68; MMNONPAGEPOOL_SIZE - 28 - 192],
        Pools {[ PagedPool := [demo_paged]; NonPagedPool :=
          [PoolHeader MMNONPAGEPOOL_START NonPagedPool 60 0 POOL_STATUS_ALLOCATED;
           free_block NonPagedPool (MMNONPAGEPOOL_START + 88) (2 ^ 32 - 20);
           PoolHeader (MMNONPAGEPOOL_START + 96) NonPagedPool 68 0 POOL_STATUS_ALLOCATED;
           free_block NonPagedPool (MMNONPAGEPOOL_START + 192)
             (MMNONPAGEPOOL_SIZE - 28 - 192)] ]} demo_world).
Proof. vm_compute. reflexivity. Qed.

(** The check of MmFreePoolWithTag is a conditional expression whose
    condition contains the tests that should fail, so a second free of a block
    is not caught when the tag is 0: it returns and changes nothing. *)
Theorem double_free_with_tag_0_passes {W} `{!SpinLock W} lp ln (s : pools W) pt b :
  kernel_inv lp ln s → is_pool pt → sl_free (world s) → b ∈ pool_of pt lp ln →
  is_allocated b = false →
  MmFreePoolWithTag (u32 (ph_addr b + offsetof_mem)) 0 s = Ok (tt, s).
Proof.
  intros HI Hpt Hf (l1 & l2 & Hl)%list_elem_of_split Hb.
  destruct (kernel_inv_pool _ _ _ _ HI Hpt) as [Hk Hinv]. rewrite Hl in Hinv, Hk.
  pose proof Hinv as (_ & _ & _ & _ & Hs & [_ [Gb _]%Forall_cons]%Forall_app).
  destruct (good_free _ _ Gb Hb) as [Ht Hst].
  rewrite (free_run lp ln s pt l1 b l2); try done.
  - rewrite (free_free_list l1 b l2 Hs Hb Ht Hst), insert_id by done. by destruct s.
  - unfold verification_failed. rewrite Ht. by destruct (_ || _).
Qed.

Lemma double_free_with_tag_0_passes_witness :
  MmFreePoolWithTag (u32 (MMNONPAGEPOOL_START + 24)) 0 demo_pools = Ok (tt, demo_pools).
Proof.
  apply (double_free_with_tag_0_passes [demo_paged] [demo_nonpaged] demo_pools NonPagedPool
    demo_nonpaged).
  - apply demo_inv.
  - by right.
  - apply (demo_may 0).
  - by left.
  - done.
Defined.
