(* ===== verification/Paging.v ===== *)
(** * Paging: the MMU, the PFN database and single page mappings
    (the first half of kern/mm/mm.c)

    Physical memory is an array of 32-bit words; a virtual address is
    translated by walking the page directory at cr3, as the processor does.
    The kernel reaches page tables only through virtual addresses (the
    recursive mapping at MMPAGETABLEAREA_START), and so does the model: [read]
    and [write] translate.  There is no TLB in the model: every access walks
    the tables, and [invlpg] and the reload of cr3 have no other effect.  CR0.WP
    is off, so the kernel writes through read-only mappings. *)

From S2P Require Import Prelude Types.

(** ** Data *)

(** A page-table entry is its 32-bit [u.Long]; a PMMPFN is the frame number. *)
Definition MMPTE : Type := Z.
Definition Valid (l : MMPTE) : bool := Z.testbit l 0.
Definition Writable (l : MMPTE) : bool := Z.testbit l 1.
Definition UserPriv (l : MMPTE) : bool := Z.testbit l 2.
Definition CopyOnWrite (l : MMPTE) : bool := Z.testbit l 11.
Definition PageFrameNumber (l : MMPTE) : Z := Z.shiftr l 12.

Record MMPFN := Pfn { PteAddress : addr; RefCount : Z }.

Record mm := Mm {
  cr3 : Z;
  phys : Z → Z;                       (* word number → 32-bit word *)
  PfnDataBase : gmap Z MMPFN;
  PfnFreeList : list Z;
  MemManagerTestingON : bool }.

Definition set_cr3 (c : Z) (s : mm) : mm :=
  Mm c (phys s) (PfnDataBase s) (PfnFreeList s) (MemManagerTestingON s).
Definition set_phys (p : Z → Z) (s : mm) : mm :=
  Mm (cr3 s) p (PfnDataBase s) (PfnFreeList s) (MemManagerTestingON s).
Definition set_pfn (f : Z) (x : MMPFN) (s : mm) : mm :=
  Mm (cr3 s) (phys s) (<[f := x]> (PfnDataBase s)) (PfnFreeList s) (MemManagerTestingON s).
Definition set_free (l : list Z) (s : mm) : mm :=
  Mm (cr3 s) (phys s) (PfnDataBase s) l (MemManagerTestingON s).

(** ** The memory management unit *)

Definition words_per_page : Z := 1024.
Definition word_of (frame index : Z) : Z := frame * words_per_page + index.
Definition upd_word (a v : Z) (p : Z → Z) : Z → Z := λ b, if b =? a then v else p b.

(** The entries the processor uses for a virtual address. *)
Definition pde_word (s : mm) (va : addr) : Z := word_of (PPN (cr3 s)) (PDX va).
Definition pde_of (s : mm) (va : addr) : MMPTE := phys s (pde_word s va).
Definition pte_word (s : mm) (va : addr) : Z :=
  word_of (PageFrameNumber (pde_of s va)) (PTX va).
Definition pte_of (s : mm) (va : addr) : MMPTE := phys s (pte_word s va).

(** The frame a virtual address is mapped to. *)
Definition walk (s : mm) (va : addr) : option Z :=
  if Valid (pde_of s va) && Valid (pte_of s va)
  then Some (PageFrameNumber (pte_of s va)) else None.

(** The word at a virtual address (all the accesses are 4-byte aligned). *)
Definition va_word (s : mm) (va : addr) : option Z :=
  match walk s va with Some f => Some (word_of f (PGOFF va / 4)) | None => None end.

Definition read (va : addr) : M mm Z :=
  let! w := deref (λ s, va_word s va) in gets (λ s, phys s w).
Definition write (va : addr) (v : Z) : M mm unit :=
  let! w := deref (λ s, va_word s va) in modify (λ s, set_phys (upd_word w v (phys s)) s).

(** [memset(va, 0, PGSIZE)] and [memcpy(dst, src, PGSIZE)] on whole pages. *)
Definition in_frame (f w : Z) : bool := w / words_per_page =? f.
Definition zero_page (va : addr) : M mm unit :=
  let! f := deref (λ s, walk s va) in
  modify (λ s, set_phys (λ w, if in_frame f w then 0 else phys s w) s).
Definition copy_page (dst src : addr) : M mm unit :=
  let! d := deref (λ s, walk s dst) in
  let! f := deref (λ s, walk s src) in
  modify (λ s, set_phys (λ w, if in_frame d w then phys s (word_of f (w mod words_per_page))
                              else phys s w) s).

Definition rcr3 : M mm Z := gets cr3.
Definition lcr3 (v : Z) : M mm unit := modify (set_cr3 v).

Definition MmGetPdeAddress (x : addr) : addr := u32 (Z.shiftl (Z.shiftr x 22) 2 + MM_PDE_ADDRESS).
Definition MmGetPteAddress (x : addr) : addr :=
  u32 (Z.shiftl (Z.shiftr x 12) 2 + MMPAGETABLEAREA_START).
Definition MiGetVitualAddressFromPTE (x : addr) : addr := u32 (Z.shiftl x 10).
Definition IsPageAlignedAddress (x : addr) : bool := PGOFF x =? 0.

(** ** PFN management *)

Definition MmAllocatePFN (pte : addr) : M mm (KSTATUS * Z) :=
  let! l := gets PfnFreeList in
  match l with
  | [] => ret (STATUS_NO_MEMORY, 0)
  | Page :: l' =>
      modify (set_free l') >>>
      let! p := deref (λ s, PfnDataBase s !! Page) in
      modify (set_pfn Page (Pfn pte (RefCount p))) >>>
      ret (STATUS_SUCCESS, Page)
  end.

Definition MiFreePFN (pfn : Z) : M mm unit :=
  let! p := deref (λ s, PfnDataBase s !! pfn) in
  assert_ (RefCount p =? 0) >>>
  modify (λ s, set_free (pfn :: PfnFreeList s) s).

Definition MiIncReferencePFN (pfn : Z) : M mm unit :=
  let! p := deref (λ s, PfnDataBase s !! pfn) in
  modify (set_pfn pfn (Pfn (PteAddress p) (u32 (RefCount p + 1)))).

Definition MiDecReferencePFN (pfn : Z) : M mm unit :=
  let! p := deref (λ s, PfnDataBase s !! pfn) in
  let n := u32 (RefCount p - 1) in
  modify (set_pfn pfn (Pfn (PteAddress p) n)) >>>
  when (n =? 0) (MiFreePFN pfn).

Definition MiGetRefCount (pfn : Z) : M mm Z :=
  let! p := deref (λ s, PfnDataBase s !! pfn) in ret (RefCount p).

Definition MiPFNtoFrameNumber (pfn : Z) : Z := pfn.
Definition MiPFNtoPhysicalAddress (pfn : Z) : Z := u32 (Z.shiftl (MiPFNtoFrameNumber pfn) PGSHIFT).
Definition MiPhysicalAddresstoPFN (pa : Z) : Z := Z.shiftr pa PTXSHIFT.
Definition MmGetPfnFromPte (l : MMPTE) : Z := MiPhysicalAddresstoPFN (Z.ldiff l PTE_FLAGS_MASK).

(** [MmInitPFNDataBase]: the frames below the end of the boot allocations are
    in use, the others are put on the free list in order.  [first_free] and
    [last] are the frame numbers of PtrToBootFreemem and MaxPA. *)
Fixpoint mark_in_use (n : nat) (f : Z) (db : gmap Z MMPFN) : gmap Z MMPFN :=
  match n with
  | O => db
  | S n' =>
      let old := match db !! f with Some p => PteAddress p | None => 0 end in
      mark_in_use n' (f + 1) (<[f := Pfn old 1]> db)
  end.
Fixpoint make_free (n : nat) (f : Z) (s : mm) : mm :=
  match n with
  | O => s
  | S n' =>
      let old := match PfnDataBase s !! f with Some p => PteAddress p | None => 0 end in
      make_free n' (f + 1) (set_free (PfnFreeList s ++ [f]) (set_pfn f (Pfn old 0) s))
  end.
Definition MmInitPFNDataBase (PtrToBootFreemem basemem MaxPA : Z) : M mm unit :=
  modify (set_free []) >>>
  modify (λ s, Mm (cr3 s) (phys s)
    (mark_in_use (Z.to_nat (EXTPHYSMEM / PGSIZE - IOPHYSMEM / PGSIZE)) (IOPHYSMEM / PGSIZE)
      (mark_in_use (Z.to_nat (basemem / PGSIZE - 1)) 1 (mark_in_use 1 0 (PfnDataBase s))))
    (PfnFreeList s) (MemManagerTestingON s)) >>>
  assert_ (PtrToBootFreemem <? KERNBASE + PTSIZE) >>>
  assert_ (KERNBASE <=? PtrToBootFreemem) >>>
  let first_free := (PtrToBootFreemem - KERNBASE) / PGSIZE in
  modify (λ s, Mm (cr3 s) (phys s)
    (mark_in_use (Z.to_nat (first_free - EXTPHYSMEM / PGSIZE)) (EXTPHYSMEM / PGSIZE) (PfnDataBase s))
    (PfnFreeList s) (MemManagerTestingON s)) >>>
  modify (make_free (Z.to_nat (MaxPA / PGSIZE - first_free)) first_free).

(** ** Single pages *)

Definition MmGetPhysicalAddress (Address : addr) : M mm Z :=
  let! pte := read (MmGetPteAddress Address) in
  if Valid pte then ret (u32 (Z.shiftl (PageFrameNumber pte) PGSHIFT + PGOFF Address))
  else ret (u32 STATUS_INVALID_PARAMETER).

Definition MmGetVirtualForPhysical (PhysicalAddress : Z) : M mm addr :=
  let! p := deref (λ s, PfnDataBase s !! PPN PhysicalAddress) in
  ret (u32 (MiGetVitualAddressFromPTE (PteAddress p) + PGOFF PhysicalAddress)).

Definition IsCurrentPageDirectory (PageDirectory : addr) : M mm bool :=
  let! a := MmGetPhysicalAddress PageDirectory in
  let! b := MmGetPhysicalAddress MM_PDE_ADDRESS in
  ret (a =? b).

(** The test common to MiRemovePage and MiInsertPage: the address is a user
    address of a page directory that is not the current one. *)
Definition is_foreign_user (PageDirectory Address : addr) : M mm bool :=
  if negb (PageDirectory =? NULL) then
    let! c := IsCurrentPageDirectory PageDirectory in
    ret (negb c && IsUserAddress Address)
  else ret false.

Definition InvalidateTLB (PageDirectory Address : addr) : M mm unit :=
  if negb (PageDirectory =? NULL) then IsCurrentPageDirectory PageDirectory >>> ret tt
  else ret tt.

Definition MiRemovePage (PageDirectory Address : addr) : M mm KSTATUS :=
  assert_ (negb (PageDirectory =? NULL)) >>>
  assert_ (IsPageAlignedAddress Address) >>>
  let! foreign := is_foreign_user PageDirectory Address in
  let! testing := gets MemManagerTestingON in
  when (foreign && negb testing) (halt BugCheck) >>>
  let! pde := read (MmGetPdeAddress Address) in
  if negb (Valid pde) then halt BugCheck
  else
    let! pte := read (MmGetPteAddress Address) in
    if negb (Valid pte) then halt BugCheck
    else
      MiDecReferencePFN
        (MiPhysicalAddresstoPFN (u32 (Z.shiftl (PageFrameNumber pte) PTXSHIFT))) >>>
      write (MmGetPteAddress Address) 0 >>>
      ret STATUS_SUCCESS.

(** The page table for [Address], when there is none yet. *)
Definition insert_page_table (PageDirectory Address : addr) : M mm KSTATUS :=
  assert_ (IsUserAddress Address) >>>
  let! (status, pfn1) := MmAllocatePFN (MmGetPdeAddress Address) in
  if negb (K_SUCCESS status) then ret status
  else
    MiIncReferencePFN pfn1 >>>
    write (u32 (PageDirectory + 4 * PDX Address))
      (Z.lor (MiPFNtoPhysicalAddress pfn1)
        (if IsUserAddress Address then Z.lor PTE_W (Z.lor PTE_U PTE_P) else Z.lor PTE_W PTE_P)) >>>
    zero_page (ROUNDDOWN (MmGetPteAddress Address) PGSIZE) >>>
    ret STATUS_SUCCESS.

(** [Pfn = None] is the NULL argument: a frame is allocated. *)
Definition MiInsertPage (PageDirectory Address : addr) (pPfn : option Z) (Perm : Z)
    : M mm KSTATUS :=
  let! foreign := is_foreign_user PageDirectory Address in
  when foreign (halt BugCheck) >>>
  let Pte := MmGetPteAddress Address in
  let! pde := read (MmGetPdeAddress Address) in
  let! status := (if Valid pde then ret STATUS_SUCCESS
                  else insert_page_table PageDirectory Address) in
  if negb (K_SUCCESS status) then ret status
  else
    let! (status, pfn) :=
      (match pPfn with
       | Some f => ret (STATUS_SUCCESS, f)
       | None => MmAllocatePFN Pte
       end) in
    if negb (K_SUCCESS status) then ret status
    else
      let! pte := read Pte in
      if PageFrameNumber pte =? MiPFNtoFrameNumber pfn then ret STATUS_SUCCESS
      else
        let! status := (if negb (pte =? 0) then MiRemovePage PageDirectory Address
                        else ret STATUS_SUCCESS) in
        if negb (K_SUCCESS status) then ret status
        else
          write Pte (Z.lor (MiPFNtoPhysicalAddress pfn) (Z.lor Perm PTE_P)) >>>
          MiIncReferencePFN pfn >>>
          InvalidateTLB PageDirectory Address >>>
          ret STATUS_SUCCESS.

(** The loop of MmMapSegment, over [VaEnd - VAddr] rounded up to pages. *)
Fixpoint map_segment_loop (n : nat) (PageDirectory VAddr VaEnd Perm : Z) (status : KSTATUS)
    : M mm KSTATUS :=
  if negb (VAddr <? VaEnd) then ret status
  else match n with
  | O => halt NoFuel
  | S n' =>
      let! (status, pfn) := MmAllocatePFN (MmGetPteAddress VAddr) in
      when (negb (K_SUCCESS status)) (halt BugCheck) >>>
      let! status := MiInsertPage PageDirectory VAddr (Some pfn) Perm in
      when (negb (K_SUCCESS status)) (halt BugCheck) >>>
      map_segment_loop n' PageDirectory (u32 (VAddr + PGSIZE)) VaEnd Perm status
  end.

Definition MmMapSegment (PageDirectory Address Length Perm : Z) : M mm KSTATUS :=
  let VaStart := ROUNDDOWN Address PGSIZE in
  let VaEnd := ROUNDUP (u32 (Address + Length)) PGSIZE in
  map_segment_loop (Z.to_nat ((VaEnd - VaStart) / PGSIZE)) PageDirectory VaStart VaEnd Perm
    STATUS_SUCCESS.

(** ** Address arithmetic *)

Lemma PDX_div la : PDX la = la / 2 ^ 22 mod 1024.
Proof.
  unfold PDX, PDXSHIFT. change 0x3FF with (Z.ones 10).
  by rewrite Z.land_ones, Z.shiftr_div_pow2 by lia.
Qed.
Lemma PTX_div la : PTX la = la / 2 ^ 12 mod 1024.
Proof.
  unfold PTX, PTXSHIFT. change 0x3FF with (Z.ones 10).
  by rewrite Z.land_ones, Z.shiftr_div_pow2 by lia.
Qed.
Lemma PGOFF_mod la : PGOFF la = la mod 4096.
Proof. unfold PGOFF. change 0xFFF with (Z.ones 12). by rewrite Z.land_ones by lia. Qed.
Lemma PPN_div la : PPN la = la / 4096.
Proof. unfold PPN, PTXSHIFT. by rewrite Z.shiftr_div_pow2 by lia. Qed.

Ltac page_arith :=
  rewrite ?PDX_div, ?PTX_div, ?PGOFF_mod, ?PPN_div in *; Z.div_mod_to_equations; lia.

Lemma PDX_range la : 0 <= PDX la < 1024.
Proof. rewrite PDX_div. apply Z.mod_pos_bound. lia. Qed.
Lemma PTX_range la : 0 <= PTX la < 1024.
Proof. rewrite PTX_div. apply Z.mod_pos_bound. lia. Qed.

Lemma word_of_inj f i g j :
  0 <= i < 1024 → 0 <= j < 1024 → word_of f i = word_of g j → f = g ∧ i = j.
Proof. unfold word_of, words_per_page. lia. Qed.

Lemma in_frame_word_of f g i : 0 <= i < 1024 → in_frame f (word_of g i) = (g =? f).
Proof.
  intros Hi. unfold in_frame, word_of, words_per_page.
  rewrite Z.div_add_l by lia. rewrite (Z.div_small i) by lia. by rewrite Z.add_0_r.
Qed.

Definition self_index : Z := 768.

Lemma pte_address_parts va :
  is_u32 va →
  PDX (MmGetPteAddress va) = self_index ∧ PTX (MmGetPteAddress va) = PDX va ∧
  PGOFF (MmGetPteAddress va) / 4 = PTX va.
Proof.
  intros Hva. unfold MmGetPteAddress, MMPAGETABLEAREA_START, self_index.
  rewrite Z.shiftl_mul_pow2, Z.shiftr_div_pow2 by lia.
  rewrite u32_small by (Z.div_mod_to_equations; lia).
  split_and!; page_arith.
Qed.

Lemma pde_address_parts va :
  is_u32 va →
  PDX (MmGetPdeAddress va) = self_index ∧ PTX (MmGetPdeAddress va) = self_index ∧
  PGOFF (MmGetPdeAddress va) / 4 = PDX va.
Proof.
  intros Hva. unfold MmGetPdeAddress, MM_PDE_ADDRESS, self_index.
  rewrite Z.shiftl_mul_pow2, Z.shiftr_div_pow2 by lia.
  rewrite u32_small by (Z.div_mod_to_equations; lia).
  split_and!; page_arith.
Qed.

(** Two addresses on one page have the same entries. *)
Lemma same_page va va' :
  is_u32 va → is_u32 va' → (PDX va = PDX va' ∧ PTX va = PTX va') ↔ PPN va = PPN va'.
Proof. intros H1 H2. split; page_arith. Qed.

(** ** The recursive mapping *)

(** Entry [i] of the current page directory. *)
Definition pd (s : mm) (i : Z) : MMPTE := phys s (word_of (PPN (cr3 s)) i).

(** Entry 768 maps the directory itself, and no frame is used for two page
    tables. *)
Record paging (s : mm) : Prop := {
  self_valid : Valid (pd s self_index) = true;
  self_frame : PageFrameNumber (pd s self_index) = PPN (cr3 s);
  tables_distinct : ∀ i j, 0 <= i < 1024 → 0 <= j < 1024 → i ≠ j →
    Valid (pd s i) = true → Valid (pd s j) = true →
    PageFrameNumber (pd s i) ≠ PageFrameNumber (pd s j) }.

Lemma pde_of_pd s va : pde_of s va = pd s (PDX va).
Proof. reflexivity. Qed.

Lemma va_word_pte s va :
  paging s → is_u32 va → Valid (pde_of s va) = true →
  va_word s (MmGetPteAddress va) = Some (pte_word s va).
Proof.
  intros Hp Hva Hv. destruct (pte_address_parts va Hva) as (H1 & H2 & H3).
  destruct Hp as [Sv Sf _]. unfold va_word, walk.
  assert (pde_of s (MmGetPteAddress va) = pd s self_index) as E1
    by (rewrite pde_of_pd; by rewrite H1).
  assert (pte_of s (MmGetPteAddress va) = pde_of s va) as E2.
  { unfold pte_of, pte_word. rewrite E1, Sf, H2. reflexivity. }
  rewrite E1, E2, Sv, Hv. simpl. by rewrite H3.
Qed.

Lemma va_word_pde s va :
  paging s → is_u32 va → va_word s (MmGetPdeAddress va) = Some (pde_word s va).
Proof.
  intros Hp Hva. destruct (pde_address_parts va Hva) as (H1 & H2 & H3).
  destruct Hp as [Sv Sf _]. unfold va_word, walk.
  assert (pde_of s (MmGetPdeAddress va) = pd s self_index) as E1
    by (rewrite pde_of_pd; by rewrite H1).
  assert (pte_of s (MmGetPdeAddress va) = pd s self_index) as E2.
  { unfold pte_of, pte_word. rewrite E1, Sf, H2. reflexivity. }
  rewrite E1, E2, Sv. simpl. rewrite H3, Sf. reflexivity.
Qed.

Lemma read_run s va w : va_word s va = Some w → read va s = Ok (phys s w, s).
Proof. intros H. unfold read. by rewrite (deref_run _ _ _ w). Qed.

Lemma write_run s va w v :
  va_word s va = Some w → write va v s = Ok (tt, set_phys (upd_word w v (phys s)) s).
Proof. intros H. unfold write. by rewrite (deref_run _ _ _ w). Qed.

Lemma read_pde s va : paging s → is_u32 va → read (MmGetPdeAddress va) s = Ok (pde_of s va, s).
Proof. intros Hp Hva. apply read_run. by apply va_word_pde. Qed.

Lemma read_pte s va :
  paging s → is_u32 va → Valid (pde_of s va) = true →
  read (MmGetPteAddress va) s = Ok (pte_of s va, s).
Proof. intros Hp Hva Hv. apply read_run. by apply va_word_pte. Qed.

(** ** Writing one page-table entry *)

(** The directory entry of the first megabytes of physical memory, which the
    kernel maps once and for all when it starts. *)
Definition linear_index : Z := 512.

(** The addresses whose pages are counted: neither in the page-table area nor in
    the fixed mapping of physical memory. *)
Definition managed (va : addr) : Prop := PDX va ≠ self_index ∧ PDX va ≠ linear_index.

(** A managed address that has a page table. *)
Definition mappable (s : mm) (va : addr) : Prop :=
  is_u32 va ∧ managed va ∧ Valid (pde_of s va) = true.

Lemma managed_user va : PDX va < 512 → managed va.
Proof. unfold managed, self_index, linear_index. lia. Qed.

Definition put_pte (va : addr) (v : MMPTE) (s : mm) : mm :=
  set_phys (upd_word (pte_word s va) v (phys s)) s.

Lemma table_not_directory s va :
  paging s → mappable s va → PageFrameNumber (pde_of s va) ≠ PPN (cr3 s).
Proof.
  intros [Sv Sf Hd] (Hu & [Hne _] & Hv). rewrite <- Sf, pde_of_pd.
  apply Hd; [apply PDX_range|done|done|by rewrite <- pde_of_pd|done].
Qed.

Lemma put_pte_pd s va v i :
  paging s → mappable s va → 0 <= i < 1024 → pd (put_pte va v s) i = pd s i.
Proof.
  intros Hp Hm Hi. unfold pd, put_pte, upd_word. simpl.
  destruct (Z.eqb_spec (word_of (PPN (cr3 s)) i) (pte_word s va)) as [E|]; [|done].
  apply word_of_inj in E as [E _]; [|done|apply PTX_range].
  destruct (table_not_directory s va Hp Hm). done.
Qed.

Lemma put_pte_pde s va v va' :
  paging s → mappable s va → pde_of (put_pte va v s) va' = pde_of s va'.
Proof. intros Hp Hm. rewrite !pde_of_pd. apply put_pte_pd; [done|done|apply PDX_range]. Qed.

Lemma put_pte_pte s va v va' :
  paging s → mappable s va → is_u32 va' → Valid (pde_of s va') = true →
  pte_of (put_pte va v s) va' = if PPN va' =? PPN va then v else pte_of s va'.
Proof.
  intros Hp Hm Hu Hv. unfold pte_of at 1, pte_word at 1. rewrite put_pte_pde by done.
  unfold put_pte, upd_word. simpl. fold (pte_word s va').
  assert (pte_word s va' = pte_word s va ↔ PPN va' = PPN va) as Hiff.
  { rewrite <- same_page; [|done|apply Hm]. unfold pte_word. split.
    - intros [Ef ET]%word_of_inj; [|apply PTX_range..]. split; [|done].
      destruct (decide (PDX va' = PDX va)) as [|Hne]; [done|].
      rewrite !pde_of_pd in *. destruct Hm as (_ & _ & Hv2). rewrite pde_of_pd in Hv2.
      exfalso. eapply (tables_distinct s Hp); [| |exact Hne|done..|exact Ef]; apply PDX_range.
    - intros [Ed Et]. rewrite !pde_of_pd. by rewrite Ed, Et. }
  destruct (Z.eqb_spec (pte_word s va') (pte_word s va)),
    (Z.eqb_spec (PPN va') (PPN va)); tauto.
Qed.

Lemma put_pte_paging s va v : paging s → mappable s va → paging (put_pte va v s).
Proof.
  intros Hp Hm. pose proof Hp as [Sv Sf Hd].
  assert (0 <= self_index < 1024) as Hs by (unfold self_index; lia).
  split; [by rewrite put_pte_pd|by rewrite put_pte_pd|].
  intros i j Hi Hj. rewrite !put_pte_pd by done. auto.
Qed.

Lemma write_pte s va v :
  paging s → mappable s va → write (MmGetPteAddress va) v s = Ok (tt, put_pte va v s).
Proof. intros Hp (Hu & _ & Hv). apply write_run. by apply va_word_pte. Qed.

(** Translation after the write: the page of [va] has the new entry, every
    other page is where it was. *)
Lemma put_pte_walk s va v va' :
  paging s → mappable s va → is_u32 va' → PDX va' ≠ self_index →
  walk (put_pte va v s) va' =
    if PPN va' =? PPN va then (if Valid v then Some (PageFrameNumber v) else None)
    else walk s va'.
Proof.
  intros Hp Hm Hu Hne. unfold walk. rewrite put_pte_pde by done.
  destruct (Valid (pde_of s va')) eqn:Hv; cbn [andb].
  - rewrite (put_pte_pte s va v va' Hp Hm Hu Hv). destruct (PPN va' =? PPN va); reflexivity.
  - destruct (Z.eqb_spec (PPN va') (PPN va)) as [E|]; [|reflexivity].
    destruct Hm as (Hu2 & _ & Hv2). apply (same_page va' va Hu Hu2) in E as [E _].
    rewrite !pde_of_pd in *. congruence.
Qed.

(** ** Counting the mappings of a frame *)

Fixpoint cnt (g : Z → bool) (n : nat) : Z :=
  match n with
  | O => 0
  | S n' => (if g (Z.of_nat n') then 1 else 0) + cnt g n'
  end.

Lemma cnt_nonneg g n : 0 <= cnt g n.
Proof. induction n as [|n IH]; simpl; [lia|]. destruct (g _); lia. Qed.

Lemma cnt_ext g g' n :
  (∀ i, 0 <= i < Z.of_nat n → g i = g' i) → cnt g n = cnt g' n.
Proof.
  induction n as [|n IH]; intros H; [done|]. cbn [cnt]. rewrite H by lia.
  rewrite IH; [done|]. intros i Hi. apply H. lia.
Qed.

Lemma cnt_upd g g' n k :
  0 <= k < Z.of_nat n → (∀ i, 0 <= i < Z.of_nat n → i ≠ k → g' i = g i) →
  cnt g' n = cnt g n - (if g k then 1 else 0) + (if g' k then 1 else 0).
Proof.
  induction n as [|n IH]; intros Hk Hg; [lia|]. cbn [cnt].
  destruct (decide (k = Z.of_nat n)) as [->|Hne].
  - rewrite (cnt_ext g' g n); [lia|]. intros i Hi. apply Hg; lia.
  - rewrite (Hg (Z.of_nat n)) by lia. rewrite IH; [lia|lia|]. intros i Hi. apply Hg. lia.
Qed.

Lemma cnt_pos g n k : 0 <= k < Z.of_nat n → g k = true → 1 <= cnt g n.
Proof.
  induction n as [|n IH]; intros Hk Hg; [lia|]. cbn [cnt]. pose proof (cnt_nonneg g n).
  destruct (decide (k = Z.of_nat n)) as [->|Hne]; [rewrite Hg; lia|].
  destruct (g (Z.of_nat n)); [lia|]. rewrite Z.add_0_l. apply IH; [lia|done].
Qed.

Lemma cnt_one g n k :
  0 <= k < Z.of_nat n → (∀ i, 0 <= i < Z.of_nat n → i ≠ k → g i = false) → cnt g n <= 1.
Proof.
  intros Hk Hg. rewrite (cnt_upd (λ _, false) g n k); [|done|done].
  assert (cnt (λ _, false) n = 0) as -> by (clear; induction n; simpl; lia).
  simpl. destruct (g k); lia.
Qed.

(** The number of pages of an address space (sealed: it is a million, in
    unary), and the page of a page number. *)
Lemma NPAGES_sig : { n : nat | Z.of_nat n = 2 ^ 20 }.
Proof. exists (Z.to_nat (2 ^ 20)). rewrite Z2Nat.id; lia. Qed.
Definition NPAGES : nat := proj1_sig NPAGES_sig.
Definition page_va (n : Z) : addr := n * PGSIZE.

Lemma NPAGES_Z : Z.of_nat NPAGES = 2 ^ 20.
Proof. exact (proj2_sig NPAGES_sig). Qed.

Lemma page_va_u32 n : 0 <= n < 2 ^ 20 → is_u32 (page_va n).
Proof. unfold page_va, PGSIZE. lia. Qed.
Lemma PPN_page_va n : 0 <= n < 2 ^ 20 → PPN (page_va n) = n.
Proof. intros Hn. unfold page_va, PGSIZE. page_arith. Qed.
Lemma PPN_range va : is_u32 va → 0 <= PPN va < 2 ^ 20.
Proof. intros Hva. page_arith. Qed.

Definition managed_page (n : Z) : bool :=
  negb (PDX (page_va n) =? self_index) && negb (PDX (page_va n) =? linear_index).

(** Page [n] is mapped to frame [f], and is a page that is counted. *)
Definition maps (s : mm) (f n : Z) : bool :=
  managed_page n &&
  match walk s (page_va n) with Some g => g =? f | None => false end.

Definition mappings (s : mm) (f : Z) : Z := cnt (maps s f) NPAGES.

Lemma walk_same_page s va va' :
  is_u32 va → is_u32 va' → PPN va = PPN va' → walk s va = walk s va'.
Proof.
  intros H1 H2 [Ed Et]%same_page; [|done|done].
  unfold walk, pte_of, pte_word, pde_of, pde_word. by rewrite Ed, Et.
Qed.

Lemma managed_page_spec n : reflect (managed (page_va n)) (managed_page n).
Proof.
  unfold managed, managed_page. destruct (Z.eqb_spec (PDX (page_va n)) self_index),
    (Z.eqb_spec (PDX (page_va n)) linear_index); constructor; tauto.
Qed.

Lemma maps_page s f va :
  is_u32 va → managed va →
  maps s f (PPN va) = match walk s va with Some g => g =? f | None => false end.
Proof.
  intros Hu Hne. pose proof (PPN_range va Hu) as Hr. unfold maps.
  rewrite (walk_same_page s (page_va (PPN va)) va) by
    (by apply page_va_u32 || by rewrite PPN_page_va || done).
  assert (PDX (page_va (PPN va)) = PDX va) as Hd.
  { apply (same_page (page_va (PPN va)) va); [by apply page_va_u32|done|by apply PPN_page_va]. }
  destruct (managed_page_spec (PPN va)) as [|Hno]; [done|]. unfold managed in *. by rewrite Hd in Hno.
Qed.

Lemma mappings_put s va v f :
  paging s → mappable s va →
  mappings (put_pte va v s) f =
    mappings s f
    - (match walk s va with Some g => if g =? f then 1 else 0 | None => 0 end)
    + (if Valid v && (PageFrameNumber v =? f) then 1 else 0).
Proof.
  intros Hp Hm. pose proof Hm as (Hu & Hne & Hv). pose proof (PPN_range va Hu) as Hr.
  unfold mappings. rewrite (cnt_upd (maps s f) _ NPAGES (PPN va)).
  - rewrite !maps_page, put_pte_walk, Z.eqb_refl by (done || apply Hne).
    generalize (cnt (maps s f) NPAGES). intros c.
    destruct (walk s va) as [g|], (Valid v); reflexivity.
  - by rewrite NPAGES_Z.
  - rewrite NPAGES_Z. intros i Hi Hi'. unfold maps.
    destruct (managed_page_spec i) as [[Hd _]|]; [|done]. cbn [andb].
    rewrite (put_pte_walk s va v (page_va i)); [|done|done|by apply page_va_u32|done].
    rewrite PPN_page_va by done. destruct (Z.eqb_spec i (PPN va)); [done|reflexivity].
Qed.

(** ** The invariant of the memory manager *)

(** A frame is mapped at most as often as it is referenced, and the frames of
    the free list have no reference. *)
Record mm_inv (s : mm) : Prop := {
  mi_paging : paging s;
  mi_range : ∀ f p, PfnDataBase s !! f = Some p → 0 <= f < 2 ^ 20;
  mi_count : ∀ f p, PfnDataBase s !! f = Some p → mappings s f <= RefCount p < 2 ^ 32;
  mi_nodup : NoDup (PfnFreeList s);
  mi_free : ∀ f, f ∈ PfnFreeList s → ∃ p, PfnDataBase s !! f = Some p ∧ RefCount p = 0 }.

Lemma paging_ext s s' : cr3 s = cr3 s' → phys s = phys s' → paging s → paging s'.
Proof. intros E1 E2 [H1 H2 H3]. unfold pd in *. rewrite E1, E2 in *. by split. Qed.

Lemma mappable_ext s s' va : cr3 s = cr3 s' → phys s = phys s' → mappable s va → mappable s' va.
Proof. intros E1 E2 (H1 & H2 & H3). unfold mappable, pde_of, pde_word in *. by rewrite <- E1, <- E2. Qed.

(** A frame on the free list is mapped nowhere outside the fixed mapping. *)
Lemma free_unmapped s f va :
  mm_inv s → f ∈ PfnFreeList s → is_u32 va → managed va → walk s va ≠ Some f.
Proof.
  intros Hi Hf Hu Hne Hw. destruct (mi_free s Hi f Hf) as (p & Hp & Hr).
  pose proof (mi_count s Hi f p Hp) as Hc.
  assert (1 <= mappings s f).
  { apply (cnt_pos (maps s f) NPAGES (PPN va)).
    - rewrite NPAGES_Z. by apply PPN_range.
    - rewrite maps_page, Hw by done. apply Z.eqb_refl. }
  lia.
Qed.

(** *** References *)

Definition drop_ref (f : Z) (p : MMPFN) (s : mm) : mm :=
  let s' := set_pfn f (Pfn (PteAddress p) (u32 (RefCount p - 1))) s in
  if u32 (RefCount p - 1) =? 0 then set_free (f :: PfnFreeList s) s' else s'.

Definition add_ref (f : Z) (p : MMPFN) (s : mm) : mm :=
  set_pfn f (Pfn (PteAddress p) (u32 (RefCount p + 1))) s.

Lemma inc_run f p s : PfnDataBase s !! f = Some p → MiIncReferencePFN f s = Ok (tt, add_ref f p s).
Proof. intros H. unfold MiIncReferencePFN. by rewrite (deref_run _ _ _ p). Qed.

Lemma dec_run f p s : PfnDataBase s !! f = Some p → MiDecReferencePFN f s = Ok (tt, drop_ref f p s).
Proof.
  intros H. unfold MiDecReferencePFN, drop_ref. rewrite (deref_run _ _ _ p) by done.
  rewrite modify_run. destruct (u32 (RefCount p - 1) =? 0) eqn:E; [|done]. simpl.
  unfold MiFreePFN. rewrite (deref_run _ _ _ (Pfn (PteAddress p) (u32 (RefCount p - 1))))
    by apply lookup_insert_eq.
  by rewrite assert_true.
Qed.

Lemma drop_ref_phys f p s :
  cr3 (drop_ref f p s) = cr3 s ∧ phys (drop_ref f p s) = phys s ∧
  PfnDataBase (drop_ref f p s) = <[f := Pfn (PteAddress p) (u32 (RefCount p - 1))]> (PfnDataBase s) ∧
  MemManagerTestingON (drop_ref f p s) = MemManagerTestingON s.
Proof. unfold drop_ref. by destruct (_ =? 0). Qed.

(** *** The current page directory *)

Lemma physical_address_run s va :
  paging s → is_u32 va → Valid (pde_of s va) = true →
  MmGetPhysicalAddress va s =
    Ok (match walk s va with
        | Some f => u32 (Z.shiftl f PGSHIFT + PGOFF va)
        | None => u32 STATUS_INVALID_PARAMETER
        end, s).
Proof.
  intros Hp Hu Hv. unfold MmGetPhysicalAddress.
  rewrite (bind_Ok _ _ _ _ _ (read_pte s va Hp Hu Hv)). unfold walk. rewrite Hv. cbn [andb].
  by destruct (Valid (pte_of s va)).
Qed.

Lemma pde_address_mapped s : paging s →
  is_u32 MM_PDE_ADDRESS ∧ Valid (pde_of s MM_PDE_ADDRESS) = true ∧
  walk s MM_PDE_ADDRESS = Some (PPN (cr3 s)).
Proof.
  intros [Sv Sf _]. assert (pde_of s MM_PDE_ADDRESS = pd s self_index) as E1 by done.
  assert (pte_of s MM_PDE_ADDRESS = pd s self_index) as E2.
  { unfold pte_of, pte_word. by rewrite E1, Sf. }
  split; [unfold MM_PDE_ADDRESS; lia|]. unfold walk. rewrite E1, E2, Sv. by rewrite Sf.
Qed.

(** [D] is an address of the current page directory. *)
Definition current_dir (D : addr) (s : mm) : Prop :=
  D ≠ NULL ∧ is_u32 D ∧ PGOFF D = 0 ∧ Valid (pde_of s D) = true ∧ walk s D = Some (PPN (cr3 s)).

Lemma pde_current s : paging s → current_dir MM_PDE_ADDRESS s.
Proof. intros Hp. by destruct (pde_address_mapped s Hp) as (Hu & Hv & Hw). Qed.

Lemma current_run D s : paging s → current_dir D s → IsCurrentPageDirectory D s = Ok (true, s).
Proof.
  intros Hp (_ & Hu & H0 & Hv & Hw). destruct (pde_address_mapped s Hp) as (Hu' & Hv' & Hw').
  unfold IsCurrentPageDirectory.
  rewrite (bind_Ok _ _ _ _ _ (physical_address_run s _ Hp Hu Hv)).
  rewrite (bind_Ok _ _ _ _ _ (physical_address_run s _ Hp Hu' Hv')), Hw, Hw', H0. unfold ret.
  change (PGOFF MM_PDE_ADDRESS) with 0. by rewrite Z.eqb_refl.
Qed.

Lemma dir_not_foreign_run D s va : paging s → current_dir D s → is_foreign_user D va s = Ok (false, s).
Proof.
  intros Hp HD. unfold is_foreign_user. pose proof HD as (H0 & _).
  destruct (Z.eqb_spec D NULL) as [|_]; [done|]. cbn [negb].
  by rewrite (bind_Ok _ _ _ _ _ (current_run D s Hp HD)).
Qed.

Lemma dir_invalidate_run D s va : paging s → current_dir D s → InvalidateTLB D va s = Ok (tt, s).
Proof.
  intros Hp HD. unfold InvalidateTLB. destruct (negb (D =? NULL)); [|done].
  by rewrite (bind_Ok _ _ _ _ _ (current_run D s Hp HD)).
Qed.

Lemma not_foreign_run s va : paging s → is_foreign_user MM_PDE_ADDRESS va s = Ok (false, s).
Proof. intros Hp. by apply dir_not_foreign_run, pde_current. Qed.

Lemma invalidate_run s va : paging s → InvalidateTLB MM_PDE_ADDRESS va s = Ok (tt, s).
Proof. intros Hp. by apply dir_invalidate_run, pde_current. Qed.

(** *** Removing and inserting a page of the current directory *)

Definition page_aligned (va : addr) : Prop := PGOFF va = 0.

Definition remove_spec (va f : addr) (p : MMPFN) (s : mm) : mm := put_pte va 0 (drop_ref f p s).

Lemma frame_shift f : 0 <= f < 2 ^ 20 → MiPhysicalAddresstoPFN (u32 (Z.shiftl f PTXSHIFT)) = f.
Proof.
  intros Hf. unfold MiPhysicalAddresstoPFN, PTXSHIFT.
  rewrite Z.shiftl_mul_pow2, u32_small, Z.shiftr_div_pow2 by lia.
  apply Z.div_mul. lia.
Qed.

Lemma remove_page_run s va f p :
  paging s → mappable s va → page_aligned va → walk s va = Some f →
  PfnDataBase s !! f = Some p → 0 <= f < 2 ^ 20 →
  MiRemovePage MM_PDE_ADDRESS va s = Ok (STATUS_SUCCESS, remove_spec va f p s).
Proof.
  intros Hp Hm Hal Hw Hf Hr. pose proof Hm as (Hu & Hne & Hv). unfold MiRemovePage.
  rewrite assert_true by done.
  rewrite assert_true by (unfold IsPageAlignedAddress; by rewrite Hal).
  rewrite (bind_Ok _ _ _ _ _ (not_foreign_run s va Hp)). rewrite gets_run. cbn [andb when].
  rewrite bind_ret. rewrite (bind_Ok _ _ _ _ _ (read_pde s va Hp Hu)). rewrite Hv. cbn [negb].
  rewrite (bind_Ok _ _ _ _ _ (read_pte s va Hp Hu Hv)).
  unfold walk in Hw. rewrite Hv in Hw. cbn [andb] in Hw.
  destruct (Valid (pte_of s va)); [|done]. injection Hw as Hw. cbn [negb].
  rewrite Hw, frame_shift by done. rewrite (bind_Ok _ _ _ _ _ (dec_run f p s Hf)).
  destruct (drop_ref_phys f p s) as (E1 & E2 & _).
  assert (paging (drop_ref f p s)) as Hp' by (by apply (paging_ext s)).
  assert (mappable (drop_ref f p s) va) as Hm' by (by apply (mappable_ext s)).
  by rewrite (bind_Ok _ _ _ _ _ (write_pte _ va 0 Hp' Hm')).
Qed.

Lemma mappings_ext s s' f : cr3 s = cr3 s' → phys s = phys s' → mappings s f = mappings s' f.
Proof.
  intros E1 E2. unfold mappings, maps, walk, pte_of, pte_word, pde_of, pde_word.
  by rewrite E1, E2.
Qed.

Lemma walk_ext s s' va : cr3 s = cr3 s' → phys s = phys s' → walk s va = walk s' va.
Proof. intros E1 E2. unfold walk, pte_of, pte_word, pde_of, pde_word. by rewrite E1, E2. Qed.

Lemma mapped_referenced s va f p :
  mm_inv s → is_u32 va → managed va → walk s va = Some f →
  PfnDataBase s !! f = Some p → 1 <= mappings s f <= RefCount p.
Proof.
  intros Hi Hu Hne Hw Hf. split; [|apply (mi_count s Hi f p Hf)].
  apply (cnt_pos (maps s f) NPAGES (PPN va)).
  - rewrite NPAGES_Z. by apply PPN_range.
  - rewrite maps_page, Hw by done. apply Z.eqb_refl.
Qed.

Lemma remove_inv s va f p :
  mm_inv s → mappable s va → walk s va = Some f → PfnDataBase s !! f = Some p →
  mm_inv (remove_spec va f p s).
Proof.
  intros Hi Hm Hw Hf. pose proof Hm as (Hu & Hne & _). pose proof Hi as [Hp Hr Hc Hn Hfr].
  pose proof (mapped_referenced s va f p Hi Hu Hne Hw Hf) as Hge.
  pose proof (Hc f p Hf) as Hcf.
  assert (u32 (RefCount p - 1) = RefCount p - 1) as Ef by (apply u32_small; lia).
  destruct (drop_ref_phys f p s) as (E1 & E2 & E3 & _).
  assert (paging (drop_ref f p s)) as Hp' by (by apply (paging_ext s)).
  assert (mappable (drop_ref f p s) va) as Hm' by (by apply (mappable_ext s)).
  assert (f ∉ PfnFreeList s) as Hnf.
  { intros Hin. destruct (Hfr f Hin) as (p' & Hp'' & H0). rewrite Hf in Hp''.
    injection Hp'' as <-. lia. }
  unfold remove_spec. split.
  - by apply put_pte_paging.
  - intros g q. cbn. rewrite E3. intros Hg.
    destruct (decide (g = f)) as [->|Hgf]; [by apply (Hr f p)|].
    rewrite lookup_insert_ne in Hg by done. by apply (Hr g q).
  - intros g q Hg. rewrite mappings_put by done. cbn in Hg. rewrite E3 in Hg.
    rewrite (walk_ext _ s), Hw, (mappings_ext _ s) by done.
    change (Valid 0) with false. cbn [andb].
    destruct (Z.eqb_spec f g) as [->|Hgf].
    + rewrite lookup_insert_eq in Hg. injection Hg as <-. cbn [RefCount]. lia.
    + rewrite lookup_insert_ne in Hg by done. pose proof (Hc g q Hg). lia.
  - cbn. unfold drop_ref. destruct (_ =? 0); [|done]. cbn. by apply NoDup_cons.
  - intros g Hg. cbn in Hg |- *. rewrite E3. unfold drop_ref in Hg.
    destruct (Z.eqb_spec (u32 (RefCount p - 1)) 0) as [Hz|Hz]; cbn in Hg.
    + apply elem_of_cons in Hg as [->|Hg].
      * rewrite lookup_insert_eq. eexists. split; [done|]. done.
      * destruct (decide (g = f)) as [->|]; [done|]. rewrite lookup_insert_ne by done. auto.
    + destruct (decide (g = f)) as [->|]; [done|]. rewrite lookup_insert_ne by done. auto.
Qed.

(** The entry MiInsertPage writes. *)
Definition pte_value (f Perm : Z) : MMPTE := Z.lor (MiPFNtoPhysicalAddress f) (Z.lor Perm PTE_P).

Lemma pte_value_bits f Perm :
  0 <= f < 2 ^ 20 → 0 <= Perm < 4096 →
  Valid (pte_value f Perm) = true ∧ PageFrameNumber (pte_value f Perm) = f.
Proof.
  intros Hf HP. unfold pte_value, MiPFNtoPhysicalAddress, MiPFNtoFrameNumber, PGSHIFT.
  rewrite u32_small by (rewrite Z.shiftl_mul_pow2; lia). split.
  - unfold Valid, PTE_P. rewrite !Z.lor_spec. change (Z.testbit 1 0) with true.
    by rewrite !orb_true_r.
  - unfold PageFrameNumber. rewrite !Z.shiftr_lor, Z.shiftr_shiftl_l by lia.
    rewrite Z.sub_diag, Z.shiftl_0_r. unfold PTE_P.
    rewrite (Z.shiftr_div_pow2 Perm), Z.div_small by lia.
    change (Z.shiftr 1 12) with 0. by rewrite !Z.lor_0_r.
Qed.

Definition insert_spec (va f Perm : Z) (p : MMPFN) (s : mm) : mm :=
  add_ref f p (put_pte va (pte_value f Perm) s).

Lemma insert_inv s va f Perm p :
  mm_inv s → mappable s va → walk s va = None → PfnDataBase s !! f = Some p →
  f ∉ PfnFreeList s → RefCount p + 1 < 2 ^ 32 → 0 <= Perm < 4096 →
  mm_inv (insert_spec va f Perm p s).
Proof.
  intros Hi Hm Hw Hf Hnf Hov HP. pose proof Hi as [Hp Hr Hc Hn Hfr].
  pose proof (Hr f p Hf) as Hfr'. destruct (pte_value_bits f Perm Hfr' HP) as [Hv Hpf].
  pose proof (Hc f p Hf) as Hcf. pose proof (cnt_nonneg (maps s f) NPAGES) as H0.
  unfold insert_spec, add_ref. rewrite u32_small by (unfold mappings in Hcf; lia). split.
  - apply (paging_ext (put_pte va (pte_value f Perm) s)); [done|done|]. by apply put_pte_paging.
  - intros g q Hg. cbn in Hg. destruct (decide (g = f)) as [->|]; [done|].
    rewrite lookup_insert_ne in Hg by done. by apply (Hr g q).
  - intros g q Hg. cbn in Hg.
    rewrite (mappings_ext _ (put_pte va (pte_value f Perm) s)) by done.
    rewrite mappings_put, Hw, Hv, Hpf by done. cbn [andb].
    destruct (Z.eqb_spec f g) as [->|].
    + rewrite lookup_insert_eq in Hg. injection Hg as <-. cbn [RefCount]. lia.
    + rewrite lookup_insert_ne in Hg by done. pose proof (Hc g q Hg). lia.
  - done.
  - intros g Hg. cbn in *. destruct (decide (g = f)) as [->|]; [done|].
    rewrite lookup_insert_ne by done. auto.
Qed.

(** *** Runs of MiInsertPage in the current directory *)

Lemma insert_fresh_at D s va f Perm p :
  paging s → current_dir D s → current_dir D (put_pte va (pte_value f Perm) s) →
  mappable s va → pte_of s va = 0 → f ≠ 0 → PfnDataBase s !! f = Some p →
  MiInsertPage D va (Some f) Perm s = Ok (STATUS_SUCCESS, insert_spec va f Perm p s).
Proof.
  intros Hp HD HD' Hm Hz Hf0 Hf. pose proof Hm as (Hu & Hne & Hv). unfold MiInsertPage.
  rewrite (bind_Ok _ _ _ _ _ (dir_not_foreign_run D s va Hp HD)). cbn [when]. rewrite bind_ret. cbv zeta.
  rewrite (bind_Ok _ _ _ _ _ (read_pde s va Hp Hu)). rewrite Hv, bind_ret.
  change (K_SUCCESS STATUS_SUCCESS) with true. cbn [negb]. rewrite bind_ret.
  change (K_SUCCESS STATUS_SUCCESS) with true. cbn [negb].
  rewrite (bind_Ok _ _ _ _ _ (read_pte s va Hp Hu Hv)). rewrite Hz.
  unfold MiPFNtoFrameNumber. change (PageFrameNumber 0) with 0.
  destruct (Z.eqb_spec 0 f) as [|_]; [congruence|]. change (0 =? 0) with true. cbn [negb].
  rewrite bind_ret. change (K_SUCCESS STATUS_SUCCESS) with true. cbn [negb].
  rewrite (bind_Ok _ _ _ _ _ (write_pte s va _ Hp Hm)).
  rewrite (bind_Ok _ _ _ _ _ (inc_run f p (put_pte va (pte_value f Perm) s) Hf)).
  change (add_ref f p _) with (insert_spec va f Perm p s).
  assert (paging (insert_spec va f Perm p s)) as Hp'.
  { apply (paging_ext (put_pte va (pte_value f Perm) s)); [done..|]. by apply put_pte_paging. }
  by rewrite (bind_Ok _ _ _ _ _ (dir_invalidate_run D _ va Hp' HD')).
Qed.

Lemma insert_fresh_run s va f Perm p :
  paging s → mappable s va → pte_of s va = 0 → f ≠ 0 → PfnDataBase s !! f = Some p →
  MiInsertPage MM_PDE_ADDRESS va (Some f) Perm s = Ok (STATUS_SUCCESS, insert_spec va f Perm p s).
Proof. intros Hp Hm. apply insert_fresh_at; [done|by apply pde_current|by apply pde_current, put_pte_paging|done]. Qed.

Lemma insert_same_run s va f Perm :
  paging s → mappable s va → walk s va = Some f →
  MiInsertPage MM_PDE_ADDRESS va (Some f) Perm s = Ok (STATUS_SUCCESS, s).
Proof.
  intros Hp Hm Hw. pose proof Hm as (Hu & Hne & Hv). unfold MiInsertPage.
  rewrite (bind_Ok _ _ _ _ _ (not_foreign_run s va Hp)). cbn [when]. rewrite bind_ret. cbv zeta.
  rewrite (bind_Ok _ _ _ _ _ (read_pde s va Hp Hu)). rewrite Hv, bind_ret.
  change (K_SUCCESS STATUS_SUCCESS) with true. cbn [negb]. rewrite bind_ret.
  change (K_SUCCESS STATUS_SUCCESS) with true. cbn [negb].
  rewrite (bind_Ok _ _ _ _ _ (read_pte s va Hp Hu Hv)).
  unfold walk in Hw. rewrite Hv in Hw. cbn [andb] in Hw.
  destruct (Valid (pte_of s va)); [|done]. injection Hw as ->.
  unfold MiPFNtoFrameNumber. by rewrite Z.eqb_refl.
Qed.

Lemma insert_replace_run s va f g Perm p pg :
  paging s → mappable s va → page_aligned va → walk s va = Some g → f ≠ g →
  PfnDataBase s !! f = Some p → PfnDataBase s !! g = Some pg → 0 <= g < 2 ^ 20 →
  MiInsertPage MM_PDE_ADDRESS va (Some f) Perm s
  = Ok (STATUS_SUCCESS, insert_spec va f Perm p (remove_spec va g pg s)).
Proof.
  intros Hp Hm Hal Hw Hne' Hf Hg Hgr. pose proof Hm as (Hu & Hne & Hv). unfold MiInsertPage.
  rewrite (bind_Ok _ _ _ _ _ (not_foreign_run s va Hp)). cbn [when]. rewrite bind_ret. cbv zeta.
  rewrite (bind_Ok _ _ _ _ _ (read_pde s va Hp Hu)). rewrite Hv, bind_ret.
  change (K_SUCCESS STATUS_SUCCESS) with true. cbn [negb]. rewrite bind_ret.
  change (K_SUCCESS STATUS_SUCCESS) with true. cbn [negb].
  rewrite (bind_Ok _ _ _ _ _ (read_pte s va Hp Hu Hv)).
  pose proof (remove_page_run s va g pg Hp Hm Hal Hw Hg Hgr) as Hrm.
  unfold walk in Hw. rewrite Hv in Hw. cbn [andb] in Hw.
  destruct (Valid (pte_of s va)) eqn:Hvp; [|done]. injection Hw as Hw.
  unfold MiPFNtoFrameNumber. rewrite Hw. destruct (Z.eqb_spec g f) as [|_]; [congruence|].
  assert (pte_of s va =? 0 = false) as ->.
  { apply Z.eqb_neq. intros E. rewrite E in Hvp. discriminate Hvp. }
  cbn [negb]. rewrite (bind_Ok _ _ _ _ _ Hrm).
  change (K_SUCCESS STATUS_SUCCESS) with true. cbn [negb].
  set (s1 := remove_spec va g pg s). destruct (drop_ref_phys g pg s) as (E1 & E2 & E3 & _).
  assert (paging (drop_ref g pg s)) as Hp0 by (by apply (paging_ext s)).
  assert (mappable (drop_ref g pg s) va) as Hm0 by (by apply (mappable_ext s)).
  assert (paging s1) as Hp1 by by apply put_pte_paging.
  assert (mappable s1 va) as Hm1.
  { split; [done|]. split; [done|]. unfold s1, remove_spec. rewrite put_pte_pde by done.
    by destruct Hm0 as (_ & _ & ?). }
  rewrite (bind_Ok _ _ _ _ _ (write_pte s1 va _ Hp1 Hm1)).
  assert (PfnDataBase (put_pte va (pte_value f Perm) s1) !! f = Some p) as Hf1.
  { cbn. rewrite E3. by rewrite lookup_insert_ne. }
  rewrite (bind_Ok _ _ _ _ _ (inc_run f p _ Hf1)).
  change (add_ref f p _) with (insert_spec va f Perm p s1).
  assert (paging (insert_spec va f Perm p s1)) as Hp'.
  { apply (paging_ext (put_pte va (pte_value f Perm) s1)); [done..|]. by apply put_pte_paging. }
  by rewrite (bind_Ok _ _ _ _ _ (invalidate_run _ va Hp')).
Qed.

(** ** The theorems *)

(** The kernel finds the entries of an address through the recursive
    mapping: MmGetPdeAddress and, where there is a page table,
    MmGetPteAddress are virtual addresses of exactly the words the processor
    uses to translate it. *)
Theorem recursive_mapping s va :
  paging s → is_u32 va →
  va_word s (MmGetPdeAddress va) = Some (pde_word s va) ∧
  (Valid (pde_of s va) = true → va_word s (MmGetPteAddress va) = Some (pte_word s va)) ∧
  (Valid (pde_of s va) = false → va_word s (MmGetPteAddress va) = None).
Proof.
  intros Hp Hu. split; [by apply va_word_pde|]. split; [by apply va_word_pte|].
  intros Hv. destruct (pte_address_parts va Hu) as (H1 & H2 & _). destruct Hp as [Sv Sf _].
  unfold va_word, walk.
  assert (pde_of s (MmGetPteAddress va) = pd s self_index) as E1
    by (rewrite pde_of_pd; by rewrite H1).
  assert (pte_of s (MmGetPteAddress va) = pde_of s va) as E2.
  { unfold pte_of, pte_word. rewrite E1, Sf, H2. reflexivity. }
  by rewrite E1, E2, Hv, andb_false_r.
Qed.

(** C3: MiInsertPage maps the page to the frame and to nothing else: whether
    the page was unmapped, mapped to another frame (which loses a reference,
    and is freed with the last one) or already mapped to it, every other page
    keeps its frame, and the invariant holds, so that no frame of the free
    list is mapped outside the fixed mapping of physical memory. *)
Theorem insert_page_maps s va f Perm p :
  mm_inv s → mappable s va → page_aligned va → 0 <= Perm < 4096 → f ≠ 0 →
  PfnDataBase s !! f = Some p → f ∉ PfnFreeList s → RefCount p + 1 < 2 ^ 32 →
  (pte_of s va = 0 ∨ ∃ g pg, walk s va = Some g ∧ PfnDataBase s !! g = Some pg) →
  ∃ s', MiInsertPage MM_PDE_ADDRESS va (Some f) Perm s = Ok (STATUS_SUCCESS, s') ∧
    mm_inv s' ∧ walk s' va = Some f ∧
    ∀ va', is_u32 va' → PDX va' ≠ self_index → PPN va' ≠ PPN va → walk s' va' = walk s va'.
Proof.
  intros Hi Hm Hal HP Hf0 Hf Hnf Hov Hcase. pose proof Hm as (Hu & Hne & Hv).
  pose proof Hi as [Hp Hr _ _ _].
  destruct (pte_value_bits f Perm (Hr f p Hf) HP) as [Hvv Hvf].
  assert (∀ s0, paging s0 → mappable s0 va → ∀ va', is_u32 va' → PDX va' ≠ self_index →
    walk (insert_spec va f Perm p s0) va' = if PPN va' =? PPN va then Some f else walk s0 va')
    as Hwalk.
  { intros s0 Hp0 Hm0 va' Hu' Hne'. rewrite (walk_ext _ (put_pte va (pte_value f Perm) s0)) by done.
    rewrite put_pte_walk by done. by rewrite Hvv, Hvf. }
  destruct Hcase as [Hz|(g & pg & Hw & Hg)].
  - exists (insert_spec va f Perm p s). split; [by apply insert_fresh_run|].
    assert (walk s va = None) as Hwn by (unfold walk; rewrite Hz, Hv; done).
    split; [by apply insert_inv|]. split.
    + rewrite Hwalk by (done || apply Hne). by rewrite Z.eqb_refl.
    + intros va' Hu' Hne' HPP. rewrite Hwalk by done. by destruct (Z.eqb_spec (PPN va') (PPN va)).
  - destruct (decide (f = g)) as [->|Hfg].
    { exists s. split; [by apply insert_same_run|]. done. }
    set (s1 := remove_spec va g pg s).
    exists (insert_spec va f Perm p s1).
    assert (mm_inv s1) as Hi1 by by apply remove_inv.
    destruct (drop_ref_phys g pg s) as (E1 & E2 & E3 & _).
    assert (paging (drop_ref g pg s)) as Hp0 by (by apply (paging_ext s)).
    assert (mappable (drop_ref g pg s) va) as Hm0 by (by apply (mappable_ext s)).
    assert (mappable s1 va) as Hm1.
    { split; [done|]. split; [done|]. unfold s1, remove_spec. rewrite put_pte_pde by done.
      by destruct Hm0 as (_ & _ & ?). }
    assert (∀ va', is_u32 va' → PDX va' ≠ self_index →
      walk s1 va' = if PPN va' =? PPN va then None else walk s va') as Hw1.
    { intros va' Hu' Hne'. unfold s1, remove_spec. rewrite put_pte_walk by done.
      change (Valid 0) with false. cbn [andb]. by rewrite (walk_ext _ s). }
    split; [by apply (insert_replace_run s va f g Perm p pg); try done; apply (Hr g pg)|].
    split.
    { apply insert_inv; try done.
      - rewrite Hw1 by (done || apply Hne); by rewrite Z.eqb_refl.
      - cbn. rewrite E3. by rewrite lookup_insert_ne.
      - cbn. unfold drop_ref. destruct (_ =? 0); [|done]. cbn. by apply not_elem_of_cons. }
    split.
    + rewrite Hwalk by (done || apply Hi1 || apply Hne). by rewrite Z.eqb_refl.
    + intros va' Hu' Hne' HPP. rewrite Hwalk, Hw1 by (done || apply Hi1).
      by destruct (Z.eqb_spec (PPN va') (PPN va)).
Qed.

(** C36: MiRemovePage unmaps the page and only it, and drops the reference of
    its frame, which goes to the head of the free list with the last one. *)
Theorem remove_page_unmaps s va f p :
  mm_inv s → mappable s va → page_aligned va → walk s va = Some f →
  PfnDataBase s !! f = Some p →
  ∃ s', MiRemovePage MM_PDE_ADDRESS va s = Ok (STATUS_SUCCESS, s') ∧ mm_inv s' ∧
    walk s' va = None ∧
    (∀ va', is_u32 va' → PDX va' ≠ self_index → PPN va' ≠ PPN va → walk s' va' = walk s va') ∧
    PfnDataBase s' !! f = Some (Pfn (PteAddress p) (RefCount p - 1)) ∧
    PfnFreeList s' = (if RefCount p =? 1 then [f] else []) ++ PfnFreeList s.
Proof.
  intros Hi Hm Hal Hw Hf. pose proof Hm as (Hu & Hne & Hv). pose proof Hi as [Hp Hr Hc _ _].
  pose proof (mapped_referenced s va f p Hi Hu Hne Hw Hf) as Hge. pose proof (Hc f p Hf) as Hcf.
  exists (remove_spec va f p s).
  split; [apply remove_page_run; try done; by apply (Hr f p)|].
  split; [by apply remove_inv|].
  destruct (drop_ref_phys f p s) as (E1 & E2 & E3 & _).
  assert (paging (drop_ref f p s)) as Hp0 by (by apply (paging_ext s)).
  assert (mappable (drop_ref f p s) va) as Hm0 by (by apply (mappable_ext s)).
  assert (∀ va', is_u32 va' → PDX va' ≠ self_index →
    walk (remove_spec va f p s) va' = if PPN va' =? PPN va then None else walk s va') as Hw1.
  { intros va' Hu' Hne'. unfold remove_spec. rewrite put_pte_walk by done.
    change (Valid 0) with false. by rewrite (walk_ext _ s). }
  split; [rewrite Hw1 by (done || apply Hne); by rewrite Z.eqb_refl|]. split.
  { intros va' Hu' Hne' HPP. rewrite Hw1 by done. by destruct (Z.eqb_spec (PPN va') (PPN va)). }
  assert (u32 (RefCount p - 1) = RefCount p - 1) as Eu by (apply u32_small; lia).
  split; [cbn; rewrite E3, lookup_insert_eq; by rewrite Eu|].
  cbn. unfold drop_ref. rewrite Eu.
  destruct (Z.eqb_spec (RefCount p - 1) 0), (Z.eqb_spec (RefCount p) 1); (lia || reflexivity).
Qed.

(** MmGetPhysicalAddress answers with the processor's translation; for an
    unmapped page of a present table it answers STATUS_INVALID_PARAMETER. *)
Theorem physical_address_correct s va :
  paging s → is_u32 va → Valid (pde_of s va) = true →
  MmGetPhysicalAddress va s =
    Ok (match walk s va with
        | Some f => u32 (f * PGSIZE + va mod PGSIZE)
        | None => 0xC000000D
        end, s).
Proof.
  intros Hp Hu Hv. rewrite physical_address_run by done. rewrite PGOFF_mod.
  destruct (walk s va) as [f|]; [|reflexivity].
  unfold PGSHIFT. rewrite Z.shiftl_mul_pow2 by lia. reflexivity.
Qed.

(** ** A small machine for the witnesses

    The page directory is frame 1, with page tables for the paged pool (frame 2), the
    system PTE pool (frame 3), USERTEMP (frame 7) and the user address
    0x4000000 (frame 8); frames 5 and 6 are free, frames 4 and 9 are allocated
    and not mapped yet. *)
Definition demo_entry (i : Z) : MMPTE :=
  if i =? 768 then 0x1003 else if i =? 514 then 0x2003 else if i =? 534 then 0x3003
  else if i =? 1 then 0x7007 else if i =? 16 then 0x8007 else 0.
Definition demo_phys : Z → Z := λ w, if in_frame 1 w then demo_entry (w mod 1024) else 0.
Definition demo_mm : mm :=
  Mm 0x1000 demo_phys
    (<[4 := Pfn 0 0]> (<[5 := Pfn 0 0]> (<[6 := Pfn 0 0]> (<[9 := Pfn 0 0]> ∅)))) [5; 6] false.

Lemma demo_phys_word f i : 0 <= i < 1024 →
  demo_phys (word_of f i) = if f =? 1 then demo_entry i else 0.
Proof.
  intros Hi. unfold demo_phys. rewrite in_frame_word_of by done.
  destruct (f =? 1); [|done]. f_equal. unfold word_of, words_per_page.
  rewrite Z.add_comm, Z.mod_add by lia. by apply Z.mod_small.
Qed.

Lemma demo_pd i : 0 <= i < 1024 → pd demo_mm i = demo_entry i.
Proof. intros Hi. unfold pd. cbn [demo_mm phys]. by rewrite demo_phys_word. Qed.

Lemma demo_entry_cases i : Valid (demo_entry i) = true →
  (i, PageFrameNumber (demo_entry i)) ∈ [(768, 1); (514, 2); (534, 3); (1, 7); (16, 8)].
Proof.
  unfold demo_entry.
  destruct (Z.eqb_spec i 768) as [->|]; [intros _; set_solver|].
  destruct (Z.eqb_spec i 514) as [->|]; [intros _; set_solver|].
  destruct (Z.eqb_spec i 534) as [->|]; [intros _; set_solver|].
  destruct (Z.eqb_spec i 1) as [->|]; [intros _; set_solver|].
  destruct (Z.eqb_spec i 16) as [->|]; [intros _; set_solver|discriminate].
Qed.

Lemma demo_paging : paging demo_mm.
Proof.
  split; [done|done|]. intros i j Hi Hj Hij. rewrite !demo_pd by done.
  intros H1%demo_entry_cases H2%demo_entry_cases E. rewrite E in H1.
  rewrite !elem_of_cons, elem_of_nil in H1, H2.
  destruct_or! H1; destruct_or! H2; congruence.
Qed.

Lemma demo_unmapped va : PDX va ≠ self_index → walk demo_mm va = None.
Proof.
  intros Hne. unfold walk. destruct (Valid (pde_of demo_mm va)) eqn:Hv; [|done].
  rewrite pde_of_pd, demo_pd in Hv by apply PDX_range.
  apply demo_entry_cases in Hv. rewrite !elem_of_cons, elem_of_nil in Hv.
  assert (pte_of demo_mm va = 0) as ->; [|done].
  unfold pte_of, pte_word. rewrite pde_of_pd, demo_pd by apply PDX_range. cbn [demo_mm phys].
  rewrite demo_phys_word by apply PTX_range. unfold self_index in Hne.
  destruct (Z.eqb_spec (PageFrameNumber (demo_entry (PDX va))) 1); [|done].
  destruct_or! Hv; congruence.
Qed.

Lemma demo_mm_inv : mm_inv demo_mm.
Proof.
  assert (∀ f p, PfnDataBase demo_mm !! f = Some p → p = Pfn 0 0 ∧ 4 <= f <= 9) as Hdb.
  { intros f p. cbn [demo_mm PfnDataBase]. rewrite !lookup_insert_Some, lookup_empty.
    intros [[<- <-]|[_ [[<- <-]|[_ [[<- <-]|[_ [[<- <-]|[_ [=]]]]]]]]]; (split; [done|lia]). }
  split.
  - apply demo_paging.
  - intros f p [_ Hf]%Hdb. lia.
  - intros f p [-> _]%Hdb. cbn [RefCount]. assert (mappings demo_mm f = 0) as ->; [|lia].
    unfold mappings. rewrite (cnt_ext _ (λ _, false)).
    + generalize NPAGES. intros n. induction n; simpl; lia.
    + intros i _. unfold maps. destruct (managed_page_spec i) as [[Hd _]|]; [|done].
      by rewrite demo_unmapped.
  - cbn. by apply (bool_decide_unpack _); vm_compute.
  - intros f. cbn [demo_mm PfnFreeList]. rewrite !elem_of_cons, elem_of_nil.
    intros [->|[->|[]]]; eexists; (split; [reflexivity|done]).
Qed.

Lemma recursive_mapping_witness :
  va_word demo_mm (MmGetPteAddress MMPAGEPOOL_START) = Some (word_of 2 0).
Proof. apply (recursive_mapping demo_mm MMPAGEPOOL_START); [apply demo_paging|done|done]. Defined.

Lemma demo_mappable : mappable demo_mm MMPAGEPOOL_START.
Proof. split; [done|]. split; [by split|done]. Qed.

Lemma insert_page_maps_witness :
  ∃ s', MiInsertPage MM_PDE_ADDRESS MMPAGEPOOL_START (Some 4) PTE_W demo_mm = Ok (STATUS_SUCCESS, s') ∧
    walk s' MMPAGEPOOL_START = Some 4 ∧ mm_inv s'.
Proof.
  destruct (insert_page_maps demo_mm MMPAGEPOOL_START 4 PTE_W (Pfn 0 0)) as (s' & Hr & Hi & Hw & _).
  - apply demo_mm_inv.
  - apply demo_mappable.
  - done.
  - done.
  - done.
  - reflexivity.
  - cbn. by apply (bool_decide_unpack _); vm_compute.
  - done.
  - by left.
  - exists s'. split; [exact Hr|]. split; [exact Hw|exact Hi].
Defined.

Definition demo_mapped : mm := insert_spec MMPAGEPOOL_START 4 PTE_W (Pfn 0 0) demo_mm.

Lemma remove_page_unmaps_witness :
  ∃ s s', walk s MMPAGEPOOL_START = Some 4 ∧
    MiRemovePage MM_PDE_ADDRESS MMPAGEPOOL_START s = Ok (STATUS_SUCCESS, s') ∧
    walk s' MMPAGEPOOL_START = None ∧ PfnFreeList s' = [4; 5; 6].
Proof.
  assert (mm_inv demo_mapped) as Hi.
  { apply insert_inv; [apply demo_mm_inv|apply demo_mappable|by apply demo_unmapped|reflexivity
      |cbn; by apply (bool_decide_unpack _); vm_compute|done|done]. }
  destruct (remove_page_unmaps demo_mapped MMPAGEPOOL_START 4
    (Pfn 0 1)) as (s' & Hr & _ & Hw & _ & _ & Hl).
  - exact Hi.
  - split; [done|]. split; [done|]. vm_compute. reflexivity.
  - done.
  - vm_compute. reflexivity.
  - vm_compute. reflexivity.
  - exists demo_mapped, s'. split; [vm_compute; reflexivity|]. split; [exact Hr|]. split; [exact Hw|].
    exact Hl.
Defined.

Lemma physical_address_correct_witness :
  MmGetPhysicalAddress (MMPAGEPOOL_START + 5) demo_mm = Ok (0xC000000D, demo_mm).
Proof.
  rewrite (physical_address_correct demo_mm (MMPAGEPOOL_START + 5) demo_paging); done.
Defined.
