(* ===== verification/Vmm.v ===== *)
(** * Vmm: virtual memory, system and user PTE pools, process address spaces
    and copy on write (the second half of kern/mm/mm.c)

    The state adds to the paging state the bitmap of the system PTE pool, the
    user PTE bitmaps and the world of the spin locks.  A user PTE bitmap lives
    in a page of its own: its BITMAP header, at the start of the page, points
    to the bit array, so headers and bit arrays are kept by address. *)

From S2P Require Import Prelude Types Bitmap Irql Paging.

Record user_bitmap := UserBitmap { ub_BitCount : Z; ub_bits : addr }.

Record vmm (W : Type) := Vmm {
  core : mm;
  MiSystemPteBitmap : BITMAP;
  bitmap_headers : gmap addr user_bitmap;
  bitmap_bits : gmap addr (list Z);
  GlobalPgdir : addr;
  world : W }.
Arguments Vmm {W}.
Arguments core {W}.
Arguments MiSystemPteBitmap {W}.
Arguments bitmap_headers {W}.
Arguments bitmap_bits {W}.
Arguments GlobalPgdir {W}.
Arguments world {W}.

(** ** Virtual memory of the current address space *)

Fixpoint virtual_free_loop (n : nat) (i VirtualAddress : Z) : M mm unit :=
  match n with
  | O => ret tt
  | S n' =>
      MiRemovePage MM_PDE_ADDRESS (u32 (VirtualAddress + i)) >>>
      virtual_free_loop n' (i + PGSIZE) VirtualAddress
  end.

Definition MmVirtualFree (VirtualAddress size : Z) : M mm unit :=
  virtual_free_loop (Z.to_nat (ROUNDUP size PGSIZE / PGSIZE)) 0 VirtualAddress.

Fixpoint virtual_alloc_loop (n : nat) (i VirtualAddress perm : Z) (status : KSTATUS)
    : M mm KSTATUS :=
  match n with
  | O => ret status
  | S n' =>
      let! (status, Page) := MmAllocatePFN (MmGetPteAddress (u32 (VirtualAddress + i))) in
      assert_ (K_SUCCESS status) >>>
      let! status := MiInsertPage MM_PDE_ADDRESS (u32 (VirtualAddress + i)) (Some Page)
                       (Z.lor perm PTE_P) in
      if negb (K_SUCCESS status) then
        assert_ false >>> MmVirtualFree VirtualAddress i >>> ret status
      else virtual_alloc_loop n' (i + PGSIZE) VirtualAddress perm status
  end.

Definition MmVirtualAlloc (VirtualAddress size perm : Z) : M mm KSTATUS :=
  virtual_alloc_loop (Z.to_nat (ROUNDUP size PGSIZE / PGSIZE)) 0 VirtualAddress perm STATUS_SUCCESS.

(** *** The temporary mapping window *)

Fixpoint map_temp_loop (n : nat) (VAddr Page : Z) : M mm (KSTATUS * addr) :=
  match n with
  | O => ret (STATUS_NO_MEMORY, VAddr)
  | S n' =>
      let! pte := read (MmGetPteAddress VAddr) in
      if negb (Valid pte) then
        let! Status := MiInsertPage MM_PDE_ADDRESS VAddr (Some Page) PTE_W in
        ret (Status, VAddr)
      else map_temp_loop n' (VAddr + PGSIZE) Page
  end.

Definition MmMapPageTemp (Page : Z) : M mm addr :=
  assert_ (USERTEMPEND - USERTEMP <=? PTSIZE) >>>
  let! pde := read (MmGetPdeAddress USERTEMP) in
  let! (Status, VAddr) :=
    (if negb (Valid pde) then
       let! Status := MiInsertPage MM_PDE_ADDRESS USERTEMP (Some Page) PTE_W in
       ret (Status, USERTEMP)
     else map_temp_loop (Z.to_nat (USERTEMPSIZE / PGSIZE)) USERTEMP Page) in
  if negb (K_SUCCESS Status) then ret NULL else ret VAddr.

Definition MmUnMapPageTemp (VAddr Page : Z) : M mm unit :=
  assert_ (USERTEMP <=? VAddr) >>>
  assert_ (VAddr <? USERTEMPEND) >>>
  MiRemovePage MM_PDE_ADDRESS VAddr >>>
  let! n := MiGetRefCount Page in
  assert_ (negb (n =? 0)).

(** *** The page fault handler *)

Definition set_cow (pte : MMPTE) : MMPTE := Z.setbit (Z.clearbit pte 1) 11.
Definition clear_cow (pte : MMPTE) : MMPTE := Z.setbit (Z.clearbit pte 11) 1.

(** The private copy of a shared page. *)
Definition copy_on_write (PageAddress Pfn : Z) : M mm unit :=
  MiIncReferencePFN Pfn >>>
  MiRemovePage MM_PDE_ADDRESS PageAddress >>>
  let! VirtualAddress := MmMapPageTemp Pfn in
  if VirtualAddress =? NULL then halt BugCheck
  else
    let! Status := MmMapSegment MM_PDE_ADDRESS PageAddress PGSIZE (Z.lor PTE_U PTE_W) in
    if negb (K_SUCCESS Status) then halt BugCheck
    else
      copy_page PageAddress VirtualAddress >>>
      MmUnMapPageTemp VirtualAddress Pfn >>>
      MiDecReferencePFN Pfn.

Definition MmPfHandler (FaultAddress : addr) : M mm unit :=
  if negb (IsUserAddress FaultAddress) then halt BugCheck
  else
    let! pde := read (MmGetPdeAddress FaultAddress) in
    if negb (Valid pde) then halt BugCheck
    else
      let! pte := read (MmGetPteAddress FaultAddress) in
      if negb (Valid pte) then halt BugCheck
      else if negb (CopyOnWrite pte) then halt BugCheck
      else
        let Pfn := MmGetPfnFromPte pte in
        let! n := MiGetRefCount Pfn in
        assert_ (negb (n =? 0)) >>>
        assert_ (negb (Writable pte)) >>>
        if n =? 1 then write (MmGetPteAddress FaultAddress) (clear_cow pte)
        else copy_on_write (ROUNDDOWN FaultAddress PGSIZE) Pfn.

(** ** The operations that take a spin lock *)

Section locked.
Context {W : Type} `{!SpinLock W}.

Definition in_mm {A} (m : M mm A) : M (vmm W) A :=
  zoom core (λ c s, Vmm c (MiSystemPteBitmap s) (bitmap_headers s) (bitmap_bits s)
                        (GlobalPgdir s) (world s)) m.
Definition in_world {A} (m : M W A) : M (vmm W) A :=
  zoom world (λ w s, Vmm (core s) (MiSystemPteBitmap s) (bitmap_headers s) (bitmap_bits s)
                         (GlobalPgdir s) w) m.
Definition in_sys_bitmap {A} (m : M BITMAP A) : M (vmm W) A :=
  zoom MiSystemPteBitmap (λ b s, Vmm (core s) b (bitmap_headers s) (bitmap_bits s)
                                     (GlobalPgdir s) (world s)) m.

Definition set_header (a : addr) (h : user_bitmap) (s : vmm W) : vmm W :=
  Vmm (core s) (MiSystemPteBitmap s) (<[a := h]> (bitmap_headers s)) (bitmap_bits s)
      (GlobalPgdir s) (world s).
Definition set_bits (a : addr) (l : list Z) (s : vmm W) : vmm W :=
  Vmm (core s) (MiSystemPteBitmap s) (bitmap_headers s) (<[a := l]> (bitmap_bits s))
      (GlobalPgdir s) (world s).

(** An operation on the bitmap whose header is at [a]. *)
Definition in_user_bitmap {A} (a : addr) (m : M BITMAP A) : M (vmm W) A :=
  let! h := deref (λ s, bitmap_headers s !! a) in
  let! l := deref (λ s, bitmap_bits s !! ub_bits h) in
  λ s, match m (Bitmap (ub_BitCount h) l) with
       | Ok (x, b) => Ok (x, set_bits (ub_bits h) (bits b) s)
       | Stop e => Stop e
       end.

(** *** System PTEs *)

Definition MmAllocateSystemPtes (NumberOfPages : Z) : M (vmm W) addr :=
  let! OldIrql := in_world sl_acquire in
  let! PageIndex := in_sys_bitmap (BmBitmapScanAndFlip 0 NumberOfPages false) in
  in_world (sl_release OldIrql) >>>
  if PageIndex =? BITMAP_ERROR then ret NULL
  else
    let Memory := u32 (MMSYSPTE_START + PGSIZE * PageIndex) in
    let! status := in_mm (MmVirtualAlloc Memory (u32 (NumberOfPages * PGSIZE)) PTE_W) in
    if negb (K_SUCCESS status) then ret NULL else ret Memory.

Definition MmFreeSystemPtes (Address NumberOfPages : Z) : M (vmm W) unit :=
  assert_ (MMSYSPTE_START <=? Address) >>>
  assert_ (Address <? MMSYSPTE_END) >>>
  let! OldIrql := in_world sl_acquire in
  assert_ (IsPageAlignedAddress Address) >>>
  let start := (Address - MMSYSPTE_START) / PGSIZE in
  in_sys_bitmap (BmBitmapSetMultiple start NumberOfPages false) >>>
  in_mm (MmVirtualFree Address (u32 (NumberOfPages * PGSIZE))) >>>
  in_world (sl_release OldIrql).

(** *** User PTEs: the bitmap is that of one process *)

Definition create_user_bitmap (Buffer : addr) : M (vmm W) unit :=
  let! b := lift (BmBitmapCreateInBuffer 0 (replicate (Z.to_nat (PGSIZE / 4)) 0) PGSIZE) in
  modify (set_header Buffer (UserBitmap (BitCount b) (Buffer + sizeof_BITMAP))) >>>
  modify (set_bits (Buffer + sizeof_BITMAP) (bits b)).

Definition MmInitializeUserPtes : M (vmm W) (KSTATUS * addr) :=
  let! Buffer := MmAllocateSystemPtes 1 in
  if Buffer =? NULL then ret (STATUS_INSUFFICIENT_RESOURCES, NULL)
  else create_user_bitmap Buffer >>> ret (STATUS_SUCCESS, Buffer).

(** The [memcpy] of the page copies the header of the other bitmap, and with it
    its pointer to the bit array, and the bits that follow the header. *)
Definition MmCloneUserPtes (CloneProcessBitmap : addr) : M (vmm W) (KSTATUS * addr) :=
  let! Buffer := MmAllocateSystemPtes 1 in
  if Buffer =? NULL then ret (STATUS_INSUFFICIENT_RESOURCES, NULL)
  else
    create_user_bitmap Buffer >>>
    let! h := deref (λ s, bitmap_headers s !! CloneProcessBitmap) in
    let! l := deref (λ s, bitmap_bits s !! (CloneProcessBitmap + sizeof_BITMAP)) in
    modify (set_header Buffer h) >>>
    modify (set_bits (Buffer + sizeof_BITMAP) l) >>>
    ret (STATUS_SUCCESS, Buffer).

Definition MmAllocateUserPtes (Bitmap NumberOfPages : Z) : M (vmm W) addr :=
  let! OldIrql := in_world sl_acquire in
  let! PageIndex := in_user_bitmap Bitmap (BmBitmapScanAndFlip 0 NumberOfPages false) in
  in_world (sl_release OldIrql) >>>
  if PageIndex =? BITMAP_ERROR then ret NULL
  else
    let Memory := u32 (USERPTEPOOL_START + PGSIZE * PageIndex) in
    let! status := in_mm (MmVirtualAlloc Memory (u32 (NumberOfPages * PGSIZE))
                            (Z.lor PTE_W PTE_U)) in
    if negb (K_SUCCESS status) then ret NULL else ret Memory.

Fixpoint test_all (n : nat) (i Bitmap : Z) : M (vmm W) unit :=
  match n with
  | O => ret tt
  | S n' =>
      let! t := in_user_bitmap Bitmap (BmBitmapTest i) in
      assert_ t >>> test_all n' (i + 1) Bitmap
  end.

Definition MmFreeUserPtes (Address Bitmap NumberOfPages : Z) : M (vmm W) unit :=
  assert_ (USERPTEPOOL_START <=? Address) >>>
  assert_ (Address <? USERPTEPOOL_END) >>>
  let! OldIrql := in_world sl_acquire in
  assert_ (IsPageAlignedAddress Address) >>>
  let start := (Address - USERPTEPOOL_START) / PGSIZE in
  test_all (Z.to_nat NumberOfPages) start Bitmap >>>
  in_user_bitmap Bitmap (BmBitmapSetMultiple start NumberOfPages false) >>>
  in_mm (MmVirtualFree Address (u32 (NumberOfPages * PGSIZE))) >>>
  in_world (sl_release OldIrql).

(** *** Process address spaces *)

Definition MmCreateProcessAddressSpace : M (vmm W) (KSTATUS * addr) :=
  let! page := MmAllocateSystemPtes 1 in
  if page =? NULL then assert_ false >>> ret (STATUS_INSUFFICIENT_RESOURCES, NULL)
  else
    let! g := gets GlobalPgdir in
    in_mm (copy_page page g) >>>
    let! pa := in_mm (MmGetPhysicalAddress page) in
    in_mm (write (u32 (page + 4 * PDX MMPAGETABLEAREA_START))
             (Z.lor pa (Z.lor PTE_W PTE_P))) >>>
    ret (STATUS_SUCCESS, page).

Definition MmAttachToAddressSpace (PageDirectory : addr) : M mm unit :=
  let! Cr3 := MmGetPhysicalAddress PageDirectory in lcr3 Cr3.

(** Remove the pages of one page table. *)
Fixpoint delete_pages (n : nat) (PageDirectory PageAddress : addr) : M mm unit :=
  match n with
  | O => ret tt
  | S n' =>
      let! pte := read (MmGetPteAddress PageAddress) in
      when (Valid pte) (MiRemovePage PageDirectory PageAddress >>> ret tt) >>>
      delete_pages n' PageDirectory (PageAddress + PGSIZE)
  end.

Fixpoint delete_tables (n : nat) (PageDirectory DirAddress : addr) : M mm unit :=
  match n with
  | O => ret tt
  | S n' =>
      let! t := read (u32 (PageDirectory + 4 * PDX DirAddress)) in
      let! pde := read (MmGetPdeAddress DirAddress) in
      assert_ (t =? pde) >>>
      (if Valid pde then
         delete_pages (Z.to_nat NPTENTRIES) PageDirectory DirAddress >>>
         MiRemovePage PageDirectory (MmGetPteAddress DirAddress) >>> ret tt
       else
         let! t := read (u32 (PageDirectory + 4 * PDX DirAddress)) in
         assert_ (t =? 0)) >>>
      delete_tables n' PageDirectory (DirAddress + PTSIZE)
  end.

Definition MmDeleteProcessAddressSpace (PageDirectory : addr) : M (vmm W) unit :=
  let! CurrentIrql := in_world (gets sl_irql) in
  assert_ (CurrentIrql =? DISPATCH_LEVEL) >>>
  let! OldCr3 := in_mm rcr3 in
  let! c := in_mm (IsCurrentPageDirectory PageDirectory) in
  assert_ (negb c) >>>
  in_mm (MmAttachToAddressSpace PageDirectory) >>>
  in_mm (delete_tables (Z.to_nat (USERTOP / PTSIZE)) PageDirectory 0) >>>
  in_mm (lcr3 OldCr3) >>>
  MmFreeSystemPtes PageDirectory 1.

(** One page of MmCloneProcessAddressSpace: the new entry is written through
    the temporary mapping at [TempPageAddr]. *)
Definition clone_page (TempPageAddr PageAddress : addr) : M mm unit :=
  let! pte := read (MmGetPteAddress PageAddress) in
  if Valid pte then
    MiIncReferencePFN (MmGetPfnFromPte pte) >>>
    let NewPte := u32 (TempPageAddr + 4 * PTX PageAddress) in
    if CopyOnWrite pte then
      assert_ (negb (Writable pte)) >>> write NewPte pte
    else if Writable pte then
      write (MmGetPteAddress PageAddress) (set_cow pte) >>>
      let! pte' := read (MmGetPteAddress PageAddress) in
      write NewPte pte'
    else write NewPte pte
  else ret tt.

Fixpoint clone_pages (n : nat) (TempPageAddr PageAddress : addr) : M mm unit :=
  match n with
  | O => ret tt
  | S n' =>
      clone_page TempPageAddr PageAddress >>>
      clone_pages n' TempPageAddr (PageAddress + PGSIZE)
  end.

Fixpoint clone_tables (n : nat) (ClonePageDirectory NewPageDirectory DirAddress : addr)
    : M mm KSTATUS :=
  match n with
  | O => ret STATUS_SUCCESS
  | S n' =>
      let NewPde := u32 (NewPageDirectory + 4 * PDX DirAddress) in
      let! t := read (u32 (ClonePageDirectory + 4 * PDX DirAddress)) in
      let! pde := read (MmGetPdeAddress DirAddress) in
      assert_ (t =? pde) >>>
      let! n0 := read NewPde in
      assert_ (n0 =? 0) >>>
      if Valid pde then
        let! (Status, NewPfn) := MmAllocatePFN NewPde in
        if negb (K_SUCCESS Status) then ret Status
        else
          MiIncReferencePFN NewPfn >>>
          write NewPde (Z.lor (MiPFNtoPhysicalAddress NewPfn) (Z.lor PTE_W (Z.lor PTE_U PTE_P))) >>>
          let! TempPageAddr := MmMapPageTemp NewPfn in
          assert_ (negb (TempPageAddr =? NULL)) >>>
          zero_page (ROUNDDOWN TempPageAddr PGSIZE) >>>
          clone_pages (Z.to_nat NPTENTRIES) TempPageAddr DirAddress >>>
          MmUnMapPageTemp TempPageAddr NewPfn >>>
          clone_tables n' ClonePageDirectory NewPageDirectory (DirAddress + PTSIZE)
      else clone_tables n' ClonePageDirectory NewPageDirectory (DirAddress + PTSIZE)
  end.

Definition MmCloneProcessAddressSpace (ClonePageDirectory NewPageDirectory : addr)
    : M (vmm W) KSTATUS :=
  let! CurrentIrql := in_world (gets sl_irql) in
  assert_ (CurrentIrql =? DISPATCH_LEVEL) >>>
  let! _ := in_mm rcr3 in
  let! c := in_mm (IsCurrentPageDirectory NewPageDirectory) in
  assert_ (negb c) >>>
  let! c := in_mm (IsCurrentPageDirectory ClonePageDirectory) in
  assert_ c >>>
  in_mm (clone_tables (Z.to_nat (USERTOP / PTSIZE)) ClonePageDirectory NewPageDirectory 0).

End locked.

(** ** One page of MmVirtualAlloc and of MmVirtualFree *)

Definition take_pfn (f pte : Z) (l : list Z) (s : mm) : mm :=
  set_pfn f (Pfn pte 0) (set_free l s).

Lemma allocate_pfn_run s f l pte :
  mm_inv s → PfnFreeList s = f :: l →
  MmAllocatePFN pte s = Ok ((STATUS_SUCCESS, f), take_pfn f pte l s) ∧
  mm_inv (take_pfn f pte l s) ∧ f ∉ l.
Proof.
  intros Hi Hl. pose proof Hi as [Hp Hr Hc Hn Hf].
  destruct (Hf f) as (p & Hfp & H0); [rewrite Hl; by left|].
  rewrite Hl in Hn. apply NoDup_cons in Hn as [Hnf Hn]. split; [|split; [|done]].
  - unfold MmAllocatePFN. rewrite gets_run, Hl, modify_run.
    rewrite (deref_run _ _ _ p) by done. rewrite modify_run, H0. done.
  - unfold take_pfn. split.
    + by apply (paging_ext s).
    + intros g q Hg. cbn in Hg. destruct (decide (g = f)) as [->|]; [by apply (Hr f p)|].
      rewrite lookup_insert_ne in Hg by done. by apply (Hr g q).
    + intros g q Hg. cbn in Hg. rewrite (mappings_ext _ s) by done.
      destruct (decide (g = f)) as [->|].
      * rewrite lookup_insert_eq in Hg. injection Hg as <-. pose proof (Hc f p Hfp). cbn [RefCount]. lia.
      * rewrite lookup_insert_ne in Hg by done. by apply Hc.
    + done.
    + intros g Hg. cbn in Hg |- *. destruct (decide (g = f)) as [->|]; [done|].
      rewrite lookup_insert_ne by done. apply Hf. rewrite Hl. by right.
Qed.

(** A frame that holds neither the page directory nor a page table. *)
Definition not_table (s : mm) (f : Z) : Prop :=
  f ≠ PPN (cr3 s) ∧
  ∀ i, 0 <= i < 1024 → Valid (pd s i) = true → PageFrameNumber (pd s i) ≠ f.

(** What changes when one page gets a new entry. *)
Record page_changed (s s' : mm) (va : addr) (v : MMPTE) (f : Z) (p : MMPFN) (l : list Z) : Prop := {
  pc_inv : mm_inv s';
  pc_cr3 : cr3 s' = cr3 s;
  pc_pde : ∀ va', pde_of s' va' = pde_of s va';
  pc_pte : ∀ va', is_u32 va' → Valid (pde_of s va') = true →
           pte_of s' va' = if PPN va' =? PPN va then v else pte_of s va';
  pc_data : ∀ g i, 0 <= i < 1024 → not_table s g →
            phys s' (word_of g i) = phys s (word_of g i);
  pc_map : ∀ g, mappings s' g = mappings s g
             - (match walk s va with Some h => if h =? g then 1 else 0 | None => 0 end)
             + (if Valid v && (PageFrameNumber v =? g) then 1 else 0);
  pc_free : PfnFreeList s' = l;
  pc_db : PfnDataBase s' = <[f := p]> (PfnDataBase s) }.

Lemma pde_ext s s' va : cr3 s = cr3 s' → phys s = phys s' → pde_of s va = pde_of s' va.
Proof. intros E1 E2. unfold pde_of, pde_word. by rewrite E1, E2. Qed.

Lemma pte_ext s s' va : cr3 s = cr3 s' → phys s = phys s' → pte_of s va = pte_of s' va.
Proof. intros E1 E2. unfold pte_of, pte_word, pde_of, pde_word. by rewrite E1, E2. Qed.

Lemma page_changed_put s s' va v f p l :
  paging s → mappable s va → mm_inv s' → cr3 s' = cr3 s → phys s' = phys (put_pte va v s) →
  PfnFreeList s' = l → PfnDataBase s' = <[f := p]> (PfnDataBase s) →
  page_changed s s' va v f p l.
Proof.
  intros Hp Hm Hi E1 E2 El Ed. pose proof Hm as (Hu & Hne & Hv).
  split; try done.
  - intros va'. rewrite (pde_ext s' (put_pte va v s)) by done. by apply put_pte_pde.
  - intros va' Hu' Hv'. rewrite (pte_ext s' (put_pte va v s)) by done. by apply put_pte_pte.
  - intros g i Hir [_ Hg]. rewrite E2. unfold put_pte, upd_word. cbn [set_phys phys].
    destruct (Z.eqb_spec (word_of g i) (pte_word s va)) as [E|]; [|done].
    apply word_of_inj in E as [E _]; [|done|apply PTX_range].
    exfalso. apply (Hg (PDX va)); [apply PDX_range|exact Hv|symmetry; exact E].
  - intros g. rewrite (mappings_ext s' (put_pte va v s)) by done. by apply mappings_put.
Qed.

Lemma insert_page_step s va f p perm :
  mm_inv s → mappable s va → pte_of s va = 0 → PfnDataBase s !! f = Some p →
  f ∉ PfnFreeList s → f ≠ 0 → RefCount p + 1 < 2 ^ 32 → 0 <= perm < 4096 →
  ∃ s', MiInsertPage MM_PDE_ADDRESS va (Some f) perm s = Ok (STATUS_SUCCESS, s') ∧
    page_changed s s' va (pte_value f perm) f (Pfn (PteAddress p) (RefCount p + 1)) (PfnFreeList s).
Proof.
  intros Hi Hm Hz Hf Hnf Hf0 Hov HP. pose proof (mi_paging s Hi) as Hp.
  pose proof (mi_count s Hi f p Hf) as Hc. pose proof (cnt_nonneg (maps s f) NPAGES) as H0.
  exists (insert_spec va f perm p s). split; [by apply insert_fresh_run|].
  apply page_changed_put; try done.
  - apply insert_inv; try done. unfold walk. rewrite Hz. change (Valid 0) with false.
    by rewrite andb_false_r.
  - cbn. rewrite u32_small; [done|unfold mappings in Hc; lia].
Qed.

Lemma alloc_page_step s va f l perm :
  mm_inv s → mappable s va → pte_of s va = 0 → PfnFreeList s = f :: l → f ≠ 0 →
  0 <= perm < 4096 →
  ∃ s0 s', MmAllocatePFN (MmGetPteAddress va) s = Ok ((STATUS_SUCCESS, f), s0) ∧
    MiInsertPage MM_PDE_ADDRESS va (Some f) perm s0 = Ok (STATUS_SUCCESS, s') ∧
    page_changed s s' va (pte_value f perm) f (Pfn (MmGetPteAddress va) 1) l.
Proof.
  intros Hi Hm Hz Hl Hf0 HP.
  destruct (allocate_pfn_run s f l (MmGetPteAddress va) Hi Hl) as (Hrun & Hi0 & Hnf).
  set (s0 := take_pfn f (MmGetPteAddress va) l s) in *.
  assert (mappable s0 va) as Hm0 by (by apply (mappable_ext s)).
  assert (PfnDataBase s0 !! f = Some (Pfn (MmGetPteAddress va) 0)) as Hf
    by (apply lookup_insert_eq).
  assert (pte_of s0 va = 0) as Hz0 by exact Hz.
  destruct (insert_page_step s0 va f _ perm Hi0 Hm0 Hz0 Hf Hnf Hf0) as (s' & Hr & Hpc);
    [cbn; lia|done|].
  exists s0, s'. split; [done|]. split; [done|]. destruct Hpc as [P1 P2 P3 P4 P5 P6 P7 P8].
  split; try done. rewrite P8. cbn. by rewrite insert_insert_eq.
Qed.

Lemma remove_page_step s va f p :
  mm_inv s → mappable s va → page_aligned va → walk s va = Some f →
  PfnDataBase s !! f = Some p →
  ∃ s', MiRemovePage MM_PDE_ADDRESS va s = Ok (STATUS_SUCCESS, s') ∧
    page_changed s s' va 0 f (Pfn (PteAddress p) (RefCount p - 1))
      ((if RefCount p =? 1 then [f] else []) ++ PfnFreeList s).
Proof.
  intros Hi Hm Hal Hw Hf. pose proof Hi as [Hp Hr Hcn _ _]. pose proof Hm as (Hu & Hne & _).
  pose proof (mapped_referenced s va f p Hi Hu Hne Hw Hf) as Hge. pose proof (Hcn f p Hf) as Hc.
  assert (u32 (RefCount p - 1) = RefCount p - 1) as Eu by (apply u32_small; lia).
  destruct (drop_ref_phys f p s) as (E1 & E2 & E3 & _).
  exists (remove_spec va f p s).
  split; [apply remove_page_run; try done; by apply (Hr f p)|].
  apply page_changed_put; try done.
  - by apply remove_inv.
  - unfold remove_spec, put_pte. cbn [set_phys phys].
    unfold pte_word. by rewrite (pde_ext (drop_ref f p s) s), E2 by done.
  - cbn. unfold drop_ref. rewrite Eu.
    destruct (Z.eqb_spec (RefCount p - 1) 0), (Z.eqb_spec (RefCount p) 1); (lia || reflexivity).
  - cbn. by rewrite E3, Eu.
Qed.

Lemma free_page_step s va f pte :
  mm_inv s → mappable s va → page_aligned va → walk s va = Some f →
  PfnDataBase s !! f = Some (Pfn pte 1) →
  ∃ s', MiRemovePage MM_PDE_ADDRESS va s = Ok (STATUS_SUCCESS, s') ∧
    page_changed s s' va 0 f (Pfn pte 0) (f :: PfnFreeList s).
Proof. intros Hi Hm Hal Hw Hf. by apply (remove_page_step s va f (Pfn pte 1)). Qed.

(** ** Ranges of pages *)

Definition page_at (b : addr) (k : nat) : addr := b + PGSIZE * Z.of_nat k.

Definition range_ok (b : addr) (n : nat) : Prop :=
  0 <= b ∧ b mod PGSIZE = 0 ∧ b + PGSIZE * Z.of_nat n <= 2 ^ 32.

Lemma range_ok_S b n : range_ok b (S n) → is_u32 b ∧ range_ok (b + PGSIZE) n.
Proof. unfold range_ok, PGSIZE. intros (H1 & H2 & H3). split; [lia|]. split_and!; [lia| |lia].
  Z.div_mod_to_equations; lia. Qed.

Lemma page_at_S b k : page_at b (S k) = page_at (b + PGSIZE) k.
Proof. unfold page_at, PGSIZE. lia. Qed.

Lemma page_at_0 b : page_at b 0 = b.
Proof. unfold page_at, PGSIZE. lia. Qed.

Lemma page_at_u32 b n k : range_ok b n → (k < n)%nat → is_u32 (page_at b k).
Proof. unfold range_ok, page_at, PGSIZE. lia. Qed.

Lemma page_at_PPN b n k : range_ok b (S n) → (k < n)%nat → PPN (page_at (b + PGSIZE) k) ≠ PPN b.
Proof.
  unfold range_ok, page_at, PGSIZE. intros (H1 & H2 & H3) Hk. page_arith.
Qed.

(** An address outside a range is on none of its pages. *)
Lemma outside_PPN b n va :
  range_ok b (S n) → is_u32 va → va < b ∨ b + PGSIZE * Z.of_nat (S n) <= va → PPN va ≠ PPN b.
Proof. unfold range_ok, PGSIZE. intros (H1 & H2 & H3) Hv Ho. page_arith. Qed.

Lemma mappable_pde s s' va :
  (∀ va', pde_of s' va' = pde_of s va') → mappable s va → mappable s' va.
Proof. intros He (H1 & H2 & H3). split; [done|]. split; [done|]. by rewrite He. Qed.

Lemma lor_P_range perm : 0 <= perm < 4096 → 0 <= Z.lor perm PTE_P < 4096.
Proof.
  intros Hp. unfold PTE_P. split; [apply Z.lor_nonneg; lia|].
  change 4096 with (2 ^ 12). destruct (decide (Z.lor perm 1 = 0)) as [->|]; [lia|].
  apply Z.log2_lt_pow2; [pose proof (Z.lor_nonneg perm 1); lia|].
  rewrite Z.log2_lor by lia. change (Z.log2 1) with 0.
  destruct (decide (perm = 0)) as [->|]; [simpl; lia|].
  apply Z.max_lub_lt; [apply Z.log2_lt_pow2; lia|lia].
Qed.

(** The pages of the range [b, b + n pages) mapped to the frames [fs]. *)
Record range_mapped (s s' : mm) (b : addr) (fs : list Z) (perm : Z) : Prop := {
  rm_pde : ∀ va', pde_of s' va' = pde_of s va';
  rm_pte : ∀ k f, fs !! k = Some f →
           pte_of s' (page_at b k) = pte_value f perm ∧
           PfnDataBase s' !! f = Some (Pfn (MmGetPteAddress (page_at b k)) 1);
  rm_other : ∀ va', is_u32 va' → Valid (pde_of s va') = true →
             va' < b ∨ b + PGSIZE * Z.of_nat (length fs) <= va' → pte_of s' va' = pte_of s va';
  rm_db : ∀ g, g ∉ fs → PfnDataBase s' !! g = PfnDataBase s !! g }.

Lemma alloc_loop_run fs : ∀ s i va perm l,
  mm_inv s → PfnFreeList s = fs ++ l → 0 ∉ fs → 0 <= perm < 4096 →
  range_ok (va + i) (length fs) →
  (∀ k, (k < length fs)%nat → mappable s (page_at (va + i) k) ∧ pte_of s (page_at (va + i) k) = 0) →
  ∃ s', virtual_alloc_loop (length fs) i va perm STATUS_SUCCESS s = Ok (STATUS_SUCCESS, s') ∧
    mm_inv s' ∧ PfnFreeList s' = l ∧ range_mapped s s' (va + i) fs (Z.lor perm PTE_P).
Proof.
  induction fs as [|f fs IH]; intros s i va perm l Hi Hl H0 HP Hrg Hpg.
  { exists s. split; [done|]. split; [done|]. split; [done|]. split; try done.
    all: intros k f Hk; by rewrite lookup_nil in Hk. }
  cbn [length] in *. apply not_elem_of_cons in H0 as [Hf0 H0].
  destruct (range_ok_S _ _ Hrg) as [Hu Hrg'].
  destruct (Hpg 0%nat ltac:(lia)) as [Hm Hz]. rewrite page_at_0 in Hm, Hz.
  pose proof (mi_nodup s Hi) as Hnd. rewrite Hl in Hnd. simpl in Hnd, Hl.
  apply NoDup_cons in Hnd as [Hnf Hnd]. rewrite elem_of_app in Hnf.
  destruct (alloc_page_step s (va + i) f (fs ++ l) (Z.lor perm PTE_P) Hi Hm Hz Hl (not_eq_sym Hf0)
    (lor_P_range perm HP)) as (s0 & s1 & R1 & R2 & [Pi _ Ppde Ppte _ _ Pfree Pdb]).
  destruct (IH s1 (i + PGSIZE) va perm l) as (s' & R3 & Hi' & Hl' & [Mpde Mpte Moth Mdb]); try done.
  { by rewrite Z.add_assoc. }
  { intros k Hk. destruct (Hpg (S k) ltac:(lia)) as [Hmk Hzk]. rewrite page_at_S in Hmk, Hzk.
    rewrite Z.add_assoc. split; [by apply (mappable_pde s)|].
    rewrite Ppte; [|apply Hmk|apply Hmk]. destruct (Z.eqb_spec (PPN (page_at (va + i + PGSIZE) k))
      (PPN (va + i))) as [E|]; [|done]. by apply (page_at_PPN (va + i) (length fs) k) in E. }
  rewrite Z.add_assoc in *.
  exists s'. split.
  { cbn [virtual_alloc_loop]. rewrite u32_small by done. rewrite (bind_Ok _ _ _ _ _ R1).
    rewrite assert_true by done. rewrite (bind_Ok _ _ _ _ _ R2). exact R3. }
  split; [done|]. split; [done|]. split.
  - intros va'. by rewrite Mpde.
  - intros [|k] g Hk; cbn in Hk.
    + injection Hk as ->. rewrite page_at_0. split.
      * rewrite Moth; [|done|rewrite Ppde; apply Hm|unfold PGSIZE; lia].
        rewrite Ppte by apply Hm. by rewrite Z.eqb_refl.
      * rewrite Mdb by tauto. rewrite Pdb. apply lookup_insert_eq.
    + rewrite page_at_S. by apply Mpte.
  - intros va' Hu' Hv' Ho. rewrite Moth; [|done|by rewrite Ppde|].
    2: { cbn [length] in Ho. unfold PGSIZE in *. lia. }
    rewrite Ppte by done. destruct (Z.eqb_spec (PPN va') (PPN (va + i))) as [E|]; [|done].
    by apply (outside_PPN (va + i) (length fs) va') in E.
  - intros g [Hg Hg']%not_elem_of_cons. rewrite Mdb by done. rewrite Pdb.
    by apply lookup_insert_ne.
Qed.

(** The pages of the range unmapped. *)
Record range_unmapped (s s' : mm) (b : addr) (fs : list Z) : Prop := {
  ru_free : PfnFreeList s' = rev fs ++ PfnFreeList s;
  ru_pde : ∀ va', pde_of s' va' = pde_of s va';
  ru_pte : ∀ k, (k < length fs)%nat → pte_of s' (page_at b k) = 0;
  ru_other : ∀ va', is_u32 va' → Valid (pde_of s va') = true →
             va' < b ∨ b + PGSIZE * Z.of_nat (length fs) <= va' → pte_of s' va' = pte_of s va' }.

Lemma walk_page_changed s s' va v f p l va' :
  page_changed s s' va v f p l → is_u32 va' → Valid (pde_of s va') = true →
  PPN va' ≠ PPN va → walk s' va' = walk s va'.
Proof.
  intros [_ _ Hd Ht _ _ _ _] Hu Hv Hne. unfold walk. rewrite Hd, Ht by done.
  by destruct (Z.eqb_spec (PPN va') (PPN va)).
Qed.

Lemma free_loop_run fs : ∀ s i va,
  mm_inv s → range_ok (va + i) (length fs) → NoDup fs →
  (∀ k f, fs !! k = Some f → mappable s (page_at (va + i) k) ∧
     walk s (page_at (va + i) k) = Some f ∧ ∃ pte, PfnDataBase s !! f = Some (Pfn pte 1)) →
  ∃ s', virtual_free_loop (length fs) i va s = Ok (tt, s') ∧ mm_inv s' ∧
    range_unmapped s s' (va + i) fs.
Proof.
  induction fs as [|f fs IH]; intros s i va Hi Hrg Hnd Hpg.
  { exists s. split; [done|]. split; [done|]. split; try done. cbn. lia. }
  cbn [length] in *. apply NoDup_cons in Hnd as [Hnf Hnd].
  destruct (range_ok_S _ _ Hrg) as [Hu Hrg'].
  destruct (Hpg 0%nat f eq_refl) as (Hm & Hw & pte & Hf). rewrite page_at_0 in Hm, Hw.
  assert (page_aligned (va + i)) as Hal.
  { unfold page_aligned. rewrite PGOFF_mod. by destruct Hrg as (_ & ? & _). }
  destruct (free_page_step s (va + i) f pte Hi Hm Hal Hw Hf) as (s1 & R1 & Hpc).
  pose proof Hpc as [Pi _ Ppde Ppte _ _ Pfree Pdb].
  destruct (IH s1 (i + PGSIZE) va) as (s' & R2 & Hi' & [Ufree Upde Upte Uoth]); try done.
  { by rewrite Z.add_assoc. }
  { intros k g Hk. destruct (Hpg (S k) g Hk) as (Hmk & Hwk & pk & Hgk).
    assert (k < length fs)%nat as Hlt by (by eapply lookup_lt_Some).
    rewrite page_at_S in Hmk, Hwk. rewrite Z.add_assoc.
    split; [by apply (mappable_pde s)|]. split.
    - rewrite (walk_page_changed _ _ _ _ _ _ _ _ Hpc); [done|apply Hmk|apply Hmk|].
      by apply (page_at_PPN _ (length fs)).
    - exists pk. rewrite Pdb, lookup_insert_ne; [done|]. intros ->. apply Hnf.
      by eapply list_elem_of_lookup_2. }
  rewrite Z.add_assoc in *.
  exists s'. split.
  { cbn [virtual_free_loop]. rewrite u32_small by done. rewrite (bind_Ok _ _ _ _ _ R1). exact R2. }
  split; [done|]. split.
  - rewrite Ufree, Pfree. cbn [rev]. by rewrite <- app_assoc.
  - intros va'. by rewrite Upde.
  - intros [|k] Hk.
    + rewrite page_at_0. rewrite Uoth; [|done|rewrite Ppde; apply Hm|unfold PGSIZE; lia].
      rewrite Ppte by apply Hm. by rewrite Z.eqb_refl.
    + rewrite page_at_S. apply Upte. cbn [length] in Hk. lia.
  - intros va' Hu' Hv' Ho. rewrite Uoth; [|done|by rewrite Ppde|].
    2: { cbn [length] in Ho. unfold PGSIZE in *. lia. }
    rewrite Ppte by done. destruct (Z.eqb_spec (PPN va') (PPN (va + i))) as [E|]; [|done].
    by apply (outside_PPN (va + i) (length fs) va') in E.
Qed.

(** ** The theorems *)

(** C9: MmVirtualAlloc maps the pages of an unmapped range, in order, to the
    first frames of the free list, one reference each, with the permissions
    asked for, and changes no other translation. *)
Theorem virtual_alloc_maps s va size perm n :
  mm_inv s → 0 <= perm < 4096 → ROUNDUP size PGSIZE = PGSIZE * Z.of_nat n → range_ok va n →
  (∀ k, (k < n)%nat → mappable s (page_at va k) ∧ pte_of s (page_at va k) = 0) →
  (n <= length (PfnFreeList s))%nat → 0 ∉ PfnFreeList s →
  ∃ s', MmVirtualAlloc va size perm s = Ok (STATUS_SUCCESS, s') ∧ mm_inv s' ∧
    PfnFreeList s' = drop n (PfnFreeList s) ∧
    range_mapped s s' va (take n (PfnFreeList s)) (Z.lor perm PTE_P).
Proof.
  intros Hi HP Hsz Hrg Hpg Hlen H0. set (fs := take n (PfnFreeList s)).
  assert (length fs = n) as Hfs by (apply length_take_le; lia).
  rewrite <- Hfs in Hrg, Hpg, Hsz.
  destruct (alloc_loop_run fs s 0 va perm (drop n (PfnFreeList s))) as (s' & Hr & Hi' & Hl & Hm).
  - done.
  - unfold fs. by rewrite take_drop.
  - intros Hin. apply H0. unfold fs in Hin. by apply elem_of_take in Hin as (k & Hk & _);
      eapply list_elem_of_lookup_2.
  - done.
  - by rewrite Z.add_0_r.
  - intros k Hk. rewrite Z.add_0_r. by apply Hpg.
  - rewrite Z.add_0_r in Hm. exists s'. split; [|done]. unfold MmVirtualAlloc. rewrite Hsz.
    replace (PGSIZE * Z.of_nat (length fs) / PGSIZE) with (Z.of_nat (length fs))
      by (unfold PGSIZE; rewrite Z.mul_comm, Z.div_mul; lia).
    by rewrite Nat2Z.id.
Qed.

(** A run of the loop that returns has done all its iterations. *)
Lemma alloc_loop_app a b va perm s' st1 : ∀ i st0 s,
  virtual_alloc_loop a i va perm st0 s = Ok (st1, s') →
  virtual_alloc_loop (a + b) i va perm st0 s
  = virtual_alloc_loop b (i + PGSIZE * Z.of_nat a) va perm st1 s'.
Proof.
  induction a as [|a IH]; intros i st0 s Hr.
  { injection Hr as -> ->. cbn [Nat.add]. f_equal. lia. }
  cbn [Nat.add virtual_alloc_loop] in *. revert Hr. unfold bind.
  destruct (MmAllocatePFN _ s) as [[[st Page] s0]|]; [|done].
  destruct (assert_ (K_SUCCESS st) s0) as [[[] s1]|]; [|done].
  destruct (MiInsertPage _ _ _ _ s1) as [[st' s2]|]; [|done].
  destruct (negb (K_SUCCESS st')) eqn:E; [done|]. intros Hr.
  rewrite (IH _ _ _ Hr). f_equal. lia.
Qed.

Lemma pages_of_size size n :
  ROUNDUP size PGSIZE = PGSIZE * Z.of_nat n → Z.to_nat (ROUNDUP size PGSIZE / PGSIZE) = n.
Proof.
  intros ->. replace (PGSIZE * Z.of_nat n / PGSIZE) with (Z.of_nat n)
    by (unfold PGSIZE; rewrite Z.mul_comm, Z.div_mul; lia).
  by rewrite Nat2Z.id.
Qed.

(** C37: MmVirtualFree undoes MmVirtualAlloc: the range is unmapped again, every
    other translation is the same, and the frames are back on the free list. *)
Theorem virtual_alloc_free s va size perm n :
  mm_inv s → 0 <= perm < 4096 → ROUNDUP size PGSIZE = PGSIZE * Z.of_nat n → range_ok va n →
  (∀ k, (k < n)%nat → mappable s (page_at va k) ∧ pte_of s (page_at va k) = 0) →
  (n <= length (PfnFreeList s))%nat → 0 ∉ PfnFreeList s →
  ∃ s1 s2, MmVirtualAlloc va size perm s = Ok (STATUS_SUCCESS, s1) ∧
    MmVirtualFree va size s1 = Ok (tt, s2) ∧ mm_inv s2 ∧
    PfnFreeList s2 ≡ₚ PfnFreeList s ∧
    ∀ va', is_u32 va' → PDX va' ≠ self_index → walk s2 va' = walk s va'.
Proof.
  intros Hi HP Hsz Hrg Hpg Hlen H0. set (fs := take n (PfnFreeList s)).
  assert (length fs = n) as Hfs by (apply length_take_le; lia).
  pose proof (mi_nodup s Hi) as Hnd. rewrite <- (take_drop n (PfnFreeList s)) in Hnd.
  apply NoDup_app in Hnd as (Hnd & _ & _).
  assert (0 ∉ fs) as H0f.
  { intros Hin. apply H0. by apply elem_of_take in Hin as (k & Hk & _);
      eapply list_elem_of_lookup_2. }
  assert (∀ k f, fs !! k = Some f → 0 <= f < 2 ^ 20) as Hrange.
  { intros k f Hk. unfold fs in Hk. apply lookup_take_Some in Hk as [Hk _].
    apply list_elem_of_lookup_2 in Hk. destruct (mi_free s Hi f Hk) as (p & Hp & _).
    by apply (mi_range s Hi f p). }
  destruct (alloc_loop_run fs s 0 va perm (drop n (PfnFreeList s)))
    as (s1 & Hr1 & Hi1 & Hl1 & [Mpde Mpte Moth Mdb]); rewrite ?Z.add_0_r, ?Hfs in *; try done.
  { unfold fs. by rewrite take_drop. }
  destruct (free_loop_run fs s1 0 va) as (s2 & Hr2 & Hi2 & [Ufree Upde Upte Uoth]);
    rewrite ?Z.add_0_r, ?Hfs in *; try done.
  { intros k f Hk. assert (k < n)%nat as Hlt by (rewrite <- Hfs; by eapply lookup_lt_Some).
    destruct (Hpg k Hlt) as [Hm Hz]. destruct (Mpte k f Hk) as [Ep Ed].
    split; [by apply (mappable_pde s)|]. split; [|eauto].
    unfold walk. rewrite Mpde, Ep. destruct Hm as (_ & _ & ->).
    destruct (pte_value_bits f (Z.lor perm PTE_P) (Hrange k f Hk) (lor_P_range perm HP)) as [-> ->].
    done. }
  exists s1, s2. split; [unfold MmVirtualAlloc; by rewrite (pages_of_size size n)|].
  split; [unfold MmVirtualFree; by rewrite (pages_of_size size n)|]. split; [done|]. split.
  { rewrite Ufree, Hl1, <- Permutation_rev. unfold fs. by rewrite take_drop. }
  intros va' Hu' Hne'. unfold walk. rewrite Upde, Mpde.
  destruct (Valid (pde_of s va')) eqn:Hv'; [|done]. cbn [andb].
  destruct (decide (va' < va ∨ va + PGSIZE * Z.of_nat n <= va')) as [Ho|Hin].
  - rewrite Uoth, Moth by (done || by rewrite Mpde). done.
  - assert (∃ k, (k < n)%nat ∧ PPN va' = PPN (page_at va k)) as (k & Hk & HPP).
    { destruct Hrg as (Hva & Hal & Hend). unfold page_at, PGSIZE in *.
      exists (Z.to_nat ((va' - va) / 4096)). rewrite !PPN_div. Z.div_mod_to_equations; lia. }
    destruct (Hpg k Hk) as [Hm Hz]. pose proof Hm as (Huk & _ & _).
    apply (same_page va' _ Hu' Huk) in HPP as [Ed Et].
    assert (∀ x : mm, pte_of x va' = pte_of x (page_at va k)) as Hsame.
    { intros x. unfold pte_of, pte_word, pde_of, pde_word. by rewrite Ed, Et. }
    rewrite !Hsame, Upte, Hz by done. done.
Qed.

(** MmVirtualAlloc does not fail softly: when the free list runs out, the
    assertion on MmAllocatePFN stops the machine before any clean-up. *)
Theorem virtual_alloc_out_of_memory s va size perm n :
  mm_inv s → 0 <= perm < 4096 → ROUNDUP size PGSIZE = PGSIZE * Z.of_nat n → range_ok va n →
  (∀ k, (k < n)%nat → mappable s (page_at va k) ∧ pte_of s (page_at va k) = 0) →
  (length (PfnFreeList s) < n)%nat → 0 ∉ PfnFreeList s →
  MmVirtualAlloc va size perm s = Stop BugCheck.
Proof.
  intros Hi HP Hsz Hrg Hpg Hlen H0. unfold MmVirtualAlloc. rewrite (pages_of_size size n) by done.
  set (fs := PfnFreeList s) in *.
  assert (range_ok va (length fs)) as Hrg'.
  { destruct Hrg as (H1 & H2 & H3). split_and!; [done|done|]. unfold PGSIZE in *. lia. }
  destruct (alloc_loop_run fs s 0 va perm []) as (s1 & Hr1 & Hi1 & Hl1 & _);
    rewrite ?Z.add_0_r, ?app_nil_r; try done.
  { intros k Hk. apply Hpg. lia. }
  replace n with (length fs + S (n - length fs - 1))%nat by lia.
  rewrite (alloc_loop_app _ _ _ _ _ _ _ _ _ Hr1). cbn [virtual_alloc_loop].
  unfold MmAllocatePFN. unfold bind at 1. unfold bind at 1, gets. by rewrite Hl1.
Qed.

(** *** Witnesses: one page at MMPAGEPOOL_START in the small machine of Paging.v *)

Lemma demo_range k : (k < 1)%nat →
  mappable demo_mm (page_at MMPAGEPOOL_START k) ∧ pte_of demo_mm (page_at MMPAGEPOOL_START k) = 0.
Proof. intros Hk. assert (k = 0%nat) as -> by lia. split; [apply demo_mappable|reflexivity]. Qed.

Lemma virtual_alloc_maps_witness :
  ∃ s', MmVirtualAlloc MMPAGEPOOL_START 100 PTE_W demo_mm = Ok (STATUS_SUCCESS, s') ∧
    PfnFreeList s' = [6] ∧ walk s' MMPAGEPOOL_START = Some 5.
Proof.
  destruct (virtual_alloc_maps demo_mm MMPAGEPOOL_START 100 PTE_W 1) as (s' & Hr & _ & Hl & Hm).
  - apply demo_mm_inv.
  - done.
  - reflexivity.
  - split_and!; done.
  - apply demo_range.
  - cbn. lia.
  - cbn. by apply (bool_decide_unpack _); vm_compute.
  - exists s'. split; [exact Hr|]. split; [exact Hl|].
    destruct Hm as [Hd Ht _ _]. destruct (Ht 0%nat 5 eq_refl) as [Hp _].
    rewrite page_at_0 in Hp. unfold walk. rewrite Hd, Hp. reflexivity.
Defined.

Lemma virtual_alloc_free_witness :
  ∃ s1 s2, MmVirtualAlloc MMPAGEPOOL_START 100 PTE_W demo_mm = Ok (STATUS_SUCCESS, s1) ∧
    MmVirtualFree MMPAGEPOOL_START 100 s1 = Ok (tt, s2) ∧ PfnFreeList s2 ≡ₚ [5; 6].
Proof.
  destruct (virtual_alloc_free demo_mm MMPAGEPOOL_START 100 PTE_W 1) as (s1 & s2 & Hr1 & Hr2 & _ & Hl & _).
  - apply demo_mm_inv.
  - done.
  - reflexivity.
  - split_and!; done.
  - apply demo_range.
  - cbn. lia.
  - cbn. by apply (bool_decide_unpack _); vm_compute.
  - exists s1, s2. split; [exact Hr1|]. split; [exact Hr2|exact Hl].
Defined.

Lemma virtual_alloc_out_of_memory_witness :
  MmVirtualAlloc MMPAGEPOOL_START (2 * PGSIZE + 1) PTE_W demo_mm = Stop BugCheck.
Proof.
  apply (virtual_alloc_out_of_memory demo_mm MMPAGEPOOL_START (2 * PGSIZE + 1) PTE_W 3).
  - apply demo_mm_inv.
  - done.
  - reflexivity.
  - split_and!; done.
  - intros k Hk. assert (k = 0 ∨ k = 1 ∨ k = 2)%nat as [->|[->| ->]] by lia;
      (split; [split; [done|split; [done|reflexivity]]|reflexivity]).
  - cbn. lia.
  - cbn. by apply (bool_decide_unpack _); vm_compute.
Defined.

(** ** The system PTE pool *)

Definition SYSPTES : Z := MMSYSPTE_SIZE / PGSIZE.
Definition syspte (i : Z) : addr := MMSYSPTE_START + PGSIZE * i.

(** A page of the pool whose bit is clear is unmapped. *)
Record sys_inv (c : mm) (b : BITMAP) : Prop := {
  sy_mm : mm_inv c;
  sy_wf : wf b;
  sy_count : BitCount b = SYSPTES;
  sy_clear : ∀ i, 0 <= i < SYSPTES → bit b i = false →
             mappable c (syspte i) ∧ pte_of c (syspte i) = 0 }.

Lemma syspte_range i n : 0 <= i → i + Z.of_nat n <= SYSPTES → range_ok (syspte i) n.
Proof.
  unfold SYSPTES, range_ok, syspte. change (MMSYSPTE_SIZE / PGSIZE) with 65536.
  change MMSYSPTE_START with 0x85800000. unfold PGSIZE. intros Hi Hn. split_and!; [lia| |lia].
  Z.div_mod_to_equations; lia.
Qed.

Lemma syspte_page_at i k : page_at (syspte i) k = syspte (i + Z.of_nat k).
Proof. unfold page_at, syspte. lia. Qed.

Lemma pages_rounded n : 0 <= n <= SYSPTES → ROUNDUP (u32 (n * PGSIZE)) PGSIZE = PGSIZE * Z.of_nat (Z.to_nat n).
Proof.
  unfold SYSPTES. change (MMSYSPTE_SIZE / PGSIZE) with 65536. unfold PGSIZE. intros Hn.
  rewrite u32_small, Z2Nat.id by lia.
  destruct (roundup_spec (n * 4096) 4096) as [Hr [q Hq]]; [lia..|]. lia.
Qed.

Section system_ptes.
Context {W : Type} `{!SpinLock W}.

Definition with_core (c : mm) (b : BITMAP) (s : vmm W) : vmm W :=
  Vmm c b (bitmap_headers s) (bitmap_bits s) (GlobalPgdir s) (world s).

(** MmAllocateSystemPtes up to the call of MmVirtualAlloc: the lock is taken
    and given back around the bitmap operation. *)
Lemma allocate_syspte_index n s r b' :
  sl_free (world s) → BmBitmapScanAndFlip 0 n false (MiSystemPteBitmap s) = Ok (r, b') →
  MmAllocateSystemPtes n s =
    (if r =? BITMAP_ERROR then ret NULL
     else
       let Memory := u32 (MMSYSPTE_START + PGSIZE * r) in
       let! status := in_mm (MmVirtualAlloc Memory (u32 (n * PGSIZE)) PTE_W) in
       if negb (K_SUCCESS status) then ret NULL else ret Memory)
    (with_core (core s) b' s).
Proof.
  intros Hf Hb. destruct (sl_round _ Hf) as (_ & old & w' & Ha & Hr).
  unfold MmAllocateSystemPtes, in_world, in_sys_bitmap, zoom. unfold bind at 1.
  rewrite Ha. unfold bind at 1. cbn [MiSystemPteBitmap]. rewrite Hb.
  unfold bind at 1. cbn [world]. rewrite Hr. done.
Qed.

Lemma in_mm_run {A} (m : M mm A) (s : vmm W) a c :
  m (core s) = Ok (a, c) →
  in_mm m s = Ok (a, with_core c (MiSystemPteBitmap s) s).
Proof. intros H. unfold in_mm, zoom. by rewrite H. Qed.

Lemma system_ptes_spec n (s : vmm W) :
  sl_free (world s) → sys_inv (core s) (MiSystemPteBitmap s) → 1 <= n <= SYSPTES →
  (Z.to_nat n <= length (PfnFreeList (core s)))%nat → 0 ∉ PfnFreeList (core s) →
  (MmAllocateSystemPtes n s = Ok (NULL, s) ∧
   ∀ j, 0 <= j → ¬ Bitmap.fits (MiSystemPteBitmap s) j n false) ∨
  ∃ i c b, MmAllocateSystemPtes n s = Ok (syspte i, with_core c b s) ∧
    0 <= i ∧ i + n <= SYSPTES ∧ sys_inv c b ∧
    (∀ j, 0 <= j < i → ¬ Bitmap.fits (MiSystemPteBitmap s) j n false) ∧
    (∀ j, 0 <= j → bit b j = in_range i n j || bit (MiSystemPteBitmap s) j) ∧
    range_mapped (core s) c (syspte i) (take (Z.to_nat n) (PfnFreeList (core s))) (Z.lor PTE_W PTE_P) ∧
    Bitmap.fits (MiSystemPteBitmap s) i n false.
Proof.
  intros Hf [Hmm Hwf Hcnt Hclr] Hn Hlen H0.
  destruct (ScanAndFlip_spec (MiSystemPteBitmap s) 0 n false Hwf)
    as (r & b' & Hrun & Hsh & Hno & Hok & Herr & Hbits); [rewrite Hcnt; done|lia|rewrite Hcnt; done|].
  rewrite (allocate_syspte_index n s r b' Hf Hrun).
  destruct (Z.eqb_spec r BITMAP_ERROR) as [Hr|Hr]; [left|right].
  { rewrite (Herr Hr). split; [by destruct s|]. intros j Hj. apply Hno; [done|by left]. }
  destruct (Hok Hr) as [Hr0 [Hfit Hall]]. rewrite Hcnt in Hfit.
  cbn [negb andb] in Hbits.
  assert (u32 (MMSYSPTE_START + PGSIZE * r) = syspte r) as Ead.
  { apply u32_small. destruct (syspte_range r (Z.to_nat n)) as (H1 & _ & H2); [lia..|].
    unfold syspte, PGSIZE in *. lia. }
  set (fs := take (Z.to_nat n) (PfnFreeList (core s))).
  assert (length fs = Z.to_nat n) as Hfs by (apply length_take_le; lia).
  destruct (alloc_loop_run fs (core s) 0 (syspte r) PTE_W (drop (Z.to_nat n) (PfnFreeList (core s))))
    as (c & Hr1 & Hi1 & Hl1 & Hmap); rewrite ?Z.add_0_r, ?Hfs in *; try done.
  { unfold fs. by rewrite take_drop. }
  { intros Hin. apply H0. by apply elem_of_take in Hin as (k & Hk & _);
      eapply list_elem_of_lookup_2. }
  { apply syspte_range; lia. }
  { intros k Hk. rewrite syspte_page_at. apply Hclr; [lia|]. apply Hall. lia. }
  exists r, c, b'. cbv zeta. rewrite Ead.
  assert (MmVirtualAlloc (syspte r) (u32 (n * PGSIZE)) PTE_W (core (with_core (core s) b' s))
    = Ok (STATUS_SUCCESS, c)) as Hva.
  { unfold MmVirtualAlloc. rewrite (pages_of_size _ (Z.to_nat n)) by (apply pages_rounded; lia). done. }
  rewrite (bind_Ok _ _ _ _ _ (in_mm_run _ _ _ _ Hva)).
  split; [done|]. split; [done|]. split; [done|]. split; [|split; [|split; [|split; [done|by split; [rewrite Hcnt|]]]]].
  - destruct Hmap as [Mpde Mpte Moth Mdb]. destruct Hsh as (Hwf' & Hcnt' & _).
    split; [done|done|congruence|]. intros i Hi Hbi. rewrite Hbits in Hbi by lia.
    destruct (Z.eqb_spec r BITMAP_ERROR); [done|]. cbn [negb andb] in Hbi.
    destruct (in_range r n i) eqn:Hin; [discriminate Hbi|].
    destruct (Hclr i Hi Hbi) as [Hm Hz]. split; [by apply (mappable_pde (core s))|].
    rewrite Moth; [done|apply Hm|apply Hm|]. rewrite Hfs, Z2Nat.id by lia.
    unfold in_range in Hin. unfold syspte, PGSIZE. lia.
  - intros j Hj. apply Hno; [lia|]. right. lia.
  - intros j Hj. rewrite Hbits by done. destruct (Z.eqb_spec r BITMAP_ERROR); [done|].
    cbn [negb andb]. by destruct (in_range r n j).
Qed.

(** MmAllocateSystemPtes takes the lowest run of pages of the pool that is
    free, maps it to the first frames of the free list and returns its address,
    keeping the invariant of the pool; when no run is long enough it returns
    NULL and changes nothing.  The spin lock is free again in both cases. *)
Theorem allocate_system_ptes n (s : vmm W) :
  sl_free (world s) → sys_inv (core s) (MiSystemPteBitmap s) → 1 <= n <= SYSPTES →
  (Z.to_nat n <= length (PfnFreeList (core s)))%nat → 0 ∉ PfnFreeList (core s) →
  (MmAllocateSystemPtes n s = Ok (NULL, s) ∧
   ∀ j, 0 <= j → ¬ Bitmap.fits (MiSystemPteBitmap s) j n false) ∨
  ∃ i c b, MmAllocateSystemPtes n s = Ok (syspte i, with_core c b s) ∧
    0 <= i ∧ i + n <= SYSPTES ∧ sys_inv c b ∧
    (∀ j, 0 <= j < i → ¬ Bitmap.fits (MiSystemPteBitmap s) j n false) ∧
    (∀ j, 0 <= j → bit b j = in_range i n j || bit (MiSystemPteBitmap s) j) ∧
    range_mapped (core s) c (syspte i) (take (Z.to_nat n) (PfnFreeList (core s))) (Z.lor PTE_W PTE_P).
Proof.
  intros Hf Hi Hn Hl H0. destruct (system_ptes_spec n s Hf Hi Hn Hl H0)
    as [H|(i & c & b & H1 & H2 & H3 & H4 & H5 & H6 & H7 & _)]; [by left|right]. by exists i, c, b.
Qed.

End system_ptes.

(** *** Witness: a pool with one free page, the first *)

#[local] Instance demo_lock : SpinLock prcb := prcb_spinlock demo_run 0 2.
Definition demo_world : prcb := Prcb 0 7 [] 0 {[ 2 := SpinLk 0 NULL 0 ]} ∅.
(** The first [n] pages are free. *)
Definition low_clear (n : Z) : BITMAP := Bitmap 65536 (Z.shiftl (Z.ones (32 - n)) n :: replicate (Z.to_nat 2047) 0xFFFFFFFF).
Definition demo_bitmap : BITMAP := low_clear 1.
Definition demo_vmm : vmm prcb := Vmm demo_mm demo_bitmap ∅ ∅ 0 demo_world.

Lemma low_clear_bit n i : 0 <= n < 32 → 0 <= i < 65536 → bit (low_clear n) i = (n <=? i).
Proof.
  intros Hn Hi. unfold bit, low_clear. cbn [bits].
  destruct (decide (i / 32 = 0)) as [E|E].
  - rewrite E. change (Z.to_nat 0) with 0%nat. cbn [lookup list_lookup].
    assert (i mod 32 = i) as -> by (Z.div_mod_to_equations; lia).
    destruct (Z.leb_spec n i).
    + rewrite Z.shiftl_spec, Z.testbit_ones_nonneg by (Z.div_mod_to_equations; lia).
      apply Z.ltb_lt. Z.div_mod_to_equations; lia.
    + by apply Z.shiftl_spec_low.
  - assert (∃ k, Z.to_nat (i / 32) = S k ∧ (k < Z.to_nat 2047)%nat) as (k & -> & Hk).
    { exists (Z.to_nat (i / 32 - 1)). Z.div_mod_to_equations; lia. }
    change ((_ :: ?l) !! S k) with (l !! k). rewrite lookup_replicate_2 by done.
    change 0xFFFFFFFF with (Z.ones 32).
    rewrite Z.testbit_ones_nonneg by (Z.div_mod_to_equations; lia).
    destruct (Z.leb_spec n i); [apply Z.ltb_lt|]; Z.div_mod_to_equations; lia.
Qed.

Lemma low_clear_wf n : 0 <= n < 32 → wf (low_clear n).
Proof.
  intros Hn. split; [done|]. unfold low_clear. cbn [BitCount bits length]. rewrite length_replicate.
  split; [lia|]. constructor; [|apply Forall_replicate; lia].
  rewrite Z.shiftl_mul_pow2, Z.ones_equiv by lia. unfold Z.pred. rewrite Z.mul_add_distr_r, <- Z.pow_add_r by lia.
  replace (32 - n + n) with 32 by lia. assert (0 < 2 ^ n < 2 ^ 32) by (split; [lia|apply Z.pow_lt_mono_r; lia]). lia.
Qed.

Lemma low_clear_inv n c : 0 <= n < 32 → mm_inv c →
  (∀ i, 0 <= i < n → mappable c (syspte i) ∧ pte_of c (syspte i) = 0) → sys_inv c (low_clear n).
Proof.
  intros Hn Hc Hm. split; [done|by apply low_clear_wf|done|]. intros i Hi. change SYSPTES with 65536 in Hi.
  rewrite low_clear_bit by done. intros Hb%Z.leb_gt. apply Hm. lia.
Qed.

Lemma demo_sys_inv : sys_inv demo_mm demo_bitmap.
Proof.
  apply low_clear_inv; [lia|apply demo_mm_inv|]. intros i Hi. assert (i = 0) as -> by lia.
  split; [split; [done|split; [done|reflexivity]]|reflexivity].
Qed.

Lemma allocate_system_ptes_witness :
  ∃ s', MmAllocateSystemPtes 1 demo_vmm = Ok (syspte 0, s').
Proof.
  destruct (allocate_system_ptes 1 demo_vmm) as [[_ Hno]|(i & c & b & Hr & Hi & _ & _ & Hlow & _)].
  - split; [done|]. split; [done|by right].
  - apply demo_sys_inv.
  - done.
  - cbn. lia.
  - cbn. by apply (bool_decide_unpack _); vm_compute.
  - exfalso. apply (Hno 0); [lia|]. split; [done|]. intros j Hj.
    assert (j = 0) as -> by lia. reflexivity.
  - assert (i = 0) as ->.
    { destruct (decide (i = 0)) as [|Hne]; [done|]. exfalso. apply (Hlow 0); [lia|].
      split; [done|]. intros j Hj. assert (j = 0) as -> by lia. reflexivity. }
    eexists. exact Hr.
Defined.
(** ** Copy on write *)

(** *** Reference counts, the temporary window and page copies *)

Lemma inc_step s f p :
  mm_inv s → PfnDataBase s !! f = Some p → f ∉ PfnFreeList s → RefCount p + 1 < 2 ^ 32 →
  MiIncReferencePFN f s = Ok (tt, set_pfn f (Pfn (PteAddress p) (RefCount p + 1)) s) ∧
  mm_inv (set_pfn f (Pfn (PteAddress p) (RefCount p + 1)) s).
Proof.
  intros Hi Hf Hnf Hov. pose proof Hi as [Hp Hr Hc Hn Hfr].
  pose proof (Hc f p Hf) as Hcf. pose proof (cnt_nonneg (maps s f) NPAGES) as H0.
  split.
  { rewrite (inc_run f p s Hf). unfold add_ref. rewrite u32_small; [done|unfold mappings in Hcf; lia]. }
  split.
  - by apply (paging_ext s).
  - intros g q Hg. cbn in Hg. destruct (decide (g = f)) as [->|]; [by apply (Hr f p)|].
    rewrite lookup_insert_ne in Hg by done. by apply (Hr g q).
  - intros g q Hg. cbn in Hg. rewrite (mappings_ext _ s) by done.
    destruct (decide (g = f)) as [->|].
    + rewrite lookup_insert_eq in Hg. injection Hg as <-. cbn [RefCount]. lia.
    + rewrite lookup_insert_ne in Hg by done. by apply Hc.
  - done.
  - intros g Hg. cbn in Hg |- *. destruct (decide (g = f)) as [->|]; [done|].
    rewrite lookup_insert_ne by done. by apply Hfr.
Qed.

Lemma dec_step s f p :
  mm_inv s → PfnDataBase s !! f = Some p → f ∉ PfnFreeList s → 2 <= RefCount p →
  mappings s f < RefCount p →
  MiDecReferencePFN f s = Ok (tt, set_pfn f (Pfn (PteAddress p) (RefCount p - 1)) s) ∧
  mm_inv (set_pfn f (Pfn (PteAddress p) (RefCount p - 1)) s).
Proof.
  intros Hi Hf Hnf Hge Hmap. pose proof Hi as [Hp Hr Hc Hn Hfr]. pose proof (Hc f p Hf) as Hcf.
  assert (u32 (RefCount p - 1) = RefCount p - 1) as Eu by (apply u32_small; lia).
  split.
  { rewrite (dec_run f p s Hf). unfold drop_ref. rewrite Eu.
    by destruct (Z.eqb_spec (RefCount p - 1) 0); [lia|]. }
  split.
  - by apply (paging_ext s).
  - intros g q Hg. cbn in Hg. destruct (decide (g = f)) as [->|]; [by apply (Hr f p)|].
    rewrite lookup_insert_ne in Hg by done. by apply (Hr g q).
  - intros g q Hg. cbn in Hg. rewrite (mappings_ext _ s) by done.
    destruct (decide (g = f)) as [->|].
    + rewrite lookup_insert_eq in Hg. injection Hg as <-. cbn [RefCount]. lia.
    + rewrite lookup_insert_ne in Hg by done. by apply Hc.
  - done.
  - intros g Hg. cbn in Hg |- *. destruct (decide (g = f)) as [->|]; [done|].
    rewrite lookup_insert_ne by done. by apply Hfr.
Qed.

Lemma refcount_run s f p : PfnDataBase s !! f = Some p → MiGetRefCount f s = Ok (RefCount p, s).
Proof. intros H. unfold MiGetRefCount. by rewrite (deref_run _ _ _ p). Qed.

(** The window is empty: its first page is used. *)
Lemma map_temp_run s f s' :
  mm_inv s → mappable s USERTEMP → pte_of s USERTEMP = 0 →
  MiInsertPage MM_PDE_ADDRESS USERTEMP (Some f) PTE_W s = Ok (STATUS_SUCCESS, s') →
  MmMapPageTemp f s = Ok (USERTEMP, s').
Proof.
  intros Hi (Hu & _ & Hv) Hz Hr. pose proof (mi_paging s Hi) as Hp.
  unfold MmMapPageTemp. rewrite assert_true by done.
  rewrite (bind_Ok _ _ _ _ _ (read_pde s USERTEMP Hp Hu)). rewrite Hv. cbn [negb].
  change (Z.to_nat (USERTEMPSIZE / PGSIZE)) with (S (Z.to_nat 1023)). cbn [map_temp_loop].
  rewrite bind_assoc. rewrite (bind_Ok _ _ _ _ _ (read_pte s USERTEMP Hp Hu Hv)). rewrite Hz.
  change (Valid 0) with false. cbn [negb]. rewrite bind_assoc.
  by rewrite (bind_Ok _ _ _ _ _ Hr).
Qed.

(** Copying into a frame that is not a table moves no page. *)
Lemma copy_page_run s dst src d f :
  paging s → walk s dst = Some d → walk s src = Some f → not_table s d →
  ∃ s', copy_page dst src s = Ok (tt, s') ∧ paging s' ∧ cr3 s' = cr3 s ∧
    PfnDataBase s' = PfnDataBase s ∧ PfnFreeList s' = PfnFreeList s ∧
    (∀ va, pde_of s' va = pde_of s va) ∧
    (∀ va, Valid (pde_of s va) = true → pte_of s' va = pte_of s va) ∧
    (∀ i, 0 <= i < 1024 → phys s' (word_of d i) = phys s (word_of f i)) ∧
    (∀ g i, 0 <= i < 1024 → g ≠ d → phys s' (word_of g i) = phys s (word_of g i)).
Proof.
  intros Hp Hd Hf [Hn1 Hn2]. unfold copy_page.
  rewrite (deref_run _ _ _ d) by done. rewrite (deref_run _ _ _ f) by done.
  set (s' := set_phys (λ w, if in_frame d w then phys s (word_of f (w mod words_per_page))
                            else phys s w) s).
  exists s'.
  assert (∀ g i, 0 <= i < 1024 → g ≠ d → phys s' (word_of g i) = phys s (word_of g i)) as Hoth.
  { intros g i Hi Hg. unfold s'. cbn [set_phys phys]. rewrite in_frame_word_of by done.
    by destruct (Z.eqb_spec g d). }
  assert (∀ i, 0 <= i < 1024 → pd s' i = pd s i) as Hpd.
  { intros i Hi. unfold pd. by apply Hoth. }
  split; [done|]. split.
  { destruct Hp as [Sv Sf Hdis]. assert (0 <= self_index < 1024) by (unfold self_index; lia).
    split; [by rewrite Hpd|by rewrite Hpd|]. intros i j Hi Hj. rewrite !Hpd by done. auto. }
  split; [done|]. split; [done|]. split; [done|].
  assert (∀ va, pde_of s' va = pde_of s va) as Hpde.
  { intros va. rewrite !pde_of_pd. apply Hpd, PDX_range. }
  split; [done|]. split; [|split; [|done]].
  - intros va Hv. unfold pte_of, pte_word. rewrite Hpde. apply Hoth; [apply PTX_range|].
    rewrite pde_of_pd in *. by apply Hn2; [apply PDX_range|].
  - intros i Hi. unfold s'. cbn [set_phys phys]. rewrite in_frame_word_of, Z.eqb_refl by done.
    do 2 f_equal. unfold word_of, words_per_page. rewrite Z.add_comm, Z.mod_add by lia.
    by apply Z.mod_small.
Qed.

Lemma pfn_from_pte l : MmGetPfnFromPte l = PageFrameNumber l.
Proof.
  unfold MmGetPfnFromPte, MiPhysicalAddresstoPFN, PageFrameNumber, PTXSHIFT.
  rewrite Z.shiftr_ldiff. change (Z.shiftr PTE_FLAGS_MASK 12) with 0. apply Z.ldiff_0_r.
Qed.

Lemma clear_cow_bits l :
  0 <= l → Valid (clear_cow l) = Valid l ∧ Writable (clear_cow l) = true ∧
  CopyOnWrite (clear_cow l) = false ∧ PageFrameNumber (clear_cow l) = PageFrameNumber l.
Proof.
  intros Hl. unfold clear_cow, Valid, Writable, CopyOnWrite, PageFrameNumber.
  split; [by rewrite Z.setbit_neq, Z.clearbit_neq|].
  split; [by rewrite Z.setbit_eq|].
  split; [by rewrite Z.setbit_neq, Z.clearbit_eq|].
  apply Z.bits_inj'. intros n Hn. rewrite !Z.shiftr_spec by done.
  rewrite Z.setbit_neq, Z.clearbit_neq; [done|lia..].
Qed.

(** *** The steps of the private copy *)

Lemma pd_pde s i : 0 <= i < 1024 → pd s i = pde_of s (i * 2 ^ 22).
Proof.
  intros Hi. rewrite pde_of_pd. f_equal. rewrite PDX_div, Z.div_mul by lia.
  symmetry. by apply Z.mod_small.
Qed.

Lemma not_table_ext s s' f :
  cr3 s' = cr3 s → (∀ va, pde_of s' va = pde_of s va) → not_table s f → not_table s' f.
Proof.
  intros Ec Hd [H1 H2]. split; [by rewrite Ec|]. intros i Hi.
  rewrite pd_pde, Hd, <- pd_pde by done. by apply H2.
Qed.

Lemma walk_entries s s' va :
  pde_of s' va = pde_of s va → (Valid (pde_of s va) = true → pte_of s' va = pte_of s va) →
  walk s' va = walk s va.
Proof.
  intros Hd Ht. unfold walk. rewrite Hd. destruct (Valid (pde_of s va)); [|done].
  by rewrite Ht.
Qed.

Lemma mm_inv_same s s' :
  mm_inv s → paging s' → PfnDataBase s' = PfnDataBase s → PfnFreeList s' = PfnFreeList s →
  (∀ va, walk s' va = walk s va) → mm_inv s'.
Proof.
  intros [Hp Hr Hc Hn Hf] Hp' Ed El Hw.
  assert (∀ g, mappings s' g = mappings s g) as Hm.
  { intros g. apply cnt_ext. intros i _. unfold maps. by rewrite Hw. }
  split; [done|by rewrite Ed| |by rewrite El|by rewrite Ed, El].
  intros g q Hg. rewrite Hm. rewrite Ed in Hg. by apply Hc.
Qed.

Lemma map_segment_page_run s b g s0 s' :
  is_u32 b → page_aligned b → b + PGSIZE < 2 ^ 32 →
  MmAllocatePFN (MmGetPteAddress b) s = Ok ((STATUS_SUCCESS, g), s0) →
  MiInsertPage MM_PDE_ADDRESS b (Some g) (Z.lor PTE_U PTE_W) s0 = Ok (STATUS_SUCCESS, s') →
  MmMapSegment MM_PDE_ADDRESS b PGSIZE (Z.lor PTE_U PTE_W) s = Ok (STATUS_SUCCESS, s').
Proof.
  unfold page_aligned. rewrite PGOFF_mod. unfold PGSIZE. intros Hu Hal Hov R1 R2.
  assert (ROUNDDOWN b 4096 = b) as E1 by (unfold ROUNDDOWN; rewrite u32_small by lia; lia).
  assert (ROUNDUP (u32 (b + 4096)) 4096 = b + 4096) as E2.
  { rewrite u32_small by lia. unfold ROUNDUP, ROUNDDOWN.
    rewrite (u32_small (b + 4096)), (u32_small 4096), !u32_u32 by lia.
    destruct (decide (b + 4096 + 4096 - 1 < 2 ^ 32)) as [Hlt|Hge].
    - rewrite u32_small by lia. Z.div_mod_to_equations; lia.
    - exfalso. Z.div_mod_to_equations; lia. }
  unfold MmMapSegment. cbv zeta. unfold PGSIZE. rewrite E1, E2.
  replace ((b + 4096 - b) / 4096) with 1 by (replace (b + 4096 - b) with 4096 by lia; done).
  change (Z.to_nat 1) with 1%nat. cbn [map_segment_loop].
  destruct (Z.ltb_spec b (b + 4096)); [|lia]. cbn [negb].
  rewrite (bind_Ok _ _ _ _ _ R1). change (K_SUCCESS STATUS_SUCCESS) with true. cbn [negb when].
  rewrite bind_ret. rewrite (bind_Ok _ _ _ _ _ R2).
  change (K_SUCCESS STATUS_SUCCESS) with true. cbn [negb when]. rewrite bind_ret.
  unfold PGSIZE. rewrite u32_small by lia. by rewrite Z.ltb_irrefl.
Qed.

(** The first half: the page of [b] loses the shared frame [f], which stays
    mapped in the window, and gets the fresh frame [g]. *)
Record cow_prepared (s s' : mm) (b f g : Z) (l : list Z) (p : MMPFN) : Prop := {
  cp_inv : mm_inv s';
  cp_cr3 : cr3 s' = cr3 s;
  cp_pde : ∀ va, pde_of s' va = pde_of s va;
  cp_pte : ∀ va, is_u32 va → Valid (pde_of s va) = true →
           pte_of s' va = if PPN va =? PPN b then pte_value g (Z.lor PTE_U PTE_W)
                          else if PPN va =? PPN USERTEMP then pte_value f PTE_W
                          else pte_of s va;
  cp_data : ∀ h i, 0 <= i < 1024 → not_table s h →
            phys s' (word_of h i) = phys s (word_of h i);
  cp_map : mappings s' f = mappings s f;
  cp_free : PfnFreeList s' = l;
  cp_f : PfnDataBase s' !! f = Some (Pfn (PteAddress p) (RefCount p + 1));
  cp_g : PfnDataBase s' !! g = Some (Pfn (MmGetPteAddress b) 1);
  cp_db : ∀ h, h ≠ f → h ≠ g → PfnDataBase s' !! h = PfnDataBase s !! h }.

(** What the fault handler needs: a shared page [b], outside the window, whose
    frame [f] holds data; a frame [g] on the free list; an empty window. *)
Record cow_ready (s : mm) (b f g : Z) (l : list Z) (p : MMPFN) : Prop := {
  cr_inv : mm_inv s;
  cr_page : mappable s b ∧ page_aligned b ∧ b + PGSIZE < 2 ^ 32 ∧ PPN b ≠ PPN USERTEMP;
  cr_walk : walk s b = Some f;
  cr_f : PfnDataBase s !! f = Some p ∧ f ≠ 0 ∧ not_table s f;
  cr_ref : 2 <= RefCount p < 2 ^ 32 - 2;
  cr_free : PfnFreeList s = g :: l;
  cr_g : g ≠ 0 ∧ not_table s g;
  cr_temp : mappable s USERTEMP ∧ pte_of s USERTEMP = 0 }.

Lemma cow_prepare s b f g l p :
  cow_ready s b f g l p →
  ∃ s1 s2 s3 s5, MiIncReferencePFN f s = Ok (tt, s1) ∧
    MiRemovePage MM_PDE_ADDRESS b s1 = Ok (STATUS_SUCCESS, s2) ∧
    MmMapPageTemp f s2 = Ok (USERTEMP, s3) ∧
    MmMapSegment MM_PDE_ADDRESS b PGSIZE (Z.lor PTE_U PTE_W) s3 = Ok (STATUS_SUCCESS, s5) ∧
    cow_prepared s s5 b f g l p.
Proof.
  intros [Hi (Hm & Hal & Hend & Hbt) Hw (Hf & Hf0 & Hft) Hrc Hl (Hg0 & Hgt) (Hmt & Hzt)].
  pose proof Hm as (Hu & Hne & Hv). pose proof Hmt as (Hut & _ & Hvt).
  assert (f ∉ PfnFreeList s) as Hnf.
  { intros Hin. destruct (mi_free s Hi f Hin) as (q & Hq & H0). rewrite Hf in Hq.
    injection Hq as <-. lia. }
  assert (g ≠ f) as Hgf by (intros ->; apply Hnf; rewrite Hl; by left).
  destruct (inc_step s f p Hi Hf Hnf ltac:(lia)) as [R1 Hi1].
  set (s1 := set_pfn f _ s) in *.
  destruct (remove_page_step s1 b f (Pfn (PteAddress p) (RefCount p + 1)) Hi1
    (mappable_ext s s1 b eq_refl eq_refl Hm) Hal Hw ltac:(apply lookup_insert_eq))
    as (s2 & R2 & [I2 C2 D2 T2 A2 M2 L2 B2]).
  cbn [RefCount PteAddress] in L2, B2. destruct (Z.eqb_spec (RefCount p + 1) 1); [lia|].
  replace (RefCount p + 1 - 1) with (RefCount p) in B2 by lia.
  assert (mappable s2 USERTEMP) as Hmt2 by (by apply (mappable_pde s)).
  assert (pte_of s2 USERTEMP = 0) as Hzt2.
  { rewrite T2; [|done|done]. by destruct (Z.eqb_spec (PPN USERTEMP) (PPN b)). }
  destruct (insert_page_step s2 USERTEMP f (Pfn (PteAddress p) (RefCount p)) PTE_W I2 Hmt2 Hzt2)
    as (s3 & R3 & [I3 C3 D3 T3 A3 M3 L3 B3]);
    [rewrite B2; apply lookup_insert_eq|by rewrite L2|done|cbn; lia|done|].
  cbn [RefCount PteAddress] in B3.
  assert (mappable s3 b) as Hm3 by (apply (mappable_pde s); [intros va'; by rewrite D3, D2|done]).
  assert (pte_of s3 b = 0) as Hz3.
  { rewrite T3 by (done || by rewrite D2). destruct (Z.eqb_spec (PPN b) (PPN USERTEMP)); [done|].
    rewrite T2 by done. by rewrite Z.eqb_refl. }
  destruct (alloc_page_step s3 b g l (Z.lor PTE_U PTE_W) I3 Hm3 Hz3) as
    (s4 & s5 & R4 & R5 & [I5 C5 D5 T5 A5 M5 L5 B5]); [by rewrite L3, L2|done|done|].
  exists s1, s2, s3, s5. split; [done|]. split; [done|].
  split; [by apply map_temp_run|]. split; [by apply (map_segment_page_run s3 b g s4)|].
  assert (∀ va, pde_of s3 va = pde_of s va) as D13 by (intros va; by rewrite D3, D2).
  split.
  - done.
  - by rewrite C5, C3, C2.
  - intros va. by rewrite D5.
  - intros va Hua Hva. rewrite T5 by (done || by rewrite D13). destruct (PPN va =? PPN b) eqn:E; [done|].
    rewrite T3 by (done || by rewrite D2). destruct (PPN va =? PPN USERTEMP); [done|].
    rewrite T2 by done. by rewrite E.
  - intros h i Hir Hh.
    assert (not_table s3 h) as Hh3.
    { apply (not_table_ext s); [by rewrite C3, C2|exact D13|exact Hh]. }
    assert (not_table s2 h) as Hh2 by (apply (not_table_ext s); [exact C2|exact D2|exact Hh]).
    rewrite (A5 h i Hir Hh3), (A3 h i Hir Hh2). by apply A2.
  - assert (walk s2 USERTEMP = None ∧ walk s3 b = None) as [W2 W3].
    { unfold walk. rewrite Hzt2, Hz3. change (Valid 0) with false. by rewrite !andb_false_r. }
    rewrite M5, M3, M2, W2, W3. change (walk s1 b) with (walk s b). rewrite Hw, Z.eqb_refl.
    assert (0 <= f < 2 ^ 20 ∧ 0 <= g < 2 ^ 20) as [Hfr Hgr].
    { split; [by apply (mi_range s Hi f p)|]. destruct (mi_free s Hi g) as (q & Hq & _).
      { rewrite Hl. by left. } by apply (mi_range s Hi g q). }
    destruct (pte_value_bits f PTE_W Hfr ltac:(done)) as [-> ->].
    destruct (pte_value_bits g (Z.lor PTE_U PTE_W) Hgr ltac:(done)) as [-> ->].
    change (Valid 0) with false. rewrite Z.eqb_refl. destruct (Z.eqb_spec g f); [done|].
    cbn [andb]. change (mappings s1 f) with (mappings s f). lia.
  - done.
  - rewrite B5, lookup_insert_ne, B3 by done. apply lookup_insert_eq.
  - rewrite B5. apply lookup_insert_eq.
  - intros h Hhf Hhg. rewrite B5, lookup_insert_ne, B3, lookup_insert_ne, B2, lookup_insert_ne by done.
    cbn. by apply lookup_insert_ne.
Qed.

Lemma walk_of_pte s va f Perm :
  Valid (pde_of s va) = true → pte_of s va = pte_value f Perm → 0 <= f < 2 ^ 20 →
  0 <= Perm < 4096 → walk s va = Some f.
Proof.
  intros Hv Ht Hf HP. unfold walk. rewrite Hv, Ht.
  by destruct (pte_value_bits f Perm Hf HP) as [-> ->].
Qed.

(** What the private copy has changed. *)
Record cow_done (s s' : mm) (b f g : Z) (l : list Z) (p : MMPFN) : Prop := {
  cd_inv : mm_inv s';
  cd_pde : ∀ va, pde_of s' va = pde_of s va;
  cd_pte : ∀ va, is_u32 va → Valid (pde_of s va) = true →
           pte_of s' va = if PPN va =? PPN b then pte_value g (Z.lor PTE_U PTE_W) else pte_of s va;
  cd_copy : ∀ i, 0 <= i < 1024 → phys s' (word_of g i) = phys s (word_of f i);
  cd_data : ∀ h i, 0 <= i < 1024 → h ≠ g → not_table s h →
            phys s' (word_of h i) = phys s (word_of h i);
  cd_free : PfnFreeList s' = l;
  cd_f : PfnDataBase s' !! f = Some (Pfn (PteAddress p) (RefCount p - 1));
  cd_g : PfnDataBase s' !! g = Some (Pfn (MmGetPteAddress b) 1) }.

Lemma cow_finish s s5 b f g l p :
  cow_ready s b f g l p → cow_prepared s s5 b f g l p →
  ∃ s6 s7 s8, copy_page b USERTEMP s5 = Ok (tt, s6) ∧
    MmUnMapPageTemp USERTEMP f s6 = Ok (tt, s7) ∧
    MiDecReferencePFN f s7 = Ok (tt, s8) ∧ cow_done s s8 b f g l p.
Proof.
  intros [Hi (Hm & Hal & Hend & Hbt) Hw (Hf & Hf0 & Hft) Hrc Hl (Hg0 & Hgt) (Hmt & Hzt)]
    [I5 C5 D5 T5 A5 M5 L5 F5 G5 B5].
  pose proof Hm as (Hu & Hne & Hv). pose proof Hmt as (Hut & Hnet & Hvt).
  assert (f ∉ PfnFreeList s) as Hnf.
  { intros Hin. destruct (mi_free s Hi f Hin) as (q & Hq & H0). rewrite Hf in Hq.
    injection Hq as <-. lia. }
  assert (g ≠ f) as Hgf by (intros ->; apply Hnf; rewrite Hl; by left).
  assert (f ∉ l) as Hnfl by (intros Hin; apply Hnf; rewrite Hl; by right).
  pose proof (mi_range s5 I5 f _ F5) as Hfr. pose proof (mi_range s5 I5 g _ G5) as Hgr.
  assert (pte_of s5 b = pte_value g (Z.lor PTE_U PTE_W)) as Tb by (rewrite T5, Z.eqb_refl; done).
  assert (pte_of s5 USERTEMP = pte_value f PTE_W) as Tt.
  { rewrite T5 by done. destruct (Z.eqb_spec (PPN USERTEMP) (PPN b)); [done|]. by rewrite Z.eqb_refl. }
  assert (walk s5 b = Some g) as Wb by (apply (walk_of_pte _ _ _ (Z.lor PTE_U PTE_W)); rewrite ?D5; done).
  assert (walk s5 USERTEMP = Some f) as Wt by (apply (walk_of_pte _ _ _ PTE_W); rewrite ?D5; done).
  destruct (copy_page_run s5 b USERTEMP g f (mi_paging s5 I5) Wb Wt
    (not_table_ext s s5 g C5 D5 Hgt)) as (s6 & R6 & P6 & C6 & B6 & L6 & D6 & T6 & K6 & O6).
  assert (∀ va, walk s6 va = walk s5 va) as W6 by (intros va; apply walk_entries; auto).
  assert (mm_inv s6) as I6 by by apply (mm_inv_same s5).
  assert (∀ va, pde_of s6 va = pde_of s va) as D6' by (intros va; by rewrite D6, D5).
  destruct (remove_page_step s6 USERTEMP f (Pfn (PteAddress p) (RefCount p + 1)) I6
    (mappable_pde s s6 USERTEMP D6' Hmt) ltac:(done) ltac:(by rewrite W6) ltac:(by rewrite B6))
    as (s7 & R7 & [I7 C7 D7 T7 A7 M7 L7 B7]).
  cbn [RefCount PteAddress] in L7, B7. destruct (Z.eqb_spec (RefCount p + 1) 1); [lia|].
  replace (RefCount p + 1 - 1) with (RefCount p) in B7 by lia.
  assert (PfnDataBase s7 !! f = Some (Pfn (PteAddress p) (RefCount p))) as F7
    by (rewrite B7; apply lookup_insert_eq).
  assert (mappings s7 f < RefCount p) as Hmap.
  { rewrite M7, W6, Wt, Z.eqb_refl. change (Valid 0) with false. cbn [andb].
    assert (mappings s6 f = mappings s5 f) as ->.
    { apply cnt_ext. intros i _. unfold maps. by rewrite W6. }
    pose proof (mi_count s Hi f p Hf). lia. }
  destruct (dec_step s7 f (Pfn (PteAddress p) (RefCount p)) I7 F7) as [R8 I8];
    [by rewrite L7, L6, L5|cbn; lia|done|].
  cbn [RefCount PteAddress] in R8, I8. set (s8 := set_pfn f _ s7) in *.
  exists s6, s7, s8. split; [done|]. split.
  { unfold MmUnMapPageTemp. rewrite !assert_true by done. rewrite (bind_Ok _ _ _ _ _ R7).
    rewrite (bind_Ok _ _ _ _ _ (refcount_run s7 f _ F7)). cbn [RefCount]. destruct (Z.eqb_spec (RefCount p) 0); [lia|done]. }
  split; [done|]. split.
  - done.
  - intros va. change (pde_of s8 va) with (pde_of s7 va). by rewrite D7, D6'.
  - intros va Hua Hva. change (pte_of s8 va) with (pte_of s7 va).
    rewrite T7 by (done || by rewrite D6'). rewrite T6 by by rewrite D5.
    rewrite T5 by done. destruct (Z.eqb_spec (PPN va) (PPN USERTEMP)) as [E|]; [|done].
    destruct (Z.eqb_spec (PPN va) (PPN b)); [congruence|].
    apply same_page in E as [Ed Et]; [|done|done].
    rewrite <- Hzt. unfold pte_of, pte_word, pde_of, pde_word. by rewrite Ed, Et.
  - intros i Hir. change (phys s8) with (phys s7).
    assert (not_table s6 g) as Hg6 by (apply (not_table_ext s); [by rewrite C6|done|done]).
    rewrite (A7 g i Hir Hg6), (K6 i Hir). by apply A5.
  - intros h i Hir Hh Hht. change (phys s8) with (phys s7).
    assert (not_table s6 h) as Hh6 by (apply (not_table_ext s); [by rewrite C6|done|done]).
    rewrite (A7 h i Hir Hh6), (O6 h i Hir Hh). by apply A5.
  - cbn. by rewrite L7, L6, L5.
  - cbn. apply lookup_insert_eq.
  - cbn. rewrite lookup_insert_ne by done. rewrite B7, lookup_insert_ne by done. by rewrite B6.
Qed.

(** The handler on a present copy-on-write page. *)
Lemma fault_run s va f p :
  mm_inv s → mappable s va → IsUserAddress va = true → walk s va = Some f →
  CopyOnWrite (pte_of s va) = true → Writable (pte_of s va) = false →
  PfnDataBase s !! f = Some p → RefCount p ≠ 0 →
  MmPfHandler va s =
    (if RefCount p =? 1 then write (MmGetPteAddress va) (clear_cow (pte_of s va))
     else copy_on_write (ROUNDDOWN va PGSIZE) f) s.
Proof.
  intros Hi (Hu & Hne & Hv) Hus Hw Hc Hwr Hf Hr. pose proof (mi_paging s Hi) as Hp.
  unfold MmPfHandler. rewrite Hus. cbn [negb].
  rewrite (bind_Ok _ _ _ _ _ (read_pde s va Hp Hu)). rewrite Hv. cbn [negb].
  rewrite (bind_Ok _ _ _ _ _ (read_pte s va Hp Hu Hv)).
  unfold walk in Hw. rewrite Hv in Hw. cbn [andb] in Hw.
  destruct (Valid (pte_of s va)); [|done]. injection Hw as Hw. cbn [negb].
  rewrite Hc. cbn [negb]. cbv zeta. rewrite pfn_from_pte, Hw.
  rewrite (bind_Ok _ _ _ _ _ (refcount_run s f p Hf)).
  rewrite assert_true by by apply negb_true_iff, Z.eqb_neq.
  rewrite assert_true by by rewrite Hwr. done.
Qed.

(** C4: a write fault on a copy-on-write page whose frame is shared gives the
    page a private, writable copy: the page is mapped to a fresh frame with the
    contents of the old one, which keeps its contents and loses one reference;
    no other page is remapped, no other data changes, and the temporary
    mapping is gone. *)
Theorem page_fault_copies_shared_page s va f g l p :
  let b := ROUNDDOWN va PGSIZE in
  cow_ready s b f g l p → is_u32 va → IsUserAddress va = true →
  CopyOnWrite (pte_of s va) = true → Writable (pte_of s va) = false →
  ∃ s', MmPfHandler va s = Ok (tt, s') ∧ cow_done s s' b f g l p ∧
    walk s' va = Some g ∧ Writable (pte_of s' va) = true ∧ CopyOnWrite (pte_of s' va) = false.
Proof.
  intros b Hrdy Hu Hus Hc Hwr. pose proof Hrdy as [Hi (Hm & Hal & Hend & Hbt) Hw (Hf & _) Hrc Hl _ _].
  assert (PPN b = PPN va) as HPP.
  { destruct (rounddown_spec va PGSIZE Hu ltac:(done)) as [H1 [q H2]]. fold b in H1, H2.
    unfold PGSIZE in *. rewrite !PPN_div, H2. rewrite Z.div_mul by lia.
    rewrite H2 in H1. Z.div_mod_to_equations; lia. }
  pose proof Hm as (Hub & Hneb & Hvb).
  destruct (proj2 (same_page b va Hub Hu) HPP) as [Ed Et].
  assert (∀ x : mm, pde_of x va = pde_of x b ∧ pte_of x va = pte_of x b) as Hsame.
  { intros x. unfold pte_of, pte_word, pde_of, pde_word. by rewrite Ed, Et. }
  assert (mappable s va) as Hmv.
  { split; [done|]. split; [unfold managed; by rewrite <- Ed|]. by rewrite (proj1 (Hsame s)). }
  assert (walk s va = Some f) as Hwv by (rewrite (walk_same_page s va b); done).
  destruct (cow_prepare s b f g l p Hrdy) as (s1 & s2 & s3 & s5 & R1 & R2 & R3 & R5 & Hprep).
  destruct (cow_finish s s5 b f g l p Hrdy Hprep) as (s6 & s7 & s8 & R6 & R7 & R8 & Hdone).
  exists s8. pose proof Hdone as [I8 D8 T8 _ _ _ _ G8].
  assert (pte_of s8 va = pte_value g (Z.lor PTE_U PTE_W)) as Tv.
  { rewrite T8; [|done|apply Hmv]. by rewrite HPP, Z.eqb_refl. }
  split.
  { rewrite (fault_run s va f p); try done; [|lia].
    destruct (Z.eqb_spec (RefCount p) 1); [lia|]. fold b. unfold copy_on_write.
    rewrite (bind_Ok _ _ _ _ _ R1), (bind_Ok _ _ _ _ _ R2), (bind_Ok _ _ _ _ _ R3).
    change (USERTEMP =? NULL) with false. cbv iota. rewrite (bind_Ok _ _ _ _ _ R5).
    change (K_SUCCESS STATUS_SUCCESS) with true. cbn [negb].
    rewrite (bind_Ok _ _ _ _ _ R6), (bind_Ok _ _ _ _ _ R7). exact R8. }
  split; [done|].
  pose proof (mi_range s8 I8 g _ G8) as Hgr.
  split; [apply (walk_of_pte _ _ _ (Z.lor PTE_U PTE_W)); rewrite ?D8; try done; apply Hmv|].
  rewrite Tv. unfold pte_value, MiPFNtoPhysicalAddress, MiPFNtoFrameNumber, PGSHIFT.
  rewrite u32_small by (rewrite Z.shiftl_mul_pow2; lia).
  unfold Writable, CopyOnWrite. rewrite !Z.lor_spec, !Z.shiftl_spec_low by lia. done.
Qed.

(** When the faulting page is the last one that uses the frame, the frame
    is not copied: the page becomes writable where it is, and nothing else
    changes. *)
Theorem page_fault_unshared_page s va f p :
  mm_inv s → mappable s va → IsUserAddress va = true → walk s va = Some f →
  CopyOnWrite (pte_of s va) = true → Writable (pte_of s va) = false → 0 <= pte_of s va →
  PfnDataBase s !! f = Some p → RefCount p = 1 →
  ∃ s', MmPfHandler va s = Ok (tt, s') ∧ walk s' va = Some f ∧
    Writable (pte_of s' va) = true ∧ CopyOnWrite (pte_of s' va) = false ∧
    PfnFreeList s' = PfnFreeList s ∧ PfnDataBase s' = PfnDataBase s ∧
    (∀ w, w ≠ pte_word s va → phys s' w = phys s w) ∧
    ∀ va', is_u32 va' → PDX va' ≠ self_index → PPN va' ≠ PPN va → walk s' va' = walk s va'.
Proof.
  intros Hi Hm Hus Hw Hc Hwr H0 Hf Hr. pose proof (mi_paging s Hi) as Hp.
  pose proof Hm as (Hu & Hne & Hv).
  destruct (clear_cow_bits (pte_of s va) H0) as (B1 & B2 & B3 & B4).
  exists (put_pte va (clear_cow (pte_of s va)) s).
  split. { rewrite (fault_run s va f p); try done; [|lia]. rewrite Hr. by apply write_pte. }
  rewrite put_pte_walk, Z.eqb_refl, B1, B4 by (done || apply Hne).
  rewrite put_pte_pte, Z.eqb_refl, B2, B3 by done.
  pose proof Hw as Hw'. unfold walk in Hw'. rewrite Hv in Hw'. cbn [andb] in Hw'.
  split; [by destruct (Valid (pte_of s va))|].
  do 4 (split; [done|]). split.
  - intros w Hne'. unfold put_pte, upd_word. cbn [set_phys phys].
    by destruct (Z.eqb_spec w (pte_word s va)).
  - intros va' Hu' Hne' HPP. rewrite put_pte_walk by done.
    by destruct (Z.eqb_spec (PPN va') (PPN va)).
Qed.

(** *** Witnesses: a copy-on-write page at 0x4000000 of the small machine,
    mapped to frame 9, with one and with two references *)

Definition demo_user : addr := 0x4000000.
Definition demo_cow1 : mm := insert_spec demo_user 9 0x805 (Pfn 0 0) demo_mm.
Definition demo_mm1 : mm := set_pfn 9 (Pfn 0 1) demo_mm.
Definition demo_cow2 : mm := insert_spec demo_user 9 0x805 (Pfn 0 1) demo_mm1.

Lemma demo_user_mappable : mappable demo_mm demo_user.
Proof. split; [done|]. split; [done|reflexivity]. Qed.

Lemma demo_cow_inv : mm_inv demo_cow1 ∧ mm_inv demo_cow2.
Proof.
  assert (9 ∉ PfnFreeList demo_mm) as H9 by (cbn; by apply (bool_decide_unpack _); vm_compute).
  split.
  - apply insert_inv; [apply demo_mm_inv|apply demo_user_mappable|by apply demo_unmapped
      |reflexivity|exact H9|done|done].
  - assert (mm_inv demo_mm1) as Hi.
    { apply (inc_step demo_mm 9 (Pfn 0 0)); [apply demo_mm_inv|reflexivity|exact H9|done]. }
    apply insert_inv; [exact Hi|apply (mappable_ext demo_mm); [done|done|apply demo_user_mappable]
      | |reflexivity|exact H9|done|done].
    rewrite (walk_ext _ demo_mm) by done. by apply demo_unmapped.
Qed.

Lemma demo_not_table s f :
  cr3 s = 0x1000 → (∀ i, 0 <= i < 1024 → pd s i = demo_entry i) →
  f ∉ [1; 2; 3; 7; 8] → not_table s f.
Proof.
  intros Hc Hpd Hf. split; [rewrite Hc; intros ->; apply Hf; by left|].
  intros i Hi. rewrite Hpd by done. intros Hv%demo_entry_cases <-. apply Hf.
  rewrite !elem_of_cons, elem_of_nil in Hv. rewrite !elem_of_cons, elem_of_nil.
  destruct_or! Hv; injection Hv as _ ->; tauto.
Qed.

Lemma demo_cow2_pd i : 0 <= i < 1024 → pd demo_cow2 i = demo_entry i.
Proof.
  intros Hi. unfold demo_cow2. change (pd (insert_spec _ _ _ _ _) i)
    with (pd (put_pte demo_user (pte_value 9 0x805) demo_mm1) i).
  rewrite put_pte_pd; [by apply demo_pd|apply (paging_ext demo_mm); [done|done|apply demo_paging]
    |apply (mappable_ext demo_mm); [done|done|apply demo_user_mappable]|done].
Qed.

Lemma demo_cow_ready : cow_ready demo_cow2 (ROUNDDOWN (demo_user + 5) PGSIZE) 9 5 [6] (Pfn 0 2).
Proof.
  split.
  - apply demo_cow_inv.
  - split; [split; [done|split; [done|reflexivity]]|done].
  - reflexivity.
  - split; [reflexivity|]. split; [done|].
    apply demo_not_table; [done|apply demo_cow2_pd|by apply (bool_decide_unpack _); vm_compute].
  - done.
  - reflexivity.
  - split; [done|].
    apply demo_not_table; [done|apply demo_cow2_pd|by apply (bool_decide_unpack _); vm_compute].
  - split; [split; [done|split; [done|reflexivity]]|reflexivity].
Qed.

Lemma page_fault_copies_shared_page_witness :
  ∃ s', MmPfHandler (demo_user + 5) demo_cow2 = Ok (tt, s') ∧ walk s' (demo_user + 5) = Some 5 ∧
    PfnDataBase s' !! 9 = Some (Pfn 0 1).
Proof.
  destruct (page_fault_copies_shared_page demo_cow2 (demo_user + 5) 9 5 [6] (Pfn 0 2))
    as (s' & Hr & Hd & Hw & _).
  - apply demo_cow_ready.
  - done.
  - reflexivity.
  - reflexivity.
  - reflexivity.
  - exists s'. split; [exact Hr|]. split; [exact Hw|]. exact (cd_f _ _ _ _ _ _ _ Hd).
Defined.

Lemma page_fault_unshared_page_witness :
  ∃ s', MmPfHandler (demo_user + 5) demo_cow1 = Ok (tt, s') ∧ walk s' (demo_user + 5) = Some 9.
Proof.
  destruct (page_fault_unshared_page demo_cow1 (demo_user + 5) 9 (Pfn 0 1)) as (s' & Hr & Hw & _).
  - apply demo_cow_inv.
  - split; [done|split; [done|reflexivity]].
  - reflexivity.
  - reflexivity.
  - reflexivity.
  - reflexivity.
  - by vm_compute.
  - reflexivity.
  - reflexivity.
  - exists s'. split; [exact Hr|exact Hw].
Defined.

(** ** Cloning the user PTE bitmap *)

Section clone_bitmap.
Context {W : Type} `{!SpinLock W}.

(** The bitmap MmCloneUserPtes makes is not a copy: the header it copies
    points to the bits of the original, so that every operation on the bitmap
    of the new process reads and changes the bitmap of the other one. *)
Theorem clone_user_ptes_shares_bits src buf (s s' : vmm W) :
  MmCloneUserPtes src s = Ok ((STATUS_SUCCESS, buf), s') →
  ∀ A (m : M BITMAP A), in_user_bitmap buf m s' = in_user_bitmap src m s'.
Proof.
  unfold MmCloneUserPtes. intros H A m. apply bind_Ok_inv in H as (b & s1 & _ & H).
  destruct (b =? NULL); [discriminate H|].
  apply bind_Ok_inv in H as ([] & s2 & _ & H). unfold bind at 1, deref in H.
  destruct (bitmap_headers s2 !! src) as [h|] eqn:Hh; [|discriminate H].
  unfold bind at 1, deref in H.
  destruct (bitmap_bits s2 !! (src + sizeof_BITMAP)) as [l|]; [|discriminate H].
  injection H as <- <-. unfold in_user_bitmap, bind, deref.
  cbn [set_bits set_header bitmap_headers bitmap_bits]. rewrite lookup_insert_eq.
  destruct (decide (src = b)) as [->|Hne]; [by rewrite lookup_insert_eq|].
  rewrite lookup_insert_ne by done. by rewrite Hh.
Qed.

End clone_bitmap.

(** The user bitmap at address 16 with a bit array of one word. *)
Definition demo_vmm_user : vmm prcb :=
  set_bits (16 + sizeof_BITMAP) [0] (set_header 16 (UserBitmap 32 (16 + sizeof_BITMAP)) demo_vmm).

Lemma demo_syspte (s : vmm prcb) :
  core s = demo_mm → MiSystemPteBitmap s = demo_bitmap → world s = demo_world →
  ∃ c b, MmAllocateSystemPtes 1 s = Ok (syspte 0, with_core c b s).
Proof.
  intros Ec Eb Ew.
  destruct (system_ptes_spec 1 s) as [[_ Hno]|(i & c & b & Hr & Hi & _ & _ & Hlow & _)].
  - rewrite Ew. split; [done|]. split; [done|by right].
  - rewrite Ec, Eb. apply demo_sys_inv.
  - done.
  - rewrite Ec. cbn. lia.
  - rewrite Ec. cbn. by apply (bool_decide_unpack _); vm_compute.
  - exfalso. rewrite Eb in Hno. apply (Hno 0); [lia|]. split; [done|]. intros j Hj.
    assert (j = 0) as -> by lia. reflexivity.
  - assert (i = 0) as ->; [|by eauto].
    destruct (decide (i = 0)) as [|Hne]; [done|]. exfalso. rewrite Eb in Hlow.
    apply (Hlow 0); [lia|]. split; [done|]. intros j Hj. assert (j = 0) as -> by lia. reflexivity.
Qed.

Lemma create_user_bitmap_ok :
  ∃ b, BmBitmapCreateInBuffer 0 (replicate (Z.to_nat (PGSIZE / 4)) 0) PGSIZE = Ok b.
Proof.
  unfold BmBitmapCreateInBuffer. cbn [Z.eqb andb]. change (sizeof_BITMAP <? PGSIZE) with true.
  cbn [negb]. set (n := u32 _). assert (n = 32704) as -> by reflexivity.
  change (BmBitmapBufferSize 32704 <=? PGSIZE) with true. cbv iota.
  destruct (SetAll_spec (Bitmap 32704 (drop 2 (replicate (Z.to_nat (PGSIZE / 4)) 0))) false)
    as (b & -> & _); [|eauto].
  split; [cbn; lia|]. cbn [BitCount bits]. rewrite length_drop, length_replicate.
  change (PGSIZE / 4) with 1024. split; [lia|]. apply Forall_drop, Forall_replicate. lia.
Qed.

Lemma clone_user_ptes_shares_bits_witness :
  ∃ s', MmCloneUserPtes 16 demo_vmm_user = Ok ((STATUS_SUCCESS, syspte 0), s') ∧
    in_user_bitmap (syspte 0) (BmBitmapTest 3) s' = in_user_bitmap 16 (BmBitmapTest 3) s'.
Proof.
  destruct (demo_syspte demo_vmm_user eq_refl eq_refl eq_refl) as (c & b & Ha).
  destruct create_user_bitmap_ok as (b0 & Hb0).
  assert (∃ s', MmCloneUserPtes 16 demo_vmm_user = Ok ((STATUS_SUCCESS, syspte 0), s'))
    as [s' Hr].
  { eexists. unfold MmCloneUserPtes. rewrite (bind_Ok _ _ _ _ _ Ha).
    change (syspte 0 =? NULL) with false. cbv iota. unfold create_user_bitmap.
    unfold lift. rewrite Hb0. reflexivity. }
  exists s'. split; [exact Hr|].
  apply (clone_user_ptes_shares_bits 16 (syspte 0) demo_vmm_user s' Hr).
Defined.
