(* ===== verification/Boot.v ===== *)
(** * Boot: from segments to paging (the boot-time part of kern/mm/mm.c)

    The kernel is linked at KERNBASE and loaded at physical address 0x100000.
    Until paging is on, its segments have base -KERNBASE, so that a virtual
    address is the physical one plus KERNBASE; MiBootInitMemoryLayout builds the
    first page tables in that mode, turns paging on, replaces the segments by
    flat ones and then makes the page tables of the whole kernel space through
    the recursive mapping.  A memory access of the model goes through the segment
    base and, when paging is on, through the page tables, so that an access that
    the set-up has not prepared is a fault.  kend is the linker symbol "end". *)

From S2P Require Import Prelude Types Bitmap Irql X86 Paging Vmm.

(** ** State *)

Record boot := Boot {
  bm : mm;
  pcr : KPCR;
  CR0 : Z;
  basemem : Z;
  MaxPA : Z;
  MMNumberOfPhysicalPages : Z;
  PtrToBootFreemem : addr;
  PfnDataBaseAddress : addr;
  GlobalPgdirAddress : addr;
  GlobalCr3 : Z;
  MiSystemPteBitmapAddress : addr;
  SystemPteBitmap : BITMAP }.

Definition set_bm (m : mm) (s : boot) : boot :=
  Boot m (pcr s) (CR0 s) (basemem s) (MaxPA s) (MMNumberOfPhysicalPages s) (PtrToBootFreemem s)
       (PfnDataBaseAddress s) (GlobalPgdirAddress s) (GlobalCr3 s)
       (MiSystemPteBitmapAddress s) (SystemPteBitmap s).
Definition set_pcr (p : KPCR) (s : boot) : boot :=
  Boot (bm s) p (CR0 s) (basemem s) (MaxPA s) (MMNumberOfPhysicalPages s) (PtrToBootFreemem s)
       (PfnDataBaseAddress s) (GlobalPgdirAddress s) (GlobalCr3 s)
       (MiSystemPteBitmapAddress s) (SystemPteBitmap s).
Definition set_CR0 (c : Z) (s : boot) : boot :=
  Boot (bm s) (pcr s) c (basemem s) (MaxPA s) (MMNumberOfPhysicalPages s) (PtrToBootFreemem s)
       (PfnDataBaseAddress s) (GlobalPgdirAddress s) (GlobalCr3 s)
       (MiSystemPteBitmapAddress s) (SystemPteBitmap s).
Definition set_ram (base max pages : Z) (s : boot) : boot :=
  Boot (bm s) (pcr s) (CR0 s) base max pages (PtrToBootFreemem s)
       (PfnDataBaseAddress s) (GlobalPgdirAddress s) (GlobalCr3 s)
       (MiSystemPteBitmapAddress s) (SystemPteBitmap s).
Definition set_freemem (p : addr) (s : boot) : boot :=
  Boot (bm s) (pcr s) (CR0 s) (basemem s) (MaxPA s) (MMNumberOfPhysicalPages s) p
       (PfnDataBaseAddress s) (GlobalPgdirAddress s) (GlobalCr3 s)
       (MiSystemPteBitmapAddress s) (SystemPteBitmap s).
Definition set_globals (db pgdir : addr) (s : boot) : boot :=
  Boot (bm s) (pcr s) (CR0 s) (basemem s) (MaxPA s) (MMNumberOfPhysicalPages s) (PtrToBootFreemem s)
       db pgdir (GlobalCr3 s) (MiSystemPteBitmapAddress s) (SystemPteBitmap s).
Definition set_GlobalCr3 (c : Z) (s : boot) : boot :=
  Boot (bm s) (pcr s) (CR0 s) (basemem s) (MaxPA s) (MMNumberOfPhysicalPages s) (PtrToBootFreemem s)
       (PfnDataBaseAddress s) (GlobalPgdirAddress s) c (MiSystemPteBitmapAddress s) (SystemPteBitmap s).
Definition set_bitmap (a : addr) (b : BITMAP) (s : boot) : boot :=
  Boot (bm s) (pcr s) (CR0 s) (basemem s) (MaxPA s) (MMNumberOfPhysicalPages s) (PtrToBootFreemem s)
       (PfnDataBaseAddress s) (GlobalPgdirAddress s) (GlobalCr3 s) a b.

Definition in_bm {A} (m : M mm A) : M boot A := zoom bm set_bm m.

(** ** Memory accesses *)

Definition CR0_PG : Z := 0x80000000.

(** The base of the segments of kos.S. *)
Definition BOOT_SEGMENT_BASE : Z := u32 (- KERNBASE).

(** The base of the segment that ds, es, fs and gs hold. *)
Definition segment_base (s : boot) : Z := sr_data (regs (pcr s)).

Definition linear (s : boot) (va : addr) : addr := u32 (va + segment_base s).

Definition frame_at (s : boot) (va : addr) : option Z :=
  if TEST_FLAG (CR0 s) CR0_PG then walk (bm s) (linear s va) else Some (PPN (linear s va)).
Definition word_at (s : boot) (va : addr) : option Z :=
  match frame_at s va with Some f => Some (word_of f (PGOFF (linear s va) / 4)) | None => None end.

Definition bread (va : addr) : M boot Z :=
  let! w := deref (λ s, word_at s va) in gets (λ s, phys (bm s) w).
Definition bwrite (va : addr) (v : Z) : M boot unit :=
  let! w := deref (λ s, word_at s va) in
  modify (λ s, set_bm (set_phys (upd_word w v (phys (bm s))) (bm s)) s).
(** memset(va, 0, PGSIZE) of a whole page. *)
Definition bzero_page (va : addr) : M boot unit :=
  let! f := deref (λ s, frame_at s va) in
  modify (λ s, set_bm (set_phys (λ w, if in_frame f w then 0 else phys (bm s) w) (bm s)) s).

(** ** Boot-time allocation and mapping *)

Definition MiBootVA2PA {T} (VA : addr) : M T Z :=
  if VA <? KERNBASE then halt BugCheck else ret (VA - KERNBASE).
Definition MiBootPA2VA (PA : Z) : M boot addr :=
  let! n := gets MMNumberOfPhysicalPages in
  if n <=? PPN PA then halt BugCheck else ret (u32 (PA + KERNBASE)).

Definition x86CalcRam : M boot unit := modify (set_ram IOPHYSMEM MAXPHYMEM (MAXPHYMEM / PGSIZE)).

Definition MiInitBootAlloc (kend : addr) (NumBytes align : Z) : M boot addr :=
  let! p := gets PtrToBootFreemem in
  let VirtAddress := ROUNDUP (if p =? 0 then kend else p) align in
  modify (set_freemem (u32 (VirtAddress + NumBytes))) >>>
  ret VirtAddress.

(** The pages of one page table: for (j = 0; i + j < size && j < PTSIZE; ...).
    The result is PhyAddress after the loop. *)
Fixpoint map_table_loop (n : nat) (i j size : Z) (Address page_table : addr) (PhyAddress Perm : Z) : M boot Z :=
  if (i + j <? size) && (j <? PTSIZE) then
    match n with
    | O => halt NoFuel
    | S n' =>
        bwrite (u32 (page_table + 4 * PTX (u32 (Address + i + j)))) (Z.lor PhyAddress Perm) >>>
        map_table_loop n' i (j + PGSIZE) size Address page_table (u32 (PhyAddress + PGSIZE)) Perm
    end
  else ret PhyAddress.

Fixpoint map_memory_loop (n : nat) (kend : addr) (i size : Z) (PgDir Address : addr) (PhyAddress Perm : Z)
    : M boot unit :=
  if i <? size then
    match n with
    | O => halt NoFuel
    | S n' =>
        let entry := u32 (PgDir + 4 * PDX (u32 (Address + i))) in
        let! e := bread entry in
        let! page_table :=
          (if e =? 0 then
             assert_ false >>>
             let! t := MiInitBootAlloc kend PGSIZE PGSIZE in
             bzero_page t >>>
             let! pa := MiBootVA2PA t in
             bwrite entry (Z.lor pa Perm) >>>
             ret t
           else MiBootPA2VA (Z.ldiff e 0x3FF)) in
        let! PhyAddress := map_table_loop (Z.to_nat NPTENTRIES) i 0 size Address page_table PhyAddress Perm in
        map_memory_loop n' kend (i + PTSIZE) size PgDir Address PhyAddress Perm
    end
  else ret tt.

Definition MiBootMapMemory (kend PgDir Address size PhyAddress Perm : Z) : M boot unit :=
  assert_ (IsPageAlignedAddress Address) >>>
  assert_ (IsPageAlignedAddress PhyAddress) >>>
  map_memory_loop (Z.to_nat (size / PTSIZE + 1)) kend 0 size PgDir Address PhyAddress Perm.

(** The bitmap is a value of its own here, on a buffer of zeroed words. *)
Definition MmInitializeSystemPtes (kend : addr) : M boot unit :=
  let BitCount := MMSYSPTE_SIZE / PGSIZE in
  assert_ (MMSYSPTE_END <? MMPAGETABLEAREA_START) >>>
  let BuffSize := BmBitmapBufferSize BitCount in
  let! Buffer := MiInitBootAlloc kend BuffSize PGSIZE in
  let! b := lift (BmBitmapCreateInBuffer BitCount (replicate (Z.to_nat (BuffSize / 4)) 0) BuffSize) in
  modify (set_bitmap Buffer b).

(** sizeof(MMPFN): PteAddress, the two links and RefCount. *)
Definition sizeof_MMPFN : Z := 16.

(** ** MiBootInitMemoryLayout *)

(** The page tables of the rest of the kernel space. *)
Fixpoint kernel_tables_loop (n : nat) (counter : addr) : M boot unit :=
  if (counter <=? KERNSPACE_END) && (KERNBASE <=? counter) then
    match n with
    | O => halt NoFuel
    | S n' =>
        let pPte := MmGetPteAddress counter in
        (if pPte =? MM_PDE_ADDRESS then ret tt
         else
           let! (status, pfn) := in_bm (MmAllocatePFN pPte) in
           assert_ (K_SUCCESS status) >>>
           let! g := gets GlobalPgdirAddress in
           let! e := bread (u32 (g + 4 * PDX counter)) in
           assert_ (e =? 0) >>>
           bwrite (u32 (g + 4 * PDX counter)) (Z.lor (Z.lor (MiPFNtoPhysicalAddress pfn) PTE_W) PTE_P) >>>
           bzero_page pPte) >>>
        kernel_tables_loop n' (u32 (counter + PTSIZE))
    end
  else ret tt.

(** The page directory, the first page table and the fixed mapping. *)
Definition boot_tables (kend : addr) : M boot unit :=
  x86CalcRam >>>
  let! n := gets MMNumberOfPhysicalPages in
  let! db := MiInitBootAlloc kend (u32 (sizeof_MMPFN * n)) PGSIZE in
  let! g := MiInitBootAlloc kend PGSIZE PGSIZE in
  modify (set_globals db g) >>>
  let! FirstPTE := MiInitBootAlloc kend PGSIZE PGSIZE in
  bzero_page g >>>
  bzero_page FirstPTE >>>
  let! pa := MiBootVA2PA FirstPTE in
  bwrite (u32 (g + 4 * PDX KERNBASE)) (Z.lor (Z.lor pa PTE_W) PTE_P) >>>
  MiBootMapMemory kend g KERNBASE PTSIZE 0 (Z.lor PTE_P PTE_W).

Definition init_pfns : M boot unit :=
  let! p := gets PtrToBootFreemem in
  let! b := gets basemem in
  let! m := gets MaxPA in
  in_bm (MmInitPFNDataBase p b m).

Section paging_on.
Context (run_dpc : addr → M prcb unit) (KiProcessorBlock : addr).

(** An access to the control region of the processor. *)
Definition touch_pcr : M boot unit := let! _ := deref (λ s, frame_at s KiProcessorBlock) in ret tt.

Definition offsetof_TSS : Z := 168.

(** KiCreateCurrentGDT works on the control region before and after the segments
    change.  Nothing is queued at boot, so that the fuel of the lock is enough. *)
Definition create_gdt : M boot unit :=
  touch_pcr >>>
  zoom pcr set_pcr (KiCreateCurrentGDT run_dpc 2 (KiProcessorBlock + offsetof_TSS)) >>>
  touch_pcr.

(** Entry 0 of the directory is there only while paging is on with the old
    segments. *)
Definition turn_paging_on : M boot unit :=
  let! g := gets GlobalPgdirAddress in
  let! e := bread (u32 (g + 4 * PDX KERNBASE)) in
  bwrite g e >>>
  let! c := MiBootVA2PA g in
  modify (set_GlobalCr3 c) >>>
  in_bm (lcr3 c) >>>
  let! cr := gets CR0 in
  modify (set_CR0 (Z.lor cr CR0_PG)) >>>
  create_gdt >>>
  bwrite g 0 >>>
  in_bm (lcr3 c) >>>
  let! pa := MiBootVA2PA g in
  bwrite (u32 (g + 4 * PDX MMPAGETABLEAREA_START)) (Z.lor (Z.lor pa PTE_W) PTE_P).

Definition MiBootInitMemoryLayout (kend : addr) : M boot unit :=
  boot_tables kend >>>
  MmInitializeSystemPtes kend >>>
  init_pfns >>>
  turn_paging_on >>>
  kernel_tables_loop (Z.to_nat NPTENTRIES) (KERNBASE + PTSIZE).
End paging_on.

(** ** Low memory: the first 4 MB of physical memory at KERNBASE *)

Definition kva (f : Z) : addr := KERNBASE + PGSIZE * f.

(** Every frame of the first 4 MB is reached at its address above KERNBASE. *)
Definition low_mem (s : boot) : Prop :=
  ∀ f off, 0 <= f < 1024 → 0 <= off < 4096 →
    frame_at s (kva f + off) = Some f ∧ PGOFF (linear s (kva f + off)) = off.

Definition segmented (s : boot) : Prop :=
  segment_base s = BOOT_SEGMENT_BASE ∧ TEST_FLAG (CR0 s) CR0_PG = false ∧ idle_cpu (Prcb_ (pcr s)).

Lemma segmented_low s : segmented s → low_mem s.
Proof.
  intros (Hb & Hc & _) f off Hf Ho. unfold frame_at, linear. rewrite Hc, Hb.
  assert (u32 (kva f + off + BOOT_SEGMENT_BASE) = 4096 * f + off) as ->.
  { unfold kva, PGSIZE. change BOOT_SEGMENT_BASE with (2 ^ 31). change KERNBASE with (2 ^ 31).
    unfold u32. replace (2 ^ 31 + 4096 * f + off + 2 ^ 31) with (4096 * f + off + 1 * 2 ^ 32) by lia.
    rewrite Z.mod_add by lia. apply Z.mod_small. lia. }
  split; [f_equal|]; page_arith.
Qed.

Lemma kva_linear_flat s f off : segment_base s = 0 → 0 <= f < 1024 → 0 <= off < 4096 → linear s (kva f + off) = kva f + off.
Proof. intros Hb Hf Ho. unfold linear. rewrite Hb, Z.add_0_r. apply u32_small. unfold kva, PGSIZE. change KERNBASE with (2 ^ 31). lia. Qed.

Lemma kva_parts f off : 0 <= f < 1024 → 0 <= off < 4096 →
  is_u32 (kva f + off) ∧ PDX (kva f + off) = linear_index ∧ PTX (kva f + off) = f ∧ PGOFF (kva f + off) = off.
Proof.
  intros Hf Ho. unfold kva, linear_index, PGSIZE. change KERNBASE with (2 ^ 31).
  split; [lia|]. split_and!; page_arith.
Qed.

Definition poke (f i v : Z) (s : boot) : boot :=
  set_bm (set_phys (upd_word (word_of f i) v (phys (bm s))) (bm s)) s.
Definition wipe (f : Z) (s : boot) : boot :=
  set_bm (set_phys (λ w, if in_frame f w then 0 else phys (bm s) w) (bm s)) s.

Lemma low_word s f i : low_mem s → 0 <= f < 1024 → 0 <= i < 1024 → word_at s (u32 (kva f + 4 * i)) = Some (word_of f i).
Proof.
  intros Hl Hf Hi. rewrite u32_small by (unfold kva, PGSIZE; change KERNBASE with (2 ^ 31); lia).
  destruct (Hl f (4 * i)) as [E1 E2]; [done|lia|]. unfold word_at. rewrite E1, E2.
  do 2 f_equal. rewrite Z.mul_comm. by apply Z.div_mul.
Qed.

Lemma low_read s f i : low_mem s → 0 <= f < 1024 → 0 <= i < 1024 →
  bread (u32 (kva f + 4 * i)) s = Ok (phys (bm s) (word_of f i), s).
Proof. intros Hl Hf Hi. unfold bread. by rewrite (deref_run _ _ _ (word_of f i)) by (by apply low_word). Qed.

Lemma low_write s f i v : low_mem s → 0 <= f < 1024 → 0 <= i < 1024 →
  bwrite (u32 (kva f + 4 * i)) v s = Ok (tt, poke f i v s).
Proof. intros Hl Hf Hi. unfold bwrite. by rewrite (deref_run _ _ _ (word_of f i)) by (by apply low_word). Qed.

Lemma wipe_run s va f : frame_at s va = Some f → bzero_page va s = Ok (tt, wipe f s).
Proof. intros E. unfold bzero_page. by rewrite (deref_run (λ s, frame_at s va) _ _ f). Qed.

Lemma low_wipe s f : low_mem s → 0 <= f < 1024 → bzero_page (kva f) s = Ok (tt, wipe f s).
Proof.
  intros Hl Hf. destruct (Hl f 0) as [E _]; [done|lia|]. rewrite Z.add_0_r in E. by apply wipe_run.
Qed.

Lemma poke_word f i v s g j : 0 <= i < 1024 → 0 <= j < 1024 →
  phys (bm (poke f i v s)) (word_of g j) = if (g =? f) && (j =? i) then v else phys (bm s) (word_of g j).
Proof.
  intros Hi Hj. unfold poke, upd_word. cbn [bm set_bm set_phys phys].
  destruct (Z.eqb_spec (word_of g j) (word_of f i)) as [E|Hne].
  - apply word_of_inj in E as [-> ->]; [|done..]. by rewrite !Z.eqb_refl.
  - destruct (Z.eqb_spec g f) as [->|], (Z.eqb_spec j i) as [->|]; done.
Qed.

Lemma wipe_word f s g j : 0 <= j < 1024 →
  phys (bm (wipe f s)) (word_of g j) = if g =? f then 0 else phys (bm s) (word_of g j).
Proof. intros Hj. unfold wipe. cbn [bm set_bm set_phys phys]. by rewrite in_frame_word_of. Qed.

(** What the stores change nothing of. *)
Record same_but_memory (s s' : boot) : Prop := {
  sm_eq : s' = set_bm (set_phys (phys (bm s')) (bm s)) s }.

Lemma poke_same f i v s : same_but_memory s (poke f i v s).
Proof. by split. Qed.
Lemma wipe_same f s : same_but_memory s (wipe f s).
Proof. by split. Qed.
Lemma same_but_refl s : same_but_memory s s.
Proof. split. by destruct s as [[] ? ? ? ? ? ? ? ? ? ? ?]. Qed.
Lemma same_but_trans s s1 s2 : same_but_memory s s1 → same_but_memory s1 s2 → same_but_memory s s2.
Proof. intros [E1] [E2]. split. rewrite E2 at 1. rewrite E1. by destruct s. Qed.

Lemma segmented_same s s' : same_but_memory s s' → segmented s → segmented s'.
Proof. intros [->] H. exact H. Qed.

(** ** The fixed mapping *)

Lemma entry_value f : 0 <= f < 2 ^ 20 → Z.lor (Z.lor (PGSIZE * f) PTE_W) PTE_P = pte_value f PTE_W.
Proof.
  intros Hf. unfold pte_value, MiPFNtoPhysicalAddress, MiPFNtoFrameNumber, PGSHIFT, PGSIZE.
  rewrite u32_small by (rewrite Z.shiftl_mul_pow2; lia).
  rewrite Z.shiftl_mul_pow2, Z.lor_assoc by lia. f_equal. f_equal. lia.
Qed.

Lemma map_table_run n : ∀ k s t,
  segmented s → 0 <= t < 1024 → k + Z.of_nat n = 1024 → 0 <= k →
  ∃ s', map_table_loop n 0 (PGSIZE * k) PTSIZE KERNBASE (kva t) (PGSIZE * k) (Z.lor PTE_P PTE_W) s
    = Ok (PGSIZE * 1024, s') ∧ same_but_memory s s' ∧
    ∀ g j, 0 <= j < 1024 → phys (bm s') (word_of g j) =
      if (g =? t) && (k <=? j) then pte_value j PTE_W else phys (bm s) (word_of g j).
Proof.
  induction n as [|n IH]; intros k s t Hs Ht Hk Hk0.
  { exists s. assert (k = 1024) as -> by lia. split; [done|]. split; [apply same_but_refl|].
    intros g j Hj. destruct (Z.leb_spec 1024 j); [lia|]. by rewrite andb_false_r. }
  assert (PTX (u32 (KERNBASE + 0 + PGSIZE * k)) = k) as EP.
  { destruct (kva_parts k 0) as (Hu & _ & HT & _); [lia..|]. rewrite Z.add_0_r in Hu, HT.
    unfold kva in *. rewrite Z.add_0_r. by rewrite u32_small. }
  destruct (IH (k + 1) (poke t k (pte_value k PTE_W) s) t) as (s' & R & Hm & Hw);
    [by eapply segmented_same; [apply poke_same|]|done|lia|lia|].
  exists s'. split; [|split; [eapply same_but_trans; [apply poke_same|exact Hm]|]].
  - cbn [map_table_loop]. rewrite Z.add_0_l, andb_diag. change PTSIZE with (PGSIZE * 1024) in *.
    destruct (Z.ltb_spec (PGSIZE * k) (PGSIZE * 1024)); [|unfold PGSIZE in *; lia].
    rewrite EP. replace (Z.lor (PGSIZE * k) (Z.lor PTE_P PTE_W)) with (pte_value k PTE_W)
      by (rewrite <- entry_value by lia; by rewrite <- Z.lor_assoc).
    rewrite (bind_Ok _ _ _ _ _ (low_write s t k _ (segmented_low s Hs) Ht ltac:(lia))).
    rewrite u32_small by (unfold PGSIZE; lia).
    replace (PGSIZE * k + PGSIZE) with (PGSIZE * (k + 1)) by lia. exact R.
  - intros g j Hj. rewrite Hw, poke_word by lia.
    destruct (Z.eqb_spec g t), (Z.leb_spec (k + 1) j), (Z.leb_spec k j), (Z.eqb_spec j k); subst; try done; lia.
Qed.

Lemma table_entry_mask t : 0 <= t < 2 ^ 20 → Z.ldiff (pte_value t PTE_W) 0x3FF = PGSIZE * t ∧ pte_value t PTE_W =? 0 = false.
Proof.
  intros Ht. destruct (pte_value_bits t PTE_W Ht) as [Hv _]; [done|]. split.
  - rewrite <- entry_value by done. rewrite <- Z.lor_assoc. change (Z.lor PTE_W PTE_P) with 3.
    apply Z.bits_inj'. intros i Hi. rewrite Z.ldiff_spec, Z.lor_spec.
    change 0x3FF with (Z.ones 10). change 3 with (Z.ones 2). rewrite !Z.testbit_ones_nonneg by lia.
    assert (i < 12 → Z.testbit (PGSIZE * t) i = false) as Hlow.
    { intros Hlt. unfold PGSIZE. change 4096 with (2 ^ 12). rewrite Z.mul_comm. by apply Z.mul_pow2_bits_low. }
    destruct (Z.ltb_spec i 2), (Z.ltb_spec i 10); try lia; cbn [negb];
      rewrite ?orb_true_r, ?orb_false_r, ?andb_false_r, ?andb_true_r; try done; symmetry; apply Hlow; lia.
  - apply Z.eqb_neq. intros E. rewrite E in Hv. discriminate Hv.
Qed.

Lemma map_memory_run kend s d t :
  segmented s → MMNumberOfPhysicalPages s = 65536 → 0 <= d < 1024 → 0 <= t < 1024 → t ≠ d →
  phys (bm s) (word_of d 512) = pte_value t PTE_W →
  ∃ s', MiBootMapMemory kend (kva d) KERNBASE PTSIZE 0 (Z.lor PTE_P PTE_W) s = Ok (tt, s') ∧
    same_but_memory s s' ∧
    ∀ g j, 0 <= j < 1024 → phys (bm s') (word_of g j) = if g =? t then pte_value j PTE_W else phys (bm s) (word_of g j).
Proof.
  intros Hs Hn Hd Ht Htd He. pose proof (segmented_low s Hs) as Hl.
  destruct (map_table_run 1024 0 s t Hs Ht eq_refl ltac:(lia)) as (s' & R & Hm & Hw).
  exists s'. split; [|split; [done|]].
  - unfold MiBootMapMemory. rewrite !assert_true by done. change (Z.to_nat (PTSIZE / PTSIZE + 1)) with 2%nat.
    cbn [map_memory_loop]. change (0 <? PTSIZE) with true. cbv iota zeta.
    change (PDX (u32 (KERNBASE + 0))) with 512.
    rewrite (bind_Ok _ _ _ _ _ (low_read s d 512 Hl Hd ltac:(lia))), He.
    destruct (table_entry_mask t) as [-> ->]; [lia|].
    assert (MiBootPA2VA (PGSIZE * t) s = Ok (kva t, s)) as R1.
    { unfold MiBootPA2VA. rewrite gets_run, Hn. assert (PPN (PGSIZE * t) = t) as -> by (unfold PGSIZE; page_arith).
      destruct (Z.leb_spec 65536 t); [lia|]. unfold ret. do 2 f_equal. unfold kva, PGSIZE. change KERNBASE with (2 ^ 31).
      rewrite u32_small; lia. }
    rewrite (bind_Ok _ _ _ _ _ R1). change (Z.to_nat NPTENTRIES) with 1024%nat. rewrite Z.mul_0_r in R.
    rewrite (bind_Ok _ _ _ _ _ R). change (0 + PTSIZE <? PTSIZE) with false. done.
  - intros g j Hj. rewrite Hw by done. destruct (Z.leb_spec 0 j); [|lia]. by rewrite andb_true_r.
Qed.

(** ** The first tables *)

Lemma roundup_kva p : KERNBASE <= p <= KERNBASE + PTSIZE → ROUNDUP p PGSIZE = kva ((p - KERNBASE + 4095) / 4096).
Proof.
  intros Hp. unfold kva. change KERNBASE with (2 ^ 31) in *. change PTSIZE with (2 ^ 22) in Hp.
  destruct (roundup_spec p PGSIZE) as [H1 [q Hq]]; [lia|done|unfold PGSIZE; lia|]. unfold PGSIZE in *.
  rewrite Hq in *. Z.div_mod_to_equations; lia.
Qed.

Lemma roundup_kva_exact f : 0 <= f <= 1024 → ROUNDUP (kva f) PGSIZE = kva f.
Proof.
  intros Hf. rewrite roundup_kva by (unfold kva, PGSIZE, PTSIZE, NPTENTRIES, PGSIZE; lia).
  f_equal. unfold kva, PGSIZE. replace (KERNBASE + 4096 * f - KERNBASE + 4095) with (4095 + f * 4096) by lia.
  rewrite Z.div_add by lia. reflexivity.
Qed.

(** The state the kernel starts in. *)
Record at_start (KiProcessorBlock kend : addr) (s : boot) : Prop := {
  as_segments : segmented s;
  as_freemem : PtrToBootFreemem s = 0;
  as_pcr : KERNBASE + EXTPHYSMEM <= KiProcessorBlock < kend;
  as_end : KERNBASE + EXTPHYSMEM <= kend <= KERNBASE + 0x2FA000;
  as_db : ∀ f, is_Some (PfnDataBase (bm s) !! f) → 0 <= f < 65536 }.

(** The frame of the page directory: after the kernel and its data base of page
    frames. *)
Definition dir_frame (kend : addr) : Z := (kend - KERNBASE + 4095) / 4096 + 256.

Lemma dir_frame_range kend : KERNBASE + EXTPHYSMEM <= kend <= KERNBASE + 0x2FA000 → 512 <= dir_frame kend <= 0x3FA.
Proof. unfold dir_frame. change EXTPHYSMEM with (2 ^ 20). intros H. Z.div_mod_to_equations; lia. Qed.

(** The directory is frame [d] and the first table the one after it. *)
Record first_tables (d : Z) (s s' : boot) : Prop := {
  ft_segments : segmented s';
  ft_pgdir : GlobalPgdirAddress s' = kva d;
  ft_freemem : PtrToBootFreemem s' = kva (d + 2);
  ft_ram : basemem s' = IOPHYSMEM ∧ MaxPA s' = MAXPHYMEM;
  ft_db : PfnDataBase (bm s') = PfnDataBase (bm s);
  ft_dir : ∀ j, 0 <= j < 1024 → phys (bm s') (word_of d j) = if j =? 512 then pte_value (d + 1) PTE_W else 0;
  ft_low : ∀ j, 0 <= j < 1024 → phys (bm s') (word_of (d + 1) j) = pte_value j PTE_W }.

Lemma boot_alloc_run kend NumBytes s p f :
  p = (if PtrToBootFreemem s =? 0 then kend else PtrToBootFreemem s) → ROUNDUP p PGSIZE = kva f →
  MiInitBootAlloc kend NumBytes PGSIZE s = Ok (kva f, set_freemem (u32 (kva f + NumBytes)) s).
Proof. intros -> E. unfold MiInitBootAlloc. rewrite gets_run, E. by rewrite modify_run. Qed.

Lemma VA2PA_run {T} f (s : T) : 0 <= f → MiBootVA2PA (kva f) s = Ok (PGSIZE * f, s).
Proof.
  intros Hf. unfold MiBootVA2PA, kva, PGSIZE. destruct (Z.ltb_spec (KERNBASE + 4096 * f) KERNBASE); [lia|].
  unfold ret. do 2 f_equal. lia.
Qed.

Lemma kva_add f n : 0 <= f → 0 <= n → f + n <= 1024 → u32 (kva f + PGSIZE * n) = kva (f + n).
Proof. intros Hf Hn Hs. unfold kva, PGSIZE. change KERNBASE with (2 ^ 31). rewrite u32_small; lia. Qed.

(** An allocation of [n] pages after the first one. *)
Lemma alloc_next kend s f n :
  PtrToBootFreemem s = kva f → 0 <= f → 0 <= n → f + n <= 1024 →
  MiInitBootAlloc kend (PGSIZE * n) PGSIZE s = Ok (kva f, set_freemem (kva (f + n)) s).
Proof.
  intros Hp Hf Hn Hs. rewrite <- (kva_add f n) by done. apply (boot_alloc_run _ _ _ (kva f)).
  - rewrite Hp. destruct (Z.eqb_spec (kva f) 0) as [E|]; [|done]. unfold kva, PGSIZE in E.
    change KERNBASE with (2 ^ 31) in E. lia.
  - apply roundup_kva_exact. lia.
Qed.

Lemma alloc_page kend s f : PtrToBootFreemem s = kva f → 0 <= f < 1024 →
  MiInitBootAlloc kend PGSIZE PGSIZE s = Ok (kva f, set_freemem (kva (f + 1)) s).
Proof. intros Hp Hf. by apply (alloc_next kend s f 1); [done|lia..]. Qed.

Lemma boot_tables_run K kend s :
  at_start K kend s → ∃ s', boot_tables kend s = Ok (tt, s') ∧ first_tables (dir_frame kend) s s'.
Proof.
  intros [Hs Hf _ He _]. pose proof (dir_frame_range kend He) as Hd. unfold dir_frame in Hd |- *.
  set (f0 := (kend - KERNBASE + 4095) / 4096) in *.
  unfold boot_tables, x86CalcRam. rewrite modify_run. set (s1 := set_ram _ _ _ s). rewrite gets_run.
  change (u32 (sizeof_MMPFN * MMNumberOfPhysicalPages s1)) with (PGSIZE * 256).
  assert (MiInitBootAlloc kend (PGSIZE * 256) PGSIZE s1 = Ok (kva f0, set_freemem (kva (f0 + 256)) s1)) as R1.
  { rewrite <- kva_add by lia. apply (boot_alloc_run _ _ _ kend).
    - change (PtrToBootFreemem s1) with (PtrToBootFreemem s). by rewrite Hf.
    - apply roundup_kva. change EXTPHYSMEM with (2 ^ 20) in He. change PTSIZE with (2 ^ 22). lia. }
  rewrite (bind_Ok _ _ _ _ _ R1). set (d := f0 + 256) in *.
  rewrite (bind_Ok _ _ _ _ _ (alloc_page kend (set_freemem (kva d) s1) d eq_refl ltac:(lia))).
  rewrite modify_run. set (s2 := set_globals _ _ _).
  rewrite (bind_Ok _ _ _ _ _ (alloc_page kend s2 (d + 1) eq_refl ltac:(lia))). set (s3 := set_freemem _ s2).
  assert (segmented s3) as Hs3 by exact Hs.
  rewrite (bind_Ok _ _ _ _ _ (low_wipe s3 d (segmented_low s3 Hs3) ltac:(lia))).
  assert (segmented (wipe d s3)) as Hs4 by exact Hs.
  rewrite (bind_Ok _ _ _ _ _ (low_wipe (wipe d s3) (d + 1) (segmented_low _ Hs4) ltac:(lia))).
  rewrite (bind_Ok _ _ _ _ _ (VA2PA_run (d + 1) _ ltac:(lia))), entry_value by lia.
  set (s5 := wipe (d + 1) (wipe d s3)). assert (segmented s5) as Hs5 by exact Hs.
  change (PDX KERNBASE) with 512.
  rewrite (bind_Ok _ _ _ _ _ (low_write s5 d 512 _ (segmented_low _ Hs5) ltac:(lia) ltac:(lia))).
  set (s6 := poke _ _ _ s5). assert (segmented s6) as Hs6 by exact Hs.
  assert (∀ j, 0 <= j < 1024 → phys (bm s6) (word_of d j) = if j =? 512 then pte_value (d + 1) PTE_W else 0) as Hd6.
  { intros j Hj. unfold s6. rewrite poke_word, Z.eqb_refl by lia. cbn [andb]. destruct (j =? 512); [done|].
    unfold s5. rewrite !wipe_word by done. destruct (d =? d + 1); [done|]. by rewrite Z.eqb_refl. }
  destruct (map_memory_run kend s6 d (d + 1) Hs6 eq_refl) as (s7 & R7 & [Hm7] & Hw7); [lia..|by apply Hd6|].
  exists s7. split; [exact R7|]. rewrite Hm7. split; try done.
  - change (kva (d + 1 + 1) = kva (d + 2)). f_equal. lia.
  - intros j Hj. cbn [bm set_bm set_phys phys]. rewrite Hw7 by done.
    destruct (Z.eqb_spec d (d + 1)); [lia|]. by apply Hd6.
  - intros j Hj. cbn [bm set_bm set_phys phys]. rewrite Hw7 by done. by rewrite Z.eqb_refl.
Qed.

(** ** The data base of page frames *)

Lemma mark_in_use_lookup n : ∀ f db g,
  mark_in_use n f db !! g =
    if (f <=? g) && (g <? f + Z.of_nat n) then
      Some (Pfn (match db !! g with Some p => PteAddress p | None => 0 end) 1)
    else db !! g.
Proof.
  induction n as [|n IH]; intros f db g; cbn [mark_in_use].
  { destruct (Z.leb_spec f g), (Z.ltb_spec g (f + Z.of_nat 0)); done || lia. }
  rewrite IH. destruct (decide (g = f)) as [->|Hne].
  - rewrite lookup_insert_eq. destruct (Z.leb_spec (f + 1) f), (Z.leb_spec f f), (Z.ltb_spec f (f + Z.of_nat (S n)));
      (lia || done).
  - rewrite lookup_insert_ne by done.
    destruct (Z.leb_spec (f + 1) g), (Z.leb_spec f g), (Z.ltb_spec g (f + 1 + Z.of_nat n)),
      (Z.ltb_spec g (f + Z.of_nat (S n))); (lia || done).
Qed.

(** The frames from [f] on are put on the free list, in order. *)
Lemma make_free_spec n : ∀ f m,
  cr3 (make_free n f m) = cr3 m ∧ phys (make_free n f m) = phys m ∧
  PfnFreeList (make_free n f m) = PfnFreeList m ++ seqZ f (Z.of_nat n) ∧
  ∀ g, PfnDataBase (make_free n f m) !! g =
    if (f <=? g) && (g <? f + Z.of_nat n) then
      Some (Pfn (match PfnDataBase m !! g with Some p => PteAddress p | None => 0 end) 0)
    else PfnDataBase m !! g.
Proof.
  induction n as [|n IH]; intros f m; cbn [make_free].
  { split; [done|]. split; [done|]. split; [by rewrite app_nil_r|]. intros g.
    destruct (Z.leb_spec f g), (Z.ltb_spec g (f + Z.of_nat 0)); done || lia. }
  destruct (IH (f + 1) (set_free (PfnFreeList m ++ [f]) (set_pfn f
    (Pfn (match PfnDataBase m !! f with Some p => PteAddress p | None => 0 end) 0) m))) as (E1 & E2 & E3 & E4).
  split; [done|]. split; [done|]. split.
  - rewrite E3. cbn [set_free set_pfn PfnFreeList]. rewrite <- app_assoc. f_equal.
    rewrite (seqZ_cons f (Z.of_nat (S n))) by lia. cbn [app]. do 2 f_equal; lia.
  - intros g. rewrite E4. cbn [set_free set_pfn PfnDataBase]. destruct (decide (g = f)) as [->|Hne].
    + rewrite lookup_insert_eq. destruct (Z.leb_spec (f + 1) f), (Z.leb_spec f f), (Z.ltb_spec f (f + Z.of_nat (S n)));
        (lia || done).
    + rewrite lookup_insert_ne by done.
      destruct (Z.leb_spec (f + 1) g), (Z.leb_spec f g), (Z.ltb_spec g (f + 1 + Z.of_nat n)),
        (Z.ltb_spec g (f + Z.of_nat (S n))); (lia || done).
Qed.

(** The frames below [first] are in use, the others are free. *)
Record pfns_ready (first : Z) (m m' : mm) : Prop := {
  pf_cr3 : cr3 m' = cr3 m;
  pf_phys : phys m' = phys m;
  pf_free : PfnFreeList m' = seqZ first (65536 - first);
  pf_dom : ∀ g, is_Some (PfnDataBase m' !! g) ↔ 0 <= g < 65536;
  pf_ref : ∀ g p, PfnDataBase m' !! g = Some p → RefCount p = if g <? first then 1 else 0 }.

Lemma init_pfns_run p m :
  KERNBASE + EXTPHYSMEM <= p < KERNBASE + PTSIZE → (∀ f, is_Some (PfnDataBase m !! f) → 0 <= f < 65536) →
  ∃ m', MmInitPFNDataBase p IOPHYSMEM MAXPHYMEM m = Ok (tt, m') ∧ pfns_ready ((p - KERNBASE) / PGSIZE) m m'.
Proof.
  intros Hp Hdom. set (first := (p - KERNBASE) / PGSIZE).
  assert (256 <= first < 1024) as Hf.
  { unfold first, PGSIZE. change EXTPHYSMEM with (2 ^ 20) in Hp. change PTSIZE with (2 ^ 22) in Hp.
    Z.div_mod_to_equations; lia. }
  unfold MmInitPFNDataBase. rewrite !modify_run.
  rewrite assert_true by (apply Z.ltb_lt; lia). rewrite assert_true by (apply Z.leb_le; change EXTPHYSMEM with (2 ^ 20) in Hp; lia).
  cbv zeta. fold first. rewrite modify_run. cbn [set_free cr3 phys PfnDataBase PfnFreeList MemManagerTestingON].
  change (Z.to_nat (EXTPHYSMEM / PGSIZE - IOPHYSMEM / PGSIZE)) with 96%nat. change (IOPHYSMEM / PGSIZE) with 160.
  change (Z.to_nat (160 - 1)) with 159%nat. change (EXTPHYSMEM / PGSIZE) with 256. change (MAXPHYMEM / PGSIZE) with 65536.
  set (db := mark_in_use (Z.to_nat (first - 256)) 256 _).
  assert (∀ g, if (0 <=? g) && (g <? first) then ∃ a, db !! g = Some (Pfn a 1) else db !! g = PfnDataBase m !! g) as Hdb.
  { intros g. unfold db. rewrite !mark_in_use_lookup. rewrite Z2Nat.id by lia.
    destruct (Z.leb_spec 0 g), (Z.ltb_spec g first), (Z.leb_spec 256 g), (Z.ltb_spec g (256 + (first - 256))),
      (Z.leb_spec 160 g), (Z.ltb_spec g (160 + Z.of_nat 96)), (Z.leb_spec 1 g), (Z.ltb_spec g (1 + Z.of_nat 159)),
      (Z.ltb_spec g (0 + Z.of_nat 1)); cbn [andb]; (lia || done || by eexists). }
  set (m1 := Mm (cr3 m) (phys m) db [] (MemManagerTestingON m)).
  destruct (make_free_spec (Z.to_nat (65536 - first)) first m1) as (E1 & E2 & E3 & E4).
  rewrite Z2Nat.id in E3, E4 by lia.
  exists (make_free (Z.to_nat (65536 - first)) first m1). split; [done|]. split; [done|done|done|..].
  - intros g. rewrite E4. cbn [m1 PfnDataBase]. specialize (Hdb g).
    destruct (Z.leb_spec first g), (Z.ltb_spec g (first + (65536 - first))); cbn [andb].
    + split; [lia|by eexists].
    + destruct (Z.leb_spec 0 g), (Z.ltb_spec g first); cbn [andb] in Hdb; try lia. rewrite Hdb. split; [auto|lia].
    + destruct (Z.leb_spec 0 g), (Z.ltb_spec g first); cbn [andb] in Hdb; try lia.
      * destruct Hdb as [a ->]. split; [lia|by eexists].
      * rewrite Hdb. split; [auto|lia].
    + lia.
  - intros g q. rewrite E4. cbn [m1 PfnDataBase]. specialize (Hdb g).
    destruct (Z.leb_spec first g), (Z.ltb_spec g first), (Z.ltb_spec g (first + (65536 - first))); try lia; cbn [andb].
    + by intros [= <-].
    + intros Hq. destruct (Z.leb_spec 0 g); cbn [andb] in Hdb; [|lia]. rewrite Hdb in Hq.
      destruct (Hdom g) as [_ ?]; [by eexists|lia].
    + destruct (Z.leb_spec 0 g); cbn [andb] in Hdb; [destruct Hdb as [a ->]; by intros [= <-]|].
      intros Hq. rewrite Hdb in Hq. destruct (Hdom g) as [? _]; [by eexists|lia].
Qed.

(** ** The page tables of the kernel space *)

(** The frame of the page table of directory entry [i] > 512: the frames of the
    free list in order, entry 768 being the directory's. *)
Definition table_frame (d i : Z) : Z := d + 4 + (i - 513) - (if 768 <? i then 1 else 0).

Definition dir_entry (d n i : Z) : MMPTE :=
  if i =? 512 then pte_value (d + 1) PTE_W else if i =? 768 then pte_value d PTE_W
  else if (513 <=? i) && (i <? n) then pte_value (table_frame d i) PTE_W else 0.

(** The tables of the entries below [n] are made. *)
Record tables_upto (d n : Z) (m : mm) : Prop := {
  tu_cr3 : cr3 m = PGSIZE * d;
  tu_pd : ∀ i, 0 <= i < 1024 → phys m (word_of d i) = dir_entry d n i;
  tu_low : ∀ j, 0 <= j < 1024 → phys m (word_of (d + 1) j) = pte_value j PTE_W;
  tu_zero : ∀ i j, 513 <= i < n → i ≠ 768 → 0 <= j < 1024 → phys m (word_of (table_frame d i) j) = 0;
  tu_free : PfnFreeList m = seqZ (table_frame d n) (65536 - table_frame d n);
  tu_dom : ∀ g, is_Some (PfnDataBase m !! g) ↔ 0 <= g < 65536;
  tu_ref : ∀ g p, PfnDataBase m !! g = Some p → RefCount p = if g <? d + 4 then 1 else 0 }.

Lemma frame_value f : 0 <= f < 2 ^ 20 → Valid (pte_value f PTE_W) = true ∧ PageFrameNumber (pte_value f PTE_W) = f.
Proof. intros Hf. by apply pte_value_bits. Qed.

(** An address whose directory entry is that of the first table. *)
Lemma first_table_walk d m va f :
  512 <= d <= 0x3FA → PPN (cr3 m) = d → phys m (word_of d (PDX va)) = pte_value (d + 1) PTE_W → PTX va = f →
  (∀ j, 0 <= j < 1024 → phys m (word_of (d + 1) j) = pte_value j PTE_W) → 0 <= f < 1024 → walk m va = Some f.
Proof.
  intros Hd Hc He Et Hl Hf.
  destruct (frame_value (d + 1)) as [Hv Hfr]; [lia|]. destruct (frame_value f) as [Hv' Hf']; [lia|].
  assert (pde_of m va = pte_value (d + 1) PTE_W) as E1 by (unfold pde_of, pde_word; by rewrite Hc).
  assert (pte_of m va = pte_value f PTE_W) as E2.
  { unfold pte_of, pte_word. rewrite E1, Hfr, Et. by apply Hl. }
  unfold walk. by rewrite E1, E2, Hv, Hv', Hf'.
Qed.

Lemma window_walk d m f off :
  512 <= d <= 0x3FA → PPN (cr3 m) = d → phys m (word_of d 512) = pte_value (d + 1) PTE_W →
  (∀ j, 0 <= j < 1024 → phys m (word_of (d + 1) j) = pte_value j PTE_W) →
  0 <= f < 1024 → 0 <= off < 4096 → walk m (kva f + off) = Some f.
Proof.
  intros Hd Hc He Hl Hf Ho. destruct (kva_parts f off Hf Ho) as (_ & Ed & Et & _). unfold linear_index in Ed.
  apply (first_table_walk d); try done. by rewrite Ed.
Qed.

Definition paged (s : boot) : Prop := TEST_FLAG (CR0 s) CR0_PG = true.
Definition flat (s : boot) : Prop := segment_base s = 0 ∧ paged s.

Lemma flat_low d s :
  flat s → 512 <= d <= 0x3FA → PPN (cr3 (bm s)) = d → phys (bm s) (word_of d 512) = pte_value (d + 1) PTE_W →
  (∀ j, 0 <= j < 1024 → phys (bm s) (word_of (d + 1) j) = pte_value j PTE_W) → low_mem s.
Proof.
  intros [Hb Hp] Hd Hc He Hl f off Hf Ho. unfold frame_at. rewrite Hp, kva_linear_flat by done. split.
  - by apply (window_walk d).
  - by apply kva_parts.
Qed.

(** With paging on and the segments of kos.S, which is where KiCreateCurrentGDT
    runs, the addresses of the kernel go through entry 0. *)
Lemma old_segments_low d s :
  segment_base s = BOOT_SEGMENT_BASE → paged s → 512 <= d <= 0x3FA → PPN (cr3 (bm s)) = d →
  phys (bm s) (word_of d 0) = pte_value (d + 1) PTE_W →
  (∀ j, 0 <= j < 1024 → phys (bm s) (word_of (d + 1) j) = pte_value j PTE_W) → low_mem s.
Proof.
  intros Hb Hp Hd Hc He Hl f off Hf Ho. unfold frame_at. rewrite Hp.
  assert (linear s (kva f + off) = 4096 * f + off) as ->.
  { unfold linear, kva, PGSIZE. rewrite Hb. change BOOT_SEGMENT_BASE with (2 ^ 31). change KERNBASE with (2 ^ 31).
    unfold u32. replace (2 ^ 31 + 4096 * f + off + 2 ^ 31) with (4096 * f + off + 1 * 2 ^ 32) by lia.
    rewrite Z.mod_add by lia. apply Z.mod_small. lia. }
  split; [|page_arith]. apply (first_table_walk d); try done; [|page_arith].
  assert (PDX (4096 * f + off) = 0) as -> by page_arith. done.
Qed.

Section layout.
Context (d n : Z) (m : mm).
Hypothesis (Hd : 512 <= d <= 0x3FA) (Hn : 513 <= n <= 1024) (Ht : tables_upto d n m).

Lemma cr3_frame : PPN (cr3 m) = d.
Proof. rewrite (tu_cr3 _ _ _ Ht). unfold PGSIZE. rewrite PPN_div, Z.mul_comm. by apply Z.div_mul. Qed.

Lemma layout_pd i : 0 <= i < 1024 → pd m i = dir_entry d n i.
Proof. intros Hi. unfold pd. rewrite cr3_frame. by apply (tu_pd _ _ _ Ht). Qed.

(** The entries that are valid, and their frames. *)
Lemma layout_valid i : 0 <= i < 1024 → Valid (pd m i) = true →
  (i = 512 ∧ PageFrameNumber (pd m i) = d + 1) ∨ (i = 768 ∧ PageFrameNumber (pd m i) = d) ∨
  (513 <= i < n ∧ i ≠ 768 ∧ PageFrameNumber (pd m i) = table_frame d i).
Proof.
  intros Hi. rewrite layout_pd by done. unfold dir_entry.
  destruct (Z.eqb_spec i 512) as [->|H1]; [intros _; left; split; [done|]; apply frame_value; lia|].
  destruct (Z.eqb_spec i 768) as [->|H2]; [intros _; right; left; split; [done|]; apply frame_value; lia|].
  destruct (Z.leb_spec 513 i), (Z.ltb_spec i n); cbn [andb]; try discriminate. intros _. right. right.
  split; [lia|]. split; [done|]. apply frame_value. unfold table_frame. destruct (768 <? i); lia.
Qed.

Lemma layout_paging : paging m.
Proof.
  destruct (frame_value d) as [Hv Hf]; [lia|]. assert (0 <= self_index < 1024) by (unfold self_index; lia).
  split.
  - rewrite layout_pd by done. exact Hv.
  - rewrite layout_pd, cr3_frame by done. exact Hf.
  - intros i j Hi Hj Hij Vi Vj.
    destruct (layout_valid i Hi Vi) as [[-> ->]|[[-> ->]|(H1 & H2 & ->)]],
      (layout_valid j Hj Vj) as [[-> ->]|[[-> ->]|(H3 & H4 & ->)]]; unfold table_frame;
      repeat match goal with |- context [768 <? ?x] => destruct (Z.ltb_spec 768 x) end; lia.
Qed.

Lemma layout_window f off : 0 <= f < 1024 → 0 <= off < 4096 → walk m (kva f + off) = Some f.
Proof.
  intros Hf Ho. apply (window_walk d); try done; [apply cr3_frame| |apply (tu_low _ _ _ Ht)].
  rewrite (tu_pd _ _ _ Ht) by lia. done.
Qed.

(** Nothing else is mapped. *)
Lemma layout_entries va : managed va →
  (Valid (pde_of m va) = true ∧ 513 <= PDX va < n ∧ pte_of m va = 0) ∨ Valid (pde_of m va) = false.
Proof.
  intros [Hs Hl]. unfold self_index, linear_index in *. pose proof (PDX_range va) as Hr.
  destruct (Valid (pde_of m va)) eqn:Hv; [left|by right]. rewrite pde_of_pd in Hv.
  destruct (layout_valid _ Hr Hv) as [[? _]|[[? _]|(H1 & H2 & H3)]]; [done..|].
  split; [done|]. split; [done|]. unfold pte_of, pte_word. rewrite pde_of_pd, H3.
  apply (tu_zero _ _ _ Ht); [done|done|apply PTX_range].
Qed.

Lemma layout_unmapped va : managed va → walk m va = None.
Proof.
  intros Hm. unfold walk. destruct (layout_entries va Hm) as [(-> & _ & ->)| ->]; [|done].
  done.
Qed.

Lemma layout_inv : mm_inv m.
Proof.
  assert (∀ f, mappings m f = 0) as Hz.
  { intros f. unfold mappings. rewrite (cnt_ext _ (λ _, false)).
    - generalize NPAGES. intros k. induction k; simpl; lia.
    - intros i _. unfold maps. destruct (managed_page_spec i) as [Hm|]; [|done]. by rewrite layout_unmapped. }
  split.
  - apply layout_paging.
  - intros f p Hf. assert (0 <= f < 65536); [|lia]. apply (tu_dom _ _ _ Ht). by eexists.
  - intros f p Hf. rewrite Hz, (tu_ref _ _ _ Ht f p Hf). destruct (f <? d + 4); lia.
  - rewrite (tu_free _ _ _ Ht). apply NoDup_seqZ.
  - intros f. rewrite (tu_free _ _ _ Ht), elem_of_seqZ. intros Hf.
    assert (d + 4 <= table_frame d n) by (unfold table_frame; destruct (Z.ltb_spec 768 n); lia).
    destruct (proj2 (tu_dom _ _ _ Ht f)) as [p Hp]; [lia|]. exists p. split; [done|].
    rewrite (tu_ref _ _ _ Ht f p Hp). destruct (Z.ltb_spec f (d + 4)); lia.
Qed.
End layout.

(** ** Paging on *)

Lemma set_paging_flag c : TEST_FLAG (Z.lor c CR0_PG) CR0_PG = true.
Proof.
  unfold TEST_FLAG. assert (Z.land (Z.lor c CR0_PG) CR0_PG = CR0_PG) as ->; [|done].
  apply Z.bits_inj'. intros i Hi. rewrite Z.land_spec, Z.lor_spec. by destruct (Z.testbit c i), (Z.testbit CR0_PG i).
Qed.

(** An address of the first 4 MB of the kernel, by its frame. *)
Lemma low_parts va :
  KERNBASE <= va < KERNBASE + PTSIZE → va = kva (PPN (va - KERNBASE)) + va mod 4096 ∧ 0 <= PPN (va - KERNBASE) < 1024.
Proof.
  change PTSIZE with (2 ^ 22). unfold kva, PGSIZE. rewrite PPN_div. change KERNBASE with (2 ^ 31).
  intros Hva. Z.div_mod_to_equations; lia.
Qed.

Lemma create_gdt_pcr run_dpc K s :
  idle_cpu (Prcb_ (pcr s)) →
  ∃ c, zoom pcr set_pcr (KiCreateCurrentGDT run_dpc 2 (K + offsetof_TSS)) s = Ok (tt, set_pcr c s) ∧ sr_data (regs c) = 0.
Proof. intros Hi. unfold zoom. rewrite (create_gdt_run run_dpc 0 _ _ Hi). by eexists. Qed.

(** What the first part has made, with the data base of page frames. *)
Record before_paging (d : Z) (s : boot) : Prop := {
  bp_segments : segmented s;
  bp_pgdir : GlobalPgdirAddress s = kva d;
  bp_dir : ∀ j, 0 <= j < 1024 → phys (bm s) (word_of d j) = if j =? 512 then pte_value (d + 1) PTE_W else 0;
  bp_low : ∀ j, 0 <= j < 1024 → phys (bm s) (word_of (d + 1) j) = pte_value j PTE_W;
  bp_free : PfnFreeList (bm s) = seqZ (d + 4) (65536 - (d + 4));
  bp_dom : ∀ g, is_Some (PfnDataBase (bm s) !! g) ↔ 0 <= g < 65536;
  bp_ref : ∀ g p, PfnDataBase (bm s) !! g = Some p → RefCount p = if g <? d + 4 then 1 else 0 }.

Lemma low_write_first s d v : low_mem s → 0 <= d < 1024 → bwrite (kva d) v s = Ok (tt, poke d 0 v s).
Proof.
  intros Hl Hd. rewrite <- low_write by (done || lia). do 2 f_equal. rewrite Z.mul_0_r, Z.add_0_r. symmetry.
  apply u32_small. unfold kva, PGSIZE. change KERNBASE with (2 ^ 31). lia.
Qed.

Lemma in_bm_run {A} (m : M mm A) s a c : m (bm s) = Ok (a, c) → in_bm m s = Ok (a, set_bm c s).
Proof. intros H. unfold in_bm, zoom. by rewrite H. Qed.

(** The directory with itself as entry 768. *)
Lemma before_paging_tables d s m :
  512 <= d <= 0x3FA → before_paging d s → cr3 m = PGSIZE * d →
  (∀ g j, 0 <= j < 1024 → phys m (word_of g j) =
     if (g =? d) && (j =? 768) then pte_value d PTE_W
     else if (g =? d) && (j =? 0) then 0 else phys (bm s) (word_of g j)) →
  PfnFreeList m = PfnFreeList (bm s) → PfnDataBase m = PfnDataBase (bm s) → tables_upto d 513 m.
Proof.
  intros Hd [_ _ Hdir Hlow Hfree Hdom Href] Hc Hw Ef Edb. split.
  - done.
  - intros i Hi. rewrite Hw, Z.eqb_refl, Hdir by lia. cbn [andb]. unfold dir_entry.
    destruct (Z.eqb_spec i 768), (Z.eqb_spec i 512), (Z.eqb_spec i 0), (Z.leb_spec 513 i), (Z.ltb_spec i 513);
      (done || lia).
  - intros j Hj. rewrite Hw by lia. destruct (Z.eqb_spec (d + 1) d); [lia|]. by apply Hlow.
  - intros i j Hi. lia.
  - rewrite Ef, Hfree. unfold table_frame. change (768 <? 513) with false. f_equal; lia.
  - by rewrite Edb.
  - by rewrite Edb.
Qed.

Lemma touch_pcr_run K s : low_mem s → KERNBASE <= K < KERNBASE + PTSIZE → touch_pcr K s = Ok (tt, s).
Proof.
  intros Hl HK. destruct (low_parts K HK) as [E Hf]. unfold touch_pcr.
  destruct (Hl (PPN (K - KERNBASE)) (K mod 4096)) as [Ew _]; [done|by apply Z.mod_pos_bound|].
  rewrite <- E in Ew. by rewrite (deref_run (λ s, frame_at s K) _ _ _ Ew).
Qed.

Lemma turn_paging_on_run run_dpc K d s :
  KERNBASE <= K < KERNBASE + PTSIZE → 512 <= d <= 0x3FA → before_paging d s →
  ∃ s', turn_paging_on run_dpc K s = Ok (tt, s') ∧ flat s' ∧ GlobalPgdirAddress s' = kva d ∧
    SystemPteBitmap s' = SystemPteBitmap s ∧ MiSystemPteBitmapAddress s' = MiSystemPteBitmapAddress s ∧
    tables_upto d 513 (bm s').
Proof.
  intros HK Hd Hbp. pose proof Hbp as [Hs Hg Hdir Hlow _ _ _]. pose proof (segmented_low s Hs) as Hl.
  assert (0 <= d < 1024) as Hd' by lia.
  unfold turn_paging_on. rewrite gets_run, Hg. change (PDX KERNBASE) with 512.
  rewrite (bind_Ok _ _ _ _ _ (low_read s d 512 Hl Hd' ltac:(lia))), Hdir by lia. change (512 =? 512) with true. cbv iota.
  rewrite (bind_Ok _ _ _ _ _ (low_write_first s d _ Hl Hd')). set (s1 := poke d 0 _ s).
  rewrite (bind_Ok _ _ _ _ _ (VA2PA_run d s1 ltac:(lia))), modify_run.
  rewrite (bind_Ok _ _ _ tt _ (in_bm_run (lcr3 (PGSIZE * d)) (set_GlobalCr3 (PGSIZE * d) s1) tt _ eq_refl)).
  rewrite gets_run, modify_run. set (s0 := set_CR0 _ _).
  assert (PPN (PGSIZE * d) = d) as Hc by (unfold PGSIZE; rewrite PPN_div, Z.mul_comm; by apply Z.div_mul).
  assert (∀ g j, 0 <= j < 1024 → phys (bm s0) (word_of g j)
    = if (g =? d) && (j =? 0) then pte_value (d + 1) PTE_W else phys (bm s) (word_of g j)) as Hw2.
  { intros g j Hj. change (bm s0) with (set_cr3 (PGSIZE * d) (bm s1)). cbn [set_cr3 phys]. by apply poke_word. }
  assert (low_mem s0) as Hl0.
  { destruct Hs as (Hb & _ & _). apply (old_segments_low d); [exact Hb|apply set_paging_flag|done|exact Hc|..].
    - rewrite Hw2 by lia. by rewrite Z.eqb_refl.
    - intros j Hj. rewrite Hw2 by done. destruct (Z.eqb_spec (d + 1) d); [lia|]. by apply Hlow. }
  destruct (create_gdt_pcr run_dpc K s0) as (c & Rc & Hc0); [apply Hs|].
  unfold create_gdt. rewrite !bind_assoc, (bind_Ok _ _ _ _ _ (touch_pcr_run K s0 Hl0 HK)).
  rewrite (bind_assoc (zoom pcr set_pcr _)), (bind_Ok _ _ _ _ _ Rc). set (s2 := set_pcr c s0).
  assert (flat s2) as Hf2 by (split; [done|apply set_paging_flag]).
  assert (low_mem s2) as Hl2.
  { apply (flat_low d); [done|done|exact Hc|..]; change (bm s2) with (bm s0).
    - rewrite Hw2 by lia. change (512 =? 0) with false. rewrite andb_false_r. by rewrite Hdir.
    - intros j Hj. rewrite Hw2 by done. destruct (Z.eqb_spec (d + 1) d); [lia|]. by apply Hlow. }
  rewrite (bind_Ok _ _ _ _ _ (touch_pcr_run K s2 Hl2 HK)).
  rewrite (bind_Ok _ _ _ _ _ (low_write_first s2 d 0 Hl2 Hd')). set (s3 := poke d 0 0 s2).
  rewrite (bind_Ok _ _ _ tt _ (in_bm_run (lcr3 (PGSIZE * d)) s3 tt _ eq_refl)).
  set (s4 := set_bm _ s3). rewrite (bind_Ok _ _ _ _ _ (VA2PA_run d s4 ltac:(lia))), entry_value by lia.
  change (PDX MMPAGETABLEAREA_START) with 768.
  assert (∀ g j, 0 <= j < 1024 → phys (bm s4) (word_of g j) = if (g =? d) && (j =? 0) then 0 else phys (bm s) (word_of g j)) as Hw4.
  { intros g j Hj. change (phys (bm s4)) with (phys (bm s3)). unfold s3. rewrite poke_word, Hw2 by lia.
    destruct ((g =? d) && (j =? 0)); done. }
  assert (low_mem s4) as Hl4.
  { apply (flat_low d); [done|done|exact Hc|..].
    - rewrite Hw4 by lia. change (512 =? 0) with false. rewrite andb_false_r. by rewrite Hdir.
    - intros j Hj. rewrite Hw4 by done. destruct (Z.eqb_spec (d + 1) d); [lia|]. by apply Hlow. }
  exists (poke d 768 (pte_value d PTE_W) s4). split; [by apply low_write|].
  split; [done|]. split; [done|]. split; [done|]. split; [done|].
  apply (before_paging_tables d s); [done|done|done| |done|done].
  intros g j Hj. by rewrite poke_word, Hw4 by lia.
Qed.

(** ** The loop over the page tables *)

Lemma table_frame_next d i : table_frame d (i + 1) = table_frame d i + (if i =? 768 then 0 else 1).
Proof.
  unfold table_frame. destruct (Z.ltb_spec 768 (i + 1)), (Z.ltb_spec 768 i), (Z.eqb_spec i 768); lia.
Qed.

Lemma table_frame_mono d i j : i <= j → table_frame d i <= table_frame d j ∧ (i < j → i ≠ 768 → table_frame d i < table_frame d j).
Proof. intros H. unfold table_frame. destruct (Z.ltb_spec 768 i), (Z.ltb_spec 768 j); lia. Qed.

Lemma table_frame_range d i : 512 <= d <= 0x3FA → 513 <= i <= 1024 → d + 4 <= table_frame d i < 65536.
Proof. intros Hd Hi. unfold table_frame. destruct (Z.ltb_spec 768 i); lia. Qed.

(** Entry 768 is not made by the loop. *)
Lemma tables_skip d m : tables_upto d 768 m → tables_upto d 769 m.
Proof.
  intros [H1 H2 H3 H4 H5 H6 H7]. assert (table_frame d 769 = table_frame d 768) as E.
  { unfold table_frame. change (768 <? 769) with true. change (768 <? 768) with false. lia. }
  split; try done.
  - intros i Hi. rewrite H2 by done. unfold dir_entry.
    destruct (Z.eqb_spec i 512), (Z.eqb_spec i 768), (Z.leb_spec 513 i), (Z.ltb_spec i 768), (Z.ltb_spec i 769); (done || lia).
  - intros i j Hi Hne. apply H4; lia.
  - by rewrite E.
Qed.

Lemma table_address i : 0 <= i < 1024 →
  is_u32 (i * PTSIZE) ∧ PDX (i * PTSIZE) = i ∧ is_u32 (MmGetPteAddress (i * PTSIZE)) ∧
  PDX (MmGetPteAddress (i * PTSIZE)) = 768 ∧ PTX (MmGetPteAddress (i * PTSIZE)) = i ∧
  (MmGetPteAddress (i * PTSIZE) =? MM_PDE_ADDRESS) = (i =? 768).
Proof.
  intros Hi. change PTSIZE with (2 ^ 22). assert (is_u32 (i * 2 ^ 22)) as Hu by lia.
  destruct (pte_address_parts _ Hu) as (H1 & H2 & _). assert (PDX (i * 2 ^ 22) = i) as Hp by (rewrite PDX_div, Z.div_mul by lia; by apply Z.mod_small).
  split; [done|]. split; [done|]. split; [apply u32_range|]. split; [done|]. split; [by rewrite H2|].
  unfold MmGetPteAddress, MMPAGETABLEAREA_START, MM_PDE_ADDRESS.
  rewrite Z.shiftl_mul_pow2, Z.shiftr_div_pow2 by lia.
  replace (i * 2 ^ 22 / 2 ^ 12 * 2 ^ 2) with (i * 2 ^ 12) by (Z.div_mod_to_equations; lia).
  rewrite u32_small by lia. destruct (Z.eqb_spec i 768); [apply Z.eqb_eq|apply Z.eqb_neq]; lia.
Qed.

Section step.
Context (d i : Z) (s : boot).
Hypothesis (Hd : 512 <= d <= 0x3FA) (Hi : 513 <= i < 1024) (Hne : i ≠ 768).
Hypothesis (Hflat : flat s) (Hg : GlobalPgdirAddress s = kva d) (Ht : tables_upto d i (bm s)).

Let f := table_frame d i.
Let pPte := MmGetPteAddress (i * PTSIZE).
Let m0 := take_pfn f pPte (seqZ (f + 1) (65536 - (f + 1))) (bm s).
Let s1 := poke d i (pte_value f PTE_W) (set_bm m0 s).

Lemma step_low m : PPN (cr3 m) = d → (∀ w, phys m w = phys (bm s) w) → low_mem (set_bm m s).
Proof.
  intros Hc Hw. apply (flat_low d); [exact Hflat|done|done|..]; cbn [bm set_bm].
  - rewrite Hw, (tu_pd _ _ _ Ht) by lia. done.
  - intros j Hj. rewrite Hw. by apply (tu_low _ _ _ Ht).
Qed.

Lemma step_table : frame_at s1 pPte = Some f.
Proof.
  destruct (table_address i ltac:(lia)) as (_ & _ & Hu & Ed & Et & _). fold pPte in Hu, Ed, Et.
  unfold frame_at. destruct Hflat as [Hb Hp]. change (CR0 s1) with (CR0 s). rewrite Hp.
  unfold linear. change (segment_base s1) with (segment_base s). rewrite Hb, Z.add_0_r, u32_small by done.
  assert (PPN (cr3 (bm s1)) = d) as Hc by exact (cr3_frame d i (bm s) Ht).
  destruct (frame_value d) as [Hv Hf]; [lia|]. pose proof (table_frame_range d i Hd ltac:(lia)) as Hr. fold f in Hr.
  destruct (frame_value f) as [Hv' Hf']; [lia|].
  assert (pde_of (bm s1) pPte = pte_value d PTE_W) as E1.
  { unfold pde_of, pde_word. rewrite Hc, Ed. unfold s1. rewrite poke_word by lia.
    destruct (Z.eqb_spec 768 i); [lia|]. rewrite andb_false_r. cbn [bm set_bm]. change (phys m0) with (phys (bm s)).
    by rewrite (tu_pd _ _ _ Ht) by lia. }
  assert (pte_of (bm s1) pPte = pte_value f PTE_W) as E2.
  { unfold pte_of, pte_word. rewrite E1, Hf, Et. unfold s1. rewrite poke_word by lia. by rewrite !Z.eqb_refl. }
  unfold walk. by rewrite E1, E2, Hv, Hv', Hf'.
Qed.

Lemma step_free : PfnFreeList (bm s) = f :: seqZ (f + 1) (65536 - (f + 1)).
Proof.
  rewrite (tu_free _ _ _ Ht). fold f. pose proof (table_frame_range d i Hd ltac:(lia)) as Hr. fold f in Hr.
  rewrite seqZ_cons by lia. f_equal. f_equal; lia.
Qed.

Lemma step_tables : tables_upto d (i + 1) (bm (wipe f s1)).
Proof.
  pose proof (table_frame_range d i Hd ltac:(lia)) as Hr. fold f in Hr.
  assert (∀ g j, 0 <= j < 1024 → phys (bm (wipe f s1)) (word_of g j) =
    if g =? f then 0 else if (g =? d) && (j =? i) then pte_value f PTE_W else phys (bm s) (word_of g j)) as Hw.
  { intros g j Hj. rewrite wipe_word by done. unfold s1. by rewrite poke_word by lia. }
  assert (table_frame d (i + 1) = f + 1) as En.
  { rewrite table_frame_next. destruct (Z.eqb_spec i 768); [done|]. done. }
  split.
  - apply (tu_cr3 _ _ _ Ht).
  - intros j Hj. rewrite Hw, (tu_pd _ _ _ Ht), Z.eqb_refl by done. destruct (Z.eqb_spec d f); [lia|]. cbn [andb].
    unfold dir_entry. destruct (Z.eqb_spec j i) as [->|].
    + destruct (Z.eqb_spec i 512), (Z.eqb_spec i 768), (Z.leb_spec 513 i), (Z.ltb_spec i (i + 1)); (done || lia).
    + destruct (Z.eqb_spec j 512), (Z.eqb_spec j 768), (Z.leb_spec 513 j), (Z.ltb_spec j i), (Z.ltb_spec j (i + 1));
        (done || lia).
  - intros j Hj. rewrite Hw by done. destruct (Z.eqb_spec (d + 1) f), (Z.eqb_spec (d + 1) d); try lia.
    cbn [andb]. by apply (tu_low _ _ _ Ht).
  - intros j k Hj Hjne Hk. rewrite Hw by done. destruct (Z.eqb_spec (table_frame d j) f) as [|Hjf]; [done|].
    pose proof (table_frame_range d j Hd ltac:(lia)). destruct (Z.eqb_spec (table_frame d j) d); [lia|]. cbn [andb].
    apply (tu_zero _ _ _ Ht); [|done|done]. assert (j ≠ i); [|lia]. intros ->. by apply Hjf.
  - change (PfnFreeList (bm (wipe f s1))) with (seqZ (f + 1) (65536 - (f + 1))). by rewrite En.
  - intros g. change (PfnDataBase (bm (wipe f s1))) with (<[f := Pfn pPte 0]> (PfnDataBase (bm s))).
    rewrite <- (tu_dom _ _ _ Ht g). rewrite lookup_insert_is_Some'. split; [|by right].
    intros [<-|]; [|done]. apply (tu_dom _ _ _ Ht). lia.
  - intros g p. change (PfnDataBase (bm (wipe f s1))) with (<[f := Pfn pPte 0]> (PfnDataBase (bm s))).
    intros [[<- <-]|[_ Hp]]%lookup_insert_Some; [|by apply (tu_ref _ _ _ Ht)].
    cbn [RefCount]. destruct (Z.ltb_spec f (d + 4)); [lia|done].
Qed.
End step.

Lemma kernel_table_run d i s :
  512 <= d <= 0x3FA → 513 <= i < 1024 → flat s → GlobalPgdirAddress s = kva d → tables_upto d i (bm s) →
  ∃ s', (∀ n, kernel_tables_loop (S n) (i * PTSIZE) s = kernel_tables_loop n (u32 ((i + 1) * PTSIZE)) s') ∧
    flat s' ∧ GlobalPgdirAddress s' = kva d ∧ SystemPteBitmap s' = SystemPteBitmap s ∧
    MiSystemPteBitmapAddress s' = MiSystemPteBitmapAddress s ∧ tables_upto d (i + 1) (bm s').
Proof.
  intros Hd Hi Hfl Hg Ht. destruct (table_address i ltac:(lia)) as (Hu & Ep & _ & _ & _ & Eself).
  assert ((i * PTSIZE <=? KERNSPACE_END) && (KERNBASE <=? i * PTSIZE) = true) as Hgo.
  { change PTSIZE with (2 ^ 22) in *. change KERNSPACE_END with 0xfffff000. change KERNBASE with (2 ^ 31).
    apply andb_true_intro. split; apply Z.leb_le; lia. }
  assert (i * PTSIZE + PTSIZE = (i + 1) * PTSIZE) as En by lia.
  destruct (decide (i = 768)) as [->|Hne].
  { exists s. split; [|split; [done|split; [done|split; [done|split; [done|by apply tables_skip]]]]].
    intros n. cbn [kernel_tables_loop]. rewrite Hgo, Eself, En. done. }
  pose proof (step_free d i s Hd Hi Ht) as Hl. set (f := table_frame d i) in *.
  set (pPte := MmGetPteAddress (i * PTSIZE)) in *.
  destruct (allocate_pfn_run (bm s) f _ pPte (layout_inv d i (bm s) Hd ltac:(lia) Ht) Hl) as (R1 & _ & _).
  set (m0 := take_pfn f pPte (seqZ (f + 1) (65536 - (f + 1))) (bm s)) in *.
  assert (low_mem (set_bm m0 s)) as Hlow by (apply (step_low d i s Hd Hfl Ht m0); [exact (cr3_frame d i (bm s) Ht)|done]).
  exists (wipe f (poke d i (pte_value f PTE_W) (set_bm m0 s))).
  split; [|split; [done|split; [done|split; [done|split; [done|by apply step_tables]]]]].
  intros n. cbn [kernel_tables_loop]. rewrite Hgo. fold pPte. rewrite Eself. destruct (Z.eqb_spec i 768); [done|].
  rewrite !bind_assoc, (bind_Ok _ _ _ _ _ (in_bm_run _ s _ _ R1)), bind_assoc.
  change (K_SUCCESS STATUS_SUCCESS) with true. rewrite assert_true by done. rewrite bind_assoc, gets_run.
  change (GlobalPgdirAddress (set_bm m0 s)) with (GlobalPgdirAddress s). rewrite Hg, Ep, bind_assoc.
  rewrite (bind_Ok _ _ _ _ _ (low_read (set_bm m0 s) d i Hlow ltac:(lia) ltac:(lia))), bind_assoc.
  assert (phys (bm (set_bm m0 s)) (word_of d i) = 0) as ->.
  { cbn [bm set_bm]. change (phys m0) with (phys (bm s)). rewrite (tu_pd _ _ _ Ht) by lia. unfold dir_entry.
    destruct (Z.eqb_spec i 512), (Z.eqb_spec i 768), (Z.leb_spec 513 i), (Z.ltb_spec i i); (done || lia). }
  rewrite assert_true by done. rewrite bind_assoc.
  pose proof (table_frame_range d i Hd ltac:(lia)) as Hr. fold f in Hr.
  assert (MiPFNtoPhysicalAddress f = PGSIZE * f) as ->.
  { unfold MiPFNtoPhysicalAddress, MiPFNtoFrameNumber, PGSHIFT, PGSIZE. rewrite Z.shiftl_mul_pow2, u32_small; lia. }
  rewrite entry_value by lia.
  rewrite (bind_Ok _ _ _ _ _ (low_write (set_bm m0 s) d i _ Hlow ltac:(lia) ltac:(lia))).
  pose proof (step_table d i s Hd Hi Hne Hfl Ht) as Hfr. fold f pPte m0 in Hfr.
  rewrite (bind_Ok _ _ _ _ _ (wipe_run _ _ _ Hfr)). by rewrite En.
Qed.

Lemma kernel_tables_run d n : ∀ i s,
  512 <= d <= 0x3FA → 513 <= i → i + Z.of_nat n = 1024 → flat s → GlobalPgdirAddress s = kva d →
  tables_upto d i (bm s) →
  ∃ s', kernel_tables_loop n (u32 (i * PTSIZE)) s = Ok (tt, s') ∧ flat s' ∧ GlobalPgdirAddress s' = kva d ∧
    SystemPteBitmap s' = SystemPteBitmap s ∧ MiSystemPteBitmapAddress s' = MiSystemPteBitmapAddress s ∧
    tables_upto d 1024 (bm s').
Proof.
  induction n as [|n IH]; intros i s Hd Hi Hn Hfl Hg Ht.
  { assert (i = 1024) as -> by lia. exists s. done. }
  destruct (kernel_table_run d i s Hd ltac:(lia) Hfl Hg Ht) as (s1 & R1 & Hf1 & Hg1 & Hb1 & Ha1 & Ht1).
  destruct (IH (i + 1) s1 Hd ltac:(lia) ltac:(lia) Hf1 Hg1 Ht1) as (s2 & R2 & Hf2 & Hg2 & Hb2 & Ha2 & Ht2).
  exists s2. split; [|split; [done|split; [done|split; [congruence|split; [congruence|done]]]]].
  rewrite u32_small by (apply table_address; lia). by rewrite R1.
Qed.

(** More iterations than tables change nothing. *)
Lemma kernel_tables_more n k : ∀ c s s',
  kernel_tables_loop n c s = Ok (tt, s') → kernel_tables_loop (n + k) c s = Ok (tt, s').
Proof.
  induction n as [|n IH]; intros c s s' R.
  - cbn [kernel_tables_loop] in R. destruct k; cbn [Nat.add kernel_tables_loop];
      destruct ((c <=? KERNSPACE_END) && (KERNBASE <=? c)); done.
  - cbn [Nat.add kernel_tables_loop] in *. destruct ((c <=? KERNSPACE_END) && (KERNBASE <=? c)); [|done].
    apply bind_Ok_inv in R as (u & s1 & E & R). rewrite (bind_Ok _ _ _ _ _ E). by apply IH.
Qed.

(** ** The bitmap *)

Lemma system_ptes_init_run kend s f :
  PtrToBootFreemem s = kva f → 512 <= f → f + 3 <= 1024 →
  ∃ b, MmInitializeSystemPtes kend s = Ok (tt, set_bitmap (kva f) b (set_freemem (kva f + 8200) s)) ∧
    wf b ∧ BitCount b = SYSPTES ∧ ∀ j, 0 <= j < SYSPTES → bit b j = false.
Proof.
  intros Hp Hf Hf'. change SYSPTES with 65536.
  destruct (create_in_buffer_all_clear 65536 (replicate (Z.to_nat 2050) 0) 8200) as (b & Hb & Hwf & Hc & Hcl).
  - lia.
  - apply Forall_replicate. lia.
  - rewrite length_replicate. reflexivity.
  - lia.
  - vm_compute. discriminate.
  - exists b. split; [|split; [exact Hwf|split; [exact Hc|exact Hcl]]]. unfold MmInitializeSystemPtes. rewrite assert_true by done.
    change (BmBitmapBufferSize (MMSYSPTE_SIZE / PGSIZE)) with 8200. change (8200 / 4) with 2050.
    change (MMSYSPTE_SIZE / PGSIZE) with 65536.
    rewrite (bind_Ok _ _ _ _ _ (boot_alloc_run kend 8200 s (kva f) f
      ltac:(rewrite Hp; destruct (Z.eqb_spec (kva f) 0) as [E|]; [unfold kva, PGSIZE in E; change KERNBASE with (2 ^ 31) in E; lia|done])
      ltac:(apply roundup_kva_exact; lia))).
    rewrite u32_small by (unfold kva, PGSIZE; change KERNBASE with (2 ^ 31); lia).
    assert (lift (BmBitmapCreateInBuffer 65536 (replicate (Z.to_nat 2050) 0) 8200) (set_freemem (kva f + 8200) s)
      = Ok (b, set_freemem (kva f + 8200) s)) as R by (unfold lift; rewrite Hb; reflexivity).
    rewrite (bind_Ok _ _ _ _ _ R). reflexivity.
Qed.

(** ** The theorems *)

Lemma boot_end_frame d : (kva (d + 2) + 8200 - KERNBASE) / PGSIZE = d + 4.
Proof.
  unfold kva. replace (KERNBASE + PGSIZE * (d + 2) + 8200 - KERNBASE) with ((d + 4) * PGSIZE + 8) by (unfold PGSIZE; lia).
  rewrite Z.div_add_l by (unfold PGSIZE; lia). change (8 / PGSIZE) with 0. lia.
Qed.

Lemma kernel_page i :
  0 <= i < 65536 → is_u32 (syspte i) ∧ managed (syspte i) ∧ 512 <= PDX (syspte i) < 1024.
Proof.
  intros Hi. assert (is_u32 (syspte i)) as Hu.
  { unfold syspte, PGSIZE. change MMSYSPTE_START with 2239758336. change (2 ^ 32) with 4294967296; lia. }
  assert (512 < PDX (syspte i) < 768) as Hp.
  { rewrite PDX_div. unfold syspte, PGSIZE. change MMSYSPTE_START with 2239758336.
    Z.div_mod_to_equations; lia. }
  split; [done|]. split; [|lia]. unfold managed. change self_index with 768. change linear_index with 512. lia.
Qed.

(** The state of the memory manager when it can be used. *)
Record booted (kend : addr) (s : boot) : Prop := {
  bt_flat : flat s;
  bt_pgdir : GlobalPgdirAddress s = kva (dir_frame kend);
  bt_tables : tables_upto (dir_frame kend) 1024 (bm s);
  bt_address : MiSystemPteBitmapAddress s = kva (dir_frame kend + 2);
  bt_bitmap : wf (SystemPteBitmap s) ∧ BitCount (SystemPteBitmap s) = SYSPTES ∧
    ∀ j, 0 <= j < SYSPTES → bit (SystemPteBitmap s) j = false }.

Lemma boot_run run_dpc K kend s :
  at_start K kend s → ∃ s', MiBootInitMemoryLayout run_dpc K kend s = Ok (tt, s') ∧ booted kend s'.
Proof.
  intros Hst. pose proof (dir_frame_range kend (as_end _ _ _ Hst)) as Hd.
  assert (KERNBASE <= K < KERNBASE + PTSIZE) as HK.
  { pose proof (as_pcr _ _ _ Hst). pose proof (as_end _ _ _ Hst). change EXTPHYSMEM with (2 ^ 20) in *. change PTSIZE with (2 ^ 22). lia. }
  destruct (boot_tables_run K kend s Hst) as (s1 & R1 & [Hs1 Hg1 Hp1 [Hb1 Hm1] Hdb1 Hdir1 Hlow1]).
  set (d := dir_frame kend) in *.
  destruct (system_ptes_init_run kend s1 (d + 2) Hp1) as (b & R2 & Hb); [lia|lia|].
  set (s2 := set_bitmap _ b _) in *.
  destruct (init_pfns_run (kva (d + 2) + 8200) (bm s2)) as (m3 & R3 & [Pc Pp Pf Pd Pr]).
  { unfold kva, PGSIZE. change EXTPHYSMEM with (2 ^ 20). change PTSIZE with (2 ^ 22). lia. }
  { change (PfnDataBase (bm s2)) with (PfnDataBase (bm s1)). rewrite Hdb1. apply Hst. }
  rewrite boot_end_frame in Pf, Pr.
  assert (init_pfns s2 = Ok (tt, set_bm m3 s2)) as R3'.
  { unfold init_pfns. rewrite !gets_run. apply in_bm_run.
    change (basemem s2) with (basemem s1). change (MaxPA s2) with (MaxPA s1). by rewrite Hb1, Hm1. }
  destruct (turn_paging_on_run run_dpc K d (set_bm m3 s2) HK Hd) as (s4 & R4 & Hf4 & Hg4 & Hb4 & Ha4 & Ht4).
  { split; [exact Hs1|exact Hg1| | |exact Pf|exact Pd|exact Pr]; intros j Hj; cbn [bm set_bm]; rewrite Pp.
    - by apply Hdir1.
    - by apply Hlow1. }
  destruct (kernel_tables_run d 511 513 s4 Hd ltac:(lia) eq_refl Hf4 Hg4 Ht4) as (s5 & R5 & Hf5 & Hg5 & Hb5 & Ha5 & Ht5).
  exists s5. split.
  - unfold MiBootInitMemoryLayout. rewrite (bind_Ok _ _ _ _ _ R1), (bind_Ok _ _ _ _ _ R2), (bind_Ok _ _ _ _ _ R3').
    rewrite (bind_Ok _ _ _ _ _ R4). change (Z.to_nat NPTENTRIES) with (511 + 513)%nat.
    apply kernel_tables_more. exact R5.
  - split; [done|done|done|by rewrite Ha5, Ha4|]. rewrite Hb5, Hb4. exact Hb.
Qed.

(** C5: Boot establishes the invariants that the memory manager is proved with.
    MiBootInitMemoryLayout runs to its end from the segments of kos.S, each of its
    accesses being mapped when it is made, and leaves flat segments, paging on, a consistent data base of
    page frames and recursive page directory, an empty pool of system pages all of
    which have a page table, the first 4 MB of physical memory at KERNBASE, nothing
    else mapped, and a free list of frames that are no tables. *)
Theorem boot_establishes_invariants run_dpc KiProcessorBlock kend s :
  at_start KiProcessorBlock kend s →
  ∃ s', MiBootInitMemoryLayout run_dpc KiProcessorBlock kend s = Ok (tt, s') ∧
    flat s' ∧
    sys_inv (bm s') (SystemPteBitmap s') ∧
    current_dir (GlobalPgdirAddress s') (bm s') ∧
    (∀ va, KERNBASE <= va < KERNBASE + PTSIZE → walk (bm s') va = Some (PPN (va - KERNBASE))) ∧
    (∀ va, managed va → walk (bm s') va = None) ∧
    (∀ va, is_u32 va → KERNBASE <= va → Valid (pde_of (bm s') va) = true) ∧
    PfnFreeList (bm s') = seqZ (dir_frame kend + 514) (65022 - dir_frame kend) ∧
    (∀ f, f ∈ PfnFreeList (bm s') → f ≠ 0 ∧ not_table (bm s') f).
Proof.
  intros Hst. pose proof (dir_frame_range kend (as_end _ _ _ Hst)) as Hd.
  destruct (boot_run run_dpc KiProcessorBlock kend s Hst) as (s' & R & [Hfl Hg Ht Ha (Hwf & Hc & Hcl)]). exists s'.
  set (d := dir_frame kend) in *. pose proof (layout_window d 1024 (bm s') Hd Ht) as Hwin.
  assert (∀ i, 512 <= i < 1024 → Valid (pd (bm s') i) = true) as Hv.
  { intros i Hi. rewrite (layout_pd d 1024) by (done || lia). unfold dir_entry.
    destruct (Z.eqb_spec i 512); [apply frame_value; lia|]. destruct (Z.eqb_spec i 768); [apply frame_value; lia|].
    destruct (Z.leb_spec 513 i), (Z.ltb_spec i 1024); try lia. pose proof (table_frame_range d i Hd ltac:(lia)).
    apply frame_value. lia. }
  assert (∀ va, is_u32 va → KERNBASE <= va → 512 <= PDX va < 1024) as Hpdx.
  { intros va Hu Hk. change KERNBASE with (2 ^ 31) in Hk. page_arith. }
  split; [done|]. split; [done|]. split; [|split; [|split; [|split; [|split; [|split]]]]].
  - split; [by apply (layout_inv d 1024)|done|done|]. intros i Hi _. change SYSPTES with 65536 in Hi.
    destruct (kernel_page i Hi) as (Hu & Hm & Hp). split; [split; [done|split; [done|]]|].
    + rewrite pde_of_pd. apply Hv. lia.
    + destruct (layout_entries d 1024 (bm s') Hd Ht _ Hm) as [(_ & _ & E)|E]; [done|].
      rewrite pde_of_pd, Hv in E by lia. done.
  - destruct (kva_parts d 0) as (Hu & Hp & _ & Ho); [lia..|]. rewrite Z.add_0_r in Hu, Hp, Ho. rewrite Hg.
    split; [unfold kva, PGSIZE; change KERNBASE with (2 ^ 31); lia|]. split; [done|]. split; [done|]. split.
    + rewrite pde_of_pd, Hp. by apply Hv.
    + rewrite (cr3_frame d 1024) by done. rewrite <- (Z.add_0_r (kva d)). apply Hwin; lia.
  - intros va Hva. destruct (low_parts va Hva) as [E Hf]. rewrite E at 1. apply Hwin; [done|by apply Z.mod_pos_bound].
  - intros va Hm. by apply (layout_unmapped d 1024).
  - intros va Hu Hk. rewrite pde_of_pd. by apply Hv, Hpdx.
  - rewrite (tu_free _ _ _ Ht). unfold table_frame. change (768 <? 1024) with true. f_equal; lia.
  - intros f. rewrite (tu_free _ _ _ Ht), elem_of_seqZ. intros Hf.
    assert (table_frame d 1024 = d + 514) as E by (unfold table_frame; change (768 <? 1024) with true; lia).
    split; [lia|]. split; [rewrite (cr3_frame d 1024) by done; lia|]. intros i Hi Hvi.
    destruct (layout_valid d 1024 (bm s') Hd Ht i Hi Hvi) as [[_ ->]|[[_ ->]|(H1 & H2 & ->)]]; [lia..|].
    destruct (table_frame_mono d i 1024 ltac:(lia)) as [_ Hlt]. specialize (Hlt ltac:(lia) H2). lia.
Qed.

(** C40: The frame of the last two words of the bitmap of the system pages is on the
    free list when the page tables are made, and becomes the table of the second
    4 MB of the kernel: MmInitPFNDataBase rounds the end of the boot allocations
    down.  Marking one of the last 64 system pages writes a page-table entry. *)
Theorem boot_frees_bitmap_end run_dpc KiProcessorBlock kend s :
  at_start KiProcessorBlock kend s →
  ∃ s', MiBootInitMemoryLayout run_dpc KiProcessorBlock kend s = Ok (tt, s') ∧
    BitCount (SystemPteBitmap s') = 32 * 2048 ∧
    va_word (bm s') (MiSystemPteBitmapAddress s' + sizeof_BITMAP + 4 * 2046) = Some (pte_word (bm s') (KERNBASE + PTSIZE)) ∧
    va_word (bm s') (MiSystemPteBitmapAddress s' + sizeof_BITMAP + 4 * 2047)
      = Some (pte_word (bm s') (KERNBASE + PTSIZE + PGSIZE)).
Proof.
  intros Hst. pose proof (dir_frame_range kend (as_end _ _ _ Hst)) as Hd.
  destruct (boot_run run_dpc KiProcessorBlock kend s Hst) as (s' & R & [Hfl Hg Ht Ha (Hwf & Hc & Hcl)]). exists s'.
  set (d := dir_frame kend) in *. split; [done|]. split; [exact Hc|]. rewrite Ha.
  assert (∀ k, 0 <= k < 2 → va_word (bm s') (kva (d + 2) + sizeof_BITMAP + 4 * (2046 + k))
    = Some (pte_word (bm s') (KERNBASE + PTSIZE + PGSIZE * k))) as H.
  { intros k Hk. replace (kva (d + 2) + sizeof_BITMAP + 4 * (2046 + k)) with (kva (d + 4) + 4 * k)
      by (unfold kva, sizeof_BITMAP, PGSIZE; lia).
    destruct (kva_parts (d + 4) (4 * k)) as (_ & _ & _ & Ho); [lia..|].
    unfold va_word. rewrite (layout_window d 1024 (bm s')) by (done || lia). rewrite Ho.
    assert (PDX (KERNBASE + PTSIZE + PGSIZE * k) = 513 ∧ PTX (KERNBASE + PTSIZE + PGSIZE * k) = k) as [Ed Et].
    { change KERNBASE with (2 ^ 31). change PTSIZE with (2 ^ 22). unfold PGSIZE. split; page_arith. }
    unfold pte_word. rewrite pde_of_pd, Ed, Et, (layout_pd d 1024) by (done || lia).
    assert (PageFrameNumber (dir_entry d 1024 513) = d + 4) as ->.
    { change (PageFrameNumber (pte_value (d + 4 + (513 - 513) - 0) PTE_W) = d + 4).
      rewrite (proj2 (frame_value (d + 4 + (513 - 513) - 0) ltac:(lia))). lia. }
    do 2 f_equal. rewrite Z.mul_comm. by apply Z.div_mul. }
  split; [apply (H 0); lia|apply (H 1); lia].
Qed.

Definition start_state : boot :=
  Boot (Mm 0 (λ _, 0) ∅ [] false)
    (Pcr (Prcb 0 0 [] 0 {[ProcessorLock := SpinLk 0 NULL 0]} ∅) [] (TaskState 0 0)
      (Registers [] BOOT_SEGMENT_BASE BOOT_SEGMENT_BASE BOOT_SEGMENT_BASE 0)) 0x11 0 0 0 0 0 0 0 0 (Bitmap 0 []).
Definition processor_block : addr := KERNBASE + 0x118000.
Definition kernel_end : addr := KERNBASE + 0x120000.

Lemma start_state_start : at_start processor_block kernel_end start_state.
Proof.
  split.
  - split; [reflexivity|]. split; [reflexivity|]. split; [reflexivity|]. split; [split; discriminate|reflexivity].
  - reflexivity.
  - split; [discriminate|reflexivity].
  - split; discriminate.
  - intros f. cbn. rewrite lookup_empty. intros [? [=]].
Qed.

Lemma boot_establishes_invariants_witness :
  ∃ s', MiBootInitMemoryLayout (λ _, ret tt) processor_block kernel_end start_state = Ok (tt, s') ∧
    flat s' ∧
    sys_inv (bm s') (SystemPteBitmap s') ∧
    current_dir (GlobalPgdirAddress s') (bm s') ∧
    (∀ va, KERNBASE <= va < KERNBASE + PTSIZE → walk (bm s') va = Some (PPN (va - KERNBASE))) ∧
    (∀ va, managed va → walk (bm s') va = None) ∧
    (∀ va, is_u32 va → KERNBASE <= va → Valid (pde_of (bm s') va) = true) ∧
    PfnFreeList (bm s') = seqZ (dir_frame kernel_end + 514) (65022 - dir_frame kernel_end) ∧
    (∀ f, f ∈ PfnFreeList (bm s') → f ≠ 0 ∧ not_table (bm s') f).
Proof. exact (boot_establishes_invariants (λ _, ret tt) processor_block kernel_end start_state start_state_start). Defined.

Lemma boot_frees_bitmap_end_witness :
  ∃ s', MiBootInitMemoryLayout (λ _, ret tt) processor_block kernel_end start_state = Ok (tt, s') ∧
    BitCount (SystemPteBitmap s') = 32 * 2048 ∧
    va_word (bm s') (MiSystemPteBitmapAddress s' + sizeof_BITMAP + 4 * 2046) = Some (pte_word (bm s') (KERNBASE + PTSIZE)) ∧
    va_word (bm s') (MiSystemPteBitmapAddress s' + sizeof_BITMAP + 4 * 2047)
      = Some (pte_word (bm s') (KERNBASE + PTSIZE + PGSIZE)).
Proof. exact (boot_frees_bitmap_end (λ _, ret tt) processor_block kernel_end start_state start_state_start). Defined.
