(* ===== verification/Clone.v ===== *)
(** * Clone: the copy-on-write copy of an address space

    MmCloneProcessAddressSpace of kern/mm/mm.c, which Vmm.v defines, gives the
    new address space the pages of the old one: the theorems of this file. *)

From S2P Require Import Prelude Types Bitmap Irql Pool Paging Vmm.

(** ** Words of a mapped page *)

(** [va] is the first byte of a page mapped to frame [f]. *)
Record mapped_page (s : mm) (va f : Z) : Prop := {
  mp_u32 : is_u32 va;
  mp_aligned : page_aligned va;
  mp_walk : walk s va = Some f }.

Lemma in_page va i : is_u32 va → page_aligned va → 0 <= i < 1024 →
  is_u32 (va + 4 * i) ∧ PPN (va + 4 * i) = PPN va ∧ PGOFF (va + 4 * i) / 4 = i.
Proof. unfold page_aligned. intros Hu Ha Hi. split_and!; page_arith. Qed.

Lemma va_word_in_page s va f i :
  mapped_page s va f → 0 <= i < 1024 → va_word s (u32 (va + 4 * i)) = Some (word_of f i).
Proof.
  intros [Hu Ha Hw] Hi. destruct (in_page va i Hu Ha Hi) as (Hu' & HP & Ho).
  rewrite u32_small by done. unfold va_word. rewrite (walk_same_page s _ va) by done.
  by rewrite Hw, Ho.
Qed.

Lemma mapped_page_walk s s' va f : mapped_page s va f → walk s' va = walk s va → mapped_page s' va f.
Proof. intros [] E. split; try done. by rewrite E. Qed.

(** ** Writing to a frame that is not a table *)

Definition put_data (f i v : Z) (s : mm) : mm := set_phys (upd_word (word_of f i) v (phys s)) s.

Lemma put_data_word s f i v g j :
  0 <= i < 1024 → 0 <= j < 1024 →
  phys (put_data f i v s) (word_of g j) = if (g =? f) && (j =? i) then v else phys s (word_of g j).
Proof.
  intros Hi Hj. unfold put_data, upd_word. cbn [set_phys phys].
  destruct (Z.eqb_spec (word_of g j) (word_of f i)) as [E|Hne].
  - apply word_of_inj in E as [-> ->]; [|done|done]. by rewrite !Z.eqb_refl.
  - destruct (Z.eqb_spec g f) as [->|], (Z.eqb_spec j i) as [->|]; done.
Qed.

(** The page tables of two states agree. *)
Record same_tables (s s' : mm) : Prop := {
  st_cr3 : cr3 s' = cr3 s;
  st_pde va : pde_of s' va = pde_of s va;
  st_pte va : Valid (pde_of s va) = true → pte_of s' va = pte_of s va }.

Lemma same_tables_walk s s' va : same_tables s s' → walk s' va = walk s va.
Proof. intros [_ Hd Ht]. apply walk_entries; [apply Hd|apply Ht]. Qed.

Lemma same_tables_paging s s' : same_tables s s' → paging s → paging s'.
Proof.
  intros [Hc Hd _] [Sv Sf Hdis]. assert (∀ i, 0 <= i < 1024 → pd s' i = pd s i) as Hpd.
  { intros i Hi. by rewrite !pd_pde, Hd. }
  assert (0 <= self_index < 1024) by (unfold self_index; lia).
  split; [by rewrite Hpd|by rewrite Hpd, Hc|]. intros i j Hi Hj. rewrite !Hpd by done. auto.
Qed.

(** A change of data frames only. *)
Lemma data_change s p :
  mm_inv s → (∀ g i, 0 <= i < 1024 → ¬ not_table s g → p (word_of g i) = phys s (word_of g i)) →
  same_tables s (set_phys p s) ∧ mm_inv (set_phys p s).
Proof.
  intros Hi Hp. set (s' := set_phys p s).
  assert (∀ i, 0 <= i < 1024 → pd s' i = pd s i) as Hpd.
  { intros i Hir. unfold pd. apply Hp; [done|]. intros [Hn _]. by apply Hn. }
  assert (same_tables s s') as Hst.
  { split; [done|intros va; rewrite !pde_of_pd; apply Hpd, PDX_range|].
    intros va Hv. unfold pte_of, pte_word.
    assert (pde_of s' va = pde_of s va) as -> by (rewrite !pde_of_pd; apply Hpd, PDX_range).
    apply Hp; [apply PTX_range|]. intros [_ Hn]. rewrite pde_of_pd in *.
    by apply (Hn (PDX va)); [apply PDX_range| |]. }
  split; [done|]. apply (mm_inv_same s); try done.
  - by apply (same_tables_paging s), Hi.
  - intros va. by apply same_tables_walk.
Qed.

Lemma put_data_ok s f i v :
  mm_inv s → not_table s f → 0 <= i < 1024 →
  same_tables s (put_data f i v s) ∧ mm_inv (put_data f i v s).
Proof.
  intros Hi Hf Hir. apply data_change; [done|]. intros g j Hj Hg. unfold upd_word.
  destruct (Z.eqb_spec (word_of g j) (word_of f i)) as [E|]; [|done].
  apply word_of_inj in E as [-> _]; done.
Qed.

Lemma write_in_page s va f i v :
  mapped_page s va f → 0 <= i < 1024 → write (u32 (va + 4 * i)) v s = Ok (tt, put_data f i v s).
Proof. intros Hm Hi. by apply write_run, va_word_in_page. Qed.

Lemma read_in_page s va f i :
  mapped_page s va f → 0 <= i < 1024 → read (u32 (va + 4 * i)) s = Ok (phys s (word_of f i), s).
Proof. intros Hm Hi. by apply read_run, va_word_in_page. Qed.

Lemma zero_page_ok s va f :
  mm_inv s → mapped_page s va f → not_table s f →
  ∃ s', zero_page va s = Ok (tt, s') ∧ same_tables s s' ∧ mm_inv s' ∧
    PfnDataBase s' = PfnDataBase s ∧ PfnFreeList s' = PfnFreeList s ∧
    ∀ g i, 0 <= i < 1024 → phys s' (word_of g i) = if g =? f then 0 else phys s (word_of g i).
Proof.
  intros Hi [_ _ Hw] Hf. unfold zero_page. rewrite (deref_run _ _ _ f) by done.
  set (q := λ w, if in_frame f w then 0 else phys s w). exists (set_phys q s).
  assert (∀ g i, 0 <= i < 1024 → q (word_of g i) = if g =? f then 0 else phys s (word_of g i)) as Hq.
  { intros g i Hir. unfold q. by rewrite in_frame_word_of. }
  destruct (data_change s q) as [Hst Hinv]; [done| |done].
  intros g i Hir Hg. rewrite Hq by done. by destruct (Z.eqb_spec g f) as [->|].
Qed.

(** ** One page *)

(** The entry of a page in both address spaces, from its entry before. *)
Definition cow_of (pte : MMPTE) : MMPTE :=
  if Valid pte && negb (CopyOnWrite pte) && Writable pte then set_cow pte else pte.

Lemma set_cow_bits l :
  Valid (set_cow l) = Valid l ∧ Writable (set_cow l) = false ∧ CopyOnWrite (set_cow l) = true ∧
  PageFrameNumber (set_cow l) = PageFrameNumber l.
Proof.
  unfold set_cow, Valid, Writable, CopyOnWrite, PageFrameNumber.
  split; [by rewrite Z.setbit_neq, Z.clearbit_neq|].
  split; [by rewrite Z.setbit_neq, Z.clearbit_eq|].
  split; [by rewrite Z.setbit_eq|].
  apply Z.bits_inj'. intros n Hn. rewrite !Z.shiftr_spec by done.
  rewrite Z.setbit_neq, Z.clearbit_neq; [done|lia..].
Qed.

Lemma cow_of_bits l : Valid (cow_of l) = Valid l ∧ PageFrameNumber (cow_of l) = PageFrameNumber l.
Proof. unfold cow_of. destruct (_ && _ && _); [split; apply set_cow_bits|done]. Qed.

(** Page [k] of the table [i]. *)
Definition page (i k : Z) : addr := i * PTSIZE + k * PGSIZE.

Lemma page_parts i k : 0 <= i < 1024 → 0 <= k < 1024 →
  is_u32 (page i k) ∧ PDX (page i k) = i ∧ PTX (page i k) = k ∧ PPN (page i k) = i * 1024 + k.
Proof. unfold page, PTSIZE, NPTENTRIES, PGSIZE. intros. split; [lia|]. split_and!; page_arith. Qed.

(** What the entries of the pages of a table may be. *)
Record clonable (s : mm) (i : Z) : Prop := {
  cl_index : 0 <= i < 511;
  cl_valid : Valid (pd s i) = true;
  cl_ro k : 0 <= k < 1024 → Valid (pte_of s (page i k)) = true →
    CopyOnWrite (pte_of s (page i k)) = true → Writable (pte_of s (page i k)) = false;
  cl_frame k f : 0 <= k < 1024 → walk s (page i k) = Some f → is_Some (PfnDataBase s !! f) }.

(** The references that [k] pages of table [i] are. *)
Definition shares (s : mm) (i f : Z) (k : nat) : Z := cnt (λ j, maps s f (i * 1024 + j)) k.

(** After [k] pages of the table: their entries are those of both spaces, in
    the old table and in the new one, the frame [t]. *)
Record pages_cloned (s u : mm) (i t : Z) (k : nat) : Prop := {
  pg_inv : mm_inv u;
  pg_cr3 : cr3 u = cr3 s;
  pg_pde va : pde_of u va = pde_of s va;
  pg_pte va : is_u32 va → Valid (pde_of s va) = true →
    pte_of u va = if (PDX va =? i) && (PTX va <? Z.of_nat k) then cow_of (pte_of s va) else pte_of s va;
  pg_new j : 0 <= j < 1024 → phys u (word_of t j) =
    if (j <? Z.of_nat k) && Valid (pte_of s (page i j)) then cow_of (pte_of s (page i j)) else 0;
  pg_data g j : 0 <= j < 1024 → g ≠ t → not_table s g → phys u (word_of g j) = phys s (word_of g j);
  pg_free : PfnFreeList u = PfnFreeList s;
  pg_db g p : PfnDataBase s !! g = Some p →
    PfnDataBase u !! g = Some (Pfn (PteAddress p) (RefCount p + shares s i g k));
  pg_dom g : is_Some (PfnDataBase u !! g) → is_Some (PfnDataBase s !! g) }.

Lemma pages_cloned_walk s u i t k va :
  pages_cloned s u i t k → is_u32 va → walk u va = walk s va.
Proof.
  intros [_ _ Hd Ht _ _ _ _ _] Hu. unfold walk. rewrite Hd.
  destruct (Valid (pde_of s va)) eqn:Hv; [|done]. cbn [andb]. rewrite Ht by done.
  destruct (_ && _); [|done]. by destruct (cow_of_bits (pte_of s va)) as [-> ->].
Qed.

Lemma put_pte_inv s va v :
  mm_inv s → mappable s va → Valid v = Valid (pte_of s va) →
  PageFrameNumber v = PageFrameNumber (pte_of s va) → mm_inv (put_pte va v s).
Proof.
  intros Hi Hm Hv Hf. pose proof (mi_paging s Hi) as Hp. pose proof Hm as (Hu & Hne & Hvd).
  assert (∀ va', is_u32 va' → PDX va' ≠ self_index → walk (put_pte va v s) va' = walk s va') as Hw.
  { intros va' Hu' Hne'. rewrite put_pte_walk by done.
    destruct (Z.eqb_spec (PPN va') (PPN va)) as [E|]; [|done].
    rewrite (walk_same_page s va' va) by done. unfold walk. by rewrite Hvd, Hv, Hf. }
  assert (∀ g, mappings (put_pte va v s) g = mappings s g) as Hmap.
  { intros g. unfold mappings. apply cnt_ext. rewrite NPAGES_Z. intros n Hn. unfold maps.
    destruct (managed_page_spec n) as [[Hns _]|]; [|done].
    rewrite Hw; [done|by apply page_va_u32|done]. }
  destruct Hi as [_ Hr Hc Hn Hfr]. split; [by apply put_pte_paging|done| |done|done].
  intros g p Hg. rewrite Hmap. by apply Hc.
Qed.

Lemma maps_table s f i k : 0 <= i < 511 → 0 <= k < 1024 →
  maps s f (i * 1024 + k) = match walk s (page i k) with Some g => g =? f | None => false end.
Proof.
  intros Hi Hk. destruct (page_parts i k ltac:(lia) Hk) as (Hu & Hd & _ & HP).
  rewrite <- HP. apply maps_page; [done|]. apply managed_user. rewrite Hd. lia.
Qed.

Lemma shares_S s i f k : 0 <= i < 511 → (k < 1024)%nat →
  shares s i f (S k) = shares s i f k +
    match walk s (page i (Z.of_nat k)) with Some g => if g =? f then 1 else 0 | None => 0 end.
Proof.
  intros Hi Hk. unfold shares. cbn [cnt]. rewrite maps_table by lia.
  destruct (walk s (page i (Z.of_nat k))) as [g|]; [destruct (g =? f)|]; lia.
Qed.

Lemma entry_of s va i k : 0 <= i < 1024 → 0 <= k < 1024 → PDX va = i → PTX va = k →
  pte_of s va = pte_of s (page i k) ∧ pde_of s va = pde_of s (page i k).
Proof.
  intros Hi Hk Ed Et. destruct (page_parts i k Hi Hk) as (_ & Hd & Ht & _).
  unfold pte_of, pte_word, pde_of, pde_word. by rewrite Ed, Et, Hd, Ht.
Qed.

(** What one page adds. *)
Lemma pages_cloned_S s u u' i t (k : nat) :
  pages_cloned s u i t k → 0 <= i < 511 → (k < 1024)%nat →
  let va := page i (Z.of_nat k) in let e := pte_of s va in
  mm_inv u' → cr3 u' = cr3 u → (∀ va, pde_of u' va = pde_of u va) →
  (∀ va', is_u32 va' → Valid (pde_of u va') = true →
     pte_of u' va' = if PPN va' =? PPN va then cow_of e else pte_of u va') →
  (∀ j, 0 <= j < 1024 → phys u' (word_of t j) =
     if (j =? Z.of_nat k) && Valid e then cow_of e else phys u (word_of t j)) →
  (∀ g j, 0 <= j < 1024 → g ≠ t → not_table s g → phys u' (word_of g j) = phys u (word_of g j)) →
  PfnFreeList u' = PfnFreeList u →
  (∀ g p, PfnDataBase u !! g = Some p → PfnDataBase u' !! g = Some (Pfn (PteAddress p)
     (RefCount p + match walk s va with Some h => if h =? g then 1 else 0 | None => 0 end))) →
  (∀ g, is_Some (PfnDataBase u' !! g) → is_Some (PfnDataBase u !! g)) →
  pages_cloned s u' i t (S k).
Proof.
  intros [I C D T N A L B O] Hi Hk va e I' C' D' T' N' A' L' B' O'.
  destruct (page_parts i (Z.of_nat k) ltac:(lia) ltac:(lia)) as (Hu & Hd & Ht & HP). fold va in Hu, Hd, Ht, HP.
  split.
  - done.
  - by rewrite C'.
  - intros va'. by rewrite D'.
  - intros va' Hu' Hv'. rewrite T' by (done || by rewrite D). rewrite T by done.
    assert (PPN va' = PPN va ↔ PDX va' = i ∧ PTX va' = Z.of_nat k) as Hiff
      by (rewrite <- (same_page va' va) by done; by rewrite Hd, Ht).
    destruct (Z.eqb_spec (PPN va') (PPN va)) as [E|E].
    + apply Hiff in E as [E1 E2]. rewrite E1, E2, Z.eqb_refl. cbn [andb].
      destruct (Z.ltb_spec (Z.of_nat k) (Z.of_nat (S k))); [|lia].
      unfold e, va. by rewrite (proj1 (entry_of s va' i (Z.of_nat k) ltac:(lia) ltac:(lia) E1 E2)).
    + destruct (Z.eqb_spec (PDX va') i) as [E1|]; [|done]. cbn [andb].
      destruct (Z.ltb_spec (PTX va') (Z.of_nat k)), (Z.ltb_spec (PTX va') (Z.of_nat (S k))); try done; try lia.
  - intros j Hj. rewrite N' by done. rewrite N by done. unfold e, va.
    destruct (Z.eqb_spec j (Z.of_nat k)) as [->|]; cbn [andb].
    + destruct (Z.ltb_spec (Z.of_nat k) (Z.of_nat k)), (Z.ltb_spec (Z.of_nat k) (Z.of_nat (S k))); try lia.
      done.
    + by destruct (Z.ltb_spec j (Z.of_nat k)), (Z.ltb_spec j (Z.of_nat (S k))); try lia.
  - intros g j Hj Hg Hgt. by rewrite A', A.
  - by rewrite L'.
  - intros g p Hg. rewrite (B' g _ (B g p Hg)). cbn [PteAddress RefCount]. rewrite shares_S by done.
    do 2 f_equal. fold va. lia.
  - intros g Hg. by apply O, O'.
Qed.

(** The copy of one page. *)
Record cloning (s : mm) (i t : Z) : Prop := {
  cn_inv : mm_inv s;
  cn_ok : clonable s i;
  cn_table : not_table s t;
  cn_temp : mapped_page s USERTEMP t;
  cn_count f p : PfnDataBase s !! f = Some p → RefCount p < 2 ^ 32 - 1024 }.

Lemma cnt_le g n : cnt g n <= Z.of_nat n.
Proof. induction n as [|n IH]; cbn [cnt]; [lia|]. destruct (g _); lia. Qed.

(** The old entry becomes that of both spaces; the new one is still to be
    written. *)
Lemma protect_run u va (e : MMPTE) New :
  mm_inv u → mappable u va → pte_of u va = e → Valid e = true →
  (CopyOnWrite e = true → Writable e = false) →
  ∃ u', (if CopyOnWrite e then assert_ (negb (Writable e)) >>> write New e
         else if Writable e then
           write (MmGetPteAddress va) (set_cow e) >>>
           let! pte' := read (MmGetPteAddress va) in write New pte'
         else write New e) u = write New (cow_of e) u' ∧
    mm_inv u' ∧ cr3 u' = cr3 u ∧ (∀ va', pde_of u' va' = pde_of u va') ∧
    (∀ va', is_u32 va' → Valid (pde_of u va') = true →
       pte_of u' va' = if PPN va' =? PPN va then cow_of e else pte_of u va') ∧
    (∀ g j, 0 <= j < 1024 → not_table u g → phys u' (word_of g j) = phys u (word_of g j)) ∧
    PfnFreeList u' = PfnFreeList u ∧ PfnDataBase u' = PfnDataBase u.
Proof.
  intros Hi Hm He Hv Hro. pose proof (mi_paging u Hi) as Hp. pose proof Hm as (Hu & Hne & Hvd).
  assert (∀ va', is_u32 va' → pte_of u va' = if PPN va' =? PPN va then e else pte_of u va') as Hsame.
  { intros va' Hu'. destruct (Z.eqb_spec (PPN va') (PPN va)) as [E|]; [|done].
    apply same_page in E as [E1 E2]; [|done|done].
    unfold pte_of, pte_word, pde_of, pde_word in *. by rewrite E1, E2. }
  destruct (CopyOnWrite e) eqn:Hc; [|destruct (Writable e) eqn:Hw].
  - exists u. assert (cow_of e = e) as E by (unfold cow_of; rewrite Hc; by rewrite andb_false_r).
    rewrite E, (Hro eq_refl). do 4 (split; [done|]). split; [intros; by apply Hsame|done].
  - exists (put_pte va (set_cow e) u).
    assert (cow_of e = set_cow e) as -> by (unfold cow_of; by rewrite Hc, Hw, Hv).
    destruct (set_cow_bits e) as (B1 & _ & _ & B4).
    split.
    { rewrite (bind_Ok _ _ _ _ _ (write_pte u va _ Hp Hm)).
      assert (paging (put_pte va (set_cow e) u)) as Hp' by by apply put_pte_paging.
      rewrite (bind_Ok _ _ _ _ _ (read_pte _ va Hp' Hu ltac:(by rewrite put_pte_pde))).
      by rewrite put_pte_pte, Z.eqb_refl. }
    split; [apply put_pte_inv; try done; by rewrite He|]. split; [done|].
    split; [intros; by apply put_pte_pde|]. split; [intros; by apply put_pte_pte|].
    split; [|done]. intros g j Hj [_ Hg]. unfold put_pte, upd_word. cbn [set_phys phys].
    destruct (Z.eqb_spec (word_of g j) (pte_word u va)) as [E|]; [|done].
    apply word_of_inj in E as [E _]; [|done|apply PTX_range].
    exfalso. apply (Hg (PDX va)); [apply PDX_range|exact Hvd|symmetry; exact E].
  - exists u. assert (cow_of e = e) as E by (unfold cow_of; rewrite Hw; by rewrite andb_false_r).
    rewrite E. do 4 (split; [done|]). split; [intros; by apply Hsame|done].
Qed.

Lemma not_table_pde s s' f :
  cr3 s' = cr3 s → (∀ va, pde_of s' va = pde_of s va) → not_table s f ↔ not_table s' f.
Proof. intros Hc Hd. split; apply not_table_ext; intros; by rewrite ?Hc, ?Hd. Qed.

Lemma clone_page_step s u i t (k : nat) :
  cloning s i t → pages_cloned s u i t k → (k < 1024)%nat →
  ∃ u', clone_page USERTEMP (page i (Z.of_nat k)) u = Ok (tt, u') ∧ pages_cloned s u' i t (S k).
Proof.
  intros [Hi [Hir Hvd Hro Hfr] Hnt Htmp Hcn] Hpc Hk. pose proof Hpc as [I C D T N A L B O].
  set (va := page i (Z.of_nat k)) in *.
  destruct (page_parts i (Z.of_nat k) ltac:(lia) ltac:(lia)) as (Hu & Hd & Ht & HP). fold va in Hu, Hd, Ht, HP.
  assert (Valid (pde_of s va) = true) as Hv by (by rewrite pde_of_pd, Hd).
  assert (Valid (pde_of u va) = true) as Hvu by by rewrite D.
  assert (pte_of u va = pte_of s va) as Eu.
  { rewrite T by done. rewrite Hd, Ht. destruct (Z.ltb_spec (Z.of_nat k) (Z.of_nat k)); [lia|].
    by rewrite andb_false_r. }
  pose proof (mi_paging u I) as Hp. assert (managed va) as Hne by (apply managed_user; rewrite Hd; lia).
  unfold clone_page. rewrite (bind_Ok _ _ _ _ _ (read_pte u va Hp Hu Hvu)), Eu.
  set (e := pte_of s va) in *. destruct (Valid e) eqn:Hve.
  - assert (walk s va = Some (PageFrameNumber e)) as Hw by (unfold walk; rewrite Hv; fold e; by rewrite Hve).
    set (f := PageFrameNumber e) in *. rewrite pfn_from_pte. fold f.
    destruct (Hfr (Z.of_nat k) f ltac:(lia) Hw) as [p Hf]. pose proof (B f p Hf) as Bf.
    pose proof (Hcn f p Hf) as Hcf. pose proof (cnt_le (λ j, maps s f (i * 1024 + j)) k) as Hle.
    assert (walk u va = Some f) as Hwu by (by rewrite (pages_cloned_walk s u i t k)).
    assert (f ∉ PfnFreeList u) as Hnf by (intros Hin; by apply (free_unmapped u f va I Hin Hu Hne)).
    destruct (inc_step u f _ I Bf Hnf) as [R1 I1]; [cbn [RefCount]; unfold shares; lia|].
    cbn [PteAddress RefCount] in R1, I1. set (u1 := set_pfn f _ u) in *.
    rewrite (bind_Ok _ _ _ _ _ R1).
    destruct (protect_run u1 va e (u32 (USERTEMP + 4 * PTX va)) I1) as (u2 & R2 & I2 & C2 & D2 & T2 & A2 & L2 & B2);
      [done|exact Eu|done|by intros Hce; apply (Hro (Z.of_nat k) ltac:(lia))|].
    rewrite R2.
    assert (mapped_page u2 USERTEMP t) as Hm2.
    { apply (mapped_page_walk s); [done|]. destruct Htmp as [Hut _ _].
      transitivity (walk u1 USERTEMP); [|exact (pages_cloned_walk s u i t k _ Hpc Hut)].
      unfold walk. rewrite D2. destruct (Valid (pde_of u1 USERTEMP)) eqn:Hvt; [|done]. cbn [andb].
      rewrite T2 by done. destruct (Z.eqb_spec (PPN USERTEMP) (PPN va)) as [E|]; [|done].
      apply same_page in E as [E1 E2]; [|done|done].
      assert (pte_of u1 USERTEMP = e) as -> by
        (rewrite <- Eu; unfold u1, pte_of, pte_word, pde_of, pde_word; cbn [cr3 phys set_pfn]; by rewrite E1, E2).
      by destruct (cow_of_bits e) as [-> ->]. }
    assert (∀ g, not_table s g ↔ not_table u2 g) as Hnt2.
    { intros g. apply not_table_pde; [by rewrite C2|]. intros va'. rewrite D2. apply D. }
    assert (∀ g, not_table s g → not_table u1 g) as Hnt1
      by (intros g Hg; apply (not_table_ext s); [exact C|exact D|done]).
    destruct (put_data_ok u2 t (Z.of_nat k) (cow_of e) I2) as [[C3 D3 T3] I3]; [by apply Hnt2|lia|].
    exists (put_data t (Z.of_nat k) (cow_of e) u2). split; [rewrite Ht; apply write_in_page; [done|lia]|].
    apply (pages_cloned_S s u); try done; fold va; fold e.
    + intros va'. rewrite D3. apply D2.
    + intros va' Hu' Hv'. rewrite T3 by by rewrite D2. by apply T2.
    + intros j Hj. rewrite put_data_word, Z.eqb_refl by lia. cbn [andb]. rewrite Hve, andb_true_r.
      destruct (j =? Z.of_nat k); [done|]. by apply A2; [|apply Hnt1].
    + intros g j Hj Hg Hgt. rewrite put_data_word by lia. destruct (Z.eqb_spec g t); [done|].
      cbn [andb]. by apply A2; [|apply Hnt1].
    + intros g q Hg. cbn [put_data set_phys PfnDataBase]. rewrite B2. cbn [u1 set_pfn PfnDataBase]. rewrite Hw.
      destruct (Z.eqb_spec f g) as [<-|Hfg].
      * rewrite lookup_insert_eq. rewrite Bf in Hg. by injection Hg as <-.
      * rewrite lookup_insert_ne, Hg, Z.add_0_r by done. by destruct q.
    + intros g. cbn [put_data set_phys PfnDataBase]. rewrite B2. cbn [u1 set_pfn PfnDataBase].
      destruct (decide (f = g)) as [<-|]; [by rewrite Bf|by rewrite lookup_insert_ne].
  - exists u. split; [done|]. apply (pages_cloned_S s u u i t k Hpc Hir Hk); try done; fold va; fold e.
    + intros va' Hu' Hv'. unfold cow_of. rewrite Hve. cbn [andb].
      destruct (Z.eqb_spec (PPN va') (PPN va)) as [E|]; [|done].
      apply same_page in E as [E1 E2]; [|done|done]. unfold e, pte_of, pte_word, pde_of, pde_word in *.
      rewrite E1, E2. done.
    + intros j Hj. by rewrite Hve, andb_false_r.
    + intros g p Hg. unfold walk. fold e. rewrite Hve, andb_false_r, Z.add_0_r. by destruct p.
Qed.

Lemma clone_pages_run s i t n : ∀ k u,
  cloning s i t → (k + n = 1024)%nat → pages_cloned s u i t k →
  ∃ u', clone_pages n USERTEMP (page i (Z.of_nat k)) u = Ok (tt, u') ∧ pages_cloned s u' i t 1024.
Proof.
  induction n as [|n IH]; intros k u Hc Hk Hp.
  - replace k with 1024%nat in Hp by lia. by exists u.
  - destruct (clone_page_step s u i t k Hc Hp ltac:(lia)) as (u1 & R1 & H1).
    destruct (IH (S k) u1 Hc ltac:(lia) H1) as (u' & R & H').
    exists u'. split; [|done]. cbn [clone_pages]. rewrite (bind_Ok _ _ _ _ _ R1).
    replace (page i (Z.of_nat k) + PGSIZE) with (page i (Z.of_nat (S k))); [done|].
    unfold page, PGSIZE. lia.
Qed.

Lemma pages_cloned_0 s i t :
  mm_inv s → (∀ j, 0 <= j < 1024 → phys s (word_of t j) = 0) → pages_cloned s s i t 0.
Proof.
  intros Hi Hz. split; try done.
  - intros va _ _. destruct (Z.ltb_spec (PTX va) (Z.of_nat 0)); [|by rewrite andb_false_r].
    pose proof (PTX_range va). lia.
  - intros j Hj. destruct (Z.ltb_spec j (Z.of_nat 0)); [lia|]. by apply Hz.
  - intros g p Hg. unfold shares. cbn [cnt]. rewrite Z.add_0_r, Hg. by destruct p.
Qed.

(** ** One page table *)

(** The entry of a directory for a user page table. *)
Definition table_entry (f : Z) : MMPTE := pte_value f (Z.lor PTE_W PTE_U).

(** The new table is in the new directory, zero, and mapped in the window. *)
Record table_prepared (u v : mm) (nd i f : Z) (l : list Z) : Prop := {
  tp_inv : mm_inv v;
  tp_cr3 : cr3 v = cr3 u;
  tp_pde va : pde_of v va = pde_of u va;
  tp_pte va : is_u32 va → Valid (pde_of u va) = true →
    pte_of v va = if PPN va =? PPN USERTEMP then pte_value f PTE_W else pte_of u va;
  tp_data g k : 0 <= k < 1024 → not_table u g → phys v (word_of g k) =
    if g =? f then 0 else if (g =? nd) && (k =? i) then table_entry f else phys u (word_of g k);
  tp_free : PfnFreeList v = l;
  tp_f : ∃ pte, PfnDataBase v !! f = Some (Pfn pte 2);
  tp_db g : g ≠ f → PfnDataBase v !! g = PfnDataBase u !! g }.

Lemma table_prepare u N nd (i f : Z) l :
  mm_inv u → 0 <= i < 511 → mapped_page u N nd → not_table u nd → nd ≠ f → not_table u f → f ≠ 0 →
  PfnFreeList u = f :: l → mappable u USERTEMP → pte_of u USERTEMP = 0 →
  let NewPde := u32 (N + 4 * i) in
  ∃ u1 u2 u3 u4 u5, MmAllocatePFN NewPde u = Ok ((STATUS_SUCCESS, f), u1) ∧
    MiIncReferencePFN f u1 = Ok (tt, u2) ∧
    write NewPde (Z.lor (MiPFNtoPhysicalAddress f) (Z.lor PTE_W (Z.lor PTE_U PTE_P))) u2 = Ok (tt, u3) ∧
    MmMapPageTemp f u3 = Ok (USERTEMP, u4) ∧
    zero_page (ROUNDDOWN USERTEMP PGSIZE) u4 = Ok (tt, u5) ∧
    table_prepared u u5 nd i f l.
Proof.
  intros Hi Hir HN Hnd Hne Hf Hf0 Hl Hmt Hzt NewPde.
  destruct (allocate_pfn_run u f l NewPde Hi Hl) as (R1 & I1 & Hfl). set (u1 := take_pfn f NewPde l u) in *.
  assert (PfnDataBase u1 !! f = Some (Pfn NewPde 0)) as F1 by apply lookup_insert_eq.
  destruct (inc_step u1 f _ I1 F1 Hfl) as [R2 I2]; [done|]. cbn [PteAddress RefCount] in R2, I2.
  set (u2 := set_pfn f _ u1) in *.
  assert (mapped_page u2 N nd) as HN2 by (by apply (mapped_page_walk u)).
  destruct (put_data_ok u2 nd i (table_entry f) I2) as [[C3 D3 T3] I3]; [done|lia|].
  set (u3 := put_data nd i (table_entry f) u2) in *.
  assert (mappable u3 USERTEMP) as Hmt3 by (by apply (mappable_pde u)).
  assert (pte_of u3 USERTEMP = 0) as Hzt3 by (rewrite T3; [done|apply Hmt]).
  destruct (insert_page_step u3 USERTEMP f (Pfn NewPde 1) PTE_W I3 Hmt3 Hzt3) as (u4 & R4 & [I4 C4 D4 T4 A4 M4 L4 B4]);
    [apply lookup_insert_eq|done|done|done|done|].
  assert (mapped_page u4 USERTEMP f) as Hm4.
  { split; [done|done|]. apply (walk_of_pte _ _ _ PTE_W); [rewrite D4; apply Hmt3| |by apply (mi_range u2 I2 f _ ltac:(apply lookup_insert_eq))|done].
    rewrite T4 by (done || apply Hmt3). by rewrite Z.eqb_refl. }
  assert (∀ g, not_table u g → not_table u4 g) as Hnt.
  { intros g. apply not_table_ext; [by rewrite C4, C3|]. intros va. by rewrite D4, D3. }
  destruct (zero_page_ok u4 USERTEMP f I4 Hm4 (Hnt f Hf)) as (u5 & R5 & [C5 D5 T5] & I5 & B5 & L5 & A5).
  exists u1, u2, u3, u4, u5. split; [done|]. split; [done|].
  split; [by apply write_in_page; [|lia]|]. split; [by apply map_temp_run|]. split; [exact R5|].
  split.
  - done.
  - by rewrite C5, C4, C3.
  - intros va. by rewrite D5, D4, D3.
  - intros va Hu Hv. rewrite T5 by (by rewrite D4, D3). rewrite T4 by (done || by rewrite D3).
    destruct (_ =? _); [done|]. by rewrite T3.
  - intros g k Hk Hg. rewrite A5 by done. destruct (g =? f) eqn:E; [done|].
    rewrite A4; [|done|apply (not_table_ext u); [by rewrite C3|intros va; by rewrite D3|done]].
    unfold u3. rewrite put_data_word by lia. done.
  - by rewrite L5, L4.
  - exists NewPde. rewrite B5, B4. apply lookup_insert_eq.
  - intros g Hg. rewrite B5, B4. cbn. by rewrite !lookup_insert_ne.
Qed.

(** The entry of page [k] in the new table: the window, which maps the new
    table itself while it is filled, is copied like every page. *)
Definition new_entry (u : mm) (f i k : Z) : MMPTE :=
  if page i k =? USERTEMP then set_cow (pte_value f PTE_W)
  else if Valid (pte_of u (page i k)) then cow_of (pte_of u (page i k)) else 0.

Record table_cloned (u v : mm) (nd i f : Z) (l : list Z) : Prop := {
  tc_inv : mm_inv v;
  tc_cr3 : cr3 v = cr3 u;
  tc_pde va : pde_of v va = pde_of u va;
  tc_pte va : is_u32 va → Valid (pde_of u va) = true →
    pte_of v va = if PDX va =? i then cow_of (pte_of u va) else pte_of u va;
  tc_new k : 0 <= k < 1024 → phys v (word_of f k) = new_entry u f i k;
  tc_dir : phys v (word_of nd i) = table_entry f;
  tc_data g k : 0 <= k < 1024 → not_table u g → g ≠ f → (g, k) ≠ (nd, i) →
    phys v (word_of g k) = phys u (word_of g k);
  tc_free : PfnFreeList v = l;
  tc_f : ∃ p, PfnDataBase v !! f = Some p ∧ 1 <= RefCount p < 2048;
  tc_db g p : g ≠ f → PfnDataBase u !! g = Some p →
    PfnDataBase v !! g = Some (Pfn (PteAddress p) (RefCount p + shares u i g 1024));
  tc_dom g : is_Some (PfnDataBase v !! g) → is_Some (PfnDataBase u !! g) }.

Lemma page_window i k : 0 <= i < 1024 → 0 <= k < 1024 →
  (PPN (page i k) =? PPN USERTEMP) = (page i k =? USERTEMP).
Proof.
  intros Hi Hk. destruct (page_parts i k Hi Hk) as (_ & _ & _ & ->). change (PPN USERTEMP) with 1024.
  unfold page, USERTEMP, PTSIZE, NPTENTRIES, PGSIZE.
  destruct (Z.eqb_spec (i * 1024 + k) 1024), (Z.eqb_spec (i * (4096 * 1024) + k * 4096) (4096 * 1024)); (done || lia).
Qed.

Lemma pte_value_cow f : 0 <= f < 2 ^ 20 → cow_of (pte_value f PTE_W) = set_cow (pte_value f PTE_W).
Proof.
  intros Hf. unfold cow_of. destruct (pte_value_bits f PTE_W Hf ltac:(done)) as [-> _].
  unfold pte_value, MiPFNtoPhysicalAddress, MiPFNtoFrameNumber, PGSHIFT.
  rewrite u32_small by (rewrite Z.shiftl_mul_pow2; lia).
  unfold Writable, CopyOnWrite. rewrite !Z.lor_spec, !Z.shiftl_spec_low by lia. done.
Qed.

Section table.
Context (u w : mm) (nd i f : Z) (l : list Z).
Hypothesis (prep : table_prepared u w nd i f l) (Hcl : clonable u i) (Hnt : not_table u f)
  (Hnd : not_table u nd) (Hne : nd ≠ f) (Hmt : mappable u USERTEMP) (Hzt : pte_of u USERTEMP = 0)
  (Hcount : ∀ g p, PfnDataBase u !! g = Some p → RefCount p < 2 ^ 32 - 2048)
  (Hf : is_Some (PfnDataBase u !! f)).

Lemma prepared_entry k : 0 <= k < 1024 →
  pte_of w (page i k) = if page i k =? USERTEMP then pte_value f PTE_W else pte_of u (page i k).
Proof.
  intros Hk. pose proof (cl_index u i Hcl) as Hir.
  destruct (page_parts i k ltac:(lia) Hk) as (Hu & Hd & _ & _).
  rewrite (tp_pte _ _ _ _ _ _ prep) by (done || rewrite pde_of_pd, Hd; apply Hcl).
  by rewrite page_window by lia.
Qed.

Lemma prepared_frame : 0 <= f < 2 ^ 20.
Proof. destruct (tp_f _ _ _ _ _ _ prep) as [pte E]. by apply (mi_range w (tp_inv _ _ _ _ _ _ prep) f _ E). Qed.

Lemma prepared_window : mapped_page w USERTEMP f.
Proof.
  split; [done|done|]. apply (walk_of_pte _ _ _ PTE_W); [| |apply prepared_frame|done].
  - rewrite (tp_pde _ _ _ _ _ _ prep). apply Hmt.
  - rewrite (tp_pte _ _ _ _ _ _ prep) by (done || apply Hmt). by rewrite Z.eqb_refl.
Qed.

Lemma prepared_walk k g : 0 <= k < 1024 →
  walk w (page i k) = Some g → page i k = USERTEMP ∧ g = f ∨ walk u (page i k) = Some g.
Proof.
  intros Hk. unfold walk. rewrite (tp_pde _ _ _ _ _ _ prep), prepared_entry by done.
  destruct (Z.eqb_spec (page i k) USERTEMP) as [E|]; [|by right].
  destruct (pte_value_bits f PTE_W prepared_frame ltac:(done)) as [-> ->].
  destruct (Valid _); [|done]. intros [= <-]. by left.
Qed.

Lemma prepared_cloning : cloning w i f.
Proof.
  pose proof prep as [I C D T A L F B]. pose proof Hcl as [Hir Hv Hro Hfr]. split.
  - done.
  - split; [done| | |].
    + rewrite pd_pde, D, <- pd_pde by lia. exact Hv.
    + intros k Hk. rewrite prepared_entry by done. destruct (page i k =? USERTEMP); [|by apply Hro].
      intros _. unfold pte_value, MiPFNtoPhysicalAddress, MiPFNtoFrameNumber, PGSHIFT.
      pose proof prepared_frame. rewrite u32_small by (rewrite Z.shiftl_mul_pow2; lia).
      unfold CopyOnWrite. by rewrite !Z.lor_spec, Z.shiftl_spec_low by lia.
    + intros k g Hk [[_ ->]|Hw]%prepared_walk; [destruct F; eauto| |done].
      destruct (decide (g = f)) as [->|]; [destruct F; eauto|]. rewrite B by done. by apply (Hfr k).
  - by apply (not_table_ext u).
  - apply prepared_window.
  - intros g p Hg. destruct (decide (g = f)) as [->|Hgf].
    + destruct F as [pte E]. rewrite E in Hg. injection Hg as <-. done.
    + rewrite B in Hg by done. pose proof (Hcount g p Hg). lia.
Qed.

Lemma shares_prepared g : g ≠ f → shares w i g 1024 = shares u i g 1024.
Proof.
  intros Hg. pose proof (cl_index u i Hcl) as Hir. unfold shares. apply cnt_ext. intros j Hj.
  rewrite !maps_table by lia. unfold walk at 1. rewrite (tp_pde _ _ _ _ _ _ prep), prepared_entry by lia.
  destruct (Z.eqb_spec (page i j) USERTEMP) as [E|]; [|done].
  destruct (pte_value_bits f PTE_W prepared_frame ltac:(done)) as [-> ->].
  rewrite E. unfold walk. rewrite Hzt. change (Valid 0) with false. rewrite andb_false_r.
  destruct (Valid _); [|done]. cbn [andb]. by destruct (Z.eqb_spec f g).
Qed.

Lemma table_finish :
  ∃ v w', clone_pages (Z.to_nat NPTENTRIES) USERTEMP (page i 0) w = Ok (tt, w') ∧
    MmUnMapPageTemp USERTEMP f w' = Ok (tt, v) ∧ table_cloned u v nd i f l.
Proof.
  pose proof prep as [I C D T A L (pte & F) B]. pose proof (cl_index u i Hcl) as Hir.
  destruct (clone_pages_run w i f (Z.to_nat NPTENTRIES) 0 w prepared_cloning ltac:(reflexivity))
    as (w' & R1 & [I1 C1 D1 T1 N1 A1 L1 B1 O1]).
  { apply pages_cloned_0; [done|]. intros j Hj. rewrite A by done. by rewrite Z.eqb_refl. }
  assert (mappable w' USERTEMP) as Hm1.
  { apply (mappable_pde u); [|done]. intros va. by rewrite D1, D. }
  assert (walk w' USERTEMP = Some f) as W1.
  { rewrite (pages_cloned_walk w w' i f 1024); [apply prepared_window| |done]. by split. }
  pose proof (B1 f _ F) as F1. cbn [PteAddress RefCount] in F1.
  pose proof (cnt_le (λ j, maps w f (i * 1024 + j)) 1024) as Hle.
  pose proof (cnt_nonneg (λ j, maps w f (i * 1024 + j)) 1024) as H0. unfold shares in F1.
  set (n := cnt _ 1024) in *.
  destruct (remove_page_step w' USERTEMP f _ I1 Hm1 ltac:(reflexivity) W1 F1) as (v & R2 & [I2 C2 D2 T2 A2 _ L2 B2]).
  cbn [PteAddress RefCount] in B2, L2. destruct (Z.eqb_spec (2 + n) 1); [lia|].
  assert (PfnDataBase v !! f = Some (Pfn pte (2 + n - 1))) as F2 by (rewrite B2; apply lookup_insert_eq).
  exists v, w'. split; [exact R1|]. split.
  { unfold MmUnMapPageTemp. rewrite !assert_true by done. rewrite (bind_Ok _ _ _ _ _ R2).
    rewrite (bind_Ok _ _ _ _ _ (refcount_run v f _ F2)). cbn [RefCount].
    by destruct (Z.eqb_spec (2 + n - 1) 0); [lia|]. }
  assert (∀ g, not_table u g → not_table w g) as Hntw by (intros g; by apply not_table_ext).
  assert (∀ g, not_table u g → not_table w' g) as Hntw'.
  { intros g. apply not_table_ext; [by rewrite C1|]. intros va. by rewrite D1, D. }
  split.
  - done.
  - by rewrite C2, C1.
  - intros va. by rewrite D2, D1, D.
  - intros va Hu Hv. rewrite T2 by (done || by rewrite D1, D).
    rewrite T1 by (done || by rewrite D). rewrite T by done.
    assert (PTX va <? Z.of_nat 1024 = true) as -> by (apply Z.ltb_lt; pose proof (PTX_range va); lia).
    rewrite andb_true_r. destruct (Z.eqb_spec (PPN va) (PPN USERTEMP)) as [E|]; [|done].
    assert (pte_of u va = 0) as ->; [|by destruct (_ =? _)].
    apply same_page in E as [E1 E2]; [|done|done]. rewrite <- Hzt.
    unfold pte_of, pte_word, pde_of, pde_word. by rewrite E1, E2.
  - intros k Hk. rewrite A2, N1 by (done || by apply Hntw').
    destruct (Z.ltb_spec k (Z.of_nat 1024)); [|lia]. cbn [andb]. rewrite prepared_entry by done.
    unfold new_entry. destruct (Z.eqb_spec (page i k) USERTEMP); [|done].
    destruct (pte_value_bits f PTE_W prepared_frame ltac:(done)) as [-> _]. apply pte_value_cow, prepared_frame.
  - rewrite A2, A1, A by (done || lia || by apply Hntw' || by apply Hntw).
    destruct (Z.eqb_spec nd f); [done|]. by rewrite !Z.eqb_refl.
  - intros g k Hk Hg Hgf Hgk. rewrite A2, A1, A by (done || by apply Hntw' || by apply Hntw).
    destruct (Z.eqb_spec g f); [done|]. destruct (Z.eqb_spec g nd) as [->|], (Z.eqb_spec k i) as [->|]; done.
  - by rewrite L2, L1.
  - eexists. split; [exact F2|]. cbn [RefCount]. lia.
  - intros g p Hgf Hg. rewrite B2, lookup_insert_ne by done.
    rewrite (B1 g p) by by rewrite B. by rewrite shares_prepared.
  - intros g Hg. destruct (decide (g = f)) as [->|Hgf]; [done|].
    rewrite <- B by done. apply O1. rewrite B2, lookup_insert_ne in Hg by done. done.
Qed.
End table.

(** ** All the tables *)

(** What MmCloneProcessAddressSpace needs: it runs in the address space it
    copies, whose directory is also mapped at [C]; the directory of the new
    one, frame [nd], is mapped at [N], is not in use yet, has the kernel tables
    of the old one, maps itself and has no user table;
    the frames of the user pages are in the data base, copy-on-write pages
    are not writable; the window has its table and is empty; there is a free
    frame for every table. *)
Record clone_ready (s : mm) (C N nd : Z) : Prop := {
  kr_inv : mm_inv s;
  kr_C : mapped_page s C (PPN (cr3 s));
  kr_N : mapped_page s N nd;
  kr_nd : not_table s nd ∧ nd ∉ PfnFreeList s;
  kr_range : 0 <= nd < 2 ^ 20 ∧ is_u32 (cr3 s);
  kr_empty j : 0 <= j < 511 → phys s (word_of nd j) = 0;
  kr_kernel j : 511 <= j < 1024 → j ≠ self_index → phys s (word_of nd j) = pd s j;
  kr_self : Valid (phys s (word_of nd self_index)) = true ∧
    PageFrameNumber (phys s (word_of nd self_index)) = nd;
  kr_user i : 0 <= i < 511 → Valid (pd s i) = true → clonable s i;
  kr_temp : mappable s USERTEMP ∧ pte_of s USERTEMP = 0;
  kr_count g p : PfnDataBase s !! g = Some p → RefCount p < 2 ^ 31;
  kr_free g : g ∈ PfnFreeList s → g ≠ 0 ∧ not_table s g;
  kr_enough : cnt (λ j, Valid (pd s j)) 511 <= Z.of_nat (length (PfnFreeList s)) }.

(** After the first [i] tables, whose copies are in the frames [ts]. *)
Record tables_cloned (s u : mm) (nd : Z) (i : nat) (ts : list Z) : Prop := {
  tb_inv : mm_inv u;
  tb_cr3 : cr3 u = cr3 s;
  tb_pde va : pde_of u va = pde_of s va;
  tb_pte va : is_u32 va → Valid (pde_of s va) = true →
    pte_of u va = if PDX va <? Z.of_nat i then cow_of (pte_of s va) else pte_of s va;
  tb_free : ts ++ PfnFreeList u = PfnFreeList s;
  tb_len : Z.of_nat (length ts) = cnt (λ j, Valid (pd s j)) i;
  tb_none j : 0 <= j < 1024 → Z.of_nat i <= j ∨ Valid (pd s j) = false →
    phys u (word_of nd j) = phys s (word_of nd j);
  tb_table j : 0 <= j < Z.of_nat i → Valid (pd s j) = true → ∃ f, f ∈ ts ∧
    phys u (word_of nd j) = table_entry f ∧
    ∀ k, 0 <= k < 1024 → phys u (word_of f k) = new_entry s f j k;
  tb_inj j j' : 0 <= j < Z.of_nat i → 0 <= j' < Z.of_nat i → j ≠ j' →
    Valid (pd s j) = true → Valid (pd s j') = true →
    phys u (word_of nd j) ≠ phys u (word_of nd j');
  tb_data g k : 0 <= k < 1024 → g ≠ nd → g ∉ ts → not_table s g →
    phys u (word_of g k) = phys s (word_of g k);
  tb_db g p : g ∉ ts → PfnDataBase s !! g = Some p →
    PfnDataBase u !! g = Some (Pfn (PteAddress p) (RefCount p + cnt (maps s g) (i * 1024)));
  tb_ts g : g ∈ ts → ∃ p, PfnDataBase u !! g = Some p ∧ 1 <= RefCount p < 2048;
  tb_dom g : is_Some (PfnDataBase u !! g) → is_Some (PfnDataBase s !! g) }.

Lemma cnt_add g a b : cnt g (a + b) = cnt g a + cnt (λ j, g (Z.of_nat a + j)) b.
Proof.
  induction b as [|b IH]; [rewrite Nat.add_0_r; cbn [cnt]; lia|].
  rewrite Nat.add_succ_r. cbn [cnt]. rewrite IH. rewrite Nat2Z.inj_add. lia.
Qed.

Lemma shares_table s g (i : nat) :
  cnt (maps s g) (S i * 1024) = cnt (maps s g) (i * 1024) + shares s (Z.of_nat i) g 1024.
Proof.
  replace (S i * 1024)%nat with (i * 1024 + 1024)%nat by lia. rewrite cnt_add. unfold shares.
  f_equal. apply cnt_ext. intros j _. f_equal. lia.
Qed.

Lemma cnt_false g n : (∀ i, 0 <= i < Z.of_nat n → g i = false) → cnt g n = 0.
Proof.
  intros H. rewrite (cnt_ext g (λ _, false)) by done. clear H. induction n; cbn [cnt]; lia.
Qed.

Lemma shares_none s g i : 0 <= i < 511 →
  (∀ k, 0 <= k < 1024 → walk s (page i k) ≠ Some g) → shares s i g 1024 = 0.
Proof.
  intros Hi H. apply cnt_false. intros k Hk. rewrite maps_table by lia.
  specialize (H k ltac:(lia)). destruct (walk s (page i k)) as [h|]; [|done].
  apply Z.eqb_neq. congruence.
Qed.

Lemma shares_free s g i : mm_inv s → 0 <= i < 511 → g ∈ PfnFreeList s → shares s i g 1024 = 0.
Proof.
  intros Hinv Hi Hg. apply shares_none; [done|]. intros k Hk.
  destruct (page_parts i k ltac:(lia) Hk) as (Hu & Hd & _).
  apply (free_unmapped s g _ Hinv Hg Hu). apply managed_user. rewrite Hd. lia.
Qed.

Lemma tables_cloned_walk s u nd i ts va : tables_cloned s u nd i ts → is_u32 va → walk u va = walk s va.
Proof.
  intros H Hu. unfold walk. rewrite (tb_pde _ _ _ _ _ H).
  destruct (Valid (pde_of s va)) eqn:Hv; [|done]. cbn [andb]. rewrite (tb_pte _ _ _ _ _ H) by done.
  destruct (_ <? _); [|done]. by destruct (cow_of_bits (pte_of s va)) as [-> ->].
Qed.

Lemma shares_cloned s u nd i ts g (j : Z) :
  tables_cloned s u nd i ts → 0 <= j < 511 → shares u j g 1024 = shares s j g 1024.
Proof.
  intros H Hj. apply cnt_ext. intros k Hk. rewrite !maps_table by lia.
  destruct (page_parts j k ltac:(lia) ltac:(lia)) as (Hu & _). by rewrite (tables_cloned_walk s u nd i ts).
Qed.

Lemma tables_cloned_0 s nd : mm_inv s → tables_cloned s s nd 0 [].
Proof.
  intros Hi. split; try done.
  - intros va Hu Hv. pose proof (PDX_range va). by destruct (Z.ltb_spec (PDX va) (Z.of_nat 0)); [lia|].
  - intros j Hj. lia.
  - intros j j' Hj. lia.
  - intros g p _ Hg. cbn [cnt Nat.mul]. rewrite Z.add_0_r, Hg. by destruct p.
  - intros g Hg. by apply elem_of_nil in Hg.
Qed.

(** A table that is not there. *)
Lemma tables_cloned_skip s u nd (i : nat) ts :
  tables_cloned s u nd i ts → (i < 511)%nat → Valid (pd s (Z.of_nat i)) = false →
  tables_cloned s u nd (S i) ts.
Proof.
  intros [I C D T L Ln Nn Tb Ij A B Bt O] Hi Hv. split; try done.
  - intros va Hu Hvd. rewrite T by done. rewrite pde_of_pd in Hvd.
    destruct (Z.ltb_spec (PDX va) (Z.of_nat i)), (Z.ltb_spec (PDX va) (Z.of_nat (S i))); try done; try lia.
    replace (PDX va) with (Z.of_nat i) in Hvd by lia. congruence.
  - cbn [cnt]. rewrite Hv. lia.
  - intros j Hj Hc. apply Nn; [done|]. destruct Hc as [Hc|]; [left; lia|by right].
  - intros j Hj Hvj. apply Tb; [|done]. destruct (decide (j = Z.of_nat i)) as [->|]; [congruence|lia].
  - intros j j' Hj Hj' Hne Hvj Hvj'. apply Ij; try done.
    + destruct (decide (j = Z.of_nat i)) as [->|]; [congruence|lia].
    + destruct (decide (j' = Z.of_nat i)) as [->|]; [congruence|lia].
  - intros g p Hg Hp. rewrite (B g p Hg Hp). rewrite shares_table, (shares_none s g (Z.of_nat i)); [|lia|].
    + do 2 f_equal. lia.
    + intros k Hk. destruct (page_parts (Z.of_nat i) k ltac:(lia) Hk) as (_ & Hd & _).
      unfold walk. by rewrite pde_of_pd, Hd, Hv.
Qed.

Lemma table_entry_inj f g : 0 <= f < 2 ^ 20 → 0 <= g < 2 ^ 20 → table_entry f = table_entry g → f = g.
Proof.
  intros Hf Hg E. apply (f_equal PageFrameNumber) in E. unfold table_entry in E.
  destruct (pte_value_bits f (Z.lor PTE_W PTE_U) Hf ltac:(done)) as [_ <-].
  by destruct (pte_value_bits g (Z.lor PTE_W PTE_U) Hg ltac:(done)) as [_ <-].
Qed.

Lemma frame_range s : mm_inv s → ∀ f, f ∈ PfnFreeList s → 0 <= f < 2 ^ 20.
Proof. intros Hi f Hf. destruct (mi_free s Hi f Hf) as (p & Hp & _). by apply (mi_range s Hi f p). Qed.

(** A table that was copied. *)
Lemma tables_cloned_add s u v C N nd (i : nat) ts f l :
  clone_ready s C N nd → tables_cloned s u nd i ts → (i < 511)%nat →
  Valid (pd s (Z.of_nat i)) = true → PfnFreeList u = f :: l →
  table_cloned u v nd (Z.of_nat i) f l → tables_cloned s v nd (S i) (ts ++ [f]).
Proof.
  intros [Hi _ _ [Hnd Hndf] _ Hem _ _ _ _ _ Hfr _] H Hil Hv Hl H'.
  pose proof H as [I0 C0 D T L Ln Nn Tb Ij A B Bt O]. destruct H' as [I1 C1 D1 T1 N1 Dr1 A1 L1 F1 B1 O1].
  assert (∀ g, not_table s g → not_table u g) as Hnt by (intros g; by apply not_table_ext).
  assert (∀ g, g ∈ ts ++ [f] → g ∈ PfnFreeList s) as Hts.
  { intros g. rewrite <- L, Hl. clear. rewrite !elem_of_app, !elem_of_cons, elem_of_nil. tauto. }
  assert (NoDup (ts ++ f :: l)) as Hnodup by (rewrite <- Hl, L; apply Hi).
  assert (f ∉ ts) as Hfts.
  { apply NoDup_app in Hnodup as (_ & Hx & _). intros Hin. apply (Hx f Hin). by left. }
  assert (nd ≠ f) as Hndne by (intros ->; apply Hndf, Hts, elem_of_app; right; by left).
  split.
  - done.
  - by rewrite C1.
  - intros va. by rewrite D1.
  - intros va Hu Hvd. rewrite T1 by (done || by rewrite D). rewrite T by done.
    destruct (Z.eqb_spec (PDX va) (Z.of_nat i)) as [->|];
      repeat match goal with |- context [?a <? ?b] => destruct (Z.ltb_spec a b) end; done || lia.
  - rewrite L1, <- L, Hl, <- app_assoc. done.
  - rewrite length_app. cbn [length cnt]. rewrite Hv. lia.
  - intros j Hj Hc. rewrite A1; [|done|by apply Hnt|done|].
    + apply Nn; [done|]. destruct Hc as [Hc|]; [left; lia|by right].
    + intros [= ->]. destruct Hc as [Hc|Hc]; [lia|congruence].
  - intros j Hj Hvj. destruct (decide (j = Z.of_nat i)) as [->|Hji].
    + exists f. split; [apply elem_of_app; right; by left|]. split; [done|].
      intros k Hk. rewrite N1 by done. unfold new_entry. destruct (_ =? _); [done|].
      destruct (page_parts (Z.of_nat i) k ltac:(lia) Hk) as (Hu & Hd & _).
      assert (pte_of u (page (Z.of_nat i) k) = pte_of s (page (Z.of_nat i) k)) as ->; [|done].
      rewrite T by (done || by rewrite pde_of_pd, Hd). rewrite Hd.
      by destruct (Z.ltb_spec (Z.of_nat i) (Z.of_nat i)); [lia|].
    + destruct (Tb j ltac:(lia) Hvj) as (g & Hg & Hdir & Hnew). exists g.
      assert (g ∈ PfnFreeList s) as Hgs by (apply Hts, elem_of_app; by left).
      assert (g ≠ nd) by congruence. assert (g ≠ f) by congruence.
      split; [apply elem_of_app; by left|]. split.
      * rewrite A1; [done|lia|by apply Hnt|done|congruence].
      * intros k Hk. rewrite A1; [by apply Hnew|done|apply Hnt, Hfr, Hgs|done|congruence].
  - assert (∀ j, 0 <= j < 1024 → j ≠ Z.of_nat i → phys v (word_of nd j) = phys u (word_of nd j)) as Hdir.
    { intros j Hj Hji. apply A1; [done|by apply Hnt|done|congruence]. }
    assert (∀ j, 0 <= j < Z.of_nat i → Valid (pd s j) = true → phys u (word_of nd j) ≠ table_entry f) as Hold.
    { intros j Hj Hvj. destruct (Tb j Hj Hvj) as (g & Hg & -> & _). intros E. apply table_entry_inj in E.
      - congruence.
      - by apply (frame_range s Hi), Hts, elem_of_app; left.
      - by apply (frame_range s Hi), Hts, elem_of_app; right; left. }
    intros j j' Hj Hj' Hne Hvj Hvj'.
    destruct (decide (j = Z.of_nat i)) as [->|], (decide (j' = Z.of_nat i)) as [->|]; try done.
    + rewrite Dr1, Hdir by lia. apply not_eq_sym, Hold; [lia|done].
    + rewrite Dr1, Hdir by lia. apply Hold; [lia|done].
    + rewrite !Hdir by lia. apply Ij; lia || done.
  - intros g k Hk Hg Hgts Hgt. rewrite not_elem_of_app, not_elem_of_cons in Hgts.
    destruct Hgts as (Hgts & Hgf & _). rewrite A1; [by apply A|done|by apply Hnt|done|congruence].
  - intros g p Hgts Hp. rewrite not_elem_of_app, not_elem_of_cons in Hgts. destruct Hgts as (Hgts & Hgf & _).
    rewrite (B1 g _ Hgf (B g p Hgts Hp)). cbn [PteAddress RefCount].
    rewrite (shares_cloned s u nd i ts) by (done || lia). rewrite shares_table. do 2 f_equal. lia.
  - intros g [Hg|Hg]%elem_of_app.
    + destruct (Bt g Hg) as (p & Hp & Hr). eexists. split; [apply (B1 g p); [congruence|done]|].
      cbn [RefCount]. rewrite (shares_cloned s u nd i ts), shares_free; [lia|done|lia| |done|lia].
      apply Hts, elem_of_app. by left.
    + apply elem_of_cons in Hg as [->|[]%elem_of_nil]. exact F1.
  - intros g Hg. by apply O, O1.
Qed.

(** The frame for the next table. *)
Lemma next_frame s u C N nd (i : nat) ts :
  clone_ready s C N nd → tables_cloned s u nd i ts → (i < 511)%nat → Valid (pd s (Z.of_nat i)) = true →
  ∃ f l, PfnFreeList u = f :: l ∧ f ∈ PfnFreeList s.
Proof.
  intros Hk H Hi Hv. pose proof (tb_free _ _ _ _ _ H) as L. pose proof (tb_len _ _ _ _ _ H) as Ln.
  pose proof (kr_enough _ _ _ _ Hk) as He.
  replace 511%nat with (S i + (510 - i))%nat in He by lia. rewrite cnt_add in He. cbn [cnt] in He.
  rewrite Hv in He. match type of He with context [cnt ?g (510 - i)] => pose proof (cnt_nonneg g (510 - i)) end.
  destruct (PfnFreeList u) as [|f l] eqn:E.
  - rewrite <- L, app_nil_r in He. lia.
  - exists f, l. split; [done|]. rewrite <- L. apply elem_of_app. right. by left.
Qed.

Lemma cnt_bound g (n : nat) : (n <= 511)%nat → cnt g (n * 1024) <= 2 ^ 20.
Proof. intros Hn. pose proof (cnt_le g (n * 1024)). lia. Qed.

(** One round of the loop. *)
Lemma clone_table_step s u C N nd (i : nat) ts n :
  clone_ready s C N nd → tables_cloned s u nd i ts → (i < 511)%nat →
  ∃ v ts', clone_tables (S n) C N (page (Z.of_nat i) 0) u = clone_tables n C N (page (Z.of_nat (S i)) 0) v ∧
    tables_cloned s v nd (S i) ts'.
Proof.
  intros Hk H Hi. pose proof Hk as [Hinv HC HN [Hnd Hndf] _ Hem _ _ Hus [Hmt Hzt] Hcn Hfr _].
  pose proof H as [I0 C0 D T L Ln Nn Tb Ij A B Bt O].
  destruct (page_parts (Z.of_nat i) 0 ltac:(lia) ltac:(lia)) as (Hu & Hd & _).
  assert (mapped_page u C (PPN (cr3 u))) as HCu.
  { rewrite C0. apply (mapped_page_walk s); [done|]. apply (tables_cloned_walk s u nd i ts _ H), HC. }
  assert (mapped_page u N nd) as HNu.
  { apply (mapped_page_walk s); [done|]. apply (tables_cloned_walk s u nd i ts _ H), HN. }
  assert (pd u (Z.of_nat i) = pd s (Z.of_nat i)) as Epd by (rewrite !pd_pde by lia; apply D).
  assert (page (Z.of_nat i) 0 + PTSIZE = page (Z.of_nat (S i)) 0) as Enext by (unfold page; lia).
  cbn [clone_tables]. rewrite Hd.
  rewrite (bind_Ok _ _ _ _ _ (read_in_page u C _ (Z.of_nat i) HCu ltac:(lia))).
  rewrite (bind_Ok _ _ _ _ _ (read_pde u _ (mi_paging u I0) Hu)). rewrite pde_of_pd, Hd.
  rewrite assert_true by apply Z.eqb_refl.
  rewrite (bind_Ok _ _ _ _ _ (read_in_page u N nd (Z.of_nat i) HNu ltac:(lia))).
  rewrite Nn, Hem by (lia || by left; lia). rewrite assert_true by done. rewrite Epd, Enext.
  destruct (Valid (pd s (Z.of_nat i))) eqn:Hv.
  - destruct (next_frame s u C N nd i ts Hk H Hi Hv) as (f & l & Hl & Hfs).
    destruct (Hfr f Hfs) as [Hf0 Hft].
    assert (∀ g, not_table s g → not_table u g) as Hnt by (intros g; by apply not_table_ext).
    assert (mappable u USERTEMP ∧ pte_of u USERTEMP = 0) as [Hmtu Hztu].
    { split; [by apply (mappable_pde s)|]. rewrite T by (done || apply Hmt). rewrite Hzt. by destruct (_ <? _). }
    assert (nd ≠ f) as Hne by (intros ->; done).
    destruct (table_prepare u N nd (Z.of_nat i) f l) as (u1 & u2 & u3 & u4 & u5 & R1 & R2 & R3 & R4 & R5 & Hprep);
      try done; [lia|by apply Hnt|by apply Hnt|].
    assert (∀ g p, PfnDataBase u !! g = Some p → RefCount p < 2 ^ 32 - 2048) as Hcu.
    { intros g p Hg. destruct (decide (g ∈ ts)) as [Hin|Hin].
      - destruct (Bt g Hin) as (q & Hq & Hr). rewrite Hg in Hq. injection Hq as <-. lia.
      - destruct (O g ltac:(eauto)) as [q Hq]. rewrite (B g q Hin Hq) in Hg. injection Hg as <-.
        cbn [RefCount]. pose proof (Hcn g q Hq). pose proof (cnt_bound (maps s g) i). lia. }
    assert (clonable u (Z.of_nat i)) as Hcl.
    { destruct (Hus (Z.of_nat i) ltac:(lia) Hv) as [_ _ Hro Hfrm].
      assert (∀ k, 0 <= k < 1024 → pte_of u (page (Z.of_nat i) k) = pte_of s (page (Z.of_nat i) k)) as Ept.
      { intros k Hkr. destruct (page_parts (Z.of_nat i) k ltac:(lia) Hkr) as (Huk & Hdk & _).
        rewrite T by (done || by rewrite pde_of_pd, Hdk). rewrite Hdk.
        by destruct (Z.ltb_spec (Z.of_nat i) (Z.of_nat i)); [lia|]. }
      split; [lia|by rewrite Epd| |].
      - intros k Hkr. rewrite Ept by done. by apply Hro.
      - intros k g Hkr Hw. destruct (page_parts (Z.of_nat i) k ltac:(lia) Hkr) as (Huk & _).
        rewrite (tables_cloned_walk s u nd i ts _ H Huk) in Hw. destruct (Hfrm k g Hkr Hw) as [q Hq].
        destruct (decide (g ∈ ts)) as [Hin|Hin]; [destruct (Bt g Hin) as (p & Hp & _); eauto|].
        rewrite (B g q Hin Hq). eauto. }
    assert (is_Some (PfnDataBase u !! f)) as Hfu.
    { destruct (mi_free u I0 f) as (p & Hp & _); [rewrite Hl; by left|eauto]. }
    destruct (table_finish u u5 nd (Z.of_nat i) f l Hprep Hcl (Hnt f Hft) (Hnt nd Hnd) Hne Hmtu Hztu Hcu Hfu)
      as (v & w & R6 & R7 & Hdone).
    exists v, (ts ++ [f]). split; [|by apply (tables_cloned_add s u v C N nd i ts f l)].
    rewrite (bind_Ok _ _ _ _ _ R1). change (K_SUCCESS STATUS_SUCCESS) with true. cbn [negb].
    rewrite (bind_Ok _ _ _ _ _ R2), (bind_Ok _ _ _ _ _ R3), (bind_Ok _ _ _ _ _ R4).
    change (USERTEMP =? NULL) with false. cbn [negb]. rewrite assert_true by done.
    by rewrite (bind_Ok _ _ _ _ _ R5), (bind_Ok _ _ _ _ _ R6), (bind_Ok _ _ _ _ _ R7).
  - exists u, ts. split; [done|]. by apply tables_cloned_skip.
Qed.

Lemma clone_tables_run s C N nd n : ∀ (i : nat) u ts,
  clone_ready s C N nd → tables_cloned s u nd i ts → (i + n = 511)%nat →
  ∃ u' ts', clone_tables n C N (page (Z.of_nat i) 0) u = Ok (STATUS_SUCCESS, u') ∧
    tables_cloned s u' nd 511 ts'.
Proof.
  induction n as [|n IH]; intros i u ts Hk H Hin.
  - replace i with 511%nat in H by lia. by exists u, ts.
  - destruct (clone_table_step s u C N nd i ts n Hk H ltac:(lia)) as (v & ts1 & -> & H1).
    by apply (IH (S i) v ts1 Hk H1 ltac:(lia)).
Qed.

Lemma directory_run s P f :
  paging s → mapped_page s P f → 0 <= f < 2 ^ 20 → is_u32 (cr3 s) →
  IsCurrentPageDirectory P s = Ok (f =? PPN (cr3 s), s).
Proof.
  intros Hp [Hu Ha Hw] Hf Hc. destruct (pde_address_mapped s Hp) as (Hum & Hvm & Hwm).
  assert (Valid (pde_of s P) = true) as Hv by (unfold walk in Hw; by destruct (Valid (pde_of s P))).
  unfold IsCurrentPageDirectory. rewrite (bind_Ok _ _ _ _ _ (physical_address_run s P Hp Hu Hv)), Hw.
  rewrite (bind_Ok _ _ _ _ _ (physical_address_run s _ Hp Hum Hvm)), Hwm. unfold ret. do 2 f_equal.
  rewrite Ha. change (PGOFF MM_PDE_ADDRESS) with 0. rewrite !Z.add_0_r. unfold PGSHIFT.
  assert (0 <= PPN (cr3 s) < 2 ^ 20) as Hr by by apply PPN_range.
  rewrite !u32_small by (rewrite Z.shiftl_mul_pow2; lia). rewrite !Z.shiftl_mul_pow2 by lia.
  destruct (Z.eqb_spec f (PPN (cr3 s))), (Z.eqb_spec (f * 2 ^ 12) (PPN (cr3 s) * 2 ^ 12)); done || lia.
Qed.

(** ** The new address space *)

Definition child_of (nd : Z) (s : mm) : mm := set_cr3 (nd * PGSIZE) s.

Section child.
Context (s u : mm) (C N nd : Z) (ts : list Z).
Hypothesis (ready : clone_ready s C N nd) (cloned : tables_cloned s u nd 511 ts).

Lemma child_pd j : pd (child_of nd u) j = phys u (word_of nd j).
Proof. unfold pd, child_of. cbn [set_cr3 cr3 phys]. do 2 f_equal. unfold PGSIZE. page_arith. Qed.

Lemma taken_free g : g ∈ ts → g ∈ PfnFreeList s.
Proof. intros Hg. rewrite <- (tb_free _ _ _ _ _ cloned). apply elem_of_app. by left. Qed.

Lemma child_table j : 0 <= j < 511 → Valid (pd s j) = true →
  ∃ f, f ∈ ts ∧ pd (child_of nd u) j = table_entry f ∧
    Valid (table_entry f) = true ∧ PageFrameNumber (table_entry f) = f ∧
    ∀ k, 0 <= k < 1024 → phys u (word_of f k) = new_entry s f j k.
Proof.
  intros Hj Hv. destruct (tb_table _ _ _ _ _ cloned j ltac:(lia) Hv) as (f & Hf & Hd & Hn).
  exists f. rewrite child_pd.
  destruct (pte_value_bits f (Z.lor PTE_W PTE_U) (frame_range s (kr_inv _ _ _ _ ready) f (taken_free f Hf)) ltac:(done)).
  done.
Qed.

Lemma child_no_table j : 0 <= j < 511 → Valid (pd s j) = false → pd (child_of nd u) j = 0.
Proof.
  intros Hj Hv. rewrite child_pd, (tb_none _ _ _ _ _ cloned) by (lia || by right).
  by apply (kr_empty _ _ _ _ ready).
Qed.

Lemma user_index va : is_u32 va → IsUserAddress va = true → 0 <= PDX va < 511.
Proof.
  unfold IsUserAddress, USERTOP, KERNBASE, KERNSPACE_START, PTSIZE, NPTENTRIES, PGSIZE.
  intros Hu Hv%Z.ltb_lt. page_arith.
Qed.

Lemma child_entry va : is_u32 va → IsUserAddress va = true → Valid (pde_of s va) = true →
  Valid (pde_of (child_of nd u) va) = true ∧
  pte_of (child_of nd u) va = new_entry s (PageFrameNumber (pde_of (child_of nd u) va)) (PDX va) (PTX va).
Proof.
  intros Hu Hus Hv. rewrite pde_of_pd in Hv. pose proof (user_index va Hu Hus) as Hj.
  destruct (child_table (PDX va) Hj Hv) as (f & Hf & Hd & Hvf & Hpf & Hn).
  rewrite pde_of_pd, Hd, Hvf, Hpf. split; [done|].
  unfold pte_of, pte_word. rewrite pde_of_pd, Hd, Hpf. cbn [child_of set_cr3 phys].
  apply Hn, PTX_range.
Qed.

Lemma page_of va : is_u32 va → PPN (page (PDX va) (PTX va)) = PPN va.
Proof.
  intros Hu. destruct (page_parts (PDX va) (PTX va) (PDX_range va) (PTX_range va)) as (Hu' & Hd & Ht & _).
  apply (proj1 (same_page _ va Hu' Hu)). split; assumption.
Qed.

(** Every user page has the same frame in both spaces, except the window. *)
Lemma child_walk va : is_u32 va → IsUserAddress va = true → PPN va ≠ PPN USERTEMP →
  walk (child_of nd u) va = walk s va ∧
  (walk s va ≠ None → pte_of (child_of nd u) va = cow_of (pte_of s va)).
Proof.
  intros Hu Hus Hne. destruct (Valid (pde_of s va)) eqn:Hv.
  - destruct (child_entry va Hu Hus Hv) as [Hcv Hce]. unfold walk. rewrite Hcv, Hv. cbn [andb]. rewrite Hce.
    destruct (entry_of s va (PDX va) (PTX va) (PDX_range va) (PTX_range va) eq_refl eq_refl) as [Ept _].
    unfold new_entry. rewrite <- (page_window _ _ (PDX_range va) (PTX_range va)), (page_of va Hu), <- Ept.
    destruct (Z.eqb_spec (PPN va) (PPN USERTEMP)); [done|].
    destruct (Valid (pte_of s va)) eqn:Hvp; [|by change (Valid 0) with false].
    destruct (cow_of_bits (pte_of s va)) as [-> ->]. by rewrite Hvp.
  - assert (walk s va = None) as Hn by (unfold walk; by rewrite Hv). rewrite Hn. split; [|done].
    rewrite pde_of_pd in Hv. pose proof (user_index va Hu Hus) as Hj.
    unfold walk. rewrite pde_of_pd, child_no_table by done. done.
Qed.

(** The window of the new space maps the table it was filled through. *)
Lemma child_window : Valid (pd s 1) = true →
  walk (child_of nd u) USERTEMP = Some (PageFrameNumber (pd (child_of nd u) 1)).
Proof.
  intros Hv. destruct (child_entry USERTEMP ltac:(done) ltac:(done) Hv) as [Hcv Hce].
  destruct (child_table 1 ltac:(lia) Hv) as (f & Hf & Hd & _ & Hpf & _).
  unfold walk. rewrite Hcv, Hce. cbn [andb]. rewrite pde_of_pd. change (PDX USERTEMP) with 1.
  change (PTX USERTEMP) with 0. rewrite Hd, Hpf. unfold new_entry.
  change (page 1 0 =? USERTEMP) with true. cbv iota.
  destruct (set_cow_bits (pte_value f PTE_W)) as (-> & _ & _ & ->).
  by destruct (pte_value_bits f PTE_W (frame_range s (kr_inv _ _ _ _ ready) f (taken_free f Hf)) ltac:(done)) as [-> ->].
Qed.

(** *** The invariant of the new address space *)

Lemma child_self : pd (child_of nd u) self_index = phys s (word_of nd self_index).
Proof. rewrite child_pd. apply (tb_none _ _ _ _ _ cloned); [unfold self_index; lia|left; unfold self_index; lia]. Qed.

Lemma child_kernel j : 511 <= j < 1024 → j ≠ self_index → pd (child_of nd u) j = pd s j.
Proof.
  intros Hj Hne. rewrite child_pd, (tb_none _ _ _ _ _ cloned) by (lia || by left; lia).
  by apply (kr_kernel _ _ _ _ ready).
Qed.

(** The three kinds of tables of the new directory. *)
Lemma child_cases j : 0 <= j < 1024 → Valid (pd (child_of nd u) j) = true →
  (0 <= j < 511 ∧ PageFrameNumber (pd (child_of nd u) j) ∈ ts) ∨
  (j = self_index ∧ PageFrameNumber (pd (child_of nd u) j) = nd) ∨
  (511 <= j ∧ j ≠ self_index ∧ pd (child_of nd u) j = pd s j).
Proof.
  intros Hj Hv. destruct (decide (j < 511)) as [Hlt|Hge].
  - left. split; [lia|]. destruct (Valid (pd s j)) eqn:Hvs.
    + destruct (child_table j ltac:(lia) Hvs) as (f & Hf & -> & _ & -> & _). done.
    + rewrite child_no_table in Hv by (done || lia). discriminate Hv.
  - right. destruct (decide (j = self_index)) as [->|Hne].
    + left. split; [done|]. rewrite child_self. apply (kr_self _ _ _ _ ready).
    + right. split; [lia|]. split; [done|]. apply child_kernel; [lia|done].
Qed.

Lemma child_user_distinct i j : 0 <= i < 511 → 0 <= j < 511 → i ≠ j →
  Valid (pd (child_of nd u) i) = true → Valid (pd (child_of nd u) j) = true →
  PageFrameNumber (pd (child_of nd u) i) ≠ PageFrameNumber (pd (child_of nd u) j).
Proof.
  intros Hi Hj Hij Hvi Hvj.
  destruct (Valid (pd s i)) eqn:Hsi; [|rewrite child_no_table in Hvi by done; discriminate Hvi].
  destruct (Valid (pd s j)) eqn:Hsj; [|rewrite child_no_table in Hvj by done; discriminate Hvj].
  pose proof (tb_inj _ _ _ _ _ cloned i j ltac:(lia) ltac:(lia) Hij Hsi Hsj) as Hne.
  rewrite <- !child_pd in Hne.
  destruct (child_table i Hi Hsi) as (f & _ & Ef & _ & Hf & _), (child_table j Hj Hsj) as (g & _ & Eg & _ & Hg & _).
  rewrite Ef, Eg, Hf, Hg in *. by intros ->.
Qed.

Lemma child_paging : paging (child_of nd u).
Proof.
  destruct (kr_self _ _ _ _ ready) as [Hv Hf]. destruct (kr_nd _ _ _ _ ready) as [[Hn1 Hn2] Hnf].
  pose proof (mi_paging _ (kr_inv _ _ _ _ ready)) as [_ _ Hdis].
  assert (∀ i j, 0 <= i < 1024 → 0 <= j < 1024 → j < 511 ≤ i →
    Valid (pd (child_of nd u) i) = true → Valid (pd (child_of nd u) j) = true →
    PageFrameNumber (pd (child_of nd u) i) ≠ PageFrameNumber (pd (child_of nd u) j)) as Hcross.
  { intros i j Hi Hj Hij Hvi Hvj.
    destruct (child_cases j Hj Hvj) as [[_ Hin]|[[-> _]|[? _]]]; [|unfold self_index in Hij; lia|lia].
    apply taken_free in Hin. destruct (child_cases i Hi Hvi) as [[? _]|[[-> E]|(_ & _ & E)]]; [lia| |].
    - rewrite E. congruence.
    - rewrite E in *. intros Heq. destruct (kr_free _ _ _ _ ready _ Hin) as [_ [_ Hnt]]. by apply (Hnt i). }
  split; [by rewrite child_self| |].
  - rewrite child_self, Hf. unfold child_of. cbn [set_cr3 cr3]. unfold PGSIZE. page_arith.
  - intros i j Hi Hj Hij Hvi Hvj. destruct (decide (i < 511)), (decide (j < 511)).
    + apply child_user_distinct; (lia || done).
    + apply not_eq_sym, Hcross; done || lia.
    + apply Hcross; done || lia.
    + destruct (child_cases i Hi Hvi) as [[? _]|[[-> Ei]|(_ & _ & Ei)]]; [lia| |];
      destruct (child_cases j Hj Hvj) as [[? _]|[[-> Ej]|(_ & _ & Ej)]]; try lia; try done.
      * rewrite Ei, Ej in *. apply not_eq_sym. by apply Hn2.
      * rewrite Ei, Ej in *. by apply Hn2.
      * rewrite Ei, Ej in *. by apply Hdis.
Qed.

Lemma child_kernel_walk va : is_u32 va → 511 <= PDX va → PDX va ≠ self_index →
  walk (child_of nd u) va = walk s va.
Proof.
  intros Hu Hj Hne. pose proof (PDX_range va) as Hr.
  assert (pde_of (child_of nd u) va = pde_of s va) as Ed by (rewrite !pde_of_pd; apply child_kernel; [lia|done]).
  unfold walk. rewrite Ed. destruct (Valid (pde_of s va)) eqn:Hv; [|done]. cbn [andb].
  assert (pte_of (child_of nd u) va = pte_of s va) as ->; [|done].
  transitivity (pte_of u va).
  - unfold pte_of, pte_word. rewrite Ed, (tb_pde _ _ _ _ _ cloned). done.
  - rewrite (tb_pte _ _ _ _ _ cloned) by done. by destruct (Z.ltb_spec (PDX va) (Z.of_nat 511)); [lia|].
Qed.

(** Apart from the window, a page of the new space is a page of the old one. *)
Lemma child_maps g n : 0 <= n < 2 ^ 20 → n ≠ PPN USERTEMP → maps (child_of nd u) g n = maps s g n.
Proof.
  intros Hn Hne. pose proof (page_va_u32 n Hn) as Hu. pose proof (PPN_page_va n Hn) as HP.
  unfold maps. destruct (managed_page_spec n) as [[Hns _]|]; [|done]. cbn [andb].
  destruct (decide (PDX (page_va n) < 511)) as [Hlt|Hge].
  - assert (IsUserAddress (page_va n) = true) as Hus.
    { unfold IsUserAddress, USERTOP, KERNBASE, KERNSPACE_START, PTSIZE, NPTENTRIES, PGSIZE.
      apply Z.ltb_lt. clear - Hlt Hu. page_arith. }
    by rewrite (proj1 (child_walk _ Hu Hus ltac:(by rewrite HP))).
  - by rewrite child_kernel_walk by (done || lia).
Qed.

Lemma child_window_maps g : g ∉ ts → maps (child_of nd u) g (PPN USERTEMP) = false.
Proof.
  intros Hg. rewrite maps_page by (done || by apply managed_user). destruct (Valid (pd s 1)) eqn:Hv.
  - rewrite child_window by done. destruct (child_table 1 ltac:(lia) Hv) as (f & Hf & -> & _ & -> & _).
    apply Z.eqb_neq. congruence.
  - unfold walk. rewrite pde_of_pd. change (PDX USERTEMP) with 1. by rewrite child_no_table by (done || lia).
Qed.

Lemma cnt_mono g h n : (∀ i, 0 <= i < Z.of_nat n → g i = true → h i = true) → cnt g n <= cnt h n.
Proof.
  induction n as [|n IH]; intros H; cbn [cnt]; [lia|].
  pose proof (H (Z.of_nat n) ltac:(lia)). assert (cnt g n <= cnt h n) by (apply IH; intros; apply H; [lia|done]).
  destruct (g _), (h _); lia || (exfalso; by intuition discriminate).
Qed.

Lemma child_inv : mm_inv (child_of nd u).
Proof.
  pose proof (tb_inv _ _ _ _ _ cloned) as [_ Hr Hc Hn Hfr]. pose proof (kr_inv _ _ _ _ ready) as Hi.
  split; [apply child_paging|exact Hr| |exact Hn|exact Hfr].
  intros g p Hg. change (PfnDataBase (child_of nd u)) with (PfnDataBase u) in Hg.
  destruct (Hc g p Hg) as [_ Hup]. split; [|done]. unfold mappings.
  destruct (decide (g ∈ ts)) as [Hin|Hin].
  - destruct (tb_ts _ _ _ _ _ cloned g Hin) as (q & Hq & Hge). rewrite Hg in Hq. injection Hq as <-.
    transitivity 1; [|lia]. apply (cnt_one _ _ (PPN USERTEMP)); [rewrite NPAGES_Z; done|].
    rewrite NPAGES_Z. intros n Hnr Hne. rewrite child_maps by done.
    unfold maps. destruct (managed_page_spec n) as [Hns|]; [|done]. cbn [andb].
    pose proof (free_unmapped s g (page_va n) Hi (taken_free g Hin) (page_va_u32 n Hnr) Hns) as Hw.
    destruct (walk s (page_va n)) as [h|]; [|done]. apply Z.eqb_neq. congruence.
  - destruct (tb_dom _ _ _ _ _ cloned g ltac:(eauto)) as [q Hq].
    rewrite (tb_db _ _ _ _ _ cloned g q Hin Hq) in Hg.
    destruct (mi_count s Hi g q Hq) as [Hq1 _]. pose proof (cnt_nonneg (maps s g) (511 * 1024)) as H0.
    revert H0 Hg. generalize (cnt (maps s g) (511 * 1024)). intros K HK [= <-]. cbn [RefCount].
    fold (mappings (child_of nd u) g).
    transitivity (mappings s g); [|clear - Hq1 HK; lia]. unfold mappings. apply cnt_mono. rewrite NPAGES_Z. intros n Hnr.
    destruct (decide (n = PPN USERTEMP)) as [->|Hne]; [by rewrite child_window_maps|].
    by rewrite child_maps.
Qed.
End child.

(** ** MmCloneProcessAddressSpace *)

(** A user page outside the window: it has the same frame in the three
    spaces, and both entries are copy-on-write. *)
Definition page_shared (old new child : mm) (va : addr) : Prop :=
  walk child va = walk old va ∧ walk new va = walk old va ∧
  (walk old va ≠ None →
    pte_of child va = cow_of (pte_of old va) ∧ pte_of new va = cow_of (pte_of old va)).

(** The pages of user space that map frame [g]. *)
Definition user_mappings (s : mm) (g : Z) : Z := cnt (maps s g) (511 * 1024).

Section clone.
Context {W : Type} `{SpinLock W}.

Lemma clone_run (s : vmm W) C N nd : clone_ready (core s) C N nd → sl_irql (world s) = DISPATCH_LEVEL →
  ∃ u ts, MmCloneProcessAddressSpace C N s = Ok (STATUS_SUCCESS, with_core u (MiSystemPteBitmap s) s) ∧
    tables_cloned (core s) u nd 511 ts.
Proof.
  intros Hk Hq. pose proof (kr_inv _ _ _ _ Hk) as Hi. pose proof (mi_paging _ Hi) as Hp.
  destruct (kr_range _ _ _ _ Hk) as [Hnd Hc3]. destruct (kr_nd _ _ _ _ Hk) as [[Hcr _] _].
  destruct (clone_tables_run (core s) C N nd 511 0 (core s) [] Hk (tables_cloned_0 _ _ Hi) eq_refl)
    as (u & ts & Hr & Hu).
  exists u, ts. split; [|exact Hu]. unfold MmCloneProcessAddressSpace.
  rewrite (bind_Ok _ _ _ (sl_irql (world s)) s) by (by destruct s). rewrite Hq. cbn [Z.eqb].
  change (assert_ (DISPATCH_LEVEL =? DISPATCH_LEVEL)) with (@ret (vmm W) _ tt).
  assert (∀ (A : Type) (m : M mm A) a, m (core s) = Ok (a, core s) → in_mm m s = Ok (a, s)) as Hin.
  { intros A m a Hm. rewrite (in_mm_run m s a _ Hm). by destruct s. }
  rewrite (bind_Ok _ _ _ tt s) by done.
  rewrite (bind_Ok _ _ _ _ _ (Hin _ rcr3 (cr3 (core s)) eq_refl)).
  rewrite (bind_Ok _ _ _ _ _ (Hin _ _ _ (directory_run _ _ _ Hp (kr_N _ _ _ _ Hk) Hnd Hc3))).
  destruct (Z.eqb_spec nd (PPN (cr3 (core s)))) as [E|_]; [congruence|].
  rewrite (bind_Ok _ _ _ tt s) by done.
  rewrite (bind_Ok _ _ _ _ _ (Hin _ _ _ (directory_run _ _ _ Hp (kr_C _ _ _ _ Hk) (PPN_range _ Hc3) Hc3))).
  rewrite Z.eqb_refl, (bind_Ok _ _ _ tt s) by done.
  change (Z.to_nat (USERTOP / PTSIZE)) with 511%nat. change 0 with (page (Z.of_nat 0) 0).
  by apply in_mm_run.
Qed.

Lemma cloned_pages s u C N nd ts va : clone_ready s C N nd → tables_cloned s u nd 511 ts →
  is_u32 va → IsUserAddress va = true → PPN va ≠ PPN USERTEMP → page_shared s u (child_of nd u) va.
Proof.
  intros Hk Hu Hva Hus Hne. destruct (child_walk s u C N nd ts Hk Hu va Hva Hus Hne) as [Hw He].
  split; [done|]. split; [by apply (tables_cloned_walk _ _ _ _ _ _ Hu)|]. intros Hm. split; [by apply He|].
  rewrite (tb_pte _ _ _ _ _ Hu) by (done || by unfold walk in Hm; destruct (Valid (pde_of s va))).
  pose proof (user_index va Hva Hus). by destruct (Z.ltb_spec (PDX va) (Z.of_nat 511)); [|lia].
Qed.

(** C6: MmCloneProcessAddressSpace, run at DISPATCH_LEVEL in the space it
    copies with enough free frames, succeeds.  Both spaces satisfy the invariant
    of the memory manager; every user page outside the temporary window is
    mapped by both to the frame it had, copy-on-write in both; the kernel
    pages are the same; the frames of the user pages gain one
    reference for each page that maps them, and no other frame of data is
    written. *)
Theorem clone_shares_pages (s : vmm W) C N nd :
  clone_ready (core s) C N nd → sl_irql (world s) = DISPATCH_LEVEL →
  ∃ u, MmCloneProcessAddressSpace C N s = Ok (STATUS_SUCCESS, with_core u (MiSystemPteBitmap s) s) ∧
    mm_inv u ∧ mm_inv (child_of nd u) ∧
    (∀ va, is_u32 va → IsUserAddress va = true → PPN va ≠ PPN USERTEMP →
      page_shared (core s) u (child_of nd u) va) ∧
    (∀ va, is_u32 va → 511 <= PDX va → PDX va ≠ self_index → walk (child_of nd u) va = walk (core s) va) ∧
    (∀ g p, g ∉ PfnFreeList (core s) → PfnDataBase (core s) !! g = Some p →
      PfnDataBase u !! g = Some (Pfn (PteAddress p) (RefCount p + user_mappings (core s) g))) ∧
    (∀ g k, 0 <= k < 1024 → g ≠ nd → g ∉ PfnFreeList (core s) → not_table (core s) g →
      phys u (word_of g k) = phys (core s) (word_of g k)).
Proof.
  intros Hk Hq. destruct (clone_run s C N nd Hk Hq) as (u & ts & Hr & Hu).
  assert (∀ g, g ∉ PfnFreeList (core s) → g ∉ ts) as Hts by (intros g Hg Hin; apply Hg; by apply (taken_free _ _ _ _ Hu)).
  exists u. split; [exact Hr|]. split; [apply (tb_inv _ _ _ _ _ Hu)|]. split; [by apply (child_inv _ _ _ _ _ _ Hk Hu)|].
  split; [intros; by eapply cloned_pages|]. split; [intros; by eapply child_kernel_walk|].
  split; [intros g p Hg; by apply (tb_db _ _ _ _ _ Hu), Hts|].
  intros g k Hk' Hgn Hg Hgt. apply (tb_data _ _ _ _ _ Hu); auto.
Qed.

(** The temporary window of the clone is a user page: the old space has
    nothing mapped there, but the new space is left with one of its own page
    tables mapped at USERTEMP. *)
Theorem clone_leaves_window (s : vmm W) C N nd :
  clone_ready (core s) C N nd → sl_irql (world s) = DISPATCH_LEVEL →
  ∃ u, MmCloneProcessAddressSpace C N s = Ok (STATUS_SUCCESS, with_core u (MiSystemPteBitmap s) s) ∧
    walk (core s) USERTEMP = None ∧
    walk (child_of nd u) USERTEMP = Some (PageFrameNumber (pde_of (child_of nd u) USERTEMP)).
Proof.
  intros Hk Hq. destruct (clone_run s C N nd Hk Hq) as (u & ts & Hr & Hu). exists u. split; [exact Hr|].
  split.
  - unfold walk. rewrite (proj2 (kr_temp _ _ _ _ Hk)). by rewrite andb_false_r.
  - destruct (kr_temp _ _ _ _ Hk) as [(_ & _ & Hv) _]. rewrite pde_of_pd in Hv.
    rewrite (child_window _ _ _ _ _ _ Hk Hu Hv), pde_of_pd. done.
Qed.
End clone.

(** ** Witness: one page of user data

    The directory, frame 1, is mapped at the start of the paged pool; the new one, frame 10, at
    the page after it.  The table of the user page, at 0x4000000, is frame 8,
    its data are in frame 9. *)

Definition demo_new_entry (j : Z) : Z := if j =? 768 then 0xA003 else if j <? 511 then 0 else demo_entry j.
Definition demo_clone_phys : Z → Z := λ w,
  if in_frame 1 w then demo_entry (w mod 1024)
  else if in_frame 10 w then demo_new_entry (w mod 1024)
  else if w =? 2048 then 0x1003 else if w =? 2049 then 0xA003 else if w =? 8192 then 0x9007
  else if w =? 9216 then 42 else 0.
Definition demo_clone_mm : mm :=
  Mm 0x1000 demo_clone_phys
    (<[4 := Pfn 0 0]> (<[5 := Pfn 0 0]> (<[6 := Pfn 0 0]> (<[9 := Pfn 0 1]> ∅)))) [4; 5; 6] false.

Lemma demo_clone_word f j : 0 <= j < 1024 → f = 1 ∨ f = 10 →
  demo_clone_phys (word_of f j) = if f =? 1 then demo_entry j else demo_new_entry j.
Proof.
  intros Hj Hf. unfold demo_clone_phys. rewrite !in_frame_word_of by done.
  assert (word_of f j mod 1024 = j) as ->.
  { unfold word_of, words_per_page. rewrite Z.add_comm, Z.mod_add by lia. by apply Z.mod_small. }
  by destruct Hf as [-> | ->].
Qed.

Lemma demo_clone_pd j : 0 <= j < 1024 → pd demo_clone_mm j = demo_entry j.
Proof. intros Hj. apply (demo_clone_word 1 j Hj). by left. Qed.

(** The three pages outside the table of tables. *)
Lemma demo_clone_entry va : PDX va ≠ self_index → Valid (pde_of demo_clone_mm va) = true →
  pte_of demo_clone_mm va =
    if (PDX va =? 514) && (PTX va =? 0) then 0x1003 else if (PDX va =? 514) && (PTX va =? 1) then 0xA003
    else if (PDX va =? 16) && (PTX va =? 0) then 0x9007 else 0.
Proof.
  intros Hne Hv. rewrite pde_of_pd, demo_clone_pd in Hv by apply PDX_range.
  apply demo_entry_cases in Hv. unfold pte_of, pte_word. rewrite pde_of_pd, demo_clone_pd by apply PDX_range.
  pose proof (PTX_range va) as Hk. unfold self_index in Hne. revert Hv Hne Hk.
  generalize (PDX va) (PTX va) (PageFrameNumber (demo_entry (PDX va))). intros d k f Hv Hne Hk.
  change (phys demo_clone_mm) with demo_clone_phys. unfold demo_clone_phys.
  rewrite !in_frame_word_of by done. unfold word_of, words_per_page.
  rewrite !elem_of_cons, elem_of_nil in Hv. destruct_or! Hv; simplify_eq; try done;
    repeat match goal with |- context [Z.eqb ?a ?b] => destruct (Z.eqb_spec a b) end; try done; lia.
Qed.

Lemma demo_clone_walk va : PDX va ≠ self_index → walk demo_clone_mm va =
  if (PDX va =? 514) && (PTX va =? 0) then Some 1 else if (PDX va =? 514) && (PTX va =? 1) then Some 10
  else if (PDX va =? 16) && (PTX va =? 0) then Some 9 else None.
Proof.
  intros Hne. unfold walk. destruct (Valid (pde_of demo_clone_mm va)) eqn:Hv.
  - rewrite demo_clone_entry by done. cbn [andb].
    destruct ((PDX va =? 514) && (PTX va =? 0)); [done|]. destruct ((PDX va =? 514) && (PTX va =? 1)); [done|].
    by destruct ((PDX va =? 16) && (PTX va =? 0)).
  - cbn [andb]. rewrite pde_of_pd, demo_clone_pd in Hv by apply PDX_range.
    destruct (Z.eqb_spec (PDX va) 514) as [E|]; [by rewrite E in Hv|].
    destruct (Z.eqb_spec (PDX va) 16) as [E|]; [by rewrite E in Hv|]. done.
Qed.

Lemma demo_clone_paging : paging demo_clone_mm.
Proof.
  split; [done|done|]. intros i j Hi Hj Hij. rewrite !demo_clone_pd by done.
  intros H1%demo_entry_cases H2%demo_entry_cases E. rewrite E in H1.
  rewrite !elem_of_cons, elem_of_nil in H1, H2. destruct_or! H1; destruct_or! H2; congruence.
Qed.

Lemma demo_clone_db f p : PfnDataBase demo_clone_mm !! f = Some p →
  (f = 9 ∧ p = Pfn 0 1) ∨ (4 <= f <= 6 ∧ p = Pfn 0 0).
Proof.
  cbn [demo_clone_mm PfnDataBase]. rewrite !lookup_insert_Some, lookup_empty.
  intros [[<- <-]|[_ [[<- <-]|[_ [[<- <-]|[_ [[<- <-]|[_ [=]]]]]]]]]; (right; split; [lia|done]) || (left; done).
Qed.

Lemma demo_clone_inv : mm_inv demo_clone_mm.
Proof.
  split.
  - apply demo_clone_paging.
  - intros f p [[-> _]|[? _]]%demo_clone_db; lia.
  - intros f p Hf. assert (mappings demo_clone_mm f <= RefCount p ∧ RefCount p <= 1) as [? ?]; [|lia].
    assert (∀ n, maps demo_clone_mm f n = true → f = 1 ∨ f = 10 ∨
      f = 9 ∧ PDX (page_va n) = 16 ∧ PTX (page_va n) = 0) as Hm.
    { intros n. unfold maps. destruct (managed_page_spec n) as [[Hne _]|]; [|done].
      rewrite demo_clone_walk by done. cbn [andb].
      destruct ((PDX (page_va n) =? 514) && (PTX (page_va n) =? 0)); [intros <-%Z.eqb_eq; by left|].
      destruct ((PDX (page_va n) =? 514) && (PTX (page_va n) =? 1)); [intros <-%Z.eqb_eq; by right; left|].
      destruct (Z.eqb_spec (PDX (page_va n)) 16), (Z.eqb_spec (PTX (page_va n)) 0); cbn [andb]; try done.
      intros <-%Z.eqb_eq. by right; right. }
    unfold mappings. destruct (demo_clone_db f p Hf) as [[-> ->]|[Hr ->]]; cbn [RefCount].
    + split; [|done]. apply (cnt_one _ _ (16 * 1024)); [rewrite NPAGES_Z; done|].
      rewrite NPAGES_Z. intros n Hn Hne. apply not_true_iff_false.
      intros [H|[H|(_ & H1 & H2)]]%Hm; [discriminate H|discriminate H|]. apply Hne.
      rewrite <- (PPN_page_va n Hn). destruct (page_parts 16 0 ltac:(lia) ltac:(lia)) as (Hu & Hd & Ht & HP).
      change (16 * 1024) with (16 * 1024 + 0). rewrite <- HP.
      apply (proj1 (same_page _ _ (page_va_u32 n Hn) Hu)). rewrite Hd, Ht. done.
    + split; [|done]. rewrite (cnt_ext _ (λ _, false)); [|intros n _; apply not_true_iff_false; intros Ht%Hm; lia].
      generalize NPAGES. intros n. induction n; simpl; lia.
  - cbn. by apply (bool_decide_unpack _); vm_compute.
  - intros f. cbn [demo_clone_mm PfnFreeList]. rewrite !elem_of_cons, elem_of_nil.
    intros [->|[->|[->|[]]]]; eexists; (split; [reflexivity|done]).
Qed.

Lemma demo_clone_mapped :
  mapped_page demo_clone_mm MMPAGEPOOL_START 1 ∧ mapped_page demo_clone_mm (MMPAGEPOOL_START + PGSIZE) 10.
Proof. by split. Qed.

Lemma demo_clonable i : 0 <= i < 511 → Valid (pd demo_clone_mm i) = true → clonable demo_clone_mm i.
Proof.
  intros Hi Hv. split; [done|done| |].
  - intros k Hk. destruct (page_parts i k ltac:(lia) Hk) as (Hu & Hd & Ht & _).
    assert (PDX (page i k) ≠ self_index) by (rewrite Hd; unfold self_index; lia).
    rewrite demo_clone_entry; [|done|rewrite pde_of_pd, Hd; exact Hv].
    rewrite Hd. destruct (Z.eqb_spec i 514); [lia|]. cbn [andb]. by destruct ((i =? 16) && _).
  - intros k f Hk. destruct (page_parts i k ltac:(lia) Hk) as (Hu & Hd & Ht & _).
    rewrite demo_clone_walk by (rewrite Hd; unfold self_index; lia).
    rewrite Hd. destruct (Z.eqb_spec i 514); [lia|]. cbn [andb]. destruct ((i =? 16) && _); [|done].
    intros [= <-]. by eexists.
Qed.

Lemma demo_clone_not_table f : f ∉ [1; 2; 3; 7; 8] → not_table demo_clone_mm f.
Proof.
  rewrite !not_elem_of_cons. intros (H1 & H2 & H3 & H7 & H8 & _). split; [done|].
  intros j Hj. rewrite demo_clone_pd by done. intros Hv%demo_entry_cases. rewrite !elem_of_cons, elem_of_nil in Hv.
  destruct_or! Hv; congruence.
Qed.

Lemma demo_new_word j : 0 <= j < 1024 → phys demo_clone_mm (word_of 10 j) = demo_new_entry j.
Proof. intros Hj. apply (demo_clone_word 10 j Hj). by right. Qed.

Lemma demo_clone_ready : clone_ready demo_clone_mm MMPAGEPOOL_START (MMPAGEPOOL_START + PGSIZE) 10.
Proof.
  split.
  - apply demo_clone_inv.
  - apply demo_clone_mapped.
  - apply demo_clone_mapped.
  - split; [apply demo_clone_not_table|]; cbn; by apply (bool_decide_unpack _); vm_compute.
  - by split.
  - intros j Hj. rewrite demo_new_word by lia. unfold demo_new_entry.
    destruct (Z.eqb_spec j 768); [lia|]. by destruct (Z.ltb_spec j 511); [|lia].
  - intros j Hj Hne. rewrite demo_new_word, demo_clone_pd by lia. unfold demo_new_entry.
    destruct (Z.eqb_spec j 768); [done|]. by destruct (Z.ltb_spec j 511); [lia|].
  - rewrite demo_new_word by (unfold self_index; lia). by split.
  - apply demo_clonable.
  - by split.
  - intros g p [[-> ->]|[_ ->]]%demo_clone_db; done.
  - intros g. cbn [demo_clone_mm PfnFreeList]. rewrite !elem_of_cons, elem_of_nil.
    intros [->|[->|[->|[]]]]; (split; [done|]); apply demo_clone_not_table; by apply (bool_decide_unpack _); vm_compute.
  - rewrite (cnt_ext _ (λ j, Valid (demo_entry j))); [vm_compute; discriminate|].
    intros j Hj. by rewrite demo_clone_pd by lia.
Qed.

#[local] Existing Instance demo_lock.
Definition demo_clone_world : prcb := Prcb DISPATCH_LEVEL 7 [] 0 ∅ ∅.
Definition demo_clone : vmm prcb := Vmm demo_clone_mm demo_bitmap ∅ ∅ 0 demo_clone_world.

Lemma clone_shares_pages_witness :
  ∃ u, MmCloneProcessAddressSpace MMPAGEPOOL_START (MMPAGEPOOL_START + PGSIZE) demo_clone =
      Ok (STATUS_SUCCESS, with_core u demo_bitmap demo_clone) ∧
    walk (child_of 10 u) demo_user = Some 9 ∧ walk u demo_user = Some 9 ∧
    Writable (pte_of demo_clone_mm demo_user) = true ∧
    Writable (pte_of (child_of 10 u) demo_user) = false ∧ Writable (pte_of u demo_user) = false.
Proof.
  destruct (clone_shares_pages demo_clone MMPAGEPOOL_START (MMPAGEPOOL_START + PGSIZE) 10) as (u & Hr & _ & _ & Hp & _).
  - apply demo_clone_ready.
  - reflexivity.
  - exists u. split; [exact Hr|]. clear Hr.
    destruct (Hp demo_user) as (Ec & Eu & He); [unfold demo_user; lia|reflexivity|vm_compute; discriminate|].
    clear Hp. change (core demo_clone) with demo_clone_mm in *.
    assert (walk demo_clone_mm demo_user = Some 9) as Ew by (vm_compute; reflexivity).
    rewrite Ew in Ec, Eu, He. destruct He as [Hc Hu]; [discriminate|]. rewrite Hc, Hu.
    split; [exact Ec|]. split; [exact Eu|]. split_and!; vm_compute; reflexivity.
Defined.

Lemma clone_leaves_window_witness :
  ∃ u, walk demo_clone_mm USERTEMP = None ∧
    walk (child_of 10 u) USERTEMP = Some (PageFrameNumber (pde_of (child_of 10 u) USERTEMP)).
Proof.
  destruct (clone_leaves_window demo_clone MMPAGEPOOL_START (MMPAGEPOOL_START + PGSIZE) 10) as (u & _ & Ho & Hw).
  - apply demo_clone_ready.
  - reflexivity.
  - exists u. split; [exact Ho|exact Hw].
Defined.
