(* ===== verification/Ob.v ===== *)
(** * Ob: objects, references and handle tables
    (kern/ob/ob.h, the reference counting of kern/ob/ob.c, kern/ob/obhandle.c)

    An object is named by the address of its body, as in the code; its header
    lies OFFSET_BODY bytes before it.  The headers are in a store by object
    address; a name buffer is kept with the UNICODE_STRING that owns it.  The
    DirectoryObject field of the header is never written and is left out.

    The lists the kernel keeps through the objects (objects of a type, entries
    of a directory) are sequences of object addresses; Lists.v justifies that.
    The open and close procedures of the object types belong to other
    components: they are the parameter [call]. *)

From S2P Require Import Prelude Types Irql Pool.

(** ** Data *)

Definition OBJ_INHERIT : Z := 0x2.
Definition OBJ_PERMANENT : Z := 0x10.
Definition OBJ_EXCLUSIVE : Z := 0x20.
Definition OBJ_OPENIF : Z := 0x80.
Definition OBJ_KERNEL_HANDLE : Z := 0x200.
Definition OBJ_VALID_ATTRIBUTES : Z := 0x7F2.
Definition MAX_OBJECT_NAME_SIZE : Z := 128.
Definition MAX_OBJECT_PATH : Z := 1024.
Definition OB_DIRECTORY_MOUNTPOINT : Z := 1.
Definition OBJECT_TYPE_LAST : Z := 12.
Definition OBJECT_TYPE_DIRECTORY : Z := 1.
Definition OBJECT_TYPE_SYMLINK : Z := 2.
Definition OBJECT_HEADER_MAGIC : Z := 0x12121212.
Definition EX_MAX_HANDLE : Z := 1024.
Definition sizeof_HANDLE_TABLE_ENTRY : Z := 4.
(** -1 in a pointer or an unsigned long. *)
Definition OB_INVALID_HANDLE : Z := u32 (-1).

(** Offset of Body in OBJECT_HEADER and size of OBJECT_HEADER. *)
Definition OFFSET_BODY : Z := 48.
Definition sizeof_OBJECT_HEADER : Z := 52.

(** A counted string; [text] is what its buffer holds up to the terminator. *)
Record UNICODE_STRING := UnicodeString {
  Length : Z; MaximumLength : Z; Buffer : addr; text : list Z }.

(** The body of an object: a directory, a symbolic link, or memory that is
    still zero or belongs to another component.  [Head] lists the entries. *)
Inductive body :=
| Directory (Head : list addr) (Flags : Z) (DeviceObject : addr)
| SymbolicLink (LinkTargetObject : addr)
| Other.

(** [Linked]: the forward link of DirectoryEntry is not NULL. *)
Record OBJECT_HEADER := Header {
  Magic : Z; Linked : bool; ObjectType : addr; OpenHandleCount : Z; RefCount : Z;
  ObjectName : UNICODE_STRING; Attributes : Z; Body : body }.

(** The type records live in the array ObjectTypeList: a pointer to the entry
    of index i is represented by i + 1, so that NULL is 0. *)
Record OBJECT_TYPE := ObType {
  OTPoolType : Z; ObjectSize : Z; TypeIndex : Z; PoolTag : Z; Object_List : list addr;
  OpenProcedure : addr; CloseProcedure : addr }.
Definition ObjectTypeList (i : Z) : addr := i + 1.

(** The locks of the object manager: one in every type and in every directory.
    Zeroed storage is a free lock: KeInitializeSpinLock clears its own
    parameter instead of the lock and has no effect here. *)
Inductive ob_lock := TypeLock (t : addr) | DirectoryLock (d : addr).

(** What the object manager uses of the rest of the kernel. *)
Class ObWorld (W : Type) := {
  ob_pool :: PoolAllocator W;
  ob_spin : ob_lock → SpinLock W;
  ob_irql : W → Z;
  ob_irql_free : ∀ l w, @sl_free W (ob_spin l) w → ob_irql w <= DISPATCH_LEVEL;
  ob_spin_alloc : ∀ l pt n tag w p w', pa_ready pt n w → @sl_free W (ob_spin l) w →
    pa_alloc pt n tag w = Ok (p, w') → @sl_free W (ob_spin l) w';
  AllocateSystemPtes : Z → M W addr;
  FreeSystemPtes : addr → Z → M W unit;
  page_words : addr → W → list Z }.

Record ob (W : Type) := ObState {
  objects : gmap addr OBJECT_HEADER;
  types : gmap addr OBJECT_TYPE;
  tables : gmap addr (list Z);
  ObRootDirectory : addr;
  ObGlobalDirectory : addr;
  ObDirectoryObjectType : addr;
  ObSymbolicLinkObjectType : addr;
  IoDeviceObjectType : addr;
  CurrentHandleTable : addr;
  outer : W }.
Arguments ObState {W}.
Arguments objects {W}.
Arguments types {W}.
Arguments tables {W}.
Arguments ObRootDirectory {W}.
Arguments ObGlobalDirectory {W}.
Arguments ObDirectoryObjectType {W}.
Arguments ObSymbolicLinkObjectType {W}.
Arguments IoDeviceObjectType {W}.
Arguments CurrentHandleTable {W}.
Arguments outer {W}.

Definition set_RefCount (n : Z) (h : OBJECT_HEADER) : OBJECT_HEADER :=
  Header (Magic h) (Linked h) (ObjectType h) (OpenHandleCount h) n (ObjectName h)
    (Attributes h) (Body h).
Definition set_HandleCount (n : Z) (h : OBJECT_HEADER) : OBJECT_HEADER :=
  Header (Magic h) (Linked h) (ObjectType h) n (RefCount h) (ObjectName h) (Attributes h) (Body h).
Definition set_Linked (b : bool) (h : OBJECT_HEADER) : OBJECT_HEADER :=
  Header (Magic h) b (ObjectType h) (OpenHandleCount h) (RefCount h) (ObjectName h)
    (Attributes h) (Body h).
Definition set_ObjectName (n : UNICODE_STRING) (h : OBJECT_HEADER) : OBJECT_HEADER :=
  Header (Magic h) (Linked h) (ObjectType h) (OpenHandleCount h) (RefCount h) n
    (Attributes h) (Body h).
Definition set_Attributes (n : Z) (h : OBJECT_HEADER) : OBJECT_HEADER :=
  Header (Magic h) (Linked h) (ObjectType h) (OpenHandleCount h) (RefCount h) (ObjectName h)
    n (Body h).
Definition set_ObjectType (n : addr) (h : OBJECT_HEADER) : OBJECT_HEADER :=
  Header (Magic h) (Linked h) n (OpenHandleCount h) (RefCount h) (ObjectName h)
    (Attributes h) (Body h).
Definition set_Body (b : body) (h : OBJECT_HEADER) : OBJECT_HEADER :=
  Header (Magic h) (Linked h) (ObjectType h) (OpenHandleCount h) (RefCount h) (ObjectName h)
    (Attributes h) b.
Definition set_list (l : list addr) (t : OBJECT_TYPE) : OBJECT_TYPE :=
  ObType (OTPoolType t) (ObjectSize t) (TypeIndex t) (PoolTag t) l (OpenProcedure t) (CloseProcedure t).

Section state_updates.
Context {W : Type}.
Implicit Type s : ob W.

Definition with_objects (f : gmap addr OBJECT_HEADER) s : ob W :=
  ObState f (types s) (tables s) (ObRootDirectory s) (ObGlobalDirectory s)
    (ObDirectoryObjectType s) (ObSymbolicLinkObjectType s) (IoDeviceObjectType s)
    (CurrentHandleTable s) (outer s).
Definition with_types (f : gmap addr OBJECT_TYPE) s : ob W :=
  ObState (objects s) f (tables s) (ObRootDirectory s) (ObGlobalDirectory s)
    (ObDirectoryObjectType s) (ObSymbolicLinkObjectType s) (IoDeviceObjectType s)
    (CurrentHandleTable s) (outer s).
Definition with_tables (f : gmap addr (list Z)) s : ob W :=
  ObState (objects s) (types s) f (ObRootDirectory s) (ObGlobalDirectory s)
    (ObDirectoryObjectType s) (ObSymbolicLinkObjectType s) (IoDeviceObjectType s)
    (CurrentHandleTable s) (outer s).
Definition with_outer (w : W) s : ob W :=
  ObState (objects s) (types s) (tables s) (ObRootDirectory s) (ObGlobalDirectory s)
    (ObDirectoryObjectType s) (ObSymbolicLinkObjectType s) (IoDeviceObjectType s)
    (CurrentHandleTable s) w.
End state_updates.

(** ** Operations *)

Section ob.
Context {W : Type} `{!ObWorld W} (call : addr → addr → M (ob W) KSTATUS).

Definition in_outer {A} (m : M W A) : M (ob W) A := zoom outer with_outer m.
Definition acquire (l : ob_lock) : M (ob W) Z := in_outer (@sl_acquire W (ob_spin l)).
Definition release (l : ob_lock) (OldIrql : Z) : M (ob W) unit :=
  in_outer (@sl_release W (ob_spin l) OldIrql).

Definition header (o : addr) : M (ob W) OBJECT_HEADER := deref (λ s, objects s !! o).
Definition put_header (o : addr) (h : OBJECT_HEADER) : M (ob W) unit :=
  modify (λ s, with_objects (<[o := h]> (objects s)) s).
Definition type_of (t : addr) : M (ob W) OBJECT_TYPE := deref (λ s, types s !! t).
Definition put_type (t : addr) (x : OBJECT_TYPE) : M (ob W) unit :=
  modify (λ s, with_types (<[t := x]> (types s)) s).

(** *** ob.h: tests on an object *)

Definition ObIsValidObject (o : addr) : M (ob W) bool :=
  let! h := header o in ret (Magic h =? OBJECT_HEADER_MAGIC).

Definition assert_valid (o : addr) : M (ob W) unit :=
  let! v := ObIsValidObject o in assert_ v.

Definition has_type (o t : addr) : M (ob W) bool :=
  assert_valid o >>>
  assert_ (negb (t =? NULL)) >>>
  let! h := header o in ret (ObjectType h =? t).

Definition ObIsObjectInheritable (o : addr) : M (ob W) bool :=
  assert_valid o >>>
  let! h := header o in ret (TEST_FLAG (Attributes h) OBJ_INHERIT).

Definition ObIsDirectoryObject (o : addr) : M (ob W) bool :=
  let! t := gets ObDirectoryObjectType in has_type o t.

Definition ObIsSymbolicLinkObject (o : addr) : M (ob W) bool :=
  let! t := gets ObSymbolicLinkObjectType in has_type o t.

Definition ObIsDeviceObject (o : addr) : M (ob W) bool :=
  let! t := gets IoDeviceObjectType in has_type o t.

Definition ObIsMountpointObject (o : addr) : M (ob W) bool :=
  let! d := ObIsDirectoryObject o in
  if d then
    let! h := header o in
    match Body h with
    | Directory _ fl _ => ret (TEST_FLAG fl OB_DIRECTORY_MOUNTPOINT)
    | SymbolicLink _ => halt Fault
    | Other => ret false
    end
  else ret false.

(** *** ob.c: object types and reference counts *)

(** [Saved] is the former contents of the variable that gets the pointer. *)
Definition ObCreateObjectType (t : OBJECT_TYPE) (Saved : addr) : M (ob W) (KSTATUS * addr) :=
  assert_ (TypeIndex t <? OBJECT_TYPE_LAST) >>>
  assert_ (Saved =? NULL) >>>
  put_type (ObjectTypeList (TypeIndex t)) (set_list [] t) >>>
  ret (STATUS_SUCCESS, ObjectTypeList (TypeIndex t)).

Definition ObRemoveObject (o : addr) : M (ob W) unit :=
  let! h := header o in
  assert_ (RefCount h =? 0) >>>
  assert_ (OpenHandleCount h =? 0) >>>
  assert_ (negb (TEST_FLAG (Attributes h) OBJ_PERMANENT)) >>>
  let ty := ObjectType h in
  let! t := type_of ty in
  when (negb (CloseProcedure t =? NULL)) (let! _ := call (CloseProcedure t) o in ret tt) >>>
  let! OldIrql := acquire (TypeLock ty) in
  let! t := type_of ty in
  put_type ty (set_list (filter (λ x, x ≠ o) (Object_List t)) t) >>>
  release (TypeLock ty) OldIrql >>>
  let! t := type_of ty in
  in_outer (pa_free (o - OFFSET_BODY) (PoolTag t)) >>>
  modify (λ s, with_objects (delete o (objects s)) s).

Definition ObCloseObject (o : addr) (HandleCount : Z) : M (ob W) unit :=
  let! h := header o in
  assert_ (1 <=? RefCount h) >>>
  if TEST_FLAG (Attributes h) OBJ_PERMANENT then
    assert_ (negb (Buffer (ObjectName h) =? NULL))
  else
    (if negb (HandleCount =? 0) then
       let '(_, hc) := InterlockedExchangeAdd (OpenHandleCount h) (s32 (- HandleCount)) in
       let '(_, rc) := InterlockedExchangeAdd (RefCount h) (s32 (- HandleCount)) in
       put_header o (set_RefCount rc (set_HandleCount hc h))
     else
       let '(_, rc) := InterlockedDecrement (RefCount h) in
       put_header o (set_RefCount rc h)) >>>
    let! h := header o in
    if 0 <? RefCount h then ret tt else ObRemoveObject o.

Definition assert_irql : M (ob W) unit :=
  let! i := in_outer (gets ob_irql) in assert_ (i <=? DISPATCH_LEVEL).

Definition ObIncrementHandleCount (o : addr) : M (ob W) unit :=
  assert_irql >>>
  let! h := header o in
  assert_ (0 <? RefCount h) >>>
  put_header o (set_HandleCount (snd (InterlockedIncrement (OpenHandleCount h))) h).

Definition ObReferenceObject (o : addr) : M (ob W) unit :=
  assert_irql >>>
  let! h := header o in
  assert_ (negb (RefCount h =? 0)) >>>
  assert_valid o >>>
  put_header o (set_RefCount (snd (InterlockedIncrement (RefCount h))) h).

Definition ObReferenceObjectByPointer (o ty : addr) : M (ob W) KSTATUS :=
  assert_irql >>>
  let! h := header o in
  assert_ (ObjectType h =? ty) >>>
  assert_ (negb (RefCount h =? 0)) >>>
  ObReferenceObject o >>>
  ret STATUS_SUCCESS.

Definition ObDereferenceObject (o : addr) : M (ob W) unit :=
  assert_valid o >>> ObCloseObject o 0.

(** *** obhandle.c: handle tables, by the address of their array *)

Definition entry (t : addr) (i : nat) : M (ob W) Z :=
  deref (λ s, l ← tables s !! t; l !! i).
Definition put_entry (t : addr) (i : nat) (v : Z) : M (ob W) unit :=
  let! l := deref (λ s, tables s !! t) in
  modify (λ s, with_tables (<[t := <[i := v]> l]> (tables s)) s).

Definition ObLookupObjectByHandle (Handle : Z) (t : addr) : M (ob W) (KSTATUS * addr) :=
  assert_ (Handle <? EX_MAX_HANDLE) >>>
  assert_ (negb (Handle =? OB_INVALID_HANDLE)) >>>
  let! o := entry t (Z.to_nat Handle) in ret (STATUS_SUCCESS, o).

Definition ObRemoveHandle (Handle : Z) (t : addr) (o : addr) : M (ob W) unit :=
  assert_ (Handle <? EX_MAX_HANDLE) >>>
  assert_ (negb (Handle =? OB_INVALID_HANDLE)) >>>
  let! x := entry t (Z.to_nat Handle) in
  assert_ (x =? o) >>>
  put_entry t (Z.to_nat Handle) OB_INVALID_HANDLE.

(** The search for a free entry from index [i] on, [n] entries left. *)
Fixpoint insert_loop (n i : nat) (o t : addr) : M (ob W) (option nat) :=
  match n with
  | O => ret None
  | S n' =>
      let! v := entry t i in
      let '(old, new) := InterlockedCompareExchange v o OB_INVALID_HANDLE in
      put_entry t i new >>>
      if old =? OB_INVALID_HANDLE then
        let! x := entry t i in assert_ (x =? o) >>> ret (Some i)
      else insert_loop n' (S i) o t
  end.

Definition ObInsertHandle (o t : addr) : M (ob W) (KSTATUS * Z) :=
  assert_ (negb (o =? NULL)) >>>
  let! _ := header o in
  let! r := insert_loop (Z.to_nat EX_MAX_HANDLE) 0 o t in
  match r with
  | Some i => ret (STATUS_SUCCESS, Z.of_nat i)
  | None => ret (STATUS_TOO_MANY_OPENED_FILES, OB_INVALID_HANDLE)
  end.

Fixpoint deref_loop (n i : nat) (t : addr) : M (ob W) unit :=
  match n with
  | O => ret tt
  | S n' =>
      let! v := entry t i in
      when (negb (v =? OB_INVALID_HANDLE))
        (ObDereferenceObject v >>> put_entry t i OB_INVALID_HANDLE) >>>
      deref_loop n' (S i) t
  end.

Definition ObDerefAllHandleTableObjects (t : addr) : M (ob W) unit :=
  deref_loop (Z.to_nat EX_MAX_HANDLE) 0 t.

Definition table_pages : Z := EX_MAX_HANDLE * sizeof_HANDLE_TABLE_ENTRY / PGSIZE.

Definition ObFreeHandleTable (t : addr) : M (ob W) unit :=
  assert_ (EX_MAX_HANDLE * sizeof_HANDLE_TABLE_ENTRY =? PGSIZE) >>>
  ObDerefAllHandleTableObjects t >>>
  in_outer (FreeSystemPtes t table_pages) >>>
  modify (λ s, with_tables (delete t (tables s)) s).

Fixpoint inherit_loop (n i : nat) (t from : addr) (IsClone : bool) : M (ob W) unit :=
  match n with
  | O => ret tt
  | S n' =>
      let! o := entry from i in
      (if (o =? OB_INVALID_HANDLE) || (o =? NULL) then ret tt
       else
         let! inherit := (if IsClone then ret true else ObIsObjectInheritable o) in
         if (inherit : bool) then ObReferenceObject o >>> put_entry t i o
         else put_entry t i OB_INVALID_HANDLE) >>>
      inherit_loop n' (S i) t from IsClone
  end.

Fixpoint clear_loop (n i : nat) (t : addr) : M (ob W) unit :=
  match n with
  | O => ret tt
  | S n' => put_entry t i OB_INVALID_HANDLE >>> clear_loop n' (S i) t
  end.

(** The array of the new table is a page of system PTEs, with what it holds. *)
Definition ObAllocateHandleTable (InheritHandleTable : option addr) (IsClone : bool)
    : M (ob W) (KSTATUS * addr) :=
  assert_ (EX_MAX_HANDLE * sizeof_HANDLE_TABLE_ENTRY =? PGSIZE) >>>
  when IsClone (assert_ (bool_decide (is_Some InheritHandleTable))) >>>
  let! Memory := in_outer (AllocateSystemPtes table_pages) in
  if Memory =? NULL then ret (STATUS_INSUFFICIENT_RESOURCES, NULL)
  else
    modify (λ s, with_tables (<[Memory := page_words Memory (outer s)]> (tables s)) s) >>>
    match InheritHandleTable with
    | Some from => inherit_loop (Z.to_nat EX_MAX_HANDLE) 0 Memory from IsClone
    | None => clear_loop (Z.to_nat EX_MAX_HANDLE) 0 Memory
    end >>>
    ret (STATUS_SUCCESS, Memory).

(** *** ob.c: handles of the current process *)

Definition ObReferenceObjectByHandle (Handle : Z) (ty : addr) : M (ob W) (KSTATUS * addr) :=
  let! t := gets CurrentHandleTable in
  let! (Status, o) := ObLookupObjectByHandle Handle t in
  assert_ (K_SUCCESS Status) >>>
  let! Status := ObReferenceObjectByPointer o ty in
  assert_ (K_SUCCESS Status) >>>
  ret (STATUS_SUCCESS, o).

(** The handle is not removed from the table. *)
Definition ObClose (Handle : Z) : M (ob W) unit :=
  let! (Status, o) := ObReferenceObjectByHandle Handle NULL in
  assert_ (K_SUCCESS Status) >>>
  ObDereferenceObject o >>>
  if negb (K_SUCCESS Status) then ret tt else ObCloseObject o 1.

Definition ObInsertObject (o : addr) : M (ob W) (KSTATUS * Z) :=
  let! t := gets CurrentHandleTable in
  let! (Status, Handle) := ObInsertHandle o t in
  if negb (K_SUCCESS Status) then ret (Status, Handle)
  else ObIncrementHandleCount o >>> ret (STATUS_SUCCESS, Handle).

End ob.

(** ** Lemmas *)

Section runs.
Context {W : Type} `{!ObWorld W} (call : addr → addr → M (ob W) KSTATUS).
Implicit Type s : ob W.

(** State updates: the last one of a field wins, and those of different fields
    commute to one normal form. *)
Lemma with_objects_id s : with_objects (objects s) s = s.
Proof. by destruct s. Qed.
Lemma with_tables_id s : with_tables (tables s) s = s.
Proof. by destruct s. Qed.
Lemma with_types_id s : with_types (types s) s = s.
Proof. by destruct s. Qed.
Lemma with_outer_id s : with_outer (outer s) s = s.
Proof. by destruct s. Qed.

Lemma header_run {B} o (k : _ → M (ob W) B) s h :
  objects s !! o = Some h → bind (header o) k s = k h s.
Proof. apply (deref_run (λ s, objects s !! o)). Qed.

Lemma put_header_run {B} o h (k : unit → M (ob W) B) s :
  bind (put_header o h) k s = k tt (with_objects (<[o := h]> (objects s)) s).
Proof. reflexivity. Qed.

Lemma type_of_run {B} t (k : _ → M (ob W) B) s x :
  types s !! t = Some x → bind (type_of t) k s = k x s.
Proof. apply (deref_run (λ s, types s !! t)). Qed.

Lemma entry_run {B} t i (k : _ → M (ob W) B) s l v :
  tables s !! t = Some l → l !! i = Some v → bind (entry t i) k s = k v s.
Proof. intros Ht Hi. apply (deref_run (λ s, l ← tables s !! t; l !! i)). by rewrite Ht. Qed.

Lemma put_entry_run {B} t i v (k : unit → M (ob W) B) s l :
  tables s !! t = Some l →
  bind (put_entry t i v) k s = k tt (with_tables (<[t := <[i := v]> l]> (tables s)) s).
Proof. intros Ht. unfold put_entry. rewrite bind_assoc.
  by rewrite (deref_run (λ s, tables s !! t) _ _ l Ht). Qed.

Lemma put_same_run {B} t i v (k : unit → M (ob W) B) s l :
  tables s !! t = Some l → l !! i = Some v → bind (put_entry t i v) k s = k tt s.
Proof.
  intros Ht Hi. rewrite (put_entry_run _ _ _ _ _ l Ht), list_insert_id, insert_id by done.
  by rewrite with_tables_id.
Qed.

Lemma valid_run {B} o (k : unit → M (ob W) B) s h :
  objects s !! o = Some h → Magic h = OBJECT_HEADER_MAGIC → bind (assert_valid o) k s = k tt s.
Proof.
  intros Ho Hm. unfold assert_valid, ObIsValidObject. rewrite !bind_assoc.
  rewrite (header_run _ _ _ h Ho), bind_ret, assert_true by (by apply Z.eqb_eq). done.
Qed.

Lemma irql_run {B} (k : unit → M (ob W) B) s :
  ob_irql (outer s) <= DISPATCH_LEVEL → bind assert_irql k s = k tt s.
Proof.
  intros Hi. unfold assert_irql. rewrite bind_assoc. unfold in_outer, zoom, gets, bind at 1.
  rewrite with_outer_id, assert_true by by apply Z.leb_le. done.
Qed.

Lemma outer_run {A} (m : M W A) s a w :
  m (outer s) = Ok (a, w) → in_outer m s = Ok (a, with_outer w s).
Proof. intros H. unfold in_outer, zoom. by rewrite H. Qed.

(** A critical section: the lock state after it is the one before it. *)
Lemma locked l s :
  @sl_free W (ob_spin l) (outer s) →
  ∃ old w, acquire l s = Ok (old, with_outer w s) ∧
    ∀ s0, outer s0 = w → release l old s0 = Ok (tt, with_outer (outer s) s0).
Proof.
  intros Hf. destruct (@sl_round W (ob_spin l) (outer s) Hf) as (_ & old & w & Ha & Hr).
  exists old, w. split; [by apply outer_run|]. intros s0 <-. by apply outer_run.
Qed.

(** *** Reference counts *)

(** What every live object satisfies, with room for n more references. *)
Definition live (n : Z) (h : OBJECT_HEADER) : Prop :=
  Magic h = OBJECT_HEADER_MAGIC ∧ 1 <= RefCount h ∧ RefCount h + n < 2 ^ 31.

Lemma reference_run o s h :
  objects s !! o = Some h → live 1 h → ob_irql (outer s) <= DISPATCH_LEVEL →
  ObReferenceObject o s = Ok (tt, with_objects (<[o := set_RefCount (RefCount h + 1) h]> (objects s)) s).
Proof.
  intros Ho (Hm & H1 & H2) Hi. unfold ObReferenceObject.
  rewrite irql_run, (header_run _ _ _ h Ho) by done.
  rewrite assert_true by (apply negb_true_iff, Z.eqb_neq; lia).
  rewrite (valid_run _ _ _ h Ho Hm). unfold InterlockedIncrement, InterlockedExchangeAdd. simpl.
  rewrite s32_small by lia. done.
Qed.

Lemma dereference_unfold o s h :
  objects s !! o = Some h → live 0 h → TEST_FLAG (Attributes h) OBJ_PERMANENT = false →
  ObDereferenceObject call o s =
    let s1 := with_objects (<[o := set_RefCount (RefCount h - 1) h]> (objects s)) s in
    if 0 <? RefCount h - 1 then Ok (tt, s1) else ObRemoveObject call o s1.
Proof.
  intros Ho (Hm & H1 & H2) Hp. unfold ObDereferenceObject. rewrite (valid_run _ _ _ h Ho Hm).
  unfold ObCloseObject. rewrite (header_run _ _ _ h Ho), assert_true, Hp by by apply Z.leb_le.
  simpl (negb (0 =? 0)). cbv iota. unfold InterlockedDecrement, InterlockedExchangeAdd.
  rewrite s32_small by lia. rewrite put_header_run. cbv zeta.
  rewrite (header_run _ _ _ (set_RefCount (RefCount h - 1) h)) by apply lookup_insert_eq.
  replace (RefCount h + -1) with (RefCount h - 1) by lia. simpl.
  by destruct (0 <? RefCount h - 1).
Qed.

Lemma remove_run o s h t w :
  objects s !! o = Some h → RefCount h = 0 → OpenHandleCount h = 0 →
  TEST_FLAG (Attributes h) OBJ_PERMANENT = false →
  types s !! ObjectType h = Some t → CloseProcedure t = NULL →
  @sl_free W (ob_spin (TypeLock (ObjectType h))) (outer s) →
  pa_free (o - OFFSET_BODY) (PoolTag t) (outer s) = Ok (tt, w) →
  ObRemoveObject call o s = Ok (tt,
    with_objects (delete o (objects s))
      (with_types (<[ObjectType h := set_list (filter (λ x, x ≠ o) (Object_List t)) t]> (types s))
         (with_outer w s))).
Proof.
  intros Ho Hr Hh Hp Ht Hc Hl Hw. unfold ObRemoveObject.
  rewrite (header_run _ _ _ h Ho), Hr, Hh, Hp, !assert_true by done. cbv zeta.
  rewrite (type_of_run _ _ _ t Ht), Hc. simpl (when _ _). rewrite bind_ret.
  destruct (locked _ _ Hl) as (old & w1 & Ha & Hrel). rewrite (bind_Ok _ _ _ _ _ Ha).
  rewrite (type_of_run _ _ _ t) by done. unfold put_type. rewrite modify_run.
  unfold bind at 1. rewrite Hrel by done.
  rewrite (type_of_run _ _ _ (set_list (filter (λ x, x ≠ o) (Object_List t)) t))
    by (simpl; apply lookup_insert_eq).
  by rewrite (bind_Ok _ _ _ _ _ (outer_run _ (with_outer _ _) _ w Hw)).
Qed.

(** *** Free entries of a handle table *)

Fixpoint first_free (l : list Z) : option nat :=
  match l with
  | [] => None
  | v :: l' => if v =? OB_INVALID_HANDLE then Some O else S <$> first_free l'
  end.

Lemma first_free_spec l :
  match first_free l with
  | Some i => l !! i = Some OB_INVALID_HANDLE ∧ ∀ j, (j < i)%nat → l !! j ≠ Some OB_INVALID_HANDLE
  | None => OB_INVALID_HANDLE ∉ l
  end.
Proof.
  induction l as [|v l IH]; [by apply not_elem_of_nil|]. cbn [first_free].
  destruct (Z.eqb_spec v OB_INVALID_HANDLE) as [->|Hv]; [split; [done|lia]|].
  destruct (first_free l) as [i|]; cbn [fmap option_fmap option_map].
  - destruct IH as [H1 H2]. split; [done|]. intros [|j] Hj; simpl; [congruence|]. apply H2. lia.
  - apply not_elem_of_cons. split; [congruence|done].
Qed.

Lemma insert_loop_run o t s pre suf :
  tables s !! t = Some (pre ++ suf) →
  insert_loop (length suf) (length pre) o t s =
    Ok (match first_free suf with
        | Some k => (Some (length pre + k)%nat,
            with_tables (<[t := <[(length pre + k)%nat := o]> (pre ++ suf)]> (tables s)) s)
        | None => (None, s)
        end).
Proof.
  revert pre. induction suf as [|v suf IH]; intros pre Ht; [done|].
  cbn [insert_loop first_free length].
  assert ((pre ++ v :: suf) !! length pre = Some v) as Hv by by apply list_lookup_middle.
  rewrite (entry_run _ _ _ _ _ v Ht Hv). unfold InterlockedCompareExchange.
  destruct (Z.eqb_spec v OB_INVALID_HANDLE) as [E|E].
  - rewrite (put_entry_run _ _ _ _ _ _ Ht).
    rewrite (entry_run _ _ _ _ (<[length pre := o]> (pre ++ v :: suf)) o).
    + rewrite assert_true by apply Z.eqb_refl. by rewrite Nat.add_0_r.
    + simpl. apply lookup_insert_eq.
    + apply list_lookup_insert_eq. rewrite length_app. simpl. lia.
  - rewrite (put_same_run _ _ _ _ _ _ Ht Hv).
    specialize (IH (pre ++ [v])). rewrite <- app_assoc, length_app in IH. simpl in IH.
    rewrite Nat.add_1_r in IH. rewrite (IH Ht).
    destruct (first_free suf) as [k|]; [|done]. cbn [fmap option_fmap option_map].
    by rewrite Nat.add_succ_r.
Qed.

Lemma insert_handle_run o t s l h :
  tables s !! t = Some l → length l = Z.to_nat EX_MAX_HANDLE → objects s !! o = Some h → o ≠ NULL →
  ObInsertHandle o t s =
    Ok (match first_free l with
        | Some i => ((STATUS_SUCCESS, Z.of_nat i), with_tables (<[t := <[i := o]> l]> (tables s)) s)
        | None => ((STATUS_TOO_MANY_OPENED_FILES, OB_INVALID_HANDLE), s)
        end).
Proof.
  intros Ht Hl Ho Hn. unfold ObInsertHandle.
  rewrite assert_true by by apply negb_true_iff, Z.eqb_neq. rewrite (header_run _ _ _ h Ho).
  pose proof (insert_loop_run o t s [] l Ht) as Hr. cbn [app length Nat.add] in Hr.
  rewrite Hl in Hr. unfold bind. rewrite Hr.
  by destruct (first_free l).
Qed.


Lemma lookup_handle_run i t s l o :
  tables s !! t = Some l → l !! i = Some o → (i < Z.to_nat EX_MAX_HANDLE)%nat →
  ObLookupObjectByHandle (Z.of_nat i) t s = Ok ((STATUS_SUCCESS, o), s).
Proof.
  intros Ht Hi Hb. unfold ObLookupObjectByHandle, EX_MAX_HANDLE in *.
  rewrite assert_true by (apply Z.ltb_lt; lia).
  rewrite assert_true by (apply negb_true_iff, Z.eqb_neq; change OB_INVALID_HANDLE with 4294967295; lia).
  rewrite (entry_run _ _ _ _ l o) by (done || by rewrite Nat2Z.id). done.
Qed.

Lemma remove_handle_run i t s l o :
  tables s !! t = Some l → l !! i = Some o → (i < Z.to_nat EX_MAX_HANDLE)%nat →
  ObRemoveHandle (Z.of_nat i) t o s
  = Ok (tt, with_tables (<[t := <[i := OB_INVALID_HANDLE]> l]> (tables s)) s).
Proof.
  intros Ht Hi Hb. unfold ObRemoveHandle, EX_MAX_HANDLE in *.
  rewrite assert_true by (apply Z.ltb_lt; lia).
  rewrite assert_true by (apply negb_true_iff, Z.eqb_neq; change OB_INVALID_HANDLE with 4294967295; lia).
  rewrite (entry_run _ _ _ _ l o) by (done || by rewrite Nat2Z.id).
  rewrite assert_true by apply Z.eqb_refl. rewrite Nat2Z.id.
  unfold put_entry. by rewrite (deref_run (λ s, tables s !! t) _ _ l Ht).
Qed.

(** *** Inheriting a handle table *)

Definition inherits (IsClone : bool) (h : OBJECT_HEADER) : bool :=
  IsClone || TEST_FLAG (Attributes h) OBJ_INHERIT.

(** What the entry of the new table becomes: [x] is the inherited entry, [y]
    the former contents of the new one. *)
Definition new_entry (objs : gmap addr OBJECT_HEADER) (IsClone : bool) (x y : Z) : Z :=
  if (x =? OB_INVALID_HANDLE) || (x =? NULL) then y
  else match objs !! x with
       | Some h => if inherits IsClone h then x else OB_INVALID_HANDLE
       | None => y
       end.

(** The number of references an object gets. *)
Definition gain (IsClone : bool) (o : addr) (h : OBJECT_HEADER) (l : list Z) : Z :=
  if inherits IsClone h then Z.of_nat (length (filter (λ x, x = o) l)) else 0.

Definition good_entry (objs : gmap addr OBJECT_HEADER) (x : Z) : Prop :=
  x = OB_INVALID_HANDLE ∨ x = NULL ∨ is_Some (objs !! x).

Lemma new_entry_bump objs o h n c x y :
  objs !! o = Some h → new_entry (<[o := set_RefCount n h]> objs) c x y = new_entry objs c x y.
Proof.
  intros Ho. unfold new_entry. destruct (_ || _); [done|].
  destruct (decide (o = x)) as [->|]; [by rewrite lookup_insert_eq, Ho|].
  by rewrite lookup_insert_ne.
Qed.

Lemma gain_cons c o h x l :
  gain c o h (x :: l) = (if decide (x = o) then if inherits c h then 1 else 0 else 0) + gain c o h l.
Proof. unfold gain. rewrite filter_cons. destruct (decide (x = o)), (inherits c h); simpl; lia. Qed.

(** One step of the loop that does something. *)
Lemma inherit_step {B} s t (c : bool) x h i ys (k : unit → M (ob W) B) :
  objects s !! x = Some h → live 1 h → ob_irql (outer s) <= DISPATCH_LEVEL →
  tables s !! t = Some ys →
  bind (let! inherit := (if c then ret true else ObIsObjectInheritable x) in
        if (inherit : bool) then ObReferenceObject x >>> put_entry t i x
        else put_entry t i OB_INVALID_HANDLE) k s
  = k tt (with_tables (<[t := <[i := if inherits c h then x else OB_INVALID_HANDLE]> ys]> (tables s))
      (with_objects (<[x := set_RefCount (RefCount h + if inherits c h then 1 else 0) h]> (objects s)) s)).
Proof.
  intros Ho Hl Hi Ht.
  assert ((if c then ret true else ObIsObjectInheritable x) s = Ok (inherits c h, s)) as Hc.
  { unfold inherits. destruct c; [done|]. unfold ObIsObjectInheritable.
    rewrite (valid_run _ _ _ h Ho) by apply Hl. by rewrite (header_run _ _ _ h Ho). }
  rewrite bind_assoc, (bind_Ok _ _ _ _ _ Hc). destruct (inherits c h).
  - rewrite bind_assoc, (bind_Ok _ _ _ _ _ (reference_run x s h Ho Hl Hi)).
    by rewrite (put_entry_run _ _ _ _ _ ys) by done.
  - rewrite (put_entry_run _ _ _ _ _ ys) by done.
    replace (set_RefCount (RefCount h + 0) h) with h by (rewrite Z.add_0_r; by destruct h).
    by rewrite (insert_id (objects s)), with_objects_id.
Qed.

(** The object store after the entries [l] were inherited. *)
Definition refs_added (c : bool) (l : list Z) (objs objs' : gmap addr OBJECT_HEADER) : Prop :=
  ∀ o, objs' !! o = (λ h, set_RefCount (RefCount h + gain c o h l) h) <$> objs !! o.

Definition room (n : Z) (objs : gmap addr OBJECT_HEADER) : Prop :=
  objs !! OB_INVALID_HANDLE = None ∧ objs !! NULL = None ∧ ∀ o h, objs !! o = Some h → live n h.

Lemma set_RefCount_id h n : n = RefCount h → set_RefCount n h = h.
Proof. intros ->. by destruct h. Qed.

Lemma refs_added_none c x objs :
  objs !! x = None → refs_added c [x] objs objs.
Proof.
  intros Hx o. destruct (objs !! o) as [h|] eqn:Ho; [|done]. simpl. f_equal.
  rewrite gain_cons. destruct (decide (x = o)) as [->|]; [congruence|].
  symmetry. apply set_RefCount_id. unfold gain. simpl. destruct (inherits c h); lia.
Qed.

Lemma refs_added_app c x l objs objs1 objs2 :
  refs_added c [x] objs objs1 → refs_added c l objs1 objs2 → refs_added c (x :: l) objs objs2.
Proof.
  intros H1 H2 o. rewrite H2, H1. destruct (objs !! o) as [h|]; [|done]. simpl. f_equal.
  rewrite !gain_cons. unfold gain, inherits. simpl. unfold set_RefCount. simpl. f_equal.
  destruct (_ || _); lia.
Qed.

Lemma refs_added_entry c l objs objs' c' x y :
  refs_added c l objs objs' → new_entry objs' c' x y = new_entry objs c' x y.
Proof. intros H. unfold new_entry. rewrite H. by destruct (objs !! x). Qed.

Lemma refs_added_good c l objs objs' x : refs_added c l objs objs' → good_entry objs x → good_entry objs' x.
Proof.
  intros H [?|[?|[h Hx]]]; [by left|by right; left|right; right]. rewrite H, Hx. by eexists.
Qed.

Lemma refs_added_room c x objs objs' n :
  refs_added c [x] objs objs' → room (1 + n) objs → room n objs'.
Proof.
  intros H (H1 & H2 & Hl). repeat split.
  - by rewrite H, H1.
  - by rewrite H, H2.
  - rewrite H in *. destruct (objs !! o) as [h0|] eqn:E; [|done].
    match goal with Hs : _ <$> Some _ = Some _ |- _ => injection Hs as <- end.
    by apply (Hl o h0 E).
  - rewrite H in *. destruct (objs !! o) as [h0|] eqn:E; [|done].
    match goal with Hs : _ <$> Some _ = Some _ |- _ => injection Hs as <- end.
    pose proof (Hl o h0 E) as (_ & ? & _). simpl. unfold gain. destruct (inherits _ _); lia.
  - rewrite H in *. destruct (objs !! o) as [h0|] eqn:E; [|done].
    match goal with Hs : _ <$> Some _ = Some _ |- _ => injection Hs as <- end.
    pose proof (Hl o h0 E) as (_ & _ & ?). simpl. rewrite gain_cons. unfold gain. simpl.
    destruct (decide _), (inherits _ _); lia.
Qed.

(** One iteration of the loop. *)
Lemma inherit_entry {B} s t (c : bool) x y i (k : unit → M (ob W) B) q1 q2 n :
  good_entry (objects s) x → room (1 + n) (objects s) → 0 <= n →
  ob_irql (outer s) <= DISPATCH_LEVEL → tables s !! t = Some (q1 ++ y :: q2) → length q1 = i →
  ∃ objs', refs_added c [x] (objects s) objs' ∧
    bind (if (x =? OB_INVALID_HANDLE) || (x =? NULL) then ret tt
          else
            let! inherit := (if c then ret true else ObIsObjectInheritable x) in
            if (inherit : bool) then ObReferenceObject x >>> put_entry t i x
            else put_entry t i OB_INVALID_HANDLE) k s
    = k tt (with_tables (<[t := q1 ++ new_entry (objects s) c x y :: q2]> (tables s))
             (with_objects objs' s)).
Proof.
  intros Hx (H1 & H2 & Hl) Hn Hi Ht <-. unfold new_entry.
  destruct (Z.eqb_spec x OB_INVALID_HANDLE) as [->|E1]; [|destruct (Z.eqb_spec x NULL) as [->|E2]];
    cbn [orb].
  - exists (objects s). split; [by apply refs_added_none|].
    rewrite bind_ret, insert_id by done. by rewrite with_objects_id, with_tables_id.
  - exists (objects s). split; [by apply refs_added_none|].
    rewrite bind_ret, insert_id by done. by rewrite with_objects_id, with_tables_id.
  - destruct Hx as [?|[?|[h Hx]]]; [done..|]. rewrite Hx.
    exists (<[x := set_RefCount (RefCount h + if inherits c h then 1 else 0) h]> (objects s)).
    split; [|rewrite (inherit_step s t c x h _ (q1 ++ y :: q2)); try done].
    + intros o. destruct (decide (x = o)) as [<-|Ho].
      * rewrite lookup_insert_eq, Hx. simpl. do 2 f_equal. rewrite gain_cons.
        rewrite decide_True by done. unfold gain. simpl. destruct (inherits c h); lia.
      * rewrite lookup_insert_ne by done. destruct (objects s !! o) as [h'|]; [|done].
        simpl. f_equal. symmetry. apply set_RefCount_id. rewrite gain_cons.
        rewrite decide_False by done. unfold gain. simpl. destruct (inherits c h'); lia.
    + rewrite insert_app_r_alt, Nat.sub_diag by done. done.
    + destruct (Hl x h Hx) as (? & ? & ?). repeat split; [done|done|lia].
Qed.

Lemma inherit_loop_run c from t pre suf q1 q2 s :
  from ≠ t → tables s !! from = Some (pre ++ suf) → tables s !! t = Some (q1 ++ q2) →
  length q1 = length pre → length q2 = length suf →
  ob_irql (outer s) <= DISPATCH_LEVEL → Forall (good_entry (objects s)) suf →
  room (Z.of_nat (length suf)) (objects s) →
  ∃ objs', refs_added c suf (objects s) objs' ∧
    inherit_loop (length suf) (length pre) t from c s = Ok (tt,
      with_tables (<[t := q1 ++ zip_with (new_entry (objects s) c) suf q2]> (tables s))
        (with_objects objs' s)).
Proof.
  intros Hne. revert pre q1 q2 s. induction suf as [|x suf IH];
    intros pre q1 q2 s Hf Ht Hq1 Hq2 Hi Hg Hl; (destruct q2 as [|y q2]; [try done|]); [|done|].
  { exists (objects s). split.
    - intros o. destruct (objects s !! o) as [h|]; [|done]. simpl. f_equal. symmetry.
      apply set_RefCount_id. unfold gain. simpl. destruct (inherits c h); lia.
    - cbn [zip_with inherit_loop length]. by rewrite insert_id, with_objects_id, with_tables_id. }
  apply Forall_cons in Hg as [Hx Hg]. cbn [length inherit_loop].
  rewrite (entry_run _ _ _ _ _ x Hf) by by apply list_lookup_middle.
  replace (Z.of_nat (length (x :: suf))) with (1 + Z.of_nat (length suf)) in Hl by (simpl; lia).
  destruct (inherit_entry (B := unit) s t c x y (length pre) (λ _, inherit_loop (length suf) (S (length pre)) t from c)
    q1 q2 (Z.of_nat (length suf)) Hx Hl ltac:(lia) Hi Ht Hq1) as (objs1 & Ho1 & ->).
  set (s1 := with_tables _ _).
  destruct (IH (pre ++ [x]) (q1 ++ [new_entry (objects s) c x y]) q2 s1) as (objs2 & Ho2 & Hr).
  - simpl. rewrite lookup_insert_ne, <- app_assoc by done. done.
  - simpl. rewrite lookup_insert_eq, <- app_assoc. done.
  - rewrite !length_app. simpl. lia.
  - by injection Hq2.
  - done.
  - eapply Forall_impl; [exact Hg|]. intros z. simpl. by apply (refs_added_good _ _ _ _ _ Ho1).
  - simpl. by apply (refs_added_room _ _ _ _ _ Ho1).
  - exists objs2. split; [by apply (refs_added_app _ _ _ _ objs1)|].
    rewrite length_app in Hr. simpl in Hr. rewrite Nat.add_1_r in Hr. rewrite Hr.
    unfold s1. unfold with_tables, with_objects. simpl. rewrite insert_insert_eq, <- app_assoc. simpl.
    rewrite (zip_with_ext (new_entry objs1 c) (new_entry (objects s) c) suf suf q2 q2); [done| |done..].
    intros z w. by apply (refs_added_entry _ _ _ _ _ _ _ Ho1).
Qed.

Lemma allocate_table_run c from l s p w :
  tables s !! from = Some l → length l = Z.to_nat EX_MAX_HANDLE → from ≠ p → p ≠ NULL →
  AllocateSystemPtes table_pages (outer s) = Ok (p, w) → length (page_words p w) = Z.to_nat EX_MAX_HANDLE →
  ob_irql w <= DISPATCH_LEVEL → Forall (good_entry (objects s)) l → room EX_MAX_HANDLE (objects s) →
  ∃ objs', refs_added c l (objects s) objs' ∧
    ObAllocateHandleTable (Some from) c s = Ok ((STATUS_SUCCESS, p),
      with_tables (<[p := zip_with (new_entry (objects s) c) l (page_words p w)]> (tables s))
        (with_objects objs' (with_outer w s))).
Proof.
  intros Ht Hl Hne Hp Ha Hw Hi Hg Hr. unfold ObAllocateHandleTable.
  rewrite assert_true by done.
  replace (when c (assert_ (bool_decide (is_Some (Some from))))) with (ret (S := ob W) tt)
    by (by destruct c).
  rewrite bind_ret, (bind_Ok _ _ _ _ _ (outer_run _ s p w Ha)).
  destruct (Z.eqb_spec p NULL) as [|_]; [done|]. rewrite modify_run. cbn [outer with_outer].
  set (s1 := with_tables _ _).
  destruct (inherit_loop_run c from p [] l [] (page_words p w) s1) as (objs' & Ho & Hrun); try done.
  - simpl. by rewrite lookup_insert_ne.
  - simpl. by rewrite lookup_insert_eq.
  - by rewrite Hw, Hl.
  - rewrite Hl. by unfold s1.
  - exists objs'. split; [done|]. rewrite Hl in Hrun. cbn [length app] in Hrun.
    rewrite (bind_Ok _ _ _ _ _ Hrun). unfold s1, with_tables, with_objects, with_outer. simpl.
    by rewrite insert_insert_eq.
Qed.

(** A reference by handle that succeeds is to an object of the given type. *)
Lemma lookup_handle_state Handle t s r s' :
  ObLookupObjectByHandle Handle t s = Ok (r, s') → s' = s.
Proof.
  unfold ObLookupObjectByHandle, assert_, entry, bind, deref, ret.
  repeat case_match; intros; simplify_eq; done.
Qed.

Lemma by_pointer_type o ty s r s' :
  ObReferenceObjectByPointer o ty s = Ok (r, s') →
  ∃ h, objects s !! o = Some h ∧ ObjectType h = ty.
Proof.
  unfold ObReferenceObjectByPointer. intros ([] & s1 & H1 & H)%bind_Ok_inv.
  assert (s1 = s) as ->.
  { revert H1. unfold assert_irql, in_outer, zoom, gets, bind, assert_, ret, halt.
    repeat case_match; intros; simplify_eq. apply with_outer_id. }
  apply bind_Ok_inv in H as (h & s2 & H2 & H). unfold header, deref in H2.
  destruct (objects s !! o) as [h'|]; [|done]. injection H2 as -> <-.
  apply bind_Ok_inv in H as ([] & s3 & H3 & _). exists h. split; [done|].
  destruct (Z.eqb_spec (ObjectType h) ty); done.
Qed.

Lemma by_handle_type Handle ty s r s' :
  ObReferenceObjectByHandle Handle ty s = Ok (r, s') →
  ∃ o h, objects s !! o = Some h ∧ ObjectType h = ty.
Proof.
  unfold ObReferenceObjectByHandle, gets. intros (t & s1 & [= <- <-] & H)%bind_Ok_inv.
  apply bind_Ok_inv in H as ([st o] & s2 & E%lookup_handle_state & H). subst s2.
  apply bind_Ok_inv in H as ([] & s3 & E & H).
  assert (s3 = s) as -> by (unfold assert_ in E; destruct (K_SUCCESS st); [by injection E|done]).
  apply bind_Ok_inv in H as (r' & s4 & H%by_pointer_type & _). by exists o.
Qed.

(** ** The theorems *)

(** C17: dropping a reference of an object that is not permanent counts down,
    and with the last one the object disappears: it leaves the list of its
    type, its memory goes back to the pool with the tag of the type, and its
    address is no object any more; a permanent object loses no reference. *)
Theorem dereference_counts o s h t w :
  objects s !! o = Some h → live 0 h → types s !! ObjectType h = Some t →
  (RefCount h = 1 → OpenHandleCount h = 0 ∧ CloseProcedure t = NULL ∧
     @sl_free W (ob_spin (TypeLock (ObjectType h))) (outer s) ∧
     pa_free (o - OFFSET_BODY) (PoolTag t) (outer s) = Ok (tt, w)) →
  (TEST_FLAG (Attributes h) OBJ_PERMANENT = true → Buffer (ObjectName h) ≠ NULL) →
  ObDereferenceObject call o s = Ok (tt,
    if TEST_FLAG (Attributes h) OBJ_PERMANENT then s
    else if RefCount h =? 1 then
      with_objects (delete o (objects s))
        (with_types (<[ObjectType h := set_list (filter (λ x, x ≠ o) (Object_List t)) t]> (types s))
           (with_outer w s))
    else with_objects (<[o := set_RefCount (RefCount h - 1) h]> (objects s)) s).
Proof.
  intros Ho Hl Ht Hlast Hb. destruct (TEST_FLAG (Attributes h) OBJ_PERMANENT) eqn:Hp.
  - unfold ObDereferenceObject. rewrite (valid_run _ _ _ h Ho) by apply Hl. unfold ObCloseObject.
    rewrite (header_run _ _ _ h Ho), assert_true, Hp by (apply Z.leb_le; apply Hl).
    destruct (Z.eqb_spec (Buffer (ObjectName h)) NULL); [by destruct (Hb eq_refl)|done].
  - rewrite (dereference_unfold o s h Ho Hl Hp). cbv zeta. destruct Hl as (_ & H1 & _).
    destruct (Z.eqb_spec (RefCount h) 1) as [E|E].
    + destruct (Hlast E) as (Hh & Hc & Hf & Hw). rewrite E. simpl (0 <? 1 - 1). cbv iota.
      rewrite (remove_run o _ (set_RefCount (1 - 1) h) t w); simpl; try done.
      * unfold with_objects, with_types, with_outer. simpl. by rewrite delete_insert_eq.
      * by rewrite lookup_insert_eq.
    + destruct (Z.ltb_spec 0 (RefCount h - 1)); [done|lia].
Qed.

(** ObInsertHandle gives an object the lowest free handle; looking the
    handle up finds the object and removing it restores the table; when no
    entry is free it reports it and changes nothing. *)
Theorem insert_handle_lowest_free o t s l h :
  tables s !! t = Some l → length l = Z.to_nat EX_MAX_HANDLE → objects s !! o = Some h → o ≠ NULL →
  (OB_INVALID_HANDLE ∉ l ∧
   ObInsertHandle o t s = Ok ((STATUS_TOO_MANY_OPENED_FILES, OB_INVALID_HANDLE), s)) ∨
  ∃ i s', ObInsertHandle o t s = Ok ((STATUS_SUCCESS, Z.of_nat i), s') ∧
    l !! i = Some OB_INVALID_HANDLE ∧ (∀ j, (j < i)%nat → l !! j ≠ Some OB_INVALID_HANDLE) ∧
    tables s' !! t = Some (<[i := o]> l) ∧
    ObLookupObjectByHandle (Z.of_nat i) t s' = Ok ((STATUS_SUCCESS, o), s') ∧
    ObRemoveHandle (Z.of_nat i) t o s' = Ok (tt, s).
Proof.
  intros Ht Hl Ho Hn. rewrite (insert_handle_run o t s l h Ht Hl Ho Hn).
  pose proof (first_free_spec l) as Hs. destruct (first_free l) as [i|]; [right|by left].
  destruct Hs as [Hi Hlow]. pose proof (lookup_lt_Some _ _ _ Hi) as Hb.
  set (s' := with_tables _ s). exists i, s'. split; [done|].
  assert (tables s' !! t = Some (<[i := o]> l)) as Ht' by apply lookup_insert_eq.
  assert (<[i := o]> l !! i = Some o) as Hi' by by apply list_lookup_insert_eq.
  split; [done|]. split; [done|]. split; [done|]. split.
  - apply (lookup_handle_run i t s' _ o Ht' Hi'). lia.
  - rewrite (remove_handle_run i t s' _ o Ht' Hi') by lia. unfold s'. simpl.
    rewrite list_insert_insert_eq, list_insert_id by done.
    unfold with_tables. simpl. rewrite insert_insert_eq, insert_id by done. by destruct s.
Qed.


(** The entries of a cloned table whose handle is free in the original are
    not initialised; when the fresh page is zero, not one of its entries is
    free, and no handle can ever be inserted in the cloned table. *)
Theorem cloned_table_is_full from l s p w :
  tables s !! from = Some l → length l = Z.to_nat EX_MAX_HANDLE → from ≠ p → p ≠ NULL →
  AllocateSystemPtes table_pages (outer s) = Ok (p, w) →
  page_words p w = replicate (Z.to_nat EX_MAX_HANDLE) 0 →
  ob_irql w <= DISPATCH_LEVEL → Forall (good_entry (objects s)) l → room EX_MAX_HANDLE (objects s) →
  ∃ s', ObAllocateHandleTable (Some from) true s = Ok ((STATUS_SUCCESS, p), s') ∧
    ∀ o h, objects s !! o = Some h →
      ObInsertHandle o p s' = Ok ((STATUS_TOO_MANY_OPENED_FILES, OB_INVALID_HANDLE), s').
Proof.
  intros Ht Hl Hne Hp Ha Hw Hi Hg Hr.
  destruct (allocate_table_run true from l s p w) as (objs' & Ho & Hrun); try done.
  { by rewrite Hw, length_replicate. }
  eexists. split; [exact Hrun|]. intros o h Hoh. set (l' := zip_with _ _ _).
  rewrite (insert_handle_run o p _ l' (set_RefCount (RefCount h + gain true o h l) h)).
  - pose proof (first_free_spec l') as Hs. destruct (first_free l') as [i|]; [exfalso|done].
    destruct Hs as [Hs _]. unfold l' in Hs. apply lookup_zip_with_Some in Hs as (x & y & E & Hx & Hy).
    rewrite Hw in Hy. apply lookup_replicate in Hy as [-> _].
    unfold new_entry in E. destruct (Z.eqb_spec x OB_INVALID_HANDLE) as [|Hxi]; [done|].
    destruct (x =? NULL); [done|]. cbn [orb] in E. destruct (objects s !! x); [|done].
    unfold inherits in E. cbn [orb] in E. congruence.
  - simpl. apply lookup_insert_eq.
  - unfold l'. rewrite length_zip_with, Hw, length_replicate, Hl. lia.
  - simpl. by rewrite Ho, Hoh.
  - intros ->. destruct Hr as (_ & R2 & _). congruence.
Qed.

(** ObClose never returns: it asks for the object of the handle with a
    NULL type, which no object has. *)
Theorem close_never_returns Handle s :
  map_Forall (λ _ h, ObjectType h ≠ NULL) (objects s) → ∃ e, ObClose call Handle s = Stop e.
Proof.
  intros Hty. destruct (ObClose call Handle s) as [[[] s']|e] eqn:H; [exfalso|by exists e].
  unfold ObClose in H.
  apply bind_Ok_inv in H as (r & s1 & (o & h & Ho & Ht)%by_handle_type & _).
  by apply (Hty o h Ho).
Qed.

End runs.

(** ** The kernel below the object manager

    The pools with their lock, and the spin locks of the processor, implement
    the interface; the system PTEs are given by their operations. *)

#[program] Definition pools_world {W} : lens (pools W) W := Lens world (λ w s, Pools (KernelPools s) w) _ _ _.
Next Obligation. done. Qed.
Next Obligation. by intros W []. Qed.
Next Obligation. done. Qed.

#[program] Definition kernel_world {W} (locks : addr → SpinLock W) (irql : W → Z)
    (irql_free : ∀ a w, @sl_free W (locks a) w → irql w <= DISPATCH_LEVEL)
    (PoolLock : addr) (lock_addr : ob_lock → addr)
    (alloc : Z → M (pools W) addr) (free : addr → Z → M (pools W) unit)
    (words : addr → pools W → list Z) : ObWorld (pools W) := {|
  ob_pool := @kernel_pools W (locks PoolLock);
  ob_spin l := zoom_spinlock pools_world (locks (lock_addr l));
  ob_irql s := irql (world s);
  AllocateSystemPtes := alloc;
  FreeSystemPtes := free;
  page_words := words |}.
Next Obligation. intros W locks irql H ? lock_addr ??? l s Hf. exact (H _ _ Hf). Qed.
Next Obligation.
  intros W locks irql ? PoolLock ???? l pt n tag s p s' Hready Hf Hrun.
  destruct (@pool_round W (locks PoolLock) pt n tag s Hready) as (p' & s'' & Hr & Hw & _).
  assert (Ok (p', s'') = Ok (p, s')) as [= -> ->] by (rewrite <- Hr; exact Hrun).
  unfold sl_free, zoom_spinlock, view, pools_world. by rewrite Hw.
Qed.

(** Its locks are those of a processor. *)
Definition prcb_locks (run_dpc : addr → M prcb unit) (a : addr) : SpinLock prcb := prcb_spinlock run_dpc 0 a.
Lemma prcb_irql_free run_dpc a p : @sl_free _ (prcb_locks run_dpc a) p → CurrentIrql p <= DISPATCH_LEVEL.
Proof. by intros (_ & H & _). Qed.

(** A kernel that is a part of the state. *)
#[program] Definition zoom_world {T W} (l : lens T W) `{!ObWorld W} : ObWorld T := {|
  ob_pool := zoom_pool l;
  ob_spin k := zoom_spinlock l (ob_spin k);
  ob_irql s := ob_irql (view l s);
  AllocateSystemPtes n := inside l (AllocateSystemPtes n);
  FreeSystemPtes a n := inside l (FreeSystemPtes a n);
  page_words a s := page_words a (view l s) |}.
Next Obligation. intros T W l O k s Hf. exact (ob_irql_free k (view l s) Hf). Qed.
Next Obligation.
  intros T W l O k pt n tag s p s' Hr Hf Ha. cbn in Ha. unfold inside, zoom in Ha.
  destruct (pa_alloc pt n tag (view l s)) as [[q w]|] eqn:E; [|done]. injection Ha as -> <-.
  cbn. rewrite view_update. exact (ob_spin_alloc k pt n tag (view l s) p w Hr Hf E).
Qed.

(** ** Concrete runs

    The pools are those of Pool.v; system PTEs are one page at 0x9000 that is
    full of zeros. *)

#[local] Instance demo_ob_world : ObWorld (pools prcb) :=
  kernel_world (prcb_locks demo_run) CurrentIrql (prcb_irql_free demo_run) 2 (λ _, 3) (λ _, ret 0x9000) (λ _ _, ret tt)
    (λ _ _, replicate (Z.to_nat EX_MAX_HANDLE) 0).

Definition demo_name : UNICODE_STRING := UnicodeString 0 0 NULL [].
Definition demo_header (rc : Z) : OBJECT_HEADER :=
  Header OBJECT_HEADER_MAGIC false (ObjectTypeList 1) 0 rc demo_name 0 Other.
Definition demo_type (l : list addr) : OBJECT_TYPE := ObType NonPagedPool 28 1 1 l NULL NULL.
Definition demo_call : addr → addr → M (ob (pools prcb)) KSTATUS := λ _ _, ret STATUS_SUCCESS.
Definition demo_locks : prcb :=
  Prcb 0 7 [] 0 {[ 2 := SpinLk 0 NULL 0; 3 := SpinLk 0 NULL 0 ]} ∅.

(** The object at [pool start + 24 + 48]: its header is the allocated block at
    the start of the pool. *)
Definition demo_object : addr := MMNONPAGEPOOL_START + 24 + OFFSET_BODY.
Definition demo_block : POOLHEADER := mark 1 POOL_STATUS_ALLOCATED demo_nonpaged.
Definition demo_ob (rc : Z) (t : list Z) : ob (pools prcb) :=
  ObState {[ demo_object := demo_header rc ]} {[ ObjectTypeList 1 := demo_type [demo_object] ]}
    {[ 0x8000 := t ]} 0 0 (ObjectTypeList 1) 0 0 0x8000
    (Pools {[ PagedPool := [demo_paged]; NonPagedPool := [demo_block] ]} demo_locks).

Lemma dereference_counts_witness :
  ∃ s', ObDereferenceObject demo_call demo_object (demo_ob 1 []) = Ok (tt, s') ∧
    objects s' = ∅ ∧ types s' = {[ ObjectTypeList 1 := demo_type [] ]} ∧
    KernelPools (outer s') !! NonPagedPool = Some [demo_nonpaged].
Proof.
  eexists. split; [apply (dereference_counts demo_call demo_object (demo_ob 1 []) (demo_header 1)
    (demo_type [demo_object]) (Pools {[ PagedPool := [demo_paged]; NonPagedPool := [demo_nonpaged] ]} demo_locks))|].
  - reflexivity.
  - repeat split; (reflexivity || discriminate).
  - reflexivity.
  - intros _. repeat split; try reflexivity; try discriminate. by right.
  - discriminate.
  - vm_compute. repeat split; reflexivity.
Defined.

Definition demo_table : list Z := demo_object :: replicate (Z.to_nat 1023) OB_INVALID_HANDLE.

Lemma demo_table_length : length demo_table = Z.to_nat EX_MAX_HANDLE.
Proof. unfold demo_table. cbn [length]. rewrite length_replicate. unfold EX_MAX_HANDLE. lia. Qed.

Lemma insert_handle_lowest_free_witness :
  ∃ s', ObInsertHandle demo_object 0x8000 (demo_ob 1 demo_table) = Ok ((STATUS_SUCCESS, 1), s') ∧
    ObLookupObjectByHandle 1 0x8000 s' = Ok ((STATUS_SUCCESS, demo_object), s') ∧
    ObRemoveHandle 1 0x8000 demo_object s' = Ok (tt, demo_ob 1 demo_table).
Proof.
  destruct (insert_handle_lowest_free demo_object 0x8000 (demo_ob 1 demo_table) demo_table (demo_header 1))
    as [[Hn _]|(i & s' & Hr & Hi & Hlow & _ & Hlook & Hrem)].
  - reflexivity.
  - apply demo_table_length.
  - reflexivity.
  - discriminate.
  - exfalso. apply Hn. right. left.
  - assert (i = 1%nat) as ->; [|by exists s'].
    destruct i as [|[|i]]; [discriminate|done|]. exfalso. by apply (Hlow 1%nat); [lia|].
Defined.

Lemma demo_room rc l : 1 <= rc < 2 ^ 31 - 1024 → room EX_MAX_HANDLE (objects (demo_ob rc l)).
Proof.
  intros Hrc. split; [done|]. split; [done|]. intros o h.
  change (objects (demo_ob rc l)) with ({[ demo_object := demo_header rc ]} : gmap addr OBJECT_HEADER).
  intros [_ <-]%lookup_singleton_Some. repeat split; [simpl; lia|].
  unfold EX_MAX_HANDLE. simpl. lia.
Qed.

Lemma demo_good rc l : Forall (good_entry (objects (demo_ob rc l))) demo_table.
Proof.
  constructor; [right; right; by eexists|]. apply Forall_replicate. by left.
Qed.


Lemma cloned_table_is_full_witness :
  ∃ s', ObAllocateHandleTable (Some 0x8000) true (demo_ob 1 demo_table) = Ok ((STATUS_SUCCESS, 0x9000), s') ∧
    ObInsertHandle demo_object 0x9000 s' = Ok ((STATUS_TOO_MANY_OPENED_FILES, OB_INVALID_HANDLE), s').
Proof.
  destruct (cloned_table_is_full 0x8000 demo_table (demo_ob 1 demo_table) 0x9000 (outer (demo_ob 1 demo_table)))
    as (s' & Hr & Hi).
  - reflexivity.
  - apply demo_table_length.
  - discriminate.
  - discriminate.
  - reflexivity.
  - reflexivity.
  - discriminate.
  - apply demo_good.
  - by apply demo_room.
  - exists s'. split; [exact Hr|]. by apply (Hi demo_object (demo_header 1)).
Defined.

Lemma close_never_returns_witness :
  ∃ e, ObClose demo_call 0 (demo_ob 1 demo_table) = Stop e.
Proof.
  apply (close_never_returns demo_call 0 (demo_ob 1 demo_table)).
  intros o h Hh. change (({[ demo_object := demo_header 1 ]} : gmap addr OBJECT_HEADER) !! o = Some h) in Hh.
  apply lookup_singleton_Some in Hh as [_ <-]. discriminate.
Defined.
