(* ===== verification/ObName.v ===== *)
(** * ObName: the object name space
    (kern/ob/obname.c, obdir.c, obsym.c, ObCreateObject and Ob_init of ob.c,
    the name buffers of ob.h, kern/lib/unicode.c)

    A pointer to a character is represented by the characters from there to the
    terminator, so that advancing it drops characters.  The messages the code
    logs, and ObpPrintDirectoryTree which only prints, are left out. *)

From S2P Require Import Prelude Types Irql Pool Ob.

(** ** unicode.c: counted strings *)

(** strncmp on the characters before the terminators. *)
Fixpoint strncmp_text (n : nat) (p q : list Z) : Z :=
  match n with
  | O => 0
  | S k =>
      let a := hd 0 p in let b := hd 0 q in
      if negb (a =? 0) && (a =? b) then strncmp_text k (tl p) (tl q) else a - b
  end.

Definition RtlCompareUnicodeString (Str1 Str2 : UNICODE_STRING) : Z :=
  if Length Str2 <? Length Str1 then -1
  else if Length Str1 <? Length Str2 then 1
  else strncmp_text (Z.to_nat (Length Str1)) (text Str1) (text Str2).

Definition RtlCopyUnicodeString (Destination Source : UNICODE_STRING) : UNICODE_STRING :=
  let SourceLength := Z.min (MaximumLength Destination) (Length Source) in
  UnicodeString (u16 SourceLength) (MaximumLength Destination) (Buffer Destination)
    (take (Z.to_nat SourceLength) (text Source)).

(** [p] is the address of the characters. *)
Definition RtlInitUnicodeString (p : addr) (chars : list Z) : UNICODE_STRING :=
  if p =? NULL then UnicodeString 0 0 NULL []
  else UnicodeString (u16 (Z.of_nat (length chars))) (u16 (u16 (Z.of_nat (length chars)) + 1)) p chars.

(** ** Paths *)

Definition IsPathSeperator (x : Z) : bool := (x =? 92) || (x =? 47).

Fixpoint skip_separators (StartPtr : list Z) : list Z :=
  match StartPtr with
  | [] => []
  | c :: r => if IsPathSeperator c then skip_separators r else StartPtr
  end.

(** The characters up to EndPtr, and what is left from there. *)
Fixpoint take_name (EndPtr : list Z) : list Z * list Z :=
  match EndPtr with
  | [] => ([], [])
  | c :: r => if IsPathSeperator c then ([], EndPtr) else let '(n, e) := take_name r in (c :: n, e)
  end.

Record OBP_LOOKUP_CONTEXT := LookupContext {
  ctx_Directory : addr; ctx_Object : addr; LastMountPoint : addr; ParsedTill : list Z;
  DirectoryLocked : bool; ctx_OldIrql : Z }.

Definition ObInitializeLookupContext : OBP_LOOKUP_CONTEXT := LookupContext NULL NULL NULL [] false 0.

Definition set_ParsedTill (p : list Z) (c : OBP_LOOKUP_CONTEXT) : OBP_LOOKUP_CONTEXT :=
  LookupContext (ctx_Directory c) (ctx_Object c) (LastMountPoint c) p (DirectoryLocked c) (ctx_OldIrql c).
Definition set_found (d o : addr) (c : OBP_LOOKUP_CONTEXT) : OBP_LOOKUP_CONTEXT :=
  LookupContext d o (LastMountPoint c) (ParsedTill c) (DirectoryLocked c) (ctx_OldIrql c).
Definition set_mount (m : addr) (c : OBP_LOOKUP_CONTEXT) : OBP_LOOKUP_CONTEXT :=
  LookupContext (ctx_Directory c) (ctx_Object c) m (ParsedTill c) (DirectoryLocked c) (ctx_OldIrql c).
Definition set_locked (b : bool) (i : Z) (c : OBP_LOOKUP_CONTEXT) : OBP_LOOKUP_CONTEXT :=
  LookupContext (ctx_Directory c) (ctx_Object c) (LastMountPoint c) (ParsedTill c) b i.

Record OBJECT_ATTRIBUTES := ObjectAttributes {
  RootDirectory : Z; AttrName : option UNICODE_STRING; AttrAttributes : Z }.

(** The multi-character constants of the pool tags. *)
Definition tag_mNbO : Z := 0x6D4E624F.
Definition tag_tjbo : Z := 0x746A626F.

Definition sizeof_OBJECT_DIRECTORY : Z := 28.
Definition sizeof_OBJECT_SYMBOLIC_LINK : Z := 8.

(** Strings of the source text are somewhere in the kernel image. *)
Definition literal : addr := KERNBASE.

Section names.
Context {W : Type} `{!ObWorld W} (call : addr → addr → M (ob W) KSTATUS).

(** *** ob.h: name buffers *)

Definition ObpAllocateObjectNameBuffer (Length : Z) : M (ob W) (KSTATUS * UNICODE_STRING) :=
  assert_ (Length <=? MAX_OBJECT_NAME_SIZE) >>>
  let! Buffer := in_outer (pa_alloc NonPagedPool MAX_OBJECT_NAME_SIZE tag_mNbO) in
  if Buffer =? NULL then ret (STATUS_INSUFFICIENT_RESOURCES, UnicodeString 0 0 NULL [])
  else ret (STATUS_SUCCESS, UnicodeString 0 MAX_OBJECT_NAME_SIZE Buffer []).

Definition ObpFreeObjectNameBuffer (n : UNICODE_STRING) : M (ob W) unit :=
  in_outer (pa_free (Buffer n) tag_mNbO).

(** *** obname.c: the next component of a path

    The terminator is written at Buffer[Length], beyond the buffer for a
    component of MaximumLength characters, which the assertion lets pass. *)
Definition ObParseDirectoryPath (Name : list Z) (DirName : UNICODE_STRING)
    (ParsedTill : list Z) : M (ob W) (bool * UNICODE_STRING * list Z) :=
  match skip_separators Name with
  | [] => ret (false, DirName, ParsedTill)
  | c :: r =>
      let '(n, EndPtr) := take_name r in
      let Length := Z.of_nat (length (c :: n)) in
      assert_ (Length <=? MaximumLength DirName) >>>
      if Length <? MaximumLength DirName then
        ret (true, UnicodeString (u16 Length) (MaximumLength DirName) (Buffer DirName) (c :: n), EndPtr)
      else halt Fault
  end.

(** *** obdir.c: entries of a directory *)

Definition ObpAcquireDirectoryLock (d : addr) (Context : OBP_LOOKUP_CONTEXT) :
    M (ob W) OBP_LOOKUP_CONTEXT :=
  let! OldIrql := acquire (DirectoryLock d) in ret (set_locked true OldIrql Context).

Definition ObpReleaseDirectoryLock (d : addr) (Context : OBP_LOOKUP_CONTEXT) :
    M (ob W) OBP_LOOKUP_CONTEXT :=
  release (DirectoryLock d) (ctx_OldIrql Context) >>>
  ret (set_locked false (ctx_OldIrql Context) Context).

Definition entries (d : addr) : M (ob W) (list addr) :=
  let! h := header d in
  match Body h with Directory l _ _ => ret l | _ => halt Fault end.

(** The loop over the entries: the Result of the last comparison, and the
    context it leaves. *)
Fixpoint search_entries (l : list addr) (d : addr) (Name : UNICODE_STRING) (Result : Z)
    (Context : OBP_LOOKUP_CONTEXT) : M (ob W) (Z * OBP_LOOKUP_CONTEXT) :=
  match l with
  | [] => ret (Result, Context)
  | o :: l' =>
      let! h := header o in
      let Result := RtlCompareUnicodeString Name (ObjectName h) in
      if Result =? 0 then
        let Context := set_found d o Context in
        let! m := ObIsMountpointObject o in
        ret (Result, if (m : bool) then set_mount o Context else Context)
      else search_entries l' d Name Result Context
  end.

Definition ObpLookupEntryDirectory (d : addr) (Name : UNICODE_STRING) (Context : OBP_LOOKUP_CONTEXT)
    : M (ob W) (KSTATUS * OBP_LOOKUP_CONTEXT) :=
  let UnLock := negb (DirectoryLocked Context) in
  let! Context := (if UnLock then ObpAcquireDirectoryLock d Context else ret Context) in
  let! l := entries d in
  let! (Result, Context) := search_entries l d Name (-1) Context in
  let! Context := (if UnLock then ObpReleaseDirectoryLock d Context else ret Context) in
  ret (if negb (Result =? 0) then STATUS_OBJECT_NAME_NOT_FOUND else STATUS_SUCCESS, Context).

Definition InsertTail (d o : addr) : M (ob W) unit :=
  let! hd := header d in
  match Body hd with
  | Directory l fl dev =>
      put_header d (set_Body (Directory (l ++ [o]) fl dev) hd) >>>
      let! h := header o in put_header o (set_Linked true h)
  | _ => halt Fault
  end.

Definition ObpInsertEntryDirectory (Parent : addr) (Context : OBP_LOOKUP_CONTEXT) (o : addr)
    : M (ob W) OBP_LOOKUP_CONTEXT :=
  let! d := ObIsDirectoryObject Parent in
  assert_ d >>>
  let! h := header o in
  assert_ (negb (Linked h)) >>>
  assert_ (ctx_Directory Context =? Parent) >>>
  let UnLock := negb (DirectoryLocked Context) in
  let! Context := (if UnLock then ObpAcquireDirectoryLock Parent Context else ret Context) in
  InsertTail Parent o >>>
  (if UnLock then ObpReleaseDirectoryLock Parent Context else ret Context).

(** *** obname.c: lookup, and insertion where the lookup ends *)

(** The last component was not found in directory [d]: insert the object there,
    if there is one to insert. *)
Definition insert_last (d : addr) (DirName : UNICODE_STRING) (Context : OBP_LOOKUP_CONTEXT)
    (Insert : option addr) : M (ob W) (KSTATUS * UNICODE_STRING * OBP_LOOKUP_CONTEXT) :=
  match Insert with
  | Some o =>
      let! h := header o in
      put_header o (set_ObjectName DirName h) >>>
      let! Context := ObpInsertEntryDirectory d Context o in
      ret (STATUS_SUCCESS, DirName, Context)
  | None => ret (STATUS_OBJECT_NAME_NOT_FOUND, DirName, Context)
  end.

(** The do loop; the fuel bounds its iterations, each of which consumes at
    least one character of the name. *)
Fixpoint lookup_loop (fuel : nat) (d : addr) (NamePtr : list Z) (DirName : UNICODE_STRING)
    (Status : KSTATUS) (Context : OBP_LOOKUP_CONTEXT) (Insert : option addr)
    : M (ob W) (KSTATUS * UNICODE_STRING * OBP_LOOKUP_CONTEXT) :=
  match fuel with
  | O => halt NoFuel
  | S f =>
      let Context := set_ParsedTill NamePtr Context in
      let! isdir := ObIsDirectoryObject d in
      if negb isdir then
        ret (STATUS_OBJECT_PATH_NOT_FOUND, DirName, set_found d NULL Context)
      else
        let! (IsNext, DirName, NamePtr) := ObParseDirectoryPath NamePtr DirName NamePtr in
        if negb IsNext then ret (Status, DirName, Context)
        else
          let! (Status, Context) := ObpLookupEntryDirectory d DirName Context in
          if Status =? STATUS_OBJECT_NAME_NOT_FOUND then
            let Context := set_found d NULL Context in
            let! (IsNext, DirName, _) := ObParseDirectoryPath NamePtr DirName NamePtr in
            if IsNext then ret (STATUS_OBJECT_PATH_NOT_FOUND, DirName, Context)
            else
              insert_last d DirName Context Insert
          else if negb (K_SUCCESS Status) then ret (Status, DirName, Context)
          else
            match NamePtr with
            | [] => ret (Status, DirName, Context)
            | _ => lookup_loop f (ctx_Object Context) NamePtr DirName Status Context Insert
            end
  end.

Definition ObpLookupObjectByName (Parent : addr) (Name : UNICODE_STRING)
    (Context : OBP_LOOKUP_CONTEXT) (InsertObject : option addr)
    : M (ob W) (KSTATUS * OBP_LOOKUP_CONTEXT) :=
  let! root := gets ObRootDirectory in
  assert_ (negb (root =? NULL)) >>>
  assert_ (negb (Parent =? NULL)) >>>
  let! (Status, DirName) := ObpAllocateObjectNameBuffer MAX_OBJECT_NAME_SIZE in
  if negb (K_SUCCESS Status) then ret (Status, Context)
  else
    let! (Status, DirName, Context) :=
      lookup_loop (S (length (text Name))) Parent (text Name) DirName Status Context InsertObject in
    when (bool_decide (InsertObject = None) || negb (Status =? STATUS_SUCCESS))
      (ObpFreeObjectNameBuffer DirName) >>>
    ret (Status, Context).

(** *** ob.c: creation *)

(** The zeroed header ObCreateObject starts from. *)
Definition new_header : OBJECT_HEADER :=
  Header OBJECT_HEADER_MAGIC false NULL 0 0 (UnicodeString 0 0 NULL []) 0 Other.

(** The directory a relative name starts from; the reference the handle lookup
    takes is never dropped. *)
Definition start_directory (a : OBJECT_ATTRIBUTES) : M (ob W) addr :=
  if RootDirectory a =? NULL then
    let! root := gets ObRootDirectory in
    assert_ (negb (root =? NULL)) >>> ret root
  else
    let! t := gets ObDirectoryObjectType in
    let! (_, d) := ObReferenceObjectByHandle (RootDirectory a) t in ret d.

Definition free_header (p o : addr) : M (ob W) unit :=
  in_outer (pa_free p tag_tjbo) >>> modify (λ s, with_objects (delete o (objects s)) s).

(** The end of the creation, when the object has its name. *)
Definition finish_create (ty : addr) (t : OBJECT_TYPE) (a : option OBJECT_ATTRIBUTES) (p o : addr)
    : M (ob W) (KSTATUS * option addr) :=
  let! h := header o in
  let h := match a with Some x => set_Attributes (AttrAttributes x) h | None => h end in
  put_header o (set_RefCount 1 (set_HandleCount 0 (set_ObjectType ty h))) >>>
  let! Status :=
    (if OpenProcedure t =? NULL then ret STATUS_SUCCESS else call (OpenProcedure t) o) in
  if negb (K_SUCCESS Status) then free_header p o >>> ret (Status, None)
  else
    let! OldIrql := acquire (TypeLock ty) in
    let! t := type_of ty in
    put_type ty (set_list (o :: Object_List t) t) >>>
    release (TypeLock ty) OldIrql >>>
    ret (STATUS_SUCCESS, Some o).

(** The second half, from the allocation on. *)
Definition create_fresh (ty : addr) (t : OBJECT_TYPE) (a : option OBJECT_ATTRIBUTES) (Root : addr)
    (Context : OBP_LOOKUP_CONTEXT) (ObjectSize : Z) : M (ob W) (KSTATUS * option addr) :=
  let! p := in_outer (pa_alloc (OTPoolType t) (sizeof_OBJECT_HEADER + ObjectSize) (PoolTag t)) in
  if p =? NULL then ret (STATUS_INSUFFICIENT_RESOURCES, None)
  else
    let o := p + OFFSET_BODY in
    put_header o new_header >>>
    let! Status :=
      match a ≫= AttrName with
      | None => ret STATUS_SUCCESS
      | Some Name =>
          assert_ (Length Name <=? MAX_OBJECT_PATH) >>>
          let! (Status, _) := ObpLookupObjectByName Root Name Context (Some o) in ret Status
      end in
    if negb (K_SUCCESS Status) then free_header p o >>> ret (Status, None)
    else finish_create ty t a p o.

(** [ObjectVariable] is the address of the variable that gets the object: in
    the OBJ_OPENIF branch it is what gets the reference. *)
Definition ObCreateObject (ty : addr) (a : option OBJECT_ATTRIBUTES) (ObjectSize : Z)
    (ObjectVariable : addr) : M (ob W) (KSTATUS * option addr) :=
  assert_ (negb (ObjectVariable =? NULL)) >>>
  assert_ (0 <? ObjectSize) >>>
  assert_ (negb (ty =? NULL)) >>>
  let! t := type_of ty in
  assert_ (ty =? ObjectTypeList (TypeIndex t)) >>>
  assert_ (match a with Some x => Z.land (AttrAttributes x) (Z.lnot OBJ_VALID_ATTRIBUTES) =? 0 | None => true end) >>>
  match a with
  | Some x =>
      match AttrName x with
      | Some Name =>
          let! Root := start_directory x in
          let! (Status, Context) := ObpLookupObjectByName Root Name ObInitializeLookupContext None in
          if K_SUCCESS Status then
            if TEST_FLAG (AttrAttributes x) OBJ_OPENIF then
              assert_valid (ctx_Object Context) >>>
              ObReferenceObject ObjectVariable >>>
              ret (Status, Some (ctx_Object Context))
            else ret (STATUS_OBJECT_NAME_COLLISION, None)
          else if negb (Status =? STATUS_OBJECT_NAME_NOT_FOUND) then ret (Status, None)
          else create_fresh ty t a Root Context ObjectSize
      | None => create_fresh ty t a NULL ObInitializeLookupContext ObjectSize
      end
  | None => create_fresh ty t a NULL ObInitializeLookupContext ObjectSize
  end.

(** *** obdir.c: directories *)

Definition set_body (o : addr) (b : body) : M (ob W) unit :=
  let! h := header o in put_header o (set_Body b h).

(** Status, directory object and, where asked for, its handle. *)
Definition ObCreateDirectoryObject (want_handle : bool) (a : OBJECT_ATTRIBUTES) (ObjectVariable : addr)
    : M (ob W) (KSTATUS * option addr * Z) :=
  let LocalDirName := RtlInitUnicodeString literal [92] in
  assert_ (bool_decide (is_Some (AttrName a))) >>>
  let! root := gets ObRootDirectory in
  let is_root := match AttrName a with
                 | Some n => RtlCompareUnicodeString n LocalDirName =? 0
                 | None => false
                 end in
  let CreatingRootObject := (root =? NULL) && is_root in
  assert_ (negb ((root =? NULL) && negb is_root)) >>>
  let a := if CreatingRootObject then ObjectAttributes (RootDirectory a) None (AttrAttributes a) else a in
  let! t := gets ObDirectoryObjectType in
  let! (Status, r) := ObCreateObject t (Some a) sizeof_OBJECT_DIRECTORY ObjectVariable in
  match r with
  | Some o =>
      if negb (K_SUCCESS Status) then ret (Status, None, 0)
      else
        set_body o (Directory [] 0 NULL) >>>
        when CreatingRootObject
          (let! (Status, n) := ObpAllocateObjectNameBuffer (Length LocalDirName) in
           assert_ (K_SUCCESS Status) >>>
           let! h := header o in
           put_header o (set_ObjectName (RtlCopyUnicodeString n LocalDirName) h)) >>>
        if want_handle then
          let! (Status, Handle) := ObInsertObject o in
          when (negb (K_SUCCESS Status)) (ObDereferenceObject call o) >>>
          ret (Status, Some o, Handle)
        else ret (Status, Some o, 0)
  | None => ret (Status, None, 0)
  end.

(** The look-ups of the mount are asserted to succeed. *)
Definition ObMountFileSystem (MountPoint TargetName : UNICODE_STRING) : M (ob W) KSTATUS :=
  let! root := gets ObRootDirectory in
  let! (Status, Context) := ObpLookupObjectByName root TargetName ObInitializeLookupContext None in
  assert_ (K_SUCCESS Status) >>>
  let TargetObject := ctx_Object Context in
  let! dev := ObIsDeviceObject TargetObject in
  if negb dev then ret STATUS_INVALID_DEVICE_OBJECT_PARAMETER
  else
    let! root := gets ObRootDirectory in
    let! (Status, Context) := ObpLookupObjectByName root MountPoint ObInitializeLookupContext None in
    assert_ (K_SUCCESS Status) >>>
    let DirObject := ctx_Object Context in
    let! m := ObIsMountpointObject DirObject in
    if (m : bool) then ret STATUS_OBJECT_NAME_EXISTS
    else
      let! h := header DirObject in
      match Body h with
      | Directory l fl _ =>
          set_body DirObject (Directory l (Z.lor fl OB_DIRECTORY_MOUNTPOINT) TargetObject) >>>
          ret Status
      | _ => halt Fault
      end.

(** The directory type has its pool type in the PoolTag field. *)
Definition directory_type : OBJECT_TYPE :=
  ObType PagedPool sizeof_OBJECT_DIRECTORY OBJECT_TYPE_DIRECTORY NonPagedPool [] NULL NULL.
Definition symlink_type : OBJECT_TYPE :=
  ObType PagedPool sizeof_OBJECT_SYMBOLIC_LINK OBJECT_TYPE_SYMLINK NonPagedPool [] NULL NULL.

Definition set_roots (f : ob W → addr * addr * addr * addr) : M (ob W) unit :=
  modify (λ s, let '(r, g, dt, st) := f s in
    ObState (objects s) (types s) (tables s) r g dt st (IoDeviceObjectType s) (CurrentHandleTable s) (outer s)).

Definition ObpCreateDirectoryObjectType : M (ob W) unit :=
  let! saved := gets ObDirectoryObjectType in
  let! (_, t) := ObCreateObjectType directory_type saved in
  set_roots (λ s, (ObRootDirectory s, ObGlobalDirectory s, t, ObSymbolicLinkObjectType s)).

(** *** obsym.c: symbolic links *)

Definition ObGetTargetFromSymbolicLink (o : addr) : M (ob W) addr :=
  let! h := header o in
  match Body h with SymbolicLink target => ret target | _ => halt Fault end.

(** The object is created with the size of a directory. *)
Definition ObpCreateSymbolicLinkObject (want_handle : bool) (TargetObject : addr)
    (a : OBJECT_ATTRIBUTES) (ObjectVariable : addr) : M (ob W) (KSTATUS * option addr * Z) :=
  assert_ (bool_decide (is_Some (AttrName a))) >>>
  let! root := gets ObRootDirectory in
  assert_ (negb (root =? NULL)) >>>
  let! t := gets ObSymbolicLinkObjectType in
  let! (Status, r) := ObCreateObject t (Some a) sizeof_OBJECT_DIRECTORY ObjectVariable in
  match r with
  | Some o =>
      if negb (K_SUCCESS Status) then ret (Status, None, 0)
      else
        ObReferenceObject TargetObject >>>
        set_body o (SymbolicLink TargetObject) >>>
        if want_handle then
          let! (Status, Handle) := ObInsertObject o in
          when (negb (K_SUCCESS Status)) (ObDereferenceObject call o) >>>
          ret (Status, Some o, Handle)
        else ret (Status, Some o, 0)
  | None => ret (Status, None, 0)
  end.

Definition ObCreateSymbolicLink (SymbolicLinkName TargetName : UNICODE_STRING) (ObjectVariable : addr)
    : M (ob W) KSTATUS :=
  let! root := gets ObRootDirectory in
  let! (Status, Context) := ObpLookupObjectByName root TargetName ObInitializeLookupContext None in
  assert_ (K_SUCCESS Status) >>>
  let! (Status, _, _) := ObpCreateSymbolicLinkObject false (ctx_Object Context)
    (ObjectAttributes NULL (Some SymbolicLinkName) 0) ObjectVariable in
  ret Status.

Definition ObpCreateSymbolicLinkObjectType : M (ob W) unit :=
  let! saved := gets ObSymbolicLinkObjectType in
  let! (_, t) := ObCreateObjectType symlink_type saved in
  set_roots (λ s, (ObRootDirectory s, ObGlobalDirectory s, ObDirectoryObjectType s, t)).

(** *** obname.c: the device a path belongs to *)

(** What is left of the path, and the device; a path that ends at neither kind
    of object falls off the end of the function, and other failures of the
    lookup leave Object unset: both are faults here. *)
Definition ObGetDeviceObject (Path : list Z) : M (ob W) (list Z * addr) :=
  let n := u16 (Z.of_nat (length Path)) in
  let! g := gets ObGlobalDirectory in
  let! (Status, Context) := ObpLookupObjectByName g (UnicodeString n n literal Path) ObInitializeLookupContext None in
  let! o :=
    (if Status =? STATUS_SUCCESS then ret (ctx_Object Context)
     else if (Status =? STATUS_OBJECT_NAME_NOT_FOUND) || (Status =? STATUS_OBJECT_PATH_NOT_FOUND)
     then ret (ctx_Directory Context) else halt Fault) in
  let! isdir := ObIsDirectoryObject o in
  if (isdir : bool) then
    let! m := ObIsMountpointObject o in
    assert_ m >>>
    let! h := header o in
    match Body h with
    | Directory _ _ dev => ret (ParsedTill Context, dev)
    | _ => halt Fault
    end
  else
    let! issym := ObIsSymbolicLinkObject o in
    if (issym : bool) then
      let! target := ObGetTargetFromSymbolicLink o in
      let! isdev := ObIsDeviceObject target in
      assert_ isdev >>> ret (ParsedTill Context, target)
    else halt Fault.

(** *** ob.c: start-up; [\GLOBAL??], [\Driver] and [\Device].  The root handle of
    the last two is an uninitialised variable, [DirHandle]. *)

Definition create_or_stop (chars : list Z) (RootHandle : Z) (ObjectVariable : addr) : M (ob W) addr :=
  let! (Status, r, _) := ObCreateDirectoryObject false
    (ObjectAttributes RootHandle (Some (RtlInitUnicodeString literal chars))
       (Z.lor OBJ_PERMANENT OBJ_KERNEL_HANDLE)) ObjectVariable in
  match r with
  | Some o => if K_SUCCESS Status then ret o else halt BugCheck
  | None => halt BugCheck
  end.

Definition name_GLOBAL : list Z := [92; 71; 76; 79; 66; 65; 76; 63; 63].
Definition name_Driver : list Z := [92; 68; 114; 105; 118; 101; 114].
Definition name_Device : list Z := [92; 68; 101; 118; 105; 99; 101].

Definition Ob_init (DirHandle ObjectVariable : Z) : M (ob W) unit :=
  ObpCreateDirectoryObjectType >>>
  ObpCreateSymbolicLinkObjectType >>>
  let! root := create_or_stop [92] NULL ObjectVariable in
  set_roots (λ s, (root, ObGlobalDirectory s, ObDirectoryObjectType s, ObSymbolicLinkObjectType s)) >>>
  let! g := create_or_stop name_GLOBAL NULL ObjectVariable in
  set_roots (λ s, (ObRootDirectory s, g, ObDirectoryObjectType s, ObSymbolicLinkObjectType s)) >>>
  let! _ := create_or_stop name_Driver DirHandle ObjectVariable in
  let! _ := create_or_stop name_Device DirHandle ObjectVariable in
  ret tt.

End names.

(** ** The name space as a tree: what a lookup should find *)

Definition is_name (c : list Z) : Prop :=
  c ≠ [] ∧ Forall (λ x, IsPathSeperator x = false) c ∧ 0 ∉ c ∧ Z.of_nat (length c) < MAX_OBJECT_NAME_SIZE.

(** [path_of text names]: the text is these names, with one separator or more
    between them and any number in front. *)
Inductive path_of : list Z → list (list Z) → Prop :=
| path_last seps c :
    Forall (λ x, IsPathSeperator x = true) seps → is_name c → path_of (seps ++ c) [c]
| path_more seps c x rest cs :
    Forall (λ x, IsPathSeperator x = true) seps → is_name c → IsPathSeperator x = true →
    path_of (x :: rest) cs → path_of (seps ++ c ++ x :: rest) (c :: cs).

Fixpoint find_child (objs : gmap addr OBJECT_HEADER) (c : list Z) (l : list addr) : option addr :=
  match l with
  | [] => None
  | x :: l' =>
      match objs !! x with
      | Some h => if decide (text (ObjectName h) = c) then Some x else find_child objs c l'
      | None => find_child objs c l'
      end
  end.

(** Found an object; only the last name is missing, in a directory; or the path
    cannot be followed beyond an object. *)
Inductive walk_result := Found (o : addr) | Missing (d : addr) | NoPath (d : addr).

Fixpoint walk (objs : gmap addr OBJECT_HEADER) (d : addr) (cs : list (list Z)) : walk_result :=
  match cs with
  | [] => Found d
  | c :: cs' =>
      match objs !! d with
      | Some h =>
          match Body h with
          | Directory l _ _ =>
              match find_child objs c l with
              | Some o => walk objs o cs'
              | None => match cs' with [] => Missing d | _ => NoPath d end
              end
          | _ => NoPath d
          end
      | None => NoPath d
      end
  end.

Definition name_ok (n : UNICODE_STRING) : Prop :=
  Length n = Z.of_nat (length (text n)) ∧ 0 ∉ text n.

(** Well-formed objects: the directory type and directory bodies go together,
    and directories list objects. *)
Definition store_ok (dt : addr) (objs : gmap addr OBJECT_HEADER) : Prop :=
  dt ≠ NULL ∧ ∀ o h, objs !! o = Some h →
    Magic h = OBJECT_HEADER_MAGIC ∧ name_ok (ObjectName h) ∧
    match Body h with
    | Directory l _ _ => ObjectType h = dt ∧ ∀ x, x ∈ l → is_Some (objs !! x)
    | _ => ObjectType h ≠ dt
    end.

(** ** Lemmas *)

Lemma strncmp_text_zero p q :
  length p = length q → 0 ∉ p → (strncmp_text (length p) p q = 0 ↔ p = q).
Proof.
  revert q. induction p as [|a p IH]; intros [|b q] Hl H0; try done.
  apply not_elem_of_cons in H0 as [Ha H0]. cbn [strncmp_text length hd tl].
  destruct (Z.eqb_spec a 0); [congruence|]. cbn [negb andb].
  destruct (Z.eqb_spec a b) as [->|Hab].
  - rewrite IH by (done || by injection Hl). split; [by intros ->|by intros [= ->]].
  - split; [lia|]. by intros [= -> _].
Qed.

Lemma compare_zero m n :
  name_ok m → name_ok n → (RtlCompareUnicodeString m n = 0 ↔ text m = text n).
Proof.
  intros [Hm Zm] [Hn Zn]. unfold RtlCompareUnicodeString. rewrite Hm, Hn.
  destruct (Z.ltb_spec (Z.of_nat (length (text n))) (Z.of_nat (length (text m)))) as [H|H].
  { split; [done|]. intros E. rewrite E in H. lia. }
  destruct (Z.ltb_spec (Z.of_nat (length (text m))) (Z.of_nat (length (text n)))) as [H'|H'].
  { split; [done|]. intros E. rewrite E in H'. lia. }
  rewrite Nat2Z.id. apply strncmp_text_zero; [lia|done].
Qed.

Lemma skip_separators_app seps r :
  Forall (λ x, IsPathSeperator x = true) seps → skip_separators (seps ++ r) = skip_separators r.
Proof. induction 1 as [|x seps Hx _ IH]; [done|]. simpl. by rewrite Hx. Qed.

Lemma take_name_app c r :
  Forall (λ x, IsPathSeperator x = false) c → (r = [] ∨ ∃ x r', r = x :: r' ∧ IsPathSeperator x = true) →
  take_name (c ++ r) = (c, r).
Proof.
  intros Hc Hr. induction Hc as [|x c Hx _ IH]; simpl.
  - destruct Hr as [->|(x & r' & -> & Hx)]; [done|]. simpl. by rewrite Hx.
  - by rewrite Hx, IH.
Qed.

Section runs.
Context {W : Type} `{!ObWorld W} (call : addr → addr → M (ob W) KSTATUS).
Implicit Type s : ob W.

Definition named (D : UNICODE_STRING) (c : list Z) : UNICODE_STRING :=
  UnicodeString (Z.of_nat (length c)) (MaximumLength D) (Buffer D) c.

Lemma parse_run seps c r D pt s :
  Forall (λ x, IsPathSeperator x = true) seps → is_name c → MaximumLength D = MAX_OBJECT_NAME_SIZE →
  (r = [] ∨ ∃ x r', r = x :: r' ∧ IsPathSeperator x = true) →
  ObParseDirectoryPath (seps ++ c ++ r) D pt s = Ok ((true, named D c, r), s).
Proof.
  intros Hs (Hc & Hn & H0 & Hl) HD Hr. unfold ObParseDirectoryPath, named.
  rewrite skip_separators_app by done. destruct c as [|x c]; [done|].
  apply Forall_cons in Hn as [Hx Hn]. simpl (skip_separators _). rewrite Hx.
  rewrite (take_name_app c r Hn Hr), HD. unfold MAX_OBJECT_NAME_SIZE in *.
  rewrite assert_true by (apply Z.leb_le; lia).
  destruct (Z.ltb_spec (Z.of_nat (length (x :: c))) 128); [|lia].
  unfold ret. do 4 f_equal. unfold u16. rewrite Z.mod_small by lia. by f_equal.
Qed.

Lemma parse_end_bind {B} D pt (k : _ → M (ob W) B) s :
  bind (ObParseDirectoryPath [] D pt) k s = k (false, D, pt) s.
Proof. reflexivity. Qed.

(** A path starts with a name. *)
Lemma parse_path t cs D pt s :
  path_of t cs → MaximumLength D = MAX_OBJECT_NAME_SIZE →
  ∃ D' r, ObParseDirectoryPath t D pt s = Ok ((true, D', r), s) ∧ Buffer D' = Buffer D.
Proof.
  intros [seps c Hs Hc|seps c y rest cs' Hs Hc Hy Hr] HD.
  - rewrite <- (app_nil_r c). exists (named D c), []. split; [|done].
    apply (parse_run seps c []); [done|done|done|by left].
  - exists (named D c), (y :: rest). split; [|done].
    apply (parse_run seps c (y :: rest)); [done|done|done|right; eauto].
Qed.

Lemma has_type_run {B} o t (k : bool → M (ob W) B) s h :
  objects s !! o = Some h → Magic h = OBJECT_HEADER_MAGIC → t ≠ NULL →
  bind (has_type o t) k s = k (ObjectType h =? t) s.
Proof.
  intros Ho Hm Ht. unfold has_type. rewrite bind_assoc, (valid_run _ _ _ h Ho Hm).
  rewrite bind_assoc, assert_true by by apply negb_true_iff, Z.eqb_neq.
  by rewrite bind_assoc, (header_run _ _ _ h Ho).
Qed.

Lemma is_directory_run {B} o (k : bool → M (ob W) B) s h :
  objects s !! o = Some h → Magic h = OBJECT_HEADER_MAGIC → ObDirectoryObjectType s ≠ NULL →
  bind (ObIsDirectoryObject o) k s = k (ObjectType h =? ObDirectoryObjectType s) s.
Proof.
  intros Ho Hm Ht. unfold ObIsDirectoryObject. rewrite bind_assoc, gets_run.
  by apply has_type_run.
Qed.

(** The test for a mount point only reads. *)
Lemma mountpoint_run {B} o (k : bool → M (ob W) B) s h :
  store_ok (ObDirectoryObjectType s) (objects s) → objects s !! o = Some h →
  ∃ m, bind (ObIsMountpointObject o) k s = k m s.
Proof.
  intros [Hdt Hok] Ho. destruct (Hok o h Ho) as (Hm & _ & Hb).
  unfold ObIsMountpointObject. rewrite bind_assoc, (is_directory_run _ _ _ h Ho Hm Hdt).
  destruct (Z.eqb_spec (ObjectType h) (ObDirectoryObjectType s)) as [E|E]; [|by exists false].
  rewrite bind_assoc, (header_run _ _ _ h Ho). destruct (Body h); [by eexists|done|by exists false].
Qed.

Lemma search_run d n R c l s :
  store_ok (ObDirectoryObjectType s) (objects s) → name_ok n → R ≠ 0 →
  (∀ x, x ∈ l → is_Some (objects s !! x)) →
  ∃ R' c', search_entries l d n R c s = Ok ((R', c'), s) ∧
    DirectoryLocked c' = DirectoryLocked c ∧ ctx_OldIrql c' = ctx_OldIrql c ∧
    match find_child (objects s) (text n) l with
    | Some o => R' = 0 ∧ ctx_Object c' = o ∧ ctx_Directory c' = d
    | None => R' ≠ 0
    end.
Proof.
  intros Hok Hn. revert R. induction l as [|x l IH]; intros R HR Hl; [by eexists _, _|].
  destruct (Hl x ltac:(left)) as [h Hx]. cbn [search_entries find_child].
  rewrite (header_run _ _ _ h Hx), Hx. pose proof Hok as [_ Hok'].
  destruct (Hok' x h Hx) as (_ & Hnx & _).
  pose proof (compare_zero n (ObjectName h) Hn Hnx) as Hc.
  destruct (Z.eqb_spec (RtlCompareUnicodeString n (ObjectName h)) 0) as [E|E].
  - rewrite decide_True by (symmetry; by apply Hc). rewrite E.
    destruct (mountpoint_run x (λ m, ret (0, if (m : bool) then set_mount x (set_found d x c) else set_found d x c))
      s h Hok Hx) as [m ->].
    eexists _, _. split; [reflexivity|]. by destruct m.
  - rewrite decide_False by (intros E'; apply E; by apply Hc).
    apply IH; [done|]. intros y Hy. apply Hl. by right.
Qed.

(** The locks of all directories are free. *)
Definition locks_free s : Prop :=
  ∀ d h l fl dev, objects s !! d = Some h → Body h = Directory l fl dev →
    @sl_free W (ob_spin (DirectoryLock d)) (outer s).

(** An object whose type is the directory type is one. *)
Lemma is_directory o h s :
  store_ok (ObDirectoryObjectType s) (objects s) → objects s !! o = Some h →
  (ObjectType h =? ObDirectoryObjectType s) =
    match Body h with Directory _ _ _ => true | _ => false end.
Proof.
  intros [_ Hok] Ho. destruct (Hok o h Ho) as (_ & _ & Hb).
  destruct (Body h); [by apply Z.eqb_eq, Hb|by apply Z.eqb_neq..].
Qed.

Lemma lookup_entry_run d h l fl dev n c s :
  store_ok (ObDirectoryObjectType s) (objects s) → locks_free s → name_ok n →
  objects s !! d = Some h → Body h = Directory l fl dev → DirectoryLocked c = false →
  ∃ st c', ObpLookupEntryDirectory d n c s = Ok ((st, c'), s) ∧ DirectoryLocked c' = false ∧
    match find_child (objects s) (text n) l with
    | Some o => st = STATUS_SUCCESS ∧ ctx_Object c' = o
    | None => st = STATUS_OBJECT_NAME_NOT_FOUND
    end.
Proof.
  intros Hok Hfree Hn Ho Hb Hc. unfold ObpLookupEntryDirectory. rewrite Hc. cbn [negb].
  destruct (locked _ s (Hfree d h l fl dev Ho Hb)) as (old & w & Ha & Hr).
  unfold ObpAcquireDirectoryLock. rewrite bind_assoc, (bind_Ok _ _ _ _ _ Ha), bind_ret.
  unfold entries. rewrite bind_assoc, (header_run d _ (with_outer w s) h Ho), Hb, bind_ret.
  destruct (search_run d n (-1) (set_locked true old c) l (with_outer w s))
    as (R & c' & Hs & Hl & Hold & Hres); [done|done|done|..].
  { pose proof Hok as [_ Hok']. destruct (Hok' d h Ho) as (_ & _ & Hb'). rewrite Hb in Hb'. apply Hb'. }
  rewrite (bind_Ok _ _ _ _ _ Hs). unfold ObpReleaseDirectoryLock. rewrite bind_assoc.
  rewrite Hold. unfold bind at 1. rewrite Hr by done. rewrite bind_ret.
  eexists _, _. split; [unfold ret; do 2 f_equal; by destruct s|].
  split; [done|]. simpl objects in Hres. destruct (find_child (objects s) (text n) l).
  - destruct Hres as (-> & ? & _). done.
  - destruct (Z.eqb_spec R 0); done.
Qed.

(** What the loop answers, in terms of the tree. *)
Definition answer (r : walk_result) (st : KSTATUS) (c : OBP_LOOKUP_CONTEXT) : Prop :=
  match r with
  | Found o => st = STATUS_SUCCESS ∧ ctx_Object c = o
  | Missing d => st = STATUS_OBJECT_NAME_NOT_FOUND ∧ ctx_Object c = NULL ∧ ctx_Directory c = d
  | NoPath d => st = STATUS_OBJECT_PATH_NOT_FOUND ∧ ctx_Object c = NULL ∧ ctx_Directory c = d
  end.

Lemma find_child_in objs c l o : find_child objs c l = Some o → o ∈ l ∧ is_Some (objs !! o).
Proof.
  induction l as [|x l IH]; [done|]. cbn [find_child].
  destruct (objs !! x) as [h|] eqn:Hx; [destruct (decide _)|].
  - intros [= <-]. split; [left|by rewrite Hx].
  - intros [? ?]%IH. split; [by right|done].
  - intros [? ?]%IH. split; [by right|done].
Qed.

Lemma named_ok D c : is_name c → name_ok (named D c).
Proof. intros (_ & _ & H0 & _). by split. Qed.

(** One iteration: the name [c] is looked up in directory [d]. *)
Lemma loop_step fuel d h seps c r D st ctx Ins s :
  store_ok (ObDirectoryObjectType s) (objects s) → locks_free s → objects s !! d = Some h →
  Forall (λ x, IsPathSeperator x = true) seps → is_name c → MaximumLength D = MAX_OBJECT_NAME_SIZE →
  (r = [] ∨ ∃ x r', r = x :: r' ∧ IsPathSeperator x = true) → DirectoryLocked ctx = false →
  ∃ ctx', DirectoryLocked ctx' = false ∧
    lookup_loop (S fuel) d (seps ++ c ++ r) D st ctx Ins s =
    match Body h with
    | Directory l _ _ =>
        match find_child (objects s) c l with
        | Some o =>
            match r with
            | [] => Ok ((STATUS_SUCCESS, named D c, ctx'), s)
            | _ => lookup_loop fuel o r (named D c) STATUS_SUCCESS ctx' Ins s
            end
        | None =>
            bind (ObParseDirectoryPath r (named D c) r) (λ '(IsNext, D', _),
              if (IsNext : bool) then ret (STATUS_OBJECT_PATH_NOT_FOUND, D', set_found d NULL ctx')
              else insert_last d D' (set_found d NULL ctx') Ins) s
        end
    | _ => Ok ((STATUS_OBJECT_PATH_NOT_FOUND, D, set_found d NULL ctx'), s)
    end ∧
    (∀ l fl dev o, Body h = Directory l fl dev → find_child (objects s) c l = Some o → ctx_Object ctx' = o).
Proof.
  intros Hok Hfree Ho Hs Hc HD Hr Hl. pose proof Hok as [Hdt Hok'].
  destruct (Hok' d h Ho) as (Hm & _ & _). cbn [lookup_loop].
  rewrite (is_directory_run _ _ _ h Ho Hm Hdt), (is_directory d h s Hok Ho).
  destruct (Body h) as [l fl dev|target|] eqn:Hb; cbn [negb].
  - rewrite (bind_Ok _ _ _ _ _ (parse_run seps c r D _ s Hs Hc HD Hr)). cbn [negb].
    destruct (lookup_entry_run d h l fl dev (named D c) (set_ParsedTill (seps ++ c ++ r) ctx) s
      Hok Hfree (named_ok D c Hc) Ho Hb Hl) as (st' & c' & Hrun & Hl' & Hres).
    exists c'. split; [done|]. rewrite (bind_Ok _ _ _ _ _ Hrun). cbn [text named] in Hres.
    destruct (find_child (objects s) c l) as [o|] eqn:Hf.
    + destruct Hres as [-> Ho']. split; [|intros ???? [= <- <- <-]; congruence].
      cbn. rewrite Ho'. by destruct r.
    + subst st'. split; [done|]. intros ???? [= <- <- <-] ?. congruence.
  - eexists. split; [|split; [reflexivity|done]]. done.
  - eexists. split; [|split; [reflexivity|done]]. done.
Qed.

Lemma lookup_loop_run name cs Ins s :
  path_of name cs → store_ok (ObDirectoryObjectType s) (objects s) → locks_free s →
  ∀ fuel d D st ctx, (length name < fuel)%nat → is_Some (objects s !! d) →
    MaximumLength D = MAX_OBJECT_NAME_SIZE → DirectoryLocked ctx = false →
  ∃ D' ctx', Buffer D' = Buffer D ∧ DirectoryLocked ctx' = false ∧
    match Ins, walk (objects s) d cs with
    | Some _, Missing d' =>
        ctx_Directory ctx' = d' ∧ name_ok D' ∧ (∃ c, last cs = Some c ∧ text D' = c) ∧
        lookup_loop fuel d name D st ctx Ins s = insert_last d' D' ctx' Ins s
    | _, r => ∃ st', answer r st' ctx' ∧ lookup_loop fuel d name D st ctx Ins s = Ok ((st', D', ctx'), s)
    end.
Proof.
  intros Hp Hok Hfree. induction Hp as [seps c Hs Hc|seps c x rest cs Hs Hc Hx Hp IH];
    intros [|fuel] d D st ctx Hf [h Hd] HD Hl; [lia| |lia|].
  - destruct (loop_step fuel d h seps c [] D st ctx Ins s) as (ctx' & Hl' & Hrun & Hobj);
      try done; [by left|]. rewrite app_nil_r in Hrun. rewrite Hrun. cbn [walk]. rewrite Hd.
    destruct (Body h) as [l fl dev|target|]; cycle 1.
    { exists D, (set_found d NULL ctx'). split; [done|]. split; [done|].
      destruct Ins; eexists; (split; [|reflexivity]); done. }
    { exists D, (set_found d NULL ctx'). split; [done|]. split; [done|].
      destruct Ins; eexists; (split; [|reflexivity]); done. }
    destruct (find_child (objects s) c l) as [o|] eqn:Hfc; cbn [walk].
    + exists (named D c), ctx'. split; [done|]. split; [done|].
      specialize (Hobj l fl dev o eq_refl Hfc).
      destruct Ins; eexists; (split; [|reflexivity]); done.
    + rewrite parse_end_bind. exists (named D c), (set_found d NULL ctx').
      split; [done|]. split; [done|]. destruct Ins as [o|].
      * split; [done|]. split; [by apply named_ok|]. split; [by exists c|done].
      * eexists. split; [|reflexivity]. done.
  - destruct (loop_step fuel d h seps c (x :: rest) D st ctx Ins s) as (ctx' & Hl' & Hrun & Hobj);
      try done; [right; eauto|]. rewrite Hrun. cbn [walk]. rewrite Hd.
    destruct (Body h) as [l fl dev|target|]; cycle 1.
    { exists D, (set_found d NULL ctx'). split; [done|]. split; [done|].
      destruct Ins; eexists; (split; [|reflexivity]); done. }
    { exists D, (set_found d NULL ctx'). split; [done|]. split; [done|].
      destruct Ins; eexists; (split; [|reflexivity]); done. }
    destruct (find_child (objects s) c l) as [o|] eqn:Hfc.
    + specialize (Hobj l fl dev o eq_refl Hfc).
      destruct (IH fuel o (named D c) STATUS_SUCCESS ctx') as (D' & c' & HB & Hl'' & Hres).
      { rewrite !length_app in Hf. simpl in Hf. simpl. destruct Hc as (Hc & _). destruct c; [done|].
        simpl in Hf. lia. }
      { by apply (find_child_in _ _ _ _ Hfc). }
      { done. }
      { done. }
      exists D', c'. split; [done|]. split; [done|]. cbn [walk].
      destruct Ins as [i|]; [|exact Hres].
      destruct (walk (objects s) o cs) eqn:Hw; try exact Hres.
      destruct Hres as (H1 & H2 & (c1 & Hc1 & Ht) & Hres). split; [done|]. split; [done|].
      split; [|exact Hres]. exists c1. split; [|done]. by destruct cs.
    + destruct (parse_path (x :: rest) cs (named D c) (x :: rest) s Hp HD) as (D' & r & Hpr & HB).
      rewrite (bind_Ok _ _ _ _ _ Hpr). exists D', (set_found d NULL ctx').
      split; [done|]. split; [done|].
      assert (∃ c1 cs', cs = c1 :: cs') as (c1 & cs' & ->) by (inversion Hp; eauto).
      destruct Ins; eexists; (split; [|reflexivity]); done.
Qed.

Lemma locks_free_alloc s pt n tag p w :
  locks_free s → pa_ready pt n (outer s) → pa_alloc pt n tag (outer s) = Ok (p, w) →
  locks_free (with_outer w s).
Proof.
  intros Hf Hr Ha d h l fl dev Ho Hb. simpl.
  apply (ob_spin_alloc _ pt n tag (outer s) p w Hr); [by apply (Hf d h l fl dev)|done].
Qed.

Lemma lookup_by_name_run Parent Name cs ctx s :
  path_of (text Name) cs → store_ok (ObDirectoryObjectType s) (objects s) → locks_free s →
  ObRootDirectory s ≠ NULL → Parent ≠ NULL → is_Some (objects s !! Parent) →
  DirectoryLocked ctx = false → pa_ready NonPagedPool MAX_OBJECT_NAME_SIZE (outer s) →
  ∃ st ctx', ObpLookupObjectByName Parent Name ctx None s = Ok ((st, ctx'), s) ∧
    DirectoryLocked ctx' = false ∧
    ∀ p w, pa_alloc NonPagedPool MAX_OBJECT_NAME_SIZE tag_mNbO (outer s) = Ok (p, w) →
      if p =? NULL then st = STATUS_INSUFFICIENT_RESOURCES ∧ ctx' = ctx
      else answer (walk (objects s) Parent cs) st ctx'.
Proof.
  intros Hp Hok Hfree Hroot HP Hd Hl Hready. unfold ObpLookupObjectByName. rewrite gets_run.
  rewrite !assert_true by by apply negb_true_iff, Z.eqb_neq.
  destruct (pa_round NonPagedPool _ tag_mNbO _ Hready) as (p & w & Ha & Hnull & Hsome).
  unfold ObpAllocateObjectNameBuffer. rewrite bind_assoc, assert_true by done.
  rewrite bind_assoc, (bind_Ok _ _ _ _ _ (outer_run _ s p w Ha)).
  destruct (Z.eqb_spec p NULL) as [E|E].
  - rewrite (Hnull E). exists STATUS_INSUFFICIENT_RESOURCES, ctx.
    split; [cbn; by rewrite with_outer_id|]. split; [done|]. intros p' w' Ha'. rewrite Ha in Ha'.
    injection Ha' as <- _. rewrite E. done.
  - destruct (Hsome E) as (_ & _ & Hf).
    destruct (lookup_loop_run (text Name) cs None (with_outer w s) Hp Hok
      (locks_free_alloc _ _ _ _ _ _ Hfree Hready Ha) (S (length (text Name))) Parent
      (UnicodeString 0 MAX_OBJECT_NAME_SIZE p []) STATUS_SUCCESS ctx)
      as (D' & ctx' & HB & Hl' & st & Hans & Hrun); [lia|done|done|done|].
    exists st, ctx'. split; [|split; [done|]].
    + rewrite bind_ret. change (K_SUCCESS STATUS_SUCCESS) with true. cbn [negb].
      rewrite (bind_Ok _ _ _ _ _ Hrun). cbn [bool_decide decide option_eq_dec orb when].
      replace (bool_decide (None = None :> option addr)) with true by done. cbn [orb when].
      unfold ObpFreeObjectNameBuffer. rewrite HB. cbn [Buffer].
      rewrite (bind_Ok _ _ _ _ _ (outer_run _ (with_outer w s) tt (outer s) Hf)).
      unfold ret. do 2 f_equal. by destruct s.
    + intros p' w' Ha'. rewrite Ha in Ha'. injection Ha' as <- _.
      destruct (Z.eqb_spec p NULL); done.
Qed.

(** *** Inserting an object in a directory *)

(** The tree after object [o] was put in directory [d] under the name [c]. *)
Definition inserted (objs objs' : gmap addr OBJECT_HEADER) (d o : addr) (c : list Z) : Prop :=
  objs !! o = None ∧
  (∀ x h, objs !! x = Some h → ∃ h', objs' !! x = Some h' ∧
     text (ObjectName h') = text (ObjectName h) ∧
     Body h' = match Body h with
               | Directory l fl dev => Directory (if decide (x = d) then l ++ [o] else l) fl dev
               | b => b
               end) ∧
  ∃ ho, objs' !! o = Some ho ∧ text (ObjectName ho) = c.

Definition children_exist (objs : gmap addr OBJECT_HEADER) : Prop :=
  ∀ x h l fl dev y, objs !! x = Some h → Body h = Directory l fl dev → y ∈ l → is_Some (objs !! y).

Lemma find_child_inserted objs objs' d o c n l :
  inserted objs objs' d o c → (∀ y, y ∈ l → is_Some (objs !! y)) →
  find_child objs' n l = find_child objs n l.
Proof.
  intros (_ & Hi & _). induction l as [|y l IH]; intros Hl; [done|]. cbn [find_child].
  destruct (Hl y ltac:(left)) as [h Hy]. destruct (Hi y h Hy) as (h' & Hy' & Ht & _).
  rewrite Hy, Hy', Ht. destruct (decide _); [done|]. apply IH. intros z Hz. apply Hl. by right.
Qed.

Lemma find_child_app objs n l1 l2 :
  find_child objs n (l1 ++ l2) =
    match find_child objs n l1 with Some x => Some x | None => find_child objs n l2 end.
Proof.
  induction l1 as [|y l1 IH]; [done|]. cbn [app find_child].
  destruct (objs !! y); [destruct (decide _)|]; done.
Qed.

Lemma walk_inserted objs objs' d o c r cs :
  inserted objs objs' d o c → children_exist objs →
  match walk objs r cs with
  | Found x => walk objs' r cs = Found x
  | Missing d' => d' = d → last cs = Some c → walk objs' r cs = Found o
  | NoPath _ => True
  end.
Proof.
  intros Hins Hch. pose proof Hins as (Ho & Hi & ho & Hho & Hc). revert r.
  induction cs as [|n cs IH]; intros r; [done|]. cbn [walk].
  destruct (objs !! r) as [h|] eqn:Hr; [|done]. destruct (Hi r h Hr) as (h' & -> & _ & HB).
  destruct (Body h) as [l fl dev|t|] eqn:Hb; [|done..]. rewrite HB.
  assert (∀ y, y ∈ l → is_Some (objs !! y)) as Hl by (intros y; by apply (Hch r h l fl dev y)).
  assert (find_child objs' n (if decide (r = d) then l ++ [o] else l)
    = match find_child objs n l with
      | Some x => Some x
      | None => if decide (r = d ∧ c = n) then Some o else None
      end) as Hfind.
  { destruct (decide (r = d)) as [->|Hrd].
    - rewrite find_child_app, (find_child_inserted objs objs' d o c n l Hins Hl).
      destruct (find_child objs n l); [done|]. cbn [find_child]. rewrite Hho, Hc.
      destruct (decide (c = n)) as [->|]; [by rewrite decide_True|].
      rewrite decide_False; [done|by intros [_ ?]].
    - rewrite (find_child_inserted objs objs' d o c n l Hins Hl).
      destruct (find_child objs n l); [done|]. rewrite decide_False; [done|by intros [? _]]. }
  rewrite Hfind. destruct (find_child objs n l) as [x|].
  - specialize (IH x). destruct (walk objs x cs) eqn:Hw; [done| |done].
    intros Hd Hlast. apply IH; [done|]. by destruct cs.
  - destruct cs; [|done]. intros -> [= ->]. by rewrite decide_True.
Qed.

Lemma insert_last_run d hd l fl dev o ho D ctx s :
  store_ok (ObDirectoryObjectType s) (delete o (objects s)) → o ≠ d →
  objects s !! d = Some hd → Body hd = Directory l fl dev →
  objects s !! o = Some ho → Linked ho = false → ctx_Directory ctx = d → DirectoryLocked ctx = false →
  @sl_free W (ob_spin (DirectoryLock d)) (outer s) →
  ∃ ctx', insert_last d D ctx (Some o) s = Ok ((STATUS_SUCCESS, D, ctx'),
    with_objects (<[o := set_Linked true (set_ObjectName D ho)]>
      (<[d := set_Body (Directory (l ++ [o]) fl dev) hd]> (objects s))) s).
Proof.
  intros [Hdt Hok] Hne Hd Hb Ho Hlk Hdir Hl Hf.
  assert (delete o (objects s) !! d = Some hd) as Hd' by by rewrite lookup_delete_ne.
  destruct (Hok d hd Hd') as (Hm & _ & Hty). rewrite Hb in Hty. destruct Hty as [Hty _].
  unfold insert_last. rewrite (header_run _ _ _ ho Ho), put_header_run. set (s1 := with_objects _ s).
  unfold ObpInsertEntryDirectory. rewrite bind_assoc.
  assert (objects s1 !! d = Some hd) as Hd1 by (simpl; by rewrite lookup_insert_ne).
  rewrite (is_directory_run d _ s1 hd Hd1 Hm Hdt), bind_assoc, assert_true by (by apply Z.eqb_eq).
  assert (objects s1 !! o = Some (set_ObjectName D ho)) as Ho1 by apply lookup_insert_eq.
  rewrite bind_assoc, (header_run _ _ s1 _ Ho1), bind_assoc, assert_true by (simpl; by rewrite Hlk).
  rewrite bind_assoc, assert_true by (by apply Z.eqb_eq). rewrite Hl. cbn [negb].
  destruct (locked (DirectoryLock d) s1 Hf) as (old & w & Ha & Hr).
  unfold ObpAcquireDirectoryLock. rewrite !bind_assoc, (bind_Ok _ _ _ _ _ Ha), bind_ret.
  unfold InsertTail. rewrite !bind_assoc, (header_run d _ (with_outer w s1) hd Hd1), Hb.
  rewrite bind_assoc, put_header_run, bind_assoc. set (s2 := with_objects _ (with_outer w s1)).
  assert (objects s2 !! o = Some (set_ObjectName D ho)) as Ho2.
  { simpl. rewrite lookup_insert_ne by done. apply lookup_insert_eq. }
  rewrite (header_run o _ s2 _ Ho2), put_header_run.
  unfold ObpReleaseDirectoryLock. rewrite bind_assoc. unfold bind at 1. rewrite Hr by done.
  eexists. cbn. unfold ret. do 2 f_equal. unfold with_objects, with_outer. simpl. f_equal.
  rewrite (insert_insert_ne _ d o) by done. by rewrite insert_insert_eq.
Qed.

(** *** Creating objects *)

Lemma filter_other (o : addr) (l : list addr) : o ∉ l → filter (λ x, x ≠ o) l = l.
Proof.
  induction l as [|x l IH]; [done|]. intros [H1 H2]%not_elem_of_cons.
  rewrite filter_cons_True by congruence. by rewrite IH.
Qed.

Definition created (ty : addr) (a : option OBJECT_ATTRIBUTES) (h : OBJECT_HEADER) : OBJECT_HEADER :=
  set_RefCount 1 (set_HandleCount 0 (set_ObjectType ty
    (match a with Some x => set_Attributes (AttrAttributes x) h | None => h end))).

Definition listed (ty : addr) (t : OBJECT_TYPE) (o : addr) (s : ob W) : ob W :=
  with_types (<[ty := set_list (o :: Object_List t) t]> (types s)) s.

Lemma finish_run ty t a p o h s :
  objects s !! o = Some h → types s !! ty = Some t → OpenProcedure t = NULL →
  @sl_free W (ob_spin (TypeLock ty)) (outer s) →
  finish_create call ty t a p o s =
    Ok ((STATUS_SUCCESS, Some o), listed ty t o (with_objects (<[o := created ty a h]> (objects s)) s)).
Proof.
  intros Ho Ht Hop Hf. unfold finish_create. rewrite (header_run _ _ _ h Ho), put_header_run, Hop.
  change (NULL =? NULL) with true. cbv iota. rewrite bind_ret.
  change (K_SUCCESS STATUS_SUCCESS) with true. cbn [negb].
  set (s1 := with_objects _ s). destruct (locked (TypeLock ty) s1 Hf) as (old & w & Ha & Hr).
  rewrite (bind_Ok _ _ _ _ _ Ha). rewrite (type_of_run ty _ (with_outer w s1) t Ht).
  unfold put_type. rewrite modify_run. unfold bind at 1. rewrite Hr by done.
  unfold ret, listed. do 2 f_equal.
Qed.

(** The checks at the start of ObCreateObject. *)
Definition creatable (ty : addr) (t : OBJECT_TYPE) (a : option OBJECT_ATTRIBUTES) (size V : Z) s : Prop :=
  types s !! ty = Some t ∧ ty ≠ NULL ∧ ty = ObjectTypeList (TypeIndex t) ∧ OpenProcedure t = NULL ∧
  0 < size ∧ V ≠ NULL ∧
  match a with Some x => Z.land (AttrAttributes x) (Z.lnot OBJ_VALID_ATTRIBUTES) = 0 | None => True end.

Lemma create_checks ty t a size V s :
  creatable ty t a size V s →
  ObCreateObject call ty a size V s =
    match a with
    | Some x =>
        match AttrName x with
        | Some Name =>
            let! Root := start_directory x in
            let! (Status, Context) := ObpLookupObjectByName Root Name ObInitializeLookupContext None in
            if K_SUCCESS Status then
              if TEST_FLAG (AttrAttributes x) OBJ_OPENIF then
                assert_valid (ctx_Object Context) >>>
                ObReferenceObject V >>>
                ret (Status, Some (ctx_Object Context))
              else ret (STATUS_OBJECT_NAME_COLLISION, None)
            else if negb (Status =? STATUS_OBJECT_NAME_NOT_FOUND) then ret (Status, None)
            else create_fresh call ty t a Root Context size
        | None => create_fresh call ty t a NULL ObInitializeLookupContext size
        end
    | None => create_fresh call ty t a NULL ObInitializeLookupContext size
    end s.
Proof.
  intros (Ht & Hty & Hidx & _ & Hs & HV & Ha). unfold ObCreateObject.
  rewrite assert_true by by apply negb_true_iff, Z.eqb_neq.
  rewrite assert_true by by apply Z.ltb_lt.
  rewrite assert_true by by apply negb_true_iff, Z.eqb_neq.
  rewrite (type_of_run _ _ _ t Ht), assert_true by by apply Z.eqb_eq.
  rewrite assert_true by (destruct a; [by apply Z.eqb_eq|done]). done.
Qed.

Lemma create_unnamed_run ty t a size V p w s :
  creatable ty t a size V s → a ≫= AttrName = None →
  pa_ready (OTPoolType t) (sizeof_OBJECT_HEADER + size) (outer s) →
  pa_alloc (OTPoolType t) (sizeof_OBJECT_HEADER + size) (PoolTag t) (outer s) = Ok (p, w) → p ≠ NULL →
  @sl_free W (ob_spin (TypeLock ty)) (outer s) →
  let o := p + OFFSET_BODY in
  ObCreateObject call ty a size V s = Ok ((STATUS_SUCCESS, Some o),
    listed ty t o (with_objects (<[o := created ty a new_header]> (objects s)) (with_outer w s))).
Proof.
  intros Hc Hname Hr Ha Hp Hl o. rewrite (create_checks ty t _ size V s Hc).
  destruct Hc as (Ht & _ & _ & Hop & _).
  assert (create_fresh call ty t a NULL ObInitializeLookupContext size s = Ok ((STATUS_SUCCESS, Some o),
    listed ty t o (with_objects (<[o := created ty a new_header]> (objects s)) (with_outer w s)))) as Hf.
  { unfold create_fresh. rewrite (bind_Ok _ _ _ _ _ (outer_run _ s p w Ha)). destruct (Z.eqb_spec p NULL) as [|_]; [done|].
    rewrite put_header_run. fold o. rewrite Hname, bind_ret. change (K_SUCCESS STATUS_SUCCESS) with true. cbn [negb].
    rewrite (finish_run ty t a p o new_header); try done; [|apply lookup_insert_eq|].
    - unfold with_objects. simpl. by rewrite insert_insert_eq.
    - exact (ob_spin_alloc _ _ _ _ _ _ _ Hr Hl Ha). }
  destruct a as [x|]; [|done]. cbn in Hname. by rewrite Hname.
Qed.

(** No object is at an address the pool could hand out. *)
Definition objects_used s : Prop :=
  ∀ o, is_Some (objects s !! o) → pa_used (o - OFFSET_BODY) (outer s).

Lemma fresh_object s pt n tag p w :
  objects_used s → pa_ready pt n (outer s) → pa_alloc pt n tag (outer s) = Ok (p, w) → p ≠ NULL →
  objects s !! (p + OFFSET_BODY) = None ∧ pa_free p tag w = Ok (tt, outer s).
Proof.
  intros Hu Hr Ha Hp. destruct (pa_round pt n tag _ Hr) as (p' & w' & Ha' & _ & Hs).
  rewrite Ha in Ha'. injection Ha' as <- <-. destruct (Hs Hp) as (Hn & _ & Hf). split; [|done].
  apply eq_None_not_Some. intros [h Ho]. apply Hn.
  replace p with (p + OFFSET_BODY - OFFSET_BODY) by lia. apply Hu. by exists h.
Qed.

(** *** Creating a named object *)

Lemma store_children dt objs : store_ok dt objs → children_exist objs.
Proof.
  intros [_ Hok] x h l fl dev y Hx Hb Hy. destruct (Hok x h Hx) as (_ & _ & H).
  rewrite Hb in H. by apply H.
Qed.

Lemma walk_missing objs r cs d :
  walk objs r cs = Missing d →
  ∃ h l fl dev, objs !! d = Some h ∧ Body h = Directory l fl dev.
Proof.
  revert r. induction cs as [|c cs IH]; intros r; [done|]. cbn [walk].
  destruct (objs !! r) as [h|] eqn:Hr; [|done]. destruct (Body h) as [l fl dev|t|] eqn:Hb; [|done..].
  destruct (find_child objs c l); [apply IH|]. destruct cs; [|done]. intros [= <-]. eauto 10.
Qed.

(** A new object that no directory lists changes no walk. *)
Lemma find_child_fresh objs o ho c l :
  objs !! o = None → (∀ y, y ∈ l → is_Some (objs !! y)) →
  find_child (<[o := ho]> objs) c l = find_child objs c l.
Proof.
  intros Ho. induction l as [|y l IH]; intros Hl; [done|]. cbn [find_child].
  destruct (Hl y ltac:(left)) as [h Hy]. rewrite lookup_insert_ne by congruence. rewrite Hy.
  destruct (decide _); [done|]. apply IH. intros z Hz. apply Hl. by right.
Qed.

Lemma walk_fresh objs o ho r cs :
  objs !! o = None → children_exist objs → is_Some (objs !! r) →
  walk (<[o := ho]> objs) r cs = walk objs r cs.
Proof.
  intros Ho Hch. revert r. induction cs as [|c cs IH]; intros r [h Hr]; [done|]. cbn [walk].
  rewrite lookup_insert_ne by congruence. rewrite Hr.
  destruct (Body h) as [l fl dev|t|] eqn:Hb; [|done..].
  assert (∀ y, y ∈ l → is_Some (objs !! y)) as Hl by (intros y; by apply (Hch r h l fl dev y)).
  rewrite (find_child_fresh objs o ho c l Ho Hl).
  destruct (find_child objs c l) as [x|] eqn:Hf; [|done].
  apply IH. by apply (find_child_in _ _ _ _ Hf).
Qed.

Lemma lookup_insert_run Parent Name cs ctx s o ho d b w :
  path_of (text Name) cs → store_ok (ObDirectoryObjectType s) (objects s) →
  store_ok (ObDirectoryObjectType s) (delete o (objects s)) → locks_free s →
  ObRootDirectory s ≠ NULL → Parent ≠ NULL → is_Some (objects s !! Parent) →
  DirectoryLocked ctx = false → pa_ready NonPagedPool MAX_OBJECT_NAME_SIZE (outer s) →
  pa_alloc NonPagedPool MAX_OBJECT_NAME_SIZE tag_mNbO (outer s) = Ok (b, w) → b ≠ NULL →
  walk (objects s) Parent cs = Missing d → objects s !! o = Some ho → Linked ho = false → o ≠ d →
  ∃ D ctx' hd l fl dev, objects s !! d = Some hd ∧ Body hd = Directory l fl dev ∧
    name_ok D ∧ last cs = Some (text D) ∧
    ObpLookupObjectByName Parent Name ctx (Some o) s = Ok ((STATUS_SUCCESS, ctx'),
      with_objects (<[o := set_Linked true (set_ObjectName D ho)]>
        (<[d := set_Body (Directory (l ++ [o]) fl dev) hd]> (objects s))) (with_outer w s)).
Proof.
  intros Hp Hok Hok' Hfree Hroot HP Hd Hl Hready Ha Hb Hw Ho Hlk Hne.
  destruct (walk_missing _ _ _ _ Hw) as (hd & l & fl & dev & Hhd & HB).
  unfold ObpLookupObjectByName. rewrite gets_run.
  rewrite !assert_true by by apply negb_true_iff, Z.eqb_neq.
  unfold ObpAllocateObjectNameBuffer. rewrite bind_assoc, assert_true by done.
  rewrite bind_assoc, (bind_Ok _ _ _ _ _ (outer_run _ s b w Ha)).
  destruct (Z.eqb_spec b NULL) as [|_]; [done|]. rewrite bind_ret.
  change (K_SUCCESS STATUS_SUCCESS) with true. cbn [negb].
  pose proof (locks_free_alloc _ _ _ _ _ _ Hfree Hready Ha) as Hfree'.
  destruct (lookup_loop_run (text Name) cs (Some o) (with_outer w s) Hp Hok Hfree'
    (S (length (text Name))) Parent (UnicodeString 0 MAX_OBJECT_NAME_SIZE b []) STATUS_SUCCESS ctx)
    as (D & ctx' & _ & Hl' & Hres); [lia|done|done|done|].
  simpl objects in Hres. rewrite Hw in Hres. destruct Hres as (Hdir & HD & (c & Hlast & Hc) & Hrun).
  destruct (insert_last_run d hd l fl dev o ho D ctx' (with_outer w s) Hok' Hne Hhd HB Ho Hlk Hdir Hl')
    as (ctx'' & Hins); [by apply (Hfree' d hd l fl dev)|].
  rewrite Hins in Hrun. exists D, ctx'', hd, l, fl, dev.
  split; [done|]. split; [done|]. split; [done|]. split; [by rewrite Hc|].
  rewrite (bind_Ok _ _ _ _ _ Hrun). done.
Qed.

(** Memory for the two name buffers and the object. *)
Definition enough_memory (t : OBJECT_TYPE) (size : Z) s (p : addr) (w2 : W) : Prop :=
  ∃ b0 w0 w1 b,
    pa_ready NonPagedPool MAX_OBJECT_NAME_SIZE (outer s) ∧
    pa_alloc NonPagedPool MAX_OBJECT_NAME_SIZE tag_mNbO (outer s) = Ok (b0, w0) ∧ b0 ≠ NULL ∧
    pa_ready (OTPoolType t) (sizeof_OBJECT_HEADER + size) (outer s) ∧
    pa_alloc (OTPoolType t) (sizeof_OBJECT_HEADER + size) (PoolTag t) (outer s) = Ok (p, w1) ∧ p ≠ NULL ∧
    pa_ready NonPagedPool MAX_OBJECT_NAME_SIZE w1 ∧
    pa_alloc NonPagedPool MAX_OBJECT_NAME_SIZE tag_mNbO w1 = Ok (b, w2) ∧ b ≠ NULL.

Lemma store_ok_fresh dt objs o :
  store_ok dt objs → objs !! o = None → store_ok dt (<[o := new_header]> objs).
Proof.
  intros [Hdt Hok] Ho. split; [done|]. intros x h. rewrite lookup_insert_Some.
  intros [[<- <-]|[Hne Hx]].
  - split; [done|]. split; [split; [done|apply not_elem_of_nil]|]. simpl. congruence.
  - destruct (Hok x h Hx) as (H1 & H2 & H3). split; [done|]. split; [done|].
    destruct (Body h); [|done..]. destruct H3 as [H3 H4]. split; [done|]. intros y Hy.
    apply lookup_insert_is_Some'. right. by apply H4.
Qed.

Lemma create_named_run ty t x Name cs size V s d p w2 :
  creatable ty t (Some x) size V s → AttrName x = Some Name → RootDirectory x = NULL →
  path_of (text Name) cs → Length Name <= MAX_OBJECT_PATH →
  store_ok (ObDirectoryObjectType s) (objects s) → locks_free s → objects_used s →
  ObRootDirectory s ≠ NULL → is_Some (objects s !! ObRootDirectory s) →
  walk (objects s) (ObRootDirectory s) cs = Missing d → enough_memory t size s p w2 →
  @sl_free W (ob_spin (TypeLock ty)) (outer s) →
  let o := p + OFFSET_BODY in
  ∃ D hd l fl dev, objects s !! o = None ∧ objects s !! d = Some hd ∧ Body hd = Directory l fl dev ∧
    name_ok D ∧ last cs = Some (text D) ∧
    ObCreateObject call ty (Some x) size V s = Ok ((STATUS_SUCCESS, Some o),
      listed ty t o (with_objects
        (<[o := created ty (Some x) (set_Linked true (set_ObjectName D new_header))]>
          (<[d := set_Body (Directory (l ++ [o]) fl dev) hd]> (objects s))) (with_outer w2 s))).
Proof.
  intros Hc Hname Hrel Hp Hlen Hok Hfree Hu Hroot Hr Hw
    (b0 & w0 & w1 & b & R0 & A0 & B0 & R1 & A1 & B1 & R2 & A2 & B2) Hty o.
  destruct (fresh_object s _ _ _ p w1 Hu R1 A1 B1) as [Ho _]. fold o in Ho.
  rewrite (create_checks ty t _ size V s Hc), Hname. destruct Hc as (Ht & _ & _ & Hop & _).
  unfold start_directory. rewrite Hrel. change (NULL =? NULL) with true. cbv iota.
  rewrite bind_assoc, gets_run, bind_assoc, assert_true, bind_ret
    by by apply negb_true_iff, Z.eqb_neq.
  destruct (lookup_by_name_run (ObRootDirectory s) Name cs ObInitializeLookupContext s Hp Hok Hfree
    Hroot Hroot Hr eq_refl R0) as (st & ctx & Hrun & Hlk & Hans).
  specialize (Hans b0 w0 A0). destruct (Z.eqb_spec b0 NULL) as [|_]; [done|].
  rewrite Hw in Hans. destruct Hans as (-> & _ & _). rewrite (bind_Ok _ _ _ _ _ Hrun).
  change (K_SUCCESS STATUS_OBJECT_NAME_NOT_FOUND) with false. cbv iota. rewrite Z.eqb_refl.
  cbn [negb]. unfold create_fresh. rewrite (bind_Ok _ _ _ _ _ (outer_run _ s p w1 A1)).
  destruct (Z.eqb_spec p NULL) as [|_]; [done|]. rewrite put_header_run. fold o.
  set (s1 := with_objects _ _). cbn [mbind option_bind]. rewrite Hname.
  rewrite bind_assoc, assert_true by by apply Z.leb_le.
  assert (store_ok (ObDirectoryObjectType s1) (objects s1)) as Hok1 by by apply store_ok_fresh.
  assert (locks_free s1) as Hfree1.
  { intros y h l fl dev Hy Hb. simpl in Hy. apply lookup_insert_Some in Hy as [[<- <-]|[_ Hy]]; [done|].
    by apply (locks_free_alloc s _ _ _ p w1 Hfree R1 A1 y h l fl dev). }
  destruct (walk_missing _ _ _ _ Hw) as (hd0 & l0 & fl0 & dev0 & Hd0 & _).
  destruct (lookup_insert_run (ObRootDirectory s) Name cs ctx s1 o new_header d b w2)
    as (D & ctx' & hd & l & fl & dev & Hhd & HB & HD & Hlast & Hins); try done.
  { simpl. by rewrite delete_insert_id. }
  { simpl. apply lookup_insert_is_Some'. by right. }
  { simpl. rewrite walk_fresh; [done|done|by apply (store_children _ _ Hok)|done]. }
  { apply lookup_insert_eq. }
  { congruence. }
  simpl in Hhd. rewrite lookup_insert_ne in Hhd by congruence.
  exists D, hd, l, fl, dev. split; [done|]. split; [done|]. split; [done|]. split; [done|].
  split; [done|]. rewrite bind_assoc, (bind_Ok _ _ _ _ _ Hins), bind_ret.
  change (K_SUCCESS STATUS_SUCCESS) with true. cbn [negb]. set (s2 := with_objects _ _).
  rewrite (finish_run ty t (Some x) p o (set_Linked true (set_ObjectName D new_header)) s2); try done.
  - do 2 f_equal. unfold listed, with_types, with_objects, with_outer. simpl. f_equal.
    rewrite insert_insert_eq. apply map_eq. intros y.
    destruct (decide (y = o)) as [->|Hy]; [by rewrite !lookup_insert_eq|].
    rewrite !(lookup_insert_ne _ o) by done. destruct (decide (y = d)) as [->|Hy'].
    + by rewrite !lookup_insert_eq.
    + rewrite !(lookup_insert_ne _ d), lookup_insert_ne by done. done.
  - apply lookup_insert_eq.
  - exact (ob_spin_alloc _ _ _ _ _ _ _ R2 (ob_spin_alloc _ _ _ _ _ _ _ R1 Hty A1) A2).
Qed.

(** ** The theorems *)

(** C7: looking a path up walks the tree of directories: it answers the object
    the path leads to, STATUS_OBJECT_NAME_NOT_FOUND with the directory when
    only the last name is missing, STATUS_OBJECT_PATH_NOT_FOUND when an
    earlier name is missing or is no directory; locks and name buffer are
    given back, and nothing changes. *)
Theorem lookup_walks_tree Parent Name cs s :
  path_of (text Name) cs → store_ok (ObDirectoryObjectType s) (objects s) → locks_free s →
  ObRootDirectory s ≠ NULL → Parent ≠ NULL → is_Some (objects s !! Parent) →
  pa_ready NonPagedPool MAX_OBJECT_NAME_SIZE (outer s) →
  ∃ st ctx', ObpLookupObjectByName Parent Name ObInitializeLookupContext None s = Ok ((st, ctx'), s) ∧
    ∀ p w, pa_alloc NonPagedPool MAX_OBJECT_NAME_SIZE tag_mNbO (outer s) = Ok (p, w) →
      if p =? NULL then st = STATUS_INSUFFICIENT_RESOURCES
      else answer (walk (objects s) Parent cs) st ctx'.
Proof.
  intros Hp Hok Hf Hroot HP Hd Hr.
  destruct (lookup_by_name_run Parent Name cs ObInitializeLookupContext s Hp Hok Hf Hroot HP Hd eq_refl Hr)
    as (st & ctx' & Hrun & _ & Hans).
  exists st, ctx'. split; [done|]. intros p w Ha. specialize (Hans p w Ha).
  destruct (p =? NULL); [by destruct Hans|done].
Qed.

(** C38: creating an object without a name either fails for lack of memory and
    changes nothing, or makes an object with one reference; dropping that
    reference gives back exactly the state before. *)
Theorem create_drop_restores ty t size V s :
  creatable ty t None size V s → CloseProcedure t = NULL → objects_used s →
  (∀ x, x ∈ Object_List t → is_Some (objects s !! x)) →
  pa_ready (OTPoolType t) (sizeof_OBJECT_HEADER + size) (outer s) →
  @sl_free W (ob_spin (TypeLock ty)) (outer s) →
  ObCreateObject call ty None size V s = Ok ((STATUS_INSUFFICIENT_RESOURCES, None), s) ∨
  ∃ o s', ObCreateObject call ty None size V s = Ok ((STATUS_SUCCESS, Some o), s') ∧
    objects s !! o = None ∧ objects s' = <[o := created ty None new_header]> (objects s) ∧
    ObDereferenceObject call o s' = Ok (tt, s).
Proof.
  intros Hc Hcp Hu Hlist Hr Hf. rewrite (create_checks ty t None size V s Hc).
  destruct Hc as (Ht & _ & _ & Hop & _). unfold create_fresh.
  destruct (pa_round _ _ (PoolTag t) _ Hr) as (p & w & Ha & Hnull & _).
  rewrite (bind_Ok _ _ _ _ _ (outer_run _ s p w Ha)).
  destruct (Z.eqb_spec p NULL) as [E|E]; [left|right].
  { rewrite (Hnull E). unfold ret. by rewrite with_outer_id. }
  destruct (fresh_object s _ _ _ p w Hu Hr Ha E) as [Hfresh Hfree].
  set (o := p + OFFSET_BODY) in *. rewrite put_header_run. cbn [mbind option_bind].
  rewrite bind_ret. change (K_SUCCESS STATUS_SUCCESS) with true. cbn [negb].
  set (s1 := with_objects _ _). assert (objects s1 !! o = Some new_header) as Ho by apply lookup_insert_eq.
  assert (@sl_free W (ob_spin (TypeLock ty)) w) as Hf1
    by by apply (ob_spin_alloc _ _ _ _ _ _ _ Hr Hf Ha).
  rewrite (finish_run ty t None p o new_header s1 Ho Ht Hop Hf1). set (s2 := listed _ _ _ _).
  exists o, s2. split; [done|]. split; [done|].
  split; [unfold s2; simpl; by rewrite insert_insert_eq|].
  assert (objects s2 !! o = Some (created ty None new_header)) as Ho2 by (simpl; apply lookup_insert_eq).
  rewrite (dereference_unfold call o s2 _ Ho2) by (repeat split; simpl; lia || done).
  cbv zeta. cbn [RefCount created set_RefCount].
  replace (0 <? 1 - 1) with false by done. cbv iota.
  rewrite (remove_run call o _ (set_RefCount (1 - 1) (created ty None new_header))
    (set_list (o :: Object_List t) t) (outer s)); simpl; try done.
  - unfold with_objects, with_types, with_outer. simpl. do 2 f_equal.
    rewrite !insert_insert_eq, delete_insert_id by done.
    assert (filter (λ x, x ≠ o) (o :: Object_List t) = Object_List t) as ->.
    { rewrite filter_cons_False by (intros H; by apply H). apply filter_other.
      intros Hx. destruct (Hlist o Hx) as [h Hh]. congruence. }
    rewrite insert_id; [by destruct s|]. rewrite Ht. by destruct t.
  - apply lookup_insert_eq.
  - apply lookup_insert_eq.
  - by replace (o - OFFSET_BODY) with p by (unfold o; lia).
Qed.

Lemma inserted_final objs d hd l fl dev o ho c :
  objs !! o = None → objs !! d = Some hd → Body hd = Directory l fl dev →
  text (ObjectName ho) = c →
  inserted objs (<[o := ho]> (<[d := set_Body (Directory (l ++ [o]) fl dev) hd]> objs)) d o c.
Proof.
  intros Ho Hd Hb Hc. split; [done|]. split; [|exists ho; by rewrite lookup_insert_eq].
  intros x h Hx. rewrite lookup_insert_ne by congruence.
  destruct (decide (d = x)) as [<-|Hne].
  - rewrite lookup_insert_eq. eexists. split; [done|]. split; [simpl; by simplify_eq|].
    assert (h = hd) as -> by congruence. rewrite Hb. by rewrite decide_True.
  - rewrite lookup_insert_ne by done. exists h. split; [done|]. split; [done|].
    destruct (Body h); [by rewrite decide_False|done..].
Qed.

Lemma store_ok_final dt objs d hd l fl dev o ho :
  store_ok dt objs → objs !! o = None → objs !! d = Some hd → Body hd = Directory l fl dev →
  Magic ho = OBJECT_HEADER_MAGIC → name_ok (ObjectName ho) → ObjectType ho = dt →
  Body ho = Directory [] 0 NULL →
  store_ok dt (<[o := ho]> (<[d := set_Body (Directory (l ++ [o]) fl dev) hd]> objs)).
Proof.
  intros [Hdt Hok] Ho Hd Hb H1 H2 H3 H4. split; [done|].
  assert (∀ y, is_Some (objs !! y) →
    is_Some ((<[o := ho]> (<[d := set_Body (Directory (l ++ [o]) fl dev) hd]> objs)) !! y)) as Hin.
  { intros y Hy. apply lookup_insert_is_Some'. right. apply lookup_insert_is_Some'. by right. }
  intros x h. rewrite lookup_insert_Some. intros [[<- <-]|[Hne Hx]].
  - split; [done|]. split; [done|]. rewrite H4. split; [done|]. by intros y ?%not_elem_of_nil.
  - rewrite lookup_insert_Some in Hx. destruct Hx as [[<- <-]|[Hne' Hx]].
    + destruct (Hok d hd Hd) as (M1 & M2 & M3). rewrite Hb in M3. destruct M3 as [M3 M4].
      split; [done|]. split; [done|]. split; [done|]. simpl. intros y [Hy|Hy]%elem_of_app.
      * apply Hin, M4, Hy.
      * apply list_elem_of_singleton in Hy as ->. apply lookup_insert_is_Some'. by left.
    + destruct (Hok x h Hx) as (M1 & M2 & M3). split; [done|]. split; [done|].
      destruct (Body h); [|done..]. destruct M3 as [M3 M4]. split; [done|].
      intros y Hy. by apply Hin, M4.
Qed.

(** C24: creating a directory under a path of which only the last name is
    missing makes a new empty directory with one reference; afterwards the
    path leads to it, every path that led to an object still does, and the
    name space is well formed. *)
Theorem create_directory_found t a Name cs V s d p w2 :
  creatable (ObDirectoryObjectType s) t (Some a) sizeof_OBJECT_DIRECTORY V s →
  AttrName a = Some Name → RootDirectory a = NULL →
  path_of (text Name) cs → Length Name <= MAX_OBJECT_PATH →
  store_ok (ObDirectoryObjectType s) (objects s) → locks_free s → objects_used s →
  ObRootDirectory s ≠ NULL → is_Some (objects s !! ObRootDirectory s) →
  walk (objects s) (ObRootDirectory s) cs = Missing d →
  enough_memory t sizeof_OBJECT_DIRECTORY s p w2 →
  @sl_free W (ob_spin (TypeLock (ObDirectoryObjectType s))) (outer s) →
  ∃ o s' h, ObCreateDirectoryObject call false a V s = Ok ((STATUS_SUCCESS, Some o, 0), s') ∧
    objects s !! o = None ∧ objects s' !! o = Some h ∧ RefCount h = 1 ∧ OpenHandleCount h = 0 ∧
    Attributes h = AttrAttributes a ∧ Body h = Directory [] 0 NULL ∧
    walk (objects s') (ObRootDirectory s') cs = Found o ∧
    (∀ r ns x, walk (objects s) r ns = Found x → walk (objects s') r ns = Found x) ∧
    store_ok (ObDirectoryObjectType s') (objects s').
Proof.
  intros Hc Hname Hrel Hp Hlen Hok Hf Hu Hroot Hr Hw Hmem Hty.
  destruct (create_named_run _ t a Name cs _ V s d p w2 Hc Hname Hrel Hp Hlen Hok Hf Hu Hroot Hr Hw
    Hmem Hty) as (D & hd & l & fl & dev & Ho & Hd & Hb & HD & Hlast & Hrun).
  set (o := p + OFFSET_BODY) in *. set (ho := created _ _ _) in Hrun.
  set (ho' := set_Body (Directory [] 0 NULL) ho).
  unfold ObCreateDirectoryObject. rewrite assert_true by by rewrite Hname. rewrite gets_run.
  replace (ObRootDirectory s =? NULL) with false by by (symmetry; apply Z.eqb_neq).
  cbn [andb]. rewrite assert_true by done. rewrite gets_run, (bind_Ok _ _ _ _ _ Hrun).
  change (K_SUCCESS STATUS_SUCCESS) with true. cbn [negb]. set (s1 := listed _ _ _ _).
  assert (objects s1 !! o = Some ho) as Ho1 by apply lookup_insert_eq.
  unfold set_body. rewrite bind_assoc, (header_run _ _ s1 ho Ho1), put_header_run.
  cbn [when]. rewrite bind_ret. set (s2 := with_objects _ s1). exists o, s2, ho'.
  assert (objects s2 = <[o := ho']> (<[d := set_Body (Directory (l ++ [o]) fl dev) hd]> (objects s)))
    as E2 by (unfold s2; simpl; by rewrite insert_insert_eq).
  pose proof (inserted_final (objects s) d hd l fl dev o ho' (text D) Ho Hd Hb eq_refl) as Hins.
  pose proof (store_children _ _ Hok) as Hch.
  split; [done|]. split; [done|]. rewrite E2. split; [apply lookup_insert_eq|].
  split; [done|]. split; [done|]. split; [done|]. split; [done|]. split; [|split].
  - pose proof (walk_inserted _ _ d o (text D) (ObRootDirectory s) cs Hins Hch) as Hwi.
    rewrite Hw in Hwi. by apply Hwi.
  - intros r ns x Hx. pose proof (walk_inserted _ _ d o (text D) r ns Hins Hch) as Hwi.
    by rewrite Hx in Hwi.
  - by apply store_ok_final.
Qed.

End runs.

(** ** Concrete runs

    A name space with only the root directory, whose object is the allocated
    block at the start of the non-paged pool. *)

#[local] Instance demo_ob_world : ObWorld (pools prcb) :=
  kernel_world (prcb_locks demo_run) CurrentIrql (prcb_irql_free demo_run) 2 (λ _, 3) (λ _, ret 0x9000) (λ _ _, ret tt) (λ _ _, []).

Definition root_block : POOLHEADER := PoolHeader MMNONPAGEPOOL_START NonPagedPool 140 1 POOL_STATUS_ALLOCATED.
Definition rest_block : POOLHEADER :=
  free_block NonPagedPool (MMNONPAGEPOOL_START + 168) (MMNONPAGEPOOL_SIZE - 28 - 168).
Definition names_world : pools prcb :=
  Pools {[ PagedPool := [demo_paged]; NonPagedPool := [root_block; rest_block] ]} demo_locks.
Definition root_header : OBJECT_HEADER :=
  Header OBJECT_HEADER_MAGIC false (ObjectTypeList 1) 0 1 (UnicodeString 1 128 7 [92]) OBJ_PERMANENT
    (Directory [] 0 NULL).
Definition demo_names : ob (pools prcb) :=
  ObState {[ demo_object := root_header ]} {[ ObjectTypeList 1 := directory_type ]} ∅
    demo_object NULL (ObjectTypeList 1) NULL NULL NULL names_world.
Definition name_abc : list Z := [97; 98; 99].
Definition path_abc : UNICODE_STRING := UnicodeString 4 5 9 (92 :: name_abc).

#[local] Instance demo_lock : SpinLock prcb := prcb_spinlock demo_run 0 2.

Lemma names_inv : kernel_inv [demo_paged] [root_block; rest_block] names_world.
Proof.
  split; [done|]. split; [done|].
  split; [apply free_block_inv; try done; (apply Z.mod_divide; [lia|reflexivity])|].
  split; [done|]. split; [done|]. split; [apply Z.mod_divide; [lia|reflexivity]|].
  split; [|split; [|]].
  - simpl. repeat split; try done; (apply Z.mod_divide; [lia|reflexivity]).
  - split; [by left|done].
  - constructor; [split; [done|by left]|]. constructor; [split; [done|by right]|done].
Qed.

Lemma names_ready pt n :
  is_pool pt → 0 <= n < 2 ^ 32 - 60 → pa_ready pt n names_world.
Proof.
  intros Hpt Hn. exists [demo_paged], [root_block; rest_block].
  split; [apply names_inv|]. split; [done|].
  split; [split; [split; [done|split; [done|by right]]|done]|]. split; [done|].
  destruct Hpt as [-> | ->]; intros b Hb Hf.
  - apply list_elem_of_singleton in Hb as ->. by apply split_safe_large.
  - apply elem_of_cons in Hb as [->|Hb]; [done|].
    apply list_elem_of_singleton in Hb as ->. by apply split_safe_large.
Qed.

Lemma names_lock l : @sl_free _ (ob_spin l) names_world.
Proof. split; [done|]. split; [done|by right]. Qed.

Lemma names_object o h :
  objects demo_names !! o = Some h → o = demo_object ∧ h = root_header.
Proof.
  change (objects demo_names) with ({[ demo_object := root_header ]} : gmap addr OBJECT_HEADER).
  by intros [<- <-]%lookup_singleton_Some.
Qed.

Lemma names_store : store_ok (ObDirectoryObjectType demo_names) (objects demo_names).
Proof.
  split; [done|]. intros o h [-> ->]%names_object. split; [done|].
  split; [split; [done|by intros [?|?%not_elem_of_nil]%elem_of_cons]|].
  split; [done|]. by intros x ?%not_elem_of_nil.
Qed.

Lemma names_locks : locks_free demo_names.
Proof. intros d h l fl dev _ _. apply names_lock. Qed.

Lemma names_used : objects_used demo_names.
Proof.
  intros o [h [-> _]%names_object]. exists NonPagedPool, [root_block; rest_block], root_block.
  split; [by right|]. split; [done|]. split; [left|]. split; [done|]. reflexivity.
Qed.

Lemma abc_path : path_of (text path_abc) [name_abc].
Proof.
  apply (path_last [92] name_abc); [by repeat constructor|].
  split; [done|]. split; [by repeat constructor|]. split; [|done].
  unfold name_abc. rewrite !not_elem_of_cons. repeat split; try done. apply not_elem_of_nil.
Qed.

Lemma lookup_walks_tree_witness :
  ∃ ctx, ObpLookupObjectByName demo_object path_abc ObInitializeLookupContext None demo_names
    = Ok ((STATUS_OBJECT_NAME_NOT_FOUND, ctx), demo_names) ∧ ctx_Directory ctx = demo_object.
Proof.
  destruct (lookup_walks_tree demo_object path_abc [name_abc] demo_names) as (st & ctx & Hr & Hans).
  - apply abc_path.
  - apply names_store.
  - apply names_locks.
  - discriminate.
  - discriminate.
  - by eexists.
  - apply names_ready; [by right|done].
  - assert (∃ w, pa_alloc NonPagedPool MAX_OBJECT_NAME_SIZE tag_mNbO (outer demo_names)
      = Ok (MMNONPAGEPOOL_START + 168 + 24, w)) as [w Hw]
      by (eexists; vm_compute; reflexivity).
    destruct (Hans _ w Hw) as (-> & _ & Hd). by exists ctx.
Defined.

Lemma create_drop_restores_witness :
  ∃ o s', ObCreateObject demo_call (ObjectTypeList 1) None 28 1 demo_names = Ok ((STATUS_SUCCESS, Some o), s') ∧
    ObDereferenceObject demo_call o s' = Ok (tt, demo_names).
Proof.
  destruct (create_drop_restores demo_call (ObjectTypeList 1) directory_type 28 1 demo_names)
    as [Hr|(o & s' & Hr & _ & _ & Hd)].
  - repeat split; try done; discriminate.
  - done.
  - apply names_used.
  - by intros x ?%not_elem_of_nil.
  - apply names_ready; [by left|done].
  - apply names_lock.
  - exfalso. assert (∃ o s', ObCreateObject demo_call (ObjectTypeList 1) None 28 1 demo_names
      = Ok ((STATUS_SUCCESS, Some o), s')) as (o & s' & Hs) by (eexists _, _; vm_compute; reflexivity).
    congruence.
  - by exists o, s'.
Defined.

Lemma create_directory_found_witness :
  ∃ o s', ObCreateDirectoryObject demo_call false (ObjectAttributes NULL (Some path_abc) OBJ_PERMANENT) 1 demo_names
      = Ok ((STATUS_SUCCESS, Some o, 0), s') ∧
    walk (objects s') (ObRootDirectory s') [name_abc] = Found o.
Proof.
  assert (∃ w, pa_alloc NonPagedPool MAX_OBJECT_NAME_SIZE tag_mNbO names_world
    = Ok (MMNONPAGEPOOL_START + 168 + 24, w)) as [w0 Hw0] by (eexists; vm_compute; reflexivity).
  assert (∃ w, pa_alloc PagedPool (sizeof_OBJECT_HEADER + sizeof_OBJECT_DIRECTORY) NonPagedPool names_world
    = Ok (MMPAGEPOOL_START + 24, w) ∧ ∃ w', pa_alloc NonPagedPool MAX_OBJECT_NAME_SIZE tag_mNbO w
    = Ok (MMNONPAGEPOOL_START + 168 + 24, w')) as (w1 & Hw1 & w2 & Hw2)
    by (eexists; split; [vm_compute; reflexivity|eexists; vm_compute; reflexivity]).
  pose proof (create_directory_found demo_call directory_type (ObjectAttributes NULL (Some path_abc) OBJ_PERMANENT)
    path_abc [name_abc] 1 demo_names demo_object (MMPAGEPOOL_START + 24) w2) as H.
  destruct H as (o & s' & h & Hr & _ & _ & _ & _ & _ & _ & Hwalk & _).
  - repeat split; try done; discriminate.
  - reflexivity.
  - reflexivity.
  - apply abc_path.
  - discriminate.
  - apply names_store.
  - apply names_locks.
  - apply names_used.
  - discriminate.
  - by eexists.
  - reflexivity.
  - exists (MMNONPAGEPOOL_START + 168 + 24), w0, w1, (MMNONPAGEPOOL_START + 168 + 24).
    split; [apply names_ready; [by right|done]|]. split; [exact Hw0|]. split; [done|].
    split; [apply names_ready; [by left|done]|]. split; [exact Hw1|]. split; [done|].
    split; [|split; [exact Hw2|done]].
    refine (ready_other PagedPool _ NonPagedPool _ names_world w1 NonPagedPool _ _ _ _ Hw1).
    + apply (names_ready PagedPool); [by left|done].
    + apply (names_ready NonPagedPool); [by right|done].
    + done.
  - apply names_lock.
  - exists o, s'. split; [exact Hr|exact Hwalk].
Defined.
