(* ===== verification/Io.v ===== *)
(** * Io: the input/output manager and the file system driver
    (kern/io/io.h, io.c, iodevice.c, iodriver.c, iofile.c, kern/fs/kosfs.c)

    The bodies of device, driver and file objects are in stores by object
    address, next to the headers of Ob.v; I/O request packets and the control
    blocks of open files are in stores by address in the pools.  A function
    pointer is a value of [routine]; the close procedure of the file type
    is the address [IoCloseFileProcedure].

    FatFs (kern/fs/ff.c) is third-party code: the class [FatFs] has the calls
    the driver makes, with any results in the range of FRESULT. *)

From Stdlib Require Import String.
From S2P Require Import Prelude Types Str Stdio Irql Pool Ob ObName.
#[local] Open Scope list_scope.

(** ** Data (io.h) *)

Definition IRP_MJ_CREATE : Z := 0x00.
Definition IRP_MJ_CLOSE : Z := 0x02.
Definition IRP_MJ_READ : Z := 0x03.
Definition IRP_MJ_WRITE : Z := 0x04.
Definition IRP_MJ_QUERY_INFORMATION : Z := 0x05.
Definition IRP_MJ_SET_INFORMATION : Z := 0x06.
Definition IRP_MJ_MAXIMUM_FUNCTION : Z := 0x1b.
Definition IRP_MN_NULL : Z := 0x0.

Definition OBJECT_TYPE_FILE : Z := 0.
Definition OBJECT_TYPE_DEVICE : Z := 3.
Definition OBJECT_TYPE_DRIVER : Z := 4.
Definition MAXPATHLEN : Z := 1024.

(** Sizes of the structures and the multi-character tags. *)
Definition sizeof_IRP : Z := 100.
Definition sizeof_DEVICE_OBJECT : Z := 112.
Definition sizeof_DRIVER_OBJECT : Z := 140.
Definition sizeof_FILE_OBJECT : Z := 1048.
Definition sizeof_FIL : Z := 548.
Definition sizeof_FATFS : Z := 564.
Definition tag_IprI : Z := 0x49707249.
Definition tag_BCF : Z := 0x20424346.
Definition tag_FTAF : Z := 0x46544146.
Definition tag_eliF : Z := 0x656C6946.

(** The functions a pointer of a driver object points to. *)
Inductive routine :=
| KfsPassThrough_ | KfsRead_ | KfsWrite_ | KfsCreate_ | KfsClose_ | KfsQueryInfo_ | KfsSetInfo_ | KfsUnload_
| KFSDriverEntry_.

Record DEVICE_OBJECT := Device {
  DeviceSize : Z; DriverObject : addr; Characteristics : Z; StackSize : Z; DeviceExtension : addr }.

Record DRIVER_OBJECT := Driver {
  DriverSize : Z; DriverInit : option routine; DriverUnload : option routine;
  MajorFunction : list (option routine) }.

Record FILE_OBJECT := File {
  FileDevice : addr; FileMode : Z; FileOffset : Z; filename : list Z; FsContext : addr }.

(** [IoStack] has the locations that have been filled in, as major and minor
    function; [IoStatus] is None until the driver sets it. *)
Record IRP := MkIrp {
  IrpBuffer : addr; BufferSize : Z; pFileObj : addr; IrpOffset : Z; IoStack : gmap Z (Z * Z);
  CurrentStackLocation : Z; Cancel : bool; Completed : bool; IoStatus : option (KSTATUS * Z) }.

(** What the kernel uses of FatFs, with the fsize of a control block: each call takes and returns the state of
    the file system, and the control block (FIL) it works on.  A control block
    that f_open fails on is not open. *)
Class FatFs (FS FIL : Type) := {
  f_open : list Z → Z → FS → Z * FIL * FS;
  f_read : FIL → Z → FS → Z * list Z * FIL * FS;
  f_write : FIL → list Z → FS → Z * Z * FIL * FS;
  f_close : FIL → FS → Z * FIL * FS;
  f_chdrive : Z → FS → FS;
  f_mount : Z → addr → FS → FS;
  f_size : FIL → Z;
  f_open_result : ∀ n m fs, 0 <= (f_open n m fs).1.1 <= 18 }.

Definition FR_OK : Z := 0.

Record io (FS FIL W : Type) := IoState {
  devices : gmap addr DEVICE_OBJECT;
  drivers : gmap addr DRIVER_OBJECT;
  files : gmap addr FILE_OBJECT;
  irps : gmap addr IRP;
  fcbs : gmap addr FIL;
  user_memory : memory;
  fs : FS;
  IoFileObjectType : addr;
  IoDriverObjectType : addr;
  DeviceNumber : Z;
  kernel : W }.
Arguments IoState {FS FIL W}.
Arguments devices {FS FIL W}.
Arguments drivers {FS FIL W}.
Arguments files {FS FIL W}.
Arguments irps {FS FIL W}.
Arguments fcbs {FS FIL W}.
Arguments user_memory {FS FIL W}.
Arguments fs {FS FIL W}.
Arguments IoFileObjectType {FS FIL W}.
Arguments IoDriverObjectType {FS FIL W}.
Arguments DeviceNumber {FS FIL W}.
Arguments kernel {FS FIL W}.

Definition advance_irp (i : IRP) : IRP :=
  MkIrp (IrpBuffer i) (BufferSize i) (pFileObj i) (IrpOffset i) (IoStack i) (s32 (CurrentStackLocation i + 1))
    (Cancel i) (Completed i) (IoStatus i).
Definition set_IoStatus (st : KSTATUS) (n : Z) (i : IRP) : IRP :=
  MkIrp (IrpBuffer i) (BufferSize i) (pFileObj i) (IrpOffset i) (IoStack i) (CurrentStackLocation i)
    (Cancel i) (Completed i) (Some (st, n)).
Definition complete (i : IRP) : IRP :=
  MkIrp (IrpBuffer i) (BufferSize i) (pFileObj i) (IrpOffset i) (IoStack i) (CurrentStackLocation i)
    (Cancel i) true (IoStatus i).
Definition set_FsContext (c : addr) (f : FILE_OBJECT) : FILE_OBJECT :=
  File (FileDevice f) (FileMode f) (FileOffset f) (filename f) c.

Section updates.
Context {FS FIL W : Type}.
Implicit Type s : io FS FIL W.

Definition with_kernel (w : W) s : io FS FIL W :=
  IoState (devices s) (drivers s) (files s) (irps s) (fcbs s) (user_memory s) (fs s) (IoFileObjectType s)
    (IoDriverObjectType s) (DeviceNumber s) w.
Definition with_files (f : gmap addr FILE_OBJECT) s : io FS FIL W :=
  IoState (devices s) (drivers s) f (irps s) (fcbs s) (user_memory s) (fs s) (IoFileObjectType s)
    (IoDriverObjectType s) (DeviceNumber s) (kernel s).
Definition with_devices (f : gmap addr DEVICE_OBJECT) s : io FS FIL W :=
  IoState f (drivers s) (files s) (irps s) (fcbs s) (user_memory s) (fs s) (IoFileObjectType s)
    (IoDriverObjectType s) (DeviceNumber s) (kernel s).
Definition with_drivers (f : gmap addr DRIVER_OBJECT) s : io FS FIL W :=
  IoState (devices s) f (files s) (irps s) (fcbs s) (user_memory s) (fs s) (IoFileObjectType s)
    (IoDriverObjectType s) (DeviceNumber s) (kernel s).
Definition with_irps (f : gmap addr IRP) s : io FS FIL W :=
  IoState (devices s) (drivers s) (files s) f (fcbs s) (user_memory s) (fs s) (IoFileObjectType s)
    (IoDriverObjectType s) (DeviceNumber s) (kernel s).
Definition with_fcb (a : addr) (x : FIL) (v : FS) s : io FS FIL W :=
  IoState (devices s) (drivers s) (files s) (irps s) (<[a := x]> (fcbs s)) (user_memory s) v (IoFileObjectType s)
    (IoDriverObjectType s) (DeviceNumber s) (kernel s).
Definition with_fs (v : FS) s : io FS FIL W :=
  IoState (devices s) (drivers s) (files s) (irps s) (fcbs s) (user_memory s) v (IoFileObjectType s)
    (IoDriverObjectType s) (DeviceNumber s) (kernel s).
Definition with_user_memory (m : memory) s : io FS FIL W :=
  IoState (devices s) (drivers s) (files s) (irps s) (fcbs s) m (fs s) (IoFileObjectType s)
    (IoDriverObjectType s) (DeviceNumber s) (kernel s).
Definition with_statics (ft dt : addr) (n : Z) s : io FS FIL W :=
  IoState (devices s) (drivers s) (files s) (irps s) (fcbs s) (user_memory s) (fs s) ft dt n (kernel s).
End updates.

(** *** The modes of a file (inc/file.h, kern/fs/ff.h) *)

Definition O_RDONLY : Z := 0x0000.
Definition O_WRONLY : Z := 0x0001.
Definition O_RDWR : Z := 0x0002.
Definition O_CREATE : Z := 0x0100.
Definition O_TRUNC : Z := 0x0200.
Definition O_EXCL : Z := 0x0400.
Definition O_MKDIR : Z := 0x0800.
Definition FA_READ : Z := 0x01.
Definition FA_WRITE : Z := 0x02.
Definition FA_CREATE_NEW : Z := 0x04.
Definition FA_CREATE_ALWAYS : Z := 0x08.
Definition FA_OPEN_ALWAYS : Z := 0x10.

Definition FileModeToFSMode (FileMode : Z) : outcome Z :=
  let FsMode := if FileMode =? O_RDONLY then FA_READ else 0 in
  let FsMode := if TEST_FLAG FileMode O_WRONLY
    then Z.lor FsMode (Z.lor FA_WRITE FA_OPEN_ALWAYS) else FsMode in
  let FsMode := if TEST_FLAG FileMode O_RDWR
    then Z.lor FsMode (Z.lor FA_READ (Z.lor FA_WRITE FA_OPEN_ALWAYS)) else FsMode in
  let FsMode := if TEST_FLAG FileMode O_CREATE then Z.lor FsMode FA_CREATE_NEW else FsMode in
  let FsMode := if TEST_FLAG FileMode O_TRUNC then Z.lor FsMode (Z.lor FA_READ FA_OPEN_ALWAYS) else FsMode in
  let FsMode := if TEST_FLAG FileMode O_EXCL then Z.lor FsMode FA_CREATE_NEW else FsMode in
  if TEST_FLAG FileMode O_MKDIR then Stop BugCheck else Ok FsMode.

(** The kernel below the object manager, with the I/O state around it. *)
Section world.
Context {FS FIL W : Type}.

#[program] Definition io_kernel : lens (io FS FIL W) W := Lens kernel with_kernel _ _ _.
Next Obligation. done. Qed.
Next Obligation. by intros []. Qed.
Next Obligation. done. Qed.

#[export] Instance io_world `{!ObWorld W} : ObWorld (io FS FIL W) := zoom_world io_kernel.
End world.

(** ** Operations *)

Section io.
Context {FS FIL W : Type} `{!FatFs FS FIL} `{!ObWorld W}.
Local Notation iow := (io FS FIL W).
Local Notation K := (ob iow).

Definition in_io {A} (m : M iow A) : M K A := in_outer m.

Definition device (d : addr) : M K DEVICE_OBJECT := in_io (deref (λ w, devices w !! d)).
Definition put_device (d : addr) (x : DEVICE_OBJECT) : M K unit :=
  in_io (modify (λ w, with_devices (<[d := x]> (devices w)) w)).
Definition driver (d : addr) : M K DRIVER_OBJECT := in_io (deref (λ w, drivers w !! d)).
Definition put_driver (d : addr) (x : DRIVER_OBJECT) : M K unit :=
  in_io (modify (λ w, with_drivers (<[d := x]> (drivers w)) w)).
Definition file (o : addr) : M K FILE_OBJECT := in_io (deref (λ w, files w !! o)).
Definition put_file (o : addr) (x : FILE_OBJECT) : M K unit :=
  in_io (modify (λ w, with_files (<[o := x]> (files w)) w)).
Definition irp (i : addr) : M K IRP := in_io (deref (λ w, irps w !! i)).
Definition put_irp (i : addr) (x : IRP) : M K unit :=
  in_io (modify (λ w, with_irps (<[i := x]> (irps w)) w)).
Definition fcb (a : addr) : M K FIL := in_io (deref (λ w, fcbs w !! a)).

(** *** The file system driver (kosfs.c) *)

Definition IoGetCurrentIrpStackLocation (i : IRP) : M K (Z * Z) :=
  in_io (deref (λ _, IoStack i !! CurrentStackLocation i)).

Definition IoCompleteRequest (Irp : addr) : M K unit := let! i := irp Irp in put_irp Irp (complete i).

(** The bytes the file system puts into, or takes from, the buffer. *)
Fixpoint store_bytes (p : addr) (l : list Z) : M memory unit :=
  match l with [] => ret tt | b :: l' => st p b >>> store_bytes (p + 1) l' end.
Fixpoint load_bytes (n : nat) (p : addr) : M memory (list Z) :=
  match n with
  | O => ret []
  | S k => let! b := ld p in let! l := load_bytes k (p + 1) in ret (b :: l)
  end.
Definition in_user_memory {A} (m : M memory A) : M K A := in_io (zoom user_memory with_user_memory m).

Definition KfsRead (DeviceObject Irp : addr) : M K KSTATUS :=
  let! i := irp Irp in
  let! pFileObject := file (pFileObj i) in
  let Fcb := FsContext pFileObject in
  assert_ (negb (Fcb =? NULL)) >>>
  let! (Major, _) := IoGetCurrentIrpStackLocation i in
  assert_ (Major =? IRP_MJ_READ) >>>
  assert_ (negb (Fcb =? NULL)) >>>
  let! x := fcb Fcb in
  let! v := gets (λ s, fs (outer s)) in
  let '(Status, data, x', v') := f_read x (BufferSize i) v in
  in_io (modify (with_fcb Fcb x' v')) >>>
  in_user_memory (store_bytes (IrpBuffer i) data) >>>
  assert_ (Status =? FR_OK) >>>
  put_irp Irp (set_IoStatus Status (Z.of_nat (length data)) i) >>>
  IoCompleteRequest Irp >>>
  ret Status.

Definition KfsWrite (DeviceObject Irp : addr) : M K KSTATUS :=
  let! i := irp Irp in
  let! pFileObject := file (pFileObj i) in
  let! (Major, _) := IoGetCurrentIrpStackLocation i in
  assert_ (Major =? IRP_MJ_WRITE) >>>
  let Fcb := FsContext pFileObject in
  assert_ (negb (Fcb =? NULL)) >>>
  let! x := fcb Fcb in
  let! v := gets (λ s, fs (outer s)) in
  let! data := in_user_memory (load_bytes (Z.to_nat (BufferSize i)) (IrpBuffer i)) in
  let '(Status, BytesWritten, x', v') := f_write x data v in
  in_io (modify (with_fcb Fcb x' v')) >>>
  put_irp Irp (set_IoStatus Status BytesWritten i) >>>
  IoCompleteRequest Irp >>>
  ret Status.

Definition SYSTEM_DRIVE : Z := 1.

Definition KfsCreate (DeviceObject Irp : addr) : M K KSTATUS :=
  let! i := irp Irp in
  let! pFileObject := file (pFileObj i) in
  assert_ (FsContext pFileObject =? NULL) >>>
  let! Fcb := in_outer (pa_alloc NonPagedPool sizeof_FIL tag_BCF) in
  if Fcb =? NULL then ret STATUS_INSUFFICIENT_RESOURCES
  else
    in_io (modify (λ w, with_fs (f_chdrive SYSTEM_DRIVE (fs w)) w)) >>>
    let! FsMode := lift (FileModeToFSMode (FileMode pFileObject)) in
    let! v := gets (λ s, fs (outer s)) in
    let '(Status, x, v') := f_open (filename pFileObject) FsMode v in
    in_io (modify (with_fcb Fcb x v')) >>>
    if negb (K_SUCCESS Status) then
      assert_ false >>>
      in_outer (pa_free Fcb 0) >>>
      put_file (pFileObj i) (set_FsContext NULL pFileObject) >>>
      ret Status
    else
      put_file (pFileObj i) (set_FsContext Fcb pFileObject) >>>
      IoCompleteRequest Irp >>>
      ret Status.

Definition KfsClose (DeviceObject Irp : addr) : M K KSTATUS :=
  let! i := irp Irp in
  let! pFileObject := file (pFileObj i) in
  let! x := fcb (FsContext pFileObject) in
  let! v := gets (λ s, fs (outer s)) in
  let '(Status, x', v') := f_close x v in
  in_io (modify (with_fcb (FsContext pFileObject) x' v')) >>>
  assert_ (Status =? STATUS_SUCCESS) >>>
  in_outer (pa_free (FsContext pFileObject) tag_BCF) >>>
  IoCompleteRequest Irp >>>
  ret Status.

Definition KfsQueryInfo (DeviceObject Irp : addr) : M K KSTATUS := halt BugCheck.
Definition KfsSetInfo (DeviceObject Irp : addr) : M K KSTATUS := halt BugCheck.
Definition KfsPassThrough (DeviceObject Irp : addr) : M K KSTATUS := halt BugCheck.
Definition KfsUnload : M K unit := halt BugCheck.

(** A call through a dispatch pointer; the routines of other types are not
    called through it. *)
Definition dispatch (f : option routine) (DeviceObject Irp : addr) : M K KSTATUS :=
  match f with
  | Some KfsPassThrough_ => KfsPassThrough DeviceObject Irp
  | Some KfsRead_ => KfsRead DeviceObject Irp
  | Some KfsWrite_ => KfsWrite DeviceObject Irp
  | Some KfsCreate_ => KfsCreate DeviceObject Irp
  | Some KfsClose_ => KfsClose DeviceObject Irp
  | Some KfsQueryInfo_ => KfsQueryInfo DeviceObject Irp
  | Some KfsSetInfo_ => KfsSetInfo DeviceObject Irp
  | _ => halt Fault
  end.

(** *** Requests (io.c) *)

Definition IoFreeIRP (Irp : addr) : M K unit := in_outer (pa_free Irp tag_IprI).

(** A packet has the address of a pool block; what is not set keeps its
    contents and is not read. *)
Definition IoBuildIrp (FileObject : addr) (Major Minor : Z) (Buffer : addr) (Size Offset : Z) : M K addr :=
  let! _ := file FileObject in
  let! p := in_outer (pa_alloc PagedPool sizeof_IRP tag_IprI) in
  if p =? NULL then ret NULL
  else
    put_irp p (MkIrp Buffer Size FileObject Offset {[ -1 + 1 := (u8 Major, u8 Minor) ]} (-1) false false None) >>>
    ret p.

Definition IoCallDriver (DeviceObject Irp : addr) : M K KSTATUS :=
  let! i := irp Irp in
  put_irp Irp (advance_irp i) >>>
  let! i := irp Irp in
  let! d := device DeviceObject in
  if StackSize d <=? CurrentStackLocation i then halt BugCheck
  else
    let! dr := driver (DriverObject d) in
    let! (Major, _) := IoGetCurrentIrpStackLocation i in
    let! f := in_io (deref (λ _, MajorFunction dr !! Z.to_nat Major)) in
    dispatch f DeviceObject Irp.

Definition IoFileOperations (FileObject Buffer NumberOfBytes Major Minor : Z) : M K KSTATUS :=
  if FileObject =? NULL then assert_ false >>> ret STATUS_INVALID_PARAMETER
  else
    let! f := file FileObject in
    let! Irp := IoBuildIrp FileObject Major Minor Buffer NumberOfBytes (FileOffset f) in
    assert_ (negb (Irp =? NULL)) >>>
    if Irp =? NULL then ret STATUS_INSUFFICIENT_RESOURCES
    else
      let! status := IoCallDriver (FileDevice f) Irp in
      IoFreeIRP Irp >>>
      ret status.

(** *** Files (iofile.c) *)

Definition IoCloseFile (FileObject : addr) : M K KSTATUS :=
  let! f := file FileObject in
  if FsContext f =? 0 then ret STATUS_SUCCESS
  else IoFileOperations FileObject NULL 0 IRP_MJ_CLOSE IRP_MN_NULL.

(** The close procedures: that of the file type is here. *)
Definition IoCloseFileProcedure : addr := 1.
Context (other : addr → addr → M K KSTATUS).
Definition io_call (procedure o : addr) : M K KSTATUS :=
  if procedure =? IoCloseFileProcedure then IoCloseFile o else other procedure o.

(** The addresses of local variables that get an object; never NULL. *)
Definition local_variable : addr := 0x1000.

Definition IoCreateFile (Filename : list Z) (Mode : Z) : M K (KSTATUS * Z) :=
  let! (PathRemaining, DeviceObject) := ObGetDeviceObject Filename in
  let! t := gets (λ s, IoFileObjectType (outer s)) in
  assert_ (negb (t =? NULL)) >>>
  let! (Status, r) := ObCreateObject io_call t (Some (ObjectAttributes NULL None OBJ_INHERIT)) sizeof_FILE_OBJECT
    local_variable in
  match r with
  | None => assert_ false >>> ret (Status, 0)
  | Some FileObject =>
      put_file FileObject (File DeviceObject Mode 0 (take (Z.to_nat MAXPATHLEN) PathRemaining) NULL) >>>
      let! Irp := IoBuildIrp FileObject IRP_MJ_CREATE IRP_MN_NULL NULL 0 0 in
      if Irp =? NULL then
        ObDereferenceObject io_call FileObject >>> ret (STATUS_INSUFFICIENT_RESOURCES, 0)
      else
        let! Status := IoCallDriver DeviceObject Irp in
        if negb (K_SUCCESS Status) then
          ObDereferenceObject io_call FileObject >>> ret (Status, 0)
        else
          let! (Status, Handle) := ObInsertObject FileObject in
          if negb (K_SUCCESS Status) then
            ObDereferenceObject io_call FileObject >>> ret (Status, Handle)
          else
            IoFreeIRP Irp >>>
            ret (Status, Handle)
  end.

Definition KCreateFile (Filename : list Z) (Mode : Z) : M K (KSTATUS * Z) := IoCreateFile Filename Mode.

Definition KCloseFile (Handle : Z) : M K unit := ObClose io_call Handle.

Definition KReadFile (Handle Buffer NumberOfBytes : Z) : M K KSTATUS :=
  let! t := gets (λ s, IoFileObjectType (outer s)) in
  let! (Status, FileObject) := ObReferenceObjectByHandle Handle t in
  when (negb (K_SUCCESS Status)) (assert_ false) >>>
  let! Status := IoFileOperations FileObject Buffer NumberOfBytes IRP_MJ_READ IRP_MN_NULL in
  ObDereferenceObject io_call FileObject >>>
  ret Status.

Definition KWriteFile (Handle Buffer NumberOfBytes : Z) : M K KSTATUS :=
  let! t := gets (λ s, IoFileObjectType (outer s)) in
  let! (Status, FileObject) := ObReferenceObjectByHandle Handle t in
  when (negb (K_SUCCESS Status)) (assert_ false) >>>
  let! _ := IoFileOperations FileObject Buffer NumberOfBytes IRP_MJ_WRITE IRP_MN_NULL in
  ObDereferenceObject io_call FileObject >>>
  ret Status.

(** The types: that of files has its pool and tag; those of devices and drivers
    have the pool type in the PoolTag field, and that of drivers the size of a
    directory. *)
Definition file_type : OBJECT_TYPE :=
  ObType NonPagedPool sizeof_FILE_OBJECT OBJECT_TYPE_FILE tag_eliF [] NULL IoCloseFileProcedure.
Definition device_type : OBJECT_TYPE :=
  ObType PagedPool sizeof_DEVICE_OBJECT OBJECT_TYPE_DEVICE NonPagedPool [] NULL NULL.
Definition driver_type : OBJECT_TYPE :=
  ObType PagedPool sizeof_OBJECT_DIRECTORY OBJECT_TYPE_DRIVER NonPagedPool [] NULL NULL.

Definition IoCreateFileObjectType : M K unit :=
  let! saved := gets (λ s, IoFileObjectType (outer s)) in
  let! (_, t) := ObCreateObjectType file_type saved in
  in_io (modify (λ w, with_statics t (IoDriverObjectType w) (DeviceNumber w) w)).

Definition IoCreateDriverObjectType : M K unit :=
  let! saved := gets (λ s, IoDriverObjectType (outer s)) in
  let! (_, t) := ObCreateObjectType driver_type saved in
  in_io (modify (λ w, with_statics (IoFileObjectType w) t (DeviceNumber w) w)).

Definition IoCreateDeviceObjectType : M K unit :=
  let! saved := gets IoDeviceObjectType in
  let! (_, t) := ObCreateObjectType device_type saved in
  modify (λ s, ObState (objects s) (types s) (tables s) (ObRootDirectory s) (ObGlobalDirectory s)
    (ObDirectoryObjectType s) (ObSymbolicLinkObjectType s) t (CurrentHandleTable s) (outer s)).

Definition IoInit : M K unit :=
  IoCreateDeviceObjectType >>> IoCreateFileObjectType >>> IoCreateDriverObjectType.

(** *** Devices and drivers (iodevice.c, iodriver.c) *)

Definition name_format : list Z := Stdio.text "\Device\KosDev-%08lx" ++ [0].

(** The name of a device that is not given one: [size] bytes of it, by snprintf. *)
Definition device_name (n : Z) : outcome (list Z) :=
  match vsnprintf 64 0 21 name_format [ArgInt n]
          (list_to_map (map (λ k, (Z.of_nat k, 0)) (seq 0 128))) with
  | Ok (_, m) => Ok (map (λ k, default 0 (m !! Z.of_nat k)) (seq 0 20))
  | Stop e => Stop e
  end.

(** Of the device only the fields the code sets; [garbage] is what the length
    fields of the local name hold, which nothing sets.  The caller's variable
    for the device is never written. *)
Definition IoCreateDevice (garbage : Z) (DriverObject Extension : Z) (Name : option UNICODE_STRING)
    (Char : Z) : M K KSTATUS :=
  let! Name :=
    match Name with
    | Some n => ret n
    | None =>
        let! k := gets (λ s, DeviceNumber (outer s)) in
        let! l := lift (device_name k) in
        in_io (modify (λ w, with_statics (IoFileObjectType w) (IoDriverObjectType w) (u32 (k + 1)) w)) >>>
        ret (UnicodeString (u16 garbage) (u16 garbage) local_variable l)
    end in
  let! t := gets IoDeviceObjectType in
  let! (Status, r) := ObCreateObject io_call t (Some (ObjectAttributes NULL (Some Name) 0))
    (u32 (sizeof_DEVICE_OBJECT + Extension)) local_variable in
  match r with
  | None => ret Status
  | Some o =>
      if negb (K_SUCCESS Status) then ret Status
      else
        put_device o (Device (u16 (sizeof_DEVICE_OBJECT + Extension)) DriverObject Char 1
                        (o + sizeof_DEVICE_OBJECT)) >>>
        ret STATUS_SUCCESS
  end.

Definition name_KfsDisk : list Z := Stdio.text "\Device\Kfsdisk1".
Definition name_drive_c : list Z := Stdio.text "\GLOBAL??\c:".
Definition name_mount : list Z := Stdio.text "\GLOBAL??".
Definition name_KFSDriver : list Z := Stdio.text "\Driver\KFSDriver".

(** MajorFunction[n] := f, on the table with KfsPassThrough in every entry. *)
Definition KfsFunctions : list (option routine) :=
  <[Z.to_nat IRP_MJ_SET_INFORMATION := Some KfsSetInfo_]>
  (<[Z.to_nat IRP_MJ_QUERY_INFORMATION := Some KfsQueryInfo_]>
  (<[Z.to_nat IRP_MJ_CLOSE := Some KfsClose_]>
  (<[Z.to_nat IRP_MJ_CREATE := Some KfsCreate_]>
  (<[Z.to_nat IRP_MJ_WRITE := Some KfsWrite_]>
  (<[Z.to_nat IRP_MJ_READ := Some KfsRead_]>
    (replicate (Z.to_nat (IRP_MJ_MAXIMUM_FUNCTION + 1)) (Some KfsPassThrough_))))))).

Definition IoCreateSymbolicLink (SymbolicLinkName DeviceName : UNICODE_STRING) : M K KSTATUS :=
  ObCreateSymbolicLink io_call SymbolicLinkName DeviceName local_variable.
Definition IoMountFileSystem (MountPoint DeviceName : UNICODE_STRING) : M K KSTATUS :=
  ObMountFileSystem MountPoint DeviceName.

Definition KFSDriverEntry (pDriverObject : addr) : M K KSTATUS :=
  let! dr := driver pDriverObject in
  put_driver pDriverObject (Driver (DriverSize dr) (DriverInit dr) (Some KfsUnload_) KfsFunctions) >>>
  let DeviceName := RtlInitUnicodeString literal name_KfsDisk in
  let! Status := IoCreateDevice 0 pDriverObject 0 (Some DeviceName) 0 in
  assert_ (Status =? STATUS_SUCCESS) >>>
  let SymbolicLinkName := RtlInitUnicodeString literal name_drive_c in
  let! Status := IoCreateSymbolicLink SymbolicLinkName DeviceName in
  assert_ (Status =? STATUS_SUCCESS) >>>
  let MountPoint := RtlInitUnicodeString literal name_mount in
  let! Status := IoMountFileSystem MountPoint DeviceName in
  assert_ (Status =? STATUS_SUCCESS) >>>
  let! filesys1 := in_outer (pa_alloc NonPagedPool sizeof_FATFS tag_FTAF) in
  if filesys1 =? NULL then halt BugCheck
  else
    in_io (modify (λ w, with_fs (f_mount 1 filesys1 (fs w)) w)) >>>
    ret STATUS_SUCCESS.

Definition driver_init (f : routine) (DriverObject : addr) : M K KSTATUS :=
  match f with KFSDriverEntry_ => KFSDriverEntry DriverObject | _ => halt Fault end.

Definition IoCreateDriver (DriverName : UNICODE_STRING) (Init : routine) : M K (KSTATUS * addr) :=
  let! t := gets (λ s, IoDriverObjectType (outer s)) in
  assert_ (negb (t =? NULL)) >>>
  let! (Status, r) := ObCreateObject io_call t (Some (ObjectAttributes NULL (Some DriverName) 0)) sizeof_DRIVER_OBJECT
    local_variable in
  match r with
  | None => ret (Status, NULL)
  | Some o =>
      if negb (K_SUCCESS Status) then ret (Status, NULL)
      else
        put_driver o (Driver sizeof_DRIVER_OBJECT (Some Init) None (replicate 28 None)) >>>
        let! Status := driver_init Init o in
        if negb (K_SUCCESS Status) then halt BugCheck
        else ret (STATUS_SUCCESS, o)
  end.

Definition KFSinit : M K unit :=
  let! (status, _) := IoCreateDriver (RtlInitUnicodeString literal name_KFSDriver) KFSDriverEntry_ in
  if negb (K_SUCCESS status) then halt BugCheck else ret tt.

End io.

(** ** Lemmas *)

(** *** Paths that leave the name space at their first name *)

Section paths.
Context {W : Type} `{!ObWorld W}.
Implicit Type s : ob W.

Lemma search_parsed l d n : ∀ R c s R' c' s',
  search_entries l d n R c s = Ok ((R', c'), s') → ParsedTill c' = ParsedTill c.
Proof.
  induction l as [|o l IH]; intros R c s R' c' s' H; cbn [search_entries] in H; run_inv; [done|].
  destruct (_ =? 0); [|by apply (IH _ _ _ _ _ _ H)]. run_inv. by destruct (a0 : bool).
Qed.

Lemma lookup_entry_parsed d n c s st c' s' :
  ObpLookupEntryDirectory d n c s = Ok ((st, c'), s') → ParsedTill c' = ParsedTill c.
Proof.
  unfold ObpLookupEntryDirectory, ObpAcquireDirectoryLock, ObpReleaseDirectoryLock. cbv zeta. intros H.
  destruct (negb (DirectoryLocked c)); run_inv;
    repeat match goal with x : (_ * _)%type |- _ => destruct x end; run_inv;
    match goal with E : search_entries _ _ _ _ _ _ = _ |- _ => apply search_parsed in E end; done.
Qed.

Lemma lookup_first_missing fuel P h l fl dev name c cs D st ctx s :
  path_of name (c :: cs) → store_ok (ObDirectoryObjectType s) (objects s) → locks_free s →
  objects s !! P = Some h → Body h = Directory l fl dev → find_child (objects s) c l = None →
  MaximumLength D = MAX_OBJECT_NAME_SIZE → DirectoryLocked ctx = false →
  ∃ st' D' ctx', lookup_loop (S fuel) P name D st ctx None s = Ok ((st', D', ctx'), s) ∧
    Buffer D' = Buffer D ∧ (st' = STATUS_OBJECT_NAME_NOT_FOUND ∨ st' = STATUS_OBJECT_PATH_NOT_FOUND) ∧
    ctx_Directory ctx' = P ∧ ParsedTill ctx' = name.
Proof.
  intros Hp Hok Hfree Ho Hb Hf HD Hl. pose proof Hok as [Hdt Hok'].
  destruct (Hok' P h Ho) as (Hm & _ & _). cbn [lookup_loop].
  rewrite (is_directory_run _ _ _ h Ho Hm Hdt), (is_directory P h s Hok Ho), Hb. cbn [negb].
  assert (∃ seps r, name = seps ++ c ++ r ∧ Forall (λ x, IsPathSeperator x = true) seps ∧ is_name c ∧
    (r = [] ∨ ∃ x r', r = x :: r' ∧ IsPathSeperator x = true ∧ path_of r cs)) as (seps & r & -> & Hs & Hc & Hr).
  { inversion Hp; subst.
    - exists seps, []. rewrite app_nil_r. auto.
    - exists seps, (x :: rest). eauto 10. }
  rewrite (bind_Ok _ _ _ _ _ (parse_run seps c r D _ s Hs Hc HD ltac:(destruct Hr as [->|(x & r' & -> & Hx & _)]; eauto))).
  cbn [negb].
  destruct (lookup_entry_run P h l fl dev (named D c) (set_ParsedTill (seps ++ c ++ r) ctx) s
    Hok Hfree (named_ok D c Hc) Ho Hb Hl) as (st' & c' & Hrun & Hl' & Hres).
  rewrite (bind_Ok _ _ _ _ _ Hrun). cbn [text named] in Hres. rewrite Hf in Hres. subst st'.
  apply lookup_entry_parsed in Hrun. cbn [ParsedTill set_ParsedTill] in Hrun.
  change (STATUS_OBJECT_NAME_NOT_FOUND =? STATUS_OBJECT_NAME_NOT_FOUND) with true. cbv iota zeta.
  destruct Hr as [->|(x & r' & -> & Hx & Hp')].
  - rewrite parse_end_bind. cbn [insert_last]. eexists _, _, _. split; [reflexivity|]. split; [done|]. auto.
  - destruct (parse_path (x :: r') cs (named D c) (x :: r') s Hp' HD) as (D' & r & Hpr & HB).
    rewrite (bind_Ok _ _ _ _ _ Hpr). cbv iota beta. eexists _, _, _. split; [reflexivity|]. split; [done|]. auto.
Qed.

(** The device a path belongs to when its first name is no object: that of the
    file system mounted on the global directory, which gets the whole path. *)
Record mounted s (dev : addr) (c : list Z) : Prop := {
  mt_store : store_ok (ObDirectoryObjectType s) (objects s) ∧ locks_free s ∧ ObRootDirectory s ≠ NULL;
  mt_global : ∃ h l fl, objects s !! ObGlobalDirectory s = Some h ∧ Body h = Directory l fl dev ∧
    TEST_FLAG fl OB_DIRECTORY_MOUNTPOINT = true ∧ find_child (objects s) c l = None ∧ ObGlobalDirectory s ≠ NULL;
  mt_memory : pa_ready NonPagedPool MAX_OBJECT_NAME_SIZE (outer s) ∧
    ∀ w, pa_alloc NonPagedPool MAX_OBJECT_NAME_SIZE tag_mNbO (outer s) ≠ Ok (NULL, w) }.

Lemma get_device_run Path c cs dev s : path_of Path (c :: cs) → mounted s dev c →
  ObGetDeviceObject Path s = Ok ((Path, dev), s).
Proof.
  intros Hp [(Hok & Hfree & Hroot) (h & l & fl & Ho & Hb & Hfl & Hf & Hg) (Hready & Hnn)].
  unfold ObGetDeviceObject. rewrite gets_run. cbv zeta.
  destruct (pa_round NonPagedPool _ tag_mNbO _ Hready) as (p & w & Ha & Hnull & Hsome).
  assert (p ≠ NULL) as Hpn by (intros ->; by apply (Hnn w)). destruct (Hsome Hpn) as (_ & _ & Hfr).
  set (n := u16 _).
  assert (∃ st ctx', ObpLookupObjectByName (ObGlobalDirectory s) (UnicodeString n n literal Path)
    ObInitializeLookupContext None s = Ok ((st, ctx'), s) ∧
    (st = STATUS_OBJECT_NAME_NOT_FOUND ∨ st = STATUS_OBJECT_PATH_NOT_FOUND) ∧
    ctx_Directory ctx' = ObGlobalDirectory s ∧ ParsedTill ctx' = Path) as (st & ctx' & Hrun & Hst & Hd & Hpt).
  { unfold ObpLookupObjectByName. rewrite gets_run. rewrite !assert_true by by apply negb_true_iff, Z.eqb_neq.
    unfold ObpAllocateObjectNameBuffer. rewrite bind_assoc, assert_true by done.
    rewrite bind_assoc, (bind_Ok _ _ _ _ _ (outer_run _ s p w Ha)).
    destruct (Z.eqb_spec p NULL) as [|_]; [done|]. rewrite bind_ret.
    change (K_SUCCESS STATUS_SUCCESS) with true. cbn [negb text].
    destruct (lookup_first_missing (length Path) (ObGlobalDirectory s) h l fl dev Path c cs
      (UnicodeString 0 MAX_OBJECT_NAME_SIZE p []) STATUS_SUCCESS ObInitializeLookupContext (with_outer w s))
      as (st & D' & ctx' & Hrun & HB & Hst & Hd & Hpt); try done.
    { by apply (locks_free_alloc _ _ _ _ _ _ Hfree Hready Ha). }
    rewrite (bind_Ok _ _ _ _ _ Hrun). exists st, ctx'. split; [|done].
    change (bool_decide (None = None)) with true. cbn [orb when].
    unfold ObpFreeObjectNameBuffer. rewrite HB. cbn [Buffer].
    rewrite (bind_Ok _ _ _ _ _ (outer_run _ (with_outer w s) tt (outer s) Hfr)).
    unfold ret. do 2 f_equal. by destruct s. }
  rewrite (bind_Ok _ _ _ _ _ Hrun). cbv iota beta.
  rewrite (bind_Ok _ _ _ (ctx_Directory ctx') s) by (destruct Hst as [-> | ->]; done). rewrite Hd. pose proof Hok as [Hdt Hok']. destruct (Hok' _ h Ho) as (Hm & _ & _).
  rewrite (is_directory_run _ _ _ h Ho Hm Hdt), (is_directory _ h s Hok Ho), Hb. cbv iota.
  unfold ObIsMountpointObject. rewrite bind_assoc, (is_directory_run _ _ _ h Ho Hm Hdt), (is_directory _ h s Hok Ho), Hb.
  rewrite bind_assoc, (header_run _ _ _ h Ho), Hb, bind_ret, Hfl, assert_true by done.
  rewrite (header_run _ _ _ h Ho), Hb, Hpt. done.
Qed.

Lemma insert_object_run o h l i s : tables s !! CurrentHandleTable s = Some l → length l = Z.to_nat EX_MAX_HANDLE →
  first_free l = Some i → objects s !! o = Some h → o ≠ NULL → 0 < RefCount h → ob_irql (outer s) <= DISPATCH_LEVEL →
  - 2 ^ 31 <= OpenHandleCount h < 2 ^ 31 - 1 →
  ObInsertObject o s = Ok ((STATUS_SUCCESS, Z.of_nat i),
    with_objects (<[o := set_HandleCount (OpenHandleCount h + 1) h]> (objects s))
      (with_tables (<[CurrentHandleTable s := <[i := o]> l]> (tables s)) s)).
Proof.
  intros Ht Hl Hi Ho Hn Hr Hq Hc. unfold ObInsertObject. rewrite gets_run.
  pose proof (insert_handle_run o _ s l h Ht Hl Ho Hn) as Hrun. rewrite Hi in Hrun.
  rewrite (bind_Ok _ _ _ _ _ Hrun). cbv iota beta.
  change (K_SUCCESS STATUS_SUCCESS) with true. cbn [negb]. unfold ObIncrementHandleCount.
  rewrite bind_assoc, irql_run by done. rewrite bind_assoc, (header_run _ _ _ h) by done.
  rewrite bind_assoc, assert_true by (by apply Z.ltb_lt).
  unfold InterlockedIncrement, InterlockedExchangeAdd. simpl. rewrite s32_small by lia. done.
Qed.
End paths.

Section runs.
Context {FS FIL W : Type} `{!FatFs FS FIL} `{!ObWorld W}.
Context (other : addr → addr → M (ob (io FS FIL W)) KSTATUS).
Implicit Type s : ob (io FS FIL W).

Lemma in_io_deref {A B} (f : io FS FIL W → option A) (k : A → M (ob (io FS FIL W)) B) s a :
  f (outer s) = Some a → bind (in_io (deref f)) k s = k a s.
Proof.
  intros H. rewrite (bind_Ok _ _ _ _ _ (outer_run (deref f) s a (outer s) ltac:(by unfold deref; rewrite H))).
  by rewrite with_outer_id.
Qed.

Lemma in_io_modify {B} (f : io FS FIL W → io FS FIL W) (k : unit → M (ob (io FS FIL W)) B) s :
  bind (in_io (modify f)) k s = k tt (with_outer (f (outer s)) s).
Proof. by rewrite (bind_Ok _ _ _ _ _ (outer_run (modify f) s tt (f (outer s)) eq_refl)). Qed.

Lemma kernel_run {A} (m : M W A) s a w :
  m (kernel (outer s)) = Ok (a, w) →
  in_outer (inside (@io_kernel FS FIL W) m) s = Ok (a, with_outer (with_kernel w (outer s)) s).
Proof. intros H. apply outer_run. by apply (inside_run io_kernel). Qed.

(** *** A request on an open file *)

(** Object [o] is an open file with the body [f]: its device is one of the file
    system driver, and its control block is [x]. *)
Record file_ready (w : io FS FIL W) (o : addr) (f : FILE_OBJECT) (x : FIL) : Prop := {
  of_file : files w !! o = Some f ∧ o ≠ NULL;
  of_device : ∃ d dr, devices w !! FileDevice f = Some d ∧ 1 <= StackSize d ∧
    drivers w !! DriverObject d = Some dr ∧ MajorFunction dr = KfsFunctions;
  of_fcb : FsContext f ≠ NULL ∧ fcbs w !! FsContext f = Some x;
  of_offset : FileOffset f = 0 }.

(** [Handle] refers to the file object [o], with the header [h]. *)
Record file_handle s (Handle : nat) (o : addr) (h : OBJECT_HEADER) : Prop := {
  fh_entry : ∃ l, tables s !! CurrentHandleTable s = Some l ∧ l !! Handle = Some o ∧
    (Handle < Z.to_nat EX_MAX_HANDLE)%nat;
  fh_header : objects s !! o = Some h ∧ live 1 h ∧ ObjectType h = IoFileObjectType (outer s) ∧
    TEST_FLAG (Attributes h) OBJ_PERMANENT = false;
  fh_irql : ob_irql (outer s) <= DISPATCH_LEVEL }.

(** Room for a packet, at [p]. *)
Definition packet_room s (p : addr) (w : W) : Prop :=
  pa_alloc PagedPool sizeof_IRP tag_IprI (kernel (outer s)) = Ok (p, w) ∧ p ≠ NULL ∧
  pa_free p tag_IprI w = Ok (tt, kernel (outer s)).

(** The packet the driver gets. *)
Definition packet (Buffer Size FileObject Major : Z) : IRP :=
  MkIrp Buffer Size FileObject 0 {[ 0 := (Major, 0) ]} 0 false false None.

Definition sent (p : addr) (i : IRP) (w : W) s : ob (io FS FIL W) :=
  with_outer (with_irps (<[p := i]> (irps (outer s))) (with_kernel w (outer s))) s.

Lemma call_driver_run s p (i : IRP) d dr Major f DeviceObject :
  irps (outer s) !! p = Some i → CurrentStackLocation i = -1 → IoStack i !! 0 = Some (Major, 0) →
  devices (outer s) !! DeviceObject = Some d → 1 <= StackSize d → drivers (outer s) !! DriverObject d = Some dr →
  MajorFunction dr !! Z.to_nat Major = Some f →
  IoCallDriver DeviceObject p s =
    dispatch f DeviceObject p (with_outer (with_irps (<[p := advance_irp i]> (irps (outer s))) (outer s)) s).
Proof.
  intros Hi Hc Hs Hd Hst Hdr Hf. unfold IoCallDriver, irp, put_irp.
  rewrite (in_io_deref _ _ s i Hi), in_io_modify.
  rewrite (in_io_deref _ _ _ (advance_irp i)) by (simpl; apply lookup_insert_eq).
  unfold device. rewrite (in_io_deref _ _ _ d) by done.
  unfold advance_irp at 1. cbn [CurrentStackLocation]. rewrite Hc. change (s32 (-1 + 1)) with 0.
  destruct (Z.leb_spec (StackSize d) 0); [lia|]. unfold driver. rewrite (in_io_deref _ _ _ dr) by done.
  unfold IoGetCurrentIrpStackLocation. rewrite (in_io_deref _ _ _ (Major, 0)).
  - by rewrite (in_io_deref _ _ _ f).
  - unfold advance_irp. cbn [IoStack CurrentStackLocation]. rewrite Hc. exact Hs.
Qed.

(** A request goes to the driver with its packet, and the packet is freed. *)
Lemma file_operation_run s o f x p w Buffer n Major fn :
  file_ready (outer s) o f x → packet_room s p w → 0 <= Major < 256 → KfsFunctions !! Z.to_nat Major = Some fn →
  IoFileOperations o Buffer n Major IRP_MN_NULL s =
    bind (dispatch fn (FileDevice f) p) (λ st, IoFreeIRP p >>> ret st)
      (sent p (packet Buffer n o Major) w s).
Proof.
  intros [[Hf Ho] (d & dr & Hd & Hst & Hdr & Hfn) _ H0] (Ha & Hp & Hfr) Hm Hfun. unfold IoFileOperations.
  destruct (Z.eqb_spec o NULL) as [|_]; [done|].
  unfold file at 1. rewrite (in_io_deref _ _ s f Hf). unfold IoBuildIrp, file. rewrite bind_assoc.
  rewrite (in_io_deref _ _ s f Hf), bind_assoc, (bind_Ok _ _ _ _ _ (kernel_run _ s p w Ha)).
  destruct (Z.eqb_spec p NULL) as [|Hne]; [done|]. unfold put_irp. rewrite bind_assoc, in_io_modify, bind_ret.
  rewrite assert_true by (by apply negb_true_iff, Z.eqb_neq).
  destruct (Z.eqb_spec p NULL) as [|_]; [done|]. rewrite H0.
  unfold bind at 1. rewrite (call_driver_run _ p (MkIrp Buffer n o 0 {[ 0 := (Major, 0) ]} (-1) false false None) d dr Major fn); try done.
  - unfold bind at 1. unfold sent. cbn [outer with_outer irps with_irps with_kernel].
    rewrite insert_insert_eq. done.
  - simpl. rewrite lookup_insert_eq. do 2 f_equal. unfold u8. rewrite Z.mod_small by lia. done.
  - by rewrite Hfn.
Qed.
(** The file object gains a reference for the operation and loses it after. *)
Definition referenced o h s : ob (io FS FIL W) :=
  with_objects (<[o := set_RefCount (RefCount h + 1) h]> (objects s)) s.

Lemma reference_handle_run s Handle o h : file_handle s Handle o h →
  ObReferenceObjectByHandle (Z.of_nat Handle) (IoFileObjectType (outer s)) s =
    Ok ((STATUS_SUCCESS, o), referenced o h s).
Proof.
  intros [(l & Ht & Hl & Hb) (Ho & Hlive & Hty & _) Hq]. unfold ObReferenceObjectByHandle. rewrite gets_run.
  rewrite (bind_Ok _ _ _ _ _ (lookup_handle_run Handle _ s l o Ht Hl Hb)), assert_true by done.
  unfold ObReferenceObjectByPointer. rewrite bind_assoc, irql_run by done.
  rewrite bind_assoc, (header_run _ _ _ h Ho), bind_assoc, assert_true by (by apply Z.eqb_eq).
  destruct Hlive as (Hm & H1 & H2).
  rewrite bind_assoc, assert_true by (apply negb_true_iff, Z.eqb_neq; lia).
  rewrite bind_assoc, (bind_Ok _ _ _ _ _ (reference_run o s h Ho (conj Hm (conj H1 H2)) Hq)). done.
Qed.

Lemma dereference_file_run s o h w : objects s !! o = Some h → live 1 h →
  TEST_FLAG (Attributes h) OBJ_PERMANENT = false →
  ObDereferenceObject (io_call other) o (with_outer w (referenced o h s)) = Ok (tt, with_outer w s).
Proof.
  intros Ho (Hm & H1 & H2) Hp. set (h' := set_RefCount (RefCount h + 1) h).
  rewrite (dereference_unfold _ o _ h'); [|simpl; apply lookup_insert_eq|by repeat split; simpl; lia|done].
  cbv zeta. cbn [RefCount set_RefCount h']. replace (RefCount h + 1 - 1) with (RefCount h) by lia.
  destruct (Z.ltb_spec 0 (RefCount h)); [|lia]. do 2 f_equal. unfold referenced, with_objects, with_outer. simpl.
  rewrite insert_insert_eq. unfold h', set_RefCount. simpl. f_equal. rewrite insert_id; [done|].
  rewrite Ho. by destruct h.
Qed.

(** *** Buffers *)

Fixpoint written (p : addr) (l : list Z) (m : memory) : memory :=
  match l with [] => m | b :: l' => written (p + 1) l' (<[p := b]> m) end.

Definition mapped_at (p : addr) (n : nat) (m : memory) : Prop := ∀ k, 0 <= k < Z.of_nat n → is_Some (m !! (p + k)).

Lemma store_bytes_run l : ∀ p m, mapped_at p (length l) m → store_bytes p l m = Ok (tt, written p l m).
Proof.
  induction l as [|b l IH]; intros p m Hm; [done|]. cbn [store_bytes written length] in *.
  destruct (Hm 0 ltac:(lia)) as [v Hv]. rewrite Z.add_0_r in Hv.
  unfold st, ld. rewrite bind_assoc, (deref_run (λ m, m !! p) _ _ v Hv), modify_run. apply IH.
  intros k Hk. apply lookup_insert_is_Some'. right. replace (p + 1 + k) with (p + (k + 1)) by lia. apply Hm. lia.
Qed.

Lemma written_lookup l : ∀ p m a, written p l m !! a =
  if (p <=? a) && (a <? p + Z.of_nat (length l)) then l !! Z.to_nat (a - p) else m !! a.
Proof.
  induction l as [|b l IH]; intros p m a; cbn [written length].
  - destruct (Z.leb_spec p a), (Z.ltb_spec a (p + Z.of_nat 0)); try done; lia.
  - rewrite IH. destruct (decide (a = p)) as [->|Hne].
    + destruct (Z.leb_spec (p + 1) p); [lia|]. cbn [andb]. rewrite lookup_insert_eq.
      destruct (Z.leb_spec p p), (Z.ltb_spec p (p + Z.of_nat (S (length l)))); try lia.
      by replace (p - p) with 0 by lia.
    + destruct (Z.leb_spec (p + 1) a), (Z.leb_spec p a); try lia; cbn [andb];
        [|by rewrite lookup_insert_ne].
      destruct (Z.ltb_spec a (p + 1 + Z.of_nat (length l))), (Z.ltb_spec a (p + Z.of_nat (S (length l)))); try lia.
      * by replace (Z.to_nat (a - p)) with (S (Z.to_nat (a - (p + 1)))) by lia.
      * by rewrite lookup_insert_ne.
Qed.

Definition contents (p : addr) (n : nat) (m : memory) : list Z :=
  map (λ k, default 0 (m !! (p + Z.of_nat k))) (seq 0 n).

Lemma load_bytes_run n : ∀ p m, mapped_at p n m → load_bytes n p m = Ok (contents p n m, m).
Proof.
  induction n as [|n IH]; intros p m Hm; [done|]. cbn [load_bytes].
  destruct (Hm 0 ltac:(lia)) as [v Hv]. rewrite Z.add_0_r in Hv.
  unfold ld. rewrite (deref_run (λ m, m !! p) _ _ v Hv). rewrite (bind_Ok _ _ _ _ _ (IH (p + 1) m ltac:(
    intros k Hk; replace (p + 1 + k) with (p + (k + 1)) by lia; apply Hm; lia))).
  unfold ret, contents. do 2 f_equal. cbn [seq map]. rewrite Z.add_0_r, Hv. f_equal.
  rewrite <- seq_shift, map_map. apply map_ext. intros k. do 2 f_equal. lia.
Qed.

(** *** Reading and writing through a handle *)

(** The state after an operation of the file system: a packet, the control
    block, the file system and the buffer have changed, and nothing else. *)
Definition fs_done (p : addr) (i : IRP) (Fcb : addr) (x : FIL) (v : FS) (m : memory) s : ob (io FS FIL W) :=
  with_outer (with_irps (<[p := i]> (irps (outer s))) (with_user_memory m (with_fcb Fcb x v (outer s)))) s.

Lemma free_packet_run (p : addr) w s0 s (st : KSTATUS) :
  pa_free p tag_IprI w = Ok (tt, kernel (outer s)) → kernel (outer s0) = w →
  (IoFreeIRP p >>> ret st) s0 = Ok (st, with_outer (with_kernel (kernel (outer s)) (outer s0)) s0).
Proof. intros Hf <-. unfold IoFreeIRP. by rewrite (bind_Ok _ _ _ _ _ (kernel_run _ s0 tt _ Hf)). Qed.

Lemma store_run s Buffer data :
  mapped_at Buffer (length data) (user_memory (outer s)) →
  in_user_memory (store_bytes Buffer data) s =
    Ok (tt, with_outer (with_user_memory (written Buffer data (user_memory (outer s))) (outer s)) s).
Proof. intros Hm. unfold in_user_memory, in_io. apply outer_run. unfold zoom. by rewrite store_bytes_run. Qed.

Lemma load_run s Buffer n :
  mapped_at Buffer n (user_memory (outer s)) →
  in_user_memory (load_bytes n Buffer) s = Ok (contents Buffer n (user_memory (outer s)), s).
Proof.
  intros Hm. unfold in_user_memory, in_io. rewrite (outer_run _ s (contents Buffer n (user_memory (outer s))) (outer s)).
  - by rewrite with_outer_id.
  - unfold zoom. rewrite load_bytes_run by done. by destruct (outer s).
Qed.

(** Two states built by updates of [s] are the same, up to the writing over of
    one packet. *)
Ltac flatten s :=
  destruct s as [? ? ? ? ? ? ? ? ? []];
  cbv [fs_done sent with_outer with_irps with_user_memory with_fcb with_kernel outer irps fcbs devices drivers files
    user_memory fs IoFileObjectType IoDriverObjectType DeviceNumber kernel objects types tables ObRootDirectory
    ObGlobalDirectory ObDirectoryObjectType ObSymbolicLinkObjectType IoDeviceObjectType CurrentHandleTable];
  by rewrite !insert_insert_eq.

Lemma kfs_read_run s o f x p w Buffer n data x' v' :
  file_ready (outer s) o f x → f_read x n (fs (outer s)) = (FR_OK, data, x', v') →
  mapped_at Buffer (length data) (user_memory (outer s)) →
  ∃ i, KfsRead (FileDevice f) p (sent p (packet Buffer n o IRP_MJ_READ) w s) =
    Ok (FR_OK, with_outer (with_kernel w (outer (fs_done p i (FsContext f) x' v'
                 (written Buffer data (user_memory (outer s))) s))) s).
Proof.
  intros [[Hf Ho] _ [Hc Hx] _] Hr Hm. exists (complete (set_IoStatus FR_OK (Z.of_nat (length data)) (packet Buffer n o IRP_MJ_READ))).
  unfold KfsRead, irp, file, fcb, put_irp.
  rewrite (in_io_deref _ _ _ (packet Buffer n o IRP_MJ_READ)) by (simpl; apply lookup_insert_eq).
  rewrite (in_io_deref _ _ _ f) by exact Hf. cbv zeta.
  rewrite assert_true by (by apply negb_true_iff, Z.eqb_neq). unfold IoGetCurrentIrpStackLocation.
  rewrite (in_io_deref _ _ _ (IRP_MJ_READ, 0)) by done. cbv iota beta.
  rewrite assert_true, assert_true by (done || by apply negb_true_iff, Z.eqb_neq).
  rewrite (in_io_deref _ _ _ x) by exact Hx. rewrite gets_run. cbn [outer sent with_outer fs with_irps with_kernel BufferSize packet].
  rewrite Hr. rewrite in_io_modify. cbn [IrpBuffer packet].
  set (m := written Buffer data (user_memory (outer s))).
  match goal with |- bind _ _ ?s1 = _ => assert (in_user_memory (store_bytes Buffer data) s1 =
    Ok (tt, with_outer (with_user_memory m (outer s1)) s1)) as Hs by exact (store_run s1 Buffer data Hm) end.
  clearbody m. rewrite (bind_Ok _ _ _ _ _ Hs). clear Hs.
  rewrite Z.eqb_refl, assert_true by done. rewrite in_io_modify. unfold IoCompleteRequest, irp, put_irp.
  rewrite bind_assoc. rewrite (in_io_deref _ _ _ (set_IoStatus FR_OK (Z.of_nat (length data)) (packet Buffer n o IRP_MJ_READ)))
    by (simpl; apply lookup_insert_eq).
  rewrite in_io_modify. unfold ret. do 2 f_equal. flatten s.
Qed.

Lemma handle_operation_run s Handle o h f x p w Buffer n Major fn s1 st i x' v' m :
  file_handle s Handle o h → file_ready (outer s) o f x → packet_room s p w →
  0 <= Major < 256 → KfsFunctions !! Z.to_nat Major = Some fn →
  s1 = with_outer (with_kernel w (outer (fs_done p i (FsContext f) x' v' m s))) (referenced o h s) →
  dispatch fn (FileDevice f) p (sent p (packet Buffer n o Major) w (referenced o h s)) = Ok (st, s1) →
  ∃ s2, (let! r := IoFileOperations o Buffer n Major IRP_MN_NULL in
    ObDereferenceObject (io_call other) o >>> ret r) (referenced o h s) = Ok (st, s2) ∧
    s2 = fs_done p i (FsContext f) x' v' m s.
Proof.
  intros [_ (Ho & Hl & _ & Hp) _] Hf Hroom HM Hfn E Hd.
  destruct Hroom as (Ha & Hne & Hfr).
  assert (packet_room (referenced o h s) p w) as Hroom' by done.
  assert (file_ready (outer (referenced o h s)) o f x) as Hf' by exact Hf.
  eexists. split; [|reflexivity]. unfold bind at 1.
  rewrite (file_operation_run _ o f x p w Buffer n Major fn Hf' Hroom' HM Hfn).
  rewrite (bind_Ok _ _ _ _ _ Hd). rewrite (free_packet_run p w s1 s st Hfr) by (by rewrite E).
  rewrite E. cbn [outer with_outer].
  set (w' := with_kernel (kernel (outer s)) _).
  assert (with_outer w' (with_outer (with_kernel w (outer (fs_done p i (FsContext f) x' v' m s))) (referenced o h s))
    = with_outer w' (referenced o h s)) as -> by done.
  by rewrite (bind_Ok _ _ _ _ _ (dereference_file_run s o h w' Ho Hl Hp)).
Qed.

Lemma kfs_write_run s o f x p w Buffer n st done x' v' :
  file_ready (outer s) o f x → mapped_at Buffer (Z.to_nat n) (user_memory (outer s)) →
  f_write x (contents Buffer (Z.to_nat n) (user_memory (outer s))) (fs (outer s)) = (st, done, x', v') →
  ∃ i, KfsWrite (FileDevice f) p (sent p (packet Buffer n o IRP_MJ_WRITE) w s) =
    Ok (st, with_outer (with_kernel w (outer (fs_done p i (FsContext f) x' v' (user_memory (outer s)) s))) s).
Proof.
  intros [[Hf Ho] _ [Hc Hx] _] Hm Hw. eexists. unfold KfsWrite, irp, file, fcb, put_irp.
  rewrite (in_io_deref _ _ _ (packet Buffer n o IRP_MJ_WRITE)) by (simpl; apply lookup_insert_eq).
  rewrite (in_io_deref _ _ _ f) by exact Hf. unfold IoGetCurrentIrpStackLocation.
  rewrite (in_io_deref _ _ _ (IRP_MJ_WRITE, 0)) by done. cbv iota beta zeta.
  rewrite assert_true, assert_true by (done || by apply negb_true_iff, Z.eqb_neq).
  rewrite (in_io_deref _ _ _ x) by exact Hx. rewrite gets_run. cbn [packet BufferSize IrpBuffer].
  match goal with |- bind _ _ ?s1 = _ => rewrite (bind_Ok _ _ _ _ _ (load_run s1 Buffer (Z.to_nat n) Hm)) end.
  cbn [outer sent with_outer user_memory fs with_irps with_kernel]. rewrite Hw, !in_io_modify.
  unfold IoCompleteRequest, irp, put_irp.
  rewrite bind_assoc, (in_io_deref _ _ _ (set_IoStatus st done (packet Buffer n o IRP_MJ_WRITE)))
    by (simpl; apply lookup_insert_eq).
  rewrite in_io_modify. unfold ret. do 2 f_equal. flatten s.
Qed.


(** KWriteFile hands the bytes of the buffer to f_write and frees and
    dereferences what it took, but its status is that of the lookup of the
    handle: it returns success whatever f_write answers. *)
Theorem write_file_status_lost s Handle o h f x p w Buffer n st nb x' v' :
  file_handle s Handle o h → file_ready (outer s) o f x → packet_room s p w →
  mapped_at Buffer (Z.to_nat n) (user_memory (outer s)) →
  f_write x (contents Buffer (Z.to_nat n) (user_memory (outer s))) (fs (outer s)) = (st, nb, x', v') →
  ∃ i, KWriteFile other (Z.of_nat Handle) Buffer n s =
    Ok (STATUS_SUCCESS, fs_done p i (FsContext f) x' v' (user_memory (outer s)) s).
Proof.
  intros Hh Hf Hroom Hm Hw. unfold KWriteFile. rewrite gets_run.
  destruct (kfs_write_run (referenced o h s) o f x p w Buffer n st nb x' v' Hf Hm Hw) as (i & Hi). exists i.
  rewrite (bind_Ok _ _ _ _ _ (reference_handle_run s Handle o h Hh)). cbv iota beta.
  change (when _ _) with (@ret (ob (io FS FIL W)) _ tt). rewrite bind_ret.
  destruct (handle_operation_run s Handle o h f x p w Buffer n IRP_MJ_WRITE (Some KfsWrite_) _ st i x' v' _
    Hh Hf Hroom ltac:(done) eq_refl eq_refl Hi) as (s2 & Hr & ->).
  revert Hr. unfold bind. destruct (IoFileOperations _ _ _ _ _ _) as [[r s3]|]; [|done].
  destruct (ObDereferenceObject _ _ _) as [[[] s4]|]; [|done]. by intros [= _ ->].
Qed.

(** *** Creating a file *)

(** What KCreateFile finds: the file system is mounted on the global directory,
    which has no object [c]; handle [i] is the lowest free one; the allocations
    of the object, the packet and the control block succeed. *)
Record creatable_file s (dev : addr) (c : list Z) (t : OBJECT_TYPE) (tl : list Z) (i : nat)
    (b p Fcb : addr) (w1 w2 w3 w4 : W) : Prop := {
  cf_mounted : mounted s dev c;
  cf_device : ∃ d dr, devices (outer s) !! dev = Some d ∧ 1 <= StackSize d ∧
    drivers (outer s) !! DriverObject d = Some dr ∧ MajorFunction dr = KfsFunctions;
  cf_type : types s !! IoFileObjectType (outer s) = Some t ∧ IoFileObjectType (outer s) ≠ NULL ∧
    IoFileObjectType (outer s) = ObjectTypeList (TypeIndex t) ∧ OpenProcedure t = NULL ∧
    @sl_free W (ob_spin (TypeLock (IoFileObjectType (outer s)))) (kernel (outer s));
  cf_table : tables s !! CurrentHandleTable s = Some tl ∧ length tl = Z.to_nat EX_MAX_HANDLE ∧
    first_free tl = Some i;
  cf_object : pa_ready (OTPoolType t) (sizeof_OBJECT_HEADER + sizeof_FILE_OBJECT) (kernel (outer s)) ∧
    pa_alloc (OTPoolType t) (sizeof_OBJECT_HEADER + sizeof_FILE_OBJECT) (PoolTag t) (kernel (outer s)) = Ok (b, w1) ∧
    b ≠ NULL ∧ b + OFFSET_BODY ≠ NULL;
  cf_packet : pa_alloc PagedPool sizeof_IRP tag_IprI w1 = Ok (p, w2) ∧ p ≠ NULL;
  cf_block : pa_alloc NonPagedPool sizeof_FIL tag_BCF w2 = Ok (Fcb, w3) ∧ Fcb ≠ NULL ∧ ob_irql w3 <= DISPATCH_LEVEL;
  cf_free : pa_free p tag_IprI w3 = Ok (tt, w4) }.

Lemma kfs_create_run dv s p o f Mode x v' st Fcb w3 i :
  irps (outer s) !! p = Some i → pFileObj i = o → files (outer s) !! o = Some f → FsContext f = NULL →
  pa_alloc NonPagedPool sizeof_FIL tag_BCF (kernel (outer s)) = Ok (Fcb, w3) → Fcb ≠ NULL →
  FileModeToFSMode (FileMode f) = Ok Mode →
  f_open (filename f) Mode (f_chdrive SYSTEM_DRIVE (fs (outer s))) = (st, x, v') →
  KfsCreate dv p s = Ok (st, with_outer (with_irps (<[p := complete i]> (irps (outer s)))
    (with_files (<[o := set_FsContext Fcb f]> (files (outer s))) (with_fcb Fcb x v' (with_kernel w3 (outer s))))) s).
Proof.
  intros Hi Hpo Hf Hc Ha Hn Hmode Hopen. unfold KfsCreate, irp, file, put_file, put_irp.
  rewrite (in_io_deref _ _ s i Hi), Hpo, (in_io_deref _ _ s f Hf), Hc, assert_true by done.
  rewrite (bind_Ok _ _ _ _ _ (kernel_run _ s Fcb w3 Ha)). destruct (Z.eqb_spec Fcb NULL) as [|_]; [done|].
  rewrite in_io_modify. rewrite Hmode.
  match goal with |- bind (lift (Ok ?m)) _ ?s1 = _ => rewrite (bind_Ok _ _ _ m s1) by done end.
  rewrite gets_run. cbn [outer with_outer fs with_fs with_kernel]. rewrite Hopen, in_io_modify.
  assert (0 <= st <= 18) as Hst.
  { pose proof (f_open_result (filename f) Mode (f_chdrive SYSTEM_DRIVE (fs (outer s)))) as H. by rewrite Hopen in H. }
  assert (K_SUCCESS st = true) as -> by (apply K_SUCCESS_iff; lia). cbn [negb]. rewrite in_io_modify.
  unfold IoCompleteRequest, irp, put_irp. rewrite bind_assoc, (in_io_deref _ _ _ i) by exact Hi.
  rewrite in_io_modify. unfold ret. do 2 f_equal.
Qed.

(** C33: a call of KCreateFile on a path of the mounted file system succeeds
    whatever f_open answers: a FRESULT is never negative, so that K_SUCCESS
    takes every failure for a success.  The caller gets the lowest free handle,
    of a new file object with one reference and one handle, which keeps the
    control block of the failed open; the packet is freed. *)
Theorem create_file_ignores_open_failure s Path c cs dev t tl i b p Fcb w1 w2 w3 w4 Mode FsMode st x v' :
  path_of Path (c :: cs) → creatable_file s dev c t tl i b p Fcb w1 w2 w3 w4 →
  FileModeToFSMode Mode = Ok FsMode →
  f_open (take (Z.to_nat MAXPATHLEN) Path) FsMode (f_chdrive SYSTEM_DRIVE (fs (outer s))) = (st, x, v') →
  let o := b + OFFSET_BODY in
  ∃ s', KCreateFile other Path Mode s = Ok ((STATUS_SUCCESS, Z.of_nat i), s') ∧
    tables s' = <[CurrentHandleTable s := <[i := o]> tl]> (tables s) ∧
    (∃ h, objects s' = <[o := h]> (objects s) ∧ RefCount h = 1 ∧ OpenHandleCount h = 1 ∧
      ObjectType h = IoFileObjectType (outer s)) ∧
    files (outer s') = <[o := File dev Mode 0 (take (Z.to_nat MAXPATHLEN) Path) Fcb]> (files (outer s)) ∧
    fcbs (outer s') = <[Fcb := x]> (fcbs (outer s)) ∧ fs (outer s') = v' ∧ kernel (outer s') = w4.
Proof.
  intros Hp [Hmt (d & dr & Hd & Hst & Hdr & Hfn) (Ht & Hft & Hidx & Hop & Hlock) (Htl & Hlen & Hi)
    (Hr & Ha & Hb & Hon) (Hpa & Hpn) (Hfa & Hfcb & Hq) Hfr] Hmode Hopen o.
  unfold KCreateFile, IoCreateFile. rewrite (bind_Ok _ _ _ _ _ (get_device_run Path c cs dev s Hp Hmt)).
  cbv iota beta. rewrite gets_run, assert_true by (by apply negb_true_iff, Z.eqb_neq).
  assert (pa_alloc (OTPoolType t) (sizeof_OBJECT_HEADER + sizeof_FILE_OBJECT) (PoolTag t) (outer s)
    = Ok (b, with_kernel w1 (outer s))) as Ha'.
  { by apply (inside_run io_kernel). }
  assert (creatable (IoFileObjectType (outer s)) t (Some (ObjectAttributes NULL None OBJ_INHERIT))
    sizeof_FILE_OBJECT local_variable s) as Hcr by (split_and!; done).
  assert (pa_ready (OTPoolType t) (sizeof_OBJECT_HEADER + sizeof_FILE_OBJECT) (outer s)) as Hr' by exact Hr.
  assert (@sl_free _ (ob_spin (TypeLock (IoFileObjectType (outer s)))) (outer s)) as Hlock' by exact Hlock.
  rewrite (bind_Ok _ _ _ _ _ (create_unnamed_run (io_call other) _ t _ _ _ b _ s Hcr eq_refl Hr' Ha' Hb Hlock')).
  cbv iota beta. fold o. unfold put_file. rewrite in_io_modify.
  unfold IoBuildIrp, file, put_irp. rewrite bind_assoc, (in_io_deref _ _ _ (File dev Mode 0 (take (Z.to_nat MAXPATHLEN) Path) NULL))
    by (simpl; apply lookup_insert_eq).
  match goal with |- ∃ _, bind _ _ ?s1 = _ ∧ _ => rewrite bind_assoc, (bind_Ok _ _ _ _ _ (kernel_run _ s1 p w2 Hpa)) end.
  destruct (Z.eqb_spec p NULL) as [|_]; [done|]. rewrite bind_assoc, in_io_modify, bind_ret.
  destruct (Z.eqb_spec p NULL) as [|_]; [done|].
  match goal with |- ∃ _, bind _ _ ?s2 = _ ∧ _ => set (s6 := s2) end.
  unfold bind at 1.
  rewrite (call_driver_run s6 p (MkIrp NULL 0 o 0 {[ 0 := (IRP_MJ_CREATE, 0) ]} (-1) false false None) d dr
    IRP_MJ_CREATE (Some KfsCreate_) dev); try done; [|apply lookup_insert_eq|by rewrite Hfn].
  cbn [dispatch].
  match goal with |- context [KfsCreate dev p ?s3] => set (s7 := s3) end.
  rewrite (kfs_create_run dev s7 p o (File dev Mode 0 (take (Z.to_nat MAXPATHLEN) Path) NULL) FsMode x v' st Fcb w3
    (advance_irp (MkIrp NULL 0 o 0 {[ 0 := (IRP_MJ_CREATE, 0) ]} (-1) false false None))); try done;
    [|apply lookup_insert_eq|apply lookup_insert_eq].
  assert (0 <= st <= 18) as Hst18.
  { pose proof (f_open_result (take (Z.to_nat MAXPATHLEN) Path) FsMode (f_chdrive SYSTEM_DRIVE (fs (outer s)))) as H.
    by rewrite Hopen in H. }
  assert (K_SUCCESS st = true) as -> by (apply K_SUCCESS_iff; lia). cbn [negb].
  match goal with |- ∃ _, bind _ _ ?s4 = _ ∧ _ => set (s8 := s4) end.
  set (h := created (IoFileObjectType (outer s)) (Some (ObjectAttributes NULL None OBJ_INHERIT)) new_header).
  rewrite (bind_Ok _ _ _ _ _ (insert_object_run o h tl i s8 Htl Hlen Hi ltac:(apply lookup_insert_eq) Hon
    ltac:(done) Hq ltac:(done))).
  change (K_SUCCESS STATUS_SUCCESS) with true. cbn [negb]. unfold IoFreeIRP.
  match goal with |- ∃ _, bind _ _ ?s5 = _ ∧ _ => rewrite (bind_Ok _ _ _ _ _ (kernel_run _ s5 tt w4 Hfr)) end.
  eexists. split; [reflexivity|]. split; [done|]. split; [|split_and!; try done].
  - eexists. split; [simpl; by rewrite insert_insert_eq|]. done.
  - simpl. by rewrite insert_insert_eq.
Qed.
End runs.

(** *** The names and the modes the code computes *)

Definition device_prefix : String.string := "\Device\KosDev-00000"%string.

Lemma digits_ungrouped fl n b : has_flag fl GROUP = false → ∀ v cnt buf,
  digits_of n b fl v cnt buf = digits_of n b 0 v cnt buf.
Proof.
  intros Hf. induction n as [|n IH]; intros v cnt buf; [done|]. cbn [digits_of]. rewrite Hf.
  change (has_flag 0 GROUP) with false. destruct (0 <? v); [|done]. cbn [andb].
  cbn [obind]. destruct (push _ _); [|done]. apply IH.
Qed.

(** The conversion %08lx. *)
Definition wide_hex : printf_conversion := Conv ZERO 8 (-1) LONGTYPE.

Lemma wide_hex_buffer v buf : integer_buffer v base_lx plain_conv = Ok buf →
  integer_buffer v base_lx wide_hex = Ok buf.
Proof.
  unfold integer_buffer. cbn [flags precision plain_conv wide_hex]. by rewrite (digits_ungrouped ZERO).
Qed.

Lemma wide_hex_text v buf l : integer_buffer v base_lx plain_conv = Ok buf → (length buf <= 8)%nat →
  format_integer collect v false false base_lx wide_hex l = Ok (tt, l ++ replicate (8 - length buf) 48 ++ buf).
Proof.
  intros Hb Hl. unfold format_integer. rewrite (wide_hex_buffer _ _ Hb). unfold lift. unfold bind at 1.
  unfold sign_of. cbv zeta. cbn [flags width wide_hex].
  change (has_flag ZERO POUND) with false. change (has_flag ZERO ZERO) with true.
  change (has_flag ZERO MINUS) with false. change (has_flag ZERO (Z.lor MINUS ZERO)) with true. cbn [andb negb].
  change (0 =? 0) with true. cbn [negb when]. rewrite !bind_ret, !Z.sub_0_r, s32_small by lia.
  destruct (Z.ltb_spec (8 - Z.of_nat (length buf)) 0); [lia|]. unfold output_dup.
  rewrite (bind_Ok _ _ _ _ _ (put_all_collect _ _)), (bind_Ok _ _ _ _ _ (put_all_collect _ _)), <- app_assoc.
  by replace (Z.to_nat (8 - Z.of_nat (length buf))) with (8 - length buf)%nat by lia.
Qed.

Lemma device_text n : 0 <= n < 4096 → ∃ l, length l = 3%nat ∧
  prints 64 name_format [ArgInt n] = Ok (Stdio.text device_prefix ++ l).
Proof.
  intros Hn. destruct (plain_buffer n base_lx 3) as (ds & Hb & Hd & _ & Hl); [|apply (spec_lower Hexadecimal)|lia| |lia|].
  { by vm_compute; repeat constructor. }
  { change (base base_lx ^ Z.of_nat 3) with 4096. lia. }
  exists (replicate (3 - length ds) 48 ++ map digit_char ds).
  split; [rewrite length_app, length_replicate, length_map; lia|]. unfold prints. fold collect.
  transitivity (match (format_integer collect (u32 n) false false base_lx wide_hex >>> ret tt)
    (Stdio.text "\Device\KosDev-") with Ok (_, l) => Ok l | Stop e => Stop e end).
  { unfold bind. change (__vprintf collect 64 name_format [ArgInt n] []) with
      (((format_integer collect (u32 n) false false base_lx wide_hex >>> ret (@nil arg)) >>> ret tt)
        (Stdio.text "\Device\KosDev-")).
    unfold bind. by destruct (format_integer _ _ _ _ _ _ _) as [[[] ?]|]. }
  rewrite u32_small by lia.
  rewrite (bind_Ok _ _ _ _ _ (wide_hex_text n _ _ Hb ltac:(rewrite length_map; lia))). unfold ret. f_equal.
  rewrite length_map. replace (8 - length ds)%nat with (5 + (3 - length ds))%nat by lia.
  rewrite replicate_add, <- !app_assoc. done.
Qed.

(** The first 4096 devices that are created without a name all get the same
    one: the buffer for the name ends in the middle of the number, and only its
    five leading digits are in it. *)
Theorem device_names_collide n : 0 <= n < 4096 → device_name n = Ok (Stdio.text device_prefix).
Proof.
  intros Hn. destruct (device_text n Hn) as (l & Hl & Hp). unfold device_name.
  match goal with |- context [vsnprintf 64 0 21 _ _ ?m] => destruct (truncates 64 0 21 name_format [ArgInt n] _ m Hp)
    as (m' & -> & Hh & _) end.
  - rewrite length_app, Hl. vm_compute. reflexivity.
  - lia.
  - intros i Hi. rewrite Z.add_0_l.
    assert (Forall (λ i, is_Some ((list_to_map (map (λ k, (Z.of_nat k, 0)) (seq 0 128)) : memory) !! i)) (seqZ 0 21)) as HF
      by (repeat (constructor; [by eexists|]); constructor).
    rewrite Forall_forall in HF. apply HF, elem_of_seqZ. lia.
  - f_equal. specialize (Hh ltac:(lia)). change (Z.to_nat (21 - 1)) with 20%nat in Hh.
    rewrite take_app_le in Hh by done. change (map u8 (take 20 (Stdio.text device_prefix))) with (Stdio.text device_prefix) in Hh.
    transitivity (map (λ k, nth k (Stdio.text device_prefix) 0) (seq 0 20)); [|reflexivity].
    apply map_ext_in. intros k Hk%in_seq.
    destruct (lookup_lt_is_Some_2 (Stdio.text device_prefix) k ltac:(change (length (Stdio.text device_prefix)) with 20%nat; lia)) as [y Hy].
    rewrite <- (Z.add_0_l (Z.of_nat k)), (Hh k y) by by apply lookup_app_l_Some. symmetry. by apply nth_lookup_Some.
Qed.

(** No mode of a file that the driver accepts makes f_open empty the file:
    O_TRUNC becomes FA_READ and FA_OPEN_ALWAYS, never FA_CREATE_ALWAYS; and the
    write access is asked for exactly when O_WRONLY or O_RDWR is. *)
Theorem file_mode_never_truncates FileMode FsMode : FileModeToFSMode FileMode = Ok FsMode →
  TEST_FLAG FsMode FA_CREATE_ALWAYS = false ∧ 0 <= FsMode < 256 ∧
  TEST_FLAG FsMode FA_WRITE = TEST_FLAG FileMode O_WRONLY || TEST_FLAG FileMode O_RDWR.
Proof.
  unfold FileModeToFSMode. destruct (FileMode =? O_RDONLY), (TEST_FLAG FileMode O_WRONLY),
    (TEST_FLAG FileMode O_RDWR), (TEST_FLAG FileMode O_CREATE), (TEST_FLAG FileMode O_TRUNC),
    (TEST_FLAG FileMode O_EXCL), (TEST_FLAG FileMode O_MKDIR); intros [= <-]; by vm_compute.
Qed.

(** ** Concrete runs

    A file system of one file, on a volume that is write protected; its only
    name is "/f".  The kernel is the one of ObName.v. *)

#[local] Existing Instance ObName.demo_ob_world.
Definition demo_other : addr → addr → M (ob (io (list Z) nat (pools prcb))) KSTATUS := λ _ _, ret STATUS_SUCCESS.

Definition FR_NO_FILE : Z := 4.
Definition FR_WRITE_PROTECTED : Z := 10.

#[local, program] Instance one_file : FatFs (list Z) nat := {|
  f_open name _ v := (if decide (name = [47; 102]) then FR_OK else FR_NO_FILE, 0%nat, v);
  f_read x n v := let l := take (Z.to_nat n) (drop x v) in (FR_OK, l, (x + length l)%nat, v);
  f_write x _ v := (FR_WRITE_PROTECTED, 0, x, v);
  f_close x v := (FR_OK, x, v);
  f_chdrive _ v := v;
  f_mount _ _ v := v;
  f_size _ := 2 |}.
Next Obligation. intros name m v. cbn. by case_decide. Qed.

Definition disk_device : addr := 0x2000.
Definition kfs_driver : addr := 0x3000.
Definition demo_fcb : addr := 0x4000.
Definition demo_buffer : addr := 0x5000.
Definition demo_io (fl : gmap addr FILE_OBJECT) (fb : gmap addr nat) : io (list Z) nat (pools prcb) :=
  IoState {[ disk_device := Device sizeof_DEVICE_OBJECT kfs_driver 0 1 0 ]}
    {[ kfs_driver := Driver sizeof_DRIVER_OBJECT (Some KFSDriverEntry_) (Some KfsUnload_) KfsFunctions ]}
    fl ∅ fb {[ demo_buffer := 0; demo_buffer + 1 := 0; demo_buffer + 2 := 0 ]} [104; 105]
    (ObjectTypeList 0) NULL 0 names_world.

Definition demo_open_header : OBJECT_HEADER :=
  Header OBJECT_HEADER_MAGIC false (ObjectTypeList 0) 1 1 demo_name OBJ_INHERIT Other.
Definition demo_open : ob (io (list Z) nat (pools prcb)) :=
  ObState {[ demo_object := demo_open_header ]} {[ ObjectTypeList 0 := file_type ]} {[ 0x8000 := demo_table ]}
    NULL NULL NULL NULL NULL 0x8000
    (demo_io {[ demo_object := File disk_device O_RDONLY 0 [47; 102] demo_fcb ]} {[ demo_fcb := 0%nat ]}).

Lemma device_names_collide_witness : device_name 1 = device_name 2.
Proof. rewrite (device_names_collide 1), (device_names_collide 2) by lia. reflexivity. Defined.

Lemma open_handle : file_handle demo_open 0 demo_object demo_open_header.
Proof.
  split.
  - exists demo_table. split; [reflexivity|]. split; [reflexivity|]. unfold EX_MAX_HANDLE. lia.
  - repeat split; vm_compute; discriminate.
  - vm_compute. discriminate.
Qed.

Lemma open_ready :
  file_ready (outer demo_open) demo_object (File disk_device O_RDONLY 0 [47; 102] demo_fcb) 0%nat.
Proof. split; [done| |done|done]. eexists _, _. split; [reflexivity|]. split; [done|]. split; [reflexivity|done]. Qed.

Lemma names_alloc pt n tag : is_pool pt → 0 <= n < 2 ^ 32 - 60 →
  (∃ p w, pa_alloc pt n tag names_world = Ok (p, w) ∧ p ≠ NULL) →
  ∃ p w, pa_alloc pt n tag names_world = Ok (p, w) ∧ p ≠ NULL ∧ pa_free p tag w = Ok (tt, names_world).
Proof.
  intros Hpt Hn (p & w & Ha & Hp).
  destruct (pa_round pt n tag _ (names_ready pt n Hpt Hn)) as (p' & w' & Ha' & _ & Hs).
  rewrite Ha in Ha'. injection Ha' as <- <-. exists p, w. split; [done|]. split; [done|]. by destruct (Hs Hp) as (_ & _ & ?).
Qed.

Lemma open_room : ∃ p w, packet_room demo_open p w.
Proof.
  apply (names_alloc PagedPool sizeof_IRP tag_IprI); [by left|done|].
  eexists _, _. split; [vm_compute; reflexivity|done].
Qed.

Lemma demo_buffer_mapped n : (n <= 3)%nat → mapped_at demo_buffer n (user_memory (outer demo_open)).
Proof.
  intros Hn k Hk. assert (k = 0 ∨ k = 1 ∨ k = 2) as [-> | [-> | ->]] by lia; by eexists.
Qed.


Lemma write_file_status_lost_witness :
  ∃ p i, KWriteFile demo_other 0 demo_buffer 3 demo_open = Ok (STATUS_SUCCESS, fs_done p i demo_fcb 0%nat [104; 105]
    (user_memory (outer demo_open)) demo_open).
Proof.
  destruct open_room as (p & w & Hr). exists p.
  exact (write_file_status_lost demo_other demo_open 0 demo_object demo_open_header _ 0%nat p w demo_buffer 3
    FR_WRITE_PROTECTED 0 0%nat [104; 105] open_handle open_ready Hr (demo_buffer_mapped 3 ltac:(lia)) eq_refl).
Defined.

(** The root directory is the mount point of the file system; handle 1 is free. *)
Definition mount_header : OBJECT_HEADER :=
  Header OBJECT_HEADER_MAGIC false (ObjectTypeList 1) 0 1 (UnicodeString 1 128 7 [92]) OBJ_PERMANENT
    (Directory [] OB_DIRECTORY_MOUNTPOINT disk_device).
Definition demo_mounted : ob (io (list Z) nat (pools prcb)) :=
  ObState {[ demo_object := mount_header ]} {[ ObjectTypeList 1 := directory_type; ObjectTypeList 0 := file_type ]}
    {[ 0x8000 := demo_table ]} demo_object demo_object (ObjectTypeList 1) NULL NULL 0x8000 (demo_io ∅ ∅).

Lemma mounted_object o h : objects demo_mounted !! o = Some h → o = demo_object ∧ h = mount_header.
Proof.
  change (objects demo_mounted) with ({[ demo_object := mount_header ]} : gmap addr OBJECT_HEADER).
  by intros [<- <-]%lookup_singleton_Some.
Qed.

Lemma demo_is_mounted c : mounted demo_mounted disk_device c.
Proof.
  split.
  - split; [|split; [|done]].
    + split; [done|]. intros o h [-> ->]%mounted_object. split; [done|].
      split; [split; [done|by intros [?|?%not_elem_of_nil]%elem_of_cons]|].
      split; [done|]. by intros x ?%not_elem_of_nil.
    + intros d h l fl dev _ _. apply names_lock.
  - exists mount_header, [], OB_DIRECTORY_MOUNTPOINT. done.
  - split; [apply names_ready; [by right|done]|].
    intros w H. assert (match pa_alloc NonPagedPool MAX_OBJECT_NAME_SIZE tag_mNbO (outer demo_mounted) with
      Ok (p, _) => negb (p =? NULL) | _ => true end = true) as E by (vm_compute; reflexivity).
    rewrite H in E. done.
Qed.

(** The path "/x": there is no such file. *)
Definition path_x : list Z := [47; 120].

Lemma create_file_ignores_open_failure_witness :
  ∃ s', KCreateFile demo_other path_x O_RDONLY demo_mounted = Ok ((STATUS_SUCCESS, 1), s').
Proof.
  assert (∃ b w1, pa_alloc NonPagedPool (sizeof_OBJECT_HEADER + sizeof_FILE_OBJECT) tag_eliF names_world = Ok (b, w1) ∧
    b ≠ NULL ∧ b + OFFSET_BODY ≠ NULL ∧ ∃ p w2, pa_alloc PagedPool sizeof_IRP tag_IprI w1 = Ok (p, w2) ∧ p ≠ NULL ∧
    ∃ Fcb w3, pa_alloc NonPagedPool sizeof_FIL tag_BCF w2 = Ok (Fcb, w3) ∧ Fcb ≠ NULL ∧
    ob_irql w3 <= DISPATCH_LEVEL ∧ ∃ w4, pa_free p tag_IprI w3 = Ok (tt, w4))
    as (b & w1 & Ha & Hb & Hbo & p & w2 & Hp & Hpn & Fcb & w3 & Hf & Hfn & Hq & w4 & Hfr).
  { eexists _, _. split; [vm_compute; reflexivity|]. split; [done|]. split; [done|].
    eexists _, _. split; [vm_compute; reflexivity|]. split; [done|].
    eexists _, _. split; [vm_compute; reflexivity|]. split; [done|]. split; [vm_compute; discriminate|].
    eexists. vm_compute. reflexivity. }
  destruct (create_file_ignores_open_failure demo_other demo_mounted path_x [120] [] disk_device file_type demo_table
    1 b p Fcb w1 w2 w3 w4 O_RDONLY FA_READ FR_NO_FILE 0%nat [104; 105]) as (s' & Hr & _).
  - apply (path_last [47] [120]); [by repeat constructor|]. split; [done|]. split; [by repeat constructor|].
    split; [|done]. rewrite !not_elem_of_cons. repeat split; try done. apply not_elem_of_nil.
  - split.
    + apply demo_is_mounted.
    + eexists _, _. split; [reflexivity|]. split; [done|]. split; [reflexivity|done].
    + split; [reflexivity|]. split; [done|]. split; [done|]. split; [done|]. apply names_lock.
    + split; [reflexivity|]. split; [apply demo_table_length|]. reflexivity.
    + split; [apply names_ready; [by right|done]|]. split; [exact Ha|]. by split.
    + by split.
    + by split.
    + exact Hfr.
  - reflexivity.
  - reflexivity.
  - exists s'. exact Hr.
Defined.
