(* ===== verification/Machine.v ===== *)
(** * Machine: the kernel as one state

    The components above have states of their own; here they are put together:
    the pools (Pool.v) around the virtual memory (Vmm.v) around the scheduler
    (Sched.v) around the processor (Irql.v), whose spin locks and level all of
    them share.  [machine] implements the interface [ObWorld] that the object
    manager and the I/O manager are proved against. *)

From S2P Require Import Prelude Types Irql Sched Bitmap Pool Paging Vmm Ob.

Definition machine : Type := pools (vmm sched).

(** ** The parts of the machine *)

#[program] Definition sched_cpu : lens sched prcb := Lens cpu with_cpu _ _ _.
Next Obligation. done. Qed.
Next Obligation. by intros []. Qed.
Next Obligation. done. Qed.

#[program] Definition vmm_world : lens (vmm sched) sched :=
  Lens Vmm.world (λ w s, Vmm (core s) (MiSystemPteBitmap s) (bitmap_headers s) (bitmap_bits s) (GlobalPgdir s) w) _ _ _.
Next Obligation. done. Qed.
Next Obligation. by intros []. Qed.
Next Obligation. done. Qed.

Definition machine_sched : lens machine sched := lens_compose pools_world vmm_world.
Definition machine_cpu : lens machine prcb := lens_compose machine_sched sched_cpu.

(** ** The spin locks *)

(** The lock words that are no fields of an object. *)
Definition PoolLock : addr := 5.
Definition MmSystemPteLock : addr := 6.
Definition PsActiveProcessHeadLock : addr := 7.
Definition ob_lock_addr (l : ob_lock) : addr :=
  match l with TypeLock t => 0x100 + t | DirectoryLock d => d + 20 end.

Section machine.
Context (run_dpc : addr → M prcb unit).

#[export] Instance sched_locks : SpinLock sched := zoom_spinlock sched_cpu (prcb_locks run_dpc MmSystemPteLock).

Definition machine_locks (a : addr) : SpinLock (vmm sched) :=
  zoom_spinlock (lens_compose vmm_world sched_cpu) (prcb_locks run_dpc a).

Lemma machine_irql_free a s : @sl_free _ (machine_locks a) s → CurrentIrql (cpu (Vmm.world s)) <= DISPATCH_LEVEL.
Proof. exact (prcb_irql_free run_dpc a _). Qed.

(** The words of a page, as the processor reads them. *)
Definition machine_words (a : addr) (s : machine) : list Z :=
  let m := core (Pool.world s) in
  map (λ i, match va_word m (a + 4 * Z.of_nat i) with Some w => phys m w | None => 0 end) (seq 0 (Z.to_nat words_per_page)).

#[export] Instance machine_world : ObWorld machine :=
  kernel_world machine_locks (λ s, CurrentIrql (cpu (Vmm.world s))) machine_irql_free PoolLock ob_lock_addr
    (λ n, inside pools_world (MmAllocateSystemPtes n)) (λ a n, inside pools_world (MmFreeSystemPtes a n)) machine_words.
End machine.
