(* ===== verification/Loader.v ===== *)
(** * Loader: the ELF loader (kern/ps/loader.c, inc/elf.h)

    The binary is a list of bytes, the buffer the file was read to.  The loader
    runs in the address space of the new process: it maps each segment there
    and stores the bytes through the page tables, so that memory is accessed
    by bytes here and not by words as in Paging.v.

    The theorem follows the frames of the free list into the new address space:
    a page table is added where an address has none, each page gets a frame of
    its own, and stores to such frames move no page. *)

From S2P Require Import Prelude Types Paging Vmm Clone.

(** ** Data (inc/elf.h) *)

Definition ELF_MAGIC : Z := 0x464C457F.

Record Elf := ElfHeader {
  e_magic : Z; e_type : Z; e_machine : Z; e_version : Z; e_entry : Z; e_phoff : Z;
  e_phentsize : Z; e_phnum : Z }.

Record Proghdr := ProgHeader {
  p_type : Z; p_offset : Z; p_va : Z; p_filesz : Z; p_memsz : Z; p_flags : Z }.

Definition sizeof_Proghdr : Z := 32.
Definition PT_LOAD : Z := 1.

(** ** Bytes *)

(** Little-endian fields of the binary; a read past its end is a fault. *)
Definition byte_at (Binary : list Z) (i : Z) : outcome Z :=
  if i <? 0 then Stop Fault else match Binary !! Z.to_nat i with Some b => Ok b | None => Stop Fault end.

Fixpoint le (n : nat) (Binary : list Z) (i : Z) : outcome Z :=
  match n with
  | O => Ok 0
  | S k =>
      match byte_at Binary i, le k Binary (i + 1) with
      | Ok b, Ok v => Ok (b + 256 * v)
      | _, _ => Stop Fault
      end
  end.

Definition USHORT_at (Binary : list Z) (i : Z) {T} : M T Z := lift (le 2 Binary i).
Definition ULONG_at (Binary : list Z) (i : Z) {T} : M T Z := lift (le 4 Binary i).

Definition read_Elf {T} (Binary : list Z) : M T Elf :=
  let! magic := ULONG_at Binary 0 in
  let! type_ := USHORT_at Binary 16 in
  let! machine := USHORT_at Binary 18 in
  let! version := ULONG_at Binary 20 in
  let! entry := ULONG_at Binary 24 in
  let! phoff := ULONG_at Binary 28 in
  let! phentsize := USHORT_at Binary 42 in
  let! phnum := USHORT_at Binary 44 in
  ret (ElfHeader magic type_ machine version entry phoff phentsize phnum).

Definition read_Proghdr {T} (Binary : list Z) (i : Z) : M T Proghdr :=
  let! type_ := ULONG_at Binary i in
  let! offset := ULONG_at Binary (i + 4) in
  let! va := ULONG_at Binary (i + 8) in
  let! filesz := ULONG_at Binary (i + 16) in
  let! memsz := ULONG_at Binary (i + 20) in
  let! flags := ULONG_at Binary (i + 24) in
  ret (ProgHeader type_ offset va filesz memsz flags).

(** Byte [k] of a 32-bit word. *)
Definition get_byte (k w : Z) : Z := (w / 2 ^ (8 * k)) mod 256.
Definition set_byte (k b w : Z) : Z := w + (b - get_byte k w) * 2 ^ (8 * k).

Definition load_byte (va : addr) : M mm Z :=
  let! w := read (va - va mod 4) in ret (get_byte (va mod 4) w).
Definition store_byte (va : addr) (b : Z) : M mm unit :=
  let! w := read (va - va mod 4) in write (va - va mod 4) (set_byte (va mod 4) (u8 b) w).

(** *(uintptr_t* )va = 0, at any alignment. *)
Definition store_zero (va : addr) : M mm unit :=
  store_byte va 0 >>> store_byte (u32 (va + 1)) 0 >>> store_byte (u32 (va + 2)) 0 >>> store_byte (u32 (va + 3)) 0.

(** ** The loader *)

(** memcpy to the virtual address [va], from [Binary + i]. *)
Fixpoint copy_loop (n : nat) (va : addr) (Binary : list Z) (i : Z) : M mm unit :=
  match n with
  | O => ret tt
  | S k =>
      let! b := lift (byte_at Binary i) in
      store_byte va b >>> copy_loop k (u32 (va + 1)) Binary (i + 1)
  end.

(** The loop that clears the rest of a segment: its bound is a size where its
    counter is an address. *)
Fixpoint bss_loop (n : nat) (i p_memsz : Z) : M mm unit :=
  if i <? p_memsz then
    match n with
    | O => halt NoFuel
    | S k => store_zero i >>> bss_loop k (u32 (i + 1)) p_memsz
    end
  else ret tt.

Definition load_segment (DirectoryTableBase : addr) (Binary : list Z) (ph : Proghdr) : M mm unit :=
  let! _ := MmMapSegment DirectoryTableBase (p_va ph) (p_memsz ph) (Z.lor PTE_W PTE_U) in
  if p_memsz ph <? p_filesz ph then halt BugCheck
  else
    copy_loop (Z.to_nat (p_filesz ph)) (p_va ph) Binary (p_offset ph) >>>
    let i := u32 (p_va ph + p_filesz ph) in
    bss_loop (Z.to_nat (p_memsz ph - i)) i (p_memsz ph).

Fixpoint segments_loop (n : nat) (DirectoryTableBase : addr) (Binary : list Z) (ph : Z) : M mm unit :=
  match n with
  | O => ret tt
  | S k =>
      let! h := read_Proghdr Binary ph in
      load_segment DirectoryTableBase Binary h >>>
      segments_loop k DirectoryTableBase Binary (ph + sizeof_Proghdr)
  end.

(** The result is the status and the ProcessEntryPoint. *)
Definition ELFBinaryLoader (DirectoryTableBase : addr) (Binary : list Z) : M mm (KSTATUS * addr) :=
  let! elf_head := read_Elf Binary in
  if negb (e_magic elf_head =? ELF_MAGIC) then halt BugCheck
  else if negb (e_type elf_head =? 2) || negb (e_machine elf_head =? 3) || negb (e_version elf_head =? 1) ||
          negb (e_phentsize elf_head =? sizeof_Proghdr) || (1024 <? e_phnum elf_head) then halt BugCheck
  else
    segments_loop (Z.to_nat (e_phnum elf_head)) DirectoryTableBase Binary (e_phoff elf_head) >>>
    ret (STATUS_SUCCESS, e_entry elf_head).

(** ** The address space that is being filled *)

(** [D] is the page directory of the process, reached in the kernel's part of
    the address space; the free frames are data frames. *)
Record loading (D : addr) (s : mm) : Prop := {
  ld_inv : mm_inv s;
  ld_dir : current_dir D s;
  ld_high : KERNBASE <= D;
  ld_self : PDX D ≠ self_index;
  ld_free : ∀ f, f ∈ PfnFreeList s → f ≠ 0 ∧ not_table s f }.

(** The page of the address has no entry yet. *)
Definition blank (s : mm) (va : addr) : Prop := Valid (pde_of s va) = true → pte_of s va = 0.

Lemma user_PDX va : is_u32 va → IsUserAddress va = true → PDX va < 511.
Proof. unfold IsUserAddress. change USERTOP with 0x7FC00000. intros Hu H%Z.ltb_lt. page_arith. Qed.

Lemma dir_PDX D s : loading D s → 512 <= PDX D.
Proof.
  intros [_ (_ & Hu & _) Hh _ _]. change KERNBASE with 0x80000000 in Hh. page_arith.
Qed.

(** The directory entry of [va], through the address [D] of the directory. *)
Lemma va_word_dir D s va : loading D s → va_word s (u32 (D + 4 * PDX va)) = Some (pde_word s va).
Proof.
  intros [_ (_ & Hu & H0 & Hv & Hw) _ _ _]. pose proof (PDX_range va) as Hr. rewrite PGOFF_mod in H0.
  rewrite u32_small by (Z.div_mod_to_equations; lia).
  assert (PPN (D + 4 * PDX va) = PPN D) as HP by page_arith.
  assert (PGOFF (D + 4 * PDX va) / 4 = PDX va) as HG.
  { rewrite PGOFF_mod. generalize dependent (PDX va). intros x Hx. Z.div_mod_to_equations; lia. }
  unfold va_word. rewrite (walk_same_page s _ D), Hw, HG; [done| |done|done].
  Z.div_mod_to_equations; lia.
Qed.

(** *** A page table for an address that has none *)

(** The new table is frame [g], empty. *)
Record table_added (s s' : mm) (va : addr) (g : Z) (l : list Z) : Prop := {
  ta_cr3 : cr3 s' = cr3 s;
  ta_pd : ∀ i, 0 <= i < 1024 → i ≠ PDX va → pd s' i = pd s i;
  ta_valid : Valid (pd s' (PDX va)) = true;
  ta_frame : PageFrameNumber (pd s' (PDX va)) = g;
  ta_data : ∀ h i, 0 <= i < 1024 → h ≠ g → h ≠ PPN (cr3 s) → phys s' (word_of h i) = phys s (word_of h i);
  ta_zero : ∀ i, 0 <= i < 1024 → phys s' (word_of g i) = 0;
  ta_free : PfnFreeList s' = l;
  ta_db : ∃ p, PfnDataBase s' = <[g := p]> (PfnDataBase s) ∧ RefCount p = 1 }.

Definition table_entry (g : Z) : MMPTE := pte_value g (Z.lor PTE_W PTE_U).

Lemma PDX_small i : 0 <= i < 1024 → PDX (i * 2 ^ 22) = i.
Proof. intros Hi. rewrite PDX_div, Z.div_mul by lia. by apply Z.mod_small. Qed.

Section table.
Context (D va g : Z) (l : list Z) (s s' : mm).
Hypothesis (Hld : loading D s) (Huser : PDX va ≠ self_index).
Hypothesis (Hno : Valid (pde_of s va) = false) (Hfree : PfnFreeList s = g :: l).
Hypothesis (Hta : table_added s s' va g l).

Lemma new_frame : g ≠ 0 ∧ not_table s g.
Proof. apply (ld_free D s Hld). rewrite Hfree. by left. Qed.

Lemma added_pd_frame i :
  0 <= i < 1024 → Valid (pd s' i) = true → i ≠ PDX va → Valid (pd s i) = true ∧ PageFrameNumber (pd s' i) ≠ g.
Proof.
  intros Hi Hv Hne. rewrite (ta_pd _ _ _ _ _ Hta) in * by done. split; [done|].
  destruct new_frame as [_ [_ Hn]]. by apply Hn.
Qed.

Lemma added_paging : paging s'.
Proof.
  pose proof (mi_paging s (ld_inv D s Hld)) as [Sv Sf Hd]. destruct Hta as [Hc Hpd Hv Hf _ _ _ _].
  assert (0 <= self_index < 1024) as Hs by (unfold self_index; lia).
  split; [by rewrite Hpd|by rewrite Hpd, Hc|]. intros i j Hi Hj Hij Vi Vj.
  destruct (decide (i = PDX va)) as [->|Hi'], (decide (j = PDX va)) as [->|Hj']; [done|..].
  - rewrite Hf. destruct (added_pd_frame j Hj Vj Hj') as [_ ?]. congruence.
  - rewrite Hf. by destruct (added_pd_frame i Hi Vi Hi').
  - rewrite !Hpd in * by done. auto.
Qed.

Lemma added_blank va' : PDX va' = PDX va → pte_of s' va' = 0.
Proof.
  intros E. unfold pte_of, pte_word. rewrite pde_of_pd, E, (ta_frame _ _ _ _ _ Hta).
  apply (ta_zero _ _ _ _ _ Hta), PTX_range.
Qed.

Lemma added_pte va' :
  Valid (pde_of s va') = true → PDX va' ≠ self_index → PDX va' ≠ PDX va →
  pde_of s' va' = pde_of s va' ∧ pte_of s' va' = pte_of s va'.
Proof.
  intros Hv Hs Hne. pose proof (PDX_range va') as Hr. pose proof (PTX_range va') as Ht.
  assert (pde_of s' va' = pde_of s va') as E.
  { rewrite !pde_of_pd. by apply (ta_pd _ _ _ _ _ Hta). }
  split; [done|]. unfold pte_of, pte_word. rewrite E.
  destruct new_frame as [_ [_ Hn]]. pose proof (mi_paging s (ld_inv D s Hld)) as [Sv Sf Hd].
  apply (ta_data _ _ _ _ _ Hta); [done|..]; rewrite pde_of_pd in *.
  - by apply Hn.
  - rewrite <- Sf. by apply Hd.
Qed.

Lemma added_walk va' : is_u32 va' → PDX va' ≠ self_index → walk s' va' = walk s va'.
Proof.
  intros Hu' Hs. destruct (decide (PDX va' = PDX va)) as [E|Hne].
  - unfold walk at 1. rewrite added_blank by done. rewrite andb_false_r.
    unfold walk. rewrite pde_of_pd, E, <- pde_of_pd. by rewrite Hno.
  - unfold walk. destruct (Valid (pde_of s va')) eqn:Hv.
    + destruct (added_pte va' Hv Hs Hne) as [-> ->]. by rewrite Hv.
    + rewrite pde_of_pd, (ta_pd _ _ _ _ _ Hta), <- pde_of_pd by (done || apply PDX_range). by rewrite Hv.
Qed.

Lemma added_not_table h : h ≠ g → not_table s h → not_table s' h.
Proof.
  intros Hg [H1 H2]. split; [by rewrite (ta_cr3 _ _ _ _ _ Hta)|]. intros i Hi Hv.
  destruct (decide (i = PDX va)) as [->|Hne]; [rewrite (ta_frame _ _ _ _ _ Hta); congruence|].
  rewrite (ta_pd _ _ _ _ _ Hta) in * by done. by apply H2.
Qed.

Lemma added_inv : mm_inv s'.
Proof.
  pose proof (ld_inv D s Hld) as Hi. destruct (ta_db _ _ _ _ _ Hta) as (p & Ed & E1).
  pose proof (mi_nodup s Hi) as Hnd. rewrite Hfree in Hnd. apply NoDup_cons in Hnd as [Hng Hnd].
  destruct (mi_free s Hi g) as (q & Hq & H0); [rewrite Hfree; by left|].
  assert (∀ h, mappings s' h = mappings s h) as Hm.
  { intros h. apply cnt_ext. intros i Hir. unfold maps.
    destruct (managed_page_spec i) as [[Hs _]|]; [|done]. rewrite added_walk; [done| |done].
    apply page_va_u32. by rewrite <- NPAGES_Z. }
  split.
  - apply added_paging.
  - intros h r. rewrite Ed. intros [[-> _]|[_ Hr]]%lookup_insert_Some; by eapply (mi_range s Hi).
  - intros h r. rewrite Ed, Hm. intros [[<- <-]|[_ Hr]]%lookup_insert_Some; [|by apply (mi_count s Hi)].
    pose proof (mi_count s Hi g q Hq). lia.
  - by rewrite (ta_free _ _ _ _ _ Hta).
  - intros h. rewrite (ta_free _ _ _ _ _ Hta), Ed. intros Hh. rewrite lookup_insert_ne by set_solver.
    apply (mi_free s Hi). rewrite Hfree. by right.
Qed.

Lemma added_loading : loading D s'.
Proof.
  pose proof (mi_paging s (ld_inv D s Hld)) as Hp. pose proof (dir_PDX D s Hld) as Hd.
  destruct Hld as [Hi (H1 & H2 & H3 & H4 & H5) Hh Hs Hf].
  assert (PDX D ≠ PDX va) as Hne.
  { intros E. rewrite pde_of_pd, E, <- pde_of_pd in H4. congruence. }
  split; [apply added_inv| |done|done|].
  - split; [done|]. split; [done|]. split; [done|]. destruct (added_pte D H4 Hs Hne) as [E _].
    rewrite E, added_walk by done. by rewrite (ta_cr3 _ _ _ _ _ Hta).
  - intros f. rewrite (ta_free _ _ _ _ _ Hta). intros Hin.
    pose proof (mi_nodup s Hi) as Hnd. rewrite Hfree in Hnd. apply NoDup_cons in Hnd as [Hng _].
    destruct (Hf f) as [? ?]; [rewrite Hfree; by right|]. split; [done|].
    apply added_not_table; [|done]. set_solver.
Qed.
End table.

Lemma zero_page_run s va f :
  walk s va = Some f →
  zero_page va s = Ok (tt, set_phys (λ w, if in_frame f w then 0 else phys s w) s).
Proof. intros H. unfold zero_page. by rewrite (deref_run _ _ _ f). Qed.

Lemma rounddown_pte va :
  is_u32 va →
  is_u32 (ROUNDDOWN (MmGetPteAddress va) PGSIZE) ∧
  PPN (ROUNDDOWN (MmGetPteAddress va) PGSIZE) = PPN (MmGetPteAddress va).
Proof.
  intros Hu. pose proof (u32_range (Z.shiftl (Z.shiftr va 12) 2 + MMPAGETABLEAREA_START)) as Hr.
  fold (MmGetPteAddress va) in Hr. unfold ROUNDDOWN, PGSIZE. rewrite u32_small by done.
  split; [Z.div_mod_to_equations; lia|page_arith].
Qed.

(** The table of an address is found through the recursive mapping. *)
Lemma walk_pte s va :
  paging s → is_u32 va → Valid (pde_of s va) = true →
  walk s (MmGetPteAddress va) = Some (PageFrameNumber (pde_of s va)).
Proof.
  intros Hp Hu Hv. destruct (pte_address_parts va Hu) as (H1 & H2 & _). destruct Hp as [Sv Sf _].
  unfold walk. assert (pde_of s (MmGetPteAddress va) = pd s self_index) as E1
    by (rewrite pde_of_pd; by rewrite H1).
  assert (pte_of s (MmGetPteAddress va) = pde_of s va) as E2.
  { unfold pte_of, pte_word. rewrite E1, Sf, H2. reflexivity. }
  by rewrite E1, E2, Sv, Hv.
Qed.

(** The state after insert_page_table, and before the table is cleared. *)
Definition with_table (va g : addr) (l : list Z) (s : mm) : mm :=
  set_phys (upd_word (pde_word s va) (table_entry g) (phys s))
    (set_pfn g (Pfn (MmGetPdeAddress va) 1) (set_free l s)).

Lemma with_table_added s va g l :
  g ≠ PPN (cr3 s) → 0 <= g < 2 ^ 20 →
  table_added s (set_phys (λ w, if in_frame g w then 0 else phys (with_table va g l s) w) (with_table va g l s))
    va g l ∧
  pde_of (with_table va g l s) va = table_entry g.
Proof.
  intros Hne Hg. pose proof (PDX_range va) as Hr.
  assert (∀ i, 0 <= i < 1024 → pd (with_table va g l s) i = if i =? PDX va then table_entry g else pd s i) as Hpd.
  { intros i Hi. unfold pd, with_table, upd_word, pde_word. cbn [set_phys set_pfn set_free phys cr3].
    destruct (Z.eqb_spec i (PDX va)) as [->|Hi']; [by rewrite Z.eqb_refl|].
    destruct (Z.eqb_spec (word_of (PPN (cr3 s)) i) (word_of (PPN (cr3 s)) (PDX va))) as [E|]; [|done].
    by apply word_of_inj in E as [_ ?]. }
  set (s1 := with_table va g l s) in *. set (s' := set_phys _ s1).
  assert (∀ h i, 0 <= i < 1024 → phys s' (word_of h i) = if h =? g then 0 else phys s1 (word_of h i)) as Hz.
  { intros h i Hi. unfold s'. cbn [set_phys phys]. by rewrite in_frame_word_of. }
  assert (∀ i, 0 <= i < 1024 → pd s' i = pd s1 i) as Hpd'.
  { intros i Hi. unfold pd. rewrite Hz by done. change (cr3 s') with (cr3 s).
    by destruct (Z.eqb_spec (PPN (cr3 s)) g). }
  destruct (pte_value_bits g (Z.lor PTE_W PTE_U) Hg) as [Hv Hf]; [done|].
  split; [split|].
  - done.
  - intros i Hi Hi'. rewrite Hpd', Hpd by done. by destruct (Z.eqb_spec i (PDX va)).
  - by rewrite Hpd', Hpd, Z.eqb_refl.
  - by rewrite Hpd', Hpd, Z.eqb_refl.
  - intros h i Hi Hh Hc. rewrite Hz by done. destruct (Z.eqb_spec h g); [done|].
    unfold s1, with_table, upd_word, pde_word. cbn [set_phys phys].
    destruct (Z.eqb_spec (word_of h i) (word_of (PPN (cr3 s)) (PDX va))) as [E|]; [|done].
    by apply word_of_inj in E as [? _].
  - intros i Hi. rewrite Hz by done. by rewrite Z.eqb_refl.
  - done.
  - eexists. split; [reflexivity|done].
  - rewrite pde_of_pd, Hpd by done. by rewrite Z.eqb_refl.
Qed.

(** The new table, before it is cleared, is reached as the others are. *)
Lemma with_table_walk D s va g l :
  loading D s → is_u32 va → PDX va ≠ self_index → PfnFreeList s = g :: l →
  0 <= g < 2 ^ 20 → g ≠ PPN (cr3 s) →
  walk (with_table va g l s) (ROUNDDOWN (MmGetPteAddress va) PGSIZE) = Some g.
Proof.
  intros Hld Hu Hns Hl Hgr Hgd. destruct (with_table_added s va g l Hgd Hgr) as [Hta Hpde].
  set (s1 := with_table va g l s) in *.
  set (s2 := set_phys (λ w, if in_frame g w then 0 else phys s1 w) s1) in *.
  destruct (pte_value_bits g (Z.lor PTE_W PTE_U) Hgr) as [Hv Hf]; [done|]. fold (table_entry g) in Hv, Hf.
  destruct (rounddown_pte va Hu) as [Hur HP].
  rewrite (walk_same_page s1 _ (MmGetPteAddress va)); [|done|apply u32_range|done].
  assert (∀ i, 0 <= i < 1024 → pd s1 i = pd s2 i) as Hpd.
  { intros i Hir. unfold pd, s2. cbn [set_phys phys cr3]. rewrite in_frame_word_of by done.
    change (cr3 s1) with (cr3 s). by destruct (Z.eqb_spec (PPN (cr3 s)) g). }
  assert (paging s1) as Hp1.
  { pose proof (added_paging D va g l s s2 Hld Hns Hl Hta) as [Sv Sf Hd].
    split; [rewrite Hpd; [done|done]|rewrite Hpd; [done|done]|].
    intros i j Hir Hjr. rewrite !Hpd by done. auto. }
  rewrite walk_pte by (done || by rewrite Hpde). by rewrite Hpde, Hf.
Qed.

Lemma insert_table_run D s va g l :
  loading D s → is_u32 va → IsUserAddress va = true → Valid (pde_of s va) = false →
  PfnFreeList s = g :: l →
  ∃ s', insert_page_table D va s = Ok (STATUS_SUCCESS, s') ∧ table_added s s' va g l.
Proof.
  intros Hld Hu Huser Hno Hl. pose proof (ld_inv D s Hld) as Hi.
  destruct (ld_free D s Hld g) as [Hg0 [Hgd Hgt]]; [rewrite Hl; by left|].
  assert (0 <= g < 2 ^ 20) as Hgr.
  { destruct (mi_free s Hi g) as (p & Hp & _); [rewrite Hl; by left|]. by eapply (mi_range s Hi). }
  destruct (allocate_pfn_run s g l (MmGetPdeAddress va) Hi Hl) as (R1 & _ & _).
  destruct (with_table_added s va g l Hgd Hgr) as [Hta Hpde].
  set (s1 := with_table va g l s) in *.
  set (s2 := set_phys (λ w, if in_frame g w then 0 else phys s1 w) s1) in *.
  exists s2. split; [|done]. unfold insert_page_table. rewrite Huser. rewrite assert_true by done.
  rewrite (bind_Ok _ _ _ _ _ R1). change (negb (K_SUCCESS STATUS_SUCCESS)) with false. cbv iota.
  assert (PfnDataBase (take_pfn g (MmGetPdeAddress va) l s) !! g = Some (Pfn (MmGetPdeAddress va) 0)) as Eg
    by apply lookup_insert_eq.
  rewrite (bind_Ok _ _ _ _ _ (inc_run g _ _ Eg)).
  set (s0 := add_ref g _ _).
  assert (va_word s0 (u32 (D + 4 * PDX va)) = Some (pde_word s va)) as Ew by exact (va_word_dir D s va Hld).
  rewrite (bind_Ok _ _ _ _ _ (write_run s0 _ _ _ Ew)).
  assert (set_phys (upd_word (pde_word s va)
    (Z.lor (MiPFNtoPhysicalAddress g) (Z.lor PTE_W (Z.lor PTE_U PTE_P))) (phys s0)) s0 = s1) as ->.
  { unfold s0, s1, with_table, add_ref, take_pfn, set_pfn, set_free, set_phys, table_entry, pte_value.
    cbn [cr3 phys PfnDataBase PfnFreeList MemManagerTestingON PteAddress RefCount]. by rewrite insert_insert_eq. }
  assert (PDX va ≠ self_index) as Hns by (pose proof (user_PDX va Hu Huser); unfold self_index; lia).
  pose proof (with_table_walk D s va g l Hld Hu Hns Hl Hgr Hgd) as Hw.
  by rewrite (bind_Ok _ _ _ _ _ (zero_page_run s1 _ g Hw)).
Qed.

(** *** What a mapping changes and what it keeps *)

(** The frames that hold data before and after: the new pages [fs], what is
    still free, and what was in use. *)
Definition kept (s s' : mm) (fs : list Z) (h : Z) : Prop :=
  not_table s h ∧ (h ∈ fs ∨ h ∈ PfnFreeList s' ∨ h ∉ PfnFreeList s).

(** At most [n] frames were taken, among them [fs] for data, and only the
    addresses of [P] are translated in another way. *)
Record grown (D : addr) (n : nat) (s s' : mm) (fs : list Z) (P : addr → Prop) : Prop := {
  gr_loading : loading D s';
  gr_free : PfnFreeList s' `suffix_of` PfnFreeList s;
  gr_count : (length (PfnFreeList s) <= length (PfnFreeList s') + n)%nat;
  gr_frames : ∀ f, f ∈ fs → f ∈ PfnFreeList s ∧ f ∉ PfnFreeList s';
  gr_other : ∀ va', is_u32 va' → PDX va' ≠ self_index → ¬ P va' →
             walk s' va' = walk s va' ∧ (blank s va' → blank s' va');
  gr_kept : ∀ h, kept s s' fs h →
            not_table s' h ∧ ∀ i, 0 <= i < 1024 → phys s' (word_of h i) = phys s (word_of h i) }.

Lemma grown_trans D n1 n2 s s1 s2 fs1 fs2 P1 P2 :
  grown D n1 s s1 fs1 P1 → grown D n2 s1 s2 fs2 P2 → grown D (n1 + n2) s s2 (fs1 ++ fs2) (λ va, P1 va ∨ P2 va).
Proof.
  intros [L1 F1 C1 N1 O1 K1] [L2 F2 C2 N2 O2 K2].
  assert (∀ h, h ∈ PfnFreeList s1 → h ∈ PfnFreeList s) as I1.
  { intros h. destruct F1 as [k ->]. set_solver. }
  assert (∀ h, h ∈ PfnFreeList s2 → h ∈ PfnFreeList s1) as I2.
  { intros h. destruct F2 as [k ->]. set_solver. }
  split; [done|by etrans|lia|..].
  - intros f [Hf|Hf]%elem_of_app; [destruct (N1 f Hf)|destruct (N2 f Hf)]; split; auto.
  - intros va' Hu Hs HP. destruct (O1 va' Hu Hs) as [E1 B1]; [tauto|].
    destruct (O2 va' Hu Hs) as [E2 B2]; [tauto|]. split; [congruence|auto].
  - intros h [Hn Hk].
    assert (kept s s1 fs1 h) as Hk1.
    { split; [done|]. destruct Hk as [[Hf|Hf]%elem_of_app|[Hk|Hk]]; auto. right. left. by apply N2. }
    destruct (K1 h Hk1) as [Hn1 D1]. destruct (K2 h) as [Hn2 D2].
    { split; [done|]. destruct Hk as [[Hf|Hf]%elem_of_app|[Hk|Hk]]; [|by auto..|];
        right; right; [by apply N1|by intros ?%I1]. }
    split; [done|]. intros i Hi. by rewrite D2, D1.
Qed.

Lemma grown_weaken D n s s' fs P Q :
  (∀ va, is_u32 va → PDX va ≠ self_index → P va → Q va) → grown D n s s' fs P → grown D n s s' fs Q.
Proof.
  intros H [H1 H2 H3 H4 H5 H6]. split; try done. intros va' Hu Hs HQ. apply H5; [done|done|]. auto.
Qed.

Lemma grown_refl D s P : loading D s → grown D 0 s s [] P.
Proof. intros H. split; try done; [lia|set_solver|]. intros h [Hn _]. done. Qed.

(** Taking the frame [f] of a page. *)
Lemma take_grown D s f l pte :
  loading D s → PfnFreeList s = f :: l → grown D 1 s (take_pfn f pte l s) [f] (λ _, False).
Proof.
  intros Hld Hl. destruct (allocate_pfn_run s f l pte (ld_inv D s Hld) Hl) as (_ & Hi & Hnf).
  split.
  - destruct Hld as [_ Hc Hh Hs Hf]. split; try done. intros h Hh'. apply Hf. rewrite Hl. by right.
  - rewrite Hl. by exists [f].
  - rewrite Hl. cbn. lia.
  - intros h ->%list_elem_of_singleton. rewrite Hl. split; [by left|done].
  - done.
  - intros h [Hn _]. done.
Qed.

(** The new table. *)
Lemma table_grown D s s' va g l :
  loading D s → PDX va ≠ self_index → Valid (pde_of s va) = false → PfnFreeList s = g :: l →
  table_added s s' va g l → grown D 1 s s' [] (λ _, False).
Proof.
  intros Hld Hs Hno Hl Hta. pose proof (mi_nodup s (ld_inv D s Hld)) as Hnd. rewrite Hl in Hnd.
  apply NoDup_cons in Hnd as [Hng _]. pose proof (ta_free _ _ _ _ _ Hta) as El.
  split.
  - by apply (added_loading D va g l s).
  - rewrite Hl, El. by exists [g].
  - rewrite Hl, El. cbn. lia.
  - intros h Hh. by apply not_elem_of_nil in Hh.
  - intros va' Hu' Hs' _. split; [by apply (added_walk D va g l)|]. intros Hb Hv.
    destruct (decide (PDX va' = PDX va)) as [E|Hne]; [by eapply (added_blank va)|].
    assert (Valid (pde_of s va') = true) as Hv'.
    { rewrite pde_of_pd, (ta_pd _ _ _ _ _ Hta), <- pde_of_pd in Hv by (done || apply PDX_range). done. }
    destruct (added_pte D va g l s s' Hld Hno Hl Hta va' Hv' Hs' Hne) as [_ ->]. auto.
  - intros h [Hn Hk].
    assert (h ≠ g) as Hh.
    { destruct Hk as [Hk|[Hk|Hk]]; [by apply not_elem_of_nil in Hk|rewrite El in Hk|rewrite Hl in Hk]; set_solver. }
    split; [by apply (added_not_table va g l s)|]. intros i Hi. apply (ta_data _ _ _ _ _ Hta); [done|done|apply Hn].
Qed.

(** The entry of the page itself. *)
Lemma insert_at_step D s va f pte Perm :
  loading D s → mappable s va → IsUserAddress va = true → pte_of s va = 0 →
  PfnDataBase s !! f = Some (Pfn pte 0) → f ∉ PfnFreeList s → f ≠ 0 → 0 <= Perm < 4096 →
  ∃ s', MiInsertPage D va (Some f) Perm s = Ok (STATUS_SUCCESS, s') ∧
    grown D 0 s s' [] (λ va', PPN va' = PPN va) ∧ walk s' va = Some f.
Proof.
  intros Hld Hm Huser Hz Hf Hnf Hf0 HP. pose proof (ld_inv D s Hld) as Hi.
  pose proof (mi_paging s Hi) as Hp. pose proof Hm as (Hu & Hns & Hv).
  pose proof (user_PDX va Hu Huser) as Hlo. pose proof (dir_PDX D s Hld) as Hhi.
  pose proof (put_pte_walk s va (pte_value f Perm)) as Hw.
  destruct (pte_value_bits f Perm (mi_range s Hi f _ Hf) HP) as [Vv Vf].
  assert (current_dir D (put_pte va (pte_value f Perm) s)) as HD'.
  { destruct (ld_dir D s Hld) as (D1 & D2 & D3 & D4 & D5). split; [done|]. split; [done|]. split; [done|].
    rewrite put_pte_pde by done. split; [done|]. rewrite Hw; [|done|done|done|by apply (ld_self D s)].
    destruct (Z.eqb_spec (PPN D) (PPN va)) as [E|]; [|done].
    apply same_page in E as [E _]; [lia|done|done]. }
  exists (insert_spec va f Perm (Pfn pte 0) s).
  split; [by apply insert_fresh_at; [|apply (ld_dir D s Hld)|..]|].
  destruct (insert_page_step s va f (Pfn pte 0) Perm Hi Hm Hz Hf Hnf Hf0 ltac:(cbn; lia) HP) as (s' & R & Hpc).
  rewrite (insert_fresh_run s va f Perm (Pfn pte 0) Hp Hm Hz Hf0 Hf) in R. injection R as R. subst s'.
  set (s' := insert_spec va f Perm (Pfn pte 0) s) in *.
  assert (∀ va', is_u32 va' → PDX va' ≠ self_index →
    walk s' va' = if PPN va' =? PPN va then Some f else walk s va') as Hw'.
  { intros va' Hu' Hs'. rewrite (walk_ext s' (put_pte va (pte_value f Perm) s)) by done.
    rewrite Hw by done. by rewrite Vv, Vf. }
  destruct Hpc as [P1 P2 P3 P4 P5 P6 P7 P8].
  assert (∀ h, not_table s h → not_table s' h) as Hnt by (intros h; by apply not_table_ext).
  split; [split|].
  - split; [exact P1|exact HD'|exact (ld_high D s Hld)|exact (ld_self D s Hld)|]. intros h. rewrite P7. intros Hh.
    destruct (ld_free D s Hld h Hh) as [? ?]. auto.
  - by rewrite P7.
  - rewrite P7. lia.
  - intros h Hh. by apply not_elem_of_nil in Hh.
  - intros va' Hu' Hs' Hne. rewrite Hw' by done. split; [by destruct (Z.eqb_spec (PPN va') (PPN va))|].
    intros Hb. unfold blank. rewrite P3. intros Hv'. rewrite P4 by done.
    destruct (Z.eqb_spec (PPN va') (PPN va)); [done|auto].
  - intros h [Hn _]. split; [auto|]. intros i Hir. by apply P5.
  - rewrite Hw' by (done || apply Hns). by rewrite Z.eqb_refl.
Qed.

(** With its table, the page is inserted as if the table had been there. *)
Lemma insert_page_with_table D s s1 va f Perm :
  loading D s → loading D s1 → is_u32 va → Valid (pde_of s va) = false → Valid (pde_of s1 va) = true →
  insert_page_table D va s = Ok (STATUS_SUCCESS, s1) →
  MiInsertPage D va (Some f) Perm s = MiInsertPage D va (Some f) Perm s1.
Proof.
  intros [Hi0 Hd0 _ _ _] [Hi1 Hd1 _ _ _] Hu Hv Hv1 R. apply mi_paging in Hi0, Hi1. unfold MiInsertPage.
  rewrite (bind_Ok _ _ _ _ _ (dir_not_foreign_run D s va Hi0 Hd0)).
  rewrite (bind_Ok _ _ _ _ _ (dir_not_foreign_run D s1 va Hi1 Hd1)). cbn [when]. rewrite !bind_ret. cbv zeta.
  rewrite (bind_Ok _ _ _ _ _ (read_pde s va Hi0 Hu)), (bind_Ok _ _ _ _ _ (read_pde s1 va Hi1 Hu)).
  rewrite Hv, Hv1. by rewrite (bind_Ok _ _ _ _ _ R).
Qed.

(** One round of the loop: a frame for the page, and one for its table where
    there was none. *)
Lemma map_page_step D s va f l Perm :
  loading D s → is_u32 va → IsUserAddress va = true → blank s va → PfnFreeList s = f :: l →
  (2 <= length (PfnFreeList s))%nat → 0 <= Perm < 4096 →
  ∃ s0 s', MmAllocatePFN (MmGetPteAddress va) s = Ok ((STATUS_SUCCESS, f), s0) ∧
    MiInsertPage D va (Some f) Perm s0 = Ok (STATUS_SUCCESS, s') ∧
    grown D 2 s s' [f] (λ va', PPN va' = PPN va) ∧ walk s' va = Some f.
Proof.
  intros Hld Hu Huser Hb Hl Hlen HP. pose proof (user_PDX va Hu Huser) as Hlo.
  assert (managed va) as Hmg by (apply managed_user; lia). pose proof Hmg as [Hns _].
  destruct (ld_free D s Hld f) as [Hf0 _]; [rewrite Hl; by left|].
  destruct (allocate_pfn_run s f l (MmGetPteAddress va) (ld_inv D s Hld) Hl) as (R1 & _ & Hnf).
  pose proof (take_grown D s f l (MmGetPteAddress va) Hld Hl) as G1.
  set (s0 := take_pfn f (MmGetPteAddress va) l s) in *.
  assert (PfnDataBase s0 !! f = Some (Pfn (MmGetPteAddress va) 0)) as Hf by apply lookup_insert_eq.
  exists s0. destruct (Valid (pde_of s0 va)) eqn:Hv.
  - destruct (insert_at_step D s0 va f (MmGetPteAddress va) Perm (gr_loading _ _ _ _ _ _ G1)) as (s' & R2 & G2 & Hw);
      try done; [by apply Hb|].
    exists s'. split; [done|]. split; [done|]. split; [|done].
    pose proof (grown_trans _ _ _ _ _ _ _ _ _ _ G1 G2) as G. split; try apply G.
    + pose proof (gr_count _ _ _ _ _ _ G). lia.
    + intros va' Hu' Hs' Hne. apply G; tauto.
  - destruct l as [|g l]; [rewrite Hl in Hlen; simpl in Hlen; lia|].
    destruct (insert_table_run D s0 va g l (gr_loading _ _ _ _ _ _ G1) Hu Huser Hv eq_refl) as (s1 & R2 & Hta).
    pose proof (table_grown D s0 s1 va g l (gr_loading _ _ _ _ _ _ G1) Hns Hv eq_refl Hta) as G2.
    assert (Valid (pde_of s1 va) = true) as Hv1 by (rewrite pde_of_pd; apply (ta_valid _ _ _ _ _ Hta)).
    destruct (ta_db _ _ _ _ _ Hta) as (p & Ed & _).
    destruct (insert_at_step D s1 va f (MmGetPteAddress va) Perm (gr_loading _ _ _ _ _ _ G2)) as (s' & R3 & G3 & Hw);
      try done.
    + by eapply (added_blank va).
    + rewrite Ed, lookup_insert_ne by set_solver. done.
    + rewrite (ta_free _ _ _ _ _ Hta). set_solver.
    + exists s'. split; [done|]. split; [|split; [|done]].
      * rewrite <- R3. by apply insert_page_with_table; [apply (gr_loading _ _ _ _ _ _ G1)|apply (gr_loading _ _ _ _ _ _ G2)|..].
      * pose proof (grown_trans _ _ _ _ _ _ _ _ _ _ G1 (grown_trans _ _ _ _ _ _ _ _ _ _ G2 G3)) as G.
        split; try apply G; try done. intros va' Hu' Hs' Hne. apply G; tauto.
Qed.

(** ** The pages of a segment *)

Definition in_pages (b : addr) (n : nat) (va : addr) : Prop := b <= va < b + PGSIZE * Z.of_nat n.

(** The pages from [b] are mapped to the frames [fs], all of them different. *)
Record pages_mapped (D : addr) (s s' : mm) (b : addr) (fs : list Z) : Prop := {
  pm_grown : grown D (2 * length fs) s s' fs (in_pages b (length fs));
  pm_nodup : NoDup fs;
  pm_walk : ∀ k f, fs !! k = Some f → walk s' (page_at b k) = Some f }.

Lemma user_page b n k :
  range_ok b n → b + PGSIZE * Z.of_nat n <= USERTOP → (k < n)%nat →
  is_u32 (page_at b k) ∧ IsUserAddress (page_at b k) = true ∧ PDX (page_at b k) ≠ self_index.
Proof.
  intros Hr Htop Hk. pose proof (page_at_u32 b n k Hr Hk) as Hu.
  assert (IsUserAddress (page_at b k) = true) as Huser.
  { apply Z.ltb_lt. unfold page_at, PGSIZE in *. lia. }
  split; [done|]. split; [done|]. pose proof (user_PDX _ Hu Huser). unfold self_index. lia.
Qed.

Lemma in_pages_PPN b va : range_ok b 1 → is_u32 va → PPN va = PPN b ↔ in_pages b 1 va.
Proof. unfold range_ok, in_pages, PGSIZE. intros (H1 & H2 & H3) Hu. split; page_arith. Qed.

Lemma pages_mapped_S D s s1 s2 b f fs :
  range_ok b (S (length fs)) → PDX b ≠ self_index →
  grown D 2 s s1 [f] (λ va', PPN va' = PPN b) → walk s1 b = Some f →
  pages_mapped D s1 s2 (b + PGSIZE) fs → pages_mapped D s s2 b (f :: fs).
Proof.
  intros Hrg Hns G1 Hw [G2 Hnd Hws]. destruct (range_ok_S _ _ Hrg) as [Hu _].
  pose proof (grown_trans _ _ _ _ _ _ _ _ _ _ G1 G2) as G.
  assert (range_ok b 1) as Hr1 by (unfold range_ok, PGSIZE in *; lia). split.
  - cbn [length]. replace (2 * S (length fs))%nat with (2 + 2 * length fs)%nat by lia.
    eapply grown_weaken; [|exact G]. intros va' Hu' Hs' [E|E].
    + apply in_pages_PPN in E; [|done..]. unfold in_pages, PGSIZE in *. lia.
    + unfold in_pages, PGSIZE in *. lia.
  - apply NoDup_cons. split; [|done]. intros Hin.
    destruct (gr_frames _ _ _ _ _ _ G2 f Hin) as [H1 _].
    destruct (gr_frames _ _ _ _ _ _ G1 f) as [_ H2]; [by left|done].
  - intros [|k] g Hk; cbn in Hk.
    + injection Hk as <-. rewrite page_at_0.
      destruct (gr_other _ _ _ _ _ _ G2 b Hu Hns) as [-> _]; [|done]. unfold in_pages, PGSIZE. lia.
    + rewrite page_at_S. by apply Hws.
Qed.

Lemma map_loop_run D n : ∀ s b Perm,
  loading D s → range_ok b n → b + PGSIZE * Z.of_nat n <= USERTOP → 0 <= Perm < 4096 →
  (∀ k, (k < n)%nat → blank s (page_at b k)) → (2 * n <= length (PfnFreeList s))%nat →
  ∃ s' fs, map_segment_loop n D b (b + PGSIZE * Z.of_nat n) Perm STATUS_SUCCESS s = Ok (STATUS_SUCCESS, s') ∧
    length fs = n ∧ pages_mapped D s s' b fs.
Proof.
  induction n as [|n IH]; intros s b Perm Hld Hrg Htop HP Hb Hlen.
  { exists s, []. split; [|split; [done|]].
    - cbn [map_segment_loop]. change (PGSIZE * Z.of_nat 0) with 0. rewrite Z.add_0_r, Z.ltb_irrefl. done.
    - split; [by apply grown_refl|by apply NoDup_nil|done]. }
  destruct (user_page b (S n) 0 Hrg Htop ltac:(lia)) as (Hu & Huser & Hns). rewrite page_at_0 in *.
  destruct (PfnFreeList s) as [|f l] eqn:Hl; [simpl in Hlen; lia|].
  assert (blank s b) as Hb0 by (rewrite <- (page_at_0 b); apply Hb; lia).
  destruct (map_page_step D s b f l Perm Hld Hu Huser Hb0 Hl) as (s0 & s1 & R1 & R2 & G1 & Hw);
    [rewrite Hl; lia|done|].
  pose proof (gr_count _ _ _ _ _ _ G1) as Hc. rewrite Hl in Hc.
  destruct (range_ok_S _ _ Hrg) as [_ Hrg']. destruct (IH s1 (b + PGSIZE) Perm) as (s2 & fs & R3 & <- & Hpm);
    try done.
  - apply (gr_loading _ _ _ _ _ _ G1).
  - unfold PGSIZE in *. lia.
  - intros k Hk. destruct (user_page b (S n) (S k) Hrg Htop ltac:(lia)) as (Huk & _ & Hnk).
    rewrite page_at_S in Huk, Hnk. destruct (gr_other _ _ _ _ _ _ G1 _ Huk Hnk) as [_ Hbk].
    + by apply (page_at_PPN b n).
    + apply Hbk. rewrite <- page_at_S. apply Hb. lia.
  - lia.
  - exists s2, (f :: fs). split; [|split; [done|by apply (pages_mapped_S D s s1)]].
    cbn [map_segment_loop]. destruct (Z.ltb_spec b (b + PGSIZE * Z.of_nat (S (length fs)))) as [_|H];
      [|unfold PGSIZE in H; lia]. cbn [negb].
    rewrite (bind_Ok _ _ _ _ _ R1). change (negb (K_SUCCESS STATUS_SUCCESS)) with false.
    cbn [when]. rewrite bind_ret, (bind_Ok _ _ _ _ _ R2).
    change (negb (K_SUCCESS STATUS_SUCCESS)) with false. cbn [when]. rewrite bind_ret.
    rewrite u32_small by (change USERTOP with 0x7FC00000 in Htop; unfold range_ok, PGSIZE in *; lia).
    replace (b + PGSIZE * Z.of_nat (S (length fs))) with (b + PGSIZE + PGSIZE * Z.of_nat (length fs))
      by (unfold PGSIZE; lia). exact R3.
Qed.

(** ** Bytes of memory *)

Definition byte_of (s : mm) (f off : Z) : Z := get_byte (off mod 4) (phys s (word_of f (off / 4))).

(** The byte the processor reads at a virtual address. *)
Definition mem_at (s : mm) (va : addr) : option Z :=
  match walk s va with Some f => Some (byte_of s f (PGOFF va)) | None => None end.

Lemma set_byte_get j k b w :
  0 <= j < 4 → 0 <= k < 4 → 0 <= b < 256 →
  get_byte j (set_byte k b w) = if j =? k then b else get_byte j w.
Proof.
  intros Hj Hk Hb. unfold set_byte, get_byte.
  assert (j = 0 ∨ j = 1 ∨ j = 2 ∨ j = 3) as Cj by lia. assert (k = 0 ∨ k = 1 ∨ k = 2 ∨ k = 3) as Ck by lia.
  destruct Cj as [->|[->|[->| ->]]], Ck as [->|[->|[->| ->]]]; cbn; Z.div_mod_to_equations; lia.
Qed.

(** Writing data frames moves no page. *)
Record stored (s s' : mm) : Prop := {
  so_cr3 : cr3 s' = cr3 s;
  so_free : PfnFreeList s' = PfnFreeList s;
  so_db : PfnDataBase s' = PfnDataBase s;
  so_pd : ∀ i, 0 <= i < 1024 → pd s' i = pd s i;
  so_pte : ∀ va, Valid (pde_of s va) = true → pte_of s' va = pte_of s va;
  so_table : ∀ h, not_table s h → not_table s' h }.

Lemma stored_refl s : stored s s.
Proof. by split. Qed.

Lemma stored_pde s s' va : stored s s' → pde_of s' va = pde_of s va.
Proof. intros H. rewrite !pde_of_pd. apply (so_pd _ _ H), PDX_range. Qed.

Lemma stored_walk s s' va : stored s s' → walk s' va = walk s va.
Proof. intros H. apply walk_entries; [by apply stored_pde|by apply so_pte]. Qed.

Lemma stored_trans s s1 s2 : stored s s1 → stored s1 s2 → stored s s2.
Proof.
  intros H1 H2. pose proof H1 as [C1 F1 E1 P1 W1 T1]. pose proof H2 as [C2 F2 E2 P2 W2 T2].
  split; [congruence..| | |auto].
  - intros i Hi. by rewrite P2, P1.
  - intros va Hv. rewrite W2, W1; [done|done|]. by rewrite (stored_pde s s1).
Qed.

Lemma stored_loading D s s' : stored s s' → loading D s → loading D s'.
Proof.
  intros H [Hi (D1 & D2 & D3 & D4 & D5) Hh Hs Hf]. pose proof H as [C F E P _ T].
  assert (∀ va, walk s' va = walk s va) as W by (intros va; by apply stored_walk).
  split; [| |done|done|].
  - apply (mm_inv_same s); try done. destruct (mi_paging s Hi) as [Sv Sf Hd].
    assert (0 <= self_index < 1024) by (unfold self_index; lia).
    split; [by rewrite P|by rewrite P, C|]. intros i j Hir Hjr. rewrite !P by done. auto.
  - split; [done|]. split; [done|]. split; [done|]. split; [|by rewrite W, C].
    rewrite pde_of_pd, P by apply PDX_range. done.
  - intros f. rewrite F. intros [? ?]%Hf. auto.
Qed.

Lemma word_stored s f w v :
  not_table s f → 0 <= w < 1024 → stored s (set_phys (upd_word (word_of f w) v (phys s)) s).
Proof.
  intros [Hd Ht] Hw. set (s' := set_phys _ s).
  assert (∀ h i, 0 <= i < 1024 → h ≠ f → phys s' (word_of h i) = phys s (word_of h i)) as Hk.
  { intros h i Hi Hh. unfold s', upd_word. cbn [set_phys phys].
    destruct (Z.eqb_spec (word_of h i) (word_of f w)) as [E|]; [|done]. by apply word_of_inj in E as [? _]. }
  assert (∀ i, 0 <= i < 1024 → pd s' i = pd s i) as Hpd by (intros i Hi; by apply Hk).
  split; [done|done|done|done|..].
  - intros va Hv.
    unfold pte_of, pte_word. rewrite (pde_of_pd s'), Hpd, <- (pde_of_pd s) by apply PDX_range.
    apply Hk; [apply PTX_range|]. rewrite pde_of_pd in *. by apply Ht; [apply PDX_range|].
  - intros h [H1 H2]. split; [done|]. intros i Hi. rewrite Hpd by done. auto.
Qed.

Lemma store_byte_run s va b f :
  is_u32 va → walk s va = Some f → not_table s f → 0 <= b < 256 →
  ∃ s', store_byte va b s = Ok (tt, s') ∧ stored s s' ∧
    (∀ g i, 0 <= i < 1024 → g ≠ f → phys s' (word_of g i) = phys s (word_of g i)) ∧
    ∀ g off, 0 <= off < 4096 →
      byte_of s' g off = if (g =? f) && (off =? PGOFF va) then b else byte_of s g off.
Proof.
  intros Hu Hw Hnt Hb. set (w := word_of f (PGOFF va / 4)).
  assert (0 <= PGOFF va < 4096) as Hpr by (rewrite PGOFF_mod; by apply Z.mod_pos_bound).
  assert (va_word s (va - va mod 4) = Some w) as Hvw.
  { unfold va_word. rewrite (walk_same_page s _ va), Hw; [|Z.div_mod_to_equations; lia|done|page_arith].
    unfold w. do 2 f_equal. page_arith. }
  assert (va mod 4 = PGOFF va mod 4) as Hm by page_arith.
  set (s' := set_phys (upd_word w (set_byte (va mod 4) (u8 b) (phys s w)) (phys s)) s).
  exists s'. split; [|split; [|split]].
  - unfold store_byte. rewrite (bind_Ok _ _ _ _ _ (read_run s _ w Hvw)). by apply write_run.
  - apply word_stored; [done|]. Z.div_mod_to_equations; lia.
  - intros g i Hi Hg. unfold s', upd_word. cbn [set_phys phys].
    destruct (Z.eqb_spec (word_of g i) w) as [E|]; [|done]. apply word_of_inj in E as [? _]; [done|done|].
    Z.div_mod_to_equations; lia.
  - intros g off Hoff. unfold byte_of, s', upd_word. cbn [set_phys phys].
    assert (u8 b = b) as -> by (apply Z.mod_small; lia).
    destruct (Z.eqb_spec (word_of g (off / 4)) w) as [E|Hne].
    + apply word_of_inj in E as [-> Ew]; [|Z.div_mod_to_equations; lia..].
      rewrite Hm, set_byte_get; [|Z.div_mod_to_equations; lia..|done]. rewrite Z.eqb_refl. cbn [andb].
      destruct (Z.eqb_spec (off mod 4) (PGOFF va mod 4)), (Z.eqb_spec off (PGOFF va)); subst; try done;
        [exfalso; Z.div_mod_to_equations; lia|]. fold w. by rewrite Ew.
    + destruct (Z.eqb_spec g f) as [->|], (Z.eqb_spec off (PGOFF va)) as [->|]; done.
Qed.

(** *** memcpy to mapped pages *)

Lemma byte_at_run Binary i b : 0 <= i → Binary !! Z.to_nat i = Some b → byte_at Binary i = Ok b.
Proof. intros Hi Hb. unfold byte_at. destruct (Z.ltb_spec i 0); [lia|]. by rewrite Hb. Qed.

(** The address [va] is data of frame [f]. *)
Definition data_at (s : mm) (va : addr) (f : Z) : Prop := walk s va = Some f ∧ not_table s f.

(** [n] bytes are copied to addresses that are not two names of one place. *)
Lemma copy_loop_run Binary n : ∀ s va i,
  0 <= va → va + Z.of_nat n < 2 ^ 32 → 0 <= i → (Z.to_nat i + n <= length Binary)%nat →
  Forall (λ b, 0 <= b < 256) Binary →
  (∀ k, 0 <= k < Z.of_nat n → ∃ f, data_at s (va + k) f) →
  (∀ j k f, 0 <= j < Z.of_nat n → 0 <= k < Z.of_nat n → walk s (va + j) = Some f → walk s (va + k) = Some f →
     PGOFF (va + j) = PGOFF (va + k) → j = k) →
  ∃ s', copy_loop n va Binary i s = Ok (tt, s') ∧ stored s s' ∧
    (∀ g i, 0 <= i < 1024 → (∀ k, 0 <= k < Z.of_nat n → walk s (va + k) ≠ Some g) →
       phys s' (word_of g i) = phys s (word_of g i)) ∧
    (∀ k, 0 <= k < Z.of_nat n → mem_at s' (va + k) = Binary !! Z.to_nat (i + k)) ∧
    (∀ g off, 0 <= off < 4096 →
       (∀ k, 0 <= k < Z.of_nat n → walk s (va + k) = Some g → off ≠ PGOFF (va + k)) →
       byte_of s' g off = byte_of s g off).
Proof.
  induction n as [|n IH]; intros s va i Hva Hend Hi Hlen HB Hd Hinj.
  { exists s. split; [done|]. split; [apply stored_refl|]. split; [done|]. split; [intros k; lia|done]. }
  destruct (lookup_lt_is_Some_2 Binary (Z.to_nat i)) as [b Hb]; [lia|].
  assert (0 <= b < 256) as Hbr by (by eapply (Forall_lookup_1 _ _ _ _ HB)).
  destruct (Hd 0) as (f & Hw & Hnt); [lia|]. rewrite Z.add_0_r in Hw.
  destruct (store_byte_run s va b f) as (s1 & R1 & S1 & P1 & B1); [lia|done..|].
  pose proof (λ va, stored_walk _ _ va S1) as W1. pose proof (so_table _ _ S1) as T1.
  destruct (IH s1 (va + 1) (i + 1)) as (s2 & R2 & S2 & P2 & M2 & O2); try lia; try done.
  { intros k Hk. destruct (Hd (k + 1)) as (g & Hg & Hn); [lia|]. exists g.
    replace (va + 1 + k) with (va + (k + 1)) by lia. split; [by rewrite W1|auto]. }
  { intros j k g Hj Hk. rewrite !W1. replace (va + 1 + j) with (va + (j + 1)) by lia.
    replace (va + 1 + k) with (va + (k + 1)) by lia. intros H1 H2 H3.
    pose proof (Hinj (j + 1) (k + 1) g ltac:(lia) ltac:(lia) H1 H2 H3). lia. }
  assert (∀ va', 0 <= PGOFF va' < 4096) as Hpr by (intros va'; rewrite PGOFF_mod; by apply Z.mod_pos_bound).
  exists s2. split; [|split; [by eapply stored_trans|split; [|split]]].
  - cbn [copy_loop]. rewrite (bind_Ok _ _ _ b s) by (unfold lift; by rewrite (byte_at_run _ _ b)).
    rewrite (bind_Ok _ _ _ _ _ R1). rewrite u32_small by lia. exact R2.
  - intros g j Hj Hno. rewrite P2, P1; [done|done| |done|].
    + intros ->. apply (Hno 0); [lia|]. by rewrite Z.add_0_r.
    + intros k Hk. rewrite W1. replace (va + 1 + k) with (va + (k + 1)) by lia. apply Hno. lia.
  - intros k Hk. destruct (decide (k = 0)) as [->|Hk0].
    + rewrite !Z.add_0_r, Hb. unfold mem_at. rewrite (stored_walk s1 s2) by done. rewrite W1, Hw. f_equal.
      rewrite O2, B1; [by rewrite !Z.eqb_refl|done|done|]. intros k' Hk'. rewrite W1. intros Hw' E.
      pose proof (Hinj 0 (k' + 1) f) as H. rewrite !Z.add_0_r in H.
      replace (va + (k' + 1)) with (va + 1 + k') in H by lia. specialize (H ltac:(lia) ltac:(lia) Hw Hw' E). lia.
    + specialize (M2 (k - 1) ltac:(lia)). replace (va + 1 + (k - 1)) with (va + k) in M2 by lia.
      rewrite M2. f_equal. lia.
  - intros g off Hoff Hno. rewrite O2, B1; [|done|done|].
    + destruct (Z.eqb_spec g f) as [->|], (Z.eqb_spec off (PGOFF va)); try done.
      exfalso. apply (Hno 0); rewrite ?Z.add_0_r; [lia|done..].
    + intros k Hk. rewrite W1. replace (va + 1 + k) with (va + (k + 1)) by lia. apply Hno. lia.
Qed.

(** ** One segment *)

Definition seg_start (h : Proghdr) : addr := ROUNDDOWN (p_va h) PGSIZE.
Definition seg_count (h : Proghdr) : nat :=
  Z.to_nat ((ROUNDUP (u32 (p_va h + p_memsz h)) PGSIZE - seg_start h) / PGSIZE).
Definition seg_pages (h : Proghdr) : addr → Prop := in_pages (seg_start h) (seg_count h).

(** The segment is in the binary and in the user's part of memory, at an address
    not below its size. *)
Record good_segment (Binary : list Z) (h : Proghdr) : Prop := {
  gs_offset : 0 <= p_offset h;
  gs_sizes : 0 <= p_filesz h <= p_memsz h;
  gs_file : p_offset h + p_filesz h <= Z.of_nat (length Binary);
  gs_user : 0 <= p_va h ∧ p_va h + p_memsz h <= USERTOP;
  gs_above : p_memsz h <= p_va h + p_filesz h }.

Lemma seg_range Binary h :
  good_segment Binary h →
  range_ok (seg_start h) (seg_count h) ∧
  seg_start h + PGSIZE * Z.of_nat (seg_count h) = ROUNDUP (u32 (p_va h + p_memsz h)) PGSIZE ∧
  seg_start h + PGSIZE * Z.of_nat (seg_count h) <= USERTOP ∧
  ∀ k, 0 <= k < p_memsz h → seg_pages h (p_va h + k).
Proof.
  intros [_ Hsz _ [H0 Htop] _]. unfold seg_pages, in_pages, range_ok, seg_count, seg_start.
  change USERTOP with 0x7FC00000 in *.
  rewrite (u32_small (p_va h + p_memsz h)) by lia.
  assert (ROUNDDOWN (p_va h) PGSIZE = p_va h - p_va h mod 4096) as -> by (unfold ROUNDDOWN, PGSIZE; by rewrite u32_small by lia).
  assert (ROUNDUP (p_va h + p_memsz h) PGSIZE
    = (p_va h + p_memsz h + 4095) - (p_va h + p_memsz h + 4095) mod 4096) as ->.
  { unfold ROUNDUP, ROUNDDOWN, PGSIZE. rewrite u32_u32.
    rewrite (u32_small (p_va h + p_memsz h)), (u32_small 4096), u32_small by lia.
    f_equal; [lia|]. f_equal. lia. }
  unfold PGSIZE. generalize dependent (p_va h). generalize dependent (p_memsz h). generalize (p_filesz h).
  intros z m Hz v Hv Ht.
  assert (0 <= v + m + 4095 - (v + m + 4095) mod 4096 - (v - v mod 4096)) by (Z.div_mod_to_equations; lia).
  rewrite Z2Nat.id by (apply Z.div_pos; lia).
  assert (4096 * ((v + m + 4095 - (v + m + 4095) mod 4096 - (v - v mod 4096)) / 4096)
    = v + m + 4095 - (v + m + 4095) mod 4096 - (v - v mod 4096)) as -> by (Z.div_mod_to_equations; lia).
  split; [split; [|split]|split; [|split]]; Z.div_mod_to_equations; lia.
Qed.

(** An address of a mapped page is data of one of the new frames. *)
Lemma pages_data D s s' b fs va :
  loading D s → pages_mapped D s s' b fs → range_ok b (length fs) →
  b + PGSIZE * Z.of_nat (length fs) <= USERTOP → in_pages b (length fs) va →
  ∃ k f, fs !! k = Some f ∧ PPN va = PPN (page_at b k) ∧ data_at s' va f ∧
    f ∈ PfnFreeList s ∧ f ∉ PfnFreeList s'.
Proof.
  intros Hld [G Hnd Hw] Hr Htop Hin. change USERTOP with 0x7FC00000 in Htop.
  set (k := Z.to_nat ((va - b) / 4096)).
  assert (k < length fs)%nat as Hk by (unfold k, in_pages, PGSIZE in *; Z.div_mod_to_equations; lia).
  assert (PPN va = PPN (page_at b k)) as HP.
  { unfold k, page_at, in_pages, range_ok, PGSIZE in *. rewrite Z2Nat.id by (Z.div_mod_to_equations; lia).
    destruct Hr as (H1 & H2 & H3). page_arith. }
  destruct (lookup_lt_is_Some_2 fs k Hk) as [f Hf]. exists k, f. split; [done|]. split; [done|].
  assert (f ∈ fs) as Hfs by by eapply list_elem_of_lookup_2.
  destruct (gr_frames _ _ _ _ _ _ G f Hfs) as [Hf1 Hf2]. split; [|done].
  destruct (gr_kept _ _ _ _ _ _ G f) as [Hnt _].
  { split; [by apply (ld_free D s Hld)|by left]. }
  split; [|done]. rewrite (walk_same_page s' va (page_at b k)); [by apply Hw| | |done].
  - unfold in_pages, range_ok, PGSIZE in *. lia.
  - by apply (page_at_u32 b (length fs)).
Qed.

(** What the loader does for one segment: the bytes of the file are at the
    address of the segment, and the rest of it is what the frames held. *)
Record seg_loaded (D : addr) (Binary : list Z) (h : Proghdr) (s s' : mm) : Prop := {
  sl_grown : grown D (2 * seg_count h) s s' [] (seg_pages h);
  sl_data : ∀ va, seg_pages h va → ∃ f, data_at s' va f ∧ f ∉ PfnFreeList s';
  sl_file : ∀ k, 0 <= k < p_filesz h → mem_at s' (p_va h + k) = Binary !! Z.to_nat (p_offset h + k);
  sl_rest : ∀ k, p_filesz h <= k < p_memsz h →
    ∃ f, f ∈ PfnFreeList s ∧ mem_at s' (p_va h + k) = Some (byte_of s f (PGOFF (p_va h + k))) }.

Lemma bss_loop_nothing n i m s : m <= i → bss_loop n i m s = Ok (tt, s).
Proof. intros H. destruct n; cbn [bss_loop]; by destruct (Z.ltb_spec i m); [lia|]. Qed.

Lemma map_segment_run D Binary h s :
  loading D s → good_segment Binary h → (∀ va, seg_pages h va → blank s va) →
  (2 * seg_count h <= length (PfnFreeList s))%nat →
  ∃ s' fs, MmMapSegment D (p_va h) (p_memsz h) (Z.lor PTE_W PTE_U) s = Ok (STATUS_SUCCESS, s') ∧
    length fs = seg_count h ∧ pages_mapped D s s' (seg_start h) fs.
Proof.
  intros Hld Hg Hb Hlen. destruct (seg_range Binary h Hg) as (Hr & He & Htop & _).
  destruct (map_loop_run D (seg_count h) s (seg_start h) (Z.lor PTE_W PTE_U)) as (s' & fs & R & Hfs & Hpm);
    try done.
  { intros k Hk. apply Hb. unfold seg_pages, in_pages, page_at, PGSIZE. lia. }
  exists s', fs. split; [|done]. unfold MmMapSegment. cbv zeta. fold (seg_start h). rewrite <- He.
  replace ((seg_start h + PGSIZE * Z.of_nat (seg_count h) - seg_start h) / PGSIZE)
    with (Z.of_nat (seg_count h)).
  - by rewrite Nat2Z.id.
  - rewrite Z.add_simpl_l, Z.mul_comm, Z.div_mul by done. done.
Qed.

(** Two addresses of new pages are not two names of one place. *)
Lemma pages_inj D s s' b fs va va' f :
  loading D s → pages_mapped D s s' b fs → range_ok b (length fs) →
  b + PGSIZE * Z.of_nat (length fs) <= USERTOP → in_pages b (length fs) va → in_pages b (length fs) va' →
  walk s' va = Some f → walk s' va' = Some f → PGOFF va = PGOFF va' → va = va'.
Proof.
  intros Hld Hpm Hr Htop H1 H2 W1 W2 E. pose proof (pm_nodup _ _ _ _ _ Hpm) as Hnd.
  destruct (pages_data D s s' b fs va) as (k & g & Hk & HP & [Wg _] & _); [done..|].
  destruct (pages_data D s s' b fs va') as (k' & g' & Hk' & HP' & [Wg' _] & _); [done..|].
  assert (g = f) as -> by congruence. assert (g' = f) as -> by congruence.
  assert (k = k') as <- by (by eapply NoDup_lookup).
  rewrite <- HP' in HP. rewrite !PPN_div in HP. rewrite !PGOFF_mod in E. Z.div_mod_to_equations; lia.
Qed.

Lemma load_segment_run D Binary h s :
  loading D s → good_segment Binary h → Forall (λ b, 0 <= b < 256) Binary →
  (∀ va, seg_pages h va → blank s va) → (2 * seg_count h <= length (PfnFreeList s))%nat →
  ∃ s', load_segment D Binary h s = Ok (tt, s') ∧ seg_loaded D Binary h s s'.
Proof.
  intros Hld Hg HB Hb Hlen. destruct (map_segment_run D Binary h s Hld Hg Hb Hlen) as (s1 & fs & R1 & Hfs & Hpm).
  destruct (seg_range Binary h Hg) as (Hr & _ & Htop & Hin). rewrite <- Hfs in Hr, Htop.
  unfold seg_pages in *. rewrite <- Hfs in Hin.
  pose proof Hg as [Ho Hsz Hfile [H0 Hend] Habove]. change USERTOP with 0x7FC00000 in Hend.
  pose proof (pages_data D s s1 (seg_start h) fs) as Hdata. pose proof (pm_grown _ _ _ _ _ Hpm) as G.
  destruct (copy_loop_run Binary (Z.to_nat (p_filesz h)) s1 (p_va h) (p_offset h)) as (s2 & R2 & S2 & P2 & M2 & O2);
    rewrite ?Z2Nat.id by lia; try lia; try done.
  { intros k Hk. destruct (Hdata (p_va h + k)) as (_ & f & _ & _ & Hd & _); [done..|apply Hin; lia|by exists f]. }
  { intros j k f Hj Hk W1 W2 E.
    enough (p_va h + j = p_va h + k) by lia.
    apply (pages_inj D s s1 (seg_start h) fs _ _ f); try done; apply Hin; lia. }
  rewrite Z2Nat.id in P2, M2, O2 by lia.
  exists s2. split.
  { unfold load_segment. rewrite (bind_Ok _ _ _ _ _ R1). destruct (Z.ltb_spec (p_memsz h) (p_filesz h)); [lia|].
    rewrite (bind_Ok _ _ _ _ _ R2). cbv zeta. rewrite u32_small by lia. by apply bss_loop_nothing. }
  assert (∀ va, 0 <= PGOFF va / 4 < 1024 ∧ 0 <= PGOFF va < 4096) as Hpg.
  { intros va. rewrite PGOFF_mod. Z.div_mod_to_equations; lia. }
  pose proof G as [G1 G2 G3 G4 G5 G6].
  split; [unfold seg_pages; rewrite <- Hfs; split|..].
  - by apply (stored_loading D s1).
  - by rewrite (so_free _ _ S2).
  - by rewrite (so_free _ _ S2).
  - set_solver.
  - intros va' Hu' Hs' Hne. destruct (G5 va' Hu' Hs' Hne) as [E1 E2].
    split; [by rewrite (stored_walk s1 s2)|]. intros Hbl Hv. rewrite (stored_pde s1 s2) in Hv by done.
    rewrite (so_pte _ _ S2) by done. by apply E2.
  - intros f [Hn Hk]. rewrite (so_free _ _ S2) in Hk.
    destruct (G6 f) as [Hn1 Hd1]; [split; [done|by right; destruct Hk as [Hk%not_elem_of_nil|Hk]]|].
    split; [by apply (so_table _ _ S2)|]. intros i Hi. rewrite <- Hd1 by done. apply P2; [done|].
    intros k Hkr Hw. destruct (Hdata (p_va h + k)) as (_ & f' & _ & _ & [Hw' _] & Hf1 & Hf2); [done..|apply Hin; lia|].
    rewrite Hw in Hw'. injection Hw' as <-. by destruct Hk as [Hk%not_elem_of_nil|[Hk|Hk]].
  - intros va Hva. unfold seg_pages in Hva. rewrite <- Hfs in Hva.
    destruct (Hdata va) as (_ & f & _ & _ & [Hw Hn] & _ & Hf); [done..|].
    exists f. split; [split; [by rewrite (stored_walk s1 s2)|by apply (so_table _ _ S2)]|by rewrite (so_free _ _ S2)].
  - done.
  - intros k Hk. destruct (Hdata (p_va h + k)) as (k' & f & Hf & _ & [Hw Hn] & Hf1 & Hf2); [done..|apply Hin; lia|].
    exists f. split; [done|]. unfold mem_at. rewrite (stored_walk s1 s2), Hw by done. f_equal.
    destruct (Hpg (p_va h + k)) as [Hpg1 Hpg2]. rewrite O2; [|done|].
    + unfold byte_of. f_equal. apply G6; [|done].
      split; [by apply (ld_free D s Hld)|]. left. by eapply list_elem_of_lookup_2.
    + intros j Hj Hw' E. enough (p_va h + k = p_va h + j) by lia.
      apply (pages_inj D s s1 (seg_start h) fs _ _ f); try done; apply Hin; lia.
Qed.

(** ** All the segments *)

(** What is in memory stays there while other segments are loaded. *)
Lemma grown_mem D n s s' P va f :
  grown D n s s' [] P → is_u32 va → PDX va ≠ self_index → ¬ P va → data_at s va f → f ∉ PfnFreeList s →
  mem_at s' va = mem_at s va ∧ data_at s' va f ∧ f ∉ PfnFreeList s'.
Proof.
  intros G Hu Hs HP [Hw Hn] Hf. destruct (gr_other _ _ _ _ _ _ G va Hu Hs HP) as [E _].
  destruct (gr_kept _ _ _ _ _ _ G f) as [Hn' Hd]; [split; [done|by right; right]|].
  unfold mem_at, data_at. rewrite E, Hw. split; [|split; [done|]].
  - unfold byte_of. rewrite Hd; [done|]. rewrite PGOFF_mod. Z.div_mod_to_equations; lia.
  - intros Hin. apply Hf. destruct (gr_free _ _ _ _ _ _ G) as [l ->]. set_solver.
Qed.

Definition total_pages (hs : list Proghdr) : nat := sum_list_with seg_count hs.

(** The pages of the segments are apart from each other. *)
Fixpoint apart (hs : list Proghdr) : Prop :=
  match hs with
  | [] => True
  | h :: hs' => Forall (λ h', ∀ va, seg_pages h va → ¬ seg_pages h' va) hs' ∧ apart hs'
  end.

(** The program headers from offset [off] of the binary. *)
Definition headers_at (Binary : list Z) (off : Z) (hs : list Proghdr) : Prop :=
  ∀ i h, hs !! i = Some h → read_Proghdr Binary (off + sizeof_Proghdr * Z.of_nat i) tt = Ok (h, tt).

Definition file_part (Binary : list Z) (h : Proghdr) (s : mm) : Prop :=
  ∀ k, 0 <= k < p_filesz h → mem_at s (p_va h + k) = Binary !! Z.to_nat (p_offset h + k).

(** The rest of a segment holds what frames of the free list held in [s]. *)
Definition stale_part (s : mm) (h : Proghdr) (s' : mm) : Prop :=
  ∀ k, p_filesz h <= k < p_memsz h →
    ∃ f, f ∈ PfnFreeList s ∧ mem_at s' (p_va h + k) = Some (byte_of s f (PGOFF (p_va h + k))).

Lemma headers_any Binary off h (s : mm) :
  read_Proghdr Binary off tt = Ok (h, tt) → read_Proghdr Binary off s = Ok (h, s).
Proof.
  unfold read_Proghdr, ULONG_at, bind, lift.
  repeat match goal with |- context [le ?n ?b ?i] => destruct (le n b i); [|done] end.
  unfold ret. intros H. injection H as <-. done.
Qed.

Lemma seg_user Binary h va : good_segment Binary h → seg_pages h va → is_u32 va ∧ PDX va ≠ self_index.
Proof.
  intros Hg Hva. destruct (seg_range Binary h Hg) as ((H1 & _) & _ & H2 & _).
  change USERTOP with 0x7FC00000 in H2. unfold seg_pages, in_pages in Hva.
  assert (is_u32 va) as Hu by lia. split; [done|].
  pose proof (user_PDX va Hu ltac:(apply Z.ltb_lt; change USERTOP with 0x7FC00000; lia)). unfold self_index. lia.
Qed.

Lemma segment_stays D n Binary h s s1 s2 P :
  good_segment Binary h → seg_loaded D Binary h s s1 → grown D n s1 s2 [] P →
  (∀ va, seg_pages h va → ¬ P va) → file_part Binary h s2 ∧ stale_part s h s2.
Proof.
  intros Hg [_ Hd Hf Hr] G HP. destruct (seg_range Binary h Hg) as (_ & _ & _ & Hin).
  pose proof (gs_sizes _ _ Hg) as Hsz.
  assert (∀ k, 0 <= k < p_memsz h → mem_at s2 (p_va h + k) = mem_at s1 (p_va h + k)) as Hm.
  { intros k Hk. specialize (Hin k Hk). destruct (seg_user Binary h _ Hg Hin) as [Hu Hs].
    destruct (Hd _ Hin) as (f & Hda & Hfr).
    by destruct (grown_mem D n s1 s2 P _ f G Hu Hs (HP _ Hin) Hda Hfr) as [-> _]. }
  split; intros k Hk; rewrite Hm by lia; auto.
Qed.

Lemma stale_part_grown D n s s1 s2 P h :
  grown D n s s1 [] P → loading D s → stale_part s1 h s2 → stale_part s h s2.
Proof.
  intros G Hld Hs k Hk. destruct (Hs k Hk) as (f & Hf & E).
  assert (f ∈ PfnFreeList s) as Hf' by (destruct (gr_free _ _ _ _ _ _ G) as [l ->]; set_solver).
  exists f. split; [done|]. rewrite E. f_equal.
  destruct (gr_kept _ _ _ _ _ _ G f) as [_ Hd]; [split; [by apply (ld_free D s Hld)|by right; left]|].
  unfold byte_of. rewrite Hd; [done|]. rewrite PGOFF_mod. Z.div_mod_to_equations; lia.
Qed.

Lemma segments_loop_run D Binary hs : ∀ s ph,
  loading D s → Forall (good_segment Binary) hs → apart hs → Forall (λ b, 0 <= b < 256) Binary →
  headers_at Binary ph hs → (∀ h va, h ∈ hs → seg_pages h va → blank s va) →
  (2 * total_pages hs <= length (PfnFreeList s))%nat →
  ∃ s', segments_loop (length hs) D Binary ph s = Ok (tt, s') ∧
    grown D (2 * total_pages hs) s s' [] (λ va, ∃ h, h ∈ hs ∧ seg_pages h va) ∧
    Forall (λ h, file_part Binary h s' ∧ stale_part s h s') hs.
Proof.
  induction hs as [|h hs IH]; intros s ph Hld Hgs Hap HB Hh Hb Hlen.
  { exists s. split; [done|]. split; [by apply grown_refl|done]. }
  apply Forall_cons in Hgs as [Hg Hgs]. destruct Hap as [Hah Hap].
  cbn [total_pages sum_list_with] in *. fold (total_pages hs) in *.
  destruct (load_segment_run D Binary h s Hld Hg HB) as (s1 & R1 & Hl1);
    [intros va; apply Hb; by left|lia|].
  pose proof (sl_grown _ _ _ _ _ Hl1) as G1.
  assert (∀ h' va, h' ∈ hs → seg_pages h' va → is_u32 va ∧ PDX va ≠ self_index) as Huser.
  { intros h' va Hh'. apply (seg_user Binary). by eapply Forall_forall. }
  destruct (IH s1 (ph + sizeof_Proghdr)) as (s2 & R2 & G2 & HF); try done.
  - apply (gr_loading _ _ _ _ _ _ G1).
  - intros i h' Hi. specialize (Hh (S i) h' Hi). rewrite <- Hh. f_equal. lia.
  - intros h' va Hh' Hva. destruct (Huser h' va Hh' Hva) as [Hu Hs].
    apply (gr_other _ _ _ _ _ _ G1 va Hu Hs); [|apply (Hb h' va); [by right|done]].
    intros Hva'. rewrite Forall_forall in Hah. by apply (Hah h' Hh' va).
  - pose proof (gr_count _ _ _ _ _ _ G1). lia.
  - exists s2. split; [|split].
    + cbn [length segments_loop]. specialize (Hh 0%nat h eq_refl). rewrite Z.mul_0_r, Z.add_0_r in Hh.
      rewrite (bind_Ok _ _ _ _ _ (headers_any _ _ _ s Hh)). by rewrite (bind_Ok _ _ _ _ _ R1).
    + replace (2 * (seg_count h + total_pages hs))%nat with (2 * seg_count h + 2 * total_pages hs)%nat by lia.
      eapply grown_weaken; [|exact (grown_trans _ _ _ _ _ _ _ _ _ _ G1 G2)].
      intros va _ _ [Hva|(h' & Hh' & Hva)]; [exists h|exists h']; (split; [|done]); [by left|by right].
    + apply Forall_cons. split.
      * rewrite Forall_forall in Hah. apply (segment_stays D (2 * total_pages hs) Binary h s s1 s2 _ Hg Hl1 G2).
        intros va Hva (h' & Hh' & Hva'). by apply (Hah h' Hh' va).
      * eapply Forall_impl; [exact HF|]. intros h' [Hf' Hs']. split; [done|].
        by apply (stale_part_grown D (2 * seg_count h) s s1 s2 (seg_pages h)).
Qed.

(** ** The theorem *)

Lemma read_Elf_any Binary e (s : mm) : read_Elf Binary tt = Ok (e, tt) → read_Elf Binary s = Ok (e, s).
Proof.
  unfold read_Elf, ULONG_at, USHORT_at, bind, lift.
  repeat match goal with |- context [le ?n ?b ?i] => destruct (le n b i); [|done] end.
  unfold ret. intros H. injection H as <-. done.
Qed.

(** The header is one the loader accepts, with [n] program headers. *)
Definition accepted (e : Elf) (n : nat) : Prop :=
  e_magic e = ELF_MAGIC ∧ e_type e = 2 ∧ e_machine e = 3 ∧ e_version e = 1 ∧
  e_phentsize e = sizeof_Proghdr ∧ e_phnum e = Z.of_nat n ∧ (n <= 1024)%nat.

(** C12: The ELF loader puts a program in memory: for every segment of an accepted
    binary the bytes of the file are at the addresses the segment asks for, the
    entry point is returned, and no other address of the new address space is
    translated in another way.  The part of a segment that is not in the file is
    not cleared: it holds what the frames of the free list held before. *)
Theorem elf_loader_loads D Binary e hs s :
  loading D s → read_Elf Binary tt = Ok (e, tt) → accepted e (length hs) →
  headers_at Binary (e_phoff e) hs → Forall (good_segment Binary) hs → apart hs →
  Forall (λ b, 0 <= b < 256) Binary →
  (∀ h va, h ∈ hs → seg_pages h va → blank s va) →
  (2 * total_pages hs <= length (PfnFreeList s))%nat →
  ∃ s', ELFBinaryLoader D Binary s = Ok ((STATUS_SUCCESS, e_entry e), s') ∧ loading D s' ∧
    Forall (λ h, file_part Binary h s' ∧ stale_part s h s') hs ∧
    ∀ va, is_u32 va → PDX va ≠ self_index → (∀ h, h ∈ hs → ¬ seg_pages h va) → walk s' va = walk s va.
Proof.
  intros Hld He (A1 & A2 & A3 & A4 & A5 & A6 & A7) Hh Hg Ha HB Hb Hlen.
  destruct (segments_loop_run D Binary hs s (e_phoff e)) as (s' & R & G & HF); try done.
  exists s'. split; [|split; [apply (gr_loading _ _ _ _ _ _ G)|split; [done|]]].
  - unfold ELFBinaryLoader. rewrite (bind_Ok _ _ _ _ _ (read_Elf_any _ _ s He)).
    rewrite A1, A2, A3, A4, A5, A6. change (negb (ELF_MAGIC =? ELF_MAGIC)) with false. cbv iota.
    destruct (Z.ltb_spec 1024 (Z.of_nat (length hs))); [lia|].
    change (2 =? 2) with true. change (3 =? 3) with true. change (1 =? 1) with true.
    change (sizeof_Proghdr =? sizeof_Proghdr) with true. cbn [negb orb]. rewrite Nat2Z.id.
    by rewrite (bind_Ok _ _ _ _ _ R).
  - intros va Hu Hs Hno. apply (gr_other _ _ _ _ _ _ G va Hu Hs). intros (h & Hin & Hva). by apply (Hno h).
Qed.

(** *** Witness: a program of four bytes for 0x800010, in the machine of Clone.v *)

Definition demo_header : Proghdr := ProgHeader PT_LOAD 84 0x800010 4 6 5.
Definition demo_elf : Elf := ElfHeader ELF_MAGIC 2 3 1 0x800010 52 32 1.
Definition demo_binary : list Z :=
  [127; 69; 76; 70; 1; 1; 1; 0; 0; 0; 0; 0; 0; 0; 0; 0] ++        (* e_ident *)
  [2; 0; 3; 0; 1; 0; 0; 0] ++ [16; 0; 128; 0] ++ [52; 0; 0; 0] ++  (* type .. phoff *)
  [0; 0; 0; 0; 0; 0; 0; 0; 52; 0; 32; 0; 1; 0; 0; 0; 0; 0; 0; 0] ++
  [1; 0; 0; 0; 84; 0; 0; 0; 16; 0; 128; 0; 16; 0; 128; 0; 4; 0; 0; 0; 6; 0; 0; 0; 5; 0; 0; 0; 0; 16; 0; 0] ++
  [144; 144; 205; 48].

Lemma demo_loading : loading MMPAGEPOOL_START demo_clone_mm.
Proof.
  split; [apply demo_clone_inv| |done|done|].
  - split; [done|]. split; [done|]. split; [done|]. split; [done|].
    rewrite demo_clone_walk by done. reflexivity.
  - intros g. cbn [demo_clone_mm PfnFreeList]. rewrite !elem_of_cons, elem_of_nil.
    intros [->|[->|[->|[]]]]; (split; [done|]); apply demo_clone_not_table; by apply (bool_decide_unpack _); vm_compute.
Qed.

Lemma demo_segment_pages va : seg_pages demo_header va → 0x800000 <= va < 0x801000.
Proof. unfold seg_pages, in_pages. change (seg_start demo_header) with 0x800000. change (seg_count demo_header) with 1%nat. unfold PGSIZE. lia. Qed.

Lemma elf_loader_loads_witness :
  ∃ s', ELFBinaryLoader MMPAGEPOOL_START demo_binary demo_clone_mm = Ok ((STATUS_SUCCESS, 0x800010), s') ∧
    mem_at s' 0x800012 = Some 205 ∧ walk s' 0x4000000 = Some 9.
Proof.
  destruct (elf_loader_loads MMPAGEPOOL_START demo_binary demo_elf [demo_header] demo_clone_mm) as (s' & R & _ & HF & Hw).
  - apply demo_loading.
  - reflexivity.
  - split_and!; (done || (cbn; lia)).
  - intros [|i] h Hi; [|by destruct i]. injection Hi as <-. reflexivity.
  - apply Forall_cons. split; [|done]. split; cbn; (done || lia).
  - split; done.
  - by apply (bool_decide_unpack _); vm_compute.
  - intros h va ->%list_elem_of_singleton Hva%demo_segment_pages Hv. exfalso.
    rewrite pde_of_pd, demo_clone_pd in Hv by apply PDX_range.
    assert (PDX va = 2) as E by page_arith. rewrite E in Hv. discriminate Hv.
  - change (total_pages [demo_header]) with 1%nat. cbn. lia.
  - exists s'. split; [exact R|]. split.
    + apply Forall_cons in HF as [[Hf _] _]. apply (Hf 2). cbn. lia.
    + assert (walk demo_clone_mm 0x4000000 = Some 9) as <- by (rewrite demo_clone_walk by done; vm_compute; reflexivity).
      clear R HF. apply Hw; [lia|vm_compute; discriminate|]. intros h Hh Hva. apply list_elem_of_singleton in Hh. subst h.
      apply demo_segment_pages in Hva. lia.
Defined.
