(* ===== verification/Ps.v ===== *)
(** * Ps: processes and threads (kern/ps/process.h, process.c, thread.c, and
    KiCreateThreadContext of kern/ke/scheduler.c)

    A process or thread object has its header in Ob.v, the fields the scheduler
    uses (the KPROCESS and KTHREAD) in Sched.v, its dispatcher header there too,
    its spin lock among those of the processor, and the rest here, all under
    the address of the object.  The routines run on the whole kernel: the
    object manager around the I/O manager around this state around [machine].

    The handle table PidTable is one of the tables of Ob.v.  Local variables
    that the code does not initialise are parameters. *)

From Stdlib Require Import String.
From S2P Require Import Prelude Types Str Stdio Bitmap Irql X86 Sched Pool Paging Vmm Ob ObName Io Machine Loader.
#[local] Open Scope list_scope.

(** ** Data *)

Inductive PROCESS_STATE := PROCESS_STATE_IDLE | PROCESS_STATE_ACTIVE | PROCESS_STATE_CREATION | PROCESS_STATE_TERMINATED.

#[export] Instance process_state_eq_dec : EqDecision PROCESS_STATE.
Proof. solve_decision. Defined.

Inductive KPROCESSOR_MODE := KernelMode | UserMode | MaximumMode.

Definition PROCESS_PRIORITY_NORMAL : Z := 3.
Definition DEFAULT_PROCESS_QUANTUM : Z := 3.
Definition THREAD_USER_STACK_SIZE : Z := 3.
Definition MAX_NAME_LENGTH : Z := 64.
Definition OBJECT_TYPE_PROCESS : Z := 1.
Definition OBJECT_TYPE_THREAD : Z := 2.

Definition PROCESS_FLAG_ALLOCATED : Z := 0x01.
Definition PROCESS_FLAG_INSERTED : Z := 0x02.
Definition PROCESS_FLAG_FIRST_THREAD_CREATED : Z := 0x04.
Definition PROCESS_FLAG_CLEANUP_MASK : Z := 0x0f.
Definition THREAD_FLAG_ALLOCATED : Z := 0x01.
Definition THREAD_FLAG_INSERTED : Z := 0x02.
Definition THREAD_FLAG_CONTEXT_CREATED : Z := 0x04.
Definition THREAD_FLAG_EXEC_STATE_MASK : Z := 0x0f.

(** Sizes of the structures and the multi-character tags. *)
Definition sizeof_EPROCESS : Z := 220.
Definition sizeof_ETHREAD : Z := 276.
Definition sizeof_KTRAPFRAME : Z := 68.
Definition sizeof_SCHEDULER_TRAPFRAME : Z := 52.
Definition tag_ELIF : Z := 0x454C4946.
Definition tag_RHTE : Z := 0x52485445.

(** The fields that are not in the scheduler's KPROCESS (its Quantum and
    DirectoryTableBase). *)
Record EPROCESS := Eprocess {
  PcbState : PROCESS_STATE; BasePriority : Z; UserPtePool : addr; ProcessEntryPoint : addr;
  PFlags : Z; HandleTable : addr; RundownProtect : Z; UniqueProcessId : Z; ParentProcessId : Z;
  Parent : addr; ImageFileName : list Z; ThreadListHead : list addr; ActiveThreads : Z }.

Record ETHREAD := Ethread {
  TFlags : Z; ThreadsProcess : addr; UserStack : addr; ThreadName : list Z; PreviousMode : KPROCESSOR_MODE }.

(** The frames on the kernel stack of a thread, by address: where user mode is
    entered, and what the first switch to the thread starts. *)
Record KTRAPFRAME := Trapframe {
  Reg_eax : Z; other_regs : list Z; TrapFrame_es : Z; TrapFrame_ds : Z; TrapFrame_eip : Z;
  TrapFrame_cs : Z; TrapFrame_eflags : Z; TrapFrame_esp : Z; TrapFrame_ss : Z }.

Inductive start_routine := StartAt (Routine : addr) | KiRunUserThread.

Record SCHEDULER_TRAPFRAME := SchedFrame { Eflags : Z; StartRoutine : start_routine; StartContext : addr }.

Record ps := Ps {
  eprocesses : gmap addr EPROCESS;
  ethreads : gmap addr ETHREAD;
  trapframes : gmap addr KTRAPFRAME;
  start_frames : gmap addr SCHEDULER_TRAPFRAME;
  binaries : gmap addr (list Z);
  PsActiveProcessHead : list addr;
  PidTable : addr;
  PsProcessType : addr;
  ThreadObjectType : addr;
  PsInitialSystemProcess : addr;
  IdleThread : addr;
  rest : machine }.

Definition with_eprocesses (f : gmap addr EPROCESS) (s : ps) : ps :=
  Ps f (ethreads s) (trapframes s) (start_frames s) (binaries s) (PsActiveProcessHead s) (PidTable s)
    (PsProcessType s) (ThreadObjectType s) (PsInitialSystemProcess s) (IdleThread s) (rest s).
Definition with_ethreads (f : gmap addr ETHREAD) (s : ps) : ps :=
  Ps (eprocesses s) f (trapframes s) (start_frames s) (binaries s) (PsActiveProcessHead s) (PidTable s)
    (PsProcessType s) (ThreadObjectType s) (PsInitialSystemProcess s) (IdleThread s) (rest s).
Definition with_frames (f : gmap addr KTRAPFRAME) (g : gmap addr SCHEDULER_TRAPFRAME) (s : ps) : ps :=
  Ps (eprocesses s) (ethreads s) f g (binaries s) (PsActiveProcessHead s) (PidTable s)
    (PsProcessType s) (ThreadObjectType s) (PsInitialSystemProcess s) (IdleThread s) (rest s).
Definition with_binaries (f : gmap addr (list Z)) (s : ps) : ps :=
  Ps (eprocesses s) (ethreads s) (trapframes s) (start_frames s) f (PsActiveProcessHead s) (PidTable s)
    (PsProcessType s) (ThreadObjectType s) (PsInitialSystemProcess s) (IdleThread s) (rest s).
Definition with_active (l : list addr) (s : ps) : ps :=
  Ps (eprocesses s) (ethreads s) (trapframes s) (start_frames s) (binaries s) l (PidTable s)
    (PsProcessType s) (ThreadObjectType s) (PsInitialSystemProcess s) (IdleThread s) (rest s).
Definition with_globals (pid process_type thread_type system idle : addr) (s : ps) : ps :=
  Ps (eprocesses s) (ethreads s) (trapframes s) (start_frames s) (binaries s) (PsActiveProcessHead s) pid
    process_type thread_type system idle (rest s).
Definition with_rest (m : machine) (s : ps) : ps :=
  Ps (eprocesses s) (ethreads s) (trapframes s) (start_frames s) (binaries s) (PsActiveProcessHead s) (PidTable s)
    (PsProcessType s) (ThreadObjectType s) (PsInitialSystemProcess s) (IdleThread s) m.

#[program] Definition ps_machine : lens ps machine := Lens rest with_rest _ _ _.
Next Obligation. done. Qed.
Next Obligation. by intros []. Qed.
Next Obligation. done. Qed.

(** The spin lock of a process object. *)
Definition ProcessLock (p : addr) : addr := p + 36.

(** What the code sets in the fields, one at a time. *)
Definition set_PcbState (x : PROCESS_STATE) (p : EPROCESS) : EPROCESS :=
  Eprocess x (BasePriority p) (UserPtePool p) (ProcessEntryPoint p) (PFlags p) (HandleTable p) (RundownProtect p)
    (UniqueProcessId p) (ParentProcessId p) (Parent p) (ImageFileName p) (ThreadListHead p) (ActiveThreads p).
Definition set_PFlags (x : Z) (p : EPROCESS) : EPROCESS :=
  Eprocess (PcbState p) (BasePriority p) (UserPtePool p) (ProcessEntryPoint p) x (HandleTable p) (RundownProtect p)
    (UniqueProcessId p) (ParentProcessId p) (Parent p) (ImageFileName p) (ThreadListHead p) (ActiveThreads p).
Definition set_Rundown (x : Z) (p : EPROCESS) : EPROCESS :=
  Eprocess (PcbState p) (BasePriority p) (UserPtePool p) (ProcessEntryPoint p) (PFlags p) (HandleTable p) x
    (UniqueProcessId p) (ParentProcessId p) (Parent p) (ImageFileName p) (ThreadListHead p) (ActiveThreads p).
Definition set_HandleTable (x : addr) (p : EPROCESS) : EPROCESS :=
  Eprocess (PcbState p) (BasePriority p) (UserPtePool p) (ProcessEntryPoint p) (PFlags p) x (RundownProtect p)
    (UniqueProcessId p) (ParentProcessId p) (Parent p) (ImageFileName p) (ThreadListHead p) (ActiveThreads p).
Definition set_UserPtePool (x : addr) (p : EPROCESS) : EPROCESS :=
  Eprocess (PcbState p) (BasePriority p) x (ProcessEntryPoint p) (PFlags p) (HandleTable p) (RundownProtect p)
    (UniqueProcessId p) (ParentProcessId p) (Parent p) (ImageFileName p) (ThreadListHead p) (ActiveThreads p).
Definition set_EntryPoint (x : addr) (p : EPROCESS) : EPROCESS :=
  Eprocess (PcbState p) (BasePriority p) (UserPtePool p) x (PFlags p) (HandleTable p) (RundownProtect p)
    (UniqueProcessId p) (ParentProcessId p) (Parent p) (ImageFileName p) (ThreadListHead p) (ActiveThreads p).
Definition set_threads (l : list addr) (p : EPROCESS) : EPROCESS :=
  Eprocess (PcbState p) (BasePriority p) (UserPtePool p) (ProcessEntryPoint p) (PFlags p) (HandleTable p)
    (RundownProtect p) (UniqueProcessId p) (ParentProcessId p) (Parent p) (ImageFileName p) l (ActiveThreads p).
Definition set_ActiveThreads (x : Z) (p : EPROCESS) : EPROCESS :=
  Eprocess (PcbState p) (BasePriority p) (UserPtePool p) (ProcessEntryPoint p) (PFlags p) (HandleTable p)
    (RundownProtect p) (UniqueProcessId p) (ParentProcessId p) (Parent p) (ImageFileName p) (ThreadListHead p) x.
Definition set_TFlags (x : Z) (t : ETHREAD) : ETHREAD :=
  Ethread x (ThreadsProcess t) (UserStack t) (ThreadName t) (PreviousMode t).
Definition set_PreviousMode (x : KPROCESSOR_MODE) (t : ETHREAD) : ETHREAD :=
  Ethread (TFlags t) (ThreadsProcess t) (UserStack t) (ThreadName t) x.

(** A new process and a new thread: cleared memory. *)
Definition zero_process : EPROCESS :=
  Eprocess PROCESS_STATE_IDLE 0 NULL NULL 0 NULL 0 0 0 NULL [] [] 0.
Definition zero_tcb : KTHREAD := Thread THREAD_STATE_INITIALIZED 0 NULL 0 0 NULL [] None.
Definition zero_thread : ETHREAD := Ethread 0 NULL NULL [] KernelMode.
Definition zero_frame : KTRAPFRAME := Trapframe 0 [] 0 0 0 0 0 0 0.

(** ** Operations *)

(** The instances for the whole kernel. *)
Definition ps_world (run_dpc : addr → M prcb unit) : ObWorld ps := @zoom_world ps machine ps_machine (machine_world run_dpc).

Definition with_kprocesses (f : gmap addr KPROCESS) (s : sched) : sched :=
  Sched (cpu s) (threads s) f (dobjects s) (blocks s) (Scheduler_list s) (ExitThreadList s) (CurrentDirectory s) (Esp0 s).

(** LIST_REMOVE.  On a thread that is in no list any more it writes through
    stale links: with an empty list only into the entry itself, a fault here
    otherwise. *)
Definition list_remove (t : addr) (l : list addr) : outcome (list addr) :=
  if decide (t ∈ l) then Ok (filter (λ x, x ≠ t) l)
  else match l with [] => Ok [] | _ => Stop Fault end.

Section ps.
Context {FS FIL : Type} `{!FatFs FS FIL} (run_dpc : addr → M prcb unit) (fuel : nat).
#[local] Instance this_world : ObWorld ps := ps_world run_dpc.
#[local] Instance this_lock : SpinLock sched := sched_locks run_dpc.
Local Notation K := (ob (io FS FIL ps)).

(** *** The parts of the kernel *)

Definition in_ps {A} (m : M ps A) : M K A := in_outer (inside io_kernel m).
Definition in_machine {A} (m : M machine A) : M K A := in_ps (inside ps_machine m).
Definition in_vm {A} (m : M (vmm sched) A) : M K A := in_machine (inside pools_world m).
Definition in_memory {A} (m : M mm A) : M K A := in_vm (in_mm m).

(** The scheduler keeps the address of the current page directory; the page
    tables follow it. *)
Definition in_sched {A} (m : M sched A) : M K A :=
  in_machine (
    let! old := gets (λ s, CurrentDirectory (view machine_sched s)) in
    let! a := inside machine_sched m in
    let! new := gets (λ s, CurrentDirectory (view machine_sched s)) in
    when (negb (new =? old)) (inside pools_world (in_mm (MmAttachToAddressSpace new))) >>>
    ret a).
Definition in_processor {A} (m : M prcb A) : M K A := in_sched (in_cpu m).

Definition process (p : addr) : M K EPROCESS := in_ps (deref (λ s, eprocesses s !! p)).
Definition put_process (p : addr) (x : EPROCESS) : M K unit :=
  in_ps (modify (λ s, with_eprocesses (<[p := x]> (eprocesses s)) s)).
Definition set_process (f : EPROCESS → EPROCESS) (p : addr) : M K unit :=
  let! x := process p in put_process p (f x).
Definition ethread (t : addr) : M K ETHREAD := in_ps (deref (λ s, ethreads s !! t)).
Definition put_ethread (t : addr) (x : ETHREAD) : M K unit :=
  in_ps (modify (λ s, with_ethreads (<[t := x]> (ethreads s)) s)).
Definition set_ethread (f : ETHREAD → ETHREAD) (t : addr) : M K unit :=
  let! x := ethread t in put_ethread t (f x).
Definition tcb (t : addr) : M K KTHREAD := in_sched (thread t).
Definition kprocess (p : addr) : M K KPROCESS := in_sched (deref (λ s, processes s !! p)).
Definition put_kprocess (p : addr) (x : KPROCESS) : M K unit :=
  in_sched (modify (λ s, with_kprocesses (<[p := x]> (processes s)) s)).

Definition acquire_lock (l : addr) : M K Z := in_processor (KeAcquireSpinLock l).
Definition release_lock (l : addr) (OldIrql : Z) : M K unit :=
  in_processor (KeReleaseSpinLock run_dpc false 2 l OldIrql).
Definition current_irql : M K Z := in_processor KeGetCurrentIrql.
Definition current_thread : M K addr := in_processor KeGetCurrentThread.
Definition lock_dispatcher : M K Z := in_sched KiLockDispatcherDataBase.
Definition unlock_dispatcher (OldIrql : Z) : M K unit := in_sched (KiUnLockDispatcherDataBase run_dpc OldIrql).

(** The DEBUG test that the current thread holds the lock of the process. *)
Definition assert_process_locked (p : addr) : M K unit :=
  let! i := current_irql in
  assert_ (i =? DISPATCH_LEVEL) >>>
  let! (Result, Owner) := in_processor (KeQuerySpinLock (ProcessLock p)) in
  assert_ (Result =? 1) >>>
  let! c := current_thread in
  assert_ (c =? Owner).

(** The memory ObCreateObject clears: a dispatcher header, a spin lock and the
    fields of a process or a thread. *)
Definition zero_dispatcher (o : addr) : M K unit :=
  in_sched (put_dobject o (DHeader [] EventNotificationObject 0 NULL 0)).
Definition fresh_process (p : addr) : M K unit :=
  put_process p zero_process >>>
  put_kprocess p (Process 0 NULL) >>>
  zero_dispatcher p >>>
  in_processor (modify (set_lock (ProcessLock p) (SpinLk 0 NULL 0))).
Definition fresh_thread (t : addr) : M K unit :=
  put_ethread t zero_thread >>>
  in_sched (put_thread t zero_tcb) >>>
  zero_dispatcher t.

(** *** process.c: the current process, references *)

Definition PsGetCurrentProcess : M K addr :=
  let! c := current_thread in
  if c =? NULL then ret NULL else let! x := tcb c in ret (ThreadProcess x).

(** The process that is found is not what is returned. *)
Definition PsGetProcessFromPID (ProcessId : Z) : M K addr :=
  let! t := in_ps (gets PidTable) in
  let! (Status, _) := ObLookupObjectByHandle ProcessId t in
  when (negb (K_SUCCESS Status)) (assert_ false) >>>
  ret NULL.

Definition PsGetCurrentProcessId : M K Z :=
  let! p := PsGetCurrentProcess in
  assert_ (negb (p =? NULL)) >>>
  let! x := process p in ret (UniqueProcessId x).
Definition KGetCurrentProcessId : M K Z := PsGetCurrentProcessId.

Definition PsIncProcessRundownProtect (p : addr) : M K unit :=
  let! _ := ObIsValidObject p in
  set_process (λ x, set_Rundown (snd (InterlockedIncrement (RundownProtect x))) x) p.

Definition ProcessGetCleanupFlags (x : EPROCESS) : Z := Z.land (PFlags x) PROCESS_FLAG_CLEANUP_MASK.
Definition ProcessSetCleanupFlags (Flag : Z) (x : EPROCESS) : EPROCESS :=
  set_PFlags (Z.lor (PFlags x) (Z.land Flag PROCESS_FLAG_CLEANUP_MASK)) x.
Definition ProcessResetCleanupFlags (Flag : Z) (x : EPROCESS) : EPROCESS :=
  set_PFlags (Z.ldiff (PFlags x) (Z.land Flag PROCESS_FLAG_CLEANUP_MASK)) x.

Definition assert_attachable : M K unit :=
  let! (Result, _) := in_sched KiQueryDispatcherDatabase in
  assert_ (Result =? 1) >>>
  let! i := current_irql in
  assert_ (i =? DISPATCH_LEVEL).
Definition PspAttachProcess (p : addr) : M K unit := assert_attachable >>> in_sched (KeStackAttachProcess p).
Definition PspDetachProcess : M K unit := assert_attachable >>> in_sched KeUnstackDetachProcess.

Definition PspRemoveProcess (p : addr) : M K KSTATUS :=
  assert_ (negb (p =? NULL)) >>>
  let! x := process p in
  assert_ (bool_decide (PcbState x = PROCESS_STATE_TERMINATED)) >>>
  let! OldIrql := acquire_lock PsActiveProcessHeadLock in
  let! l := in_ps (gets PsActiveProcessHead) in
  let! l' := lift (list_remove p l) in
  in_ps (modify (with_active l')) >>>
  release_lock PsActiveProcessHeadLock OldIrql >>>
  ret STATUS_SUCCESS.

Definition PspInsertProcess (p : addr) : M K KSTATUS :=
  assert_ (negb (p =? NULL)) >>>
  let! OldIrql := acquire_lock PsActiveProcessHeadLock in
  in_ps (modify (λ s, with_active (PsActiveProcessHead s ++ [p]) s)) >>>
  set_process (set_PcbState PROCESS_STATE_ACTIVE) p >>>
  release_lock PsActiveProcessHeadLock OldIrql >>>
  ret STATUS_SUCCESS.

(** The contents of the buffer that ELFBinaryLoader gets. *)
Definition binary (b : addr) : M K (list Z) := in_ps (deref (λ s, binaries s !! b)).

Definition PspReleaseBinary (b : addr) : M K unit := in_outer (pa_free b tag_ELIF).

(** An open that fails, and a short read, are not failures for K_SUCCESS: the
    buffer is then NULL, as the caller has set it.  The failing paths leave the
    file open. *)
Definition PspReadBinary (FileName : list Z) : M K (KSTATUS * addr * Z) :=
  let! v := gets (λ s, fs (outer s)) in
  let '(Status, fp, v) := f_open FileName FA_READ v in
  in_io (modify (with_fs v)) >>>
  if negb (K_SUCCESS Status) then ret (Status, NULL, 0)
  else
    let FileSize := s32 (f_size fp) in
    if FileSize <=? 0 then ret (STATUS_INVALID_FILE_FOR_SECTION, NULL, 0)
    else
      let! LocalBuff := in_outer (pa_alloc NonPagedPool (u32 (FileSize + 20)) tag_ELIF) in
      if LocalBuff =? NULL then ret (STATUS_INSUFFICIENT_RESOURCES, NULL, 0)
      else
        let! v := gets (λ s, fs (outer s)) in
        let '(Status, data, fp, v) := f_read fp FileSize v in
        in_io (modify (with_fs v)) >>>
        if negb (K_SUCCESS Status) || (Z.of_nat (length data) <? FileSize) then
          in_outer (pa_free LocalBuff tag_ELIF) >>> ret (Status, NULL, 0)
        else
          let! v := gets (λ s, fs (outer s)) in
          let '(_, _, v) := f_close fp v in
          in_io (modify (with_fs v)) >>>
          in_ps (modify (λ s, with_binaries (<[LocalBuff := data]> (binaries s)) s)) >>>
          ret (STATUS_SUCCESS, LocalBuff, FileSize).

(** *** The end of a process and of a thread: the close procedures *)

Section close.
Context (call : addr → addr → M K KSTATUS).

Definition PsDecProcessRundownProtect (p : addr) : M K unit :=
  let! x := process p in
  assert_ (negb (RundownProtect x =? 0)) >>>
  let! _ := ObIsValidObject p in
  let '(Ret, new) := InterlockedDecrement (RundownProtect x) in
  put_process p (set_Rundown new x) >>>
  when (Ret =? 0) (assert_ (ActiveThreads x =? 0) >>> ObDereferenceObject call p).

Definition PspFreeProcess (p : addr) : M K KSTATUS :=
  assert_ (negb (p =? NULL)) >>>
  let! x := process p in
  when (TEST_FLAG (ProcessGetCleanupFlags x) PROCESS_FLAG_ALLOCATED)
    (when (negb (Parent x =? NULL)) (PsDecProcessRundownProtect (Parent x)) >>>
     let! t := in_ps (gets PidTable) in
     ObRemoveHandle (UniqueProcessId x) t p >>>
     let! k := kprocess p in
     in_vm (MmDeleteProcessAddressSpace (DirectoryTableBase k))) >>>
  ret STATUS_SUCCESS.

Definition PspCloseProcess (p : addr) : M K KSTATUS :=
  assert_valid p >>>
  let! c := current_thread in
  let! y := ethread c in
  assert_ (negb (ThreadsProcess y =? p)) >>>
  let! x := process p in
  assert_ (RundownProtect x =? 0) >>>
  PspFreeProcess p.

Definition clear_flag (flag rest : Z) (t : addr) (k : M K unit) : M K unit :=
  let! y := ethread t in
  when (TEST_FLAG (TFlags y) flag)
    (put_ethread t (set_TFlags (Z.ldiff (TFlags y) flag) y) >>>
     assert_ (Z.ldiff (TFlags y) flag =? rest) >>> k).

(** The level the process lock goes back to is overwritten by the one that the
    dispatcher database is locked at. *)
Definition PsCloseThread (t : addr) : M K unit :=
  let! c := current_thread in
  assert_ (negb (c =? t)) >>>
  let! Tcb := tcb t in
  assert_ (bool_decide (State Tcb = THREAD_STATE_TERMINATED)) >>>
  let! y := ethread t in
  assert_ (TEST_FLAG (TFlags y) THREAD_FLAG_ALLOCATED) >>>
  let p := ThreadsProcess y in
  assert_ (negb (p =? NULL)) >>>
  let! x := process p in
  assert_ (negb (ActiveThreads x =? 0)) >>>
  let! q := in_sched KeGetCurrentProcess in
  if q =? p then halt BugCheck
  else
    let! _ := acquire_lock (ProcessLock p) in
    clear_flag THREAD_FLAG_CONTEXT_CREATED (Z.lor THREAD_FLAG_ALLOCATED THREAD_FLAG_INSERTED) t (ret tt) >>>
    clear_flag THREAD_FLAG_INSERTED THREAD_FLAG_ALLOCATED t
      (let! x := process p in
       let! l := lift (list_remove t (ThreadListHead x)) in
       put_process p (set_threads l x)) >>>
    clear_flag THREAD_FLAG_ALLOCATED 0 t (ret tt) >>>
    let! OldIrql := lock_dispatcher in
    PspAttachProcess p >>>
    let! y := ethread t in
    let! x := process p in
    in_vm (MmFreeUserPtes (UserStack y) (UserPtePool x) THREAD_USER_STACK_SIZE) >>>
    PspDetachProcess >>>
    unlock_dispatcher OldIrql >>>
    let! Tcb := tcb t in
    in_vm (MmFreeSystemPtes (KernelStack Tcb) THREAD_STACK_SIZE) >>>
    set_process (λ x, set_ActiveThreads (u32 (ActiveThreads x - 1)) x) p >>>
    PsDecProcessRundownProtect p >>>
    release_lock (ProcessLock p) OldIrql.
End close.

(** The close procedures, by address; the closing of a process goes on with
    its parent, so that the number of ancestors bounds the recursion. *)
Definition PspCloseProcessProcedure : addr := 2.
Definition PsCloseThreadProcedure : addr := 3.
Fixpoint ps_call (n : nat) (procedure o : addr) : M K KSTATUS :=
  match n with
  | O => halt NoFuel
  | S k =>
      if procedure =? PspCloseProcessProcedure then PspCloseProcess (io_call (ps_call k)) o
      else if procedure =? PsCloseThreadProcedure then
        PsCloseThread (io_call (ps_call k)) o >>> ret STATUS_SUCCESS
      else halt Fault
  end.
Definition close : addr → addr → M K KSTATUS := io_call (ps_call fuel).

(** *** The creation of processes (process.c) *)

Definition release_binary (BinData : addr) : M K unit := when (negb (BinData =? NULL)) (PspReleaseBinary BinData).
Definition dec_parent (Parent : addr) : M K unit :=
  when (negb (Parent =? NULL)) (PsDecProcessRundownProtect close Parent).
Definition free_handle_table (p : addr) : M K unit :=
  let! x := process p in ObFreeHandleTable close (HandleTable x).

(** The part that gives the process its address space: a copy of the parent's,
    or the image of the binary. *)
Definition fill_address_space (IsCloneProcess : bool) (Process Parent : addr) (PageDirectory : addr) (BinData BinSize : Z)
    (HasBinary : bool) : M K unit :=
  if IsCloneProcess then
    assert_ (negb (Parent =? NULL)) >>>
    assert_ (BinData =? NULL) >>>
    assert_ (BinSize =? 0) >>>
    let! OldIrql := lock_dispatcher in
    let! k := kprocess Parent in
    let! Status := in_vm (MmCloneProcessAddressSpace (DirectoryTableBase k) PageDirectory) in
    unlock_dispatcher OldIrql >>>
    if negb (K_SUCCESS Status) then
      free_handle_table Process >>>
      dec_parent Parent >>>
      in_vm (MmDeleteProcessAddressSpace PageDirectory) >>>
      ObDereferenceObject close Process >>>
      halt BugCheck
    else set_process (set_EntryPoint NULL) Process
  else if HasBinary then
    assert_ (negb (BinData =? NULL)) >>>
    assert_ (negb (BinSize =? 0)) >>>
    let! OldIrql := lock_dispatcher in
    PspAttachProcess Process >>>
    let! k := kprocess Process in
    let! b := binary BinData in
    let! (_, entry) := in_memory (ELFBinaryLoader (DirectoryTableBase k) b) in
    set_process (set_EntryPoint entry) Process >>>
    PspDetachProcess >>>
    unlock_dispatcher OldIrql >>>
    PspReleaseBinary BinData
  else ret tt.

Definition PspAllocateProcess (ParentProcess : addr) (Binary : option (list Z))
    (Attributes : option OBJECT_ATTRIBUTES) : M K (KSTATUS * addr) :=
  let! (Status, BinData, BinSize) :=
    match Binary with Some name => PspReadBinary name | None => ret (STATUS_SUCCESS, NULL, 0) end in
  if negb (K_SUCCESS Status) then ret (Status, NULL)
  else
    let! t := in_ps (gets PsProcessType) in
    let! (Status, r) := ObCreateObject close t Attributes sizeof_EPROCESS local_variable in
    match r with
    | None => assert_ false >>> release_binary BinData >>> ret (Status, NULL)
    | Some p =>
        fresh_process p >>>
        let! pid := in_ps (gets PidTable) in
        let! (Status, ProcessId) := ObInsertHandle p pid in
        if negb (K_SUCCESS Status) then
          assert_ false >>> release_binary BinData >>> ObDereferenceObject close p >>> ret (Status, NULL)
        else
          let HasParent := negb (ParentProcess =? NULL) in
          let IsCloneProcess := negb (bool_decide (is_Some Binary)) && HasParent in
          let! ParentHandleTable :=
            (if HasParent then let! x := process ParentProcess in ret (Some (HandleTable x)) else ret None) in
          let! (Status, table) := ObAllocateHandleTable ParentHandleTable IsCloneProcess in
          assert_ (Status =? STATUS_SUCCESS) >>>
          set_process (set_HandleTable table) p >>>
          let! ppid :=
            (if HasParent then
               let! x := process ParentProcess in
               PsIncProcessRundownProtect ParentProcess >>> ret (UniqueProcessId x)
             else ret 0) in
          put_process p (Eprocess PROCESS_STATE_CREATION PROCESS_PRIORITY_NORMAL NULL NULL 0 table 0 ProcessId ppid
            ParentProcess (match Binary with Some n => take (Z.to_nat MAX_NAME_LENGTH) n | None => [] end) [] 0) >>>
          put_kprocess p (Process DEFAULT_PROCESS_QUANTUM NULL) >>>
          in_sched (KeInitDispatcherHeader p ProcessObject 0) >>>
          let! (Status, PageDirectory) := in_vm MmCreateProcessAddressSpace in
          if negb (K_SUCCESS Status) then
            free_handle_table p >>> dec_parent ParentProcess >>> release_binary BinData >>>
            ObDereferenceObject close p >>> halt BugCheck
          else
            put_kprocess p (Process DEFAULT_PROCESS_QUANTUM PageDirectory) >>>
            fill_address_space IsCloneProcess p ParentProcess PageDirectory BinData BinSize (bool_decide (is_Some Binary)) >>>
            let! (Status, pool) :=
              (if IsCloneProcess then
                 let! x := process ParentProcess in in_vm (MmCloneUserPtes (UserPtePool x))
               else in_vm MmInitializeUserPtes) in
            set_process (set_UserPtePool pool) p >>>
            if negb (K_SUCCESS Status) then
              in_vm (MmDeleteProcessAddressSpace PageDirectory) >>> free_handle_table p >>> dec_parent ParentProcess >>>
              ObDereferenceObject close p >>> halt BugCheck
            else ret (STATUS_SUCCESS, p)
    end.

(** *** The creation of threads (thread.c, scheduler.c) *)

Definition FL_MBS : Z := 0x2.
Definition FL_IF : Z := 0x200.

Definition put_frames (f : gmap addr KTRAPFRAME → gmap addr KTRAPFRAME)
    (g : gmap addr SCHEDULER_TRAPFRAME → gmap addr SCHEDULER_TRAPFRAME) : M K unit :=
  in_ps (modify (λ s, with_frames (f (trapframes s)) (g (start_frames s)) s)).
Definition put_tcb (t : addr) (x : KTHREAD) : M K unit := in_sched (put_thread t x).

(** The trap frame of a thread that comes from user mode is at the top of its
    kernel stack. *)
Definition stack_top (x : KTHREAD) : addr := u32 (KernelStack x + THREAD_STACK_SIZE * PGSIZE).

Definition KiCreateThreadContext (t CloneTcb StartRoutine StartContext : addr) : M K KSTATUS :=
  when (negb (CloneTcb =? NULL) && negb (StartRoutine =? NULL)) (assert_ false) >>>
  let! x := tcb t in
  let user := IsUserAddress StartRoutine in
  let pTrapFrame := if user then u32 (stack_top x - sizeof_KTRAPFRAME) else NULL in
  let StackPtr := u32 ((if user then pTrapFrame else stack_top x) - sizeof_SCHEDULER_TRAPFRAME) in
  when user (put_frames (insert pTrapFrame zero_frame) id) >>>
  (if IsKernelAddress StartRoutine then
     assert_ (CloneTcb =? NULL) >>>
     assert_ (negb (StartRoutine =? NULL)) >>>
     put_frames id (insert StackPtr (SchedFrame (Z.lor FL_MBS FL_IF) (StartAt StartRoutine) StartContext)) >>>
     set_ethread (set_PreviousMode KernelMode) t
   else
     (if negb (CloneTcb =? NULL) then
        assert_ (StartRoutine =? NULL) >>>
        let! y := tcb CloneTcb in
        let! f := in_ps (deref (λ s, trapframes s !! u32 (stack_top y - sizeof_KTRAPFRAME))) in
        put_frames (insert pTrapFrame (Trapframe 0 (other_regs f) (TrapFrame_es f) (TrapFrame_ds f) (TrapFrame_eip f)
          (TrapFrame_cs f) (TrapFrame_eflags f) (TrapFrame_esp f) (TrapFrame_ss f))) id
      else
        assert_ (negb (StartRoutine =? NULL)) >>>
        when (pTrapFrame =? NULL) (halt Fault) >>>
        let! y := ethread t in
        put_frames (insert pTrapFrame (Trapframe 0 [] (Z.lor GD_UD 3) (Z.lor GD_UD 3) StartRoutine (Z.lor GD_UT 3)
          (Z.lor FL_MBS FL_IF) (u32 (UserStack y + THREAD_USER_STACK_SIZE * PGSIZE)) (Z.lor GD_UD 3))) id) >>>
     put_frames id (insert StackPtr (SchedFrame FL_MBS KiRunUserThread pTrapFrame)) >>>
     set_ethread (set_PreviousMode UserMode) t) >>>
  let! x := tcb t in
  put_tcb t (set_StackPointer (Some AtStart) x) >>>
  ret STATUS_SUCCESS.

Definition PsSetTheadPriority (t : addr) (Priority : Z) : M K unit :=
  let! x := tcb t in
  put_tcb t (Thread (State x) (Quantum x) (ThreadProcess x) (WaitIrql x) Priority (KernelStack x) (WaitBlockList x)
    (StackPointer x)).

Definition PsIsLastThread (t : addr) : M K bool :=
  let! y := ethread t in let! x := process (ThreadsProcess y) in ret (ActiveThreads x =? 1).

(** The user stack of a new thread, mapped in the address space of its process. *)
Definition allocate_user_stack (p : addr) : M K addr :=
  let! q := in_sched KeGetCurrentProcess in
  let AttachedToProcess := negb (q =? p) in
  let! OldIrql :=
    (if AttachedToProcess then
       let! OldIrql := lock_dispatcher in PspAttachProcess p >>> ret OldIrql
     else ret 0) in
  let! x := process p in
  let! UserStack := in_vm (MmAllocateUserPtes (UserPtePool x) (THREAD_USER_STACK_SIZE + 1)) in
  if UserStack =? NULL then halt BugCheck
  else
    when AttachedToProcess (PspDetachProcess >>> unlock_dispatcher OldIrql) >>>
    ret UserStack.

(** The fields of a new thread with the kernel stack [stack].  [garbage]: the kind
    and the state of signal that KeInitDispatcherHeader, which the code calls
    with the header only, finds on the stack. *)
Definition init_thread (p t : addr) (IsClone : bool) (garbage : KOBJECTS * Z) (stack : addr) : M K (KSTATUS * addr) :=
  let! x := process p in
  let! k := kprocess p in
  put_tcb t (Thread THREAD_STATE_INITIALIZED (PQuantum k) p 0 (BasePriority x) stack [] None) >>>
  in_sched (KeInitDispatcherHeader t (fst garbage) (snd garbage)) >>>
  let! UserStack :=
    (if IsClone then
       let! c := current_thread in let! y := ethread c in ret (UserStack y)
     else allocate_user_stack p) in
  put_ethread t (Ethread 0 p UserStack [] KernelMode) >>>
  ret (STATUS_SUCCESS, t).

Definition PspAllocateThread (p : addr) (IsClone : bool) (garbage : KOBJECTS * Z) : M K (KSTATUS * addr) :=
  assert_process_locked p >>>
  let! x := process p in
  assert_ (bool_decide (PcbState x = PROCESS_STATE_ACTIVE)) >>>
  let! ty := in_ps (gets ThreadObjectType) in
  let! (Status, r) := ObCreateObject close ty None sizeof_ETHREAD local_variable in
  match r with
  | None => assert_ false >>> ret (Status, NULL)
  | Some t =>
      fresh_thread t >>>
      let! stack := in_vm (MmAllocateSystemPtes THREAD_STACK_SIZE) in
      if stack =? NULL then ObDereferenceObject close t >>> ret (STATUS_INSUFFICIENT_RESOURCES, NULL)
      else init_thread p t IsClone garbage stack
  end.

Definition PspInsertThread (p t : addr) : M K KSTATUS :=
  assert_process_locked p >>>
  set_process (λ x, set_threads (ThreadListHead x ++ [t]) x) p >>>
  ret STATUS_SUCCESS.

Definition name_thread (ThreadName : list Z) (y : ETHREAD) : ETHREAD :=
  Ethread (TFlags y) (ThreadsProcess y) (UserStack y) (take (Z.to_nat MAX_NAME_LENGTH) ThreadName) (PreviousMode y).

Definition name_ThreadName : list Z := Stdio.text "ThreadName".

(** The flags before the context is created are compared with an expression
    that is never zero, whatever they are. *)
Definition PspCreateThread (p : addr) (ThreadName : option (list Z)) (StartRoutine StartContext : addr) (garbage : KOBJECTS * Z)
    : M K (KSTATUS * addr) :=
  let! _ := process p in
  let IsClone := StartRoutine =? NULL in
  let! OldIrql := acquire_lock (ProcessLock p) in
  let! (Status, t) := PspAllocateThread p IsClone garbage in
  if negb (K_SUCCESS Status) then release_lock (ProcessLock p) OldIrql >>> ret (Status, NULL)
  else
    let! y := ethread t in
    assert_ (Z.land (TFlags y) THREAD_FLAG_EXEC_STATE_MASK =? 0) >>>
    put_ethread t (name_thread (default name_ThreadName ThreadName) (set_TFlags (Z.lor (TFlags y) THREAD_FLAG_ALLOCATED) y)) >>>
    let! Status := PspInsertThread p t in
    let! y := ethread t in
    assert_ (Z.land (TFlags y) THREAD_FLAG_EXEC_STATE_MASK =? THREAD_FLAG_ALLOCATED) >>>
    put_ethread t (set_TFlags (Z.lor (TFlags y) THREAD_FLAG_INSERTED) y) >>>
    let! c := current_thread in
    let! Status := KiCreateThreadContext t (if IsClone then c else NULL) StartRoutine (if IsClone then NULL else StartContext) in
    if negb (K_SUCCESS Status) then
      release_lock (ProcessLock p) OldIrql >>> ObDereferenceObject close t >>> ret (Status, NULL)
    else
      set_ethread (λ y, set_TFlags (Z.lor (TFlags y) THREAD_FLAG_CONTEXT_CREATED) y) t >>>
      in_sched KiLockDispatcherDataBaseAtDpcLevel >>>
      in_sched (KiReadyThread t) >>>
      in_sched KiUnLockDispatcherDataBaseFromDpcLevel >>>
      set_process (λ x, set_ActiveThreads (u32 (ActiveThreads x + 1)) x) p >>>
      PsIncProcessRundownProtect p >>>
      release_lock (ProcessLock p) OldIrql >>>
      ret (STATUS_SUCCESS, t).

(** PsCreateProcess and fork. *)
Definition name_TestRoutine : list Z := Stdio.text "Test ROutine".

Definition PsCreateProcess (Attributes : option OBJECT_ATTRIBUTES) (Binary : option (list Z)) (garbage : KOBJECTS * Z)
    : M K (KSTATUS * Z * addr) :=
  let! Parent := PsGetCurrentProcess in
  let! (Status, p) := PspAllocateProcess Parent Binary Attributes in
  if negb (K_SUCCESS Status) then halt BugCheck
  else
    let! x := process p in
    assert_ (ProcessGetCleanupFlags x =? 0) >>>
    put_process p (ProcessSetCleanupFlags PROCESS_FLAG_ALLOCATED x) >>>
    let! Status := PspInsertProcess p in
    let! x := process p in
    assert_ (ProcessGetCleanupFlags x =? PROCESS_FLAG_ALLOCATED) >>>
    if negb (K_SUCCESS Status) then ObDereferenceObject close p >>> ret (Status, 0, NULL)
    else
      set_process (ProcessSetCleanupFlags PROCESS_FLAG_INSERTED) p >>>
      set_process (ProcessSetCleanupFlags PROCESS_FLAG_FIRST_THREAD_CREATED) p >>>
      let! x := process p in
      let! (Status, _) := PspCreateThread p (Some name_TestRoutine) (ProcessEntryPoint x) NULL garbage in
      if negb (K_SUCCESS Status) then
        set_process (ProcessResetCleanupFlags PROCESS_FLAG_FIRST_THREAD_CREATED) p >>>
        ObDereferenceObject close p >>> ret (Status, 0, NULL)
      else
        let! x := process p in
        ret (STATUS_SUCCESS, UniqueProcessId x, p).

Definition KCloneProcess (garbage : KOBJECTS * Z) : M K Z :=
  let! (Status, ChildProcessid, _) := PsCreateProcess None None garbage in
  if negb (K_SUCCESS Status) then ret Status else ret ChildProcessid.

(** *** The end of processes *)

Definition schedule : M K unit := Schedule run_dpc (@in_sched) (ObDereferenceObject close) fuel.
Definition exit_thread (t : addr) : M K unit :=
  PsExitThread run_dpc (@in_sched) (ObDereferenceObject close) schedule fuel t.

(** The threads of the process; the one that is exited is not the one that is
    taken from the list but [garbage], a variable that nothing sets.  True when
    that was the current thread, which does not come back. *)
Fixpoint exit_loop (n : nat) (p c garbage : addr) (LastThread : bool) : M K (bool * bool) :=
  let! x := process p in
  match ThreadListHead x with
  | [] => ret (false, LastThread)
  | t :: l =>
      match n with
      | O => halt NoFuel
      | S k =>
          put_process p (set_threads l x) >>>
          if negb (t =? c) then
            exit_thread garbage >>>
            if (garbage =? NULL) || (garbage =? c) then ret (true, LastThread)
            else exit_loop k p c garbage LastThread
          else exit_loop k p c garbage true
      end
  end.

Definition PspExitProcess (p garbage : addr) : M K unit :=
  let! c := current_thread in
  assert_valid p >>>
  let! x := process p in
  assert_ (negb (bool_decide (PcbState x = PROCESS_STATE_TERMINATED))) >>>
  assert_ (TEST_FLAG (ProcessGetCleanupFlags x) PROCESS_FLAG_FIRST_THREAD_CREATED) >>>
  assert_ (TEST_FLAG (ProcessGetCleanupFlags x) PROCESS_FLAG_INSERTED) >>>
  assert_ (TEST_FLAG (ProcessGetCleanupFlags x) PROCESS_FLAG_ALLOCATED) >>>
  put_process p (set_PcbState PROCESS_STATE_TERMINATED x) >>>
  let! _ := in_sched (KeReleaseNotificationDHeader run_dpc fuel p) in
  ObReferenceObject p >>>
  let! Irql := acquire_lock (ProcessLock p) in
  let! (Gone, LastThread) := exit_loop fuel p c garbage false in
  if (Gone : bool) then ret tt
  else
    release_lock (ProcessLock p) Irql >>>
    set_process (ProcessResetCleanupFlags PROCESS_FLAG_FIRST_THREAD_CREATED) p >>>
    let! x := process p in
    when (TEST_FLAG (ProcessGetCleanupFlags x) PROCESS_FLAG_INSERTED)
      (let! Status := PspRemoveProcess p in
       assert_ (K_SUCCESS Status) >>>
       set_process (ProcessResetCleanupFlags PROCESS_FLAG_INSERTED) p) >>>
    ObDereferenceObject close p >>>
    when LastThread (exit_thread c).

Definition KExitProcess (ProcessId : Z) (garbage : addr) : M K unit :=
  let! CurrentProcess := PsGetCurrentProcess in
  if ProcessId =? 0 then PspExitProcess CurrentProcess garbage
  else
    let! x := process CurrentProcess in
    if UniqueProcessId x =? ProcessId then PspExitProcess CurrentProcess garbage
    else
      let! TargetProcess := PsGetProcessFromPID ProcessId in
      let! y := process TargetProcess in
      if Parent y =? CurrentProcess then PspExitProcess TargetProcess garbage
      else assert_ false.

(** *** Start-up *)

(** The types, and the names of threads and kernel routines. *)
Definition process_type : OBJECT_TYPE :=
  ObType NonPagedPool sizeof_EPROCESS OBJECT_TYPE_PROCESS 0 [] NULL PspCloseProcessProcedure.
Definition thread_type : OBJECT_TYPE :=
  ObType NonPagedPool sizeof_ETHREAD OBJECT_TYPE_THREAD tag_RHTE [] NULL PsCloseThreadProcedure.

Definition PsThreadInit : M K unit :=
  let! saved := in_ps (gets ThreadObjectType) in
  let! (Status, t) := ObCreateObjectType thread_type saved in
  in_ps (modify (λ s, with_globals (PidTable s) (PsProcessType s) t (PsInitialSystemProcess s) (IdleThread s) s)) >>>
  assert_ (K_SUCCESS Status).

Definition PsInitPhase0 : M K unit :=
  in_ps (modify (with_active [])) >>>
  let! (Status, t) := ObAllocateHandleTable None false in
  if negb (K_SUCCESS Status) then halt BugCheck
  else
    in_ps (modify (λ s, with_globals t (PsProcessType s) (ThreadObjectType s) (PsInitialSystemProcess s) (IdleThread s) s)) >>>
    let! saved := in_ps (gets PsProcessType) in
    let! (Status, ty) := ObCreateObjectType process_type saved in
    in_ps (modify (λ s, with_globals (PidTable s) ty (ThreadObjectType s) (PsInitialSystemProcess s) (IdleThread s) s)) >>>
    assert_ (K_SUCCESS Status) >>>
    PsThreadInit.

(** The first thread is no object: it has no header. *)
Definition SyspCreateFirstSystemThread (p : addr) : M K addr :=
  let! t := in_outer (pa_alloc NonPagedPool sizeof_ETHREAD tag_RHTE) in
  if t =? NULL then halt BugCheck
  else
    fresh_thread t >>>
    let! stack := in_vm (MmAllocateSystemPtes THREAD_STACK_SIZE) in
    if stack =? NULL then halt BugCheck
    else
      let! x := process p in
      put_tcb t (Thread THREAD_STATE_INITIALIZED 0 p 0 (BasePriority x) stack [] None) >>>
      put_ethread t (Ethread 0 p NULL [] KernelMode) >>>
      ret t.

(** Addresses of kernel routines that threads start at. *)
Context (PsSystemProcessStart_ PspIdleThread_ : addr).
Definition name_FirstThread : list Z := Stdio.text "FIrst System Thread".
Definition name_IdleThread : list Z := Stdio.text "IdleThread".

(** Up to the start routine of the first thread. *)
Definition PsCreateSystemProcess : M K unit :=
  let! (Status, p) := PspAllocateProcess NULL None (Some (ObjectAttributes NULL None (Z.lor OBJ_PERMANENT OBJ_KERNEL_HANDLE))) in
  if negb (K_SUCCESS Status) then halt BugCheck
  else
    in_ps (modify (λ s, with_globals (PidTable s) (PsProcessType s) (ThreadObjectType s) p (IdleThread s) s)) >>>
    let! Status := PspInsertProcess p in
    if negb (K_SUCCESS Status) then halt BugCheck
    else
      let! t := SyspCreateFirstSystemThread p in
      assert_ (negb (t =? NULL)) >>>
      set_ethread (name_thread name_FirstThread) t >>>
      set_process (λ x, set_threads (ThreadListHead x ++ [t]) x) p >>>
      let! _ := KiCreateThreadContext t NULL PsSystemProcessStart_ t in
      let! OldIrql := lock_dispatcher in
      in_sched (KiAttachProcess p) >>>
      in_processor (KiSetCurrentThread t) >>>
      in_sched (KiStartThread run_dpc).

(** Up to KosInit; the idle thread gets its priority when it is already in the
    ready queue of its old one. *)
Definition PsSystemProcessStart (Context_ : addr) (garbage : KOBJECTS * Z) : M K unit :=
  in_processor (KiSetCurrentThread Context_) >>>
  let! x := tcb Context_ in
  put_tcb Context_ (set_State THREAD_STATE_RUNNING x) >>>
  let! p := in_ps (gets PsInitialSystemProcess) in
  assert_ (negb (p =? NULL)) >>>
  let! (_, t) := PspCreateThread p (Some name_IdleThread) PspIdleThread_ NULL garbage in
  PsSetTheadPriority t PROCESS_PRIORITY_IDLE >>>
  in_ps (modify (λ s, with_globals (PidTable s) (PsProcessType s) (ThreadObjectType s) (PsInitialSystemProcess s) t s)).
End ps.

(** ** Lemmas *)

Section views.
Context {FS FIL : Type}.
Local Notation K := (ob (io FS FIL ps)).
Implicit Type s : K.

Definition ps_of s : ps := kernel (outer s).
Definition machine_of s : machine := rest (ps_of s).
Definition sched_of s : sched := view machine_sched (machine_of s).
Definition on_ps (f : ps → ps) s : K := with_outer (with_kernel (f (ps_of s)) (outer s)) s.
Definition set_machine (m : machine) s : K := on_ps (with_rest m) s.
Definition set_sched (x : sched) s : K := set_machine (update machine_sched x (machine_of s)) s.

Lemma set_machine_same s : set_machine (machine_of s) s = s.
Proof. by destruct s as [? ? ? ? ? ? ? ? ? [? ? ? ? ? ? ? ? ? ? []]]. Qed.
Lemma set_sched_same s : set_sched (sched_of s) s = s.
Proof. unfold set_sched, sched_of. rewrite update_view. apply set_machine_same. Qed.
End views.

(** Two states built by updates of [s] are the same, up to writing over. *)
Ltac same_state s :=
  destruct s as [? ? ? ? ? ? ? ? ? [? ? ? ? ? ? ? ? ? ? []]];
  cbv [on_ps set_machine set_sched listed with_core
    with_objects with_types with_dobjects ps_of machine_of sched_of outer kernel rest with_outer with_kernel with_rest
    view update machine_sched lens_compose pools_world vmm_world sched_cpu with_frames with_ethreads with_eprocesses
    with_threads with_cpu eprocesses ethreads trapframes start_frames binaries PsActiveProcessHead PidTable PsProcessType ThreadObjectType
    PsInitialSystemProcess IdleThread devices drivers files irps fcbs user_memory fs IoFileObjectType
    IoDriverObjectType DeviceNumber objects types tables ObRootDirectory ObGlobalDirectory ObDirectoryObjectType
    ObSymbolicLinkObjectType IoDeviceObjectType CurrentHandleTable Pool.world KernelPools Vmm.world core
    MiSystemPteBitmap bitmap_headers bitmap_bits GlobalPgdir cpu threads processes dobjects blocks Scheduler_list
    ExitThreadList CurrentDirectory Esp0];
  by rewrite ?insert_insert_eq.

Section ps_runs.
Context {FS FIL : Type} `{!FatFs FS FIL} (run_dpc : addr → M prcb unit).
Local Notation K := (ob (io FS FIL ps)).
Implicit Type s : K.

Lemma in_ps_deref {A B} (f : ps → option A) (k : A → M K B) s a :
  f (ps_of s) = Some a → bind (in_ps (deref f)) k s = k a s.
Proof.
  intros H. unfold bind, in_ps, in_outer, inside, zoom, deref, bind, gets. simpl. unfold ps_of in H. rewrite H.
  simpl. by destruct s as [? ? ? ? ? ? ? ? ? []].
Qed.

Lemma in_ps_gets {A B} (f : ps → A) (k : A → M K B) s : bind (in_ps (gets f)) k s = k (f (ps_of s)) s.
Proof. unfold bind. simpl. by destruct s as [? ? ? ? ? ? ? ? ? []]. Qed.

Lemma in_ps_modify {B} (f : ps → ps) (k : unit → M K B) s : bind (in_ps (modify f)) k s = k tt (on_ps f s).
Proof. done. Qed.

Lemma in_machine_run {A B} (m : M machine A) (k : A → M K B) s a w :
  m (machine_of s) = Ok (a, w) → bind (in_machine m) k s = k a (set_machine w s).
Proof.
  intros H. unfold bind, in_machine, in_ps, in_outer, inside, zoom. simpl. unfold machine_of, ps_of in H. by rewrite H.
Qed.

Lemma in_sched_run {A B} (m : M sched A) (k : A → M K B) s a x :
  m (sched_of s) = Ok (a, x) → CurrentDirectory x = CurrentDirectory (sched_of s) →
  bind (in_sched m) k s = k a (set_sched x s).
Proof.
  intros H E. unfold in_sched. apply in_machine_run. rewrite gets_run.
  rewrite (bind_Ok _ _ _ a (update machine_sched x (machine_of s))) by (by apply inside_run).
  rewrite gets_run, view_update, E. fold (sched_of s). by rewrite Z.eqb_refl.
Qed.

Lemma in_sched_read {A B} (m : M sched A) (k : A → M K B) s a :
  m (sched_of s) = Ok (a, sched_of s) → bind (in_sched m) k s = k a s.
Proof. intros H. rewrite (in_sched_run _ _ _ _ _ H eq_refl). by rewrite set_sched_same. Qed.

Lemma tcb_run {B} t (k : KTHREAD → M K B) s x :
  threads (sched_of s) !! t = Some x → bind (tcb t) k s = k x s.
Proof. intros H. apply in_sched_read. unfold thread. unfold deref. by rewrite H. Qed.
End ps_runs.

Section context.
Context {FS FIL : Type} `{!FatFs FS FIL} (run_dpc : addr → M prcb unit).
Local Notation K := (ob (io FS FIL ps)).
Implicit Type s : K.

(** Where the frames of a thread that starts in user mode are. *)
Definition trap_frame_at (x : KTHREAD) : addr := u32 (stack_top x - sizeof_KTRAPFRAME).
Definition user_start_at (x : KTHREAD) : addr := u32 (trap_frame_at x - sizeof_SCHEDULER_TRAPFRAME).

Definition with_context (t : addr) (x : KTHREAD) (y : ETHREAD) (F : KTRAPFRAME) s : K :=
  set_sched (with_threads (<[t := set_StackPointer (Some AtStart) x]> (threads (sched_of s))) (sched_of s))
    (on_ps (λ w, with_ethreads (<[t := set_PreviousMode UserMode y]> (ethreads w))
      (with_frames (<[trap_frame_at x := F]> (trapframes w))
        (<[user_start_at x := SchedFrame FL_MBS KiRunUserThread (trap_frame_at x)]> (start_frames w)) w)) s).

(** The frame a thread of user mode starts with: that of the thread it is a
    copy of, with 0 as the result of the system call, or one that enters
    [StartRoutine] with the user segments, interrupts on and the stack above
    the third page. *)
Definition start_frame (y : ETHREAD) (clone : option KTRAPFRAME) (StartRoutine : addr) : KTRAPFRAME :=
  match clone with
  | Some f => Trapframe 0 (other_regs f) (TrapFrame_es f) (TrapFrame_ds f) (TrapFrame_eip f) (TrapFrame_cs f)
                (TrapFrame_eflags f) (TrapFrame_esp f) (TrapFrame_ss f)
  | None => Trapframe 0 [] 0x23 0x23 StartRoutine 0x1b 0x202 (u32 (UserStack y + 3 * PGSIZE)) 0x23
  end.

Lemma user_context_run t CloneTcb StartRoutine s x y clone :
  threads (sched_of s) !! t = Some x → ethreads (ps_of s) !! t = Some y →
  0 <= StartRoutine < USERTOP → trap_frame_at x ≠ NULL →
  match clone with
  | Some f => StartRoutine = NULL ∧ CloneTcb ≠ NULL ∧ ∃ z, threads (sched_of s) !! CloneTcb = Some z ∧
      trapframes (ps_of s) !! trap_frame_at z = Some f ∧ trap_frame_at z ≠ trap_frame_at x
  | None => StartRoutine ≠ NULL ∧ CloneTcb = NULL
  end →
  KiCreateThreadContext t CloneTcb StartRoutine NULL s =
    Ok (STATUS_SUCCESS, with_context t x y (start_frame y clone StartRoutine) s).
Proof.
  intros Hx Hy Hr Hn Hc. unfold KiCreateThreadContext.
  assert (IsUserAddress StartRoutine = true) as Hu by (apply Z.ltb_lt; lia).
  assert (IsKernelAddress StartRoutine = false) as Hk by (apply Z.ltb_ge; assert (USERTOP <= KERNBASE) by (vm_compute; discriminate); lia).
  rewrite Hu, Hk. fold (trap_frame_at x).
  assert (negb (CloneTcb =? NULL) && negb (StartRoutine =? NULL) = false) as ->.
  { destruct clone; [destruct Hc as [-> _]; by rewrite andb_false_r|by destruct Hc as [_ ->]]. }
  cbn [when]. rewrite bind_ret, (tcb_run t _ _ x Hx). cbv zeta. cbn [when].
  unfold put_frames, set_ethread, ethread, put_ethread, put_tcb. rewrite in_ps_modify. cbn [id].
  fold (trap_frame_at x). set (s1 := on_ps _ s).
  assert (∀ F s2, s2 = on_ps (λ w, with_frames (<[trap_frame_at x := F]> (trapframes w)) (start_frames w) w) s1 →
    ((in_ps (modify (λ w, with_frames (trapframes w) (<[user_start_at x := SchedFrame FL_MBS KiRunUserThread (trap_frame_at x)]> (start_frames w)) w)) >>>
     let! y := in_ps (deref (λ w, ethreads w !! t)) in
     in_ps (modify (λ w, with_ethreads (<[t := set_PreviousMode UserMode y]> (ethreads w)) w))) >>>
     let! x := tcb t in
     in_sched (put_thread t (set_StackPointer (Some AtStart) x)) >>> ret STATUS_SUCCESS) s2
    = Ok (STATUS_SUCCESS, with_context t x y F s)) as Hend.
  { intros F s2 ->. rewrite bind_assoc, in_ps_modify, bind_assoc. rewrite (in_ps_deref _ _ _ y) by exact Hy. rewrite in_ps_modify.
    rewrite (tcb_run t _ _ x) by exact Hx.
    erewrite in_sched_run; [|reflexivity|reflexivity]. unfold ret, with_context. do 2 f_equal.
    unfold s1. same_state s. }
  destruct clone as [f|].
  - destruct Hc as (-> & Hcl & z & Hz & Hf & Hne). destruct (Z.eqb_spec CloneTcb NULL) as [|_]; [done|]. cbn [negb].
    change (0 =? NULL) with true. rewrite !bind_assoc, assert_true by done.
    rewrite bind_assoc, (tcb_run CloneTcb _ _ z) by exact Hz. fold (trap_frame_at z).
    rewrite bind_assoc, (in_ps_deref _ _ _ f) by (cbn; by rewrite lookup_insert_ne).
    rewrite in_ps_modify. cbn [id]. exact (Hend (start_frame y (Some f) NULL) _ eq_refl).
  - destruct Hc as (Hsr & ->). change (negb (NULL =? NULL)) with false. cbv iota.
    rewrite !bind_assoc, assert_true by by apply negb_true_iff, Z.eqb_neq.
    destruct (Z.eqb_spec (trap_frame_at x) NULL) as [|_]; [done|]. cbn [when]. rewrite bind_assoc, bind_ret.
    rewrite bind_assoc, (in_ps_deref _ _ _ y) by exact Hy.
    rewrite in_ps_modify. cbn [id]. exact (Hend (start_frame y None StartRoutine) _ eq_refl).
Qed.
End context.

Section threads.
Context {FS FIL : Type} `{!FatFs FS FIL} (run_dpc : addr → M prcb unit).
Local Notation K := (ob (io FS FIL ps)).
Implicit Type s : K.
#[local] Instance machine_instance : ObWorld ps := ps_world run_dpc.
#[local] Instance memory_lock : SpinLock sched := sched_locks run_dpc.

Definition cpu_of s : prcb := cpu (sched_of s).
Definition vm_of s : vmm sched := Pool.world (machine_of s).
Definition set_cpu (p : prcb) s : K := set_sched (with_cpu p (sched_of s)) s.
Definition set_vm (v : vmm sched) s : K := set_machine (Pools (KernelPools (machine_of s)) v) s.
Definition set_pools (l : gmap Z (list POOLHEADER)) s : K := set_machine (Pools l (vm_of s)) s.

Lemma in_processor_run {A B} (m : M prcb A) (k : A → M K B) s a p :
  m (cpu_of s) = Ok (a, p) → bind (in_processor m) k s = k a (set_cpu p s).
Proof.
  intros H. unfold in_processor. apply in_sched_run; [|done]. unfold in_cpu, zoom. unfold cpu_of in H. by rewrite H.
Qed.

Lemma in_processor_read {A B} (m : M prcb A) (k : A → M K B) s a :
  m (cpu_of s) = Ok (a, cpu_of s) → bind (in_processor m) k s = k a s.
Proof.
  intros H. rewrite (in_processor_run _ _ _ _ _ H). unfold set_cpu, cpu_of. rewrite with_cpu_id. by rewrite set_sched_same.
Qed.

Lemma in_vm_run {A B} (m : M (vmm sched) A) (k : A → M K B) s a v :
  m (vm_of s) = Ok (a, v) → bind (in_vm m) k s = k a (set_vm v s).
Proof. intros H. unfold in_vm. apply in_machine_run. by apply (inside_run pools_world). Qed.

(** *** Locks *)

Definition owned (l i : Z) s : Prop :=
  CurrentIrql (cpu_of s) = DISPATCH_LEVEL ∧ spinlocks (cpu_of s) !! l = Some (SpinLk 1 (CurrentThread (cpu_of s)) i).

Definition lock_owned (l : addr) s : K :=
  set_cpu (set_lock l (SpinLk 1 (CurrentThread (cpu_of s)) (CurrentIrql (cpu_of s))) (set_irql DISPATCH_LEVEL (cpu_of s))) s.

Lemma acquire_lock_run {B} l (k : Z → M K B) s :
  lock_free l (cpu_of s) → CurrentIrql (cpu_of s) <= DISPATCH_LEVEL →
  bind (acquire_lock l) k s = k (CurrentIrql (cpu_of s)) (lock_owned l s).
Proof. intros Hl Hi. unfold acquire_lock. by rewrite (in_processor_run _ _ _ _ _ (acquire_run l _ Hl Hi)). Qed.

Lemma release_lock_run {B} l i (k : unit → M K B) s :
  owned l i s → i <= DISPATCH_LEVEL → quiet i (cpu_of s) →
  bind (release_lock run_dpc l i) k s = k tt (set_cpu (set_irql i (set_lock l (SpinLk 0 NULL 0) (cpu_of s))) s).
Proof.
  intros [Hi Hl] Hn Hq. unfold release_lock.
  by rewrite (in_processor_run _ _ _ _ _ (release_run run_dpc false 0 l _ i Hl Hi Hn Hq)).
Qed.

Lemma current_thread_run {B} (k : addr → M K B) s : bind current_thread k s = k (CurrentThread (cpu_of s)) s.
Proof. by apply in_processor_read. Qed.

Lemma process_locked_run {B} p i (k : unit → M K B) s :
  owned (ProcessLock p) i s → bind (assert_process_locked p) k s = k tt s.
Proof.
  intros [Hi Hl]. unfold assert_process_locked, current_irql.
  rewrite bind_assoc, (in_processor_read _ _ _ (CurrentIrql (cpu_of s))) by (apply getirql_run; rewrite Hi; done).
  rewrite bind_assoc, assert_true by (by rewrite Hi).
  rewrite bind_assoc, (in_processor_read _ _ _ (1, CurrentThread (cpu_of s)))
    by (unfold KeQuerySpinLock; by rewrite (deref_run (λ p0, spinlocks p0 !! ProcessLock p) _ _ _ Hl)).
  rewrite bind_assoc, assert_true by done.
  rewrite bind_assoc, current_thread_run. by rewrite assert_true by apply Z.eqb_refl.
Qed.

Lemma process_run {B} p (k : EPROCESS → M K B) s x : eprocesses (ps_of s) !! p = Some x → bind (process p) k s = k x s.
Proof. apply (in_ps_deref (λ w, eprocesses w !! p)). Qed.
Lemma ethread_run {B} t (k : ETHREAD → M K B) s y : ethreads (ps_of s) !! t = Some y → bind (ethread t) k s = k y s.
Proof. apply (in_ps_deref (λ w, ethreads w !! t)). Qed.
Lemma kprocess_run {B} p (k : KPROCESS → M K B) s x :
  processes (sched_of s) !! p = Some x → bind (kprocess p) k s = k x s.
Proof. intros H. apply in_sched_read. unfold deref. by rewrite H. Qed.

(** *** Allocating a thread *)

(** Memory comes from the pools and changes nothing else. *)
Lemma alloc_frame s pt n tag q w :
  pa_ready pt n (outer s) → pa_alloc pt n tag (outer s) = Ok (q, w) →
  with_outer w s = set_pools (KernelPools (rest (kernel w))) s.
Proof.
  intros Hr Ha.
  destruct (@pool_round _ (machine_locks run_dpc PoolLock) pt n tag (machine_of s) Hr) as (q' & m & Hm & Hw & _).
  assert (pa_alloc pt n tag (outer s) = Ok (q', with_kernel (with_rest m (ps_of s)) (outer s))) as Ha'
    by (apply (inside_run io_kernel), (inside_run ps_machine), Hm).
  rewrite Ha in Ha'. injection Ha' as -> ->. unfold set_pools, set_machine, vm_of. cbn. rewrite <- Hw. by destruct m.
Qed.

Definition fresh (t : addr) s : K :=
  set_sched (with_dobjects (<[t := DHeader [] EventNotificationObject 0 NULL 0]> (dobjects (sched_of s)))
    (with_threads (<[t := zero_tcb]> (threads (sched_of s))) (sched_of s)))
    (on_ps (λ w, with_ethreads (<[t := zero_thread]> (ethreads w)) w) s).
Lemma fresh_thread_run {B} t (k : unit → M K B) s : bind (fresh_thread t) k s = k tt (fresh t s).
Proof.
  unfold fresh_thread, put_ethread, zero_dispatcher, put_thread, put_dobject.
  rewrite bind_assoc, in_ps_modify, bind_assoc.
  do 2 (erewrite in_sched_run; [|reflexivity|reflexivity]).
  done.
Qed.

(** A kernel stack: three pages of the system PTE pool. *)
Definition stack_pool (v : vmm sched) : Prop :=
  @sl_free sched memory_lock (Vmm.world v) ∧ sys_inv (core v) (MiSystemPteBitmap v) ∧
  (3 <= length (PfnFreeList (core v)))%nat ∧ 0 ∉ PfnFreeList (core v).
Definition stack_room (v : vmm sched) : Prop :=
  ∃ j, 0 <= j ∧ Bitmap.fits (MiSystemPteBitmap v) j THREAD_STACK_SIZE false.

Lemma stack_run v : stack_pool v → stack_room v →
  ∃ i c b, MmAllocateSystemPtes THREAD_STACK_SIZE v = Ok (syspte i, with_core c b v) ∧
    0 <= i ∧ i + THREAD_STACK_SIZE <= SYSPTES ∧ Bitmap.fits (MiSystemPteBitmap v) i THREAD_STACK_SIZE false.
Proof.
  intros (Hf & Hi & Hl & H0) (j & Hj & Hfit).
  destruct (system_ptes_spec THREAD_STACK_SIZE v Hf Hi) as [[_ Hno]|(i & c & b & H1 & H2 & H3 & _ & _ & _ & _ & H4)].
  - by vm_compute.
  - done.
  - done.
  - by destruct (Hno j Hj).
  - by exists i, c, b.
Qed.

Lemma no_stack_run v : stack_pool v → ¬ stack_room v → MmAllocateSystemPtes THREAD_STACK_SIZE v = Ok (NULL, v).
Proof.
  intros (Hf & Hi & Hl & H0) Hn.
  destruct (system_ptes_spec THREAD_STACK_SIZE v Hf Hi) as [[H _]|(i & c & b & _ & H2 & _ & _ & _ & _ & _ & H4)].
  - by vm_compute.
  - done.
  - done.
  - done.
  - destruct Hn. by exists i.
Qed.

(** What the creation of a thread of process [p] needs, with the lock of the
    process held: [x] and [kp] are the process, [t] the new object at [q]. *)
Record can_create s (p : addr) (x : EPROCESS) (kp : KPROCESS) (ty : OBJECT_TYPE) (t : addr) (w : io FS FIL ps) : Prop := {
  cc_owned : ∃ i, owned (ProcessLock p) i s;
  cc_process : eprocesses (ps_of s) !! p = Some x ∧ PcbState x = PROCESS_STATE_ACTIVE ∧
    processes (sched_of s) !! p = Some kp;
  cc_type : creatable (ThreadObjectType (ps_of s)) ty None sizeof_ETHREAD local_variable s ∧
    @sl_free _ (ob_spin (TypeLock (ThreadObjectType (ps_of s)))) (outer s);
  cc_memory : pa_ready (OTPoolType ty) (sizeof_OBJECT_HEADER + sizeof_ETHREAD) (outer s) ∧
    pa_alloc (OTPoolType ty) (sizeof_OBJECT_HEADER + sizeof_ETHREAD) (PoolTag ty) (outer s) = Ok (t - OFFSET_BODY, w) ∧
    t ≠ OFFSET_BODY;
  cc_fresh : t ≠ p ∧ t ≠ CurrentThread (cpu_of s) }.

(** The kernel with a new object of the type of threads at [t]. *)
Definition thread_object (ty : OBJECT_TYPE) (t : addr) (w : io FS FIL ps) s : K :=
  listed (ThreadObjectType (ps_of s)) ty t
    (with_objects (<[t := created (ThreadObjectType (ps_of s)) None new_header]> (objects s))
      (set_pools (KernelPools (rest (kernel w))) s)).

Definition new_tcb (p : addr) (x : EPROCESS) (kp : KPROCESS) (stack : addr) : KTHREAD :=
  Thread THREAD_STATE_INITIALIZED (PQuantum kp) p 0 (BasePriority x) stack [] None.

(** The fields of the new thread. *)
Definition with_thread (t : addr) (k : KTHREAD) (d : DISPATCHER_HEADER) (y : ETHREAD) s : K :=
  set_sched (with_dobjects (<[t := d]> (dobjects (sched_of s))) (with_threads (<[t := k]> (threads (sched_of s))) (sched_of s)))
    (on_ps (λ w, with_ethreads (<[t := y]> (ethreads w)) w) s).

Lemma allocate_object_run fuel IsClone garbage s p x kp ty t w :
  can_create s p x kp ty t w →
  PspAllocateThread run_dpc fuel p IsClone garbage s =
    (let! stack := in_vm (MmAllocateSystemPtes THREAD_STACK_SIZE) in
     if stack =? NULL then ObDereferenceObject (close run_dpc fuel) t >>> ret (STATUS_INSUFFICIENT_RESOURCES, NULL)
     else init_thread run_dpc p t IsClone garbage stack) (fresh t (thread_object ty t w s)).
Proof.
  intros [(j & Hown) (Hx & Hact & Hkp) (Hcr & Htl) (Hr & Ha & Hq) _].
  unfold PspAllocateThread. rewrite (process_locked_run p j _ s Hown), (process_run p _ s x Hx).
  rewrite assert_true by by apply bool_decide_eq_true. rewrite in_ps_gets.
  assert (t - OFFSET_BODY ≠ NULL) as Hq' by lia.
  pose proof (create_unnamed_run (close run_dpc fuel) _ ty None sizeof_ETHREAD local_variable _ w s Hcr eq_refl Hr Ha Hq' Htl) as Hc.
  cbv zeta in Hc. replace (t - OFFSET_BODY + OFFSET_BODY) with t in Hc by lia.
  rewrite (alloc_frame s _ _ _ _ _ Hr Ha) in Hc. rewrite (bind_Ok _ _ _ _ _ Hc). cbv iota beta.
  by rewrite fresh_thread_run.
Qed.

Lemma allocate_clone_run fuel s p x kp ty t w garbage z i c b :
  can_create s p x kp ty t w →
  ethreads (ps_of s) !! CurrentThread (cpu_of s) = Some z →
  MmAllocateSystemPtes THREAD_STACK_SIZE (vm_of (fresh t (thread_object ty t w s))) =
    Ok (syspte i, with_core c b (vm_of (fresh t (thread_object ty t w s)))) → 0 <= i →
  PspAllocateThread run_dpc fuel p true garbage s =
    Ok ((STATUS_SUCCESS, t), with_thread t (new_tcb p x kp (syspte i))
      (DHeader [] (fst garbage) (s32 (snd garbage)) NULL 0) (Ethread 0 p (UserStack z) [] KernelMode)
      (set_vm (with_core c b (vm_of s)) (thread_object ty t w s))).
Proof.
  intros Hcc Hz Hs Hi. rewrite (allocate_object_run _ _ _ _ _ _ _ _ _ _ Hcc), (in_vm_run _ _ _ _ _ Hs).
  destruct Hcc as [_ (Hx & _ & Hkp) _ _ (_ & Htc)].
  destruct (Z.eqb_spec (syspte i) NULL) as [E|_]; [exfalso; unfold syspte in E; assert (0 < MMSYSPTE_START) by done; unfold PGSIZE in E; lia|].
  unfold init_thread. rewrite (process_run p _ _ x) by exact Hx. rewrite (kprocess_run p _ _ kp) by exact Hkp.
  unfold put_tcb, put_thread. erewrite in_sched_run; [|reflexivity|reflexivity].
  erewrite in_sched_run; [|unfold KeInitDispatcherHeader; rewrite (dobject_run _ _ _ (DHeader [] EventNotificationObject 0 NULL 0)) by (apply lookup_insert_eq); reflexivity|reflexivity].
  rewrite bind_assoc, current_thread_run, bind_assoc.
  rewrite (ethread_run _ _ _ z) by (cbn; rewrite lookup_insert_ne by done; exact Hz).
  rewrite bind_ret. unfold put_ethread. rewrite in_ps_modify. unfold ret. do 2 f_equal.
  unfold new_tcb, set_vm, set_pools, set_cpu, cpu_of, vm_of, fresh, with_thread, thread_object.
  same_state s.
Qed.

End threads.

Section fork.
Context {FS FIL : Type} `{!FatFs FS FIL} (run_dpc : addr → M prcb unit).
Local Notation K := (ob (io FS FIL ps)).
Implicit Type s : K.
#[local] Instance fork_world : ObWorld ps := ps_world run_dpc.
#[local] Instance fork_lock : SpinLock sched := sched_locks run_dpc.

Definition with_process (p : addr) (x : EPROCESS) s : K := on_ps (λ w, with_eprocesses (<[p := x]> (eprocesses w)) w) s.
Definition with_ethread (t : addr) (y : ETHREAD) s : K := on_ps (λ w, with_ethreads (<[t := y]> (ethreads w)) w) s.

Lemma set_process_run {B} f p (k : unit → M K B) s x :
  eprocesses (ps_of s) !! p = Some x → bind (set_process f p) k s = k tt (with_process p (f x) s).
Proof. intros H. unfold set_process. by rewrite bind_assoc, (process_run p _ _ x H). Qed.

Lemma set_ethread_run {B} f t (k : unit → M K B) s y :
  ethreads (ps_of s) !! t = Some y → bind (set_ethread f t) k s = k tt (with_ethread t (f y) s).
Proof. intros H. unfold set_ethread. by rewrite bind_assoc, (ethread_run t _ _ y H). Qed.

Lemma put_ethread_run {B} t y (k : unit → M K B) s : bind (put_ethread t y) k s = k tt (with_ethread t y s).
Proof. done. Qed.

(** A thread that is new becomes ready, at the end of the queue of its priority. *)
Lemma ready_new_run c j t x p l (s : sched) :
  held c c j s → threads s !! t = Some x → State x = THREAD_STATE_INITIALIZED →
  processes s !! ThreadProcess x = Some p → Scheduler_list s !! Priority x = Some l →
  KiReadyThread t s = Ok (tt, readied t (PQuantum p) x l s).
Proof.
  intros Hh Hx Hs Hp Hl. unfold KiReadyThread. rewrite (locked_run _ _ _ _ Hh), (thread_run _ _ _ _ Hx), Hs.
  change (negb _ && _ && _) with false. cbv iota. rewrite (deref_run (λ w : sched, processes w !! ThreadProcess x) _ _ _ Hp).
  unfold put_thread. rewrite modify_run. by rewrite (list_run _ _ _ l).
Qed.

(** The dispatcher database is locked around it. *)
Lemma make_ready_run {B} c t x p l (k : M K B) s :
  cpu_is c DISPATCH_LEVEL unlocked (cpu_of s) → threads (sched_of s) !! t = Some x → State x = THREAD_STATE_INITIALIZED →
  processes (sched_of s) !! ThreadProcess x = Some p → Scheduler_list (sched_of s) !! Priority x = Some l →
  (in_sched KiLockDispatcherDataBaseAtDpcLevel >>> in_sched (KiReadyThread t) >>>
   in_sched KiUnLockDispatcherDataBaseFromDpcLevel >>> k) s =
  k (set_sched (readied t (PQuantum p) x l (sched_of s)) s).
Proof.
  intros [Hc Hi Hl He Hd] Hx Hs Hp Hq.
  set (p1 := set_lock DispatcherDataBaseLock (SpinLk 1 c 2) (cpu_of s)).
  assert (KiLockDispatcherDataBaseAtDpcLevel (sched_of s) = Ok (tt, with_cpu p1 (sched_of s))) as E1.
  { unfold KiLockDispatcherDataBaseAtDpcLevel, in_cpu, zoom. change (cpu (sched_of s)) with (cpu_of s). rewrite (acquire_dpc_run _ _ Hl) by (rewrite Hi; done).
    unfold p1. by rewrite Hc. }
  assert (CurrentThread p1 = c ∧ CurrentIrql p1 = 2) as [Hc1 Hi1] by done.
  assert (KiReadyThread t (with_cpu p1 (sched_of s)) =
    Ok (tt, readied t (PQuantum p) x l (with_cpu p1 (sched_of s)))) as E2.
  { apply (ready_new_run c 2); try done. split; [done|done|apply lookup_insert_eq| |done].
    unfold lock_free, p1. cbn. by rewrite lookup_insert_ne. }
  assert (KiUnLockDispatcherDataBaseFromDpcLevel (readied t (PQuantum p) x l (with_cpu p1 (sched_of s))) =
    Ok (tt, readied t (PQuantum p) x l (sched_of s))) as E3.
  { unfold KiUnLockDispatcherDataBaseFromDpcLevel, in_cpu, zoom. cbn [readied cpu with_lists with_threads with_cpu].
    rewrite (release_dpc_run _ 2); [|by rewrite Hc1; apply lookup_insert_eq|rewrite Hi1; lia].
    unfold p1. rewrite set_lock_twice. unfold readied, with_lists, with_threads, with_cpu. cbn.
    do 3 f_equal. unfold set_lock. rewrite insert_id by exact Hl. change (cpu (world (Pool.world (machine_of s)))) with (cpu_of s). by destruct (cpu_of s). }
  rewrite (in_sched_run _ _ _ _ _ E1 eq_refl), (in_sched_run _ _ (set_sched _ s) _ _ E2 eq_refl).
  rewrite (in_sched_run _ _ (set_sched _ (set_sched _ s)) _ _ E3 eq_refl).
  done.
Qed.

Lemma stack_frame_at x i : KernelStack x = syspte i → 0 <= i → i + THREAD_STACK_SIZE <= SYSPTES →
  trap_frame_at x = syspte i + 12220.
Proof.
  unfold trap_frame_at, stack_top, syspte, SYSPTES, sizeof_KTRAPFRAME, THREAD_STACK_SIZE, PGSIZE.
  change (MMSYSPTE_SIZE / 4096) with 65536. change MMSYSPTE_START with 0x85800000. intros -> H0 H.
  rewrite (u32_small (_ + _)) by lia. rewrite u32_small by lia. lia.
Qed.

(** What a fork needs: process [p] is [x] (and [kp] for the scheduler, its
    header is [h]), the current thread [c] is [z] (and [y]) and came from user
    mode with the frame [f], and [l] is ready at the priority of [p]. *)
Record can_fork s (p : addr) (x : EPROCESS) (kp : KPROCESS) (h : OBJECT_HEADER) (ty : OBJECT_TYPE) (t : addr) (w : io FS FIL ps)
    (z : KTHREAD) (y : ETHREAD) (f : KTRAPFRAME) (l : list addr) : Prop := {
  cf_cpu : cpu_is (CurrentThread (cpu_of s)) (CurrentIrql (cpu_of s)) unlocked (cpu_of s) ∧
    0 <= CurrentIrql (cpu_of s) <= DISPATCH_LEVEL;
  cf_lock : lock_free (ProcessLock p) (cpu_of s) ∧ ProcessLock p ≠ DispatcherDataBaseLock ∧ ProcessLock p ≠ ExitThreadLock;
  cf_create : can_create run_dpc (lock_owned (ProcessLock p) s) p x kp ty t w;
  cf_stack : stack_pool run_dpc (vm_of (lock_owned (ProcessLock p) s)) ∧ stack_room (vm_of s);
  cf_current : CurrentThread (cpu_of s) ≠ NULL ∧ threads (sched_of s) !! CurrentThread (cpu_of s) = Some z ∧
    ethreads (ps_of s) !! CurrentThread (cpu_of s) = Some y ∧ trapframes (ps_of s) !! trap_frame_at z = Some f;
  cf_kernel_stack : ∃ k, KernelStack z = syspte k ∧ 0 <= k ∧ k + THREAD_STACK_SIZE <= SYSPTES ∧
    bit (MiSystemPteBitmap (vm_of s)) k = true;
  cf_queue : Scheduler_list (sched_of s) !! BasePriority x = Some l;
  cf_header : objects s !! p = Some h }.

(** The new thread, of the scheduler and of its process. *)
Definition forked_tcb (p : addr) (x : EPROCESS) (kp : KPROCESS) (stack : addr) : KTHREAD :=
  Thread THREAD_STATE_READY (PQuantum kp) p 0 (BasePriority x) stack [] (Some AtStart).
Definition forked_ethread (p : addr) (y : ETHREAD) (name : option (list Z)) : ETHREAD :=
  Ethread (Z.lor (Z.lor THREAD_FLAG_ALLOCATED THREAD_FLAG_INSERTED) THREAD_FLAG_CONTEXT_CREATED) p (UserStack y)
    (take (Z.to_nat MAX_NAME_LENGTH) (default name_ThreadName name)) UserMode.
Definition forked_process (t : addr) (x : EPROCESS) : EPROCESS :=
  set_Rundown (snd (InterlockedIncrement (RundownProtect x)))
    (set_ActiveThreads (u32 (ActiveThreads x + 1)) (set_threads (ThreadListHead x ++ [t]) x)).

Lemma fork_run fuel s p x kp h ty t w z y f l name context garbage :
  can_fork s p x kp h ty t w z y f l →
  ∃ s' i, PspCreateThread run_dpc fuel p name NULL context garbage s = Ok ((STATUS_SUCCESS, t), s') ∧
    cpu_of s' = cpu_of s ∧
    threads (sched_of s') = <[t := forked_tcb p x kp (syspte i)]> (threads (sched_of s)) ∧
    Scheduler_list (sched_of s') = <[BasePriority x := l ++ [t]]> (Scheduler_list (sched_of s)) ∧
    ethreads (ps_of s') = <[t := forked_ethread p y name]> (ethreads (ps_of s)) ∧
    eprocesses (ps_of s') = <[p := forked_process t x]> (eprocesses (ps_of s)) ∧
    trapframes (ps_of s') !! trap_frame_at (forked_tcb p x kp (syspte i)) = Some (start_frame y (Some f) NULL) ∧
    start_frames (ps_of s') !! user_start_at (forked_tcb p x kp (syspte i)) =
      Some (SchedFrame FL_MBS KiRunUserThread (trap_frame_at (forked_tcb p x kp (syspte i)))) ∧
    objects s' = <[t := created (ThreadObjectType (ps_of s)) None new_header]> (objects s).
Proof.
  intros [[Hcpu Hi] (Hl & Hd & He) Hcc [Hst Hroom] (Hc0 & Hz & Hy & Hf) (j & Hk & Hj0 & Hj & Hb) Hq Hh].
  unfold PspCreateThread. pose proof Hcc as [(o & Hown) (Hx & Hact & Hkp) _ _ (Htp & Htc)].
  rewrite (process_run p _ s x Hx), (acquire_lock_run _ _ _ Hl) by lia. set (s1 := lock_owned (ProcessLock p) s) in *.
  destruct (stack_run run_dpc (vm_of (fresh t (thread_object ty t w s1))) Hst Hroom) as (i & c & b & Hs & Hi0 & Hi1 & Hfit).
  change (NULL =? NULL) with true.
  pose proof (allocate_clone_run run_dpc fuel s1 p x kp ty t w garbage y i c b Hcc Hy Hs Hi0) as Ha.
  rewrite (bind_Ok _ _ _ _ _ Ha). cbv iota beta. change (K_SUCCESS STATUS_SUCCESS) with true. cbn [negb].
  set (k0 := new_tcb p x kp (syspte i)) in *.
  set (s2 := with_thread t k0 _ _ _) in *.
  rewrite (ethread_run t _ s2 (Ethread 0 p (UserStack y) [] KernelMode)) by (apply lookup_insert_eq).
  rewrite assert_true by done. rewrite put_ethread_run. set (s3 := with_ethread t _ s2).
  unfold PspInsertThread. rewrite !bind_assoc, (process_locked_run p o _ s3 Hown), bind_assoc.
  rewrite (set_process_run _ p _ s3 x) by exact Hx. rewrite bind_ret.
  set (s4 := with_process p _ s3).
  rewrite (ethread_run t _ s4 (Ethread 1 p (UserStack y) (take (Z.to_nat MAX_NAME_LENGTH) (default name_ThreadName name)) KernelMode)) by (apply lookup_insert_eq).
  rewrite assert_true by done. rewrite put_ethread_run, current_thread_run. set (s5 := with_ethread t _ s4).
  change (CurrentThread (cpu_of s5)) with (CurrentThread (cpu_of s)).
  assert (CurrentThread (cpu_of s) ≠ t) as Hct by (intros E; by apply Htc).
  assert (trap_frame_at z = syspte j + 12220) as Efz by by apply stack_frame_at.
  assert (trap_frame_at k0 = syspte i + 12220) as Efk by by apply stack_frame_at.
  assert (i ≠ j) as Hij.
  { intros ->. destruct Hfit as [_ Hall]. specialize (Hall j ltac:(unfold THREAD_STACK_SIZE; lia)).
    assert (true = false) by (rewrite <- Hb; exact Hall). done. }
  assert (0 <= syspte i) as Hpos by (unfold syspte, PGSIZE; assert (0 <= MMSYSPTE_START) by done; lia).
  pose proof (user_context_run t (CurrentThread (cpu_of s)) NULL s5 k0
    (Ethread 3 p (UserStack y) (take (Z.to_nat MAX_NAME_LENGTH) (default name_ThreadName name)) KernelMode) (Some f)) as Hctx.
  rewrite (bind_Ok _ _ _ _ _ (Hctx ltac:(apply lookup_insert_eq) ltac:(apply lookup_insert_eq) ltac:(done) ltac:(lia)
    ltac:(split; [done|split; [done|exists z; split_and!;
      [by cbn; rewrite lookup_insert_ne|exact Hf|unfold syspte, PGSIZE in *; lia]]]))).
  clear Hctx. change (K_SUCCESS STATUS_SUCCESS) with true. cbn [negb].
  set (s6 := with_context t k0 _ _ s5). set (k1 := set_StackPointer (Some AtStart) k0).
  rewrite (set_ethread_run _ t _ s6 (Ethread 3 p (UserStack y) (take (Z.to_nat MAX_NAME_LENGTH) (default name_ThreadName name)) UserMode))
    by (apply lookup_insert_eq).
  set (s7 := with_ethread t _ s6). destruct Hcpu as [_ _ Hlk Hex Hdpc].
  assert (cpu_is (CurrentThread (cpu_of s)) DISPATCH_LEVEL unlocked (cpu_of s7)) as Hcpu7.
  { split; [done|done| | |done].
    - cbn. by rewrite lookup_insert_ne.
    - unfold lock_free. cbn. by rewrite lookup_insert_ne. }
  rewrite (make_ready_run (CurrentThread (cpu_of s)) t k1 kp l _ s7 Hcpu7 ltac:(apply lookup_insert_eq) eq_refl Hkp Hq).
  set (s8 := set_sched _ s7).
  rewrite (set_process_run _ p _ s8 (set_threads (ThreadListHead x ++ [t]) x)) by (apply lookup_insert_eq).
  set (s9 := with_process p _ s8). unfold PsIncProcessRundownProtect, ObIsValidObject. rewrite !bind_assoc.
  rewrite (header_run p _ s9 h) by (cbn; by rewrite lookup_insert_ne). rewrite bind_ret.
  rewrite (set_process_run _ p _ s9 (set_ActiveThreads (u32 (ActiveThreads x + 1)) (set_threads (ThreadListHead x ++ [t]) x)))
    by (apply lookup_insert_eq).
  set (s10 := with_process p _ s9).
  rewrite (release_lock_run run_dpc _ (CurrentIrql (cpu_of s)) _ s10); [|split; [done|apply lookup_insert_eq]|lia|by right].
  eexists _, i. split; [reflexivity|]. split; [|split_and!].
  - change (cpu_of (set_cpu ?q ?r)) with q. change (cpu_of s10) with (cpu_of s1). by apply (relock_back (ProcessLock p)).
  - cbn. rewrite !insert_insert_eq. reflexivity.
  - reflexivity.
  - cbn. rewrite !insert_insert_eq. reflexivity.
  - cbn. rewrite !insert_insert_eq. reflexivity.
  - change (trap_frame_at (forked_tcb p x kp (syspte i))) with (trap_frame_at k0). cbn. apply lookup_insert_eq.
  - change (user_start_at (forked_tcb p x kp (syspte i))) with (user_start_at k0).
    change (trap_frame_at (forked_tcb p x kp (syspte i))) with (trap_frame_at k0). cbn. apply lookup_insert_eq.
  - reflexivity.
Qed.

(** ** The theorems *)

(** KiCreateThreadContext for a thread of user mode puts on its new kernel
    stack the frame its first switch returns through: the frame of the thread
    it is a copy of with 0 as the result of the system call, or, for a new
    thread, one that enters StartRoutine with the user segments, interrupts on
    and the stack pointer above the user stack; nothing else changes. *)
Theorem user_context_created t CloneTcb StartRoutine s x y clone :
  threads (sched_of s) !! t = Some x → ethreads (ps_of s) !! t = Some y →
  0 <= StartRoutine < USERTOP → trap_frame_at x ≠ NULL →
  match clone with
  | Some f => StartRoutine = NULL ∧ CloneTcb ≠ NULL ∧ ∃ z, threads (sched_of s) !! CloneTcb = Some z ∧
      trapframes (ps_of s) !! trap_frame_at z = Some f ∧ trap_frame_at z ≠ trap_frame_at x
  | None => StartRoutine ≠ NULL ∧ CloneTcb = NULL
  end →
  KiCreateThreadContext t CloneTcb StartRoutine NULL s =
    Ok (STATUS_SUCCESS, with_context t x y (start_frame y clone StartRoutine) s).
Proof. exact (user_context_run t CloneTcb StartRoutine s x y clone). Qed.

(** C10: fork: PspCreateThread without a start routine makes a thread of the
    child that is a copy of the current one.  It is the last of the child's
    threads and of the ready queue of its priority, shares the address of the
    user stack, and returns from the system call with 0; the counts of the
    child go up by one, and the processor is as before (locks, level). *)
Theorem fork_creates_thread fuel s p x kp h ty t w z y f l name context garbage :
  can_fork s p x kp h ty t w z y f l →
  ∃ s' i, PspCreateThread run_dpc fuel p name NULL context garbage s = Ok ((STATUS_SUCCESS, t), s') ∧
    cpu_of s' = cpu_of s ∧
    threads (sched_of s') = <[t := forked_tcb p x kp (syspte i)]> (threads (sched_of s)) ∧
    Scheduler_list (sched_of s') = <[BasePriority x := l ++ [t]]> (Scheduler_list (sched_of s)) ∧
    ethreads (ps_of s') = <[t := forked_ethread p y name]> (ethreads (ps_of s)) ∧
    eprocesses (ps_of s') = <[p := forked_process t x]> (eprocesses (ps_of s)) ∧
    trapframes (ps_of s') !! trap_frame_at (forked_tcb p x kp (syspte i)) = Some (start_frame y (Some f) NULL) ∧
    start_frames (ps_of s') !! user_start_at (forked_tcb p x kp (syspte i)) =
      Some (SchedFrame FL_MBS KiRunUserThread (trap_frame_at (forked_tcb p x kp (syspte i)))).
Proof.
  intros H. destruct (fork_run fuel s p x kp h ty t w z y f l name context garbage H)
    as (s' & i & H1 & H2 & H3 & H4 & H5 & H6 & H7 & H8 & _). by exists s', i.
Qed.

(** The tree of processes and threads: what the fields of a thread and of the
    process it is in the list of say about each other.  [first] is the thread
    that is no object. *)
Record process_tree (first : addr) s : Prop := {
  pt_process : ∀ q x, eprocesses (ps_of s) !! q = Some x →
    NoDup (ThreadListHead x) ∧ ActiveThreads x = Z.of_nat (length (ThreadListHead x)) ∧
    ActiveThreads x <= RundownProtect x;
  pt_thread : ∀ q x u, eprocesses (ps_of s) !! q = Some x → u ∈ ThreadListHead x →
    (u = first ∨ is_Some (objects s !! u)) ∧
    ∃ y k, ethreads (ps_of s) !! u = Some y ∧ ThreadsProcess y = q ∧ threads (sched_of s) !! u = Some k ∧ ThreadProcess k = q;
  pt_ready : ∀ pr l u, Scheduler_list (sched_of s) !! pr = Some l → u ∈ l →
    (u = first ∨ is_Some (objects s !! u)) ∧
    ∃ k, threads (sched_of s) !! u = Some k ∧ State k = THREAD_STATE_READY ∧ Priority k = pr }.

End fork.

Section ends.
Context {FS FIL : Type} `{!FatFs FS FIL} (run_dpc : addr → M prcb unit).
Local Notation K := (ob (io FS FIL ps)).
Implicit Type s : K.
#[local] Instance ends_world : ObWorld ps := ps_world run_dpc.
#[local] Instance ends_lock : SpinLock sched := sched_locks run_dpc.

(** The object of a thread that has no kernel stack cannot be dropped: the
    close procedure insists on a terminated thread. *)
Lemma drop_unterminated_run fuel s t ty h k :
  objects s !! t = Some h → Magic h = OBJECT_HEADER_MAGIC → RefCount h = 1 → OpenHandleCount h = 0 →
  TEST_FLAG (Attributes h) OBJ_PERMANENT = false → types s !! ObjectType h = Some ty →
  CloseProcedure ty = PsCloseThreadProcedure → t ≠ CurrentThread (cpu_of s) →
  threads (sched_of s) !! t = Some k → State k ≠ THREAD_STATE_TERMINATED →
  ObDereferenceObject (close run_dpc (S fuel)) t s = Stop BugCheck.
Proof.
  intros Ho Hm Hr Hh Hp Ht Hc Hne Hk Hs.
  rewrite (dereference_unfold _ t s h Ho) by (repeat split; rewrite ?Hr; done || lia). cbv zeta. rewrite Hr.
  change (0 <? 1 - 1) with false. cbv iota. set (s1 := with_objects _ s). unfold ObRemoveObject.
  rewrite (header_run t _ s1 (set_RefCount (1 - 1) h)) by (apply lookup_insert_eq).
  cbn [RefCount OpenHandleCount Attributes ObjectType set_RefCount].
  rewrite assert_true by done. rewrite Hh, assert_true by done. rewrite Hp, assert_true by done. cbv zeta.
  rewrite (type_of_run _ _ s1 ty Ht), Hc. change (negb (PsCloseThreadProcedure =? NULL)) with true. cbn [when].
  rewrite bind_assoc. unfold close at 1. unfold io_call. change (PsCloseThreadProcedure =? IoCloseFileProcedure) with false.
  cbv iota. cbn [ps_call]. change (PsCloseThreadProcedure =? PspCloseProcessProcedure) with false.
  change (PsCloseThreadProcedure =? PsCloseThreadProcedure) with true. cbv iota. rewrite bind_assoc.
  unfold PsCloseThread. rewrite bind_assoc, current_thread_run, bind_assoc.
  rewrite assert_true by (apply negb_true_iff, Z.eqb_neq; intros E; by apply Hne).
  rewrite bind_assoc, (tcb_run t _ s1 k Hk), bind_assoc. by rewrite assert_false by by apply bool_decide_eq_false.
Qed.

(** Where the current process is. *)
Definition current_process s (P : addr) (x : EPROCESS) : Prop :=
  CurrentThread (cpu_of s) ≠ NULL ∧ eprocesses (ps_of s) !! P = Some x ∧
  ∃ z, threads (sched_of s) !! CurrentThread (cpu_of s) = Some z ∧ ThreadProcess z = P.

Lemma current_process_run {B} (k : addr → M K B) s P x :
  current_process s P x → bind PsGetCurrentProcess k s = k P s.
Proof.
  intros (Hc & _ & z & Hz & <-). unfold PsGetCurrentProcess. rewrite bind_assoc, current_thread_run.
  destruct (Z.eqb_spec (CurrentThread (cpu_of s)) NULL) as [|_]; [done|].
  by rewrite bind_assoc, (tcb_run _ _ s z Hz).
Qed.

(** KExitProcess of another process, a child of the caller included, never
    returns: PsGetProcessFromPID finds the object but answers NULL, which is
    then dereferenced. *)
Theorem exit_other_process_never_returns fuel s P x (ProcessId : nat) garbage l o :
  current_process s P x → (0 < ProcessId < Z.to_nat EX_MAX_HANDLE)%nat → UniqueProcessId x ≠ Z.of_nat ProcessId →
  tables s !! PidTable (ps_of s) = Some l → l !! ProcessId = Some o → eprocesses (ps_of s) !! NULL = None →
  KExitProcess run_dpc fuel (Z.of_nat ProcessId) garbage s = Stop Fault.
Proof.
  intros Hp Hi Hne Ht Ho H0. unfold KExitProcess. rewrite (current_process_run _ s P x Hp).
  destruct (Z.eqb_spec (Z.of_nat ProcessId) 0) as [|_]; [lia|]. destruct Hp as (_ & Hx & _).
  rewrite (process_run P _ s x Hx). destruct (Z.eqb_spec (UniqueProcessId x) (Z.of_nat ProcessId)) as [|_]; [done|].
  unfold PsGetProcessFromPID. rewrite bind_assoc, in_ps_gets.
  rewrite bind_assoc, (bind_Ok _ _ _ _ _ (lookup_handle_run ProcessId _ s l o Ht Ho ltac:(lia))).
  change (K_SUCCESS STATUS_SUCCESS) with true. cbn [negb when]. rewrite bind_assoc, !bind_ret.
  unfold process, bind, in_ps, in_outer, inside, zoom, deref. cbn. unfold ps_of in H0. by rewrite H0.
Qed.

(** When no kernel stack is left, PspCreateThread does not return
    STATUS_INSUFFICIENT_RESOURCES: dropping the new object runs PsCloseThread,
    which asserts a terminated thread, and the kernel stops. *)
Theorem create_thread_without_stack fuel s p x kp ty t w name StartRoutine context garbage :
  lock_free (ProcessLock p) (cpu_of s) → CurrentIrql (cpu_of s) <= DISPATCH_LEVEL →
  can_create run_dpc (lock_owned (ProcessLock p) s) p x kp ty t w → CloseProcedure ty = PsCloseThreadProcedure →
  stack_pool run_dpc (vm_of (lock_owned (ProcessLock p) s)) → ¬ stack_room (vm_of s) →
  PspCreateThread run_dpc (S fuel) p name StartRoutine context garbage s = Stop BugCheck.
Proof.
  intros Hl Hi Hcc Hcl Hst Hn. pose proof Hcc as [_ (Hx & _ & _) _ _ (_ & Htc)].
  unfold PspCreateThread. rewrite (process_run p _ s x Hx), (acquire_lock_run _ _ _ Hl) by lia.
  set (s1 := lock_owned (ProcessLock p) s) in *. cbv zeta. unfold bind at 1.
  pose proof (no_stack_run run_dpc (vm_of (fresh t (thread_object ty t w s1))) Hst Hn) as Hs.
  rewrite (allocate_object_run run_dpc (S fuel) _ _ _ _ _ _ _ _ _ Hcc), (in_vm_run _ _ _ _ _ Hs).
  change (NULL =? NULL) with true. cbv iota. unfold bind at 1.
  rewrite (drop_unterminated_run _ _ t (set_list (t :: Object_List ty) ty)
    (created (ThreadObjectType (ps_of s1)) None new_header) zero_tcb); try done; try apply lookup_insert_eq.
Qed.

(** Signalling an object that nobody waits for. *)
Lemma notify_run fuel o d (s : sched) :
  cpu_is (CurrentThread (cpu s)) (CurrentIrql (cpu s)) unlocked (cpu s) → 0 <= CurrentIrql (cpu s) <= DISPATCH_LEVEL →
  dobjects s !! o = Some d → WaitListHead d = [] → SignalState d < MAX_DISPATCH_SIGNAL_STATE →
  KeReleaseNotificationDHeader run_dpc fuel o s = Ok (0, with_dobjects (<[o := set_Signal 1 d]> (dobjects s)) s).
Proof.
  intros [_ _ Hl _ Hd] Hi Ho Hw Hs. unfold DISPATCH_LEVEL in Hi. unfold KeReleaseNotificationDHeader, KiLockDispatcherDataBase.
  rewrite (cpu_run _ _ _ _ _ (acquire_run DispatcherDataBaseLock (cpu s) Hl ltac:(lia))). set (p1 := set_lock _ _ _).
  unfold KiDHeaderReleaseAll. rewrite bind_assoc, dispatch_run by done. rewrite bind_assoc, (dobject_run _ _ _ d) by done.
  unfold assert_releasable. rewrite !bind_assoc, assert_true by by apply Z.ltb_lt.
  rewrite assert_true by (rewrite Hw; by apply orb_true_r). rewrite bind_assoc.
  assert (release_all_loop fuel o (with_cpu p1 s) = Ok (tt, with_cpu p1 s)) as Hloop
    by (destruct fuel; cbn [release_all_loop]; by rewrite (dobject_run _ _ _ d), Hw).
  rewrite (bind_Ok _ _ _ _ _ Hloop), bind_assoc, (dobject_run _ _ _ d) by done. unfold put_dobject. rewrite modify_run.
  unfold KiUnLockDispatcherDataBase.
  erewrite cpu_run; [|exact (release_run run_dpc true 0 DispatcherDataBaseLock p1 (CurrentIrql (cpu s))
    ltac:(apply lookup_insert_eq) eq_refl ltac:(lia) ltac:(by right))].
  unfold p1. rewrite relock_back by exact Hl. by destruct s.
Qed.

(** PspExitProcess of a process whose first thread is not the current one
    terminates not that thread but whatever the uninitialised ExitedThread
    holds: with an address that is no thread it does not return. *)
Theorem exit_process_uses_garbage fuel s p x h d u l garbage :
  cpu_is (CurrentThread (cpu_of s)) (CurrentIrql (cpu_of s)) unlocked (cpu_of s) → 0 <= CurrentIrql (cpu_of s) <= DISPATCH_LEVEL →
  objects s !! p = Some h → live 1 h → eprocesses (ps_of s) !! p = Some x → PcbState x ≠ PROCESS_STATE_TERMINATED →
  Z.land (PFlags x) 7 = 7 → lock_free (ProcessLock p) (cpu_of s) →
  dobjects (sched_of s) !! p = Some d → WaitListHead d = [] → SignalState d < MAX_DISPATCH_SIGNAL_STATE →
  ThreadListHead x = u :: l → u ≠ CurrentThread (cpu_of s) →
  garbage ≠ NULL → garbage ≠ CurrentThread (cpu_of s) → threads (sched_of s) !! garbage = None →
  PspExitProcess run_dpc (S fuel) p garbage s = Stop Fault.
Proof.
  intros Hcpu Hi Hh Hlive Hx Hst Hfl Hl Hd Hw Hsg Hth Hu Hg Hgc Hgt. pose proof Hlive as (Hm & _ & _).
  assert (∀ b, b ∈ [1; 2; 4] → TEST_FLAG (ProcessGetCleanupFlags x) b = true) as Hflag.
  { intros b Hb. unfold TEST_FLAG, ProcessGetCleanupFlags, PROCESS_FLAG_CLEANUP_MASK. rewrite <- Z.land_assoc.
    assert (Z.land 15 b = Z.land 7 b) as -> by (rewrite !elem_of_cons, elem_of_nil in Hb; destruct_or! Hb; subst; done).
    rewrite Z.land_assoc, Hfl. rewrite !elem_of_cons, elem_of_nil in Hb. destruct_or! Hb; subst; done. }
  unfold PspExitProcess. rewrite current_thread_run, (valid_run p _ s h Hh Hm), (process_run p _ s x Hx).
  rewrite assert_true by by apply negb_true_iff, bool_decide_eq_false.
  rewrite !assert_true by (apply Hflag; set_solver).
  unfold put_process. rewrite in_ps_modify. set (s1 := on_ps _ s).
  erewrite in_sched_run; [|by apply (notify_run (S fuel) p d)|done]. set (s2 := set_sched _ s1).
  rewrite (bind_Ok _ _ _ _ _ (reference_run p s2 h Hh Hlive ltac:(exact (proj2 Hi)))). set (s3 := with_objects _ s2).
  rewrite (acquire_lock_run _ _ s3 Hl) by exact (proj2 Hi). set (s4 := lock_owned _ s3).
  cbn [exit_loop]. rewrite bind_assoc.
  rewrite (process_run p _ s4 (set_PcbState PROCESS_STATE_TERMINATED x)) by (apply lookup_insert_eq).
  cbn [ThreadListHead set_PcbState]. rewrite Hth. unfold put_process. rewrite bind_assoc, in_ps_modify.
  destruct (Z.eqb_spec u (CurrentThread (cpu_of s))) as [|_]; [done|]. cbn [negb]. rewrite bind_assoc. set (s5 := on_ps _ s4).
  unfold exit_thread, PsExitThread. rewrite bind_assoc.
  change (in_sched (in_cpu KeGetCurrentThread)) with (current_thread (FS := FS) (FIL := FIL)). rewrite current_thread_run.
  change (CurrentThread (cpu_of s5)) with (CurrentThread (cpu_of s)).
  destruct (Z.eqb_spec garbage NULL) as [|_]; [done|]. destruct (Z.eqb_spec garbage (CurrentThread (cpu_of s))) as [|_]; [done|].
  assert (tcb garbage s5 = Stop Fault) as E.
  { assert (threads (sched_of s5) !! garbage = None) as Hgt5 by exact Hgt.
    revert Hgt5. generalize s5. intros r Hr. unfold tcb, in_sched, in_machine, in_ps, in_outer, inside, zoom, bind, thread, deref, gets.
    unfold sched_of, machine_of, ps_of in Hr. cbn in *. by rewrite Hr. }
  change (in_sched (thread garbage)) with (tcb (FS := FS) (FIL := FIL) garbage). unfold bind. by rewrite E.
Qed.
End ends.

(** ** Concrete runs

    The current thread is the first one, in the parent; the child is an object,
    [x].  The first [n] pages for kernel stacks are free, the fourth is the
    stack of the current thread. *)

#[local] Existing Instance Io.one_file.

Definition demo_child : addr := demo_object.
Definition demo_current : addr := 0x9000.
Definition demo_parent : addr := 0xA000.
Definition demo_frame : KTRAPFRAME := Trapframe 5 [6; 7] 0x23 0x23 0x800020 0x1b 0x202 0x7003000 0x23.
Definition demo_tcb : KTHREAD := Thread THREAD_STATE_RUNNING 3 demo_parent 0 3 (syspte 3) [] (Some AtStart).
Definition demo_ethread : ETHREAD := Ethread 7 demo_parent 0x7000000 [] UserMode.
Definition demo_eprocess (l : list addr) : EPROCESS :=
  Eprocess PROCESS_STATE_ACTIVE 3 NULL NULL 7 NULL (Z.of_nat (length l)) 2 1 demo_parent [] l (Z.of_nat (length l)).
Definition demo_parent_process : EPROCESS :=
  Eprocess PROCESS_STATE_ACTIVE 3 NULL NULL 7 NULL 2 1 0 NULL [] [demo_current] 1.
Definition demo_cpu : prcb :=
  Prcb 0 demo_current [] 0 {[ DispatcherDataBaseLock := unlocked; ExitThreadLock := unlocked; PoolLock := unlocked;
    MmSystemPteLock := unlocked; ob_lock_addr (TypeLock (ObjectTypeList OBJECT_TYPE_THREAD)) := unlocked;
    ProcessLock demo_child := unlocked ]} ∅.
Definition demo_threads : sched :=
  Sched demo_cpu {[ demo_current := demo_tcb ]} {[ demo_child := Process 3 0x1000; demo_parent := Process 3 0x1000 ]}
    {[ demo_child := DHeader [] ProcessObject 0 NULL 0 ]} ∅ {[ 3 := [] ]} [] 0x1000 0.
Definition demo_mm3 : mm := Mm 0x1000 demo_phys (PfnDataBase demo_mm) [4; 5; 6] false.
Definition demo_machine (n : Z) : machine :=
  Pools (KernelPools names_world) (Vmm demo_mm3 (low_clear n) ∅ ∅ 0 demo_threads).
Definition demo_ps (n : Z) (l : list addr) : ps :=
  Ps {[ demo_child := demo_eprocess l; demo_parent := demo_parent_process ]} {[ demo_current := demo_ethread ]}
    {[ syspte 3 + 12220 := demo_frame ]} ∅ ∅ [demo_parent; demo_child] 0x8000 (ObjectTypeList OBJECT_TYPE_PROCESS)
    (ObjectTypeList OBJECT_TYPE_THREAD) demo_parent NULL (demo_machine n).
Definition demo_child_header : OBJECT_HEADER :=
  Header OBJECT_HEADER_MAGIC false (ObjectTypeList OBJECT_TYPE_PROCESS) 0 1 demo_name 0 Other.
Definition demo_kernel (n : Z) (l : list addr) : ob (io (list Z) nat ps) :=
  ObState {[ demo_child := demo_child_header ]}
    {[ ObjectTypeList OBJECT_TYPE_PROCESS := process_type; ObjectTypeList OBJECT_TYPE_THREAD := thread_type ]}
    {[ 0x8000 := <[2%nat := demo_child]> demo_table ]} NULL NULL NULL NULL NULL 0x8000
    (IoState ∅ ∅ ∅ ∅ ∅ ∅ [] NULL NULL 0 (demo_ps n l)).

(** The block of the new thread. *)
Definition demo_block_address : addr := MMNONPAGEPOOL_START + 168 + 24.
Definition demo_new : addr := demo_block_address + OFFSET_BODY.

Lemma demo_mm3_inv : mm_inv demo_mm3.
Proof.
  pose proof demo_mm_inv as [H1 H2 H3 _ _]. split.
  - exact (paging_ext demo_mm demo_mm3 eq_refl eq_refl H1).
  - exact H2.
  - exact H3.
  - cbn. by apply (bool_decide_unpack _); vm_compute.
  - intros f. cbn [demo_mm3 PfnFreeList]. rewrite !elem_of_cons, elem_of_nil.
    intros [->|[->|[->|[]]]]; eexists; (split; [reflexivity|done]).
Qed.

Lemma demo_stack_pool n l : 0 <= n <= 3 →
  stack_pool no_dpc (vm_of (lock_owned (ProcessLock demo_child) (demo_kernel n l))).
Proof.
  intros Hn. split; [split; [done|split; [done|by right]]|]. split; [|split].
  - apply low_clear_inv; [lia|apply demo_mm3_inv|]. intros i Hi.
    assert (i = 0 ∨ i = 1 ∨ i = 2) as [-> |[-> | ->]] by lia; (split; [split; [done|split; [done|reflexivity]]|reflexivity]).
  - cbn. lia.
  - cbn. by apply (bool_decide_unpack _); vm_compute.
Qed.

#[local] Instance demo_ps_world : ObWorld ps := ps_world no_dpc.

Lemma demo_creatable n l :
  creatable (ObjectTypeList OBJECT_TYPE_THREAD) thread_type None sizeof_ETHREAD local_variable
    (lock_owned (ProcessLock demo_child) (demo_kernel n l)).
Proof. by repeat split. Qed.

Lemma demo_ready n l :
  pa_ready NonPagedPool (sizeof_OBJECT_HEADER + sizeof_ETHREAD) (outer (lock_owned (ProcessLock demo_child) (demo_kernel n l))).
Proof.
  exists [demo_paged], [root_block; rest_block]. split; [exact names_inv|]. split; [by right|].
  split; [split; [split; [done|split; [done|by right]]|done]|]. split; [done|].
  intros b Hb Hf. apply elem_of_cons in Hb as [->|Hb]; [done|].
  apply list_elem_of_singleton in Hb as ->. by apply split_safe_large.
Qed.

Lemma demo_can_create n l : ∃ w, can_create no_dpc (lock_owned (ProcessLock demo_child) (demo_kernel n l)) demo_child
  (demo_eprocess l) (Process 3 0x1000) thread_type demo_new w.
Proof.
  destruct (pa_round _ _ tag_RHTE _ (demo_ready n l)) as (q & w & Ha & _).
  assert (match pa_alloc NonPagedPool (sizeof_OBJECT_HEADER + sizeof_ETHREAD) tag_RHTE
    (outer (lock_owned (ProcessLock demo_child) (demo_kernel n l))) with Ok (q, _) => q =? demo_block_address | _ => false end = true)
    as E by (vm_compute; reflexivity).
  rewrite Ha in E. apply Z.eqb_eq in E as ->. exists w. split.
  - exists 0. done.
  - done.
  - split; [apply demo_creatable|]. split; [done|split; [done|by right]].
  - split; [apply demo_ready|]. split; [exact Ha|done].
  - done.
Qed.

Lemma demo_can_fork : ∃ w, can_fork no_dpc (demo_kernel 3 []) demo_child (demo_eprocess []) (Process 3 0x1000)
  demo_child_header thread_type demo_new w demo_tcb demo_ethread demo_frame [].
Proof.
  destruct (demo_can_create 3 []) as [w Hw]. exists w. split; try done.
  - split; [by apply demo_stack_pool|]. exists 0. split; [done|]. split; [by vm_compute|].
    intros j Hj. unfold THREAD_STACK_SIZE in Hj. change (bit (low_clear 3) j = false).
    rewrite low_clear_bit by lia. apply Z.leb_gt. lia.
  - exists 3. split; [done|]. split; [done|]. split; [by vm_compute|].
    change (bit (low_clear 3) 3 = true). by rewrite low_clear_bit by lia.
Qed.

Lemma fork_creates_thread_witness : ∃ t s',
  PspCreateThread no_dpc 1 demo_child (Some []) NULL NULL (OtherObject, 0) (demo_kernel 3 []) = Ok ((STATUS_SUCCESS, t), s') ∧
  Scheduler_list (sched_of s') !! 3 = Some [t] ∧ ethreads (ps_of s') !! t = Some (Ethread 7 demo_child 0x7000000 [] UserMode).
Proof.
  destruct demo_can_fork as [w H].
  destruct (fork_creates_thread no_dpc 1 _ _ _ _ _ _ _ _ _ _ _ _ (Some []) NULL (OtherObject, 0) H)
    as (s' & i & Hr & _ & _ & Hq & He & _).
  exists demo_new, s'. split; [exact Hr|]. rewrite Hq, He. split; [reflexivity|apply lookup_insert_eq].
Defined.

Lemma demo_tree : process_tree demo_current (demo_kernel 3 []).
Proof.
  constructor.
  - intros q x. change (eprocesses (ps_of (demo_kernel 3 []))) with
      ({[ demo_child := demo_eprocess []; demo_parent := demo_parent_process ]} : gmap addr EPROCESS).
    rewrite lookup_insert_Some, lookup_singleton_Some. intros [[<- <-]|[_ [<- <-]]].
    + split; [by constructor|done].
    + split; [by apply NoDup_singleton|done].
  - intros q x u. change (eprocesses (ps_of (demo_kernel 3 []))) with
      ({[ demo_child := demo_eprocess []; demo_parent := demo_parent_process ]} : gmap addr EPROCESS).
    rewrite lookup_insert_Some, lookup_singleton_Some. intros [[<- <-]|[_ [<- <-]]].
    + by intros ?%not_elem_of_nil.
    + intros ->%list_elem_of_singleton. split; [by left|]. by exists demo_ethread, demo_tcb.
  - intros pr l u. change (Scheduler_list (sched_of (demo_kernel 3 []))) with ({[ 3 := [] ]} : gmap Z (list addr)).
    rewrite lookup_singleton_Some. by intros [_ <-] ?%not_elem_of_nil.
Qed.

Lemma demo_objects_used : objects_used (demo_kernel 3 []).
Proof.
  intros o [h Ho]. change (objects (demo_kernel 3 [])) with ({[ demo_child := demo_child_header ]} : gmap addr OBJECT_HEADER) in Ho.
  apply lookup_singleton_Some in Ho as [<- _]. exists NonPagedPool, [root_block; rest_block], root_block.
  split; [by right|]. split; [done|]. split; [left|]. split; [done|]. reflexivity.
Qed.


Lemma user_context_created_witness : ∃ s',
  KiCreateThreadContext demo_current NULL 0x800020 NULL (demo_kernel 3 []) = Ok (STATUS_SUCCESS, s') ∧
  trapframes (ps_of s') !! (syspte 3 + 12220) = Some (Trapframe 0 [] 0x23 0x23 0x800020 0x1b 0x202 0x7003000 0x23).
Proof.
  eexists. split.
  - apply (user_context_created demo_current NULL 0x800020 (demo_kernel 3 []) demo_tcb demo_ethread None); done.
  - reflexivity.
Defined.

Lemma create_thread_without_stack_witness :
  PspCreateThread no_dpc 1 demo_child (Some []) NULL NULL (OtherObject, 0) (demo_kernel 2 []) = Stop BugCheck.
Proof.
  destruct (demo_can_create 2 []) as [w H].
  refine (create_thread_without_stack no_dpc 0 (demo_kernel 2 []) demo_child _ _ _ _ w (Some []) NULL NULL (OtherObject, 0) _ _ H _ _ _);
    try done.
  - by apply demo_stack_pool.
  - intros (j & Hj & Hc & Hall). specialize (Hall (j + 2) ltac:(unfold THREAD_STACK_SIZE; lia)).
    change (bit (low_clear 2) (j + 2) = false) in Hall. change (j + 3 <= 65536) in Hc.
    rewrite low_clear_bit in Hall by lia. apply Z.leb_gt in Hall. lia.
Defined.

Lemma exit_other_process_never_returns_witness :
  KExitProcess no_dpc 1 2 NULL (demo_kernel 3 []) = Stop Fault.
Proof.
  apply (exit_other_process_never_returns no_dpc 1 (demo_kernel 3 []) demo_parent demo_parent_process 2 NULL
    (<[2%nat := demo_child]> demo_table) demo_child); try done.
  - split; [done|]. split; [done|]. by exists demo_tcb.
  - unfold EX_MAX_HANDLE. lia.
Defined.

Lemma exit_process_uses_garbage_witness :
  PspExitProcess no_dpc 1 demo_child 0xC000 (demo_kernel 3 [0xB000]) = Stop Fault.
Proof.
  apply (exit_process_uses_garbage no_dpc 0 (demo_kernel 3 [0xB000]) demo_child (demo_eprocess [0xB000]) demo_child_header
    (DHeader [] ProcessObject 0 NULL 0) 0xB000 []); try done.
Defined.
