(* ===== verification/Trap.v ===== *)
(** * Trap: interrupts, exceptions and system calls (kern/ke/interrupt.c,
    exception.c, KiTimerInit of timer.c)

    The interrupt descriptor table and the interrupt objects, their set-up and
    the dispatch of a trap.  [W] is the rest of the kernel, which contains the
    processor and its interrupt controllers ([K]); the routines that devices
    register ([isr]), the page fault handler and the system calls work on it and
    are parameters.  [trap_function] is _TrapFunctionList of int.S, whose entries
    save the trap frame and call [_KiTrap]. *)

From Stdlib Require Import String.
From S2P Require Import Prelude Types Irql X86 Hal.
From S2P Require Ps.

#[local] Open Scope Z_scope.

(** ** interrupt.h *)

Definition INTR_CNT : Z := 256.
Definition SYSEXCEPTION_START : Z := 0x0.
Definition SYSEXCEPTION_END : Z := 0x1f.
Definition IRQ_END : Z := 0x3f.
Definition SYSCALL_INTR : Z := 0x40.
Definition IrqTimer : Z := IRQ_START + 0x0.

Definition IsDeviceInterrupt (vector : Z) : bool := (IRQ_START <=? vector) && (vector <=? IRQ_END).
Definition IsSystemException (vector : Z) : bool := (SYSEXCEPTION_START <=? vector) && (vector <=? SYSEXCEPTION_END).
Definition IsSystemCallIntr (vector : Z) : bool := vector =? SYSCALL_INTR.

Definition T_DIVIDE : Z := 0.
Definition T_DEBUG : Z := 1.
Definition T_NMI : Z := 2.
Definition T_BRKPT : Z := 3.
Definition T_OFLOW : Z := 4.
Definition T_BOUND : Z := 5.
Definition T_INVOP : Z := 6.
Definition T_DEVICE : Z := 7.
Definition T_DBLFLT : Z := 8.
Definition T_COPROC : Z := 9.
Definition T_INVTSS : Z := 10.
Definition T_SEGNP : Z := 11.
Definition T_STACK : Z := 12.
Definition T_GPFLT : Z := 13.
Definition T_PGFLT : Z := 14.
Definition T_RES : Z := 15.
Definition T_FPERR : Z := 16.
Definition T_ALIGN : Z := 17.
Definition T_MCHK : Z := 18.
Definition T_SIMDERR : Z := 19.

(** ** State *)

(** What KISRRoutine points to: nothing, the two handlers of exception.c, or the
    routine of a device. *)
Inductive PINTERRUPT_HANDLER :=
| NoRoutine
| KiExceptionHandler
| KiExceptionPFHandler
| DeviceRoutine (Routine : addr).

#[export] Instance handler_eq_dec : EqDecision PINTERRUPT_HANDLER.
Proof. solve_decision. Defined.

(** The spin lock of the object is among those of the processor. *)
Record KINTERRUPT := Interrupt {
  KISRRoutine : PINTERRUPT_HANDLER;
  Irql_ : Z;
  InterruptName : string;
  Vector_ : Z }.

Record trap (W : Type) := Trap {
  world : W;
  IDT : list IDTENTRY;
  KiInterruptObjects : list KINTERRUPT;
  Pcr_IDT : addr }.
Arguments Trap {W}.
Arguments world {W}.
Arguments IDT {W}.
Arguments KiInterruptObjects {W}.
Arguments Pcr_IDT {W}.

Definition set_world {W} (w : W) (s : trap W) : trap W := Trap w (IDT s) (KiInterruptObjects s) (Pcr_IDT s).
Definition set_gate {W} (v : Z) (g : IDTENTRY) (s : trap W) : trap W :=
  Trap (world s) (<[Z.to_nat v := g]> (IDT s)) (KiInterruptObjects s) (Pcr_IDT s).
Definition set_object {W} (v : Z) (o : KINTERRUPT) (s : trap W) : trap W :=
  Trap (world s) (IDT s) (<[Z.to_nat v := o]> (KiInterruptObjects s)) (Pcr_IDT s).

(** The name of a vector, for the messages. *)
Definition GetTrapname {W} (vector : Z) (s : trap W) : option string :=
  InterruptName <$> KiInterruptObjects s !! Z.to_nat vector.

Section trap.
Context {W : Type} (K : lens W ke).
Context (isr : addr → Ps.KTRAPFRAME → M W unit) (MmPfHandler : Z → Ps.KTRAPFRAME → M W unit) (rcr2 : W → Z).
Context (ExpSysCallEntry : addr → M W Z) (run_dpc : addr → M ke unit) (dpc_fuel : nat).
Context (trap_function : Z → addr) (ISR_Spinlock : Z → addr).

Definition in_world {A} (m : M W A) : M (trap W) A := zoom world set_world m.
Definition in_ke {A} (m : M ke A) : M (trap W) A := in_world (inside K m).

Definition object (v : Z) : M (trap W) KINTERRUPT := deref (λ s, KiInterruptObjects s !! Z.to_nat v).

(** A call through KISRRoutine. *)
Definition call (r : PINTERRUPT_HANDLER) (Trapframe : Ps.KTRAPFRAME) : M (trap W) unit :=
  match r with
  | NoRoutine => halt Fault
  | KiExceptionHandler => halt BugCheck
  | KiExceptionPFHandler =>
      let! Cr2 := gets (λ s, rcr2 (world s)) in
      let! _ := in_ke (on_hal HalEnableInterrupts) in
      in_world (MmPfHandler Cr2 Trapframe)
  | DeviceRoutine a => in_world (isr a Trapframe)
  end.

(** ** Dispatch *)

Definition KiAcknowledgeInterrupt (Irq : Z) : M hal unit :=
  assert_ ((IRQ_START <=? Irq) && (Irq <=? IRQ_END)) >>>
  outb 0x20 0x20 >>>
  when (0x28 <=? Irq) (outb 0xa0 0x20).

Definition KiInterruptDispatch (Vector : Z) (Trapframe : Ps.KTRAPFRAME) : M (trap W) unit :=
  let! IntStatus := in_ke (on_hal HalAreInterruptsEnabled) in
  assert_ (negb IntStatus) >>>
  let! o := object Vector in
  let! OldIrql := in_ke (KeRaiseIrql_hal (Irql_ o)) in
  in_ke (on_cpu (KeAcquireSpinLockAtDpcLevel (ISR_Spinlock Vector))) >>>
  let! _ := in_ke (on_hal HalEnableInterrupts) in
  call (KISRRoutine o) Trapframe >>>
  in_ke (on_hal (KiAcknowledgeInterrupt Vector)) >>>
  in_ke (on_cpu (KeReleaseSpinLockFromDpcLevel (ISR_Spinlock Vector))) >>>
  in_ke (KeLowerIrql_hal run_dpc dpc_fuel OldIrql) >>>
  let! IntStatus' := in_ke (on_hal HalAreInterruptsEnabled) in
  assert_ IntStatus'.

Definition KiExceptionDispatch (Vector : Z) (Trapframe : Ps.KTRAPFRAME) : M (trap W) unit :=
  let! o := object Vector in call (KISRRoutine o) Trapframe.

Definition set_eax (v : Z) (f : Ps.KTRAPFRAME) : Ps.KTRAPFRAME :=
  Ps.Trapframe v (Ps.other_regs f) (Ps.TrapFrame_es f) (Ps.TrapFrame_ds f) (Ps.TrapFrame_eip f)
               (Ps.TrapFrame_cs f) (Ps.TrapFrame_eflags f) (Ps.TrapFrame_esp f) (Ps.TrapFrame_ss f).

(** The arguments of a system call are on the user stack. *)
Definition KiSystemCallDispatch (Vector : Z) (Trapframe : Ps.KTRAPFRAME) : M (trap W) Ps.KTRAPFRAME :=
  let! b := in_ke (on_hal HalAreInterruptsEnabled) in
  assert_ (negb b) >>>
  let! _ := in_ke (on_hal HalEnableInterrupts) in
  assert_ (IsSystemCallIntr Vector) >>>
  let! RetStatus := in_world (ExpSysCallEntry (Ps.TrapFrame_esp Trapframe)) in
  ret (set_eax RetStatus Trapframe).

(** TrapFrame_trapno is the first argument; the result is the frame that int.S
    restores. *)
Definition _KiTrap (trapno : Z) (Trapframe : Ps.KTRAPFRAME) : M (trap W) Ps.KTRAPFRAME :=
  if IsDeviceInterrupt trapno then KiInterruptDispatch trapno Trapframe >>> ret Trapframe
  else if IsSystemException trapno then KiExceptionDispatch trapno Trapframe >>> ret Trapframe
  else if IsSystemCallIntr trapno then KiSystemCallDispatch trapno Trapframe
  else halt BugCheck.

(** ** Set-up *)

Definition KiGetIrqlForVector (Vector : Z) : Z := u32 (CLOCK1_LEVEL - u32 (Vector - IRQ_START)).

Definition KiRegisterVectortoIrql (Irql Vector : Z) : M ke unit := HalRegisterVectortoIrql Irql Vector.

(** KeInitializeSpinLock does not touch the lock. *)
Definition KiCreateInterruptObject (Vector DPL : Z) (Routine : PINTERRUPT_HANDLER) (Name : string) : M (trap W) unit :=
  assert_ (IsDeviceInterrupt Vector || IsSystemCallIntr Vector) >>>
  let! o := object Vector in
  assert_ (bool_decide (KISRRoutine o = NoRoutine)) >>>
  modify (set_gate Vector (SETGATE false GD_KT (trap_function Vector) DPL)) >>>
  let Irql := if IsDeviceInterrupt Vector then KiGetIrqlForVector Vector else PASSIVE_LEVEL in
  modify (set_object Vector (Interrupt Routine Irql Name Vector)) >>>
  when (negb (Irql =? PASSIVE_LEVEL)) (in_ke (KiRegisterVectortoIrql Irql Vector)).

Definition KiRegisterException (Vector DPL : Z) (InterruptsOn : bool) (Routine : PINTERRUPT_HANDLER) (Name : string)
    : M (trap W) unit :=
  assert_ (IsSystemException Vector) >>>
  let! o := object Vector in
  assert_ (bool_decide (KISRRoutine o = NoRoutine)) >>>
  modify (set_gate Vector (SETGATE InterruptsOn GD_KT (trap_function Vector) DPL)) >>>
  modify (set_object Vector (Interrupt Routine (Irql_ o) Name Vector)).

Definition KeInitializeExceptions : M (trap W) unit :=
  KiRegisterException T_DIVIDE 0 true KiExceptionHandler "Divide Error" >>>
  KiRegisterException T_DEBUG 0 true KiExceptionHandler "Reserved" >>>
  KiRegisterException T_NMI 0 true KiExceptionHandler "NMI" >>>
  KiRegisterException T_BRKPT 3 true KiExceptionHandler "BreakPoint" >>>
  KiRegisterException T_OFLOW 3 true KiExceptionHandler "OverFlow" >>>
  KiRegisterException T_BOUND 3 true KiExceptionHandler "Bound RangeExceeded" >>>
  KiRegisterException T_INVOP 0 true KiExceptionHandler "Invalid Opcode" >>>
  KiRegisterException T_DEVICE 0 true KiExceptionHandler "Device Not Available" >>>
  KiRegisterException T_DBLFLT 0 true KiExceptionHandler "Double Fault" >>>
  KiRegisterException T_COPROC 0 true KiExceptionHandler "Coprocessor" >>>
  KiRegisterException T_INVTSS 0 true KiExceptionHandler "Invalid TSS" >>>
  KiRegisterException T_SEGNP 0 true KiExceptionHandler "Segment Not Present" >>>
  KiRegisterException T_STACK 0 true KiExceptionHandler "Stack Segment Fault" >>>
  KiRegisterException T_GPFLT 0 true KiExceptionHandler "General Protection Fault" >>>
  KiRegisterException T_PGFLT 0 false KiExceptionPFHandler "Page Fault" >>>
  KiRegisterException T_RES 0 true KiExceptionHandler "Reserved" >>>
  KiRegisterException T_FPERR 0 true KiExceptionHandler "x87 FPU floating-point" >>>
  KiRegisterException T_ALIGN 0 true KiExceptionHandler "Alignment check" >>>
  KiRegisterException T_MCHK 0 true KiExceptionHandler "Machine check" >>>
  KiRegisterException T_SIMDERR 0 true KiExceptionHandler "SIMD floating-point exception".

Definition KiInitSyscallInterface : M (trap W) unit := KiCreateInterruptObject SYSCALL_INTR 3 NoRoutine "SysCall".

(** processor.c declares IDT as a pointer, while interrupt.c defines an array:
    what is read as the pointer is the first word of the table. *)
Definition first_word (g : IDTENTRY) : Z := gd_off_15_0 g + Z.shiftl (gd_ss g) 16.
Definition KiCreateCurrentIDT : M (trap W) unit :=
  let! p := gets Pcr_IDT in
  assert_ (p =? NULL) >>>
  let! g := deref (λ s, IDT s !! 0%nat) in
  modify (λ s, Trap (world s) (IDT s) (KiInterruptObjects s) (first_word g)).

(** for (count = 0; count < INTR_CNT; count++), [n] rounds before the end. *)
Fixpoint trap_init_loop (n : nat) (count : Z) : M (trap W) unit :=
  match n with
  | O => ret tt
  | S n' =>
      modify (set_gate count (SETGATE false GD_KT (trap_function count) 0)) >>>
      let! o := object count in
      modify (set_object count (Interrupt NoRoutine (Irql_ o) "UNKNOWN" count)) >>>
      trap_init_loop n' (count + 1)
  end.

Definition KiTrapInitialize : M (trap W) unit :=
  trap_init_loop (Z.to_nat INTR_CNT) 0 >>>
  KiCreateCurrentIDT >>>
  KeInitializeExceptions >>>
  KiInitSyscallInterface.

(** ** timer.c *)

Definition TIMER_INTERRUPTS : Z := 100.
Definition TIMER_FREQ : Z := 1193182.

Definition timer_count : Z := u16 ((TIMER_INTERRUPTS + TIMER_FREQ / 2) / TIMER_FREQ).

Definition KiTimerInit (TimerISRoutine : addr) : M (trap W) unit :=
  in_ke (on_hal (outb 0x43 0x34 >>> outb 0x40 (Z.land timer_count 0xff) >>> outb 0x40 (Z.shiftr timer_count 8))) >>>
  KiCreateInterruptObject IrqTimer 0x0 (DeviceRoutine TimerISRoutine) "Timer".
End trap.

(** ** The tables after start-up *)

Ltac exceptions := unfold T_DIVIDE, T_DEBUG, T_NMI, T_BRKPT, T_OFLOW, T_BOUND, T_INVOP, T_DEVICE, T_DBLFLT, T_COPROC,
  T_INVTSS, T_SEGNP, T_STACK, T_GPFLT, T_PGFLT, T_RES, T_FPERR, T_ALIGN, T_MCHK, T_SIMDERR in *; lia.

Section set_up.
Context {W : Type} (K : lens W ke) (trap_function : Z → addr).

(** Entering through an interrupt gate disables interrupts, through a trap gate
    does not. *)
Definition trap_gate (v : Z) : bool := (v <? 20) && negb (v =? T_PGFLT).
(** The vectors that user mode may raise with an int instruction. *)
Definition user_vector (v : Z) : bool := (T_BRKPT <=? v) && (v <=? T_BOUND) || (v =? SYSCALL_INTR).
Definition gate_of (v : Z) : IDTENTRY :=
  SETGATE (trap_gate v) GD_KT (trap_function v) (if user_vector v then 3 else 0).
Definition handler_of (v : Z) : PINTERRUPT_HANDLER :=
  if v <? 20 then if v =? T_PGFLT then KiExceptionPFHandler else KiExceptionHandler else NoRoutine.

Definition blank_gate (v : Z) : IDTENTRY := SETGATE false GD_KT (trap_function v) 0.
Definition blank_object (v : Z) : KINTERRUPT := Interrupt NoRoutine 0 "UNKNOWN" v.

(** Filling a list from its start. *)
Lemma fill_step {A} (f : Z → A) (c : nat) (l : list A) x :
  <[Z.to_nat (Z.of_nat c) := f (Z.of_nat c)]> (map f (seqZ 0 (Z.of_nat c)) ++ x :: l)
  = map f (seqZ 0 (Z.of_nat (S c))) ++ l.
Proof.
  rewrite Nat2Z.id. rewrite insert_app_r_alt by (rewrite length_map, length_seqZ; lia).
  rewrite length_map, length_seqZ, Nat2Z.id, Nat.sub_diag. cbn [insert list_insert].
  rewrite Nat2Z.inj_succ, <- Z.add_1_r, seqZ_app, map_app by lia. cbn. rewrite <- app_assoc. done.
Qed.

Lemma init_loop_run (w : W) p n c gates objects :
  length gates = n → length objects = n → Forall (λ o, Irql_ o = 0) objects →
  trap_init_loop trap_function n (Z.of_nat c)
    (Trap w (map blank_gate (seqZ 0 (Z.of_nat c)) ++ gates) (map blank_object (seqZ 0 (Z.of_nat c)) ++ objects) p)
  = Ok (tt, Trap w (map blank_gate (seqZ 0 (Z.of_nat (c + n)))) (map blank_object (seqZ 0 (Z.of_nat (c + n)))) p).
Proof.
  revert c gates objects. induction n as [|n IH]; intros c gates objects Hg Ho Hi; cbn [trap_init_loop].
  - destruct gates, objects; try discriminate. by rewrite !app_nil_r, Nat.add_0_r.
  - destruct gates as [|g gates]; [discriminate|]. destruct objects as [|o objects]; [discriminate|].
    rewrite modify_run. apply Forall_cons_1 in Hi as [Hi Hi'].
    unfold object. rewrite (deref_run (λ s : trap W, KiInterruptObjects s !! Z.to_nat (Z.of_nat c)) _ _ o).
    2:{ cbn [set_gate KiInterruptObjects]. rewrite Nat2Z.id, lookup_app_r by (rewrite length_map, length_seqZ; lia).
        by rewrite length_map, length_seqZ, Nat2Z.id, Nat.sub_diag. }
    rewrite modify_run. unfold set_object, set_gate. cbn [world IDT KiInterruptObjects Pcr_IDT].
    rewrite Hi. change (SETGATE false GD_KT (trap_function (Z.of_nat c)) 0) with (blank_gate (Z.of_nat c)).
    change (Interrupt NoRoutine 0 "UNKNOWN" (Z.of_nat c)) with (blank_object (Z.of_nat c)).
    rewrite !fill_step. replace (Z.of_nat c + 1) with (Z.of_nat (S c)) by lia.
    rewrite IH by (done || (injection Hg; injection Ho; done)). do 3 f_equal; do 2 f_equal; lia.
Qed.

(** The tables as functions of the vector. *)
Definition table {A} (f : Z → A) : list A := map f (seqZ 0 256).
Definition upd {A} (v : Z) (x : A) (f : Z → A) : Z → A := λ u, if u =? v then x else f u.

Lemma table_lookup {A} (f : Z → A) v : 0 <= v < 256 → table f !! Z.to_nat v = Some (f v).
Proof.
  intros Hv. unfold table. rewrite list_lookup_fmap, lookup_seqZ_lt by lia. cbn. by rewrite Z2Nat.id by lia.
Qed.

Lemma table_insert {A} (f : Z → A) v x : 0 <= v < 256 → <[Z.to_nat v := x]> (table f) = table (upd v x f).
Proof.
  intros Hv. apply list_eq. intros i. destruct (decide (i < 256)%nat) as [Hi|Hi].
  - rewrite <- (Nat2Z.id i) at 2. rewrite (table_lookup (upd v x f) (Z.of_nat i)) by lia. unfold upd.
    destruct (Z.eqb_spec (Z.of_nat i) v) as [<-|Hne].
    + rewrite Nat2Z.id. apply list_lookup_insert_eq. unfold table. rewrite length_map, length_seqZ. lia.
    + rewrite list_lookup_insert_ne by lia. rewrite <- (Nat2Z.id i) at 1. by rewrite table_lookup by lia.
  - rewrite !lookup_ge_None_2; [done|..]; rewrite ?length_insert; unfold table; rewrite length_map, length_seqZ; lia.
Qed.

Lemma table_ext {A} (f g : Z → A) : (∀ v, 0 <= v < 256 → f v = g v) → table f = table g.
Proof.
  intros H. apply list_fmap_ext. intros i v Hv%list_elem_of_lookup_2%elem_of_seqZ. apply H. lia.
Qed.

Lemma register_run (w : W) g h p v dpl on r name :
  0 <= v < 32 → KISRRoutine (h v) = NoRoutine → Irql_ (h v) = 0 →
  KiRegisterException trap_function v dpl on r name (Trap w (table g) (table h) p)
  = Ok (tt, Trap w (table (upd v (SETGATE on GD_KT (trap_function v) dpl) g))
                   (table (upd v (Interrupt r 0 name v) h)) p).
Proof.
  intros Hv Hr H0. unfold KiRegisterException, IsSystemException, SYSEXCEPTION_START, SYSEXCEPTION_END.
  rewrite assert_true by (apply andb_true_iff; rewrite !Z.leb_le; lia).
  unfold object. rewrite (deref_run (λ s : trap W, KiInterruptObjects s !! Z.to_nat v) _ _ (h v)) by (apply table_lookup; lia).
  rewrite assert_true by (by apply bool_decide_eq_true). rewrite modify_run. unfold modify, set_object, set_gate.
  cbn [world IDT KiInterruptObjects Pcr_IDT]. by rewrite H0, !table_insert by lia.
Qed.

Lemma syscall_run (w : W) g h p :
  KISRRoutine (h 64) = NoRoutine →
  KiInitSyscallInterface K trap_function (Trap w (table g) (table h) p)
  = Ok (tt, Trap w (table (upd 64 (SETGATE false GD_KT (trap_function 64) 3) g))
                   (table (upd 64 (Interrupt NoRoutine 0 "SysCall" 64) h)) p).
Proof.
  intros Hr. unfold KiInitSyscallInterface, KiCreateInterruptObject. change SYSCALL_INTR with 64. rewrite assert_true by done.
  unfold object. rewrite (deref_run (λ s : trap W, KiInterruptObjects s !! Z.to_nat 64) _ _ (h 64)) by (apply table_lookup; lia).
  rewrite assert_true by (by apply bool_decide_eq_true). rewrite modify_run. change (IsDeviceInterrupt 64) with false.
  cbv zeta. rewrite modify_run. cbn [when negb]. unfold set_object, set_gate.
  cbn [world IDT KiInterruptObjects Pcr_IDT]. by rewrite !table_insert by lia.
Qed.

Ltac each_vector u :=
  repeat match goal with |- context [u =? ?k] => destruct (Z.eqb_spec u k); [subst; reflexivity|] end.

Definition object_matches (v : Z) (o : KINTERRUPT) : Prop :=
  KISRRoutine o = handler_of v ∧ Irql_ o = 0 ∧ Vector_ o = v.

Lemma rest_run (w : W) :
  ∃ objects, (KiCreateCurrentIDT >>> KeInitializeExceptions trap_function >>> KiInitSyscallInterface K trap_function)
      (Trap w (table blank_gate) (table blank_object) NULL)
    = Ok (tt, Trap w (table gate_of) (table objects) (first_word (blank_gate 0))) ∧
    ∀ v, 0 <= v < 256 → object_matches v (objects v).
Proof.
  eexists. split.
  - unfold KiCreateCurrentIDT. rewrite bind_assoc, gets_run, bind_assoc, assert_true by done. rewrite bind_assoc.
    rewrite (deref_run (λ s : trap W, IDT s !! 0%nat) _ _ (blank_gate 0)) by exact (table_lookup blank_gate 0 ltac:(lia)).
    rewrite modify_run. cbn [world IDT KiInterruptObjects].
    unfold KeInitializeExceptions.
    do 19 (rewrite bind_assoc; erewrite bind_Ok by (apply register_run; [done|reflexivity|reflexivity])).
    erewrite bind_Ok by (apply register_run; [done|reflexivity|reflexivity]).
    rewrite syscall_run by reflexivity.
    match goal with |- Ok (_, Trap _ (table ?g) _ _) = _ => rewrite (table_ext g gate_of); [reflexivity|] end.
    intros u Hu. unfold upd. each_vector u. unfold gate_of, trap_gate, user_vector, blank_gate. change T_BRKPT with 3. change T_BOUND with 5.
    change SYSCALL_INTR with 64. assert (20 <= u) as H20 by exceptions.
    assert (u ≠ 64) as H64 by done. clear -H20 H64.
    rewrite (proj2 (Z.ltb_ge u 20)), (proj2 (Z.eqb_neq u 64)) by lia.
    destruct (Z.leb_spec u 5); [lia|]. by rewrite andb_false_r.
  - intros u Hu. unfold upd. repeat match goal with |- context [u =? ?k] => destruct (Z.eqb_spec u k); [subst; done|] end.
    assert (20 <= u) as H20 by exceptions.
    clear -H20. split; [|done]. unfold handler_of. by rewrite (proj2 (Z.ltb_ge u 20)) by lia.
Qed.
End set_up.

Lemma trap_init_run {W} (K : lens W ke) trap_function (s : trap W) :
  length (IDT s) = 256%nat → length (KiInterruptObjects s) = 256%nat →
  Forall (λ o, Irql_ o = 0) (KiInterruptObjects s) → Pcr_IDT s = NULL →
  ∃ objects, KiTrapInitialize K trap_function s
    = Ok (tt, Trap (world s) (table (gate_of trap_function)) (table objects) (first_word (blank_gate trap_function 0))) ∧
    ∀ v, 0 <= v < 256 → object_matches v (objects v).
Proof.
  intros Hg Ho Hi Hp. destruct (rest_run K trap_function (world s)) as (objects & R & Hm). exists objects. split; [|done].
  unfold KiTrapInitialize. destruct s as [w g o p]. cbn [world IDT KiInterruptObjects Pcr_IDT] in *. subst p.
  rewrite (bind_Ok _ _ _ _ _ (init_loop_run trap_function w NULL 256 0 g o Hg Ho Hi)). exact R.
Qed.

Section outcomes.
Context {W : Type} (K : lens W ke).
Context (isr : addr → Ps.KTRAPFRAME → M W unit) (MmPfHandler : Z → Ps.KTRAPFRAME → M W unit) (rcr2 : W → Z).
Context (ExpSysCallEntry : addr → M W Z) (run_dpc : addr → M ke unit) (dpc_fuel : nat).
Context (trap_function : Z → addr) (ISR_Spinlock : Z → addr).

Abbreviation KiTrap_ := (_KiTrap K isr MmPfHandler rcr2 ExpSysCallEntry run_dpc dpc_fuel ISR_Spinlock).

Lemma exception_run v f w g objects p :
  0 <= v < 32 → object_matches v (objects v) → v ≠ T_PGFLT →
  KiTrap_ v f (Trap w g (table objects) p) = Stop (if v <? 20 then BugCheck else Fault).
Proof.
  intros Hv (Hh & _) Hn. unfold _KiTrap.
  assert (IsDeviceInterrupt v = false) as -> by (apply andb_false_iff; left; apply Z.leb_gt; unfold IRQ_START; lia).
  assert (IsSystemException v = true) as -> by (apply andb_true_iff; rewrite !Z.leb_le; unfold SYSEXCEPTION_START, SYSEXCEPTION_END; lia).
  unfold KiExceptionDispatch, object. unfold bind at 1.
  rewrite (deref_run (λ s : trap W, KiInterruptObjects s !! Z.to_nat v) _ _ (objects v)) by (apply table_lookup; lia).
  rewrite Hh. unfold handler_of. destruct (v <? 20); [|done]. rewrite (proj2 (Z.eqb_neq v T_PGFLT)) by done. done.
Qed.

(** C26: KiTrapInitialize fills all 256 gates.  Each enters its own routine of
    int.S with the kernel code segment; the exceptions but the page fault leave
    interrupts on; user mode can raise breakpoints, overflows, bound errors and
    system calls and no other vector.  Afterwards the processor exceptions and
    unknown vectors stop the kernel with a message, but the exceptions from 20
    to 31 call a NULL routine. *)
Theorem trap_tables_initialized (s : trap W) :
  length (IDT s) = 256%nat → length (KiInterruptObjects s) = 256%nat →
  Forall (λ o, Irql_ o = 0) (KiInterruptObjects s) → Pcr_IDT s = NULL →
  ∃ s', KiTrapInitialize K trap_function s = Ok (tt, s') ∧ world s' = world s ∧
    (∀ v, 0 <= v < 256 → ∃ g, IDT s' !! Z.to_nat v = Some g ∧
       gd_ss g = GD_KT ∧ gd_p g = 1 ∧ (is_u32 (trap_function v) → gd_offset g = trap_function v) ∧
       (gd_type g = STS_TG32 ↔ v < 20 ∧ v ≠ T_PGFLT) ∧
       (gd_dpl g = 3 ↔ v = T_BRKPT ∨ v = T_OFLOW ∨ v = T_BOUND ∨ v = SYSCALL_INTR)) ∧
    (∀ v f, 0 <= v < 20 → v ≠ T_PGFLT → KiTrap_ v f s' = Stop BugCheck) ∧
    (∀ v f, 20 <= v < 32 → KiTrap_ v f s' = Stop Fault) ∧
    (∀ v f, SYSCALL_INTR < v → KiTrap_ v f s' = Stop BugCheck).
Proof.
  intros Hg Ho Hi Hp. destruct (trap_init_run K trap_function s Hg Ho Hi Hp) as (objects & R & Hm).
  eexists. split; [exact R|]. split; [done|]. split; [|split; [|split]].
  - intros v Hv. exists (gate_of trap_function v). split; [by apply table_lookup|]. split; [done|]. split; [done|].
    split; [intros; by apply gd_offset_SETGATE|]. cbn [gate_of SETGATE gd_type gd_dpl]. unfold trap_gate, user_vector. split.
    + destruct (Z.ltb_spec v 20), (Z.eqb_spec v T_PGFLT); cbn [andb negb]; split; try done; lia.
    + unfold T_BRKPT, T_OFLOW, T_BOUND.
      destruct (Z.leb_spec 3 v), (Z.leb_spec v 5), (Z.eqb_spec v SYSCALL_INTR); cbn [andb orb]; split; try done; lia.
  - intros v f Hv Hn. rewrite exception_run by (done || lia || (apply Hm; lia)). by rewrite (proj2 (Z.ltb_lt v 20)) by lia.
  - intros v f Hv. rewrite exception_run by ((apply Hm; lia) || exceptions || lia). by rewrite (proj2 (Z.ltb_ge v 20)) by lia.
  - intros v f Hv. unfold _KiTrap, SYSCALL_INTR in *.
    assert (IsDeviceInterrupt v = false) as -> by (apply andb_false_iff; right; apply Z.leb_gt; unfold IRQ_END; lia).
    assert (IsSystemException v = false) as -> by (apply andb_false_iff; right; apply Z.leb_gt; unfold SYSEXCEPTION_END; lia).
    assert (IsSystemCallIntr v = false) as -> by (apply Z.eqb_neq; unfold SYSCALL_INTR; lia). done.
Qed.
End outcomes.

(** A kernel that is its processor, before any set-up. *)
#[program] Definition lens_id {W} : lens W W := Lens (λ w, w) (λ w _, w) _ _ _.
Solve All Obligations with done.

Definition cold_traps : trap ke :=
  Trap (cold_start 0) (replicate 256 (IdtEntry 0 0 0 0 0 0 0 0 0)) (replicate 256 (Interrupt NoRoutine 0 "" 0)) NULL.

Lemma trap_tables_initialized_witness :
  let trap_function v := 0x80101000 + 16 * v in
  let KiTrap := _KiTrap lens_id (λ _ _, ret tt) (λ _ _, ret tt) (λ _, 0) (λ _, ret 0) (λ _, ret tt) 2 (λ v, 0x1000 + v) in
  ∃ s', KiTrapInitialize lens_id trap_function cold_traps = Ok (tt, s') ∧ world s' = world cold_traps ∧
    (∀ v, 0 <= v < 256 → ∃ g, IDT s' !! Z.to_nat v = Some g ∧
       gd_ss g = GD_KT ∧ gd_p g = 1 ∧ (is_u32 (trap_function v) → gd_offset g = trap_function v) ∧
       (gd_type g = STS_TG32 ↔ v < 20 ∧ v ≠ T_PGFLT) ∧
       (gd_dpl g = 3 ↔ v = T_BRKPT ∨ v = T_OFLOW ∨ v = T_BOUND ∨ v = SYSCALL_INTR)) ∧
    (∀ v f, 0 <= v < 20 → v ≠ T_PGFLT → KiTrap v f s' = Stop BugCheck) ∧
    (∀ v f, 20 <= v < 32 → KiTrap v f s' = Stop Fault) ∧
    (∀ v f, SYSCALL_INTR < v → KiTrap v f s' = Stop BugCheck).
Proof.
  intros trap_function KiTrap. apply trap_tables_initialized; [reflexivity|reflexivity| |reflexivity].
  apply Forall_replicate. reflexivity.
Defined.

(** ** The dispatch of device interrupts *)

Lemma flag_run k : on_hal HalAreInterruptsEnabled k = Ok (interrupt_flag (hal_of k), k).
Proof. by destruct k. Qed.

Section around_isr.
Context (run_dpc_h : addr → M ke unit) (run_dpc : addr → M prcb unit) (fuel : nat).
Hypothesis (Hdpc : ∀ d, refines (run_dpc_h d) (run_dpc d)) (Hlevel : ∀ d, keeps_level (run_dpc d)).

(** What the acknowledgement writes, the last write first. *)
Definition eoi (v : Z) : list (Z * Z) := (if 0x28 <=? v then [(0xa0, 0x20)] else []) ++ [(0x20, 0x20)].

Lemma eoi_ports v x : x ∈ eoi v → fst x ≠ PIC0_DATA ∧ fst x ≠ PIC1_DATA.
Proof.
  unfold eoi. destruct (0x28 <=? v); cbn [app]; rewrite ?elem_of_cons, elem_of_nil; intros H;
    repeat destruct H as [H|H]; subst; done.
Qed.

Lemma acknowledge_run v h :
  IRQ_START <= v <= IRQ_END → KiAcknowledgeInterrupt v h = Ok (tt, set_ports (eoi v ++ ports h) h).
Proof.
  intros Hv. unfold KiAcknowledgeInterrupt. rewrite assert_true by (apply andb_true_iff; rewrite !Z.leb_le; lia).
  unfold outb, eoi. rewrite modify_run. by destruct (0x28 <=? v), h.
Qed.

(** The routine of a device returns at the level it was called at, with the lock
    of its object still held and interrupts on. *)
Definition isr_returns (l : addr) (k1 k2 : ke) : Prop :=
  hal_ok k2 ∧ same_lines (hal_of k1) (hal_of k2) ∧ CurrentIrql (cpu k2) = CurrentIrql (cpu k1) ∧
  spinlocks (cpu k2) !! l = Some (SpinLk 1 (CurrentThread (cpu k2)) DISPATCH_LEVEL).

(** The processor while the routine runs. *)
Definition in_isr (l : addr) (level : Z) (p : prcb) : prcb :=
  set_lock l (SpinLk 1 (CurrentThread p) DISPATCH_LEVEL) (set_irql level p).

Lemma hal_ok_ports p h l : hal_ok (Ke p h) → (∀ x, x ∈ l → fst x ≠ PIC0_DATA ∧ fst x ≠ PIC1_DATA) →
  hal_ok (Ke p (set_ports (l ++ ports h) h)).
Proof.
  intros [Hd Hl Hn Hm [H0 H1]] Hx. split; cbn [cpu hal_of] in *; try done.
  assert (∀ q, q = PIC0_DATA ∨ q = PIC1_DATA → last_out q (l ++ ports h) = last_out q (ports h)) as E.
  { intros q Hq. induction l as [|[p0 d] l IH]; [done|]. cbn. destruct (Z.eqb_spec p0 q) as [->|].
    - exfalso. destruct (Hx (q, d)) as [? ?]; [left|]. cbn in *. naive_solver.
    - apply IH. intros x Hin. apply Hx. by right. }
  split; cbn [set_ports Pic8259Mask ports]; rewrite E; auto.
Qed.

Lemma hal_ok_flag p h b : hal_ok (Ke p h) → hal_ok (Ke p (set_flag b h)).
Proof. intros [Hd Hl Hn Hm Hi]. by split. Qed.

(** Up to the call of the routine. *)
Lemma enter_isr l level k :
  hal_ok k → CurrentIrql (cpu k) < level <= 31 → 3 < level → lock_free l (cpu k) →
  ∃ h1, KeRaiseIrql_hal level k = Ok (CurrentIrql (cpu k), Ke (set_irql level (cpu k)) h1) ∧
    on_cpu (KeAcquireSpinLockAtDpcLevel l) (Ke (set_irql level (cpu k)) h1) = Ok (tt, Ke (in_isr l level (cpu k)) h1) ∧
    hal_ok (Ke (in_isr l level (cpu k)) (set_flag true h1)) ∧ same_lines (hal_of k) h1.
Proof.
  intros Ho Hl H3 Hf. destruct (raise_sim level k Ho _ _ (raise_run level (cpu k) ltac:(lia) ltac:(lia))) as (h1 & R & Ho1 & Hs).
  exists h1. split; [done|]. split; [|split; [|done]].
  - apply (on_cpu_run _ (Ke (set_irql level (cpu k)) h1)). by apply (acquire_dpc_run l (set_irql level (cpu k))); [|cbn; lia].
  - apply hal_ok_flag. by apply (hal_ok_level _ (in_isr l level (cpu k)) Ho1).
Qed.

(** From the return of the routine. *)
Lemma leave_isr l v old k p' :
  hal_ok k → IRQ_START <= v <= IRQ_END → 2 <= CurrentIrql (cpu k) <= 31 → 0 <= old →
  spinlocks (cpu k) !! l = Some (SpinLk 1 (CurrentThread (cpu k)) DISPATCH_LEVEL) →
  KeLowerIrql run_dpc fuel old (set_lock l (SpinLk 0 NULL 0) (cpu k)) = Ok (tt, p') →
  let k1 := Ke (cpu k) (set_ports (eoi v ++ ports (hal_of k)) (hal_of k)) in
  ∃ h', on_hal (KiAcknowledgeInterrupt v) k = Ok (tt, k1) ∧
    on_cpu (KeReleaseSpinLockFromDpcLevel l) k1 = Ok (tt, Ke (set_lock l (SpinLk 0 NULL 0) (cpu k)) (hal_of k1)) ∧
    KeLowerIrql_hal run_dpc_h fuel old (Ke (set_lock l (SpinLk 0 NULL 0) (cpu k)) (hal_of k1)) = Ok (tt, Ke p' h') ∧
    hal_ok (Ke p' h') ∧ same_lines (hal_of k1) h'.
Proof using Hdpc Hlevel.
  intros Ho Hv Hi Hold Hl R k1. assert (hal_ok k1) as Ho1.
  { apply (hal_ok_ports (cpu k) (hal_of k) (eoi v)); [by destruct k|]. apply eoi_ports. }
  assert (hal_ok (Ke (set_lock l (SpinLk 0 NULL 0) (cpu k)) (hal_of k1))) as Ho2 by (by apply (hal_ok_level k1)).
  destruct (proj1 (lowering_sim run_dpc_h run_dpc Hdpc Hlevel fuel) old _ Hold Ho2 tt p' R) as (h' & R' & Ho' & Hs').
  exists h'. split; [by apply on_hal_run, acknowledge_run|]. split; [|by split].
  apply (on_cpu_run _ k1). by apply (release_dpc_run l DISPATCH_LEVEL).
Qed.

End around_isr.

Section dispatch.
Context {W : Type} (K : lens W ke).
Context (isr : addr → Ps.KTRAPFRAME → M W unit) (MmPfHandler : Z → Ps.KTRAPFRAME → M W unit) (rcr2 : W → Z).
Context (run_dpc_h : addr → M ke unit) (run_dpc : addr → M prcb unit) (fuel : nat) (ISR_Spinlock : Z → addr).
Hypothesis (Hdpc : ∀ d, refines (run_dpc_h d) (run_dpc d)) (Hlevel : ∀ d, keeps_level (run_dpc d)).

Lemma in_ke_run {A} (m : M ke A) (s : trap W) a k :
  m (view K (world s)) = Ok (a, k) → in_ke K m s = Ok (a, set_world (update K k (world s)) s).
Proof. intros E. unfold in_ke, in_world, zoom. by rewrite (inside_run K _ _ _ _ E). Qed.

(** Running in the kernel of a world. *)
Definition at_ke (k : ke) (w : W) (s : trap W) : trap W := set_world (update K k w) s.

Lemma at_ke_start s : at_ke (view K (world s)) (world s) s = s.
Proof. unfold at_ke. rewrite update_view. by destruct s. Qed.

Lemma at_ke_run {A B} (m : M ke A) (c : A → M (trap W) B) k w s a k' :
  m k = Ok (a, k') → bind (in_ke K m) c (at_ke k w s) = c a (at_ke k' w s).
Proof.
  intros E. apply bind_Ok. rewrite (in_ke_run m (at_ke k w s) a k') by (cbn; by rewrite view_update).
  unfold at_ke. cbn. by rewrite update_update.
Qed.

(** C15: KiInterruptDispatch runs the routine of an interrupt at the level of its
    device, with the lock of the object held and interrupts on; then it
    acknowledges the controllers and only after that lowers the level again, which
    delivers the deferred procedure calls.  At the end the controllers hold the
    mask of the old level. *)
Theorem interrupt_dispatched v level r name f (s : trap W) :
  let k := view K (world s) in
  let l := ISR_Spinlock v in
  let q := in_isr l level (cpu k) in
  let old := CurrentIrql (cpu k) in
  hal_ok k → interrupt_flag (hal_of k) = false →
  KiInterruptObjects s !! Z.to_nat v = Some (Interrupt (DeviceRoutine r) level name v) →
  IRQ_START <= v <= IRQ_END → old < level <= 31 → 3 < level → lock_free l (cpu k) →
  (∀ h1, hal_ok (Ke q h1) → interrupt_flag h1 = true →
     ∃ w2 p', isr r f (update K (Ke q h1) (world s)) = Ok (tt, w2) ∧ isr_returns l (Ke q h1) (view K w2) ∧
       KeLowerIrql run_dpc fuel old (set_lock l (SpinLk 0 NULL 0) (cpu (view K w2))) = Ok (tt, p')) →
  ∃ h1 w2 p' h', interrupt_flag h1 = true ∧
    isr r f (update K (Ke q h1) (world s)) = Ok (tt, w2) ∧
    KeLowerIrql run_dpc fuel old (set_lock l (SpinLk 0 NULL 0) (cpu (view K w2))) = Ok (tt, p') ∧
    KiInterruptDispatch K isr MmPfHandler rcr2 run_dpc_h fuel ISR_Spinlock v f s
      = Ok (tt, set_world (update K (Ke p' h') w2) s) ∧
    hal_ok (Ke p' h') ∧ interrupt_flag h' = true ∧ Hal8259MaskTable h' = Hal8259MaskTable (hal_of k) ∧
    (eoi v ++ ports (hal_of (view K w2))) `suffix_of` ports h'.
Proof using Hdpc Hlevel.
  intros k l q old Ho Hif Hobj Hv Hl H3 Hfree Hisr. pose proof (ho_level _ Ho) as H0.
  destruct (enter_isr l level k Ho Hl H3 Hfree) as (h0 & Rr & Ra & Ho1 & Hs0). set (h1 := set_flag true h0) in *.
  destruct (Hisr h1 Ho1 eq_refl) as (w2 & p' & Ri & (Hr1 & Hr2 & Hr3 & Hr4) & Rl). change (cpu (Ke q h1)) with q in *.
  assert (2 <= CurrentIrql (cpu (view K w2)) <= 31) as H31 by (rewrite Hr3; cbn; lia).
  destruct (leave_isr run_dpc_h run_dpc fuel Hdpc Hlevel l v old (view K w2) p' Hr1 Hv H31 H0 Hr4 Rl) as (h' & R1 & R2 & R3 & Ho' & Hs').
  exists h1, w2, p', h'. split; [done|]. split; [done|]. split; [done|].
  destruct Hs' as (Et & Ef & Hsuf), Hr2 as (Et2 & Ef2 & _), Hs0 as (Et0 & _ & _).
  assert (interrupt_flag h' = true) as Hflag by (rewrite Ef; exact Ef2).
  split; [|split; [done|split; [done|split; [|exact Hsuf]]]].
  - rewrite <- (at_ke_start s) at 1. fold k. unfold KiInterruptDispatch.
    rewrite (at_ke_run _ _ _ _ s _ _ (flag_run k)), Hif. rewrite assert_true by done.
    unfold object. rewrite (deref_run (λ s : trap W, KiInterruptObjects s !! Z.to_nat v) _ (at_ke k (world s) s) _ Hobj). cbn [Irql_ KISRRoutine].
    rewrite (at_ke_run _ _ _ _ s _ _ Rr), (at_ke_run _ _ _ _ s _ _ Ra).
    rewrite (at_ke_run _ _ _ _ s _ (Ke q h1) (on_hal_run _ (Ke q h0) _ h1 eq_refl)).
    assert (in_world (isr r f) (at_ke (Ke q h1) (world s) s) = Ok (tt, at_ke (view K w2) w2 s)) as Rw.
    { unfold in_world, zoom, at_ke. cbn. rewrite Ri, update_view. done. }
    cbn [call]. rewrite (bind_Ok _ _ _ _ _ Rw).
    rewrite (at_ke_run _ _ _ _ s _ _ R1), (at_ke_run _ _ _ _ s _ _ R2), (at_ke_run _ _ _ _ s _ _ R3).
    rewrite (at_ke_run _ _ _ _ s _ _ (flag_run (Ke p' h'))). cbn [hal_of]. by rewrite Hflag.
  - rewrite Et. cbn. rewrite Et2. cbn. exact Et0.
Qed.
End dispatch.

(** A device whose routine does nothing, on line 14, with the processor at
    DISPATCH_LEVEL. *)
Definition idle_traps (h : hal) : trap ke :=
  Trap (Ke (Prcb 2 7 [] 0 {[ ProcessorLock := SpinLk 0 NULL 0; 0x102e := SpinLk 0 NULL 0 ]} ∅) h)
    [] (replicate 0x2e (Interrupt NoRoutine 0 "UNKNOWN" 0) ++ [Interrupt (DeviceRoutine 0x8010c000) 14 "hd0" 0x2e]) NULL.

Lemma interrupt_dispatched_witness :
  ∃ h, on_hal Halinit (world (idle_traps (HalState false 0 (replicate 32 0) false [])))
       = Ok (tt, world (idle_traps h)) ∧ interrupt_flag h = false ∧
    ∃ h1 w2 p' h', interrupt_flag h1 = true ∧
      (λ _ _, ret tt) 0x8010c000 (Ps.Trapframe 0 [] 0 0 0 0 0 0 0)
        (update lens_id (Ke (in_isr 0x102e 14 (cpu (world (idle_traps h)))) h1) (world (idle_traps h))) = Ok (tt, w2) ∧
      KeLowerIrql (λ _, ret tt) 2 2 (set_lock 0x102e (SpinLk 0 NULL 0) (cpu w2)) = Ok (tt, p') ∧
      KiInterruptDispatch lens_id (λ _ _, ret tt) (λ _ _, ret tt) (λ _, 0) (λ _, ret tt) 2 (λ v, 0x1000 + v) 0x2e
          (Ps.Trapframe 0 [] 0 0 0 0 0 0 0) (idle_traps h)
        = Ok (tt, set_world (update lens_id (Ke p' h') w2) (idle_traps h)) ∧
      hal_ok (Ke p' h') ∧ interrupt_flag h' = true ∧ Hal8259MaskTable h' = Hal8259MaskTable h ∧
      (eoi 0x2e ++ ports (hal_of w2)) `suffix_of` ports h'.
Proof.
  set (h0 := HalState false 0 (replicate 32 0) false []).
  destruct (halinit_lines (world (idle_traps h0))) as (h & R & [Ho Hm]); [cbn; lia|done|].
  exists h. split; [exact R|].
  assert (interrupt_flag h = false) as Hf.
  { revert R. vm_compute. by intros [= <-]. }
  split; [exact Hf|]. clear R.
  apply (interrupt_dispatched lens_id (λ _ _, ret tt) (λ _ _, ret tt) (λ _, 0) (λ _, ret tt) (λ _, ret tt) 2 (λ v, 0x1000 + v)
    (λ d s' H, sim_ret s' tt H) (λ d, keeps_ret tt) 0x2e 14 0x8010c000 "hd0" (Ps.Trapframe 0 [] 0 0 0 0 0 0 0) (idle_traps h)).
  - exact Ho.
  - exact Hf.
  - reflexivity.
  - unfold IRQ_START, IRQ_END. lia.
  - cbn. lia.
  - lia.
  - reflexivity.
  - intros h1 Ho1 Hf1. eexists _, _. split; [reflexivity|]. split; [|apply (lower_quiet _ 0); [cbn; lia|done]].
    split; [exact Ho1|]. split; [exact (same_lines_refl _)|]. split; [exact eq_refl|exact (lookup_set_lock _ _ _)].
Defined.

(** The divisor and the dividend of the count are exchanged: the timer gets 0,
    which it takes for 65536, where 100 interrupts per second want 11932. *)
Lemma timer_count_is_zero :
  timer_count = 0 ∧ (TIMER_FREQ + TIMER_INTERRUPTS / 2) / TIMER_INTERRUPTS = 11932.
Proof. done. Qed.
