(* ===== verification/Syscall.v ===== *)
(** * Syscall: system calls (inc/syscall.h, kern/ex/syscall.c)

    ExpSysCallEntry on the whole kernel of Ps, with its two static variables.
    The number and the arguments are words of the user stack, read through the
    page tables of the current process.  A result of [None] is what is in the
    register when a function that returns a value ends without one. *)

From S2P Require Import Prelude Types Irql Sched Bitmap Pool Paging Vmm Ob ObName Io Machine Loader Ps.

(** ** inc/syscall.h *)

Definition SYS_GETPID : Z := 0.
Definition SYS_EXIT : Z := 1.
Definition SYS_FORK : Z := 2.
Definition SYS_EXEC : Z := 3.
Definition SYS_WAIT : Z := 4.
Definition SYS_CREATE : Z := 5.
Definition SYS_REMOVE : Z := 6.
Definition SYS_OPEN : Z := 7.
Definition SYS_FILESIZE : Z := 8.
Definition SYS_READ : Z := 9.
Definition SYS_WRITE : Z := 10.
Definition SYS_SEEK : Z := 11.
Definition SYS_TELL : Z := 12.
Definition SYS_CLOSE : Z := 13.
Definition SYS_MMAP : Z := 14.
Definition SYS_MUNMAP : Z := 15.
Definition SYS_CHDIR : Z := 16.
Definition SYS_MKDIR : Z := 17.
Definition SYS_READDIR : Z := 18.
Definition SYS_ISDIR : Z := 19.
Definition SYS_INUMBER : Z := 20.
Definition SYS_TESTING : Z := 21.

(** ** syscall.c *)

Record sys (K : Type) := Sys { kern : K; mutex_inited : Z }.
Arguments Sys {K}.
Arguments kern {K}.
Arguments mutex_inited {K}.

Section syscall.
Context {FS FIL : Type} `{!FatFs FS FIL} (run_dpc : addr → M prcb unit) (fuel : nat).
Context (Mutex : addr).
#[local] Instance this_world : ObWorld ps := ps_world run_dpc.
Local Notation K := (ob (io FS FIL ps)).

Definition in_kernel {A} (m : M K A) : M (sys K) A := zoom kern (λ k s, Sys k (mutex_inited s)) m.

(** *(Args + i) *)
Definition memory_of (k : K) : mm := core (Pool.world (rest (ps_of k))).
Definition user_word (m : mm) (a : addr) : option Z := phys m <$> va_word m a.
Definition argument (Args : addr) (i : Z) : M (sys K) Z := deref (λ s, user_word (memory_of (kern s)) (u32 (Args + 4 * i))).

(** [garbage] and [garbage_thread] are the variables that PspCreateThread and
    PspExitProcess use without having set them.  PspExitProcess has no return
    statement, so that KExitProcess returns no status. *)
Definition ExpSysCallEntry (garbage : KOBJECTS * Z) (garbage_thread : addr) (Args : addr) : M (sys K) (option Z) :=
  let! SyscallIndex := argument Args 0 in
  if SyscallIndex =? SYS_EXIT then
    let! Arg1 := argument Args 1 in
    in_kernel (KExitProcess run_dpc fuel 0 garbage_thread) >>>
    ret None
  else if SyscallIndex =? SYS_FORK then
    let! r := in_kernel (KCloneProcess run_dpc fuel garbage) in ret (Some r)
  else if SyscallIndex =? SYS_GETPID then
    let! r := in_kernel KGetCurrentProcessId in ret (Some r)
  else if SyscallIndex =? SYS_TESTING then
    let! Arg1 := argument Args 1 in
    let! Arg2 := argument Args 2 in
    let! Arg3 := argument Args 3 in
    let! m := gets mutex_inited in
    when (m =? 0) (in_kernel (in_sched (KeInitializeMutant Mutex false))) >>>
    in_kernel (KeWaitForSingleObject run_dpc (@in_sched FS FIL) (ObDereferenceObject (close run_dpc fuel)) fuel Mutex) >>>
    ret (Some 1)
  else ret None.
End syscall.

(** ** Results *)

Section results.
Context {FS FIL : Type} `{!FatFs FS FIL} (run_dpc : addr → M prcb unit) (fuel : nat) (Mutex : addr).
#[local] Instance that_world : ObWorld ps := ps_world run_dpc.
Local Notation K := (ob (io FS FIL ps)).

Lemma argument_run {B} Args i w (k : Z → M (sys K) B) (s : sys K) :
  user_word (memory_of (kern s)) (u32 (Args + 4 * i)) = Some w → bind (argument Args i) k s = k w s.
Proof. intros H. unfold argument. by rewrite (deref_run (λ s, user_word (memory_of (kern s)) (u32 (Args + 4 * i))) _ _ _ H). Qed.

Lemma in_kernel_run {A} (m : M K A) s a k : m (kern s) = Ok (a, k) → in_kernel m s = Ok (a, Sys k (mutex_inited s)).
Proof. intros H. unfold in_kernel, zoom. by rewrite H. Qed.

(** Routines that leave the static variable of SYS_TESTING alone. *)
Definition keeps_static {A} (m : M (sys K) A) : Prop := ∀ s a s', m s = Ok (a, s') → mutex_inited s' = mutex_inited s.

Lemma static_bind {A B} (m : M (sys K) A) (f : A → M (sys K) B) :
  keeps_static m → (∀ a, keeps_static (f a)) → keeps_static (bind m f).
Proof. intros Hm Hf s b s' (a & s1 & E1 & E2)%bind_Ok_inv. rewrite (Hf _ _ _ _ E2). by apply (Hm _ _ _ E1). Qed.
Lemma static_kernel {A} (m : M K A) : keeps_static (in_kernel m).
Proof. intros s a s'. unfold in_kernel, zoom. destruct (m (kern s)) as [[b k]|]; [|done]. by intros [= _ <-]. Qed.
Lemma static_deref {A} (f : sys K → option A) : keeps_static (deref f).
Proof. intros s a s'. unfold deref. destruct (f s); [|done]. by intros [= _ <-]. Qed.
Lemma static_ret {A} (a : A) : keeps_static (ret a).
Proof. by intros s b s' [= _ <-]. Qed.
Lemma static_gets {A} (f : sys K → A) : keeps_static (gets f).
Proof. by intros s b s' [= _ <-]. Qed.

Lemma entry_static garbage thread Args : keeps_static (ExpSysCallEntry run_dpc fuel Mutex garbage thread Args).
Proof.
  unfold ExpSysCallEntry, argument. apply static_bind; [apply static_deref|]. intros n.
  repeat match goal with
  | |- keeps_static (if ?b then _ else _) => destruct b
  | |- keeps_static (when ?b _) => destruct b; cbn [when]
  | |- keeps_static (bind _ _) => apply static_bind; [|intros ?]
  | |- keeps_static _ => first [apply static_kernel | apply static_deref | apply static_ret | apply static_gets]
  end.
Qed.

Lemma getpid_run (s : K) p y : current_process s p y → p ≠ NULL → KGetCurrentProcessId s = Ok (UniqueProcessId y, s).
Proof.
  intros Hp Hn. unfold KGetCurrentProcessId, PsGetCurrentProcessId. rewrite (current_process_run _ s p y Hp).
  rewrite assert_true by (by apply negb_true_iff, Z.eqb_neq). destruct Hp as (_ & Hy & _). by rewrite (process_run p _ s y Hy).
Qed.

End results.

#[local] Existing Instance Io.one_file.

(** A caller whose stack pointer is at the page directory, the first word of
    which is 0 in the kernel of the demonstrations of Ps. *)
Definition demo_sys : sys (ob (io (list Z) nat ps)) := Sys (demo_kernel 3 []) 0.

