(* ===== verification/Ide.v ===== *)
(** * Ide: the disk driver (kern/drivers/ide.c, the part that is compiled)

    The driver on the scheduler of Sched: the mutant of a channel, the semaphore
    that its interrupts count up, and the deferred procedure call in between.  The
    disks are hardware behind ports, the class [Ports]; [AtaChannels] states what the
    driver relies on, the protocol of the ATA command blocks.

    A thread that waits for a command sleeps on the semaphore until the interrupt
    has come.  [sema_down] takes the interrupt, with its deferred call, just before
    the wait, so that the wait finds the semaphore counted up; by semaphore_refines
    of Sched a thread that is already queued is woken instead.  The messages of the
    driver, and the names in them, are left out. *)

From Stdlib Require Import String.
From S2P Require Import Prelude Types Irql Sched.
From S2P Require Str Hal Trap.

#[local] Open Scope Z_scope.

(** ** Ports

    The hardware, with the insw and outsw of x86.h word by word.
    [next_interrupt]: the vector that the hardware signals next, if it is going to
    signal one, and its state by then. *)
Class Ports (D : Type) := {
  port_in : Z → D → Z * D;
  port_out : Z → Z → D → D;
  port_inw : Z → D → Z * D;
  port_outw : Z → Z → D → D;
  next_interrupt : D → option (Z * D) }.

(** ** Data *)

Definition DISK_SECTOR_SIZE : Z := 512.
Definition SECTOR_SIZE : Z := 512.
Definition CHANNEL_CNT : Z := 2.

(** [d_channel]: the index of its channel. *)
Record disk := Disk {
  d_channel : Z; dev_no : Z; is_ata : bool; capacity : Z; read_cnt : Z; write_cnt : Z }.

Record channel := Channel {
  reg_base : Z; irq : Z; expecting_interrupt : bool; devices : list disk }.

(** A pointer to a disk is NULL or the place of the disk in [channels]. *)
Abbreviation disk_ptr := (option (Z * Z)).

Record ide (D : Type) := Ide {
  kern : sched;
  controllers : Hal.hal;
  buffers : Str.memory;
  channels : list channel;
  hardware : D }.
Arguments Ide {D}.
Arguments kern {D}.
Arguments controllers {D}.
Arguments buffers {D}.
Arguments channels {D}.
Arguments hardware {D}.

(** The dispatcher objects inside a channel, and the DPC. *)
Definition channels_address : addr := 0x7000.
Definition lock (c : Z) : addr := channels_address + 256 * c.
Definition completion_wait (c : Z) : addr := channels_address + 256 * c + 64.
Definition IdeDpcObject : addr := 5.
Definition IdeDpcRoutine_address : Z := 0xF000.
Definition interrupt_handler_address : addr := 0xF100.

(** *** Registers *)

Definition reg_data (c : channel) : Z := reg_base c + 0.
Definition reg_error (c : channel) : Z := reg_base c + 1.
Definition reg_nsect (c : channel) : Z := reg_base c + 2.
Definition reg_lbal (c : channel) : Z := reg_base c + 3.
Definition reg_lbam (c : channel) : Z := reg_base c + 4.
Definition reg_lbah (c : channel) : Z := reg_base c + 5.
Definition reg_device (c : channel) : Z := reg_base c + 6.
Definition reg_status (c : channel) : Z := reg_base c + 7.
Definition reg_command (c : channel) : Z := reg_status c.
Definition reg_ctl (c : channel) : Z := reg_base c + 0x206.
Definition reg_alt_status (c : channel) : Z := reg_ctl c.

Definition STA_BSY : Z := 0x80.
Definition STA_DRDY : Z := 0x40.
Definition STA_DRQ : Z := 0x08.
Definition CTL_SRST : Z := 0x04.
Definition DEV_MBS : Z := 0xa0.
Definition DEV_LBA : Z := 0x40.
Definition DEV_DEV : Z := 0x10.
Definition CMD_IDENTIFY_DEVICE : Z := 0xec.
Definition CMD_READ_SECTOR_RETRY : Z := 0x20.
Definition CMD_WRITE_SECTOR_RETRY : Z := 0x30.

(** *** ide.h *)

Inductive DRESULT := RES_OK | RES_ERROR | RES_WRPRT | RES_NOTRDY | RES_PARERR.
Definition CTRL_SYNC : Z := 0.
Definition GET_SECTOR_COUNT : Z := 1.
Definition GET_SECTOR_SIZE : Z := 2.
Definition GET_BLOCK_SIZE : Z := 3.
Definition CTRL_ERASE_SECTOR : Z := 4.

(** *** Updates *)

Definition set_kern {D} (k : sched) (s : ide D) : ide D := Ide k (controllers s) (buffers s) (channels s) (hardware s).
Definition set_buffers {D} (m : Str.memory) (s : ide D) : ide D := Ide (kern s) (controllers s) m (channels s) (hardware s).
Definition set_channels {D} (l : list channel) (s : ide D) : ide D := Ide (kern s) (controllers s) (buffers s) l (hardware s).
Definition set_hardware {D} (d : D) (s : ide D) : ide D := Ide (kern s) (controllers s) (buffers s) (channels s) d.

Definition set_expecting (b : bool) (c : channel) : channel := Channel (reg_base c) (irq c) b (devices c).
Definition set_devices (l : list disk) (c : channel) : channel := Channel (reg_base c) (irq c) (expecting_interrupt c) l.
Definition set_ata (b : bool) (d : disk) : disk :=
  Disk (d_channel d) (dev_no d) b (capacity d) (read_cnt d) (write_cnt d).
Definition set_capacity (n : Z) (d : disk) : disk :=
  Disk (d_channel d) (dev_no d) (is_ata d) n (read_cnt d) (write_cnt d).
Definition count_read (d : disk) : disk :=
  Disk (d_channel d) (dev_no d) (is_ata d) (capacity d) (read_cnt d + 1) (write_cnt d).
Definition count_write (d : disk) : disk :=
  Disk (d_channel d) (dev_no d) (is_ata d) (capacity d) (read_cnt d) (write_cnt d + 1).

(** The processor with its controllers, inside the state of the driver. *)
#[program] Definition lens_ke {D} : lens (ide D) Hal.ke :=
  Lens (λ s, Hal.Ke (cpu (kern s)) (controllers s))
    (λ k s, Ide (with_cpu (Hal.cpu k) (kern s)) (Hal.hal_of k) (buffers s) (channels s) (hardware s)) _ _ _.
Next Obligation. by intros D [p h] []. Qed.
Next Obligation. by intros D [[] h m l d]. Qed.
Next Obligation. by intros D [] [] []. Qed.

(** ** Sleeping *)

Definition loops_per_tick : Z := 1024.

(** The argument of busy_wait, which has no effect. *)
Definition sleep_loops (num denom : Z) : Z := loops_per_tick * num / 1000 * 1193 / (denom / 1000).

Definition real_time_sleep {S} (num denom : Z) : M S unit := assert_ (denom mod 1000 =? 0).
Definition timer_usleep {S} (us : Z) : M S unit := real_time_sleep us (1000 * 1000).
Definition timer_msleep {S} (ms : Z) : M S unit := real_time_sleep ms 1000.
Definition timer_nsleep {S} (ns : Z) : M S unit := real_time_sleep ns (1000 * 1000 * 1000).

Section ide.
Context {D : Type} `{!Ports D}.
Context (run_dpc : addr → M prcb unit) (dereference : addr → M sched unit) (fuel : nat).

Definition in_kern {A} (m : M sched A) : M (ide D) A := zoom kern set_kern m.
Definition in_hal {A} (m : M Hal.hal A) : M (ide D) A := inside lens_ke (Hal.on_hal m).
Definition in_buffers {A} (m : M Str.memory A) : M (ide D) A := zoom buffers set_buffers m.

Definition inb (port : Z) : M (ide D) Z := λ s, let '(v, d) := port_in port (hardware s) in Ok (u8 v, set_hardware d s).
Definition outb (port v : Z) : M (ide D) unit := modify (λ s, set_hardware (port_out port (u8 v) (hardware s)) s).
Definition inw (port : Z) : M (ide D) Z := λ s, let '(v, d) := port_inw port (hardware s) in Ok (u16 v, set_hardware d s).
Definition outw (port v : Z) : M (ide D) unit := modify (λ s, set_hardware (port_outw port (u16 v) (hardware s)) s).

(** A word of memory has its low byte first. *)
Fixpoint insw (port : Z) (a : addr) (cnt : nat) : M (ide D) unit :=
  match cnt with
  | O => ret tt
  | S n =>
      let! w := inw port in
      in_buffers (Str.st a (u8 w)) >>>
      in_buffers (Str.st (u32 (a + 1)) (u8 (Z.shiftr w 8))) >>>
      insw port (u32 (a + 2)) n
  end.

Fixpoint outsw (port : Z) (a : addr) (cnt : nat) : M (ide D) unit :=
  match cnt with
  | O => ret tt
  | S n =>
      let! lo := in_buffers (Str.ld a) in
      let! hi := in_buffers (Str.ld (u32 (a + 1))) in
      outw port (Z.lor lo (Z.shiftl hi 8)) >>>
      outsw port (u32 (a + 2)) n
  end.

(** Words into an array that is local to the routine. *)
Fixpoint insw_local (port : Z) (cnt : nat) : M (ide D) (list Z) :=
  match cnt with
  | O => ret []
  | S n => let! w := inw port in let! l := insw_local port n in ret (w :: l)
  end.

Definition get_channel (c : Z) : M (ide D) channel := deref (λ s, channels s !! Z.to_nat c).
Definition put_channel (c : Z) (x : channel) : M (ide D) unit :=
  modify (λ s, set_channels (<[Z.to_nat c := x]> (channels s)) s).
Definition get_disk (d : Z * Z) : M (ide D) disk :=
  let! c := get_channel (fst d) in deref (λ _, devices c !! Z.to_nat (snd d)).
Definition put_disk (d : Z * Z) (x : disk) : M (ide D) unit :=
  let! c := get_channel (fst d) in put_channel (fst d) (set_devices (<[Z.to_nat (snd d) := x]> (devices c)) c).

(** ** Completion *)

Definition release_expecting (c : Z) : M (ide D) unit :=
  let! x := get_channel c in
  when (expecting_interrupt x) (in_kern (let! _ := KeReleaseSemaphore run_dpc (completion_wait c) 0 1 in ret tt)).

Definition IdeDpcRoutine : M (ide D) unit := release_expecting 0 >>> release_expecting 1.

Definition interrupt_handler : M (ide D) unit :=
  let! _ := in_kern (in_cpu (KeInsertQueueDpc run_dpc 2 IdeDpcObject NULL NULL)) in ret tt.

(** How the kernel takes an interrupt of the driver: the handler at the level of
    its vector, then the deferred call off the queue at DISPATCH_LEVEL. *)
Definition take_dpc : M prcb addr :=
  let! q := gets DpcListHead in
  match q with
  | [] => halt BugCheck
  | d :: q' => modify (set_dpclist q') >>> ret d
  end.

Definition take_interrupt (v : Z) : M (ide D) unit :=
  let! OldIrql := in_kern (in_cpu (KeRaiseIrql (Trap.KiGetIrqlForVector v))) in
  interrupt_handler >>>
  in_kern (in_cpu (KeLowerIrql run_dpc 2 DISPATCH_LEVEL)) >>>
  let! d := in_kern (in_cpu take_dpc) in
  (if d =? IdeDpcObject then IdeDpcRoutine else halt BugCheck) >>>
  in_kern (in_cpu (KeLowerIrql run_dpc 2 OldIrql)).

Definition deliver : M (ide D) unit :=
  let! b := in_hal Hal.HalAreInterruptsEnabled in
  let! d := gets hardware in
  match next_interrupt d with
  | Some (v, d') => if b then modify (set_hardware d') >>> take_interrupt v else ret tt
  | None => ret tt
  end.

Definition lock_acquire (o : addr) : M (ide D) unit :=
  in_kern (KeWaitForSingleObject run_dpc (λ _ m, m) dereference fuel o).
Definition lock_release (o : addr) : M (ide D) unit :=
  let! _ := in_kern (KeReleaseMutant run_dpc o) in ret tt.
Definition sema_down (o : addr) : M (ide D) unit :=
  deliver >>> in_kern (KeWaitForSingleObject run_dpc (λ _ m, m) dereference fuel o).

(** ** Primitives *)

Fixpoint wait_until_idle_loop (n : nat) (c : channel) : M (ide D) unit :=
  match n with
  | O => ret tt
  | S n' =>
      let! v := inb (reg_status c) in
      if Z.land v (Z.lor STA_BSY STA_DRQ) =? 0 then ret tt
      else timer_usleep 10 >>> wait_until_idle_loop n' c
  end.

Definition channel_of (d : Z * Z) : M (ide D) channel := let! x := get_disk d in get_channel (d_channel x).

Definition wait_until_idle (d : Z * Z) : M (ide D) unit := let! c := channel_of d in wait_until_idle_loop 1000 c.

Fixpoint wait_while_busy_loop (n : nat) (c : channel) : M (ide D) bool :=
  match n with
  | O => ret false
  | S n' =>
      let! v := inb (reg_alt_status c) in
      if Z.land v STA_BSY =? 0 then
        let! v' := inb (reg_alt_status c) in ret (negb (Z.land v' STA_DRQ =? 0))
      else timer_msleep 10 >>> wait_while_busy_loop n' c
  end.

Definition wait_while_busy (d : Z * Z) : M (ide D) bool := let! c := channel_of d in wait_while_busy_loop 3000 c.

Definition select_device (d : Z * Z) : M (ide D) unit :=
  let! x := get_disk d in
  let! c := get_channel (d_channel x) in
  outb (reg_device c) (if dev_no x =? 1 then Z.lor DEV_MBS DEV_DEV else DEV_MBS) >>>
  let! _ := inb (reg_alt_status c) in
  timer_nsleep 400.

Definition select_device_wait (d : Z * Z) : M (ide D) unit :=
  wait_until_idle d >>> select_device d >>> wait_until_idle d.

Definition select_sector (d : Z * Z) (sec_no : Z) : M (ide D) unit :=
  let! x := get_disk d in
  assert_ (sec_no <? capacity x) >>>
  assert_ (sec_no <? Z.shiftl 1 28) >>>
  select_device_wait d >>>
  let! c := get_channel (d_channel x) in
  outb (reg_nsect c) 1 >>>
  outb (reg_lbal c) sec_no >>>
  outb (reg_lbam c) (Z.shiftr sec_no 8) >>>
  outb (reg_lbah c) (Z.shiftr sec_no 16) >>>
  outb (reg_device c)
    (Z.lor (Z.lor (Z.lor DEV_MBS DEV_LBA) (if dev_no x =? 1 then DEV_DEV else 0)) (Z.shiftr sec_no 24)).

Definition issue_pio_command (c command : Z) : M (ide D) unit :=
  let! b := in_hal Hal.HalAreInterruptsEnabled in
  assert_ b >>>
  let! x := get_channel c in
  put_channel c (set_expecting true x) >>>
  outb (reg_command x) command.

Definition input_sector (c : Z) (sector : addr) : M (ide D) unit :=
  let! x := get_channel c in insw (reg_data x) sector (Z.to_nat (DISK_SECTOR_SIZE / 2)).

Definition output_sector (c : Z) (sector : addr) : M (ide D) unit :=
  let! x := get_channel c in outsw (reg_data x) sector (Z.to_nat (DISK_SECTOR_SIZE / 2)).

(** ** Disks *)

Definition disk_get (chan_no dev_no : Z) : M (ide D) disk_ptr :=
  assert_ ((dev_no =? 0) || (dev_no =? 1)) >>>
  if chan_no <? CHANNEL_CNT then
    let! x := get_disk (chan_no, dev_no) in ret (if is_ata x then Some (chan_no, dev_no) else None)
  else ret None.

(** ASSERT(d != NULL) *)
Definition the_disk (d : disk_ptr) : M (ide D) (Z * Z) :=
  match d with Some p => ret p | None => halt BugCheck end.

Definition disk_size (d : disk_ptr) : M (ide D) Z :=
  let! p := the_disk d in let! x := get_disk p in ret (capacity x).

Definition disk_read_internal (d : disk_ptr) (sec_no : Z) (buffer : addr) : M (ide D) unit :=
  let! p := the_disk d in
  assert_ (negb (buffer =? NULL)) >>>
  let! x := get_disk p in
  let c := d_channel x in
  lock_acquire (lock c) >>>
  select_sector p sec_no >>>
  issue_pio_command c CMD_READ_SECTOR_RETRY >>>
  sema_down (completion_wait c) >>>
  let! ready := wait_while_busy p in
  assert_ ready >>>
  input_sector c buffer >>>
  let! x' := get_disk p in
  put_disk p (count_read x') >>>
  lock_release (lock c).

Definition disk_write_internal (d : disk_ptr) (sec_no : Z) (buffer : addr) : M (ide D) unit :=
  let! p := the_disk d in
  assert_ (negb (buffer =? NULL)) >>>
  let! x := get_disk p in
  let c := d_channel x in
  lock_acquire (lock c) >>>
  select_sector p sec_no >>>
  issue_pio_command c CMD_WRITE_SECTOR_RETRY >>>
  let! ready := wait_while_busy p in
  assert_ ready >>>
  output_sector c buffer >>>
  sema_down (completion_wait c) >>>
  let! x' := get_disk p in
  put_disk p (count_write x') >>>
  lock_release (lock c).

(** The drive: bit 1 is the channel, bit 0 the device. *)
Definition drive_disk (Drive : Z) : M (ide D) disk_ptr :=
  let! d := disk_get (if Z.land Drive 2 =? 2 then 1 else 0) (if Z.land Drive 1 =? 1 then 1 else 0) in
  let! _ := the_disk d in ret d.

(** for (sec_no = 0; sec_no < SectorCount; sec_no++) with [n] rounds left. *)
Fixpoint sectors_loop (n : nat) (transfer : Z → addr → M (ide D) unit) (SectorNumber Buffer sec_no : Z) : M (ide D) unit :=
  match n with
  | O => ret tt
  | S n' =>
      transfer (u32 (SectorNumber + sec_no)) (u32 (Buffer + DISK_SECTOR_SIZE * sec_no)) >>>
      sectors_loop n' transfer SectorNumber Buffer (sec_no + 1)
  end.

Definition disk_read (Drive Buffer SectorNumber SectorCount : Z) : M (ide D) DRESULT :=
  let! d := drive_disk Drive in
  sectors_loop (Z.to_nat SectorCount) (disk_read_internal d) SectorNumber Buffer 0 >>>
  ret RES_OK.

Definition disk_write (Drive Buffer SectorNumber SectorCount : Z) : M (ide D) DRESULT :=
  let! d := drive_disk Drive in
  sectors_loop (Z.to_nat SectorCount) (disk_write_internal d) SectorNumber Buffer 0 >>>
  ret RES_OK.

(** *(DWORD * )Buffer = v *)
Definition store_dword (a v : Z) : M (ide D) unit :=
  in_buffers (Str.st a (u8 v)) >>>
  in_buffers (Str.st (u32 (a + 1)) (u8 (Z.shiftr v 8))) >>>
  in_buffers (Str.st (u32 (a + 2)) (u8 (Z.shiftr v 16))) >>>
  in_buffers (Str.st (u32 (a + 3)) (u8 (Z.shiftr v 24))).

Definition disk_ioctl (Drive Command : Z) (Buffer : addr) : M (ide D) DRESULT :=
  assert_ (Drive <? 4) >>>
  if Command =? CTRL_SYNC then ret RES_OK
  else if Command =? GET_SECTOR_COUNT then
    let! d := drive_disk Drive in
    let! n := disk_size d in
    store_dword Buffer n >>> ret RES_OK
  else if Command =? GET_SECTOR_SIZE then store_dword Buffer SECTOR_SIZE >>> ret RES_OK
  else if Command =? GET_BLOCK_SIZE then store_dword Buffer SECTOR_SIZE >>> ret RES_OK
  else if Command =? CTRL_ERASE_SECTOR then ret RES_OK
  else halt BugCheck.

Definition get_fattime : M (ide D) Z := ret 0.
Definition disk_initialize (drv : Z) : M (ide D) Z := ret 0.
Definition disk_status (drv : Z) : M (ide D) Z := ret 0.

(** ** Detection *)

Definition test_pattern (d : Z * Z) : M (ide D) bool :=
  let! c := channel_of d in
  select_device d >>>
  outb (reg_nsect c) 0x55 >>>
  outb (reg_lbal c) 0xaa >>>
  outb (reg_nsect c) 0xaa >>>
  outb (reg_lbal c) 0x55 >>>
  outb (reg_nsect c) 0x55 >>>
  outb (reg_lbal c) 0xaa >>>
  let! n := inb (reg_nsect c) in
  if n =? 0x55 then let! l := inb (reg_lbal c) in ret (l =? 0xaa) else ret false.

Fixpoint wait_signature_loop (n : nat) (c : channel) : M (ide D) unit :=
  match n with
  | O => ret tt
  | S n' =>
      let! a := inb (reg_nsect c) in
      let! found := (if a =? 1 then let! b := inb (reg_lbal c) in ret (b =? 1) else ret false) in
      if (found : bool) then ret tt else timer_msleep 10 >>> wait_signature_loop n' c
  end.

Definition reset_channel (c : Z) : M (ide D) unit :=
  let! present0 := test_pattern (c, 0) in
  let! present1 := test_pattern (c, 1) in
  let! x := get_channel c in
  outb (reg_ctl x) 0 >>>
  timer_usleep 10 >>>
  outb (reg_ctl x) CTL_SRST >>>
  timer_usleep 10 >>>
  outb (reg_ctl x) 0 >>>
  timer_msleep 150 >>>
  when present0 (select_device (c, 0) >>> let! _ := wait_while_busy (c, 0) in ret tt) >>>
  when present1
    (select_device (c, 1) >>> wait_signature_loop 3000 x >>> let! _ := wait_while_busy (c, 1) in ret tt).

Definition check_device_type (d : Z * Z) : M (ide D) bool :=
  let! x := get_disk d in
  let! c := get_channel (d_channel x) in
  select_device d >>>
  let! error := inb (reg_error c) in
  let! lbam := inb (reg_lbam c) in
  let! lbah := inb (reg_lbah c) in
  let! status := inb (reg_status c) in
  if (negb (error =? 1) && (negb (error =? 0x81) || (dev_no x =? 1)))
     || (Z.land status STA_DRDY =? 0) || negb (Z.land status STA_BSY =? 0) then
    put_disk d (set_ata false x) >>> ret (negb (error =? 0x81))
  else
    put_disk d (set_ata (((lbam =? 0) && (lbah =? 0)) || ((lbam =? 0x3c) && (lbah =? 0xc3))) x) >>>
    ret true.

(** Words 60 and 61 of the answer. *)
Definition identify_ata_device (d : Z * Z) : M (ide D) unit :=
  let! x := get_disk d in
  let c := d_channel x in
  assert_ (is_ata x) >>>
  select_device_wait d >>>
  issue_pio_command c CMD_IDENTIFY_DEVICE >>>
  sema_down (completion_wait c) >>>
  let! ready := wait_while_busy d in
  if negb ready then put_disk d (set_ata false x)
  else
    let! y := get_channel c in
    let! id := insw_local (reg_data y) (Z.to_nat (DISK_SECTOR_SIZE / 2)) in
    let! id60 := deref (λ _, id !! 60%nat) in
    let! id61 := deref (λ _, id !! 61%nat) in
    put_disk d (set_capacity (Z.lor id60 (u32 (Z.shiftl id61 16))) x).

(** The kernel with its interrupt objects around the driver. *)
Definition in_driver {A} (m : M (ide D) A) : M (Trap.trap (ide D)) A := Trap.in_world m.

Definition identify_if_ata (d : Z * Z) : M (ide D) unit :=
  let! x := get_disk d in when (is_ata x) (identify_ata_device d).

Definition init_channel (trap_function : Z → addr) (c : Z) : M (Trap.trap (ide D)) unit :=
  let vector := (if c =? 0 then 14 else 15) + 0x20 in
  in_driver (put_channel c (Channel (if c =? 0 then 0x1f0 else 0x170) vector false
    [Disk c 0 false 0 0 0; Disk c 1 false 0 0 0])) >>>
  in_driver (in_kern (KeInitializeMutant (lock c) false)) >>>
  in_driver (in_kern (KeInitializeSemaphore (completion_wait c) 0 100)) >>>
  Trap.KiCreateInterruptObject lens_ke trap_function vector 0 (Trap.DeviceRoutine interrupt_handler_address)
    (if c =? 0 then "hd0" else "hd1") >>>
  in_driver (in_kern (in_cpu (KeInitializeDpc IdeDpcObject IdeDpcRoutine_address NULL)) >>>
    reset_channel c >>>
    let! more := check_device_type (c, 0) in
    when more (let! _ := check_device_type (c, 1) in ret tt) >>>
    identify_if_ata (c, 0) >>>
    identify_if_ata (c, 1)).

Definition disk_init (trap_function : Z → addr) : M (Trap.trap (ide D)) unit :=
  init_channel trap_function 0 >>> init_channel trap_function 1.
End ide.

(** ** What the scheduler leaves alone

    The operations of the scheduler that the driver uses keep the queue of deferred
    calls empty, the lock of the processor free, and the DPC of the driver. *)

Definition calm (x : KDPC) (p : prcb) : Prop :=
  DpcListHead p = [] ∧ lock_free ProcessorLock p ∧ dpcs p !! IdeDpcObject = Some x.

Class Calm {S A} (part : S → prcb) (x : KDPC) (m : M S A) : Prop :=
  calm_run s a s' : calm x (part s) → m s = Ok (a, s') → calm x (part s').

Section calm.
Context {S : Type} (part : S → prcb) (x : KDPC).

#[export] Instance calm_ret {A} (a : A) : Calm part x (ret a).
Proof. intros s b s' H [= <- <-]. done. Qed.

#[export] Instance calm_halt {A} e : Calm part x (@halt S A e).
Proof. done. Qed.

#[export] Instance calm_bind {A B} (m : M S A) (k : A → M S B) :
  Calm part x m → (∀ a, Calm part x (k a)) → Calm part x (bind m k).
Proof.
  intros Hm Hk s b s' H. unfold bind. destruct (m s) as [[a s1]|] eqn:E; [|done].
  intros Hr. apply (Hk a s1 b s'); [|done]. by apply (Hm s a s1).
Qed.

#[export] Instance calm_assert b : Calm part x (assert_ b).
Proof. destruct b; apply _. Qed.

#[export] Instance calm_when b m : Calm part x m → Calm part x (when b m).
Proof. destruct b; intros; cbn; apply _. Qed.

#[export] Instance calm_if {A} (b : bool) (m n : M S A) :
  Calm part x m → Calm part x n → Calm part x (if b then m else n).
Proof. by destruct b. Qed.

#[export] Instance calm_gets {A} (f : S → A) : Calm part x (gets f).
Proof. intros s a s' H [= <- <-]. done. Qed.

#[export] Instance calm_deref {A} (f : S → option A) : Calm part x (deref f).
Proof. intros s a s' H. unfold deref. destruct (f s); [|done]. by intros [= <- <-]. Qed.
End calm.

Lemma calm_modify {S} (part : S → prcb) x (f : S → S) :
  (∀ s, calm x (part s) → calm x (part (f s))) → Calm part x (modify f).
Proof. intros Hf s a s' H [= <- <-]. by apply Hf. Qed.

#[export] Instance calm_in_cpu {A} x (m : M prcb A) : Calm (λ p, p) x m → Calm cpu x (in_cpu m).
Proof.
  intros Hm s a s' H. unfold in_cpu, zoom. destruct (m (cpu s)) as [[b p]|] eqn:E; [|done].
  intros [= <- <-]. by apply (Hm (cpu s) b p).
Qed.

Lemma calm_lock x l k p : l ≠ ProcessorLock → calm x p → calm x (set_lock l k p).
Proof.
  intros Hl (H1 & H2 & H3). split; [done|]. split; [|done]. unfold lock_free in *. cbn.
  by rewrite lookup_insert_ne.
Qed.

#[export] Hint Extern 5 (Calm _ _ (modify _)) => (apply calm_modify; intros ? ?; done) : typeclass_instances.

Section calm_levels.
Context (run_dpc : addr → M prcb unit) (x : KDPC).
Local Notation P := (λ p : prcb, p).

#[export] Instance calm_raise n : Calm P x (KeRaiseIrql n).
Proof. unfold KeRaiseIrql, KeGetCurrentIrql, KiSetCurrentIrql. apply _. Qed.

#[export] Instance calm_lower n : Calm P x (KeLowerIrql run_dpc 2 n).
Proof.
  intros p a p' H R.
  assert (n <= CurrentIrql p <= 31) as Hn.
  { cbn [KeLowerIrql] in R. unfold bind at 1, KeGetCurrentIrql at 1, bind at 1, gets at 1 in R.
    destruct (Z.leb_spec (CurrentIrql p) MAX_IRQL_LEVEL) as [H31|]; [|done].
    change MAX_IRQL_LEVEL with 31 in H31. cbn in R.
    destruct (Z.leb_spec n (CurrentIrql p)); [lia|done]. }
  rewrite lower_quiet in R by (done || intros; apply H). by injection R as <- <-.
Qed.

Lemma calm_spin l i : l ≠ ProcessorLock → Calm P x (spin l >>> own l i).
Proof.
  intros Hl p a p' H. unfold spin, own, bind, deref. destruct (spinlocks p !! l) as [k|]; [|done].
  cbn. destruct (Lock k =? 0); [|done]. cbn. rewrite lookup_insert_eq. intros [= <- <-].
  apply calm_lock; [done|]. by apply calm_lock.
Qed.

Lemma calm_acquire l : l ≠ ProcessorLock → Calm P x (KeAcquireSpinLock l).
Proof.
  intros Hl. unfold KeAcquireSpinLock, not_owner, KeGetCurrentThread, KeGetCurrentIrql.
  apply calm_bind; [apply _|]. intros i. apply calm_bind; [apply _|]. intros _. apply calm_bind; [apply _|]. intros _.
  apply calm_bind; [apply _|]. intros old p a p' H R.
  assert ((spin l >>> own l old >>> ret old) p = ((spin l >>> own l old) >>> ret old) p) as E by (by rewrite bind_assoc).
  rewrite E in R. apply (calm_bind P x (spin l >>> own l old) (λ _, ret old) (calm_spin l old Hl) _ p a p' H R).
Qed.

Lemma calm_release disp l i : l ≠ ProcessorLock → Calm P x (KeReleaseSpinLock run_dpc disp 2 l i).
Proof.
  intros Hl. unfold KeReleaseSpinLock, unlock, KeGetCurrentThread, KeGetCurrentIrql.
  repeat first [apply calm_bind; [apply _|intros ?] | apply calm_lower].
  apply calm_bind; [|intros; apply calm_lower]. apply calm_bind; [apply _|]. intros k'. apply calm_bind; [apply _|]. intros _.
  apply calm_modify. intros p H. by apply calm_lock.
Qed.

#[export] Instance calm_lock_db : Calm cpu x KiLockDispatcherDataBase.
Proof. apply calm_in_cpu. by apply calm_acquire. Qed.
#[export] Instance calm_unlock_db i : Calm cpu x (KiUnLockDispatcherDataBase run_dpc i).
Proof. apply calm_in_cpu. by apply calm_release. Qed.
#[export] Instance calm_query : Calm cpu x KiQueryDispatcherDatabase.
Proof. apply calm_in_cpu. unfold KeQuerySpinLock. apply _. Qed.
#[export] Instance calm_irql : Calm P x KeGetCurrentIrql.
Proof. unfold KeGetCurrentIrql. apply _. Qed.
#[export] Instance calm_thread : Calm P x KeGetCurrentThread.
Proof. unfold KeGetCurrentThread. apply _. Qed.
#[export] Instance calm_get_thread t : Calm cpu x (thread t).
Proof. unfold thread. apply _. Qed.
#[export] Instance calm_put_thread t y : Calm cpu x (put_thread t y).
Proof. unfold put_thread. apply _. Qed.
#[export] Instance calm_dobject o : Calm cpu x (dobject o).
Proof. unfold dobject. apply _. Qed.
#[export] Instance calm_put_dobject o d : Calm cpu x (put_dobject o d).
Proof. unfold put_dobject. apply _. Qed.
#[export] Instance calm_list p : Calm cpu x (KiGetCurrentSchedulerList p).
Proof. unfold KiGetCurrentSchedulerList. apply _. Qed.
#[export] Instance calm_put_list p l : Calm cpu x (put_list p l).
Proof. unfold put_list. apply _. Qed.
#[export] Instance calm_locked : Calm cpu x assert_locked.
Proof. unfold assert_locked, assert_dispatch. repeat (apply calm_bind; [apply _|intros []||intros ?]); apply _. Qed.
#[export] Instance calm_ready t : Calm cpu x (KiReadyThread t).
Proof. unfold KiReadyThread. apply _. Qed.

#[export] Instance calm_release_header o : Calm cpu x (KiDHeaderRelease o).
Proof.
  unfold KiDHeaderRelease, assert_dispatch, assert_releasable, release_head.
  apply calm_bind; [apply _|]. intros _. apply calm_bind; [apply _|]. intros d. apply calm_bind; [apply _|]. intros _.
  destruct (WaitListHead d) as [|b l]; [apply _|]. apply calm_bind; [apply _|]. intros _. apply calm_bind; [apply _|]. intros w.
  apply calm_bind; [apply _|]. intros _. apply calm_bind; [apply _|]. intros y.
  destruct (WaitBlockList y); [apply _|]. apply calm_bind; [apply _|]. intros _.
  destruct (wb_Type w); [|apply _]. destruct (decide _); apply _.
Qed.

#[export] Instance calm_release_semaphore o i j : Calm cpu x (KeReleaseSemaphore run_dpc o i j).
Proof. unfold KeReleaseSemaphore. apply _. Qed.
#[export] Instance calm_release_mutant o : Calm cpu x (KeReleaseMutant run_dpc o).
Proof. unfold KeReleaseMutant. apply _. Qed.

#[export] Instance calm_after_wait o i : Calm cpu x (after_wait run_dpc o i).
Proof. unfold after_wait. apply _. Qed.

Lemma getirql_state p i p' : KeGetCurrentIrql p = Ok (i, p') → p' = p.
Proof. unfold KeGetCurrentIrql, bind, gets. destruct (_ <=? _); [|done]. by intros [= _ <-]. Qed.

(** The wait for an object that is signalled. *)
Lemma calm_wait dereference fuel o d s s' :
  calm x (cpu s) → dobjects s !! o = Some d → SignalState d ≠ 0 →
  KeWaitForSingleObject run_dpc (λ _ m, m) dereference fuel o s = Ok (tt, s') → calm x (cpu s').
Proof.
  intros H Hd H0. unfold KeWaitForSingleObject. unfold bind at 1.
  destruct (in_cpu KeGetCurrentIrql s) as [[i s1]|] eqn:E1; [|done].
  assert (dobjects s1 = dobjects s) as D1.
  { unfold in_cpu, zoom in E1. destruct (KeGetCurrentIrql (cpu s)) as [[]|]; [|done]. by injection E1 as <- <-. }
  apply (calm_in_cpu x _ _ _ _ _ H) in E1. unfold bind at 1. destruct (i <=? APC_LEVEL); [|done]. cbn [assert_ ret].
  unfold bind at 1. destruct (KiLockDispatcherDataBase s1) as [[old s2]|] eqn:E2; [|done].
  assert (dobjects s2 = dobjects s1) as D2.
  { unfold KiLockDispatcherDataBase, in_cpu, zoom in E2.
    destruct (KeAcquireSpinLock DispatcherDataBaseLock (cpu s1)) as [[]|]; [|done]. by injection E2 as <- <-. }
  apply (calm_lock_db _ _ _ E1) in E2.
  rewrite (dobject_run _ _ s2 d) by (by rewrite D2, D1). rewrite curthread_run.
  unfold bind at 1. match goal with |- match ?m s2 with _ => _ end = _ → _ => destruct (m s2) as [[[] s3]|] eqn:E3; [|done] end.
  assert (s3 = s2) as ->.
  { destruct (DType d); try (by injection E3 as <-); [|done].
    unfold bind, assert_ in E3. destruct (negb _); [|done]. destruct (negb _); [|done]. by injection E3 as <-. }
  unfold bind at 1. destruct (KiDHeaderAcquire o old s2) as [[b s4]|] eqn:E4; [|done].
  assert (b = false ∧ calm x (cpu s4)) as [-> H4]; [|by apply calm_after_wait].
  unfold KiDHeaderAcquire in E4. unfold bind at 1 in E4. destruct (assert_dispatch s2) as [[[] s5]|] eqn:E5; [|done].
  assert (s5 = s2) as ->.
  { revert E5. unfold assert_dispatch, bind, in_cpu, zoom. destruct (KeGetCurrentIrql (cpu s2)) as [[j p]|] eqn:Ej; [|done].
    apply getirql_state in Ej as ->. rewrite with_cpu_id. destruct (j =? DISPATCH_LEVEL); [|done]. by intros [= <-]. }
  rewrite (dobject_run _ _ s2 d) in E4 by (by rewrite D2, D1). rewrite (proj2 (Z.eqb_neq _ _) H0) in E4.
  unfold bind at 1 in E4. destruct (0 <? SignalState d); [|done]. by injection E4 as <- <-.
Qed.
End calm_levels.

(** ** The kernel under the driver

    [i]: the level; [t]: the running thread; [n]: the count of the semaphore of each
    channel; [w]: the owner of its mutant, NULL when it is free. *)

Definition is_channel (c : Z) : Prop := c = 0 ∨ c = 1.

Definition sem_header (n : Z) (d : DISPATCHER_HEADER) : Prop :=
  WaitListHead d = [] ∧ DType d = SemaphoreObject ∧ SignalState d = n ∧ Limit d = 100.
Definition mutant_header (w : addr) (d : DISPATCHER_HEADER) : Prop :=
  WaitListHead d = [] ∧ DType d = MutantObject ∧ SignalState d = (if w =? NULL then 1 else 0) ∧ OwnerThread d = w.

Definition driver_dpc (x : KDPC) : Prop := Type_ x = DpcObject ∧ Importance x = LowImportance.

Record kernel_ready (idle i t : Z) (n : Z → Z) (w : Z → addr) (k : sched) : Prop := {
  kr_consistent : consistent idle k;
  kr_level : CurrentIrql (cpu k) = i;
  kr_thread : CurrentThread (cpu k) = t;
  kr_calm : ∃ x, calm x (cpu k) ∧ driver_dpc x;
  kr_sem c : is_channel c → ∃ d, dobjects k !! completion_wait c = Some d ∧ sem_header (n c) d;
  kr_mutant c : is_channel c → ∃ d, dobjects k !! lock c = Some d ∧ mutant_header (w c) d }.

Definition put {A} (c : Z) (v : A) (f : Z → A) : Z → A := λ c', if c' =? c then v else f c'.

Lemma put_eq {A} c (v : A) f : put c v f c = v.
Proof. unfold put. by rewrite Z.eqb_refl. Qed.
Lemma put_ne {A} c c' (v : A) f : c' ≠ c → put c v f c' = f c'.
Proof. intros H. unfold put. by apply Z.eqb_neq in H as ->. Qed.

(** The addresses of the four objects. *)
Lemma objects_distinct c c' : is_channel c → is_channel c' →
  lock c ≠ completion_wait c' ∧ (c ≠ c' → lock c ≠ lock c' ∧ completion_wait c ≠ completion_wait c').
Proof. unfold lock, completion_wait, is_channel. lia. Qed.

Section kernel.
Context (run_dpc : addr → M prcb unit) (dereference : addr → M sched unit) (fuel : nat) (idle : Z).
Implicit Types (n w : Z → Z) (k : sched).

(** An operation that changed one object of the driver. *)
Lemma ready_object i t n w k k' c (n' : Z) (w' : addr) o d :
  kernel_ready idle i t n w k → is_channel c →
  consistent idle k' → CurrentIrql (cpu k') = i → CurrentThread (cpu k') = t → (∀ x, calm x (cpu k) → calm x (cpu k')) →
  dobjects k' = <[o := d]> (dobjects k) →
  (o = completion_wait c ∧ sem_header n' d ∧ w' = w c) ∨ (o = lock c ∧ mutant_header w' d ∧ n' = n c) →
  kernel_ready idle i t (put c n' n) (put c w' w) k'.
Proof using.
  intros [H1 H2 H3 (x & H4 & H5) H6 H7] Hc C1 C2 C3 C4 Ho Hd. constructor; [done..|by exists x; auto| |]; intros c' Hc'; rewrite Ho.
  - destruct (decide (c' = c)) as [->|Hne]; [rewrite put_eq|rewrite put_ne by done].
    + destruct Hd as [(-> & Hs & _)|(-> & _ & ->)].
      * exists d. by rewrite lookup_insert_eq.
      * rewrite lookup_insert_ne by (by apply objects_distinct). by apply H6.
    + destruct (H6 c' Hc') as (d' & E & Hs). exists d'. split; [|done].
      destruct Hd as [(-> & _)|(-> & _)]; rewrite lookup_insert_ne; try done;
        [destruct (objects_distinct c c' Hc Hc') as [_ H]; by destruct (H (not_eq_sym Hne))|by apply objects_distinct].
  - destruct (decide (c' = c)) as [->|Hne]; [rewrite put_eq|rewrite put_ne by done].
    + destruct Hd as [(-> & _ & ->)|(-> & Hs & _)].
      * rewrite lookup_insert_ne by (intros E; symmetry in E; by apply objects_distinct in E). by apply H7.
      * exists d. by rewrite lookup_insert_eq.
    + destruct (H7 c' Hc') as (d' & E & Hs). exists d'. split; [|done].
      destruct Hd as [(-> & _)|(-> & _)]; rewrite lookup_insert_ne; try done;
        [intros E'; symmetry in E'; by apply objects_distinct in E'|
         destruct (objects_distinct c c' Hc Hc') as [_ H]; by destruct (H (not_eq_sym Hne))].
Qed.

Lemma wait_semaphore_run i t n w k c :
  kernel_ready idle i t n w k → is_channel c → i <= APC_LEVEL → 0 < n c →
  ∃ k', KeWaitForSingleObject run_dpc (λ _ m, m) dereference fuel (completion_wait c) k = Ok (tt, k') ∧
    kernel_ready idle i t (put c (n c - 1) n) (put c (w c) w) k'.
Proof using.
  intros Hk Hc Hi Hn. pose proof Hk as [H1 H2 H3 H4 H6 _]. destruct (H6 c Hc) as (d & Ed & D1 & D2 & D3 & D4).
  destruct (wait_signalled_run run_dpc dereference idle fuel (completion_wait c) d k H1 ltac:(lia) Ed) as (k' & R & C & Ct & Ci & _ & _ & Ho).
  { split; congruence. } { lia. }
  exists k'. split; [done|]. apply (ready_object i t n w k k' c (n c - 1) (w c) _ _ Hk Hc C) in Ho; [done|congruence..| |].
  - intros x Hx. by apply (calm_wait run_dpc x dereference fuel _ d k k' Hx Ed ltac:(lia)).
  - left. split; [done|]. split; [|done]. rewrite decide_False by congruence. split_and!; cbn; try done. lia.
Qed.

Lemma wait_mutant_run i t n w k c :
  kernel_ready idle i t n w k → is_channel c → i <= APC_LEVEL → w c = NULL → t ≠ NULL →
  ∃ k', KeWaitForSingleObject run_dpc (λ _ m, m) dereference fuel (lock c) k = Ok (tt, k') ∧
    kernel_ready idle i t (put c (n c) n) (put c t w) k'.
Proof using.
  intros Hk Hc Hi Hw Ht. pose proof Hk as [H1 H2 H3 H4 _ H7]. destruct (H7 c Hc) as (d & Ed & D1 & D2 & D3 & D4).
  rewrite Hw in D3, D4. cbn in D3.
  destruct (wait_signalled_run run_dpc dereference idle fuel (lock c) d k H1 ltac:(lia) Ed) as (k' & R & C & Ct & Ci & _ & _ & Ho).
  { split; [congruence|]. intros _. split; [|lia]. congruence. } { lia. }
  exists k'. split; [done|]. apply (ready_object i t n w k k' c (n c) t _ _ Hk Hc C) in Ho; [done|congruence..| |].
  - intros x Hx. by apply (calm_wait run_dpc x dereference fuel _ d k k' Hx Ed ltac:(lia)).
  - right. split; [done|]. split; [|done]. rewrite decide_True by done. split_and!; cbn; try done.
    rewrite (proj2 (Z.eqb_neq t NULL)) by done. lia.
Qed.

Lemma release_mutant_run i t n w k c :
  kernel_ready idle i t n w k → is_channel c → w c = t → t ≠ NULL →
  ∃ k', KeReleaseMutant run_dpc (lock c) k = Ok (0, k') ∧ kernel_ready idle i t (put c (n c) n) (put c NULL w) k'.
Proof using.
  intros Hk Hc Hw Ht. pose proof Hk as [H1 H2 H3 H4 _ H7]. destruct (H7 c Hc) as (d & Ed & D1 & D2 & D3 & D4).
  rewrite Hw in D3, D4. rewrite (proj2 (Z.eqb_neq t NULL)) in D3 by done.
  set (d1 := set_Owner NULL d). set (k1 := with_dobjects (<[lock c := d1]> (dobjects k)) k).
  destruct (release_object_run run_dpc idle (lock c) d1 0 k1) as (k' & R & C & Ct & Ci & HR).
  { by apply owner_consistent. } { apply lookup_insert_eq. } { cbn. lia. }
  assert (KeReleaseMutant run_dpc (lock c) k = Ok (0, k')) as R'.
  { unfold KeReleaseMutant. rewrite (dobject_run _ _ _ _ Ed), curthread_run, assert_true by (apply Z.eqb_eq; congruence). exact R. }
  exists k'. split; [done|]. unfold released in HR. change (WaitListHead d1) with (WaitListHead d) in HR. rewrite D1 in HR.
  destruct HR as (_ & _ & Ho). cbn [with_dobjects dobjects k1] in Ho. rewrite insert_insert_eq in Ho.
  apply (ready_object i t n w k k' c (n c) NULL _ _ Hk Hc C) in Ho; [done|by rewrite Ci|by rewrite Ct| |].
  - intros x Hx. by apply (calm_release_mutant run_dpc x _ k _ k' Hx R').
  - right. split; [done|]. split; [|done]. split_and!; cbn; try done. lia.
Qed.

Lemma release_semaphore_run i t n w k c :
  kernel_ready idle i t n w k → is_channel c → n c < 100 →
  ∃ r k', KeReleaseSemaphore run_dpc (completion_wait c) 0 1 k = Ok (r, k') ∧
    kernel_ready idle i t (put c (n c + 1) n) (put c (w c) w) k'.
Proof using.
  intros Hk Hc Hn. pose proof Hk as [H1 H2 H3 H4 H6 _]. destruct (H6 c Hc) as (d & Ed & D1 & D2 & D3 & D4).
  destruct (release_object_run run_dpc idle (completion_wait c) d (SignalState d) k H1 Ed ltac:(lia)) as (k' & R & C & Ct & Ci & HR).
  assert (KeReleaseSemaphore run_dpc (completion_wait c) 0 1 k = Ok (SignalState d, k')) as R'.
  { unfold KeReleaseSemaphore. rewrite (dobject_run _ _ _ _ Ed), assert_true by (apply Z.ltb_lt; lia).
    rewrite !assert_true by done. exact R. }
  exists (SignalState d), k'. split; [done|]. unfold released in HR. rewrite D1 in HR. destruct HR as (_ & _ & Ho).
  apply (ready_object i t n w k k' c (n c + 1) (w c) _ _ Hk Hc C) in Ho; [done|congruence..| |].
  - intros x Hx. by apply (calm_release_semaphore run_dpc x _ _ _ k _ k' Hx R').
  - left. split; [done|]. split; [|done]. split_and!; cbn; try done. lia.
Qed.

Lemma release_full_semaphore i t n w k c :
  kernel_ready idle i t n w k → is_channel c → 100 <= n c →
  KeReleaseSemaphore run_dpc (completion_wait c) 0 1 k = Stop BugCheck.
Proof using.
  intros Hk Hc Hn. destruct (kr_sem _ _ _ _ _ _ Hk c Hc) as (d & Ed & D1 & D2 & D3 & D4).
  unfold KeReleaseSemaphore. rewrite (dobject_run _ _ _ _ Ed).
  assert (SignalState d <? Limit d = false) as -> by (apply Z.ltb_ge; lia). done.
Qed.

Lemma ready_ext i t n n' w w' k :
  (∀ c, is_channel c → n' c = n c ∧ w' c = w c) → kernel_ready idle i t n w k → kernel_ready idle i t n' w' k.
Proof using.
  intros H [H1 H2 H3 H4 H6 H7]. constructor; try done; intros c Hc; destruct (H c Hc) as [E1 E2].
  - rewrite E1. by apply H6.
  - rewrite E2. by apply H7.
Qed.
End kernel.

(** ** The interrupt *)

Definition queued_dpc (x : KDPC) : KDPC :=
  Dpc (Type_ x) (Importance x) (Number x) true (DeferredRoutine x) (DeferredContext x) NULL NULL.

Lemma insert_driver_dpc run_dpc x p :
  calm x p → driver_dpc x → 2 < CurrentIrql p <= 31 →
  KeInsertQueueDpc run_dpc 2 IdeDpcObject NULL NULL p
    = Ok (true, set_dpclist [IdeDpcObject] (set_dpc IdeDpcObject (queued_dpc x) p)).
Proof.
  intros (Hq & Hl & Hx) [Hty Him] Hi. unfold KeInsertQueueDpc.
  rewrite (deref_run (λ p, dpcs p !! IdeDpcObject) _ _ _ Hx), assert_true by (unfold ASSERT_DPC; by rewrite Hty).
  rewrite (bind_Ok _ _ _ _ _ (getirql_run p ltac:(lia))), assert_true by (apply Z.ltb_lt; unfold DISPATCH_LEVEL; lia).
  cbv zeta. set (x1 := Dpc _ _ _ (DpcLinked x) _ _ _ _). rewrite modify_run.
  rewrite (bind_Ok _ _ _ _ _ (lockproc_run (set_dpc IdeDpcObject x1 p) Hl ltac:(cbn; lia))). rewrite gets_run.
  cbn [DpcListHead set_lock set_irql set_dpc]. rewrite Hq. rewrite (bool_decide_eq_false_2 (IdeDpcObject ∈ [])) by set_solver.
  rewrite andb_false_r, decide_False by (by rewrite Him).
  rewrite !bind_assoc, modify_run. rewrite !bind_assoc, modify_run, bind_ret.
  erewrite bind_Ok; [|apply (unlockproc_run run_dpc 2 2); cbn; [apply lookup_insert_eq|done|lia]].
  unfold ret. do 2 f_equal. unfold lock_free in Hl. destruct p as [i t q m sl ds]. cbn in *.
  unfold set_irql, set_lock, set_dpclist, set_dpc. cbn. rewrite !insert_insert_eq. rewrite (insert_id sl) by done. done.
Qed.

Lemma ready_cpu idle i j t n w k x x' :
  kernel_ready idle i t n w k → 0 <= j <= DISPATCH_LEVEL → calm x (cpu k) → driver_dpc x' →
  kernel_ready idle j t n w (with_cpu (set_irql j (set_dpc IdeDpcObject x' (cpu k))) k).
Proof.
  intros [[[K1 K2 K3 K4 K5] Hi HQ [T1 T2 T3 T4 T5]] H2 H3 H4 H6 H7] Hj (C1 & C2 & C3) Hx'.
  constructor; [|done|done| |done|done].
  - constructor; cbn; [by constructor|done|by apply queues_cpu|by constructor].
  - exists x'. split; [|done]. split; [done|]. split; [done|]. cbn. apply lookup_insert_eq.
Qed.

Section interrupts.
Context {D : Type} `{!Ports D} (run_dpc : addr → M prcb unit) (dereference : addr → M sched unit) (fuel : nat) (idle : Z).
Implicit Types (s : ide D) (n w : Z → Z).

Lemma in_kern_run {A B} (m : M sched A) (f : A → M (ide D) B) s a k :
  m (kern s) = Ok (a, k) → bind (in_kern m) f s = f a (set_kern k s).
Proof. intros E. unfold in_kern, zoom, bind. by rewrite E. Qed.

Lemma in_kern_cpu_run {A B} (m : M prcb A) (f : A → M (ide D) B) s a p :
  m (cpu (kern s)) = Ok (a, p) → bind (in_kern (in_cpu m)) f s = f a (set_kern (with_cpu p (kern s)) s).
Proof. intros E. apply in_kern_run. unfold in_cpu, zoom. by rewrite E. Qed.

(** Which channels have had a command. *)
Definition expecting s (c : Z) : bool :=
  match channels s !! Z.to_nat c with Some x => expecting_interrupt x | None => false end.

(** The counts after the deferred call. *)
Definition upped (e : Z → bool) n : Z → Z := λ c, if e c then n c + 1 else n c.

Lemma release_expecting_run i t n w s c :
  kernel_ready idle i t n w (kern s) → is_channel c → is_Some (channels s !! Z.to_nat c) →
  (expecting s c = true → n c < 100) →
  ∃ k, release_expecting run_dpc c s = Ok (tt, set_kern k s) ∧
    kernel_ready idle i t (put c (if expecting s c then n c + 1 else n c) n) w k.
Proof.
  intros Hk Hc [x Ex] Hn. unfold release_expecting, get_channel, expecting in *.
  rewrite (deref_run (λ s : ide D, channels s !! Z.to_nat c) _ _ _ Ex). rewrite Ex in *. destruct (expecting_interrupt x).
  - destruct (release_semaphore_run run_dpc idle i t n w (kern s) c Hk Hc (Hn eq_refl)) as (r & k & R & Hk').
    exists k. cbn [when]. split.
    + unfold in_kern, zoom. unfold bind at 1. by rewrite R.
    + revert Hk'. apply ready_ext. intros c' Hc'. split; [done|]. unfold put. by destruct (Z.eqb_spec c' c) as [->|].
  - exists (kern s). split; [by destruct s|]. revert Hk. apply ready_ext. intros c' Hc'. split; [|done].
    unfold put. by destruct (Z.eqb_spec c' c) as [->|].
Qed.

Lemma dpc_routine_run i t n w s :
  kernel_ready idle i t n w (kern s) → length (channels s) = 2%nat →
  (∀ c, is_channel c → expecting s c = true → n c < 100) →
  ∃ k, IdeDpcRoutine run_dpc s = Ok (tt, set_kern k s) ∧ kernel_ready idle i t (upped (expecting s) n) w k.
Proof.
  intros Hk Hl Hn. assert (∀ c, is_channel c → is_Some (channels s !! Z.to_nat c)) as Hs.
  { intros c [->| ->]; apply lookup_lt_is_Some_2; cbn; lia. }
  destruct (release_expecting_run i t n w s 0 Hk ltac:(by left) (Hs 0 ltac:(by left)) (Hn 0 ltac:(by left))) as (k1 & R1 & Hk1).
  destruct (release_expecting_run i t _ w (set_kern k1 s) 1 Hk1 ltac:(by right)) as (k2 & R2 & Hk2).
  { apply (Hs 1). by right. } { intros He. rewrite put_ne by done. by apply (Hn 1 ltac:(by right)). }
  exists k2. split; [unfold IdeDpcRoutine; rewrite (bind_Ok _ _ _ _ _ R1); exact R2|].
  revert Hk2. apply ready_ext. intros c Hc. split; [|done]. unfold upped. destruct Hc as [->| ->].
  - rewrite put_ne by done. by rewrite put_eq.
  - rewrite put_eq. by rewrite put_ne.
Qed.

(** The queue of the processor is [IdeDpcObject] between the handler and its call. *)
Lemma interrupt_entry (f : M (ide D) unit) (g : Z → M (ide D) unit) i t n w s v :
  kernel_ready idle i t n w (kern s) → i <= APC_LEVEL → v = 46 ∨ v = 47 →
  ∃ k, (let! OldIrql := in_kern (in_cpu (KeRaiseIrql (Trap.KiGetIrqlForVector v))) in
    interrupt_handler run_dpc >>> in_kern (in_cpu (KeLowerIrql run_dpc 2 DISPATCH_LEVEL)) >>>
    let! d := in_kern (in_cpu take_dpc) in
    (if d =? IdeDpcObject then f else halt BugCheck) >>> g OldIrql) s = (f >>> g i) (set_kern k s) ∧
    kernel_ready idle DISPATCH_LEVEL t n w k.
Proof.
  intros Hk Hi Hv. pose proof Hk as [H1 H2 H3 (x & Hc & Hx) _ _]. pose proof (s_irql _ _ H1) as H0. rewrite H2 in H0.
  set (p := cpu (kern s)) in *. set (lev := Trap.KiGetIrqlForVector v).
  assert (3 < lev <= 31) as Hlev by (by destruct Hv as [->| ->]). unfold APC_LEVEL in Hi.
  rewrite (in_kern_cpu_run _ _ s _ _ (raise_run lev p ltac:(lia) ltac:(lia))). fold p.
  unfold interrupt_handler. rewrite bind_assoc.
  assert (calm x (set_irql lev p)) as Hc1 by exact Hc.
  erewrite in_kern_cpu_run by exact (insert_driver_dpc run_dpc x (set_irql lev p) Hc1 Hx ltac:(cbn; lia)). rewrite bind_ret.
  erewrite in_kern_cpu_run by exact (lower_plain run_dpc 2 DISPATCH_LEVEL (set_dpclist [IdeDpcObject] (set_dpc IdeDpcObject (queued_dpc x) (set_irql lev p)))
    ltac:(cbn; unfold DISPATCH_LEVEL; lia) ltac:(unfold DISPATCH_LEVEL; lia)).
  erewrite in_kern_cpu_run; [|unfold take_dpc; rewrite gets_run; cbn [DpcListHead set_irql set_dpclist with_cpu cpu kern set_kern]; rewrite modify_run; reflexivity].
  rewrite Z.eqb_refl, H2. eexists. split; [reflexivity|].
  match goal with |- kernel_ready _ _ _ _ _ ?k =>
    assert (k = with_cpu (set_irql 2 (set_dpc IdeDpcObject (queued_dpc x) p)) (kern s)) as -> end.
  { cbn. unfold with_cpu. cbn. destruct Hc as (Hq & _ & _). unfold set_irql, set_dpc, set_dpclist. cbn. by rewrite Hq. }
  apply (ready_cpu idle i 2 t n w (kern s) x); [done|unfold DISPATCH_LEVEL; lia|done|]. by destruct Hx.
Qed.
End interrupts.

(** ** The disks

    What the driver relies on: the protocol of the two ATA command blocks at their
    legacy addresses, as far as reading and writing one sector goes.  A drive is busy
    for fewer than 3000 polls after a write command. *)

Inductive phase :=
| Idle
| Reading (data : list Z)
| DataIn (data : list Z)
| Preparing (polls : nat) (dev lba : Z)
| DataOut (dev lba : Z) (data : list Z)
| Storing (dev lba : Z) (data : list Z).

(** [sectors]: by device and number, in words of 16 bits. *)
Record ata := Ata {
  r_nsect : Z; r_lbal : Z; r_lbam : Z; r_lbah : Z; r_device : Z;
  phase_of : phase;
  sectors : gmap (Z * Z) (list Z) }.

Definition set_phase (p : phase) (a : ata) : ata :=
  Ata (r_nsect a) (r_lbal a) (r_lbam a) (r_lbah a) (r_device a) p (sectors a).
Definition set_sector (dev lba : Z) (data : list Z) (a : ata) : ata :=
  Ata (r_nsect a) (r_lbal a) (r_lbam a) (r_lbah a) (r_device a) (phase_of a) (<[(dev, lba) := data]> (sectors a)).
Definition set_register (k v : Z) (a : ata) : ata :=
  Ata (if k =? 2 then v else r_nsect a) (if k =? 3 then v else r_lbal a) (if k =? 4 then v else r_lbam a)
    (if k =? 5 then v else r_lbah a) (if k =? 6 then v else r_device a) (phase_of a) (sectors a).

Definition selected (a : ata) : Z := if Z.testbit (r_device a) 4 then 1 else 0.
Definition address (a : ata) : Z :=
  r_lbal a + 2 ^ 8 * r_lbam a + 2 ^ 16 * r_lbah a + 2 ^ 24 * Z.land (r_device a) 15.

(** One sector in LBA mode. *)
Definition addressed (a : ata) : Prop := r_nsect a = 1 ∧ Z.testbit (r_device a) 6 = true.

Definition base (c : Z) : Z := if c =? 0 then 0x1f0 else 0x170.
Definition vector (c : Z) : Z := if c =? 0 then 46 else 47.

Section becomes.
Context {D : Type} (ata_of : D → Z → ata).

(** Channel [c] becomes [a], the other one stays. *)
Definition becomes (c : Z) (a : ata) (d d' : D) : Prop :=
  ata_of d' c = a ∧ ∀ c', is_channel c' → c' ≠ c → ata_of d' c' = ata_of d c'.
End becomes.

Class AtaChannels (D : Type) `{!Ports D} := {
  ata_of : D → Z → ata;
  hw_status d c : is_channel c → phase_of (ata_of d c) = Idle →
    let '(v, d') := port_in (base c + 7) d in Z.land (u8 v) 0x88 = 0 ∧ becomes ata_of c (ata_of d c) d d';
  hw_alt_status d c : is_channel c →
    let '(v, d') := port_in (base c + 0x206) d in
    match phase_of (ata_of d c) with
    | Idle => becomes ata_of c (ata_of d c) d d'
    | DataIn _ | DataOut _ _ _ => Z.land (u8 v) STA_BSY = 0 ∧ Z.land (u8 v) STA_DRQ ≠ 0 ∧ becomes ata_of c (ata_of d c) d d'
    | Preparing (S n) dev lba => Z.land (u8 v) STA_BSY ≠ 0 ∧ becomes ata_of c (set_phase (Preparing n dev lba) (ata_of d c)) d d'
    | Preparing O dev lba => Z.land (u8 v) STA_BSY = 0 ∧ becomes ata_of c (set_phase (DataOut dev lba []) (ata_of d c)) d d'
    | _ => True
    end;
  hw_register d c k v : is_channel c → 2 <= k <= 6 → phase_of (ata_of d c) = Idle →
    becomes ata_of c (set_register k v (ata_of d c)) d (port_out (base c + k) v d);
  hw_read d c data : is_channel c → phase_of (ata_of d c) = Idle → addressed (ata_of d c) →
    sectors (ata_of d c) !! (selected (ata_of d c), address (ata_of d c)) = Some data →
    becomes ata_of c (set_phase (Reading data) (ata_of d c)) d (port_out (base c + 7) CMD_READ_SECTOR_RETRY d);
  hw_write d c : is_channel c → phase_of (ata_of d c) = Idle → addressed (ata_of d c) →
    is_Some (sectors (ata_of d c) !! (selected (ata_of d c), address (ata_of d c))) →
    ∃ n, (n < 3000)%nat ∧
    becomes ata_of c (set_phase (Preparing n (selected (ata_of d c)) (address (ata_of d c))) (ata_of d c)) d
      (port_out (base c + 7) CMD_WRITE_SECTOR_RETRY d);
  hw_data_in d c v data : is_channel c → phase_of (ata_of d c) = DataIn (v :: data) →
    ∃ d', port_inw (base c) d = (v, d') ∧
      becomes ata_of c (set_phase (if decide (data = []) then Idle else DataIn data) (ata_of d c)) d d';
  hw_data_out d c v dev lba data : is_channel c → phase_of (ata_of d c) = DataOut dev lba data → (length data < 256)%nat →
    becomes ata_of c (set_phase (if decide (length data = 255%nat) then Storing dev lba (data ++ [v])
      else DataOut dev lba (data ++ [v])) (ata_of d c)) d (port_outw (base c) v d);
  hw_interrupt_read d c data : is_channel c → phase_of (ata_of d c) = Reading data → phase_of (ata_of d (1 - c)) = Idle →
    ∃ d', next_interrupt d = Some (vector c, d') ∧ becomes ata_of c (set_phase (DataIn data) (ata_of d c)) d d';
  hw_interrupt_write d c dev lba data : is_channel c → phase_of (ata_of d c) = Storing dev lba data →
    phase_of (ata_of d (1 - c)) = Idle →
    ∃ d', next_interrupt d = Some (vector c, d') ∧
      becomes ata_of c (set_phase Idle (set_sector dev lba data (ata_of d c))) d d' }.

(** A sector has 256 words of 16 bits. *)
Definition is_sector (data : list Z) : Prop := length data = 256%nat ∧ Forall (λ v, 0 <= v < 2 ^ 16) data.

(** Sectors in memory, low byte first. *)
Definition bytes_of (data : list Z) : list Z := mjoin ((λ v, [u8 v; u8 (Z.shiftr v 8)]) <$> data).

Lemma bytes_of_cons v data : bytes_of (v :: data) = u8 v :: u8 (Z.shiftr v 8) :: bytes_of data.
Proof. done. Qed.

Lemma length_bytes_of data : length (bytes_of data) = (2 * length data)%nat.
Proof. induction data as [|v data IH]; [done|]. rewrite bytes_of_cons. cbn [length]. rewrite IH. lia. Qed.

(** ** The driver on the disks *)

Section runs.
Context {D : Type} `{!Ports D} `{!AtaChannels D}.
Context (run_dpc : addr → M prcb unit) (dereference : addr → M sched unit) (fuel : nat) (idle : Z).
Implicit Types (s : ide D) (n w : Z → Z) (d : D).
Local Notation becomes := (becomes ata_of).

Lemma becomes_trans c a b d d1 d2 : becomes c a d d1 → becomes c b d1 d2 → becomes c b d d2.
Proof using. intros [_ H1] [H2 H3]. split; [done|]. intros c' Hc Hne. by rewrite H3, H1. Qed.

Definition channel_at (l : list channel) (c : Z) : option channel := l !! Z.to_nat c.
Definition disk_at (l : list channel) (p : Z * Z) : option disk := x ← channel_at l (fst p); devices x !! Z.to_nat (snd p).

(** The channels as disk_init leaves them. *)
Record wired (l : list channel) : Prop := {
  wired_length : length l = 2%nat;
  wired_channel c : is_channel c → ∃ x, channel_at l c = Some x ∧ reg_base x = base c ∧ length (devices x) = 2%nat;
  wired_disk c v : is_channel c → is_channel v → ∃ y, disk_at l (c, v) = Some y ∧ d_channel y = c ∧ dev_no y = v }.

Lemma get_channel_run {B} (f : channel → M (ide D) B) c x s : channel_at (channels s) c = Some x → bind (get_channel c) f s = f x s.
Proof using. apply (deref_run (λ s : ide D, channels s !! Z.to_nat c)). Qed.

Lemma get_disk_run {B} (f : disk → M (ide D) B) p y s : disk_at (channels s) p = Some y → bind (get_disk p) f s = f y s.
Proof using.
  intros H. apply bind_Some in H as (x & Hx & Hy). unfold get_disk. rewrite bind_assoc, (get_channel_run _ _ _ _ Hx).
  by apply (deref_run (λ _ : ide D, devices x !! Z.to_nat (snd p))).
Qed.

Lemma inb_run {B} (f : Z → M (ide D) B) port s v d :
  port_in port (hardware s) = (v, d) → bind (inb port) f s = f (u8 v) (set_hardware d s).
Proof using. intros E. unfold bind, inb. by rewrite E. Qed.

Lemma channel_of_run {B} (f : channel → M (ide D) B) c v x s :
  wired (channels s) → is_channel c → is_channel v → channel_at (channels s) c = Some x → bind (channel_of (c, v)) f s = f x s.
Proof using.
  intros Hw Hc Hv Hx. destruct (wired_disk _ Hw c v Hc Hv) as (y & Hy & Ey & _). unfold channel_of.
  rewrite bind_assoc, (get_disk_run _ _ _ _ Hy). apply get_channel_run. by rewrite Ey.
Qed.

Lemma wait_until_idle_run c v s :
  wired (channels s) → is_channel c → is_channel v → phase_of (ata_of (hardware s) c) = Idle →
  ∃ d, wait_until_idle (c, v) s = Ok (tt, set_hardware d s) ∧ becomes c (ata_of (hardware s) c) (hardware s) d.
Proof using.
  intros Hw Hc Hv Hp. destruct (wired_channel _ Hw c Hc) as (x & Hx & Hb & _). unfold wait_until_idle.
  rewrite (channel_of_run _ c v x s Hw Hc Hv Hx). pose proof (hw_status (hardware s) c Hc Hp) as H.
  destruct (port_in (base c + 7) (hardware s)) as [a d] eqn:E. destruct H as [H Hd]. exists d. split; [|done].
  change 1000%nat with (S 999). cbn [wait_until_idle_loop]. unfold reg_status. rewrite Hb, (inb_run _ _ _ _ _ E).
  change (Z.lor STA_BSY STA_DRQ) with 0x88. by rewrite H.
Qed.

Lemma sleep_run {B} (f : unit → M (ide D) B) num denom s : denom mod 1000 = 0 → bind (real_time_sleep num denom) f s = f tt s.
Proof using. intros H. apply assert_true. by apply Z.eqb_eq. Qed.

Definition device_byte (v : Z) : Z := if v =? 1 then Z.lor DEV_MBS DEV_DEV else DEV_MBS.

Lemma select_device_run c v s :
  wired (channels s) → is_channel c → is_channel v → phase_of (ata_of (hardware s) c) = Idle →
  ∃ d, select_device (c, v) s = Ok (tt, set_hardware d s) ∧
    becomes c (set_register 6 (device_byte v) (ata_of (hardware s) c)) (hardware s) d.
Proof using.
  intros Hw Hc Hv Hp. destruct (wired_channel _ Hw c Hc) as (x & Hx & Hb & _). destruct (wired_disk _ Hw c v Hc Hv) as (y & Hy & Ey & Ed).
  unfold select_device. rewrite (get_disk_run _ _ _ _ Hy). rewrite Ey, (get_channel_run _ _ _ _ Hx), Ed.
  assert (u8 (device_byte v) = device_byte v) as E8 by (by destruct Hv as [->| ->]).
  unfold outb. rewrite modify_run. unfold reg_device. fold (device_byte v). rewrite E8, Hb.
  pose proof (hw_register (hardware s) c 6 (device_byte v) Hc ltac:(lia) Hp) as H1.
  set (d1 := port_out (base c + 6) (device_byte v) (hardware s)) in *. pose proof (hw_alt_status d1 c Hc) as H2.
  destruct (port_in (base c + 0x206) d1) as [a d2] eqn:E. rewrite (proj1 H1) in H2. cbn [phase_of set_register] in H2. rewrite Hp in H2.
  exists d2. split; [|by eapply becomes_trans; [exact H1|]]. unfold reg_alt_status, reg_ctl. rewrite Hb.
  erewrite inb_run by exact E. done.
Qed.

Lemma select_device_wait_run c v s :
  wired (channels s) → is_channel c → is_channel v → phase_of (ata_of (hardware s) c) = Idle →
  ∃ d, select_device_wait (c, v) s = Ok (tt, set_hardware d s) ∧
    becomes c (set_register 6 (device_byte v) (ata_of (hardware s) c)) (hardware s) d.
Proof using.
  intros Hw Hc Hv Hp. unfold select_device_wait.
  destruct (wait_until_idle_run c v s Hw Hc Hv Hp) as (d1 & R1 & B1). rewrite (bind_Ok _ _ _ _ _ R1).
  destruct (select_device_run c v (set_hardware d1 s)) as (d2 & R2 & B2); [done..|by cbn; rewrite (proj1 B1)|].
  rewrite (bind_Ok _ _ _ _ _ R2). cbn [hardware set_hardware] in B2. rewrite (proj1 B1) in B2.
  destruct (wait_until_idle_run c v (set_hardware d2 s)) as (d3 & R3 & B3); [done..|by cbn; rewrite (proj1 B2)|].
  exists d3. split; [exact R3|]. cbn [hardware set_hardware] in B3. rewrite (proj1 B2) in B3.
  eapply becomes_trans; [exact B1|]. by eapply becomes_trans; [exact B2|].
Qed.

(** The registers that select_sector writes. *)
Definition sector_registers (v sec : Z) (a : ata) : ata :=
  Ata 1 (u8 sec) (u8 (Z.shiftr sec 8)) (u8 (Z.shiftr sec 16))
    (u8 (Z.lor (Z.lor (Z.lor DEV_MBS DEV_LBA) (if v =? 1 then DEV_DEV else 0)) (Z.shiftr sec 24))) (phase_of a) (sectors a).

Lemma register_step c a k u d d' :
  is_channel c → 2 <= k <= 6 → phase_of a = Idle → becomes c a d d' →
  becomes c (set_register k u a) d (port_out (base c + k) u d').
Proof using.
  intros Hc Hk Hp B. eapply becomes_trans; [exact B|]. rewrite <- (proj1 B). apply hw_register; [done..|]. by rewrite (proj1 B).
Qed.

Lemma select_sector_run c v sec y s :
  wired (channels s) → is_channel c → is_channel v → phase_of (ata_of (hardware s) c) = Idle →
  disk_at (channels s) (c, v) = Some y → sec < capacity y → sec < 2 ^ 28 →
  ∃ d, select_sector (c, v) sec s = Ok (tt, set_hardware d s) ∧
    becomes c (sector_registers v sec (ata_of (hardware s) c)) (hardware s) d.
Proof using.
  intros Hw Hc Hv Hp Hy Hcap H28. destruct (wired_channel _ Hw c Hc) as (x & Hx & Hb & _).
  destruct (wired_disk _ Hw c v Hc Hv) as (y' & Hy' & Ey & Ed). rewrite Hy in Hy'. injection Hy' as <-.
  unfold select_sector. rewrite (get_disk_run _ _ _ _ Hy), assert_true by (by apply Z.ltb_lt).
  rewrite assert_true by (by apply Z.ltb_lt). destruct (select_device_wait_run c v s Hw Hc Hv Hp) as (d0 & R0 & B0).
  rewrite (bind_Ok _ _ _ _ _ R0), Ey, (get_channel_run _ c x) by done. rewrite Ed.
  unfold outb, reg_nsect, reg_lbal, reg_lbam, reg_lbah, reg_device. rewrite Hb, !modify_run.
  eexists. split; [reflexivity|]. set (u := u8 (Z.lor _ (Z.shiftr sec 24))). cbn [hardware set_hardware].
  set (a := ata_of (hardware s) c) in *.
  change (becomes c (set_register 6 u (set_register 5 (u8 (Z.shiftr sec 16)) (set_register 4 (u8 (Z.shiftr sec 8))
    (set_register 3 (u8 sec) (set_register 2 (u8 1) (set_register 6 (device_byte v) a)))))) (hardware s)
    (port_out (base c + 6) u (port_out (base c + 5) (u8 (Z.shiftr sec 16)) (port_out (base c + 4) (u8 (Z.shiftr sec 8))
      (port_out (base c + 3) (u8 sec) (port_out (base c + 2) (u8 1) d0)))))).
  do 5 (apply register_step; [done|lia|exact Hp|]). exact B0.
Qed.
End runs.

(** ** Commands and data *)

Section commands.
Context {D : Type} `{!Ports D} `{!AtaChannels D}.
Context (run_dpc : addr → M prcb unit) (dereference : addr → M sched unit) (fuel : nat) (idle : Z).
Implicit Types (s : ide D) (n w : Z → Z) (d : D).
Local Notation becomes := (becomes ata_of).

Lemma interrupt_flag_run {B} (f : bool → M (ide D) B) s :
  bind (in_hal Hal.HalAreInterruptsEnabled) f s = f (Hal.interrupt_flag (controllers s)) s.
Proof using. unfold bind, in_hal, inside, zoom. cbn. by destruct s as [[] [] ? ? ?]. Qed.

Definition mark (c : Z) (l : list channel) : list channel := alter (set_expecting true) (Z.to_nat c) l.

Lemma channel_at_mark c c' l : is_channel c → is_channel c' →
  channel_at (mark c l) c' = (if c' =? c then set_expecting true <$> channel_at l c' else channel_at l c').
Proof using.
  intros Hc Hc'. unfold channel_at, mark. destruct (Z.eqb_spec c' c) as [->|Hne].
  - apply list_lookup_alter_eq.
  - apply list_lookup_alter_ne. destruct Hc as [->| ->], Hc' as [->| ->]; done.
Qed.

Lemma disk_at_mark c l p : is_channel c → is_channel (fst p) → disk_at (mark c l) p = disk_at l p.
Proof using.
  intros Hc Hp. unfold disk_at. rewrite channel_at_mark by done. destruct (_ =? c); [|done]. by destruct (channel_at l (fst p)).
Qed.

Lemma wired_mark c l : is_channel c → wired l → wired (mark c l).
Proof using.
  intros Hc [H1 H2 H3]. constructor.
  - unfold mark. by rewrite length_alter.
  - intros c' Hc'. rewrite channel_at_mark by done. destruct (H2 c' Hc') as (x & -> & Hb & Hl).
    destruct (c' =? c); eexists; (split; [done|]); done.
  - intros c' v Hc' Hv. rewrite disk_at_mark by done. by apply H3.
Qed.

Lemma expecting_mark c s s' c' : is_channel c → is_channel c' → wired (channels s) → channels s' = mark c (channels s) →
  expecting s' c' = (c' =? c) || expecting s c'.
Proof using.
  intros Hc Hc' Hw E. unfold expecting. rewrite E. fold (channel_at (mark c (channels s)) c') (channel_at (channels s) c').
  rewrite channel_at_mark by done. destruct (wired_channel _ Hw c' Hc') as (x & -> & _). by destruct (c' =? c).
Qed.

Definition with_command (c cmd : Z) s : ide D :=
  set_hardware (port_out (base c + 7) cmd (hardware s)) (set_channels (mark c (channels s)) s).

Lemma issue_run {B} (f : unit → M (ide D) B) c cmd s :
  wired (channels s) → is_channel c → Hal.interrupt_flag (controllers s) = true → 0 <= cmd < 256 →
  bind (issue_pio_command c cmd) f s = f tt (with_command c cmd s).
Proof using.
  intros Hw Hc Hi Hcmd. destruct (wired_channel _ Hw c Hc) as (x & Hx & Hb & _). unfold issue_pio_command.
  rewrite bind_assoc, interrupt_flag_run, bind_assoc, assert_true, bind_assoc, (get_channel_run _ _ x) by done.
  unfold put_channel, outb. rewrite bind_assoc, modify_run, modify_run. unfold with_command, reg_command, reg_status.
  rewrite Hb. assert (u8 cmd = cmd) as -> by (unfold u8; by apply Z.mod_small). do 2 f_equal. cbn.
  unfold set_channels. cbn. f_equal. unfold mark. apply list_eq. intros j. unfold channel_at in Hx.
  destruct (decide (j = Z.to_nat c)) as [->|Hne].
  - rewrite list_lookup_alter_eq, Hx. rewrite list_lookup_insert_eq by (by eapply lookup_lt_Some). done.
  - by rewrite list_lookup_alter_ne, list_lookup_insert_ne by done.
Qed.

(** *** Waiting for the drive *)

Lemma drq_test (u : Z) : Z.land u STA_DRQ ≠ 0 → negb (Z.land u STA_DRQ =? 0) = true.
Proof using. intros H. by apply negb_true_iff, Z.eqb_neq. Qed.

Lemma wait_loop_data c x m data s :
  is_channel c → reg_base x = base c → phase_of (ata_of (hardware s) c) = DataIn data →
  ∃ d, (let! v := inb (reg_alt_status x) in
      if Z.land v STA_BSY =? 0 then let! v' := inb (reg_alt_status x) in ret (negb (Z.land v' STA_DRQ =? 0))
      else timer_msleep 10 >>> wait_while_busy_loop m x) s = Ok (true, set_hardware d s) ∧
    becomes c (ata_of (hardware s) c) (hardware s) d.
Proof using.
  intros Hc Hb Hp. unfold reg_alt_status, reg_ctl. rewrite Hb.
  assert (∀ d, ata_of d c = ata_of (hardware s) c → ∃ v d', port_in (base c + 0x206) d = (v, d') ∧
    Z.land (u8 v) STA_BSY = 0 ∧ Z.land (u8 v) STA_DRQ ≠ 0 ∧ becomes c (ata_of (hardware s) c) d d') as Hread.
  { intros d Hd. pose proof (hw_alt_status d c Hc) as H. rewrite Hd in H. destruct (port_in _ d) as [v d'].
    rewrite Hp in H. by exists v, d'. }
  destruct (Hread (hardware s) eq_refl) as (v & d & E & A1 & _ & B1). rewrite (inb_run _ _ _ _ _ E), A1, Z.eqb_refl.
  destruct (Hread d (proj1 B1)) as (v' & d' & E' & _ & A2 & B2). erewrite inb_run by exact E'. exists d'.
  rewrite (drq_test _ A2). split; [done|]. by eapply becomes_trans; [exact B1|].
Qed.

Lemma wait_loop_preparing c x dev lba a0 : is_channel c → reg_base x = base c → ∀ k m s,
  (k < m)%nat → ata_of (hardware s) c = set_phase (Preparing k dev lba) a0 →
  ∃ d, wait_while_busy_loop m x s = Ok (true, set_hardware d s) ∧ becomes c (set_phase (DataOut dev lba []) a0) (hardware s) d.
Proof using.
  intros Hc Hb. induction k as [|k IH]; intros [|m] s Hm Ha; [lia| |lia|]; cbn [wait_while_busy_loop];
    unfold reg_alt_status, reg_ctl; rewrite Hb; pose proof (hw_alt_status (hardware s) c Hc) as H1; rewrite Ha in H1;
    cbn [phase_of set_phase] in H1; destruct (port_in _ (hardware s)) as [v d] eqn:E; destruct H1 as (A1 & B1);
    rewrite (inb_run _ _ _ _ _ E).
  - rewrite A1, Z.eqb_refl. pose proof (hw_alt_status d c Hc) as H2. rewrite (proj1 B1) in H2. cbn [phase_of set_phase] in H2.
    destruct (port_in _ d) as [v' d'] eqn:E'. destruct H2 as (_ & A2 & B2). erewrite inb_run by exact E'. exists d'.
    rewrite (drq_test _ A2). split; [done|]. by eapply becomes_trans; [exact B1|].
  - rewrite (proj2 (Z.eqb_neq _ _) A1). unfold timer_msleep. rewrite sleep_run by done.
    destruct (IH m (set_hardware d s) ltac:(lia) (proj1 B1)) as (d' & R & B2). exists d'. split; [exact R|].
    by eapply becomes_trans; [exact B1|].
Qed.

(** 3000 polls are enough for a drive that has data or gets ready for it. *)
Lemma wait_ready_run c v s dev lba polls :
  wired (channels s) → is_channel c → is_channel v →
  (∃ data, phase_of (ata_of (hardware s) c) = DataIn data) ∨
  (phase_of (ata_of (hardware s) c) = Preparing polls dev lba ∧ (polls < 3000)%nat) →
  ∃ d, wait_while_busy (c, v) s = Ok (true, set_hardware d s) ∧
    becomes c (match phase_of (ata_of (hardware s) c) with
      | Preparing _ dev lba => set_phase (DataOut dev lba []) (ata_of (hardware s) c) | _ => ata_of (hardware s) c end)
      (hardware s) d.
Proof using.
  intros Hw Hc Hv H. destruct (wired_channel _ Hw c Hc) as (x & Hx & Hb & _). unfold wait_while_busy.
  rewrite (channel_of_run _ c v x s Hw Hc Hv Hx). destruct H as [[data Hp]|[Hp Hn]]; rewrite Hp.
  - destruct (wait_loop_data c x 2999 data s Hc Hb Hp) as (d & R & B). exists d. by split; [exact R|].
  - apply (wait_loop_preparing c x dev lba _ Hc Hb polls 3000%nat s Hn). rewrite <- Hp. by destruct (ata_of (hardware s) c).
Qed.

(** *** Data *)

Definition mapped (a : addr) (len : nat) (m : Str.memory) : Prop := ∀ j, a <= j < a + Z.of_nat len → is_Some (m !! j).

Definition in_phase (data : list Z) : phase := if decide (data = []) then Idle else DataIn data.

Lemma store_word {B} (f : unit → M (ide D) B) a b s :
  is_Some (buffers s !! a) → bind (in_buffers (Str.st a b)) f s = f tt (set_buffers (<[a := b]> (buffers s)) s).
Proof using. intros [x E]. unfold in_buffers, zoom, Str.st, Str.ld, bind, deref. by rewrite E. Qed.

Lemma load_byte {B} (f : Z → M (ide D) B) a b s :
  buffers s !! a = Some b → bind (in_buffers (Str.ld a)) f s = f b s.
Proof using. intros E. unfold in_buffers, zoom, Str.ld, bind, deref. rewrite E. by destruct s. Qed.

Lemma map_bytes_cons a v data (m : Str.memory) :
  map_seqZ a (bytes_of (v :: data)) ∪ m
    = map_seqZ (a + 2) (bytes_of data) ∪ (<[a + 1 := u8 (Z.shiftr v 8)]> (<[a := u8 v]> m)).
Proof using.
  rewrite bytes_of_cons. cbn [map_seqZ]. rewrite <- insert_union_l, <- insert_union_l.
  replace (Z.succ (Z.succ a)) with (a + 2) by lia. replace (Z.succ a) with (a + 1) by lia.
  assert (∀ j, j < a + 2 → map_seqZ (M := gmap Z Z) (a + 2) (bytes_of data) !! j = None) as Hn.
  { intros j Hj. rewrite lookup_map_seqZ. by rewrite option_guard_False by lia. }
  rewrite <- (insert_union_r _ _ (a + 1)) by (apply Hn; lia). rewrite <- (insert_union_r _ _ a) by (apply Hn; lia).
  apply insert_insert_ne. lia.
Qed.

Lemma insw_run c data a s :
  is_channel c → Forall (λ v, 0 <= v < 2 ^ 16) data → phase_of (ata_of (hardware s) c) = in_phase data →
  mapped a (2 * length data) (buffers s) → 0 <= a → a + 2 * Z.of_nat (length data) <= 2 ^ 32 →
  ∃ d, insw (base c + 0) a (length data) s
      = Ok (tt, set_buffers (map_seqZ a (bytes_of data) ∪ buffers s) (set_hardware d s)) ∧
    becomes c (set_phase Idle (ata_of (hardware s) c)) (hardware s) d.
Proof using.
  intros Hc Hf. revert a s. induction Hf as [|v data Hv Hf IH]; intros a s Hp Hm H0 Ha.
  - exists (hardware s). cbn. rewrite map_empty_union. split; [by destruct s|]. split; [|done].
    cbn in Hp. destruct (ata_of (hardware s) c). cbn in *. by rewrite Hp.
  - cbn [length insw]. cbn [length] in Ha, Hm.
    destruct (hw_data_in (hardware s) c v data Hc) as (d & E & B1); [exact Hp|].
    unfold bind at 1, inw. rewrite Z.add_0_r, E. assert (u16 v = v) as -> by (unfold u16; by apply Z.mod_small).
    rewrite (u32_small (a + 1)) by (split; lia).
    rewrite store_word by (cbn; apply Hm; lia). rewrite store_word.
    2: { cbn. rewrite lookup_insert_ne by lia. apply Hm. lia. }
    set (s1 := set_buffers _ (set_buffers _ (set_hardware d s))).
    assert (u32 (a + 2) = a + 2 ∨ data = []) as Hu.
    { destruct data; [by right|left]. cbn [length] in Ha. apply u32_small. split; lia. }
    destruct Hu as [Hu| ->].
    + rewrite Hu. destruct (IH (a + 2) s1) as (d' & R & B2).
      { change (hardware s1) with d. rewrite (proj1 B1). cbn. unfold in_phase. by destruct (decide _). }
      { intros j Hj. cbn. rewrite !lookup_insert_ne by lia. apply Hm. lia. } { lia. } { lia. }
      exists d'. rewrite Z.add_0_r in R. split.
      * by rewrite R, map_bytes_cons.
      * eapply becomes_trans; [exact B1|]. change (hardware s1) with d in B2. rewrite (proj1 B1) in B2. exact B2.
    + exists d. split; [|done]. rewrite map_bytes_cons. change (bytes_of []) with (@nil Z). cbn [map_seqZ]. by rewrite map_empty_union.
Qed.

Lemma word_of_bytes v : 0 <= v < 2 ^ 16 → u16 (Z.lor (u8 v) (Z.shiftl (u8 (Z.shiftr v 8)) 8)) = v.
Proof using.
  intros Hv. assert (u8 (Z.shiftr v 8) = v / 2 ^ 8) as ->.
  { rewrite Z.shiftr_div_pow2 by lia. unfold u8. apply Z.mod_small. split; [apply Z.div_pos; lia|]. apply Z.div_lt_upper_bound; lia. }
  assert (Z.lor (u8 v) (Z.shiftl (v / 2 ^ 8) 8) = v) as ->; [|unfold u16; by apply Z.mod_small].
  rewrite Z.shiftl_mul_pow2 by lia. unfold u8. change 256 with (2 ^ 8).
  apply Z.bits_inj'. intros j Hj. rewrite Z.lor_spec. destruct (Z.ltb_spec j 8).
  - rewrite Z.mod_pow2_bits_low, Z.mul_pow2_bits_low by lia. apply orb_false_r.
  - rewrite Z.mod_pow2_bits_high, Z.mul_pow2_bits, Z.div_pow2_bits by lia. cbn. f_equal. lia.
Qed.

Lemma outsw_run c dev lba data pre a s :
  is_channel c → Forall (λ v, 0 <= v < 2 ^ 16) data → phase_of (ata_of (hardware s) c) = DataOut dev lba pre →
  (length pre + length data)%nat = 256%nat → data ≠ [] → map_seqZ a (bytes_of data) ⊆ buffers s →
  0 <= a → a + 2 * Z.of_nat (length data) <= 2 ^ 32 →
  ∃ d, outsw (base c + 0) a (length data) s = Ok (tt, set_hardware d s) ∧
    becomes c (set_phase (Storing dev lba (pre ++ data)) (ata_of (hardware s) c)) (hardware s) d.
Proof using.
  intros Hc Hf. revert a pre s. induction Hf as [|v data Hv Hf IH]; intros a pre s Hp Hl Hne Hm H0 Ha; [done|].
  cbn [length] in Hl, Ha. cbn [length outsw]. rewrite bytes_of_cons in Hm. cbn [map_seqZ] in Hm.
  assert (∀ j b, map_seqZ a (u8 v :: u8 (Z.shiftr v 8) :: bytes_of data) !! j = Some b → buffers s !! j = Some b) as Hb
    by (intros j b Hj; exact (lookup_weaken _ _ j b Hj Hm)).
  rewrite (load_byte _ a (u8 v)) by (apply Hb; cbn; apply lookup_insert_eq).
  rewrite (u32_small (a + 1)) by (split; lia).
  rewrite (load_byte _ (a + 1) (u8 (Z.shiftr v 8))).
  2: { apply Hb. cbn. rewrite lookup_insert_ne by lia. replace (a + 1) with (Z.succ a) by lia. apply lookup_insert_eq. }
  unfold outw. rewrite modify_run, (word_of_bytes v Hv), Z.add_0_r.
  pose proof (hw_data_out (hardware s) c v dev lba pre Hc Hp ltac:(lia)) as B1.
  set (d1 := port_outw (base c) v (hardware s)) in *. destruct data as [|v' data'].
  - cbn [length outsw] in *. exists d1. split; [done|]. rewrite decide_True in B1 by lia. exact B1.
  - rewrite decide_False in B1 by (cbn [length] in Hl; lia). rewrite u32_small by (cbn [length] in Ha; split; lia).
    destruct (IH (a + 2) (pre ++ [v]) (set_hardware d1 s)) as (d' & R & B2).
    + cbn. by rewrite (proj1 B1).
    + rewrite length_app. cbn [length] in Hl |- *. lia.
    + done.
    + cbn [buffers set_hardware]. apply map_subseteq_spec. intros j b Hj. apply Hb.
      cbn [map_seqZ]. replace (Z.succ (Z.succ a)) with (a + 2) by lia.
      assert (a + 2 <= j) as Hge. { rewrite lookup_map_seqZ in Hj. destruct (decide (a + 2 <= j)); [done|]. by rewrite option_guard_False in Hj. }
      by rewrite !lookup_insert_ne by lia.
    + lia.
    + cbn [length] in Ha |- *. lia.
    + rewrite Z.add_0_r in R. exists d'. split; [exact R|]. eapply becomes_trans; [exact B1|].
      cbn [hardware set_hardware] in B2. rewrite (proj1 B1), <- app_assoc in B2. exact B2.
Qed.

(** *** The completion interrupt *)

Lemma take_interrupt_run i t n w s v :
  kernel_ready idle i t n w (kern s) → 0 <= i <= APC_LEVEL → v = 46 ∨ v = 47 → length (channels s) = 2%nat →
  (∀ c, is_channel c → expecting s c = true → n c < 100) →
  ∃ k, take_interrupt run_dpc v s = Ok (tt, set_kern k s) ∧ kernel_ready idle i t (upped (expecting s) n) w k.
Proof using.
  intros Hk Hi Hv Hl Hn. unfold APC_LEVEL in Hi. unfold take_interrupt.
  destruct (interrupt_entry run_dpc idle (IdeDpcRoutine run_dpc) (λ old, in_kern (in_cpu (KeLowerIrql run_dpc 2 old)))
    i t n w s v Hk ltac:(unfold APC_LEVEL; lia) Hv) as (k1 & -> & Hk1).
  destruct (dpc_routine_run run_dpc idle DISPATCH_LEVEL t n w (set_kern k1 s) Hk1 Hl Hn) as (k2 & R2 & Hk2).
  rewrite (bind_Ok _ _ _ _ _ R2). pose proof Hk2 as [H1 H2 H3 (x & Hc & Hx) _ _].
  assert (CurrentIrql (cpu k2) = 2) as H2' by exact H2.
  exists (with_cpu (set_irql i (cpu k2)) k2). split.
  - unfold in_kern, in_cpu, zoom. cbn [kern set_kern]. rewrite (lower_quiet run_dpc 0) by (lia || intros; apply Hc). done.
  - pose proof (ready_cpu idle DISPATCH_LEVEL i t _ w k2 x x Hk2 ltac:(unfold DISPATCH_LEVEL; lia) Hc Hx) as HR.
    replace (set_dpc IdeDpcObject x (cpu k2)) with (cpu k2) in HR; [exact HR|].
    destruct Hc as (_ & _ & Hd). destruct (cpu k2). unfold set_dpc. cbn in *. by rewrite insert_id.
Qed.

(** sema_down: the interrupt comes, then the wait finds the semaphore counted up. *)
Lemma sema_down_run i t n w s c d' :
  kernel_ready idle i t n w (kern s) → 0 <= i <= APC_LEVEL → is_channel c → wired (channels s) →
  Hal.interrupt_flag (controllers s) = true → next_interrupt (hardware s) = Some (vector c, d') →
  expecting s c = true → 0 <= n c → (∀ c, is_channel c → expecting s c = true → n c < 100) →
  ∃ k, sema_down run_dpc dereference fuel (completion_wait c) s = Ok (tt, set_kern k (set_hardware d' s)) ∧
    kernel_ready idle i t (put c (n c) (upped (expecting s) n)) w k.
Proof using.
  intros Hk Hi Hc Hw Hf Hn Hx H0 H100. unfold sema_down, deliver. rewrite bind_assoc, interrupt_flag_run, Hf, bind_assoc, gets_run, Hn.
  rewrite bind_assoc, modify_run.
  destruct (take_interrupt_run i t n w (set_hardware d' s) (vector c)) as (k1 & R1 & Hk1); [done..| |apply Hw|exact H100|].
  { destruct Hc as [->| ->]; [by left|by right]. }
  rewrite (bind_Ok _ _ _ _ _ R1). change (expecting (set_hardware d' s)) with (expecting s) in Hk1.
  assert (upped (expecting s) n c = n c + 1) as Hu by (unfold upped; by rewrite Hx).
  destruct (wait_semaphore_run run_dpc dereference fuel idle i t _ w k1 c Hk1 Hc ltac:(lia) ltac:(lia)) as (k2 & R2 & Hk2).
  exists k2. split.
  - unfold in_kern, zoom. cbn [kern set_kern]. by rewrite R2.
  - revert Hk2. apply ready_ext. intros c' Hc'. rewrite Hu. replace (n c + 1 - 1) with (n c) by lia. split; [done|].
    unfold put. by destruct (Z.eqb_spec c' c) as [->|].
Qed.
End commands.

(** ** One sector *)

Section transfer.
Context {D : Type} `{!Ports D} `{!AtaChannels D}.
Context (run_dpc : addr → M prcb unit) (dereference : addr → M sched unit) (fuel : nat) (idle : Z).
Implicit Types (s : ide D) (n w : Z → Z) (d : D) (l : list channel).
Local Notation becomes := (becomes ata_of).

(** *** The table of disks *)

Definition store_disk (p : Z * Z) (y : disk) l : list channel :=
  alter (λ x, set_devices (<[Z.to_nat (snd p) := y]> (devices x)) x) (Z.to_nat (fst p)) l.

Lemma channel_at_store p y l c : is_channel (fst p) → is_channel c →
  channel_at (store_disk p y l) c
    = (if c =? fst p then (λ x, set_devices (<[Z.to_nat (snd p) := y]> (devices x)) x) <$> channel_at l c else channel_at l c).
Proof using.
  intros Hp Hc. unfold channel_at, store_disk. destruct (Z.eqb_spec c (fst p)) as [->|Hne].
  - apply list_lookup_alter_eq.
  - apply list_lookup_alter_ne. unfold is_channel in *. lia.
Qed.

Lemma disk_at_store p y l q : wired l → is_channel (fst p) → is_channel (snd p) → is_channel (fst q) → is_channel (snd q) →
  disk_at (store_disk p y l) q = (if decide (q = p) then Some y else disk_at l q).
Proof using.
  intros Hw Hp Hv Hq Hu. unfold disk_at. rewrite channel_at_store by done. destruct p as [c v], q as [c' v']. cbn [fst snd] in *.
  destruct (wired_channel _ Hw c' Hq) as (x & Hx & _ & Hl). rewrite Hx. destruct (Z.eqb_spec c' c) as [->|Hne]; cbn.
  - destruct (decide (v' = v)) as [->|Hne].
    + rewrite decide_True by done. apply list_lookup_insert_eq. destruct Hv as [->| ->]; cbn; lia.
    + rewrite decide_False by congruence. apply list_lookup_insert_ne. unfold is_channel in *. lia.
  - by rewrite decide_False by congruence.
Qed.

Lemma wired_store p y y' l : wired l → is_channel (fst p) → is_channel (snd p) → disk_at l p = Some y →
  d_channel y' = d_channel y → dev_no y' = dev_no y → wired (store_disk p y' l).
Proof using.
  intros Hw Hp Hv Hy E1 E2. pose proof Hw as [H1 H2 H3]. constructor.
  - unfold store_disk. by rewrite length_alter.
  - intros c Hc. rewrite channel_at_store by done. destruct (H2 c Hc) as (x & -> & Hb & Hl).
    destruct (c =? fst p); eexists; (split; [done|]); [|done]. cbn. by rewrite length_insert.
  - intros c v Hc Hv'. rewrite (disk_at_store p y' l (c, v)) by done. destruct (decide _) as [<-|]; [|by apply H3].
    exists y'. destruct (H3 c v Hc Hv') as (y0 & Hy0 & A & B). rewrite Hy in Hy0. injection Hy0 as <-. split; [done|]. by rewrite E1, E2.
Qed.

Lemma put_disk_run {B} (f : unit → M (ide D) B) p y s :
  wired (channels s) → is_channel (fst p) → bind (put_disk p y) f s = f tt (set_channels (store_disk p y (channels s)) s).
Proof using.
  intros Hw Hc. destruct (wired_channel _ Hw _ Hc) as (x & Hx & _). unfold put_disk. rewrite bind_assoc, (get_channel_run _ _ x) by done.
  unfold put_channel. rewrite modify_run. do 2 f_equal. unfold store_disk. unfold channel_at in Hx.
  apply list_eq. intros j. destruct (decide (j = Z.to_nat (fst p))) as [->|Hne].
  - rewrite list_lookup_alter_eq, Hx. by rewrite list_lookup_insert_eq by (by eapply lookup_lt_Some).
  - by rewrite list_lookup_alter_ne, list_lookup_insert_ne by done.
Qed.

(** What a list of channels says of its channels and disks. *)
Lemma expecting_at s c : expecting s c = match channel_at (channels s) c with Some x => expecting_interrupt x | None => false end.
Proof. done. Qed.

(** *** Registers *)

Lemma sector_addressed v sec a : is_channel v → 0 <= sec < 2 ^ 28 →
  addressed (sector_registers v sec a) ∧ selected (sector_registers v sec a) = v ∧ address (sector_registers v sec a) = sec.
Proof using.
  intros Hv Hs. unfold addressed, selected, address, sector_registers. cbn [r_nsect r_lbal r_lbam r_lbah r_device].
  rewrite !Z.shiftr_div_pow2 by lia. set (q := sec / 2 ^ 24).
  assert (0 <= q < 16) as Hq by (split; [apply Z.div_pos; lia|apply Z.div_lt_upper_bound; lia]).
  set (b := u8 (Z.lor _ q)).
  assert (Z.testbit b 6 = true ∧ (if Z.testbit b 4 then 1 else 0) = v ∧ Z.land b 15 = q) as (-> & -> & ->).
  { clearbody q. unfold b. assert (q ∈ seqZ 0 16) as Hin by (apply elem_of_seqZ; lia).
    assert (Forall (λ q, ∀ v, v = 0 ∨ v = 1 → let b := u8 (Z.lor (Z.lor (Z.lor DEV_MBS DEV_LBA) (if v =? 1 then DEV_DEV else 0)) q) in
      Z.testbit b 6 = true ∧ (if Z.testbit b 4 then 1 else 0) = v ∧ Z.land b 15 = q) (seqZ 0 16)) as Hall.
    { cbv [seqZ seq fmap list_fmap Z.to_nat Pos.to_nat Pos.iter_op Nat.add]. repeat (constructor; [intros ? [->| ->]; split_and!; reflexivity|]). constructor. }
    rewrite Forall_forall in Hall. exact (Hall q Hin v Hv). }
  split; [done|]. split; [done|]. unfold u8, q. change 256 with (2 ^ 8).
  pose proof (Z.div_div sec (2 ^ 8) (2 ^ 8) ltac:(lia) ltac:(lia)) as E1. pose proof (Z.div_div sec (2 ^ 16) (2 ^ 8) ltac:(lia) ltac:(lia)) as E2.
  change (2 ^ 8 * 2 ^ 8) with (2 ^ 16) in E1. change (2 ^ 16 * 2 ^ 8) with (2 ^ 24) in E2.
  pose proof (Z.div_mod sec (2 ^ 8) ltac:(lia)). pose proof (Z.div_mod (sec / 2 ^ 8) (2 ^ 8) ltac:(lia)).
  pose proof (Z.div_mod (sec / 2 ^ 16) (2 ^ 8) ltac:(lia)). rewrite E1 in *. rewrite E2 in *. lia.
Qed.

(** *** Before and after a transfer *)

(** Nobody holds a mutant, the drives have nothing to do, interrupts are on. *)
Record driver_ready (i t : Z) n s : Prop := {
  dr_kernel : kernel_ready idle i t n (λ _, NULL) (kern s);
  dr_level : 0 <= i <= APC_LEVEL;
  dr_thread : t ≠ NULL;
  dr_interrupts : Hal.interrupt_flag (controllers s) = true;
  dr_wired : wired (channels s);
  dr_idle c : is_channel c → phase_of (ata_of (hardware s) c) = Idle;
  dr_counts c : is_channel c → 0 <= n c }.

Lemma finish_transfer_run c v y g i t n s :
  kernel_ready idle i t n (put c t (λ _, NULL)) (kern s) → t ≠ NULL → is_channel c → is_channel v → wired (channels s) →
  disk_at (channels s) (c, v) = Some y →
  ∃ k, (let! x := get_disk (c, v) in put_disk (c, v) (g x) >>> lock_release run_dpc (lock c)) s
      = Ok (tt, set_kern k (set_channels (store_disk (c, v) (g y) (channels s)) s)) ∧
    kernel_ready idle i t n (λ _, NULL) k.
Proof using.
  intros Hk Ht Hc Hv Hw Hy. destruct (release_mutant_run run_dpc idle i t n _ (kern s) c Hk Hc (put_eq _ _ _) Ht) as (k & R & Hk').
  exists k. split.
  - rewrite (get_disk_run _ _ _ _ Hy), put_disk_run by done. unfold lock_release.
    rewrite (in_kern_run _ _ _ 0 k) by exact R. done.
  - revert Hk'. apply ready_ext. intros c' Hc'. unfold put. destruct (Z.eqb_spec c' c) as [->|]; by split.
Qed.

End transfer.

Section sectors.
Context {D : Type} `{!Ports D} `{!AtaChannels D}.
Context (run_dpc : addr → M prcb unit) (dereference : addr → M sched unit) (fuel : nat) (idle : Z).
Implicit Types (s : ide D) (n w : Z → Z) (d : D) (l : list channel).
Local Notation becomes := (becomes ata_of).

(** The counts after [k] commands of channel [c] have completed. *)
Definition later (e : Z → bool) (c k : Z) n : Z → Z := λ c', if c' =? c then n c' else if e c' then n c' + k else n c'.

(** A disk and a sector of it. *)
Record requestable (c v sec : Z) (y : disk) s : Prop := {
  rq_channel : is_channel c;
  rq_device : is_channel v;
  rq_disk : disk_at (channels s) (c, v) = Some y;
  rq_sector : 0 <= sec < 2 ^ 28;
  rq_capacity : sec < capacity y }.

(** The semaphores have room for the interrupt. *)
Record transferable (c v sec : Z) (y : disk) n s : Prop := {
  tr_request : requestable c v sec y s;
  tr_own : n c < 100;
  tr_room c' : is_channel c' → expecting s c' = true → n c' < 100 }.

(** A buffer of one sector. *)
Definition is_buffer (a : addr) : Prop := 0 < a ∧ a + 512 <= 2 ^ 32.

Lemma start_run c v sec y cmd i t n s :
  driver_ready idle i t n s → requestable c v sec y s → 0 <= cmd < 256 →
  ∃ k d, (∀ B (f : disk → M (ide D) B), (let! x := get_disk (c, v) in
      lock_acquire run_dpc dereference fuel (lock (d_channel x)) >>>
      select_sector (c, v) sec >>> issue_pio_command (d_channel x) cmd >>> f x) s
      = f y (Ide k (controllers s) (buffers s) (mark c (channels s)) (port_out (base c + 7) cmd d))) ∧
    kernel_ready idle i t n (put c t (λ _, NULL)) k ∧
    becomes c (sector_registers v sec (ata_of (hardware s) c)) (hardware s) d ∧
    d_channel y = c.
Proof using.
  intros Hr [Hc Hv Hy Hs Hcap] Hcmd. pose proof Hr as [_ _ _ Hi Hw Hid _].
  destruct (wired_disk _ Hw c v Hc Hv) as (y' & Hy' & Ec & _). rewrite Hy in Hy'. injection Hy' as <-.
  destruct (wait_mutant_run run_dpc dereference fuel idle i t n _ (kern s) c (dr_kernel _ _ _ _ _ Hr) Hc) as (k & R & Hk);
    [apply (dr_level _ _ _ _ _ Hr)|done|apply (dr_thread _ _ _ _ _ Hr)|].
  destruct (select_sector_run c v sec y (set_kern k s) Hw Hc Hv (Hid c Hc) Hy Hcap ltac:(lia)) as (d & R2 & B).
  exists k, d. split; [|split; [|done]].
  - intros B0 f. rewrite (get_disk_run _ _ _ _ Hy), Ec. unfold lock_acquire.
    rewrite (in_kern_run _ _ _ _ _ R), (bind_Ok _ _ _ _ _ R2). exact (issue_run (λ _, f y) c cmd (set_hardware d (set_kern k s)) Hw Hc Hi Hcmd).
  - revert Hk. apply ready_ext. intros c' Hc'. unfold put. destruct (Z.eqb_spec c' c) as [->|]; by split.
Qed.

(** A transfer that has been completed. *)
Record transferred (c v : Z) (y' : disk) i t n s s' : Prop := {
  td_ready : driver_ready idle i t (later (expecting s) c 1 n) s';
  td_controllers : controllers s' = controllers s;
  td_channels : channels s' = store_disk (c, v) y' (mark c (channels s)) }.

(** The room that the completion needs, with the command marked. *)
Lemma completion_run c v sec y i t n s s1 d' :
  transferable c v sec y n s → driver_ready idle i t n s →
  kernel_ready idle i t n (put c t (λ _, NULL)) (kern s1) → channels s1 = mark c (channels s) →
  controllers s1 = controllers s → next_interrupt (hardware s1) = Some (vector c, d') →
  ∃ k, sema_down run_dpc dereference fuel (completion_wait c) s1 = Ok (tt, set_kern k (set_hardware d' s1)) ∧
    kernel_ready idle i t (later (expecting s) c 1 n) (put c t (λ _, NULL)) k.
Proof using.
  intros [[Hc Hv Hy Hs Hcap] Hown Hroom] Hr Hk Hch Hco Hn. pose proof Hr as [_ Hi _ Hf Hw _ H0].
  assert (∀ c', is_channel c' → expecting s1 c' = (c' =? c) || expecting s c') as He by (intros; by apply expecting_mark).
  destruct (sema_down_run run_dpc dereference fuel idle i t n _ s1 c d' Hk Hi Hc) as (k & R & Hk').
  { rewrite Hch. by apply wired_mark. } { by rewrite Hco. } { done. } { rewrite He by done. by rewrite Z.eqb_refl. }
  { by apply H0. } { intros c' Hc' H. rewrite He in H by done. destruct (Z.eqb_spec c' c) as [->|]; [done|]. by apply Hroom. }
  exists k. split; [done|]. revert Hk'. apply ready_ext. intros c' Hc'. split; [|done]. unfold put, later, upped.
  destruct (Z.eqb_spec c' c) as [->|Hne]; [done|]. rewrite He by done. by apply Z.eqb_neq in Hne as ->.
Qed.

Lemma mark_store_wired c v y y' l : wired l → is_channel c → is_channel v → disk_at l (c, v) = Some y →
  d_channel y' = d_channel y → dev_no y' = dev_no y → wired (store_disk (c, v) y' (mark c l)).
Proof using.
  intros Hw Hc Hv Hy E1 E2. apply (wired_store (c, v) y); [by apply wired_mark|done|done| |done|done]. by rewrite disk_at_mark.
Qed.

Lemma later_counts e c k n c' : 0 <= n c' → 0 <= k → 0 <= later e c k n c'.
Proof using. intros H1 H2. unfold later. destruct (c' =? c); [done|]. destruct (e c'); lia. Qed.

(** disk_read_internal *)
Lemma read_internal_run c v sec y a data i t n s :
  driver_ready idle i t n s → transferable c v sec y n s → is_buffer a → mapped a 512 (buffers s) →
  sectors (ata_of (hardware s) c) !! (v, sec) = Some data → is_sector data →
  ∃ s', disk_read_internal run_dpc dereference fuel (Some (c, v)) sec a s = Ok (tt, s') ∧
    transferred c v (count_read y) i t n s s' ∧
    buffers s' = map_seqZ a (bytes_of data) ∪ buffers s ∧
    (∀ c', is_channel c' → sectors (ata_of (hardware s') c') = sectors (ata_of (hardware s) c')).
Proof using.
  intros Hr Ht [Ha Ha'] Hm Hd [Hlen Hwords]. pose proof Ht as [Hq Hown Hroom]. pose proof Hq as [Hc Hv Hy Hs Hcap].
  pose proof Hr as [_ Hi Htn Hf Hw Hid H0].
  destruct (start_run c v sec y CMD_READ_SECTOR_RETRY i t n s Hr Hq ltac:(unfold CMD_READ_SECTOR_RETRY; lia)) as (k1 & d1 & Rst & Hk1 & B1 & Ec).
  set (a0 := ata_of (hardware s) c) in *. destruct (sector_addressed v sec a0 Hv Hs) as (A1 & A2 & A3).
  pose proof (hw_read d1 c data Hc) as B2. rewrite (proj1 B1), A2, A3 in B2. specialize (B2 (Hid c Hc) A1 Hd).
  set (d2 := port_out (base c + 7) CMD_READ_SECTOR_RETRY d1) in *.
  assert (is_channel (1 - c) ∧ 1 - c ≠ c) as [Hc1 Hne] by (unfold is_channel in *; lia).
  destruct (hw_interrupt_read d2 c data Hc) as (d3 & Hn & B3).
  { by rewrite (proj1 B2). } { rewrite (proj2 B2), (proj2 B1) by done. by apply Hid. }
  rewrite (proj1 B2) in B3.
  set (s1 := Ide k1 (controllers s) (buffers s) (mark c (channels s)) d2).
  destruct (completion_run c v sec y i t n s s1 d3 Ht Hr Hk1 eq_refl eq_refl Hn) as (k2 & R2 & Hk2).
  set (s2 := set_kern k2 (set_hardware d3 s1)) in *. assert (wired (channels s2)) as Hw2 by (by apply wired_mark).
  destruct (wait_ready_run c v s2 0 0 0%nat Hw2 Hc Hv) as (d4 & R3 & B4); [left; exists data; change (hardware s2) with d3; by rewrite (proj1 B3)|].
  change (hardware s2) with d3 in B4. rewrite (proj1 B3) in B4. cbn [phase_of set_phase] in B4.
  set (s3 := set_hardware d4 s2).
  assert (data ≠ []) as Hnil by (intros ->; discriminate Hlen).
  destruct (insw_run c data a s3 Hc Hwords) as (d5 & R4 & B5).
  { change (hardware s3) with d4. rewrite (proj1 B4). unfold in_phase. by rewrite decide_False. }
  { rewrite Hlen. exact Hm. } { lia. } { rewrite Hlen. lia. }
  rewrite Hlen in R4. change (hardware s3) with d4 in B5. rewrite (proj1 B4) in B5.
  set (s4 := set_buffers (map_seqZ a (bytes_of data) ∪ buffers s3) (set_hardware d5 s3)) in *.
  destruct (finish_transfer_run run_dpc idle c v y count_read i t (later (expecting s) c 1 n) s4) as (k5 & R5 & Hk5); try done.
  { change (channels s4) with (mark c (channels s)). by rewrite disk_at_mark. }
  exists (set_kern k5 (set_channels (store_disk (c, v) (count_read y) (channels s4)) s4)). split; [|split; [|split]].
  - unfold disk_read_internal, the_disk. rewrite bind_ret, assert_true by (by apply negb_true_iff, Z.eqb_neq; lia).
    rewrite Rst, Ec. fold d2 s1. rewrite (bind_Ok _ _ _ _ _ R2), (bind_Ok _ _ _ _ _ R3), assert_true by done.
    unfold input_sector. destruct (wired_channel _ Hw2 c Hc) as (x & Hx & Hb & _).
    rewrite bind_assoc, (get_channel_run _ c x s3) by done. unfold reg_data. rewrite Hb.
    change (Z.to_nat (DISK_SECTOR_SIZE / 2)) with 256%nat. rewrite (bind_Ok _ _ _ _ _ R4). exact R5.
  - split; [|done|done]. constructor; [exact Hk5|done|done|done| | |].
    + by apply (mark_store_wired c v y).
    + intros c' Hc'. change (phase_of (ata_of d5 c') = Idle). destruct (decide (c' = c)) as [->|Hne'].
      * by rewrite (proj1 B5).
      * rewrite (proj2 B5), (proj2 B4), (proj2 B3), (proj2 B2), (proj2 B1) by done. by apply Hid.
    + intros c' Hc'. apply later_counts; [by apply H0|lia].
  - done.
  - intros c' Hc'. change (sectors (ata_of d5 c') = sectors (ata_of (hardware s) c')). destruct (decide (c' = c)) as [->|Hne'].
    + by rewrite (proj1 B5).
    + by rewrite (proj2 B5), (proj2 B4), (proj2 B3), (proj2 B2), (proj2 B1) by done.
Qed.

(** disk_write_internal *)
Lemma write_internal_run c v sec y a data i t n s :
  driver_ready idle i t n s → transferable c v sec y n s → is_buffer a →
  is_Some (sectors (ata_of (hardware s) c) !! (v, sec)) → is_sector data → map_seqZ a (bytes_of data) ⊆ buffers s →
  ∃ s', disk_write_internal run_dpc dereference fuel (Some (c, v)) sec a s = Ok (tt, s') ∧
    transferred c v (count_write y) i t n s s' ∧
    buffers s' = buffers s ∧
    (∀ c', is_channel c' → sectors (ata_of (hardware s') c')
      = (if decide (c' = c) then <[(v, sec) := data]> (sectors (ata_of (hardware s) c)) else sectors (ata_of (hardware s) c'))).
Proof using.
  intros Hr Ht [Ha Ha'] Hd [Hlen Hwords] Hm. pose proof Ht as [Hq Hown Hroom]. pose proof Hq as [Hc Hv Hy Hs Hcap].
  pose proof Hr as [_ Hi Htn Hf Hw Hid H0].
  destruct (start_run c v sec y CMD_WRITE_SECTOR_RETRY i t n s Hr Hq ltac:(unfold CMD_WRITE_SECTOR_RETRY; lia)) as (k1 & d1 & Rst & Hk1 & B1 & Ec).
  set (a0 := ata_of (hardware s) c) in *. destruct (sector_addressed v sec a0 Hv Hs) as (A1 & A2 & A3).
  pose proof (hw_write d1 c Hc) as B2. rewrite (proj1 B1), A2, A3 in B2. destruct (B2 (Hid c Hc) A1 Hd) as (polls & Hpolls & B2').
  clear B2. rename B2' into B2.
  set (d2 := port_out (base c + 7) CMD_WRITE_SECTOR_RETRY d1) in *.
  set (s1 := Ide k1 (controllers s) (buffers s) (mark c (channels s)) d2).
  assert (wired (channels s1)) as Hw1 by (by apply wired_mark).
  destruct (wait_ready_run c v s1 v sec polls Hw1 Hc Hv) as (d3 & R3 & B3).
  { right. change (hardware s1) with d2. by rewrite (proj1 B2). }
  change (hardware s1) with d2 in B3. rewrite (proj1 B2) in B3. cbn [phase_of set_phase] in B3.
  set (s2 := set_hardware d3 s1).
  destruct (outsw_run c v sec data [] a s2 Hc Hwords) as (d4 & R4 & B4).
  { change (hardware s2) with d3. by rewrite (proj1 B3). } { exact Hlen. } { intros ->. discriminate Hlen. }
  { exact Hm. } { lia. } { rewrite Hlen. lia. }
  rewrite Hlen in R4. change (hardware s2) with d3 in B4. rewrite (proj1 B3) in B4.
  assert (is_channel (1 - c) ∧ 1 - c ≠ c) as [Hc1 Hne] by (unfold is_channel in *; lia).
  destruct (hw_interrupt_write d4 c v sec data Hc) as (d5 & Hn & B5).
  { by rewrite (proj1 B4). } { rewrite (proj2 B4), (proj2 B3), (proj2 B2), (proj2 B1) by done. by apply Hid. }
  rewrite (proj1 B4) in B5. set (s3 := set_hardware d4 s2) in *.
  destruct (completion_run c v sec y i t n s s3 d5 Ht Hr Hk1 eq_refl eq_refl Hn) as (k2 & R5 & Hk2).
  set (s4 := set_kern k2 (set_hardware d5 s3)) in *.
  destruct (finish_transfer_run run_dpc idle c v y count_write i t (later (expecting s) c 1 n) s4) as (k5 & R6 & Hk5); try done.
  { change (channels s4) with (mark c (channels s)). by rewrite disk_at_mark. }
  exists (set_kern k5 (set_channels (store_disk (c, v) (count_write y) (channels s4)) s4)). split; [|split; [|split]].
  - unfold disk_write_internal, the_disk. rewrite bind_ret, assert_true by (by apply negb_true_iff, Z.eqb_neq; lia).
    rewrite Rst, Ec. fold d2 s1. rewrite (bind_Ok _ _ _ _ _ R3), assert_true by done.
    unfold output_sector. destruct (wired_channel _ Hw1 c Hc) as (x & Hx & Hb & _).
    rewrite bind_assoc, (get_channel_run _ c x s2) by done. unfold reg_data. rewrite Hb.
    change (Z.to_nat (DISK_SECTOR_SIZE / 2)) with 256%nat. rewrite (bind_Ok _ _ _ _ _ R4), (bind_Ok _ _ _ _ _ R5). exact R6.
  - split; [|done|done]. constructor; [exact Hk5|done|done|done| | |].
    + by apply (mark_store_wired c v y).
    + intros c' Hc'. change (phase_of (ata_of d5 c') = Idle). destruct (decide (c' = c)) as [->|Hne'].
      * by rewrite (proj1 B5).
      * rewrite (proj2 B5), (proj2 B4), (proj2 B3), (proj2 B2), (proj2 B1) by done. by apply Hid.
    + intros c' Hc'. apply later_counts; [by apply H0|lia].
  - done.
  - intros c' Hc'. change (sectors (ata_of d5 c') = (if decide (c' = c) then <[(v, sec):=data]> (sectors a0) else sectors (ata_of (hardware s) c'))).
    destruct (decide (c' = c)) as [->|Hne'].
    + by rewrite (proj1 B5).
    + by rewrite (proj2 B5), (proj2 B4), (proj2 B3), (proj2 B2), (proj2 B1) by done.
Qed.
End sectors.

(** ** Several sectors *)

Section loops.
Context {D : Type} `{!Ports D} `{!AtaChannels D}.
Context (run_dpc : addr → M prcb unit) (dereference : addr → M sched unit) (fuel : nat) (idle : Z).
Implicit Types (s : ide D) (n : Z → Z) (d : D) (datas : list (list Z)).

Definition counted (r w : Z) (y : disk) : disk :=
  Disk (d_channel y) (dev_no y) (is_ata y) (capacity y) (read_cnt y + r) (write_cnt y + w).

Lemma counted_read y : count_read y = counted 1 0 y.
Proof using. unfold count_read, counted. by rewrite Z.add_0_r. Qed.
Lemma counted_write y : count_write y = counted 0 1 y.
Proof using. unfold count_write, counted. by rewrite Z.add_0_r. Qed.

(** [k] commands of disk [v] of channel [c] later. *)
Record commands_done (c v r w k i t : Z) n s s' : Prop := {
  cd_ready : driver_ready idle i t (later (expecting s) c k n) s';
  cd_controllers : controllers s' = controllers s;
  cd_expecting c' : is_channel c' → c' ≠ c → expecting s' c' = expecting s c';
  cd_disks p : is_channel (fst p) → is_channel (snd p) → disk_at (channels s') p
    = (if decide (p = (c, v)) then counted r w <$> disk_at (channels s) p else disk_at (channels s) p) }.

Lemma driver_ready_ext i t n n' s : (∀ c, is_channel c → n' c = n c) → driver_ready idle i t n s → driver_ready idle i t n' s.
Proof using.
  intros H [H1 H2 H3 H4 H5 H6 H7]. constructor; try done.
  - revert H1. apply ready_ext. intros c Hc. split; [by apply H|done].
  - intros c Hc. rewrite H by done. by apply H7.
Qed.

Lemma commands_none c v i t n s : driver_ready idle i t n s → commands_done c v 0 0 0 i t n s s.
Proof using.
  intros H. constructor; [|done|done|].
  - revert H. apply driver_ready_ext. intros c' _. unfold later. destruct (c' =? c); [done|]. destruct (expecting s c'); lia.
  - intros p _ _. destruct (decide _); [|done]. destruct (disk_at (channels s) p) as [[]|]; [|done]. cbn. unfold counted. cbn.
    by rewrite !Z.add_0_r.
Qed.

Lemma commands_trans c v r w k r' w' k' i t n s s1 s' :
  commands_done c v r w k i t n s s1 → commands_done c v r' w' k' i t (later (expecting s) c k n) s1 s' →
  commands_done c v (r + r') (w + w') (k + k') i t n s s'.
Proof using.
  intros [A1 A2 A3 A4] [B1 B2 B3 B4]. constructor.
  - revert B1. apply driver_ready_ext. intros c' Hc'. unfold later. destruct (Z.eqb_spec c' c) as [->|Hne]; [done|].
    rewrite A3 by done. destruct (expecting s c'); lia.
  - congruence.
  - intros c' Hc' Hne. by rewrite B3, A3.
  - intros p Hp Hv. rewrite B4, A4 by done. destruct (decide _); [|done].
    destruct (disk_at (channels s) p) as [[]|]; [|done]. cbn. unfold counted. cbn. by rewrite !Z.add_assoc.
Qed.

Lemma commands_one c v r w y i t n s s' :
  driver_ready idle i t n s → is_channel c → is_channel v → disk_at (channels s) (c, v) = Some y →
  transferred idle c v (counted r w y) i t n s s' → commands_done c v r w 1 i t n s s'.
Proof using.
  intros Hr Hc Hv Hy [H1 H2 H3]. pose proof (dr_wired _ _ _ _ _ Hr) as Hw. pose proof (wired_mark c _ Hc Hw) as Hw'.
  constructor; [done|done| |].
  - intros c' Hc' Hne. rewrite !expecting_at, H3, channel_at_store by done. apply Z.eqb_neq in Hne as Hb. cbn [fst]. rewrite Hb.
    rewrite channel_at_mark by done. by rewrite Hb.
  - intros p Hp Hp'. rewrite H3, disk_at_store by done. destruct (decide (p = (c, v))) as [->|].
    + by rewrite Hy.
    + by apply disk_at_mark.
Qed.

(** [N]: the first sector; [B]: the buffer. *)
Definition in_range (N k : Z) (y : disk) : Prop := 0 <= N ∧ N + k <= capacity y ∧ N + k <= 2 ^ 28.
Definition buffer_range (B k : Z) : Prop := 0 < B ∧ B + 512 * k <= 2 ^ 32.

(** Room for the completion of [k] commands of channel [c]. *)
Definition has_room s (c k : Z) n : Prop := n c < 100 ∧ (expecting s (1 - c) = true → n (1 - c) + k <= 100).

Definition bytes_of_all datas : list Z := mjoin (bytes_of <$> datas).

Lemma bytes_of_all_cons data datas : bytes_of_all (data :: datas) = bytes_of data ++ bytes_of_all datas.
Proof using. done. Qed.

Lemma map_seqZ_app_union (a : Z) (l l' : list Z) (m : Str.memory) :
  map_seqZ a (l ++ l') ∪ m = map_seqZ (a + Z.of_nat (length l)) l' ∪ (map_seqZ a l ∪ m).
Proof using.
  revert a. induction l as [|x l IH]; intros a.
  - cbn. rewrite Z.add_0_r. by rewrite (left_id_L ∅ (∪)).
  - cbn [app map_seqZ length]. rewrite <- !insert_union_l, IH. replace (Z.succ a + Z.of_nat (length l)) with (a + Z.of_nat (S (length l))) by lia.
    apply insert_union_r. rewrite lookup_map_seqZ. by rewrite option_guard_False by lia.
Qed.

Lemma transfer_step c v N k j y i t n s :
  driver_ready idle i t n s → is_channel c → is_channel v → disk_at (channels s) (c, v) = Some y →
  in_range N (j + k) y → 0 <= j → 1 <= k → has_room s c k n → transferable c v (N + j) y n s.
Proof using.
  intros Hr Hc Hv Hy (R1 & R2 & R3) Hj Hk [Hn Hroom]. constructor; [constructor; try done; lia|done|].
  intros c' Hc' He. destruct (decide (c' = c)) as [->|Hne]; [done|].
  assert (c' = 1 - c) as -> by (unfold is_channel in *; lia). specialize (Hroom He). lia.
Qed.

Lemma room_step c v r w k i t n s s' :
  is_channel c → commands_done c v r w 1 i t n s s' → has_room s c (1 + k) n → has_room s' c k (later (expecting s) c 1 n).
Proof using.
  intros Hc [_ _ H _] [H1 H2]. assert (is_channel (1 - c) ∧ 1 - c ≠ c) as [Hc1 Hne] by (unfold is_channel in *; lia).
  unfold has_room, later. rewrite Z.eqb_refl. split; [done|]. rewrite H by done. intros He. apply Z.eqb_neq in Hne as ->.
  rewrite He. specialize (H2 He). lia.
Qed.

Lemma range_step c v r w N k j y i t n s s' :
  is_channel c → is_channel v → disk_at (channels s) (c, v) = Some y → commands_done c v r w 1 i t n s s' →
  in_range N (j + (1 + k)) y → disk_at (channels s') (c, v) = Some (counted r w y) ∧ in_range N (j + 1 + k) (counted r w y).
Proof using.
  intros Hc Hv Hy [_ _ _ H] (R1 & R2 & R3). rewrite H, decide_True, Hy by done. split; [done|].
  unfold in_range, counted. cbn. lia.
Qed.

Lemma read_loop_run c v N B i t datas : ∀ j n s y,
  driver_ready idle i t n s → is_channel c → is_channel v → disk_at (channels s) (c, v) = Some y →
  in_range N (j + Z.of_nat (length datas)) y → buffer_range B (j + Z.of_nat (length datas)) → 0 <= j →
  mapped (B + 512 * j) (512 * length datas) (buffers s) →
  (∀ k data, datas !! k = Some data → sectors (ata_of (hardware s) c) !! (v, N + j + Z.of_nat k) = Some data ∧ is_sector data) →
  has_room s c (Z.of_nat (length datas)) n →
  ∃ s', sectors_loop (length datas) (disk_read_internal run_dpc dereference fuel (Some (c, v))) N B j s = Ok (tt, s') ∧
    commands_done c v (Z.of_nat (length datas)) 0 (Z.of_nat (length datas)) i t n s s' ∧
    buffers s' = map_seqZ (B + 512 * j) (bytes_of_all datas) ∪ buffers s ∧
    (∀ c', is_channel c' → sectors (ata_of (hardware s') c') = sectors (ata_of (hardware s) c')).
Proof using.
  induction datas as [|data datas IH]; intros j n s y Hr Hc Hv Hy Hrange HB Hj Hm Hd Hroom.
  { exists s. split; [done|]. split; [by apply commands_none|]. split; [|done]. cbn. by rewrite map_empty_union. }
  cbn [length sectors_loop] in *. replace (Z.of_nat (S (length datas))) with (1 + Z.of_nat (length datas)) in * by lia.
  pose proof Hrange as (R1 & R2 & R3). pose proof HB as (B1 & B2). unfold DISK_SECTOR_SIZE.
  rewrite (u32_small (N + j)) by (split; lia). rewrite (u32_small (B + 512 * j)) by (split; lia).
  destruct (Hd 0%nat data eq_refl) as [Hd0 Hs0]. rewrite Z.add_0_r in Hd0.
  destruct (read_internal_run run_dpc dereference fuel idle c v (N + j) y (B + 512 * j) data i t n s Hr) as (s1 & Rr & Ht & Hb & Hsec).
  { eapply (transfer_step c v N (1 + Z.of_nat (length datas)) j); done || lia. }
  { split; lia. } { intros a Ha. apply Hm. lia. } { done. } { done. }
  rewrite counted_read in Ht. apply (commands_one c v 1 0 y) in Ht; [|done|done|done|done].
  destruct (range_step c v 1 0 N (Z.of_nat (length datas)) j y i t n s s1 Hc Hv Hy Ht Hrange) as [Hy1 Hrange1].
  destruct (IH (j + 1) (later (expecting s) c 1 n) s1 (counted 1 0 y)) as (s' & Rl & Hc' & Hb' & Hsec'); try done.
  { by apply (cd_ready _ _ _ _ _ _ _ _ _ _ Ht). } { split; lia. } { lia. }
  { intros a Ha. rewrite Hb. apply lookup_union_is_Some. right. apply Hm. lia. }
  { intros k dk Hk. rewrite Hsec by done. replace (N + (j + 1) + Z.of_nat k) with (N + j + Z.of_nat (S k)) by lia. by apply Hd. }
  { by apply (room_step c v 1 0 _ i t n s s1). }
  exists s'. split; [by rewrite (bind_Ok _ _ _ _ _ Rr)|]. split; [by apply (commands_trans c v 1 0 1 _ 0 _ i t n s s1)|]. split.
  - rewrite Hb', Hb, bytes_of_all_cons, map_seqZ_app_union, length_bytes_of. f_equal. f_equal.
    destruct Hs0 as [-> _]. lia.
  - intros c' Hc2. by rewrite Hsec', Hsec.
Qed.

(** The sectors of a disk with [datas] from [N] on. *)
Fixpoint write_sectors (v N : Z) datas (m : gmap (Z * Z) (list Z)) : gmap (Z * Z) (list Z) :=
  match datas with
  | [] => m
  | data :: datas => write_sectors v (N + 1) datas (<[(v, N) := data]> m)
  end.

Lemma write_loop_run c v N B i t datas : ∀ j n s y,
  driver_ready idle i t n s → is_channel c → is_channel v → disk_at (channels s) (c, v) = Some y →
  in_range N (j + Z.of_nat (length datas)) y → buffer_range B (j + Z.of_nat (length datas)) → 0 <= j →
  map_seqZ (B + 512 * j) (bytes_of_all datas) ⊆ buffers s → Forall is_sector datas →
  (∀ k, 0 <= k < Z.of_nat (length datas) → is_Some (sectors (ata_of (hardware s) c) !! (v, N + j + k))) →
  has_room s c (Z.of_nat (length datas)) n →
  ∃ s', sectors_loop (length datas) (disk_write_internal run_dpc dereference fuel (Some (c, v))) N B j s = Ok (tt, s') ∧
    commands_done c v 0 (Z.of_nat (length datas)) (Z.of_nat (length datas)) i t n s s' ∧
    buffers s' = buffers s ∧
    (∀ c', is_channel c' → sectors (ata_of (hardware s') c')
      = (if decide (c' = c) then write_sectors v (N + j) datas (sectors (ata_of (hardware s) c)) else sectors (ata_of (hardware s) c'))).
Proof using.
  induction datas as [|data datas IH]; intros j n s y Hr Hc Hv Hy Hrange HB Hj Hm Hf Hd Hroom.
  { exists s. split; [done|]. split; [by apply commands_none|]. split; [done|]. intros c' _. by destruct (decide (c' = c)) as [->|]. }
  cbn [length sectors_loop] in *. replace (Z.of_nat (S (length datas))) with (1 + Z.of_nat (length datas)) in * by lia.
  pose proof Hrange as (R1 & R2 & R3). pose proof HB as (B1 & B2). unfold DISK_SECTOR_SIZE. inversion_clear Hf as [|? ? Hs0 Hf'].
  rewrite (u32_small (N + j)) by (split; lia). rewrite (u32_small (B + 512 * j)) by (split; lia).
  assert (map_seqZ (B + 512 * j) (bytes_of data) ⊆ buffers s ∧ map_seqZ (B + 512 * (j + 1)) (bytes_of_all datas) ⊆ buffers s) as [Hm0 Hm1].
  { rewrite bytes_of_all_cons in Hm. pose proof (map_seqZ_app_union (B + 512 * j) (bytes_of data) (bytes_of_all datas) ∅) as E.
    rewrite !(right_id_L ∅ (∪)), length_bytes_of, (proj1 Hs0) in E. rewrite E in Hm.
    replace (B + 512 * j + Z.of_nat (2 * 256)) with (B + 512 * (j + 1)) in Hm by lia. split.
    - etrans; [|exact Hm]. apply map_union_subseteq_r. apply map_disjoint_spec. intros a x x' Hx Hx'.
      rewrite lookup_map_seqZ in Hx, Hx'.
      destruct (decide (B + 512 * (j + 1) <= a)) as [Hge|]; [|by rewrite option_guard_False in Hx].
      destruct (decide (B + 512 * j <= a)); [|by rewrite option_guard_False in Hx']. rewrite option_guard_True in Hx' by done.
      apply lookup_lt_Some in Hx'. rewrite length_bytes_of, (proj1 Hs0) in Hx'. lia.
    - etrans; [|exact Hm]. apply map_union_subseteq_l. }
  destruct (write_internal_run run_dpc dereference fuel idle c v (N + j) y (B + 512 * j) data i t n s Hr) as (s1 & Rr & Ht & Hb & Hsec).
  { eapply (transfer_step c v N (1 + Z.of_nat (length datas)) j); done || lia. }
  { split; lia. } { specialize (Hd 0 ltac:(lia)). by rewrite Z.add_0_r in Hd. } { done. } { done. }
  rewrite counted_write in Ht. apply (commands_one c v 0 1 y) in Ht; [|done|done|done|done].
  destruct (range_step c v 0 1 N (Z.of_nat (length datas)) j y i t n s s1 Hc Hv Hy Ht Hrange) as [Hy1 Hrange1].
  assert (sectors (ata_of (hardware s1) c) = <[(v, N + j) := data]> (sectors (ata_of (hardware s) c))) as Hsc
    by (rewrite Hsec by done; by rewrite decide_True).
  destruct (IH (j + 1) (later (expecting s) c 1 n) s1 (counted 0 1 y)) as (s' & Rl & Hc' & Hb' & Hsec'); try done.
  { by apply (cd_ready _ _ _ _ _ _ _ _ _ _ Ht). } { split; lia. } { lia. } { by rewrite Hb. }
  { intros k Hk. rewrite Hsc, lookup_insert_ne by (intros [= E]; lia). replace (N + (j + 1) + k) with (N + j + (k + 1)) by lia. apply Hd. lia. }
  { by apply (room_step c v 0 1 _ i t n s s1). }
  exists s'. split; [by rewrite (bind_Ok _ _ _ _ _ Rr)|]. split; [by apply (commands_trans c v 0 1 1 0 _ _ i t n s s1)|]. split.
  - by rewrite Hb'.
  - intros c' Hc2. rewrite Hsec' by done. destruct (decide (c' = c)) as [->|Hne].
    + cbn [write_sectors]. rewrite Hsc. by rewrite Z.add_assoc.
    + rewrite Hsec by done. by rewrite decide_False.
Qed.

Lemma write_sectors_other v N datas m p : (∀ k, 0 <= k < Z.of_nat (length datas) → p ≠ (v, N + k)) → write_sectors v N datas m !! p = m !! p.
Proof using.
  revert N m. induction datas as [|data datas IH]; intros N m H; [done|]. cbn [write_sectors length] in *. rewrite IH.
  - apply lookup_insert_ne. intros <-. apply (H 0); [lia|]. by rewrite Z.add_0_r.
  - intros k Hk ->. apply (H (k + 1)); [lia|]. f_equal. lia.
Qed.

Lemma write_sectors_lookup v datas : ∀ N m k data, datas !! k = Some data → write_sectors v N datas m !! (v, N + Z.of_nat k) = Some data.
Proof using.
  induction datas as [|data datas IH]; intros N m k x Hk; [done|]. cbn [write_sectors]. destruct k as [|k].
  - injection Hk as <-. rewrite Z.add_0_r, write_sectors_other by (intros k Hk [= E]; lia). apply lookup_insert_eq.
  - replace (N + Z.of_nat (S k)) with (N + 1 + Z.of_nat k) by lia. by apply IH.
Qed.
End loops.

(** ** The theorems *)

Section theorems.
Context {D : Type} `{!Ports D} `{!AtaChannels D}.
Context (run_dpc : addr → M prcb unit) (dereference : addr → M sched unit) (fuel : nat) (idle : Z).
Implicit Types (s : ide D) (n : Z → Z) (d : D) (datas : list (list Z)).

(** The place of a drive. *)
Definition channel_of_drive (Drive : Z) : Z := if Z.land Drive 2 =? 2 then 1 else 0.
Definition device_of_drive (Drive : Z) : Z := if Z.land Drive 1 =? 1 then 1 else 0.

Lemma drive_place Drive : is_channel (channel_of_drive Drive) ∧ is_channel (device_of_drive Drive).
Proof using. unfold channel_of_drive, device_of_drive, is_channel. destruct (_ =? 2), (_ =? 1); auto. Qed.

Lemma drive_disk_run {B} (f : disk_ptr → M (ide D) B) Drive y s :
  disk_at (channels s) (channel_of_drive Drive, device_of_drive Drive) = Some y → is_ata y = true →
  bind (drive_disk Drive) f s = f (Some (channel_of_drive Drive, device_of_drive Drive)) s.
Proof using.
  intros Hy Ha. destruct (drive_place Drive) as [Hc Hv]. unfold drive_disk, disk_get. fold (channel_of_drive Drive) (device_of_drive Drive).
  rewrite !bind_assoc, assert_true by (destruct Hv as [->| ->]; done).
  assert (channel_of_drive Drive <? CHANNEL_CNT = true) as -> by (destruct Hc as [->| ->]; done).
  rewrite bind_assoc, (get_disk_run _ _ y) by done. by rewrite Ha.
Qed.

(** What a transfer of [k] sectors asks for: an ATA disk at the drive, the sectors
    on the disk, a buffer in memory. *)
Record transfer_request (Drive N B k : Z) (y : disk) s : Prop := {
  rq_disk_at : disk_at (channels s) (channel_of_drive Drive, device_of_drive Drive) = Some y;
  rq_ata : is_ata y = true;
  rq_range : in_range N k y;
  rq_buffer : buffer_range B k }.

(** The sectors of a drive. *)
Definition sectors_of s (Drive : Z) : gmap (Z * Z) (list Z) := sectors (ata_of (hardware s) (channel_of_drive Drive)).

Definition holds s (Drive N : Z) datas : Prop :=
  ∀ k data, datas !! k = Some data → sectors_of s Drive !! (device_of_drive Drive, N + Z.of_nat k) = Some data ∧ is_sector data.



(** *** The semaphore of the other channel *)

Lemma release_expecting_full i t n w s c :
  kernel_ready idle i t n w (kern s) → is_channel c → expecting s c = true → 100 <= n c →
  release_expecting run_dpc c s = Stop BugCheck.
Proof using.
  intros Hk Hc He Hn. unfold release_expecting, get_channel, expecting in *. destruct (channels s !! Z.to_nat c) as [x|] eqn:Ex; [|done].
  rewrite (deref_run (λ s : ide D, channels s !! Z.to_nat c) _ _ _ Ex), He. cbn [when]. unfold in_kern, zoom, bind at 1.
  by rewrite (release_full_semaphore run_dpc idle i t n w (kern s) c Hk Hc Hn).
Qed.

Lemma dpc_routine_stops i t n w s c :
  kernel_ready idle i t n w (kern s) → wired (channels s) → is_channel c → n c < 100 →
  expecting s (1 - c) = true → 100 <= n (1 - c) → IdeDpcRoutine run_dpc s = Stop BugCheck.
Proof using.
  intros Hk Hw Hc Hn He Hf. unfold IdeDpcRoutine. destruct Hc as [->| ->]; cbn [Z.sub Z.add Z.opp Z.pos_sub] in *.
  - change (1 - 0) with 1 in *. destruct (wired_channel _ Hw 0 ltac:(by left)) as (x & Hx & _).
    destruct (release_expecting_run run_dpc idle i t n w s 0 Hk ltac:(by left) ltac:(by exists x) ltac:(done)) as (k & R & Hk').
    rewrite (bind_Ok _ _ _ _ _ R). apply (release_expecting_full i t _ w (set_kern k s) 1 Hk'); [by right|done|]. by rewrite put_ne.
  - change (1 - 1) with 0 in *. unfold bind. by rewrite (release_expecting_full i t n w s 0 Hk ltac:(by left) He Hf).
Qed.

Lemma read_internal_stops c v sec y a data i t n s :
  driver_ready idle i t n s → requestable c v sec y s → is_buffer a →
  sectors (ata_of (hardware s) c) !! (v, sec) = Some data → n c < 100 → expecting s (1 - c) = true → 100 <= n (1 - c) →
  disk_read_internal run_dpc dereference fuel (Some (c, v)) sec a s = Stop BugCheck.
Proof using.
  intros Hr Hq [Ha Ha'] Hd Hn He Hf. pose proof Hq as [Hc Hv Hy Hs Hcap]. pose proof Hr as [_ Hi Htn Hfl Hw Hid H0].
  destruct (start_run run_dpc dereference fuel idle c v sec y CMD_READ_SECTOR_RETRY i t n s Hr Hq ltac:(unfold CMD_READ_SECTOR_RETRY; lia))
    as (k1 & d1 & Rst & Hk1 & B1 & Ec).
  set (a0 := ata_of (hardware s) c) in *. destruct (sector_addressed v sec a0 Hv Hs) as (A1 & A2 & A3).
  pose proof (hw_read d1 c data Hc) as B2. rewrite (proj1 B1), A2, A3 in B2. specialize (B2 (Hid c Hc) A1 Hd).
  set (d2 := port_out (base c + 7) CMD_READ_SECTOR_RETRY d1) in *.
  assert (is_channel (1 - c) ∧ 1 - c ≠ c) as [Hc1 Hne] by (unfold is_channel in *; lia).
  destruct (hw_interrupt_read d2 c data Hc) as (d3 & Hnext & _).
  { by rewrite (proj1 B2). } { rewrite (proj2 B2), (proj2 B1) by done. by apply Hid. }
  unfold disk_read_internal, the_disk. rewrite bind_ret, assert_true by (by apply negb_true_iff, Z.eqb_neq; lia).
  rewrite Rst, Ec. fold d2. set (s1 := Ide k1 _ _ (mark c (channels s)) d2).
  unfold sema_down, deliver. rewrite !bind_assoc, interrupt_flag_run. change (controllers s1) with (controllers s). rewrite Hfl, bind_assoc, gets_run.
  change (hardware s1) with d2. rewrite Hnext, !bind_assoc, modify_run. unfold take_interrupt.
  destruct (interrupt_entry run_dpc idle (IdeDpcRoutine run_dpc) (λ old, in_kern (in_cpu (KeLowerIrql run_dpc 2 old)))
    i t n _ (set_hardware d3 s1) (vector c) Hk1 ltac:(lia)) as (k2 & R & Hk2); [destruct Hc as [->| ->]; [by left|by right]|].
  unfold bind at 1. rewrite R. unfold bind at 1.
  set (s2 := set_kern k2 (set_hardware d3 s1)).
  assert (expecting s2 (1 - c) = true) as He2 by (rewrite (expecting_mark c s s2 (1 - c)) by done; by rewrite He, orb_true_r).
  by rewrite (dpc_routine_stops DISPATCH_LEVEL t n _ s2 c Hk2 (wired_mark c _ Hc Hw) Hc Hn He2 Hf).
Qed.

Lemma sectors_loop_app (f : Z → addr → M (ide D) unit) N B a b j s :
  sectors_loop (a + b) f N B j s = (sectors_loop a f N B j >>> sectors_loop b f N B (j + Z.of_nat a)) s.
Proof using.
  revert j s. induction a as [|a IH]; intros j s.
  - cbn [Nat.add sectors_loop]. by rewrite bind_ret, Z.add_0_r.
  - cbn [Nat.add sectors_loop]. rewrite bind_assoc. unfold bind at 1. symmetry. unfold bind at 1. symmetry.
    destruct (f _ _ s) as [[[] s']|]; [|done].
    rewrite IH. by replace (j + 1 + Z.of_nat a) with (j + Z.of_nat (S a)) by lia.
Qed.

(** C20: Reading from one channel stops the kernel once the other one has
    been used.  IdeDpcRoutine counts up the semaphores of all channels that have
    ever had a command; nobody waits for the one of the channel that rests, so that
    after 100 interrupts at most an assertion of KeReleaseSemaphore fails. *)
Theorem idle_channel_stops Drive N B datas y i t n s :
  let c := channel_of_drive Drive in
  let k := Z.of_nat (length datas) in
  driver_ready idle i t n s → transfer_request Drive N B k y s → mapped B (512 * length datas) (buffers s) →
  holds s Drive N datas → n c < 100 → expecting s (1 - c) = true → n (1 - c) <= 100 < n (1 - c) + k →
  disk_read run_dpc dereference fuel Drive B N k s = Stop BugCheck.
Proof using.
  intros c k Hr [Hy Ha Hrange HB] Hm Hd Hn He [H100 Hover]. destruct (drive_place Drive) as [Hc Hv]. fold c in Hc, Hy.
  set (v := device_of_drive Drive) in *. assert (is_channel (1 - c) ∧ 1 - c ≠ c) as [Hc1 Hne] by (unfold is_channel in *; lia).
  pose proof (dr_counts _ _ _ _ _ Hr (1 - c) Hc1) as H0. set (m := Z.to_nat (100 - n (1 - c))).
  assert (m < length datas)%nat as Hlt by lia. destruct (lookup_lt_is_Some_2 datas m Hlt) as [data Hdata].
  destruct Hrange as (R1 & R2 & R3), HB as (B1 & B2).
  destruct (read_loop_run run_dpc dereference fuel idle c v N B i t (take m datas) 0 n s y Hr Hc Hv Hy) as (s1 & R & Hdone & Hb & Hs).
  { unfold in_range. rewrite length_take. lia. } { unfold buffer_range. rewrite length_take. lia. } { lia. }
  { intros a Hja. apply Hm. rewrite length_take in Hja. lia. }
  { intros j dj Hj. rewrite Z.add_0_r. apply Hd. by apply lookup_take_Some in Hj as [Hj _]. }
  { split; [done|]. intros _. rewrite length_take. lia. }
  rewrite length_take, Nat.min_l in R, Hdone by lia. pose proof Hdone as [Hr1 _ He1 Hdisk].
  unfold disk_read. rewrite (drive_disk_run _ _ y) by done. fold c v. unfold k. rewrite Nat2Z.id.
  replace (length datas) with (m + S (length datas - m - 1))%nat by lia.
  unfold bind at 1. rewrite sectors_loop_app, (bind_Ok _ _ _ _ _ R), Z.add_0_l. cbn [sectors_loop]. unfold DISK_SECTOR_SIZE.
  rewrite (u32_small (N + Z.of_nat m)) by (split; lia). rewrite (u32_small (B + 512 * Z.of_nat m)) by (split; lia).
  destruct (Hd m data Hdata) as [Hsec _]. unfold sectors_of in Hsec. fold c v in Hsec. unfold bind at 1.
  rewrite (read_internal_stops c v (N + Z.of_nat m) (counted (Z.of_nat m) 0 y) _ data i t _ s1 Hr1); [done| |split; lia|by rewrite Hs| | |].
  - constructor; [done|done|by rewrite Hdisk, decide_True, Hy by done|lia|cbn; lia].
  - unfold later. by rewrite Z.eqb_refl.
  - by rewrite He1.
  - unfold later. apply Z.eqb_neq in Hne as ->. rewrite He. lia.
Qed.
End theorems.

(** ** A simulated pair of channels

    A drive that is busy for one poll after a write command, and has 8 sectors. *)

Definition sim : Type := ata * ata.

Definition decode (port : Z) : option (Z * Z) :=
  if (0x1f0 <=? port) && (port <=? 0x1f7) then Some (0, port - 0x1f0)
  else if port =? 0x3f6 then Some (0, 0x206)
  else if (0x170 <=? port) && (port <=? 0x177) then Some (1, port - 0x170)
  else if port =? 0x376 then Some (1, 0x206)
  else None.

Definition sim_ata (d : sim) (c : Z) : ata := if c =? 0 then fst d else snd d.
Definition sim_put (c : Z) (a : ata) (d : sim) : sim := if c =? 0 then (a, snd d) else (fst d, a).

Definition status (p : phase) : Z :=
  match p with Idle => 0x50 | DataIn _ | DataOut _ _ _ => 0x58 | Preparing O _ _ => 0x58 | _ => 0xd0 end.
Definition poll (p : phase) : phase :=
  match p with Preparing (S n) dev lba => Preparing n dev lba | Preparing O dev lba => DataOut dev lba [] | _ => p end.

Definition present (a : ata) : bool := bool_decide (is_Some (sectors a !! (selected a, 0))).

Definition sim_in (k : Z) (a : ata) : Z * ata :=
  if k =? 0x206 then (status (phase_of a), set_phase (poll (phase_of a)) a)
  else if k =? 7 then (status (phase_of a), a)
  else if k =? 1 then (if present a then 1 else 0, a)
  else if k =? 2 then (r_nsect a, a)
  else if k =? 3 then (r_lbal a, a)
  else if k =? 4 then (r_lbam a, a)
  else if k =? 5 then (r_lbah a, a)
  else (r_device a, a).

Definition identify_data : list Z := replicate 60 0 ++ [8; 0] ++ replicate 194 0.

Definition sim_command (v : Z) (a : ata) : ata :=
  match sectors a !! (selected a, address a) with
  | Some data =>
      if v =? CMD_READ_SECTOR_RETRY then set_phase (Reading data) a
      else if v =? CMD_WRITE_SECTOR_RETRY then set_phase (Preparing 1 (selected a) (address a)) a
      else if v =? CMD_IDENTIFY_DEVICE then set_phase (Reading identify_data) a
      else a
  | None => if v =? CMD_IDENTIFY_DEVICE then set_phase (Reading identify_data) a else a
  end.

Definition sim_out (k v : Z) (a : ata) : ata :=
  if k =? 7 then sim_command v a
  else if k =? 0x206 then
    if Z.testbit v 2 then Ata 1 1 0 0 0 Idle (sectors a) else a
  else set_register k v a.

Definition sim_word_in (a : ata) : Z * ata :=
  match phase_of a with
  | DataIn (v :: data) => (v, set_phase (if decide (data = []) then Idle else DataIn data) a)
  | _ => (0, a)
  end.
Definition sim_word_out (v : Z) (a : ata) : ata :=
  match phase_of a with
  | DataOut dev lba data =>
      set_phase (if decide (length data = 255%nat) then Storing dev lba (data ++ [v]) else DataOut dev lba (data ++ [v])) a
  | _ => a
  end.
Definition sim_fire (a : ata) : option ata :=
  match phase_of a with
  | Reading data => Some (set_phase (DataIn data) a)
  | Storing dev lba data => Some (set_phase Idle (set_sector dev lba data a))
  | _ => None
  end.

Definition at_port {A} (port : Z) (dflt : A) (f : Z → ata → A * ata) (d : sim) : A * sim :=
  match decode port with
  | Some (c, k) => let '(r, a) := f k (sim_ata d c) in (r, sim_put c a d)
  | None => (dflt, d)
  end.

#[export] Instance sim_ports : Ports sim := {|
  port_in port := at_port port 0xff sim_in;
  port_out port v d := snd (at_port port tt (λ k a, (tt, sim_out k v a)) d);
  port_inw port := at_port port 0xffff (λ _, sim_word_in);
  port_outw port v d := snd (at_port port tt (λ _ a, (tt, sim_word_out v a)) d);
  next_interrupt d :=
    match sim_fire (fst d), sim_fire (snd d) with
    | Some a, _ => Some (46, (a, snd d))
    | None, Some a => Some (47, (fst d, a))
    | None, None => None
    end |}.

Lemma sim_becomes c a d : is_channel c → becomes sim_ata c a d (sim_put c a d).
Proof. intros [->| ->]; (split; [done|]); intros c' [->| ->]; done. Qed.

Lemma at_port_run {A} c k (dflt : A) f d : is_channel c → 0 <= k <= 7 ∨ k = 0x206 →
  at_port (base c + k) dflt f d = (let '(r, a) := f k (sim_ata d c) in (r, sim_put c a d)).
Proof.
  intros Hc Hk. unfold at_port, decode. assert (k = 0 ∨ k = 1 ∨ k = 2 ∨ k = 3 ∨ k = 4 ∨ k = 5 ∨ k = 6 ∨ k = 7 ∨ k = 0x206) as Hk' by lia.
  destruct Hc as [->| ->]; repeat (destruct Hk' as [->|Hk']; [reflexivity|]); by subst.
Qed.

Lemma sim_fire_run c d a : is_channel c → sim_fire (sim_ata d c) = Some a → phase_of (sim_ata d (1 - c)) = Idle →
  next_interrupt d = Some (vector c, sim_put c a d).
Proof.
  intros [->| ->]; cbn; intros E Hi.
  - by rewrite E.
  - change (sim_ata d (1 - 1)) with (fst d) in Hi. unfold sim_fire at 1. by rewrite Hi, E.
Qed.

Lemma set_phase_same a : set_phase (phase_of a) a = a.
Proof. by destruct a. Qed.

#[export, program] Instance sim_channels : AtaChannels sim := {| ata_of := sim_ata |}.
Next Obligation.
  intros d c Hc Hp. cbn. rewrite at_port_run by (done || lia). cbn. rewrite Hp. split; [done|]. by apply sim_becomes.
Qed.
Next Obligation.
  intros d c Hc. cbn. rewrite at_port_run by (done || lia). cbn.
  destruct (phase_of (sim_ata d c)) as [| |data|[|n] dev lba| |] eqn:E; cbn; try done.
  - rewrite <- E, set_phase_same. by apply sim_becomes.
  - split; [done|]. split; [done|]. rewrite <- E, set_phase_same. by apply sim_becomes.
  - split; [done|]. by apply sim_becomes.
  - split; [done|]. by apply sim_becomes.
  - split; [done|]. split; [done|]. rewrite <- E, set_phase_same. by apply sim_becomes.
Qed.
Next Obligation.
  intros d c k v Hc Hk Hp. cbn. rewrite at_port_run by (done || lia). cbn. unfold sim_out.
  rewrite (proj2 (Z.eqb_neq k 7)), (proj2 (Z.eqb_neq k 0x206)) by lia. by apply sim_becomes.
Qed.
Next Obligation.
  intros d c data Hc Hp Ha Hd. cbn. rewrite at_port_run by (done || lia). cbn. unfold sim_command. rewrite Hd. by apply sim_becomes.
Qed.
Next Obligation.
  intros d c Hc Hp Ha [data Hd]. exists 1%nat. split; [lia|]. cbn. rewrite at_port_run by (done || lia). cbn. unfold sim_command. rewrite Hd.
  by apply sim_becomes.
Qed.
Next Obligation.
  intros d c v data Hc Hp. eexists. cbn. replace (base c) with (base c + 0) by lia. rewrite at_port_run by (done || lia).
  unfold sim_word_in. rewrite Hp. split; [reflexivity|]. by apply sim_becomes.
Qed.
Next Obligation.
  intros d c v dev lba data Hc Hp Hl. cbn. replace (base c) with (base c + 0) by lia. rewrite at_port_run by (done || lia).
  unfold sim_word_out. rewrite Hp. by apply sim_becomes.
Qed.
Next Obligation.
  intros d c data Hc Hp Hi. eexists. split; [eapply (sim_fire_run c d); [done|unfold sim_fire; by rewrite Hp|done]|]. by apply sim_becomes.
Qed.
Next Obligation.
  intros d c dev lba data Hc Hp Hi. eexists. split; [eapply (sim_fire_run c d); [done|unfold sim_fire; by rewrite Hp|done]|]. by apply sim_becomes.
Qed.

(** ** A small kernel with two disks

    The kernel of the examples of Sched, with the objects of the driver.  The second
    channel has had a command, and its semaphore counts [m]. *)

Lemma add_object_consistent idle o d s :
  consistent idle s → dobjects s !! o = None → WaitListHead d = [] → is_signal (SignalState d) →
  consistent idle (with_dobjects (<[o := d]> (dobjects s)) s).
Proof.
  intros [Hcpu Hi [Hl H1l Hls Hr Ho Hw Ht] [T1 T2 T3 T4 T5]] Hn Hd Hs.
  constructor; [done|done| |]; constructor; try done; cbn.
  - intros o' d'. destruct (decide (o' = o)) as [->|Hne].
    + rewrite lookup_insert_eq. intros [= <-]. rewrite Hd. split; [constructor|]. split; [done|]. split; [by right|].
      intros b Hb. by apply not_elem_of_nil in Hb.
    + rewrite lookup_insert_ne by done. apply Ho.
  - intros t x Hx Hst Hp. destruct (Hw t x Hx Hst Hp) as (o' & d' & E & Hin). exists o', d'. split; [|done].
    rewrite lookup_insert_ne; [done|]. intros ->. congruence.
  - intros t x Hx Hne. specialize (T3 t x Hx Hne). unfold saved_ok in *. destruct (StackPointer x) as [[| |o' i]|]; try done.
    destruct T3 as [Hj [d' Hd']]. split; [done|]. exists d'. cbn. rewrite lookup_insert_ne; [done|]. intros <-. congruence.
Qed.

Definition demo_cpu : prcb :=
  Prcb 0 200 [] 0 {[ DispatcherDataBaseLock := unlocked; ExitThreadLock := SpinLk 0 NULL 0; ProcessorLock := SpinLk 0 NULL 0 ]}
    {[ IdeDpcObject := Dpc DpcObject LowImportance 0 false IdeDpcRoutine_address NULL NULL NULL ]}.

Definition free_mutant : DISPATCHER_HEADER := DHeader [] MutantObject 1 NULL 0.
Definition semaphore (n : Z) : DISPATCHER_HEADER := DHeader [] SemaphoreObject n NULL 100.

Definition with_object (o : addr) (d : DISPATCHER_HEADER) (s : sched) : sched := with_dobjects (<[o := d]> (dobjects s)) s.

Definition demo_kern (m : Z) : sched :=
  with_object (completion_wait 1) (semaphore m) (with_object (lock 1) free_mutant
    (with_object (completion_wait 0) (semaphore 0) (with_object (lock 0) free_mutant
      (with_cpu demo_cpu (demo_sched 0))))).

Definition demo_counts (m : Z) : Z → Z := λ c, if c =? 1 then m else 0.

Lemma demo_kern_ready m : 0 <= m <= 100 → kernel_ready 100 0 200 (demo_counts m) (λ _, NULL) (demo_kern m).
Proof.
  intros Hm. assert (consistent 100 (with_cpu demo_cpu (demo_sched 0))) as H0.
  { destruct (demo_consistent 0 ltac:(lia)) as [_ _ HQ [T1 T2 T3 T4 T5]].
    constructor; [by constructor|cbn; unfold DISPATCH_LEVEL; lia|by apply queues_cpu|by constructor]. }
  constructor.
  - unfold demo_kern, with_object. apply add_object_consistent; [|done|done|cbn; unfold is_signal; lia].
    do 3 (apply add_object_consistent; [|done|done|cbn; unfold is_signal; lia]). exact H0.
  - done.
  - done.
  - eexists. split; [split; [done|]; split; [reflexivity|reflexivity]|done].
  - intros c [->| ->]; eexists; (split; [reflexivity|]); done.
  - intros c [->| ->]; eexists; (split; [reflexivity|]); done.
Qed.

Definition demo_sector (j : Z) : list Z := replicate 256 (0x4100 + j).
Definition demo_sectors : gmap (Z * Z) (list Z) :=
  {[ (0, 0) := demo_sector 0; (0, 1) := demo_sector 1; (0, 2) := demo_sector 2; (0, 3) := demo_sector 3;
     (0, 4) := demo_sector 4; (0, 5) := demo_sector 5; (0, 6) := demo_sector 6; (0, 7) := demo_sector 7 ]}.
Definition demo_ata : ata := Ata 1 1 0 0 0 Idle demo_sectors.

Definition demo_disks (c : Z) : list disk := [Disk c 0 true 8 0 0; Disk c 1 false 0 0 0].

(** Two buffers of two sectors, the first one filled with ones. *)
Definition demo_buffers : Str.memory := map_seqZ 0x8000 (replicate 1024 1 ++ replicate 1024 0).

Definition demo_driver (m : Z) : ide sim :=
  Ide (demo_kern m) (Hal.HalState true 0 [] true []) demo_buffers
    [Channel 0x1f0 46 true (demo_disks 0); Channel 0x170 47 true (demo_disks 1)] (demo_ata, demo_ata).

Lemma demo_driver_ready m : 0 <= m <= 100 → driver_ready 100 0 200 (demo_counts m) (demo_driver m).
Proof.
  intros Hm. constructor; [by apply demo_kern_ready|unfold APC_LEVEL; lia|done|done| | |].
  - constructor; [done| |].
    + intros c [->| ->]; eexists; (split; [reflexivity|]); done.
    + intros c v [->| ->] [->| ->]; eexists; (split; [reflexivity|]); done.
  - intros c [->| ->]; done.
  - intros c [->| ->]; unfold demo_counts; cbn; lia.
Qed.

Lemma demo_mapped B len : 0x8000 <= B → B + Z.of_nat len <= 0x8000 + 2048 → mapped B len demo_buffers.
Proof.
  intros H1 H2 a Ha. unfold demo_buffers. rewrite lookup_map_seqZ, option_guard_True by lia. cbn [mbind option_bind].
  apply lookup_lt_is_Some_2. rewrite length_app, !length_replicate. lia.
Qed.

Lemma demo_is_sector v : 0 <= v < 2 ^ 16 → is_sector (replicate 256 v).
Proof. intros Hv. split; [apply length_replicate|]. by apply Forall_replicate. Qed.

Lemma demo_transfer_request m : transfer_request 0 3 0x8000 2 (Disk 0 0 true 8 0 0) (demo_driver m).
Proof. constructor; [reflexivity|reflexivity|unfold in_range; cbn; lia|unfold buffer_range; lia]. Qed.

Lemma demo_holds m : holds (demo_driver m) 0 3 [demo_sector 3; demo_sector 4].
Proof.
  intros [|[|k]] data Hk; [| |done]; injection Hk as <-; (split; [reflexivity|apply demo_is_sector; lia]).
Qed.



(** The semaphore of the second channel counts 99: the second sector stops the kernel. *)
Lemma idle_channel_stops_witness :
  disk_read no_dpc no_dereference 1 0 0x8000 3 2 (demo_driver 99) = Stop BugCheck.
Proof.
  apply (idle_channel_stops no_dpc no_dereference 1 100 0 3 0x8000 [demo_sector 3; demo_sector 4] (Disk 0 0 true 8 0 0) 0 200
    (demo_counts 99) (demo_driver 99)).
  - apply demo_driver_ready. lia.
  - apply demo_transfer_request.
  - apply demo_mapped; cbn; lia.
  - apply demo_holds.
  - reflexivity.
  - reflexivity.
  - split; [apply Z.leb_le|apply Z.ltb_lt]; reflexivity.
Defined.

(** The sleeps: selecting a device is meant to wait for 400 ns. *)
Example select_does_not_wait : sleep_loops 400 (1000 * 1000 * 1000) = 0.
Proof. reflexivity. Qed.

(** disk_init on the simulated channels, before any set-up: the masters are found
    with their 8 sectors, the slaves are not ATA disks, and the identification of the
    second channel has already left a count in the semaphore of the first one. *)
Definition cold_driver : ide sim :=
  Ide (demo_kern 0) (Hal.HalState true Hal.DEFAULT_PIC_MASK (replicate 32 Hal.DEFAULT_PIC_MASK) true []) demo_buffers
    [Channel 0 0 false []; Channel 0 0 false []] (demo_ata, demo_ata).
Definition cold_traps : Trap.trap (ide sim) :=
  Trap.Trap cold_driver (Trap.table (Trap.blank_gate (λ v, v))) (Trap.table Trap.blank_object) NULL.

Example disk_init_detects :
  match disk_init no_dpc no_dereference 1 (λ v, v) cold_traps with
  | Ok (_, s) =>
      map devices (channels (Trap.world s))
        = [[Disk 0 0 true 8 0 0; Disk 0 1 false 0 0 0]; [Disk 1 0 true 8 0 0; Disk 1 1 false 0 0 0]] ∧
      SignalState <$> dobjects (kern (Trap.world s)) !! completion_wait 0 = Some 1 ∧
      SignalState <$> dobjects (kern (Trap.world s)) !! completion_wait 1 = Some 0
  | Stop _ => False
  end.
Proof. vm_compute. split_and!; reflexivity. Qed.

(** Drive 4 is drive 0 for disk_read, and stops disk_ioctl. *)
Example drives_alias (s : ide sim) :
  disk_read no_dpc no_dereference 1 4 0x8000 3 2 s = disk_read no_dpc no_dereference 1 0 0x8000 3 2 s ∧
  disk_ioctl 4 GET_SECTOR_COUNT 0x8000 s = Stop BugCheck.
Proof. by split. Qed.

(** The sector count of a disk, in the first bytes of the buffer. *)
Example sector_count_stored :
  match disk_ioctl 0 GET_SECTOR_COUNT 0x8400 (demo_driver 0) with
  | Ok (r, s) => r = RES_OK ∧ buffers s !! 0x8400 = Some 8 ∧ buffers s !! 0x8401 = Some 0
  | Stop _ => False
  end.
Proof. vm_compute. split_and!; reflexivity. Qed.
